(* ===== verification/_CoqProject ===== *)
-Q . S2P
Prelude.v
Membank.v
Serial.v
ReadWrite.v
Rbtree.v
Iobus.v
QcowCache.v
Qcow.v
QcowWrite.v
HostMem.v
Virtqueue.v
DiskImage.v
VirtioBlk.v
ThreadPool.v
P9Pdu.v
P9.v
P9Serve.v
UipNet.v
UipFrame.v
UipUdp.v
UipTcp.v
UipCore.v
VirtioNet.v
NetOpt.v
NetDev.v
Msi.v
Pci.v
VirtioPci.v
VirtioMmio.v
VirtioDev.v
Legacy.v
InitList.v
Pause.v
Ipc.v
