(* ===== verification/Prelude.v ===== *)
(** * A verification of the lkvm device models

    lkvm (kvmtool) is a user-space virtual machine monitor for KVM; this fork
    adds the cloning of a running machine ([kvm__fork] in [kvm.c]). The
    development models the parts of the C code that decide what a guest sees:
    its memory layout, the buses that route its port and memory accesses, the
    serial console, the keyboard controller and the clock, PCI configuration space
    and interrupt routes, the disk images behind its block devices, the virtio queues
    and their PCI transport with the block device, the 9p file server and the network
    device on them, the user-mode network stack, and the part of the monitor that
    stops and clones the guest: its thread pool, hook lists, pause protocol and
    command socket. Each definition follows the function of the same
    name in [src/]; C integers are [Z] with the wrap of their width written out
    ([u8] .. [u64], [s32]).

    Files, in order of dependency:

    - [Prelude]: machine integers, bit operations and flags, byte order, byte
      buffers ([slice], [splice]), the result types [res] (a value or an error
      code) and [out] (a value, undefined behaviour, or fuel used up), tactics.
    - [Membank] ([kvm.c], [x86/kvm.c], [include/kvm/kvm.h]): the list of guest
      memory banks. Registration with its overlap check and the merging of
      reserved banks, both address translations, the RAM layout around the
      32-bit gap, and what a fork does to banks and memory slots in the child
      ([kvm__post_copy]) and in the parent ([cleargmap]). The ioctl that installs
      a memory region is a parameter.
    - [Serial] ([hw/serial.c], [term.c]): [Module Term], reading the terminal with
      its escape sequence; then the four 8250 ports as a state machine:
      register reads and writes, transmit and receive FIFOs, the interrupt line,
      console polling, injection of strings, and the mutex that the pre-copy hook
      takes and the post-copy hook releases.
    - [ReadWrite] ([util/read-write.c]): a host file with a script of how the
      kernel answers (short transfers, interruptions, errors), the restarting
      wrappers, the in-full loops and the vectored loops.
    - [Rbtree] ([util/rbtree.c], [include/linux/rbtree_augmented.h]): the kernel's
      red-black tree. Parent pointers are a path of frames (a zipper); a [None]
      is the dereference of a null pointer. [insert], [search] and [erase] are
      the client loops, for a direction function that each client supplies.
    - [Iobus]: [Module IntervalTree] ([util/rbtree-interval.c]); [Module Devices]
      ([devices.c], with the interrupt lines of [irq.c]); [Module Ioport]
      ([ioport.c], [x86/ioport.c]), port registration, emulation and the legacy
      ports; [Module Mmio] ([mmio.c]). Handlers are functions on an abstract
      machine. Both buses use the interval tree, which uses [Rbtree]; a port's
      device header is registered with [Devices].
    - [QcowCache], [Qcow], [QcowWrite] ([disk/qcow.c]): QCOW images. The caches of
      level-2 tables and refcount blocks (tree, map, list in order of use);
      probing, address translation, cluster and sector reads; reference counts,
      allocation, writes, flush and close. File access is [ReadWrite]; zlib,
      [fdatasync]/[fsync] and the contents of fresh memory are parameters. A
      cached node is known by its file offset. [Ub] marks what C leaves undefined
      or what corrupts the heap.
    - [HostMem] ([util/iovec.c]): the memory that guest RAM is mapped into, as a
      map from host addresses to bytes, with loads and stores; the copies through
      vectors of buffers.
    - [Virtqueue] ([virtio/core.c], [include/kvm/virtio.h]): the rings in that
      memory, taking and handing back descriptor chains, event indices, features
      and device status. Addresses in descriptors go through the memory banks of
      [Membank]. The rings' layout is the published one of the system header;
      [vring_need_event] is a parameter with its documented behaviour.
    - [DiskImage] ([disk/core.c], [disk/raw.c]): the operations of a disk image
      behind a table of functions, mapped raw images, QCOW images as a block device
      sees them. The classes [DiskReads] and [DiskWrites] say what an image promises
      of the disk it stands for; the block device is proved against them.
    - [VirtioBlk] ([virtio/blk.c]): the request loop of the block device, over the
      queue of [Virtqueue] and the image of [DiskImage].
    - [ThreadPool] ([util/threadpool.c]): the job queue. The sections that a mutex
      makes atomic are functions; [work] and [step] interleave them for any number
      of threads; [fork_child] is the pool after a fork.
    - [P9Pdu] ([virtio/9p-pdu.c]): the marshalling of 9p messages by format strings,
      through scattered buffers. [P9] ([virtio/9p.c]): the table of fids over
      [Rbtree], the rules for paths, the handlers that concern the server's own
      state, the request loop; the handlers that only pass a call on to the host file
      system are the parameter [fs], [lstat] is a parameter too. [P9Serve] puts them
      together with [Virtqueue].
    - [UipNet], [UipFrame], [UipUdp], [UipTcp], [UipCore] ([net/uip/]): the user-mode
      network stack. Frames as bytes, buffers, checksums, ARP and ping; the headers
      that the host writes; the UDP relay and DHCP; the TCP relay with its sockets in
      a store, one lock, and the receive thread as a machine of program points; the
      entry points over scattered buffers. The host's socket calls are arguments.
    - [VirtioNet], [NetOpt], [NetDev] ([virtio/net.c]): the receive, transmit and
      control threads over [Virtqueue] and a table of back-end operations ([Class
      NetBackend]); the text of the --network option; creation, TAP interface, start
      and stop, vhost and the fork hooks, over an oracle for the kernel.
    - [Msi] ([irq.c], [x86/irq.c]): the table of interrupt routes. [Pci] ([pci.c]):
      the address-space allocator and accesses to configuration space. [VirtioPci]
      ([virtio/pci.c]): the registers, notifications and MSI-X interrupts of a virtio
      device, over [Msi], [Pci] and the operations of a device. [VirtioMmio]
      ([virtio/mmio.c]): the memory-mapped transport, and [Class Transport], what both
      promise.
    - [VirtioDev] ([virtio/console.c], [virtio/rng.c], [virtio/balloon.c]): the small
      devices over [Virtqueue], with the rule of the loop that serves their queues.
    - [Legacy]: [Module I8042] ([hw/i8042.c]), the keyboard controller, and
      [Module Rtc] ([hw/rtc.c]), the clock on the port bus of [Iobus].
    - [InitList] ([util/init.c]): the hook lists by priority, and the hooks that hold
      mutexes across a fork, of [hw/serial.c], [util/threadpool.c] and [kvm-ipc.c].
    - [Pause] ([kvm.c], [kvm-cpu.c]): vCPU threads, the monitor thread in [kvm__pause]
      and device mutexes as one step relation ([pstep]); [fork_vm] is the VM in the
      child.
    - [Ipc] ([kvm-ipc.c]): the messages of the command socket and their handlers,
      over the streams of [ReadWrite].

    What the theorems show:

    - memory: a successful registration keeps the banks disjoint and covers
      exactly what was asked for; the translations are inverse; forking keeps the
      translation of RAM;
    - serial: an invariant of every reachable state, refinement of the receive
      side to a bounded queue, read-back of injected strings, exclusion while a
      copy is taken;
    - trees and buses: the red-black tree refines a finite set with logarithmic
      height; the device registry enumerates in order; a registered device
      answers on exactly its range, on both buses; string I/O is a fold of the
      handler; the port map after initialisation is the table of the set-up code;
    - files: the in-full loops are single atomic transfers whatever the kernel
      does short of a hard error;
    - QCOW: the caches are least-recently-used caches; probing a well-formed file
      establishes the invariant [image_ok], under which reads return the bytes of
      a reference disk computed directly from the file; writes in place keep the
      invariant and change exactly their bytes; allocation is first fit;
    - virtio: the copies write and read exactly the listed addresses; a queue is
      two first-in first-out channels in every run of driver and device; the
      walks return exactly the buffers of a chain, and otherwise leave their
      arrays; interrupts come exactly for the element the guest named; the status
      register drives a two-state specification;
    - block device: a read or write request is carried out over any image that
      keeps its promise, and nothing else of guest memory changes;
    - 9p: encoding and decoding are inverse through any cut of the buffers; below
      2^31 the fid table is a finite map; no path leaves the shared directory;
      requests on the server's own state are answered end to end;
    - network: the buffers of the stack are owned by one side; echo requests, UDP
      datagrams, DHCP requests and the data of a TCP server reach the guest as the
      protocols say; the receive thread hands exactly the packet to the guest, split
      over as many chains as it needs; an ARP exchange goes through both threads and
      the stack; an option text for any parameters is parsed back to them; the
      device's well-formedness is kept by everything, and a fork gives the child a
      device that works;
    - interrupts and PCI: blocks of address space are aligned and disjoint, a driver
      sizes base addresses through the ports; a queue's signal arrives as the message
      in the MSI-X table, whatever the driver did before, when vectors are not shared;
      a driver sees and does the same through either transport of virtio;
    - small devices: the balloon counts, hands back and clears exactly the pages it
      is given; the console prints the offered bytes in order; the entropy device
      fills the offered buffers with what was drawn for each;
    - keyboard and clock: the controller is two bounded queues with the keyboard's
      first; what the guest reads from the clock is the host's time;
    - thread pool: exclusion of callbacks, no lost signals, every run ends with the
      queue worked off;
    - stopping and forking: [kvm__pause] returns and then every vCPU is stopped;
      hooks run by priority whatever the link order and take and give back the same
      mutexes; sessions on the command socket are received as sent and follow a
      two-state specification;
    - the remaining theorems state behaviour that the code should not have, with
      the inputs that show it: each is named in the manifest as a finding.

    Fuel. Loops that are not structural take fuel that is enough: the script
    length plus one for restarted system calls, the byte count for in-full loops,
    the size of the tree for emptying it, twice the length plus one for sector
    reads, the described clusters plus the request for allocation, the length of
    the caller's arrays plus one for descriptor chains, the requests offered plus
    one for the device loops, four levels of nesting for 9p formats, [PATH_MAX]
    plus one for a 9p walk, the messages plus one for a connection, 65 steps for the
    list of PCI capabilities (every position is a multiple of four in 256 bytes), 63
    names of TAP interfaces, the chains plus one for a received packet, the bytes of
    a datagram or option for the loops over them. The theorems
    about these functions include that they return. [NoFuel] also stands for a
    thread that waits for a mutex for ever.

    Not modelled: the SCSI device, whose requests the kernel handles; the x86 set-up
    tables; the parsing of other options and the command-line front ends; other architectures; everything that is a thin layer
    over an operating-system interface (terminals, VFIO, event files, display back
    ends, vCPU register state). Inside the modelled files: allocation failures in
    [disk/qcow.c], device-tree nodes, libaio submission, rb-tree augmentation and
    post-order walks, the 9p handlers that only call the host file system, the epoll
    loop and the socket of [kvm-ipc.c], shutting the thread pool down, the early
    return of [kvm__pause] before the vCPU threads exist. *)
From stdpp Require Export base option list gmap.
From Stdlib Require Export ZArith Lia.
#[export] Set Default Goal Selector "!".
Open Scope Z_scope.

(** ** Machine integers

    A w-bit unsigned C integer is a [Z] in [0 .. 2^w); arithmetic that can
    leave the range is followed by the wrap of its width. *)
Definition wrap (w x : Z) : Z := x mod 2 ^ w.

Abbreviation u8 := (wrap 8).
Abbreviation u16 := (wrap 16).
Abbreviation u32 := (wrap 32).
Abbreviation u64 := (wrap 64).

(** Two's complement reading of the low [w] bits (a C signed integer). *)
Definition swrap (w x : Z) : Z := (x + 2 ^ (w - 1)) mod 2 ^ w - 2 ^ (w - 1).

Abbreviation s32 := (swrap 32).

Definition fits (w x : Z) : Prop := 0 <= x < 2 ^ w.

(** [x & m] as a C condition. *)
Definition flag (x m : Z) : bool := negb (Z.land x m =? 0).

Declare Scope cint_scope.
Delimit Scope cint_scope with cint.
Notation "x '.&' y" := (Z.land x y) (at level 40, left associativity) : cint_scope.
Notation "x '.|' y" := (Z.lor x y) (at level 50, left associativity) : cint_scope.
Notation "x '.&~' y" := (Z.ldiff x y) (at level 40, left associativity) : cint_scope.
Notation "x '.<<' n" := (Z.shiftl x n) (at level 32, left associativity) : cint_scope.
Notation "x '.>>' n" := (Z.shiftr x n) (at level 32, left associativity) : cint_scope.
Open Scope cint_scope.

(** ** Tactics *)

Ltac bsplit :=
  repeat match goal with
  | |- _ /\ _ => split
  | H : _ /\ _ |- _ => destruct H
  | H : exists _, _ |- _ => destruct H
  end.

(** Case analysis on the conditions of the code. *)
Ltac case_ifs :=
  repeat match goal with
  | |- context [if ?b then _ else _] => let E := fresh "E" in destruct b eqn:E
  end.

(** Equality of two ways of bracketing a concatenation. *)
Ltac list_norm :=
  cbn; repeat (rewrite <- app_assoc || rewrite app_nil_r; cbn); reflexivity.

(** Turn boolean comparisons of the context into propositions. *)
Ltac breflect :=
  repeat match goal with
  | H : (_ =? _) = true |- _ => apply Z.eqb_eq in H
  | H : (_ =? _) = false |- _ => apply Z.eqb_neq in H
  | H : (_ <? _) = true |- _ => apply Z.ltb_lt in H
  | H : (_ <? _) = false |- _ => apply Z.ltb_ge in H
  | H : (_ <=? _) = true |- _ => apply Z.leb_le in H
  | H : (_ <=? _) = false |- _ => apply Z.leb_gt in H
  | H : (_ && _)%bool = true |- _ => apply andb_prop in H; destruct H
  | H : (_ && _)%bool = false |- _ => apply andb_false_iff in H
  | H : (_ || _)%bool = false |- _ => apply orb_false_elim in H; destruct H
  | H : (_ || _)%bool = true |- _ => apply orb_prop in H
  | H : negb _ = true |- _ => apply negb_true_iff in H
  | H : negb _ = false |- _ => apply negb_false_iff in H
  end.

(** ** Ranges *)

Create HintDb ranges.

Lemma wrap_fits w x : 0 <= w -> fits w (wrap w x).
Proof. intros. apply Z.mod_pos_bound, Z.pow_pos_nonneg; lia. Qed.

Lemma wrap_id w x : fits w x -> wrap w x = x.
Proof. apply Z.mod_small. Qed.

Lemma wrap_wrap w x : 0 <= w -> wrap w (wrap w x) = wrap w x.
Proof. intros. now apply wrap_id, wrap_fits. Qed.

Lemma wrap_add_l w x y : wrap w (wrap w x + y) = wrap w (x + y).
Proof. apply Zplus_mod_idemp_l. Qed.

Lemma wrap_add_r w x y : wrap w (x + wrap w y) = wrap w (x + y).
Proof. apply Zplus_mod_idemp_r. Qed.

Lemma wrap_sub_l w x y : wrap w (wrap w x - y) = wrap w (x - y).
Proof. apply Zminus_mod_idemp_l. Qed.

Lemma wrap_sub_r w x y : wrap w (x - wrap w y) = wrap w (x - y).
Proof. apply Zminus_mod_idemp_r. Qed.

Lemma swrap_id w x : 0 < w -> - 2 ^ (w - 1) <= x < 2 ^ (w - 1) -> swrap w x = x.
Proof.
  intros Hw H. unfold swrap.
  assert (E : 2 ^ w = 2 * 2 ^ (w - 1)).
  { rewrite <- Z.pow_succ_r by lia. f_equal. lia. }
  rewrite Z.mod_small; lia.
Qed.

Lemma fits_testbit w x i : 0 <= w -> fits w x -> w <= i -> Z.testbit x i = false.
Proof.
  intros Hw H Hi. rewrite <- (Z.mod_small x (2 ^ w)) by exact H.
  apply Z.mod_pow2_bits_high. lia.
Qed.

Lemma fits_of_bits w x : 0 <= w -> 0 <= x ->
  (forall i, w <= i -> Z.testbit x i = false) -> fits w x.
Proof.
  intros Hw Hx H. split; [exact Hx|].
  assert (E : x = x mod 2 ^ w).
  { apply Z.bits_inj'. intros i Hi.
    destruct (Z_lt_ge_dec i w).
    - now rewrite Z.mod_pow2_bits_low by lia.
    - rewrite Z.mod_pow2_bits_high by lia. apply H. lia. }
  rewrite E. apply Z.mod_pos_bound, Z.pow_pos_nonneg; lia.
Qed.

Lemma fits_lor w x y : 0 <= w -> fits w x -> fits w y -> fits w (x .| y).
Proof.
  intros Hw Hx Hy. apply fits_of_bits; [exact Hw| |].
  - apply Z.lor_nonneg; split; [apply Hx|apply Hy].
  - intros i Hi. rewrite Z.lor_spec, !(fits_testbit w) by auto. reflexivity.
Qed.

Lemma fits_land_l w x y : 0 <= w -> fits w x -> fits w (x .& y).
Proof.
  intros Hw Hx. apply fits_of_bits; [exact Hw| |].
  - apply Z.land_nonneg. left. apply Hx.
  - intros i Hi. rewrite Z.land_spec, (fits_testbit w x) by auto. reflexivity.
Qed.

Lemma fits_ldiff w x y : 0 <= w -> fits w x -> fits w (x .&~ y).
Proof.
  intros Hw Hx. apply fits_of_bits; [exact Hw| |].
  - apply Z.ldiff_nonneg. left. apply Hx.
  - intros i Hi. rewrite Z.ldiff_spec, (fits_testbit w x) by auto. reflexivity.
Qed.

Lemma fits_le w x y : fits w x -> 0 <= y <= x -> fits w y.
Proof. unfold fits. lia. Qed.

#[export] Hint Resolve wrap_fits fits_lor fits_land_l fits_ldiff : ranges.
#[export] Hint Extern 2 (fits _ _) => (unfold fits; lia) : ranges.
#[export] Hint Extern 1 (0 <= _) => lia : ranges.

(** ** Single-bit flags *)

Lemma flag_pow2 x k : 0 <= k -> flag x (2 ^ k) = Z.testbit x k.
Proof.
  intros Hk. unfold flag.
  destruct (Z.testbit x k) eqn:E.
  - apply negb_true_iff, Z.eqb_neq. intros H.
    assert (C : Z.testbit (x .& 2 ^ k) k = true).
    { now rewrite Z.land_spec, E, Z.pow2_bits_true by lia. }
    rewrite H, Z.bits_0 in C. discriminate.
  - apply negb_false_iff, Z.eqb_eq. apply Z.bits_inj'. intros i Hi.
    rewrite Z.land_spec, Z.bits_0. destruct (Z.eq_dec i k) as [->|N].
    + now rewrite E.
    + rewrite Z.pow2_bits_false by lia. apply andb_false_r.
Qed.

Lemma ldiff_ldiff x a b : (x .&~ a) .&~ b = x .&~ (a .| b).
Proof.
  apply Z.bits_inj'. intros i Hi. rewrite !Z.ldiff_spec, Z.lor_spec.
  now rewrite negb_orb, andb_assoc.
Qed.

Lemma ldiff_pow2_clear x k : 0 <= k -> Z.testbit x k = false -> x .&~ 2 ^ k = x.
Proof.
  intros Hk E. apply Z.bits_inj'. intros i Hi. rewrite Z.ldiff_spec.
  destruct (Z.eq_dec i k) as [->|N]; [now rewrite E|].
  rewrite Z.pow2_bits_false by lia. apply andb_true_r.
Qed.

Lemma shiftl1_pow2 n : 0 <= n -> 1 .<< n = 2 ^ n.
Proof. intros. rewrite Z.shiftl_mul_pow2 by assumption. lia. Qed.

Lemma land_mask x n : 0 <= n -> x .& ((1 .<< n) - 1) = x mod 2 ^ n.
Proof.
  intros Hn. replace ((1 .<< n) - 1) with (Z.ones n) by (unfold Z.ones; lia).
  now apply Z.land_ones.
Qed.

Lemma ldiff_mask x n : 0 <= n -> x .&~ (2 ^ n - 1) = x - x mod 2 ^ n.
Proof.
  intros Hn. replace (2 ^ n - 1) with (Z.ones n) by (rewrite Z.ones_equiv; lia).
  rewrite Z.ldiff_ones_r, Z.shiftr_div_pow2, Z.shiftl_mul_pow2 by lia.
  pose proof (Z.div_mod x (2 ^ n) ltac:(apply Z.pow_nonzero; lia)). lia.
Qed.

Lemma land_mask' x n : 0 <= n -> x .& (2 ^ n - 1) = x mod 2 ^ n.
Proof. intros Hn. rewrite <- (land_mask x n Hn). now rewrite shiftl1_pow2. Qed.

(** [flag x m] for a literal power of two [m] is a bit test; this tactic
    rewrites every such test and evaluates bit tests of literals. *)
Ltac flag_to_bits_one :=
  match goal with
  | |- context [flag ?x (Zpos ?p)] =>
      let k := eval vm_compute in (Z.log2 (Zpos p)) in
      change (flag x (Zpos p)) with (flag x (2 ^ k));
      rewrite (flag_pow2 x k) by lia
  | H : context [flag ?x (Zpos ?p)] |- _ =>
      let k := eval vm_compute in (Z.log2 (Zpos p)) in
      change (flag x (Zpos p)) with (flag x (2 ^ k)) in H;
      rewrite (flag_pow2 x k) in H by lia
  end.

Ltac eval_bits :=
  repeat match goal with
  | |- context [Z.testbit (Zpos ?p) ?k] =>
      let v := eval vm_compute in (Z.testbit (Zpos p) k) in
      change (Z.testbit (Zpos p) k) with v
  | H : context [Z.testbit (Zpos ?p) ?k] |- _ =>
      let v := eval vm_compute in (Z.testbit (Zpos p) k) in
      change (Z.testbit (Zpos p) k) with v in H
  end.

Create HintDb cbits.
#[export] Hint Rewrite Z.lor_spec Z.land_spec Z.ldiff_spec Z.bits_0
  orb_false_r orb_true_r andb_false_r andb_true_r orb_false_l orb_true_l
  andb_true_l andb_false_l negb_involutive : cbits.

Ltac bits := repeat flag_to_bits_one; repeat (progress (autorewrite with cbits in *; eval_bits; cbn [negb] in *)).

(** ** Byte strings and byte order *)

Definition byte_ok (l : list Z) : Prop := Forall (fits 8) l.

(** A check of [byte_ok] that evaluates. *)
Lemma byte_ok_check l : forallb (fun b => (0 <=? b) && (b <? 256)) l = true -> byte_ok l.
Proof.
  intros H. apply Forall_forall. intros b Hb.
  rewrite forallb_forall in H. specialize (H b ltac:(now apply list_elem_of_In)).
  apply andb_prop in H. destruct H as [H1 H2]. apply Z.leb_le in H1. apply Z.ltb_lt in H2.
  unfold fits. lia.
Qed.

Fixpoint le_enc (n : nat) (x : Z) : list Z :=
  match n with
  | O => []
  | S n => u8 x :: le_enc n (x .>> 8)
  end.

Fixpoint le_dec (l : list Z) : Z :=
  match l with
  | [] => 0
  | b :: l => b + 256 * le_dec l
  end.

Definition be_enc (n : nat) (x : Z) : list Z := rev (le_enc n x).
Definition be_dec (l : list Z) : Z := le_dec (rev l).

Lemma length_le_enc n x : length (le_enc n x) = n.
Proof. revert x. induction n; simpl; auto. Qed.

Lemma le_enc_bytes n x : byte_ok (le_enc n x).
Proof.
  revert x. induction n; intros x; constructor; [|apply IHn].
  apply wrap_fits. lia.
Qed.

Lemma le_dec_enc n x : le_dec (le_enc n x) = wrap (8 * Z.of_nat n) x.
Proof.
  revert x. induction n as [|n IH]; intros x.
  - cbn. unfold wrap. now rewrite Z.mod_1_r.
  - cbn [le_enc le_dec]. rewrite IH. unfold wrap.
    rewrite Z.shiftr_div_pow2 by lia.
    replace (8 * Z.of_nat (S n)) with (8 + 8 * Z.of_nat n) by lia.
    rewrite Z.pow_add_r by lia.
    rewrite (Z.rem_mul_r x (2 ^ 8) (2 ^ (8 * Z.of_nat n))); [lia|lia|].
    apply Z.pow_pos_nonneg; lia.
Qed.

Lemma le_dec_fits l : byte_ok l -> fits (8 * Z.of_nat (length l)) (le_dec l).
Proof.
  induction 1 as [|b l Hb Hl IH]; [cbn; unfold fits; lia|].
  cbn [le_dec length]. unfold fits in *.
  replace (8 * Z.of_nat (S (length l))) with (8 + 8 * Z.of_nat (length l)) by lia.
  rewrite Z.pow_add_r by lia. change (2 ^ 8) with 256 in *. nia.
Qed.

Lemma le_enc_dec l : byte_ok l -> le_enc (length l) (le_dec l) = l.
Proof.
  induction 1 as [|b l Hb Hl IH]; [reflexivity|].
  cbn [length le_enc le_dec]. unfold fits in Hb. change (2 ^ 8) with 256 in Hb.
  f_equal.
  - unfold wrap. change (2 ^ 8) with 256.
    rewrite Z.mul_comm, Z.mod_add by lia. now apply Z.mod_small.
  - rewrite Z.shiftr_div_pow2 by lia. change (2 ^ 8) with 256.
    rewrite Z.mul_comm, Z.div_add by lia.
    rewrite Z.div_small by lia. exact IH.
Qed.

Lemma be_dec_enc n x : be_dec (be_enc n x) = wrap (8 * Z.of_nat n) x.
Proof. unfold be_dec, be_enc. now rewrite rev_involutive, le_dec_enc. Qed.

Lemma length_be_enc n x : length (be_enc n x) = n.
Proof. unfold be_enc. now rewrite length_rev, length_le_enc. Qed.

Lemma be_enc_bytes n x : byte_ok (be_enc n x).
Proof. apply Forall_rev, le_enc_bytes. Qed.

Lemma be_dec_fits l : byte_ok l -> fits (8 * Z.of_nat (length l)) (be_dec l).
Proof.
  intros H. unfold be_dec. rewrite <- length_rev.
  now apply le_dec_fits, Forall_rev.
Qed.

Lemma be_enc_dec l : byte_ok l -> be_enc (length l) (be_dec l) = l.
Proof.
  intros H. unfold be_enc, be_dec.
  rewrite <- (length_rev l), le_enc_dec by (now apply Forall_rev).
  apply rev_involutive.
Qed.

(** ** Memory as byte lists

    [slice off len m] are the [len] bytes at [off]; [splice off data m]
    overwrites the bytes at [off] with [data] ([memcpy] into a buffer). *)
Definition slice (off len : nat) (m : list Z) : list Z := take len (drop off m).

Definition splice (off : nat) (data m : list Z) : list Z :=
  take off m ++ data ++ drop (off + length data) m.

Lemma length_slice off len m :
  (off + len <= length m)%nat -> length (slice off len m) = len.
Proof. intros H. unfold slice. rewrite length_take, length_drop. lia. Qed.

Lemma length_splice off data m :
  (off + length data <= length m)%nat -> length (splice off data m) = length m.
Proof.
  intros H. unfold splice. rewrite !length_app, length_take, length_drop. lia.
Qed.

Lemma slice_splice_same off data m :
  (off + length data <= length m)%nat ->
  slice off (length data) (splice off data m) = data.
Proof.
  intros H. unfold slice, splice.
  rewrite drop_app_length' by (rewrite length_take; lia).
  now rewrite take_app_length.
Qed.

Lemma slice_splice_before off len off' data m :
  (off + len <= off')%nat -> (off' <= length m)%nat ->
  slice off len (splice off' data m) = slice off len m.
Proof.
  intros H H'. unfold slice, splice.
  rewrite <- !(firstn_skipn_comm len off) || rewrite !take_drop_commute.
  f_equal. rewrite take_app_le by (rewrite length_take; lia).
  rewrite take_take. f_equal. lia.
Qed.

Lemma slice_splice_after off len off' data m :
  (off' + length data <= off)%nat -> (off' + length data <= length m)%nat ->
  slice off len (splice off' data m) = slice off len m.
Proof.
  intros H H'. unfold slice, splice. f_equal.
  rewrite app_assoc, drop_app_ge by (rewrite length_app, length_take; lia).
  rewrite drop_drop. f_equal. rewrite length_app, length_take. lia.
Qed.

Lemma slice_bytes off len m : byte_ok m -> byte_ok (slice off len m).
Proof. intros. now apply Forall_take, Forall_drop. Qed.

Lemma splice_bytes off data m : byte_ok data -> byte_ok m -> byte_ok (splice off data m).
Proof.
  intros. unfold splice. apply Forall_app; split; [now apply Forall_take|].
  apply Forall_app; split; [assumption|now apply Forall_drop].
Qed.

(** ** Sums over a list that is updated in one place *)

Section sums.
Context {A : Type} (f : A -> nat).

Lemma sum_split l i x y :
  l !! i = Some x ->
  sum_list_with f l = (sum_list_with f (take i l) + f x + sum_list_with f (drop (S i) l))%nat /\
  sum_list_with f (<[i := y]> l) = (sum_list_with f (take i l) + f y + sum_list_with f (drop (S i) l))%nat.
Proof.
  intros H. pose proof (lookup_lt_Some _ _ _ H). split.
  - rewrite <- (take_drop_middle l i x H) at 1. rewrite sum_list_with_app. cbn. lia.
  - rewrite insert_take_drop by assumption. rewrite sum_list_with_app. cbn. lia.
Qed.

Lemma sum_insert l i x y :
  l !! i = Some x -> (sum_list_with f (<[i := y]> l) + f x = sum_list_with f l + f y)%nat.
Proof. intros H. destruct (sum_split l i x y H). lia. Qed.

Lemma sum_lookup l i x : l !! i = Some x -> (f x <= sum_list_with f l)%nat.
Proof. intros H. destruct (sum_split l i x x H). lia. Qed.

Lemma sum_two l i i' x y :
  i <> i' -> l !! i = Some x -> l !! i' = Some y -> (f x + f y <= sum_list_with f l)%nat.
Proof.
  intros N H H'. destruct (sum_split l i x x H) as [E _]. rewrite E.
  destruct (decide (i' < i)%nat) as [L|L].
  - assert (T : take i l !! i' = Some y) by (rewrite lookup_take_lt by assumption; exact H').
    apply list_elem_of_lookup_2 in T. apply (sum_list_with_in _ f) in T. lia.
  - assert (T : drop (S i) l !! (i' - S i)%nat = Some y)
      by (rewrite lookup_drop; rewrite <- H'; f_equal; lia).
    apply list_elem_of_lookup_2 in T. apply (sum_list_with_in _ f) in T. lia.
Qed.
End sums.

Definition opt_list {A : Type} (o : option A) : list A :=
  match o with Some x => [x] | None => [] end.

(** ** Results of fallible code *)

(** A C function that returns a value or a negative error code. *)
Inductive res (A : Type) : Type :=
| Ok (a : A)
| Err (e : Z).
Arguments Ok {A} a.
Arguments Err {A} e.

(** What a piece of code does: return, reach behaviour that C does not define
    (or that corrupts the heap), or not come back: past the fuel, or waiting for
    ever. *)
Inductive out (A : Type) : Type :=
| Ret (a : A)
| Ub
| NoFuel.
Arguments Ret {A} a.
Arguments Ub {A}.
Arguments NoFuel {A}.

Notation "'let!' p := e 'in' k" :=
  (match e with Ret p => k | Ub => Ub | NoFuel => NoFuel end)
  (at level 200, p pattern, e at level 200, k at level 200,
   format "'[v' 'let!'  p  :=  e  'in' '/' k ']'") : cint_scope.

Definition EPERM : Z := 1.
Definition ENOENT : Z := 2.
Definition EIO : Z := 5.
Definition ENOMEM : Z := 12.
Definition EFAULT : Z := 14.
Definition EEXIST : Z := 17.
Definition EINVAL : Z := 22.
Definition ENOSPC : Z := 28.
