(* ===== verification/Membank.v ===== *)
(** * Guest memory banks (kvm.c, x86/kvm.c)

    The list of memory banks of a VM: registration with overlap detection and
    merging of reserved regions ([kvm__register_mem]), the two address
    translations, the layout of guest RAM ([kvm__init_ram]) and what a forked
    VM does with the banks ([kvm__post_copy], [kvm__post_copy_parent]). *)
From S2P Require Import Prelude.

Definition KVM_MEM_TYPE_RAM : Z := 1.
Definition KVM_MEM_TYPE_DEVICE : Z := 2.
Definition KVM_MEM_TYPE_RESERVED : Z := 4.
Definition KVM_MEM_TYPE_ALL : Z := 7.

Record kvm_mem_bank := mkbank {
  guest_phys_addr : Z;
  host_addr : Z;
  size : Z;
  type : Z;
}.

Definition bank_eqb (a b : kvm_mem_bank) : bool :=
  (guest_phys_addr a =? guest_phys_addr b) && (host_addr a =? host_addr b)
  && (size a =? size b) && (type a =? type b).

(** [struct kvm_userspace_memory_region], the argument of
    [KVM_SET_USER_MEMORY_REGION]. *)
Record memory_region := {
  mr_slot : Z;
  mr_guest_phys_addr : Z;
  mr_memory_size : Z;
  mr_userspace_addr : Z;
}.

(** The part of [struct kvm] the memory code uses; [kvm_slots] records the
    regions handed to the kernel, latest first. *)
Record kvm_mem := mkmem {
  mem_slots : Z;
  ram_size : Z;
  ram_start : Z;
  cleargmap : bool;
  mem_banks : list kvm_mem_bank;
  kvm_slots : list memory_region;
}.

Definition set_banks (k : kvm_mem) (l : list kvm_mem_bank) : kvm_mem :=
  mkmem (mem_slots k) (ram_size k) (ram_start k) (cleargmap k) l (kvm_slots k).

Definition set_slots (k : kvm_mem) (n : Z) (l : list memory_region) : kvm_mem :=
  mkmem n (ram_size k) (ram_start k) (cleargmap k) (mem_banks k) l.

(** Outcome of the overlap loop of [kvm__register_mem]: the banks as the loop
    left them, and whether a merge happened. *)
Inductive scan_result :=
| ScanOverlap (banks : list kvm_mem_bank)
| ScanDone (banks : list kvm_mem_bank) (merged : bool).

(** The loop over [kvm->mem_banks]. [d1 ++ merged ++ d2] are the banks already
    visited, in list order, [merged] the bank the last merge grew. *)
Fixpoint scan (type' : Z) (d1 : list kvm_mem_bank) (merged : option kvm_mem_bank)
    (d2 rest : list kvm_mem_bank) (guest_phys sz : Z) : scan_result :=
  let visited := d1 ++ opt_list merged ++ d2 in
  match rest with
  | [] => ScanDone visited (match merged with Some _ => true | None => false end)
  | bank :: rest' =>
      let bank_end := u64 (guest_phys_addr bank + size bank - 1) in
      let end_ := u64 (guest_phys + sz - 1) in
      if ((bank_end <? guest_phys) || (end_ <? guest_phys_addr bank))%bool then
        match merged with
        | None => scan type' (d1 ++ [bank]) None [] rest' guest_phys sz
        | Some m => scan type' d1 (Some m) (d2 ++ [bank]) rest' guest_phys sz
        end
      else if ((type bank =? KVM_MEM_TYPE_RESERVED)
               && (type' =? KVM_MEM_TYPE_RESERVED))%bool then
        let g := Z.min (guest_phys_addr bank) guest_phys in
        let s := u64 (Z.max bank_end end_ - g + 1) in
        let bank' := mkbank g (host_addr bank) s (type bank) in
        scan type' (d1 ++ d2) (Some bank') [] rest' g s
      else ScanOverlap (visited ++ rest)
  end.

Section Register.
(** [ioctl(vm_fd, KVM_SET_USER_MEMORY_REGION, &mem)]: 0, or the negated
    [errno]. *)
Context (ioctl_set_region : memory_region -> Z).

Definition kvm__register_mem (kvm : kvm_mem) (guest_phys sz userspace_addr type' : Z)
    : Z * kvm_mem :=
  match scan type' [] None [] (mem_banks kvm) guest_phys sz with
  | ScanOverlap l => (- EINVAL, set_banks kvm l)
  | ScanDone l true => (0, set_banks kvm l)
  | ScanDone l false =>
      let bank := mkbank guest_phys userspace_addr sz type' in
      if type' =? KVM_MEM_TYPE_RESERVED then (0, set_banks kvm (bank :: l))
      else
        let mem := {| mr_slot := mem_slots kvm; mr_guest_phys_addr := guest_phys;
                      mr_memory_size := sz; mr_userspace_addr := userspace_addr |} in
        let ret := ioctl_set_region mem in
        if ret <? 0 then
          (ret, set_slots kvm (u32 (mem_slots kvm + 1)) (kvm_slots kvm))
        else
          (0, set_banks (set_slots kvm (u32 (mem_slots kvm + 1)) (mem :: kvm_slots kvm))
                (bank :: l))
  end.

Definition kvm__register_ram (kvm : kvm_mem) (guest_phys sz userspace_addr : Z) :=
  kvm__register_mem kvm guest_phys sz userspace_addr KVM_MEM_TYPE_RAM.

Definition kvm__register_dev_mem (kvm : kvm_mem) (guest_phys sz userspace_addr : Z) :=
  kvm__register_mem kvm guest_phys sz userspace_addr KVM_MEM_TYPE_DEVICE.

Definition kvm__reserve_mem (kvm : kvm_mem) (guest_phys sz : Z) :=
  kvm__register_mem kvm guest_phys sz 0 KVM_MEM_TYPE_RESERVED.

(** x86: [KVM_32BIT_MAX_MEM_SIZE], [KVM_32BIT_GAP_SIZE], [KVM_32BIT_GAP_START]. *)
Definition KVM_32BIT_MAX_MEM_SIZE : Z := 2 ^ 32.
Definition KVM_32BIT_GAP_SIZE : Z := 768 * 2 ^ 20.
Definition KVM_32BIT_GAP_START : Z := KVM_32BIT_MAX_MEM_SIZE - KVM_32BIT_GAP_SIZE.

(** The results of [kvm__register_ram] are ignored, as in the source. *)
Definition kvm__init_ram (kvm : kvm_mem) : kvm_mem :=
  if ram_size kvm <? KVM_32BIT_GAP_START then
    snd (kvm__register_ram kvm 0 (ram_size kvm) (ram_start kvm))
  else
    let k1 := snd (kvm__register_ram kvm 0 KVM_32BIT_GAP_START (ram_start kvm)) in
    let phys_start := KVM_32BIT_MAX_MEM_SIZE in
    snd (kvm__register_ram k1 phys_start (u64 (ram_size k1 - phys_start))
           (u64 (ram_start k1 + phys_start))).

(** The bank part of the child's [kvm__post_copy]: every bank is deleted and
    the RAM banks are registered again with the new VM descriptor. *)
Definition kvm__post_copy_banks (kvm : kvm_mem) : kvm_mem :=
  kvm__init_ram (set_banks kvm []).

Definition kvm__post_copy_parent (kvm : kvm_mem) : Z * kvm_mem :=
  if negb (cleargmap kvm) then (0, kvm)
  else (0, kvm__init_ram (set_banks kvm [])).

(** [kvm__fork], the [cleargmap] block: every slot is replaced by an empty
    region and the slot counter restarts; [None] is [die]. *)
Fixpoint clear_slots (kvm : kvm_mem) (i : Z) (n : nat) : option kvm_mem :=
  match n with
  | O => Some kvm
  | S n' =>
      let mem := {| mr_slot := i; mr_guest_phys_addr := 0; mr_memory_size := 0;
                    mr_userspace_addr := 0 |} in
      if ioctl_set_region mem <? 0 then None
      else clear_slots (set_slots kvm (mem_slots kvm) (mem :: kvm_slots kvm)) (i + 1) n'
  end.

Definition kvm__fork_clear (kvm : kvm_mem) : option kvm_mem :=
  if cleargmap kvm then
    k' ← clear_slots kvm 0 (Z.to_nat (mem_slots kvm));
    Some (set_slots k' 0 (kvm_slots k'))
  else Some kvm.

End Register.

(** [guest_flat_to_host]: [None] is the [NULL] after the warning. *)
Fixpoint flat_to_host (banks : list kvm_mem_bank) (offset : Z) : option Z :=
  match banks with
  | [] => None
  | bank :: banks =>
      let bank_start := guest_phys_addr bank in
      let bank_end := u64 (bank_start + size bank) in
      if ((bank_start <=? offset) && (offset <? bank_end))%bool
      then Some (u64 (host_addr bank + (offset - bank_start)))
      else flat_to_host banks offset
  end.

Definition guest_flat_to_host (kvm : kvm_mem) (offset : Z) : option Z :=
  flat_to_host (mem_banks kvm) offset.

(** [host_to_guest_flat]: 0 when no bank holds the pointer. *)
Fixpoint to_guest_flat (banks : list kvm_mem_bank) (ptr : Z) : Z :=
  match banks with
  | [] => 0
  | bank :: banks =>
      let bank_start := host_addr bank in
      let bank_end := u64 (bank_start + size bank) in
      if ((bank_start <=? ptr) && (ptr <? bank_end))%bool
      then u64 (guest_phys_addr bank + (ptr - bank_start))
      else to_guest_flat banks ptr
  end.

Definition host_to_guest_flat (kvm : kvm_mem) (ptr : Z) : Z :=
  to_guest_flat (mem_banks kvm) ptr.

(** [kvm__for_each_mem_bank]: the callback threads a state; the result is the
    last value the callback returned, [None] when it was never called (the
    source returns an uninitialised variable then). *)
Fixpoint for_each_mem_bank {S : Type} (banks : list kvm_mem_bank) (type' : Z)
    (fun_ : kvm_mem_bank -> S -> Z * S) (ret : option Z) (st : S) : option Z * S :=
  match banks with
  | [] => (ret, st)
  | bank :: banks =>
      if (negb (type' =? KVM_MEM_TYPE_ALL) && negb (flag (type bank) type'))%bool
      then for_each_mem_bank banks type' fun_ ret st
      else
        let '(r, st) := fun_ bank st in
        if negb (r =? 0) then (Some r, st)
        else for_each_mem_bank banks type' fun_ (Some r) st
  end.

(** ** Well-formed bank lists *)

(** A bank of at least one byte that does not pass the end of the 64-bit
    address space, neither on the guest nor on the host side; reserved regions
    have no host memory ([kvm__reserve_mem] passes [NULL]). *)
Definition bank_wf (b : kvm_mem_bank) : Prop :=
  0 <= guest_phys_addr b /\ 0 < size b /\ guest_phys_addr b + size b < 2 ^ 64 /\
  0 <= host_addr b /\ host_addr b + size b < 2 ^ 64 /\
  (type b = KVM_MEM_TYPE_RESERVED -> host_addr b = 0).

Definition disj (g s g' s' : Z) : Prop := g + s <= g' \/ g' + s' <= g.

Definition bank_disj (a b : kvm_mem_bank) : Prop :=
  disj (guest_phys_addr a) (size a) (guest_phys_addr b) (size b).

Fixpoint disjoint_all (l : list kvm_mem_bank) : Prop :=
  match l with
  | [] => True
  | b :: l => Forall (bank_disj b) l /\ disjoint_all l
  end.

Definition banks_ok (l : list kvm_mem_bank) : Prop :=
  Forall bank_wf l /\ disjoint_all l.

Definition covered (l : list kvm_mem_bank) (a : Z) : Prop :=
  Exists (fun b => guest_phys_addr b <= a < guest_phys_addr b + size b) l.

Lemma disjoint_all_app l1 l2 :
  disjoint_all (l1 ++ l2) <->
  disjoint_all l1 /\ disjoint_all l2 /\ Forall (fun b => Forall (bank_disj b) l2) l1.
Proof.
  induction l1 as [|b l1 IH]; simpl.
  - split; [auto|tauto].
  - rewrite Forall_app, IH, Forall_cons. tauto.
Qed.

Lemma bank_disj_sym a b : bank_disj a b -> bank_disj b a.
Proof. unfold bank_disj, disj. tauto. Qed.

Lemma Forall_disj_swap l1 l2 :
  Forall (fun b => Forall (bank_disj b) l2) l1 ->
  Forall (fun b => Forall (bank_disj b) l1) l2.
Proof.
  rewrite !Forall_forall. intros H x Hx. rewrite Forall_forall. intros y Hy.
  apply bank_disj_sym. specialize (H y Hy). rewrite Forall_forall in H. auto.
Qed.

(** The loop's invariant: the visited banks other than the merged one do not
    meet the region, which is the merged bank's range once there is one. *)
Definition scan_inv (d1 : list kvm_mem_bank) (m : option kvm_mem_bank)
    (d2 rest : list kvm_mem_bank) (g s : Z) : Prop :=
  0 <= g /\ 0 < s /\ g + s < 2 ^ 64 /\
  Forall bank_wf ((d1 ++ d2) ++ rest) /\ disjoint_all ((d1 ++ d2) ++ rest) /\
  Forall (fun b => disj g s (guest_phys_addr b) (size b)) (d1 ++ d2) /\
  (m = None -> d2 = []) /\
  (forall b, m = Some b -> guest_phys_addr b = g /\ size b = s /\ bank_wf b).

Lemma u64_end g s : 0 <= g -> 0 < s -> g + s < 2 ^ 64 -> u64 (g + s - 1) = g + s - 1.
Proof. intros. apply wrap_id. unfold fits. lia. Qed.

Lemma scan_inv_skip d1 m d2 bank rest g s d1' d2' :
  scan_inv d1 m d2 (bank :: rest) g s ->
  disj g s (guest_phys_addr bank) (size bank) ->
  (m = None -> d1' = d1 ++ [bank] /\ d2' = []) ->
  (m <> None -> d1' = d1 /\ d2' = d2 ++ [bank]) ->
  scan_inv d1' m d2' rest g s.
Proof.
  intros (Hg & Hs & Hgs & Hwf & Hd & Hf & Hn & Hm) Hdis HN HS.
  assert (E : d1' ++ d2' = (d1 ++ d2) ++ [bank]).
  { destruct m as [b|].
    - destruct HS as [-> ->]; [discriminate|]. now rewrite app_assoc.
    - destruct HN as [-> ->]; [reflexivity|]. rewrite (Hn eq_refl).
      now rewrite !app_nil_r. }
  unfold scan_inv. rewrite E. rewrite <- (app_assoc (d1 ++ d2) [bank]). cbn [app].
  do 5 (split; [assumption|]). split; [|split; [|exact Hm]].
  - apply Forall_app; split; [exact Hf|]. constructor; [exact Hdis|constructor].
  - intros ->. now destruct (HN eq_refl).
Qed.

(** Growing a reserved bank over an overlapping region keeps the invariant:
    the union of two overlapping intervals is an interval and meets no bank
    that meets neither of them. *)
Lemma scan_inv_merge d1 m d2 bank rest g s :
  scan_inv d1 m d2 (bank :: rest) g s ->
  ~ disj g s (guest_phys_addr bank) (size bank) ->
  type bank = KVM_MEM_TYPE_RESERVED ->
  let g' := Z.min (guest_phys_addr bank) g in
  let s' := Z.max (guest_phys_addr bank + size bank) (g + s) - g' in
  scan_inv (d1 ++ d2) (Some (mkbank g' (host_addr bank) s' (type bank))) [] rest g' s'.
Proof.
  intros (Hg & Hs & Hgs & Hwf & Hd & Hf & Hn & Hm) Hov Ht g' s'.
  rewrite Forall_app, Forall_cons in Hwf. destruct Hwf as (W1 & W2 & W3).
  rewrite disjoint_all_app in Hd. cbn [disjoint_all] in Hd.
  destruct Hd as (D1 & [D2 D3] & D4).
  assert (Hr : host_addr bank = 0) by (apply W2, Ht).
  unfold bank_wf in W2. unfold disj in Hov.
  assert (Hb : 0 <= g' /\ 0 < s' /\ g' + s' < 2 ^ 64) by (subst g' s'; lia).
  unfold scan_inv. rewrite app_nil_r.
  split; [lia|]. split; [lia|]. split; [lia|].
  split; [now apply Forall_app|]. split.
  { apply disjoint_all_app. split; [exact D1|]. split; [exact D3|].
    eapply Forall_impl; [exact D4|]. intros x Hx. now inversion Hx. }
  split.
  { rewrite Forall_forall in Hf, D4, W1 |- *. intros x Hx. specialize (Hf x Hx).
    specialize (D4 x Hx). apply Forall_cons in D4. destruct D4 as [D4 _].
    specialize (W1 x Hx). unfold bank_wf in W1. unfold bank_disj, disj in *.
    subst g' s'. lia. }
  split; [discriminate|]. intros b [= <-]. cbn [guest_phys_addr size].
  split; [reflexivity|]. split; [reflexivity|].
  unfold bank_wf. cbn [guest_phys_addr size host_addr type]. lia.
Qed.

Lemma scan_inv_final d1 m d2 g s :
  scan_inv d1 m d2 [] g s -> banks_ok (d1 ++ opt_list m ++ d2).
Proof.
  intros (Hg & Hs & Hgs & Hwf & Hd & Hf & Hn & Hm).
  rewrite app_nil_r in *. destruct m as [b|]; cbn [opt_list app]; [|now split].
  destruct (Hm b eq_refl) as (<- & <- & Hb).
  rewrite Forall_app in Hwf, Hf. rewrite disjoint_all_app in Hd.
  split.
  - apply Forall_app. split; [tauto|]. constructor; tauto.
  - rewrite disjoint_all_app. cbn [disjoint_all]. split; [tauto|]. split; [tauto|].
    apply Forall_forall. intros x Hx. constructor.
    + apply bank_disj_sym. destruct Hf as [Hf _]. rewrite Forall_forall in Hf. now apply Hf.
    + destruct Hd as (_ & _ & Hd). rewrite Forall_forall in Hd. now apply Hd.
Qed.

(** The two comparisons of the loop decide overlap. *)
Lemma scan_cond g s b :
  0 <= g -> 0 < s -> g + s < 2 ^ 64 -> bank_wf b ->
  ((u64 (guest_phys_addr b + size b - 1) <? g)
   || (u64 (g + s - 1) <? guest_phys_addr b))%bool = true <->
  disj g s (guest_phys_addr b) (size b).
Proof.
  intros Hg Hs Hgs (B1 & B2 & B3 & B4).
  rewrite !u64_end by assumption. unfold disj.
  rewrite orb_true_iff, !Z.ltb_lt. lia.
Qed.

Lemma covered_app l1 l2 a : covered (l1 ++ l2) a <-> covered l1 a \/ covered l2 a.
Proof. apply Exists_app. Qed.

(** What the loop computes when it finds no conflict: the visited banks stay
    disjoint; without a merge they are the old banks and none meets the new
    region; with merges the addresses covered are the old ones and the region. *)
Lemma scan_ok type' rest : forall d1 m d2 g s l b,
  scan_inv d1 m d2 rest g s ->
  scan type' d1 m d2 rest g s = ScanDone l b ->
  banks_ok l /\
  (b = false -> l = d1 ++ rest /\ m = None /\
                Forall (fun x => disj g s (guest_phys_addr x) (size x)) l) /\
  (b = true -> forall a, covered l a <->
     covered (d1 ++ opt_list m ++ d2 ++ rest) a \/ g <= a < g + s).
Proof.
  induction rest as [|bank rest IH]; intros d1 m d2 g s l b Hinv Hrun.
  - cbn [scan] in Hrun. injection Hrun as <- <-.
    split; [eapply scan_inv_final; exact Hinv|].
    destruct Hinv as (_ & _ & _ & _ & _ & Hf & Hn & Hm).
    destruct m as [b0|]; (split; [try discriminate|try discriminate]).
    + intros _ a. rewrite app_nil_r, !covered_app. cbn [opt_list].
      destruct (Hm b0 eq_refl) as (<- & <- & _).
      unfold covered at 2 5. rewrite !Exists_cons, !Exists_nil. tauto.
    + intros _. rewrite (Hn eq_refl) in *. cbn [opt_list app]. auto.
  - cbn [scan] in Hrun. pose proof Hinv as (Hg & Hs & Hgs & Hwf & Hd & Hf & Hn & Hm).
    rewrite Forall_app, Forall_cons in Hwf. destruct Hwf as (W1 & W2 & W3).
    pose proof (scan_cond g s bank Hg Hs Hgs W2) as HC.
    destruct (_ || _)%bool eqn:EC.
    + pose proof (proj1 HC eq_refl) as Hdis. destruct m as [m0|].
      * apply IH in Hrun; [|eapply scan_inv_skip; eauto; congruence].
        destruct Hrun as (R1 & R2 & R3). split; [exact R1|]. split.
        -- intros Hb. destruct (R2 Hb) as (_ & [=] & _).
        -- intros Hb a. rewrite (R3 Hb a), <- (app_assoc d2). reflexivity.
      * rewrite (Hn eq_refl) in *. apply IH in Hrun; [|eapply scan_inv_skip; eauto; congruence].
        destruct Hrun as (R1 & R2 & R3). split; [exact R1|]. split.
        -- intros Hb. rewrite <- app_assoc in R2. exact (R2 Hb).
        -- intros Hb a. rewrite (R3 Hb a), <- (app_assoc d1). reflexivity.
    + assert (Hov : ~ disj g s (guest_phys_addr bank) (size bank)).
      { intros C. apply HC in C. discriminate. }
      destruct (_ && _)%bool eqn:ET; [|discriminate]. breflect.
      pose proof (scan_inv_merge _ _ _ _ _ _ _ Hinv Hov ltac:(assumption)) as Hinv'.
      cbv zeta in Hinv'. pose proof W2 as (B1 & B2 & B3 & _).
      rewrite !u64_end in Hrun by assumption.
      set (g' := Z.min (guest_phys_addr bank) g) in *.
      set (s' := Z.max (guest_phys_addr bank + size bank) (g + s) - g') in *.
      replace (u64 _) with s' in Hrun
        by (symmetry; rewrite wrap_id; [|unfold fits]; subst s' g'; lia).
      apply IH in Hrun; [|exact Hinv'].
      destruct Hrun as (R1 & R2 & R3). split; [exact R1|]. split.
      { intros Hb. destruct (R2 Hb) as (_ & [=] & _). }
      intros Hb a. rewrite (R3 Hb a). cbn [opt_list app].
      assert (Hmc : forall m0, m = Some m0 -> guest_phys_addr m0 = g /\ size m0 = s).
      { intros m0 Em. destruct (Hm m0 Em) as (? & ? & _). auto. }
      rewrite <- app_assoc, !covered_app. cbn [opt_list].
      unfold covered at 3. rewrite Exists_cons. fold (covered rest a).
      unfold covered at 7. rewrite Exists_cons. fold (covered rest a).
      cbn [guest_phys_addr size]. unfold disj in Hov.
      assert (Hm' : covered (opt_list m) a -> g <= a < g + s).
      { destruct m as [m0|]; cbn [opt_list]; [|now intros HX; inversion HX].
        destruct (Hmc m0 eq_refl) as [<- <-]. unfold covered.
        rewrite Exists_cons, Exists_nil. tauto. }
      assert (U : g' <= a < g' + s' <->
        (guest_phys_addr bank <= a < guest_phys_addr bank + size bank) \/ g <= a < g + s).
      { subst g' s'. lia. }
      tauto.
Qed.

(** Well-formedness of a literal bank list. *)
Ltac solve_banks :=
  split;
  [ cbn [mem_banks]; repeat (apply Forall_cons; split); try apply Forall_nil;
    unfold bank_wf, KVM_MEM_TYPE_RAM, KVM_MEM_TYPE_DEVICE, KVM_MEM_TYPE_RESERVED; cbn; lia
  | cbn [mem_banks disjoint_all]; repeat split;
    repeat (apply Forall_cons; split); try apply Forall_nil;
    unfold bank_disj, disj; cbn; lia ].

(** ** Registration *)

(** The loop started by [kvm__register_mem] satisfies its invariant. *)
Lemma scan_inv_init l g s : banks_ok l -> 0 <= g -> 0 < s -> g + s < 2 ^ 64 ->
  scan_inv [] None [] l g s.
Proof.
  intros [W D] Hg Hs Hgs. unfold scan_inv. cbn [app].
  do 5 (split; [assumption|]). split; [constructor|]. split; [auto|discriminate].
Qed.

(** C1. A registration that returns 0 keeps the guest ranges of the banks
    pairwise disjoint and well formed, and the guest addresses backed
    afterwards are exactly those backed before and the new region: merging
    reserved regions neither loses nor invents an address. *)
Theorem kvm__register_mem_ok ioctl kvm gp sz ua ty kvm' :
  banks_ok (mem_banks kvm) ->
  bank_wf (mkbank gp ua sz ty) ->
  kvm__register_mem ioctl kvm gp sz ua ty = (0, kvm') ->
  banks_ok (mem_banks kvm') /\
  forall a, covered (mem_banks kvm') a <->
            covered (mem_banks kvm) a \/ gp <= a < gp + sz.
Proof.
  intros Hok Hwf Hrun. unfold kvm__register_mem in Hrun.
  pose proof Hwf as (B1 & B2 & B3 & _). cbn [guest_phys_addr size] in *.
  pose proof (scan_inv_init _ gp sz Hok B1 B2 B3) as Hinv.
  destruct (scan ty [] None [] (mem_banks kvm) gp sz) as [l|l b] eqn:E; [discriminate|].
  destruct (scan_ok _ _ _ _ _ _ _ _ _ Hinv E) as (R1 & R2 & R3).
  destruct b.
  - injection Hrun as <-. split; [exact R1|]. exact (R3 eq_refl).
  - destruct (R2 eq_refl) as (El & _ & Hdis). cbn [app] in El. subst l.
    assert (Hnew : banks_ok (mkbank gp ua sz ty :: mem_banks kvm)).
    { destruct R1 as [W D]. split; [now constructor|]. split; [exact Hdis|exact D]. }
    assert (Hcov : forall a, covered (mkbank gp ua sz ty :: mem_banks kvm) a <->
              covered (mem_banks kvm) a \/ gp <= a < gp + sz).
    { intros a. unfold covered at 1. rewrite Exists_cons.
      cbn [guest_phys_addr size]. fold (covered (mem_banks kvm) a). tauto. }
    destruct (ty =? KVM_MEM_TYPE_RESERVED); [now injection Hrun as <-|].
    destruct (_ <? 0) eqn:Er.
    + injection Hrun as Hr <-. breflect. lia.
    + injection Hrun as <-. now split.
Qed.

Definition ioctl_ok (_ : memory_region) : Z := 0.

Definition demo_mem : kvm_mem :=
  mkmem 1 (2 ^ 28) (2 ^ 40) false
    [mkbank (2 ^ 30) 0 4096 KVM_MEM_TYPE_RESERVED;
     mkbank 0 (2 ^ 40) (2 ^ 28) KVM_MEM_TYPE_RAM;
     mkbank (2 ^ 30 + 8192) 0 4096 KVM_MEM_TYPE_RESERVED] [].

Lemma demo_mem_ok : banks_ok (mem_banks demo_mem).
Proof. unfold demo_mem. solve_banks. Qed.

Lemma kvm__register_mem_ok_witness :
  exists kvm', kvm__reserve_mem ioctl_ok demo_mem (2 ^ 30 + 2048) 8192 = (0, kvm') /\
    mem_banks kvm' = [mkbank 0 (2 ^ 40) (2 ^ 28) KVM_MEM_TYPE_RAM;
                      mkbank (2 ^ 30) 0 12288 KVM_MEM_TYPE_RESERVED] /\
    banks_ok (mem_banks kvm').
Proof.
  eexists. split; [vm_compute; reflexivity|]. split; [reflexivity|].
  apply (kvm__register_mem_ok ioctl_ok demo_mem (2 ^ 30 + 2048) 8192 0
           KVM_MEM_TYPE_RESERVED).
  - exact demo_mem_ok.
  - unfold bank_wf, KVM_MEM_TYPE_RAM, KVM_MEM_TYPE_RESERVED; cbn; lia.
  - vm_compute. reflexivity.
Defined.

Lemma scan_conflict ty rest : ty <> KVM_MEM_TYPE_RESERVED ->
  forall d1 g s, Forall bank_wf rest -> 0 <= g -> 0 < s -> g + s < 2 ^ 64 ->
  Exists (fun b => ~ disj g s (guest_phys_addr b) (size b)) rest ->
  scan ty d1 None [] rest g s = ScanOverlap (d1 ++ rest).
Proof.
  intros Hty. induction rest as [|b rest IH]; intros d1 g s W Hg Hs Hgs HE.
  - inversion HE.
  - apply Forall_cons in W. destruct W as [Wb W]. cbn [scan opt_list app].
    pose proof (scan_cond g s b Hg Hs Hgs Wb) as HC.
    destruct (_ || _)%bool.
    + rewrite IH; auto; [now rewrite <- app_assoc|].
      apply Exists_cons in HE. tauto.
    + destruct (ty =? KVM_MEM_TYPE_RESERVED) eqn:E; [breflect; contradiction|].
      rewrite andb_false_r, app_nil_r. reflexivity.
Qed.

(** A RAM or device region that meets any registered bank is refused with
    [-EINVAL], and a refused request changes nothing. *)
Theorem kvm__register_mem_conflict ioctl kvm gp sz ua ty b :
  banks_ok (mem_banks kvm) ->
  bank_wf (mkbank gp ua sz ty) ->
  ty <> KVM_MEM_TYPE_RESERVED ->
  b ∈ mem_banks kvm ->
  ~ disj gp sz (guest_phys_addr b) (size b) ->
  kvm__register_mem ioctl kvm gp sz ua ty = (- EINVAL, kvm).
Proof.
  intros [W D] (B1 & B2 & B3 & _) Hty Hin Hov. unfold kvm__register_mem.
  cbn [guest_phys_addr size] in *.
  rewrite (scan_conflict ty (mem_banks kvm) Hty); auto.
  - cbn [app]. destruct kvm; reflexivity.
  - apply Exists_exists. eauto.
Qed.

Lemma kvm__register_mem_conflict_witness :
  kvm__register_ram ioctl_ok demo_mem 4096 4096 (2 ^ 41) = (- EINVAL, demo_mem).
Proof.
  apply (kvm__register_mem_conflict ioctl_ok demo_mem 4096 4096 (2 ^ 41) KVM_MEM_TYPE_RAM
           (mkbank 0 (2 ^ 40) (2 ^ 28) KVM_MEM_TYPE_RAM)).
  - exact demo_mem_ok.
  - unfold bank_wf, KVM_MEM_TYPE_RAM, KVM_MEM_TYPE_RESERVED; cbn; lia.
  - discriminate.
  - do 2 constructor.
  - unfold disj. cbn. lia.
Defined.

(** A refused reservation is not without effect: a reserved bank visited
    before the conflicting bank has already been grown over the requested
    region, so the list that [-EINVAL] leaves behind can have overlapping
    banks. *)
Theorem kvm__reserve_mem_partial_merge :
  exists kvm kvm',
    banks_ok (mem_banks kvm) /\
    kvm__reserve_mem ioctl_ok kvm (2 ^ 28 - 4096) 8192 = (- EINVAL, kvm') /\
    ~ banks_ok (mem_banks kvm').
Proof.
  set (l := [mkbank (2 ^ 28) 0 4096 KVM_MEM_TYPE_RESERVED;
             mkbank 0 (2 ^ 40) (2 ^ 28) KVM_MEM_TYPE_RAM]).
  exists (mkmem 1 (2 ^ 28) (2 ^ 40) false l []).
  eexists. split; [|split; [vm_compute; reflexivity|]].
  - subst l. solve_banks.
  - intros [_ [H _]]. cbn in H. apply Forall_cons in H. destruct H as [H _].
    unfold bank_disj, disj in H. cbn in H. lia.
Qed.

(** ** Translation *)

(** Host ranges of the banks are pairwise disjoint (each bank is its own
    mapping, or its own part of one). *)
Fixpoint host_disjoint_all (l : list kvm_mem_bank) : Prop :=
  match l with
  | [] => True
  | b :: l =>
      Forall (fun b' => disj (host_addr b) (size b) (host_addr b') (size b')) l
      /\ host_disjoint_all l
  end.

Definition bank_has (b : kvm_mem_bank) (a : Z) : Prop :=
  guest_phys_addr b <= a < guest_phys_addr b + size b.

Lemma bank_wf_end b : bank_wf b ->
  u64 (guest_phys_addr b + size b) = guest_phys_addr b + size b /\
  u64 (host_addr b + size b) = host_addr b + size b.
Proof. intros (? & ? & ? & ? & ? & _). split; apply wrap_id; unfold fits; lia. Qed.

(** The first bank that holds the address decides; in a disjoint list it is
    the only one. *)
Lemma flat_to_host_in l b a :
  banks_ok l -> b ∈ l -> bank_has b a ->
  flat_to_host l a = Some (host_addr b + (a - guest_phys_addr b)).
Proof.
  intros [W D]. induction l as [|c l IH]; intros Hin Hb; [inversion Hin|].
  apply Forall_cons in W. destruct W as [Wc W]. destruct D as [Dc D].
  cbn [flat_to_host]. destruct (bank_wf_end c Wc) as [-> _].
  apply list_elem_of_In in Hin. destruct Hin as [->|Hin].
  - unfold bank_has in Hb.
    replace (_ && _)%bool with true by (symmetry; apply andb_true_intro; lia).
    rewrite wrap_id; [reflexivity|]. unfold bank_wf in Wc. unfold fits. lia.
  - apply list_elem_of_In in Hin.
    rewrite Forall_forall in Dc. specialize (Dc b Hin).
    unfold bank_disj, disj, bank_has in *.
    replace (_ && _)%bool with false by (symmetry; apply andb_false_iff; lia).
    apply IH; auto.
Qed.

Lemma flat_to_host_none l a : Forall bank_wf l -> ~ covered l a -> flat_to_host l a = None.
Proof.
  induction 1 as [|c l Wc W IH]; intros Hn; [reflexivity|].
  unfold covered in Hn. rewrite Exists_cons in Hn. cbn [flat_to_host].
  destruct (bank_wf_end c Wc) as [-> _].
  replace (_ && _)%bool with false by (symmetry; apply andb_false_iff; lia).
  apply IH. tauto.
Qed.

Lemma to_guest_flat_in l b p :
  Forall bank_wf l -> host_disjoint_all l -> b ∈ l ->
  host_addr b <= p < host_addr b + size b ->
  to_guest_flat l p = guest_phys_addr b + (p - host_addr b).
Proof.
  intros W D. induction l as [|c l IH]; intros Hin Hb; [inversion Hin|].
  apply Forall_cons in W. destruct W as [Wc W]. destruct D as [Dc D].
  cbn [to_guest_flat]. destruct (bank_wf_end c Wc) as [_ ->].
  apply list_elem_of_In in Hin. destruct Hin as [->|Hin].
  - replace (_ && _)%bool with true by (symmetry; apply andb_true_intro; lia).
    rewrite wrap_id; [reflexivity|]. unfold bank_wf in Wc. unfold fits. lia.
  - apply list_elem_of_In in Hin.
    rewrite Forall_forall in Dc. specialize (Dc b Hin). unfold disj in *.
    replace (_ && _)%bool with false by (symmetry; apply andb_false_iff; lia).
    apply IH; auto.
Qed.

(** Translation is total on the backed addresses, undefined elsewhere,
    and the two directions are inverse: a guest address that a bank holds goes
    to that bank's host memory and comes back. *)
Theorem guest_host_roundtrip kvm a :
  banks_ok (mem_banks kvm) -> host_disjoint_all (mem_banks kvm) ->
  (covered (mem_banks kvm) a ->
     exists p, guest_flat_to_host kvm a = Some p /\ host_to_guest_flat kvm p = a) /\
  (~ covered (mem_banks kvm) a -> guest_flat_to_host kvm a = None).
Proof.
  intros Hok Hh. split; intros Hc.
  - apply Exists_exists in Hc. destruct Hc as (b & Hin & Hb).
    eexists. split; [now apply (flat_to_host_in _ b)|].
    unfold host_to_guest_flat. rewrite (to_guest_flat_in _ b); auto; [lia|apply Hok|lia].
  - apply flat_to_host_none; [apply Hok|exact Hc].
Qed.

Lemma guest_host_roundtrip_witness :
  exists p, guest_flat_to_host demo_mem 12345 = Some p /\ host_to_guest_flat demo_mem p = 12345.
Proof.
  set (k := set_banks demo_mem [mkbank 0 (2 ^ 40) (2 ^ 28) KVM_MEM_TYPE_RAM]).
  change (guest_flat_to_host demo_mem 12345) with (guest_flat_to_host k 12345).
  destruct (guest_host_roundtrip k 12345) as [H _].
  - subst k. unfold set_banks, demo_mem. solve_banks.
  - cbn. auto.
  - destruct H as (p & Hp & Hq).
    + apply Exists_cons. left. cbn. lia.
    + exists p. split; [exact Hp|]. cbn in Hp. injection Hp as <-. vm_compute. reflexivity.
Defined.

(** ** Forking *)

(** Where guest RAM lives: at its own offset in the host mapping, with the
    32-bit gap left out. *)
Definition ram_translate (kvm : kvm_mem) (a : Z) : option Z :=
  if ram_size kvm <? KVM_32BIT_GAP_START then
    if (0 <=? a) && (a <? ram_size kvm) then Some (ram_start kvm + a) else None
  else
    if (0 <=? a) && (a <? KVM_32BIT_GAP_START) then Some (ram_start kvm + a)
    else if (KVM_32BIT_MAX_MEM_SIZE <=? a) && (a <? ram_size kvm)
    then Some (ram_start kvm + a) else None.

(** The RAM layout [kvm__arch_init] sets up: below the gap, or with the gap
    inside the mapping. *)
Definition ram_layout (kvm : kvm_mem) : Prop :=
  0 < ram_size kvm /\ 0 <= ram_start kvm /\ ram_start kvm + ram_size kvm < 2 ^ 64 /\
  (ram_size kvm < KVM_32BIT_GAP_START \/ KVM_32BIT_MAX_MEM_SIZE <= ram_size kvm).

Lemma register_ram_fresh ioctl kvm gp sz ua l :
  (forall m, ioctl m = 0) -> mem_banks kvm = l ->
  scan KVM_MEM_TYPE_RAM [] None [] l gp sz = ScanDone l false ->
  mem_banks (snd (kvm__register_ram ioctl kvm gp sz ua)) = mkbank gp ua sz KVM_MEM_TYPE_RAM :: l
  /\ ram_size (snd (kvm__register_ram ioctl kvm gp sz ua)) = ram_size kvm
  /\ ram_start (snd (kvm__register_ram ioctl kvm gp sz ua)) = ram_start kvm.
Proof.
  intros Hio <- Hs. unfold kvm__register_ram, kvm__register_mem. rewrite Hs.
  change (KVM_MEM_TYPE_RAM =? KVM_MEM_TYPE_RESERVED) with false. cbv iota.
  rewrite Hio. cbn. auto.
Qed.

Lemma init_ram_translate ioctl kvm a :
  (forall m, ioctl m = 0) -> mem_banks kvm = [] -> ram_layout kvm ->
  guest_flat_to_host (kvm__init_ram ioctl kvm) a = ram_translate kvm a.
Proof.
  intros Hio Hb (R1 & R2 & R3 & R4).
  unfold kvm__init_ram, ram_translate, guest_flat_to_host.
  unfold KVM_32BIT_GAP_START, KVM_32BIT_GAP_SIZE, KVM_32BIT_MAX_MEM_SIZE in *.
  destruct (ram_size kvm <? _) eqn:E; breflect.
  - destruct (register_ram_fresh ioctl kvm 0 (ram_size kvm) (ram_start kvm) []) as (-> & _);
      [exact Hio|exact Hb|reflexivity|].
    cbn [flat_to_host guest_phys_addr size host_addr].
    rewrite !wrap_id by (unfold fits; lia).
    destruct (_ && _)%bool eqn:Ea; [|reflexivity]. breflect.
    rewrite wrap_id by (unfold fits; lia). f_equal. lia.
  - destruct (register_ram_fresh ioctl kvm 0 (2 ^ 32 - 768 * 2 ^ 20) (ram_start kvm) [])
      as (E1 & E2 & E3); [exact Hio|exact Hb|reflexivity|].
    set (k1 := snd (kvm__register_ram ioctl kvm 0 (2 ^ 32 - 768 * 2 ^ 20) (ram_start kvm))) in *.
    destruct (register_ram_fresh ioctl k1 (2 ^ 32) (u64 (ram_size k1 - 2 ^ 32))
                (u64 (ram_start k1 + 2 ^ 32)) _ Hio E1) as (-> & _).
    { cbn [scan guest_phys_addr size].
      replace (u64 (0 + (2 ^ 32 - 768 * 2 ^ 20) - 1)) with (2 ^ 32 - 768 * 2 ^ 20 - 1) by reflexivity.
      replace (_ || _)%bool with true by reflexivity. reflexivity. }
    rewrite E2, E3. cbn [flat_to_host guest_phys_addr size host_addr].
    rewrite (wrap_id 64 (ram_size kvm - 2 ^ 32)), (wrap_id 64 (ram_start kvm + 2 ^ 32))
      by (unfold fits; lia).
    rewrite (wrap_id 64 (2 ^ 32 + _)) by (unfold fits; lia).
    rewrite (wrap_id 64 (0 + _)) by (unfold fits; lia).
    rewrite (Z.add_comm (2 ^ 32) (_ - _)), Z.sub_add, Z.add_0_l.
    destruct ((2 ^ 32 <=? a) && _)%bool eqn:E4; breflect.
    + destruct ((0 <=? a) && _)%bool eqn:E5; breflect; [lia|].
      rewrite wrap_id by (unfold fits; lia). f_equal. lia.
    + destruct ((0 <=? a) && _)%bool eqn:E5; breflect; [|reflexivity].
      rewrite wrap_id by (unfold fits; lia). f_equal. lia.
Qed.

(** C4. Forking preserves guest RAM: whatever banks the parent had, every
    guest address translates in the child exactly as the RAM layout says, and
    the same holds in a parent that rebuilt its banks after clearing them. *)
Theorem fork_preserves_ram ioctl kvm a :
  (forall m, ioctl m = 0) -> ram_layout kvm ->
  guest_flat_to_host (kvm__post_copy_banks ioctl kvm) a = ram_translate kvm a /\
  (cleargmap kvm = true ->
   guest_flat_to_host (snd (kvm__post_copy_parent ioctl kvm)) a = ram_translate kvm a).
Proof.
  intros Hio HL.
  assert (H : guest_flat_to_host (kvm__init_ram ioctl (set_banks kvm [])) a
              = ram_translate kvm a)
    by now apply (init_ram_translate ioctl (set_banks kvm [])).
  split; [exact H|]. intros C. unfold kvm__post_copy_parent. now rewrite C.
Qed.

Lemma fork_preserves_ram_witness :
  guest_flat_to_host (kvm__post_copy_banks ioctl_ok demo_mem) 4096 = Some (2 ^ 40 + 4096).
Proof.
  destruct (fork_preserves_ram ioctl_ok demo_mem 4096) as [H _].
  - reflexivity.
  - unfold ram_layout, KVM_32BIT_GAP_START, KVM_32BIT_GAP_SIZE, KVM_32BIT_MAX_MEM_SIZE.
    cbn. lia.
  - rewrite H. reflexivity.
Defined.
