(* ===== verification/Serial.v ===== *)
(** * 8250 serial console (hw/serial.c, term.c)

    The emulated UART: its registers and FIFOs, the interrupt line, the port
    handlers, the console poll, and the two hooks that hold the device still
    while the VM is forked. The terminal side ([term_getc], [term_putc]) is the
    first module. *)
From S2P Require Import Prelude.

Module Term.

(** Terminal input: the bytes waiting on the descriptor and the escape state
    ([term_got_escape]); [reboots] counts [kvm__reboot] calls. *)
Record term := mkterm {
  t_in : list Z;
  got_escape : bool;
  reboots : nat;
}.

Definition term_escape_char : Z := 1.

Definition term_readable (t : term) : bool :=
  match t_in t with [] => false | _ => true end.

(** One byte is read; -1 is "no character" (nothing to read, or the escape
    character was swallowed). *)
Definition term_getc (t : term) : Z * term :=
  match t_in t with
  | [] => (-1, t)
  | c :: rest =>
      let reboot := (got_escape t && (c =? 120))%bool in
      let n := if reboot then S (reboots t) else reboots t in
      if (got_escape t && (c =? term_escape_char))%bool then (c, mkterm rest false n)
      else if c =? term_escape_char then (-1, mkterm rest true n)
      else (c, mkterm rest false n)
  end.

(** [term_putc]: [rets] are the results of the successive [write] calls, the
    result is what the function returns and the bytes that went out. [None] is
    a [write] that has not returned yet. *)
Fixpoint term_putc (rets : list Z) (addr : list Z) (cnt num_remaining : Z)
    (out : list Z) : option (Z * list Z) :=
  if num_remaining =? 0 then Some (cnt, out)
  else
    match rets with
    | [] => None
    | ret :: rets =>
        if ret <? 0 then Some (cnt - num_remaining, out)
        else term_putc rets (drop (Z.to_nat ret) addr) cnt (num_remaining - ret)
               (out ++ take (Z.to_nat ret) addr)
    end.

(** [term_getc_iov]: at most one byte lands in the first vector. *)
Definition term_getc_iov (t : term) : Z * option Z * term :=
  let '(c, t') := term_getc t in
  if c <? 0 then (0, None, t') else (1, Some (u8 c), t').

End Term.
Import Term.

(** ** Registers (16550 values of linux/serial_reg.h) *)
Definition FIFO_LEN : Z := 64.
Definition UART_RX : Z := 0.
Definition UART_TX : Z := 0.
Definition UART_IER : Z := 1.
Definition UART_IIR : Z := 2.
Definition UART_FCR : Z := 2.
Definition UART_LCR : Z := 3.
Definition UART_MCR : Z := 4.
Definition UART_LSR : Z := 5.
Definition UART_MSR : Z := 6.
Definition UART_SCR : Z := 7.
Abbreviation UART_IER_RDI := 1.
Abbreviation UART_IER_THRI := 2.
Abbreviation UART_IIR_NO_INT := 1.
Abbreviation UART_IIR_THRI := 2.
Abbreviation UART_IIR_RDI := 4.
Abbreviation UART_IIR_TYPE_BITS := 192.
Abbreviation UART_FCR_CLEAR_RCVR := 2.
Abbreviation UART_FCR_CLEAR_XMIT := 4.
Abbreviation UART_LCR_DLAB := 128.
Abbreviation UART_MCR_LOOP := 16.
Abbreviation UART_MCR_OUT2 := 8.
Abbreviation UART_LSR_DR := 1.
Abbreviation UART_LSR_BI := 16.
Abbreviation UART_LSR_THRE := 32.
Abbreviation UART_LSR_TEMT := 64.
Abbreviation UART_LSR_TX_EMPTY := 96.
Abbreviation UART_MSR_RESET := 176.

Record serial8250_device := mkdev {
  mutex : bool;
  id : Z;
  iobase : Z;
  irq : Z;
  irq_state : Z;
  txcnt : Z;
  rxcnt : Z;
  rxdone : Z;
  txbuf : list Z;
  rxbuf : list Z;
  dll : Z;
  dlm : Z;
  iir : Z;
  ier : Z;
  fcr : Z;
  lcr : Z;
  mcr : Z;
  lsr : Z;
  msr : Z;
  scr : Z;
}.

Definition set_mutex (d : serial8250_device) (v : bool) :=
  mkdev v (id d) (iobase d) (irq d) (irq_state d) (txcnt d) (rxcnt d) (rxdone d) (txbuf d) (rxbuf d) (dll d) (dlm d) (iir d) (ier d) (fcr d) (lcr d) (mcr d) (lsr d) (msr d) (scr d).
Definition set_irq_state (d : serial8250_device) (v : Z) :=
  mkdev (mutex d) (id d) (iobase d) (irq d) v (txcnt d) (rxcnt d) (rxdone d) (txbuf d) (rxbuf d) (dll d) (dlm d) (iir d) (ier d) (fcr d) (lcr d) (mcr d) (lsr d) (msr d) (scr d).
Definition set_txcnt (d : serial8250_device) (v : Z) :=
  mkdev (mutex d) (id d) (iobase d) (irq d) (irq_state d) v (rxcnt d) (rxdone d) (txbuf d) (rxbuf d) (dll d) (dlm d) (iir d) (ier d) (fcr d) (lcr d) (mcr d) (lsr d) (msr d) (scr d).
Definition set_rxcnt (d : serial8250_device) (v : Z) :=
  mkdev (mutex d) (id d) (iobase d) (irq d) (irq_state d) (txcnt d) v (rxdone d) (txbuf d) (rxbuf d) (dll d) (dlm d) (iir d) (ier d) (fcr d) (lcr d) (mcr d) (lsr d) (msr d) (scr d).
Definition set_rxdone (d : serial8250_device) (v : Z) :=
  mkdev (mutex d) (id d) (iobase d) (irq d) (irq_state d) (txcnt d) (rxcnt d) v (txbuf d) (rxbuf d) (dll d) (dlm d) (iir d) (ier d) (fcr d) (lcr d) (mcr d) (lsr d) (msr d) (scr d).
Definition set_txbuf (d : serial8250_device) (v : list Z) :=
  mkdev (mutex d) (id d) (iobase d) (irq d) (irq_state d) (txcnt d) (rxcnt d) (rxdone d) v (rxbuf d) (dll d) (dlm d) (iir d) (ier d) (fcr d) (lcr d) (mcr d) (lsr d) (msr d) (scr d).
Definition set_rxbuf (d : serial8250_device) (v : list Z) :=
  mkdev (mutex d) (id d) (iobase d) (irq d) (irq_state d) (txcnt d) (rxcnt d) (rxdone d) (txbuf d) v (dll d) (dlm d) (iir d) (ier d) (fcr d) (lcr d) (mcr d) (lsr d) (msr d) (scr d).
Definition set_dll (d : serial8250_device) (v : Z) :=
  mkdev (mutex d) (id d) (iobase d) (irq d) (irq_state d) (txcnt d) (rxcnt d) (rxdone d) (txbuf d) (rxbuf d) v (dlm d) (iir d) (ier d) (fcr d) (lcr d) (mcr d) (lsr d) (msr d) (scr d).
Definition set_dlm (d : serial8250_device) (v : Z) :=
  mkdev (mutex d) (id d) (iobase d) (irq d) (irq_state d) (txcnt d) (rxcnt d) (rxdone d) (txbuf d) (rxbuf d) (dll d) v (iir d) (ier d) (fcr d) (lcr d) (mcr d) (lsr d) (msr d) (scr d).
Definition set_iir (d : serial8250_device) (v : Z) :=
  mkdev (mutex d) (id d) (iobase d) (irq d) (irq_state d) (txcnt d) (rxcnt d) (rxdone d) (txbuf d) (rxbuf d) (dll d) (dlm d) v (ier d) (fcr d) (lcr d) (mcr d) (lsr d) (msr d) (scr d).
Definition set_ier (d : serial8250_device) (v : Z) :=
  mkdev (mutex d) (id d) (iobase d) (irq d) (irq_state d) (txcnt d) (rxcnt d) (rxdone d) (txbuf d) (rxbuf d) (dll d) (dlm d) (iir d) v (fcr d) (lcr d) (mcr d) (lsr d) (msr d) (scr d).
Definition set_fcr (d : serial8250_device) (v : Z) :=
  mkdev (mutex d) (id d) (iobase d) (irq d) (irq_state d) (txcnt d) (rxcnt d) (rxdone d) (txbuf d) (rxbuf d) (dll d) (dlm d) (iir d) (ier d) v (lcr d) (mcr d) (lsr d) (msr d) (scr d).
Definition set_lcr (d : serial8250_device) (v : Z) :=
  mkdev (mutex d) (id d) (iobase d) (irq d) (irq_state d) (txcnt d) (rxcnt d) (rxdone d) (txbuf d) (rxbuf d) (dll d) (dlm d) (iir d) (ier d) (fcr d) v (mcr d) (lsr d) (msr d) (scr d).
Definition set_mcr (d : serial8250_device) (v : Z) :=
  mkdev (mutex d) (id d) (iobase d) (irq d) (irq_state d) (txcnt d) (rxcnt d) (rxdone d) (txbuf d) (rxbuf d) (dll d) (dlm d) (iir d) (ier d) (fcr d) (lcr d) v (lsr d) (msr d) (scr d).
Definition set_lsr (d : serial8250_device) (v : Z) :=
  mkdev (mutex d) (id d) (iobase d) (irq d) (irq_state d) (txcnt d) (rxcnt d) (rxdone d) (txbuf d) (rxbuf d) (dll d) (dlm d) (iir d) (ier d) (fcr d) (lcr d) (mcr d) v (msr d) (scr d).
Definition set_scr (d : serial8250_device) (v : Z) :=
  mkdev (mutex d) (id d) (iobase d) (irq d) (irq_state d) (txcnt d) (rxcnt d) (rxdone d) (txbuf d) (rxbuf d) (dll d) (dlm d) (iir d) (ier d) (fcr d) (lcr d) (mcr d) (lsr d) (msr d) v.

(** What the device does to its surroundings, oldest first. *)
Inductive event :=
| Putc (term : Z) (bytes : list Z)
| IrqLine (irq level : Z).

Record world := mkworld {
  tty : term;
  sysrq_pending : Z;
  console_8250 : bool;
  events : list event;
}.

Definition set_tty (w : world) (t : term) : world :=
  mkworld t (sysrq_pending w) (console_8250 w) (events w).
Definition set_sysrq (w : world) (c : Z) : world :=
  mkworld (tty w) c (console_8250 w) (events w).
Definition emit (w : world) (e : event) : world :=
  mkworld (tty w) (sysrq_pending w) (console_8250 w) (events w ++ [e]).

(** [SERIAL_REGS_SETTING] and ttyS0, the only port of the table. *)
Definition ttyS0 : serial8250_device :=
  mkdev false 0 1016 4 0 0 0 0 (replicate 64 0) (replicate 64 0)
    0 0 UART_IIR_NO_INT 0 0 0 UART_MCR_OUT2 UART_LSR_TX_EMPTY UART_MSR_RESET 0.

Definition devices : list serial8250_device := [ttyS0].

(** ** Operations *)

Definition serial8250_flush_tx (d : serial8250_device) (w : world)
    : serial8250_device * world :=
  let d := set_lsr d (lsr d .| UART_LSR_TX_EMPTY) in
  if negb (txcnt d =? 0)
  then (set_txcnt d 0, emit w (Putc (id d) (take (Z.to_nat (txcnt d)) (txbuf d))))
  else (d, w).

(** The interrupt conditions, as [serial8250_update_irq] accumulates them. *)
Definition pending_iir (d : serial8250_device) : Z :=
  (if flag (ier d) UART_IER_RDI && flag (lsr d) UART_LSR_DR then UART_IIR_RDI else 0)
  .| (if flag (ier d) UART_IER_THRI && flag (lsr d) UART_LSR_TEMT then UART_IIR_THRI else 0).

Definition clear_rx (d : serial8250_device) : serial8250_device :=
  if flag (lcr d) UART_FCR_CLEAR_RCVR then
    let d := set_lcr d (lcr d .&~ UART_FCR_CLEAR_RCVR) in
    let d := set_rxdone (set_rxcnt d 0) 0 in
    set_lsr d (lsr d .&~ UART_LSR_DR)
  else d.

Definition clear_tx (d : serial8250_device) : serial8250_device :=
  if flag (lcr d) UART_FCR_CLEAR_XMIT then
    let d := set_lcr d (lcr d .&~ UART_FCR_CLEAR_XMIT) in
    let d := set_txcnt d 0 in
    set_lsr d (lsr d .| UART_LSR_TX_EMPTY)
  else d.

Definition drive_irq (d : serial8250_device) (w : world) : serial8250_device * world :=
  let iir' := pending_iir d in
  let '(d, w) :=
    if iir' =? 0 then
      (set_iir d UART_IIR_NO_INT,
       if negb (irq_state d =? 0) then emit w (IrqLine (irq d) 0) else w)
    else
      (set_iir d iir',
       if irq_state d =? 0 then emit w (IrqLine (irq d) 1) else w) in
  (set_irq_state d iir', w).

Definition serial8250_update_irq (d : serial8250_device) (w : world)
    : serial8250_device * world :=
  let d := clear_tx (clear_rx d) in
  let '(d, w) := drive_irq d w in
  if negb (flag (ier d) UART_IER_THRI) then serial8250_flush_tx d w else (d, w).

(** [dev->rxbuf[dev->rxcnt++] = c; dev->lsr |= UART_LSR_DR]. *)
Definition push_rx (d : serial8250_device) (c : Z) : serial8250_device :=
  let d := set_rxcnt (set_rxbuf d (<[Z.to_nat (rxcnt d) := u8 c]> (rxbuf d))) (rxcnt d + 1) in
  set_lsr d (lsr d .| UART_LSR_DR).

Definition serial8250__sysrq (d : serial8250_device) (w : world)
    : serial8250_device * world :=
  let d := set_lsr d (lsr d .| (UART_LSR_DR .| UART_LSR_BI)) in
  let d := set_rxcnt (set_rxbuf d (<[Z.to_nat (rxcnt d) := u8 (sysrq_pending w)]> (rxbuf d)))
             (rxcnt d + 1) in
  (d, set_sysrq w 0).

(** The read loop of [serial8250__receive]; each turn takes one byte of the
    terminal, so the number of waiting bytes bounds the turns. *)
Fixpoint receive_loop (fuel : nat) (d : serial8250_device) (t : term)
    : serial8250_device * term :=
  match fuel with
  | O => (d, t)
  | S fuel =>
      if term_readable t && (rxcnt d <? FIFO_LEN) then
        let '(c, t) := term_getc t in
        if c <? 0 then (d, t) else receive_loop fuel (push_rx d c) t
      else (d, t)
  end.

Definition serial8250__receive (d : serial8250_device) (w : world) (handle_sysrq : bool)
    : serial8250_device * world :=
  if flag (mcr d) UART_MCR_LOOP then (d, w)
  else if flag (lsr d) UART_LSR_DR || negb (rxcnt d =? 0) then (d, w)
  else if handle_sysrq && negb (sysrq_pending w =? 0) then serial8250__sysrq d w
  else if negb (console_8250 w) then (d, w)
  else
    let '(d, t) := receive_loop (length (t_in (tty w))) d (tty w) in
    (d, set_tty w t).

(** A locked mutex blocks: [None]. *)
Definition mutex_lock (d : serial8250_device) : option serial8250_device :=
  if mutex d then None else Some (set_mutex d true).
Definition mutex_unlock (d : serial8250_device) : serial8250_device := set_mutex d false.

Fixpoint update_consoles_from (i : nat) (l : list serial8250_device) (w : world)
    : option (list serial8250_device * world) :=
  match l with
  | [] => Some ([], w)
  | d :: l =>
      d ← mutex_lock d;
      let '(d, w) := serial8250__receive d w (i =? 0)%nat in
      let '(d, w) := serial8250_update_irq d w in
      '(l, w) ← update_consoles_from (S i) l w;
      Some (mutex_unlock d :: l, w)
  end.

Definition serial8250__update_consoles := update_consoles_from 0.

(** [sysrq] is a [char]; the pending value is compared with 0 only. *)
Definition serial8250__inject_sysrq (w : world) (sysrq : Z) : world := set_sysrq w sysrq.

(** [str] holds the characters before the terminating NUL. *)
Fixpoint inject_loop (str : list Z) (d : serial8250_device) : serial8250_device :=
  match str with
  | [] => d
  | c :: str => if rxcnt d <? FIFO_LEN then inject_loop str (push_rx d c) else d
  end.

Definition serial8250__inject_string (d : serial8250_device) (w : world) (str : list Z)
    : option (serial8250_device * world) :=
  d ← mutex_lock d;
  let '(d, w) := serial8250_update_irq (inject_loop str d) w in
  Some (mutex_unlock d, w).

(** The [UART_TX] case of [serial8250_out]. *)
Definition out_tx (d : serial8250_device) (w : world) (data : Z)
    : serial8250_device * world :=
  if flag (lcr d) UART_LCR_DLAB then (set_dll d data, w)
  else if flag (mcr d) UART_MCR_LOOP then
    (if rxcnt d <? FIFO_LEN then push_rx d data else d, w)
  else if txcnt d <? FIFO_LEN then
    let d := set_txcnt (set_txbuf d (<[Z.to_nat (txcnt d) := data]> (txbuf d))) (txcnt d + 1) in
    let d := set_lsr d (lsr d .&~ UART_LSR_TEMT) in
    let d := if txcnt d =? FIFO_LEN / 2 then set_lsr d (lsr d .&~ UART_LSR_THRE) else d in
    serial8250_flush_tx d w
  else (set_lsr d (lsr d .&~ UART_LSR_TX_EMPTY), w).

(** [data] is the byte the guest wrote. *)
Definition serial8250_out (d : serial8250_device) (w : world) (port data : Z)
    : option (bool * serial8250_device * world) :=
  d ← mutex_lock d;
  let offset := u16 (port - iobase d) in
  let '(ret, d, w) :=
    if offset =? UART_TX then let '(d, w) := out_tx d w data in (true, d, w)
    else if offset =? UART_IER then
      if negb (flag (lcr d) UART_LCR_DLAB) then (true, set_ier d (data .& 15), w)
      else (true, set_dlm d data, w)
    else if offset =? UART_FCR then (true, set_fcr d data, w)
    else if offset =? UART_LCR then (true, set_lcr d data, w)
    else if offset =? UART_MCR then (true, set_mcr d data, w)
    else if offset =? UART_LSR then (true, d, w)
    else if offset =? UART_MSR then (true, d, w)
    else if offset =? UART_SCR then (true, set_scr d data, w)
    else (false, d, w) in
  let '(d, w) := serial8250_update_irq d w in
  Some (ret, mutex_unlock d, w).

(** [data] is the byte the guest's buffer holds; the result's second component
    is the byte it holds afterwards. *)
Definition serial8250_rx (d : serial8250_device) (data : Z) : Z * serial8250_device :=
  if rxdone d =? rxcnt d then (data, d)
  else if flag (lsr d) UART_LSR_BI then (0, set_lsr d (lsr d .&~ UART_LSR_BI))
  else
    let c := default 0 (rxbuf d !! Z.to_nat (rxdone d)) in
    let d := set_rxdone d (rxdone d + 1) in
    if rxcnt d =? rxdone d then
      (c, set_rxdone (set_rxcnt (set_lsr d (lsr d .&~ UART_LSR_DR)) 0) 0)
    else (c, d).

Definition serial8250_in (d : serial8250_device) (w : world) (port data : Z)
    : option (bool * Z * serial8250_device * world) :=
  d ← mutex_lock d;
  let offset := u16 (port - iobase d) in
  let '(ret, data, d) :=
    if offset =? UART_RX then
      if flag (lcr d) UART_LCR_DLAB then (true, dll d, d)
      else let '(data, d) := serial8250_rx d data in (true, data, d)
    else if offset =? UART_IER then
      if flag (lcr d) UART_LCR_DLAB then (true, dlm d, d) else (true, ier d, d)
    else if offset =? UART_IIR then (true, iir d .| UART_IIR_TYPE_BITS, d)
    else if offset =? UART_LCR then (true, lcr d, d)
    else if offset =? UART_MCR then (true, mcr d, d)
    else if offset =? UART_LSR then (true, lsr d, d)
    else if offset =? UART_MSR then (true, msr d, d)
    else if offset =? UART_SCR then (true, scr d, d)
    else (false, data, d) in
  let '(d, w) := serial8250_update_irq d w in
  Some (ret, data, mutex_unlock d, w).

(** Fork hooks: every port is locked before the copy and unlocked after it, in
    the parent and in the child. *)
Fixpoint serial8250__pre_copy (l : list serial8250_device)
    : option (list serial8250_device) :=
  match l with
  | [] => Some []
  | d :: l => d ← mutex_lock d; l ← serial8250__pre_copy l; Some (d :: l)
  end.

Definition serial8250__post_copy (l : list serial8250_device) : list serial8250_device :=
  map mutex_unlock l.

(** ** Invariant *)

Ltac dev_simpl :=
  cbn [set_mutex set_irq_state set_txcnt set_rxcnt set_rxdone set_txbuf set_rxbuf
       set_dll set_dlm set_iir set_ier set_fcr set_lcr set_mcr set_lsr set_scr
       mutex id iobase irq irq_state txcnt rxcnt rxdone txbuf rxbuf
       dll dlm iir ier fcr lcr mcr lsr msr scr
       tty sysrq_pending console_8250 events set_tty set_sysrq emit fst snd] in *.

(** The FIFOs are in bounds and in step with the line status register: the
    data-ready bit is set exactly when unread bytes are there, and between
    operations the transmitter is empty. *)
Record fifo_inv (d : serial8250_device) : Prop := {
  fi_txlen : length (txbuf d) = 64%nat;
  fi_rxlen : length (rxbuf d) = 64%nat;
  fi_rx : 0 <= rxdone d <= rxcnt d;
  fi_rx_max : rxcnt d <= 64;
  fi_rx_empty : rxdone d = rxcnt d -> rxcnt d = 0;
  fi_tx : txcnt d = 0;
  fi_lsr : fits 8 (lsr d);
  fi_dr : Z.testbit (lsr d) 0 = (0 <? rxcnt d);
  fi_thre : Z.testbit (lsr d) 5 = true;
  fi_temt : Z.testbit (lsr d) 6 = true;
}.

(** The interrupt registers agree with the interrupt conditions. *)
Definition irq_inv (d : serial8250_device) : Prop :=
  irq_state d = pending_iir d /\
  iir d = (if pending_iir d =? 0 then UART_IIR_NO_INT else pending_iir d) /\
  Z.testbit (lcr d) 1 = false /\ Z.testbit (lcr d) 2 = false.

(** The level last driven on a line. *)
Definition line_level (n : Z) (l : list event) : Z :=
  foldl (fun acc e => match e with
                      | IrqLine m v => if m =? n then v else acc
                      | Putc _ _ => acc
                      end) 0 l.

Definition line_inv (d : serial8250_device) (w : world) : Prop :=
  line_level (irq d) (events w) = (if irq_state d =? 0 then 0 else 1).

Definition serial_inv (d : serial8250_device) (w : world) : Prop :=
  fifo_inv d /\ irq_inv d /\ line_inv d w.

Lemma line_level_app n l e :
  line_level n (l ++ [e]) =
  match e with
  | IrqLine m v => if m =? n then v else line_level n l
  | Putc _ _ => line_level n l
  end.
Proof. unfold line_level. now rewrite foldl_app. Qed.

(** Two devices that differ only outside the FIFO state. *)
Lemma fifo_inv_ext d d' :
  txbuf d' = txbuf d -> rxbuf d' = rxbuf d -> rxdone d' = rxdone d ->
  rxcnt d' = rxcnt d -> txcnt d' = txcnt d -> lsr d' = lsr d ->
  fifo_inv d -> fifo_inv d'.
Proof.
  intros E1 E2 E3 E4 E5 E6 []. constructor; rewrite ?E1, ?E2, ?E3, ?E4, ?E5, ?E6; auto.
Qed.

Lemma lor_tx_empty d : fifo_inv d -> lsr d .| UART_LSR_TX_EMPTY = lsr d.
Proof.
  intros F. apply Z.bits_inj'. intros i Hi. rewrite Z.lor_spec.
  destruct (Z.eq_dec i 5) as [->|N5]; [now rewrite (fi_thre d F)|].
  destruct (Z.eq_dec i 6) as [->|N6]; [now rewrite (fi_temt d F)|].
  replace (Z.testbit 96 i) with false; [apply orb_false_r|]. symmetry.
  destruct (Z_lt_ge_dec i 7) as [L|L].
  - assert (C : i = 0 \/ i = 1 \/ i = 2 \/ i = 3 \/ i = 4) by lia.
    destruct C as [->|[->|[->|[->| ->]]]]; reflexivity.
  - apply (fits_testbit 7); unfold fits; lia.
Qed.

(** With an empty transmitter the flush does nothing. *)
Lemma flush_tx_noop d w : fifo_inv d ->
  serial8250_flush_tx d w = (d, w).
Proof.
  intros F. unfold serial8250_flush_tx. dev_simpl. rewrite (fi_tx d F), Z.eqb_refl.
  cbn [negb]. rewrite (lor_tx_empty d F). destruct d; reflexivity.
Qed.

Lemma clear_rx_inv d : fifo_inv d -> fifo_inv (clear_rx d).
Proof.
  intros F. unfold clear_rx. destruct (flag _ _); [|exact F].
  destruct F. constructor; dev_simpl; auto; try lia.
  - auto with ranges.
  - bits. reflexivity.
  - bits. assumption.
  - bits. assumption.
Qed.

Lemma clear_tx_inv d : fifo_inv d -> fifo_inv (clear_tx d).
Proof.
  intros F. unfold clear_tx. destruct (flag _ _); [|exact F].
  pose proof (lor_tx_empty d F) as E. destruct F.
  constructor; dev_simpl; rewrite ?E; auto.
Qed.

Lemma clear_lcr d :
  Z.testbit (lcr (clear_tx (clear_rx d))) 1 = false /\
  Z.testbit (lcr (clear_tx (clear_rx d))) 2 = false.
Proof.
  unfold clear_tx, clear_rx.
  destruct (flag (lcr d) UART_FCR_CLEAR_RCVR) eqn:E1; dev_simpl;
    destruct (flag _ UART_FCR_CLEAR_XMIT) eqn:E2; dev_simpl; bits; auto.
Qed.

(** Clearing touches neither the interrupt side nor the identity. *)
Lemma clear_frame d :
  let d' := clear_tx (clear_rx d) in
  irq d' = irq d /\ irq_state d' = irq_state d /\ ier d' = ier d /\ id d' = id d /\
  iobase d' = iobase d /\ mcr d' = mcr d /\ mutex d' = mutex d.
Proof.
  unfold clear_tx, clear_rx.
  destruct (flag (lcr d) UART_FCR_CLEAR_RCVR); dev_simpl;
    destruct (flag _ UART_FCR_CLEAR_XMIT); dev_simpl; auto 10.
Qed.

Lemma pending_iir_ext d d' : ier d' = ier d -> lsr d' = lsr d -> pending_iir d' = pending_iir d.
Proof. unfold pending_iir. now intros -> ->. Qed.

Lemma drive_irq_spec d w : line_inv d w ->
  let '(d', w') := drive_irq d w in
  irq_state d' = pending_iir d /\
  iir d' = (if pending_iir d =? 0 then UART_IIR_NO_INT else pending_iir d) /\
  line_inv d' w' /\
  d' = set_irq_state (set_iir d (iir d')) (irq_state d').
Proof.
  unfold line_inv, drive_irq. intros H. destruct (pending_iir d =? 0) eqn:E;
    destruct (irq_state d =? 0) eqn:E'; dev_simpl; rewrite ?line_level_app, ?Z.eqb_refl, ?E;
    cbn [negb] in *; dev_simpl; rewrite ?line_level_app, ?Z.eqb_refl; auto.
Qed.

Lemma update_irq_inv d w : fifo_inv d -> line_inv d w ->
  let '(d', w') := serial8250_update_irq d w in serial_inv d' w'.
Proof.
  intros F L. unfold serial8250_update_irq.
  pose proof (clear_tx_inv _ (clear_rx_inv _ F)) as F1.
  pose proof (clear_lcr d) as (C1 & C2). pose proof (clear_frame d) as CF. cbv zeta in CF.
  set (d1 := clear_tx (clear_rx d)) in *.
  assert (L1 : line_inv d1 w).
  { unfold line_inv in *. destruct CF as (-> & -> & _). exact L. }
  pose proof (drive_irq_spec d1 w L1) as S. destruct (drive_irq d1 w) as [d2 w2].
  destruct S as (S1 & S2 & S3 & S4).
  assert (F2 : fifo_inv d2) by (rewrite S4; apply (fifo_inv_ext d1); auto).
  assert (I2 : irq_inv d2).
  { assert (P : pending_iir d2 = pending_iir d1) by (apply pending_iir_ext; rewrite S4; reflexivity).
    unfold irq_inv. rewrite P. split; [exact S1|]. split; [exact S2|].
    rewrite S4. dev_simpl. auto. }
  rewrite (flush_tx_noop d2 w2 F2). now destruct (negb _).
Qed.

(** ** Every operation preserves the invariant *)

Lemma line_inv_ext d w d' w' :
  irq d' = irq d -> irq_state d' = irq_state d -> events w' = events w ->
  line_inv d w -> line_inv d' w'.
Proof. unfold line_inv. now intros -> -> ->. Qed.

Lemma push_rx_inv d c : fifo_inv d -> rxcnt d < 64 -> fifo_inv (push_rx d c).
Proof.
  intros [] Hlt. unfold push_rx.
  constructor; dev_simpl; try rewrite length_insert; auto; try lia.
  - auto with ranges.
  - bits. symmetry. apply Z.ltb_lt. lia.
  - bits. assumption.
  - bits. assumption.
Qed.

Lemma sysrq_inv d w : fifo_inv d -> rxcnt d < 64 -> fifo_inv (fst (serial8250__sysrq d w)).
Proof.
  intros [] Hlt. unfold serial8250__sysrq. change (1 .| 16) with 17.
  constructor; dev_simpl; try rewrite length_insert; auto; try lia.
  - auto with ranges.
  - bits. symmetry. apply Z.ltb_lt. lia.
  - bits. assumption.
  - bits. assumption.
Qed.

Lemma push_rx_frame d c :
  irq (push_rx d c) = irq d /\ irq_state (push_rx d c) = irq_state d.
Proof. split; reflexivity. Qed.

Lemma receive_loop_inv fuel : forall d t, fifo_inv d ->
  let '(d', _) := receive_loop fuel d t in
  fifo_inv d' /\ irq d' = irq d /\ irq_state d' = irq_state d.
Proof.
  induction fuel as [|fuel IH]; intros d t F; cbn [receive_loop]; [auto|].
  destruct (_ && _)%bool eqn:E; [|auto]. breflect. unfold FIFO_LEN in *.
  destruct (term_getc t) as [c t']. destruct (c <? 0); [auto|].
  specialize (IH (push_rx d c) t' ltac:(now apply push_rx_inv)).
  destruct (receive_loop fuel (push_rx d c) t') as [d' t'']. exact IH.
Qed.

Lemma inject_loop_inv str : forall d, fifo_inv d ->
  fifo_inv (inject_loop str d) /\ irq (inject_loop str d) = irq d /\
  irq_state (inject_loop str d) = irq_state d.
Proof.
  induction str as [|c str IH]; intros d F; cbn [inject_loop]; [auto|].
  destruct (rxcnt d <? FIFO_LEN) eqn:E; [|auto]. breflect. unfold FIFO_LEN in *.
  destruct (IH (push_rx d c) ltac:(now apply push_rx_inv)) as (? & ? & ?). auto.
Qed.

Lemma receive_inv d w b : fifo_inv d -> line_inv d w ->
  let '(d', w') := serial8250__receive d w b in fifo_inv d' /\ line_inv d' w'.
Proof.
  intros F L. unfold serial8250__receive.
  destruct (flag (mcr d) _); [auto|].
  destruct (_ || _)%bool eqn:E; [auto|]. breflect.
  destruct (b && _)%bool.
  - split; [apply sysrq_inv; [exact F|lia]|]. now apply (line_inv_ext d w).
  - destruct (negb _); [auto|].
    pose proof (receive_loop_inv (length (t_in (tty w))) d (tty w) F) as R.
    destruct (receive_loop _ d (tty w)) as [d' t']. destruct R as (R1 & R2 & R3).
    split; [exact R1|]. now apply (line_inv_ext d w).
Qed.

Lemma rx_inv d data : fifo_inv d ->
  let '(_, d') := serial8250_rx d data in
  fifo_inv d' /\ irq d' = irq d /\ irq_state d' = irq_state d.
Proof.
  intros F. unfold serial8250_rx. destruct (rxdone d =? rxcnt d) eqn:E1; [auto|].
  breflect. destruct F. destruct (flag _ UART_LSR_BI).
  - split; [|auto]. constructor; dev_simpl; auto; [auto with ranges|bits; auto..].
  - dev_simpl. destruct (rxcnt d =? rxdone d + 1) eqn:E2; breflect; (split; [|auto]);
      constructor; dev_simpl; auto; try lia.
    + auto with ranges.
    + bits. reflexivity.
    + bits. assumption.
    + bits. assumption.
Qed.

Lemma out_tx_inv d w data : fifo_inv d -> line_inv d w ->
  let '(d', w') := out_tx d w data in fifo_inv d' /\ line_inv d' w'.
Proof.
  intros F L. unfold out_tx.
  destruct (flag (lcr d) _); [split; [now apply (fifo_inv_ext d)|exact L]|].
  destruct (flag (mcr d) _).
  { destruct (rxcnt d <? FIFO_LEN) eqn:E; breflect; unfold FIFO_LEN in *.
    - split; [now apply push_rx_inv|exact L].
    - auto. }
  rewrite (fi_tx d F). change (0 <? FIFO_LEN) with true. cbv iota zeta. dev_simpl.
  rewrite ?(fi_tx d F). change (0 + 1 =? FIFO_LEN / 2) with false. cbv iota.
  unfold serial8250_flush_tx. dev_simpl. rewrite ?(fi_tx d F).
  change (negb (0 + 1 =? 0)) with true. cbv iota. dev_simpl. destruct F. split.
  - constructor; dev_simpl; rewrite ?length_insert; auto with ranges; bits; auto.
  - unfold line_inv in *. dev_simpl. now rewrite line_level_app.
Qed.

(** One step of the port's life. *)
Inductive serial_step : serial8250_device * world -> serial8250_device * world -> Prop :=
| step_out d w port data r d' w' :
    serial8250_out d w port data = Some (r, d', w') -> serial_step (d, w) (d', w')
| step_in d w port data r v d' w' :
    serial8250_in d w port data = Some (r, v, d', w') -> serial_step (d, w) (d', w')
| step_consoles d w d' w' :
    serial8250__update_consoles [d] w = Some ([d'], w') -> serial_step (d, w) (d', w')
| step_inject_sysrq d w c :
    serial_step (d, w) (d, serial8250__inject_sysrq w c)
| step_inject_string d w str d' w' :
    serial8250__inject_string d w str = Some (d', w') -> serial_step (d, w) (d', w')
| step_pre_copy d w d' :
    serial8250__pre_copy [d] = Some [d'] -> serial_step (d, w) (d', w)
| step_post_copy d w d' :
    serial8250__post_copy [d] = [d'] -> serial_step (d, w) (d', w)
| step_terminal d w t :
    serial_step (d, w) (d, set_tty w t).

Lemma set_mutex_inv d w b : serial_inv d w -> serial_inv (set_mutex d b) w.
Proof.
  intros (F & I & L). split; [now apply (fifo_inv_ext d)|]. split; [exact I|exact L].
Qed.

Lemma mutex_lock_inv d w d' : mutex_lock d = Some d' -> serial_inv d w -> serial_inv d' w.
Proof.
  unfold mutex_lock. destruct (mutex d); [discriminate|]. intros [= <-].
  apply set_mutex_inv.
Qed.

(** The common end of the handlers. *)
Lemma finish_inv d w d' w' : fifo_inv d -> line_inv d w ->
  serial8250_update_irq d w = (d', w') -> serial_inv (mutex_unlock d') w'.
Proof.
  intros F L E. pose proof (update_irq_inv d w F L) as H. rewrite E in H.
  now apply set_mutex_inv.
Qed.

Ltac lock_step H :=
  unfold mutex_lock in H;
  match type of H with
  | context [if mutex ?d then _ else _] =>
      destruct (mutex d) eqn:?; [discriminate|]; cbn [mbind option_bind] in H
  end.

Lemma serial8250_out_inv d w port data r d' w' :
  serial_inv d w -> serial8250_out d w port data = Some (r, d', w') -> serial_inv d' w'.
Proof.
  intros I H. unfold serial8250_out in H. lock_step H.
  pose proof (set_mutex_inv d w true I) as (F & _ & L).
  set (d0 := set_mutex d true) in *. cbv zeta in H.
  assert (G : forall ret d1 w1, fifo_inv d1 -> line_inv d1 w1 ->
    (let '(d, w) := serial8250_update_irq d1 w1 in Some (ret, mutex_unlock d, w))
      = Some (r, d', w') -> serial_inv d' w').
  { intros ret d1 w1 F1 L1 G. destruct (serial8250_update_irq d1 w1) eqn:E.
    injection G as _ <- <-. eapply finish_inv; eauto. }
  pose proof (out_tx_inv d0 w data F L) as T.
  repeat (match type of H with context [if ?b then _ else _] => destruct b end);
    try (destruct (out_tx d0 w data) as [d1 w1]; destruct T);
    (eapply G; [| |exact H]; auto; now apply (fifo_inv_ext d0)).
Qed.

Lemma serial8250_in_inv d w port data r v d' w' :
  serial_inv d w -> serial8250_in d w port data = Some (r, v, d', w') -> serial_inv d' w'.
Proof.
  intros I H. unfold serial8250_in in H. lock_step H.
  pose proof (set_mutex_inv d w true I) as (F & _ & L).
  set (d0 := set_mutex d true) in *. cbv zeta in H.
  assert (G : forall ret data1 d1, fifo_inv d1 -> line_inv d1 w ->
    (let '(d, w) := serial8250_update_irq d1 w in Some (ret, data1, mutex_unlock d, w))
      = Some (r, v, d', w') -> serial_inv d' w').
  { intros ret data1 d1 F1 L1 G. destruct (serial8250_update_irq d1 w) eqn:E.
    injection G as _ _ <- <-. eapply finish_inv; eauto. }
  pose proof (rx_inv d0 data F) as T.
  destruct (serial8250_rx d0 data) as [c d1]. destruct T as (T1 & T2 & T3).
  repeat (match type of H with context [if ?b then _ else _] => destruct b end);
    (eapply G; [| |exact H]; auto; now apply (line_inv_ext d0 w)).
Qed.

Lemma update_consoles_inv d w d' w' :
  serial_inv d w -> serial8250__update_consoles [d] w = Some ([d'], w') -> serial_inv d' w'.
Proof.
  intros I H. unfold serial8250__update_consoles in H. cbn [update_consoles_from] in H.
  lock_step H. pose proof (set_mutex_inv d w true I) as (F & _ & L).
  pose proof (receive_inv (set_mutex d true) w (0 =? 0)%nat F L) as R.
  destruct (serial8250__receive _ _ _) as [d1 w1]. destruct R as [R1 R2].
  destruct (serial8250_update_irq d1 w1) as [d2 w2] eqn:E. injection H as <- <-.
  eapply finish_inv; eauto.
Qed.

Lemma inject_string_inv d w str d' w' :
  serial_inv d w -> serial8250__inject_string d w str = Some (d', w') -> serial_inv d' w'.
Proof.
  intros I H. unfold serial8250__inject_string in H. lock_step H.
  pose proof (set_mutex_inv d w true I) as (F & _ & L).
  destruct (inject_loop_inv str _ F) as (F1 & E1 & E2).
  destruct (serial8250_update_irq _ w) as [d2 w2] eqn:E. injection H as <- <-.
  eapply finish_inv; [exact F1| |exact E]. now apply (line_inv_ext (set_mutex d true) w).
Qed.

Lemma serial_step_inv s s' : serial_step s s' ->
  serial_inv (fst s) (snd s) -> serial_inv (fst s') (snd s').
Proof.
  destruct 1 as [|d w port data r v d' w' H| | | |d w d' H|d w d' H|]; cbn [fst snd]; intros I.
  - eauto using serial8250_out_inv.
  - eauto using serial8250_in_inv.
  - eauto using update_consoles_inv.
  - exact I.
  - eauto using inject_string_inv.
  - cbn in H. lock_step H. injection H as <-. now apply set_mutex_inv.
  - injection H as <-. now apply set_mutex_inv.
  - exact I.
Qed.

Definition world0 : world := mkworld (mkterm [] false 0) 0 true [].

Lemma ttyS0_inv w : events w = [] -> serial_inv ttyS0 w.
Proof.
  intros E. split; [|split].
  - constructor; cbn; try reflexivity; try lia. unfold fits. lia.
  - repeat split; reflexivity.
  - unfold line_inv. now rewrite E.
Qed.

(** C2. In every state the port can reach, whatever the guest writes and reads
    and whatever the terminal and the fork hooks do, the FIFO indices stay
    inside the 64-byte buffers, the data-ready bit is set exactly when unread
    bytes are waiting, the transmitter is empty, and the interrupt line is
    driven high exactly when an enabled interrupt condition holds. *)
Theorem serial_reachable_inv w d' w' :
  events w = [] -> rtc serial_step (ttyS0, w) (d', w') ->
  0 <= rxdone d' <= rxcnt d' /\ rxcnt d' <= 64 /\ txcnt d' = 0 /\
  (flag (lsr d') UART_LSR_DR = true <-> rxdone d' < rxcnt d') /\
  line_level (irq d') (events w') = (if pending_iir d' =? 0 then 0 else 1).
Proof.
  intros E R.
  assert (I : serial_inv d' w').
  { pose proof (ttyS0_inv w E) as I0. revert I0 R.
    change (serial_inv ttyS0 w) with (serial_inv (fst (ttyS0, w)) (snd (ttyS0, w))).
    change (serial_inv d' w') with (serial_inv (fst (d', w')) (snd (d', w'))).
    generalize (ttyS0, w) (d', w'). intros s s' I0 R.
    induction R; eauto using serial_step_inv. }
  destruct I as (F & (I1 & _) & L). unfold line_inv in L. rewrite L, I1. destruct F.
  repeat split; try lia.
  - bits. rewrite fi_dr0. intros H. apply Z.ltb_lt in H. lia.
  - bits. rewrite fi_dr0. intros H. apply Z.ltb_lt. lia.
Qed.

(** ** The receive FIFO as a queue *)

(** The bytes received and not yet read, oldest first. *)
Definition rxq (d : serial8250_device) : list Z :=
  take (Z.to_nat (rxcnt d - rxdone d)) (drop (Z.to_nat (rxdone d)) (rxbuf d)).

Lemma rxq_ext d d' : rxcnt d' = rxcnt d -> rxdone d' = rxdone d -> rxbuf d' = rxbuf d ->
  rxq d' = rxq d.
Proof. unfold rxq. now intros -> -> ->. Qed.

Lemma rxq_length d : fifo_inv d -> length (rxq d) = Z.to_nat (rxcnt d - rxdone d).
Proof.
  intros []. unfold rxq. rewrite length_take, length_drop. lia.
Qed.

Lemma push_rxq d c : fifo_inv d -> rxcnt d < 64 ->
  rxq (push_rx d c) = rxq d ++ [u8 c].
Proof.
  intros [] Hlt. unfold rxq, push_rx. dev_simpl.
  assert (E : Z.to_nat (rxcnt d + 1 - rxdone d) = S (Z.to_nat (rxcnt d - rxdone d))) by lia.
  rewrite E. erewrite take_S_r.
  - f_equal. rewrite drop_insert_ge by lia.
    rewrite take_insert_ge by lia. reflexivity.
  - rewrite lookup_drop.
    replace (_ + _)%nat with (Z.to_nat (rxcnt d)) by lia.
    apply list_lookup_insert_eq. lia.
Qed.

Lemma inject_rxq str : forall d, fifo_inv d ->
  rxq (inject_loop str d) = rxq d ++ take (Z.to_nat (64 - rxcnt d)) (map u8 str).
Proof.
  induction str as [|c str IH]; intros d F; cbn [inject_loop map].
  - now rewrite take_nil, app_nil_r.
  - destruct (rxcnt d <? FIFO_LEN) eqn:E; breflect; unfold FIFO_LEN in *.
    + rewrite IH by now apply push_rx_inv. rewrite push_rxq by auto.
      rewrite <- app_assoc. f_equal. unfold push_rx. dev_simpl.
      replace (Z.to_nat (64 - rxcnt d)) with (S (Z.to_nat (64 - (rxcnt d + 1)))) by lia.
      reflexivity.
    + replace (Z.to_nat (64 - rxcnt d)) with O by lia. now rewrite take_0, app_nil_r.
Qed.

(** Reading pops the oldest byte; on an empty FIFO the guest's buffer keeps
    what it held. *)
Lemma rx_rxq d data : fifo_inv d -> Z.testbit (lsr d) 4 = false ->
  fst (serial8250_rx d data) = hd data (rxq d) /\
  rxq (snd (serial8250_rx d data)) = tl (rxq d).
Proof.
  intros F B. pose proof (rxq_length d F) as L. unfold serial8250_rx.
  destruct (rxdone d =? rxcnt d) eqn:E; breflect.
  - replace (Z.to_nat _) with O in L by lia. apply nil_length_inv in L. now rewrite L.
  - destruct F. bits. rewrite B. dev_simpl.
    destruct (lookup_lt_is_Some_2 (rxbuf d) (Z.to_nat (rxdone d)) ltac:(lia)) as [c Hc].
    rewrite Hc. cbn [default from_option]. unfold id.
    assert (Q : rxq d = c :: take (Z.to_nat (rxcnt d - (rxdone d + 1)))
                         (drop (Z.to_nat (rxdone d + 1)) (rxbuf d))).
    { unfold rxq. rewrite (drop_S _ _ _ Hc).
      replace (Z.to_nat (rxcnt d - rxdone d)) with (S (Z.to_nat (rxcnt d - (rxdone d + 1)))) by lia.
      cbn [take]. do 3 f_equal. lia. }
    rewrite Q. cbn [hd tl].
    destruct (rxcnt d =? rxdone d + 1) eqn:E2; breflect; dev_simpl; (split; [reflexivity|]).
    + replace (Z.to_nat (rxcnt d - (rxdone d + 1))) with O by lia. reflexivity.
    + reflexivity.
Qed.

(** With no clear request in the line control register, the interrupt update
    changes the interrupt registers only. *)
Lemma update_irq_clean d w : fifo_inv d ->
  Z.testbit (lcr d) 1 = false -> Z.testbit (lcr d) 2 = false ->
  exists i s w', serial8250_update_irq d w = (set_irq_state (set_iir d i) s, w') /\
    sysrq_pending w' = sysrq_pending w /\ tty w' = tty w.
Proof.
  intros F C1 C2. unfold serial8250_update_irq, clear_rx. bits. rewrite C1.
  unfold clear_tx. bits. rewrite C2.
  assert (D : exists i s w', drive_irq d w = (set_irq_state (set_iir d i) s, w') /\
    sysrq_pending w' = sysrq_pending w /\ tty w' = tty w).
  { unfold drive_irq. destruct (pending_iir d =? 0), (irq_state d =? 0);
      cbn [negb]; do 3 eexists; (split; [reflexivity|]); split; reflexivity. }
  destruct D as (i & s & w' & -> & D). rewrite flush_tx_noop by now apply (fifo_inv_ext d).
  exists i, s, w'. split; [now destruct (negb _)|exact D].
Qed.

(** The port can be used as a plain byte stream: unlocked, divisor latch and
    break condition off. *)
Definition streaming (d : serial8250_device) : Prop :=
  mutex d = false /\ Z.testbit (lcr d) 7 = false /\ Z.testbit (lsr d) 4 = false.

Lemma inject_loop_frame str : forall d,
  lcr (inject_loop str d) = lcr d /\ mutex (inject_loop str d) = mutex d /\
  iobase (inject_loop str d) = iobase d /\
  Z.testbit (lsr (inject_loop str d)) 4 = Z.testbit (lsr d) 4.
Proof.
  induction str as [|c str IH]; intros d; cbn [inject_loop]; [auto|].
  destruct (_ <? _); [|auto]. destruct (IH (push_rx d c)) as (-> & -> & -> & ->).
  unfold push_rx. dev_simpl. bits. auto.
Qed.

Lemma serial_rx_refines_queue_inject d w str :
  serial_inv d w -> streaming d ->
  exists d' w', serial8250__inject_string d w str = Some (d', w') /\
     streaming d' /\ iobase d' = iobase d /\
     rxq d' = rxq d ++ take (Z.to_nat (64 - rxcnt d)) (map u8 str).
Proof.
  intros (F & (_ & _ & C1 & C2) & L) (S1 & S2 & S3).
  assert (F0 : fifo_inv (set_mutex d true)) by now apply (fifo_inv_ext d).
  unfold serial8250__inject_string, mutex_lock. rewrite S1. cbn [mbind option_bind].
  destruct (inject_loop_inv str _ F0) as (F1 & _).
  destruct (inject_loop_frame str (set_mutex d true)) as (G1 & G2 & G3 & G4).
  destruct (update_irq_clean _ w F1) as (i & s & w' & -> & _); [now rewrite G1..|].
  do 2 eexists. split; [reflexivity|]. split; [|split].
  - unfold streaming, mutex_unlock. dev_simpl. rewrite G1, G4. auto.
  - exact G3.
  - etransitivity; [|exact (inject_rxq str (set_mutex d true) F0)]. now apply rxq_ext.
Qed.

Lemma serial_rx_refines_queue_rx d w data :
  serial_inv d w -> streaming d ->
  exists d' w', serial8250_in d w (iobase d) data = Some (true, hd data (rxq d), d', w') /\
     streaming d' /\ iobase d' = iobase d /\ rxq d' = tl (rxq d).
Proof.
  intros (F & (_ & _ & C1 & C2) & L) (S1 & S2 & S3).
  assert (F0 : fifo_inv (set_mutex d true)) by now apply (fifo_inv_ext d).
  unfold serial8250_in, mutex_lock. rewrite S1. cbn [mbind option_bind]. dev_simpl.
  rewrite Z.sub_diag. change (u16 0 =? UART_RX) with true. cbv iota zeta.
  bits. rewrite S2.
  destruct (rx_rxq (set_mutex d true) data F0 S3) as (R1 & R2).
  pose proof (rx_inv (set_mutex d true) data F0) as RI.
  assert (RF : lcr (snd (serial8250_rx (set_mutex d true) data)) = lcr d /\
    iobase (snd (serial8250_rx (set_mutex d true) data)) = iobase d /\
    Z.testbit (lsr (snd (serial8250_rx (set_mutex d true) data))) 4 = false).
  { unfold serial8250_rx. dev_simpl. bits. rewrite S3.
    destruct (_ =? _); [auto|]. destruct (_ =? _); dev_simpl; bits; auto. }
  destruct (serial8250_rx (set_mutex d true) data) as [c d1]. dev_simpl.
  destruct RI as (F1 & _). destruct RF as (G1 & G2 & G3).
  destruct (update_irq_clean d1 w F1) as (i & s & w' & -> & _); [now rewrite G1..|].
  do 2 eexists. split; [rewrite R1; reflexivity|]. split; [|split].
  - unfold streaming, mutex_unlock. dev_simpl. rewrite G1. auto.
  - exact G2.
  - etransitivity; [|exact R2]. now apply rxq_ext.
Qed.

(** C3. The receive side refines a bounded queue: injecting a string appends
    the longest prefix that fits in 64 bytes, and a read of the receive
    register pops the oldest byte (an empty queue leaves the guest's buffer
    alone). *)
Theorem serial_rx_refines_queue d w str data :
  serial_inv d w -> streaming d ->
  (exists d' w', serial8250__inject_string d w str = Some (d', w') /\
     streaming d' /\ iobase d' = iobase d /\
     rxq d' = rxq d ++ take (Z.to_nat (64 - rxcnt d)) (map u8 str)) /\
  (exists d' w', serial8250_in d w (iobase d) data = Some (true, hd data (rxq d), d', w') /\
     streaming d' /\ iobase d' = iobase d /\ rxq d' = tl (rxq d)).
Proof.
  intros I S. split.
  - now apply serial_rx_refines_queue_inject.
  - now apply serial_rx_refines_queue_rx.
Qed.

Lemma serial_rx_refines_queue_witness :
  exists d' w', serial8250__inject_string ttyS0 world0 [104; 105] = Some (d', w') /\
    rxq d' = [104; 105].
Proof.
  destruct (serial_rx_refines_queue ttyS0 world0 [104; 105] 0) as [H _].
  - now apply ttyS0_inv.
  - repeat split.
  - destruct H as (d' & w' & E & _ & _ & Q). exists d', w'. split; [exact E|exact Q].
Defined.

Lemma serial_reachable_inv_witness :
  exists d' w', rtc serial_step (ttyS0, world0) (d', w') /\ rxcnt d' <= 64.
Proof.
  destruct (serial8250__inject_string ttyS0 world0 [104; 105]) as [[d' w']|] eqn:E;
    [|vm_compute in E; discriminate].
  exists d', w'.
  assert (R : rtc serial_step (ttyS0, world0) (d', w')).
  { eapply rtc_l; [exact (step_inject_string _ _ _ _ _ E)|apply rtc_refl]. }
  split; [exact R|].
  destruct (serial_reachable_inv world0 d' w' eq_refl R) as (_ & H & _). exact H.
Defined.

(** [n] reads of the receive register into a zeroed buffer. *)
Fixpoint read_rx (n : nat) (d : serial8250_device) (w : world)
    : option (list Z * serial8250_device * world) :=
  match n with
  | O => Some ([], d, w)
  | S n =>
      '(_, c, d, w) ← serial8250_in d w (iobase d) 0;
      '(l, d, w) ← read_rx n d w;
      Some (c :: l, d, w)
  end.

Lemma read_rx_queue n : forall d w, serial_inv d w -> streaming d ->
  length (rxq d) = n ->
  exists d' w', read_rx n d w = Some (rxq d, d', w') /\ serial_inv d' w' /\ rxq d' = [].
Proof.
  induction n as [|n IH]; intros d w I S L.
  - apply nil_length_inv in L. rewrite L. now exists d, w.
  - destruct (serial_rx_refines_queue_rx d w 0 I S) as (d1 & w1 & E & S1 & _ & Q).
    cbn [read_rx]. rewrite E. cbn [mbind option_bind].
    destruct (rxq d) as [|c q] eqn:Eq; [discriminate|]. cbn [hd tl length] in *.
    destruct (IH d1 w1) as (d2 & w2 & E2 & I2 & Q2).
    { eauto using serial8250_in_inv. }
    { exact S1. }
    { rewrite Q. lia. }
    rewrite E2. exists d2, w2. cbn [mbind option_bind]. now rewrite Q.
Qed.

(** A command injected into an idle console reaches the guest: injecting
    at most 64 bytes into an empty receive FIFO and reading the receive
    register as many times returns exactly those bytes, in order, and leaves
    the FIFO empty with the data-ready bit clear. This is how a forked VM is
    told its new address. *)
Theorem inject_string_read_back d w str :
  serial_inv d w -> streaming d -> rxcnt d = 0 ->
  byte_ok str -> (length str <= 64)%nat ->
  exists d1 w1 d2 w2,
    serial8250__inject_string d w str = Some (d1, w1) /\
    read_rx (length str) d1 w1 = Some (str, d2, w2) /\
    rxq d2 = [] /\ flag (lsr d2) UART_LSR_DR = false.
Proof.
  intros I S R B Hlen.
  destruct (serial_rx_refines_queue_inject d w str I S) as (d1 & w1 & E & S1 & _ & Q).
  assert (Q0 : rxq d = []).
  { apply nil_length_inv. rewrite rxq_length by apply I.
    destruct I as [[] _]. lia. }
  assert (M : map u8 str = str).
  { clear - B. induction B as [|c l Hc Hl IH]; [reflexivity|]. cbn. f_equal; [|exact IH].
    now apply wrap_id. }
  rewrite Q0, M, R in Q. cbn [app] in Q.
  rewrite take_ge in Q by lia.
  assert (I1 : serial_inv d1 w1) by eauto using inject_string_inv.
  destruct (read_rx_queue (length str) d1 w1 I1 S1) as (d2 & w2 & E2 & I2 & Q2).
  { now rewrite Q. }
  exists d1, w1, d2, w2. rewrite E2, Q. split; [exact E|]. split; [reflexivity|].
  split; [exact Q2|]. destruct I2 as [F2 _].
  pose proof (rxq_length d2 F2) as L2. rewrite Q2 in L2. destruct F2. bits.
  rewrite fi_dr0. apply Z.ltb_ge. cbn in L2. lia.
Qed.

(** The command the child injects for octet 7: "\n/root/vminit.sh 7\n". *)
Definition vminit_command : list Z :=
  [10; 47; 114; 111; 111; 116; 47; 118; 109; 105; 110; 105; 116; 46; 115; 104; 32; 55; 10].

Lemma inject_string_read_back_witness :
  exists d1 w1 d2 w2,
    serial8250__inject_string ttyS0 world0 vminit_command = Some (d1, w1) /\
    read_rx 19 d1 w1 = Some (vminit_command, d2, w2) /\ rxq d2 = [].
Proof.
  destruct (inject_string_read_back ttyS0 world0 vminit_command) as (d1 & w1 & d2 & w2 & H).
  - now apply ttyS0_inv.
  - repeat split.
  - reflexivity.
  - unfold byte_ok, vminit_command. repeat (constructor; [unfold fits; lia|]). constructor.
  - cbn. lia.
  - exists d1, w1, d2, w2. tauto.
Defined.

(** ** Line control *)

Lemma clear_lcr_spec d :
  lcr (clear_tx (clear_rx d)) = lcr d .&~ 6 /\
  (flag (lcr d) UART_FCR_CLEAR_RCVR = true -> rxq (clear_tx (clear_rx d)) = []).
Proof.
  pose proof (ldiff_pow2_clear (lcr d) 1 ltac:(lia)) as H2.
  pose proof (ldiff_pow2_clear (lcr d) 2 ltac:(lia)) as H4.
  pose proof (fun x => flag_pow2 x 1 ltac:(lia)) as P1.
  pose proof (fun x => flag_pow2 x 2 ltac:(lia)) as P2.
  change (2 ^ 1) with 2 in *. change (2 ^ 2) with 4 in *.
  change 6 with (2 .| 4). rewrite <- ldiff_ldiff. unfold clear_tx, clear_rx.
  rewrite !P1. destruct (Z.testbit (lcr d) 1) eqn:E1; dev_simpl;
    rewrite !P2, ?Z.ldiff_spec; change (Z.testbit 2 2) with false;
    cbn [negb]; rewrite ?andb_true_r; destruct (Z.testbit (lcr d) 2) eqn:E2; dev_simpl;
    rewrite ?(H2 eq_refl), ?(H4 eq_refl); split; auto; try discriminate.
  rewrite <- (H4 eq_refl) at 1. rewrite !ldiff_ldiff. f_equal.
Qed.

(** The FIFO-clear bits are looked for in the line control register:
    a guest that writes [v] there, with the receive-clear bit set (as every
    8-bit word length has), loses the bytes waiting to be read and reads back
    [v] without bits 1 and 2; the same bits written to the FIFO control
    register, where the 16550 defines them, clear nothing. *)
Theorem lcr_write_clears_fifo d w v :
  serial_inv d w -> mutex d = false -> fits 8 v ->
  (exists d' w', serial8250_out d w (iobase d + UART_LCR) v = Some (true, d', w') /\
     lcr d' = v .&~ 6 /\ (flag v UART_FCR_CLEAR_RCVR = true -> rxq d' = [])) /\
  (exists d' w', serial8250_out d w (iobase d + UART_FCR) v = Some (true, d', w') /\
     rxq d' = rxq d).
Proof.
  intros (F & (_ & _ & C1 & C2) & L) M Hv.
  assert (F0 : fifo_inv (set_mutex d true)) by now apply (fifo_inv_ext d).
  unfold serial8250_out, mutex_lock. rewrite M. cbn [mbind option_bind]. dev_simpl.
  rewrite !Z.add_simpl_l. split.
  - change (u16 UART_LCR) with 3. cbn [Z.eqb Pos.eqb UART_TX UART_IER UART_FCR UART_LCR].
    set (d1 := set_lcr (set_mutex d true) v).
    assert (F1 : fifo_inv d1) by now apply (fifo_inv_ext d).
    pose proof (clear_tx_inv _ (clear_rx_inv _ F1)) as F2.
    assert (CL : lcr (clear_tx (clear_rx d1)) = v .&~ 6 /\
       (flag v UART_FCR_CLEAR_RCVR = true -> rxq (clear_tx (clear_rx d1)) = [])).
    { exact (clear_lcr_spec d1). }
    unfold serial8250_update_irq. destruct CL as (CL1 & CL2).
    set (d2 := clear_tx (clear_rx d1)) in *.
    assert (D : exists i s w', drive_irq d2 w = (set_irq_state (set_iir d2 i) s, w')).
    { unfold drive_irq. destruct (pending_iir d2 =? 0), (irq_state d2 =? 0);
        cbn [negb]; do 3 eexists; reflexivity. }
    destruct D as (i & s & w' & ->). rewrite flush_tx_noop by now apply (fifo_inv_ext d2).
    exists (mutex_unlock (set_irq_state (set_iir d2 i) s)), w'.
    split; [now destruct (negb _)|]. split; [exact CL1|]. intros Hc.
    rewrite <- (CL2 Hc). now apply rxq_ext.
  - change (u16 UART_FCR) with 2. cbn [Z.eqb Pos.eqb UART_TX UART_IER UART_FCR UART_LCR].
    destruct (update_irq_clean (set_fcr (set_mutex d true) v) w) as (i & s & w' & -> & _);
      [now apply (fifo_inv_ext d)|exact C1|exact C2|].
    do 2 eexists. split; [reflexivity|]. now apply rxq_ext.
Qed.

Lemma lcr_write_clears_fifo_witness :
  exists d' w', serial8250_out ttyS0 world0 (1016 + 3) 3 = Some (true, d', w') /\ lcr d' = 1.
Proof.
  destruct (lcr_write_clears_fifo ttyS0 world0 3) as [(d' & w' & E & H & _) _].
  - now apply ttyS0_inv.
  - reflexivity.
  - unfold fits. lia.
  - exists d', w'. split; [exact E|exact H].
Defined.

(** ** Transmission *)

Lemma drive_irq_quiet d w : irq_state d = pending_iir d ->
  iir d = (if pending_iir d =? 0 then UART_IIR_NO_INT else pending_iir d) ->
  drive_irq d w = (d, w).
Proof.
  intros E1 E2. unfold drive_irq.
  assert (G : forall i s, i = iir d -> s = irq_state d ->
    set_irq_state (set_iir d i) s = d) by (intros ?? -> ->; now destruct d).
  rewrite E1. destruct (pending_iir d =? 0) eqn:E; cbn [negb]; rewrite G by congruence; reflexivity.
Qed.

(** Transmission is immediate: a byte written to the transmit register of
    an idle port is handed to the terminal by that very write, nothing else
    happens outside, and the port is ready for the next byte. *)
Theorem tx_byte_is_sent d w data :
  serial_inv d w -> mutex d = false ->
  flag (lcr d) UART_LCR_DLAB = false -> flag (mcr d) UART_MCR_LOOP = false ->
  exists d' w', serial8250_out d w (iobase d + UART_TX) data = Some (true, d', w') /\
    events w' = events w ++ [Putc (id d) [data]] /\ tty w' = tty w /\
    txcnt d' = 0 /\ lsr d' = lsr d /\ rxq d' = rxq d.
Proof.
  intros (F & (I1 & I2 & C1 & C2) & L) M D Lo.
  assert (F0 : fifo_inv (set_mutex d true)) by now apply (fifo_inv_ext d).
  unfold serial8250_out, mutex_lock. rewrite M. cbn [mbind option_bind]. dev_simpl.
  rewrite Z.add_simpl_l. change (u16 UART_TX =? UART_TX) with true. cbv iota.
  assert (O : exists d1 w1, out_tx (set_mutex d true) w data = (d1, w1) /\ fifo_inv d1 /\
    events w1 = events w ++ [Putc (id d) [data]] /\ tty w1 = tty w /\
    lcr d1 = lcr d /\ lsr d1 = lsr d /\ ier d1 = ier d /\ iir d1 = iir d /\
    irq_state d1 = irq_state d /\ rxq d1 = rxq d).
  { pose proof (out_tx_inv (set_mutex d true) w data F0 L) as OI.
    unfold out_tx in *. dev_simpl. rewrite D, Lo, (fi_tx d F) in *.
    change (0 <? FIFO_LEN) with true in *. cbv iota zeta in *. dev_simpl.
    change (0 + 1 =? FIFO_LEN / 2) with false in *. cbv iota in *.
    unfold serial8250_flush_tx in *. dev_simpl.
    change (negb (0 + 1 =? 0)) with true in *. cbv iota in *. dev_simpl.
    do 2 eexists. split; [reflexivity|]. dev_simpl. split; [apply OI|].
    split.
    { f_equal. f_equal. f_equal. pose proof (fi_txlen d F) as TL.
      destruct (txbuf d) as [|b bs]; [discriminate|]. reflexivity. }
    split; [reflexivity|]. split; [reflexivity|]. split; [|auto].
    apply Z.bits_inj'. intros i Hi. rewrite Z.lor_spec, Z.ldiff_spec.
    destruct (Z.eq_dec i 6) as [->|N].
    { rewrite (fi_temt d F). reflexivity. }
    change 64 with (2 ^ 6). rewrite (Z.pow2_bits_false 6 i) by lia.
    rewrite andb_true_r, <- Z.lor_spec. now rewrite (lor_tx_empty d F). }
  destruct O as (d1 & w1 & -> & F1 & Ev & T & K1 & K2 & K3 & K4 & K5 & K6).
  assert (P : pending_iir d1 = pending_iir d) by now apply pending_iir_ext.
  unfold serial8250_update_irq, clear_rx. bits. rewrite K1, C1.
  unfold clear_tx. bits. rewrite K1, C2.
  rewrite drive_irq_quiet by (rewrite P; congruence).
  rewrite flush_tx_noop by exact F1.
  exists (mutex_unlock d1), w1. split; [now destruct (negb _)|].
  split; [exact Ev|]. split; [exact T|]. split; [apply F1|]. split; [exact K2|exact K6].
Qed.

Lemma tx_byte_is_sent_witness :
  exists d' w', serial8250_out ttyS0 world0 (1016 + 0) 65 = Some (true, d', w') /\
    events w' = [Putc 0 [65]].
Proof.
  destruct (tx_byte_is_sent ttyS0 world0 65) as (d' & w' & E & H & _).
  - now apply ttyS0_inv.
  - reflexivity.
  - reflexivity.
  - reflexivity.
  - exists d', w'. split; [exact E|exact H].
Defined.

(** ** Forking *)

(** The ports are frozen while the VM is copied: once the pre-copy hook
    has returned, no port access, console poll or injection can run on any
    port, and the post-copy hook gives back exactly the devices the hook was
    given. Taking the locks a second time without releasing them blocks. *)
Theorem serial_frozen_during_copy l l' :
  serial8250__pre_copy l = Some l' ->
  serial8250__post_copy l' = l /\
  (l <> [] -> serial8250__pre_copy l' = None /\
              forall w, serial8250__update_consoles l' w = None) /\
  (forall d w port data str, d ∈ l' ->
     serial8250_out d w port data = None /\ serial8250_in d w port data = None /\
     serial8250__inject_string d w str = None).
Proof.
  intros H.
  assert (E : l' = map (fun d => set_mutex d true) l /\ Forall (fun d => mutex d = false) l).
  { revert l' H. induction l as [|d l IH]; intros l' H; cbn in H.
    - injection H as <-. auto.
    - lock_step H. destruct (serial8250__pre_copy l) as [l1|]; [|discriminate].
      injection H as <-. destruct (IH l1 eq_refl) as [-> A]. auto. }
  destruct E as [-> A]. split; [|split].
  - clear H. induction A as [|d l Hd A IH]; [reflexivity|]. cbn [map serial8250__post_copy].
    unfold serial8250__post_copy in IH. cbn [map]. rewrite IH. f_equal.
    destruct d; cbn in *. now subst.
  - destruct l as [|d l]; [congruence|]. split; reflexivity.
  - intros d w port data str Hin. apply list_elem_of_In, in_map_iff in Hin.
    destruct Hin as (d0 & <- & _). repeat split; reflexivity.
Qed.

Lemma serial_frozen_during_copy_witness :
  serial8250__post_copy (map (fun d => set_mutex d true) devices) = devices.
Proof.
  now apply (serial_frozen_during_copy devices (map (fun d => set_mutex d true) devices)).
Defined.
