(* ===== verification/ReadWrite.v ===== *)
(** * Robust file I/O (util/read-write.c)

    The wrappers every file access of the tool goes through: restart on
    [EAGAIN]/[EINTR], loop over short transfers, end of file. The kernel side is
    a [host] file: its bytes, a position, and a script that says how the next
    system calls behave. *)
From S2P Require Import Prelude.

Definition EINTR : Z := 4.
Definition EAGAIN : Z := 11.

(** What one system call does: transfer at most [n] bytes, or fail. *)
Inductive outcome :=
| Short (n : nat)
| Fault (errno : Z).

(** An open file. Once [script] is used up, calls transfer all they can. *)
Record host := mkhost {
  content : list Z;
  pos : Z;
  script : list outcome;
}.

Definition set_script (h : host) (s : list outcome) : host := mkhost (content h) (pos h) s.
Definition set_pos (h : host) (p : Z) : host := mkhost (content h) p (script h).
Definition set_content (h : host) (c : list Z) : host := mkhost c (pos h) (script h).

(** The bytes a write at [off] leaves: a gap past the end is filled with
    zeros. *)
Definition write_at (off : nat) (data m : list Z) : list Z :=
  match data with
  | [] => m
  | _ => take off (m ++ replicate (off - length m) 0) ++ data ++ drop (off + length data) m
  end.

(** ** System calls

    A call returns the result, [errno], the data moved and the file. An offset
    that is negative as an [off_t] is [EINVAL]. *)
Definition next_limit (h : host) (count : nat) : res nat :=
  match script h with
  | [] => Ok count
  | Short n :: _ => Ok (Nat.min n count)
  | Fault e :: _ => Err e
  end.

Definition off_t (x : Z) : Z := swrap 64 x.

Definition sys_pread (h : host) (count : nat) (offset : Z) : Z * Z * list Z * host :=
  let h' := set_script h (tl (script h)) in
  match next_limit h count with
  | Err e => (-1, e, [], h')
  | Ok n =>
      if off_t offset <? 0 then (-1, EINVAL, [], h')
      else let data := slice (Z.to_nat offset) n (content h) in
           (Z.of_nat (length data), 0, data, h')
  end.

Definition sys_pwrite (h : host) (buf : list Z) (offset : Z) : Z * Z * host :=
  let h' := set_script h (tl (script h)) in
  match next_limit h (length buf) with
  | Err e => (-1, e, h')
  | Ok n =>
      if off_t offset <? 0 then (-1, EINVAL, h')
      else let data := take n buf in
           (Z.of_nat (length data), 0,
            set_content h' (write_at (Z.to_nat offset) data (content h)))
  end.

(** [read] and [write] use and advance the file position. *)
Definition sys_read (h : host) (count : nat) : Z * Z * list Z * host :=
  let '(nr, errno, data, h') := sys_pread h count (pos h) in
  (nr, errno, data, if nr <? 0 then h' else set_pos h' (pos h' + nr)).

Definition sys_write (h : host) (buf : list Z) : Z * Z * host :=
  let '(nr, errno, h') := sys_pwrite h buf (pos h) in
  (nr, errno, if nr <? 0 then h' else set_pos h' (pos h' + nr)).

(** ** Restarting wrappers

    Each turn of the [goto restart] uses up one entry of the script, and a call
    past the script does not fail, so [S (length (script h))] turns are enough. *)
Definition restartable (nr errno : Z) : bool :=
  ((nr <? 0) && ((errno =? EAGAIN) || (errno =? EINTR)))%bool.

Fixpoint xpread_loop (fuel : nat) (h : host) (count : nat) (offset : Z)
    : Z * Z * list Z * host :=
  match sys_pread h count offset with
  | (nr, errno, data, h') =>
      match fuel with
      | S fuel => if restartable nr errno then xpread_loop fuel h' count offset
                  else (nr, errno, data, h')
      | O => (nr, errno, data, h')
      end
  end.

Definition xpread (h : host) := xpread_loop (length (script h)) h.

Fixpoint xpwrite_loop (fuel : nat) (h : host) (buf : list Z) (offset : Z) : Z * Z * host :=
  match sys_pwrite h buf offset with
  | (nr, errno, h') =>
      match fuel with
      | S fuel => if restartable nr errno then xpwrite_loop fuel h' buf offset
                  else (nr, errno, h')
      | O => (nr, errno, h')
      end
  end.

Definition xpwrite (h : host) := xpwrite_loop (length (script h)) h.

Fixpoint xread_loop (fuel : nat) (h : host) (count : nat) : Z * Z * list Z * host :=
  match sys_read h count with
  | (nr, errno, data, h') =>
      match fuel with
      | S fuel => if restartable nr errno then xread_loop fuel h' count
                  else (nr, errno, data, h')
      | O => (nr, errno, data, h')
      end
  end.

Definition xread (h : host) := xread_loop (length (script h)) h.

Fixpoint xwrite_loop (fuel : nat) (h : host) (buf : list Z) : Z * Z * host :=
  match sys_write h buf with
  | (nr, errno, h') =>
      match fuel with
      | S fuel => if restartable nr errno then xwrite_loop fuel h' buf
                  else (nr, errno, h')
      | O => (nr, errno, h')
      end
  end.

Definition xwrite (h : host) := xwrite_loop (length (script h)) h.

(** ** Full transfers

    [None] is a loop that has not finished within the fuel; [pread_loop_spec] and
    [pwrite_loop_spec] below show that the fuel given suffices. The result carries the bytes that
    have landed in the caller's buffer so far ([acc]), also on an error. *)
Fixpoint pread_loop (fuel : nat) (h : host) (count : nat) (offset : Z) (total : Z)
    (acc : list Z) : option (Z * list Z * host) :=
  match count, fuel with
  | O, _ => Some (total, acc, h)
  | _, O => None
  | _, S fuel =>
      let '(nr, _, data, h') := xpread h count offset in
      if nr <=? 0 then Some (if 0 <? total then total else -1, acc, h')
      else pread_loop fuel h' (count - Z.to_nat nr) (u64 (offset + nr)) (total + nr)
             (acc ++ data)
  end.

Fixpoint pwrite_loop (fuel : nat) (h : host) (buf : list Z) (offset : Z) (total : Z)
    : option (Z * host) :=
  match buf, fuel with
  | [], _ => Some (total, h)
  | _, O => None
  | _, S fuel =>
      let '(nr, _, h') := xpwrite h buf offset in
      if nr <=? 0 then Some (-1, h')
      else pwrite_loop fuel h' (drop (Z.to_nat nr) buf) (u64 (offset + nr)) (total + nr)
  end.

Fixpoint read_loop (fuel : nat) (h : host) (count : nat) (total : Z)
    (acc : list Z) : option (Z * list Z * host) :=
  match count, fuel with
  | O, _ => Some (total, acc, h)
  | _, O => None
  | _, S fuel =>
      let '(nr, _, data, h') := xread h count in
      if nr <=? 0 then Some (if 0 <? total then total else -1, acc, h')
      else read_loop fuel h' (count - Z.to_nat nr) (total + nr) (acc ++ data)
  end.

Fixpoint write_loop (fuel : nat) (h : host) (buf : list Z) (total : Z)
    : option (Z * host) :=
  match buf, fuel with
  | [], _ => Some (total, h)
  | _, O => None
  | _, S fuel =>
      let '(nr, _, h') := xwrite h buf in
      if nr <=? 0 then Some (-1, h')
      else write_loop fuel h' (drop (Z.to_nat nr) buf) (total + nr)
  end.

(** Every turn but the last moves at least one byte. *)
Definition pread_in_full (h : host) (count : nat) (offset : Z) : Z * list Z * host :=
  default (-1, [], h) (pread_loop (S count) h count offset 0 []).

Definition pwrite_in_full (h : host) (buf : list Z) (offset : Z) : Z * host :=
  default (-1, h) (pwrite_loop (S (length buf)) h buf offset 0).

Definition read_in_full (h : host) (count : nat) : Z * list Z * host :=
  default (-1, [], h) (read_loop (S count) h count 0 []).

Definition write_in_full (h : host) (buf : list Z) : Z * host :=
  default (-1, h) (write_loop (S (length buf)) h buf 0).

(** [read_file]: the whole file, or -1 when the probe for the end of file does
    not return 0. *)
Definition read_file (h : host) (max_size : nat) : Z * list Z * host :=
  let '(ret, data, h) := read_in_full h max_size in
  let '(nr, _, _, h) := xread h 1 in
  if nr =? 0 then (ret, data, h) else (-1, data, h).

(** ** Vectored transfers

    An [iovec] is its buffer. *)
Definition get_iov_size (iov : list (list Z)) : nat :=
  foldr (fun b n => (length b + n)%nat) O iov.

(** [shift_iovec]: drop the vectors that [nr] bytes have filled. The result is
    the rest of the array, the amounts added to [total] and [offset] (and taken
    from [count]); [None] is the access to [iov->iov_len] past the end of
    the array. What is left of [nr] inside the first remaining vector is
    forgotten, as in the source. *)
Fixpoint shift_iovec (iov : list (list Z)) (nr : nat) (moved : nat)
    : option (list (list Z) * nat) :=
  match iov with
  | [] => None
  | b :: rest =>
      if (length b <=? nr)%nat then shift_iovec rest (nr - length b) (moved + length b)
      else Some (iov, moved)
  end.

(** Fill the vectors in order with [data]. *)
Fixpoint scatter (iov : list (list Z)) (data : list Z) : list (list Z) :=
  match iov with
  | [] => []
  | b :: rest =>
      (take (length b) data ++ drop (length data) b)
        :: scatter rest (drop (length b) data)
  end.

(** Results of the vectored loops; [VOob] is the access past the array,
    [VMore] a loop still running. [VRet] carries the vectors, those done first. *)
Inductive vres :=
| VRet (ret : Z) (iov : list (list Z)) (h : host)
| VOob
| VMore.

Fixpoint preadv_loop (fuel : nat) (h : host) (done iov : list (list Z)) (count : nat)
    (offset total : Z) : vres :=
  match count, fuel with
  | O, _ => VRet total (done ++ iov) h
  | _, O => VMore
  | _, S fuel =>
      let '(nr, _, data, h') := xpread h (get_iov_size iov) offset in
      let iov' := scatter iov data in
      if nr <=? 0 then VRet (if 0 <? total then total else -1) (done ++ iov') h'
      else
        match shift_iovec iov' (Z.to_nat nr) 0 with
        | None => VOob
        | Some (rest, moved) =>
            preadv_loop fuel h' (done ++ take (length iov' - length rest) iov') rest
              (count - moved) (offset + Z.of_nat moved) (total + Z.of_nat moved)
        end
  end.

Definition preadv_in_full (h : host) (iov : list (list Z)) (offset : Z) : vres :=
  preadv_loop (S (length (script h) + get_iov_size iov)) h [] iov (get_iov_size iov) offset 0.

Fixpoint pwritev_loop (fuel : nat) (h : host) (iov : list (list Z)) (count : nat)
    (offset total : Z) : vres :=
  match count, fuel with
  | O, _ => VRet total iov h
  | _, O => VMore
  | _, S fuel =>
      let '(nr, _, h') := xpwrite h (concat iov) offset in
      if nr <=? 0 then VRet (-1) iov h'
      else
        match shift_iovec iov (Z.to_nat nr) 0 with
        | None => VOob
        | Some (rest, moved) =>
            pwritev_loop fuel h' rest (count - moved) (offset + Z.of_nat moved)
              (total + Z.of_nat moved)
        end
  end.

Definition pwritev_in_full (h : host) (iov : list (list Z)) (offset : Z) : vres :=
  pwritev_loop (S (length (script h) + get_iov_size iov)) h iov (get_iov_size iov) offset 0.

Fixpoint readv_loop (fuel : nat) (h : host) (done iov : list (list Z)) (count : nat)
    (total : Z) : vres :=
  match count, fuel with
  | O, _ => VRet total (done ++ iov) h
  | _, O => VMore
  | _, S fuel =>
      let '(nr, _, data, h') := xread h (get_iov_size iov) in
      let iov' := scatter iov data in
      if nr <=? 0 then VRet (if 0 <? total then total else -1) (done ++ iov') h'
      else
        match shift_iovec iov' (Z.to_nat nr) 0 with
        | None => VOob
        | Some (rest, moved) =>
            readv_loop fuel h' (done ++ take (length iov' - length rest) iov') rest
              (count - moved) (total + Z.of_nat moved)
        end
  end.

Definition readv_in_full (h : host) (iov : list (list Z)) : vres :=
  readv_loop (S (length (script h) + get_iov_size iov)) h [] iov (get_iov_size iov) 0.

Fixpoint writev_loop (fuel : nat) (h : host) (iov : list (list Z)) (count : nat)
    (total : Z) : vres :=
  match count, fuel with
  | O, _ => VRet total iov h
  | _, O => VMore
  | _, S fuel =>
      let '(nr, _, h') := xwrite h (concat iov) in
      if nr <=? 0 then VRet (-1) iov h'
      else
        match shift_iovec iov (Z.to_nat nr) 0 with
        | None => VOob
        | Some (rest, moved) =>
            writev_loop fuel h' rest (count - moved) (total + Z.of_nat moved)
        end
  end.

Definition writev_in_full (h : host) (iov : list (list Z)) : vres :=
  writev_loop (S (length (script h) + get_iov_size iov)) h iov (get_iov_size iov) 0.

(** ** Transfers of a whole buffer *)

(** A script without hard errors: short transfers of at least one byte and
    interrupted calls only. *)
Definition soft (o : outcome) : Prop :=
  match o with
  | Short n => (0 < n)%nat
  | Fault e => e = EINTR \/ e = EAGAIN
  end.

Definition healthy (h : host) : Prop := Forall soft (script h).

Lemma restartable_nonneg n e : restartable (Z.of_nat n) e = false.
Proof. unfold restartable. destruct (Z.ltb_spec (Z.of_nat n) 0); [lia|reflexivity]. Qed.

Lemma off_t_nonneg x : 0 <= x < 2 ^ 63 -> (off_t x <? 0) = false.
Proof.
  intros H. unfold off_t. rewrite swrap_id by lia. apply Z.ltb_ge. lia.
Qed.

(** What a restarted call does on a healthy script: it moves between 1 and
    [count] bytes, as many as there are before the end of the file. *)
Lemma xpread_healthy h count off : healthy h -> 0 <= off < 2 ^ 63 ->
  exists n s, (n <= count)%nat /\ ((0 < count)%nat -> (0 < n)%nat) /\ Forall soft s /\
    xpread h count off =
      (Z.of_nat (length (slice (Z.to_nat off) n (content h))), 0,
       slice (Z.to_nat off) n (content h), set_script h s).
Proof.
  intros H Ho. unfold xpread, healthy in *. destruct h as [c p s]. cbn [script content] in *.
  induction H as [|o s Ho' Hs IH]; cbn [length xpread_loop].
  - exists count, []. unfold sys_pread. cbn [next_limit script tl content set_script].
    rewrite off_t_nonneg by exact Ho. repeat split; auto.
  - unfold sys_pread at 1. cbn [next_limit script tl content set_script].
    destruct o as [n|e]; cbn [soft] in Ho'.
    + rewrite off_t_nonneg by exact Ho. rewrite restartable_nonneg.
      exists (Nat.min n count), s. repeat split; auto; lia.
    + replace (restartable (-1) e) with true by (destruct Ho' as [-> | ->]; reflexivity).
      exact IH.
Qed.

Lemma slice_app_next off n k (m : list Z) : (n <= k)%nat ->
  slice off n m ++ slice (off + length (slice off n m)) (k - length (slice off n m)) m
  = slice off k m.
Proof.
  intros Hn. unfold slice. rewrite length_take, length_drop.
  rewrite <- (drop_drop m). set (d := drop off m).
  replace (Nat.min n (length m - off)) with (Nat.min n (length d))
    by (unfold d; rewrite length_drop; reflexivity).
  destruct (Nat.le_gt_cases n (length d)) as [L|L].
  - rewrite Nat.min_l by lia.
    rewrite take_take_drop. f_equal. lia.
  - rewrite Nat.min_r by lia. rewrite drop_all, take_nil, app_nil_r.
    now rewrite !take_ge by lia.
Qed.

Lemma pread_loop_spec fuel : forall h count off total acc,
  healthy h -> (count < fuel)%nat -> 0 <= off -> off + Z.of_nat count < 2 ^ 63 ->
  0 <= total ->
  exists s, Forall soft s /\
  let data := slice (Z.to_nat off) count (content h) in
  pread_loop fuel h count off total acc =
    Some (if ((count =? 0)%nat || (0 <? total + Z.of_nat (length data)))%bool
          then total + Z.of_nat (length data) else -1,
          acc ++ data, set_script h s).
Proof.
  induction fuel as [|fuel IH]; intros h count off total acc Hh Hf Ho1 Ho2 Ht; [lia|].
  destruct count as [|count'].
  { exists (script h). split; [exact Hh|]. cbn. destruct h. cbn.
    unfold slice. rewrite take_0. cbn. rewrite Z.add_0_r, app_nil_r. reflexivity. }
  set (count := S count') in *. cbn [pread_loop]. subst count.
  destruct (xpread_healthy h (S count') off Hh ltac:(lia)) as (n & s & Hn & Hn0 & Hs & E).
  rewrite E. set (d := slice (Z.to_nat off) n (content h)).
  assert (Ld : (length d <= n)%nat) by (unfold d, slice; rewrite length_take; lia).
  pose proof (slice_app_next (Z.to_nat off) n (S count') (content h) Hn) as HA. fold d in HA.
  destruct (Z.of_nat (length d) <=? 0) eqn:E0; breflect.
  - (* nothing moved: end of file *)
    assert (D0 : d = []) by (apply nil_length_inv; lia).
    assert (Hall : slice (Z.to_nat off) (S count') (content h) = []).
    { unfold d, slice in D0 |- *. destruct (drop (Z.to_nat off) (content h)); [reflexivity|].
      destruct n; [lia|discriminate]. }
    exists s. split; [exact Hs|]. cbv zeta. rewrite Hall. cbn [length Nat.eqb orb].
    rewrite Z.add_0_r, app_nil_r. reflexivity.
  - destruct (IH (set_script h s) (S count' - length d)%nat (u64 (off + Z.of_nat (length d)))
      (total + Z.of_nat (length d)) (acc ++ d)) as (s' & Hs' & E').
    { exact Hs. } { lia. } { rewrite wrap_id; [lia|]. unfold fits. lia. }
    { rewrite wrap_id; [lia|]. unfold fits. lia. }
    { lia. }
    exists s'. split; [exact Hs'|]. cbv zeta in *. rewrite Nat2Z.id, E'.
    rewrite wrap_id by (unfold fits; lia).
    rewrite Z2Nat.inj_add, Nat2Z.id by lia.
    cbn [content set_script]. rewrite <- app_assoc, HA, <- HA, length_app.
    rewrite Nat2Z.inj_add, Z.add_assoc.
    match goal with |- context [(0 <? ?x)] => replace (0 <? x) with true
      by (symmetry; apply Z.ltb_lt; lia) end.
    now rewrite !orb_true_r.
Qed.

(** [pread_in_full] is one atomic read: whatever short transfers and
    interruptions happen, it returns the bytes of the file at the offset, cut
    at the end of the file, and -1 only when there are none to return. *)
Lemma pread_in_full_spec h count off :
  healthy h -> 0 <= off -> off + Z.of_nat count < 2 ^ 63 ->
  exists s, Forall soft s /\
  let data := slice (Z.to_nat off) count (content h) in
  pread_in_full h count off =
    (if ((count =? 0)%nat || (0 <? Z.of_nat (length data)))%bool
     then Z.of_nat (length data) else -1, data, set_script h s).
Proof.
  intros Hh H1 H2. unfold pread_in_full.
  destruct (pread_loop_spec (S count) h count off 0 [] Hh) as (s & Hs & E); [lia..|].
  exists s. split; [exact Hs|]. cbv zeta in *. rewrite E. reflexivity.
Qed.

Lemma write_at_app off d1 d2 m :
  write_at (off + length d1) d2 (write_at off d1 m) = write_at off (d1 ++ d2) m.
Proof.
  destruct d1 as [|b d1]; [cbn; now rewrite Nat.add_0_r|].
  destruct d2 as [|c d2]; [now rewrite app_nil_r|].
  set (l1 := b :: d1). set (l2 := c :: d2).
  assert (W : forall o l k, l <> [] ->
    write_at o l k = take o (k ++ replicate (o - length k) 0) ++ l ++ drop (o + length l) k)
    by (intros o [|? ?] k Hne; [congruence|reflexivity]).
  rewrite (W _ l2) by discriminate. rewrite (W _ l1), (W _ (l1 ++ l2)) by discriminate.
  set (p := take off (m ++ replicate (off - length m) 0)).
  assert (Lp : length p = off) by (unfold p; rewrite length_take, length_app, length_replicate; lia).
  replace (off + length l1 - _)%nat with O by (rewrite !length_app; lia).
  cbn [replicate]. rewrite app_nil_r.
  rewrite (app_assoc p l1 (drop (off + length l1) m)).
  rewrite take_app_length' by (rewrite length_app; lia).
  rewrite drop_app_ge by (rewrite length_app; lia).
  rewrite drop_drop, length_app, Lp, <- !app_assoc. do 3 f_equal. rewrite length_app. f_equal. lia.
Qed.

Lemma write_at_splice off data m : (off + length data <= length m)%nat ->
  write_at off data m = splice off data m.
Proof.
  intros H. unfold splice. destruct data as [|b data].
  - cbn. now rewrite Nat.add_0_r, take_drop.
  - cbn [write_at]. replace (off - length m)%nat with O by (cbn in H; lia).
    cbn [replicate]. now rewrite app_nil_r.
Qed.

Lemma length_write_at off data m :
  length (write_at off data m) =
  match data with [] => length m | _ => Nat.max (length m) (off + length data) end.
Proof.
  destruct data as [|b data]; [reflexivity|]. cbn [write_at].
  rewrite !length_app, length_take, length_app, length_replicate, length_drop. cbn. lia.
Qed.

Lemma write_at_bytes off data m : byte_ok data -> byte_ok m -> byte_ok (write_at off data m).
Proof.
  intros Hd Hm. destruct data as [|b data]; [exact Hm|]. cbn [write_at]. unfold byte_ok.
  rewrite !Forall_app. split; [|split; [exact Hd|now apply Forall_drop]].
  apply Forall_take, Forall_app. split; [exact Hm|].
  apply Forall_replicate. unfold fits. lia.
Qed.

Lemma xpwrite_healthy h buf off : healthy h -> 0 <= off < 2 ^ 63 ->
  exists n s, (n <= length buf)%nat /\ ((0 < length buf)%nat -> (0 < n)%nat) /\ Forall soft s /\
    xpwrite h buf off =
      (Z.of_nat n, 0,
       mkhost (write_at (Z.to_nat off) (take n buf) (content h)) (pos h) s).
Proof.
  intros H Ho. unfold xpwrite, healthy in *. destruct h as [c p s]. cbn [script content pos] in *.
  induction H as [|o s Ho' Hs IH]; cbn [length xpwrite_loop].
  - exists (length buf), []. unfold sys_pwrite.
    cbn [next_limit script tl content set_script set_content pos].
    rewrite off_t_nonneg by exact Ho. rewrite firstn_all. repeat split; auto.
  - unfold sys_pwrite at 1. cbn [next_limit script tl content set_script set_content pos].
    destruct o as [n|e]; cbn [soft] in Ho'.
    + rewrite off_t_nonneg by exact Ho. rewrite restartable_nonneg, length_take.
      exists (Nat.min n (length buf)), s.
      replace (Nat.min (Nat.min n (length buf)) (length buf)) with (Nat.min n (length buf)) by lia.
      repeat split; auto; lia.
    + replace (restartable (-1) e) with true by (destruct Ho' as [-> | ->]; reflexivity).
      exact IH.
Qed.

Lemma pwrite_loop_spec fuel : forall h buf off total,
  healthy h -> (length buf < fuel)%nat -> 0 <= off -> off + Z.of_nat (length buf) < 2 ^ 63 ->
  exists s, Forall soft s /\
  pwrite_loop fuel h buf off total =
    Some (total + Z.of_nat (length buf),
          mkhost (write_at (Z.to_nat off) buf (content h)) (pos h) s).
Proof.
  induction fuel as [|fuel IH]; intros h buf off total Hh Hf H1 H2; [lia|].
  destruct buf as [|b buf'].
  { exists (script h). split; [exact Hh|]. cbn. rewrite Z.add_0_r. now destruct h. }
  set (buf := b :: buf') in *. assert (Lb : (0 < length buf)%nat) by (cbn; lia).
  destruct (xpwrite_healthy h buf off Hh ltac:(lia)) as (n & s & Hn & Hn0 & Hs & E).
  specialize (Hn0 Lb).
  assert (U : pwrite_loop (S fuel) h buf off total =
    let '(nr, _, h') := xpwrite h buf off in
      if nr <=? 0 then Some (-1, h')
      else pwrite_loop fuel h' (drop (Z.to_nat nr) buf) (u64 (off + nr)) (total + nr))
    by reflexivity.
  rewrite U, E. clear U. destruct (Z.leb_spec (Z.of_nat n) 0); [lia|].
  rewrite Nat2Z.id, wrap_id by (unfold fits; lia).
  destruct (IH (mkhost (write_at (Z.to_nat off) (take n buf) (content h)) (pos h) s)
              (drop n buf) (off + Z.of_nat n) (total + Z.of_nat n)) as (s' & Hs' & ->).
  { exact Hs. } { rewrite length_drop. lia. } { lia. } { rewrite length_drop. lia. }
  exists s'. split; [exact Hs'|]. cbn [content pos].
  rewrite Z2Nat.inj_add, Nat2Z.id by lia. rewrite length_drop.
  replace (Z.to_nat off + n)%nat with (Z.to_nat off + length (take n buf))%nat
    by (rewrite length_take; lia).
  rewrite write_at_app, take_drop. f_equal. f_equal. lia.
Qed.

Lemma pwrite_in_full_spec h buf off :
  healthy h -> 0 <= off -> off + Z.of_nat (length buf) < 2 ^ 63 ->
  exists s, Forall soft s /\
  pwrite_in_full h buf off =
    (Z.of_nat (length buf), mkhost (write_at (Z.to_nat off) buf (content h)) (pos h) s).
Proof.
  intros Hh H1 H2. unfold pwrite_in_full.
  destruct (pwrite_loop_spec (S (length buf)) h buf off 0 Hh) as (s & Hs & ->); [lia..|].
  exists s. split; [exact Hs|]. reflexivity.
Qed.

(** C10. On a file without hard I/O errors, however the kernel cuts the
    transfers and interrupts the calls, [pread_in_full] and [pwrite_in_full]
    are single atomic transfers: the read returns the bytes at the offset up to
    the end of the file (-1 exactly when some were asked for and there are
    none), the write puts the whole buffer at the offset; both loops finish. *)
Theorem in_full_atomic h count buf off :
  healthy h -> 0 <= off ->
  off + Z.of_nat count < 2 ^ 63 -> off + Z.of_nat (length buf) < 2 ^ 63 ->
  (exists s, let data := slice (Z.to_nat off) count (content h) in
     pread_in_full h count off =
       (if ((count =? 0)%nat || (0 <? Z.of_nat (length data)))%bool
        then Z.of_nat (length data) else -1, data, set_script h s)) /\
  (exists s, pwrite_in_full h buf off =
     (Z.of_nat (length buf), mkhost (write_at (Z.to_nat off) buf (content h)) (pos h) s)).
Proof.
  intros Hh H1 H2 H3. split.
  - destruct (pread_in_full_spec h count off Hh H1 H2) as (s & _ & E). now exists s.
  - destruct (pwrite_in_full_spec h buf off Hh H1 H3) as (s & _ & E). now exists s.
Qed.

Definition demo_host : host :=
  mkhost [1; 2; 3; 4; 5; 6] 0 [Short 1; Fault EINTR; Short 2; Fault EAGAIN].

Lemma in_full_atomic_witness :
  fst (pread_in_full demo_host 4 1) = (4, [2; 3; 4; 5]) /\
  fst (pwrite_in_full demo_host [7; 8; 9] 5) = 3.
Proof.
  destruct (in_full_atomic demo_host 4 [7; 8; 9] 1) as [(s & E) _];
    [repeat constructor; unfold soft; lia|lia|cbn; lia|cbn; lia|].
  destruct (in_full_atomic demo_host 4 [7; 8; 9] 5) as [_ (s' & E')];
    [repeat constructor; unfold soft; lia|lia|cbn; lia|cbn; lia|].
  rewrite E, E'. split; reflexivity.
Defined.

Lemma shift_all iov : forall k, shift_iovec iov (get_iov_size iov) k = None.
Proof.
  induction iov as [|b iov IH]; intros k; [reflexivity|].
  cbn [shift_iovec get_iov_size foldr].
  change (foldr _ 0%nat iov) with (get_iov_size iov).
  destruct (Nat.leb_spec (length b) (length b + get_iov_size iov)); [|lia].
  replace (length b + get_iov_size iov - length b)%nat with (get_iov_size iov) by lia.
  apply IH.
Qed.

(** A vectored transfer that completes reads past its array: after the
    bytes of all vectors have been counted, [shift_iovec] still looks at the
    length of the vector after the last one. A single [pwritev] that writes
    everything shows it. *)
Theorem vectored_completion_reads_past_end h iov off :
  script h = [] -> (0 < get_iov_size iov)%nat -> 0 <= off < 2 ^ 63 ->
  pwritev_in_full h iov off = VOob.
Proof.
  intros Hs Hp Ho. unfold pwritev_in_full. rewrite Hs. cbn [length Nat.add pwritev_loop].
  assert (Lc : length (concat iov) = get_iov_size iov).
  { clear. induction iov as [|b iov IH]; [reflexivity|]. cbn [concat get_iov_size foldr].
    rewrite length_app, IH. reflexivity. }
  destruct (get_iov_size iov) as [|n] eqn:En; [lia|].
  unfold xpwrite. rewrite Hs. cbn [length xpwrite_loop].
  unfold sys_pwrite. unfold next_limit. rewrite Hs, off_t_nonneg by exact Ho.
  rewrite firstn_all, Lc. destruct (Z.leb_spec (Z.of_nat (S n)) 0); [lia|].
  rewrite Nat2Z.id, <- En, shift_all. reflexivity.
Qed.

Lemma vectored_completion_reads_past_end_witness :
  pwritev_in_full (mkhost [0; 0; 0; 0] 0 []) [[1; 2]; [3]] 0 = VOob.
Proof.
  apply vectored_completion_reads_past_end; [reflexivity|cbn; lia|lia].
Defined.
