(* ===== verification/Rbtree.v ===== *)
(** * Red-black trees (util/rbtree.c, include/linux/rbtree_augmented.h)

    The kernel's red-black tree: insertion fix-up, erasure and its colour
    fix-up, search, first/last. A node in the C code knows its parent; here the
    way from a node up to the root is a zipper path, so "go to the parent" is
    "take the first frame". Pointer rewiring that the C code does on the parent
    chain becomes rebuilding the tree along that path. *)
From S2P Require Import Prelude.
From stdpp Require Import sorting.
Open Scope Z_scope.

Inductive color := Red | Black.

#[export] Instance color_eq_dec : EqDecision color.
Proof. solve_decision. Defined.

Inductive tree (A : Type) :=
| E
| T (c : color) (l : tree A) (x : A) (r : tree A).
Arguments E {A}.
Arguments T {A} c l x r.

(** A frame is the parent of the hole: its colour, its element and its other
    subtree; the constructor says on which side the hole is. *)
Inductive frame (A : Type) :=
| FL (c : color) (x : A) (r : tree A)
| FR (c : color) (l : tree A) (x : A).
Arguments FL {A} c x r.
Arguments FR {A} c l x.

Section Rbtree.
Context {A : Type}.
Implicit Types (t l r : tree A) (p : list (frame A)) (x : A).

Definition is_red t : bool := match t with T Red _ _ _ => true | _ => false end.

(** [rb_set_parent_color(t, .., RB_BLACK)] guarded by [if (t)]. *)
Definition blacken t : tree A := match t with T _ l x r => T Black l x r | E => E end.

Definition frame_color (f : frame A) : color :=
  match f with FL c _ _ => c | FR c _ _ => c end.

Definition plug1 t (f : frame A) : tree A :=
  match f with FL c x r => T c t x r | FR c l x => T c l x t end.

Fixpoint plug t p : tree A :=
  match p with [] => t | f :: p => plug (plug1 t f) p end.

(** ** Insertion: [__rb_insert]

    The loop is called on a red node [T Red l x r] at path [p]. [None] is the
    dereference of a [NULL] grandparent. *)
Fixpoint rb_insert_loop l x r p : option (tree A) :=
  match p with
  | [] => Some (T Black l x r)
  | parent :: p1 =>
      if bool_decide (frame_color parent = Black) then Some (plug (T Red l x r) p)
      else
        match p1 with
        | [] => None
        | FL gc gx u :: p2 =>
            if is_red u then
              (* case 1: colour flips, continue at the grandparent *)
              rb_insert_loop
                (match parent with
                 | FL _ px pr => T Black (T Red l x r) px pr
                 | FR _ pl px => T Black pl px (T Red l x r)
                 end) gx (blacken u) p2
            else
              match parent with
              | FL _ px pr =>
                  (* case 3: right rotate at the grandparent *)
                  Some (plug (T gc (T Red l x r) px (T Red (blacken pr) gx u)) p2)
              | FR _ pl px =>
                  (* case 2: left rotate at the parent, then case 3 *)
                  Some (plug (T gc (T Red pl px (blacken l)) x (T Red (blacken r) gx u)) p2)
              end
        | FR gc u gx :: p2 =>
            if is_red u then
              rb_insert_loop (blacken u) gx
                (match parent with
                 | FL _ px pr => T Black (T Red l x r) px pr
                 | FR _ pl px => T Black pl px (T Red l x r)
                 end) p2
            else
              match parent with
              | FR _ pl px =>
                  Some (plug (T gc (T Red u gx (blacken pl)) px (T Red l x r)) p2)
              | FL _ px pr =>
                  Some (plug (T gc (T Red u gx (blacken l)) x (T Red (blacken r) px pr)) p2)
              end
        end
  end.

(** [rb_link_node] followed by [rb_insert_color]: a red leaf at the hole. *)
Definition rb_insert_color x p : option (tree A) := rb_insert_loop E x E p.

(** ** Erasure *)

(** Result of one turn of [____rb_erase_color] for the parent's subtree: it is
    repaired, or the parent itself is now one black node short. *)
Inductive fix_result :=
| Fixed t
| Deficit t.

(** The turn with [node] the left child of a parent of colour [pc]; the sibling
    is known to be black or absent ([None]: the dereference of an absent
    sibling). *)
Definition fix_left (node : tree A) (pc : color) px (sibling : tree A) : option fix_result :=
  match sibling with
  | E => None
  | T sc sl sx sr =>
      if is_red sr then
        (* case 4 *)
        Some (Fixed (T pc (T Black node px sl) sx (blacken sr)))
      else
        match sl with
        | T Red a y b =>
            (* case 3, then case 4 *)
            Some (Fixed (T pc (T Black node px a) y (T Black (blacken b) sx sr)))
        | _ =>
            (* case 2: colour flip *)
            match pc with
            | Red => Some (Fixed (T Black node px (T Red sl sx sr)))
            | Black => Some (Deficit (T Black node px (T Red sl sx sr)))
            end
        end
  end.

Definition fix_right (sibling : tree A) px (node : tree A) (pc : color) : option fix_result :=
  match sibling with
  | E => None
  | T sc sl sx sr =>
      if is_red sl then
        Some (Fixed (T pc (blacken sl) sx (T Black sr px node)))
      else
        match sr with
        | T Red a y b =>
            Some (Fixed (T pc (T Black sl sx (blacken a)) y (T Black b px node)))
        | _ =>
            match pc with
            | Red => Some (Fixed (T Black (T Red sl sx sr) px node))
            | Black => Some (Deficit (T Black (T Red sl sx sr) px node))
            end
        end
  end.

(** The loop of [____rb_erase_color]: [node] is one black node short at [p].
    Case 1 (a red sibling) rotates and goes on in the same turn below a red
    parent, where no further deficit can arise; a [Deficit] there is [None]. *)
Fixpoint erase_color (node : tree A) p : option (tree A) :=
  match p with
  | [] => Some node
  | FL pc px sibling :: p' =>
      match sibling with
      | T Red sl sx sr =>
          match sl with
          | E => None
          | _ =>
              match fix_left node Red px (blacken sl) with
              | Some (Fixed t) => Some (plug (T pc t sx sr) p')
              | _ => None
              end
          end
      | _ =>
          match fix_left node pc px sibling with
          | None => None
          | Some (Fixed t) => Some (plug t p')
          | Some (Deficit t) => erase_color t p'
          end
      end
  | FR pc sibling px :: p' =>
      match sibling with
      | T Red sl sx sr =>
          match sr with
          | E => None
          | _ =>
              match fix_right (blacken sr) px node Red with
              | Some (Fixed t) => Some (plug (T pc sl sx t) p')
              | _ => None
              end
          end
      | _ =>
          match fix_right sibling px node pc with
          | None => None
          | Some (Fixed t) => Some (plug t p')
          | Some (Deficit t) => erase_color t p'
          end
      end
  end.

(** The leftmost node of [T c l x r]: its colour, element and right child, and
    the path from it up to the root of that subtree. *)
Fixpoint leftmost c l x r p : color * A * tree A * list (frame A) :=
  match l with
  | E => (c, x, r, p)
  | T lc ll lx lr => leftmost lc ll lx lr (FL c x r :: p)
  end.

Definition set_color (c : color) t : tree A :=
  match t with T _ l x r => T c l x r | E => E end.

(** After unlinking a node of colour [c] from path [p], with [child] in its
    place: [____rb_erase_color] runs when a black leaf went away below a
    parent. *)
Definition rebalance (c : color) p : option (tree A) :=
  match c, p with
  | Black, _ :: _ => erase_color E p
  | _, _ => Some (plug E p)
  end.

(** [rb_erase] of the node [T c l x r] at path [p]. *)
Definition rb_erase c l r p : option (tree A) :=
  match l, r with
  | E, E => rebalance c p
  | E, T _ _ _ _ => Some (plug (set_color c r) p)
  | T _ _ _ _, E => Some (plug (set_color c l) p)
  | T _ _ _ _, T rc rl rx rr =>
      let '(sc, sx, child2, q) := leftmost rc rl rx rr [] in
      let path := q ++ FR c l sx :: p in
      match child2 with
      | T _ _ _ _ => Some (plug (blacken child2) path)
      | E => rebalance sc path
      end
  end.

(** ** Search

    [dir x] is where to look from a node holding [x]: [Lt] left, [Gt] right,
    [Eq] found. The walk returns the subtree it stopped at and its path. *)
Fixpoint descend (dir : A -> comparison) t p : tree A * list (frame A) :=
  match t with
  | E => (E, p)
  | T c l x r =>
      match dir x with
      | Lt => descend dir l (FL c x r :: p)
      | Gt => descend dir r (FR c l x :: p)
      | Eq => (t, p)
      end
  end.

Definition search (dir : A -> comparison) t : option A :=
  match fst (descend dir t []) with T _ _ x _ => Some x | E => None end.

(** Insert unless the walk finds a node; the result says whether it did. *)
Definition insert (dir : A -> comparison) x t : option (bool * tree A) :=
  match descend dir t [] with
  | (T _ _ _ _, _) => Some (false, t)
  | (E, p) => t' ← rb_insert_color x p; Some (true, t')
  end.

(** Erase the node the walk finds ([None]: there is none, or a [NULL] is
    dereferenced on the way). *)
Definition erase (dir : A -> comparison) t : option (tree A) :=
  match descend dir t [] with
  | (T c l _ r, p) => rb_erase c l r p
  | (E, _) => None
  end.

Fixpoint rb_first t : option A :=
  match t with
  | E => None
  | T _ E x _ => Some x
  | T _ l _ _ => rb_first l
  end.

Fixpoint rb_last t : option A :=
  match t with
  | E => None
  | T _ _ x E => Some x
  | T _ _ _ r => rb_last r
  end.

(** [rb_next] of the node whose right child is [r], at path [p]: down the right
    subtree, else up to the first ancestor reached from its left. *)
Fixpoint next_up p : option A :=
  match p with
  | [] => None
  | FL _ x _ :: _ => Some x
  | FR _ _ _ :: p => next_up p
  end.

Definition rb_next r p : option A :=
  match r with
  | E => next_up p
  | T _ _ _ _ => rb_first r
  end.

(** ** Elements in order *)

Fixpoint inorder t : list A :=
  match t with E => [] | T _ l x r => inorder l ++ x :: inorder r end.

Fixpoint left_of p : list A :=
  match p with
  | [] => []
  | FL _ _ _ :: p => left_of p
  | FR _ l x :: p => left_of p ++ inorder l ++ [x]
  end.

Fixpoint right_of p : list A :=
  match p with
  | [] => []
  | FL _ x r :: p => x :: inorder r ++ right_of p
  | FR _ _ _ :: p => right_of p
  end.

Lemma inorder_plug p : forall t, inorder (plug t p) = left_of p ++ inorder t ++ right_of p.
Proof.
  induction p as [|[c x r|c l x] p IH]; intros t; cbn [plug left_of right_of].
  - now rewrite app_nil_r.
  - rewrite IH. cbn. now rewrite <- !app_assoc.
  - rewrite IH. cbn. now rewrite <- !app_assoc.
Qed.

Lemma inorder_blacken t : inorder (blacken t) = inorder t.
Proof. now destruct t. Qed.

Lemma inorder_set_color c t : inorder (set_color c t) = inorder t.
Proof. now destruct t. Qed.

(** Rebuilding keeps the order: the fix-ups only rotate and recolour. *)
Lemma inorder_insert_loop : forall n p l x r t, (length p <= n)%nat ->
  rb_insert_loop l x r p = Some t ->
  inorder t = left_of p ++ (inorder l ++ x :: inorder r) ++ right_of p.
Proof.
  induction n as [|n IH]; intros p l x r t Hn H.
  - destruct p; [|cbn in Hn; lia]. cbn in H. injection H as <-. cbn.
    now rewrite app_nil_r.
  - destruct p as [|f p1]; [cbn in H; injection H as <-; cbn; now rewrite app_nil_r|].
    cbn [rb_insert_loop] in H. destruct (bool_decide _).
    { injection H as <-. rewrite inorder_plug. destruct f; list_norm. }
    destruct p1 as [|g p2]; [discriminate|]. cbn [length] in Hn.
    destruct g as [gc gx u|gc u gx]; destruct (is_red u).
    + apply IH in H; [|lia]. rewrite H, inorder_blacken.
      destruct f as [pc px pr|pc pl px]; list_norm.
    + destruct f as [pc px pr|pc pl px]; injection H as <-;
        rewrite inorder_plug; cbn; rewrite ?inorder_blacken; list_norm.
    + apply IH in H; [|lia]. rewrite H, inorder_blacken.
      destruct f as [pc px pr|pc pl px]; list_norm.
    + destruct f as [pc px pr|pc pl px]; injection H as <-;
        rewrite inorder_plug; cbn; rewrite ?inorder_blacken; list_norm.
Qed.

Definition fix_tree (f : fix_result) : tree A := match f with Fixed t => t | Deficit t => t end.

Lemma inorder_fix_left node pc px s f :
  fix_left node pc px s = Some f ->
  inorder (fix_tree f) = inorder node ++ px :: inorder s.
Proof.
  unfold fix_left. destruct s as [|sc sl sx sr]; [discriminate|].
  destruct (is_red sr).
  - intros [= <-]. cbn. rewrite inorder_blacken. list_norm.
  - destruct sl as [|[] a y b]; [destruct pc| |destruct pc]; intros [= <-]; cbn;
      rewrite ?inorder_blacken; list_norm.
Qed.

Lemma inorder_fix_right node pc px s f :
  fix_right s px node pc = Some f ->
  inorder (fix_tree f) = inorder s ++ px :: inorder node.
Proof.
  unfold fix_right. destruct s as [|sc sl sx sr]; [discriminate|].
  destruct (is_red sl).
  - intros [= <-]. cbn. rewrite inorder_blacken. list_norm.
  - destruct sr as [|[] a y b]; [destruct pc| |destruct pc]; intros [= <-]; cbn;
      rewrite ?inorder_blacken; list_norm.
Qed.

Lemma inorder_erase_color p : forall node t, erase_color node p = Some t ->
  inorder t = left_of p ++ inorder node ++ right_of p.
Proof.
  induction p as [|[pc px s|pc s px] p IH]; intros node t H; cbn [erase_color] in H.
  - injection H as <-. cbn. now rewrite app_nil_r.
  - destruct s as [|[] sl sx sr]; [discriminate| |].
    + destruct sl as [|lc ll lx lr]; [discriminate|].
      destruct (fix_left _ _ _ _) as [[t'|]|] eqn:E1; try discriminate.
      apply inorder_fix_left in E1. injection H as <-. rewrite inorder_plug.
      cbn in *. rewrite E1. list_norm.
    + destruct (fix_left _ _ _ _) as [[t'|t']|] eqn:E1; try discriminate;
        apply inorder_fix_left in E1; cbn [fix_tree] in E1.
      * injection H as <-. rewrite inorder_plug, E1. list_norm.
      * apply IH in H. rewrite H, E1. list_norm.
  - destruct s as [|[] sl sx sr]; [discriminate| |].
    + destruct sr as [|lc ll lx lr]; [discriminate|].
      destruct (fix_right _ _ _ _) as [[t'|]|] eqn:E1; try discriminate.
      apply inorder_fix_right in E1. injection H as <-. rewrite inorder_plug.
      cbn in *. rewrite E1. list_norm.
    + destruct (fix_right _ _ _ _) as [[t'|t']|] eqn:E1; try discriminate;
        apply inorder_fix_right in E1; cbn [fix_tree] in E1.
      * injection H as <-. rewrite inorder_plug, E1. list_norm.
      * apply IH in H. rewrite H, E1. list_norm.
Qed.
End Rbtree.

Section Traverse.
Context {A : Type}.
Implicit Types (t l r : tree A) (p : list (frame A)) (x : A).

Lemma rb_first_head t : rb_first t = head (inorder t).
Proof.
  induction t as [|c l IHl x r _]; [reflexivity|].
  destruct l as [|lc ll lx lr]; [reflexivity|].
  change (rb_first (T c (T lc ll lx lr) x r)) with (rb_first (T lc ll lx lr)).
  rewrite IHl. cbn. now destruct (inorder ll).
Qed.

Lemma rb_next_head r p : rb_next r p = head (inorder r ++ right_of p).
Proof.
  destruct r as [|c l x r]; cbn [rb_next].
  - induction p as [|[c x r|c l x] p IH]; cbn; auto.
  - rewrite rb_first_head. cbn. now destruct (inorder l).
Qed.
End Traverse.

(** ** The red-black properties *)

Section Balance.
Context {A : Type}.
Implicit Types (t l r : tree A) (p : list (frame A)) (x : A).

(** [rb t c n]: [t] has a root of colour [c] (a missing child counts as black),
    no red node has a red child, and every path down to a leaf has [n] black
    nodes. *)
Inductive rb : tree A -> color -> nat -> Prop :=
| rb_E : rb E Black 0
| rb_red l x r n : rb l Black n -> rb r Black n -> rb (T Red l x r) Red n
| rb_black l x r cl cr n : rb l cl n -> rb r cr n -> rb (T Black l x r) Black (S n).

Definition rb_tree t : Prop := exists n, rb t Black n.

(** [rb_path p c n]: a hole below a parent of colour [c] that expects a subtree
    of black height [n]. The root counts as a red parent: it must be black. *)
Inductive rb_path : list (frame A) -> color -> nat -> Prop :=
| rp_nil n : rb_path [] Red n
| rp_red_l x r p n : rb r Black n -> rb_path p Black n -> rb_path (FL Red x r :: p) Red n
| rp_red_r l x p n : rb l Black n -> rb_path p Black n -> rb_path (FR Red l x :: p) Red n
| rp_black_l x r c c' p n : rb r c n -> rb_path p c' (S n) -> rb_path (FL Black x r :: p) Black n
| rp_black_r l x c c' p n : rb l c n -> rb_path p c' (S n) -> rb_path (FR Black l x :: p) Black n.

Hint Constructors rb rb_path : rb.

(** A subtree fits a hole unless both it and the parent are red. *)
Lemma rb_plug p c n : rb_path p c n -> forall t c', rb t c' n ->
  (c = Red -> c' = Black) -> rb_tree (plug t p).
Proof.
  unfold rb_tree. induction 1 as [n|x r p n Hr Hp IH|l x p n Hl Hp IH
    |x r c c' p n Hr Hp IH|l x c c' p n Hl Hp IH]; intros t ct Ht HC; cbn [plug plug1].
  - rewrite (HC eq_refl) in Ht. eauto.
  - rewrite (HC eq_refl) in Ht. eapply IH; [eauto with rb|discriminate].
  - rewrite (HC eq_refl) in Ht. eapply IH; [eauto with rb|discriminate].
  - eapply IH; [eauto with rb|auto].
  - eapply IH; [eauto with rb|auto].
Qed.

Lemma rb_blacken t c n : rb t c n -> c = Red -> rb (blacken t) Black (S n).
Proof. destruct 1; intros C; try discriminate. cbn. eauto with rb. Qed.

Lemma blacken_black t n : rb t Black n -> blacken t = t.
Proof. now inversion 1. Qed.

Lemma is_red_rb t c n : rb t c n -> is_red t = bool_decide (c = Red).
Proof. now destruct 1. Qed.

Lemma rb_color_cases t c n : rb t c n ->
  (is_red t = true /\ c = Red) \/ (is_red t = false /\ c = Black).
Proof. destruct 1; auto. Qed.

(** Insertion restores the properties and never looks for a grandparent that is
    not there. *)
Lemma rb_insert_loop_ok : forall m p l x r c n, (length p <= m)%nat ->
  rb_path p c n -> rb l Black n -> rb r Black n ->
  exists t, rb_insert_loop l x r p = Some t /\ rb_tree t.
Proof.
  unfold rb_tree. induction m as [|m IH]; intros p l x r c n Hm Hp Hl Hr.
  - destruct p; [|cbn in Hm; lia]. cbn. eauto with rb.
  - destruct Hp as [n|px pr p n Hs Hp|pl px p n Hs Hp|px pr cs c' p n Hs Hp|pl px cs c' p n Hs Hp];
      cbn [rb_insert_loop frame_color].
    + eauto with rb.
    + rewrite bool_decide_false by discriminate.
      inversion Hp as [| | |gx u cu c' p2 ? Hu Hp2|u gx cu c' p2 ? Hu Hp2]; subst;
        destruct (rb_color_cases _ _ _ Hu) as [[-> ->]|[-> ->]]; cbn [length] in Hm.
      * eapply (IH _ _ _ _ c' (S n)); [lia|exact Hp2|eauto with rb|now apply (rb_blacken _ Red)].
      * eexists; split; [reflexivity|]. rewrite (blacken_black _ _ Hs).
        eapply rb_plug; [exact Hp2|eauto 6 with rb|auto].
      * eapply (IH _ _ _ _ c' (S n)); [lia|exact Hp2|now apply (rb_blacken _ Red)|eauto with rb].
      * eexists; split; [reflexivity|]. rewrite (blacken_black _ _ Hl), (blacken_black _ _ Hr).
        eapply rb_plug; [exact Hp2|eauto 6 with rb|auto].
    + rewrite bool_decide_false by discriminate.
      inversion Hp as [| | |gx u cu c' p2 ? Hu Hp2|u gx cu c' p2 ? Hu Hp2]; subst;
        destruct (rb_color_cases _ _ _ Hu) as [[-> ->]|[-> ->]]; cbn [length] in Hm.
      * eapply (IH _ _ _ _ c' (S n)); [lia|exact Hp2|eauto with rb|now apply (rb_blacken _ Red)].
      * eexists; split; [reflexivity|]. rewrite (blacken_black _ _ Hl), (blacken_black _ _ Hr).
        eapply rb_plug; [exact Hp2|eauto 6 with rb|auto].
      * eapply (IH _ _ _ _ c' (S n)); [lia|exact Hp2|now apply (rb_blacken _ Red)|eauto with rb].
      * eexists; split; [reflexivity|]. rewrite (blacken_black _ _ Hs).
        eapply rb_plug; [exact Hp2|eauto 6 with rb|auto].
    + rewrite bool_decide_true by reflexivity. eexists; split; [reflexivity|].
      eapply (rb_plug _ Black n); [eauto with rb|eauto with rb|discriminate].
    + rewrite bool_decide_true by reflexivity. eexists; split; [reflexivity|].
      eapply (rb_plug _ Black n); [eauto with rb|eauto with rb|discriminate].
Qed.

(** One turn of the erasure fix-up: [node] is one short of the sibling's black
    height [S n]; the parent's subtree is repaired at the height it had, with
    a root of the parent's colour or black, or is one short itself and black. *)
Definition fix_ok (f : fix_result) (pc : color) (n : nat) : Prop :=
  match f with
  | Fixed t => exists c, rb t c (if pc is Black then S (S n) else S n) /\ (c = Red -> pc = Red)
  | Deficit t => pc = Black /\ rb t Black (S n)
  end.

Lemma fix_left_ok node pc px s n : rb node Black n -> rb s Black (S n) ->
  exists f, fix_left node pc px s = Some f /\ fix_ok f pc n.
Proof.
  intros Hn Hs. inversion Hs as [| |sl sx sr cl cr ? Hl Hr]; subst. unfold fix_left.
  destruct (rb_color_cases _ _ _ Hr) as [[-> ->]|[-> ->]].
  - eexists; split; [reflexivity|]. pose proof (rb_blacken _ _ _ Hr eq_refl).
    destruct pc; cbn; eauto 10 with rb.
  - destruct Hl as [|a y b m Ha Hb|a y b ca cb m Ha Hb].
    + destruct pc; (eexists; split; [reflexivity|]); cbn; eauto 10 with rb.
    + eexists; split; [reflexivity|]. rewrite (blacken_black _ _ Hb).
      destruct pc; cbn; eauto 10 with rb.
    + destruct pc; (eexists; split; [reflexivity|]); cbn; eauto 10 with rb.
Qed.

Lemma fix_right_ok node pc px s n : rb node Black n -> rb s Black (S n) ->
  exists f, fix_right s px node pc = Some f /\ fix_ok f pc n.
Proof.
  intros Hn Hs. inversion Hs as [| |sl sx sr cl cr ? Hl Hr]; subst. unfold fix_right.
  destruct (rb_color_cases _ _ _ Hl) as [[-> ->]|[-> ->]].
  - eexists; split; [reflexivity|]. pose proof (rb_blacken _ _ _ Hl eq_refl).
    destruct pc; cbn; eauto 10 with rb.
  - destruct Hr as [|a y b m Ha Hb|a y b ca cb m Ha Hb].
    + destruct pc; (eexists; split; [reflexivity|]); cbn; eauto 10 with rb.
    + eexists; split; [reflexivity|]. rewrite (blacken_black _ _ Ha).
      destruct pc; cbn; eauto 10 with rb.
    + destruct pc; (eexists; split; [reflexivity|]); cbn; eauto 10 with rb.
Qed.

Lemma erase_color_ok p : forall node c n,
  rb_path p c (S n) -> rb node Black n ->
  exists t, erase_color node p = Some t /\ rb_tree t.
Proof.
  unfold rb_tree. induction p as [|f p IH]; intros node c n Hp Hn.
  { cbn. eauto. }
  inversion Hp as [|px s p' m Hs Hp'|s px p' m Hs Hp'|px s cs c' p' m Hs Hp'|s px cs c' p' m Hs Hp'];
    subst; cbn [erase_color].
  - destruct (fix_left_ok node Red px s n Hn Hs) as (f & E1 & F1).
    inversion Hs; subst. rewrite E1. destruct f as [t|t]; [|now destruct F1].
    destruct F1 as (ct & Ht & _). eexists; split; [reflexivity|].
    eapply rb_plug; [exact Hp'|exact Ht|discriminate].
  - destruct (fix_right_ok node Red px s n Hn Hs) as (f & E1 & F1).
    inversion Hs; subst. rewrite E1. destruct f as [t|t]; [|now destruct F1].
    destruct F1 as (ct & Ht & _). eexists; split; [reflexivity|].
    eapply rb_plug; [exact Hp'|exact Ht|discriminate].
  - destruct s as [|[] sl sx sr]; [inversion Hs|..].
    + inversion Hs as [|? ? ? ? Hl Hr|]; subst.
      destruct (fix_left_ok node Red px sl n Hn Hl) as (f & E1 & F1).
      destruct sl as [|lc ll lx lr]; [inversion Hl|].
      rewrite (blacken_black _ _ Hl), E1. destruct f as [t|t]; [|now destruct F1].
      destruct F1 as (ct & Ht & _). eexists; split; [reflexivity|].
      eapply rb_plug; [exact Hp'|eapply rb_black; [exact Ht|exact Hr]|auto].
    + assert (cs = Black) as -> by now inversion Hs.
      destruct (fix_left_ok node Black px _ n Hn Hs) as (f & E1 & F1). rewrite E1.
      destruct f as [t|t].
      * destruct F1 as (ct & Ht & C). eexists; split; [reflexivity|].
        destruct ct; [discriminate (C eq_refl)|]. eapply rb_plug; eauto.
      * destruct F1 as (_ & Ht). eapply IH; eauto.
  - destruct s as [|[] sl sx sr]; [inversion Hs|..].
    + inversion Hs as [|? ? ? ? Hl Hr|]; subst.
      destruct (fix_right_ok node Red px sr n Hn Hr) as (f & E1 & F1).
      destruct sr as [|lc ll lx lr]; [inversion Hr|].
      rewrite (blacken_black _ _ Hr), E1. destruct f as [t|t]; [|now destruct F1].
      destruct F1 as (ct & Ht & _). eexists; split; [reflexivity|].
      eapply rb_plug; [exact Hp'|eapply rb_black; [exact Hl|exact Ht]|auto].
    + assert (cs = Black) as -> by now inversion Hs.
      destruct (fix_right_ok node Black px _ n Hn Hs) as (f & E1 & F1). rewrite E1.
      destruct f as [t|t].
      * destruct F1 as (ct & Ht & C). eexists; split; [reflexivity|].
        destruct ct; [discriminate (C eq_refl)|]. eapply rb_plug; eauto.
      * destruct F1 as (_ & Ht). eapply IH; eauto.
Qed.

(** Removing a childless node of colour [c] from a well-formed place. *)
Lemma rebalance_ok c p pc n : rb (@E A) Black n -> rb_path p pc (if c is Black then S n else n) ->
  exists t, rebalance c p = Some t /\ rb_tree t.
Proof.
  intros He Hp. unfold rebalance. destruct c; [|destruct p as [|f p]].
  - eexists; split; [reflexivity|]. eapply rb_plug; eauto.
  - eexists; split; [reflexivity|]. exists n. exact He.
  - eapply erase_color_ok; eauto.
Qed.

Lemma leftmost_ok l : forall c x r q P n pc sc sx ch q',
  rb_path (q ++ P) pc n -> rb (T c l x r) c n -> (pc = Red -> c = Black) ->
  leftmost c l x r q = (sc, sx, ch, q') ->
  exists pc' m, rb_path (q' ++ P) pc' m /\ rb (T sc E sx ch) sc m /\ (pc' = Red -> sc = Black).
Proof.
  induction l as [|lc ll IHl lx lr _]; intros c x r q P n pc sc sx ch q' Hp Ht HC H; cbn in H.
  - injection H as <- <- <- <-. eauto.
  - inversion Ht as [|? ? ? ? Hl Hr|? ? ? cl cr m Hl Hr]; subst.
    + assert (lc = Black) as -> by now inversion Hl.
      eapply (IHl Black lx lr _ P n Red); [|exact Hl|auto|exact H].
      cbn. destruct pc; [discriminate (HC eq_refl)|]. eauto with rb.
    + assert (cl = lc) as -> by (destruct lc; inversion Hl; reflexivity).
      eapply (IHl lc lx lr _ P m Black); [|exact Hl|discriminate|exact H].
      cbn. eauto with rb.
Qed.

Lemma rb_path_right c l x r p pc n : rb_path p pc n -> rb (T c l x r) c n ->
  (pc = Red -> c = Black) -> forall y,
  exists m cr, rb_path (FR c l y :: p) c m /\ rb r cr m /\ (c = Red -> cr = Black).
Proof.
  intros Hp Ht HC y. inversion Ht as [|? ? ? ? Hl Hr|? ? ? cl cr m Hl Hr]; subst.
  - destruct pc; [discriminate (HC eq_refl)|]. exists n, Black. eauto with rb.
  - exists m, cr. split; [eauto with rb|]. split; [exact Hr|discriminate].
Qed.

Lemma rb_erase_ok c l x r p pc n : rb_path p pc n -> rb (T c l x r) c n ->
  (pc = Red -> c = Black) ->
  exists t, rb_erase c l r p = Some t /\ rb_tree t.
Proof.
  intros Hp Ht HC. unfold rb_erase.
  destruct l as [|lc ll lx lr]; [|destruct r as [|rc rl rx rr]].
  - destruct r as [|rc rl rx rr].
    + eapply (rebalance_ok c p pc 0); [constructor|].
      inversion Ht as [|? ? ? ? Hl Hr|? ? ? cl cr m Hl Hr]; subst; inversion Hl; subst; exact Hp.
    + eexists; split; [reflexivity|]. eapply rb_plug; [exact Hp| |exact HC].
      inversion Ht as [|? ? ? ? Hl Hr|? ? ? cl cr m Hl Hr]; subst; inversion Hl; subst;
        inversion Hr; subst; cbn; eauto with rb.
  - eexists; split; [reflexivity|]. eapply rb_plug; [exact Hp| |exact HC].
    inversion Ht as [|? ? ? ? Hl Hr|? ? ? cl cr m Hl Hr]; subst; inversion Hr; subst;
      inversion Hl; subst; cbn; eauto with rb.
  - destruct (leftmost rc rl rx rr []) as [[[sc sx] ch] q] eqn:EL.
    destruct (rb_path_right _ _ _ _ _ _ _ Hp Ht HC sx) as (m & cr & Hp' & Hr & HC').
    assert (cr = rc) as -> by (destruct rc; inversion Hr; reflexivity).
    destruct (leftmost_ok rl rc rx rr [] (FR c (T lc ll lx lr) sx :: p) m c sc sx ch q
                Hp' Hr HC' EL) as (pc' & k & Hq & Hs & HCs).
    destruct ch as [|hc hl hx hr].
    + eapply (rebalance_ok sc _ pc' 0); [constructor|].
      inversion Hs as [|? ? ? ? Hl2 Hr2|? ? ? ? ? ? Hl2 Hr2]; subst; inversion Hl2; subst; exact Hq.
    + eexists; split; [reflexivity|].
      inversion Hs as [|? ? ? ? Hl2 Hr2|? ? ? ? ? ? Hl2 Hr2]; subst; inversion Hl2; subst;
        inversion Hr2; subst; cbn [blacken]. eapply rb_plug; [exact Hq|eauto with rb|auto].
Qed.

(** ** Order *)

Lemma inorder_leftmost l : forall c x r q sc sx ch q',
  leftmost c l x r q = (sc, sx, ch, q') ->
  left_of q' = left_of q /\
  sx :: inorder ch ++ right_of q' = inorder (T c l x r) ++ right_of q.
Proof.
  induction l as [|lc ll IHl lx lr _]; intros c x r q sc sx ch q' H; cbn in H.
  - injection H as <- <- <- <-. split; [reflexivity|]. list_norm.
  - apply IHl in H. destruct H as [-> E1]. split; [reflexivity|].
    etransitivity; [exact E1|]. list_norm.
Qed.

Lemma left_of_app q p : left_of (q ++ p) = left_of p ++ left_of q.
Proof.
  induction q as [|[c y r|c l y] q IH]; cbn.
  - now rewrite app_nil_r.
  - exact IH.
  - rewrite IH. now rewrite <- app_assoc.
Qed.

Lemma right_of_app q p : right_of (q ++ p) = right_of q ++ right_of p.
Proof.
  induction q as [|[c y r|c l y] q IH]; cbn; [reflexivity| |exact IH].
  rewrite IH. now rewrite <- app_assoc.
Qed.

Lemma inorder_rebalance c p t : rebalance c p = Some t -> inorder t = left_of p ++ right_of p.
Proof.
  assert (G : Some (plug E p) = Some t -> inorder t = left_of p ++ right_of p).
  { intros [= <-]. now rewrite inorder_plug. }
  unfold rebalance. destruct c; [exact G|]. destruct p as [|f p]; [exact G|].
  intros H. apply inorder_erase_color in H. now rewrite H.
Qed.

Lemma inorder_erase c l r p t : rb_erase c l r p = Some t ->
  inorder t = left_of p ++ inorder l ++ inorder r ++ right_of p.
Proof.
  unfold rb_erase. destruct l as [|lc ll lx lr]; [|destruct r as [|rc rl rx rr]].
  - destruct r as [|rc rl rx rr]; intros H.
    + now apply inorder_rebalance in H.
    + injection H as <-. rewrite inorder_plug. reflexivity.
  - intros H. injection H as <-. rewrite inorder_plug. reflexivity.
  - destruct (leftmost rc rl rx rr []) as [[[sc sx] ch] q] eqn:EL. intros H.
    apply inorder_leftmost in EL. cbn [left_of right_of] in EL. rewrite app_nil_r in EL.
    destruct EL as [EL1 EL2].
    assert (G : inorder t = left_of (q ++ FR c (T lc ll lx lr) sx :: p) ++ inorder ch
                  ++ right_of (q ++ FR c (T lc ll lx lr) sx :: p)).
    { destruct ch; [now apply inorder_rebalance in H|].
      injection H as <-. rewrite inorder_plug. reflexivity. }
    rewrite G, left_of_app, right_of_app, EL1. cbn [left_of right_of].
    rewrite app_nil_r, <- EL2, <- !app_assoc. cbn [app]. now rewrite <- !app_assoc.
Qed.
End Balance.

(** ** Search, insertion and erasure in a sorted tree *)

(** A direction function that agrees with the order of the elements: right of
    an element that sends the walk left, everything sends it left, and so on.
    It is exact when at most one element can be the one searched for. *)
Record dir_compat {A : Type} (R : A -> A -> Prop) (dir : A -> comparison) : Prop := {
  dc_lt : forall a b, R a b -> dir a = Lt -> dir b = Lt;
  dc_gt : forall a b, R a b -> dir b = Gt -> dir a = Gt;
}.

Record dir_exact {A : Type} (R : A -> A -> Prop) (dir : A -> comparison) : Prop := {
  de_compat : dir_compat R dir;
  de_lt : forall a b, R a b -> dir a = Eq -> dir b = Lt;
  de_gt : forall a b, R a b -> dir b = Eq -> dir a = Gt;
}.

Section Search.
Context {A : Type} (R : A -> A -> Prop) (dir : A -> comparison).
Context (Hdir : dir_compat R dir).
Implicit Types (t : tree A) (p : list (frame A)).

Lemma descend_plug t : forall p, let '(s, q) := descend dir t p in
  plug s q = plug t p /\ match s with T _ _ x _ => dir x = Eq | E => True end.
Proof.
  induction t as [|c l IHl x r IHr]; intros p; cbn [descend]; [auto|].
  destruct (dir x) eqn:D.
  - auto.
  - exact (IHl (FL c x r :: p)).
  - exact (IHr (FR c l x :: p)).
Qed.

(** The walk splits the elements: those left of where it stopped send it right,
    those right of it send it left. *)
Lemma descend_split t : StronglySorted R (inorder t) -> forall p s q,
  descend dir t p = (s, q) ->
  exists L1 L2, left_of q = left_of p ++ L1 /\ right_of q = L2 ++ right_of p /\
    inorder t = L1 ++ inorder s ++ L2 /\
    (s = E \/ exists c l x r, s = T c l x r /\ dir x = Eq) /\
    Forall (fun a => dir a = Gt) L1 /\ Forall (fun a => dir a = Lt) L2.
Proof.
  induction t as [|c l IHl x r IHr]; intros HS p s q H; cbn [descend] in H.
  - injection H as <- <-. exists [], []. rewrite app_nil_r. auto 10.
  - cbn [inorder] in HS. pose proof (StronglySorted_app_1_l _ _ _ HS) as HSl.
    pose proof (StronglySorted_app_1_r _ _ _ HS) as HSr.
    apply StronglySorted_inv in HSr. destruct HSr as [HSr HF].
    destruct (dir x) eqn:D.
    + injection H as <- <-. exists [], []. rewrite !app_nil_r. cbn [app].
      split; [reflexivity|]. split; [reflexivity|]. split; [reflexivity|].
      split; [right; eauto 6|auto].
    + apply (IHl HSl) in H. destruct H as (L1 & L2 & E1 & E2 & E3 & E4 & F1 & F2).
      exists L1, (L2 ++ x :: inorder r). cbn [left_of right_of] in *.
      split; [exact E1|]. split; [rewrite E2; list_norm|].
      split; [cbn; rewrite E3; list_norm|]. split; [exact E4|]. split; [exact F1|].
      apply Forall_app. split; [exact F2|]. constructor; [exact D|].
      rewrite Forall_forall in HF |- *. intros y Hy.
      apply (dc_lt _ _ Hdir x); [now apply HF|exact D].
    + apply (IHr HSr) in H. destruct H as (L1 & L2 & E1 & E2 & E3 & E4 & F1 & F2).
      exists (inorder l ++ x :: L1), L2. cbn [left_of right_of] in *.
      split; [rewrite E1; list_norm|]. split; [exact E2|].
      split; [cbn; rewrite E3; list_norm|]. split; [exact E4|]. split; [|exact F2].
      apply Forall_app. split; [|constructor; [exact D|exact F1]].
      rewrite Forall_forall. intros y Hy.
      apply (dc_gt _ _ Hdir y x); [|exact D].
      eapply StronglySorted_app_1_elem_of; [exact HS|exact Hy|constructor].
Qed.

(** A found node's place in the tree. *)
Lemma descend_rb t : forall p s q, descend dir t p = (s, q) ->
  forall pc c n, rb_path p pc n -> rb t c n -> (pc = Red -> c = Black) ->
  exists pc' c' n', rb_path q pc' n' /\ rb s c' n' /\ (pc' = Red -> c' = Black).
Proof.
  induction t as [|tc l IHl x r IHr]; intros p s q H pc c n Hp Ht HC; cbn [descend] in H.
  - injection H as <- <-. eauto 6.
  - destruct (dir x).
    + injection H as <- <-. eauto 6.
    + inversion Ht as [|? ? ? ? Hl Hr|? ? ? cl cr m Hl Hr]; subst.
      * destruct pc; [discriminate (HC eq_refl)|].
        eapply (IHl _ _ _ H Red Black n); auto. now constructor.
      * eapply (IHl _ _ _ H Black cl m); [econstructor; eauto|exact Hl|discriminate].
    + inversion Ht as [|? ? ? ? Hl Hr|? ? ? cl cr m Hl Hr]; subst.
      * destruct pc; [discriminate (HC eq_refl)|].
        eapply (IHr _ _ _ H Red Black n); auto. now constructor.
      * eapply (IHr _ _ _ H Black cr m); [econstructor; eauto|exact Hr|discriminate].
Qed.

Lemma insert_spec x t : rb_tree t -> StronglySorted R (inorder t) ->
  exists b t', insert dir x t = Some (b, t') /\ rb_tree t' /\
  (if b then exists L1 L2, inorder t = L1 ++ L2 /\ inorder t' = L1 ++ x :: L2 /\
      Forall (fun a => dir a = Gt) L1 /\ Forall (fun a => dir a = Lt) L2
   else t' = t /\ exists y, y ∈ inorder t /\ dir y = Eq).
Proof.
  intros [n Hn] HS. unfold insert. destruct (descend dir t []) as [s q] eqn:Ed.
  destruct (descend_split t HS [] s q Ed) as (L1 & L2 & E1 & E2 & E3 & E4 & F1 & F2).
  destruct E4 as [->|(c & l & y & r & -> & D)].
  - destruct (descend_rb t [] _ _ Ed Red Black n ltac:(constructor) Hn ltac:(auto))
      as (pc & c' & n' & Hq & Hs & HC).
    inversion Hs; subst.
    destruct (rb_insert_loop_ok (length q) q E x E pc 0 (Nat.le_refl _) Hq) as (t' & Et & Ht');
      [constructor|constructor|].
    unfold rb_insert_color. rewrite Et. cbn [mbind option_bind].
    exists true, t'. split; [reflexivity|]. split; [exact Ht'|]. exists L1, L2.
    split; [exact E3|]. split; [|auto].
    rewrite (inorder_insert_loop (length q) q E x E t' (Nat.le_refl _) Et), E1, E2.
    cbn. now rewrite app_nil_r.
  - exists false, t. split; [reflexivity|]. split; [now exists n|]. split; [reflexivity|].
    exists y. split; [|exact D]. rewrite E3. cbn [inorder]. set_solver.
Qed.

Context (Hexact : dir_exact R dir).

Lemma search_spec t x : StronglySorted R (inorder t) ->
  search dir t = Some x <-> x ∈ inorder t /\ dir x = Eq.
Proof.
  intros HS. unfold search. destruct (descend dir t []) as [s q] eqn:Ed.
  destruct (descend_split t HS [] s q Ed) as (L1 & L2 & _ & _ & E3 & E4 & F1 & F2).
  cbn [fst]. rewrite Forall_forall in F1, F2.
  destruct E4 as [->|(c & l & y & r & -> & D)]; cbn [inorder] in E3.
  - split; [discriminate|]. intros [Hin He]. rewrite E3 in Hin. cbn [app] in Hin.
    apply elem_of_app in Hin. destruct Hin as [Hin|Hin];
      [rewrite (F1 _ Hin) in He|rewrite (F2 _ Hin) in He]; discriminate.
  - split.
    + intros [= <-]. split; [|exact D]. rewrite E3. set_solver.
    + intros [Hin He]. f_equal. rewrite E3 in Hin, HS.
      assert (C : x ∈ L1 \/ x ∈ inorder l \/ x = y \/ x ∈ inorder r \/ x ∈ L2) by (rewrite !elem_of_app, elem_of_cons in Hin; tauto).
      assert (NB : forall a b, R a b -> dir a = Eq -> dir b = Eq -> False).
      { intros a b Hab Ha Hb. pose proof (de_lt _ _ Hexact a b Hab Ha). congruence. }
      assert (HSt : StronglySorted R (inorder l ++ y :: inorder r))
        by (eapply StronglySorted_app_1_l, StronglySorted_app_1_r; exact HS).
      destruct C as [C|[C|[C|[C|C]]]].
      * rewrite (F1 _ C) in He. discriminate.
      * exfalso. apply (NB x y); auto. eapply StronglySorted_app_1_elem_of; [exact HSt|exact C|constructor].
      * auto.
      * exfalso. apply (NB y x); auto. apply StronglySorted_app_1_r in HSt.
        apply StronglySorted_inv in HSt. destruct HSt as [_ HF]. rewrite Forall_forall in HF. auto.
      * rewrite (F2 _ C) in He. discriminate.
Qed.

Lemma erase_spec t y : rb_tree t -> StronglySorted R (inorder t) ->
  search dir t = Some y ->
  exists t', erase dir t = Some t' /\ rb_tree t' /\
    exists L1 L2, inorder t = L1 ++ y :: L2 /\ inorder t' = L1 ++ L2 /\
      Forall (fun a => dir a = Gt) L1 /\ Forall (fun a => dir a = Lt) L2.
Proof.
  intros [n Hn] HS Hy. unfold erase, search in *.
  destruct (descend dir t []) as [s q] eqn:Ed. cbn [fst] in Hy.
  destruct s as [|c l x r]; [discriminate|]. injection Hy as ->.
  pose proof (descend_plug t []) as HP. rewrite Ed in HP. destruct HP as [HP D].
  destruct (descend_split t HS [] _ q Ed) as (L1 & L2 & E1 & E2 & E3 & _ & F1 & F2).
  destruct (descend_rb t [] _ _ Ed Red Black n ltac:(constructor) Hn ltac:(auto))
    as (pc & c' & n' & Hq & Hs & HC).
  assert (c' = c) as -> by (destruct c; inversion Hs; reflexivity).
  destruct (rb_erase_ok c l y r q pc n' Hq Hs HC) as (t' & Et & Ht').
  exists t'. split; [exact Et|]. split; [exact Ht'|].
  apply inorder_erase in Et. cbn [left_of right_of app] in *. rewrite app_nil_r in E2.
  exists (L1 ++ inorder l), (inorder r ++ L2).
  cbn [inorder] in E3. rewrite E3 in HS.
  split; [rewrite E3; list_norm|]. split; [rewrite Et, E1, E2; list_norm|].
  apply StronglySorted_app_1_r in HS. pose proof (StronglySorted_app_1_l _ _ _ HS) as HSt.
  split; apply Forall_app; (split; [auto|auto]); rewrite Forall_forall; intros z Hz.
  - apply (de_gt _ _ Hexact z y); [|exact D].
    eapply StronglySorted_app_1_elem_of; [exact HSt|exact Hz|constructor].
  - apply (de_lt _ _ Hexact y z); [|exact D].
    apply StronglySorted_app_1_r, StronglySorted_inv in HSt. destruct HSt as [_ HF].
    rewrite Forall_forall in HF. auto.
Qed.
End Search.

(** ** A tree of keys is a set *)

Fixpoint height {A} (t : tree A) : nat :=
  match t with E => O | T _ l _ r => S (Nat.max (height l) (height r)) end.

Lemma height_bound {A} (t : tree A) c n : rb t c n ->
  (height t <= 2 * n + (if c is Red then 1 else 0))%nat /\
  (2 ^ n <= S (length (inorder t)))%nat.
Proof.
  induction 1 as [|l x r n Hl [IHl1 IHl2] Hr [IHr1 IHr2]
                  |l x r cl cr n Hl [IHl1 IHl2] Hr [IHr1 IHr2]];
    cbn [height inorder].
  - cbn. lia.
  - rewrite length_app. cbn [length]. lia.
  - rewrite length_app, Nat.pow_succ_r'. cbn [length].
    split; [destruct cl, cr; lia|lia].
Qed.

Lemma rb_tree_height {A} (t : tree A) : rb_tree t ->
  (height t <= 2 * Nat.log2 (S (length (inorder t))))%nat.
Proof.
  intros [n Hn]. apply height_bound in Hn. destruct Hn as [H1 H2].
  apply Nat.log2_le_mono in H2. rewrite Nat.log2_pow2 in H2 by lia. lia.
Qed.

Section Keys.

Lemma Z_exact k : dir_exact Z.lt (Z.compare k).
Proof.
  constructor; [constructor|..]; intros a b Hab H;
    rewrite ?Z.compare_lt_iff, ?Z.compare_gt_iff, ?Z.compare_eq_iff in *; lia.
Qed.

Lemma Z_dir k : dir_compat Z.lt (Z.compare k).
Proof. apply Z_exact. Qed.

Inductive key_op := Ins (k : Z) | Del (k : Z).

Definition run_op (o : key_op) (t : tree Z) : option (tree Z) :=
  match o with
  | Ins k => snd <$> insert (Z.compare k) k t
  | Del k => match search (Z.compare k) t with
             | Some _ => erase (Z.compare k) t
             | None => Some t
             end
  end.

Definition run_ops (l : list key_op) : option (tree Z) :=
  foldl (fun ot o => ot ≫= run_op o) (Some E) l.

Definition spec_op (s : gset Z) (o : key_op) : gset Z :=
  match o with Ins k => {[k]} ∪ s | Del k => s ∖ {[k]} end.

Definition keys (t : tree Z) : gset Z := list_to_set (inorder t).

Definition key_tree (t : tree Z) : Prop := rb_tree t /\ StronglySorted Z.lt (inorder t).

Lemma gt_lt_split k (L1 L2 : list Z) :
  Forall (fun a => Z.compare k a = Gt) L1 -> Forall (fun a => Z.compare k a = Lt) L2 ->
  (forall a, a ∈ L1 -> a < k) /\ (forall a, a ∈ L2 -> k < a).
Proof.
  intros F1 F2. rewrite Forall_forall in F1, F2. split; intros a Ha.
  - apply Z.compare_gt_iff. exact (F1 a Ha).
  - apply Z.compare_lt_iff. exact (F2 a Ha).
Qed.

Lemma run_op_ok o t : key_tree t ->
  exists t', run_op o t = Some t' /\ key_tree t' /\ keys t' = spec_op (keys t) o.
Proof.
  intros [Hrb HS]. destruct o as [k|k]; cbn [run_op spec_op].
  - destruct (insert_spec Z.lt (Z.compare k) (Z_dir k) k t Hrb HS) as (b & t' & E1 & Hrb' & Hb).
    rewrite E1. exists t'. split; [reflexivity|]. destruct b.
    + destruct Hb as (L1 & L2 & G1 & G2 & F1 & F2).
      destruct (gt_lt_split k L1 L2 F1 F2) as [H1 H2].
      rewrite G1 in HS. apply StronglySorted_app in HS. destruct HS as (HA & HB & HC).
      split; [split; [exact Hrb'|]|].
      * rewrite G2. apply StronglySorted_app. split; [|split; [exact HB|]].
        -- intros a b Ha Hb. apply elem_of_cons in Hb. destruct Hb as [->|Hb]; [auto|].
           now apply HA.
        -- constructor; [exact HC|]. rewrite Forall_forall. exact H2.
      * unfold keys. rewrite G1, G2. apply set_eq. intros z.
        rewrite elem_of_union, elem_of_singleton, !elem_of_list_to_set, !elem_of_app, elem_of_cons.
        tauto.
    + destruct Hb as (-> & y & Hy & D). apply Z.compare_eq_iff in D. subst y.
      split; [now split|]. unfold keys. apply set_eq. intros z.
      rewrite elem_of_union, elem_of_singleton, elem_of_list_to_set. naive_solver.
  - destruct (search (Z.compare k) t) as [y|] eqn:Es.
    + destruct (erase_spec Z.lt (Z.compare k) (Z_dir k) (Z_exact k) t y Hrb HS Es)
        as (t' & E1 & Hrb' & L1 & L2 & G1 & G2 & F1 & F2).
      apply (search_spec Z.lt _ (Z_dir k) (Z_exact k) t y HS) in Es. destruct Es as [_ D].
      apply Z.compare_eq_iff in D. subst y.
      destruct (gt_lt_split k L1 L2 F1 F2) as [H1 H2].
      rewrite G1 in HS. apply StronglySorted_app in HS. destruct HS as (HA & HB & HC).
      exists t'. split; [exact E1|]. split; [split; [exact Hrb'|]|].
      * rewrite G2. apply StronglySorted_app. split; [|split; [exact HB|now apply StronglySorted_inv in HC]].
        intros a b Ha Hb. apply HA; [exact Ha|now constructor].
      * unfold keys. rewrite G1, G2. apply set_eq. intros z.
        rewrite elem_of_difference, elem_of_singleton, !elem_of_list_to_set, !elem_of_app, elem_of_cons.
        split; [|tauto]. intros [Hz|Hz].
        -- specialize (H1 z Hz). split; [auto|lia].
        -- specialize (H2 z Hz). split; [auto|lia].
    + exists t. split; [reflexivity|]. split; [now split|]. unfold keys. apply set_eq. intros z.
      rewrite elem_of_difference, elem_of_singleton, elem_of_list_to_set.
      split; [|tauto]. intros Hz. split; [exact Hz|]. intros ->.
      assert (C : search (Z.compare k) t = Some k).
      { apply (search_spec Z.lt _ (Z_dir k) (Z_exact k) t k HS). split; [exact Hz|apply Z.compare_refl]. }
      congruence.
Qed.

Lemma key_tree_E : key_tree E.
Proof. split; [exists O; constructor|constructor]. Qed.

Lemma run_ops_ok l : forall t s, key_tree t -> keys t = s ->
  exists t', foldl (fun ot o => ot ≫= run_op o) (Some t) l = Some t' /\
    key_tree t' /\ keys t' = foldl spec_op s l.
Proof.
  induction l as [|o l IH]; intros t s Ht <-; cbn [foldl].
  - now exists t.
  - destruct (run_op_ok o t Ht) as (t1 & E1 & Ht1 & K1). cbn [mbind option_bind].
    rewrite E1. now apply IH.
Qed.

(** C5. The tree refines a finite set: after any sequence of insertions and
    erasures starting from the empty root, no [NULL] has been dereferenced, the
    red-black properties hold, the elements are in strict order, a search finds
    a key exactly when the set has it, and the height is at most twice the
    binary logarithm of the size plus one. *)
Theorem rbtree_refines_set l :
  exists t, run_ops l = Some t /\ rb_tree t /\ StronglySorted Z.lt (inorder t) /\
    (forall k, search (Z.compare k) t = Some k <-> k ∈ foldl spec_op ∅ l) /\
    (height t <= 2 * Nat.log2 (S (length (inorder t))))%nat.
Proof.
  destruct (run_ops_ok l E ∅ key_tree_E eq_refl) as (t & E1 & [Hrb HS] & K).
  exists t. split; [exact E1|]. split; [exact Hrb|]. split; [exact HS|].
  split; [|now apply rb_tree_height]. intros k.
  rewrite (search_spec Z.lt _ (Z_dir k) (Z_exact k) t k HS).
  assert (EK : k ∈ inorder t <-> k ∈ foldl spec_op ∅ l).
  { unfold keys in K. etransitivity; [symmetry; apply (elem_of_list_to_set (C := gset Z))|].
    now rewrite K. }
  rewrite <- EK. split; [tauto|]. intros H. split; [exact H|apply Z.compare_refl].
Qed.

End Keys.
