(* ===== verification/Iobus.v ===== *)
(** * Device dispatch (util/rbtree-interval.c, devices.c, ioport.c, mmio.c)

    The interval tree, the device registry built on the red-black tree, and the
    two buses that route guest accesses to emulated devices: port I/O and
    memory-mapped I/O. *)
From stdpp Require Import sorting.
From S2P Require Import Prelude Rbtree.
Open Scope Z_scope.

Module IntervalTree.
(** [struct rb_int_node] and the structure that embeds it. *)
Record rb_int_node (V : Type) := mkint { low : Z; high : Z; value : V }.
Arguments mkint {V}.
Arguments low {V}.
Arguments high {V}.
Arguments value {V}.

Section Interval.
Context {V : Type}.
#[local] Abbreviation rb_int_node := (rb_int_node V).

(** The walks of the two loops: where to go from [cur]. *)
Definition point_dir (point : Z) (cur : rb_int_node) : comparison :=
  if point <? low cur then Lt else if high cur <=? point then Gt else Eq.

Definition range_dir (lo hi : Z) (cur : rb_int_node) : comparison :=
  if hi <=? low cur then Lt else if high cur <=? lo then Gt else Eq.

Definition rb_int_search_single (root : tree rb_int_node) (point : Z)
    : option rb_int_node := search (point_dir point) root.

Definition rb_int_search_range (root : tree rb_int_node) (lo hi : Z)
    : option rb_int_node :=
  range ← rb_int_search_single root lo;
  if high range <? hi then None else Some range.

(** 0 or [-EEXIST], and the tree; [None] is a [NULL] dereference. *)
Definition rb_int_insert (root : tree rb_int_node) (i_node : rb_int_node)
    : option (Z * tree rb_int_node) :=
  match insert (range_dir (low i_node) (high i_node)) i_node root with
  | Some (linked, root) => Some (if (linked : bool) then 0 else - EEXIST, root)
  | None => None
  end.

(** [rb_int_erase]: the node is known by its interval's first point. *)
Definition rb_int_erase (root : tree rb_int_node) (node : rb_int_node)
    : option (tree rb_int_node) := erase (point_dir (low node)) root.

(** ** Disjoint ordered intervals *)

Definition int_lt (a b : rb_int_node) : Prop :=
  low a < high a /\ high a <= low b /\ low b < high b.

Definition int_tree (t : tree rb_int_node) : Prop :=
  rb_tree t /\ StronglySorted int_lt (inorder t) /\ Forall (fun a => low a < high a) (inorder t).

Definition in_int (point : Z) (a : rb_int_node) : Prop := low a <= point < high a.

Lemma point_dir_Eq point a : point_dir point a = Eq <-> in_int point a.
Proof.
  unfold point_dir, in_int. destruct (Z.ltb_spec point (low a)); [split; [discriminate|intros ?; exfalso; lia]|].
  destruct (Z.leb_spec (high a) point); split; intros ?; try discriminate; try (exfalso; lia); try reflexivity; lia.
Qed.

Lemma range_dir_Eq lo hi a : range_dir lo hi a = Eq <-> low a < hi /\ lo < high a.
Proof.
  unfold range_dir. destruct (Z.leb_spec hi (low a)); [split; [discriminate|intros ?; exfalso; lia]|].
  destruct (Z.leb_spec (high a) lo); split; intros ?; try discriminate; try (exfalso; lia); try reflexivity; lia.
Qed.

Lemma point_exact point : dir_exact int_lt (point_dir point).
Proof.
  constructor; [constructor|..]; intros a b (H1 & H2 & H3); unfold point_dir;
    repeat match goal with |- context [?x <? ?y] => destruct (Z.ltb_spec x y) end;
    repeat match goal with |- context [?x <=? ?y] => destruct (Z.leb_spec x y) end;
    intros; congruence || lia.
Qed.

Lemma range_compat lo hi : lo < hi -> dir_compat int_lt (range_dir lo hi).
Proof.
  intros Hlh. constructor; intros a b (H1 & H2 & H3); unfold range_dir;
    repeat match goal with |- context [?x <=? ?y] => destruct (Z.leb_spec x y) end;
    intros; congruence || lia.
Qed.

Lemma int_tree_E : int_tree E.
Proof. split; [exists O; constructor|split; constructor]. Qed.

Lemma sorted_nodup t : int_tree t -> NoDup (inorder t).
Proof.
  intros (_ & HS & HF). induction (inorder t) as [|a L IH]; constructor.
  - apply StronglySorted_inv in HS. destruct HS as [_ HL]. rewrite Forall_forall in HL.
    apply Forall_cons in HF. destruct HF as [Ha _]. intros Hin. specialize (HL a Hin).
    unfold int_lt in HL. lia.
  - apply IH; [now apply StronglySorted_inv in HS|now apply Forall_cons in HF].
Qed.

Lemma search_T {A} (dir : A -> comparison) c l x r :
  search dir (T c l x r) =
  match dir x with Lt => search dir l | Gt => search dir r | Eq => Some x end.
Proof.
  assert (H : forall t p q, fst (descend dir t p) = fst (descend dir t q)).
  { induction t as [|c' l' IHl x' r' IHr]; intros p q; [reflexivity|]. cbn.
    destruct (dir x'); auto. }
  unfold search. cbn. destruct (dir x); [reflexivity|now rewrite (H l _ [])|now rewrite (H r _ [])].
Qed.

(** A search returns the interval that holds the point, if there is one. *)
Lemma search_single_spec t point a : int_tree t ->
  rb_int_search_single t point = Some a <-> a ∈ inorder t /\ in_int point a.
Proof.
  intros (_ & HS & _). unfold rb_int_search_single.
  pose proof (point_exact point) as Hx.
  rewrite (search_spec int_lt _ (de_compat _ _ Hx) Hx t a HS). now rewrite point_dir_Eq.
Qed.

Lemma insert_disjoint t n : int_tree t -> low n < high n ->
  (forall a : rb_int_node, a ∈ inorder t -> high a <= low n \/ high n <= low a) ->
  exists t', rb_int_insert t n = Some (0, t') /\ int_tree t' /\
    forall a : rb_int_node, a ∈ inorder t' <-> a = n \/ a ∈ inorder t.
Proof.
  intros (Hrb & HS & HF) Hn Hd. unfold rb_int_insert.
  destruct (insert_spec int_lt _ (range_compat _ _ Hn) n t Hrb HS) as (b & t' & -> & Hrb' & Hb).
  destruct b.
  - destruct Hb as (L1 & L2 & G1 & G2 & F1 & F2). exists t'. split; [reflexivity|].
    assert (Hin : forall a : rb_int_node, a ∈ inorder t' <-> a = n \/ a ∈ inorder t).
    { intros a. rewrite G1, G2, !elem_of_app, elem_of_cons. tauto. }
    split; [|exact Hin]. split; [exact Hrb'|].
    rewrite Forall_forall in F1, F2, HF.
    split.
    + rewrite G2. rewrite G1 in HS. apply StronglySorted_app in HS. destruct HS as (HA & HB & HC).
      apply StronglySorted_app. split; [|split; [exact HB|]].
      * intros a c Ha Hc. apply elem_of_cons in Hc. destruct Hc as [->|Hc]; [|now apply HA].
        specialize (F1 a Ha). assert (Hat : a ∈ inorder t) by (rewrite G1, elem_of_app; auto).
        specialize (HF a Hat). destruct (Hd a Hat) as [H|H]; unfold int_lt; [lia|].
        unfold range_dir in F1. rewrite (proj2 (Z.leb_le _ _) H) in F1. discriminate.
      * constructor; [exact HC|]. rewrite Forall_forall. intros c Hc.
        specialize (F2 c Hc). assert (Hct : c ∈ inorder t) by (rewrite G1, elem_of_app; auto).
        specialize (HF c Hct). destruct (Hd c Hct) as [H|H]; unfold int_lt; [|lia].
        unfold range_dir in F2. rewrite (proj2 (Z.leb_le _ _) H) in F2.
        destruct (Z.leb_spec (high n) (low c)); [lia|discriminate].
    + rewrite Forall_forall. intros a Ha. apply Hin in Ha. destruct Ha as [->|Ha]; auto.
  - destruct Hb as (-> & y & Hy & Dy). apply range_dir_Eq in Dy. destruct (Hd y Hy); lia.
Qed.

Lemma insert_overlap t n a : int_tree t -> low n < high n ->
  a ∈ inorder t -> low a < high n -> low n < high a ->
  rb_int_insert t n = Some (- EEXIST, t).
Proof.
  intros (Hrb & HS & HF) Hn Ha H1 H2. unfold rb_int_insert.
  destruct (insert_spec int_lt _ (range_compat _ _ Hn) n t Hrb HS) as (b & t' & -> & Hrb' & Hb).
  destruct b; [|now destruct Hb as [-> _]].
  destruct Hb as (L1 & L2 & G1 & G2 & F1 & F2).
  assert (C : range_dir (low n) (high n) a = Eq) by (apply range_dir_Eq; lia).
  rewrite Forall_forall in F1, F2. rewrite G1, elem_of_app in Ha.
  destruct Ha as [Ha|Ha]; [rewrite (F1 a Ha) in C|rewrite (F2 a Ha) in C]; discriminate.
Qed.

Lemma erase_present t n : int_tree t -> n ∈ inorder t ->
  exists t', rb_int_erase t n = Some t' /\ int_tree t' /\
    forall a : rb_int_node, a ∈ inorder t' <-> a ∈ inorder t /\ a <> n.
Proof.
  intros HT Hn. pose proof HT as (Hrb & HS & HF). unfold rb_int_erase.
  pose proof (point_exact (low n)) as Hx. rewrite Forall_forall in HF.
  assert (Es : search (point_dir (low n)) t = Some n).
  { apply (search_single_spec t (low n) n HT). split; [exact Hn|].
    specialize (HF n Hn). unfold in_int. lia. }
  destruct (erase_spec int_lt _ (de_compat _ _ Hx) Hx t n Hrb HS Es)
    as (t' & E1 & Hrb' & L1 & L2 & G1 & G2 & F1 & F2).
  exists t'. split; [exact E1|].
  rewrite G1 in HS. apply StronglySorted_app in HS. destruct HS as (HA & HB & HC).
  apply StronglySorted_inv in HC. destruct HC as [HC HD]. rewrite Forall_forall in HD.
  assert (Hin : forall a : rb_int_node, a ∈ inorder t' <-> a ∈ inorder t /\ a <> n).
  { intros a. rewrite G1, G2, !elem_of_app, elem_of_cons. split; [|tauto].
    intros [Ha|Ha]; (split; [tauto|]); intros ->.
    - specialize (HA n n Ha ltac:(constructor)). unfold int_lt in HA. lia.
    - specialize (HD n Ha). unfold int_lt in HD. lia. }
  split; [|exact Hin]. split; [exact Hrb'|]. split.
  - rewrite G2. apply StronglySorted_app. split; [|split; [exact HB|exact HC]].
    intros a b Ha Hb. apply HA; [exact Ha|now constructor].
  - rewrite Forall_forall. intros a Ha. apply HF. now apply Hin.
Qed.
End Interval.
End IntervalTree.
Import IntervalTree.
Export IntervalTree.

(** ** The device registry (devices.c) and interrupt lines (irq.c) *)

Module Devices.

Definition DEVICE_BUS_PCI : Z := 0.
Definition DEVICE_BUS_MMIO : Z := 1.
Definition DEVICE_BUS_IOPORT : Z := 2.
Definition DEVICE_BUS_MAX : Z := 3.
Definition KVM_IRQ_OFFSET : Z := 5.
Definition IRQ_TYPE_EDGE_RISING : Z := 1.
Definition INT_MAX : Z := 2 ^ 31 - 1.

(** What a registered header leads to: the interrupt fields that registration
    writes in the PCI header or in the virtio-mmio device around it. *)
Inductive dev_data :=
| PciHdr (irq_pin irq_line irq_type : Z)
| VirtioMmio (irq : Z)
| IoportFdt.

Record device_header := mkdev { bus_type : Z; data : dev_data; dev_num : Z }.

Record device_bus := mkbus { root : tree device_header; next_num : Z }.

Record dev_state := mkdevs { device_trees : list device_bus; next_line : Z }.

Definition devs_init : dev_state :=
  mkdevs (replicate (Z.to_nat DEVICE_BUS_MAX) (mkbus E 0)) KVM_IRQ_OFFSET.

(** [next_line++] on a [u8]: the line and the new counter. *)
Definition irq__alloc_line (line : Z) : Z * Z := (line, u8 (line + 1)).

Definition irq__get_nr_allocated_lines (line : Z) : Z := line - KVM_IRQ_OFFSET.

Definition pci__assign_irq (d : dev_data) (line : Z) : option (dev_data * Z) :=
  match d with
  | PciHdr _ _ ty =>
      let '(irq_line, line) := irq__alloc_line line in
      Some (PciHdr 1 irq_line (if ty =? 0 then IRQ_TYPE_EDGE_RISING else ty), line)
  | _ => None
  end.

Definition virtio_mmio_assign_irq (d : dev_data) (line : Z) : option (dev_data * Z) :=
  match d with
  | VirtioMmio _ => let '(irq, line) := irq__alloc_line line in Some (VirtioMmio irq, line)
  | _ => None
  end.

Definition assign_irq (bus : Z) (d : dev_data) (line : Z) : option (dev_data * Z) :=
  if bus =? DEVICE_BUS_PCI then pci__assign_irq d line
  else if bus =? DEVICE_BUS_MMIO then virtio_mmio_assign_irq d line
  else Some (d, line).

Definition num_dir (n : Z) (d : device_header) : comparison := Z.compare n (dev_num d).

(** The result, the header as registration leaves it and the registry.
    [None] is behaviour C does not define: the counter overflows, or the header
    is not of the kind its bus expects. *)
Definition device__register (dev : device_header) (s : dev_state)
    : option (Z * device_header * dev_state) :=
  if DEVICE_BUS_MAX <=? bus_type dev then Some (- EINVAL, dev, s) else
  let i := Z.to_nat (bus_type dev) in
  bus ← device_trees s !! i;
  if next_num bus =? INT_MAX then None else
  let num := next_num bus in
  match assign_irq (bus_type dev) (data dev) (next_line s) with
  | None => None
  | Some (d, line) =>
      let dev := mkdev (bus_type dev) d num in
      match insert (num_dir num) dev (root bus) with
      | None => None
      | Some (linked, t) =>
          Some (if (linked : bool) then 0 else - EEXIST, dev,
                mkdevs (<[i := mkbus t (num + 1)]> (device_trees s)) line)
      end
  end.

Definition device__unregister (dev : device_header) (s : dev_state) : option dev_state :=
  let i := Z.to_nat (bus_type dev) in
  bus ← device_trees s !! i;
  t ← erase (num_dir (dev_num dev)) (root bus);
  Some (mkdevs (<[i := mkbus t (next_num bus)]> (device_trees s)) (next_line s)).

(** [ERR_PTR(-EINVAL)], [NULL] or the device. *)
Definition device__find_dev (bus_type dev_num : Z) (s : dev_state)
    : res (option device_header) :=
  if DEVICE_BUS_MAX <=? bus_type then Err (- EINVAL) else
  Ok (bus ← device_trees s !! Z.to_nat bus_type; search (num_dir (u8 dev_num)) (root bus)).

Definition device__first_dev (bus_type : Z) (s : dev_state) : option device_header :=
  if DEVICE_BUS_MAX <=? bus_type then None else
  bus ← device_trees s !! Z.to_nat bus_type; rb_first (root bus).

Definition device__next_dev (dev : device_header) (s : dev_state) : option device_header :=
  bus ← device_trees s !! Z.to_nat (bus_type dev);
  match descend (num_dir (dev_num dev)) (root bus) [] with
  | (T _ _ _ r, p) => rb_next r p
  | (E, _) => None
  end.

(** The loop of the callers: [for (d = first; d; d = next(d))]. *)
Fixpoint dev_walk (fuel : nat) (d : option device_header) (s : dev_state)
    : list device_header :=
  match fuel, d with
  | S fuel, Some d => d :: dev_walk fuel (device__next_dev d s) s
  | _, _ => []
  end.

(** *** Invariant *)

Definition num_lt (a b : device_header) : Prop := dev_num a < dev_num b.

Definition devs (s : dev_state) (i : Z) : list device_header :=
  match device_trees s !! Z.to_nat i with Some b => inorder (root b) | None => [] end.

Definition counter (s : dev_state) (i : Z) : Z :=
  match device_trees s !! Z.to_nat i with Some b => next_num b | None => 0 end.

Definition bus_ok (i : nat) (b : device_bus) : Prop :=
  rb_tree (root b) /\ StronglySorted num_lt (inorder (root b)) /\
  0 <= next_num b /\
  Forall (fun d => bus_type d = Z.of_nat i /\ 0 <= dev_num d < next_num b) (inorder (root b)).

Definition dev_ok (s : dev_state) : Prop :=
  length (device_trees s) = Z.to_nat DEVICE_BUS_MAX /\
  forall i b, device_trees s !! i = Some b -> bus_ok i b.

Lemma num_exact n : dir_exact num_lt (num_dir n).
Proof.
  constructor; [constructor|..]; unfold num_lt, num_dir; intros a b Hab H;
    rewrite ?Z.compare_lt_iff, ?Z.compare_gt_iff, ?Z.compare_eq_iff in *; lia.
Qed.

Lemma dev_ok_init : dev_ok devs_init.
Proof.
  split; [reflexivity|]. intros i b H. apply lookup_replicate in H. destruct H as [-> _].
  repeat split; cbn; [exists O; constructor|constructor|lia|constructor].
Qed.

Lemma dev_ok_bus s i : dev_ok s -> 0 <= i < DEVICE_BUS_MAX ->
  exists b, device_trees s !! Z.to_nat i = Some b /\ bus_ok (Z.to_nat i) b.
Proof.
  intros [HL HB] Hi. destruct (lookup_lt_is_Some_2 (device_trees s) (Z.to_nat i)) as [b Hb].
  - rewrite HL. unfold DEVICE_BUS_MAX in *. lia.
  - exists b. split; [exact Hb|now apply HB].
Qed.

(** Replacing one bus: what the other accessors see. *)
Lemma dev_ok_insert s i b line : dev_ok s -> 0 <= i < DEVICE_BUS_MAX -> bus_ok (Z.to_nat i) b ->
  let s' := mkdevs (<[Z.to_nat i := b]> (device_trees s)) line in
  dev_ok s' /\ devs s' i = inorder (root b) /\ counter s' i = next_num b /\
  (forall j, 0 <= j -> j <> i -> devs s' j = devs s j /\ counter s' j = counter s j).
Proof.
  intros [HL HB] Hi Hb. cbn zeta. unfold devs, counter. cbn [device_trees].
  assert (Hlt : (Z.to_nat i < length (device_trees s))%nat)
    by (rewrite HL; unfold DEVICE_BUS_MAX in *; lia).
  rewrite list_lookup_insert_eq by exact Hlt.
  split; [|split; [reflexivity|split; [reflexivity|]]].
  - split; [cbn; now rewrite length_insert|]. cbn [device_trees]. intros j b' H.
    destruct (decide (j = Z.to_nat i)) as [->|N].
    + rewrite list_lookup_insert_eq in H by exact Hlt. injection H as <-. exact Hb.
    + rewrite list_lookup_insert_ne in H by congruence. now apply HB.
  - intros j Hj N. rewrite list_lookup_insert_ne by lia. auto.
Qed.

Lemma register_spec dev s i : dev_ok s -> bus_type dev = i -> 0 <= i < DEVICE_BUS_MAX ->
  counter s i < INT_MAX ->
  assign_irq i (data dev) (next_line s) <> None ->
  exists dev' s', device__register dev s = Some (0, dev', s') /\ dev_ok s' /\
    bus_type dev' = i /\ dev_num dev' = counter s i /\
    devs s' i = devs s i ++ [dev'] /\ counter s' i = counter s i + 1 /\
    (forall j, 0 <= j -> j <> i -> devs s' j = devs s j /\ counter s' j = counter s j).
Proof.
  intros Hs <- Hi Hc Ha. set (i := bus_type dev) in *. unfold device__register.
  fold i. destruct (Z.leb_spec DEVICE_BUS_MAX i); [lia|].
  destruct (dev_ok_bus s i Hs Hi) as (b & Eb & Hrb & HS & Hn & HF).
  assert (EC : counter s i = next_num b) by (unfold counter; now rewrite Eb).
  assert (ED : devs s i = inorder (root b)) by (unfold devs; now rewrite Eb).
  rewrite EC, ED in *. rewrite Eb. cbn [mbind option_bind].
  destruct (Z.eqb_spec (next_num b) INT_MAX); [lia|].
  destruct (assign_irq i (data dev) (next_line s)) as [[d line]|]; [|congruence].
  set (dev' := mkdev i d (next_num b)).
  destruct (insert_spec num_lt _ (de_compat _ _ (num_exact (next_num b))) dev' (root b) Hrb HS)
    as (lk & t & -> & Hrb' & Hl).
  rewrite Forall_forall in HF.
  assert (HG : forall a, a ∈ inorder (root b) -> num_dir (next_num b) a = Gt).
  { intros a Ha'. apply Z.compare_gt_iff. apply HF in Ha'. lia. }
  destruct lk; [|destruct Hl as (_ & y & Hy & Dy); rewrite (HG y Hy) in Dy; discriminate].
  destruct Hl as (L1 & L2 & G1 & G2 & F1 & F2).
  assert (L2 = []) as ->.
  { destruct L2 as [|a L2]; [reflexivity|]. apply Forall_inv in F2.
    rewrite HG in F2; [discriminate|]. rewrite G1. apply elem_of_app. right. constructor. }
  rewrite app_nil_r in G1. subst L1.
  assert (Hb' : bus_ok (Z.to_nat i) (mkbus t (next_num b + 1))).
  { split; [exact Hrb'|]. cbn [root next_num]. rewrite G2. split; [|split; [lia|]].
    - apply StronglySorted_app. split; [|split; [exact HS|repeat constructor]].
      intros a c Ha' Hc'. apply list_elem_of_singleton in Hc'. subst c.
      apply HF in Ha'. unfold num_lt. cbn. lia.
    - apply Forall_app. split; [|constructor; [cbn; unfold DEVICE_BUS_MAX in Hi; lia|constructor]].
      rewrite Forall_forall. intros a Ha'. apply HF in Ha'. intuition lia. }
  destruct (dev_ok_insert s i _ line Hs Hi Hb') as (K1 & K2 & K3 & K4).
  exists dev', (mkdevs (<[Z.to_nat i := mkbus t (next_num b + 1)]> (device_trees s)) line).
  split; [reflexivity|]. split; [exact K1|]. split; [reflexivity|]. split; [reflexivity|].
  rewrite K2, K3. auto.
Qed.

Lemma unregister_spec d s i : dev_ok s -> 0 <= i < DEVICE_BUS_MAX -> d ∈ devs s i ->
  exists s', device__unregister d s = Some s' /\ dev_ok s' /\
    (exists L1 L2, devs s i = L1 ++ d :: L2 /\ devs s' i = L1 ++ L2) /\
    counter s' i = counter s i /\
    (forall j, 0 <= j -> j <> i -> devs s' j = devs s j /\ counter s' j = counter s j).
Proof.
  intros Hs Hi Hd. destruct (dev_ok_bus s i Hs Hi) as (b & Eb & Hrb & HS & Hn & HF).
  assert (ED : devs s i = inorder (root b)) by (unfold devs; now rewrite Eb).
  assert (EC : counter s i = next_num b) by (unfold counter; now rewrite Eb).
  rewrite ED, EC in *. pose proof (num_exact (dev_num d)) as Hx.
  pose proof HF as HF'. rewrite Forall_forall in HF'.
  destruct (HF' d Hd) as [Ebt _]. unfold device__unregister.
  replace (Z.to_nat (bus_type d)) with (Z.to_nat i) by lia. rewrite Eb. cbn [mbind option_bind].
  destruct (erase_spec num_lt _ (de_compat _ _ Hx) Hx (root b) d Hrb HS)
    as (t & -> & Hrb' & L1 & L2 & G1 & G2 & F1 & F2).
  { apply (search_spec num_lt _ (de_compat _ _ Hx) Hx _ d HS). split; [exact Hd|].
    apply Z.compare_refl. }
  cbn [mbind option_bind].
  assert (Hb' : bus_ok (Z.to_nat i) (mkbus t (next_num b))).
  { split; [exact Hrb'|]. cbn [root next_num]. rewrite G2. split; [|split; [exact Hn|]].
    - rewrite G1 in HS. apply StronglySorted_app in HS. destruct HS as (HA & HB & HC).
      apply StronglySorted_inv in HC. apply StronglySorted_app.
      split; [|split; [exact HB|apply HC]]. intros a c Ha Hc. apply HA; [exact Ha|now constructor].
    - rewrite G1 in HF. apply Forall_app in HF. destruct HF as [HF1 HF2].
      apply Forall_app. split; [exact HF1|now inversion HF2]. }
  destruct (dev_ok_insert s i _ (next_line s) Hs Hi Hb') as (K1 & K2 & K3 & K4).
  eexists. split; [reflexivity|]. split; [exact K1|]. rewrite K2, K3.
  split; [exists L1, L2; auto|auto].
Qed.

Lemma find_spec s i n d : dev_ok s -> 0 <= i < DEVICE_BUS_MAX -> 0 <= n < 256 ->
  device__find_dev i n s = Ok (Some d) <-> d ∈ devs s i /\ dev_num d = n.
Proof.
  intros Hs Hi Hn. destruct (dev_ok_bus s i Hs Hi) as (b & Eb & Hrb & HS & _).
  unfold device__find_dev, devs. destruct (Z.leb_spec DEVICE_BUS_MAX i); [lia|].
  rewrite Eb. cbn [mbind option_bind]. rewrite wrap_id by (unfold fits; lia).
  pose proof (num_exact n) as Hx.
  rewrite <- (Z.compare_eq_iff (dev_num d) n), Z.compare_antisym, CompOpp_iff.
  rewrite <- (search_spec num_lt _ (de_compat _ _ Hx) Hx _ d HS).
  split; [now intros [= ->]|now intros ->].
Qed.

Lemma first_spec s i : dev_ok s -> 0 <= i < DEVICE_BUS_MAX ->
  device__first_dev i s = head (devs s i).
Proof.
  intros Hs Hi. destruct (dev_ok_bus s i Hs Hi) as (b & Eb & _).
  unfold device__first_dev, devs. destruct (Z.leb_spec DEVICE_BUS_MAX i); [lia|].
  rewrite Eb. apply rb_first_head.
Qed.

(** Two ways to split a strictly sorted list at one element agree. *)
Lemma split_unique (L1 L2 M1 M2 : list device_header) d :
  StronglySorted num_lt (L1 ++ d :: L2) -> L1 ++ d :: L2 = M1 ++ d :: M2 -> L2 = M2.
Proof.
  revert M1. induction L1 as [|a L1 IH]; intros [|m M1] HS H; injection H; intros.
  - assumption.
  - subst. exfalso. apply StronglySorted_inv in HS. destruct HS as [_ HF].
    rewrite Forall_forall in HF. specialize (HF m ltac:(apply elem_of_app; right; constructor)).
    unfold num_lt in HF. lia.
  - subst. exfalso. apply StronglySorted_inv in HS. destruct HS as [_ HF].
    rewrite Forall_forall in HF. specialize (HF d ltac:(apply elem_of_app; right; constructor)).
    unfold num_lt in HF. lia.
  - apply StronglySorted_inv in HS. destruct HS as [HS _]. now apply (IH M1).
Qed.

Lemma next_spec s i L1 d L2 : dev_ok s -> 0 <= i < DEVICE_BUS_MAX ->
  devs s i = L1 ++ d :: L2 -> device__next_dev d s = head L2.
Proof.
  intros Hs Hi E. destruct (dev_ok_bus s i Hs Hi) as (b & Eb & Hrb & HS & _ & HF).
  unfold devs in E. rewrite Eb in E.
  rewrite Forall_forall in HF. destruct (HF d) as [Ebt _].
  { rewrite E. apply elem_of_app. right. constructor. }
  pose proof (num_exact (dev_num d)) as Hx.
  assert (Es : search (num_dir (dev_num d)) (root b) = Some d).
  { apply (search_spec num_lt _ (de_compat _ _ Hx) Hx _ d HS). split; [|apply Z.compare_refl].
    rewrite E. apply elem_of_app. right. constructor. }
  unfold device__next_dev. replace (Z.to_nat (bus_type d)) with (Z.to_nat i) by lia.
  rewrite Eb. cbn [mbind option_bind]. unfold search in Es.
  pose proof (descend_plug (num_dir (dev_num d)) (root b) []) as HP.
  destruct (descend (num_dir (dev_num d)) (root b) []) as [t q]. cbn [fst] in Es.
  destruct t as [|c l x r]; [discriminate|]. injection Es as ->.
  destruct HP as [HP _]. apply (f_equal inorder) in HP. rewrite inorder_plug in HP.
  cbn [plug inorder] in HP. rewrite rb_next_head. f_equal.
  symmetry. apply (split_unique L1 L2 (left_of q ++ inorder l) (inorder r ++ right_of q) d).
  - now rewrite <- E.
  - rewrite <- E, <- HP. list_norm.
Qed.

Lemma walk_spec s i L2 : forall L1 fuel, dev_ok s -> 0 <= i < DEVICE_BUS_MAX ->
  devs s i = L1 ++ L2 -> (length L2 <= fuel)%nat -> dev_walk fuel (head L2) s = L2.
Proof.
  induction L2 as [|d L2 IH]; intros L1 fuel Hs Hi E Hf; [now destruct fuel|].
  destruct fuel as [|fuel]; [cbn in Hf; lia|]. cbn [dev_walk head]. f_equal.
  rewrite (next_spec s i L1 d L2 Hs Hi E).
  apply (IH (L1 ++ [d])); [assumption..|rewrite E; list_norm|cbn in Hf; lia].
Qed.

(** *** The registry against a list per bus *)

Inductive dev_op := RegDev (d : device_header) | UnregDev (d : device_header).

(** A well-used registry: a known bus, the kind of header it expects, and only
    registered devices are unregistered. *)
Definition op_ok (o : dev_op) (s : dev_state) : Prop :=
  match o with
  | RegDev d => 0 <= bus_type d < DEVICE_BUS_MAX /\ counter s (bus_type d) < INT_MAX /\
                assign_irq (bus_type d) (data d) (next_line s) <> None
  | UnregDev d => 0 <= bus_type d < DEVICE_BUS_MAX /\ d ∈ devs s (bus_type d)
  end.

Inductive dev_step : dev_state -> dev_op -> dev_state -> Prop :=
| step_reg s d d' s' r : op_ok (RegDev d) s -> device__register d s = Some (r, d', s') ->
    dev_step s (RegDev d) s'
| step_unreg s d s' : op_ok (UnregDev d) s -> device__unregister d s = Some s' ->
    dev_step s (UnregDev d) s'.

Inductive dev_reach : dev_state -> Prop :=
| reach_init : dev_reach devs_init
| reach_step s o s' : dev_reach s -> dev_step s o s' -> dev_reach s'.

Lemma dev_reach_ok s : dev_reach s -> dev_ok s.
Proof.
  induction 1 as [|s o s' _ IH Hst]; [apply dev_ok_init|].
  destruct Hst as [s d d' s' r (H1 & H2 & H3) E|s d s' (H1 & H2) E].
  - destruct (register_spec d s _ IH eq_refl H1 H2 H3) as (d2 & s2 & E2 & Hok & _). congruence.
  - destruct (unregister_spec d s _ IH H1 H2) as (s2 & E2 & Hok & _). congruence.
Qed.

(** In every reachable registry, walking a bus with [device__first_dev] and
    [device__next_dev] visits every registered device once, in strictly
    increasing device number; [device__find_dev] finds exactly the registered
    device with that number; and one more registration never fails, gets the
    counter as its number and becomes the last device of the walk. *)
Theorem device_walk_complete s i (Hr : dev_reach s) (Hi : 0 <= i < DEVICE_BUS_MAX) :
  let L := devs s i in
  StronglySorted num_lt L /\
  dev_walk (length L) (device__first_dev i s) s = L /\
  (forall n d, 0 <= n < 256 ->
     device__find_dev i n s = Ok (Some d) <-> d ∈ L /\ dev_num d = n) /\
  (forall d, bus_type d = i -> op_ok (RegDev d) s ->
     exists d' s', device__register d s = Some (0, d', s') /\ dev_num d' = counter s i /\
       dev_walk (S (length L)) (device__first_dev i s') s' = L ++ [d']).
Proof.
  pose proof (dev_reach_ok s Hr) as Hs. cbn zeta.
  split; [|split; [|split]].
  - destruct (dev_ok_bus s i Hs Hi) as (b & Eb & _ & HS & _). unfold devs. now rewrite Eb.
  - rewrite (first_spec s i Hs Hi). now apply (walk_spec s i (devs s i) []).
  - intros n d Hn. now apply find_spec.
  - intros d Eb (_ & H2 & H3). rewrite Eb in H2, H3.
    destruct (register_spec d s i Hs Eb Hi H2 H3) as (d' & s' & E1 & Hs' & _ & E2 & E3 & _).
    exists d', s'. split; [exact E1|]. split; [exact E2|].
    rewrite (first_spec s' i Hs' Hi), <- E3.
    apply (walk_spec s' i (devs s' i) []); auto. rewrite E3, length_app. cbn. lia.
Qed.

Definition ex_dev : device_header := mkdev DEVICE_BUS_PCI (PciHdr 0 0 0) 0.

Definition ex_devs : dev_state :=
  match device__register ex_dev devs_init with Some (_, _, s) => s | None => devs_init end.

Lemma device_walk_complete_witness :
  dev_walk 1 (device__first_dev DEVICE_BUS_PCI ex_devs) ex_devs =
    [mkdev DEVICE_BUS_PCI (PciHdr 1 5 1) 0].
Proof.
  assert (H : dev_reach ex_devs).
  { apply (reach_step devs_init (RegDev ex_dev)); [apply reach_init|].
    apply (step_reg _ _ (mkdev DEVICE_BUS_PCI (PciHdr 1 5 1) 0) _ 0); [|reflexivity].
    repeat split; discriminate. }
  apply (proj1 (proj2 (device_walk_complete ex_devs DEVICE_BUS_PCI H ltac:(unfold DEVICE_BUS_MAX, DEVICE_BUS_PCI; lia)))).
Defined.

End Devices.
Export Devices.

(** ** Port I/O (ioport.c, x86/ioport.c) *)

Module Ioport.

Definition IOPORT_DBG : Z := 0xe0.
Definition IOPORT_START : Z := 0x6200.
Definition IOPORT_SIZE : Z := 0x400.
Definition IOPORT_EMPTY : Z := 0xffff.
Definition KVM_EXIT_IO_IN : Z := 0.
Definition KVM_EXIT_IO_OUT : Z := 1.

(** What handlers act on: the process's standard output and the rest. *)
Record machine (W : Type) := mkmachine { stdout : list Z; world : W }.
Arguments mkmachine {W}.
Arguments stdout {W}.
Arguments world {W}.

Section Bus.
Context {W : Type}.

(** A handler reads [ioport->priv], the port and the [size] bytes at [data]; it
    returns its verdict, the bytes as it leaves them and the machine. *)
Definition io_fn : Type := Z -> Z -> list Z -> machine W -> bool * list Z * machine W.

Record ioport_operations := mkops { io_in : option io_fn; io_out : option io_fn }.

(** [struct ioport], around its interval node. *)
Record ioport := mkioport { ops : ioport_operations; priv : Z; dev_hdr : device_header }.

Record iobus := mkiobus {
  ioport_tree : tree (rb_int_node ioport);
  free_io_port_idx : Z;
  devices : dev_state;
  br_locked : bool
}.

Definition iobus_init : iobus := mkiobus E 0 devs_init false.

(** [None]: the lock is held and never released; the caller waits for ever. *)
Definition br_write_lock (s : iobus) : option iobus :=
  if br_locked s then None
  else Some (mkiobus (ioport_tree s) (free_io_port_idx s) (devices s) true).

Definition br_write_unlock (s : iobus) : iobus :=
  mkiobus (ioport_tree s) (free_io_port_idx s) (devices s) false.

Definition ioport__find_free_port (s : iobus) : Z * iobus :=
  (u16 (IOPORT_START + free_io_port_idx s * IOPORT_SIZE),
   mkiobus (ioport_tree s) (u16 (free_io_port_idx s + 1)) (devices s) (br_locked s)).

Definition ioport_search (s : iobus) (addr : Z) : option (rb_int_node ioport) :=
  rb_int_search_single (ioport_tree s) addr.

(** The result is the port, or a negative error code. [malloc_ok] says whether
    the allocation succeeds. *)
Definition ioport__register (malloc_ok : bool) (port : Z) (ops : ioport_operations)
    (count param : Z) (s : iobus) : option (Z * iobus) :=
  s ← br_write_lock s;
  let '(port, s) := if port =? IOPORT_EMPTY then ioport__find_free_port s else (port, s) in
  t ← match ioport_search s port with
      | Some entry => rb_int_erase (ioport_tree s) entry
      | None => Some (ioport_tree s)
      end;
  if negb malloc_ok then
    Some (- ENOMEM, mkiobus t (free_io_port_idx s) (devices s) (br_locked s)) else
  let hdr := mkdev DEVICE_BUS_IOPORT IoportFdt 0 in
  let node h := mkint port (port + count) (mkioport ops param h) in
  match rb_int_insert t (node hdr) with
  | None => None
  | Some (r, t') =>
      if r <? 0 then
        Some (r, br_write_unlock (mkiobus t (free_io_port_idx s) (devices s) (br_locked s)))
      else
        match device__register hdr (devices s) with
        | None => None
        | Some (_, hdr, ds) =>
            (* the header is part of the entry already in the tree *)
            match rb_int_insert t (node hdr) with
            | None => None
            | Some (_, t') =>
                Some (port, br_write_unlock (mkiobus t' (free_io_port_idx s) ds (br_locked s)))
            end
        end
  end.

Definition ioport__unregister (port : Z) (s : iobus) : option (Z * iobus) :=
  s ← br_write_lock s;
  match ioport_search s port with
  | None => Some (- ENOENT, br_write_unlock s)
  | Some entry =>
      ds ← device__unregister (dev_hdr (value entry)) (devices s);
      t ← rb_int_erase (ioport_tree s) entry;
      Some (0, br_write_unlock (mkiobus t (free_io_port_idx s) ds (br_locked s)))
  end.

(** The loop of [ioport__unregister_all]; the measure is the size of the tree. *)
Fixpoint unregister_loop (fuel : nat) (s : iobus) : option iobus :=
  match rb_first (ioport_tree s) with
  | None => Some s
  | Some entry =>
      match fuel with
      | O => None
      | S fuel =>
          ds ← device__unregister (dev_hdr (value entry)) (devices s);
          t ← rb_int_erase (ioport_tree s) entry;
          unregister_loop fuel (mkiobus t (free_io_port_idx s) ds (br_locked s))
      end
  end.

Definition ioport__unregister_all (s : iobus) : option iobus :=
  unregister_loop (length (inorder (ioport_tree s))) s.

(** *** Emulation *)

(** One round of [while (count--)]: the handler for the direction, if any. *)
Definition io_round (entry : ioport) (port direction : Z) (ret : bool)
    (ptr : list Z) (m : machine W) : bool * list Z * machine W :=
  match (if direction =? KVM_EXIT_IO_IN then io_in (ops entry) else None),
        (if direction =? KVM_EXIT_IO_OUT then io_out (ops entry) else None) with
  | Some io_in, _ => io_in (priv entry) port ptr m
  | None, Some io_out => io_out (priv entry) port ptr m
  | None, None => (ret, ptr, m)
  end.

Fixpoint io_loop (entry : ioport) (port direction : Z) (size count off : nat)
    (ret : bool) (data : list Z) (m : machine W) : bool * list Z * machine W :=
  match count with
  | O => (ret, data, m)
  | S count =>
      let '(ret, chunk, m) := io_round entry port direction ret (slice off size data) m in
      io_loop entry port direction size count (off + size) ret (splice off chunk data) m
  end.

(** The line that [ioport_error] prints: direction, port, size, count. *)
Definition io_error : Type := Z * Z * Z * Z.

Definition kvm__emulate_io (ioport_debug : bool) (s : iobus) (port : Z) (data : list Z)
    (direction size count : Z) (m : machine W)
    : bool * list Z * machine W * option io_error :=
  let '(ret, data, m, count) :=
    match ioport_search s port with
    | None => (false, data, m, count)
    | Some entry =>
        let '(ret, data, m) := io_loop (value entry) port direction (Z.to_nat size)
                                 (Z.to_nat count) 0 false data m in
        (ret, data, m, u32 (-1))
    end in
  if (ret : bool) then (true, data, m, None) else
  if ioport_debug then (false, data, m, Some (direction, port, size, count))
  else (true, data, m, None).

(** *** The legacy PC ports *)

Definition debug_io_out : io_fn := fun _ _ data m => (false, data, m).

Definition seabios_debug_io_out : io_fn := fun _ _ data m =>
  match data with
  | ch :: _ => (true, data, mkmachine (stdout m ++ [ch]) (world m))
  | [] => (true, data, m)
  end.

Definition dummy_io_in : io_fn := fun _ _ data m => (true, data, m).
Definition dummy_io_out : io_fn := fun _ _ data m => (true, data, m).

Definition ps2_control_a_io_in : io_fn := fun _ _ data m =>
  match data with _ :: data => (true, 0x02 :: data, m) | [] => (true, [], m) end.

Definition debug_ops := mkops None (Some debug_io_out).
Definition seabios_debug_ops := mkops None (Some seabios_debug_io_out).
Definition dummy_read_write_ioport_ops := mkops (Some dummy_io_in) (Some dummy_io_out).
Definition dummy_write_only_ioport_ops := mkops None (Some dummy_io_out).
Definition ps2_control_a_ops := mkops (Some ps2_control_a_io_in) (Some dummy_io_out).

(** The calls of [ioport__setup_arch], in order: port, operations, count. *)
Definition arch_ports : list (Z * ioport_operations * Z) :=
  [ (0x0000, dummy_read_write_ioport_ops, 32); (0x0020, dummy_read_write_ioport_ops, 2);
    (0x0040, dummy_read_write_ioport_ops, 4); (0x0092, ps2_control_a_ops, 1);
    (0x00A0, dummy_read_write_ioport_ops, 2); (0x00C0, dummy_read_write_ioport_ops, 32);
    (IOPORT_DBG, debug_ops, 1); (0x00ED, dummy_write_only_ioport_ops, 1);
    (0x00F0, dummy_write_only_ioport_ops, 2); (0x0278, dummy_read_write_ioport_ops, 3);
    (0x0378, dummy_read_write_ioport_ops, 3); (0x03D4, dummy_read_write_ioport_ops, 1);
    (0x03D5, dummy_write_only_ioport_ops, 1); (0x402, seabios_debug_ops, 1);
    (0x510, dummy_read_write_ioport_ops, 2) ].

Definition ioport__setup_arch (s : iobus) : option iobus :=
  foldl (fun os '(port, ops, count) =>
           os ≫= fun s => snd <$> ioport__register true port ops count 0 s)
        (Some s) arch_ports.

Definition ioport__init (s : iobus) : option (Z * iobus) :=
  s ← ioport__setup_arch s; Some (0, s).

Definition ioport__exit (s : iobus) : option (Z * iobus) :=
  s ← ioport__unregister_all s; Some (0, s).

(** *** Invariant *)

Record io_ok (s : iobus) : Prop := {
  io_tree : int_tree (ioport_tree s);
  io_devs : dev_ok (devices s);
  io_hdr : forall e, e ∈ inorder (ioport_tree s) ->
    dev_hdr (value e) ∈ devs (devices s) DEVICE_BUS_IOPORT;
  io_uniq : forall e e', e ∈ inorder (ioport_tree s) -> e' ∈ inorder (ioport_tree s) ->
    dev_num (dev_hdr (value e)) = dev_num (dev_hdr (value e')) -> e = e'
}.

Lemma io_ok_init : io_ok iobus_init.
Proof.
  constructor; [apply int_tree_E|apply dev_ok_init|..]; intros e; cbn;
    [intros H|intros e' H]; inversion H.
Qed.

Lemma search_Some s p e : io_ok s ->
  ioport_search s p = Some e <-> e ∈ inorder (ioport_tree s) /\ in_int p e.
Proof. intros H. apply search_single_spec, H. Qed.

(** The answer of a search from what the tree holds. *)
Lemma search_eq {V} (t : tree (rb_int_node V)) p o : int_tree t ->
  (forall a, o = Some a <-> a ∈ inorder t /\ in_int p a) -> rb_int_search_single t p = o.
Proof.
  intros Ht Ho. destruct (rb_int_search_single t p) as [a|] eqn:E1.
  - symmetry. apply Ho. now apply (search_single_spec t p a Ht).
  - destruct o as [a|]; [|reflexivity]. exfalso.
    assert (C : rb_int_search_single t p = Some a)
      by (apply (search_single_spec t p a Ht), Ho; reflexivity). congruence.
Qed.

(** The entry at [port] gives way to a new registration. *)
Definition evicted (s : iobus) (port p : Z) : option (rb_int_node ioport) :=
  match ioport_search s port with
  | Some e => if (low e <=? p) && (p <? high e) then None else ioport_search s p
  | None => ioport_search s p
  end.

Definition same_but_tree (s s' : iobus) : Prop :=
  free_io_port_idx s' = free_io_port_idx s /\ devices s' = devices s.

(** Removing the entry that answers at [port]. *)
Lemma evict_spec s port : io_ok s ->
  exists t, match ioport_search s port with
            | Some entry => rb_int_erase (ioport_tree s) entry
            | None => Some (ioport_tree s)
            end = Some t /\ int_tree t /\
    (forall a, a ∈ inorder t <-> a ∈ inorder (ioport_tree s) /\ ioport_search s port <> Some a) /\
    (forall p, rb_int_search_single t p = evicted s port p).
Proof.
  intros Hs. pose proof (io_tree s Hs) as Ht. unfold evicted.
  destruct (ioport_search s port) as [e|] eqn:Ee.
  - pose proof Ee as Ee'. apply (search_Some s port e Hs) in Ee'. destruct Ee' as [Hin Hp].
    destruct (erase_present _ e Ht Hin) as (t & E1 & Ht' & Hel).
    exists t. split; [exact E1|]. split; [exact Ht'|].
    split; [intros a; rewrite Hel; intuition congruence|].
    intros p. apply search_eq; [exact Ht'|]. intros a. rewrite Hel.
    destruct (_ && _) eqn:Ec; breflect.
    + split; [discriminate|]. intros [[Ha Hne] Hpa]. exfalso. apply Hne.
      assert (A : ioport_search s p = Some a) by now apply search_Some.
      assert (B : ioport_search s p = Some e)
        by (apply search_Some; [exact Hs|]; split; [exact Hin|unfold in_int; lia]).
      congruence.
    + rewrite (search_Some s p a Hs). split; [|tauto]. intros [Ha Hpa].
      split; [|exact Hpa]. split; [exact Ha|]. intros ->. unfold in_int in Hpa. lia.
  - exists (ioport_tree s). split; [reflexivity|]. split; [exact Ht|].
    split; [intros a; intuition congruence|reflexivity].
Qed.

(** No other device answers in the range. *)
Definition range_free (s : iobus) (port count : Z) : Prop :=
  forall p, port <= p < port + count ->
    ioport_search s p = None \/ ioport_search s p = ioport_search s port.

Lemma range_free_disjoint s port count a : io_ok s -> 0 < count -> range_free s port count ->
  a ∈ inorder (ioport_tree s) -> ioport_search s port <> Some a ->
  high a <= port \/ port + count <= low a.
Proof.
  intros Hs Hc Hf Ha Hne. destruct (io_tree s Hs) as (_ & _ & HF).
  rewrite Forall_forall in HF. specialize (HF a Ha).
  destruct (Z_le_gt_dec (high a) port); [auto|].
  destruct (Z_le_gt_dec (port + count) (low a)); [auto|]. exfalso.
  set (p := Z.max port (low a)).
  assert (A : ioport_search s p = Some a)
    by (apply search_Some; [exact Hs|]; split; [exact Ha|unfold in_int, p; lia]).
  destruct (Hf p ltac:(unfold p; lia)); congruence.
Qed.

Lemma with_free_port s : io_ok s -> io_ok (snd (ioport__find_free_port s)).
Proof. intros []. now constructor. Qed.

(** *** Registration and dispatch *)

Lemma register_free s port ops count param : io_ok s -> br_locked s = false ->
  port <> IOPORT_EMPTY -> 0 < count -> counter (devices s) DEVICE_BUS_IOPORT < INT_MAX ->
  range_free s port count ->
  exists e s', ioport__register true port ops count param s = Some (port, s') /\
    io_ok s' /\ br_locked s' = false /\
    e = mkint port (port + count) (mkioport ops param (dev_hdr (value e))) /\
    (forall p, ioport_search s' p =
       if (port <=? p) && (p <? port + count) then Some e else evicted s port p).
Proof.
  intros Hs Hl Hp Hc Hcnt Hf. unfold ioport__register, br_write_lock. rewrite Hl.
  cbn [mbind option_bind]. destruct (Z.eqb_spec port IOPORT_EMPTY); [congruence|].
  destruct (evict_spec s port Hs) as (t & E1 & Ht & Hel & Hse).
  unfold ioport_search in *. cbn [ioport_tree free_io_port_idx devices br_locked].
  rewrite E1. cbn [mbind option_bind negb].
  destruct (register_spec (mkdev DEVICE_BUS_IOPORT IoportFdt 0) (devices s) DEVICE_BUS_IOPORT)
    as (h & ds & E2 & Hds & Hty & Hnum & Hdevs & Hcnt' & _);
    [apply Hs|reflexivity|unfold DEVICE_BUS_IOPORT, DEVICE_BUS_MAX; lia|exact Hcnt|discriminate|].
  assert (Hdis : forall a, a ∈ inorder t -> high a <= port \/ port + count <= low a).
  { intros a Ha. apply Hel in Ha. destruct Ha. now apply (range_free_disjoint s port count). }
  set (node h := mkint port (port + count) (mkioport ops param h)).
  destruct (insert_disjoint t (node (mkdev DEVICE_BUS_IOPORT IoportFdt 0)) Ht) as (t1 & Ei1 & _ & _);
    [cbn; lia|exact Hdis|]. cbn zeta. unfold node in Ei1.
  rewrite Ei1. cbn [Z.ltb Z.compare]. rewrite E2.
  destruct (insert_disjoint t (node h) Ht) as (t2 & Ei2 & Ht2 & Hel2); [cbn; lia|exact Hdis|].
  pose proof Ei2 as Ei3. unfold node in Ei3. rewrite Ei3.
  exists (node h). eexists. split; [reflexivity|].
  assert (Hok : forall a, a ∈ inorder t -> a ∈ inorder (ioport_tree s)) by (intros a; apply Hel).
  assert (Hnew : forall a, a ∈ inorder t -> dev_num (dev_hdr (value a)) < dev_num h).
  { intros a Ha. rewrite Hnum. pose proof (io_hdr s Hs a (Hok a Ha)) as Hd.
    destruct (dev_ok_bus (devices s) DEVICE_BUS_IOPORT (io_devs s Hs)) as (b & Eb & _ & _ & _ & HF);
      [unfold DEVICE_BUS_IOPORT, DEVICE_BUS_MAX; lia|].
    unfold devs in Hd. unfold counter. rewrite Eb in *. rewrite Forall_forall in HF.
    now apply HF. }
  split; [|split; [reflexivity|split; [reflexivity|]]].
  - constructor; cbn [br_write_unlock ioport_tree devices]; [exact Ht2|exact Hds|..].
    + intros e He. rewrite Hdevs. apply elem_of_app. apply Hel2 in He.
      destruct He as [->|He]; [right; constructor|left]. now apply (io_hdr s Hs), Hok.
    + intros e e' He He' Heq. apply Hel2 in He, He'.
      destruct He as [->|He], He' as [->|He']; [reflexivity|..]; cbn in Heq;
        [apply Hnew in He'; lia|apply Hnew in He; lia|].
      apply (io_uniq s Hs); auto.
  - intros p. cbn [br_write_unlock ioport_tree]. apply search_eq; [exact Ht2|].
    intros a. rewrite Hel2. destruct (_ && _) eqn:Ec; breflect.
    + split; [intros [= <-]; split; [auto|unfold in_int, node; cbn; lia]|].
      intros [[->|Ha] Hpa]; [reflexivity|]. exfalso. unfold in_int in Hpa.
      destruct (Hdis a Ha); lia.
    + rewrite <- (Hse p), (search_single_spec t p a Ht). split; [tauto|].
      intros [[->|Ha] Hpa]; [|auto]. unfold in_int, node in Hpa. cbn in Hpa. lia.
Qed.

Lemma register_conflict s port ops count param p a : io_ok s -> br_locked s = false ->
  port <> IOPORT_EMPTY -> port <= p < port + count ->
  ioport_search s p = Some a -> ioport_search s port <> Some a ->
  exists s', ioport__register true port ops count param s = Some (- EEXIST, s') /\
    io_ok s' /\ br_locked s' = false /\ devices s' = devices s /\
    (forall p, ioport_search s' p = evicted s port p).
Proof.
  intros Hs Hl Hp Hc Hpa Hne. unfold ioport__register, br_write_lock. rewrite Hl.
  cbn [mbind option_bind]. destruct (Z.eqb_spec port IOPORT_EMPTY); [congruence|].
  destruct (evict_spec s port Hs) as (t & E1 & Ht & Hel & Hse).
  apply (search_Some s p a Hs) in Hpa. destruct Hpa as [Ha Hpa]. unfold in_int in Hpa.
  unfold ioport_search in *. cbn [ioport_tree free_io_port_idx devices br_locked].
  rewrite E1. cbn [mbind option_bind negb].
  rewrite (insert_overlap t _ a Ht); cbn [low high]; [|lia|apply Hel; auto|lia|lia].
  cbn [Z.ltb Z.compare Z.opp EEXIST]. eexists. split; [reflexivity|].
  split; [|split; [reflexivity|split; [reflexivity|exact Hse]]].
  constructor; cbn [br_write_unlock ioport_tree devices]; [exact Ht|apply Hs|..];
    intros e; [|intros e'; rewrite (Hel e')]; rewrite (Hel e); intros [He _];
    [now apply (io_hdr s Hs)|intros [He' _]; now apply (io_uniq s Hs)].
Qed.

(** A range is free or some other device answers in it. *)
Lemma range_cases s port count : io_ok s -> 0 < count ->
  range_free s port count \/
  exists p a, port <= p < port + count /\ ioport_search s p = Some a /\
    ioport_search s port <> Some a.
Proof.
  intros Hs Hc. destruct (evict_spec s port Hs) as (t & _ & Ht & Hel & _).
  destruct (decide (Exists (fun a => low a < port + count /\ port < high a) (inorder t)))
    as [H|H]; [right|left].
  - apply Exists_exists in H. destruct H as (a & Ha & H1 & H2). apply Hel in Ha.
    destruct Ha as [Ha Hne]. destruct (io_tree s Hs) as (_ & _ & HF).
    rewrite Forall_forall in HF. specialize (HF a Ha).
    exists (Z.max port (low a)), a. split; [lia|]. split; [|exact Hne].
    apply search_Some; [exact Hs|]. split; [exact Ha|unfold in_int; lia].
  - intros p Hp. destruct (ioport_search s p) as [a|] eqn:Ea; [|auto]. right.
    destruct (ioport_search s port) as [e|] eqn:Ee.
    + apply (search_Some s p a Hs) in Ea. destruct Ea as [Ha Hpa].
      destruct (decide (low e = low a)) as [Hle|Hle].
      * f_equal. symmetry. enough (C : ioport_search s (low a) = Some a /\
          ioport_search s (low a) = Some e) by (destruct C; congruence).
        destruct (io_tree s Hs) as (_ & _ & HF). rewrite Forall_forall in HF.
        apply (search_Some s port e Hs) in Ee. destruct Ee as [He Hpe].
        pose proof (HF a Ha). pose proof (HF e He).
        split; apply search_Some; auto; unfold in_int; split; auto; lia.
      * exfalso. apply H, Exists_exists. exists a. unfold in_int in Hpa.
        split; [apply Hel; split; [exact Ha|congruence]|lia].
    + exfalso. apply (search_Some s p a Hs) in Ea. destruct Ea as [Ha Hpa].
      apply H, Exists_exists. exists a. unfold in_int in Hpa.
      split; [apply Hel; split; [exact Ha|congruence]|lia].
Qed.

Lemma register_keeps_ok s port ops count param r s' : io_ok s -> br_locked s = false ->
  port <> IOPORT_EMPTY -> 0 < count -> counter (devices s) DEVICE_BUS_IOPORT < INT_MAX ->
  ioport__register true port ops count param s = Some (r, s') ->
  io_ok s' /\ br_locked s' = false.
Proof.
  intros Hs Hl Hp Hc Hcnt E. destruct (range_cases s port count Hs Hc) as [Hf|(p & a & H1 & H2 & H3)].
  - destruct (register_free s port ops count param Hs Hl Hp Hc Hcnt Hf) as (e & s2 & E2 & K & L & _).
    rewrite E in E2. now injection E2 as -> ->.
  - destruct (register_conflict s port ops count param p a Hs Hl Hp H1 H2 H3) as (s2 & E2 & K & L & _).
    rewrite E in E2. now injection E2 as -> ->.
Qed.

(** Removing an entry and its header together. *)
Lemma drop_entry s e idx lk : io_ok s -> e ∈ inorder (ioport_tree s) ->
  exists ds t, device__unregister (dev_hdr (value e)) (devices s) = Some ds /\
    rb_int_erase (ioport_tree s) e = Some t /\ io_ok (mkiobus t idx ds lk) /\
    (forall a, a ∈ inorder t <-> a ∈ inorder (ioport_tree s) /\ a <> e).
Proof.
  intros Hs He. destruct (erase_present _ e (io_tree s Hs) He) as (t & E1 & Ht & Hel).
  destruct (unregister_spec (dev_hdr (value e)) (devices s) DEVICE_BUS_IOPORT)
    as (ds & E2 & Hds & (L1 & L2 & D1 & D2) & _);
    [apply Hs|unfold DEVICE_BUS_IOPORT, DEVICE_BUS_MAX; lia|now apply (io_hdr s Hs)|].
  exists ds, t. split; [exact E2|]. split; [exact E1|]. split; [|exact Hel].
  constructor; cbn [ioport_tree devices]; [exact Ht|exact Hds|..].
  - intros a Ha. apply Hel in Ha. destruct Ha as [Ha Hne].
    pose proof (io_hdr s Hs a Ha) as Hd. rewrite D1 in Hd. rewrite D2.
    rewrite elem_of_app, elem_of_cons in Hd. rewrite elem_of_app.
    destruct Hd as [|[Hd|]]; [auto| |auto].
    exfalso. apply Hne, (io_uniq s Hs); [exact Ha|exact He|now rewrite Hd].
  - intros a a'. rewrite !Hel. intros [Ha _] [Ha' _]. now apply (io_uniq s Hs).
Qed.

Lemma unregister_loop_spec n : forall s, io_ok s -> length (inorder (ioport_tree s)) = n ->
  exists s', unregister_loop n s = Some s' /\ io_ok s' /\ inorder (ioport_tree s') = [] /\
    br_locked s' = br_locked s /\ free_io_port_idx s' = free_io_port_idx s.
Proof.
  induction n as [|n IH]; intros s Hs Hn.
  - cbn [unregister_loop]. rewrite rb_first_head.
    destruct (inorder (ioport_tree s)) eqn:EL; [|discriminate]. exists s. auto.
  - cbn [unregister_loop]. rewrite rb_first_head.
    destruct (inorder (ioport_tree s)) as [|e L] eqn:EL; [discriminate|]. cbn [head].
    assert (He : e ∈ inorder (ioport_tree s)) by (rewrite EL; constructor).
    destruct (drop_entry s e (free_io_port_idx s) (br_locked s) Hs He)
      as (ds & t & E1 & E2 & Hs' & Hel).
    rewrite E1. cbn [mbind option_bind]. rewrite E2. cbn [mbind option_bind].
    destruct (IH _ Hs') as (s' & E3 & K1 & K2 & K3 & K4); [|exists s'; auto].
    cbn [ioport_tree].
    assert (P : Permutation (inorder t) L).
    { assert (NDt : NoDup (inorder t)) by apply sorted_nodup, Hs'.
      pose proof (sorted_nodup (ioport_tree s) (io_tree s Hs)) as ND. rewrite EL in ND.
      apply NoDup_cons in ND. destruct ND as [Hn1 Hn2].
      apply NoDup_Permutation; [exact NDt|exact Hn2|].
      intros a. rewrite Hel, EL, elem_of_cons. split; [tauto|].
      intros Ha. split; [auto|]. now intros ->. }
    rewrite P. cbn in Hn. lia.
Qed.

(** C9. Port registration and dispatch. On a sound bus, a registration whose
    range is free apart from the device already at its first port returns the
    port; afterwards the new device answers on exactly its range, the replaced
    device nowhere, and every other port as before. If another device answers
    in the range, the result is [-EEXIST]: the new device is not installed, yet
    the device that was at the first port has been dropped all the same. *)
Theorem ioport__register_dispatch s port ops count param
  (Hs : io_ok s) (Hl : br_locked s = false) (Hp : port <> IOPORT_EMPTY) (Hc : 0 < count)
  (Hcnt : counter (devices s) DEVICE_BUS_IOPORT < INT_MAX) :
  (range_free s port count ->
     exists e s', ioport__register true port ops count param s = Some (port, s') /\
       io_ok s' /\ br_locked s' = false /\
       e = mkint port (port + count) (mkioport ops param (dev_hdr (value e))) /\
       (forall p, ioport_search s' p =
          if (port <=? p) && (p <? port + count) then Some e else evicted s port p)) /\
  (forall p a, port <= p < port + count ->
     ioport_search s p = Some a -> ioport_search s port <> Some a ->
     exists s', ioport__register true port ops count param s = Some (- EEXIST, s') /\
       io_ok s' /\ br_locked s' = false /\ devices s' = devices s /\
       (forall p, ioport_search s' p = evicted s port p)).
Proof.
  split; [now apply register_free|]. intros p a Hr. now apply register_conflict.
Qed.

(** Unregistering undoes the dispatch: a port nobody answers gives
    [-ENOENT] and changes nothing; otherwise the device of the port answers
    nowhere any more, all other devices as before, and its header has left the
    device registry. [ioport__exit] leaves no device at all. *)
Theorem ioport__unregister_dispatch s port (Hs : io_ok s) (Hl : br_locked s = false) :
  (ioport_search s port = None ->
     exists s', ioport__unregister port s = Some (- ENOENT, s') /\ same_but_tree s s' /\
       ioport_tree s' = ioport_tree s /\ br_locked s' = false) /\
  (forall e, ioport_search s port = Some e ->
     exists s', ioport__unregister port s = Some (0, s') /\ io_ok s' /\ br_locked s' = false /\
       (forall p, ioport_search s' p = evicted s port p) /\
       ~ (exists e', e' ∈ inorder (ioport_tree s') /\ dev_hdr (value e') = dev_hdr (value e))) /\
  (exists s', ioport__exit s = Some (0, s') /\ forall p, ioport_search s' p = None).
Proof.
  unfold ioport__unregister, br_write_lock. rewrite Hl. cbn [mbind option_bind].
  change (ioport_search (mkiobus (ioport_tree s) (free_io_port_idx s) (devices s) true) port)
    with (ioport_search s port). split; [|split].
  - intros ->. eexists. split; [reflexivity|]. repeat split.
  - intros e Ee. rewrite Ee. pose proof Ee as Ee'. apply (search_Some s port e Hs) in Ee'.
    destruct Ee' as [He Hpe].
    destruct (drop_entry s e (free_io_port_idx s) false Hs He) as (ds & t & E1 & E2 & Hs' & Hel).
    cbn [devices ioport_tree]. rewrite E1. cbn [mbind option_bind]. rewrite E2.
    cbn [mbind option_bind]. eexists. split; [reflexivity|]. split; [exact Hs'|].
    split; [reflexivity|]. split.
    + destruct (evict_spec s port Hs) as (t' & E3 & _ & _ & Hse). rewrite Ee in E3.
      assert (t' = t) as -> by congruence. exact Hse.
    + cbn [br_write_unlock ioport_tree]. intros (e' & He' & Heq). apply Hel in He'.
      destruct He' as [He' Hne]. apply Hne, (io_uniq s Hs); auto. now rewrite Heq.
  - unfold ioport__exit, ioport__unregister_all.
    destruct (unregister_loop_spec _ s Hs eq_refl) as (s' & -> & Hs' & Hnil & _).
    exists s'. split; [reflexivity|]. intros p. apply search_eq; [apply Hs'|].
    intros a. rewrite Hnil. split; [discriminate|]. intros [H _]. inversion H.
Qed.

(** If the allocation of a registration fails, the function returns
    [-ENOMEM] without releasing the write lock (and with the device at the port
    already dropped): no later registration or unregistration ever returns. *)
Theorem ioport__register_enomem s port ops count param
  (Hs : io_ok s) (Hl : br_locked s = false) (Hp : port <> IOPORT_EMPTY) :
  exists s', ioport__register false port ops count param s = Some (- ENOMEM, s') /\
    (forall p, ioport_search s' p = evicted s port p) /\
    (forall ok port' ops' count' param', ioport__register ok port' ops' count' param' s' = None) /\
    (forall port', ioport__unregister port' s' = None).
Proof.
  unfold ioport__register at 1. unfold br_write_lock. rewrite Hl. cbn [mbind option_bind].
  destruct (Z.eqb_spec port IOPORT_EMPTY); [congruence|].
  destruct (evict_spec s port Hs) as (t & E1 & _ & _ & Hse).
  unfold ioport_search in *. cbn [ioport_tree free_io_port_idx devices br_locked].
  rewrite E1. cbn [mbind option_bind negb]. eexists. split; [reflexivity|].
  split; [exact Hse|]. split; reflexivity.
Qed.

(** Ports allocated by [IOPORT_EMPTY] registrations: the first 39 blocks of
    [IOPORT_SIZE] ports lie one after the other between [IOPORT_START] and the
    end of the port space; the next one, at [0xfe00], does not fit any more and
    the one after has wrapped around to port [0x200], among the legacy ports.
    Any 64 consecutive allocations start on different ports. *)
Theorem find_free_port_bounds s :
  let port k := fst (ioport__find_free_port
                       (mkiobus (ioport_tree s) (u16 k) (devices s) (br_locked s))) in
  (forall k, 0 <= k < 39 -> port k = IOPORT_START + k * IOPORT_SIZE /\
     port k + IOPORT_SIZE <= 2 ^ 16) /\
  port 39 = 0xfe00 /\ port 40 = 0x200 /\
  (forall j k, 0 <= j -> j < k < j + 64 -> k < 2 ^ 16 -> port j <> port k).
Proof.
  cbn zeta. unfold ioport__find_free_port, IOPORT_START, IOPORT_SIZE. cbn [fst free_io_port_idx].
  split; [|split; [reflexivity|split; [reflexivity|]]].
  - intros k Hk. unfold wrap. rewrite (Z.mod_small k) by lia. rewrite Z.mod_small by lia. lia.
  - intros j k Hj Hk Hk2. unfold wrap. rewrite (Z.mod_small j), (Z.mod_small k) by lia.
    change (2 ^ 16) with 65536. pose proof (Z.div_mod (25088 + j * 1024) 65536 ltac:(lia)).
    pose proof (Z.div_mod (25088 + k * 1024) 65536 ltac:(lia)). lia.
Qed.

(** *** String I/O: the loop is a fold of the handler over the chunks *)

Fixpoint run_chunks (f : bool -> list Z -> machine W -> bool * list Z * machine W)
    (ret : bool) (cs : list (list Z)) (m : machine W) : bool * list (list Z) * machine W :=
  match cs with
  | [] => (ret, [], m)
  | c :: cs =>
      let '(ret, c, m) := f ret c m in
      let '(ret, cs, m) := run_chunks f ret cs m in
      (ret, c :: cs, m)
  end.

Definition keeps_length (f : bool -> list Z -> machine W -> bool * list Z * machine W)
    (size : nat) : Prop :=
  forall ret c m, length c = size -> length (snd (fst (f ret c m))) = size.

Lemma io_loop_chunks entry port direction size cs :
  keeps_length (io_round entry port direction) size ->
  Forall (fun c => length c = size) cs -> forall pre ret m,
  io_loop entry port direction size (length cs) (length pre) ret (pre ++ concat cs) m =
  let '(ret, cs, m) := run_chunks (io_round entry port direction) ret cs m in
  (ret, pre ++ concat cs, m).
Proof.
  intros Hk. induction 1 as [|c cs Hc Hcs IH]; intros pre ret m; [reflexivity|].
  cbn [length io_loop run_chunks concat].
  assert (E1 : slice (length pre) size (pre ++ c ++ concat cs) = c).
  { unfold slice. rewrite drop_app_length. now rewrite <- Hc, take_app_length. }
  rewrite E1. pose proof (Hk ret c m Hc) as HL.
  destruct (io_round entry port direction ret c m) as [[ret1 c1] m1]. cbn [fst snd] in HL.
  assert (E2 : splice (length pre) c1 (pre ++ c ++ concat cs) = (pre ++ c1) ++ concat cs).
  { unfold splice. rewrite take_app_length, drop_app_add, HL, <- Hc, drop_app_length.
    list_norm. }
  rewrite E2. replace (length pre + size)%nat with (length (pre ++ c1))
    by (rewrite length_app; lia).
  rewrite IH. destruct (run_chunks _ ret1 cs m1) as [[ret2 cs2] m2].
  cbn [concat]. now rewrite <- app_assoc.
Qed.

(** A port access of [count] elements of [size] bytes runs the device's
    handler for the direction on each element in order, threading the machine;
    the buffer holds what the handler left there, and the access succeeds when
    the last call did. With [ioport_debug] a failed access is reported, and the
    reported count is the wrapped loop counter, not the count of the access; a
    port that no device claims fails the same way, with the right count. *)
Theorem kvm__emulate_io_chunks ioport_debug s port direction size cs m
  (Hcs : Forall (fun c => length c = Z.to_nat size) cs) :
  match ioport_search s port with
  | Some entry =>
      keeps_length (io_round (value entry) port direction) (Z.to_nat size) ->
      kvm__emulate_io ioport_debug s port (concat cs) direction size (Z.of_nat (length cs)) m =
      let '(ret, cs', m') := run_chunks (io_round (value entry) port direction) false cs m in
      (ret || negb ioport_debug, concat cs', m',
       if negb ret && ioport_debug then Some (direction, port, size, 2 ^ 32 - 1) else None)
  | None =>
      kvm__emulate_io ioport_debug s port (concat cs) direction size (Z.of_nat (length cs)) m =
      (negb ioport_debug, concat cs, m,
       if ioport_debug then Some (direction, port, size, Z.of_nat (length cs)) else None)
  end.
Proof.
  unfold kvm__emulate_io. destruct (ioport_search s port) as [entry|].
  - intros Hk. rewrite Nat2Z.id. pose proof (io_loop_chunks (value entry) port direction
      (Z.to_nat size) cs Hk Hcs [] false m) as E1. cbn [length app] in E1. rewrite E1.
    destruct (run_chunks _ false cs m) as [[ret cs'] m']. now destruct ret, ioport_debug.
  - now destruct ioport_debug.
Qed.

(** *** The machine's ports after initialisation *)

(** The row of [arch_ports] that covers a port. *)
Definition arch_owner (p : Z) : option ioport_operations :=
  (fun r => r.1.2) <$> head (filter (fun r => r.1.1 <= p < r.1.1 + r.2) arch_ports).

Definition arch_bus : iobus :=
  match ioport__init iobus_init with Some (_, s) => s | None => iobus_init end.

(** A row of the table keeps the bus sound. *)
Lemma arch_row_ok s port ops count s' : io_ok s /\ br_locked s = false ->
  negb (port =? IOPORT_EMPTY) && (0 <? count) &&
    (counter (devices s) DEVICE_BUS_IOPORT <? INT_MAX) = true ->
  snd <$> ioport__register true port ops count 0 s = Some s' ->
  io_ok s' /\ br_locked s' = false.
Proof.
  intros [Hs Hl] Hb E. breflect.
  destruct (ioport__register true port ops count 0 s) as [[r s2]|] eqn:E2; [|discriminate].
  injection E as <-. now apply (register_keeps_ok s port ops count 0 r).
Qed.

(** Every row is registrable where it comes (a check that evaluates). *)
Fixpoint rows_ok (l : list (Z * ioport_operations * Z)) (s : iobus) : bool :=
  match l with
  | [] => true
  | (port, ops, count) :: l =>
      negb (port =? IOPORT_EMPTY) && (0 <? count) &&
        (counter (devices s) DEVICE_BUS_IOPORT <? INT_MAX) &&
      match snd <$> ioport__register true port ops count 0 s with
      | Some s => rows_ok l s
      | None => false
      end
  end.

Lemma rows_keep_ok l : forall s s', rows_ok l s = true -> io_ok s /\ br_locked s = false ->
  foldl (fun os '(port, ops, count) =>
           os ≫= fun s => snd <$> ioport__register true port ops count 0 s) (Some s) l = Some s' ->
  io_ok s' /\ br_locked s' = false.
Proof.
  induction l as [|[[port ops] count] l IH]; intros s s' Hr Hs E; [now injection E as <-|].
  cbn [rows_ok foldl] in *. cbn [mbind option_bind] in E.
  apply andb_prop in Hr. destruct Hr as [Hb Hr].
  destruct (snd <$> ioport__register true port ops count 0 s) as [s1|] eqn:E1; [|discriminate].
  apply (IH s1 s' Hr); [|exact E]. now apply (arch_row_ok s port ops count).
Qed.

Lemma arch_bus_ok : io_ok arch_bus /\ br_locked arch_bus = false.
Proof.
  assert (E : ioport__setup_arch iobus_init = Some arch_bus) by (vm_compute; reflexivity).
  apply (rows_keep_ok arch_ports iobus_init); [vm_compute; reflexivity| |exact E].
  split; [apply io_ok_init|reflexivity].
Qed.

(** After [ioport__init] every call of [ioport__setup_arch] has succeeded:
    each port of the 16-bit space is answered by the operations of the one row
    that covers it, and the other ports by nobody. *)
Theorem ioport__init_ports :
  ioport__init iobus_init = Some (0, arch_bus) /\ io_ok arch_bus /\ br_locked arch_bus = false /\
  (forall p, (fun e => ops (value e)) <$> ioport_search arch_bus p = arch_owner p) /\
  length (devs (devices arch_bus) DEVICE_BUS_IOPORT) = length arch_ports.
Proof.
  assert (E1 : exists s, arch_bus = s /\ ioport__init iobus_init = Some (0, s)).
  { eexists. split; [reflexivity|]. vm_compute. reflexivity. }
  destruct E1 as (s & Es & E1). split; [now rewrite E1, Es|].
  split; [apply arch_bus_ok|]. split; [apply arch_bus_ok|]. split; [|vm_compute; reflexivity].
  intros p. unfold ioport_search, rb_int_search_single, arch_owner, arch_ports, IOPORT_DBG.
  set (t := ioport_tree arch_bus). vm_compute in t. subst t.
  repeat (rewrite search_T; unfold point_dir at 1; cbn [low high];
    match goal with |- context [p <? ?y] => destruct (Z.ltb_spec p y); [|
      match goal with |- context [?x <=? p] => destruct (Z.leb_spec x p) end] end; try (exfalso; lia));
  cbn [search descend fst fmap option_fmap option_map value ops];
  repeat first [rewrite filter_cons_True by (cbn; lia)
               |rewrite filter_cons_False by (cbn; lia)|rewrite filter_nil];
  reflexivity.
Qed.

Lemma seabios_run entry n ret m :
  io_out (ops entry) = Some seabios_debug_io_out ->
  run_chunks (io_round entry n KVM_EXIT_IO_OUT) ret [] m = (ret, [], m) /\
  forall bs, bs <> [] ->
  run_chunks (io_round entry n KVM_EXIT_IO_OUT) ret (map (fun b => [b]) bs) m =
  (true, map (fun b => [b]) bs, mkmachine (stdout m ++ bs) (world m)).
Proof.
  intros Ho. split; [reflexivity|]. intros bs. revert ret m.
  induction bs as [|b bs IH]; intros ret m H; [congruence|].
  cbn [map run_chunks]. unfold io_round at 1. rewrite Ho. cbn [KVM_EXIT_IO_OUT KVM_EXIT_IO_IN Z.eqb].
  cbn. destruct bs as [|b' bs]; [reflexivity|]. rewrite IH by discriminate.
  cbn [stdout world]. now rewrite <- app_assoc.
Qed.

Lemma concat_singletons (bs : list Z) : concat (map (fun b => [b]) bs) = bs.
Proof. induction bs as [|b bs IH]; cbn; [reflexivity|now rewrite IH]. Qed.

(** The guest's firmware console: after initialisation, a string written
    to port 0x402 appears on the standard output byte for byte, and nothing else
    changes; a one-byte read of the "fast A20 gate" port says A20 is enabled. *)
Theorem seabios_console bs ioport_debug m (Hbs : bs <> []) :
  kvm__emulate_io ioport_debug arch_bus 0x402 bs KVM_EXIT_IO_OUT 1
    (Z.of_nat (length bs)) m = (true, bs, mkmachine (stdout m ++ bs) (world m), None) /\
  (forall b, kvm__emulate_io ioport_debug arch_bus 0x92 [b] KVM_EXIT_IO_IN 1 1 m =
     (true, [2], m, None)).
Proof.
  split; [|intros b; vm_compute; reflexivity].
  assert (E1 : exists e, ioport_search arch_bus 0x402 = Some e /\
                         io_out (ops (value e)) = Some seabios_debug_io_out)
    by (eexists; split; [vm_compute; reflexivity|reflexivity]).
  destruct E1 as (e & Ee & Eo). unfold kvm__emulate_io. rewrite Ee, Nat2Z.id.
  change (Z.to_nat 1) with 1%nat.
  pose proof (io_loop_chunks (value e) 0x402 KVM_EXIT_IO_OUT 1 (map (fun b => [b]) bs)) as HC.
  rewrite length_map in HC. specialize (HC ltac:(
    intros ret c m' Hc; unfold io_round; rewrite Eo; cbn;
    destruct c as [|b [|? ?]]; [discriminate|reflexivity|discriminate])
    ltac:(apply Forall_map, Forall_true; reflexivity) [] false m).
  cbn [length app] in HC. rewrite concat_singletons in HC. rewrite HC.
  rewrite (proj2 (seabios_run (value e) 0x402 false m Eo) bs Hbs), concat_singletons.
  reflexivity.
Qed.

End Bus.


(** *** Witnesses *)

Definition W0 : machine unit := mkmachine [] tt.

Lemma ioport__register_dispatch_witness :
  exists s', ioport__register true 0x21 dummy_read_write_ioport_ops 0x30 0 (@arch_bus unit) =
    Some (- EEXIST, s') /\ forall p, ioport_search s' p = evicted arch_bus 0x21 p.
Proof.
  destruct (ioport__register_dispatch (@arch_bus unit) 0x21 dummy_read_write_ioport_ops 0x30 0
    (proj1 arch_bus_ok) (proj2 arch_bus_ok) ltac:(discriminate) ltac:(lia) ltac:(vm_compute; reflexivity))
    as [_ H].
  assert (E1 : exists a, ioport_search (@arch_bus unit) 0x40 = Some a /\
                         ioport_search (@arch_bus unit) 0x21 <> Some a).
  { eexists. split; [vm_compute; reflexivity|vm_compute; discriminate]. }
  destruct E1 as (a & Ea & Hne).
  destruct (H 0x40 a ltac:(lia) Ea Hne) as (s' & E & _ & _ & _ & Hs'). eauto.
Defined.

Lemma ioport__unregister_dispatch_witness :
  exists s', ioport__exit (@arch_bus unit) = Some (0, s') /\ forall p, ioport_search s' p = None.
Proof. apply (ioport__unregister_dispatch (@arch_bus unit) 0x40 (proj1 arch_bus_ok) (proj2 arch_bus_ok)). Defined.

Lemma ioport__register_enomem_witness :
  exists s', ioport__register false 0x40 dummy_read_write_ioport_ops 4 0 (@arch_bus unit) =
    Some (- ENOMEM, s') /\ forall port, ioport__unregister port s' = None.
Proof.
  destruct (ioport__register_enomem (@arch_bus unit) 0x40 dummy_read_write_ioport_ops 4 0
    (proj1 arch_bus_ok) (proj2 arch_bus_ok) ltac:(discriminate)) as (s' & E & _ & _ & H).
  eauto.
Defined.

Lemma kvm__emulate_io_chunks_witness :
  kvm__emulate_io true arch_bus 0xe0 (concat [[1]; [2]]) KVM_EXIT_IO_OUT 1 2 W0 =
  (false, [1; 2], W0, Some (KVM_EXIT_IO_OUT, 0xe0, 1, 2 ^ 32 - 1)).
Proof.
  pose proof (kvm__emulate_io_chunks true arch_bus 0xe0 KVM_EXIT_IO_OUT 1 [[1]; [2]] W0
    ltac:(repeat constructor)) as H.
  assert (E1 : exists e, ioport_search (@arch_bus unit) 0xe0 = Some e /\
                         ops (value e) = debug_ops)
    by (eexists; split; [vm_compute; reflexivity|reflexivity]).
  destruct E1 as (e & Ee & Eo). rewrite Ee in H. unfold io_round in H. rewrite Eo in H.
  apply H. intros ret c m Hc. exact Hc.
Defined.

Lemma seabios_console_witness :
  kvm__emulate_io false arch_bus 0x402 [79; 75] KVM_EXIT_IO_OUT 1 2 W0 =
  (true, [79; 75], mkmachine [79; 75] tt, None).
Proof. apply (seabios_console [79; 75] false W0). discriminate. Defined.

End Ioport.

(** ** Memory-mapped I/O (mmio.c) *)

Module Mmio.
Section Bus.
Context {M : Type}.

(** [mmio_fn(vcpu, addr, data, len, is_write, ptr)]: the data as the handler
    leaves it and the machine. *)
Definition mmio_fn : Type := Z -> list Z -> Z -> bool -> Z -> M -> list Z * M.

Record mmio_mapping := mkmmio { handler : mmio_fn; ptr : Z }.

(** The requests the code makes of [/dev/kvm] for coalesced zones. *)
Inductive zone_ioctl :=
| KVM_REGISTER_COALESCED_MMIO (addr size : Z)
| KVM_UNREGISTER_COALESCED_MMIO (addr size : Z).

Record mmio_bus := mkmmiobus {
  mmio_tree : tree (rb_int_node mmio_mapping);
  ioctls : list zone_ioctl
}.

Definition mmio_init : mmio_bus := mkmmiobus E [].

Definition mmio_search (s : mmio_bus) (addr len : Z) : option (rb_int_node mmio_mapping) :=
  rb_int_search_range (mmio_tree s) addr (u64 (addr + len)).

Definition mmio_search_single (s : mmio_bus) (addr : Z) : option (rb_int_node mmio_mapping) :=
  rb_int_search_single (mmio_tree s) addr.

(** [ioctl_errno] is 0, or the [errno] of the failed zone registration. *)
Definition kvm__register_mmio (malloc_ok : bool) (ioctl_errno : Z) (phys_addr phys_addr_len : Z)
    (coalesce : bool) (mmio_fn : mmio_fn) (ptr : Z) (s : mmio_bus) : option (Z * mmio_bus) :=
  if negb malloc_ok then Some (- ENOMEM, s) else
  let mmio := mkint phys_addr (u64 (phys_addr + phys_addr_len)) (mkmmio mmio_fn ptr) in
  if coalesce && negb (ioctl_errno =? 0) then Some (- ioctl_errno, s) else
  let log := if coalesce
             then ioctls s ++ [KVM_REGISTER_COALESCED_MMIO phys_addr phys_addr_len]
             else ioctls s in
  match rb_int_insert (mmio_tree s) mmio with
  | Some (ret, t) => Some (ret, mkmmiobus t log)
  | None => None
  end.

Definition kvm__deregister_mmio (phys_addr : Z) (s : mmio_bus) : option (bool * mmio_bus) :=
  match mmio_search_single s phys_addr with
  | None => Some (false, s)
  | Some mmio =>
      t ← rb_int_erase (mmio_tree s) mmio;
      Some (true, mkmmiobus t (ioctls s ++ [KVM_UNREGISTER_COALESCED_MMIO phys_addr 1]))
  end.

(** The result, the data and the machine, and whether the access was ignored
    with a warning ([mmio_debug]). *)
Definition kvm__emulate_mmio (mmio_debug : bool) (s : mmio_bus) (phys_addr : Z)
    (data : list Z) (len : Z) (is_write : bool) (m : M) : bool * list Z * M * bool :=
  match mmio_search s phys_addr len with
  | Some mmio =>
      let '(data, m) := handler (value mmio) phys_addr data len is_write (ptr (value mmio)) m in
      (true, data, m, false)
  | None => (true, data, m, mmio_debug)
  end.

Definition mmio_ok (s : mmio_bus) : Prop :=
  int_tree (mmio_tree s) /\
  Forall (fun a => 0 <= low a /\ high a < 2 ^ 64) (inorder (mmio_tree s)).

Lemma mmio_ok_init : mmio_ok mmio_init.
Proof. split; [apply int_tree_E|constructor]. Qed.

Lemma mmio_search_spec s addr len a : mmio_ok s -> 0 <= addr -> 0 < len ->
  addr + len < 2 ^ 64 ->
  mmio_search s addr len = Some a <->
  a ∈ inorder (mmio_tree s) /\ low a <= addr /\ addr + len <= high a.
Proof.
  intros [Ht _] Ha Hl Hw. unfold mmio_search, rb_int_search_range.
  rewrite wrap_id by (unfold fits; lia).
  destruct (rb_int_search_single (mmio_tree s) addr) as [b|] eqn:Eb; cbn [mbind option_bind].
  - apply (search_single_spec _ addr b Ht) in Eb as Eb'. destruct Eb' as [Hb Hin].
    unfold in_int in Hin. destruct (Z.ltb_spec (high b) (addr + len)) as [Hh|Hh].
    + split; [discriminate|]. intros (Ha' & H1 & H2). exfalso.
      assert (C : rb_int_search_single (mmio_tree s) addr = Some a)
        by (apply search_single_spec; [exact Ht|]; split; [exact Ha'|unfold in_int; lia]).
      assert (a = b) by congruence. subst. lia.
    + split; [intros [= <-]; split; [exact Hb|lia]|]. intros (Ha' & H1 & H2).
      rewrite <- Eb. apply search_single_spec; [exact Ht|]. split; [exact Ha'|unfold in_int; lia].
  - split; [discriminate|]. intros (Ha' & H1 & H2). exfalso.
    assert (C : rb_int_search_single (mmio_tree s) addr = Some a)
      by (apply search_single_spec; [exact Ht|]; split; [exact Ha'|unfold in_int; lia]).
    congruence.
Qed.

(** A memory access reaches the handler of the region that contains all of
    it, which is unique; an access that no region contains entirely (it straddles
    a boundary, say) is dropped: the data and the machine stay as they are. The
    access is reported as handled in both cases. *)
Theorem kvm__emulate_mmio_dispatch mmio_debug s addr data len is_write m
  (Hs : mmio_ok s) (Ha : 0 <= addr) (Hl : 0 < len) (Hw : addr + len < 2 ^ 64) :
  (forall a, a ∈ inorder (mmio_tree s) -> low a <= addr -> addr + len <= high a ->
     kvm__emulate_mmio mmio_debug s addr data len is_write m =
     let '(data', m') := handler (value a) addr data len is_write (ptr (value a)) m in
     (true, data', m', false)) /\
  ((forall a, a ∈ inorder (mmio_tree s) -> ~ (low a <= addr /\ addr + len <= high a)) ->
     kvm__emulate_mmio mmio_debug s addr data len is_write m = (true, data, m, mmio_debug)).
Proof.
  unfold kvm__emulate_mmio. split.
  - intros a Hin H1 H2.
    assert (E : mmio_search s addr len = Some a) by (apply mmio_search_spec; auto).
    now rewrite E.
  - intros H. destruct (mmio_search s addr len) as [a|] eqn:E; [|reflexivity].
    apply mmio_search_spec in E; auto. destruct E as [Hin Hc]. now apply H in Hin.
Qed.

(** Registering a region that overlaps no other adds it to the regions;
    one that overlaps a region gives [-EEXIST] and the regions stay, but a
    coalesced zone requested for it stays registered with KVM. Deregistering the
    region at an address removes it and no other, and reports whether there was
    one. The bus stays sound throughout. *)
Theorem mmio_regions s addr len (coalesce : bool) fn p
  (Hs : mmio_ok s) (Ha : 0 <= addr) (Hl : 0 < len) (Hw : addr + len < 2 ^ 64) :
  let n := mkint addr (addr + len) (mkmmio fn p) in
  let log := if coalesce then ioctls s ++ [KVM_REGISTER_COALESCED_MMIO addr len] else ioctls s in
  ((forall a, a ∈ inorder (mmio_tree s) -> high a <= addr \/ addr + len <= low a) ->
     exists s', kvm__register_mmio true 0 addr len coalesce fn p s = Some (0, s') /\ mmio_ok s' /\
       ioctls s' = log /\
       forall a, a ∈ inorder (mmio_tree s') <-> a = n \/ a ∈ inorder (mmio_tree s)) /\
  (forall a, a ∈ inorder (mmio_tree s) -> low a < addr + len -> addr < high a ->
     kvm__register_mmio true 0 addr len coalesce fn p s =
       Some (- EEXIST, mkmmiobus (mmio_tree s) log)) /\
  (forall a, a ∈ inorder (mmio_tree s) -> in_int addr a ->
     exists s', kvm__deregister_mmio addr s = Some (true, s') /\ mmio_ok s' /\
       forall b, b ∈ inorder (mmio_tree s') <-> b ∈ inorder (mmio_tree s) /\ b <> a) /\
  ((forall a, a ∈ inorder (mmio_tree s) -> ~ in_int addr a) ->
     kvm__deregister_mmio addr s = Some (false, s)).
Proof.
  destruct Hs as [Ht HF]. cbn zeta. unfold kvm__register_mmio, kvm__deregister_mmio.
  rewrite wrap_id by (unfold fits; lia). cbn [negb Z.eqb andb]. rewrite andb_false_r.
  set (n := mkint addr (addr + len) (mkmmio fn p)). split; [|split; [|split]].
  - intros Hd. destruct (insert_disjoint (mmio_tree s) n Ht ltac:(cbn; lia) Hd)
      as (t & -> & Ht' & Hel).
    eexists. split; [reflexivity|]. split; [|split; [reflexivity|exact Hel]].
    split; [exact Ht'|]. rewrite Forall_forall in *. intros a Hin. apply Hel in Hin.
    destruct Hin as [->|Hin]; [cbn; lia|now apply HF].
  - intros a Hin H1 H2. now rewrite (insert_overlap (mmio_tree s) n a Ht) by (cbn; auto; lia).
  - intros a Hin Hp. assert (E : mmio_search_single s addr = Some a)
      by (apply search_single_spec; auto).
    rewrite E. destruct (erase_present _ a Ht Hin) as (t & -> & Ht' & Hel).
    eexists. split; [reflexivity|]. split; [|exact Hel]. split; [exact Ht'|].
    rewrite Forall_forall in *. intros b Hb. apply HF. now apply Hel.
  - intros H. destruct (mmio_search_single s addr) as [a|] eqn:E; [|reflexivity].
    apply (search_single_spec _ _ _ Ht) in E. destruct E as [Hin Hp]. now apply H in Hin.
Qed.

End Bus.

Definition echo : @mmio_fn nat := fun _ data _ _ _ m => (data, S m).

Definition ex_bus : @mmio_bus nat :=
  match kvm__register_mmio true 0 0x1000 0x200 false echo 0 mmio_init with
  | Some (_, s) => s | None => mmio_init end.

Lemma ex_bus_ok : mmio_ok ex_bus.
Proof.
  assert (E : ex_bus = mkmmiobus (T Black E (mkint 0x1000 0x1200 (mkmmio echo 0)) E) [])
    by (vm_compute; reflexivity).
  rewrite E. split; [|repeat constructor; cbn; lia].
  split; [|split; cbn; repeat constructor].
  exists 1%nat. repeat econstructor.
Qed.

Lemma kvm__emulate_mmio_dispatch_witness :
  kvm__emulate_mmio true ex_bus 0x1004 [7] 4 true 0%nat = (true, [7], 1%nat, false) /\
  kvm__emulate_mmio true ex_bus 0x11fe [7] 4 true 0%nat = (true, [7], 0%nat, true).
Proof.
  split.
  - apply (proj1 (kvm__emulate_mmio_dispatch true ex_bus 0x1004 [7] 4 true 0%nat ex_bus_ok
      ltac:(lia) ltac:(lia) ltac:(lia)) (mkint 0x1000 0x1200 (mkmmio echo 0)));
      cbn; [constructor|lia|lia].
  - apply (proj2 (kvm__emulate_mmio_dispatch true ex_bus 0x11fe [7] 4 true 0%nat ex_bus_ok
      ltac:(lia) ltac:(lia) ltac:(lia))).
    intros a Ha. apply list_elem_of_singleton in Ha. subst a. intros [_ H]. vm_compute in H.
    now apply H.
Defined.

Lemma mmio_regions_witness :
  kvm__register_mmio true 0 0x1100 0x200 true echo 0 ex_bus =
  Some (- EEXIST, mkmmiobus (mmio_tree ex_bus) [KVM_REGISTER_COALESCED_MMIO 0x1100 0x200]).
Proof.
  apply (proj1 (proj2 (mmio_regions ex_bus 0x1100 0x200 true echo 0 ex_bus_ok
      ltac:(lia) ltac:(lia) ltac:(lia))) (mkint 0x1000 0x1200 (mkmmio echo 0)));
      cbn; [constructor|lia|lia].
Defined.

End Mmio.
