(* ===== verification/QcowCache.v ===== *)
(** * The table caches of QCOW images (disk/qcow.c)

    Level-2 tables and refcount blocks are cached by the same code written
    twice: a red-black tree keyed by file offset for lookups and a list in order
    of use that decides which of at most [MAX_CACHE_NODES] nodes goes. *)
From stdpp Require Import sorting.
From S2P Require Import Prelude Rbtree.
Open Scope Z_scope.

Definition MAX_CACHE_NODES : Z := 32.

(** [struct qcow_l2_table], [struct qcow_refcount_block]: the offset is the key
    under which the node is found; the entries are bytes as on disk. *)
Record node := mknode { entries : list Z; dirty : bool }.

(** The caching fields of [struct qcow_l1_table] and
    [struct qcow_refcount_table]. *)
Record cache := mkcache {
  root : tree Z;
  nodes : gmap Z node;
  lru_list : list Z;
  nr_cached : Z
}.

Definition cache_init : cache := mkcache E ∅ [] 0.

(** [l2_table_lookup], [refcount_block_lookup]. *)
Definition cache_lookup (r : tree Z) (offset : Z) : option Z := search (Z.compare offset) r.

(** [l2_table_insert], [refcount_block_insert]; the flag says whether the node
    was linked (the function returns 0 even when it was not). *)
Definition tree_insert (r : tree Z) (offset : Z) : option (bool * tree Z) :=
  insert (Z.compare offset) offset r.

Definition list_move_tail (l : list Z) (x : Z) : list Z := filter (fun y => y <> x) l ++ [x].

(** [l2_table_search], [refcount_block_search]. *)
Definition cache_search (c : cache) (offset : Z) : option (node * cache) :=
  o ← cache_lookup (root c) offset;
  n ← nodes c !! o;
  Some (n, mkcache (root c) (nodes c) (list_move_tail (lru_list c) o) (nr_cached c)).

(** The replacement of the least recently used node. *)
Definition evict (c : cache) : out cache :=
  match lru_list c with
  | [] => Ub
  | lru :: rest =>
      match erase (Z.compare lru) (root c) with
      | Some r => Ret (mkcache r (delete lru (nodes c)) rest (nr_cached c - 1))
      | None => Ub
      end
  end.

(** [cache_table], [cache_refcount_block]. A node whose offset is in the tree
    already would go on the list without being in the tree, or twice on the
    list: the list or a later erasure is corrupted. *)
Definition cache_insert (c : cache) (offset : Z) (n : node) : out cache :=
  let! c := if nr_cached c =? MAX_CACHE_NODES then evict c else Ret c in
  match tree_insert (root c) offset with
  | Some (true, r) =>
      Ret (mkcache r (<[offset := n]> (nodes c)) (lru_list c ++ [offset]) (nr_cached c + 1))
  | _ => Ub
  end.

(** [l1_table_free_cache], [refcount_table_free_cache]. *)
Fixpoint free_cache (l : list Z) (c : cache) : out cache :=
  match l with
  | [] => Ret c
  | o :: l =>
      match erase (Z.compare o) (root c) with
      | Some r => free_cache l (mkcache r (delete o (nodes c)) l (nr_cached c))
      | None => Ub
      end
  end.

(** A node of the cache gets new entries or a new dirty mark. *)
Definition set_node (c : cache) (offset : Z) (n : node) : cache :=
  mkcache (root c) (<[offset := n]> (nodes c)) (lru_list c) (nr_cached c).

(** ** Invariant *)

Record cache_ok (c : cache) : Prop := {
  ok_tree : key_tree (root c);
  ok_root : forall o, o ∈ inorder (root c) <-> is_Some (nodes c !! o);
  ok_lru : forall o, o ∈ lru_list c <-> is_Some (nodes c !! o);
  ok_nodup : NoDup (lru_list c);
  ok_nr : nr_cached c = Z.of_nat (length (lru_list c));
  ok_max : nr_cached c <= MAX_CACHE_NODES
}.

Lemma cache_ok_init : cache_ok cache_init.
Proof.
  constructor; cbn; try apply key_tree_E; try constructor; try lia;
    intros H; try inversion H; rewrite lookup_empty in *; now destruct H.
Qed.

Lemma key_search t k : key_tree t ->
  search (Z.compare k) t = if bool_decide (k ∈ inorder t) then Some k else None.
Proof.
  intros [_ HS]. destruct (search (Z.compare k) t) as [y|] eqn:Es.
  - apply (search_spec Z.lt _ (Z_dir k) (Z_exact k) t y HS) in Es. destruct Es as [Hy D].
    apply Z.compare_eq_iff in D. subst y. now rewrite bool_decide_true.
  - rewrite bool_decide_false; [reflexivity|]. intros Hk.
    assert (C : search (Z.compare k) t = Some k).
    { apply (search_spec Z.lt _ (Z_dir k) (Z_exact k) t k HS). split; [exact Hk|apply Z.compare_refl]. }
    congruence.
Qed.

Lemma key_insert t k : key_tree t -> k ∉ inorder t ->
  exists t', insert (Z.compare k) k t = Some (true, t') /\ key_tree t' /\
    forall z, z ∈ inorder t' <-> z = k \/ z ∈ inorder t.
Proof.
  intros Ht Hk. pose proof (run_op_ok (Ins k) t Ht) as (t' & E1 & Ht' & K). cbn in E1, K.
  destruct Ht as [Hrb HS].
  destruct (insert_spec Z.lt (Z.compare k) (Z_dir k) k t Hrb HS) as (b & t2 & E2 & _ & Hb).
  rewrite E2 in E1. injection E1 as ->. destruct b.
  - exists t'. split; [exact E2|]. split; [exact Ht'|]. intros z.
    transitivity (z ∈ keys t'); [unfold keys; now rewrite elem_of_list_to_set|].
    rewrite K. unfold keys. now rewrite elem_of_union, elem_of_singleton, elem_of_list_to_set.
  - destruct Hb as (_ & y & Hy & D). apply Z.compare_eq_iff in D. now subst y.
Qed.

Lemma key_erase t k : key_tree t -> k ∈ inorder t ->
  exists t', erase (Z.compare k) t = Some t' /\ key_tree t' /\
    forall z, z ∈ inorder t' <-> z ∈ inorder t /\ z <> k.
Proof.
  intros Ht Hk. pose proof (run_op_ok (Del k) t Ht) as (t' & E1 & Ht' & K). cbn in E1, K.
  rewrite key_search, bool_decide_true in E1 by auto. exists t'. split; [exact E1|].
  split; [exact Ht'|]. intros z.
  transitivity (z ∈ keys t'); [unfold keys; now rewrite elem_of_list_to_set|].
  rewrite K. unfold keys.
  now rewrite elem_of_difference, elem_of_singleton, elem_of_list_to_set.
Qed.

Lemma lru_move l x : NoDup l -> x ∈ l ->
  NoDup (list_move_tail l x) /\ length (list_move_tail l x) = length l /\
  forall y, y ∈ list_move_tail l x <-> y ∈ l.
Proof.
  intros ND Hx. unfold list_move_tail.
  assert (ND' : NoDup (filter (fun y => y <> x) l ++ [x])).
  { apply NoDup_app. split; [now apply NoDup_filter|]. split; [|repeat constructor; apply not_elem_of_nil].
    intros y Hy Hy'. apply list_elem_of_singleton in Hy'. subst.
    apply list_elem_of_filter in Hy. now destruct Hy. }
  assert (HE : forall y, y ∈ filter (fun y => y <> x) l ++ [x] <-> y ∈ l).
  { intros y. rewrite elem_of_app, list_elem_of_filter, list_elem_of_singleton.
    destruct (decide (y = x)) as [->|]; tauto. }
  split; [exact ND'|]. split; [|exact HE].
  apply Permutation_length, NoDup_Permutation; assumption.
Qed.

Lemma search_miss c off : cache_ok c -> nodes c !! off = None -> cache_search c off = None.
Proof.
  intros [Ht Hr _ _ _ _] Hn. unfold cache_search, cache_lookup. rewrite (key_search _ _ Ht).
  rewrite bool_decide_false; [reflexivity|]. rewrite Hr, Hn. now intros [? [=]].
Qed.

Lemma search_hit c off n : cache_ok c -> nodes c !! off = Some n ->
  exists c', cache_search c off = Some (n, c') /\ cache_ok c' /\ nodes c' = nodes c /\
    lru_list c' = list_move_tail (lru_list c) off.
Proof.
  intros [Ht Hr Hl ND Hnr Hm] Hn. unfold cache_search, cache_lookup.
  rewrite (key_search _ _ Ht), bool_decide_true by (apply Hr; eauto).
  cbn [mbind option_bind]. rewrite Hn. cbn [mbind option_bind].
  destruct (lru_move (lru_list c) off ND ltac:(apply Hl; eauto)) as (M1 & M2 & M3).
  eexists. split; [reflexivity|]. split; [|split; reflexivity].
  constructor; cbn; auto; [|lia]. intros o. rewrite M3. apply Hl.
Qed.

Lemma evict_ok c : cache_ok c -> nr_cached c = MAX_CACHE_NODES ->
  exists old rest c', lru_list c = old :: rest /\ evict c = Ret c' /\ cache_ok c' /\
    nr_cached c' < MAX_CACHE_NODES /\ nodes c' = delete old (nodes c) /\ lru_list c' = rest.
Proof.
  intros [Ht Hr Hl ND Hnr Hm] Hfull. unfold evict.
  destruct (lru_list c) as [|old rest] eqn:El; [cbn in Hnr; unfold MAX_CACHE_NODES in *; lia|].
  assert (Hold : old ∈ inorder (root c)) by (apply Hr, Hl; constructor).
  destruct (key_erase _ _ Ht Hold) as (r & -> & Hr' & Her).
  apply NoDup_cons in ND. destruct ND as [Hnin ND].
  assert (Hiff : forall o, is_Some (delete old (nodes c) !! o) <-> o <> old /\ is_Some (nodes c !! o)).
  { intros o. rewrite lookup_delete_is_Some. intuition congruence. }
  exists old, rest. eexists. split; [reflexivity|]. split; [reflexivity|].
  split; [|cbn [nr_cached nodes lru_list]; split; [lia|auto]].
  constructor; cbn [root nodes lru_list nr_cached]; auto.
  - intros o. rewrite Hiff, Her, Hr. tauto.
  - intros o. rewrite Hiff, <- Hl, elem_of_cons. split; [|tauto].
    intros Ho. split; [|auto]. now intros ->.
  - cbn in Hnr. lia.
  - lia.
Qed.

(** Caching a node that is not cached: it is found afterwards, the others are
    as before except that the least recently used one goes when 32 are there. *)
Lemma cache_insert_ok c off n : cache_ok c -> nodes c !! off = None ->
  exists c', cache_insert c off n = Ret c' /\ cache_ok c' /\ nodes c' !! off = Some n /\
    (forall o, o <> off -> nodes c' !! o = nodes c !! o \/ nodes c' !! o = None) /\
    lru_list c' = (if nr_cached c =? MAX_CACHE_NODES then tl (lru_list c) else lru_list c) ++ [off].
Proof.
  intros Hc Hn. unfold cache_insert.
  assert (P : exists c1, (if nr_cached c =? MAX_CACHE_NODES then evict c else Ret c) = Ret c1 /\
    cache_ok c1 /\ nr_cached c1 < MAX_CACHE_NODES /\
    (forall o, nodes c1 !! o = nodes c !! o \/ nodes c1 !! o = None) /\
    lru_list c1 = if nr_cached c =? MAX_CACHE_NODES then tl (lru_list c) else lru_list c).
  { destruct (Z.eqb_spec (nr_cached c) MAX_CACHE_NODES) as [Hf|Hf].
    - destruct (evict_ok c Hc Hf) as (old & rest & c' & El & Ev & Hok & Hlt & Hno & Hlr).
      exists c'. rewrite El. repeat split; auto; try apply Hok. intros o. rewrite Hno.
      destruct (decide (o = old)) as [->|]; [right; apply lookup_delete_eq|left].
      now apply lookup_delete_ne.
    - exists c. pose proof (ok_max c Hc). repeat split; auto; try apply Hc. lia. }
  destruct P as (c1 & -> & [Ht Hr Hl ND Hnr Hm] & Hlt & Hno & Hlr).
  assert (Hn1 : nodes c1 !! off = None) by (destruct (Hno off); congruence).
  unfold tree_insert. destruct (key_insert (root c1) off Ht) as (r & -> & Hr' & Hin).
  { rewrite Hr, Hn1. now intros [? [=]]. }
  assert (Hiff : forall o, is_Some (<[off := n]> (nodes c1) !! o) <-> o = off \/ is_Some (nodes c1 !! o)).
  { intros o. rewrite lookup_insert_is_Some. intuition. destruct (decide (off = o)); auto. }
  eexists. split; [reflexivity|]. split.
  { constructor; cbn [root nodes lru_list nr_cached]; auto.
    - intros o. now rewrite Hiff, Hin, Hr.
    - intros o. rewrite Hiff, elem_of_app, list_elem_of_singleton, Hl. tauto.
    - apply NoDup_app. split; [exact ND|]. split; [|repeat constructor; apply not_elem_of_nil].
      intros o Ho Ho'. apply list_elem_of_singleton in Ho'. subst o.
      apply Hl in Ho. rewrite Hn1 in Ho. now destruct Ho.
    - rewrite length_app, Nat2Z.inj_add, <- Hnr. reflexivity.
    - lia. }
  cbn [nodes lru_list]. split; [apply lookup_insert_eq|]. split; [|now rewrite Hlr].
  intros o Ho. rewrite lookup_insert_ne by congruence. apply Hno.
Qed.

Lemma set_node_ok c off n n0 : cache_ok c -> nodes c !! off = Some n0 -> cache_ok (set_node c off n).
Proof.
  intros [Ht Hr Hl ND Hnr Hm] Hn.
  assert (Hiff : forall o, is_Some (<[off := n]> (nodes c) !! o) <-> is_Some (nodes c !! o)).
  { intros o. rewrite lookup_insert_is_Some. destruct (decide (off = o)) as [<-|]; [|tauto].
    rewrite Hn. split; eauto. }
  constructor; cbn; auto; intros o; rewrite Hiff; auto.
Qed.

Lemma free_cache_ok l : forall c, key_tree (root c) -> NoDup l ->
  (forall o, o ∈ inorder (root c) <-> o ∈ l) ->
  (forall o, o ∈ l <-> is_Some (nodes c !! o)) ->
  exists c', free_cache l c = Ret c' /\ nodes c' = ∅ /\ inorder (root c') = [].
Proof.
  induction l as [|o l IH]; intros c Ht ND Hr Hl.
  - exists c. split; [reflexivity|]. split.
    + apply map_empty. intros o. destruct (nodes c !! o) eqn:E; [|reflexivity].
      exfalso. apply (not_elem_of_nil o), Hl. eauto.
    + destruct (inorder (root c)) as [|o L] eqn:EI; [reflexivity|].
      exfalso. apply (not_elem_of_nil o), Hr. constructor.
  - cbn [free_cache]. destruct (key_erase (root c) o Ht ltac:(apply Hr; constructor)) as (r & -> & Hr' & Her).
    apply NoDup_cons in ND. destruct ND as [Hnin ND].
    apply IH; cbn [root nodes]; auto.
    + intros z. rewrite Her, Hr, elem_of_cons. split; [tauto|].
      intros Hz. split; [auto|]. now intros ->.
    + intros z. rewrite lookup_delete_is_Some, <- Hl, elem_of_cons. split; [|intuition congruence].
      intros Hz. split; [now intros ->|auto].
Qed.

(** ** The cache is a least-recently-used cache *)

(** One use of the cache: the node at [offset], loaded when it is missing. *)
Definition cache_access (load : Z -> node) (c : cache) (offset : Z) : out (node * cache) :=
  match cache_search c offset with
  | Some r => Ret r
  | None => let! c := cache_insert c offset (load offset) in Ret (load offset, c)
  end.

Fixpoint cache_accesses (load : Z -> node) (c : cache) (l : list Z) : out cache :=
  match l with
  | [] => Ret c
  | o :: l => let! (_, c) := cache_access load c o in cache_accesses load c l
  end.

(** The offsets in the cache, least recently used first. *)
Definition touch (l : list Z) (o : Z) : list Z :=
  if bool_decide (o ∈ l) then list_move_tail l o
  else (if Z.of_nat (length l) =? MAX_CACHE_NODES then tl l else l) ++ [o].

Lemma cache_access_ok load c o : cache_ok c ->
  (forall k n, nodes c !! k = Some n -> n = load k) ->
  exists c', cache_access load c o = Ret (load o, c') /\ cache_ok c' /\
    lru_list c' = touch (lru_list c) o /\
    (forall k n, nodes c' !! k = Some n -> n = load k).
Proof.
  intros Hc Hload. unfold cache_access, touch. destruct (nodes c !! o) as [n|] eqn:En.
  - destruct (search_hit c o n Hc En) as (c' & -> & Hc' & Hn & Hl).
    exists c'. rewrite (Hload o n En). split; [reflexivity|]. split; [exact Hc'|].
    rewrite bool_decide_true by (apply (ok_lru c Hc); eauto). rewrite Hn. auto.
  - rewrite (search_miss c o Hc En).
    destruct (cache_insert_ok c o (load o) Hc En) as (c' & -> & Hc' & Hn & Hrest & Hl).
    exists c'. split; [reflexivity|]. split; [exact Hc'|]. split.
    + rewrite bool_decide_false; [now rewrite Hl, (ok_nr c Hc)|].
      rewrite (ok_lru c Hc), En. now intros [? [=]].
    + intros k m Hk. destruct (decide (k = o)) as [->|Hne]; [congruence|].
      destruct (Hrest k Hne) as [E|E]; rewrite E in Hk; [now apply Hload|discriminate].
Qed.

(** C12. The table caches are least-recently-used caches: whatever tables are
    accessed in whatever order, starting empty, nothing is ever corrupted; every
    access yields the table that loading it would; the tree, the map and the list
    hold the same offsets, at most 32; and the list is the one in which each
    access moves its offset to the end and a new offset pushes out the first of
    32. *)
Theorem cache_is_lru load l :
  exists c, cache_accesses load cache_init l = Ret c /\ cache_ok c /\
    lru_list c = foldl touch [] l /\
    (forall k n, nodes c !! k = Some n -> n = load k) /\
    (forall o, exists c', cache_access load c o = Ret (load o, c') /\ cache_ok c').
Proof.
  assert (H : forall l c, cache_ok c -> (forall k n, nodes c !! k = Some n -> n = load k) ->
    exists c', cache_accesses load c l = Ret c' /\ cache_ok c' /\
      lru_list c' = foldl touch (lru_list c) l /\
      (forall k n, nodes c' !! k = Some n -> n = load k)).
  { clear. induction l as [|o l IH]; intros c Hc Hload; [exists c; auto|].
    cbn [cache_accesses foldl].
    destruct (cache_access_ok load c o Hc Hload) as (c1 & -> & Hc1 & Hl1 & Hload1).
    destruct (IH c1 Hc1 Hload1) as (c2 & -> & Hc2 & Hl2 & Hload2).
    exists c2. rewrite Hl2, Hl1. auto. }
  destruct (H l cache_init cache_ok_init) as (c & E1 & Hc & Hl & Hload).
  { intros k n Hk. cbn in Hk. rewrite lookup_empty in Hk. discriminate. }
  exists c. split; [exact E1|]. split; [exact Hc|]. split; [exact Hl|]. split; [exact Hload|].
  intros o. destruct (cache_access_ok load c o Hc Hload) as (c' & E2 & Hc' & _). eauto.
Qed.

(** Closing an image frees every cached node exactly once: from any sound
    cache, [l1_table_free_cache] ends with an empty tree and no node left. *)
Theorem free_cache_frees_all c (Hc : cache_ok c) :
  exists c', free_cache (lru_list c) c = Ret c' /\ nodes c' = ∅ /\ inorder (root c') = [].
Proof.
  apply free_cache_ok; [apply Hc|apply Hc| |apply Hc].
  intros o. now rewrite (ok_root c Hc), (ok_lru c Hc).
Qed.

Lemma free_cache_frees_all_witness :
  exists c', free_cache (lru_list cache_init) cache_init = Ret c' /\ nodes c' = ∅ /\
    inorder (root c') = [].
Proof. apply (free_cache_frees_all cache_init cache_ok_init). Defined.
