(* ===== verification/Qcow.v ===== *)
(** * QCOW images: headers, tables and reads (disk/qcow.c)

    An image is a host file ([ReadWrite.host]); guest offsets are translated
    through the level-1 table in memory and the cached level-2 tables. The
    write path is in [QcowWrite]. Allocations are taken to succeed, and the
    mutex is not modelled: it is balanced on every path and callers are
    serialised by it. *)
From stdpp Require Import sorting.
From S2P Require Import Prelude ReadWrite Rbtree QcowCache.
Open Scope Z_scope.

Definition SECTOR_SHIFT : Z := 9.
Definition SECTOR_SIZE : Z := 1 .<< SECTOR_SHIFT.

Definition QCOW_MAGIC : Z := (0x51 .<< 24) .| (0x46 .<< 16) .| (0x49 .<< 8) .| 0xfb.
Definition QCOW1_VERSION : Z := 1.
Definition QCOW2_VERSION : Z := 2.
Definition QCOW1_OFLAG_COMPRESSED : Z := 2 ^ 63.
Definition QCOW2_OFLAG_COPIED : Z := 2 ^ 63.
Definition QCOW2_OFLAG_COMPRESSED : Z := 2 ^ 62.
Definition QCOW2_OFLAGS_MASK : Z := QCOW2_OFLAG_COPIED .| QCOW2_OFLAG_COMPRESSED.

(** [qcow_header], with the fields of [struct qcow_header]. *)
Record qcow_header := mkheader {
  size : Z;
  l1_table_offset : Z;
  l1_size : Z;
  cluster_bits : Z;
  l2_bits : Z;
  refcount_table_offset : Z;
  refcount_table_size : Z
}.

(** [struct qcow_l1_table] and [struct qcow_refcount_table]: big-endian 64-bit
    entries as bytes, and the cache of the second level. *)
Record qcow_table := mktable { table_size : Z; table_bytes : list Z; table_cache : cache }.

Record qcow := mkqcow {
  header : qcow_header;
  table : qcow_table;
  refcount_table : qcow_table;
  fd : host;
  csize_shift : Z;
  csize_mask : Z;
  version : Z;
  cluster_size : Z;
  cluster_offset_mask : Z;
  free_clust_idx : Z;
  cluster_cache : list Z;
  cluster_data : list Z;
  copy_buff : list Z
}.

Definition set_table (q : qcow) (t : qcow_table) : qcow :=
  mkqcow (header q) t (refcount_table q) (fd q) (csize_shift q) (csize_mask q) (version q)
    (cluster_size q) (cluster_offset_mask q) (free_clust_idx q) (cluster_cache q)
    (cluster_data q) (copy_buff q).
Definition set_refcount_table (q : qcow) (t : qcow_table) : qcow :=
  mkqcow (header q) (table q) t (fd q) (csize_shift q) (csize_mask q) (version q)
    (cluster_size q) (cluster_offset_mask q) (free_clust_idx q) (cluster_cache q)
    (cluster_data q) (copy_buff q).
Definition set_fd (q : qcow) (h : host) : qcow :=
  mkqcow (header q) (table q) (refcount_table q) h (csize_shift q) (csize_mask q) (version q)
    (cluster_size q) (cluster_offset_mask q) (free_clust_idx q) (cluster_cache q)
    (cluster_data q) (copy_buff q).
Definition set_free_clust_idx (q : qcow) (i : Z) : qcow :=
  mkqcow (header q) (table q) (refcount_table q) (fd q) (csize_shift q) (csize_mask q) (version q)
    (cluster_size q) (cluster_offset_mask q) i (cluster_cache q) (cluster_data q) (copy_buff q).
Definition set_buffers (q : qcow) (cc cd cb : list Z) : qcow :=
  mkqcow (header q) (table q) (refcount_table q) (fd q) (csize_shift q) (csize_mask q) (version q)
    (cluster_size q) (cluster_offset_mask q) (free_clust_idx q) cc cd cb.
Definition set_cache (t : qcow_table) (c : cache) : qcow_table :=
  mktable (table_size t) (table_bytes t) c.
Definition set_l1_cache (q : qcow) (c : cache) : qcow := set_table q (set_cache (table q) c).

(** [be64_to_cpu(t[idx])] *)
Definition be64_at (t : list Z) (idx : Z) : Z := be_dec (slice (8 * Z.to_nat idx) 8 t).

(** ** Address arithmetic *)

Definition get_l1_index (q : qcow) (offset : Z) : Z :=
  offset .>> (l2_bits (header q) + cluster_bits (header q)).

Definition get_l2_index (q : qcow) (offset : Z) : Z :=
  (offset .>> cluster_bits (header q)) .& ((1 .<< l2_bits (header q)) - 1).

Definition get_cluster_offset (q : qcow) (offset : Z) : Z :=
  offset .& ((1 .<< cluster_bits (header q)) - 1).

(** ** Level-2 tables *)

(** [new_cache_table]: zeroed entries. *)
Definition new_cache_table (q : qcow) : node :=
  mknode (replicate (Z.to_nat ((1 .<< l2_bits (header q)) * 8)) 0) false.

(** [qcow_read_l2_table]; the node stays known by [offset]. *)
Definition qcow_read_l2_table (q : qcow) (offset : Z) : out (option node * qcow) :=
  let size := 1 .<< l2_bits (header q) in
  match cache_search (table_cache (table q)) offset with
  | Some (l2t, c) => Ret (Some l2t, set_l1_cache q c)
  | None =>
      let l2t := new_cache_table q in
      let '(nr, data, h) := pread_in_full (fd q) (Z.to_nat (size * 8)) offset in
      let q := set_fd q h in
      if nr <? 0 then Ret (None, q) else
      let l2t := mknode (splice 0 data (entries l2t)) (dirty l2t) in
      let! c := cache_insert (table_cache (table q)) offset l2t in
      Ret (Some l2t, set_l1_cache q c)
  end.

(** ** Compressed clusters *)

Definition Z_OK : Z := 0.
Definition Z_STREAM_END : Z := 1.
Definition Z_BUF_ERROR : Z := -5.

Section Zlib.

(** zlib: the result of [inflateInit2], and of [inflate] with [Z_FINISH] on an
    input with a given output space: its code and the bytes it has produced. *)
Context (inflateInit2 : Z) (inflate : list Z -> Z -> Z * list Z).

(** 0 or -1, and the output buffer. *)
Definition qcow_decompress_buffer (out_buf : list Z) (out_buf_size : Z) (buf : list Z)
    : Z * list Z :=
  if negb (inflateInit2 =? Z_OK) then (-1, out_buf) else
  let '(ret, produced) := inflate buf out_buf_size in
  let out_buf := splice 0 produced out_buf in
  let out_len := Z.of_nat (length produced) in
  if (negb (ret =? Z_STREAM_END) && negb (ret =? Z_BUF_ERROR)) || negb (out_len =? out_buf_size)
  then (-1, out_buf) else (0, out_buf).

(** Read [len] bytes at file offset [offset] into [q->cluster_data] and inflate
    [csize] of them from [skip] on into [q->cluster_cache]. When the buffer is
    shorter than [len], the transfer overruns it or zlib is given input past its
    end. *)
Definition read_compressed (q : qcow) (len offset skip csize : Z) : out (Z * qcow) :=
  let '(nr, data, h) := pread_in_full (fd q) (Z.to_nat len) offset in
  if nr <? 0 then Ret (-1, set_fd q h) else
  if Z.of_nat (length (cluster_data q)) <? len then Ub else
  let cd := splice 0 data (cluster_data q) in
  let q := set_buffers (set_fd q h) (cluster_cache q) cd (copy_buff q) in
  let '(ret, cc) := qcow_decompress_buffer (cluster_cache q) (cluster_size q)
                      (slice (Z.to_nat skip) (Z.to_nat csize) cd) in
  Ret (ret, set_buffers q cc cd (copy_buff q)).

(** ** Cluster reads

    The result, the bytes stored at the start of [dst], and the image. *)
Definition read_result : Type := Z * list Z * qcow.

Definition zero_cluster (q : qcow) (length : Z) : out read_result :=
  Ret (length, replicate (Z.to_nat length) 0, q).

Definition read_plain (q : qcow) (length offset : Z) : out read_result :=
  let '(nr, data, h) := pread_in_full (fd q) (Z.to_nat length) (u64 offset) in
  Ret (if nr <? 0 then -1 else length, data, set_fd q h).

Definition qcow1_read_cluster (q : qcow) (offset dst_len : Z) : out read_result :=
  let l1_idx := get_l1_index q offset in
  if table_size (table q) <=? l1_idx then Ret (-1, [], q) else
  let clust_offset := get_cluster_offset q offset in
  if cluster_size q <=? clust_offset then Ret (-1, [], q) else
  let length := Z.min (cluster_size q - clust_offset) dst_len in
  let l2t_offset := be64_at (table_bytes (table q)) l1_idx in
  if l2t_offset =? 0 then zero_cluster q length else
  let l2t_size := 1 .<< l2_bits (header q) in
  let! (l2t, q) := qcow_read_l2_table q l2t_offset in
  match l2t with
  | None => Ret (-1, [], q)
  | Some l2t =>
      let l2_idx := get_l2_index q offset in
      if l2t_size <=? l2_idx then Ret (-1, [], q) else
      let clust_start := be64_at (entries l2t) l2_idx in
      if flag clust_start QCOW1_OFLAG_COMPRESSED then
        let coffset := s32 (clust_start .& cluster_offset_mask q) in
        let csize := s32 (clust_start .>> (63 - cluster_bits (header q))) .& (cluster_size q - 1) in
        let! (ret, q) := read_compressed q csize (u64 coffset) 0 csize in
        if ret <? 0 then Ret (-1, [], q)
        else Ret (length, slice (Z.to_nat clust_offset) (Z.to_nat length) (cluster_cache q), q)
      else if clust_start =? 0 then zero_cluster q length
      else read_plain q length (clust_start + clust_offset)
  end.

Definition qcow2_read_cluster (q : qcow) (offset dst_len : Z) : out read_result :=
  let l1_idx := get_l1_index q offset in
  if table_size (table q) <=? l1_idx then Ret (-1, [], q) else
  let clust_offset := get_cluster_offset q offset in
  if cluster_size q <=? clust_offset then Ret (-1, [], q) else
  let length := Z.min (cluster_size q - clust_offset) dst_len in
  let l2t_offset := be64_at (table_bytes (table q)) l1_idx .&~ QCOW2_OFLAG_COPIED in
  if l2t_offset =? 0 then zero_cluster q length else
  let l2t_size := 1 .<< l2_bits (header q) in
  let! (l2t, q) := qcow_read_l2_table q l2t_offset in
  match l2t with
  | None => Ret (-1, [], q)
  | Some l2t =>
      let l2_idx := get_l2_index q offset in
      if l2t_size <=? l2_idx then Ret (-1, [], q) else
      let clust_start := be64_at (entries l2t) l2_idx in
      if flag clust_start QCOW2_OFLAG_COMPRESSED then
        let coffset := s32 (clust_start .& cluster_offset_mask q) in
        let nb_csectors := s32 (((clust_start .>> csize_shift q) .& csize_mask q) + 1) in
        let sector_offset := coffset .& (SECTOR_SIZE - 1) in
        let csize := nb_csectors * SECTOR_SIZE - sector_offset in
        let! (ret, q) := read_compressed q (nb_csectors * SECTOR_SIZE)
                           (u64 (coffset .&~ (SECTOR_SIZE - 1))) sector_offset csize in
        if ret <? 0 then Ret (-1, [], q)
        else Ret (length, slice (Z.to_nat clust_offset) (Z.to_nat length) (cluster_cache q), q)
      else
        let clust_start := clust_start .&~ QCOW2_OFLAGS_MASK in
        if clust_start =? 0 then zero_cluster q length
        else read_plain q length (clust_start + clust_offset)
  end.

(** ** Sector reads *)

(** The loop of [qcow_read_sector_single]; [buf] is the offset in [dst] of the
    next byte. [nr] is a [u32], so that -1 counts as 2^32 - 1. A store outside
    [dst] is undefined. *)
Fixpoint read_loop (fuel : nat) (q : qcow) (sector nr_read buf dst_len : Z) (dst : list Z)
    : out (Z * list Z * qcow) :=
  if dst_len <=? nr_read then Ret (dst_len, dst, q) else
  match fuel with
  | O => NoFuel
  | S fuel =>
      let offset := u64 (sector .<< SECTOR_SHIFT) in
      if size (header q) <=? offset then Ret (-1, dst, q) else
      let! (ret, data, q) := if version q =? QCOW1_VERSION
                             then qcow1_read_cluster q offset (u32 (dst_len - nr_read))
                             else qcow2_read_cluster q offset (u32 (dst_len - nr_read)) in
      if negb (Nat.eqb (length data) 0) && (dst_len <? buf + Z.of_nat (length data)) then Ub else
      let dst := splice (Z.to_nat buf) data dst in
      let nr := u32 ret in
      if nr =? 0 then Ret (-1, dst, q) else
      read_loop fuel q (u64 (sector + (nr .>> SECTOR_SHIFT))) (u32 (nr_read + nr)) (buf + nr)
        dst_len dst
  end.

(** Every turn stores at least a byte or fails, and after a failed turn only
    failed turns can follow, which make [nr_read] smaller: [2 * dst_len + 1]
    turns are enough. *)
Definition qcow_read_sector_single (q : qcow) (sector : Z) (dst : list Z)
    : out (Z * list Z * qcow) :=
  let dst_len := u32 (Z.of_nat (length dst)) in
  read_loop (2 * length dst + 1) q sector 0 0 dst_len dst.

(** [qcow_read_sector] over an array of buffers. *)
Fixpoint read_iov (q : qcow) (sector total : Z) (iov : list (list Z))
    : out (Z * list (list Z) * qcow) :=
  match iov with
  | [] => Ret (total, [], q)
  | dst :: iov =>
      let! (nr, dst', q) := qcow_read_sector_single q sector dst in
      if negb (nr =? Z.of_nat (length dst)) then Ret (-1, dst' :: iov, q) else
      let! (r, rest, q) := read_iov q (u64 (sector + (Z.of_nat (length dst) .>> SECTOR_SHIFT)))
                             (total + nr) iov in
      Ret (r, dst' :: rest, q)
  end.

Definition qcow_read_sector (q : qcow) (sector : Z) (iov : list (list Z)) :=
  read_iov q sector 0 iov.
End Zlib.

(** ** Headers and probing *)

Section Probe.

(** The contents of fresh memory: stack variables and [malloc]. *)
Context (uninit : nat -> Z).

Definition fresh (n : Z) : list Z := map uninit (seq 0 (Z.to_nat n)).

Definition be32_at (b : list Z) (off : nat) : Z := be_dec (slice off 4 b).

(** Offsets of the fields of [struct qcow1_header_disk] and
    [struct qcow2_header_disk], and the sizes of the structures. *)
Definition QCOW1_HEADER_SIZE : Z := 48.
Definition QCOW2_HEADER_SIZE : Z := 72.

(** [pread_in_full(fd, &f_header, sizeof(f_header), 0)] into a stack variable. *)
Definition read_struct (h : host) (sz : Z) : Z * list Z * host :=
  let '(nr, data, h) := pread_in_full h (Z.to_nat sz) 0 in
  (nr, splice 0 data (fresh sz), h).

Definition check_image (h : host) (sz version : Z) : bool * host :=
  let '(nr, f, h) := read_struct h sz in
  (negb (nr <? 0) && (be32_at f 0 =? QCOW_MAGIC) && (be32_at f 4 =? version), h).

Definition qcow1_check_image (h : host) := check_image h QCOW1_HEADER_SIZE QCOW1_VERSION.
Definition qcow2_check_image (h : host) := check_image h QCOW2_HEADER_SIZE QCOW2_VERSION.

Definition qcow2_read_header (h : host) : option qcow_header * host :=
  let '(nr, f, h) := read_struct h QCOW2_HEADER_SIZE in
  if nr <? 0 then (None, h) else
  let cluster_bits := be32_at f 20 in
  (Some (mkheader (be_dec (slice 24 8 f)) (be_dec (slice 40 8 f)) (be32_at f 36)
           (u8 cluster_bits) (u8 (cluster_bits - 3))
           (be_dec (slice 48 8 f)) (be32_at f 56)), h).

(** [1 << n] on [int] is defined for [n] up to 30. *)
Definition shift_ok (n : Z) : bool := (0 <=? n) && (n <=? 30).

Definition qcow1_read_header (h : host) : out (option qcow_header * host) :=
  let '(nr, f, h) := read_struct h QCOW1_HEADER_SIZE in
  if nr <? 0 then Ret (None, h) else
  let cb := default 0 (f !! 32%nat) in
  let l2 := default 0 (f !! 33%nat) in
  let sz := be_dec (slice 24 8 f) in
  if negb (shift_ok cb && shift_ok l2 && shift_ok (l2 + cb)) then Ub else
  Ret (Some (mkheader sz (be_dec (slice 40 8 f)) (u32 (sz / ((1 .<< l2) * (1 .<< cb)))) cb l2 0 0), h).

(** [qcow_read_l1_table], [qcow_read_refcount_table]: the count of
    [pread_in_full] goes through an [int]. *)
Definition read_table (h : host) (entries offset : Z) : Z * list Z * host :=
  let '(nr, data, h) := pread_in_full h (Z.to_nat (8 * entries)) offset in
  (s32 nr, splice 0 data (replicate (Z.to_nat (8 * entries)) 0), h).

Definition qcow_read_l1_table (q : qcow) : Z * qcow :=
  let n := l1_size (header q) in
  let '(ret, t, h) := read_table (fd q) n (l1_table_offset (header q)) in
  (ret, set_fd (set_table q (mktable n t (table_cache (table q)))) h).

Definition qcow_read_refcount_table (q : qcow) : Z * qcow :=
  let n := u32 (u64 (refcount_table_size (header q) * cluster_size q) / 8) in
  let '(ret, t, h) := read_table (fd q) n (refcount_table_offset (header q)) in
  (ret, set_fd (set_refcount_table q (mktable n t cache_init)) h).

(** The fields of [struct disk_image] that the probes set; [readonly] picks the
    operations table. *)
Record disk_image := mkdisk { disk_size : Z; readonly : bool; async : bool; priv : qcow }.

Definition empty_table : qcow_table := mktable 0 [] cache_init.

Definition qcow2_probe (h : host) (readonly : bool) : out (option disk_image * host) :=
  let '(hdr, h) := qcow2_read_header h in
  match hdr with
  | None => Ret (None, h)
  | Some hdr =>
      let cb := cluster_bits hdr in
      if negb ((8 <=? cb) && shift_ok cb) then Ub else
      let csize_shift := 62 - (cb - 8) in
      let q := mkqcow hdr empty_table empty_table h csize_shift ((1 .<< (cb - 8)) - 1)
                 QCOW2_VERSION (1 .<< cb) ((1 .<< csize_shift) - 1) 0
                 (fresh (1 .<< cb)) (fresh (1 .<< cb)) (fresh (1 .<< cb)) in
      let '(ret, q) := qcow_read_l1_table q in
      if ret <? 0 then Ret (None, fd q) else
      let '(ret, q) := qcow_read_refcount_table q in
      if ret <? 0 then Ret (None, fd q) else
      Ret (Some (mkdisk (size hdr) readonly false q), fd q)
  end.

Definition qcow1_probe (h : host) (readonly : bool) : out (option disk_image * host) :=
  let! (hdr, h) := qcow1_read_header h in
  match hdr with
  | None => Ret (None, h)
  | Some hdr =>
      let cb := cluster_bits hdr in
      let q := mkqcow hdr empty_table empty_table h 0 0 QCOW1_VERSION (1 .<< cb)
                 ((1 .<< (63 - cb)) - 1) 0 (fresh (1 .<< cb)) (fresh (1 .<< cb)) [] in
      let '(ret, q) := qcow_read_l1_table q in
      if ret <? 0 then Ret (None, fd q) else
      Ret (Some (mkdisk (size hdr) readonly true q), fd q)
  end.

Definition qcow_probe (h : host) (readonly : bool) : out (option disk_image * host) :=
  let '(is1, h) := qcow1_check_image h in
  if (is1 : bool) then qcow1_probe h readonly else
  let '(is2, h) := qcow2_check_image h in
  if (is2 : bool) then qcow2_probe h readonly else Ret (None, h).
End Probe.

(** ** What an image holds

    The reference: the cluster at a guest offset, computed from the bytes of
    the file without caches, buffers or short transfers. *)
Section Reference.
Context (inflateInit2 : Z) (inflate : list Z -> Z -> Z * list Z).

Definition l2_bytes (q : qcow) : nat := Z.to_nat ((1 .<< l2_bits (header q)) * 8).

(** The part of the level-2 table that is in the file, and the table. *)
Definition l2_in_file (q : qcow) (offset : Z) : list Z :=
  slice (Z.to_nat offset) (l2_bytes q) (content (fd q)).

Definition l2_table (q : qcow) (offset : Z) : list Z :=
  splice 0 (l2_in_file q offset) (replicate (l2_bytes q) 0).

(** All of [len] bytes of the file. *)
Definition file_bytes (q : qcow) (offset len : Z) : option (list Z) :=
  let d := slice (Z.to_nat offset) (Z.to_nat len) (content (fd q)) in
  if Nat.eqb (length d) (Z.to_nat len) then Some d else None.

Definition inflated (q : qcow) (input : list Z) : option (list Z) :=
  let '(ret, produced) := inflate input (cluster_size q) in
  if (inflateInit2 =? Z_OK) && ((ret =? Z_STREAM_END) || (ret =? Z_BUF_ERROR)) &&
     (Z.of_nat (length produced) =? cluster_size q)
  then Some produced else None.

(** A compressed cluster whose data fits the buffer and lies below 2 GiB. *)
Definition compressed2 (q : qcow) (entry : Z) : option (list Z) :=
  let start := entry .& cluster_offset_mask q in
  let len := (((entry .>> csize_shift q) .& csize_mask q) + 1) * SECTOR_SIZE in
  let skip := start mod SECTOR_SIZE in
  if (start <? 2 ^ 31) && (len <=? cluster_size q) then
    d ← file_bytes q (start - skip) len;
    inflated q (slice (Z.to_nat skip) (Z.to_nat (len - skip)) d)
  else None.

Definition qcow2_cluster (q : qcow) (offset : Z) : option (list Z) :=
  let l1_idx := get_l1_index q offset in
  if table_size (table q) <=? l1_idx then None else
  let l2t_offset := be64_at (table_bytes (table q)) l1_idx .&~ QCOW2_OFLAG_COPIED in
  if l2t_offset =? 0 then Some (replicate (Z.to_nat (cluster_size q)) 0) else
  if bool_decide (l2_in_file q l2t_offset = []) then None else
  let entry := be64_at (l2_table q l2t_offset) (get_l2_index q offset) in
  if flag entry QCOW2_OFLAG_COMPRESSED then compressed2 q entry else
  let start := entry .&~ QCOW2_OFLAGS_MASK in
  if start =? 0 then Some (replicate (Z.to_nat (cluster_size q)) 0)
  else file_bytes q start (cluster_size q).

(** ** Sound images *)

Record geometry_ok (q : qcow) : Prop := {
  g_cb : 9 <= cluster_bits (header q) <= 30;
  g_l2 : 0 <= l2_bits (header q) <= 30;
  g_cs : cluster_size q = 2 ^ cluster_bits (header q);
  g_shift : csize_shift q = 70 - cluster_bits (header q);
  g_cmask : csize_mask q = 2 ^ (cluster_bits (header q) - 8) - 1;
  g_omask : cluster_offset_mask q = 2 ^ csize_shift q - 1;
  g_l1 : byte_ok (table_bytes (table q));
  g_l1_off : forall i, be64_at (table_bytes (table q)) i .&~ QCOW2_OFLAG_COPIED
               + Z.of_nat (l2_bytes q) < 2 ^ 63
}.

Record image_ok (q : qcow) : Prop := {
  i_geo : geometry_ok q;
  i_fd : healthy (fd q);
  i_bytes : byte_ok (content (fd q));
  i_cc : length (cluster_cache q) = Z.to_nat (cluster_size q);
  i_cd : length (cluster_data q) = Z.to_nat (cluster_size q);
  i_cache : cache_ok (table_cache (table q));
  i_coh : forall o n, nodes (table_cache (table q)) !! o = Some n ->
            entries n = l2_table q o /\ l2_in_file q o <> []
}.

(** What reading may change: the kernel's script, the cache and the buffers. *)
Definition advance (q : qcow) (s : list outcome) (c : cache) (cc cd : list Z) : qcow :=
  set_buffers (set_fd (set_l1_cache q c) (set_script (fd q) s)) cc cd (copy_buff q).

Definition reads_to (q q' : qcow) : Prop :=
  (exists s c cc cd, q' = advance q s c cc cd) /\ image_ok q'.

Lemma reads_to_refl q : image_ok q -> reads_to q q.
Proof.
  intros H. split; [|exact H].
  exists (script (fd q)), (table_cache (table q)), (cluster_cache q), (cluster_data q).
  now destruct q as [? [] [] []].
Qed.

Lemma reads_to_trans q1 q2 q3 : reads_to q1 q2 -> reads_to q2 q3 -> reads_to q1 q3.
Proof.
  intros [(s1 & c1 & a1 & b1 & ->) _] [(s2 & c2 & a2 & b2 & ->) H].
  split; [|exact H]. now exists s2, c2, a2, b2.
Qed.

(** The reference does not see what reading changes. *)
Lemma cluster_reads_to q q' offset : reads_to q q' -> qcow2_cluster q' offset = qcow2_cluster q offset.
Proof. now intros [(s & c & cc & cd & ->) _]. Qed.

Lemma be64_fits t i : byte_ok t -> fits 64 (be64_at t i).
Proof.
  intros H. unfold be64_at. pose proof (be_dec_fits _ (slice_bytes (8 * Z.to_nat i) 8 t H)) as F.
  assert (L : (length (slice (8 * Z.to_nat i) 8 t) <= 8)%nat)
    by (unfold slice; rewrite length_take; lia).
  unfold fits in *. split; [lia|]. eapply Z.lt_le_trans; [apply F|].
  apply Z.pow_le_mono_r; lia.
Qed.

Lemma l2_table_bytes q o : byte_ok (content (fd q)) -> byte_ok (l2_table q o).
Proof.
  intros H. apply splice_bytes; [now apply slice_bytes|].
  apply Forall_replicate. unfold fits. lia.
Qed.

(** [pread_in_full] of bytes that are all there. *)
Lemma pread_file_bytes q offset len d : healthy (fd q) -> 0 <= offset -> 0 < len ->
  offset + len < 2 ^ 63 -> file_bytes q offset len = Some d ->
  exists s, Forall soft s /\
    pread_in_full (fd q) (Z.to_nat len) offset = (len, d, set_script (fd q) s).
Proof.
  intros Hh Ho Hl Hw Hd. unfold file_bytes in Hd.
  destruct (pread_in_full_spec (fd q) (Z.to_nat len) offset Hh Ho ltac:(lia)) as (s & Hs & E).
  cbn zeta in E. destruct (Nat.eqb_spec (length (slice (Z.to_nat offset) (Z.to_nat len) (content (fd q))))
    (Z.to_nat len)) as [EL|]; [|discriminate]. injection Hd as <-.
  exists s. split; [exact Hs|]. rewrite E, EL.
  destruct (Nat.eqb_spec (Z.to_nat len) 0); [lia|]. cbn [orb].
  destruct (Z.ltb_spec 0 (Z.of_nat (Z.to_nat len))); [|lia]. now rewrite Z2Nat.id by lia.
Qed.

Definition coherent (q : qcow) (c : cache) : Prop :=
  forall o n, nodes c !! o = Some n -> entries n = l2_table q o /\ l2_in_file q o <> [].

Lemma advance_ok q s c cc cd : image_ok q -> Forall soft s -> cache_ok c -> coherent q c ->
  length cc = Z.to_nat (cluster_size q) -> length cd = Z.to_nat (cluster_size q) ->
  reads_to q (advance q s c cc cd).
Proof.
  intros [[] ] Hs Hc Hco Hcc Hcd. split; [now exists s, c, cc, cd|].
  constructor; [constructor|..]; auto.
Qed.

Lemma script_ok q s : image_ok q -> Forall soft s ->
  reads_to q (set_fd q (set_script (fd q) s)).
Proof.
  intros Hq Hs. assert (Ea : set_fd q (set_script (fd q) s) =
    advance q s (table_cache (table q)) (cluster_cache q) (cluster_data q))
    by (now destruct q as [? [] [] []]).
  rewrite Ea. pose proof (i_coh q Hq). apply advance_ok; auto; apply Hq.
Qed.

(** One turn of the cache: the table is the one in the file. *)
Lemma read_l2_spec q o : image_ok q -> 0 <= o -> o + Z.of_nat (l2_bytes q) < 2 ^ 63 ->
  l2_in_file q o <> [] ->
  exists n q', qcow_read_l2_table q o = Ret (Some n, q') /\ entries n = l2_table q o /\
    reads_to q q' /\ nodes (table_cache (table q')) !! o = Some n /\
    (forall o' n', nodes (table_cache (table q')) !! o' = Some n' ->
       o' = o \/ nodes (table_cache (table q)) !! o' = Some n').
Proof.
  intros Hq Ho Hw Hne. destruct Hq as [Hg Hfd Hb Hcc Hcd Hca Hcoh] eqn:Eq. clear Eq.
  unfold qcow_read_l2_table. destruct (nodes (table_cache (table q)) !! o) as [n|] eqn:En.
  - destruct (search_hit _ o n Hca En) as (c & -> & Hc & Hn & _).
    destruct (Hcoh o n En) as [E1 _]. exists n, (set_l1_cache q c).
    split; [reflexivity|]. split; [exact E1|].
    assert (E : set_l1_cache q c = advance q (script (fd q)) c (cluster_cache q) (cluster_data q))
      by (now destruct q as [? [] [] []]).
    split.
    + rewrite E. apply advance_ok; auto. intros o' n' H. rewrite Hn in H. now apply Hcoh.
    + cbn. rewrite Hn. auto.
  - rewrite (search_miss _ o Hca En).
    destruct (pread_in_full_spec (fd q) (l2_bytes q) o Hfd Ho Hw) as (s & Hs & E).
    cbn zeta in E. unfold l2_bytes at 1 in E. rewrite E. fold (l2_in_file q o).
    assert (HL : (0 < length (l2_in_file q o))%nat)
      by (destruct (l2_in_file q o); [congruence|cbn; lia]).
    destruct (Z.ltb_spec 0 (Z.of_nat (length (l2_in_file q o)))); [|lia].
    rewrite orb_true_r. destruct (Z.ltb_spec (Z.of_nat (length (l2_in_file q o))) 0); [lia|].
    cbn [new_cache_table entries dirty]. fold (l2_bytes q). fold (l2_table q o).
    set (n := mknode (l2_table q o) false).
    change (table_cache (table (set_fd q (set_script (fd q) s)))) with (table_cache (table q)).
    destruct (cache_insert_ok _ o n Hca En) as (c & -> & Hc & Hn & Hrest & _).
    exists n. eexists. split; [reflexivity|]. split; [reflexivity|].
    assert (Hold : forall o' n', nodes c !! o' = Some n' ->
      o' = o \/ nodes (table_cache (table q)) !! o' = Some n').
    { intros o' n' H'. destruct (decide (o' = o)) as [|Hne']; [now left|right].
      destruct (Hrest o' Hne') as [E'|E']; congruence. }
    split; [|split; [exact Hn|exact Hold]].
    change (reads_to q (advance q s c (cluster_cache q) (cluster_data q))).
    apply advance_ok; auto. intros o' n' H'. destruct (Hold o' n' H') as [->|H2].
    + assert (n' = n) as -> by congruence. now split.
    + now apply Hcoh.
Qed.

Lemma slice_slice a n b m (l : list Z) : (a + n <= m)%nat ->
  slice a n (slice b m l) = slice (b + a) n l.
Proof.
  intros H. unfold slice. rewrite skipn_firstn_comm, take_take, drop_drop. f_equal. lia.
Qed.

(** A plain cluster: part of the cluster that is in the file. *)
Lemma read_plain_spec q start len off c : image_ok q -> 0 <= start < 2 ^ 62 ->
  0 <= off -> 0 < len -> off + len <= cluster_size q ->
  file_bytes q start (cluster_size q) = Some c ->
  exists q', read_plain q len (start + off) = Ret (len, slice (Z.to_nat off) (Z.to_nat len) c, q') /\
    reads_to q q'.
Proof.
  intros Hq Hs Ho Hl Hcl Hc. destruct (i_geo q Hq) as [Hcb _ Hcs _ _ _ _ _].
  assert (Hc30 : cluster_size q <= 2 ^ 30) by (rewrite Hcs; apply Z.pow_le_mono_r; lia).
  unfold file_bytes in Hc.
  destruct (Nat.eqb_spec (length (slice (Z.to_nat start) (Z.to_nat (cluster_size q)) (content (fd q))))
    (Z.to_nat (cluster_size q))) as [EL|]; [|discriminate]. injection Hc as <-.
  assert (Hfb : file_bytes q (start + off) len = Some (slice (Z.to_nat off) (Z.to_nat len)
      (slice (Z.to_nat start) (Z.to_nat (cluster_size q)) (content (fd q))))).
  { unfold file_bytes. rewrite slice_slice by lia.
    replace (Z.to_nat (start + off)) with (Z.to_nat start + Z.to_nat off)%nat by lia.
    destruct (Nat.eqb_spec (length (slice (Z.to_nat start + Z.to_nat off) (Z.to_nat len)
      (content (fd q)))) (Z.to_nat len)) as [|N]; [reflexivity|]. exfalso. apply N.
    unfold slice in *. rewrite length_take, length_drop in *. lia. }
  destruct (pread_file_bytes q (start + off) len _ (i_fd q Hq)
    ltac:(lia) Hl ltac:(lia) Hfb) as (s & Hsoft & E).
  unfold read_plain. rewrite (wrap_id 64) by (unfold fits; lia). rewrite E.
  destruct (Z.ltb_spec len 0); [lia|]. eexists. split; [reflexivity|].
  now apply script_ok.
Qed.

Lemma splice_0 data m : splice 0 data m = data ++ drop (length data) m.
Proof. reflexivity. Qed.

Lemma splice_all data m : length data = length m -> splice 0 data m = data.
Proof.
  intros H. rewrite splice_0, drop_ge by lia. apply app_nil_r.
Qed.

Lemma inflate_ok q cc input out : inflated q input = Some out ->
  length cc = Z.to_nat (cluster_size q) ->
  qcow_decompress_buffer inflateInit2 inflate cc (cluster_size q) input = (0, out) /\
  length out = Z.to_nat (cluster_size q).
Proof.
  unfold inflated, qcow_decompress_buffer. intros H Hcc.
  destruct (inflate input (cluster_size q)) as [ret produced].
  destruct (inflateInit2 =? Z_OK); [|discriminate]. cbn [andb negb] in *.
  destruct ((ret =? Z_STREAM_END) || (ret =? Z_BUF_ERROR)) eqn:Er; [|discriminate].
  cbn [andb] in H. destruct (Z.eqb_spec (Z.of_nat (length produced)) (cluster_size q)) as [EL|];
    [|discriminate]. injection H as <-.
  rewrite <- negb_orb, Er. cbn [negb orb]. rewrite splice_all by lia. split; [reflexivity|lia].
Qed.

(** The fields of a compressed entry, as the C expressions compute them. *)
Lemma compressed_fields q entry : geometry_ok q -> fits 64 entry ->
  entry .& cluster_offset_mask q < 2 ^ 31 ->
  let start := entry .& cluster_offset_mask q in
  let nb := ((entry .>> csize_shift q) .& csize_mask q) + 1 in
  0 <= start /\ s32 start = start /\ s32 nb = nb /\ 1 <= nb /\
  start .& (SECTOR_SIZE - 1) = start mod SECTOR_SIZE /\
  u64 (start .&~ (SECTOR_SIZE - 1)) = start - start mod SECTOR_SIZE.
Proof.
  intros [Hcb _ Hcs Hsh Hcm Hom _ _] He Hlt. cbn zeta.
  set (start := entry .& cluster_offset_mask q) in *.
  assert (H0 : 0 <= start) by (apply Z.land_nonneg; left; apply He).
  assert (Hnb : 0 <= (entry .>> csize_shift q) .& csize_mask q < 2 ^ 22).
  { rewrite Hcm, land_mask' by lia.
    pose proof (Z.mod_pos_bound (entry .>> csize_shift q) (2 ^ (cluster_bits (header q) - 8))
      ltac:(apply Z.pow_pos_nonneg; lia)).
    assert (2 ^ (cluster_bits (header q) - 8) <= 2 ^ 22) by (apply Z.pow_le_mono_r; lia). lia. }
  change SECTOR_SIZE with (2 ^ 9).
  pose proof (Z.mod_pos_bound start (2 ^ 9) ltac:(lia)).
  pose proof (Z.mod_le start (2 ^ 9) H0 ltac:(lia)).
  split; [exact H0|]. split; [apply swrap_id; lia|]. split; [apply swrap_id; lia|].
  split; [lia|]. split; [now rewrite land_mask' by lia|].
  rewrite ldiff_mask by lia. apply wrap_id. unfold fits. lia.
Qed.

Lemma read_compressed_spec q entry out : image_ok q -> fits 64 entry ->
  compressed2 q entry = Some out ->
  let start := s32 (entry .& cluster_offset_mask q) in
  let nb := s32 (((entry .>> csize_shift q) .& csize_mask q) + 1) in
  let skip := start .& (SECTOR_SIZE - 1) in
  exists q', read_compressed inflateInit2 inflate q (nb * SECTOR_SIZE)
      (u64 (start .&~ (SECTOR_SIZE - 1))) skip (nb * SECTOR_SIZE - skip) = Ret (0, q') /\
    cluster_cache q' = out /\ length out = Z.to_nat (cluster_size q) /\ reads_to q q'.
Proof.
  intros Hq He Hc. cbn zeta. unfold compressed2 in Hc.
  destruct (Z.ltb_spec (entry .& cluster_offset_mask q) (2 ^ 31)) as [Hlt|]; [|discriminate].
  pose proof (i_geo q Hq) as Hg. pose proof Hg as [Hcb _ Hcs _ _ _ _ _].
  destruct (compressed_fields q entry Hg He Hlt) as (H0 & -> & -> & Hnb & -> & ->).
  set (start := entry .& cluster_offset_mask q) in *.
  set (nb := ((entry .>> csize_shift q) .& csize_mask q) + 1) in *.
  cbn [andb] in Hc. destruct (Z.leb_spec (nb * SECTOR_SIZE) (cluster_size q)) as [Hle|]; [|discriminate].
  assert (HS : SECTOR_SIZE = 512) by reflexivity.
  pose proof (Z.mod_pos_bound start SECTOR_SIZE ltac:(lia)).
  pose proof (Z.mod_le start SECTOR_SIZE H0 ltac:(lia)).
  assert (Hc30 : cluster_size q <= 2 ^ 30) by (rewrite Hcs; apply Z.pow_le_mono_r; lia).
  destruct (file_bytes q (start - start mod SECTOR_SIZE) (nb * SECTOR_SIZE)) as [d|] eqn:Ed;
    [|discriminate]. cbn [mbind option_bind] in Hc.
  destruct (pread_file_bytes q (start - start mod SECTOR_SIZE) (nb * SECTOR_SIZE) d (i_fd q Hq) ltac:(lia) ltac:(lia) ltac:(lia) Ed)
    as (s & Hs & Ep).
  assert (Ld : length d = Z.to_nat (nb * SECTOR_SIZE)).
  { unfold file_bytes in Ed. destruct (Nat.eqb_spec (length (slice (Z.to_nat (start - start mod SECTOR_SIZE))
      (Z.to_nat (nb * SECTOR_SIZE)) (content (fd q)))) (Z.to_nat (nb * SECTOR_SIZE))); [|discriminate].
    now injection Ed as <-. }
  unfold read_compressed. rewrite Ep, (i_cd q Hq).
  destruct (Z.ltb_spec (nb * SECTOR_SIZE) 0); [lia|].
  destruct (Z.ltb_spec (Z.of_nat (Z.to_nat (cluster_size q))) (nb * SECTOR_SIZE)); [lia|].
  assert (Hskip : start mod SECTOR_SIZE < nb * SECTOR_SIZE) by (rewrite HS in *; lia).
  assert (Hsl : slice (Z.to_nat (start mod SECTOR_SIZE))
     (Z.to_nat (nb * SECTOR_SIZE - start mod SECTOR_SIZE)) (splice 0 d (cluster_data q)) =
     slice (Z.to_nat (start mod SECTOR_SIZE)) (Z.to_nat (nb * SECTOR_SIZE - start mod SECTOR_SIZE)) d).
  { rewrite splice_0. unfold slice. rewrite drop_app_le by lia. apply take_app_le.
    rewrite length_drop. lia. }
  rewrite Hsl. cbn [set_buffers set_fd cluster_cache cluster_size].
  destruct (inflate_ok q (cluster_cache q) _ out Hc (i_cc q Hq)) as [E Lo]. rewrite E.
  eexists. split; [reflexivity|]. split; [reflexivity|]. split; [exact Lo|].
  assert (Ea : forall cd, set_buffers (set_buffers (set_fd q (set_script (fd q) s)) (cluster_cache q) cd
      (copy_buff q)) out cd (copy_buff q) = advance q s (table_cache (table q)) out cd)
    by (intros; now destruct q as [? [] [] []]).
  cbn [set_buffers set_fd copy_buff] in Ea |- *. rewrite Ea.
  pose proof (i_coh q Hq). apply advance_ok; auto; try apply Hq.
  pose proof (i_cd q Hq). rewrite length_splice; lia.
Qed.

(** ** Cluster reads against the reference *)

Lemma slice_replicate a n m : (a + n <= m)%nat -> slice a n (replicate m 0) = replicate n 0.
Proof.
  intros H. unfold slice. rewrite drop_replicate, take_replicate. f_equal. lia.
Qed.

Lemma cluster_offset_mod q offset : geometry_ok q ->
  get_cluster_offset q offset = offset mod cluster_size q.
Proof.
  intros [Hcb _ Hcs _ _ _ _ _]. unfold get_cluster_offset. rewrite Hcs. apply land_mask. lia.
Qed.

Lemma l2_index_bound q offset : geometry_ok q ->
  0 <= get_l2_index q offset < 1 .<< l2_bits (header q).
Proof.
  intros [_ Hl2 _ _ _ _ _ _]. unfold get_l2_index. rewrite land_mask, shiftl1_pow2 by lia.
  apply Z.mod_pos_bound, Z.pow_pos_nonneg; lia.
Qed.

Lemma flags_clear entry : fits 64 entry -> 0 <= entry .&~ QCOW2_OFLAGS_MASK < 2 ^ 62.
Proof.
  intros He. apply (fits_of_bits 62); [lia|apply Z.ldiff_nonneg; left; apply He|].
  intros i Hi. rewrite Z.ldiff_spec.
  destruct (Z_lt_ge_dec i 64) as [H|H]; [|now rewrite (fits_testbit 64 entry) by (auto; lia)].
  assert (i = 62 \/ i = 63) as [-> | ->] by lia; now rewrite andb_false_r.
Qed.

(** What a cluster read has to return. *)
Definition reads_cluster (q : qcow) (c : list Z) (offset dst_len : Z) (r : out read_result) : Prop :=
  let off := offset mod cluster_size q in
  let len := Z.min (cluster_size q - off) dst_len in
  exists q', r = Ret (len, slice (Z.to_nat off) (Z.to_nat len) c, q') /\ reads_to q q'.

Lemma zero_cluster_spec q q' offset dst_len : geometry_ok q -> reads_to q q' -> 0 < dst_len ->
  reads_cluster q (replicate (Z.to_nat (cluster_size q)) 0) offset dst_len
    (zero_cluster q' (Z.min (cluster_size q - offset mod cluster_size q) dst_len)).
Proof.
  intros Hg Hr Hl. exists q'. split; [|exact Hr]. unfold zero_cluster.
  assert (0 < cluster_size q) by (rewrite (g_cs q Hg); apply Z.pow_pos_nonneg; destruct Hg; lia).
  pose proof (Z.mod_pos_bound offset (cluster_size q) ltac:(lia)).
  rewrite slice_replicate by lia. reflexivity.
Qed.

Lemma qcow2_read_cluster_spec q offset dst_len c : image_ok q -> 0 < dst_len ->
  qcow2_cluster q offset = Some c ->
  length c = Z.to_nat (cluster_size q) /\
  reads_cluster q c offset dst_len (qcow2_read_cluster inflateInit2 inflate q offset dst_len).
Proof.
  intros Hq Hl Hc. pose proof (i_geo q Hq) as Hg.
  assert (Hcs : 0 < cluster_size q) by (rewrite (g_cs q Hg); apply Z.pow_pos_nonneg; destruct Hg; lia).
  pose proof (Z.mod_pos_bound offset (cluster_size q) Hcs) as Hoff.
  unfold qcow2_cluster in Hc. unfold qcow2_read_cluster. rewrite (cluster_offset_mod q offset Hg).
  destruct (table_size (table q) <=? get_l1_index q offset); [discriminate|].
  destruct (Z.leb_spec (cluster_size q) (offset mod cluster_size q)); [lia|].
  set (o := be64_at (table_bytes (table q)) (get_l1_index q offset) .&~ QCOW2_OFLAG_COPIED) in *.
  destruct (o =? 0).
  { injection Hc as <-. split; [apply length_replicate|].
    apply zero_cluster_spec; auto. now apply reads_to_refl. }
  destruct (bool_decide_reflect (l2_in_file q o = [])) as [|Hne]; [discriminate|].
  assert (Ho : 0 <= o) by (apply Z.ldiff_nonneg; left; apply be64_fits; apply (g_l1 q Hg)).
  destruct (read_l2_spec q o Hq Ho (g_l1_off q Hg _) Hne) as (n & q1 & -> & En & Hr1 & _).
  pose proof (l2_index_bound q offset Hg) as Hidx.
  assert (Hg1 : geometry_ok q1) by (apply i_geo, Hr1).
  assert (Hq1 : image_ok q1) by apply Hr1.
  assert (Eh : header q1 = header q /\ cluster_size q1 = cluster_size q /\
    cluster_offset_mask q1 = cluster_offset_mask q /\ csize_shift q1 = csize_shift q /\
    csize_mask q1 = csize_mask q /\ forall e, compressed2 q1 e = compressed2 q e)
    by (destruct Hr1 as [(s & c1 & cc & cd & ->) _]; now repeat split).
  destruct Eh as (Eh & Ec & Em & Esh & Ecm & Ecomp).
  unfold get_l2_index in Hc, Hidx |- *. rewrite Eh.
  destruct (Z.leb_spec (1 .<< l2_bits (header q)) ((offset .>> cluster_bits (header q)) .&
    ((1 .<< l2_bits (header q)) - 1))); [lia|].
  rewrite En. set (entry := be64_at (l2_table q o) _) in *.
  assert (He : fits 64 entry) by (apply be64_fits, l2_table_bytes, (i_bytes q Hq)).
  destruct (flag entry QCOW2_OFLAG_COMPRESSED).
  - rewrite <- Ecomp in Hc.
    destruct (read_compressed_spec q1 entry c Hq1 He Hc) as (q2 & E2 & Ecc & Lc & Hr2).
    rewrite E2. cbn [Z.ltb Z.compare]. rewrite Ec in Lc. split; [exact Lc|].
    exists q2. rewrite Ecc. split; [reflexivity|]. now apply (reads_to_trans q q1).
  - pose proof (flags_clear entry He) as Hst. set (start := entry .&~ QCOW2_OFLAGS_MASK) in *.
    destruct (start =? 0).
    { injection Hc as <-. split; [apply length_replicate|]. now apply zero_cluster_spec. }
    assert (Hc1 : file_bytes q1 start (cluster_size q1) = Some c)
      by (rewrite Ec, <- Hc; now destruct Hr1 as [(s & c1 & cc & cd & ->) _]).
    destruct (read_plain_spec q1 start (Z.min (cluster_size q - offset mod cluster_size q) dst_len)
      (offset mod cluster_size q) c Hq1) as (q2 & E2 & Hr2); [lia..|exact Hc1|].
    split.
    + unfold file_bytes in Hc. destruct (Nat.eqb_spec (length (slice (Z.to_nat start)
        (Z.to_nat (cluster_size q)) (content (fd q)))) (Z.to_nat (cluster_size q))); [|discriminate].
      now injection Hc as <-.
    + exists q2. split; [exact E2|]. now apply (reads_to_trans q q1).
Qed.

(** ** Sector reads against the virtual disk *)

(** The byte of the guest's disk at an offset. *)
Definition disk_byte (q : qcow) (p : Z) : option Z :=
  c ← qcow2_cluster q p; c !! Z.to_nat (p mod cluster_size q).

Lemma same_cluster q p p' : geometry_ok q -> p / cluster_size q = p' / cluster_size q ->
  qcow2_cluster q p = qcow2_cluster q p'.
Proof.
  intros [Hcb Hl2 Hcs _ _ _ _ _] E. rewrite Hcs in E.
  assert (Es : p .>> cluster_bits (header q) = p' .>> cluster_bits (header q))
    by (rewrite !Z.shiftr_div_pow2 by lia; exact E).
  assert (E1 : get_l1_index q p = get_l1_index q p').
  { unfold get_l1_index. rewrite Z.add_comm, <- !Z.shiftr_shiftr by lia. now rewrite Es. }
  assert (E2 : get_l2_index q p = get_l2_index q p') by (unfold get_l2_index; now rewrite Es).
  unfold qcow2_cluster. now rewrite E1, E2.
Qed.

(** The bytes a cluster read returns are the disk's bytes. *)
Lemma chunk_bytes q offset len c i : geometry_ok q -> 0 <= offset ->
  qcow2_cluster q offset = Some c -> length c = Z.to_nat (cluster_size q) ->
  let off := offset mod cluster_size q in
  0 <= len <= cluster_size q - off -> 0 <= i < len ->
  slice (Z.to_nat off) (Z.to_nat len) c !! Z.to_nat i = disk_byte q (offset + i).
Proof.
  intros Hg Ho Hc Lc off Hlen Hi. assert (Hcs : 0 < cluster_size q)
    by (rewrite (g_cs q Hg); apply Z.pow_pos_nonneg; destruct Hg; lia).
  pose proof (Z.mod_pos_bound offset (cluster_size q) Hcs) as Hoff. fold off in Hoff.
  pose proof (Z.div_mod offset (cluster_size q) ltac:(lia)) as Hdm. fold off in Hdm.
  assert (Ediv : (offset + i) / cluster_size q = offset / cluster_size q /\
                 (offset + i) mod cluster_size q = off + i).
  { assert (E : offset + i = cluster_size q * (offset / cluster_size q) + (off + i)) by lia.
    rewrite E. split.
    - rewrite Z.add_comm, Z.mul_comm, Z.div_add by lia. rewrite Z.div_small; lia.
    - rewrite Z.add_comm, Z.mul_comm, Z.mod_add by lia. apply Z.mod_small. lia. }
  destruct Ediv as [E1 E2]. unfold disk_byte.
  rewrite (same_cluster q _ offset Hg E1), Hc, E2. cbn [mbind option_bind].
  unfold slice. rewrite lookup_take_lt by lia. rewrite lookup_drop. f_equal. lia.
Qed.

Lemma disk_byte_reads_to q q' p : reads_to q q' -> disk_byte q' p = disk_byte q p.
Proof.
  intros H. unfold disk_byte. rewrite (cluster_reads_to q q' p H).
  now destruct H as [(s & c & cc & cd & ->) _].
Qed.

Lemma lookup_splice_in off data m i : (off + length data <= length m)%nat ->
  (off <= i < off + length data)%nat -> splice off data m !! i = data !! (i - off)%nat.
Proof.
  intros H Hi. unfold splice. rewrite lookup_app_r by (rewrite length_take; lia).
  rewrite length_take, Nat.min_l by lia. apply lookup_app_l. lia.
Qed.

Lemma lookup_splice_before off data m i : (off <= length m)%nat -> (i < off)%nat ->
  splice off data m !! i = m !! i.
Proof.
  intros H Hi. unfold splice. rewrite lookup_app_l by (rewrite length_take; lia).
  apply lookup_take_lt. lia.
Qed.

Lemma read_loop_spec fuel : forall q sector nr dst,
  image_ok q -> version q = QCOW2_VERSION -> 0 <= sector ->
  let dst_len := Z.of_nat (length dst) in
  dst_len < 2 ^ 32 -> 0 <= nr <= dst_len -> dst_len - nr < Z.of_nat fuel ->
  sector * 512 + (dst_len - nr) <= size (header q) -> size (header q) < 2 ^ 64 ->
  (forall i, 0 <= i < dst_len - nr -> is_Some (disk_byte q (sector * 512 + i))) ->
  exists dst' q', read_loop inflateInit2 inflate fuel q sector nr nr dst_len dst = Ret (dst_len, dst', q') /\
    reads_to q q' /\ length dst' = length dst /\
    (forall i, (i < Z.to_nat nr)%nat -> dst' !! i = dst !! i) /\
    (forall i, nr <= i < dst_len -> dst' !! Z.to_nat i = disk_byte q (sector * 512 + (i - nr))).
Proof.
  induction fuel as [|fuel IH]; intros q sector nr dst Hq Hv Hsec dst_len Hdl Hnr Hf Hsz Hs64 Hall;
    [lia|].
  cbn [read_loop]. destruct (Z.leb_spec dst_len nr) as [Hd|Hd].
  { exists dst, q. split; [reflexivity|]. split; [now apply reads_to_refl|].
    split; [reflexivity|]. split; [auto|]. intros i Hi. lia. }
  pose proof (i_geo q Hq) as Hg.
  assert (Hcs : 512 <= cluster_size q /\ cluster_size q <= 2 ^ 30 /\ cluster_size q mod 512 = 0).
  { rewrite (g_cs q Hg). destruct Hg as [Hcb _ _ _ _ _ _ _].
    change 512 with (2 ^ 9). split; [apply Z.pow_le_mono_r; lia|].
    split; [apply Z.pow_le_mono_r; lia|].
    replace (cluster_bits (header q)) with ((cluster_bits (header q) - 9) + 9) by lia.
    rewrite Z.pow_add_r by lia. apply Z.mod_mul. lia. }
  destruct Hcs as (Hcs1 & Hcs2 & Hcs3).
  change SECTOR_SHIFT with 9. rewrite Z.shiftl_mul_pow2 by lia. change (2 ^ 9) with 512.
  rewrite (wrap_id 64) by (unfold fits; lia).
  destruct (Z.leb_spec (size (header q)) (sector * 512)); [lia|].
  rewrite Hv. cbn [QCOW2_VERSION QCOW1_VERSION Z.eqb Pos.eqb].
  rewrite (wrap_id 32 (dst_len - nr)) by (unfold fits; lia).
  destruct (Hall 0 ltac:(lia)) as [b0 Hb0]. rewrite Z.add_0_r in Hb0.
  unfold disk_byte in Hb0. destruct (qcow2_cluster q (sector * 512)) as [c|] eqn:Ec; [|discriminate].
  clear b0 Hb0.
  destruct (qcow2_read_cluster_spec q (sector * 512) (dst_len - nr) c Hq ltac:(lia) Ec)
    as (Lc & q1 & E1 & Hr1).
  rewrite E1. pose proof (Z.mod_pos_bound (sector * 512) (cluster_size q) ltac:(lia)) as Hoff.
  set (off := (sector * 512) mod cluster_size q) in *.
  set (len := Z.min (cluster_size q - off) (dst_len - nr)) in *.
  set (data := slice (Z.to_nat off) (Z.to_nat len) c) in *.
  assert (Ld : length data = Z.to_nat len) by (unfold data; apply length_slice; lia).
  rewrite Ld. destruct (Z.ltb_spec dst_len (nr + Z.of_nat (Z.to_nat len))); [lia|].
  rewrite andb_false_r, (wrap_id 32 len) by (unfold fits; lia).
  destruct (Z.eqb_spec len 0); [lia|].
  set (dst1 := splice (Z.to_nat nr) data dst).
  assert (L1 : length dst1 = length dst) by (apply length_splice; lia).
  assert (Hoff9 : off mod 512 = 0).
  { unfold off. rewrite Z.mod_mod_divide; [apply Z.mod_mul; lia|].
    apply Z.mod_divide; [lia|exact Hcs3]. }
  (* the last chunk, or a chunk that ends on a sector boundary *)
  rewrite (wrap_id 32 (nr + len)) by (unfold fits; lia).
  assert (Hd1 : forall i, nr <= i < nr + len ->
    dst1 !! Z.to_nat i = disk_byte q (sector * 512 + (i - nr))).
  { intros i Hi. unfold dst1. rewrite lookup_splice_in by lia.
    replace (Z.to_nat i - Z.to_nat nr)%nat with (Z.to_nat (i - nr)) by lia.
    unfold data, off. apply chunk_bytes; auto; fold off; lia. }
  assert (Hd0 : forall i, (i < Z.to_nat nr)%nat -> dst1 !! i = dst !! i)
    by (intros i Hi; apply lookup_splice_before; lia).
  destruct (Z_lt_ge_dec (nr + len) dst_len) as [Hlt|Hge].
  - assert (Hlen : len = cluster_size q - off) by lia.
    assert (Hl9 : len .>> 9 * 512 = len).
    { rewrite Z.shiftr_div_pow2 by lia. change (2 ^ 9) with 512.
      assert (len mod 512 = 0).
      { rewrite Hlen, Zminus_mod, Hcs3, Hoff9. reflexivity. }
      pose proof (Z.div_mod len 512 ltac:(lia)). lia. }
    rewrite (wrap_id 64 (sector + len .>> 9)) by (unfold fits; lia).
    destruct (IH q1 (sector + len .>> 9) (nr + len) dst1) as (dst2 & q2 & E2 & Hr2 & L2 & K1 & K2).
    + apply Hr1.
    + now destruct Hr1 as [(s & c1 & cc & cd & ->) _].
    + lia.
    + lia.
    + lia.
    + lia.
    + replace (size (header q1)) with (size (header q)) by (now destruct Hr1 as [(s & c1 & cc & cd & ->) _]).
      lia.
    + now destruct Hr1 as [(s & c1 & cc & cd & ->) _].
    + intros i Hi. rewrite (disk_byte_reads_to q q1 _ Hr1).
      replace ((sector + len .>> 9) * 512 + i) with (sector * 512 + (len + i)) by lia.
      apply Hall. lia.
    + rewrite L1 in E2. fold dst_len in E2. exists dst2, q2. split; [exact E2|].
      split; [now apply (reads_to_trans q q1)|]. split; [congruence|]. split.
      * intros i Hi. rewrite K1 by lia. now apply Hd0.
      * intros i Hi. destruct (Z_lt_ge_dec i (nr + len)).
        -- replace (dst2 !! Z.to_nat i) with (dst1 !! Z.to_nat i) by (symmetry; apply K1; lia).
           apply Hd1. lia.
        -- rewrite K2 by lia. rewrite (disk_byte_reads_to q q1 _ Hr1). f_equal. lia.
  - assert (Hend : nr + len = dst_len) by lia. rewrite Hend.
    assert (Estop : forall s b, read_loop inflateInit2 inflate fuel q1 s dst_len b dst_len dst1
                    = Ret (dst_len, dst1, q1)).
    { intros s b. destruct fuel; cbn [read_loop]; now rewrite Z.leb_refl. }
    rewrite Estop. exists dst1, q1. split; [reflexivity|]. split; [exact Hr1|].
    split; [exact L1|]. split; [exact Hd0|]. intros i Hi. apply Hd1. lia.
Qed.

Definition total_length (iov : list (list Z)) : Z := Z.of_nat (length (concat iov)).

Lemma read_iov_spec iov : forall q sector total,
  image_ok q -> version q = QCOW2_VERSION -> 0 <= sector -> 0 <= total ->
  Forall (fun d => Z.of_nat (length d) mod 512 = 0) iov -> total_length iov < 2 ^ 32 ->
  sector * 512 + total_length iov <= size (header q) -> size (header q) < 2 ^ 64 ->
  (forall i, 0 <= i < total_length iov -> is_Some (disk_byte q (sector * 512 + i))) ->
  exists iov' q', read_iov inflateInit2 inflate q sector total iov =
      Ret (total + total_length iov, iov', q') /\ reads_to q q' /\
    Forall2 (fun a b => length b = length a) iov iov' /\
    length (concat iov') = length (concat iov) /\
    (forall i, 0 <= i < total_length iov ->
       concat iov' !! Z.to_nat i = disk_byte q (sector * 512 + i)).
Proof.
  induction iov as [|dst iov IH]; intros q sector total Hq Hv Hsec Ht Hal Hlt Hsz Hs64 Hall;
    unfold total_length in *; cbn [read_iov concat].
  { exists [], q. rewrite Z.add_0_r. split; [reflexivity|]. split; [now apply reads_to_refl|].
    split; [constructor|]. split; [reflexivity|]. cbn. lia. }
  apply Forall_cons in Hal. destruct Hal as [Hal0 Hal].
  cbn [concat] in *. rewrite length_app in *.
  set (L := Z.of_nat (length dst)) in *. set (R := Z.of_nat (length (concat iov))) in *.
  replace (Z.of_nat (length dst + length (concat iov))) with (L + R) in * by lia.
  unfold qcow_read_sector_single. fold L. rewrite (wrap_id 32 L) by (unfold fits; lia).
  destruct (read_loop_spec (2 * length dst + 1) q sector 0 dst Hq Hv Hsec)
    as (dst' & q1 & E1 & Hr1 & L1 & _ & K); fold L; try lia.
  { intros i Hi. apply Hall. lia. }
  fold L in E1, K. rewrite E1. fold L. rewrite Z.eqb_refl. cbn [negb].
  assert (HL9 : L .>> 9 * 512 = L).
  { rewrite Z.shiftr_div_pow2 by lia. change (2 ^ 9) with 512.
    pose proof (Z.div_mod L 512 ltac:(lia)). lia. }
  change SECTOR_SHIFT with 9. rewrite (wrap_id 64) by (unfold fits; lia).
  assert (Es : size (header q1) = size (header q) /\ version q1 = version q)
    by (now destruct Hr1 as [(s & c1 & cc & cd & ->) _]).
  destruct Es as [Es Ev].
  destruct (IH q1 (sector + L .>> 9) (total + L)) as (iov' & q2 & E2 & Hr2 & F2 & L2 & K2).
  - apply Hr1.
  - congruence.
  - lia.
  - lia.
  - exact Hal.
  - lia.
  - rewrite Es. lia.
  - rewrite Es. exact Hs64.
  - intros i Hi. rewrite (disk_byte_reads_to q q1 _ Hr1).
    replace ((sector + L .>> 9) * 512 + i) with (sector * 512 + (L + i)) by lia. apply Hall. lia.
  - rewrite E2. exists (dst' :: iov'), q2. split; [now replace (total + (L + R)) with (total + L + R) by lia|].
    split; [now apply (reads_to_trans q q1)|]. split; [now constructor|]. cbn [concat]. rewrite length_app.
    split; [lia|]. intros i Hi. destruct (Z_lt_ge_dec i L).
    + rewrite lookup_app_l by lia. rewrite K by lia. f_equal. lia.
    + rewrite lookup_app_r by lia.
      replace (Z.to_nat i - length dst')%nat with (Z.to_nat (i - L)) by lia.
      rewrite K2 by lia. rewrite (disk_byte_reads_to q q1 _ Hr1). f_equal. lia.
Qed.

(** A cluster read that fails tells the loop that 2^32 - 1 bytes were read. *)
Lemma read_loop_failure fuel q q' sector dst : version q = QCOW2_VERSION ->
  0 < Z.of_nat (length dst) < 2 ^ 32 -> u64 (sector .<< SECTOR_SHIFT) < size (header q) ->
  qcow2_read_cluster inflateInit2 inflate q (u64 (sector .<< SECTOR_SHIFT))
    (Z.of_nat (length dst)) = Ret (-1, [], q') ->
  read_loop inflateInit2 inflate (S fuel) q sector 0 0 (Z.of_nat (length dst)) dst =
  Ret (Z.of_nat (length dst), dst, q').
Proof.
  intros Hv Hl Hs E. cbn [read_loop].
  destruct (Z.leb_spec (Z.of_nat (length dst)) 0); [lia|].
  destruct (Z.leb_spec (size (header q)) (u64 (sector .<< SECTOR_SHIFT))); [lia|].
  rewrite Hv. cbn [QCOW2_VERSION QCOW1_VERSION Z.eqb Pos.eqb].
  rewrite Z.sub_0_r, (wrap_id 32 (Z.of_nat (length dst))) by (unfold fits; lia). rewrite E.
  cbn [length Nat.eqb negb andb Z.to_nat]. rewrite splice_0. cbn [length app drop].
  change (u32 (-1)) with (2 ^ 32 - 1). cbn [Z.eqb].
  replace (u32 (0 + (2 ^ 32 - 1))) with (2 ^ 32 - 1) by reflexivity.
  destruct fuel; cbn [read_loop];
    (destruct (Z.leb_spec (Z.of_nat (length dst)) (2 ^ 32 - 1)); [reflexivity|lia]).
Qed.

(** [pread] at an offset that is negative as an [off_t]. *)
Lemma pread_negative h count off : healthy h -> (0 < count)%nat -> off_t off < 0 ->
  exists s, Forall soft s /\ pread_in_full h count off = (-1, [], set_script h s).
Proof.
  intros Hh Hc Ho. unfold pread_in_full. destruct count as [|count]; [lia|].
  assert (E : exists s, Forall soft s /\ xpread h (S count) off = (-1, EINVAL, [], set_script h s)).
  { unfold xpread, healthy in *. destruct h as [c p s]. cbn [script] in *.
    assert (Hn : (off_t off <? 0) = true) by (apply Z.ltb_lt; lia).
    induction Hh as [|o s Ho' Hs IH]; cbn [length xpread_loop].
    - exists []. unfold sys_pread. cbn [next_limit script tl]. rewrite Hn. split; [constructor|reflexivity].
    - unfold sys_pread at 1. cbn [next_limit script tl content set_script].
      destruct o as [n|e]; cbn [soft] in Ho'.
      + rewrite Hn. cbn. exists s. split; [exact Hs|reflexivity].
      + replace (restartable (-1) e) with true by (destruct Ho' as [-> | ->]; reflexivity). exact IH. }
  destruct E as (s & Hs & E). exists s. split; [exact Hs|]. cbn [pread_loop]. rewrite E. reflexivity.
Qed.

(** The start of a cluster read whose tables are readable. *)
Lemma read_cluster_entry q offset dst_len : image_ok q ->
  get_l1_index q offset < table_size (table q) ->
  let o := be64_at (table_bytes (table q)) (get_l1_index q offset) .&~ QCOW2_OFLAG_COPIED in
  o <> 0 -> l2_in_file q o <> [] ->
  let entry := be64_at (l2_table q o) (get_l2_index q offset) in
  flag entry QCOW2_OFLAG_COMPRESSED = true ->
  exists q', reads_to q q' /\
    qcow2_read_cluster inflateInit2 inflate q offset dst_len =
    let coffset := s32 (entry .& cluster_offset_mask q) in
    let nb := s32 (((entry .>> csize_shift q) .& csize_mask q) + 1) in
    let skip := coffset .& (SECTOR_SIZE - 1) in
    let off := offset mod cluster_size q in
    let len := Z.min (cluster_size q - off) dst_len in
    let! (ret, q2) := read_compressed inflateInit2 inflate q' (nb * SECTOR_SIZE)
                       (u64 (coffset .&~ (SECTOR_SIZE - 1))) skip (nb * SECTOR_SIZE - skip) in
    if ret <? 0 then Ret (-1, [], q2)
    else Ret (len, slice (Z.to_nat off) (Z.to_nat len) (cluster_cache q2), q2).
Proof.
  intros Hq Hl1 o Ho Hne entry Hfl. pose proof (i_geo q Hq) as Hg.
  assert (Hcs : 0 < cluster_size q) by (rewrite (g_cs q Hg); apply Z.pow_pos_nonneg; destruct Hg; lia).
  pose proof (Z.mod_pos_bound offset (cluster_size q) Hcs) as Hoff.
  unfold qcow2_read_cluster. rewrite (cluster_offset_mod q offset Hg).
  destruct (Z.leb_spec (table_size (table q)) (get_l1_index q offset)); [lia|].
  destruct (Z.leb_spec (cluster_size q) (offset mod cluster_size q)); [lia|].
  fold o. destruct (Z.eqb_spec o 0); [congruence|].
  assert (Ho0 : 0 <= o) by (apply Z.ldiff_nonneg; left; apply be64_fits; apply (g_l1 q Hg)).
  destruct (read_l2_spec q o Hq Ho0 (g_l1_off q Hg _) Hne) as (tb & q1 & -> & En & Hr1 & _).
  pose proof (l2_index_bound q offset Hg) as Hidx.
  assert (Ei : get_l2_index q1 offset = get_l2_index q offset)
    by (now destruct Hr1 as [(s & c1 & cc & cd & ->) _]).
  exists q1. split; [exact Hr1|]. rewrite Ei, En. fold entry. rewrite Hfl.
  destruct (Z.leb_spec (1 .<< l2_bits (header q)) (get_l2_index q offset)); [lia|].
  now destruct Hr1 as [(s & c1 & cc & cd & ->) _].
Qed.
End Reference.

(** ** Probing establishes soundness *)

Section ProbeSpec.
Context (uninit : nat -> Z).

Lemma length_fresh n : length (fresh uninit n) = Z.to_nat n.
Proof. unfold fresh. now rewrite length_map, length_seq. Qed.

Lemma read_struct_spec h sz : healthy h -> 0 < sz < 2 ^ 31 ->
  (Z.to_nat sz <= length (content h))%nat ->
  exists s, Forall soft s /\
    read_struct uninit h sz = (sz, take (Z.to_nat sz) (content h), set_script h s).
Proof.
  intros Hh Hsz Hl. unfold read_struct.
  destruct (pread_in_full_spec h (Z.to_nat sz) 0 Hh ltac:(lia) ltac:(lia)) as (s & Hs & E).
  cbn zeta in E. assert (Ed : slice (Z.to_nat 0) (Z.to_nat sz) (content h) = take (Z.to_nat sz) (content h))
    by reflexivity.
  rewrite Ed, length_take, Nat.min_l in E by lia. rewrite E. exists s. split; [exact Hs|].
  destruct (Nat.eqb_spec (Z.to_nat sz) 0); [lia|]. cbn [orb].
  destruct (Z.ltb_spec 0 (Z.of_nat (Z.to_nat sz))); [|lia].
  rewrite splice_all by (rewrite length_fresh, length_take; lia). now rewrite Z2Nat.id by lia.
Qed.

(** A table that starts inside the file (or has no entries). *)
Definition table_readable (h : host) (n off : Z) : Prop :=
  0 <= n /\ 8 * n < 2 ^ 31 /\ 0 <= off /\ off + 8 * n < 2 ^ 63 /\
  (n = 0 \/ off < Z.of_nat (length (content h))).

Definition table_of (h : host) (n off : Z) : list Z :=
  splice 0 (slice (Z.to_nat off) (Z.to_nat (8 * n)) (content h)) (replicate (Z.to_nat (8 * n)) 0).

Lemma read_table_spec h n off : healthy h -> table_readable h n off ->
  exists s nr, Forall soft s /\ 0 <= nr /\
    read_table h n off = (nr, table_of h n off, set_script h s).
Proof.
  intros Hh (H1 & H2 & H3 & H4 & H5). unfold read_table, table_of.
  destruct (pread_in_full_spec h (Z.to_nat (8 * n)) off Hh ltac:(lia) ltac:(lia)) as (s & Hs & E).
  cbn zeta in E. rewrite E. set (d := slice (Z.to_nat off) (Z.to_nat (8 * n)) (content h)) in *.
  assert (Ld : (length d <= Z.to_nat (8 * n))%nat) by (unfold d, slice; rewrite length_take; lia).
  exists s, (Z.of_nat (length d)). split; [exact Hs|]. split; [lia|]. f_equal. f_equal.
  assert (Hb : (Z.to_nat (8 * n) =? 0)%nat || (0 <? Z.of_nat (length d)) = true).
  { destruct H5 as [->|H5]; [reflexivity|]. destruct (Z.eq_dec n 0) as [->|]; [reflexivity|].
    apply orb_true_iff. right. apply Z.ltb_lt. unfold d, slice.
    rewrite length_take, length_drop. lia. }
  rewrite Hb. apply swrap_id; lia.
Qed.

(** The header fields of a file that starts with a version 2 header. *)
Definition disk_header2 (h : host) : qcow_header :=
  let f := take 72 (content h) in
  mkheader (be_dec (slice 24 8 f)) (be_dec (slice 40 8 f)) (be32_at f 36)
    (u8 (be32_at f 20)) (u8 (be32_at f 20 - 3)) (be_dec (slice 48 8 f)) (be32_at f 56).

Definition rf_entries (h : host) : Z :=
  let hd := disk_header2 h in u32 (u64 (refcount_table_size hd * 2 ^ cluster_bits hd) / 8).

(** A well-formed version 2 image file. *)
Record image_file (h : host) : Prop := {
  f_healthy : healthy h;
  f_bytes : byte_ok (content h);
  f_len : (72 <= length (content h))%nat;
  f_magic : be32_at (take 72 (content h)) 0 = QCOW_MAGIC;
  f_version : be32_at (take 72 (content h)) 4 = QCOW2_VERSION;
  f_cb : 9 <= be32_at (take 72 (content h)) 20 <= 30;
  f_l1 : table_readable h (l1_size (disk_header2 h)) (l1_table_offset (disk_header2 h));
  f_rf : table_readable h (rf_entries h) (refcount_table_offset (disk_header2 h));
  f_off : let t := table_of h (l1_size (disk_header2 h)) (l1_table_offset (disk_header2 h)) in
    forall i, be64_at t i .&~ QCOW2_OFLAG_COPIED +
      Z.of_nat (Z.to_nat ((1 .<< l2_bits (disk_header2 h)) * 8)) < 2 ^ 63
}.

Lemma image_file_script h s : image_file h -> Forall soft s -> image_file (set_script h s).
Proof. intros [] Hs. now constructor. Qed.

Lemma check_image_spec h sz ver : healthy h -> 8 <= sz < 2 ^ 31 ->
  (Z.to_nat sz <= length (content h))%nat ->
  exists s, Forall soft s /\ check_image uninit h sz ver =
    ((be32_at (content h) 0 =? QCOW_MAGIC) && (be32_at (content h) 4 =? ver), set_script h s).
Proof.
  intros Hh Hsz Hl. unfold check_image.
  destruct (read_struct_spec h sz Hh ltac:(lia) Hl) as (s & Hs & ->). exists s. split; [exact Hs|].
  destruct (Z.ltb_spec sz 0); [lia|]. cbn [negb andb]. unfold be32_at, slice.
  rewrite !skipn_firstn_comm, !take_take, !Nat.min_l by lia. reflexivity.
Qed.

Lemma qcow2_probe_spec h ro : image_file h ->
  exists d h', qcow2_probe uninit h ro = Ret (Some d, h') /\
    image_ok (priv d) /\ version (priv d) = QCOW2_VERSION /\ header (priv d) = disk_header2 h /\
    content (fd (priv d)) = content h /\
    table_size (table (priv d)) = l1_size (disk_header2 h) /\
    table_bytes (table (priv d)) = table_of h (l1_size (disk_header2 h)) (l1_table_offset (disk_header2 h)) /\
    disk_size d = size (disk_header2 h) /\ readonly d = ro.
Proof.
  intros [Hh Hb Hlen Hmag Hver Hcb Hl1 Hrf Hoff]. unfold qcow2_probe, qcow2_read_header.
  destruct (read_struct_spec h QCOW2_HEADER_SIZE Hh ltac:(unfold QCOW2_HEADER_SIZE; lia) Hlen)
    as (s & Hs & ->).
  cbn [QCOW2_HEADER_SIZE Z.ltb Z.compare]. change (Z.to_nat 72) with 72%nat.
  change (mkheader _ _ _ _ _ _ _) with (disk_header2 h).
  set (hd := disk_header2 h) in *.
  assert (Ecb : cluster_bits hd = be32_at (take 72 (content h)) 20)
    by (apply wrap_id; unfold fits; lia).
  assert (El2 : l2_bits hd = cluster_bits hd - 3)
    by (rewrite Ecb; apply wrap_id; unfold fits; lia).
  rewrite <- Ecb in Hcb. unfold shift_ok.
  destruct (Z.leb_spec 8 (cluster_bits hd)); [|lia].
  destruct (Z.leb_spec 0 (cluster_bits hd)); [|lia].
  destruct (Z.leb_spec (cluster_bits hd) 30); [|lia]. cbn [andb negb].
  unfold qcow_read_l1_table. cbn [header fd table].
  destruct (read_table_spec (set_script h s) (l1_size hd) (l1_table_offset hd) Hs Hl1)
    as (s1 & nr1 & Hs1 & Hn1 & ->).
  destruct (Z.ltb_spec nr1 0); [lia|].
  unfold qcow_read_refcount_table.
  cbn [header fd table set_fd set_table cluster_size refcount_table].
  rewrite !shiftl1_pow2 by lia. fold (rf_entries h).
  change (u32 (u64 (refcount_table_size hd * 2 ^ cluster_bits hd) / 8)) with (rf_entries h).
  destruct (read_table_spec (set_script (set_script h s) s1) (rf_entries h)
    (refcount_table_offset hd) Hs1 Hrf) as (s2 & nr2 & Hs2 & Hn2 & ->).
  destruct (Z.ltb_spec nr2 0); [lia|].
  eexists _, _. split; [reflexivity|]. cbn [priv disk_size readonly].
  repeat match goal with |- _ /\ _ => split end; try reflexivity.
  constructor; cbn [set_refcount_table set_fd set_table fd table header cluster_size cluster_cache
    cluster_data table_cache table_bytes csize_shift csize_mask cluster_offset_mask empty_table].
  - constructor; cbn [set_refcount_table set_fd set_table fd table header cluster_size cluster_cache
      cluster_data table_cache table_bytes csize_shift csize_mask cluster_offset_mask];
      try lia; try reflexivity.
    + apply splice_bytes; [now apply slice_bytes|]. apply Forall_replicate. unfold fits. lia.
    + exact Hoff.
  - exact Hs2.
  - exact Hb.
  - apply length_fresh.
  - apply length_fresh.
  - apply cache_ok_init.
  - intros o n Ho. cbn in Ho. rewrite lookup_empty in Ho. discriminate.
Qed.

Lemma qcow_probe_spec h ro : image_file h ->
  exists d h', qcow_probe uninit h ro = Ret (Some d, h') /\
    image_ok (priv d) /\ version (priv d) = QCOW2_VERSION /\ header (priv d) = disk_header2 h /\
    content (fd (priv d)) = content h /\
    table_size (table (priv d)) = l1_size (disk_header2 h) /\
    table_bytes (table (priv d)) = table_of h (l1_size (disk_header2 h)) (l1_table_offset (disk_header2 h)) /\
    disk_size d = size (disk_header2 h) /\ readonly d = ro.
Proof.
  intros Hf. unfold qcow_probe, qcow1_check_image, qcow2_check_image.
  pose proof Hf as [Hh Hb Hlen Hmag Hver _ _ _ _].
  assert (E4 : forall off, (off <= 68)%nat -> be32_at (take 72 (content h)) off = be32_at (content h) off).
  { intros off Ho. unfold be32_at, slice. rewrite skipn_firstn_comm, take_take.
    now rewrite Nat.min_l by lia. }
  rewrite E4 in Hmag, Hver by lia.
  destruct (check_image_spec h QCOW1_HEADER_SIZE QCOW1_VERSION Hh
    ltac:(unfold QCOW1_HEADER_SIZE; lia) ltac:(unfold QCOW1_HEADER_SIZE; lia)) as (s & Hs & ->).
  rewrite Hver. change (QCOW2_VERSION =? QCOW1_VERSION) with false. rewrite andb_false_r.
  destruct (check_image_spec (set_script h s) QCOW2_HEADER_SIZE QCOW2_VERSION Hs
    ltac:(unfold QCOW2_HEADER_SIZE; lia) Hlen) as (s2 & Hs2 & ->).
  cbn [content set_script]. rewrite Hmag, Hver, !Z.eqb_refl. cbn [andb].
  apply (qcow2_probe_spec (set_script (set_script h s) s2) ro).
  now apply image_file_script, Hs2; apply image_file_script.
Qed.
End ProbeSpec.

(** ** Properties *)

Section Properties.
Context (inflateInit2 : Z) (inflate : list Z -> Z -> Z * list Z) (uninit : nat -> Z).

(** C11. Reading a sound version 2 image returns the guest's disk: whatever is
    cached, however the file's reads are cut or interrupted, a vectored read of
    bytes that all exist returns their total and fills the buffers with exactly
    the disk's bytes, compressed and unallocated clusters included; the loops
    finish, nothing undefined happens, and the image stays sound. *)
Theorem qcow_read_sector_correct q sector iov
  (Hq : image_ok q) (Hv : version q = QCOW2_VERSION) (Hsec : 0 <= sector)
  (Hal : Forall (fun d => Z.of_nat (length d) mod 512 = 0) iov) (Hlt : total_length iov < 2 ^ 32)
  (Hsz : sector * 512 + total_length iov <= size (header q)) (Hs64 : size (header q) < 2 ^ 64)
  (Hall : forall i, 0 <= i < total_length iov ->
     is_Some (disk_byte inflateInit2 inflate q (sector * 512 + i))) :
  exists iov' q', qcow_read_sector inflateInit2 inflate q sector iov =
      Ret (total_length iov, iov', q') /\ image_ok q' /\
    length (concat iov') = length (concat iov) /\
    (forall i, 0 <= i < total_length iov ->
       concat iov' !! Z.to_nat i = disk_byte inflateInit2 inflate q (sector * 512 + i)) /\
    (forall p, disk_byte inflateInit2 inflate q' p = disk_byte inflateInit2 inflate q p).
Proof.
  destruct (read_iov_spec inflateInit2 inflate iov q sector 0) as (iov' & q' & E & Hr & _ & L & K); auto; [lia|].
  exists iov', q'. split; [exact E|]. split; [apply Hr|]. split; [exact L|]. split; [exact K|].
  intros p. now apply disk_byte_reads_to.
Qed.

(** Probing a well-formed version 2 file recognises it and yields a sound
    image whose geometry and tables are those of the file, ready for the reads
    above; the file itself is not changed. *)
Theorem qcow_probe_sound h ro (Hf : image_file h) :
  exists d h', qcow_probe uninit h ro = Ret (Some d, h') /\
    image_ok (priv d) /\ version (priv d) = QCOW2_VERSION /\ header (priv d) = disk_header2 h /\
    content (fd (priv d)) = content h /\
    table_bytes (table (priv d)) = table_of h (l1_size (disk_header2 h)) (l1_table_offset (disk_header2 h)) /\
    disk_size d = size (disk_header2 h) /\ readonly d = ro.
Proof.
  destruct (qcow_probe_spec uninit h ro Hf) as (d & h' & H1 & H2 & H3 & H4 & H5 & _ & H6 & H7 & H8).
  exists d, h'. auto 10.
Qed.

(** A failed read is reported as a success: when reading the first cluster
    of a request fails (an unreadable table, data past the end of the file), the
    -1 is kept in a [u32] and the request returns its full length, with the
    buffer as the caller passed it. *)
Theorem qcow_read_failure_lost q q' sector dst
  (Hv : version q = QCOW2_VERSION) (Hl : 0 < Z.of_nat (length dst) < 2 ^ 32)
  (Hs : u64 (sector .<< SECTOR_SHIFT) < size (header q))
  (Hr : qcow2_read_cluster inflateInit2 inflate q (u64 (sector .<< SECTOR_SHIFT))
          (Z.of_nat (length dst)) = Ret (-1, [], q')) :
  qcow_read_sector inflateInit2 inflate q sector [dst] =
  Ret (Z.of_nat (length dst), [dst], q').
Proof.
  unfold qcow_read_sector, read_iov, qcow_read_sector_single.
  rewrite (wrap_id 32 (Z.of_nat (length dst))) by (unfold fits; lia).
  replace (2 * length dst + 1)%nat with (S (2 * length dst)) by lia.
  rewrite (read_loop_failure inflateInit2 inflate _ q q' sector dst Hv Hl Hs Hr).
  now rewrite Z.eqb_refl.
Qed.

(** Limits of compressed clusters: one whose data lies between 2 GiB and
    4 GiB cannot be read, because the offset is kept in an [int]; and one whose
    descriptor counts more sectors than a cluster holds overruns the buffer (or
    hands zlib input past its end) as soon as some of its data can be read. *)
Theorem compressed_cluster_limits q offset dst_len
  (Hq : image_ok q) (Hl1 : get_l1_index q offset < table_size (table q))
  (Ho : be64_at (table_bytes (table q)) (get_l1_index q offset) .&~ QCOW2_OFLAG_COPIED <> 0)
  (Hne : l2_in_file q (be64_at (table_bytes (table q)) (get_l1_index q offset)
           .&~ QCOW2_OFLAG_COPIED) <> [])
  (entry := be64_at (l2_table q (be64_at (table_bytes (table q)) (get_l1_index q offset)
           .&~ QCOW2_OFLAG_COPIED)) (get_l2_index q offset))
  (Hfl : flag entry QCOW2_OFLAG_COMPRESSED = true) :
  let start := entry .& cluster_offset_mask q in
  let len := (((entry .>> csize_shift q) .& csize_mask q) + 1) * SECTOR_SIZE in
  (2 ^ 31 <= start < 2 ^ 32 ->
     exists q', qcow2_read_cluster inflateInit2 inflate q offset dst_len = Ret (-1, [], q') /\
       image_ok q') /\
  (start < 2 ^ 31 -> cluster_size q < len ->
     slice (Z.to_nat (start - start mod SECTOR_SIZE)) (Z.to_nat len) (content (fd q)) <> [] ->
     qcow2_read_cluster inflateInit2 inflate q offset dst_len = Ub).
Proof.
  cbn zeta. destruct (read_cluster_entry inflateInit2 inflate q offset dst_len Hq Hl1 Ho Hne Hfl)
    as (q1 & Hr1 & ->). fold entry. cbn zeta.
  pose proof (i_geo q Hq) as Hg.
  assert (He : fits 64 entry) by (apply be64_fits, l2_table_bytes, (i_bytes q Hq)).
  assert (Hq1 : image_ok q1) by apply Hr1.
  assert (E1 : length (cluster_data q1) = Z.to_nat (cluster_size q) /\
               content (fd q1) = content (fd q)).
  { split; [|now destruct Hr1 as [(s & c & cc & cd & ->) _]].
    rewrite (i_cd q1 Hq1). now destruct Hr1 as [(s & c & cc & cd & ->) _]. }
  destruct E1 as [E1 E2].
  assert (HS : SECTOR_SIZE = 512) by reflexivity.
  assert (Hcm : 0 <= (entry .>> csize_shift q) .& csize_mask q < 2 ^ 22).
  { destruct Hg as [Hcb _ _ _ Hcm _ _ _]. rewrite Hcm, land_mask' by lia.
    pose proof (Z.mod_pos_bound (entry .>> csize_shift q) (2 ^ (cluster_bits (header q) - 8))
      ltac:(apply Z.pow_pos_nonneg; lia)).
    assert (2 ^ (cluster_bits (header q) - 8) <= 2 ^ 22) by (apply Z.pow_le_mono_r; lia). lia. }
  set (nb := ((entry .>> csize_shift q) .& csize_mask q) + 1) in *.
  assert (Enb : s32 nb = nb) by (apply swrap_id; unfold nb; lia). rewrite Enb.
  set (start := entry .& cluster_offset_mask q) in *. split.
  - intros Hst. assert (Es : s32 start = start - 2 ^ 32).
    { unfold swrap. replace (start + 2 ^ (32 - 1)) with ((start - 2 ^ 31) + 1 * 2 ^ 32) by lia.
      rewrite Z.mod_add, Z.mod_small by lia. lia. }
    rewrite Es. unfold read_compressed.
    change (SECTOR_SIZE - 1) with (2 ^ 9 - 1). rewrite ldiff_mask by lia.
    pose proof (Z.mod_pos_bound (start - 2 ^ 32) (2 ^ 9) ltac:(lia)).
    set (off := start - 2 ^ 32 - (start - 2 ^ 32) mod 2 ^ 9) in *.
    assert (Hneg : off_t (u64 off) < 0).
    { unfold off_t, swrap, wrap. change (64 - 1) with 63.
      replace (off mod 2 ^ 64) with (off + 2 ^ 64).
      - replace (off + 2 ^ 64 + 2 ^ 63) with ((off + 2 ^ 63) + 1 * 2 ^ 64) by lia.
        rewrite Z.mod_add, Z.mod_small by (unfold off; lia). unfold off. lia.
      - symmetry. rewrite <- (Z.mod_small (off + 2 ^ 64) (2 ^ 64)) by (unfold off; lia).
        replace (off + 2 ^ 64) with (off + 1 * 2 ^ 64) at 1 by lia. now rewrite Z.mod_add by lia. }
    destruct (pread_negative (fd q1) (Z.to_nat (nb * SECTOR_SIZE)) (u64 off) (i_fd q1 Hq1)
      ltac:(rewrite HS; unfold nb; lia) Hneg) as (s & Hs & ->).
    cbn [Z.ltb Z.compare]. eexists. split; [reflexivity|]. apply (script_ok q1 s Hq1 Hs).
  - intros Hst Hbig Hdata.
    destruct (compressed_fields q entry Hg He Hst) as (H0 & Es & _ & _ & _ & Eoff).
    fold start in Es, Eoff, H0. rewrite Es, Eoff. unfold read_compressed.
    pose proof (Z.mod_pos_bound start SECTOR_SIZE ltac:(lia)).
    pose proof (Z.mod_le start SECTOR_SIZE H0 ltac:(lia)).
    assert (Hlen : 0 <= nb * SECTOR_SIZE < 2 ^ 40) by (rewrite HS; unfold nb; lia).
    destruct (pread_in_full_spec (fd q1) (Z.to_nat (nb * SECTOR_SIZE)) (start - start mod SECTOR_SIZE)
      (i_fd q1 Hq1) ltac:(lia) ltac:(lia)) as (s & Hs & E).
    cbn zeta in E. rewrite E, E2.
    set (d := slice (Z.to_nat (start - start mod SECTOR_SIZE)) (Z.to_nat (nb * SECTOR_SIZE))
      (content (fd q))) in *.
    assert (Hd : (0 < length d)%nat) by (destruct d; [congruence|cbn; lia]).
    destruct (Z.ltb_spec 0 (Z.of_nat (length d))); [|lia]. rewrite orb_true_r.
    destruct (Z.ltb_spec (Z.of_nat (length d)) 0); [lia|]. rewrite E1.
    destruct (Z.ltb_spec (Z.of_nat (Z.to_nat (cluster_size q))) (nb * SECTOR_SIZE)); [reflexivity|].
    rewrite (g_cs q Hg) in *. lia.
Qed.

(** The end of a version 1 disk whose size is not a multiple of what one
    level-2 table maps is unreachable: the number of level-1 entries is rounded
    down, so every read there fails. *)
Theorem qcow1_tail_unreadable h ro d h' offset dst_len
  (Hd : qcow1_probe uninit h ro = Ret (Some d, h'))
  (unit := 2 ^ (l2_bits (header (priv d)) + cluster_bits (header (priv d))))
  (Hn : 0 <= size (header (priv d)) / unit < 2 ^ 32)
  (Ho : size (header (priv d)) / unit * unit <= offset < size (header (priv d))) :
  qcow1_read_cluster inflateInit2 inflate (priv d) offset dst_len = Ret (-1, [], priv d).
Proof.
  unfold qcow1_probe, qcow1_read_header in Hd.
  destruct (read_struct uninit h QCOW1_HEADER_SIZE) as [[nr f] h1].
  destruct (nr <? 0); [discriminate|].
  set (cb := default 0 (f !! 32%nat)) in *. set (l2 := default 0 (f !! 33%nat)) in *.
  destruct (shift_ok cb && shift_ok l2 && shift_ok (l2 + cb)) eqn:Ek; [|discriminate].
  cbn [negb] in Hd. unfold shift_ok in Ek. breflect.
  unfold qcow_read_l1_table in Hd.
  cbn [header fd table cluster_bits l1_size l1_table_offset] in Hd.
  destruct (read_table h1 _ _) as [[ret t] h2]. destruct (ret <? 0); [discriminate|].
  injection Hd as <- <-. cbn [priv set_fd set_table header size l2_bits cluster_bits] in *.
  unfold qcow1_read_cluster, get_l1_index.
  cbn [set_fd set_table header l2_bits cluster_bits table table_size].
  assert (Hu : 0 < unit) by (apply Z.pow_pos_nonneg; lia).
  assert (Eu : (1 .<< l2) * (1 .<< cb) = unit)
    by (rewrite !shiftl1_pow2 by lia; unfold unit; rewrite Z.pow_add_r; lia).
  rewrite Eu, wrap_id by exact Hn. rewrite Z.shiftr_div_pow2 by lia. fold unit.
  destruct (Z.leb_spec (be_dec (slice 24 8 f) / unit) (offset / unit)) as [|C]; [reflexivity|].
  exfalso. apply Z.lt_nge in C. apply C, Z.div_le_lower_bound; [lia|]. lia.
Qed.

End Properties.

(** ** A small image

    512-byte clusters: header, level-1 table, level-2 table, one data cluster,
    refcount table and refcount block (the six clusters counted once). The level-2 entries: data, unallocated, compressed
    data at 2 GiB, compressed data of two sectors. *)

Definition pad (n : nat) (l : list Z) : list Z := l ++ replicate (n - length l) 0.

Definition demo_content : list Z :=
  pad 512 (be_enc 4 QCOW_MAGIC ++ be_enc 4 2 ++ be_enc 8 0 ++ be_enc 4 0 ++ be_enc 4 9 ++
           be_enc 8 2048 ++ be_enc 4 0 ++ be_enc 4 1 ++ be_enc 8 512 ++ be_enc 8 2048 ++
           be_enc 4 1 ++ be_enc 4 0 ++ be_enc 8 0) ++
  pad 512 (be_enc 8 (2 ^ 63 + 1024)) ++
  pad 512 (be_enc 8 (2 ^ 63 + 1536) ++ be_enc 8 0 ++ be_enc 8 (2 ^ 62 + 2 ^ 31) ++
           be_enc 8 (2 ^ 62 + 2 ^ 61 + 1536)) ++
  map (fun i => Z.of_nat i mod 251) (seq 0 512) ++
  pad 512 (be_enc 8 2560) ++
  pad 512 (concat (replicate 6 (be_enc 2 1))).

Definition demo_host : host := mkhost demo_content 0 [Short 7; Fault EINTR; Short 100].

Definition no_zlib : list Z -> Z -> Z * list Z := fun _ _ => (-3, []).

Lemma demo_file : image_file demo_host.
Proof.
  constructor.
  - repeat constructor.
  - apply byte_ok_check. vm_compute. reflexivity.
  - apply Nat.leb_le. vm_compute. reflexivity.
  - vm_compute. reflexivity.
  - vm_compute. reflexivity.
  - vm_compute. split; discriminate.
  - split; [vm_compute; discriminate|]. split; [vm_compute; reflexivity|].
    split; [vm_compute; discriminate|]. split; [vm_compute; reflexivity|].
    right. vm_compute. reflexivity.
  - split; [vm_compute; discriminate|]. split; [vm_compute; reflexivity|].
    split; [vm_compute; discriminate|]. split; [vm_compute; reflexivity|].
    right. vm_compute. reflexivity.
  - cbn zeta. intros i.
    assert (E : exists t, table_of demo_host (l1_size (disk_header2 demo_host))
      (l1_table_offset (disk_header2 demo_host)) = t /\ length t = 8%nat /\
      be64_at t 0 .&~ QCOW2_OFLAG_COPIED = 1024)
      by (eexists; split; [vm_compute; reflexivity|split; [reflexivity|vm_compute; reflexivity]]).
    destruct E as (t & -> & Lt & E0).
    replace (Z.of_nat (Z.to_nat ((1 .<< l2_bits (disk_header2 demo_host)) * 8))) with 512
      by (vm_compute; reflexivity).
    unfold be64_at in *. change (Z.to_nat 0) with O in E0.
    destruct (Z.to_nat i) as [|k] eqn:Ei; [rewrite E0; lia|].
    assert (Es : slice (8 * S k) 8 t = [])
      by (unfold slice; rewrite drop_ge by lia; apply take_nil).
    rewrite Es. vm_compute. reflexivity.
Qed.

Definition demo : qcow :=
  match qcow_probe (fun _ => 0) demo_host true with
  | Ret (Some d, _) => priv d
  | _ => mkqcow (mkheader 0 0 0 0 0 0 0) empty_table empty_table demo_host 0 0 0 0 0 0 [] [] []
  end.

Lemma demo_ok : image_ok demo /\ version demo = QCOW2_VERSION /\ header demo = disk_header2 demo_host.
Proof.
  destruct (qcow_probe_spec (fun _ => 0) demo_host true demo_file) as (d & h' & E & H1 & H2 & H3 & _).
  unfold demo. rewrite E. auto.
Qed.

(** Reading sectors 0 and 1: the data cluster, then zeros. *)
Lemma qcow_read_sector_correct_witness :
  exists iov' q', qcow_read_sector 0 no_zlib demo 0 [replicate 512 7; replicate 512 7] =
      Ret (1024, iov', q') /\
    concat iov' !! 5%nat = Some 5 /\ concat iov' !! 600%nat = Some 0.
Proof.
  destruct demo_ok as (Hq & Hv & Hh).
  destruct (qcow_read_sector_correct 0 no_zlib demo 0 [replicate 512 7; replicate 512 7] Hq Hv)
    as (iov' & q' & E & _ & _ & K & _).
  - lia.
  - repeat constructor.
  - vm_compute. reflexivity.
  - vm_compute. discriminate.
  - vm_compute. reflexivity.
  - intros i Hi. change (total_length [replicate 512 7; replicate 512 7]) with 1024 in Hi.
    assert (HF : forallb (fun n => bool_decide (is_Some (disk_byte 0 no_zlib demo (Z.of_nat n))))
                   (seq 0 1024) = true) by (vm_compute; reflexivity).
    rewrite forallb_forall in HF.
    specialize (HF (Z.to_nat i) ltac:(apply in_seq; lia)). rewrite Z2Nat.id in HF by lia.
    apply bool_decide_eq_true in HF. exact HF.
  - change (total_length [replicate 512 7; replicate 512 7]) with 1024 in *.
    exists iov', q'. split; [exact E|]. split.
    + change 5%nat with (Z.to_nat 5). rewrite K by lia. vm_compute. reflexivity.
    + change 600%nat with (Z.to_nat 600). rewrite K by lia. vm_compute. reflexivity.
Defined.

Lemma qcow_probe_sound_witness :
  exists d h', qcow_probe (fun _ => 0) demo_host true = Ret (Some d, h') /\ disk_size d = 2048.
Proof.
  destruct (qcow_probe_sound (fun _ => 0) demo_host true demo_file) as (d & h' & E & _ & _ & _ & _ & _ & H & _).
  exists d, h'. split; [exact E|]. rewrite H. vm_compute. reflexivity.
Defined.

(** Sector 2 is compressed data at 2 GiB: the read fails and is reported as a
    success. *)
Lemma qcow_read_failure_lost_witness :
  exists q', qcow_read_sector 0 no_zlib demo 2 [replicate 512 7] = Ret (512, [replicate 512 7], q').
Proof.
  destruct demo_ok as (Hq & Hv & Hh).
  assert (E : exists q', qcow2_read_cluster 0 no_zlib demo (u64 (2 .<< SECTOR_SHIFT)) 512 = Ret (-1, [], q'))
    by (eexists; vm_compute; reflexivity).
  destruct E as (q' & E). exists q'.
  apply (qcow_read_failure_lost 0 no_zlib demo q' 2 (replicate 512 7) Hv); [vm_compute; auto| |exact E].
  vm_compute. reflexivity.
Defined.

Lemma compressed_cluster_limits_witness :
  (exists q', qcow2_read_cluster 0 no_zlib demo 1024 512 = Ret (-1, [], q')) /\
    qcow2_read_cluster 0 no_zlib demo 1536 512 = Ub.
Proof.
  destruct demo_ok as (Hq & Hv & Hh). split.
  - destruct (compressed_cluster_limits 0 no_zlib demo 1024 512 Hq) as [H _];
      [vm_compute; congruence..|].
    destruct H as (q' & E & _); [vm_compute; split; congruence|]. eauto.
  - destruct (compressed_cluster_limits 0 no_zlib demo 1536 512 Hq) as [_ H];
      [vm_compute; congruence..|].
    apply H; vm_compute; congruence.
Defined.

(** A version 1 image of 768 bytes whose level-2 tables map 512. *)
Definition demo1_host : host :=
  mkhost (pad 64 (be_enc 4 QCOW_MAGIC ++ be_enc 4 1 ++ replicate 16 0 ++ be_enc 8 768 ++
                  [9; 0; 0; 0] ++ be_enc 4 0 ++ be_enc 8 48)) 0 [].

Lemma qcow1_tail_unreadable_witness :
  exists d h', qcow_probe (fun _ => 0) demo1_host true = Ret (Some d, h') /\
    disk_size d = 768 /\ qcow1_read_cluster 0 no_zlib (priv d) 512 256 = Ret (-1, [], priv d).
Proof.
  assert (E : exists d h', qcow1_probe (fun _ => 0) demo1_host true = Ret (Some d, h') /\
    qcow_probe (fun _ => 0) demo1_host true = Ret (Some d, h') /\ disk_size d = 768 /\
    size (header (priv d)) = 768 /\ l2_bits (header (priv d)) = 0 /\ cluster_bits (header (priv d)) = 9)
    by (do 2 eexists; split; [vm_compute; reflexivity|repeat split; vm_compute; reflexivity]).
  destruct E as (d & h' & E1 & E2 & E3 & E4 & E5 & E6). exists d, h'.
  split; [exact E2|]. split; [exact E3|].
  apply (qcow1_tail_unreadable 0 no_zlib (fun _ => 0) demo1_host true d h' 512 256 E1);
    rewrite E4, E5, E6; vm_compute; split; congruence.
Defined.
