(* ===== verification/QcowWrite.v ===== *)
(** * QCOW images: reference counts, allocation and writes (disk/qcow.c)

    The write path of version 2 images on the state of [Qcow]. Nodes of the two
    caches are known by their file offset; a pointer to a node is its offset,
    and its contents are looked up in the cache. *)
From stdpp Require Import sorting.
From S2P Require Import Prelude ReadWrite Rbtree QcowCache Qcow.
Open Scope Z_scope.

Definition QCOW_REFCOUNT_BLOCK_SHIFT : Z := 1.

(** [(u64)-1], the failure of the allocator. *)
Definition NO_CLUSTER : Z := 2 ^ 64 - 1.

(** Big-endian stores into a table of bytes. *)
Definition set_be64 (t : list Z) (idx v : Z) : list Z := splice (8 * Z.to_nat idx) (be_enc 8 v) t.
Definition be16_at (t : list Z) (idx : Z) : Z := be_dec (slice (2 * Z.to_nat idx) 2 t).
Definition set_be16 (t : list Z) (idx v : Z) : list Z := splice (2 * Z.to_nat idx) (be_enc 2 v) t.

Section Write.

(** zlib (for the copy of compressed clusters), [fdatasync], [fsync] and the
    contents of fresh memory. *)
Context (inflateInit2 : Z) (inflate : list Z -> Z -> Z * list Z).
Context (fdatasync fsync : host -> Z) (uninit : nat -> Z).

Definition qcow_pwrite_sync (q : qcow) (buf : list Z) (offset : Z) : Z * qcow :=
  let '(r, h) := pwrite_in_full (fd q) buf offset in
  if r <? 0 then (-1, set_fd q h) else (fdatasync h, set_fd q h).

(** ** Reference counts *)

Definition set_rf_cache (q : qcow) (c : cache) : qcow :=
  set_refcount_table q (set_cache (refcount_table q) c).

Definition set_rf_node (q : qcow) (off : Z) (n : node) : qcow :=
  set_rf_cache q (set_node (table_cache (refcount_table q)) off n).

(** The cache of refcount blocks: the code of the level-2 cache once more. *)
Definition refcount_block_lookup := cache_lookup.
Definition refcount_block_insert := tree_insert.
Definition refcount_block_search := cache_search.
Definition cache_refcount_block := cache_insert.
Definition refcount_table_free_cache := free_cache.

(** [rfb->size]: the number of 16-bit entries. *)
Definition rfb_size (q : qcow) : Z := cluster_size q / 2.

(** The structure comes from [malloc]: [entries] and [dirty] are whatever the
    memory holds ([dirty] is byte 56, the entries start at byte 58). *)
Definition new_refcount_block (q : qcow) : node :=
  mknode (map uninit (seq 58 (Z.to_nat (2 * rfb_size q)))) (negb (uninit 56%nat =? 0)).

(** The result and the node as the write leaves it. *)
Definition write_refcount_block (q : qcow) (off : Z) (rfb : node) : Z * node * qcow :=
  if negb (dirty rfb) then (0, rfb, q) else
  let '(r, q) := qcow_pwrite_sync q (entries rfb) off in
  if r <? 0 then (-1, rfb, q) else (0, mknode (entries rfb) false, q).

(** [qcow_read_refcount_block]: a block, [ERR_PTR(-ENOSPC)] or [NULL]. *)
Inductive rfb_result := Rfb (off : Z) | RfbNoSpc | RfbNull.

Definition rft_index (q : qcow) (clust_idx : Z) : Z :=
  clust_idx .>> (cluster_bits (header q) - QCOW_REFCOUNT_BLOCK_SHIFT).

Definition rfb_index (q : qcow) (clust_idx : Z) : Z :=
  clust_idx .& ((1 .<< (cluster_bits (header q) - QCOW_REFCOUNT_BLOCK_SHIFT)) - 1).

Definition qcow_read_refcount_block (q : qcow) (clust_idx : Z) : out (rfb_result * qcow) :=
  let rft := refcount_table q in
  let rft_idx := rft_index q clust_idx in
  if table_size rft <=? rft_idx then Ret (RfbNoSpc, q) else
  let rfb_offset := be64_at (table_bytes rft) rft_idx in
  if rfb_offset =? 0 then Ret (RfbNoSpc, q) else
  match refcount_block_search (table_cache rft) rfb_offset with
  | Some (_, c) => Ret (Rfb rfb_offset, set_rf_cache q c)
  | None =>
      let rfb := new_refcount_block q in
      let '(nr, data, h) := pread_in_full (fd q) (Z.to_nat (2 * rfb_size q)) rfb_offset in
      let q := set_fd q h in
      if nr <? 0 then Ret (RfbNull, q) else
      let! c := cache_refcount_block (table_cache rft) rfb_offset
                  (mknode (splice 0 data (entries rfb)) (dirty rfb)) in
      Ret (Rfb rfb_offset, set_rf_cache q c)
  end.

(** The entries of a block that is cached. *)
Definition rfb_node (q : qcow) (off : Z) : out node :=
  match nodes (table_cache (refcount_table q)) !! off with Some n => Ret n | None => Ub end.

Definition qcow_get_refcount (q : qcow) (clust_idx : Z) : out (Z * qcow) :=
  let! (r, q) := qcow_read_refcount_block q clust_idx in
  match r with
  | RfbNoSpc => Ret (0, q)
  | RfbNull => Ret (u16 (-1), q)
  | Rfb off =>
      let rfb_idx := rfb_index q clust_idx in
      if rfb_size q <=? rfb_idx then Ret (u16 (-1), q) else
      let! rfb := rfb_node q off in
      Ret (be16_at (entries rfb) rfb_idx, q)
  end.

(** The search of [qcow_alloc_clusters]: the [for] loop with its [goto again].
    The result is the last value of [clust_idx], [None] on an error. *)
Fixpoint alloc_scan (fuel : nat) (q : qcow) (clust_num i clust_idx : Z)
    : out (option Z * qcow) :=
  if clust_num <=? i then Ret (Some clust_idx, q) else
  match fuel with
  | O => NoFuel
  | S fuel =>
      let clust_idx := u32 (free_clust_idx q) in
      let q := set_free_clust_idx q (u64 (free_clust_idx q + 1)) in
      let! (clust_refcount, q) := qcow_get_refcount q clust_idx in
      if clust_refcount =? u16 (-1) then Ret (None, q)
      else if 0 <? clust_refcount then alloc_scan fuel q clust_num 0 clust_idx
      else alloc_scan fuel q clust_num (u32 (i + 1)) clust_idx
  end.

(** Past the clusters that the refcount table describes every count is 0, so
    the search ends at the latest [clust_num] steps after them. *)
Definition scan_fuel (q : qcow) (clust_num : Z) : nat :=
  Z.to_nat ((table_size (refcount_table q) .<< (cluster_bits (header q) - 1)) + clust_num).

Definition clusters_of (q : qcow) (size : Z) : Z :=
  u64 (size + (cluster_size q - 1)) .>> cluster_bits (header q).

(** The search without the second loop ([update_ref] = 0): the index after the
    last cluster. *)
Definition alloc_search (q : qcow) (size : Z) : out (option Z * qcow) :=
  let clust_num := clusters_of q size in
  let! (r, q) := alloc_scan (scan_fuel q clust_num) q clust_num 0 0 in
  Ret (match r with Some clust_idx => Some (u32 (clust_idx + 1)) | None => None end, q).

Definition alloc_result (q : qcow) (size clust_idx : Z) : Z :=
  u64 (u64 (clust_idx - clusters_of q size) .<< cluster_bits (header q)).

Definition qcow_write_refcount_table (q : qcow) : Z * qcow :=
  qcow_pwrite_sync q (table_bytes (refcount_table q)) (refcount_table_offset (header q)).

Definition set_rf_entry (q : qcow) (idx v : Z) : qcow :=
  let rft := refcount_table q in
  set_refcount_table q (mktable (table_size rft) (set_be64 (table_bytes rft) idx v) (table_cache rft)).

(** [qcow_grow_refcount_block]; [update] is [update_cluster_refcount], which it
    calls for the block's own cluster. On the paths to [recover_rft] the new
    block is freed while the cache still holds it. *)
Definition qcow_grow_refcount_block (update : qcow -> Z -> Z -> out (Z * qcow))
    (q : qcow) (clust_idx : Z) : out (option Z * qcow) :=
  let rft_idx := rft_index q clust_idx in
  if table_size (refcount_table q) <=? rft_idx then Ret (None, q) else
  let! (r, q) := alloc_search q (cluster_size q) in
  match r with
  | None => Ret (None, q)
  | Some idx =>
      let new_block_offset := alloc_result q (cluster_size q) idx in
      if new_block_offset =? NO_CLUSTER then Ret (None, q) else
      let rfb := mknode (replicate (Z.to_nat (2 * rfb_size q)) 0) true in
      let '(r, rfb, q) := write_refcount_block q new_block_offset rfb in
      if r <? 0 then Ret (None, q) else
      let! c := cache_refcount_block (table_cache (refcount_table q)) new_block_offset rfb in
      let q := set_rf_entry (set_rf_cache q c) rft_idx new_block_offset in
      let! (r, q) := update q (new_block_offset .>> cluster_bits (header q)) 1 in
      if r <? 0 then Ub else
      let '(r, q) := qcow_write_refcount_table q in
      if r <? 0 then Ub else Ret (Some new_block_offset, q)
  end.

(** Add [append] (a [u16]) to the count in a cached block and write it out. *)
Definition bump_refcount (q : qcow) (off clust_idx append : Z) : out (Z * qcow) :=
  let rfb_idx := rfb_index q clust_idx in
  if rfb_size q <=? rfb_idx then Ret (-1, q) else
  let! rfb := rfb_node q off in
  let refcount := u16 (be16_at (entries rfb) rfb_idx + append) in
  let rfb := mknode (set_be16 (entries rfb) rfb_idx refcount) true in
  let '(r, rfb, q) := write_refcount_block q off rfb in
  let q := set_rf_node q off rfb in
  if r <? 0 then Ret (-1, q) else
  Ret (0, if (refcount =? 0) && (clust_idx <? free_clust_idx q)
          then set_free_clust_idx q clust_idx else q).

(** [update_cluster_refcount]: every nested call follows a new entry in the
    refcount table, so the nesting is bounded by its size. *)
Fixpoint update_refcount_fuel (fuel : nat) (q : qcow) (clust_idx append : Z) : out (Z * qcow) :=
  match fuel with
  | O => NoFuel
  | S fuel =>
      let! (r, q) := qcow_read_refcount_block q clust_idx in
      match r with
      | RfbNull => Ret (-1, q)
      | Rfb off => bump_refcount q off clust_idx append
      | RfbNoSpc =>
          let! (r, q) := qcow_grow_refcount_block (update_refcount_fuel fuel) q clust_idx in
          match r with
          | None => Ret (-1, q)
          | Some off => bump_refcount q off clust_idx append
          end
      end
  end.

Definition update_cluster_refcount (q : qcow) (clust_idx append : Z) : out (Z * qcow) :=
  update_refcount_fuel (S (Z.to_nat (table_size (refcount_table q)))) q clust_idx append.

(** The second loop of [qcow_alloc_clusters], [n] clusters from [clust_idx]. *)
Fixpoint update_run (n : nat) (q : qcow) (clust_idx : Z) : out (Z * qcow) :=
  match n with
  | O => Ret (0, q)
  | S n =>
      let! (r, q) := update_cluster_refcount q (u64 clust_idx) 1 in
      if negb (r =? 0) then Ret (-1, q) else update_run n q (clust_idx + 1)
  end.

Definition qcow_alloc_clusters (q : qcow) (size : Z) (update_ref : bool) : out (Z * qcow) :=
  let! (r, q) := alloc_search q size in
  match r with
  | None => Ret (NO_CLUSTER, q)
  | Some clust_idx =>
      let! (r, q) := if update_ref
                     then update_run (Z.to_nat (clusters_of q size)) q (clust_idx - clusters_of q size)
                     else Ret (0, q) in
      if r <? 0 then Ret (NO_CLUSTER, q) else Ret (alloc_result q size clust_idx, q)
  end.

(** [qcow_free_clusters]: the results of the updates are ignored. *)
Fixpoint free_loop (fuel : nat) (q : qcow) (offset end_ : Z) : out qcow :=
  if end_ <? offset then Ret q else
  match fuel with
  | O => NoFuel
  | S fuel =>
      let! (_, q) := update_cluster_refcount q (offset .>> cluster_bits (header q)) (u16 (-1)) in
      free_loop fuel q (u64 (offset + cluster_size q)) end_
  end.

Definition qcow_free_clusters (q : qcow) (clust_start size : Z) : out qcow :=
  let start := clust_start .&~ (cluster_size q - 1) in
  let end_ := u64 (clust_start + size - 1) .&~ (cluster_size q - 1) in
  free_loop (Z.to_nat ((end_ - start) / cluster_size q + 1)) q start end_.

(** ** Tables for writing *)

Definition qcow_write_l1_table (q : qcow) : Z * qcow :=
  let '(r, q) := qcow_pwrite_sync q (table_bytes (table q)) (l1_table_offset (header q)) in
  (if r <? 0 then -1 else 0, q).

Definition qcow_l2_cache_write (q : qcow) (off : Z) (c : node) : Z * node * qcow :=
  if negb (dirty c) then (0, c, q) else
  let '(r, q) := qcow_pwrite_sync q (entries c) off in
  if r <? 0 then (-1, c, q) else (0, mknode (entries c) false, q).

Definition set_l1_entry (q : qcow) (idx v : Z) : qcow :=
  set_table q (mktable (table_size (table q)) (set_be64 (table_bytes (table q)) idx v)
                 (table_cache (table q))).

Definition set_l2_node (q : qcow) (off : Z) (n : node) : qcow :=
  set_l1_cache q (set_node (table_cache (table q)) off n).

(** [get_cluster_table]: the offset of the level-2 table and the index in it.
    The allocation is taken for an error exactly when it succeeds. When it has
    failed, an existing table is read through the cache and then cached a second
    time; freeing it on an error leaves the cache dangling. *)
Definition get_cluster_table (q : qcow) (offset : Z) : out (option (Z * Z) * qcow) :=
  let l2t_size := 1 .<< l2_bits (header q) in
  let l1t_idx := get_l1_index q offset in
  if table_size (table q) <=? l1t_idx then Ret (None, q) else
  let l2t_idx := get_l2_index q offset in
  if l2t_size <=? l2t_idx then Ret (None, q) else
  let l2t_offset := be64_at (table_bytes (table q)) l1t_idx in
  if flag l2t_offset QCOW2_OFLAG_COPIED then
    let l2t_offset := l2t_offset .&~ QCOW2_OFLAG_COPIED in
    let! (l2t, q) := qcow_read_l2_table q l2t_offset in
    match l2t with
    | None => Ret (None, q)
    | Some _ => Ret (Some (l2t_offset, l2t_idx), q)
    end
  else
    let! (l2t_new_offset, q) := qcow_alloc_clusters q (l2t_size * 8) true in
    if negb (l2t_new_offset =? NO_CLUSTER) then Ret (None, q) else
    let free_cluster q :=
      let! q := qcow_free_clusters q l2t_new_offset (cluster_size q) in Ret (None, q) in
    let! (l2t, q) := if negb (l2t_offset =? 0) then qcow_read_l2_table q l2t_offset
                     else Ret (Some (new_cache_table q), q) in
    match l2t with
    | None => free_cluster q
    | Some l2t =>
        let cached := negb (l2t_offset =? 0) in
        let off := if cached then l2t_offset else l2t_new_offset in
        let '(r, l2t, q) := qcow_l2_cache_write q off (mknode (entries l2t) true) in
        if r <? 0 then (if cached then Ub else free_cluster q) else
        let! c := cache_insert (table_cache (table q)) off l2t in
        let q := set_l1_entry (set_l1_cache q c) l1t_idx (l2t_new_offset .| QCOW2_OFLAG_COPIED) in
        let '(r, q) := qcow_write_l1_table q in
        if negb (r =? 0) then Ub else
        let! q := qcow_free_clusters q l2t_offset (cluster_size q) in
        Ret (Some (off, l2t_idx), q)
    end.

Definition set_copy_buff (q : qcow) (cb : list Z) : qcow :=
  set_buffers q (cluster_cache q) (cluster_data q) cb.

(** Freeing the cluster that a write has replaced. *)
Definition free_old_cluster (q : qcow) (clust_flags clust_start : Z) : out qcow :=
  if flag clust_flags QCOW2_OFLAG_COMPRESSED then
    let size := s32 (s32 (((clust_start .>> csize_shift q) .& csize_mask q) + 1) * 512) in
    qcow_free_clusters q ((clust_start .& cluster_offset_mask q) .&~ 511) (u64 size)
  else if negb (clust_start =? 0) then qcow_free_clusters q clust_start (cluster_size q)
  else Ret q.

Definition qcow_write_cluster (q : qcow) (offset : Z) (buf : list Z) : out (Z * qcow) :=
  let clust_off := get_cluster_offset q offset in
  if cluster_size q <=? clust_off then Ret (-1, q) else
  let len := Z.min (cluster_size q - clust_off) (Z.of_nat (length buf)) in
  let buf := take (Z.to_nat len) buf in
  let! (r, q) := get_cluster_table q offset in
  match r with
  | None => Ret (-1, q)
  | Some (l2off, l2t_idx) =>
      match nodes (table_cache (table q)) !! l2off with
      | None => Ub
      | Some l2t =>
          let entry := be64_at (entries l2t) l2t_idx in
          let clust_flags := entry .& QCOW2_OFLAGS_MASK in
          let clust_start := entry .&~ QCOW2_OFLAGS_MASK in
          if flag clust_flags QCOW2_OFLAG_COPIED then
            let '(r, h) := pwrite_in_full (fd q) buf (u64 (clust_start + clust_off)) in
            Ret (if r <? 0 then -1 else len, set_fd q h)
          else
            let! (clust_new_start, q) := qcow_alloc_clusters q (cluster_size q) true in
            if negb (clust_new_start =? NO_CLUSTER) then Ret (-1, q) else
            let free_cluster q :=
              let! q := qcow_free_clusters q clust_new_start (cluster_size q) in Ret (-1, q) in
            let offset := offset .&~ (cluster_size q - 1) in
            let! (r, data, q) :=
              if negb (clust_start =? 0)
              then qcow2_read_cluster inflateInit2 inflate q offset (cluster_size q)
              else Ret (0, replicate (Z.to_nat (cluster_size q)) 0, q) in
            let q := set_copy_buff q (splice 0 data (copy_buff q)) in
            if r <? 0 then free_cluster q else
            let q := set_copy_buff q (splice (Z.to_nat clust_off) buf (copy_buff q)) in
            let '(r, h) := pwrite_in_full (fd q) (copy_buff q) clust_new_start in
            let q := set_fd q h in
            if r <? 0 then free_cluster q else
            match nodes (table_cache (table q)) !! l2off with
            | None => Ub
            | Some l2t =>
                let l2t := mknode (set_be64 (entries l2t) l2t_idx
                                     (clust_new_start .| QCOW2_OFLAG_COPIED)) true in
                let '(r, l2t, q) := qcow_l2_cache_write q l2off l2t in
                let q := set_l2_node q l2off l2t in
                if negb (r =? 0) then free_cluster q else
                let! q := free_old_cluster q clust_flags clust_start in Ret (len, q)
            end
      end
  end.

(** ** Sector writes *)

(** The loop of [qcow_write_sector_single]; every turn writes at least a byte. *)
Fixpoint write_loop (fuel : nat) (q : qcow) (offset nr_written : Z) (buf : list Z)
    : out (Z * qcow) :=
  match buf with
  | [] => Ret (nr_written, q)
  | _ =>
      match fuel with
      | O => NoFuel
      | S fuel =>
          if size (header q) <=? offset then Ret (-1, q) else
          let! (nr, q) := qcow_write_cluster q offset buf in
          if nr <? 0 then Ret (-1, q) else
          write_loop fuel q (u64 (offset + nr)) (nr_written + nr) (drop (Z.to_nat nr) buf)
      end
  end.

Definition qcow_write_sector_single (q : qcow) (sector : Z) (src : list Z) : out (Z * qcow) :=
  let src := take (Z.to_nat (u32 (Z.of_nat (length src)))) src in
  write_loop (length src) q (u64 (sector .<< SECTOR_SHIFT)) 0 src.

Fixpoint write_iov (q : qcow) (sector total : Z) (iov : list (list Z)) : out (Z * qcow) :=
  match iov with
  | [] => Ret (total, q)
  | src :: iov =>
      let! (nr, q) := qcow_write_sector_single q sector src in
      if negb (nr =? Z.of_nat (length src)) then Ret (-1, q) else
      write_iov q (u64 (sector + (Z.of_nat (length src) .>> SECTOR_SHIFT))) (total + nr) iov
  end.

Definition qcow_write_sector (q : qcow) (sector : Z) (iov : list (list Z)) :=
  write_iov q sector 0 iov.

(** ** Flush and close *)

(** Write every dirty node of a list of offsets. *)
Fixpoint flush_nodes (write : qcow -> Z -> node -> Z * node * qcow)
    (get : qcow -> cache) (set : qcow -> Z -> node -> qcow) (l : list Z) (q : qcow) : out (Z * qcow) :=
  match l with
  | [] => Ret (0, q)
  | off :: l =>
      match nodes (get q) !! off with
      | None => Ub
      | Some n =>
          let '(r, n, q) := write q off n in
          let q := set q off n in
          if r <? 0 then Ret (-1, q) else flush_nodes write get set l q
      end
  end.

(** [qcow_write_l1_table < 0] compares the function's address, so the level-1
    table is not written here. *)
Definition qcow_disk_flush (q : qcow) : out (Z * qcow) :=
  let! (r, q) := flush_nodes write_refcount_block (fun q => table_cache (refcount_table q))
                   set_rf_node (lru_list (table_cache (refcount_table q))) q in
  if r <? 0 then Ret (-1, q) else
  let! (r, q) := flush_nodes qcow_l2_cache_write (fun q => table_cache (table q))
                   set_l2_node (lru_list (table_cache (table q))) q in
  if r <? 0 then Ret (-1, q) else Ret (fsync (fd q), q).

(** The caches after [qcow_disk_close]. *)
Definition qcow_disk_close (q : qcow) : out (Z * cache * cache) :=
  let rc := table_cache (refcount_table q) in
  let lc := table_cache (table q) in
  let! rc := refcount_table_free_cache (lru_list rc) rc in
  let! lc := free_cache (lru_list lc) lc in
  Ret (0, rc, lc).
End Write.

(** ** Writes in place *)

Section InPlace.
Context (inflateInit2 : Z) (inflate : list Z -> Z -> Z * list Z).
Context (fdatasync : host -> Z) (uninit : nat -> Z).

(** File ranges that do not meet. *)
Definition apart (a n b m : Z) : Prop := a + n <= b \/ b + m <= a.

(** The file after a write inside it: other ranges are as before. *)
Lemma slice_apart a n off data (m : list Z) : 0 <= a -> 0 <= n -> 0 <= off ->
  off + Z.of_nat (length data) <= Z.of_nat (length m) ->
  apart a n off (Z.of_nat (length data)) ->
  slice (Z.to_nat a) (Z.to_nat n) (splice (Z.to_nat off) data m) = slice (Z.to_nat a) (Z.to_nat n) m.
Proof.
  intros Ha Hn Ho Hl [H|H].
  - apply slice_splice_before; lia.
  - apply slice_splice_after; lia.
Qed.

(** The file ranges that reading the cluster of a guest offset uses are apart
    from [len] bytes at [start]. *)
Definition reads_apart (q : qcow) (p start len : Z) : Prop :=
  let o := be64_at (table_bytes (table q)) (get_l1_index q p) .&~ QCOW2_OFLAG_COPIED in
  let entry := be64_at (l2_table q o) (get_l2_index q p) in
  o <> 0 -> apart o (Z.of_nat (l2_bytes q)) start len /\
  (if flag entry QCOW2_OFLAG_COMPRESSED then
     let st := entry .& cluster_offset_mask q in
     let n := (((entry .>> csize_shift q) .& csize_mask q) + 1) * SECTOR_SIZE in
     apart (st - st mod SECTOR_SIZE) n start len
   else apart (entry .&~ QCOW2_OFLAGS_MASK) (cluster_size q) start len).

(** The image with other bytes in the file. *)
Definition with_file (q : qcow) (off : Z) (data : list Z) (s : list outcome) : qcow :=
  set_fd q (mkhost (splice (Z.to_nat off) data (content (fd q))) (pos (fd q)) s).

Lemma l2_in_file_apart q off data s o : 0 <= o -> 0 <= off ->
  off + Z.of_nat (length data) <= Z.of_nat (length (content (fd q))) ->
  apart o (Z.of_nat (l2_bytes q)) off (Z.of_nat (length data)) ->
  l2_in_file (with_file q off data s) o = l2_in_file q o.
Proof.
  intros Ho H1 H2 Ha. unfold l2_in_file. cbn [with_file set_fd fd content].
  change (l2_bytes (with_file q off data s)) with (l2_bytes q).
  rewrite <- (Nat2Z.id (l2_bytes q)). apply slice_apart; auto; lia.
Qed.

Lemma file_bytes_apart q off data s a n : 0 <= a -> 0 <= n -> 0 <= off ->
  off + Z.of_nat (length data) <= Z.of_nat (length (content (fd q))) ->
  apart a n off (Z.of_nat (length data)) ->
  file_bytes (with_file q off data s) a n = file_bytes q a n.
Proof.
  intros Ha Hn Ho Hl Hap. unfold file_bytes. cbn [with_file set_fd fd content].
  now rewrite slice_apart.
Qed.

Lemma cluster_apart q off data s p : geometry_ok q -> byte_ok (content (fd q)) -> 0 <= off ->
  off + Z.of_nat (length data) <= Z.of_nat (length (content (fd q))) ->
  reads_apart q p off (Z.of_nat (length data)) ->
  qcow2_cluster inflateInit2 inflate (with_file q off data s) p = qcow2_cluster inflateInit2 inflate q p.
Proof.
  intros Hg Hb H1 H2 Hap. unfold qcow2_cluster.
  change (table (with_file q off data s)) with (table q).
  change (get_l1_index (with_file q off data s) p) with (get_l1_index q p).
  change (get_l2_index (with_file q off data s) p) with (get_l2_index q p).
  change (cluster_size (with_file q off data s)) with (cluster_size q).
  destruct (table_size (table q) <=? get_l1_index q p); [reflexivity|].
  unfold reads_apart in Hap.
  set (o := be64_at (table_bytes (table q)) (get_l1_index q p) .&~ QCOW2_OFLAG_COPIED) in *.
  destruct (Z.eqb_spec o 0) as [|Ho]; [reflexivity|].
  destruct (Hap Ho) as [Ha1 Ha2].
  assert (Ho0 : 0 <= o) by (apply Z.ldiff_nonneg; left; apply be64_fits; apply (g_l1 q Hg)).
  rewrite (l2_in_file_apart q off data s o) by auto.
  assert (Et : l2_table (with_file q off data s) o = l2_table q o).
  { unfold l2_table. rewrite (l2_in_file_apart q off data s o) by auto. reflexivity. }
  rewrite Et. destruct (bool_decide _); [reflexivity|].
  set (entry := be64_at (l2_table q o) (get_l2_index q p)) in *.
  assert (He : fits 64 entry) by (apply be64_fits, l2_table_bytes, Hb).
  assert (Hcs : 0 < cluster_size q) by (rewrite (g_cs q Hg); apply Z.pow_pos_nonneg; destruct Hg; lia).
  destruct (flag entry QCOW2_OFLAG_COMPRESSED).
  - unfold compressed2. cbn [with_file set_fd cluster_offset_mask csize_shift csize_mask cluster_size].
    destruct (_ && _); [|reflexivity].
    assert (H0 : 0 <= entry .& cluster_offset_mask q) by (apply Z.land_nonneg; left; apply He).
    pose proof (Z.mod_le (entry .& cluster_offset_mask q) SECTOR_SIZE H0 ltac:(reflexivity)).
    rewrite file_bytes_apart; auto; [lia|].
    assert (0 <= (entry .>> csize_shift q) .& csize_mask q).
    { apply Z.land_nonneg. left. apply Z.shiftr_nonneg. apply He. }
    change SECTOR_SIZE with 512. lia.
  - pose proof (flags_clear entry He). destruct (_ =? 0); [reflexivity|].
    apply file_bytes_apart; auto; lia.
Qed.

(** What has to hold for the write at [offset] to go in place: both levels are
    marked as copied, the data cluster is in the file, and no table that is (or
    gets) cached lies in it. *)
Record in_place (q : qcow) (offset l2off start : Z) (c : list Z) : Prop := {
  p_l1 : get_l1_index q offset < table_size (table q);
  p_off : be64_at (table_bytes (table q)) (get_l1_index q offset) .&~ QCOW2_OFLAG_COPIED = l2off;
  p_copied1 : flag (be64_at (table_bytes (table q)) (get_l1_index q offset)) QCOW2_OFLAG_COPIED = true;
  p_nz : l2off <> 0;
  p_l2 : l2_in_file q l2off <> [];
  p_copied2 : flag (be64_at (l2_table q l2off) (get_l2_index q offset) .& QCOW2_OFLAGS_MASK)
                QCOW2_OFLAG_COPIED = true;
  p_plain : flag (be64_at (l2_table q l2off) (get_l2_index q offset)) QCOW2_OFLAG_COMPRESSED = false;
  p_start : be64_at (l2_table q l2off) (get_l2_index q offset) .&~ QCOW2_OFLAGS_MASK = start;
  p_snz : start <> 0;
  p_data : file_bytes q start (cluster_size q) = Some c;
  p_apart : forall o, (o = l2off \/ is_Some (nodes (table_cache (table q)) !! o)) -> 0 <= o /\
              apart o (Z.of_nat (l2_bytes q)) start (cluster_size q)
}.

Lemma apart_sub a n b m b' m' : apart a n b m -> b <= b' -> b' + m' <= b + m -> apart a n b' m'.
Proof. unfold apart. lia. Qed.

Lemma slice_splice_inside off len k data (m : list Z) :
  (k + length data <= len)%nat -> (off + len <= length m)%nat ->
  slice off len (splice (off + k) data m) = splice k data (slice off len m).
Proof.
  intros H1 H2. apply list_eq. intros i. unfold slice.
  destruct (Nat.ltb_spec i len) as [Hi|Hi].
  - rewrite lookup_take_lt, lookup_drop by lia.
    assert (Ls : length (take len (drop off m)) = len) by (rewrite length_take, length_drop; lia).
    destruct (Nat.ltb_spec i k); [|destruct (Nat.ltb_spec i (k + length data))].
    + rewrite (lookup_splice_before k) by lia. rewrite lookup_take_lt, lookup_drop by lia.
      apply lookup_splice_before; lia.
    + rewrite !lookup_splice_in by lia. f_equal. lia.
    + unfold splice.
      rewrite !lookup_app_r by (rewrite ?length_take, ?length_drop; lia).
      rewrite !lookup_drop. rewrite !length_take, length_drop. rewrite lookup_take_lt, lookup_drop by lia.
      f_equal. lia.
  - rewrite lookup_take_ge by lia. symmetry. apply lookup_ge_None_2.
    rewrite length_splice by (rewrite length_take, length_drop; lia). rewrite length_take. lia.
Qed.

Lemma reads_apart_sub q p b m b' m' : reads_apart q p b m -> b <= b' -> b' + m' <= b + m ->
  reads_apart q p b' m'.
Proof.
  unfold reads_apart. cbv zeta. intros H H1 H2 Hnz. destruct (H Hnz) as [A1 A2].
  split; [now apply (apart_sub _ _ b m)|].
  destruct (flag (be64_at (l2_table _ _) _) _); now apply (apart_sub _ _ b m).
Qed.

(** An allocated, uncompressed cluster is the file's bytes. *)
Lemma plain_cluster q offset l2off start :
  get_l1_index q offset < table_size (table q) ->
  be64_at (table_bytes (table q)) (get_l1_index q offset) .&~ QCOW2_OFLAG_COPIED = l2off ->
  l2off <> 0 -> l2_in_file q l2off <> [] ->
  flag (be64_at (l2_table q l2off) (get_l2_index q offset)) QCOW2_OFLAG_COMPRESSED = false ->
  be64_at (l2_table q l2off) (get_l2_index q offset) .&~ QCOW2_OFLAGS_MASK = start ->
  start <> 0 ->
  qcow2_cluster inflateInit2 inflate q offset = file_bytes q start (cluster_size q).
Proof.
  intros Hl1 Ho Hnz Hne Hpl Hst Hsnz. unfold qcow2_cluster.
  destruct (Z.leb_spec (table_size (table q)) (get_l1_index q offset)); [lia|].
  rewrite Ho. destruct (Z.eqb_spec l2off 0); [congruence|].
  rewrite bool_decide_false by exact Hne. rewrite Hpl, Hst.
  destruct (Z.eqb_spec start 0); [congruence|reflexivity].
Qed.

(** Soundness after a write that no cached table sees. *)
Lemma with_file_ok q off data s : image_ok q -> Forall soft s -> byte_ok data ->
  (forall o, is_Some (nodes (table_cache (table q)) !! o) ->
     l2_in_file (with_file q off data s) o = l2_in_file q o) ->
  image_ok (with_file q off data s).
Proof.
  intros [Hg Hfd Hby Hcc Hcd Hca Hco] Hs Hd Hsame. constructor; auto.
  - destruct Hg. now constructor.
  - cbn [with_file set_fd fd content]. now apply splice_bytes.
  - intros o m Hm. destruct (Hco o m Hm) as [E1 E2].
    rewrite (Hsame o ltac:(eauto)). split; [|exact E2].
    rewrite E1. unfold l2_table. now rewrite (Hsame o ltac:(eauto)).
Qed.

(** The bytes of a data cluster after a write inside it. *)
Lemma file_bytes_inside q start off data s c : 0 < cluster_size q -> 0 <= start -> 0 <= off ->
  off + Z.of_nat (length data) <= cluster_size q ->
  file_bytes q start (cluster_size q) = Some c ->
  start + cluster_size q <= Z.of_nat (length (content (fd q))) /\
  file_bytes (with_file q (start + off) data s) start (cluster_size q) =
    Some (splice (Z.to_nat off) data c).
Proof.
  intros Hcs H1 H2 H3 Hd. unfold file_bytes in *.
  destruct (Nat.eqb_spec (length (slice (Z.to_nat start) (Z.to_nat (cluster_size q)) (content (fd q))))
    (Z.to_nat (cluster_size q))) as [EL|]; [|discriminate]. injection Hd as <-.
  assert (Hfl : start + cluster_size q <= Z.of_nat (length (content (fd q)))).
  { unfold slice in EL. rewrite length_take, length_drop in EL. lia. }
  split; [exact Hfl|]. cbn [with_file set_fd fd content].
  replace (Z.to_nat (start + off)) with (Z.to_nat start + Z.to_nat off)%nat by lia.
  rewrite slice_splice_inside by lia.
  rewrite length_splice by (rewrite length_slice; lia). rewrite length_slice by lia.
  now rewrite Nat.eqb_refl.
Qed.

(** The path of [qcow_write_cluster] to the write in place. *)
Lemma write_cluster_path q offset buf l2off start c : image_ok q -> in_place q offset l2off start c ->
  byte_ok buf -> 0 < Z.of_nat (length buf) ->
  let off := offset mod cluster_size q in
  let len := Z.min (cluster_size q - off) (Z.of_nat (length buf)) in
  exists q1 s, reads_to q q1 /\ Forall soft s /\
    (forall o, is_Some (nodes (table_cache (table q1)) !! o) ->
       o = l2off \/ is_Some (nodes (table_cache (table q)) !! o)) /\
    qcow_write_cluster inflateInit2 inflate fdatasync uninit q offset buf =
      Ret (len, with_file q1 (start + off) (take (Z.to_nat len) buf) s).
Proof.
  intros Hq [Hl1 Ho Hc1 Hnz Hne Hc2 Hpl Hst Hsnz Hd Hap] Hb Hl off len.
  pose proof (i_geo q Hq) as Hg.
  assert (Hcs : 0 < cluster_size q) by (rewrite (g_cs q Hg); apply Z.pow_pos_nonneg; destruct Hg; lia).
  assert (Hcs30 : cluster_size q <= 2 ^ 30)
    by (rewrite (g_cs q Hg); apply Z.pow_le_mono_r; destruct Hg; lia).
  pose proof (Z.mod_pos_bound offset (cluster_size q) Hcs) as Hoff. fold off in Hoff.
  pose proof (l2_index_bound q offset Hg) as Hidx.
  unfold qcow_write_cluster, get_cluster_table. rewrite (cluster_offset_mod q offset Hg). fold off.
  destruct (Z.leb_spec (cluster_size q) off); [lia|]. fold len.
  destruct (Z.leb_spec (table_size (table q)) (get_l1_index q offset)); [lia|].
  destruct (Z.leb_spec (1 .<< l2_bits (header q)) (get_l2_index q offset)); [lia|].
  rewrite Hc1, Ho. destruct (Hap l2off ltac:(auto)) as [Hl2p _].
  pose proof (g_l1_off q Hg (get_l1_index q offset)) as Hw. rewrite Ho in Hw.
  destruct (read_l2_spec q l2off Hq Hl2p Hw Hne) as (n & q1 & -> & En & Hr1 & Hn1 & Hold).
  rewrite Hn1, En, Hc2, Hst.
  assert (Hq1 : image_ok q1) by apply Hr1.
  assert (He : fits 64 (be64_at (l2_table q l2off) (get_l2_index q offset)))
    by (apply be64_fits, l2_table_bytes, (i_bytes q Hq)).
  pose proof (flags_clear _ He) as Hsr. rewrite Hst in Hsr.
  assert (Ld : length (take (Z.to_nat len) buf) = Z.to_nat len) by (rewrite length_take; lia).
  assert (Ec : content (fd q1) = content (fd q)) by (now destruct Hr1 as [(s & c1 & cc & cd & ->) _]).
  destruct (file_bytes_inside q start off [] [] c Hcs ltac:(lia) ltac:(lia) ltac:(cbn [length]; lia) Hd) as [Hfl _].
  rewrite (wrap_id 64) by (unfold fits; lia).
  destruct (pwrite_in_full_spec (fd q1) (take (Z.to_nat len) buf) (start + off) (i_fd q1 Hq1))
    as (s & Hs & ->); [lia..|].
  rewrite Ld. destruct (Z.ltb_spec (Z.of_nat (Z.to_nat len)) 0); [lia|].
  rewrite write_at_splice by (rewrite Ec; lia).
  exists q1, s. split; [exact Hr1|]. split; [exact Hs|]. split; [|reflexivity].
  intros o [m Hm]. destruct (Hold o m Hm); eauto.
Qed.

(** A write to an allocated, private cluster goes in place: the call returns
    the number of bytes that fit in the cluster, the image stays sound, the
    cluster then holds the old bytes overwritten with the new ones at the offset,
    and every cluster whose tables and data lie elsewhere in the file reads as
    before. *)
Theorem qcow_write_in_place q offset buf l2off start c
  (Hq : image_ok q) (Hp : in_place q offset l2off start c)
  (Hb : byte_ok buf) (Hl : 0 < Z.of_nat (length buf)) :
  let off := offset mod cluster_size q in
  let len := Z.min (cluster_size q - off) (Z.of_nat (length buf)) in
  exists q', qcow_write_cluster inflateInit2 inflate fdatasync uninit q offset buf = Ret (len, q') /\
    image_ok q' /\
    qcow2_cluster inflateInit2 inflate q' offset = Some (splice (Z.to_nat off) (take (Z.to_nat len) buf) c) /\
    (forall p, reads_apart q p start (cluster_size q) ->
       qcow2_cluster inflateInit2 inflate q' p = qcow2_cluster inflateInit2 inflate q p).
Proof.
  intros off len.
  destruct (write_cluster_path q offset buf l2off start c Hq Hp Hb Hl) as (q1 & s & Hr1 & Hs & Hold & E).
  fold off len in E. set (data := take (Z.to_nat len) buf) in *.
  destruct Hp as [Hl1 Ho Hc1 Hnz Hne Hc2 Hpl Hst Hsnz Hd Hap].
  pose proof (i_geo q Hq) as Hg. assert (Hq1 : image_ok q1) by apply Hr1.
  assert (Hcs : 0 < cluster_size q) by (rewrite (g_cs q Hg); apply Z.pow_pos_nonneg; destruct Hg; lia).
  pose proof (Z.mod_pos_bound offset (cluster_size q) Hcs) as Hoff. fold off in Hoff.
  assert (Hs0 : 0 <= start) by (rewrite <- Hst; apply flags_clear, be64_fits, l2_table_bytes, (i_bytes q Hq)).
  assert (Ld : Z.of_nat (length data) = len) by (unfold data; rewrite length_take; lia).
  assert (Es : cluster_size q1 = cluster_size q /\ l2_bytes q1 = l2_bytes q /\
    (forall a n, file_bytes q1 a n = file_bytes q a n) /\
    (forall p, reads_apart q1 p start (cluster_size q) = reads_apart q p start (cluster_size q)) /\
    (forall o, l2_in_file q1 o = l2_in_file q o))
    by (now destruct Hr1 as [(s0 & c1 & cc & cd & ->) _]).
  destruct Es as (Ecs & Elb & Efb & Era & El2).
  destruct (file_bytes_inside q1 start off data s c ltac:(lia) Hs0 ltac:(lia) ltac:(lia)) as [Hfl Hfb];
    [now rewrite Ecs, Efb|].
  assert (Hap1 : forall o, o = l2off \/ is_Some (nodes (table_cache (table q1)) !! o) ->
    l2_in_file (with_file q1 (start + off) data s) o = l2_in_file q1 o).
  { intros o Hor. destruct (Hap o) as [Ho0 Ha]; [destruct Hor; auto|].
    apply l2_in_file_apart; [exact Ho0|lia|lia|]. rewrite Elb.
    apply (apart_sub _ _ _ _ _ _ Ha); lia. }
  exists (with_file q1 (start + off) data s). split; [exact E|]. split; [|split].
  - apply with_file_ok; auto. now apply Forall_take.
  - rewrite (plain_cluster _ offset l2off start); [rewrite <- Hfb; change (cluster_size (with_file q1 (start + off) data s)) with (cluster_size q1); reflexivity|..].
    all: unfold l2_table; change (l2_bytes (with_file q1 (start + off) data s)) with (l2_bytes q1);
      rewrite ?Hap1, ?El2, ?Elb by auto; fold (l2_table q l2off).
    all: destruct Hr1 as [(s0 & c1 & cc & cd & ->) _]; assumption.
  - intros p Hra. rewrite <- (cluster_reads_to inflateInit2 inflate q q1 p Hr1).
    apply cluster_apart; [apply i_geo, Hq1|apply (i_bytes q1 Hq1)|lia|lia|].
    rewrite <- Era in Hra. apply (reads_apart_sub _ _ _ _ _ _ Hra); lia.
Qed.
End InPlace.

(** ** Writes that need an allocation *)

Section Allocate.
Context (inflateInit2 : Z) (inflate : list Z -> Z -> Z * list Z).
Context (fdatasync : host -> Z) (uninit : nat -> Z).
#[local] Abbreviation write_cluster := (qcow_write_cluster inflateInit2 inflate fdatasync uninit).
#[local] Abbreviation alloc := (qcow_alloc_clusters fdatasync uninit).

(** A write that needs a cluster fails exactly because the allocation
    succeeds: when the level-2 table, or the data cluster, is not marked as
    copied and the allocator returns a cluster, the write returns -1, with the
    cluster's reference count taken and never given back. *)
Theorem qcow_write_needs_failed_alloc q offset buf q' a
  (Hoff : get_cluster_offset q offset < cluster_size q) (Ha : a <> NO_CLUSTER) :
  (get_l1_index q offset < table_size (table q) -> get_l2_index q offset < 1 .<< l2_bits (header q) ->
   flag (be64_at (table_bytes (table q)) (get_l1_index q offset)) QCOW2_OFLAG_COPIED = false ->
   alloc q ((1 .<< l2_bits (header q)) * 8) true = Ret (a, q') ->
   write_cluster q offset buf = Ret (-1, q')) /\
  (forall l2off idx q1 n, get_cluster_table fdatasync uninit q offset = Ret (Some (l2off, idx), q1) ->
   nodes (table_cache (table q1)) !! l2off = Some n ->
   flag (be64_at (entries n) idx .& QCOW2_OFLAGS_MASK) QCOW2_OFLAG_COPIED = false ->
   alloc q1 (cluster_size q1) true = Ret (a, q') ->
   write_cluster q offset buf = Ret (-1, q')).
Proof.
  split.
  - intros H1 H2 Hc Hal. unfold qcow_write_cluster, get_cluster_table.
    destruct (Z.leb_spec (cluster_size q) (get_cluster_offset q offset)); [lia|].
    destruct (Z.leb_spec (table_size (table q)) (get_l1_index q offset)); [lia|].
    destruct (Z.leb_spec (1 .<< l2_bits (header q)) (get_l2_index q offset)); [lia|].
    rewrite Hc, Hal. now destruct (Z.eqb_spec a NO_CLUSTER).
  - intros l2off idx q1 n Hg Hn Hc Hal. unfold qcow_write_cluster.
    destruct (Z.leb_spec (cluster_size q) (get_cluster_offset q offset)); [lia|].
    rewrite Hg, Hn, Hc, Hal. now destruct (Z.eqb_spec a NO_CLUSTER).
Qed.

(** ** Reference counts of the file *)

Definition rf_in_file (q : qcow) (off : Z) : list Z :=
  slice (Z.to_nat off) (Z.to_nat (2 * rfb_size q)) (content (fd q)).

Definition rf_block (q : qcow) (off : Z) : list Z :=
  splice 0 (rf_in_file q off) (entries (new_refcount_block uninit q)).

(** The count of a cluster as the file has it; 2^16 - 1 when its block cannot be
    read. *)
Definition refcount (q : qcow) (clust_idx : Z) : Z :=
  let off := be64_at (table_bytes (refcount_table q)) (rft_index q clust_idx) in
  if table_size (refcount_table q) <=? rft_index q clust_idx then 0
  else if off =? 0 then 0
  else if bool_decide (rf_in_file q off = []) then u16 (-1)
  else be16_at (rf_block q off) (rfb_index q clust_idx).

Record rf_ok (q : qcow) : Prop := {
  r_cb : 9 <= cluster_bits (header q) <= 30;
  r_cs : cluster_size q = 2 ^ cluster_bits (header q);
  r_fd : healthy (fd q);
  r_off : forall i, 0 <= be64_at (table_bytes (refcount_table q)) i /\
            be64_at (table_bytes (refcount_table q)) i + cluster_size q < 2 ^ 63;
  r_cache : cache_ok (table_cache (refcount_table q));
  r_coh : forall o n, nodes (table_cache (refcount_table q)) !! o = Some n ->
            entries n = rf_block q o /\ rf_in_file q o <> []
}.

(** What looking at counts may change. *)
Definition rf_advance (q : qcow) (s : list outcome) (c : cache) : qcow :=
  set_rf_cache (set_fd q (set_script (fd q) s)) c.

Definition counts_to (q q' : qcow) : Prop :=
  (exists s c, q' = rf_advance q s c) /\ rf_ok q'.

Lemma counts_to_refl q : rf_ok q -> counts_to q q.
Proof.
  intros H. split; [|exact H]. exists (script (fd q)), (table_cache (refcount_table q)).
  now destruct q as [? ? [] []].
Qed.

Lemma counts_refcount q q' i : counts_to q q' -> refcount q' i = refcount q i.
Proof. now intros [(s & c & ->) _]. Qed.

Lemma rf_advance_ok q s c : rf_ok q -> Forall soft s -> cache_ok c ->
  (forall o n, nodes c !! o = Some n -> entries n = rf_block q o /\ rf_in_file q o <> []) ->
  counts_to q (rf_advance q s c).
Proof.
  intros [] Hs Hc Hco. split; [now exists s, c|]. constructor; auto.
Qed.

Lemma get_refcount_spec q i : rf_ok q -> 0 <= i ->
  exists q', qcow_get_refcount uninit q i = Ret (refcount q i, q') /\ counts_to q q'.
Proof.
  intros Hq Hi. pose proof Hq as [Hcb Hcs Hfd Hoff Hca Hco].
  unfold qcow_get_refcount, qcow_read_refcount_block, refcount_block_search, cache_refcount_block, refcount.
  destruct (table_size (refcount_table q) <=? rft_index q i).
  { exists q. split; [reflexivity|now apply counts_to_refl]. }
  set (o := be64_at (table_bytes (refcount_table q)) (rft_index q i)) in *.
  destruct (Hoff (rft_index q i)) as [Ho1 Ho2]. fold o in Ho1, Ho2.
  destruct (o =? 0).
  { exists q. split; [reflexivity|now apply counts_to_refl]. }
  assert (Hsz : 2 * rfb_size q = cluster_size q /\ rfb_size q = 2 ^ (cluster_bits (header q) - 1)).
  { unfold rfb_size. rewrite Hcs.
    replace (2 ^ cluster_bits (header q)) with (2 ^ (cluster_bits (header q) - 1) * 2).
    - rewrite Z.div_mul by lia. lia.
    - rewrite Z.mul_comm, <- Z.pow_succ_r by lia. f_equal. lia. }
  destruct Hsz as [Hsz1 Hsz2].
  assert (Hidx : rfb_index q i < rfb_size q).
  { unfold rfb_index, QCOW_REFCOUNT_BLOCK_SHIFT. rewrite land_mask, Hsz2 by lia.
    apply Z.mod_pos_bound, Z.pow_pos_nonneg; lia. }
  destruct (nodes (table_cache (refcount_table q)) !! o) as [n|] eqn:En.
  - destruct (search_hit _ o n Hca En) as (c & -> & Hc & Hn & _).
    destruct (Hco o n En) as [E1 E2]. change (rfb_size (set_rf_cache q c)) with (rfb_size q).
    change (rfb_index (set_rf_cache q c) i) with (rfb_index q i).
    destruct (Z.leb_spec (rfb_size q) (rfb_index q i)); [lia|].
    unfold rfb_node. cbn [set_rf_cache set_refcount_table refcount_table set_cache table_cache].
    rewrite Hn, En, E1, bool_decide_false by exact E2. eexists. split; [reflexivity|].
    assert (Ea : set_rf_cache q c = rf_advance q (script (fd q)) c) by (now destruct q as [? ? [] []]).
    rewrite Ea. apply rf_advance_ok; auto. intros o' n' H'. rewrite Hn in H'. now apply Hco.
  - rewrite (search_miss _ o Hca En).
    assert (Hcspos : 0 < cluster_size q) by (rewrite Hcs; apply Z.pow_pos_nonneg; lia).
    destruct (pread_in_full_spec (fd q) (Z.to_nat (2 * rfb_size q)) o Hfd Ho1 ltac:(lia)) as (s & Hs & E).
    cbn zeta in E. rewrite E. fold (rf_in_file q o).
    destruct (Nat.eqb_spec (Z.to_nat (2 * rfb_size q)) 0); [lia|]. cbn [orb].
    destruct (bool_decide_reflect (rf_in_file q o = [])) as [En0|Hne].
    + rewrite En0. cbn [length Z.of_nat Z.ltb Z.compare]. eexists. split; [reflexivity|].
      assert (Ea : set_fd q (set_script (fd q) s) = rf_advance q s (table_cache (refcount_table q)))
        by (now destruct q as [? ? [] []]).
      rewrite Ea. now apply rf_advance_ok.
    + assert (HL : (0 < length (rf_in_file q o))%nat)
        by (destruct (rf_in_file q o); [congruence|cbn; lia]).
      destruct (Z.ltb_spec 0 (Z.of_nat (length (rf_in_file q o)))); [|lia].
      destruct (Z.ltb_spec (Z.of_nat (length (rf_in_file q o))) 0); [lia|].
      fold (rf_block q o). set (rb := mknode (rf_block q o) _).
      destruct (cache_insert_ok _ o rb Hca En) as (c & -> & Hc & Hn & Hrest & _).
      change (rfb_size (set_rf_cache _ c)) with (rfb_size q).
      change (rfb_index (set_rf_cache _ c) i) with (rfb_index q i).
      destruct (Z.leb_spec (rfb_size q) (rfb_index q i)); [lia|].
      unfold rfb_node. cbn [set_rf_cache set_refcount_table refcount_table set_cache table_cache].
      rewrite Hn. eexists. split; [reflexivity|].
      change (counts_to q (rf_advance q s c)). apply rf_advance_ok; auto.
      intros o' n' H'. destruct (decide (o' = o)) as [->|Hne'].
      * assert (n' = rb) as -> by congruence. now split.
      * destruct (Hrest o' Hne') as [E'|E']; rewrite E' in H'; [now apply Hco|discriminate].
Qed.

(** The state of the search: [counts_to] up to the moving [free_clust_idx]. *)
Definition scans_to (q q' : qcow) : Prop :=
  rf_ok q' /\ (forall k, refcount q' k = refcount q k) /\
  header q' = header q /\ cluster_size q' = cluster_size q /\
  table_size (refcount_table q') = table_size (refcount_table q).

Lemma scan_step q f : rf_ok q -> free_clust_idx q = f -> 0 <= f -> f + 1 < 2 ^ 32 ->
  exists q', qcow_get_refcount uninit (set_free_clust_idx q (u64 (free_clust_idx q + 1)))
      (u32 (free_clust_idx q)) = Ret (refcount q f, q') /\
    scans_to q q' /\ free_clust_idx q' = f + 1.
Proof.
  intros Hq Hf H1 H2. rewrite Hf, (wrap_id 32 f), (wrap_id 64 (f + 1)) by (unfold fits; lia).
  set (q0 := set_free_clust_idx q (f + 1)).
  assert (Hq0 : rf_ok q0) by (destruct Hq; now constructor).
  destruct (get_refcount_spec q0 f Hq0 H1) as (q' & E & Hc).
  exists q'. split; [exact E|]. pose proof Hc as [(s & c & ->) Hok].
  split; [|reflexivity]. split; [exact Hok|]. split; [|now repeat split].
  intros k. now rewrite (counts_refcount q0 _ k Hc).
Qed.

Lemma scans_to_trans q1 q2 q3 : scans_to q1 q2 -> scans_to q2 q3 -> scans_to q1 q3.
Proof.
  intros (A1 & A2 & A3 & A4 & A5) (B1 & B2 & B3 & B4 & B5).
  split; [exact B1|]. split; [intros k; now rewrite B2|]. split; [|split]; congruence.
Qed.

(** Free clusters [s .. s + num). *)
Definition free_run (q : qcow) (s num : Z) : Prop := forall k, s <= k < s + num -> refcount q k = 0.

Definition scan_result (q : qcow) (f i num : Z) (r : out (option Z * qcow)) : Prop :=
  exists q', scans_to q q' /\
  ((r = Ret (None, q') /\ exists k, f <= k < free_clust_idx q' /\ refcount q k = u16 (-1)) \/
   (exists e, r = Ret (Some e, q') /\ f - i <= e - num + 1 /\ free_clust_idx q' = e + 1 /\
      free_run q (e - num + 1) num /\
      forall s, f - i <= s < e - num + 1 -> ~ free_run q s num)).

Lemma alloc_scan_spec L fuel : forall q num i ci f, rf_ok q -> free_clust_idx q = f ->
  0 < num -> 0 <= i <= num -> i <= f -> (i = num -> ci = f - 1) -> f + Z.of_nat fuel < 2 ^ 32 ->
  (forall k, L <= k -> refcount q k = 0) -> (forall k, 0 <= refcount q k) ->
  free_run q (f - i) i ->
  Z.max 0 (L - f) + (num - (if L <=? f then i else 0)) <= Z.of_nat fuel \/ i = num ->
  scan_result q f i num (alloc_scan uninit fuel q num i ci).
Proof.
  induction fuel as [|fuel IH]; intros q num i ci f Hq Hf Hn Hi Hif Hci Hw HL Hpos Hrun Hfuel.
  - assert (i = num) as ->.
    { destruct Hfuel as [H|]; [|assumption]. destruct (L <=? f); lia. }
    cbn [alloc_scan]. rewrite Z.leb_refl. exists q.
    split; [split; [exact Hq|now repeat split]|]. right. exists ci. rewrite Hci by reflexivity.
    split; [reflexivity|]. split; [lia|]. split; [lia|].
    split; [intros k Hk; apply Hrun; lia|intros s Hs; lia].
  - cbn [alloc_scan]. destruct (Z.leb_spec num i) as [Hd|Hd].
    { assert (i = num) as -> by lia. exists q.
      split; [split; [exact Hq|now repeat split]|]. right. exists ci. rewrite Hci by reflexivity.
      split; [reflexivity|]. split; [lia|]. split; [lia|].
      split; [intros k Hk; apply Hrun; lia|intros s Hs; lia]. }
    destruct (scan_step q f Hq Hf ltac:(lia) ltac:(lia)) as (q1 & -> & Hs1 & Hf1).
    pose proof Hs1 as (Hok1 & Hrc1 & _).
    destruct (Z.eqb_spec (refcount q f) (u16 (-1))) as [Herr|Hne].
    { exists q1. split; [exact Hs1|]. left. split; [reflexivity|]. exists f. rewrite Hf1. split; [lia|exact Herr]. }
    rewrite Hf, (wrap_id 32 f) by (unfold fits; lia).
    assert (HL1 : forall k, L <= k -> refcount q1 k = 0) by (intros k Hk; rewrite Hrc1; auto).
    assert (Hpos1 : forall k, 0 <= refcount q1 k) by (intros k; rewrite Hrc1; auto).
    destruct (Z.ltb_spec 0 (refcount q f)) as [Hbusy|Hfree].
    + (* goto again *)
      assert (HfL : f < L) by (destruct (Z_lt_ge_dec f L); [assumption|rewrite HL in Hbusy; lia]).
      destruct (IH q1 num 0 f (f + 1)) as (q2 & Hs2 & Hr); auto; try lia.
      { intros k Hk. lia. }
      { left. destruct Hfuel as [H|]; [|lia]. destruct (Z.leb_spec L f); [lia|].
        destruct (Z.leb_spec L (f + 1)); lia. }
      exists q2. split; [now apply (scans_to_trans q q1)|].
      destruct Hr as [(E & k & Hk & Ek)|(e & E & H1 & H2 & H3 & H4)]; [left|right].
      * split; [exact E|]. exists k. rewrite Hrc1 in Ek. split; [lia|exact Ek].
      * exists e. split; [exact E|]. split; [lia|]. split; [exact H2|].
        split; [intros k Hk; rewrite <- Hrc1; now apply H3|].
        intros s Hs Hr. destruct (Z_lt_ge_dec f s) as [Hlt|Hge].
        -- apply (H4 s ltac:(lia)). intros k Hk. rewrite Hrc1. now apply Hr.
        -- rewrite (Hr f) in Hbusy by lia. lia.
    + assert (Hz : refcount q f = 0) by (specialize (Hpos f); lia).
      rewrite (wrap_id 32 (i + 1)) by (unfold fits; lia).
      destruct (IH q1 num (i + 1) f (f + 1)) as (q2 & Hs2 & Hr); auto; try lia.
      { intros k Hk. rewrite Hrc1. destruct (Z.eq_dec k f) as [->|]; [exact Hz|]. apply Hrun. lia. }
      { left. destruct Hfuel as [H|]; [|lia]. destruct (Z.leb_spec L f), (Z.leb_spec L (f + 1)); lia. }
      exists q2. split; [now apply (scans_to_trans q q1)|].
      destruct Hr as [(E & k & Hk & Ek)|(e & E & H1 & H2 & H3 & H4)]; [left|right].
      * split; [exact E|]. exists k. rewrite Hrc1 in Ek. split; [lia|exact Ek].
      * exists e. split; [exact E|]. split; [lia|]. split; [exact H2|].
        split; [intros k Hk; rewrite <- Hrc1; now apply H3|].
        intros s Hs Hr. apply (H4 s ltac:(lia)). intros k Hk. rewrite Hrc1. now apply Hr.
Qed.

Lemma refcount_beyond q k : rf_ok q -> table_size (refcount_table q) * 2 ^ (cluster_bits (header q) - 1) <= k ->
  refcount q k = 0.
Proof.
  intros [Hcb _ _ _ _ _] Hk. unfold refcount, rft_index, QCOW_REFCOUNT_BLOCK_SHIFT.
  rewrite Z.shiftr_div_pow2 by lia.
  destruct (Z.leb_spec (table_size (refcount_table q)) (k / 2 ^ (cluster_bits (header q) - 1))) as [|C];
    [reflexivity|].
  exfalso. apply Z.lt_nge in C. apply C, Z.div_le_lower_bound; [apply Z.pow_pos_nonneg; lia|lia].
Qed.

Lemma refcount_nonneg q k : byte_ok (content (fd q)) -> byte_ok (map uninit (seq 58 (Z.to_nat (2 * rfb_size q)))) ->
  0 <= refcount q k.
Proof.
  intros Hb Hu. unfold refcount. destruct (_ <=? _); [lia|]. destruct (_ =? 0); [lia|].
  destruct (bool_decide _); [vm_compute; discriminate|]. apply be_dec_fits.
  apply slice_bytes, splice_bytes; [now apply slice_bytes|exact Hu].
Qed.

(** C13. Allocation without counting ([update_ref] = 0) is first fit from
    [free_clust_idx]: the search always ends; it fails only when it met a
    refcount block it could not read; otherwise the clusters returned are all
    free, no earlier run of free clusters is long enough, and the next search
    starts behind them. *)
Theorem qcow_alloc_first_fit q sz
  (Hq : rf_ok q) (Hb : byte_ok (content (fd q)))
  (Hu : byte_ok (map uninit (seq 58 (Z.to_nat (2 * rfb_size q)))))
  (Hf : 0 <= free_clust_idx q) (Ht : 0 <= table_size (refcount_table q)) (Hn : 0 < clusters_of q sz)
  (Hw : free_clust_idx q + table_size (refcount_table q) * 2 ^ (cluster_bits (header q) - 1)
        + clusters_of q sz < 2 ^ 32) :
  let num := clusters_of q sz in
  exists a q', alloc q sz false = Ret (a, q') /\ scans_to q q' /\
    ((a = NO_CLUSTER /\ exists k, free_clust_idx q <= k < free_clust_idx q' /\ refcount q k = u16 (-1)) \/
     (exists s, a = u64 (s .<< cluster_bits (header q)) /\ free_clust_idx q <= s /\
        free_clust_idx q' = s + num /\ free_run q s num /\
        forall s', free_clust_idx q <= s' < s -> ~ free_run q s' num)).
Proof.
  intros num. pose proof Hq as [Hcb Hcs _ _ _ _].
  set (L := table_size (refcount_table q) * 2 ^ (cluster_bits (header q) - 1)) in *.
  assert (HL0 : 0 <= L) by (apply Z.mul_nonneg_nonneg; [exact Ht|apply Z.pow_nonneg; lia]).
  unfold qcow_alloc_clusters, alloc_search. fold num.
  assert (Ef : Z.of_nat (scan_fuel q num) = L + num).
  { unfold scan_fuel. rewrite Z.shiftl_mul_pow2 by lia. fold L. apply Z2Nat.id. lia. }
  destruct (alloc_scan_spec L (scan_fuel q num) q num 0 0 (free_clust_idx q)) as (q' & Hs & Hr);
    auto; try lia.
  { intros k Hk. now apply refcount_beyond. }
  { intros k. now apply refcount_nonneg. }
  { intros k Hk. lia. }
  { left. rewrite Ef. destruct (L <=? free_clust_idx q); lia. }
  destruct Hr as [(-> & k & Hk & Ek)|(e & -> & H1 & H2 & H3 & H4)].
  - exists NO_CLUSTER, q'. split; [reflexivity|]. split; [exact Hs|]. left. eauto.
  - cbn [negb]. destruct Hs as (Hok & Hrc & Eh & Ec & Et).
    assert (Hfree : free_clust_idx q' <= 2 ^ 32 - 1).
    { destruct (Z_le_gt_dec (e - num + 1) (Z.max L (free_clust_idx q))) as [|Hgt]; [lia|]. exfalso.
      apply (H4 (Z.max L (free_clust_idx q)) ltac:(lia)). intros k Hk. apply refcount_beyond; [exact Hq|].
      unfold L in Hk. lia. }
    rewrite (wrap_id 32 (e + 1)) by (unfold fits; lia). cbn [Z.ltb Z.compare].
    eexists _, q'. split; [reflexivity|]. split; [now split|]. right. exists (e - num + 1).
    unfold alloc_result, clusters_of. rewrite Eh, Ec. fold (clusters_of q sz). fold num.
    rewrite (wrap_id 64 (e + 1 - num)) by (unfold fits; lia).
    split; [do 2 f_equal; lia|]. split; [lia|]. split; [lia|]. split; [exact H3|].
    intros s' Hs'. apply H4. lia.
Qed.
End Allocate.

(** ** Witnesses on the small image *)

Definition sync_ok : host -> Z := fun _ => 0.

Lemma demo_in_place : exists c, in_place demo 100 1024 1536 c.
Proof.
  assert (E : exists c, file_bytes demo 1536 (cluster_size demo) = Some c)
    by (eexists; vm_compute; reflexivity).
  destruct E as (c & E). exists c.
  constructor; [vm_compute; congruence..|exact E|].
  intros o [->|[n Hn]].
  - split; [lia|]. left. vm_compute. congruence.
  - exfalso. assert (En : nodes (table_cache (table demo)) = ∅) by (vm_compute; reflexivity).
    rewrite En, lookup_empty in Hn. discriminate.
Qed.

Lemma qcow_write_in_place_witness :
  exists q', qcow_write_cluster 0 no_zlib sync_ok (fun _ => 0) demo 100 [1; 2; 3] = Ret (3, q') /\
    image_ok q'.
Proof.
  destruct demo_ok as (Hq & _). destruct demo_in_place as (c & Hp).
  destruct (qcow_write_in_place 0 no_zlib sync_ok (fun _ => 0) demo 100 [1; 2; 3] 1024 1536 c Hq Hp)
    as (q' & E & Hok & _); [repeat constructor; unfold fits; lia|cbn; lia|].
  exists q'. split; [exact E|exact Hok].
Defined.

Lemma qcow_write_needs_failed_alloc_witness :
  exists q', qcow_write_cluster 0 no_zlib sync_ok (fun _ => 0) demo 512 [1; 2; 3] = Ret (-1, q').
Proof.
  assert (E : exists q1 n q', get_cluster_table sync_ok (fun _ => 0) demo 512 = Ret (Some (1024, 1), q1) /\
    nodes (table_cache (table q1)) !! 1024 = Some n /\
    flag (be64_at (entries n) 1 .& QCOW2_OFLAGS_MASK) QCOW2_OFLAG_COPIED = false /\
    qcow_alloc_clusters sync_ok (fun _ => 0) q1 (cluster_size q1) true = Ret (3072, q'))
    by (do 3 eexists; split; [vm_compute; reflexivity|]; split; [vm_compute; reflexivity|];
        split; vm_compute; reflexivity).
  destruct E as (q1 & n & q' & E1 & E2 & E3 & E4). exists q'.
  apply (proj2 (qcow_write_needs_failed_alloc 0 no_zlib sync_ok (fun _ => 0) demo 512 [1; 2; 3] q' 3072
    ltac:(vm_compute; reflexivity) ltac:(discriminate)) 1024 1 q1 n E1 E2 E3 E4).
Defined.

Lemma demo_rf_ok : rf_ok (fun _ => 0) demo.
Proof.
  constructor.
  - vm_compute. split; congruence.
  - vm_compute. reflexivity.
  - apply (i_fd demo), demo_ok.
  - intros i. assert (E : exists t, table_bytes (refcount_table demo) = t /\ length t = 512%nat /\
      forallb (fun k => (0 <=? be64_at t (Z.of_nat k)) && (be64_at t (Z.of_nat k) <? 2 ^ 40)) (seq 0 64) = true)
      by (eexists; split; [vm_compute; reflexivity|split; [reflexivity|vm_compute; reflexivity]]).
    destruct E as (t & -> & Lt & Ht). rewrite forallb_forall in Ht.
    replace (cluster_size demo) with 512 by (vm_compute; reflexivity).
    destruct (Nat.ltb_spec (Z.to_nat i) 64) as [Hi|Hi].
    + specialize (Ht (Z.to_nat i) ltac:(apply in_seq; lia)). breflect.
      unfold be64_at in *. rewrite Nat2Z.id in *. lia.
    + assert (Es : slice (8 * Z.to_nat i) 8 t = [])
        by (unfold slice; rewrite drop_ge by lia; apply take_nil).
      unfold be64_at. rewrite Es. vm_compute. split; congruence.
  - assert (Ec : table_cache (refcount_table demo) = cache_init) by (vm_compute; reflexivity).
    rewrite Ec. apply cache_ok_init.
  - intros o n Hn. assert (En : nodes (table_cache (refcount_table demo)) = ∅) by (vm_compute; reflexivity).
    rewrite En, lookup_empty in Hn. discriminate.
Qed.

Lemma qcow_alloc_first_fit_witness :
  exists a q', qcow_alloc_clusters sync_ok (fun _ => 0) demo 512 false = Ret (a, q') /\
    scans_to (fun _ => 0) demo q'.
Proof.
  destruct (qcow_alloc_first_fit sync_ok (fun _ => 0) demo 512 demo_rf_ok (i_bytes demo (proj1 demo_ok)))
    as (a & q' & E & Hs & _).
  - apply byte_ok_check. vm_compute. reflexivity.
  - vm_compute. congruence.
  - vm_compute. congruence.
  - vm_compute. reflexivity.
  - vm_compute. reflexivity.
  - exists a, q'. split; [exact E|exact Hs].
Defined.
