(* ===== verification/HostMem.v ===== *)
(** * Host memory and scatter/gather vectors

    The part of the monitor's address space that guest RAM is mapped into, as
    a finite map from host addresses to bytes: an access to an address that is
    not in the map is undefined behaviour. Then the vectors of buffers that the
    virtio devices and the network stack copy through ([util/iovec.c]). A
    vector array is a list; the loops that walk it have no end test, so the end
    of the list is a read past the array. *)
From S2P Require Import Prelude.

(** ** Loads and stores *)

Abbreviation hmem := (gmap Z Z).

(** Reading the bytes at a list of addresses. *)
Fixpoint read_addrs (m : hmem) (l : list Z) : option (list Z) :=
  match l with
  | [] => Some []
  | a :: l =>
      match m !! a, read_addrs m l with
      | Some b, Some bs => Some (b :: bs)
      | _, _ => None
      end
  end.

(** Writing bytes at a list of addresses, one after the other. *)
Fixpoint write_addrs (m : hmem) (l : list Z) (bs : list Z) : option hmem :=
  match l, bs with
  | a :: l, b :: bs =>
      match m !! a with
      | Some _ => write_addrs (<[a := b]> m) l bs
      | None => None
      end
  | _, _ => Some m
  end.

Definition load_bytes (m : hmem) (a : Z) (n : nat) : option (list Z) :=
  read_addrs m (seqZ a (Z.of_nat n)).

Definition store_bytes (m : hmem) (a : Z) (bs : list Z) : option hmem :=
  write_addrs m (seqZ a (Z.of_nat (length bs))) bs.

(** A little-endian field of [n] bytes. *)
Definition load (n : nat) (m : hmem) (a : Z) : out Z :=
  match load_bytes m a n with
  | Some bs => Ret (le_dec bs)
  | None => Ub
  end.

Definition store (n : nat) (m : hmem) (a x : Z) : out hmem :=
  match store_bytes m a (le_enc n x) with
  | Some m' => Ret m'
  | None => Ub
  end.

(** ** Vectors of buffers *)

(** [struct iovec] of [sys/uio.h]. *)
Record iovec := mkiov { iov_base : Z; iov_len : Z }.

(** [memcpy(base, kdata, copy)], from a buffer of the monitor. *)
Definition copy_out (m : hmem) (base : Z) (kdata : list Z) (copy : Z) : out hmem :=
  if Z.of_nat (length kdata) <? copy then Ub
  else match store_bytes m base (take (Z.to_nat copy) kdata) with
       | Some m' => Ret m'
       | None => Ub
       end.

(** [memcpy(kdata, base, copy)]: the bytes that arrive. *)
Definition copy_in (m : hmem) (base copy : Z) : out (list Z) :=
  match load_bytes m base (Z.to_nat copy) with
  | Some bs => Ret bs
  | None => Ub
  end.

(** [memcpy_toiovec] also advances the vectors it has filled. *)
Fixpoint memcpy_toiovec (m : hmem) (iov : list iovec) (kdata : list Z) (len : Z)
  : out (hmem * list iovec) :=
  if 0 <? len then
    match iov with
    | [] => Ub
    | v :: iov =>
        if negb (iov_len v =? 0) then
          let copy := Z.min (u32 (iov_len v)) (u32 len) in
          let! m := copy_out m (iov_base v) kdata copy in
          let! (m, rest) :=
            memcpy_toiovec m iov (drop (Z.to_nat copy) kdata) (len - copy) in
          Ret (m, mkiov (iov_base v + copy) (iov_len v - copy) :: rest)
        else
          let! (m, rest) := memcpy_toiovec m iov kdata len in
          Ret (m, v :: rest)
    end
  else Ret (m, iov).

Fixpoint memcpy_toiovecend (m : hmem) (iov : list iovec) (kdata : list Z)
  (offset len : Z) : out hmem :=
  if 0 <? len then
    match iov with
    | [] => Ub
    | v :: iov =>
        if iov_len v <=? offset then
          memcpy_toiovecend m iov kdata (offset - iov_len v) len
        else
          let copy := Z.min (u32 (iov_len v - offset)) (u32 len) in
          let! m := copy_out m (iov_base v + offset) kdata copy in
          memcpy_toiovecend m iov (drop (Z.to_nat copy) kdata) 0 (len - copy)
    end
  else Ret m.

(** The bytes copied, and the advanced vectors. *)
Fixpoint memcpy_fromiovec (m : hmem) (iov : list iovec) (len : Z)
  : out (list Z * list iovec) :=
  if 0 <? len then
    match iov with
    | [] => Ub
    | v :: iov =>
        if negb (iov_len v =? 0) then
          let copy := Z.min (u32 len) (u32 (iov_len v)) in
          let! bs := copy_in m (iov_base v) copy in
          let! (bs', rest) := memcpy_fromiovec m iov (len - copy) in
          Ret (bs ++ bs', mkiov (iov_base v + copy) (iov_len v - copy) :: rest)
        else
          let! (bs', rest) := memcpy_fromiovec m iov len in
          Ret (bs', v :: rest)
    end
  else Ret ([], iov).

(** The first loop of [memcpy_fromiovecend]: skip the finished vectors. *)
Fixpoint skip_iov (iov : list iovec) (offset : Z) : out (list iovec * Z) :=
  match iov with
  | [] => Ub
  | v :: iov' =>
      if iov_len v <=? offset then skip_iov iov' (offset - iov_len v)
      else Ret (iov, offset)
  end.

Fixpoint from_loop (m : hmem) (iov : list iovec) (offset len : Z) : out (list Z) :=
  if 0 <? len then
    match iov with
    | [] => Ub
    | v :: iov =>
        let copy := Z.min (u32 len) (u32 (iov_len v - offset)) in
        let! bs := copy_in m (iov_base v + offset) copy in
        let! bs' := from_loop m iov 0 (len - copy) in
        Ret (bs ++ bs')
    end
  else Ret [].

Definition memcpy_fromiovecend (m : hmem) (iov : list iovec) (offset len : Z)
  : out (list Z) :=
  let! (iov, offset) := skip_iov iov offset in
  from_loop m iov offset len.

(** ** Facts about reads and writes *)

Definition mapped (m : hmem) (l : list Z) : Prop := Forall (fun a => is_Some (m !! a)) l.

Lemma read_addrs_app m l1 l2 :
  read_addrs m (l1 ++ l2) =
  match read_addrs m l1, read_addrs m l2 with
  | Some a, Some b => Some (a ++ b)
  | _, _ => None
  end.
Proof.
  induction l1 as [|a l1 IH]; cbn.
  - now destruct (read_addrs m l2).
  - rewrite IH. destruct (m !! a), (read_addrs m l1), (read_addrs m l2); reflexivity.
Qed.

Lemma write_addrs_app m l1 l2 b1 b2 :
  length l1 = length b1 ->
  write_addrs m (l1 ++ l2) (b1 ++ b2) =
  match write_addrs m l1 b1 with Some m' => write_addrs m' l2 b2 | None => None end.
Proof.
  revert m b1. induction l1 as [|a l1 IH]; intros m [|b b1] H; try discriminate H; cbn; [reflexivity|].
  destruct (m !! a); [|reflexivity]. apply IH. now injection H.
Qed.

Lemma read_addrs_length m l bs : read_addrs m l = Some bs -> length bs = length l.
Proof.
  revert bs. induction l as [|a l IH]; intros bs; cbn.
  - now intros [= <-].
  - destruct (m !! a); [|discriminate]. destruct (read_addrs m l); [|discriminate].
    intros [= <-]. cbn. now rewrite (IH _ eq_refl).
Qed.

Lemma read_addrs_take m l bs n : read_addrs m l = Some bs -> read_addrs m (take n l) = Some (take n bs).
Proof.
  revert bs n. induction l as [|a l IH]; intros bs n; [intros [= <-]; now rewrite take_nil|]. cbn [read_addrs].
  destruct (m !! a) as [b|] eqn:E; [|discriminate]. destruct (read_addrs m l) as [bs'|]; [|discriminate]. intros [= <-].
  destruct n as [|n]; [reflexivity|]. cbn [firstn read_addrs]. now rewrite E, (IH bs' n eq_refl).
Qed.

Lemma read_addrs_some m l bs : read_addrs m l = Some bs -> mapped m l.
Proof.
  revert bs. induction l as [|a l IH]; intros bs; [constructor|]. cbn [read_addrs].
  destruct (m !! a) as [b|] eqn:E; [|discriminate]. destruct (read_addrs m l) as [bs'|]; [|discriminate]. intros _.
  constructor; [now exists b|now apply (IH bs')].
Qed.

Lemma read_addrs_mapped m l : mapped m l -> is_Some (read_addrs m l).
Proof.
  induction 1 as [|a l [b Hb] _ [bs IH]]; cbn; [eauto|]. rewrite Hb, IH. eauto.
Qed.

(** Reading depends only on the addresses read. *)
Lemma read_addrs_ext m m' l :
  (forall a, a ∈ l -> m' !! a = m !! a) -> read_addrs m' l = read_addrs m l.
Proof.
  induction l as [|a l IH]; intros H; [reflexivity|]. cbn.
  rewrite (H a) by constructor. rewrite IH; [reflexivity|].
  intros b Hb. apply H. now constructor.
Qed.

Lemma write_addrs_other m l bs m' a :
  write_addrs m l bs = Some m' -> a ∉ l -> m' !! a = m !! a.
Proof.
  revert m bs. induction l as [|x l IH]; intros m [|b bs]; cbn; try (intros [= <-]; reflexivity).
  destruct (m !! x); [|discriminate]. intros H N. apply not_elem_of_cons in N. destruct N as [N1 N2].
  rewrite (IH _ _ H N2). now apply lookup_insert_ne.
Qed.

Lemma write_addrs_dom m l bs m' a :
  write_addrs m l bs = Some m' -> is_Some (m' !! a) <-> is_Some (m !! a).
Proof.
  revert m bs. induction l as [|x l IH]; intros m [|b bs]; cbn; try (intros [= <-]; reflexivity).
  destruct (m !! x) eqn:E; [|discriminate]. intros H. rewrite (IH _ _ H).
  destruct (decide (x = a)) as [->|N].
  - rewrite lookup_insert_eq, E. split; eauto.
  - now rewrite lookup_insert_ne.
Qed.

Lemma write_addrs_mapped m l bs : mapped m l -> is_Some (write_addrs m l bs).
Proof.
  revert m bs. induction l as [|x l IH]; intros m [|b bs] H; cbn; eauto.
  apply Forall_cons in H. destruct H as [[c Hc] H]. rewrite Hc. apply IH.
  eapply Forall_impl; [exact H|]. intros a [y Hy]. cbv beta.
  destruct (decide (x = a)) as [->|N]; [rewrite lookup_insert_eq; eauto|].
  rewrite lookup_insert_ne by exact N. eauto.
Qed.

Lemma mapped_write m l bs m' l' :
  write_addrs m l bs = Some m' -> mapped m' l' <-> mapped m l'.
Proof.
  intros H. unfold mapped. rewrite !Forall_forall. split; intros M a Ha;
    now apply (write_addrs_dom _ _ _ _ a H), M.
Qed.

(** What was written is read back. *)
Lemma read_write_same m l bs m' :
  NoDup l -> length l = length bs -> write_addrs m l bs = Some m' -> read_addrs m' l = Some bs.
Proof.
  intros N. revert m bs. induction N as [|x l Hx N IH]; intros m [|b bs] L; try discriminate L.
  - reflexivity.
  - cbn. destruct (m !! x); [|discriminate]. intros H. injection L as L.
    rewrite (write_addrs_other _ _ _ _ x H Hx), lookup_insert_eq.
    now rewrite (IH _ _ L H).
Qed.

Lemma read_write_other m l bs m' l' :
  write_addrs m l bs = Some m' -> l ## l' -> read_addrs m' l' = read_addrs m l'.
Proof.
  intros H D. apply read_addrs_ext. intros a Ha. apply (write_addrs_other _ _ _ _ _ H).
  intros C. now apply (D a).
Qed.

(** ** Loads and stores of fields *)

Lemma elem_of_seqZ' a n x : x ∈ seqZ a (Z.of_nat n) <-> a <= x < a + Z.of_nat n.
Proof. apply elem_of_seqZ. Qed.

Lemma store_bytes_load m a bs m' :
  store_bytes m a bs = Some m' -> load_bytes m' a (length bs) = Some bs.
Proof.
  intros H. eapply read_write_same; [apply NoDup_seqZ| |exact H].
  rewrite length_seqZ. lia.
Qed.

Lemma store_ret n m a x m' :
  store n m a x = Ret m' -> store_bytes m a (le_enc n x) = Some m'.
Proof. unfold store. destruct (store_bytes _ _ _); congruence. Qed.

Lemma load_store_same n m a x m' :
  store n m a x = Ret m' -> load n m' a = Ret (wrap (8 * Z.of_nat n) x).
Proof.
  intros H. apply store_ret, store_bytes_load in H. rewrite length_le_enc in H.
  unfold load. now rewrite H, le_dec_enc.
Qed.

(** A field outside the bytes stored keeps its value. *)
Lemma load_store_other n n' m a a' x m' :
  store n m a x = Ret m' -> a + Z.of_nat n <= a' \/ a' + Z.of_nat n' <= a ->
  load n' m' a' = load n' m a'.
Proof.
  intros H D. apply store_ret in H. unfold load, load_bytes.
  erewrite read_write_other; [reflexivity|exact H|].
  rewrite length_le_enc. intros y Hy Hy'. apply elem_of_seqZ' in Hy, Hy'. lia.
Qed.

(** The [n] bytes at [a] are mapped. *)
Definition field (m : hmem) (n : nat) (a : Z) : Prop := mapped m (seqZ a (Z.of_nat n)).

Lemma store_field n m a x : field m n a -> exists m', store n m a x = Ret m'.
Proof.
  intros H. destruct (write_addrs_mapped m (seqZ a (Z.of_nat n)) (le_enc n x) H) as [m' E].
  exists m'. unfold store, store_bytes. now rewrite length_le_enc, E.
Qed.

Lemma load_field n m a : field m n a -> exists x, load n m a = Ret x.
Proof.
  intros H. destruct (read_addrs_mapped _ _ H) as [bs E].
  exists (le_dec bs). unfold load, load_bytes. now rewrite E.
Qed.

Lemma field_store n m a x m' k b :
  store n m a x = Ret m' -> field m' k b <-> field m k b.
Proof. intros H. apply store_ret in H. exact (mapped_write _ _ _ _ _ H). Qed.

Lemma field_sub m n a k b :
  field m n a -> a <= b -> b + Z.of_nat k <= a + Z.of_nat n -> field m k b.
Proof.
  unfold field, mapped. rewrite !Forall_forall. intros H A B x Hx. apply H.
  apply elem_of_seqZ' in Hx. apply elem_of_seqZ'. lia.
Qed.

Lemma seqZ_1 a : seqZ a (Z.of_nat 1) = [a].
Proof. unfold seqZ. cbn. f_equal. Qed.

Lemma field_1 m a : field m 1 a <-> is_Some (m !! a).
Proof. unfold field. rewrite seqZ_1. unfold mapped. now rewrite Forall_singleton. Qed.

Lemma store_1 m a x :
  store 1 m a x = match m !! a with Some _ => Ret (<[a := u8 x]> m) | None => Ub end.
Proof.
  unfold store, store_bytes. rewrite length_le_enc, seqZ_1. cbn. now destruct (m !! a).
Qed.

Definition mem_ok (m : hmem) : Prop := forall a b, m !! a = Some b -> fits 8 b.

Lemma read_addrs_bytes m l bs : mem_ok m -> read_addrs m l = Some bs -> byte_ok bs.
Proof.
  intros M. revert bs. induction l as [|a l IH]; intros bs; cbn; [intros [= <-]; constructor|].
  destruct (m !! a) eqn:E; [|discriminate]. destruct (read_addrs m l); [|discriminate].
  intros [= <-]. constructor; [exact (M _ _ E)|]. now apply IH.
Qed.

Lemma mem_ok_write m l bs m' : mem_ok m -> byte_ok bs -> write_addrs m l bs = Some m' -> mem_ok m'.
Proof.
  revert m bs. induction l as [|x l IH]; intros m [|b bs] M B; cbn; try (intros [= <-]; exact M).
  destruct (m !! x); [|discriminate]. intros H. apply Forall_cons in B. destruct B as [B1 B].
  eapply IH; [|exact B|exact H]. intros a c. destruct (decide (x = a)) as [->|N].
  - rewrite lookup_insert_eq. now intros [= <-].
  - rewrite lookup_insert_ne by exact N. apply M.
Qed.

Lemma mem_ok_store n m a x m' : mem_ok m -> store n m a x = Ret m' -> mem_ok m'.
Proof.
  intros M H. apply store_ret in H. exact (mem_ok_write _ _ _ _ M (le_enc_bytes n x) H).
Qed.

Lemma load_fits n m a x : mem_ok m -> load n m a = Ret x -> fits (8 * Z.of_nat n) x.
Proof.
  intros M. unfold load. destruct (load_bytes m a n) as [bs|] eqn:E; [|discriminate].
  intros [= <-]. pose proof (read_addrs_bytes _ _ _ M E) as B.
  pose proof (read_addrs_length _ _ _ E) as L. rewrite length_seqZ in L.
  replace (Z.of_nat n) with (Z.of_nat (length bs)) by lia. now apply le_dec_fits.
Qed.

(** ** The copies refine reads and writes of the vector's addresses *)

Definition iov_addrs (iov : list iovec) : list Z :=
  flat_map (fun v => seqZ (iov_base v) (iov_len v)) iov.

(** Lengths that a 32-bit descriptor field can hold. *)
Definition iov_wf (iov : list iovec) : Prop := Forall (fun v => fits 32 (iov_len v)) iov.

Lemma take_seqZ_app b n len l :
  0 <= n -> 0 <= len ->
  take (Z.to_nat len) (seqZ b n ++ l) =
  seqZ b (Z.min n len) ++ take (Z.to_nat (len - Z.min n len)) l.
Proof.
  intros Hn Hl. destruct (Z.le_ge_cases n len).
  - rewrite Z.min_l by lia. rewrite take_app_ge by (rewrite length_seqZ; lia).
    rewrite length_seqZ. do 2 f_equal. lia.
  - rewrite Z.min_r by lia. rewrite Z.sub_diag. cbn. rewrite app_nil_r.
    replace n with (len + (n - len)) at 1 by lia. rewrite seqZ_app by lia.
    rewrite <- app_assoc, take_app_length' by (rewrite length_seqZ; lia). reflexivity.
Qed.

Lemma drop_seqZ_app b n off l :
  0 <= off <= n -> drop (Z.to_nat off) (seqZ b n ++ l) = seqZ (b + off) (n - off) ++ l.
Proof.
  intros H. replace n with (off + (n - off)) at 1 by lia. rewrite seqZ_app by lia.
  rewrite <- app_assoc, drop_app_length' by (rewrite length_seqZ; lia). reflexivity.
Qed.

Lemma copy_out_write m base kdata copy :
  0 <= copy <= Z.of_nat (length kdata) ->
  copy_out m base kdata copy =
  match write_addrs m (seqZ base copy) (take (Z.to_nat copy) kdata) with
  | Some m' => Ret m' | None => Ub end.
Proof.
  intros H. unfold copy_out, store_bytes. replace (_ <? copy) with false by lia.
  now replace (Z.of_nat (length (take (Z.to_nat copy) kdata))) with copy by (rewrite length_take; lia).
Qed.

Lemma copy_in_read m base copy :
  0 <= copy ->
  copy_in m base copy =
  match read_addrs m (seqZ base copy) with Some bs => Ret bs | None => Ub end.
Proof. intros H. unfold copy_in, load_bytes. now rewrite Z2Nat.id. Qed.

Definition write_all (m : hmem) (l bs : list Z) : out hmem :=
  match write_addrs m l bs with Some m' => Ret m' | None => Ub end.

Definition read_all (m : hmem) (l : list Z) : out (list Z) :=
  match read_addrs m l with Some bs => Ret bs | None => Ub end.

Lemma write_all_app m l1 l2 b1 b2 :
  length l1 = length b1 ->
  write_all m (l1 ++ l2) (b1 ++ b2) = let! m := write_all m l1 b1 in write_all m l2 b2.
Proof.
  intros H. unfold write_all. rewrite write_addrs_app by exact H.
  now destruct (write_addrs m l1 b1).
Qed.

Lemma read_all_app m l1 l2 :
  read_all m (l1 ++ l2) =
  let! a := read_all m l1 in let! b := read_all m l2 in Ret (a ++ b).
Proof.
  unfold read_all. rewrite read_addrs_app.
  now destruct (read_addrs m l1), (read_addrs m l2).
Qed.

Lemma u32_small x : fits 32 x -> u32 x = x.
Proof. apply wrap_id. Qed.

(** One step of each copy: [copy] bytes at the front of the addresses. *)
Lemma copy_step b n len (l kdata : list Z) :
  0 <= n -> 0 <= len <= Z.of_nat (length kdata) ->
  let copy := Z.min n len in
  take (Z.to_nat len) (seqZ b n ++ l) = seqZ b copy ++ take (Z.to_nat (len - copy)) l /\
  take (Z.to_nat len) kdata =
    take (Z.to_nat copy) kdata ++ take (Z.to_nat (len - copy)) (drop (Z.to_nat copy) kdata) /\
  length (seqZ b copy) = length (take (Z.to_nat copy) kdata).
Proof.
  intros Hn Hl copy. repeat split.
  - now apply take_seqZ_app.
  - rewrite take_take_drop. f_equal. lia.
  - rewrite length_seqZ, length_take. lia.
Qed.

Lemma toiovecend_spec m iov kdata offset len :
  iov_wf iov -> 0 <= offset -> 0 <= len < 2 ^ 31 -> len <= Z.of_nat (length kdata) ->
  offset + len <= Z.of_nat (length (iov_addrs iov)) \/ len = 0 ->
  memcpy_toiovecend m iov kdata offset len =
  write_all m (take (Z.to_nat len) (drop (Z.to_nat offset) (iov_addrs iov)))
    (take (Z.to_nat len) kdata).
Proof.
  intros W. revert m kdata offset len. induction W as [|v iov Hv W IH]; intros m kdata offset len Ho Hl Hk Ht.
  - assert (len = 0) as -> by (cbn in Ht; lia). reflexivity.
  - cbn [memcpy_toiovecend iov_addrs flat_map] in *. fold (iov_addrs iov) in *.
    rewrite length_app, length_seqZ in Ht. destruct (Z.ltb_spec 0 len) as [P|P].
    2:{ replace len with 0 by lia. reflexivity. }
    cbv beta in Hv. destruct (Z.leb_spec (iov_len v) offset) as [S|S].
    + rewrite IH by (unfold fits in Hv; lia). f_equal. f_equal.
      rewrite drop_app_ge by (rewrite length_seqZ; lia). f_equal. rewrite length_seqZ.
      unfold fits in Hv. lia.
    + rewrite drop_seqZ_app by lia. unfold fits in Hv.
      rewrite !u32_small by (unfold fits; lia).
      destruct (copy_step (iov_base v + offset) (iov_len v - offset) len (iov_addrs iov) kdata)
        as (E1 & E2 & E3); [lia|lia|].
      rewrite E1, E2, write_all_app by exact E3.
      rewrite copy_out_write by lia. fold (write_all m (seqZ (iov_base v + offset) (Z.min (iov_len v - offset) len))
        (take (Z.to_nat (Z.min (iov_len v - offset) len)) kdata)).
      destruct (write_all m _ _) as [m1| |]; [|reflexivity..].
      rewrite IH; [now rewrite drop_0|lia|lia|rewrite length_drop; lia|lia].
Qed.

Lemma toiovecend_short m iov kdata offset len :
  iov_wf iov -> 0 <= offset -> 0 < len < 2 ^ 31 ->
  Z.of_nat (length (iov_addrs iov)) < offset + len ->
  memcpy_toiovecend m iov kdata offset len = Ub.
Proof.
  intros W. revert m kdata offset len. induction W as [|v iov Hv W IH]; intros m kdata offset len Ho Hl Ht;
    cbn [memcpy_toiovecend iov_addrs flat_map] in *; replace (0 <? len) with true by lia; [reflexivity|].
  fold (iov_addrs iov) in *. rewrite length_app, length_seqZ in Ht.
  cbv beta in Hv. unfold fits in Hv. destruct (Z.leb_spec (iov_len v) offset) as [S|S].
  - apply IH; lia.
  - rewrite !u32_small by (unfold fits; lia).
    destruct (copy_out _ _ _ _) as [m1| |] eqn:E; [|reflexivity|].
    + apply IH; lia.
    + unfold copy_out in E. case_match; [discriminate|]. case_match; discriminate.
Qed.

(** The vectors after [len] bytes went through them. *)
Fixpoint advance_iov (iov : list iovec) (len : Z) : list iovec :=
  if 0 <? len then
    match iov with
    | [] => []
    | v :: iov =>
        let copy := Z.min (iov_len v) len in
        mkiov (iov_base v + copy) (iov_len v - copy) :: advance_iov iov (len - copy)
    end
  else iov.

Lemma advance_iov_addrs iov len :
  iov_wf iov -> 0 <= len -> iov_addrs (advance_iov iov len) = drop (Z.to_nat len) (iov_addrs iov).
Proof.
  intros W. revert len. induction W as [|v iov Hv W IH]; intros len Hl.
  - cbn. rewrite drop_nil. now destruct (0 <? len).
  - cbn [advance_iov]. destruct (Z.ltb_spec 0 len) as [P|P].
    2:{ now replace len with 0 by lia. }
    cbv beta in Hv. unfold fits in Hv. cbn [iov_addrs flat_map iov_base iov_len].
    fold (iov_addrs (advance_iov iov (len - Z.min (iov_len v) len))) (iov_addrs iov).
    rewrite IH by lia. destruct (Z.le_ge_cases (iov_len v) len).
    + rewrite Z.min_l by lia. rewrite drop_app_ge by (rewrite length_seqZ; lia).
      rewrite length_seqZ, Z.sub_diag. change (seqZ _ 0) with (@nil Z). cbn [app]. f_equal. lia.
    + rewrite Z.min_r, Z.sub_diag by lia. rewrite drop_seqZ_app by lia. reflexivity.
Qed.

Lemma mkiov_0 v : iov_len v = 0 -> mkiov (iov_base v + 0) 0 = v.
Proof. destruct v as [b l]. cbn. intros ->. f_equal. lia. Qed.

Lemma toiovec_spec m iov kdata len :
  iov_wf iov -> 0 <= len < 2 ^ 31 -> len <= Z.of_nat (length kdata) ->
  len <= Z.of_nat (length (iov_addrs iov)) ->
  memcpy_toiovec m iov kdata len =
  let! m := write_all m (take (Z.to_nat len) (iov_addrs iov)) (take (Z.to_nat len) kdata) in
  Ret (m, advance_iov iov len).
Proof.
  intros W. revert m kdata len. induction W as [|v iov Hv W IH]; intros m kdata len Hl Hk Ht.
  - assert (len = 0) as -> by (cbn in Ht; lia). reflexivity.
  - cbn [memcpy_toiovec advance_iov iov_addrs flat_map] in *. fold (iov_addrs iov) in *.
    rewrite length_app, length_seqZ in Ht. destruct (Z.ltb_spec 0 len) as [P|P].
    2:{ replace len with 0 by lia. reflexivity. }
    cbv beta in Hv. unfold fits in Hv. destruct (Z.eqb_spec (iov_len v) 0) as [E0|E0]; cbn [negb].
    + rewrite E0. cbn [seqZ app]. rewrite IH by lia. rewrite Z.min_l, !Z.sub_0_r by lia.
      change (seqZ (iov_base v) 0) with (@nil Z). rewrite mkiov_0 by exact E0. cbn [app].
      now destruct (write_all _ _ _).
    + rewrite !u32_small by (unfold fits; lia).
      destruct (copy_step (iov_base v) (iov_len v) len (iov_addrs iov) kdata)
        as (E1 & E2 & E3); [lia|lia|].
      rewrite E1, E2, write_all_app by exact E3. rewrite copy_out_write by lia.
      set (copy := Z.min (iov_len v) len) in *.
      fold (write_all m (seqZ (iov_base v) copy) (take (Z.to_nat copy) kdata)).
      destruct (write_all m _ _) as [m1| |]; [|reflexivity..].
      rewrite IH; [now destruct (write_all _ _ _)|lia|rewrite length_drop; lia|lia].
Qed.

Lemma fromiovec_spec m iov len :
  iov_wf iov -> 0 <= len < 2 ^ 31 -> len <= Z.of_nat (length (iov_addrs iov)) ->
  memcpy_fromiovec m iov len =
  let! bs := read_all m (take (Z.to_nat len) (iov_addrs iov)) in Ret (bs, advance_iov iov len).
Proof.
  intros W. revert len. induction W as [|v iov Hv W IH]; intros len Hl Ht.
  - assert (len = 0) as -> by (cbn in Ht; lia). reflexivity.
  - cbn [memcpy_fromiovec advance_iov iov_addrs flat_map] in *. fold (iov_addrs iov) in *.
    rewrite length_app, length_seqZ in Ht. destruct (Z.ltb_spec 0 len) as [P|P].
    2:{ replace len with 0 by lia. reflexivity. }
    cbv beta in Hv. unfold fits in Hv. destruct (Z.eqb_spec (iov_len v) 0) as [E0|E0]; cbn [negb].
    + rewrite E0, IH by lia. rewrite Z.min_l, !Z.sub_0_r by lia.
      change (seqZ (iov_base v) 0) with (@nil Z). rewrite mkiov_0 by exact E0. cbn [app].
      now destruct (read_all _ _).
    + rewrite !u32_small by (unfold fits; lia). rewrite (Z.min_comm len).
      rewrite take_seqZ_app, read_all_app, copy_in_read by lia.
      set (copy := Z.min (iov_len v) len) in *. fold (read_all m (seqZ (iov_base v) copy)).
      destruct (read_all m (seqZ _ _)) as [b1| |]; [|reflexivity..].
      rewrite IH by lia. now destruct (read_all _ _).
Qed.

Lemma from_loop_cons m v iov offset len :
  fits 32 (iov_len v) -> 0 <= offset <= iov_len v -> 0 < len < 2 ^ 31 ->
  let copy := Z.min (iov_len v - offset) len in
  from_loop m (v :: iov) offset len =
  let! bs := read_all m (seqZ (iov_base v + offset) copy) in
  let! bs' := from_loop m iov 0 (len - copy) in Ret (bs ++ bs').
Proof.
  intros Hv Ho Hl copy. unfold fits in Hv. cbn [from_loop]. replace (0 <? len) with true by lia.
  rewrite !u32_small by (unfold fits; lia). rewrite (Z.min_comm len). fold copy.
  now rewrite copy_in_read by lia.
Qed.

Lemma from_loop_0 m iov len :
  iov_wf iov -> 0 <= len < 2 ^ 31 -> len <= Z.of_nat (length (iov_addrs iov)) ->
  from_loop m iov 0 len = read_all m (take (Z.to_nat len) (iov_addrs iov)).
Proof.
  intros W. revert len. induction W as [|v iov Hv W IH]; intros len Hl Ht.
  - now assert (len = 0) as -> by (cbn in Ht; lia).
  - destruct (Z.ltb_spec 0 len) as [P|P].
    2:{ now replace len with 0 by lia. }
    cbv beta in Hv. pose proof Hv as [Hv' _]. cbn [iov_addrs flat_map] in *. fold (iov_addrs iov) in *.
    rewrite length_app, length_seqZ in Ht.
    rewrite from_loop_cons, take_seqZ_app, read_all_app, Z.add_0_r, Z.sub_0_r by first [exact Hv|lia].
    destruct (read_all m (seqZ _ _)); [|reflexivity..]. now rewrite IH by lia.
Qed.

Lemma from_loop_spec m v iov offset len :
  iov_wf (v :: iov) -> 0 <= offset < iov_len v -> 0 <= len < 2 ^ 31 ->
  offset + len <= Z.of_nat (length (iov_addrs (v :: iov))) ->
  from_loop m (v :: iov) offset len =
  read_all m (take (Z.to_nat len) (drop (Z.to_nat offset) (iov_addrs (v :: iov)))).
Proof.
  intros W Ho Hl Ht. apply Forall_cons in W. destruct W as [Hv W].
  destruct (Z.ltb_spec 0 len) as [P|P].
  2:{ now replace len with 0 by lia. }
  cbn [iov_addrs flat_map] in *. fold (iov_addrs iov) in *. rewrite length_app, length_seqZ in Ht.
  rewrite from_loop_cons, drop_seqZ_app, take_seqZ_app, read_all_app by first [exact Hv|lia].
  destruct (read_all m (seqZ _ _)); [|reflexivity..].
  now rewrite from_loop_0 by first [exact W|lia].
Qed.

Lemma iov_addrs_cons v iov : iov_addrs (v :: iov) = seqZ (iov_base v) (iov_len v) ++ iov_addrs iov.
Proof. reflexivity. Qed.

Lemma skip_iov_spec iov offset :
  iov_wf iov -> 0 <= offset ->
  if Z.of_nat (length (iov_addrs iov)) <=? offset then skip_iov iov offset = Ub
  else exists v iov' offset', skip_iov iov offset = Ret (v :: iov', offset') /\
    0 <= offset' < iov_len v /\ iov_wf (v :: iov') /\
    drop (Z.to_nat offset') (iov_addrs (v :: iov')) = drop (Z.to_nat offset) (iov_addrs iov).
Proof.
  intros W. revert offset. induction W as [|v iov Hv W IH]; intros offset Ho; cbn [skip_iov].
  - now destruct offset; try lia.
  - rewrite iov_addrs_cons, length_app, length_seqZ. cbv beta in Hv. unfold fits in Hv.
    destruct (Z.leb_spec (iov_len v) offset) as [S|S].
    + specialize (IH (offset - iov_len v) ltac:(lia)).
      replace (Z.of_nat (Z.to_nat (iov_len v) + length (iov_addrs iov)) <=? offset)
        with (Z.of_nat (length (iov_addrs iov)) <=? offset - iov_len v)
        by (apply Bool.eq_iff_eq_true; rewrite !Z.leb_le; lia).
      destruct (Z.leb_spec (Z.of_nat (length (iov_addrs iov))) (offset - iov_len v)); [exact IH|].
      destruct IH as (w & iov' & o & A & B & C & D). exists w, iov', o.
      repeat split; try assumption; try lia. rewrite D, drop_app_ge by (rewrite length_seqZ; lia).
      f_equal. rewrite length_seqZ. lia.
    + rewrite (proj2 (Z.leb_gt _ offset)) by lia. exists v, iov, offset.
      rewrite iov_addrs_cons. repeat split; try lia. now constructor.
Qed.

(** Copying through a vector of buffers is reading or writing the bytes
    at the addresses that the vector lists: [memcpy_toiovec] and
    [memcpy_toiovecend] write exactly the first [len] of them (after [offset]),
    in order, and [memcpy_fromiovec] and [memcpy_fromiovecend] read them; the
    in-place variants leave the vectors advanced past what was copied, so the
    next call goes on after it. Where the buffers do not overlap, the bytes
    written are the bytes read back. A request that is longer than the vector
    runs off its end, an empty one included in [memcpy_fromiovecend]. *)
Theorem iovec_copies m iov kdata offset len :
  iov_wf iov -> 0 <= offset -> 0 <= len < 2 ^ 31 -> len <= Z.of_nat (length kdata) ->
  let addrs := iov_addrs iov in
  let total := Z.of_nat (length addrs) in
  let data := take (Z.to_nat len) kdata in
  (len <= total ->
   iov_addrs (advance_iov iov len) = drop (Z.to_nat len) addrs /\
   memcpy_toiovec m iov kdata len =
     (let! m := write_all m (take (Z.to_nat len) addrs) data in Ret (m, advance_iov iov len)) /\
   memcpy_fromiovec m iov len =
     (let! bs := read_all m (take (Z.to_nat len) addrs) in Ret (bs, advance_iov iov len))) /\
  (offset + len <= total ->
   memcpy_toiovecend m iov kdata offset len =
     write_all m (take (Z.to_nat len) (drop (Z.to_nat offset) addrs)) data /\
   (offset < total ->
    memcpy_fromiovecend m iov offset len =
      read_all m (take (Z.to_nat len) (drop (Z.to_nat offset) addrs)) /\
    (NoDup addrs -> mapped m addrs ->
     exists m', memcpy_toiovecend m iov kdata offset len = Ret m' /\
       memcpy_fromiovecend m' iov offset len = Ret data))) /\
  (total < offset + len -> 0 < len -> memcpy_toiovecend m iov kdata offset len = Ub) /\
  (total <= offset -> memcpy_fromiovecend m iov offset len = Ub).
Proof.
  intros W Ho Hl Hk addrs total data.
  assert (From : forall m, offset < total -> offset + len <= total ->
    memcpy_fromiovecend m iov offset len =
    read_all m (take (Z.to_nat len) (drop (Z.to_nat offset) addrs))).
  { intros m1 H1 H2. unfold memcpy_fromiovecend. pose proof (skip_iov_spec iov offset W Ho) as S.
    fold addrs total in S. replace (total <=? offset) with false in S by lia.
    destruct S as (v & iov' & o & -> & B & C & D). rewrite from_loop_spec; try assumption.
    - now rewrite D.
    - apply (f_equal length) in D. rewrite !length_drop in D. fold addrs in D. lia. }
  split; [intros H; repeat split|split; [intros H; split|split]].
  - apply advance_iov_addrs; [exact W|lia].
  - now apply toiovec_spec.
  - now apply fromiovec_spec.
  - apply toiovecend_spec; auto.
  - intros H'. split; [now apply From|]. intros N M.
    set (l := take (Z.to_nat len) (drop (Z.to_nat offset) addrs)).
    destruct (write_addrs_mapped m l data) as [m' E]; [now apply Forall_take, Forall_drop|].
    exists m'. split.
    + rewrite toiovecend_spec by auto. unfold write_all. fold addrs l data. now rewrite E.
    + rewrite From by assumption. unfold read_all. fold l.
      rewrite (read_write_same m l data m'); [reflexivity| | |exact E].
      * eapply sublist_NoDup; [exact N|].
        etransitivity; [apply sublist_take|apply sublist_drop].
      * unfold l, data. rewrite !length_take, length_drop. lia.
  - intros H P. apply toiovecend_short; auto; lia.
  - intros H. unfold memcpy_fromiovecend. pose proof (skip_iov_spec iov offset W Ho) as S.
    fold addrs total in S. replace (total <=? offset) with true in S by lia. now rewrite S.
Qed.

(** A block of memory, and sixteen zero bytes from address 100 on. *)
Definition mem_at (base : Z) (bytes : list Z) : hmem :=
  list_to_map (zip (seqZ base (Z.of_nat (length bytes))) bytes).

Lemma mem_at_ok base bytes : byte_ok bytes -> mem_ok (mem_at base bytes).
Proof.
  intros B a b H. apply elem_of_list_to_map_2, elem_of_zip_r in H.
  unfold byte_ok in B. rewrite Forall_forall in B. now apply B.
Qed.

Lemma mem_at_lookup base bytes a :
  base <= a < base + Z.of_nat (length bytes) ->
  mem_at base bytes !! a = bytes !! Z.to_nat (a - base).
Proof.
  intros H. destruct (lookup_lt_is_Some_2 bytes (Z.to_nat (a - base)) ltac:(lia)) as [b Hb].
  rewrite Hb. unfold mem_at. apply elem_of_list_to_map_1.
  - rewrite fst_zip by (rewrite length_seqZ; lia). apply NoDup_seqZ.
  - apply list_elem_of_lookup. exists (Z.to_nat (a - base)). apply lookup_zip_Some. split; [|exact Hb].
    apply lookup_seqZ. lia.
Qed.

Lemma read_mem_at base bytes n a :
  base <= a -> a + Z.of_nat n <= base + Z.of_nat (length bytes) ->
  read_addrs (mem_at base bytes) (seqZ a (Z.of_nat n)) = Some (slice (Z.to_nat (a - base)) n bytes).
Proof.
  revert a. induction n as [|n IH]; intros a H1 H2; [reflexivity|].
  rewrite seqZ_cons by lia. cbn [read_addrs]. rewrite mem_at_lookup by lia.
  destruct (lookup_lt_is_Some_2 bytes (Z.to_nat (a - base)) ltac:(lia)) as [b Hb]. rewrite Hb.
  replace (Z.pred (Z.of_nat (S n))) with (Z.of_nat n) by lia. rewrite IH by lia. f_equal.
  unfold slice. rewrite (drop_S _ _ _ Hb). cbn. do 3 f_equal. lia.
Qed.

Lemma load_mem_at base bytes n a :
  base <= a -> a + Z.of_nat n <= base + Z.of_nat (length bytes) ->
  load n (mem_at base bytes) a = Ret (le_dec (slice (Z.to_nat (a - base)) n bytes)).
Proof. intros H1 H2. unfold load, load_bytes. now rewrite read_mem_at. Qed.

Lemma mapped_mem_at base bytes a n :
  base <= a -> a + Z.of_nat n <= base + Z.of_nat (length bytes) ->
  mapped (mem_at base bytes) (seqZ a (Z.of_nat n)).
Proof.
  intros H1 H2. apply Forall_forall. intros x Hx. apply elem_of_seqZ' in Hx.
  rewrite mem_at_lookup by lia. apply lookup_lt_is_Some_2. lia.
Qed.

Definition demo_bytes : hmem := mem_at 100 (repeat 0 16).

Lemma iovec_copies_witness :
  let iov := [mkiov 100 2; mkiov 110 0; mkiov 104 3] in
  memcpy_fromiovecend demo_bytes iov 1 3 = Ret [0; 0; 0] /\
  exists m', memcpy_toiovecend demo_bytes iov [7; 8; 9] 1 3 = Ret m' /\
    memcpy_fromiovecend m' iov 1 3 = Ret [7; 8; 9].
Proof.
  intros iov.
  assert (N : NoDup (iov_addrs iov)) by (apply (bool_decide_eq_true_1 _); vm_compute; reflexivity).
  assert (M : mapped demo_bytes (iov_addrs iov)).
  { vm_compute. repeat constructor; eexists; reflexivity. }
  assert (W : iov_wf iov) by (unfold iov, iov_wf; repeat constructor; cbn; lia).
  destruct (iovec_copies demo_bytes iov [7; 8; 9] 1 3 W) as (_ & H & _); [lia..|cbn; lia|].
  destruct H as [_ H]; [vm_compute; discriminate|].
  destruct H as [H H']; [vm_compute; reflexivity|]. split.
  - rewrite H. reflexivity.
  - exact (H' N M).
Defined.
