(* ===== verification/Virtqueue.v ===== *)
(** * Virtio queues

    [virtio/core.c] and the inline functions of [include/kvm/virtio.h]: taking
    descriptor chains off the available ring, handing them back on the used
    ring, deciding when to interrupt the guest, and the device status.

    The rings are structures in guest memory; a [vring] holds the host
    addresses they are mapped at (0 is [NULL]). Their layout is that of
    [<linux/virtio_ring.h>], as the virtio specification publishes it, and is
    given here by the field offsets; on x86 the guest has the byte order of the
    host, so the conversion macros are the identity. Barriers have no effect on
    one thread of execution and are left out. *)
From S2P Require Import Prelude Membank HostMem.

(** ** Layout of the rings ([<linux/virtio_ring.h>]) *)

Definition VRING_DESC_F_NEXT : Z := 1.
Definition VRING_DESC_F_WRITE : Z := 2.
Definition VRING_DESC_F_INDIRECT : Z := 4.
Definition VRING_AVAIL_F_NO_INTERRUPT : Z := 1.
Definition VIRTIO_RING_F_EVENT_IDX : Z := 29.

(** [sizeof(struct vring_desc)]; its fields are an address (8 bytes), a length
    (4), flags (2) and the index of the next descriptor (2). *)
Definition DESC_SIZE : Z := 16.

Record vring := mkvring { num : Z; desc : Z; avail : Z; used : Z }.

Definition avail_flags (vr : vring) : Z := avail vr.
Definition avail_idx (vr : vring) : Z := avail vr + 2.
Definition avail_ring (vr : vring) (i : Z) : Z := avail vr + 4 + 2 * i.
Definition used_idx (vr : vring) : Z := used vr + 2.
Definition used_ring (vr : vring) (i : Z) : Z := used vr + 4 + 8 * i.
(** [vring_used_event] is the slot after the last of the available ring, and
    [vring_avail_event] the one after the last of the used ring. *)
Definition used_event (vr : vring) : Z := avail_ring vr (num vr).
Definition avail_event (vr : vring) : Z := used_ring vr (num vr).

(** ** The queue *)

Record virt_queue := mkvq {
  vq_vring : vring;
  pfn : Z;
  last_avail_idx : Z;
  last_used_signalled : Z;
  vq_endian : Z;
  use_event_idx : bool;
  enabled : bool;
}.

Definition set_last_avail (vq : virt_queue) (i : Z) : virt_queue :=
  mkvq (vq_vring vq) (pfn vq) i (last_used_signalled vq) (vq_endian vq)
    (use_event_idx vq) (enabled vq).

Definition set_last_signalled (vq : virt_queue) (i : Z) : virt_queue :=
  mkvq (vq_vring vq) (pfn vq) (last_avail_idx vq) i (vq_endian vq)
    (use_event_idx vq) (enabled vq).

(** [x % num] of unsigned integers: undefined for 0. *)
Definition umod (x n : Z) : out Z := if n =? 0 then Ub else Ret (x mod n).

(** The next head, and the queue with [last_avail_idx++]. *)
Definition virt_queue__pop (m : hmem) (queue : virt_queue) : out (Z * virt_queue) :=
  let vr := vq_vring queue in
  let! i := umod (last_avail_idx queue) (num vr) in
  let! guest_idx := load 2 m (avail_ring vr i) in
  Ret (guest_idx, set_last_avail queue (u16 (last_avail_idx queue + 1))).

Definition virt_queue__available (m : hmem) (vq : virt_queue) : out (bool * hmem) :=
  let vr := vq_vring vq in
  if avail vr =? 0 then Ret (false, m)
  else
    let! m := if use_event_idx vq then store 2 m (avail_event vr) (last_avail_idx vq)
              else Ret m in
    let! idx := load 2 m (avail_idx vr) in
    Ret (negb (idx =? last_avail_idx vq), m).

Definition virt_queue__used_idx_advance (m : hmem) (queue : virt_queue) (jump : Z) : out hmem :=
  let vr := vq_vring queue in
  let! idx := load 2 m (used_idx vr) in
  store 2 m (used_idx vr) (u16 (idx + jump)).

Definition virt_queue__set_used_elem_no_update (m : hmem) (queue : virt_queue)
  (head len offset : Z) : out hmem :=
  let vr := vq_vring queue in
  let! idx := load 2 m (used_idx vr) in
  let! i := umod (u16 (idx + offset)) (num vr) in
  let! m := store 4 m (used_ring vr i) head in
  store 4 m (used_ring vr i + 4) len.

Definition virt_queue__set_used_elem (m : hmem) (queue : virt_queue) (head len : Z) : out hmem :=
  let! m := virt_queue__set_used_elem_no_update m queue head len 0 in
  virt_queue__used_idx_advance m queue 1.

(** ** Descriptor chains *)

Definition desc_addr (m : hmem) (d i : Z) : out Z := load 8 m (d + DESC_SIZE * i).
Definition desc_len (m : hmem) (d i : Z) : out Z := load 4 m (d + DESC_SIZE * i + 8).
Definition desc_flags (m : hmem) (d i : Z) : out Z := load 2 m (d + DESC_SIZE * i + 12).
Definition desc_next (m : hmem) (d i : Z) : out Z := load 2 m (d + DESC_SIZE * i + 14).

Definition virt_desc__test_flag (m : hmem) (d i flg : Z) : out bool :=
  let! flags := desc_flags m d i in
  Ret (flag flags flg).

Definition next_desc (m : hmem) (d i max : Z) : out Z :=
  let! chained := virt_desc__test_flag m d i VRING_DESC_F_NEXT in
  if negb chained then Ret max
  else let! next := desc_next m d i in Ret (Z.min next max).

Section queue.
Context (kvm : kvm_mem).

(** The result of [guest_flat_to_host] as a pointer. *)
Definition host_ptr (addr : Z) : Z := default 0 (guest_flat_to_host kvm addr).

(** The loop of [virt_queue__get_head_iov]. The caller's array is [iov]; a
    store past its end is undefined. *)
Fixpoint head_iov_loop (fuel : nat) (m : hmem) (d max idx : Z) (iov : list iovec)
  (out_ in_ : Z) : out (list iovec * Z * Z) :=
  match fuel with
  | O => NoFuel
  | S fuel =>
      let! len := desc_len m d idx in
      let! addr := desc_addr m d idx in
      if Z.of_nat (length iov) <=? out_ + in_ then Ub
      else
        let iov := <[Z.to_nat (out_ + in_) := mkiov (host_ptr addr) len]> iov in
        let! w := virt_desc__test_flag m d idx VRING_DESC_F_WRITE in
        let out_ := if w then out_ else u16 (out_ + 1) in
        let in_ := if w then u16 (in_ + 1) else in_ in
        let! next := next_desc m d idx max in
        let idx := u16 next in
        if idx =? max then Ret (iov, out_, in_)
        else head_iov_loop fuel m d max idx iov out_ in_
  end.

(** Returns the array and the counts [*out], [*in]; the C function also returns
    its argument [head]. *)
Definition virt_queue__get_head_iov (fuel : nat) (m : hmem) (vq : virt_queue)
  (iov : list iovec) (head : Z) : out (list iovec * Z * Z) :=
  let vr := vq_vring vq in
  let! ind := virt_desc__test_flag m (desc vr) head VRING_DESC_F_INDIRECT in
  if ind then
    let! len := desc_len m (desc vr) head in
    let! addr := desc_addr m (desc vr) head in
    head_iov_loop fuel m (host_ptr addr) (u16 (len / DESC_SIZE)) 0 iov 0 0
  else head_iov_loop fuel m (desc vr) (u16 (num vr)) head iov 0 0.

Definition virt_queue__get_iov (fuel : nat) (m : hmem) (vq : virt_queue) (iov : list iovec)
  : out (Z * list iovec * Z * Z * virt_queue) :=
  let! (head, vq) := virt_queue__pop m vq in
  let! (iov, out_, in_) := virt_queue__get_head_iov fuel m vq iov head in
  Ret (head, iov, out_, in_, vq).

(** The loop of [virt_queue__get_inout_iov]: two arrays, no bound on the index. *)
Fixpoint inout_iov_loop (fuel : nat) (m : hmem) (d idx : Z) (in_iov out_iov : list iovec)
  (in_ out_ : Z) : out (list iovec * list iovec * Z * Z) :=
  match fuel with
  | O => NoFuel
  | S fuel =>
      let! addr := desc_addr m d idx in
      let! w := virt_desc__test_flag m d idx VRING_DESC_F_WRITE in
      let! len := desc_len m d idx in
      let v := mkiov (host_ptr addr) len in
      if Z.of_nat (length (if w then in_iov else out_iov)) <=? (if w then in_ else out_) then Ub
      else
        let in_iov := if w then <[Z.to_nat in_ := v]> in_iov else in_iov in
        let out_iov := if w then out_iov else <[Z.to_nat out_ := v]> out_iov in
        let in_ := if w then u16 (in_ + 1) else in_ in
        let out_ := if w then out_ else u16 (out_ + 1) in
        let! chained := virt_desc__test_flag m d idx VRING_DESC_F_NEXT in
        if chained then
          let! next := desc_next m d idx in
          inout_iov_loop fuel m d next in_iov out_iov in_ out_
        else Ret (in_iov, out_iov, in_, out_)
  end.

Definition virt_queue__get_inout_iov (fuel : nat) (m : hmem) (queue : virt_queue)
  (in_iov out_iov : list iovec)
  : out (Z * list iovec * list iovec * Z * Z * virt_queue) :=
  let! (head, queue) := virt_queue__pop m queue in
  let! (in_iov, out_iov, in_, out_) :=
    inout_iov_loop fuel m (desc (vq_vring queue)) head in_iov out_iov 0 0 in
  Ret (head, in_iov, out_iov, in_, out_, queue).
End queue.

(** ** Interrupts *)

Section signal.
(** [vring_need_event] of [<linux/virtio_ring.h>]. *)
Context (vring_need_event : Z -> Z -> Z -> bool).

Definition virtio_queue__should_signal (m : hmem) (vq : virt_queue) : out (bool * virt_queue) :=
  let vr := vq_vring vq in
  if negb (use_event_idx vq) then
    let! flags := load 2 m (avail_flags vr) in
    Ret (negb (flag flags VRING_AVAIL_F_NO_INTERRUPT), vq)
  else
    let old_idx := last_used_signalled vq in
    let! new_idx := load 2 m (used_idx vr) in
    let! event_idx := load 2 m (used_event vr) in
    if vring_need_event event_idx new_idx old_idx then
      Ret (true, set_last_signalled vq new_idx)
    else Ret (false, vq).
End signal.

(** ** Devices *)

Definition VIRTIO_PCI_O_CONFIG : Z := 0.
Definition VIRTIO_PCI_O_MSIX : Z := 1.

Definition VIRTIO_CONFIG_S_ACKNOWLEDGE : Z := 1.
Definition VIRTIO_CONFIG_S_DRIVER : Z := 2.
Definition VIRTIO_CONFIG_S_DRIVER_OK : Z := 4.
Definition VIRTIO_CONFIG_S_FEATURES_OK : Z := 8.
Definition VIRTIO_CONFIG_S_FAILED : Z := 128.

Definition VIRTIO_CONFIG_S_MASK : Z :=
  VIRTIO_CONFIG_S_ACKNOWLEDGE .| VIRTIO_CONFIG_S_DRIVER .| VIRTIO_CONFIG_S_DRIVER_OK .|
  VIRTIO_CONFIG_S_FEATURES_OK .| VIRTIO_CONFIG_S_FAILED.

Definition VIRTIO__STATUS_START : Z := 1 .<< 8.
Definition VIRTIO__STATUS_STOP : Z := 1 .<< 9.

(** [struct virtio_device], without the transport's private data; its operations
    are the [virtio_ops] below. *)
Record virtio_device := mkvdev {
  use_vhost : bool;
  vdev_endian : Z;
  features : Z;
  status : Z;
}.

(** The operations of [struct virtio_ops] that [core.c] calls, on a device state
    of type [D]. [exit_vq] and [notify_status] may be null pointers. *)
Record virtio_ops (D : Type) := mkops {
  op_set_guest_features : D -> Z -> D;
  op_exit_vq : option (D -> Z -> D);
  op_notify_status : option (D -> Z -> D);
  op_reset : D -> D;
  op_get_vq : D -> Z -> virt_queue;
  op_put_vq : D -> Z -> virt_queue -> D;
}.
Arguments op_set_guest_features {D}.
Arguments op_exit_vq {D}.
Arguments op_notify_status {D}.
Arguments op_reset {D}.
Arguments op_get_vq {D}.
Arguments op_put_vq {D}.

Definition virtio_init_device_vq (vdev : virtio_device) (vq : virt_queue) : virt_queue :=
  mkvq (vq_vring vq) (pfn vq) (last_avail_idx vq) (last_used_signalled vq)
    (vdev_endian vdev) (flag (features vdev) VIRTIO_RING_F_EVENT_IDX) true.

(** [memset(vq, 0, sizeof( *vq))]. *)
Definition zero_vq : virt_queue := mkvq (mkvring 0 0 0 0) 0 0 0 0 false false.

(** [get_vq] returns a pointer into the device: reading and writing through it
    are [op_get_vq] and [op_put_vq]. *)
Definition virtio_exit_vq {D : Type} (ops : virtio_ops D) (dev : D) (n : Z) : D :=
  let vq := op_get_vq ops dev n in
  let dev :=
    if enabled vq then
      match op_exit_vq ops with Some f => f dev n | None => dev end
    else dev in
  op_put_vq ops dev n zero_vq.

(** The result of [virtio__get_dev_specific_field] and the value it stores at
    [config_off], if it stores one. *)
Definition virtio__get_dev_specific_field (offset : Z) (msix : bool) : Z * option Z :=
  if msix then
    if offset <? 4 then (VIRTIO_PCI_O_MSIX, None)
    else (VIRTIO_PCI_O_CONFIG, Some (u32 (offset - 4)))
  else (VIRTIO_PCI_O_CONFIG, Some (u32 offset)).

Definition set_status (vdev : virtio_device) (s : Z) : virtio_device :=
  mkvdev (use_vhost vdev) (vdev_endian vdev) (features vdev) s.

Definition virtio_set_guest_features {D : Type} (ops : virtio_ops D) (vdev : virtio_device)
  (dev : D) (f : Z) : virtio_device * D :=
  (mkvdev (use_vhost vdev) (vdev_endian vdev) f (status vdev),
   op_set_guest_features ops dev f).

Definition virtio_notify_status {D : Type} (ops : virtio_ops D) (vdev : virtio_device)
  (dev : D) (s : Z) : virtio_device * D :=
  let ext_status := s in
  let vdev := set_status vdev (status vdev .&~ VIRTIO_CONFIG_S_MASK) in
  let vdev := set_status vdev (status vdev .| s) in
  let '(vdev, dev, ext_status) :=
    if (flag s VIRTIO_CONFIG_S_DRIVER_OK && negb (flag (status vdev) VIRTIO__STATUS_START))%bool
    then (set_status vdev (status vdev .| VIRTIO__STATUS_START), dev,
          ext_status .| VIRTIO__STATUS_START)
    else if ((s =? 0) && flag (status vdev) VIRTIO__STATUS_START)%bool then
      let vdev := set_status vdev (status vdev .&~ VIRTIO__STATUS_START) in
      let ext_status := ext_status .| VIRTIO__STATUS_STOP in
      let dev := if flag ext_status VIRTIO__STATUS_STOP then op_reset ops dev else dev in
      (vdev, dev, ext_status)
    else (vdev, dev, ext_status) in
  let dev := match op_notify_status ops with Some f => f dev ext_status | None => dev end in
  (vdev, dev).

(** ** Properties of descriptor chains *)

(** The fields of one descriptor. *)
Record vring_desc := mkdesc { d_addr : Z; d_len : Z; d_flags : Z; d_next : Z }.

Definition desc_at (m : hmem) (d i : Z) (e : vring_desc) : Prop :=
  desc_addr m d i = Ret (d_addr e) /\ desc_len m d i = Ret (d_len e) /\
  desc_flags m d i = Ret (d_flags e) /\
  (flag (d_flags e) VRING_DESC_F_NEXT = true -> desc_next m d i = Ret (d_next e)).

Definition chained (e : vring_desc) (max : Z) : bool :=
  (flag (d_flags e) VRING_DESC_F_NEXT && (d_next e <? max))%bool.

Definition writable (e : vring_desc) : bool := flag (d_flags e) VRING_DESC_F_WRITE.

(** [chain m d max i l]: from index [i] of the table at [d], following the next
    fields ends, and [l] are the descriptors met. *)
Inductive chain (m : hmem) (d max : Z) : Z -> list vring_desc -> Prop :=
| chain_last i e : desc_at m d i e -> chained e max = false -> chain m d max i [e]
| chain_next i e l : desc_at m d i e -> chained e max = true ->
    chain m d max (d_next e) l -> chain m d max i (e :: l).

Section chains.
Context (kvm : kvm_mem) (m : hmem) (Hm : mem_ok m).

Definition iov_of (e : vring_desc) : iovec := mkiov (host_ptr kvm (d_addr e)) (d_len e).

Definition readables (l : list vring_desc) : list vring_desc :=
  List.filter (fun e => negb (writable e)) l.
Definition writables (l : list vring_desc) : list vring_desc := List.filter writable l.

(** The caller's array after the vectors [vs] went into its entries from [k] on. *)
Definition fill (iov : list iovec) (k : nat) (vs : list iovec) : list iovec :=
  take k iov ++ vs ++ drop (k + length vs) iov.

Lemma fill_nil iov k : fill iov k [] = iov.
Proof. unfold fill. rewrite Nat.add_0_r. apply take_drop. Qed.

Lemma fill_0 iov vs : fill iov 0 vs = vs ++ drop (length vs) iov.
Proof. reflexivity. Qed.

Lemma fill_cons iov k v vs :
  (k < length iov)%nat -> fill iov k (v :: vs) = fill (<[k := v]> iov) (S k) vs.
Proof.
  intros H. unfold fill. rewrite (take_S_r _ _ v) by now apply list_lookup_insert_eq.
  rewrite take_insert_ge by lia. rewrite drop_insert_lt by lia.
  rewrite <- app_assoc. cbn. do 4 f_equal. lia.
Qed.

Lemma length_fill_insert (iov : list iovec) k v : length (<[k := v]> iov) = length iov.
Proof. apply length_insert. Qed.

Lemma load_ub n a : load n m a = Ub \/ exists x, load n m a = Ret x.
Proof. unfold load. destruct (load_bytes m a n); eauto. Qed.

(** A descriptor that the code cannot read. *)
Definition unreadable (d i : Z) : Prop :=
  desc_addr m d i = Ub \/ desc_len m d i = Ub \/ desc_flags m d i = Ub \/
  exists f, desc_flags m d i = Ret f /\ flag f VRING_DESC_F_NEXT = true /\ desc_next m d i = Ub.

Lemma desc_at_dec d i :
  (exists e, desc_at m d i e) \/ unreadable d i.
Proof.
  destruct (load_ub 8 (d + DESC_SIZE * i)) as [E|[a Ea]]; [right; left; exact E|].
  destruct (load_ub 4 (d + DESC_SIZE * i + 8)) as [E|[n En]]; [right; right; left; exact E|].
  destruct (load_ub 2 (d + DESC_SIZE * i + 12)) as [E|[f Ef]]; [do 3 right; left; exact E|].
  destruct (flag f VRING_DESC_F_NEXT) eqn:F.
  - destruct (load_ub 2 (d + DESC_SIZE * i + 14)) as [E|[x Ex]].
    + do 4 right. exists f. repeat split; [exact Ef|exact F|exact E].
    + left. exists (mkdesc a n f x). repeat split; try assumption. intros _. exact Ex.
  - left. exists (mkdesc a n f 0). repeat split; try assumption. cbn. congruence.
Qed.

Lemma next_desc_at d i e max :
  desc_at m d i e -> fits 16 max ->
  exists x, next_desc m d i max = Ret x /\
    if chained e max then x = d_next e /\ x <> max /\ u16 x = x else u16 x = max.
Proof.
  intros (_ & _ & F & N) Hmax. unfold next_desc, virt_desc__test_flag, chained. rewrite F.
  destruct (flag (d_flags e) VRING_DESC_F_NEXT); cbn [negb andb].
  - rewrite N by reflexivity. eexists. split; [reflexivity|].
    pose proof (load_fits _ _ _ _ Hm (N eq_refl)) as B. unfold fits in *. cbn in B.
    destruct (Z.ltb_spec (d_next e) max).
    + rewrite Z.min_l by lia. repeat split; [lia|]. apply wrap_id. unfold fits. lia.
    + rewrite Z.min_r by lia. apply wrap_id. unfold fits. lia.
  - eexists. split; [reflexivity|]. now apply wrap_id.
Qed.

(** One round of the loop. *)
Lemma head_iov_step fuel d max idx iov o i e :
  desc_at m d idx e -> fits 16 max -> 0 <= o -> 0 <= i -> o + i < Z.of_nat (length iov) ->
  Z.of_nat (length iov) <= 65535 ->
  let iov' := <[Z.to_nat (o + i) := iov_of e]> iov in
  let o' := if writable e then o else o + 1 in
  let i' := if writable e then i + 1 else i in
  head_iov_loop kvm (S fuel) m d max idx iov o i =
  if chained e max then head_iov_loop kvm fuel m d max (d_next e) iov' o' i'
  else Ret (iov', o', i').
Proof.
  intros D Hmax Ho Hi Hk Hl iov' o' i'. pose proof D as (A & L & F & _).
  cbn [head_iov_loop]. rewrite L, A. rewrite (proj2 (Z.leb_gt _ _) Hk).
  unfold virt_desc__test_flag. rewrite F. fold (iov_of e). change (<[Z.to_nat (o + i):=iov_of e]> iov) with iov'.
  assert (W : forall x, 0 <= x < 65536 -> u16 x = x) by (intros; apply wrap_id; unfold fits; lia).
  destruct (next_desc_at d idx e max D Hmax) as (x & -> & E).
  fold (writable e). unfold o', i'. rewrite (W (o + 1)), (W (i + 1)) by lia. destruct (chained e max).
  - destruct E as (-> & N & ->). now rewrite (proj2 (Z.eqb_neq _ _) N).
  - now rewrite E, Z.eqb_refl.
Qed.

Lemma head_iov_ub fuel d max idx iov o i :
  unreadable d idx -> head_iov_loop kvm (S fuel) m d max idx iov o i = Ub.
Proof.
  intros E. unfold unreadable in E.
  cbn [head_iov_loop]. unfold next_desc, virt_desc__test_flag, desc_addr, desc_len, desc_flags, desc_next in *.
  destruct (load_ub 4 (d + DESC_SIZE * idx + 8)) as [->|[n En]]; [reflexivity|].
  destruct (load_ub 8 (d + DESC_SIZE * idx)) as [->|[a Ea]]; [now rewrite En|].
  rewrite En, Ea. destruct (_ <=? _); [reflexivity|].
  destruct E as [E|[E|[E|(f & E & F & E')]]]; try congruence; rewrite E; [reflexivity|].
  now rewrite F, E'.
Qed.

Lemma head_iov_loop_spec fuel d max idx iov o i :
  fits 16 max -> 0 <= o -> 0 <= i -> Z.of_nat (length iov) <= 65535 ->
  (length iov < fuel + Z.to_nat (o + i))%nat -> o + i <= Z.of_nat (length iov) ->
  (forall l, chain m d max idx l -> o + i + Z.of_nat (length l) <= Z.of_nat (length iov) ->
     head_iov_loop kvm fuel m d max idx iov o i =
     Ret (fill iov (Z.to_nat (o + i)) (map iov_of l),
          o + Z.of_nat (length (readables l)), i + Z.of_nat (length (writables l)))) /\
  (~ (exists l, chain m d max idx l /\ o + i + Z.of_nat (length l) <= Z.of_nat (length iov)) ->
   head_iov_loop kvm fuel m d max idx iov o i = Ub).
Proof.
  intros Hmax. revert idx iov o i. induction fuel as [|fuel IH]; intros idx iov o i Ho Hi Hl Hf Hk; [lia|].
  split.
  - intros l C Hle.
    assert (Step : forall e l', desc_at m d idx e -> l = e :: l' ->
      (if chained e max then chain m d max (d_next e) l' else l' = []) ->
      head_iov_loop kvm (S fuel) m d max idx iov o i =
      Ret (fill iov (Z.to_nat (o + i)) (map iov_of l),
           o + Z.of_nat (length (readables l)), i + Z.of_nat (length (writables l)))).
    { intros e l' D -> R. cbn [length] in Hle. rewrite (head_iov_step fuel d max idx iov o i e) by (auto; lia).
      unfold readables, writables. cbn [map List.filter]. rewrite fill_cons by lia.
      fold (readables l') (writables l').
      destruct (chained e max) eqn:Ch.
      - destruct (writable e) eqn:Wr; cbn [negb length].
        + rewrite (proj1 (IH (d_next e) (<[Z.to_nat (o + i):=iov_of e]> iov) o (i + 1)
            ltac:(lia) ltac:(lia) ltac:(rewrite length_insert; lia) ltac:(rewrite length_insert; lia)
            ltac:(rewrite length_insert; lia)) l' R) by (rewrite length_insert; lia).
          replace (Z.to_nat (o + (i + 1))) with (S (Z.to_nat (o + i))) by lia. do 2 f_equal. lia.
        + rewrite (proj1 (IH (d_next e) (<[Z.to_nat (o + i):=iov_of e]> iov) (o + 1) i
            ltac:(lia) ltac:(lia) ltac:(rewrite length_insert; lia) ltac:(rewrite length_insert; lia)
            ltac:(rewrite length_insert; lia)) l' R) by (rewrite length_insert; lia).
          replace (Z.to_nat (o + 1 + i)) with (S (Z.to_nat (o + i))) by lia. do 3 f_equal. lia.
      - subst l'. cbn [map]. rewrite fill_nil.
        destruct (writable e); cbn; do 2 f_equal; try (f_equal; lia); lia. }
    inversion C as [? e D Ch|? e l' D Ch C']; subst; eapply Step; eauto; now rewrite Ch.
  - intros N. destruct (desc_at_dec d idx) as [[e D]|E]; [|now apply head_iov_ub].
    destruct (Z.leb_spec (Z.of_nat (length iov)) (o + i)) as [Full|Room].
    { pose proof D as (A & L & _). cbn [head_iov_loop]. rewrite L, A.
      now rewrite (proj2 (Z.leb_le _ _) Full). }
    rewrite (head_iov_step fuel d max idx iov o i e) by auto.
    destruct (chained e max) eqn:Ch.
    2:{ exfalso. apply N. exists [e]. split; [now apply chain_last|cbn; lia]. }
    apply IH; rewrite ?length_insert; try lia; [destruct (writable e); lia..|].
    intros (l & C & Hle). apply N. exists (e :: l). split; [now apply chain_next|].
    cbn [length]. destruct (writable e); lia.
Qed.
(** The loop of [virt_queue__get_inout_iov] follows the same chains, with no
    bound on the index but its 16 bits. *)
Lemma inout_iov_step fuel d idx ii oi i o e :
  desc_at m d idx e -> 0 <= i <= Z.of_nat (length ii) -> 0 <= o <= Z.of_nat (length oi) ->
  Z.of_nat (length ii) <= 65535 -> Z.of_nat (length oi) <= 65535 ->
  inout_iov_loop kvm (S fuel) m d idx ii oi i o =
  if writable e then
    if Z.of_nat (length ii) <=? i then Ub
    else let ii' := <[Z.to_nat i := iov_of e]> ii in
      if chained e 65536 then inout_iov_loop kvm fuel m d (d_next e) ii' oi (i + 1) o
      else Ret (ii', oi, i + 1, o)
  else
    if Z.of_nat (length oi) <=? o then Ub
    else let oi' := <[Z.to_nat o := iov_of e]> oi in
      if chained e 65536 then inout_iov_loop kvm fuel m d (d_next e) ii oi' i (o + 1)
      else Ret (ii, oi', i, o + 1).
Proof.
  intros D Hi Ho Li Lo. pose proof D as (A & L & F & N).
  cbn [inout_iov_loop]. unfold virt_desc__test_flag. rewrite A, F, L. fold (iov_of e) (writable e).
  assert (W : forall x, 0 <= x < 65536 -> u16 x = x) by (intros; apply wrap_id; unfold fits; lia).
  assert (C : chained e 65536 = flag (d_flags e) VRING_DESC_F_NEXT).
  { unfold chained. destruct (flag (d_flags e) VRING_DESC_F_NEXT) eqn:Fl; [|reflexivity]. cbn [andb].
    pose proof (load_fits _ _ _ _ Hm (N eq_refl)) as B. unfold fits in B. cbn in B.
    apply Z.ltb_lt. lia. }
  rewrite C. destruct (writable e).
  - destruct (Z.leb_spec (Z.of_nat (length ii)) i); [reflexivity|]. rewrite (W (i + 1)) by lia.
    destruct (flag (d_flags e) VRING_DESC_F_NEXT); [now rewrite N by reflexivity|reflexivity].
  - destruct (Z.leb_spec (Z.of_nat (length oi)) o); [reflexivity|]. rewrite (W (o + 1)) by lia.
    destruct (flag (d_flags e) VRING_DESC_F_NEXT); [now rewrite N by reflexivity|reflexivity].
Qed.

Lemma inout_iov_ub fuel d idx ii oi i o :
  unreadable d idx -> inout_iov_loop kvm (S fuel) m d idx ii oi i o = Ub.
Proof.
  intros E. cbn [inout_iov_loop]. unfold unreadable, virt_desc__test_flag, desc_addr, desc_len, desc_flags, desc_next in *.
  destruct (load_ub 8 (d + DESC_SIZE * idx)) as [->|[a Ea]]; [reflexivity|]. rewrite Ea.
  destruct (load_ub 2 (d + DESC_SIZE * idx + 12)) as [->|[f Ef]]; [reflexivity|]. rewrite Ef in *.
  destruct (load_ub 4 (d + DESC_SIZE * idx + 8)) as [->|[n En]]; [reflexivity|]. rewrite En.
  destruct (flag f VRING_DESC_F_WRITE), (_ <=? _); try reflexivity;
    (destruct E as [E|[E|[E|(f' & E & F & E')]]]; try congruence);
    injection E as <-; now rewrite F, E'.
Qed.

Definition iov_room (l : list vring_desc) (ii oi : list iovec) (i o : Z) : Prop :=
  i + Z.of_nat (length (writables l)) <= Z.of_nat (length ii) /\
  o + Z.of_nat (length (readables l)) <= Z.of_nat (length oi).

Lemma inout_iov_loop_spec fuel d idx ii oi i o :
  0 <= i <= Z.of_nat (length ii) -> 0 <= o <= Z.of_nat (length oi) ->
  Z.of_nat (length ii) <= 65535 -> Z.of_nat (length oi) <= 65535 ->
  (length ii + length oi < fuel + Z.to_nat (i + o))%nat ->
  (forall l, chain m d 65536 idx l -> iov_room l ii oi i o ->
     inout_iov_loop kvm fuel m d idx ii oi i o =
     Ret (fill ii (Z.to_nat i) (map iov_of (writables l)),
          fill oi (Z.to_nat o) (map iov_of (readables l)),
          i + Z.of_nat (length (writables l)), o + Z.of_nat (length (readables l)))) /\
  (~ (exists l, chain m d 65536 idx l /\ iov_room l ii oi i o) ->
   inout_iov_loop kvm fuel m d idx ii oi i o = Ub).
Proof.
  revert idx ii oi i o. induction fuel as [|fuel IH]; intros idx ii oi i o Hi Ho Li Lo Hf; [lia|].
  split.
  - intros l C [R1 R2].
    assert (Step : forall e l', desc_at m d idx e -> l = e :: l' ->
      (if chained e 65536 then chain m d 65536 (d_next e) l' else l' = []) ->
      inout_iov_loop kvm (S fuel) m d idx ii oi i o =
      Ret (fill ii (Z.to_nat i) (map iov_of (writables l)),
           fill oi (Z.to_nat o) (map iov_of (readables l)),
           i + Z.of_nat (length (writables l)), o + Z.of_nat (length (readables l)))).
    { intros e l' D -> R. rewrite (inout_iov_step fuel d idx ii oi i o e) by auto.
      revert R1 R2. unfold readables, writables. cbn [List.filter].
      fold (readables l') (writables l'). destruct (writable e); cbn [negb map length]; intros R1 R2.
      - rewrite (proj2 (Z.leb_gt _ _)) by lia. rewrite fill_cons by lia. cbv zeta.
        destruct (chained e 65536).
        + rewrite (proj1 (IH (d_next e) (<[Z.to_nat i:=iov_of e]> ii) oi (i + 1) o
            ltac:(rewrite length_insert; lia) Ho ltac:(rewrite length_insert; lia) Lo
            ltac:(rewrite length_insert; lia)) l' R) by (split; rewrite ?length_insert; lia).
          replace (Z.to_nat (i + 1)) with (S (Z.to_nat i)) by lia.
          now replace (i + 1 + _) with (i + Z.of_nat (S (length (writables l')))) by lia.
        + subst l'. cbn. now rewrite !fill_nil, Z.add_0_r.
      - rewrite (proj2 (Z.leb_gt _ _)) by lia.
        rewrite (fill_cons oi) by lia. cbv zeta.
        destruct (chained e 65536).
        + rewrite (proj1 (IH (d_next e) ii (<[Z.to_nat o:=iov_of e]> oi) i (o + 1)
            Hi ltac:(rewrite length_insert; lia) Li ltac:(rewrite length_insert; lia)
            ltac:(rewrite length_insert; lia)) l' R) by (split; rewrite ?length_insert; lia).
          replace (Z.to_nat (o + 1)) with (S (Z.to_nat o)) by lia.
          now replace (o + 1 + _) with (o + Z.of_nat (S (length (readables l')))) by lia.
        + subst l'. cbn. now rewrite !fill_nil, Z.add_0_r. }
    inversion C as [? e D Ch|? e l' D Ch C']; subst; eapply Step; eauto; now rewrite Ch.
  - intros N. destruct (desc_at_dec d idx) as [[e D]|E]; [|now apply inout_iov_ub].
    rewrite (inout_iov_step fuel d idx ii oi i o e) by auto. cbv zeta.
    assert (Next : forall l, chained e 65536 = true -> chain m d 65536 (d_next e) l ->
      ~ iov_room (e :: l) ii oi i o) by (intros l Ch C R; apply N; exists (e :: l); eauto using chain_next).
    assert (Last : chained e 65536 = false -> ~ iov_room [e] ii oi i o)
      by (intros Ch R; apply N; exists [e]; eauto using chain_last).
    unfold iov_room, readables, writables in Next, Last. cbn [List.filter] in Next, Last.
    revert Next Last. destruct (writable e); cbn [negb length]; intros Next Last;
      (match goal with |- context [if ?x <=? ?y then _ else _] => destruct (Z.leb_spec x y) end;
        [reflexivity|]);
      (destruct (chained e 65536); [|exfalso; apply Last; [reflexivity|cbn; lia]]);
      apply IH; rewrite ?length_insert; try lia;
      intros (l & C & R1 & R2); rewrite length_insert in *;
      apply (Next l eq_refl C); unfold readables, writables in *; lia.
Qed.
(** What the head of a request stands for: its chain in the ring's table, or,
    when it is an indirect descriptor, the chain of the table it points to. *)
Definition head_chain (vq : virt_queue) (head : Z) (l : list vring_desc) : Prop :=
  let d := desc (vq_vring vq) in
  exists f, desc_flags m d head = Ret f /\
  if flag f VRING_DESC_F_INDIRECT then
    exists addr len, desc_addr m d head = Ret addr /\ desc_len m d head = Ret len /\
      chain m (host_ptr kvm addr) (u16 (len / DESC_SIZE)) 0 l
  else chain m d (u16 (num (vq_vring vq))) head l.

Lemma get_head_iov_spec fuel vq iov head :
  Z.of_nat (length iov) <= 65535 -> (length iov < fuel)%nat ->
  (forall l, head_chain vq head l -> (length l <= length iov)%nat ->
     virt_queue__get_head_iov kvm fuel m vq iov head =
     Ret (fill iov 0 (map iov_of l), Z.of_nat (length (readables l)), Z.of_nat (length (writables l)))) /\
  (~ (exists l, head_chain vq head l /\ (length l <= length iov)%nat) ->
   virt_queue__get_head_iov kvm fuel m vq iov head = Ub).
Proof.
  intros Hl Hf. unfold virt_queue__get_head_iov, head_chain, virt_desc__test_flag. cbv zeta.
  set (d := desc (vq_vring vq)). assert (F16 : forall x, fits 16 (u16 x)) by (intros; apply wrap_fits; lia).
  assert (Loop : forall d max idx,
    (forall l, chain m d (u16 max) idx l -> (length l <= length iov)%nat ->
       head_iov_loop kvm fuel m d (u16 max) idx iov 0 0 =
       Ret (fill iov 0 (map iov_of l), Z.of_nat (length (readables l)), Z.of_nat (length (writables l)))) /\
    (~ (exists l, chain m d (u16 max) idx l /\ (length l <= length iov)%nat) ->
       head_iov_loop kvm fuel m d (u16 max) idx iov 0 0 = Ub)).
  { intros d' max idx.
    destruct (head_iov_loop_spec fuel d' (u16 max) idx iov 0 0 (F16 _)) as [A B]; try lia. split.
    - intros l C L. apply (A l C). lia.
    - intros N. apply B. intros (l & C & L). apply N. exists l. split; [exact C|lia]. }
  destruct (load_ub 2 (d + DESC_SIZE * head + 12)) as [E|[f E]]; unfold desc_flags; rewrite E.
  { split; [intros l (f & Ef & _); discriminate|reflexivity]. }
  destruct (flag f VRING_DESC_F_INDIRECT) eqn:I.
  2:{ split.
      - intros l (f' & [= <-] & C). rewrite I in C. now apply Loop.
      - intros N. apply Loop. intros (l & C & L). apply N. exists l. split; [|exact L].
        exists f. now rewrite I. }
  destruct (load_ub 4 (d + DESC_SIZE * head + 8)) as [En|[n En]]; unfold desc_len; rewrite En.
  { split; [|reflexivity]. intros l (f' & [= <-] & C). rewrite I in C. destruct C as (? & ? & _ & ? & _); discriminate. }
  destruct (load_ub 8 (d + DESC_SIZE * head)) as [Ea|[a Ea]]; unfold desc_addr; rewrite Ea.
  { split; [|reflexivity]. intros l (f' & [= <-] & C). rewrite I in C. destruct C as (? & ? & ? & _); discriminate. }
  split.
  - intros l (f' & [= <-] & C). rewrite I in C. destruct C as (? & ? & [= <-] & [= <-] & C). now apply Loop.
  - intros N. apply Loop. intros (l & C & L). apply N. exists l. split; [|exact L].
    exists f. rewrite I. eauto 10.
Qed.

Lemma readables_app l1 l2 : readables (l1 ++ l2) = readables l1 ++ readables l2.
Proof. apply List.filter_app. Qed.

Lemma writables_app l1 l2 : writables (l1 ++ l2) = writables l1 ++ writables l2.
Proof. apply List.filter_app. Qed.

Lemma split_rw l1 l2 :
  Forall (fun e => writable e = false) l1 -> Forall (fun e => writable e = true) l2 ->
  readables (l1 ++ l2) = l1 /\ writables (l1 ++ l2) = l2.
Proof.
  intros R W. rewrite readables_app, writables_app. unfold readables, writables.
  induction R as [|e l1 E _ [IH1 IH2]]; cbn.
  - induction W as [|e l2 E _ [IH1 IH2]]; cbn; [auto|]. rewrite E. cbn. split; [exact IH1|congruence].
  - rewrite E. cbn. split; [congruence|exact IH2].
Qed.

(** A set of descriptors that only lead to one another. *)
Lemma loop_no_chain d max (S : Z -> Prop) :
  (forall j, S j -> forall e, desc_at m d j e -> chained e max = true /\ S (d_next e)) ->
  forall j l, S j -> chain m d max j l -> False.
Proof.
  intros H j l Hj C. revert Hj. induction C as [i e D Ch|i e l D Ch C IH]; intros Hi.
  - destruct (H i Hi e D). congruence.
  - apply IH, (H i Hi e D).
Qed.
End chains.

(** ** Demonstration memory: a ring of four descriptors at 2^40 *)

Definition desc_bytes (addr len flags next : Z) : list Z :=
  le_enc 8 addr ++ le_enc 4 len ++ le_enc 2 flags ++ le_enc 2 next.

Definition demo_vring : vring := mkvring 4 (2 ^ 40) (2 ^ 40 + 64) (2 ^ 40 + 80).

Definition demo_vq : virt_queue := mkvq demo_vring 0 0 0 1 false true.

(** Descriptors 2, 0 are a request (16 bytes to read, 512 to write); descriptor
    1 is an indirect one, whose table is at guest address 256; descriptor 3
    leads to itself. The available ring has heads 2 and 1. *)
Definition demo_ring_mem : hmem :=
  mem_at (2 ^ 40)
    (desc_bytes 8192 512 VRING_DESC_F_WRITE 0 ++
     desc_bytes 256 32 VRING_DESC_F_INDIRECT 0 ++
     desc_bytes 4096 16 VRING_DESC_F_NEXT 0 ++
     desc_bytes 4096 16 VRING_DESC_F_NEXT 3 ++
     (le_enc 2 0 ++ le_enc 2 2 ++ le_enc 2 2 ++ le_enc 2 1 ++ le_enc 2 0 ++ le_enc 2 0 ++ le_enc 2 0) ++
     [0; 0] ++ repeat 0 38 ++ repeat 0 138 ++
     desc_bytes 12288 24 VRING_DESC_F_NEXT 1 ++
     desc_bytes 16384 48 VRING_DESC_F_WRITE 0).

Lemma demo_ring_mem_ok : mem_ok demo_ring_mem.
Proof. apply mem_at_ok, byte_ok_check. vm_compute. reflexivity. Qed.

Ltac solve_desc := repeat split; try (intros _); vm_compute; reflexivity.

(** Taking a request off the ring. If the chain that starts at a head (in
    the ring, or in the table of an indirect descriptor) fits the caller's
    array, [virt_queue__get_head_iov] returns, and the array starts with the
    host address and length of every descriptor in chain order, with the counts
    of the device-readable and the device-writable ones; for a chain in the
    order the specification asks for, the readable buffers come first and the
    two counts split the array between the two kinds. In every other case (a
    chain that is longer than the array, that does not end, or that leaves
    mapped memory) the code has left its buffers. *)
Theorem get_head_iov_chain kvm m fuel vq iov head :
  mem_ok m -> Z.of_nat (length iov) <= 65535 -> (length iov < fuel)%nat ->
  (forall l, head_chain kvm m vq head l -> (length l <= length iov)%nat ->
     virt_queue__get_head_iov kvm fuel m vq iov head =
     Ret (map (iov_of kvm) l ++ drop (length l) iov,
          Z.of_nat (length (readables l)), Z.of_nat (length (writables l))) /\
     (forall l1 l2, l = l1 ++ l2 -> Forall (fun e => writable e = false) l1 ->
        Forall (fun e => writable e = true) l2 ->
        exists iov', virt_queue__get_head_iov kvm fuel m vq iov head =
          Ret (iov', Z.of_nat (length l1), Z.of_nat (length l2)) /\
        take (length l1) iov' = map (iov_of kvm) l1 /\
        take (length l2) (drop (length l1) iov') = map (iov_of kvm) l2)) /\
  (~ (exists l, head_chain kvm m vq head l /\ (length l <= length iov)%nat) ->
   virt_queue__get_head_iov kvm fuel m vq iov head = Ub).
Proof.
  intros Hm Hl Hf. destruct (get_head_iov_spec kvm m Hm fuel vq iov head Hl Hf) as [A B].
  split; [|exact B]. intros l C L. specialize (A l C L). rewrite fill_0, length_map in A. split; [exact A|]. intros l1 l2 -> R W.
  destruct (split_rw l1 l2 R W) as [E1 E2]. rewrite E1, E2 in A. eexists. split; [exact A|].
  rewrite map_app, <- app_assoc. split.
  - apply take_app_length'. now rewrite length_map.
  - rewrite drop_app_length' by now rewrite length_map. apply take_app_length'. now rewrite length_map.
Qed.

Lemma get_head_iov_chain_witness :
  let iov := repeat (mkiov 0 0) 4 in
  head_chain demo_mem demo_ring_mem demo_vq 2
    [mkdesc 4096 16 1 0; mkdesc 8192 512 2 0] /\
  virt_queue__get_head_iov demo_mem 5 demo_ring_mem demo_vq iov 2 =
    Ret ([mkiov (2 ^ 40 + 4096) 16; mkiov (2 ^ 40 + 8192) 512; mkiov 0 0; mkiov 0 0], 1, 1) /\
  virt_queue__get_head_iov demo_mem 5 demo_ring_mem demo_vq iov 1 =
    Ret ([mkiov (2 ^ 40 + 12288) 24; mkiov (2 ^ 40 + 16384) 48; mkiov 0 0; mkiov 0 0], 1, 1).
Proof.
  intros iov.
  assert (C : head_chain demo_mem demo_ring_mem demo_vq 2 [mkdesc 4096 16 1 0; mkdesc 8192 512 2 0]).
  { exists 1. split; [vm_compute; reflexivity|]. cbn [flag]. change (flag 1 VRING_DESC_F_INDIRECT) with false. cbn iota.
    apply chain_next; [solve_desc|reflexivity|]. apply chain_last; [solve_desc|reflexivity]. }
  split; [exact C|]. split.
  - rewrite (proj1 (proj1 (get_head_iov_chain demo_mem demo_ring_mem 5 demo_vq iov 2
      demo_ring_mem_ok ltac:(cbn; lia) ltac:(cbn; lia)) _ C ltac:(cbn; lia))).
    vm_compute. reflexivity.
  - vm_compute. reflexivity.
Defined.

(** [virt_queue__get_inout_iov] sorts the descriptors of the chain at the
    next available head into the two arrays by direction, each in chain order,
    counts them, and moves past the head; it ignores indirect descriptors. A
    chain that does not end, or that overflows one of the arrays, is undefined
    behaviour. *)
Theorem get_inout_iov_chain kvm m fuel vq in_iov out_iov head vq' :
  mem_ok m -> Z.of_nat (length in_iov) <= 65535 -> Z.of_nat (length out_iov) <= 65535 ->
  (length in_iov + length out_iov < fuel)%nat ->
  virt_queue__pop m vq = Ret (head, vq') ->
  (forall l, chain m (desc (vq_vring vq)) 65536 head l -> iov_room l in_iov out_iov 0 0 ->
     virt_queue__get_inout_iov kvm fuel m vq in_iov out_iov =
     Ret (head,
          map (iov_of kvm) (writables l) ++ drop (length (writables l)) in_iov,
          map (iov_of kvm) (readables l) ++ drop (length (readables l)) out_iov,
          Z.of_nat (length (writables l)), Z.of_nat (length (readables l)), vq')) /\
  (~ (exists l, chain m (desc (vq_vring vq)) 65536 head l /\ iov_room l in_iov out_iov 0 0) ->
   virt_queue__get_inout_iov kvm fuel m vq in_iov out_iov = Ub).
Proof.
  intros Hm Li Lo Hf P. unfold virt_queue__get_inout_iov. rewrite P.
  assert (D : desc (vq_vring vq') = desc (vq_vring vq)).
  { revert P. unfold virt_queue__pop, umod. destruct (num _ =? 0); [discriminate|].
    destruct (load _ _ _); try discriminate. now intros [= _ <-]. }
  rewrite D. destruct (inout_iov_loop_spec kvm m Hm fuel (desc (vq_vring vq)) head in_iov out_iov 0 0)
    as [A B]; try lia. split.
  - intros l C R. rewrite (A l C R). change (Z.to_nat 0) with 0%nat. now rewrite !fill_0, !length_map.
  - intros N. now rewrite (B N).
Qed.

Lemma get_inout_iov_chain_witness :
  let iov := repeat (mkiov 0 0) 2 in
  virt_queue__get_inout_iov demo_mem 5 demo_ring_mem demo_vq iov iov =
    Ret (2, [mkiov (2 ^ 40 + 8192) 512; mkiov 0 0], [mkiov (2 ^ 40 + 4096) 16; mkiov 0 0], 1, 1,
         set_last_avail demo_vq 1).
Proof.
  intros iov.
  assert (C : chain demo_ring_mem (desc (vq_vring demo_vq)) 65536 2
    [mkdesc 4096 16 1 0; mkdesc 8192 512 2 0]).
  { apply chain_next; [solve_desc|reflexivity|]. apply chain_last; [solve_desc|reflexivity]. }
  rewrite (proj1 (get_inout_iov_chain demo_mem demo_ring_mem 5 demo_vq iov iov 2 (set_last_avail demo_vq 1)
    demo_ring_mem_ok ltac:(cbn; lia) ltac:(cbn; lia) ltac:(cbn; lia)
    ltac:(vm_compute; reflexivity)) _ C ltac:(vm_compute; split; discriminate)).
  vm_compute. reflexivity.
Defined.

(** Neither function keeps the guest from linking descriptors in a circle:
    from a head in a set of descriptors that only lead to one another, both run
    over the end of the caller's array, whatever its size. *)
Theorem descriptor_loop_overflows kvm m fuel vq iov (S : Z -> Prop) head f :
  mem_ok m -> Z.of_nat (length iov) <= 65535 -> (length iov + length iov < fuel)%nat ->
  num (vq_vring vq) < 65536 ->
  desc_flags m (desc (vq_vring vq)) head = Ret f -> flag f VRING_DESC_F_INDIRECT = false ->
  S head ->
  (forall j, S j -> forall e, desc_at m (desc (vq_vring vq)) j e ->
     flag (d_flags e) VRING_DESC_F_NEXT = true /\ d_next e < num (vq_vring vq) /\ S (d_next e)) ->
  virt_queue__get_head_iov kvm fuel m vq iov head = Ub /\
  (forall vq', virt_queue__pop m vq = Ret (head, vq') ->
   virt_queue__get_inout_iov kvm fuel m vq iov iov = Ub).
Proof.
  intros Hm Hl Hf Hn Ef I Sh Loop. set (d := desc (vq_vring vq)) in *.
  assert (No : forall max l, num (vq_vring vq) <= max -> ~ chain m d max head l).
  { intros max l Hmax C. revert C. apply (loop_no_chain m d max S); [|exact Sh].
    intros j Sj e D. destruct (Loop j Sj e D) as (A & B & C). split; [|exact C].
    unfold chained. rewrite A. cbn. apply Z.ltb_lt. lia. }
  assert (Num : 0 <= num (vq_vring vq) \/ forall e, ~ desc_at m d head e).
  { destruct (Z.leb_spec 0 (num (vq_vring vq))) as [H|H]; [now left|right]. intros e D.
    destruct (Loop head Sh e D) as (A & B & _). destruct D as (_ & _ & _ & N).
    pose proof (load_fits _ _ _ _ Hm (N A)) as F. unfold fits in F. lia. }
  split.
  - apply (get_head_iov_spec kvm m Hm fuel vq iov head Hl); [lia|].
    intros (l & (f' & Ef' & C) & _). fold d in Ef', C. rewrite Ef in Ef'. injection Ef' as <-. rewrite I in C.
    destruct Num as [Num|Num].
    + apply (No (num (vq_vring vq)) l ltac:(lia)). unfold wrap in C. now rewrite Z.mod_small in C by lia.
    + inversion C; subst; eapply Num; eassumption.
  - intros vq' P. unfold virt_queue__get_inout_iov. rewrite P.
    assert (D : desc (vq_vring vq') = d).
    { revert P. unfold virt_queue__pop, umod. destruct (num _ =? 0); [discriminate|].
      destruct (load _ _ _); try discriminate. now intros [= _ <-]. }
    rewrite D. rewrite (proj2 (inout_iov_loop_spec kvm m Hm fuel d head iov iov 0 0
      ltac:(lia) ltac:(lia) Hl Hl ltac:(lia))); [reflexivity|].
    intros (l & C & _). apply (No 65536 l ltac:(lia) C).
Qed.

Lemma descriptor_loop_overflows_witness :
  virt_queue__get_head_iov demo_mem 600 demo_ring_mem demo_vq (repeat (mkiov 0 0) 256) 3 = Ub.
Proof.
  assert (F3 : desc_flags demo_ring_mem (desc demo_vring) 3 = Ret 1) by (vm_compute; reflexivity).
  assert (N3 : desc_next demo_ring_mem (desc demo_vring) 3 = Ret 3) by (vm_compute; reflexivity).
  refine (proj1 (descriptor_loop_overflows demo_mem demo_ring_mem 600 demo_vq (repeat (mkiov 0 0) 256)
    (fun j => j = 3) 3 1 demo_ring_mem_ok _ _ _ F3 eq_refl eq_refl _)).
  - rewrite repeat_length. lia.
  - rewrite repeat_length. lia.
  - cbn. lia.
  - intros j -> e (_ & _ & C & D). cbn [demo_vq vq_vring] in *. rewrite F3 in C.
    injection C as C. rewrite <- C in *. specialize (D eq_refl). rewrite N3 in D.
    injection D as <-. cbn. repeat split; lia.
Defined.

(** ** The rings as queues *)

(** The rings of a set-up queue: mapped, apart from each other, and of a size
    that divides 2^16 (the specification asks for a power of two). *)
Record ring_wf (m : hmem) (vr : vring) : Prop := {
  wf_num : 0 < num vr < 65536;
  wf_div : (num vr | 2 ^ 16);
  wf_null : avail vr <> 0;
  wf_avail : field m (Z.to_nat (6 + 2 * num vr)) (avail vr);
  wf_used : field m (Z.to_nat (6 + 8 * num vr)) (used vr);
  wf_apart : avail vr + 6 + 2 * num vr <= used vr \/ used vr + 6 + 8 * num vr <= avail vr;
}.

(** What the driver does to offer a head (specification, 2.6.13): the entry,
    then the index. *)
Definition driver_publish (m : hmem) (vr : vring) (h : Z) : out hmem :=
  let! idx := load 2 m (avail_idx vr) in
  let! m := store 2 m (avail_ring vr (idx mod num vr)) h in
  store 2 m (avail_idx vr) (u16 (idx + 1)).

(** [q] are the heads offered and not yet taken. *)
Record avail_rel (m : hmem) (vr : vring) (last : Z) (q : list Z) : Prop := {
  av_last : fits 16 last;
  av_len : Z.of_nat (length q) <= num vr;
  av_idx : load 2 m (avail_idx vr) = Ret (u16 (last + Z.of_nat (length q)));
  av_slot : forall k h, q !! k = Some h ->
    load 2 m (avail_ring vr ((last + Z.of_nat k) mod num vr)) = Ret h;
}.

(** The used ring holds the last elements of [l], the first of which went into
    the slot of index [base]. *)
Definition slots_hold (m : hmem) (vr : vring) (base : Z) (l : list (Z * Z)) : Prop :=
  forall k e, l !! k = Some e -> Z.of_nat (length l) - num vr <= Z.of_nat k ->
    load 4 m (used_ring vr ((base + Z.of_nat k) mod num vr)) = Ret (fst e) /\
    load 4 m (used_ring vr ((base + Z.of_nat k) mod num vr) + 4) = Ret (snd e).

(** [done] are the elements handed back since the used index was [base]. *)
Record used_rel (m : hmem) (vr : vring) (base : Z) (done : list (Z * Z)) : Prop := {
  us_idx : load 2 m (used_idx vr) = Ret (u16 (base + Z.of_nat (length done)));
  us_slot : slots_hold m vr base done;
}.

Lemma ring_wf_store n m a x m' vr : store n m a x = Ret m' -> ring_wf m vr -> ring_wf m' vr.
Proof.
  intros H [? ? ? ? ? ?]. split; try assumption; now apply (field_store _ _ _ _ _ _ _ H).
Qed.

Lemma u16_mod vr x : (num vr | 2 ^ 16) -> u16 x mod num vr = x mod num vr.
Proof. intros D. unfold wrap. now apply Z.mod_mod_divide. Qed.

Lemma mod_apart n a b : 0 < b - a < n -> a mod n <> b mod n.
Proof.
  intros H E. assert (F : (b - a) mod n = 0) by (rewrite Zminus_mod, E, Z.sub_diag; apply Z.mod_0_l; lia).
  rewrite Z.mod_small in F; lia.
Qed.

(** A stretch of memory that keeps its fields. *)
Definition same_at (m m' : hmem) (a len : Z) : Prop :=
  forall n b, a <= b -> b + Z.of_nat n <= a + len -> load n m' b = load n m b.

Lemma same_at_store n m a x m' b len :
  store n m a x = Ret m' -> a + Z.of_nat n <= b \/ b + len <= a -> same_at m m' b len.
Proof. intros H D k c Hc1 Hc2. apply (load_store_other _ _ _ _ _ _ _ H). lia. Qed.

Lemma same_at_trans m1 m2 m3 a len :
  same_at m1 m2 a len -> same_at m2 m3 a len -> same_at m1 m3 a len.
Proof. intros A B n b H1 H2. rewrite (B n b H1 H2). exact (A n b H1 H2). Qed.

Section rings.
Context (vr : vring) (Hnum : 0 < num vr) (Hdiv : (num vr | 2 ^ 16)).

Lemma slot_range x : 0 <= x mod num vr < num vr.
Proof. now apply Z.mod_pos_bound. Qed.

Lemma avail_rel_same m m' last q :
  same_at m m' (avail vr) (4 + 2 * num vr) -> avail_rel m vr last q -> avail_rel m' vr last q.
Proof.
  intros S [F L I Sl]. split; [exact F|exact L| |].
  - rewrite S; [exact I|unfold avail_idx; lia|unfold avail_idx; lia].
  - intros k h E. pose proof (slot_range (last + Z.of_nat k)).
    rewrite S; [now apply Sl|unfold avail_ring; lia|unfold avail_ring; lia].
Qed.

Lemma slots_hold_same m m' base l :
  same_at m m' (used vr + 4) (8 * num vr) -> slots_hold m vr base l -> slots_hold m' vr base l.
Proof.
  intros S Sl k e E K. pose proof (slot_range (base + Z.of_nat k)).
  rewrite !S; [now apply Sl|unfold used_ring; lia..].
Qed.

Lemma used_rel_same m m' base done :
  same_at m m' (used vr) (4 + 8 * num vr) -> used_rel m vr base done -> used_rel m' vr base done.
Proof.
  intros S [I Sl]. split.
  - rewrite S; [exact I|unfold used_idx; lia|unfold used_idx; lia].
  - apply (slots_hold_same m); [|exact Sl]. intros n b H1 H2. apply S; lia.
Qed.

Lemma avail_field m i : ring_wf m vr -> 0 <= i < num vr -> field m 2 (avail_ring vr i).
Proof.
  intros W Hi. apply (field_sub _ _ _ _ _ (wf_avail _ _ W)); unfold avail_ring; lia.
Qed.

Lemma avail_idx_field m : ring_wf m vr -> field m 2 (avail_idx vr).
Proof. intros W. apply (field_sub _ _ _ _ _ (wf_avail _ _ W)); unfold avail_idx; lia. Qed.

Lemma used_field m i k d :
  ring_wf m vr -> 0 <= i < num vr -> 0 <= d -> d + Z.of_nat k <= 8 -> field m k (used_ring vr i + d).
Proof.
  intros W Hi Hd Hk. apply (field_sub _ _ _ _ _ (wf_used _ _ W)); unfold used_ring; lia.
Qed.

Lemma used_idx_field m : ring_wf m vr -> field m 2 (used_idx vr).
Proof. intros W. apply (field_sub _ _ _ _ _ (wf_used _ _ W)); unfold used_idx; lia. Qed.

Lemma avail_event_field m : ring_wf m vr -> field m 2 (avail_event vr).
Proof.
  intros W. apply (field_sub _ _ _ _ _ (wf_used _ _ W)); unfold avail_event, used_ring; lia.
Qed.

Lemma publish_spec m last q h :
  ring_wf m vr -> avail_rel m vr last q -> Z.of_nat (length q) < num vr -> fits 16 h ->
  exists m', driver_publish m vr h = Ret m' /\ ring_wf m' vr /\
    avail_rel m' vr last (q ++ [h]) /\ same_at m m' (used vr) (6 + 8 * num vr).
Proof.
  intros W [F L I Sl] Hq Hh. unfold driver_publish. rewrite I, u16_mod by exact Hdiv.
  set (e := last + Z.of_nat (length q)). pose proof (slot_range e) as R.
  destruct (store_field 2 m (avail_ring vr (e mod num vr)) h) as [m1 E1]; [now apply avail_field|].
  rewrite E1. pose proof (ring_wf_store _ _ _ _ _ _ E1 W) as W1.
  destruct (store_field 2 m1 (avail_idx vr) (u16 (u16 e + 1))) as [m2 E2]; [now apply avail_idx_field|].
  exists m2. split; [exact E2|]. split; [exact (ring_wf_store _ _ _ _ _ _ E2 W1)|]. split.
  - split; [exact F|rewrite length_app; cbn; lia| |].
    + rewrite (load_store_same _ _ _ _ _ E2). f_equal. change (8 * Z.of_nat 2) with 16.
      rewrite wrap_wrap, wrap_add_l, length_app by lia. f_equal. cbn. unfold e. lia.
    + intros k x Hk. pose proof (slot_range (last + Z.of_nat k)).
      rewrite (load_store_other _ _ _ _ _ _ _ E2) by (unfold avail_idx, avail_ring; lia).
      apply lookup_app_Some in Hk. destruct Hk as [Hk|[Hk1 Hk2]].
      * rewrite (load_store_other _ _ _ _ _ _ _ E1); [now apply Sl|].
        pose proof (lookup_lt_Some _ _ _ Hk).
        pose proof (mod_apart (num vr) (last + Z.of_nat k) e ltac:(unfold e; lia)). unfold avail_ring. lia.
      * assert (k = length q) as ->.
        { destruct (k - length q)%nat eqn:Ek; [lia|discriminate]. }
        rewrite Nat.sub_diag in Hk2. injection Hk2 as <-. fold e.
        rewrite (load_store_same _ _ _ _ _ E1). f_equal. now apply wrap_id.
  - pose proof (wf_apart _ _ W). eapply same_at_trans.
    + apply (same_at_store _ _ _ _ _ _ _ E1). unfold avail_ring. lia.
    + apply (same_at_store _ _ _ _ _ _ _ E2). unfold avail_idx. lia.
Qed.

Lemma available_spec m vq q :
  ring_wf m vr -> vq_vring vq = vr -> avail_rel m vr (last_avail_idx vq) q ->
  exists m', virt_queue__available m vq = Ret (negb (bool_decide (q = [])), m') /\
    ring_wf m' vr /\ avail_rel m' vr (last_avail_idx vq) q /\
    same_at m m' (used vr) (4 + 8 * num vr) /\
    (use_event_idx vq = true -> load 2 m' (avail_event vr) = Ret (last_avail_idx vq)).
Proof.
  intros W E A. unfold virt_queue__available. rewrite E.
  rewrite (proj2 (Z.eqb_neq _ _) (wf_null _ _ W)).
  assert (Idx : forall m', avail_rel m' vr (last_avail_idx vq) q ->
    (let! idx := load 2 m' (avail_idx vr) in Ret (negb (idx =? last_avail_idx vq), m')) =
    Ret (negb (bool_decide (q = [])), m')).
  { intros m' [F L I _]. rewrite I. do 3 f_equal. pose proof (wf_num _ _ W) as Hw. unfold fits in F.
    apply Bool.eq_iff_eq_true. rewrite Z.eqb_eq, bool_decide_eq_true. split.
    - intros H. destruct q; [reflexivity|]. exfalso. cbn [length] in *. revert H. unfold wrap.
      destruct (Z.ltb_spec (last_avail_idx vq + Z.of_nat (S (length q))) (2 ^ 16)) as [C|C].
      + rewrite Z.mod_small by lia. lia.
      + rewrite (Z.mod_eq _ (2 ^ 16)) by lia.
        rewrite <- (Z.div_unique _ (2 ^ 16) 1 (last_avail_idx vq + Z.of_nat (S (length q)) - 2 ^ 16)) by lia.
        lia.
    - intros ->. cbn. rewrite Z.add_0_r. now apply wrap_id. }
  destruct (use_event_idx vq).
  - destruct (store_field 2 m (avail_event vr) (last_avail_idx vq)) as [m1 E1]; [now apply avail_event_field|].
    rewrite E1. exists m1. assert (A1 : avail_rel m1 vr (last_avail_idx vq) q).
    { apply (avail_rel_same m); [|exact A]. apply (same_at_store _ _ _ _ _ _ _ E1).
      pose proof (wf_apart _ _ W). unfold avail_event, used_ring. lia. }
    split; [now apply Idx|]. split; [exact (ring_wf_store _ _ _ _ _ _ E1 W)|]. split; [exact A1|]. split.
    + apply (same_at_store _ _ _ _ _ _ _ E1). unfold avail_event, used_ring. lia.
    + intros _. rewrite (load_store_same _ _ _ _ _ E1). f_equal. apply wrap_id, A.
  - exists m. split; [now apply Idx|]. split; [exact W|]. split; [exact A|]. split; [|discriminate].
    intros n b _ _. reflexivity.
Qed.

Lemma pop_spec m vq h q :
  ring_wf m vr -> vq_vring vq = vr -> avail_rel m vr (last_avail_idx vq) (h :: q) ->
  let vq' := set_last_avail vq (u16 (last_avail_idx vq + 1)) in
  virt_queue__pop m vq = Ret (h, vq') /\ avail_rel m vr (last_avail_idx vq') q.
Proof.
  intros W E [F L I Sl] vq'. split.
  - unfold virt_queue__pop, umod. rewrite E. rewrite (proj2 (Z.eqb_neq (num vr) 0)) by lia.
    specialize (Sl 0%nat h eq_refl). change (Z.of_nat 0) with 0 in Sl. rewrite Z.add_0_r in Sl. now rewrite Sl.
  - cbn [vq' set_last_avail last_avail_idx length] in *. split.
    + apply wrap_fits. lia.
    + lia.
    + rewrite I, wrap_add_l. do 2 f_equal. lia.
    + intros k x Hk. specialize (Sl (S k) x Hk). rewrite <- Sl. f_equal. f_equal.
      rewrite <- (u16_mod vr (_ + Z.of_nat k)) by exact Hdiv. rewrite wrap_add_l, u16_mod by exact Hdiv.
      f_equal. lia.
Qed.

Lemma set_elem_no_update_spec m vq b head len off :
  ring_wf m vr -> vq_vring vq = vr -> load 2 m (used_idx vr) = Ret (u16 b) -> 0 <= off ->
  exists m', virt_queue__set_used_elem_no_update m vq head len off = Ret m' /\
    ring_wf m' vr /\ same_at m m' (avail vr) (6 + 2 * num vr) /\
    same_at m m' (used_idx vr) 2 /\
    (let i := (b + off) mod num vr in
     load 4 m' (used_ring vr i) = Ret (u32 head) /\ load 4 m' (used_ring vr i + 4) = Ret (u32 len) /\
     forall j, 0 <= j < num vr -> j <> i -> same_at m m' (used_ring vr j) 8).
Proof.
  intros W E I Ho. unfold virt_queue__set_used_elem_no_update, umod. rewrite E, I.
  rewrite (proj2 (Z.eqb_neq (num vr) 0)) by lia. rewrite wrap_add_l, u16_mod by exact Hdiv.
  set (i := (b + off) mod num vr). pose proof (slot_range (b + off)) as R.
  fold i in R. pose proof (wf_apart _ _ W).
  destruct (store_field 4 m (used_ring vr i) head) as [m1 E1].
  { rewrite <- (Z.add_0_r (used_ring vr i)). apply (used_field m i 4 0); auto; lia. }
  rewrite E1. pose proof (ring_wf_store _ _ _ _ _ _ E1 W) as W1.
  destruct (store_field 4 m1 (used_ring vr i + 4) len) as [m2 E2]; [apply (used_field m1 i 4 4); auto; lia|].
  exists m2. split; [exact E2|]. split; [exact (ring_wf_store _ _ _ _ _ _ E2 W1)|].
  assert (Same : forall a n, a + n <= used_ring vr i \/ used_ring vr i + 8 <= a -> same_at m m2 a n).
  { intros a n D. eapply same_at_trans;
      [apply (same_at_store _ _ _ _ _ _ _ E1)|apply (same_at_store _ _ _ _ _ _ _ E2)]; lia. }
  split; [|split; [|split; [|split]]].
  - apply Same. unfold used_ring. lia.
  - apply Same. unfold used_idx, used_ring. lia.
  - rewrite (load_store_other _ _ _ _ _ _ _ E2) by lia. exact (load_store_same _ _ _ _ _ E1).
  - exact (load_store_same _ _ _ _ _ E2).
  - intros j Hj N. apply Same. unfold used_ring. lia.
Qed.

Lemma idx_advance_spec m vq b jump :
  ring_wf m vr -> vq_vring vq = vr -> load 2 m (used_idx vr) = Ret (u16 b) ->
  exists m', virt_queue__used_idx_advance m vq jump = Ret m' /\ ring_wf m' vr /\
    same_at m m' (avail vr) (6 + 2 * num vr) /\ same_at m m' (used vr + 4) (8 * num vr) /\
    load 2 m' (used_idx vr) = Ret (u16 (b + jump)).
Proof.
  intros W E I. unfold virt_queue__used_idx_advance. rewrite E, I. pose proof (wf_apart _ _ W).
  rewrite wrap_add_l.
  destruct (store_field 2 m (used_idx vr) (u16 (b + jump))) as [m' E'];
    [now apply used_idx_field|].
  exists m'. split; [exact E'|]. split; [exact (ring_wf_store _ _ _ _ _ _ E' W)|].
  split; [|split]; try (apply (same_at_store _ _ _ _ _ _ _ E'); unfold used_idx; lia).
  rewrite (load_store_same _ _ _ _ _ E'). f_equal. now apply wrap_wrap.
Qed.

(** An element written without an update of the index, [off] places ahead. *)
Lemma no_update_append m vq base n0 l head len off :
  ring_wf m vr -> vq_vring vq = vr -> load 2 m (used_idx vr) = Ret (u16 (base + n0)) ->
  slots_hold m vr base l -> 0 <= off -> n0 + off = Z.of_nat (length l) ->
  exists m', virt_queue__set_used_elem_no_update m vq head len off = Ret m' /\
    ring_wf m' vr /\ same_at m m' (avail vr) (6 + 2 * num vr) /\
    load 2 m' (used_idx vr) = Ret (u16 (base + n0)) /\
    slots_hold m' vr base (l ++ [(u32 head, u32 len)]).
Proof.
  intros W E I Sl Ho Hl.
  destruct (set_elem_no_update_spec m vq (base + n0) head len off W E I Ho)
    as (m' & E' & W' & SA & SI & L1 & L2 & So).
  exists m'. split; [exact E'|]. split; [exact W'|]. split; [exact SA|]. split.
  - rewrite <- I. apply SI; lia.
  - replace (base + n0 + off) with (base + Z.of_nat (length l)) in * by lia.
    intros k e Hk K. rewrite length_app in K. cbn in K.
    apply lookup_app_Some in Hk. destruct Hk as [Hk|[Hk1 Hk2]].
    + pose proof (lookup_lt_Some _ _ _ Hk).
      pose proof (mod_apart (num vr) (base + Z.of_nat k) (base + Z.of_nat (length l)) ltac:(lia)) as N.
      rewrite !(So _ (slot_range _) N) by lia. apply Sl; [exact Hk|lia].
    + assert (k = length l) as ->.
      { destruct (k - length l)%nat eqn:Ek; [lia|discriminate]. }
      rewrite Nat.sub_diag in Hk2. injection Hk2 as <-. auto.
Qed.

Lemma advance_rel m vq base n0 l jump :
  ring_wf m vr -> vq_vring vq = vr -> load 2 m (used_idx vr) = Ret (u16 (base + n0)) ->
  slots_hold m vr base l -> n0 + jump = Z.of_nat (length l) ->
  exists m', virt_queue__used_idx_advance m vq jump = Ret m' /\ ring_wf m' vr /\
    same_at m m' (avail vr) (6 + 2 * num vr) /\ used_rel m' vr base l.
Proof.
  intros W E I Sl Hl. destruct (idx_advance_spec m vq (base + n0) jump W E I)
    as (m' & E' & W' & SA & SU & I'). exists m'. do 3 (split; [assumption|]). split.
  - rewrite I'. do 2 f_equal. lia.
  - now apply (slots_hold_same m).
Qed.

Lemma set_used_elem_spec m vq base done head len :
  ring_wf m vr -> vq_vring vq = vr -> used_rel m vr base done ->
  exists m', virt_queue__set_used_elem m vq head len = Ret m' /\ ring_wf m' vr /\
    same_at m m' (avail vr) (6 + 2 * num vr) /\
    used_rel m' vr base (done ++ [(u32 head, u32 len)]).
Proof.
  intros W E [I Sl]. unfold virt_queue__set_used_elem.
  destruct (no_update_append m vq base _ done head len 0 W E I Sl) as (m1 & -> & W1 & S1 & I1 & Sl1); [lia..|].
  destruct (advance_rel m1 vq base _ _ 1 W1 E I1 Sl1) as (m2 & -> & W2 & S2 & U2).
  { rewrite length_app. cbn. lia. }
  exists m2. repeat (split; [assumption || reflexivity|]). split; [|exact U2].
  exact (same_at_trans _ _ _ _ _ S1 S2).
Qed.
End rings.

(** The runs of a queue that starts empty in memory [m0]: the driver offers
    heads while there is room, the device asks and takes, the device hands
    elements back, and either side writes outside the rings. [pub], [taken] and
    [done] are what was offered, taken and handed back so far. *)
Inductive qreach (m0 : hmem) (vq0 : virt_queue) :
  list Z -> list Z -> list (Z * Z) -> hmem -> virt_queue -> Prop :=
| q_init : qreach m0 vq0 [] [] [] m0 vq0
| q_publish pub taken done m vq h m' :
    qreach m0 vq0 pub taken done m vq ->
    Z.of_nat (length pub) < Z.of_nat (length taken) + num (vq_vring vq) -> fits 16 h ->
    driver_publish m (vq_vring vq) h = Ret m' ->
    qreach m0 vq0 (pub ++ [h]) taken done m' vq
| q_take pub taken done m vq m1 h vq' :
    qreach m0 vq0 pub taken done m vq ->
    virt_queue__available m vq = Ret (true, m1) -> virt_queue__pop m1 vq = Ret (h, vq') ->
    qreach m0 vq0 pub (taken ++ [h]) done m1 vq'
| q_idle pub taken done m vq m1 :
    qreach m0 vq0 pub taken done m vq ->
    virt_queue__available m vq = Ret (false, m1) ->
    qreach m0 vq0 pub taken done m1 vq
| q_done pub taken done m vq head len m' :
    qreach m0 vq0 pub taken done m vq ->
    virt_queue__set_used_elem m vq head len = Ret m' ->
    qreach m0 vq0 pub taken (done ++ [(u32 head, u32 len)]) m' vq
| q_data pub taken done m vq n a x m' :
    qreach m0 vq0 pub taken done m vq -> store n m a x = Ret m' ->
    (let vr := vq_vring vq in
     (a + Z.of_nat n <= avail vr \/ avail vr + 6 + 2 * num vr <= a) /\
     (a + Z.of_nat n <= used vr \/ used vr + 6 + 8 * num vr <= a)) ->
    qreach m0 vq0 pub taken done m' vq.

Record qinv (vr : vring) (base : Z) (pub taken : list Z) (done : list (Z * Z))
  (m : hmem) (vq : virt_queue) (q : list Z) : Prop := {
  qi_vr : vq_vring vq = vr;
  qi_wf : ring_wf m vr;
  qi_pub : pub = taken ++ q;
  qi_avail : avail_rel m vr (last_avail_idx vq) q;
  qi_used : used_rel m vr base done;
}.

Lemma qreach_inv m0 vq0 vr base pub taken done m vq :
  vq_vring vq0 = vr -> ring_wf m0 vr -> avail_rel m0 vr (last_avail_idx vq0) [] ->
  used_rel m0 vr base [] ->
  qreach m0 vq0 pub taken done m vq -> exists q, qinv vr base pub taken done m vq q.
Proof.
  intros E0 W0 A0 U0 R. pose proof (wf_num _ _ W0) as Hnum. pose proof (wf_div _ _ W0) as Hdiv.
  assert (Hn : 0 < num vr) by lia. clear Hnum.
  induction R as [|pub taken done m vq h m' R [q IH] Room Fh P|pub taken done m vq m1 h vq' R [q IH] Av P
    |pub taken done m vq m1 R [q IH] Av|pub taken done m vq head len m' R [q IH] S
    |pub taken done m vq n a x m' R [q IH] S [D1 D2]]; [exists []; now split|..];
    destruct IH as [E W -> A U]; rewrite ?E in *.
  - destruct (publish_spec vr Hn Hdiv m _ q h W A) as (m'' & P' & W' & A' & SU);
      [rewrite length_app in Room; lia|exact Fh|].
    rewrite P in P'. injection P' as <-. exists (q ++ [h]).
    split; [exact E|exact W'|now rewrite app_assoc|exact A'|].
    apply (used_rel_same vr Hn m); [|exact U]. intros k b H1 H2. apply SU; lia.
  - destruct (available_spec vr Hn m vq q W E A) as (m'' & Av' & W' & A' & SU & _).
    rewrite Av in Av'. injection Av' as Eq <-. destruct q as [|h' q]; [discriminate|].
    destruct (pop_spec vr Hn Hdiv m1 vq h' q W' E A') as [P' A''].
    rewrite P in P'. injection P' as -> ->. exists q.
    split; [exact E|exact W'|now rewrite <- app_assoc|exact A''|].
    exact (used_rel_same vr Hn m m1 _ _ SU U).
  - destruct (available_spec vr Hn m vq q W E A) as (m'' & Av' & W' & A' & SU & _).
    rewrite Av in Av'. injection Av' as Eq <-. exists q. split; auto.
    exact (used_rel_same vr Hn m m1 _ _ SU U).
  - destruct (set_used_elem_spec vr Hn Hdiv m vq base done head len W E U) as (m'' & S' & W' & SA & U').
    rewrite S in S'. injection S' as <-. exists q. split; auto.
    apply (avail_rel_same vr Hn m); [|exact A]. intros k b H1 H2. apply SA; lia.
  - exists q. split; auto; [exact (ring_wf_store _ _ _ _ _ _ S W)| |].
    + apply (avail_rel_same vr Hn m); [|exact A]. apply (same_at_store _ _ _ _ _ _ _ S). lia.
    + apply (used_rel_same vr Hn m); [|exact U]. apply (same_at_store _ _ _ _ _ _ _ S). lia.
Qed.

(** The elements a device hands back in one batch: written ahead, published by
    one update of the index (the receive path of [virtio/net.c]). *)
Fixpoint set_used_elems (m : hmem) (vq : virt_queue) (es : list (Z * Z)) (off : Z) : out hmem :=
  match es with
  | [] => Ret m
  | (head, len) :: es =>
      let! m := virt_queue__set_used_elem_no_update m vq head len off in
      set_used_elems m vq es (off + 1)
  end.

Definition elem32 (e : Z * Z) : Z * Z := (u32 (fst e), u32 (snd e)).

Lemma set_used_elems_spec vr m vq base n0 l es off :
  0 < num vr -> (num vr | 2 ^ 16) ->
  ring_wf m vr -> vq_vring vq = vr -> load 2 m (used_idx vr) = Ret (u16 (base + n0)) ->
  slots_hold m vr base l -> 0 <= off -> n0 + off = Z.of_nat (length l) ->
  exists m', set_used_elems m vq es off = Ret m' /\ ring_wf m' vr /\
    load 2 m' (used_idx vr) = Ret (u16 (base + n0)) /\
    same_at m m' (avail vr) (6 + 2 * num vr) /\
    slots_hold m' vr base (l ++ map elem32 es).
Proof.
  intros Hn Hdiv. revert m l off. induction es as [|[head len] es IH]; intros m l off W E I Sl Ho Hl; cbn.
  - exists m. rewrite app_nil_r. repeat (split; [assumption || reflexivity|]).
    split; [intros n b _ _; reflexivity|exact Sl].
  - destruct (no_update_append vr Hn Hdiv m vq base n0 l head len off W E I Sl Ho Hl)
      as (m1 & -> & W1 & S1 & I1 & Sl1).
    destruct (IH m1 (l ++ [(u32 head, u32 len)]) (off + 1) W1 E I1 Sl1) as (m2 & E2 & W2 & I2 & S2 & Sl2);
      [lia|rewrite length_app; cbn; lia|].
    exists m2. repeat (split; [assumption|]). split; [exact (same_at_trans _ _ _ _ _ S1 S2)|].
    now rewrite <- app_assoc in Sl2.
Qed.

Definition start_vdev : virtio_device := mkvdev false 1 0 0.

(** C6. A queue is two first-in first-out channels. In every run of driver and
    device from an empty queue, the heads the device has taken are the first of
    those the driver offered, in order; the queue reports something available
    exactly when some are left, and then the next one is taken without fault;
    what was handed back stands in the used ring in order, under the index the
    driver reads; and handing back another element succeeds. *)
Theorem virtqueue_fifo m0 vq0 vr base pub taken done m vq :
  vq_vring vq0 = vr -> ring_wf m0 vr -> avail_rel m0 vr (last_avail_idx vq0) [] ->
  used_rel m0 vr base [] ->
  qreach m0 vq0 pub taken done m vq ->
  exists q, pub = taken ++ q /\ Z.of_nat (length q) <= num vr /\
    (exists m1, virt_queue__available m vq = Ret (negb (bool_decide (q = [])), m1) /\
       (use_event_idx vq = true -> load 2 m1 (avail_event vr) = Ret (last_avail_idx vq)) /\
       match q with
       | [] => True
       | h :: _ => exists vq', virt_queue__pop m1 vq = Ret (h, vq')
       end) /\
    used_rel m vr base done /\
    (forall head len, exists m', virt_queue__set_used_elem m vq head len = Ret m').
Proof.
  intros E0 W0 A0 U0 R. destruct (qreach_inv _ _ _ _ _ _ _ _ _ E0 W0 A0 U0 R) as [q [E W P A U]].
  pose proof (wf_num _ _ W) as Hn. pose proof (wf_div _ _ W) as Hdiv.
  exists q. split; [exact P|]. split; [apply A|]. split; [|split; [exact U|]].
  - destruct (available_spec vr ltac:(lia) m vq q W E A) as (m1 & Av & W1 & A1 & _ & Ev).
    exists m1. split; [exact Av|]. split; [exact Ev|]. destruct q as [|h q]; [exact I|].
    destruct (pop_spec vr ltac:(lia) Hdiv m1 vq h q W1 E A1) as [P1 _]. eauto.
  - intros head len. destruct (set_used_elem_spec vr ltac:(lia) Hdiv m vq base done head len W E U)
      as (m' & S & _). eauto.
Qed.

(** Handing elements back in a batch (each written ahead of the index, then
    one update of it by their number) publishes exactly what handing them back
    one at a time does; until the update the index that the driver reads does
    not move. *)
Theorem used_ring_batch m vq base done es :
  let vr := vq_vring vq in
  ring_wf m vr -> used_rel m vr base done ->
  (exists m1 m2, set_used_elems m vq es 0 = Ret m1 /\
    load 2 m1 (used_idx vr) = load 2 m (used_idx vr) /\
    virt_queue__used_idx_advance m1 vq (Z.of_nat (length es)) = Ret m2 /\
    used_rel m2 vr base (done ++ map elem32 es) /\ same_at m m2 (avail vr) (6 + 2 * num vr)) /\
  (exists m3, foldl (fun r e => let! m := r in virt_queue__set_used_elem m vq (fst e) (snd e)) (Ret m) es = Ret m3 /\
    used_rel m3 vr base (done ++ map elem32 es) /\ same_at m m3 (avail vr) (6 + 2 * num vr)).
Proof.
  intros vr W U. pose proof (wf_num _ _ W) as Hn. pose proof (wf_div _ _ W) as Hdiv. split.
  - destruct U as [I Sl].
    destruct (set_used_elems_spec vr m vq base _ done es 0 ltac:(lia) Hdiv W eq_refl I Sl)
      as (m1 & E1 & W1 & I1 & S1 & Sl1); [lia..|].
    destruct (advance_rel vr ltac:(lia) m1 vq base _ _ (Z.of_nat (length es)) W1 eq_refl I1 Sl1)
      as (m2 & E2 & _ & S2 & U2). { rewrite length_app, length_map. lia. }
    exists m1, m2. repeat (split; [assumption || congruence|]). exact (same_at_trans _ _ _ _ _ S1 S2).
  - assert (Id : same_at m m (avail vr) (6 + 2 * num vr)) by (intros n b _ _; reflexivity).
    revert Id U W. generalize m at 2 3 4 5 as m1. revert done. induction es as [|[h n] es IH]; intros done m1 Id U W; cbn.
    + exists m1. rewrite app_nil_r. auto.
    + destruct (set_used_elem_spec vr ltac:(lia) Hdiv m1 vq base done h n W eq_refl U) as (m2 & E2 & W2 & S2 & U2).
      rewrite E2. destruct (IH _ m2 (same_at_trans _ _ _ _ _ Id S2) U2 W2) as (m3 & E3 & U3 & S3).
      exists m3. split; [exact E3|]. rewrite <- app_assoc in U3. auto.
Qed.

Lemma demo_ring_wf : ring_wf demo_ring_mem demo_vring.
Proof.
  split; cbn; try lia.
  - exists (2 ^ 14). reflexivity.
  - apply (bool_decide_eq_true_1 (field demo_ring_mem 14 (2 ^ 40 + 64))). vm_compute. reflexivity.
  - apply (bool_decide_eq_true_1 (field demo_ring_mem 38 (2 ^ 40 + 80))). vm_compute. reflexivity.
Qed.

(** The demonstration queue before the driver offered anything. *)
Definition empty_ring_mem : hmem :=
  match store 2 demo_ring_mem (avail_idx demo_vring) 0 with Ret m => m | _ => demo_ring_mem end.

Lemma empty_ring_store : store 2 demo_ring_mem (avail_idx demo_vring) 0 = Ret empty_ring_mem.
Proof.
  destruct (store_field 2 demo_ring_mem (avail_idx demo_vring) 0) as [m E];
    [apply (avail_idx_field demo_vring); [cbn; lia|exact demo_ring_wf]|].
  unfold empty_ring_mem. now rewrite E.
Qed.

Lemma empty_ring_wf : ring_wf empty_ring_mem demo_vring.
Proof. exact (ring_wf_store _ _ _ _ _ _ empty_ring_store demo_ring_wf). Qed.

Lemma empty_ring_avail : avail_rel empty_ring_mem demo_vring 0 [].
Proof. split; [split; cbn; lia|cbn; lia|vm_compute; reflexivity|]. intros k h Hk. discriminate. Qed.

Lemma empty_ring_used : used_rel empty_ring_mem demo_vring 0 [].
Proof. split; [vm_compute; reflexivity|]. intros k e Hk. discriminate. Qed.

Lemma virtqueue_fifo_witness :
  exists m m1 vq', driver_publish empty_ring_mem demo_vring 2 = Ret m /\
    virt_queue__available m demo_vq = Ret (true, m1) /\
    virt_queue__pop m1 demo_vq = Ret (2, vq').
Proof.
  destruct (publish_spec demo_vring ltac:(cbn; lia) (wf_div _ _ demo_ring_wf) _ 0 [] 2
    empty_ring_wf empty_ring_avail ltac:(cbn; lia) ltac:(split; cbn; lia)) as (m & P & _).
  assert (R : qreach empty_ring_mem demo_vq [2] [] [] m demo_vq).
  { apply (q_publish _ _ [] [] [] empty_ring_mem demo_vq 2 m); [constructor|cbn; lia|split; cbn; lia|exact P]. }
  destruct (virtqueue_fifo empty_ring_mem demo_vq demo_vring 0 [2] [] [] m demo_vq eq_refl
    empty_ring_wf empty_ring_avail empty_ring_used R) as (q & Q & _ & (m1 & Av & _ & Po) & _).
  cbn in Q. subst q. cbv beta iota in Po. destruct Po as [vq' Po]. exists m, m1, vq'.
  split; [exact P|]. split; [exact Av|exact Po].
Defined.

Lemma used_ring_batch_witness :
  exists m1 m2, set_used_elems empty_ring_mem demo_vq [(2, 512); (1, 48)] 0 = Ret m1 /\
    virt_queue__used_idx_advance m1 demo_vq 2 = Ret m2 /\
    used_rel m2 demo_vring 0 [(2, 512); (1, 48)].
Proof.
  destruct (used_ring_batch empty_ring_mem demo_vq 0 [] [(2, 512); (1, 48)]
    empty_ring_wf empty_ring_used) as ((m1 & m2 & A & _ & B & C & _) & _).
  exists m1, m2. split; [exact A|]. split; [exact B|exact C].
Defined.

(** ** Interrupts *)

Section events.
Context (need : Z -> Z -> Z -> bool).

(** What the header documents of [vring_need_event]: in 16-bit arithmetic, the
    event lies among the indices from [old] up to but not including [new]. *)
Definition need_event_ok : Prop :=
  forall e n o, fits 16 e -> fits 16 n -> fits 16 o ->
    need e n o = (u16 (n - e - 1) <? u16 (n - o)).

Lemma need_event_window base s d e :
  need_event_ok -> fits 16 e -> 0 <= s <= d -> d - s < 2 ^ 16 ->
  need e (u16 (base + d)) (u16 (base + s)) = true <->
  exists j, s <= j < d /\ e = u16 (base + j).
Proof.
  intros N He Hs Hd. rewrite N by (try exact He; apply wrap_fits; lia).
  rewrite wrap_sub_l, wrap_sub_r.
  replace (u16 (u16 (base + d) - e - 1)) with (u16 (base + d - e - 1)).
  2:{ rewrite <- !Z.sub_add_distr. now rewrite wrap_sub_l. }
  replace (base + d - (base + s)) with (d - s) by lia. rewrite (wrap_id 16 (d - s)) by (unfold fits; lia).
  rewrite Z.ltb_lt. set (r := u16 (base + d - e - 1)).
  assert (Hr : fits 16 r) by (apply wrap_fits; lia). unfold fits in *. split.
  - intros H. exists (d - 1 - r). split; [lia|]. unfold r.
    replace (base + (d - 1 - u16 (base + d - e - 1))) with ((base + d - 1) - u16 (base + d - e - 1)) by lia.
    rewrite wrap_sub_r. replace (base + d - 1 - (base + d - e - 1)) with e by lia.
    symmetry. now apply wrap_id.
  - intros (j & Hj & ->). unfold r. rewrite <- Z.sub_add_distr.
    replace (base + d - (u16 (base + j) + 1)) with ((base + d - 1) - u16 (base + j)) by lia.
    rewrite wrap_sub_r. replace (base + d - 1 - (base + j)) with (d - 1 - j) by lia.
    rewrite wrap_id by (unfold fits; lia). lia.
Qed.
End events.

(** When the guest is interrupted. With event indices in use, after [d]
    elements of which the first [s] were already announced, the guest is
    interrupted exactly when the element it named in its event index is among
    those handed back since; the queue then remembers all [d] as announced, and
    otherwise stays as it is, so an element the guest waits for is announced
    once and not lost. Without event indices the guest is interrupted unless
    its flag forbids it. *)
Theorem should_signal_window need m vq base s done e :
  need_event_ok need -> mem_ok m ->
  let vr := vq_vring vq in
  let d := Z.of_nat (length done) in
  used_rel m vr base done ->
  last_used_signalled vq = u16 (base + s) -> 0 <= s <= d -> d - s < 2 ^ 16 ->
  load 2 m (used_event vr) = Ret e ->
  (use_event_idx vq = true ->
   exists b : bool, virtio_queue__should_signal need m vq =
     Ret (b, if b then set_last_signalled vq (u16 (base + d)) else vq) /\
   (b = true <-> exists j, s <= j < d /\ e = u16 (base + j))) /\
  (use_event_idx vq = false -> forall f, load 2 m (avail_flags vr) = Ret f ->
   virtio_queue__should_signal need m vq =
     Ret (negb (flag f VRING_AVAIL_F_NO_INTERRUPT), vq)).
Proof.
  intros N M vr d [I _] L Hs Hd Le. unfold virtio_queue__should_signal. fold vr. split.
  - intros ->. cbn [negb]. rewrite I, Le, L. fold d.
    exists (need e (u16 (base + d)) (u16 (base + s))). split.
    + now destruct (need e _ _).
    + apply need_event_window; auto. exact (load_fits 2 m _ _ M Le).
  - intros -> f Hf. cbn [negb]. now rewrite Hf.
Qed.

(** [vring_need_event] as the header documents it. *)
Definition need_event_doc (e n o : Z) : bool := u16 (n - e - 1) <? u16 (n - o).

Lemma set_used_elem_mem_ok m vq head len m' :
  virt_queue__set_used_elem m vq head len = Ret m' -> mem_ok m -> mem_ok m'.
Proof.
  unfold virt_queue__set_used_elem, virt_queue__set_used_elem_no_update, virt_queue__used_idx_advance, umod.
  intros H M. destruct (load 2 m _); try discriminate. destruct (num _ =? 0); [discriminate|].
  destruct (store 4 m _ _) as [m1| |] eqn:E1; try discriminate.
  destruct (store 4 m1 _ _) as [m2| |] eqn:E2; try discriminate.
  destruct (load 2 m2 _); try discriminate.
  apply (mem_ok_store _ _ _ _ _ (mem_ok_store _ _ _ _ _ (mem_ok_store _ _ _ _ _ M E1) E2) H).
Qed.

Lemma should_signal_window_witness :
  let vq := mkvq demo_vring 0 0 0 1 true true in
  exists m1, virt_queue__set_used_elem empty_ring_mem vq 2 512 = Ret m1 /\
    virtio_queue__should_signal need_event_doc m1 vq = Ret (true, set_last_signalled vq 1).
Proof.
  intros vq.
  assert (M0 : mem_ok empty_ring_mem) by exact (mem_ok_store _ _ _ _ _ demo_ring_mem_ok empty_ring_store).
  destruct (set_used_elem_spec demo_vring ltac:(cbn; lia) (wf_div _ _ demo_ring_wf) empty_ring_mem vq 0 [] 2 512
    empty_ring_wf eq_refl empty_ring_used) as (m1 & E & W & S & U).
  exists m1. split; [exact E|].
  assert (Ev : load 2 m1 (used_event demo_vring) = Ret 0).
  { rewrite S by (unfold used_event, avail_ring; cbn; lia). vm_compute. reflexivity. }
  destruct (should_signal_window need_event_doc m1 vq 0 0 [(2, 512)] 0) as [H _];
    [intros ? ? ? _ _ _; reflexivity|exact (set_used_elem_mem_ok _ _ _ _ _ E M0)|exact U|reflexivity
    |cbn; lia|cbn; lia|exact Ev|].
  destruct (H eq_refl) as (b & Hb & Iff). rewrite Hb.
  assert (b = true) as -> by (apply Iff; exists 0; cbn; split; [lia|reflexivity]). reflexivity.
Defined.

Lemma event_idx_bits f :
  flag f VIRTIO_RING_F_EVENT_IDX =
  (Z.testbit f 0 || Z.testbit f 2 || Z.testbit f 3 || Z.testbit f 4)%bool.
Proof.
  unfold flag, VIRTIO_RING_F_EVENT_IDX. apply Bool.eq_iff_eq_true.
  rewrite negb_true_iff, Z.eqb_neq, !orb_true_iff. split.
  - intros N. destruct (Z.testbit f 0) eqn:B0; [auto|]. destruct (Z.testbit f 2) eqn:B2; [auto|].
    destruct (Z.testbit f 3) eqn:B3; [auto|]. destruct (Z.testbit f 4) eqn:B4; [auto|].
    exfalso. apply N. apply Z.bits_inj'. intros i Hi. rewrite Z.land_spec, Z.bits_0.
    destruct (Z_lt_ge_dec i 5) as [L|G].
    + assert (i = 0 \/ i = 1 \/ i = 2 \/ i = 3 \/ i = 4) as [->|[->|[->|[->| ->]]]] by lia;
        rewrite ?B0, ?B2, ?B3, ?B4; try reflexivity. apply andb_false_r.
    + rewrite (fits_testbit 5 29 i) by (unfold fits; lia). apply andb_false_r.
  - intros H E.
    assert (B : forall k, Z.testbit f k = true -> Z.testbit 29 k = true -> False).
    { intros k Hf Hk. apply (f_equal (fun x => Z.testbit x k)) in E.
      rewrite Z.land_spec, Hf, Hk, Z.bits_0 in E. discriminate. }
    destruct H as [[[H|H]|H]|H]; exact (B _ H eq_refl).
Qed.

(** The feature test takes the number of the event-index feature for a
    mask. A queue uses event indices when the driver accepted any of the
    features 0, 2, 3 and 4, so a driver that accepts just the event-index
    feature (bit 29) does not get it; and a block driver that accepts only the
    segment limit (bit 2), and so leaves the event index 0 and never touches
    it, is not interrupted for any of the elements 2 to 65535 of its queue,
    though its flags ask for interrupts. *)
Theorem event_idx_feature_misread need m vdev vq done :
  need_event_ok need -> mem_ok m ->
  let vq' := virtio_init_device_vq vdev vq in
  let d := Z.of_nat (length done) in
  used_rel m (vq_vring vq) 0 done -> load 2 m (used_event (vq_vring vq)) = Ret 0 ->
  load 2 m (avail_flags (vq_vring vq)) = Ret 0 ->
  last_used_signalled vq = 1 -> 1 <= d < 2 ^ 16 ->
  use_event_idx vq' =
    (Z.testbit (features vdev) 0 || Z.testbit (features vdev) 2 ||
     Z.testbit (features vdev) 3 || Z.testbit (features vdev) 4)%bool /\
  (features vdev = 2 ^ 29 -> use_event_idx vq' = false) /\
  (features vdev = 2 ^ 2 -> virtio_queue__should_signal need m vq' = Ret (false, vq')).
Proof.
  intros N M vq' d [I _] Le _ L Hd. split; [apply event_idx_bits|]. split.
  - intros E. cbn. rewrite E. reflexivity.
  - intros E. unfold virtio_queue__should_signal.
    replace (use_event_idx vq') with true by (cbn; now rewrite E). cbn [negb].
    change (vq_vring vq') with (vq_vring vq). change (last_used_signalled vq') with (last_used_signalled vq).
    rewrite I, Le, L, N by (try (apply wrap_fits; lia); unfold fits; lia).
    fold d. rewrite (Z.add_0_l d), (wrap_id 16 d) by (unfold fits; lia).
    replace (d - 0 - 1) with (d - 1) by lia. now rewrite Z.ltb_irrefl.
Qed.

Lemma event_idx_feature_misread_witness :
  exists m1 m2 vq2, virt_queue__set_used_elem empty_ring_mem demo_vq 2 512 = Ret m1 /\
    virt_queue__set_used_elem m1 demo_vq 1 48 = Ret m2 /\
    vq2 = virtio_init_device_vq (mkvdev false 1 4 0) (set_last_signalled demo_vq 1) /\
    virtio_queue__should_signal need_event_doc m2 vq2 = Ret (false, vq2).
Proof.
  assert (M0 : mem_ok empty_ring_mem) by exact (mem_ok_store _ _ _ _ _ demo_ring_mem_ok empty_ring_store).
  destruct (set_used_elem_spec demo_vring ltac:(cbn; lia) (wf_div _ _ demo_ring_wf) empty_ring_mem demo_vq 0 [] 2 512
    empty_ring_wf eq_refl empty_ring_used) as (m1 & E1 & W1 & S1 & U1).
  destruct (set_used_elem_spec demo_vring ltac:(cbn; lia) (wf_div _ _ demo_ring_wf) m1 demo_vq 0 _ 1 48
    W1 eq_refl U1) as (m2 & E2 & _ & S2 & U2).
  exists m1, m2. eexists. split; [exact E1|]. split; [exact E2|]. split; [reflexivity|].
  apply (event_idx_feature_misread need_event_doc m2 (mkvdev false 1 4 0) (set_last_signalled demo_vq 1)
    [(2, 512); (1, 48)]).
  - intros ? ? ? _ _ _. reflexivity.
  - exact (set_used_elem_mem_ok _ _ _ _ _ E2 (set_used_elem_mem_ok _ _ _ _ _ E1 M0)).
  - exact U2.
  - cbn [set_last_signalled vq_vring demo_vq].
    rewrite (same_at_trans _ _ _ _ _ S1 S2) by (unfold used_event, avail_ring; cbn; lia).
    vm_compute. reflexivity.
  - cbn [set_last_signalled vq_vring demo_vq].
    rewrite (same_at_trans _ _ _ _ _ S1 S2) by (unfold avail_flags; cbn; lia).
    vm_compute. reflexivity.
  - reflexivity.
  - cbn. lia.
  - reflexivity.
Defined.

(** ** The device status *)

(** What the transport's reset and the device see of a sequence of writes to
    the status register. *)
Inductive status_event := Reset | Status (ext_status : Z).

Definition deliver {D : Type} (ops : virtio_ops D) (dev : D) (e : status_event) : D :=
  match e with
  | Reset => op_reset ops dev
  | Status x => match op_notify_status ops with Some f => f dev x | None => dev end
  end.

Definition status_next (started : bool) (s : Z) : bool :=
  if Z.testbit s 2 then true else if s =? 0 then false else started.

(** The specification: a device is started by the first DRIVER_OK and stopped by
    the next write of zero, which resets it before the device is told. *)
Definition status_events (started : bool) (s : Z) : list status_event :=
  if (Z.testbit s 2 && negb started)%bool then [Status (s .| 256)]
  else if ((s =? 0) && started)%bool then [Reset; Status 512]
  else [Status s].

Fixpoint status_run (started : bool) (ws : list Z) : bool * list status_event :=
  match ws with
  | [] => (started, [])
  | s :: ws =>
      let '(b, es) := status_run (status_next started s) ws in
      (b, status_events started s ++ es)
  end.

Lemma flag_low x k : 0 <= k -> flag x (2 ^ k) = Z.testbit x k.
Proof. apply flag_pow2. Qed.

Lemma notify_status_step {D : Type} (ops : virtio_ops D) vdev dev s :
  fits 8 s ->
  let started := Z.testbit (status vdev) 8 in
  let '(vdev', dev') := virtio_notify_status ops vdev dev s in
  dev' = foldl (deliver ops) dev (status_events started s) /\
  Z.testbit (status vdev') 8 = status_next started s /\
  (forall k, 0 <= k < 8 -> Z.testbit (status vdev') k =
     (Z.testbit s k || (Z.testbit (status vdev) k && negb (Z.testbit 143 k)))%bool).
Proof.
  intros Hs started. unfold virtio_notify_status, status_events, status_next.
  change VIRTIO_CONFIG_S_MASK with 143. change VIRTIO__STATUS_START with (2 ^ 8).
  change VIRTIO__STATUS_STOP with (2 ^ 9). change VIRTIO_CONFIG_S_DRIVER_OK with (2 ^ 2).
  rewrite !flag_pow2 by lia. cbn [set_status status].
  assert (S8 : Z.testbit s 8 = false) by (apply (fits_testbit 8); [lia|exact Hs|lia]).
  assert (E8 : Z.testbit (status vdev .&~ 143 .| s) 8 = started).
  { rewrite Z.lor_spec, Z.ldiff_spec, S8. cbn. rewrite andb_true_r. apply orb_false_r. }
  assert (Low : forall k, 0 <= k < 8 -> Z.testbit (status vdev .&~ 143 .| s) k =
     (Z.testbit s k || (Z.testbit (status vdev) k && negb (Z.testbit 143 k)))%bool).
  { intros k Hk. now rewrite Z.lor_spec, Z.ldiff_spec, orb_comm. }
  rewrite E8. destruct (Z.testbit s 2) eqn:S2; cbn [andb].
  - assert (Z0 : (s =? 0) = false).
    { apply Z.eqb_neq. intros ->. rewrite Z.bits_0 in S2. discriminate. }
    rewrite Z0. cbn [andb]. destruct started; cbn [negb]; (split; [reflexivity|]); split; auto.
    + cbn [set_status status]. now rewrite Z.lor_spec, Z.pow2_bits_true, orb_true_r by lia.
    + intros k Hk. cbn [set_status status]. rewrite Z.lor_spec, Z.pow2_bits_false, orb_false_r by lia. auto.
  - destruct (s =? 0) eqn:Z0; cbn [andb]; [|split; [reflexivity|split; auto]].
    apply Z.eqb_eq in Z0. subst s. destruct started eqn:St; cbn [andb]; (split; [|split]).
    + reflexivity.
    + cbn [set_status status]. now rewrite Z.ldiff_spec, Z.pow2_bits_true, andb_false_r by lia.
    + intros k Hk. cbn [set_status status]. rewrite Z.ldiff_spec, Z.pow2_bits_false, andb_true_r by lia. auto.
    + reflexivity.
    + cbn [set_status status]. now rewrite E8.
    + auto.
Qed.

Fixpoint notify_all {D : Type} (ops : virtio_ops D) (vdev : virtio_device) (dev : D)
  (ws : list Z) : virtio_device * D :=
  match ws with
  | [] => (vdev, dev)
  | s :: ws => let '(vdev, dev) := virtio_notify_status ops vdev dev s in notify_all ops vdev dev ws
  end.

Lemma notify_all_spec {D : Type} (ops : virtio_ops D) vdev dev ws :
  Forall (fits 8) ws ->
  let '(vdev', dev') := notify_all ops vdev dev ws in
  let '(started, es) := status_run (Z.testbit (status vdev) 8) ws in
  dev' = foldl (deliver ops) dev es /\ Z.testbit (status vdev') 8 = started /\
  (forall k, 0 <= k < 8 -> Z.testbit (status vdev') k =
     if Z.testbit 143 k then default (Z.testbit (status vdev) k) (last (map (fun s => Z.testbit s k) ws))
     else (Z.testbit (status vdev) k || existsb (fun s => Z.testbit s k) ws)%bool).
Proof.
  intros F. revert vdev dev. induction F as [|s ws Hs F IH]; intros vdev dev; cbn [notify_all status_run].
  - split; [reflexivity|]. split; [reflexivity|]. intros k _. cbn. rewrite orb_false_r.
    now destruct (Z.testbit 143 k).
  - pose proof (notify_status_step ops vdev dev s Hs) as S. cbv zeta in S.
    destruct (virtio_notify_status ops vdev dev s) as [vdev1 dev1]. destruct S as (S1 & S2 & S3).
    specialize (IH vdev1 dev1). destruct (notify_all ops vdev1 dev1 ws) as [vdev2 dev2].
    rewrite S2 in IH. destruct (status_run (status_next _ s) ws) as [b es].
    destruct IH as (I1 & I2 & I3). split; [now rewrite foldl_app, I1, S1|]. split; [exact I2|].
    intros k Hk. rewrite I3, S3 by exact Hk. destruct (Z.testbit 143 k) eqn:B; cbn [negb].
    + rewrite andb_false_r, orb_false_r. cbn [map]. rewrite last_cons.
      now destruct (last (map _ ws)).
    + cbn [existsb]. rewrite andb_true_r. destruct (Z.testbit s k), (Z.testbit (status vdev) k); reflexivity.
Qed.

Lemma status_run_count started ws :
  let '(b, es) := status_run started ws in
  let starts := Z.of_nat (length (List.filter (fun e =>
    match e with Status x => Z.testbit x 8 | Reset => false end) es)) in
  let resets := Z.of_nat (length (List.filter (fun e =>
    match e with Reset => true | _ => false end) es)) in
  Forall (fits 8) ws -> Z.b2z started + starts = resets + Z.b2z b.
Proof.
  revert started. induction ws as [|s ws IH]; intros started; cbn [status_run]; [cbn; lia|].
  specialize (IH (status_next started s)). destruct (status_run (status_next started s) ws) as [b es].
  intros F. apply Forall_cons in F. destruct F as [Hs F]. specialize (IH F).
  rewrite !List.filter_app, !length_app. unfold status_events, status_next in *.
  assert (S8 : Z.testbit s 8 = false) by (apply (fits_testbit 8); [lia|exact Hs|lia]).
  destruct (Z.testbit s 2) eqn:S2; cbn [andb].
  - assert (Z0 : (s =? 0) = false).
    { apply Z.eqb_neq. intros ->. rewrite Z.bits_0 in S2. discriminate. }
    rewrite Z0. cbn [andb]. destruct started; cbn [negb List.filter].
    + rewrite S8. cbn [length]. lia.
    + rewrite Z.lor_spec, orb_comm. cbn [Z.testbit orb length]. cbn in *. lia.
  - destruct (s =? 0), started; cbn [andb List.filter]; rewrite ?S8; cbn in *; lia.
Qed.

(** The status register. Over any sequence of status bytes the guest
    writes, what the device is told is what the two-state specification says:
    START with the first DRIVER_OK, and with the next zero a reset of the queues
    followed by STOP; so starts and resets alternate. In the register the bits
    of the mask are those of the last byte written. The three other bits (4, 5
    and 6), once written, stay for good: a guest that resets the device by
    writing 0 does not read back 0. *)
Theorem notify_status_protocol {D : Type} (ops : virtio_ops D) dev ws :
  Forall (fits 8) ws ->
  let '(vdev', dev') := notify_all ops start_vdev dev ws in
  let '(started, es) := status_run false ws in
  let starts := Z.of_nat (length (List.filter (fun e =>
    match e with Status x => Z.testbit x 8 | Reset => false end) es)) in
  let resets := Z.of_nat (length (List.filter (fun e =>
    match e with Reset => true | _ => false end) es)) in
  dev' = foldl (deliver ops) dev es /\ Z.testbit (status vdev') 8 = started /\
  starts = resets + Z.b2z started /\
  (forall k, k = 0 \/ k = 1 \/ k = 2 \/ k = 3 \/ k = 7 -> Z.testbit (status vdev') k =
     default false (last (map (fun s => Z.testbit s k) ws))) /\
  (forall k, 4 <= k <= 6 -> Z.testbit (status vdev') k = existsb (fun s => Z.testbit s k) ws).
Proof.
  intros F. pose proof (notify_all_spec ops start_vdev dev ws F) as S.
  pose proof (status_run_count false ws) as C. cbn [start_vdev status] in S.
  destruct (notify_all ops start_vdev dev ws) as [vdev' dev']. rewrite Z.bits_0 in S.
  destruct (status_run false ws) as [b es]. destruct S as (S1 & S2 & S3). specialize (C F).
  split; [exact S1|]. split; [exact S2|]. split; [exact C|]. split.
  - intros k Hk. rewrite S3 by lia. rewrite Z.bits_0.
    now destruct Hk as [->|[->|[->|[->| ->]]]].
  - intros k Hk. rewrite S3 by lia. rewrite Z.bits_0.
    assert (k = 4 \/ k = 5 \/ k = 6) as [->|[->| ->]] by lia; reflexivity.
Qed.

(** A device that records what it is told. *)
Definition log_ops : virtio_ops (list Z) :=
  mkops _ (fun d _ => d) None (Some (fun d x => d ++ [x])) (fun d => d ++ [-1])
    (fun _ _ => zero_vq) (fun d _ _ => d).

(** ACKNOWLEDGE, DRIVER, a reserved bit, DRIVER_OK, reset. *)
Lemma notify_status_protocol_witness :
  exists v, notify_all log_ops start_vdev [] [1; 3; 67; 71; 0] =
    (v, [1; 3; 67; 71 + 256; -1; 512]) /\ Z.testbit (status v) 6 = true.
Proof.
  assert (F : Forall (fits 8) [1; 3; 67; 71; 0]) by (repeat constructor; cbn; lia).
  pose proof (notify_status_protocol log_ops [] [1; 3; 67; 71; 0] F) as H.
  destruct (notify_all log_ops start_vdev [] [1; 3; 67; 71; 0]) as [v d].
  change (status_run false [1; 3; 67; 71; 0]) with
    (false, [Status 1; Status 3; Status 67; Status (71 .| 256); Reset; Status 512]) in H.
  destruct H as (-> & _ & _ & _ & H6). exists v. split; [reflexivity|]. rewrite (H6 6) by lia. reflexivity.
Defined.
