(* ===== verification/DiskImage.v ===== *)
(** * Disk images behind a block device

    The dispatch of [disk/core.c] to the operations of an image, the operations
    of a raw image that is mapped into memory (the read-only case of
    [disk/raw.c]; writes go to the private mapping), and those of a QCOW image.
    What a block device needs from an image is stated by the class [DiskReads]
    and its extension [DiskWrites]; the two kinds of image are instances. *)
From S2P Require Import Prelude HostMem QcowCache Qcow.

(** [struct disk_image_operations], on an image state of type [D]. A null
    pointer is [None]. The operations get guest buffers as a vector. *)
Record disk_image_operations (D : Type) := mkdiskops {
  op_read : option (D -> hmem -> Z -> list iovec -> out (Z * D * hmem));
  op_write : option (D -> hmem -> Z -> list iovec -> out (Z * D));
  op_flush : option (D -> out (Z * D));
}.
Arguments op_read {D}.
Arguments op_write {D}.
Arguments op_flush {D}.

(** [struct disk_image], without what only opening and closing use. *)
Record image (D : Type) := mkimage {
  img_ops : disk_image_operations D;
  img_async : bool;
  img_state : D;
}.
Arguments mkimage {D}.
Arguments img_ops {D}.
Arguments img_async {D}.
Arguments img_state {D}.

Definition set_img {D} (disk : image D) (d : D) : image D :=
  mkimage (img_ops disk) (img_async disk) d.

Section core.
Context {D B : Type}.

(** [disk->disk_req_cb], closed over its parameter: it acts on the state [B] of
    whoever registered it. *)
Context (disk_req_cb : option (B -> hmem -> Z -> out (B * hmem))).

(** The tail of both functions. *)
Definition run_callback (disk : image D) (b : B) (m : hmem) (total : Z) : out (B * hmem) :=
  match disk_req_cb with
  | Some cb => if negb (img_async disk) then cb b m total else Ret (b, m)
  | None => Ret (b, m)
  end.

Definition disk_image__read (disk : image D) (b : B) (m : hmem) (sector : Z) (iov : list iovec)
  : out (Z * image D * B * hmem) :=
  let! (total, disk, m, fail) :=
    match op_read (img_ops disk) with
    | Some rd =>
        let! (total, d, m) := rd (img_state disk) m sector iov in
        Ret (total, set_img disk d, m, total <? 0)
    | None => Ret (0, disk, m, false)
    end in
  if fail then Ret (total, disk, b, m)
  else
    let! (b, m) := run_callback disk b m total in
    Ret (total, disk, b, m).

Definition disk_image__write (disk : image D) (b : B) (m : hmem) (sector : Z) (iov : list iovec)
  : out (Z * image D * B * hmem) :=
  let! (total, disk, fail) :=
    match op_write (img_ops disk) with
    | Some wr =>
        let! (total, d) := wr (img_state disk) m sector iov in
        Ret (total, set_img disk d, total <? 0)
    | None => Ret (0, disk, false)
    end in
  if fail then Ret (total, disk, b, m)
  else
    let! (b, m) := run_callback disk b m total in
    Ret (total, disk, b, m).
End core.

(** [fsync] of the image's file is the parameter. *)
Definition disk_image__flush {D} (fsync : D -> Z * D) (disk : image D) : out (Z * image D) :=
  match op_flush (img_ops disk) with
  | Some fl => let! (r, d) := fl (img_state disk) in Ret (r, set_img disk d)
  | None => let '(r, d) := fsync (img_state disk) in Ret (r, set_img disk d)
  end.

(** ** Raw images mapped into memory

    [disk->priv] is the mapping; copying from or to outside of it is
    undefined. *)
Fixpoint read_mmap_loop (priv : list Z) (m : hmem) (offset total : Z) (iov : list iovec)
  : out (Z * hmem) :=
  match iov with
  | [] => Ret (total, m)
  | v :: iov =>
      if Z.of_nat (length priv) <? offset + iov_len v then Ub
      else
        let! m := copy_out m (iov_base v) (slice (Z.to_nat offset) (Z.to_nat (iov_len v)) priv) (iov_len v) in
        read_mmap_loop priv m (u64 (offset + iov_len v)) (total + iov_len v) iov
  end.

Definition raw_image__read_mmap (priv : list Z) (m : hmem) (sector : Z) (iov : list iovec)
  : out (Z * list Z * hmem) :=
  let! (total, m) := read_mmap_loop priv m (u64 (sector .<< SECTOR_SHIFT)) 0 iov in
  Ret (total, priv, m).

Fixpoint write_mmap_loop (priv : list Z) (m : hmem) (offset total : Z) (iov : list iovec)
  : out (Z * list Z) :=
  match iov with
  | [] => Ret (total, priv)
  | v :: iov =>
      if Z.of_nat (length priv) <? offset + iov_len v then Ub
      else
        let! bs := copy_in m (iov_base v) (iov_len v) in
        write_mmap_loop (splice (Z.to_nat offset) bs priv) m (u64 (offset + iov_len v))
          (total + iov_len v) iov
  end.

Definition raw_image__write_mmap (priv : list Z) (m : hmem) (sector : Z) (iov : list iovec)
  : out (Z * list Z) :=
  write_mmap_loop priv m (u64 (sector .<< SECTOR_SHIFT)) 0 iov.

(** [ro_ops] of [disk/raw.c]. *)
Definition ro_ops : disk_image_operations (list Z) :=
  mkdiskops _ (Some raw_image__read_mmap) (Some raw_image__write_mmap) None.

(** ** QCOW images

    [qcow_read_sector] works on buffers; here they are the vector's stretches of
    guest memory. [disk_image__open] opens every QCOW image with
    [qcow_disk_readonly_ops]. *)
Fixpoint load_iov (m : hmem) (iov : list iovec) : out (list (list Z)) :=
  match iov with
  | [] => Ret []
  | v :: iov =>
      let! b := copy_in m (iov_base v) (iov_len v) in
      let! bs := load_iov m iov in
      Ret (b :: bs)
  end.

Fixpoint store_iov (m : hmem) (iov : list iovec) (bs : list (list Z)) : out hmem :=
  match iov, bs with
  | v :: iov, b :: bs =>
      let! m := copy_out m (iov_base v) b (iov_len v) in
      store_iov m iov bs
  | _, _ => Ret m
  end.

Section qcow.
Context (inflateInit2 : Z) (inflate : list Z -> Z -> Z * list Z).

Definition qcow_read_guest (q : qcow) (m : hmem) (sector : Z) (iov : list iovec)
  : out (Z * qcow * hmem) :=
  let! bufs := load_iov m iov in
  let! (total, bufs, q) := qcow_read_sector inflateInit2 inflate q sector bufs in
  let! m := store_iov m iov bufs in
  Ret (total, q, m).

Definition qcow_disk_readonly_ops : disk_image_operations qcow :=
  mkdiskops _ (Some qcow_read_guest) None None.
End qcow.

(** ** What a block device needs from an image *)

(** The bytes [sector * 512 ..] of an image are [bs]. *)
Definition holds {D} (byte : D -> Z -> option Z) (d : D) (sector : Z) (bs : list Z) : Prop :=
  forall i, 0 <= i < Z.of_nat (length bs) -> byte d (sector * 512 + i) = bs !! Z.to_nat i.

Definition iov_total (iov : list iovec) : Z := Z.of_nat (length (iov_addrs iov)).

(** Requests in whole sectors, of a size that the 32-bit used length holds. *)
Definition request_ok (sector : Z) (iov : list iovec) : Prop :=
  iov_wf iov /\ 0 <= sector /\ Forall (fun v => iov_len v mod 512 = 0) iov /\
  0 < iov_total iov < 2 ^ 31.

(** Reading whole sectors that the image has fills the buffers with them,
    reports their number of bytes, and changes nothing that a later read sees. *)
Class DiskReads {D : Type} (ops : disk_image_operations D) (ok : D -> Prop)
  (byte : D -> Z -> option Z) := {
  disk_read : forall d m sector iov bs,
    ok d -> request_ok sector iov -> mapped m (iov_addrs iov) ->
    Z.of_nat (length bs) = iov_total iov -> holds byte d sector bs ->
    exists rd d' m', op_read ops = Some rd /\ rd d m sector iov = Ret (iov_total iov, d', m') /\
      write_addrs m (iov_addrs iov) bs = Some m' /\ ok d' /\
      (forall p, byte d' p = byte d p);
}.

(** Writing whole sectors that the image has replaces exactly them. *)
Class DiskWrites {D : Type} (ops : disk_image_operations D) (ok : D -> Prop)
  (byte : D -> Z -> option Z) := {
  disk_write : forall d m sector iov bs,
    ok d -> request_ok sector iov -> read_addrs m (iov_addrs iov) = Some bs ->
    (forall i, 0 <= i < iov_total iov -> is_Some (byte d (sector * 512 + i))) ->
    exists wr d', op_write ops = Some wr /\ wr d m sector iov = Ret (iov_total iov, d') /\
      ok d' /\ holds byte d' sector bs /\
      (forall p, p < sector * 512 \/ sector * 512 + iov_total iov <= p -> byte d' p = byte d p);
}.

(** ** The mapped raw image *)

Definition raw_ok (priv : list Z) : Prop := Z.of_nat (length priv) < 2 ^ 63.

Definition raw_byte (priv : list Z) (p : Z) : option Z :=
  if p <? 0 then None else priv !! Z.to_nat p.

Lemma iov_total_cons v iov : 0 <= iov_len v -> iov_total (v :: iov) = iov_len v + iov_total iov.
Proof. intros H. unfold iov_total. rewrite iov_addrs_cons, length_app, length_seqZ. lia. Qed.

Lemma iov_total_nonneg iov : 0 <= iov_total iov.
Proof. unfold iov_total. lia. Qed.

Lemma slice_app off n k (l : list Z) :
  slice off (n + k) l = slice off n l ++ slice (off + n) k l.
Proof. unfold slice. rewrite <- drop_drop. symmetry. apply take_take_drop. Qed.

Lemma read_mmap_spec priv m offset total iov :
  raw_ok priv -> iov_wf iov -> 0 <= offset -> offset + iov_total iov <= Z.of_nat (length priv) ->
  read_mmap_loop priv m offset total iov =
  let! m := write_all m (iov_addrs iov) (slice (Z.to_nat offset) (Z.to_nat (iov_total iov)) priv) in
  Ret (total + iov_total iov, m).
Proof.
  intros Hp W. revert m offset total. unfold raw_ok in Hp.
  induction W as [|v iov Hv W IH]; intros m offset total Ho Hle; cbn [read_mmap_loop].
  - change (iov_total []) with 0. rewrite Z.add_0_r. reflexivity.
  - cbv beta in Hv. unfold fits in Hv. pose proof (iov_total_nonneg iov).
    rewrite iov_total_cons in * by lia. rewrite (proj2 (Z.ltb_ge _ _)) by lia.
    rewrite Z2Nat.inj_add, slice_app, iov_addrs_cons by lia.
    rewrite write_all_app by (rewrite length_seqZ, length_slice; lia).
    rewrite copy_out_write by (rewrite length_slice; lia).
    rewrite take_ge by (rewrite length_slice; lia). fold (write_all m (seqZ (iov_base v) (iov_len v))
      (slice (Z.to_nat offset) (Z.to_nat (iov_len v)) priv)).
    destruct (write_all m _ _) as [m1| |]; [|reflexivity..].
    rewrite wrap_id by (unfold fits; lia). rewrite IH by lia.
    rewrite Z2Nat.inj_add by lia. destruct (write_all m1 _ _); [|reflexivity..].
    do 2 f_equal. lia.
Qed.

Lemma shiftl9 s : s .<< SECTOR_SHIFT = s * 512.
Proof. unfold SECTOR_SHIFT. rewrite Z.shiftl_mul_pow2 by lia. reflexivity. Qed.

(** Bytes that an image of a given length has end before it does. *)
Lemma holds_raw priv sector bs :
  0 <= sector -> (0 < length bs)%nat -> holds raw_byte priv sector bs ->
  sector * 512 + Z.of_nat (length bs) <= Z.of_nat (length priv) /\
  bs = slice (Z.to_nat (sector * 512)) (length bs) priv.
Proof.
  intros Hs L H.
  assert (Hb : forall i, (i < length bs)%nat -> priv !! (Z.to_nat (sector * 512) + i)%nat = bs !! i).
  { intros i Hi. specialize (H (Z.of_nat i) ltac:(lia)). unfold raw_byte in H.
    rewrite (proj2 (Z.ltb_ge _ _)) in H by lia. rewrite Nat2Z.id in H. rewrite <- H. f_equal. lia. }
  assert (Hlen : sector * 512 + Z.of_nat (length bs) <= Z.of_nat (length priv)).
  { specialize (Hb (length bs - 1)%nat ltac:(lia)).
    destruct (lookup_lt_is_Some_2 bs (length bs - 1)%nat ltac:(lia)) as [x Hx]. rewrite Hx in Hb.
    apply lookup_lt_Some in Hb. lia. }
  split; [exact Hlen|]. apply list_eq. intros i. unfold slice.
  destruct (decide (i < length bs)%nat) as [Hi|Hi].
  - rewrite lookup_take_lt, lookup_drop by lia. symmetry. now apply Hb.
  - rewrite lookup_ge_None_2 by lia. symmetry. apply lookup_ge_None_2. rewrite length_take. lia.
Qed.

#[export] Instance raw_reads : DiskReads ro_ops raw_ok raw_byte.
Proof.
  split. intros d m sector iov bs Hd (W & Hs & _ & T0 & T) M L H.
  destruct (holds_raw d sector bs Hs ltac:(lia) H) as [Hle E].
  destruct (write_addrs_mapped m (iov_addrs iov) bs M) as [m' Em].
  exists raw_image__read_mmap, d, m'. split; [reflexivity|]. split; [|auto].
  unfold raw_image__read_mmap. rewrite shiftl9. unfold raw_ok in Hd. rewrite wrap_id by (unfold fits; lia).
  rewrite read_mmap_spec by (auto; lia). rewrite <- L, Nat2Z.id, <- E. unfold write_all. now rewrite Em.
Qed.

Lemma splice_app off (b1 b2 l : list Z) :
  (off + length b1 + length b2 <= length l)%nat ->
  splice off (b1 ++ b2) l = splice (off + length b1) b2 (splice off b1 l).
Proof.
  intros H. unfold splice at 2 3. rewrite (app_assoc (take off l)).
  set (P := take off l ++ b1). assert (L : length P = (off + length b1)%nat)
    by (unfold P; rewrite length_app, length_take; lia).
  unfold splice. rewrite take_app_length' by lia. rewrite drop_app_ge by lia. rewrite drop_drop.
  rewrite L. unfold P. rewrite <- !app_assoc, length_app. do 4 f_equal. lia.
Qed.

Lemma write_mmap_spec priv m offset total iov bs :
  raw_ok priv -> iov_wf iov -> 0 <= offset -> offset + iov_total iov <= Z.of_nat (length priv) ->
  read_addrs m (iov_addrs iov) = Some bs ->
  write_mmap_loop priv m offset total iov = Ret (total + iov_total iov, splice (Z.to_nat offset) bs priv).
Proof.
  intros Hp W. revert priv Hp offset total bs.
  induction W as [|v iov Hv W IH]; intros priv Hp offset total bs Ho Hle R; cbn [write_mmap_loop].
  - change (iov_total []) with 0. rewrite Z.add_0_r. cbn in R. injection R as <-.
    unfold splice. cbn. rewrite Nat.add_0_r, take_drop. reflexivity.
  - cbv beta in Hv. unfold fits in Hv. pose proof (iov_total_nonneg iov). unfold raw_ok in Hp.
    rewrite iov_total_cons in * by lia. rewrite (proj2 (Z.ltb_ge _ _)) by lia.
    rewrite iov_addrs_cons, read_addrs_app in R. rewrite copy_in_read by lia.
    destruct (read_addrs m (seqZ (iov_base v) (iov_len v))) as [b|] eqn:Eb; [|discriminate].
    destruct (read_addrs m (iov_addrs iov)) as [bs'|] eqn:Ebs; [|discriminate]. injection R as <-.
    pose proof (read_addrs_length _ _ _ Eb) as Lb. rewrite length_seqZ in Lb.
    pose proof (read_addrs_length _ _ _ Ebs) as Lbs. unfold iov_total in *.
    rewrite wrap_id by (unfold fits; lia).
    assert (Ls : length (splice (Z.to_nat offset) b priv) = length priv) by (apply length_splice; lia).
    rewrite (IH (splice (Z.to_nat offset) b priv)) with (bs := bs') by (try exact eq_refl; unfold raw_ok; rewrite ?Ls; lia).
    rewrite Z2Nat.inj_add, <- Lb by lia. rewrite <- splice_app by lia. do 2 f_equal. lia.
Qed.

Lemma lookup_splice off (b l : list Z) p :
  (off + length b <= length l)%nat ->
  splice off b l !! p =
  if decide (off <= p < off + length b)%nat then b !! (p - off)%nat else l !! p.
Proof.
  intros H. unfold splice. case_decide as D.
  - rewrite lookup_app_r by (rewrite length_take; lia). rewrite length_take.
    rewrite lookup_app_l by lia. f_equal. lia.
  - destruct (decide (p < off)%nat).
    + rewrite lookup_app_l by (rewrite length_take; lia). apply lookup_take_lt. lia.
    + rewrite lookup_app_r by (rewrite length_take; lia). rewrite length_take.
      rewrite lookup_app_r by lia. rewrite lookup_drop. f_equal. lia.
Qed.

Lemma raw_range priv sector n :
  0 <= sector -> 0 < n -> (forall i, 0 <= i < n -> is_Some (raw_byte priv (sector * 512 + i))) ->
  sector * 512 + n <= Z.of_nat (length priv).
Proof.
  intros Hs Hn H. specialize (H (n - 1) ltac:(lia)). unfold raw_byte in H.
  rewrite (proj2 (Z.ltb_ge _ _)) in H by lia. apply lookup_lt_is_Some_1 in H. lia.
Qed.

#[export] Instance raw_writes : DiskWrites ro_ops raw_ok raw_byte.
Proof.
  split. intros d m sector iov bs Hd (W & Hs & _ & T0 & T) R H.
  pose proof (raw_range d sector _ Hs T0 H) as Hle. unfold raw_ok in Hd.
  pose proof (read_addrs_length _ _ _ R) as L.
  assert (Hsp : (Z.to_nat (sector * 512) + length bs <= length d)%nat) by (unfold iov_total in *; lia).
  exists raw_image__write_mmap, (splice (Z.to_nat (sector * 512)) bs d). split; [reflexivity|]. split.
  { unfold raw_image__write_mmap. rewrite shiftl9, wrap_id by (unfold fits; lia).
    rewrite write_mmap_spec with (bs := bs) by (auto; lia). reflexivity. }
  split; [|split].
  - unfold raw_ok. now rewrite length_splice.
  - intros i Hi. unfold raw_byte. rewrite (proj2 (Z.ltb_ge _ _)) by lia.
    rewrite lookup_splice by exact Hsp. rewrite decide_True by lia. f_equal. lia.
  - intros p Hp. unfold raw_byte. destruct (Z.ltb_spec p 0); [reflexivity|].
    rewrite lookup_splice by exact Hsp. rewrite decide_False; [reflexivity|]. unfold iov_total in *. lia.
Qed.

(** ** QCOW images *)

Section qcow_instance.
Context (inflateInit2 : Z) (inflate : list Z -> Z -> Z * list Z).

Definition qcow_ok (q : qcow) : Prop :=
  image_ok q /\ version q = QCOW2_VERSION /\ size (header q) < 2 ^ 64.

Definition qcow_byte (q : qcow) (p : Z) : option Z :=
  if (0 <=? p) && (p <? size (header q)) then disk_byte inflateInit2 inflate q p else None.

Lemma load_iov_spec m iov :
  iov_wf iov -> mapped m (iov_addrs iov) ->
  exists bufs, load_iov m iov = Ret bufs /\
    Forall2 (fun v b => Z.of_nat (length b) = iov_len v) iov bufs.
Proof.
  induction 1 as [|v iov Hv W IH]; intros M; cbn [load_iov]; [eauto|].
  rewrite iov_addrs_cons in M. apply Forall_app in M. destruct M as [M1 M2].
  cbv beta in Hv. unfold fits in Hv. rewrite copy_in_read by lia.
  destruct (read_addrs_mapped _ _ M1) as [b Eb]. rewrite Eb.
  destruct (IH M2) as (bufs & -> & F). exists (b :: bufs). split; [reflexivity|].
  constructor; [|exact F]. pose proof (read_addrs_length _ _ _ Eb) as L.
  rewrite length_seqZ in L. lia.
Qed.

Lemma store_iov_spec m iov bufs :
  iov_wf iov -> Forall2 (fun v b => Z.of_nat (length b) = iov_len v) iov bufs ->
  store_iov m iov bufs = write_all m (iov_addrs iov) (concat bufs).
Proof.
  intros W F. revert m W. induction F as [|v b iov bufs L F IH]; intros m W; [reflexivity|].
  apply Forall_cons in W. destruct W as [Hv W]. unfold fits in Hv. cbn [store_iov concat].
  rewrite iov_addrs_cons, write_all_app by (rewrite length_seqZ; lia).
  rewrite copy_out_write by lia. rewrite take_ge by lia.
  fold (write_all m (seqZ (iov_base v) (iov_len v)) b).
  destruct (write_all m _ b) as [m1| |]; [|reflexivity..]. now apply IH.
Qed.

Lemma iov_total_bufs iov (bufs : list (list Z)) :
  iov_wf iov -> Forall2 (fun v b => Z.of_nat (length b) = iov_len v) iov bufs ->
  Z.of_nat (length (concat bufs)) = iov_total iov.
Proof.
  intros W F. induction F as [|v b iov bufs L F IH]; [reflexivity|].
  apply Forall_cons in W. destruct W as [Hv W]. unfold fits in Hv.
  cbn [concat]. rewrite length_app, iov_total_cons by lia. rewrite <- (IH W). lia.
Qed.

#[export] Instance qcow_reads : DiskReads (qcow_disk_readonly_ops inflateInit2 inflate) qcow_ok qcow_byte.
Proof.
  split. intros q m sector iov bs (Hq & Hv & Hs64) (W & Hs & Al & T0 & T) M L H.
  destruct (load_iov_spec m iov W M) as (bufs & Eb & Fb). pose proof (iov_total_bufs iov bufs W Fb) as Lb.
  assert (Hb : forall i, 0 <= i < iov_total iov ->
    disk_byte inflateInit2 inflate q (sector * 512 + i) = bs !! Z.to_nat i /\
    sector * 512 + i < size (header q)).
  { intros i Hi. specialize (H i ltac:(lia)). unfold qcow_byte in H.
    destruct (lookup_lt_is_Some_2 bs (Z.to_nat i) ltac:(lia)) as [x Hx].
    destruct ((0 <=? sector * 512 + i) && (sector * 512 + i <? size (header q)))%bool eqn:E;
      [|congruence]. apply andb_prop in E. destruct E as [_ E]. apply Z.ltb_lt in E. auto. }
  destruct (read_iov_spec inflateInit2 inflate bufs q sector 0) as (bufs' & q' & E & Hr & F & Lc & K);
    auto; unfold total_length in *; try lia.
  { clear - Fb Al. induction Fb as [|v b iov bufs E F IH]; constructor; apply Forall_cons in Al; destruct Al as [A Al].
    - now rewrite E.
    - now apply IH. }
  { rewrite Lb. destruct (Hb (iov_total iov - 1)); lia. }
  { intros i Hi. destruct (Hb i) as [-> _]; [lia|]. apply lookup_lt_is_Some_2. lia. }
  assert (Fb' : Forall2 (fun v b => Z.of_nat (length b) = iov_len v) iov bufs').
  { clear - Fb F. revert bufs' F. induction Fb as [|v b iov bufs E Fb IH]; intros bufs' F.
    - apply Forall2_nil_inv_l in F. subst. constructor.
    - apply Forall2_cons_inv_l in F. destruct F as (b' & bufs'' & E' & F' & ->).
      constructor; [congruence|now apply IH]. }
  assert (Ec : concat bufs' = bs).
  { apply list_eq. intros i. destruct (decide (i < length bs)%nat) as [Hi|Hi].
    - specialize (K (Z.of_nat i) ltac:(lia)). rewrite Nat2Z.id in K. rewrite K.
      destruct (Hb (Z.of_nat i) ltac:(lia)) as [-> _]. now rewrite Nat2Z.id.
    - rewrite !lookup_ge_None_2 by lia. reflexivity. }
  destruct (write_addrs_mapped m (iov_addrs iov) bs M) as [m' Em].
  exists (qcow_read_guest inflateInit2 inflate), q', m'. split; [reflexivity|]. split.
  { unfold qcow_read_guest, qcow_read_sector. rewrite Eb, E, store_iov_spec, Ec by assumption.
    unfold write_all. rewrite Em. do 4 f_equal. lia. }
  split; [exact Em|]. pose proof Hr as [(s & c & cc & cd & Eq) Ok]. split.
  - split; [exact Ok|]. now rewrite Eq.
  - intros p. unfold qcow_byte. rewrite (disk_byte_reads_to _ _ q q' p Hr). now rewrite Eq.
Qed.
End qcow_instance.

(** ** What the mapped image does not check *)

Lemma read_mmap_overrun priv m offset total iov :
  raw_ok priv -> iov_wf iov -> 0 <= offset -> offset + iov_total iov < 2 ^ 64 ->
  Z.of_nat (length priv) < offset + iov_total iov -> offset <= Z.of_nat (length priv) \/ iov <> [] ->
  read_mmap_loop priv m offset total iov = Ub.
Proof.
  intros Hp W. revert m offset total. induction W as [|v iov Hv W IH]; intros m offset total Ho H64 Hle Hne;
    cbn [read_mmap_loop].
  { change (iov_total []) with 0 in *. destruct Hne as [Hne|Hne]; [lia|contradiction]. }
  cbv beta in Hv. unfold fits in Hv. pose proof (iov_total_nonneg iov).
  rewrite iov_total_cons in * by lia.
  destruct (Z.ltb_spec (Z.of_nat (length priv)) (offset + iov_len v)); [reflexivity|].
  destruct (copy_out _ _ _ _) as [m1| |] eqn:E; [|reflexivity|].
  - rewrite wrap_id by (unfold fits; lia). apply IH; lia.
  - unfold copy_out in E. case_match; [discriminate|]. case_match; discriminate.
Qed.

Lemma write_mmap_overrun priv m offset total iov :
  raw_ok priv -> iov_wf iov -> 0 <= offset -> offset + iov_total iov < 2 ^ 64 ->
  Z.of_nat (length priv) < offset + iov_total iov -> offset <= Z.of_nat (length priv) \/ iov <> [] ->
  write_mmap_loop priv m offset total iov = Ub.
Proof.
  intros Hp W. revert priv Hp m offset total.
  induction W as [|v iov Hv W IH]; intros priv Hp m offset total Ho H64 Hle Hne; cbn [write_mmap_loop].
  { change (iov_total []) with 0 in *. destruct Hne as [Hne|Hne]; [lia|contradiction]. }
  cbv beta in Hv. unfold fits in Hv. pose proof (iov_total_nonneg iov).
  rewrite iov_total_cons in * by lia.
  destruct (Z.ltb_spec (Z.of_nat (length priv)) (offset + iov_len v)); [reflexivity|].
  rewrite copy_in_read by lia.
  destruct (read_addrs m (seqZ (iov_base v) (iov_len v))) as [b|] eqn:E; [|reflexivity].
  pose proof (read_addrs_length _ _ _ E) as L. rewrite length_seqZ in L.
  assert (Ls : length (splice (Z.to_nat offset) b priv) = length priv) by (apply length_splice; lia).
  rewrite wrap_id by (unfold fits; lia). apply IH; rewrite ?Ls; try lia. unfold raw_ok. now rewrite Ls.
Qed.

(** A mapped image trusts the guest's sector number. A request that reaches
    past the end of the image copies from or to memory outside of the mapping,
    and the shift of the sector number drops its top nine bits, so sectors that
    are 2^55 apart are the same place of the disk. *)
Theorem raw_mmap_unchecked priv m sector iov :
  raw_ok priv -> iov_wf iov -> 0 <= sector < 2 ^ 54 -> iov <> [] -> iov_total iov < 2 ^ 62 ->
  (Z.of_nat (length priv) < sector * 512 + iov_total iov ->
   raw_image__read_mmap priv m sector iov = Ub /\ raw_image__write_mmap priv m sector iov = Ub) /\
  raw_image__read_mmap priv m (sector + 2 ^ 55) iov = raw_image__read_mmap priv m sector iov /\
  raw_image__write_mmap priv m (sector + 2 ^ 55) iov = raw_image__write_mmap priv m sector iov.
Proof.
  intros Hp W Hs Hne Ht. unfold raw_image__read_mmap, raw_image__write_mmap. rewrite !shiftl9.
  assert (E : u64 ((sector + 2 ^ 55) * 512) = u64 (sector * 512)).
  { unfold wrap. replace ((sector + 2 ^ 55) * 512) with (sector * 512 + 1 * 2 ^ 64) by lia. apply Z_mod_plus_full. }
  rewrite E. split; [|auto]. intros H. rewrite (wrap_id 64 (sector * 512)) by (unfold fits; lia).
  rewrite read_mmap_overrun, write_mmap_overrun by (auto; lia). auto.
Qed.

Lemma raw_mmap_unchecked_witness :
  raw_image__write_mmap (repeat 1 512) demo_bytes 1 [mkiov 100 16] = Ub.
Proof.
  refine (proj2 (proj1 (raw_mmap_unchecked (repeat 1 512) demo_bytes 1 [mkiov 100 16] _ _ _ _ _) _)).
  - unfold raw_ok. vm_compute. reflexivity.
  - repeat constructor; cbn; lia.
  - lia.
  - discriminate.
  - vm_compute. reflexivity.
  - vm_compute. reflexivity.
Defined.
