(* ===== verification/VirtioBlk.v ===== *)
(** * The virtio block device

    [virtio/blk.c]: the loop of the device's thread takes each request off the
    queue, decodes its header, hands its buffers to the disk image, and the
    image's callback stores the status byte, hands the chain back and interrupts
    the guest. The constants and the request header are those of
    [<linux/virtio_blk.h>]. The mutex and the event file only order threads and
    are left out. *)
From S2P Require Import Prelude Membank HostMem Virtqueue DiskImage.

Definition VIRTIO_BLK_T_IN : Z := 0.
Definition VIRTIO_BLK_T_OUT : Z := 1.
Definition VIRTIO_BLK_T_FLUSH : Z := 4.
Definition VIRTIO_BLK_T_GET_ID : Z := 8.
Definition VIRTIO_BLK_ID_BYTES : Z := 20.
Definition VIRTIO_BLK_S_OK : Z := 0.
Definition VIRTIO_BLK_S_IOERR : Z := 1.

Definition VIRTIO_BLK_F_SEG_MAX : Z := 2.
Definition VIRTIO_BLK_F_FLUSH : Z := 9.
Definition VIRTIO_RING_F_INDIRECT_DESC : Z := 28.

(** [struct virtio_blk_outhdr]: the type (4 bytes), a priority (4), the sector. *)
Definition hdr_type (m : hmem) (p : Z) : out Z := load 4 m p.
Definition hdr_sector (m : hmem) (p : Z) : out Z := load 8 m (p + 8).

Definition VIRTIO_BLK_QUEUE_SIZE : Z := 256.
Definition DISK_SEG_MAX : Z := VIRTIO_BLK_QUEUE_SIZE - 2.

Record blk_dev_req := mkreq {
  req_iov : list iovec;
  req_out : Z;
  req_in : Z;
  req_head : Z;
}.

(** [struct blk_dev] without its disk, which is kept beside it, and its thread.
    [signals] records the calls of [signal_vq]. *)
Record blk_dev := mkblk {
  blk_vdev : virtio_device;
  blk_features : Z;
  blk_vq : virt_queue;
  blk_reqs : list blk_dev_req;
  signals : list Z;
}.

Definition set_vq (b : blk_dev) (vq : virt_queue) : blk_dev :=
  mkblk (blk_vdev b) (blk_features b) vq (blk_reqs b) (signals b).
Definition set_reqs (b : blk_dev) (l : list blk_dev_req) : blk_dev :=
  mkblk (blk_vdev b) (blk_features b) (blk_vq b) l (signals b).
Definition set_signals (b : blk_dev) (l : list Z) : blk_dev :=
  mkblk (blk_vdev b) (blk_features b) (blk_vq b) (blk_reqs b) l.

Definition get_host_features : Z :=
  (1 .<< VIRTIO_BLK_F_SEG_MAX) .| (1 .<< VIRTIO_BLK_F_FLUSH) .|
  (1 .<< VIRTIO_RING_F_EVENT_IDX) .| (1 .<< VIRTIO_RING_F_INDIRECT_DESC).

(** The decimal digits of an unsigned 64-bit number ([%llu]). *)
Fixpoint dec_loop (fuel : nat) (n : Z) (acc : list Z) : list Z :=
  match fuel with
  | O => acc
  | S fuel =>
      let acc := (48 + n mod 10) :: acc in
      if n <? 10 then acc else dec_loop fuel (n / 10) acc
  end.
Definition dec (n : Z) : list Z := dec_loop 20 n [].

(** [snprintf(buffer, n, ...)] of the text [s]: its result and the bytes that it
    stores, terminator included. *)
Definition snprintf (n : Z) (s : list Z) : Z * list Z :=
  (Z.of_nat (length s), if n <=? 0 then [] else take (Z.to_nat (n - 1)) s ++ [0]).

Section blk.
Context {D : Type} (kvm : kvm_mem) (vring_need_event : Z -> Z -> Z -> bool).

(** [fsync] and [fstat] of the image's file; the latter gives an error or the
    device, special-device and inode numbers. *)
Context (fsync : D -> Z * D) (fstat : D -> res (Z * Z * Z)).

(** Returns the memory and the length left in [*len]. *)
Definition disk_image__get_serial (disk : image D) (m : hmem) (buffer len : Z) : out (hmem * Z) :=
  match fstat (img_state disk) with
  | Err _ => Ret (m, len)
  | Ok (dev, rdev, ino) =>
      let '(r, bs) := snprintf len (dec dev ++ dec rdev ++ dec ino) in
      match store_bytes m buffer bs with
      | Some m => Ret (m, r)
      | None => Ub
      end
  end.

(** [virtio_blk_complete] of the request with index [r] of [bdev->reqs]. *)
Definition virtio_blk_complete (r : Z) (bdev : blk_dev) (m : hmem) (len : Z)
  : out (blk_dev * hmem) :=
  match blk_reqs bdev !! Z.to_nat r with
  | None => Ub
  | Some req =>
      if req_out req + req_in req - 1 <? 0 then Ub
      else match req_iov req !! Z.to_nat (req_out req + req_in req - 1) with
      | None => Ub
      | Some v =>
          let! m := store 1 m (iov_base v)
                      (if len <? 0 then VIRTIO_BLK_S_IOERR else VIRTIO_BLK_S_OK) in
          let! m := virt_queue__set_used_elem m (blk_vq bdev) (req_head req) len in
          let! (sig, vq) := virtio_queue__should_signal vring_need_event m (blk_vq bdev) in
          let bdev := set_vq bdev vq in
          Ret (if sig then set_signals bdev (signals bdev ++ [0]) else bdev, m)
      end
  end.

(** [iov + 1] with [in + out - 2] elements. *)
Definition data_iov (req : blk_dev_req) : out (list iovec) :=
  let n := req_in req + req_out req - 2 in
  if (n <? 0) || (Z.of_nat (length (req_iov req)) <? n + 1) then Ub
  else Ret (take (Z.to_nat n) (drop 1 (req_iov req))).

Definition virtio_blk_do_io_request (r : Z) (disk : image D) (bdev : blk_dev) (m : hmem)
  : out (image D * blk_dev * hmem) :=
  match blk_reqs bdev !! Z.to_nat r with
  | None => Ub
  | Some req =>
      match req_iov req with
      | [] => Ub
      | hdr :: _ =>
          let! type := hdr_type m (iov_base hdr) in
          let! sector := hdr_sector m (iov_base hdr) in
          if type =? VIRTIO_BLK_T_IN then
            let! iov := data_iov req in
            let! (_, disk, bdev, m) :=
              disk_image__read (Some (virtio_blk_complete r)) disk bdev m sector iov in
            Ret (disk, bdev, m)
          else if type =? VIRTIO_BLK_T_OUT then
            let! iov := data_iov req in
            let! (_, disk, bdev, m) :=
              disk_image__write (Some (virtio_blk_complete r)) disk bdev m sector iov in
            Ret (disk, bdev, m)
          else if type =? VIRTIO_BLK_T_FLUSH then
            let! (block_cnt, disk) := disk_image__flush fsync disk in
            let! (bdev, m) := virtio_blk_complete r bdev m block_cnt in
            Ret (disk, bdev, m)
          else if type =? VIRTIO_BLK_T_GET_ID then
            match req_iov req !! 1%nat with
            | None => Ub
            | Some v =>
                let! (m, block_cnt) :=
                  disk_image__get_serial disk m (iov_base v) VIRTIO_BLK_ID_BYTES in
                let! (bdev, m) := virtio_blk_complete r bdev m block_cnt in
                Ret (disk, bdev, m)
            end
          else Ret (disk, bdev, m)
      end
  end.

(** One round of [virtio_blk_do_io], after [virt_queue__available]. *)
Definition virtio_blk_do_one (disk : image D) (bdev : blk_dev) (m : hmem)
  : out (image D * blk_dev * hmem) :=
  let! (head, vq) := virt_queue__pop m (blk_vq bdev) in
  match blk_reqs bdev !! Z.to_nat head with
  | None => Ub
  | Some req =>
      let! (iov, out_, in_) :=
        virt_queue__get_head_iov kvm (S (length (req_iov req))) m vq (req_iov req) head in
      let bdev := set_reqs (set_vq bdev vq)
        (<[Z.to_nat head := mkreq iov out_ in_ head]> (blk_reqs bdev)) in
      virtio_blk_do_io_request head disk bdev m
  end.

Fixpoint virtio_blk_do_io (fuel : nat) (disk : image D) (bdev : blk_dev) (m : hmem)
  : out (image D * blk_dev * hmem) :=
  match fuel with
  | O => NoFuel
  | S fuel =>
      let! (more, m) := virt_queue__available m (blk_vq bdev) in
      if more then
        let! (disk, bdev, m) := virtio_blk_do_one disk bdev m in
        virtio_blk_do_io fuel disk bdev m
      else Ret (disk, bdev, m)
  end.

(** Setting up a queue; [vring_init] of [<linux/virtio_ring.h>] lays it out. The
    thread and its event file are left out. *)
Context (vring_init : Z -> Z -> Z -> vring).

Definition virtio_get_vq (pfn page_size : Z) : Z := host_ptr kvm (u64 (pfn * page_size)).

Definition init_vq (bdev : blk_dev) (vq page_size align pfn : Z) : out (Z * blk_dev) :=
  if negb (vq =? 0) then Ub
  else
    let queue := blk_vq bdev in
    let queue := mkvq (vring_init VIRTIO_BLK_QUEUE_SIZE (virtio_get_vq pfn page_size) align) pfn
      (last_avail_idx queue) (last_used_signalled queue) (vq_endian queue)
      (use_event_idx queue) (enabled queue) in
    let queue := virtio_init_device_vq (blk_vdev bdev) queue in
    Ret (0, set_reqs (set_vq bdev queue)
      (repeat (mkreq (repeat (mkiov 0 0) (Z.to_nat VIRTIO_BLK_QUEUE_SIZE)) 0 0 0)
         (Z.to_nat VIRTIO_BLK_QUEUE_SIZE))).
End blk.

(** ** Frames *)

(** Memory [m'] agrees with [m] outside the used ring. *)
Definition quiet (vr : vring) (m m' : hmem) : Prop :=
  (forall a, ~ (used vr <= a < used vr + 6 + 8 * num vr) -> m' !! a = m !! a) /\
  (forall a, is_Some (m' !! a) <-> is_Some (m !! a)).

Lemma quiet_refl vr m : quiet vr m m.
Proof. split; reflexivity. Qed.

Lemma quiet_trans vr m1 m2 m3 : quiet vr m1 m2 -> quiet vr m2 m3 -> quiet vr m1 m3.
Proof.
  intros [A A'] [B B']. split; intros a; [intros H; rewrite B by exact H; now apply A|].
  rewrite B'. apply A'.
Qed.

Lemma store_quiet vr n m a x m' :
  store n m a x = Ret m' -> used vr <= a -> a + Z.of_nat n <= used vr + 6 + 8 * num vr ->
  quiet vr m m'.
Proof.
  intros H A1 A2. apply store_ret in H. split; intros b.
  - intros N. apply (write_addrs_other _ _ _ _ _ H). rewrite length_le_enc.
    intros C. apply elem_of_seqZ' in C. lia.
  - exact (write_addrs_dom _ _ _ _ _ H).
Qed.

Lemma load_quiet vr m m' n a :
  quiet vr m m' -> a + Z.of_nat n <= used vr \/ used vr + 6 + 8 * num vr <= a ->
  load n m' a = load n m a.
Proof.
  intros [Q _] H. unfold load, load_bytes. erewrite read_addrs_ext; [reflexivity|].
  intros b Hb. apply elem_of_seqZ' in Hb. apply Q. lia.
Qed.

Lemma mapped_quiet vr m m' l : quiet vr m m' -> mapped m l -> mapped m' l.
Proof.
  intros [_ Q] M. eapply Forall_impl; [exact M|]. cbv beta. intros a. apply Q.
Qed.

Lemma used_elem_quiet m vq head len m' :
  0 < num (vq_vring vq) -> virt_queue__set_used_elem m vq head len = Ret m' -> quiet (vq_vring vq) m m'.
Proof.
  intros Hn. unfold virt_queue__set_used_elem, virt_queue__set_used_elem_no_update,
    virt_queue__used_idx_advance, umod. intros H.
  destruct (load 2 m _) as [i| |]; try discriminate. rewrite (proj2 (Z.eqb_neq _ 0)) in H by lia.
  pose proof (Z.mod_pos_bound (u16 (i + 0)) (num (vq_vring vq)) Hn) as R.
  destruct (store 4 m _ _) as [m1| |] eqn:E1; try discriminate.
  destruct (store 4 m1 _ _) as [m2| |] eqn:E2; try discriminate.
  destruct (load 2 m2 _); try discriminate.
  unfold used_ring, used_idx in *.
  eapply quiet_trans; [apply (store_quiet _ _ _ _ _ _ E1); lia|].
  eapply quiet_trans; [apply (store_quiet _ _ _ _ _ _ E2); lia|].
  apply (store_quiet _ _ _ _ _ _ H); lia.
Qed.

Lemma available_quiet m vq b m' :
  0 < num (vq_vring vq) -> virt_queue__available m vq = Ret (b, m') -> quiet (vq_vring vq) m m'.
Proof.
  intros Hn. unfold virt_queue__available. destruct (_ =? 0); [intros [= _ <-]; apply quiet_refl|].
  destruct (use_event_idx vq).
  - destruct (store _ _ _ _) as [m1| |] eqn:E; try discriminate. destruct (load _ _ _); try discriminate.
    intros [= _ <-]. apply (store_quiet _ _ _ _ _ _ E); unfold avail_event, used_ring; lia.
  - destruct (load _ _ _); try discriminate. intros [= _ <-]. apply quiet_refl.
Qed.

Lemma same_at_lookup m m' a len :
  (forall b, a <= b < a + len -> m' !! b = m !! b) -> same_at m m' a len.
Proof.
  intros H n b H1 H2. unfold load, load_bytes. erewrite read_addrs_ext; [reflexivity|].
  intros c Hc. apply elem_of_seqZ' in Hc. apply H. lia.
Qed.

(** An address outside both rings. *)
Definition off_rings (vr : vring) (a : Z) : Prop :=
  ~ (avail vr <= a < avail vr + 6 + 2 * num vr) /\ ~ (used vr <= a < used vr + 6 + 8 * num vr).

(** Writing off the rings keeps what they say. *)
Lemma rings_off vr m m' last q base done :
  0 < num vr -> (forall a, ~ off_rings vr a -> m' !! a = m !! a) ->
  (forall a, is_Some (m' !! a) <-> is_Some (m !! a)) ->
  ring_wf m vr -> avail_rel m vr last q -> used_rel m vr base done ->
  ring_wf m' vr /\ avail_rel m' vr last q /\ used_rel m' vr base done.
Proof.
  intros Hn H Dom W A U. split; [|split].
  - destruct W as [? ? ? Wa Wu ?]. split; try assumption.
    + eapply Forall_impl; [exact Wa|]. cbv beta. intros a. apply Dom.
    + eapply Forall_impl; [exact Wu|]. cbv beta. intros a. apply Dom.
  - apply (avail_rel_same vr Hn m); [|exact A]. apply same_at_lookup. intros b Hb. apply H.
    unfold off_rings. lia.
  - apply (used_rel_same vr Hn m); [|exact U]. apply same_at_lookup. intros b Hb. apply H.
    unfold off_rings. lia.
Qed.

Section proofs.
Context {D : Type} (kvm : kvm_mem) (need : Z -> Z -> Z -> bool) (fsync : D -> Z * D)
  (fstat : D -> res (Z * Z * Z)).

(** The decision to interrupt is made, and touches only what was announced. *)
Lemma should_signal_total m vq :
  ring_wf m (vq_vring vq) ->
  exists sig vq', virtio_queue__should_signal need m vq = Ret (sig, vq') /\
    vq_vring vq' = vq_vring vq /\ last_avail_idx vq' = last_avail_idx vq /\
    use_event_idx vq' = use_event_idx vq.
Proof.
  intros W. unfold virtio_queue__should_signal. pose proof (wf_num _ _ W) as Hn.
  destruct (load_field 2 m (avail_flags (vq_vring vq))) as [f Ef].
  { apply (field_sub _ _ _ _ _ (wf_avail _ _ W)); unfold avail_flags; lia. }
  destruct (load_field 2 m (used_idx (vq_vring vq))) as [i Ei].
  { apply (field_sub _ _ _ _ _ (wf_used _ _ W)); unfold used_idx; lia. }
  destruct (load_field 2 m (used_event (vq_vring vq))) as [e Ee].
  { apply (field_sub _ _ _ _ _ (wf_avail _ _ W)); unfold used_event, avail_ring; lia. }
  rewrite Ef, Ei, Ee. destruct (use_event_idx vq) eqn:Eu; cbn [negb].
  - destruct (need e i (last_used_signalled vq)); eexists _, _; split; try reflexivity; auto.
  - eexists _, _. split; [reflexivity|]. auto.
Qed.

(** Completion of the request [r]: the last buffer's byte is the status, the head
    is handed back with the length. *)
Lemma complete_spec r bdev m len req st base done last q :
  let vr := vq_vring (blk_vq bdev) in
  blk_reqs bdev !! Z.to_nat r = Some req ->
  0 < req_out req + req_in req ->
  req_iov req !! Z.to_nat (req_out req + req_in req - 1) = Some st ->
  ring_wf m vr -> avail_rel m vr last q -> used_rel m vr base done ->
  is_Some (m !! iov_base st) -> off_rings vr (iov_base st) ->
  exists m' sig vq', virtio_blk_complete need r bdev m len =
    Ret (set_signals (set_vq bdev vq') (signals bdev ++ (if sig : bool then [0] else [])), m') /\
    vq_vring vq' = vr /\ last_avail_idx vq' = last_avail_idx (blk_vq bdev) /\
    ring_wf m' vr /\ avail_rel m' vr last q /\
    used_rel m' vr base (done ++ [(u32 (req_head req), u32 len)]) /\
    m' !! iov_base st = Some (if len <? 0 then VIRTIO_BLK_S_IOERR else VIRTIO_BLK_S_OK) /\
    (forall a, off_rings vr a -> a <> iov_base st -> m' !! a = m !! a).
Proof.
  intros vr Er Hio Est W A U Mst Off. unfold virtio_blk_complete. rewrite Er.
  pose proof (wf_num _ _ W) as Hn. pose proof (wf_div _ _ W) as Hdiv.
  rewrite (proj2 (Z.ltb_ge _ _)) by lia. rewrite Est.
  set (x := if len <? 0 then VIRTIO_BLK_S_IOERR else VIRTIO_BLK_S_OK).
  destruct Mst as [old Hold]. rewrite store_1, Hold.
  assert (Hx : u8 x = x) by (unfold x; now destruct (len <? 0)). rewrite Hx.
  set (m1 := <[iov_base st := x]> m). assert (S1 : <[iov_base st := x]> m = m1) by reflexivity.
  assert (Out1 : forall a, a <> iov_base st -> m1 !! a = m !! a).
  { intros a N. rewrite <- S1. now rewrite lookup_insert_ne by congruence. }
  assert (Dom1 : forall a, is_Some (m1 !! a) <-> is_Some (m !! a)).
  { intros a. rewrite <- S1. destruct (decide (a = iov_base st)) as [->|N].
    - rewrite lookup_insert_eq, Hold. split; eauto.
    - now rewrite lookup_insert_ne by congruence. }
  destruct (rings_off vr m m1 last q base done ltac:(lia)) as (W1 & A1 & U1); try assumption.
  { intros a Na. apply Out1. intros ->. now apply Na. }
  destruct (set_used_elem_spec vr ltac:(lia) Hdiv m1 (blk_vq bdev) base done (req_head req) len W1 eq_refl U1)
    as (m2 & E2 & W2 & SA & U2).
  rewrite E2. destruct (should_signal_total m2 (blk_vq bdev) W2) as (sig & vq' & Es & V1 & V2 & _).
  rewrite Es. exists m2, sig, vq'.
  pose proof (used_elem_quiet m1 (blk_vq bdev) _ _ m2 ltac:(fold vr; lia) E2) as [Q _]. fold vr in Q.
  assert (A2 : avail_rel m2 vr last q).
  { apply (avail_rel_same vr ltac:(lia) m1); [|exact A1]. intros n b B1 B2. apply SA; lia. }
  split.
  { destruct sig; [reflexivity|]. rewrite app_nil_r. now destruct bdev. }
  repeat (split; [assumption|]). split.
  - rewrite Q by (destruct Off as [_ Off]; exact Off). rewrite <- S1. apply lookup_insert_eq.
  - intros a [_ Ha] N. rewrite Q by exact Ha. now apply Out1.
Qed.

Lemma available_mem_ok m vq b m' : mem_ok m -> virt_queue__available m vq = Ret (b, m') -> mem_ok m'.
Proof.
  intros M. unfold virt_queue__available. destruct (_ =? 0); [now intros [= _ <-]|].
  destruct (use_event_idx vq).
  - destruct (store _ _ _ _) as [m1| |] eqn:E; try discriminate. destruct (load _ _ _); try discriminate.
    intros [= _ <-]. exact (mem_ok_store _ _ _ _ _ M E).
  - destruct (load _ _ _); try discriminate. now intros [= _ <-].
Qed.

Lemma readables_writables l : (length (readables l) + length (writables l) = length l)%nat.
Proof.
  unfold readables, writables. induction l as [|e l IH]; [reflexivity|]. cbn [List.filter length].
  destruct (writable e); cbn [negb length]; lia.
Qed.

(** A request that waits at head [h]: a header, buffers and a status byte, in
    descriptors whose reading does not depend on the used ring. *)
Record request (bdev : blk_dev) (m : hmem) (h : Z) (e0 : vring_desc) (data : list vring_desc)
  (e1 : vring_desc) (type sector : Z) : Prop := {
  rq_chain : forall m1, quiet (vq_vring (blk_vq bdev)) m m1 ->
    head_chain kvm m1 (blk_vq bdev) h (e0 :: data ++ [e1]);
  rq_room : exists req, blk_reqs bdev !! Z.to_nat h = Some req /\
    (length data + 2 <= length (req_iov req))%nat /\ Z.of_nat (length (req_iov req)) <= 65535;
  rq_type : hdr_type m (host_ptr kvm (d_addr e0)) = Ret type;
  rq_sector : hdr_sector m (host_ptr kvm (d_addr e0)) = Ret sector;
  rq_header : let a := host_ptr kvm (d_addr e0) in let vr := vq_vring (blk_vq bdev) in
    a + 16 <= used vr \/ used vr + 6 + 8 * num vr <= a;
  rq_status : let a := host_ptr kvm (d_addr e1) in
    is_Some (m !! a) /\ off_rings (vq_vring (blk_vq bdev)) a;
}.

(** The state of the queue as the driver sees it. *)
Record queue_at (bdev : blk_dev) (m : hmem) (base : Z) (q : list Z) (done : list (Z * Z)) : Prop := {
  qa_mem : mem_ok m;
  qa_wf : ring_wf m (vq_vring (blk_vq bdev));
  qa_avail : avail_rel m (vq_vring (blk_vq bdev)) (last_avail_idx (blk_vq bdev)) q;
  qa_used : used_rel m (vq_vring (blk_vq bdev)) base done;
}.

(** The next round of the loop takes the request and goes on after it. *)
Lemma take_request fuel disk bdev m base h q done e0 data e1 type sector :
  queue_at bdev m base (h :: q) done -> request bdev m h e0 data e1 type sector ->
  exists m1 bdev1 tail o i, virtio_blk_do_io kvm need fsync fstat (S fuel) disk bdev m =
    (let! (disk, bdev, m) := virtio_blk_do_io_request need fsync fstat h disk bdev1 m1 in
     virtio_blk_do_io kvm need fsync fstat fuel disk bdev m) /\
    quiet (vq_vring (blk_vq bdev)) m m1 /\ vq_vring (blk_vq bdev1) = vq_vring (blk_vq bdev) /\
    queue_at bdev1 m1 base q done /\ signals bdev1 = signals bdev /\
    blk_reqs bdev1 !! Z.to_nat h = Some (mkreq (map (iov_of kvm) (e0 :: data ++ [e1]) ++ tail) o i h) /\
    o + i = Z.of_nat (length data) + 2.
Proof.
  intros [M W A U] [Ch (req & Er & Lr & Lr') Ty Se Hd St]. set (vr := vq_vring (blk_vq bdev)) in *.
  pose proof (wf_num _ _ W) as Hn. pose proof (wf_div _ _ W) as Hdiv.
  destruct (available_spec vr ltac:(lia) m (blk_vq bdev) (h :: q) W eq_refl A) as (m1 & Av & W1 & A1 & SU & _).
  pose proof (available_quiet m (blk_vq bdev) _ m1 ltac:(fold vr; lia) Av) as Q. fold vr in Q.
  pose proof (available_mem_ok _ _ _ _ M Av) as M1.
  destruct (pop_spec vr ltac:(lia) Hdiv m1 (blk_vq bdev) h q W1 eq_refl A1) as [P A2].
  set (vq' := set_last_avail (blk_vq bdev) (u16 (last_avail_idx (blk_vq bdev) + 1))) in *.
  destruct (get_head_iov_spec kvm m1 M1 (S (length (req_iov req))) vq' (req_iov req) h Lr' ltac:(lia)) as [G _].
  specialize (G (e0 :: data ++ [e1]) (Ch m1 Q)). rewrite fill_0 in G.
  assert (Ll : length (e0 :: data ++ [e1]) = (length data + 2)%nat)
    by (cbn [length]; rewrite length_app; cbn [length]; lia).
  specialize (G ltac:(lia)).
  set (out_ := Z.of_nat (length (readables (e0 :: data ++ [e1])))) in *.
  set (in_ := Z.of_nat (length (writables (e0 :: data ++ [e1])))) in *.
  set (iov' := map (iov_of kvm) (e0 :: data ++ [e1]) ++ drop (length (map (iov_of kvm) (e0 :: data ++ [e1]))) (req_iov req)) in *.
  exists m1, (set_reqs (set_vq bdev vq') (<[Z.to_nat h := mkreq iov' out_ in_ h]> (blk_reqs bdev))),
    (drop (length (map (iov_of kvm) (e0 :: data ++ [e1]))) (req_iov req)), out_, in_.
  split.
  { cbn [virtio_blk_do_io]. rewrite Av. rewrite bool_decide_eq_false_2 by discriminate. cbn [negb].
    unfold virtio_blk_do_one. rewrite P, Er, G. reflexivity. }
  split; [exact Q|]. split; [reflexivity|]. split.
  { split; [exact M1|exact W1|exact A2|exact (used_rel_same vr ltac:(lia) m m1 base done SU U)]. }
  split; [reflexivity|]. split.
  - cbn [blk_reqs set_reqs]. apply list_lookup_insert_eq. exact (lookup_lt_Some _ _ _ Er).
  - pose proof (readables_writables (e0 :: data ++ [e1])). unfold out_, in_. lia.
Qed.

(** With nothing offered the loop ends. *)
Lemma idle fuel bdev m base done :
  queue_at bdev m base [] done ->
  exists m', (forall disk, virtio_blk_do_io kvm need fsync fstat (S fuel) disk bdev m = Ret (disk, bdev, m')) /\
    quiet (vq_vring (blk_vq bdev)) m m' /\ queue_at bdev m' base [] done.
Proof.
  intros [M W A U]. set (vr := vq_vring (blk_vq bdev)) in *. pose proof (wf_num _ _ W) as Hn.
  destruct (available_spec vr ltac:(lia) m (blk_vq bdev) [] W eq_refl A) as (m1 & Av & W1 & A1 & SU & _).
  exists m1. split; [intros disk; cbn [virtio_blk_do_io]; rewrite Av; reflexivity|].
  split; [apply (available_quiet m (blk_vq bdev) _ m1 ltac:(fold vr; lia) Av)|].
  split; [exact (available_mem_ok _ _ _ _ M Av)|exact W1|exact A1|].
  exact (used_rel_same vr ltac:(lia) m m1 base done SU U).
Qed.

Lemma complete_mem_ok r bdev m len b' m' :
  mem_ok m -> virtio_blk_complete need r bdev m len = Ret (b', m') -> mem_ok m'.
Proof.
  intros M. unfold virtio_blk_complete. destruct (blk_reqs bdev !! Z.to_nat r) as [req|]; [|discriminate].
  destruct (_ <? 0); [discriminate|].
  destruct (req_iov req !! Z.to_nat (req_out req + req_in req - 1)) as [v|]; [|discriminate].
  destruct (store 1 m _ _) as [m1| |] eqn:E1; try discriminate.
  destruct (virt_queue__set_used_elem m1 _ _ _) as [m2| |] eqn:E2; try discriminate.
  destruct (virtio_queue__should_signal _ _ _) as [[sg vq1]| |]; try discriminate.
  intros [= _ <-]. exact (set_used_elem_mem_ok _ _ _ _ _ E2 (mem_ok_store _ _ _ _ _ M E1)).
Qed.

(** Completion, for a request that [take_request] has set up. *)
Lemma complete_request bdev m base q done h e0 data e1 tail o i len :
  queue_at bdev m base q done -> let vr := vq_vring (blk_vq bdev) in
  let st := host_ptr kvm (d_addr e1) in
  blk_reqs bdev !! Z.to_nat h = Some (mkreq (map (iov_of kvm) (e0 :: data ++ [e1]) ++ tail) o i h) ->
  o + i = Z.of_nat (length data) + 2 -> is_Some (m !! st) -> off_rings vr st ->
  exists m' bdev', virtio_blk_complete need h bdev m len = Ret (bdev', m') /\
    vq_vring (blk_vq bdev') = vr /\ queue_at bdev' m' base q (done ++ [(u32 h, u32 len)]) /\
    m' !! st = Some (if len <? 0 then VIRTIO_BLK_S_IOERR else VIRTIO_BLK_S_OK) /\
    (forall a, off_rings vr a -> a <> st -> m' !! a = m !! a).
Proof.
  intros [M W A U] vr st Er Hoi Mst Off.
  destruct (complete_spec h bdev m len _ (iov_of kvm e1) base done (last_avail_idx (blk_vq bdev)) q Er) as
    (m' & sig & vq' & E & V1 & V2 & W' & A' & U' & S' & F'); try assumption; cbn [req_out req_in req_iov].
  - lia.
  - replace (Z.to_nat (o + i - 1)) with (S (length data)) by lia.
    rewrite map_cons, map_app, <- app_comm_cons, <- app_assoc.
    transitivity ((map (iov_of kvm) data ++ map (iov_of kvm) [e1] ++ tail) !! length data); [reflexivity|].
    rewrite lookup_app_r by (rewrite length_map; lia). rewrite length_map, Nat.sub_diag. reflexivity.
  - exists m'. eexists. split; [exact E|]. cbn [blk_vq set_signals set_vq]. split; [exact V1|].
    split; [|split; [exact S'|exact F']]. split; cbn [blk_vq set_signals set_vq]; rewrite ?V1, ?V2; try assumption.
    exact (complete_mem_ok _ _ _ _ _ _ M E).
Qed.

(** The rest of a run whose last request completes. *)
Lemma finish_request bdev m base done h e0 data e1 tail o i len :
  queue_at bdev m base [] done -> let vr := vq_vring (blk_vq bdev) in
  let st := host_ptr kvm (d_addr e1) in
  blk_reqs bdev !! Z.to_nat h = Some (mkreq (map (iov_of kvm) (e0 :: data ++ [e1]) ++ tail) o i h) ->
  o + i = Z.of_nat (length data) + 2 -> is_Some (m !! st) -> off_rings vr st ->
  exists m1 m' bdev', virtio_blk_complete need h bdev m len = Ret (bdev', m1) /\
    (forall disk, virtio_blk_do_io kvm need fsync fstat 1 disk bdev' m1 = Ret (disk, bdev', m')) /\
    queue_at bdev' m' base [] (done ++ [(u32 h, u32 len)]) /\
    m' !! st = Some (if len <? 0 then VIRTIO_BLK_S_IOERR else VIRTIO_BLK_S_OK) /\
    (forall a, off_rings vr a -> a <> st -> m' !! a = m !! a).
Proof.
  intros Q vr st Er Hoi Mst Off.
  destruct (complete_request bdev m base [] done h e0 data e1 tail o i len Q Er Hoi Mst Off)
    as (m1 & b1 & E & V & Q1 & S1 & F1).
  destruct (idle 0 b1 m1 base _ Q1) as (m2 & E2 & Qu & Q2). rewrite V in Qu. destruct Qu as [Qu _].
  exists m1, m2, b1. split; [exact E|]. split; [exact E2|]. split; [exact Q2|]. split.
  - rewrite Qu by apply Off. exact S1.
  - intros a Ha N. rewrite Qu by apply Ha. now apply F1.
Qed.

Lemma data_iov_request data e0 e1 tail o i h :
  o + i = Z.of_nat (length data) + 2 ->
  data_iov (mkreq (map (iov_of kvm) (e0 :: data ++ [e1]) ++ tail) o i h) = Ret (map (iov_of kvm) data).
Proof.
  intros H. unfold data_iov. cbn [req_in req_out req_iov].
  replace (i + o - 2) with (Z.of_nat (length data)) by lia.
  rewrite (proj2 (Z.ltb_ge _ 0)) by lia. rewrite (proj2 (Z.ltb_ge _ _)).
  - cbn [orb]. rewrite Nat2Z.id, map_cons, map_app, <- app_comm_cons, <- app_assoc.
    rewrite skipn_cons, drop_0, take_app_length' by (now rewrite length_map). reflexivity.
  - rewrite length_app, length_map. cbn [length]. rewrite length_app. cbn. lia.
Qed.

(** Buffers that lie off the rings and apart from the status byte. *)
Definition apart (vr : vring) (iov : list iovec) (st : Z) : Prop :=
  Forall (off_rings vr) (iov_addrs iov) /\ st ∉ iov_addrs iov.

Lemma queue_write bdev m base q done iov bs m' :
  queue_at bdev m base q done -> Forall (off_rings (vq_vring (blk_vq bdev))) (iov_addrs iov) ->
  byte_ok bs -> write_addrs m (iov_addrs iov) bs = Some m' -> queue_at bdev m' base q done.
Proof.
  intros [M W A U] Off B E. pose proof (wf_num _ _ W).
  destruct (rings_off (vq_vring (blk_vq bdev)) m m' (last_avail_idx (blk_vq bdev)) q base done ltac:(lia)) as (W' & A' & U'); try assumption.
  - intros a Na. apply (write_addrs_other _ _ _ _ _ E). intros C. apply Na.
    rewrite Forall_forall in Off. now apply Off.
  - intros a; exact (write_addrs_dom _ _ _ _ a E).
  - split; try assumption. exact (mem_ok_write _ _ _ _ M B E).
Qed.

Lemma quiet_status vr m m1 st : quiet vr m m1 -> is_Some (m !! st) -> is_Some (m1 !! st).
Proof. intros [_ Q]. apply Q. Qed.

Lemma hdr_quiet vr m m1 a n d :
  quiet vr m m1 -> 0 <= d -> d + Z.of_nat n <= 16 -> a + 16 <= used vr \/ used vr + 6 + 8 * num vr <= a ->
  load n m1 (a + d) = load n m (a + d).
Proof. intros Q H1 H2 H3. apply (load_quiet vr); [exact Q|lia]. Qed.

(** The header as the request function reads it. *)
Lemma header_at bdev m m1 h e0 data e1 type sector :
  request bdev m h e0 data e1 type sector -> quiet (vq_vring (blk_vq bdev)) m m1 ->
  hdr_type m1 (host_ptr kvm (d_addr e0)) = Ret type /\
  hdr_sector m1 (host_ptr kvm (d_addr e0)) = Ret sector.
Proof.
  intros [_ _ T S H _] Q. cbv zeta in H. unfold hdr_type, hdr_sector in *.
  rewrite <- (Z.add_0_r (host_ptr kvm (d_addr e0))) in T |- * at 1.
  rewrite (hdr_quiet _ _ _ _ 4 0 Q) by (try exact H; lia).
  rewrite (hdr_quiet _ _ _ _ 8 8 Q) by (try exact H; lia). auto.
Qed.

Lemma u32_head bdev m base h q done : queue_at bdev m base (h :: q) done -> u32 h = h.
Proof.
  intros [M _ A _]. pose proof (av_slot _ _ _ _ A 0%nat h eq_refl) as L.
  pose proof (load_fits _ _ _ _ M L) as F. unfold fits in F. cbn in F.
  apply wrap_id. unfold fits. lia.
Qed.
End proofs.

(** C7. A read request is served. Over any image that promises [DiskReads], a
    request of type IN for whole sectors that the image has, waiting alone in
    the queue with buffers off the rings, is read, completed and handed back by
    one run of the loop: the buffers hold the disk's bytes, the status byte says
    success, the head stands next in the used ring with the number of bytes, the
    queue is empty, nothing else off the rings is written, and the disk reads as
    before. *)
Theorem blk_read_served {D} kvm need fsync fstat (ops : disk_image_operations D) ok byte
  `{!DiskReads ops ok byte} disk bdev m base h done e0 data e1 sector bs :
  let vr := vq_vring (blk_vq bdev) in
  let iov := map (iov_of kvm) data in
  let st := host_ptr kvm (d_addr e1) in
  img_ops disk = ops -> img_async disk = false -> ok (img_state disk) ->
  queue_at bdev m base [h] done -> request kvm bdev m h e0 data e1 VIRTIO_BLK_T_IN sector ->
  request_ok sector iov -> mapped m (iov_addrs iov) -> NoDup (iov_addrs iov) -> apart vr iov st ->
  byte_ok bs -> Z.of_nat (length bs) = iov_total iov -> holds byte (img_state disk) sector bs ->
  exists disk' bdev' m', virtio_blk_do_io kvm need fsync fstat 2 disk bdev m = Ret (disk', bdev', m') /\
    read_addrs m' (iov_addrs iov) = Some bs /\ m' !! st = Some VIRTIO_BLK_S_OK /\
    queue_at bdev' m' base [] (done ++ [(h, iov_total iov)]) /\
    (forall a, off_rings vr a -> a <> st -> a ∉ iov_addrs iov -> m' !! a = m !! a) /\
    ok (img_state disk') /\ (forall p, byte (img_state disk') p = byte (img_state disk) p).
Proof.
  intros vr iov st <- As Ok Q R Rok Mp Nd [Off Nst] B L H. pose proof (u32_head _ _ _ _ _ _ Q) as Hh.
  destruct (take_request kvm need fsync fstat 1 disk bdev m base h [] done e0 data e1 _ _ Q R)
    as (m1 & b1 & tail & o & i & -> & Qu & V1 & Q1 & _ & Er & Hoi).
  destruct (header_at kvm bdev m m1 h e0 data e1 _ _ R Qu) as [T S].
  unfold virtio_blk_do_io_request. rewrite Er. cbn [req_iov map app iov_of iov_base]. rewrite T, S.
  change (VIRTIO_BLK_T_IN =? VIRTIO_BLK_T_IN) with true. cbv iota.
  change (iov_of kvm e0 :: map (iov_of kvm) (data ++ [e1]) ++ tail)
    with (map (iov_of kvm) (e0 :: data ++ [e1]) ++ tail).
  change (mkiov (host_ptr kvm (d_addr e0)) (d_len e0)) with (iov_of kvm e0).
  rewrite data_iov_request by exact Hoi. fold iov.
  destruct (disk_read (img_state disk) m1 sector iov bs Ok Rok (mapped_quiet _ _ _ _ Qu Mp) L H)
    as (rd & d' & m2 & E1 & E2 & E3 & Ok' & By).
  unfold disk_image__read. rewrite E1, E2. destruct Rok as (_ & _ & _ & T0 & T31).
  rewrite (proj2 (Z.ltb_ge _ 0)) by lia. unfold run_callback. cbn [set_img img_async]. rewrite As. cbn [negb].
  assert (Off1 : Forall (off_rings (vq_vring (blk_vq b1))) (iov_addrs iov)) by (rewrite V1; exact Off).
  pose proof (queue_write b1 m1 base [] done iov bs m2 Q1 Off1 B E3) as Q2.
  destruct (rq_status _ _ _ _ _ _ _ _ _ R) as [Mst Ost].
  destruct (finish_request kvm need fsync fstat b1 m2 base done h e0 data e1 tail o i (iov_total iov) Q2 Er Hoi)
    as (m3 & m4 & b3 & E4 & E5 & Q5 & S5 & F5).
  { apply (write_addrs_dom _ _ _ _ _ E3), Qu, Mst. }
  { rewrite V1. exact Ost. }
  rewrite E4, E5. exists (set_img disk d'), b3, m4. split; [reflexivity|]. rewrite V1 in F5. fold st in S5, F5.
  rewrite (proj2 (Z.ltb_ge _ 0)) in S5 by lia. rewrite Hh, (wrap_id 32 (iov_total iov)) in Q5 by (unfold fits; lia).
  split.
  { rewrite <- (read_write_same m1 (iov_addrs iov) bs m2 Nd ltac:(unfold iov_total in L; lia) E3).
    apply read_addrs_ext. intros a Ha. rewrite Forall_forall in Off.
    apply F5; [now apply Off|]. intros ->. contradiction. }
  split; [exact S5|]. split; [exact Q5|]. split; [|split; [exact Ok'|exact By]].
  intros a Ha N1 N2. rewrite (F5 a Ha N1), (write_addrs_other _ _ _ _ _ E3 N2).
  destruct Qu as [Qu _]. apply Qu, Ha.
Qed.

(** C8. A write request is served. Over any image that promises [DiskWrites], a
    request of type OUT for whole sectors that the image has is carried out: the
    disk holds the bytes of the buffers and its other bytes are as before, the
    status says success, the head is handed back, the queue is empty, and no
    byte off the rings changes but the status. *)
Theorem blk_write_served {D} kvm need fsync fstat (ops : disk_image_operations D) ok byte
  `{!DiskWrites ops ok byte} disk bdev m base h done e0 data e1 sector bs :
  let vr := vq_vring (blk_vq bdev) in
  let iov := map (iov_of kvm) data in
  let st := host_ptr kvm (d_addr e1) in
  img_ops disk = ops -> img_async disk = false -> ok (img_state disk) ->
  queue_at bdev m base [h] done -> request kvm bdev m h e0 data e1 VIRTIO_BLK_T_OUT sector ->
  request_ok sector iov -> apart vr iov st -> read_addrs m (iov_addrs iov) = Some bs ->
  (forall i, 0 <= i < iov_total iov -> is_Some (byte (img_state disk) (sector * 512 + i))) ->
  exists disk' bdev' m', virtio_blk_do_io kvm need fsync fstat 2 disk bdev m = Ret (disk', bdev', m') /\
    m' !! st = Some VIRTIO_BLK_S_OK /\
    queue_at bdev' m' base [] (done ++ [(h, iov_total iov)]) /\
    (forall a, off_rings vr a -> a <> st -> m' !! a = m !! a) /\
    ok (img_state disk') /\ holds byte (img_state disk') sector bs /\
    (forall p, p < sector * 512 \/ sector * 512 + iov_total iov <= p ->
       byte (img_state disk') p = byte (img_state disk) p).
Proof.
  intros vr iov st <- As Ok Q R Rok [Off Nst] Rd H. pose proof (u32_head _ _ _ _ _ _ Q) as Hh.
  destruct (take_request kvm need fsync fstat 1 disk bdev m base h [] done e0 data e1 _ _ Q R)
    as (m1 & b1 & tail & o & i & -> & Qu & V1 & Q1 & _ & Er & Hoi).
  destruct (header_at kvm bdev m m1 h e0 data e1 _ _ R Qu) as [T S].
  unfold virtio_blk_do_io_request. rewrite Er. cbn [req_iov map app iov_of iov_base]. rewrite T, S.
  change (VIRTIO_BLK_T_OUT =? VIRTIO_BLK_T_IN) with false.
  change (VIRTIO_BLK_T_OUT =? VIRTIO_BLK_T_OUT) with true. cbv iota.
  change (iov_of kvm e0 :: map (iov_of kvm) (data ++ [e1]) ++ tail)
    with (map (iov_of kvm) (e0 :: data ++ [e1]) ++ tail).
  change (mkiov (host_ptr kvm (d_addr e0)) (d_len e0)) with (iov_of kvm e0).
  rewrite data_iov_request by exact Hoi. fold iov.
  assert (Rd1 : read_addrs m1 (iov_addrs iov) = Some bs).
  { rewrite <- Rd. apply read_addrs_ext. intros a Ha. rewrite Forall_forall in Off.
    destruct Qu as [Qu _]. apply Qu, Off, Ha. }
  destruct (disk_write (img_state disk) m1 sector iov bs Ok Rok Rd1 H)
    as (wr & d' & E1 & E2 & Ok' & By & Rest).
  unfold disk_image__write. rewrite E1, E2. destruct Rok as (_ & _ & _ & T0 & T31).
  rewrite (proj2 (Z.ltb_ge _ 0)) by lia. unfold run_callback. cbn [set_img img_async]. rewrite As. cbn [negb].
  destruct (rq_status _ _ _ _ _ _ _ _ _ R) as [Mst Ost].
  destruct (finish_request kvm need fsync fstat b1 m1 base done h e0 data e1 tail o i (iov_total iov) Q1 Er Hoi)
    as (m3 & m4 & b3 & E4 & E5 & Q5 & S5 & F5).
  { apply Qu, Mst. }
  { rewrite V1. exact Ost. }
  rewrite E4, E5. exists (set_img disk d'), b3, m4. split; [reflexivity|]. rewrite V1 in F5. fold st in S5, F5.
  rewrite (proj2 (Z.ltb_ge _ 0)) in S5 by lia. rewrite Hh, (wrap_id 32 (iov_total iov)) in Q5 by (unfold fits; lia).
  split; [exact S5|]. split; [exact Q5|]. split; [|auto].
  intros a Ha N1. rewrite (F5 a Ha N1). destruct Qu as [Qu _]. apply Qu, Ha.
Qed.

(** Requests that get lost. If the image reports an error for a read, or
    the type is none of the four that the device knows, the run ends with the
    request taken off the queue and never handed back: no used element, no
    status, no byte changed off the rings. The driver waits for good. *)
Theorem blk_request_lost {D} kvm need fsync fstat disk bdev m base h done e0 data e1 type sector :
  let vr := vq_vring (blk_vq bdev) in
  let iov := map (iov_of kvm) data in
  queue_at bdev m base [h] done -> request kvm bdev m h e0 data e1 type sector ->
  (type = VIRTIO_BLK_T_IN /\ (forall m1, exists rd t (d' : D), t < 0 /\ op_read (img_ops disk) = Some rd /\
     rd (img_state disk) m1 sector iov = Ret (t, d', m1))) \/
  Forall (fun t => type <> t) [VIRTIO_BLK_T_IN; VIRTIO_BLK_T_OUT; VIRTIO_BLK_T_FLUSH; VIRTIO_BLK_T_GET_ID] ->
  exists disk' bdev' m', virtio_blk_do_io kvm need fsync fstat 2 disk bdev m = Ret (disk', bdev', m') /\
    queue_at bdev' m' base [] done /\ signals bdev' = signals bdev /\
    (forall a, off_rings vr a -> m' !! a = m !! a).
Proof.
  intros vr iov Q R H.
  destruct (take_request kvm need fsync fstat 1 disk bdev m base h [] done e0 data e1 _ _ Q R)
    as (m1 & b1 & tail & o & i & -> & Qu & V1 & Q1 & Sg & Er & Hoi).
  destruct (header_at kvm bdev m m1 h e0 data e1 _ _ R Qu) as [T S].
  assert (E : exists disk', virtio_blk_do_io_request need fsync fstat h disk b1 m1 = Ret (disk', b1, m1)).
  { unfold virtio_blk_do_io_request. rewrite Er. cbn [req_iov map app iov_of iov_base]. rewrite T, S.
    destruct H as [[-> H]|H].
    - change (VIRTIO_BLK_T_IN =? VIRTIO_BLK_T_IN) with true. cbv iota.
      change (iov_of kvm e0 :: map (iov_of kvm) (data ++ [e1]) ++ tail)
        with (map (iov_of kvm) (e0 :: data ++ [e1]) ++ tail).
      change (mkiov (host_ptr kvm (d_addr e0)) (d_len e0)) with (iov_of kvm e0).
      rewrite data_iov_request by exact Hoi. fold iov. destruct (H m1) as (rd & t & d' & Ht & Eo & Ed).
      unfold disk_image__read. rewrite Eo, Ed, (proj2 (Z.ltb_lt _ _) Ht). eauto.
    - rewrite !Forall_cons in H. destruct H as (H1 & H2 & H3 & H4 & _).
      rewrite !(proj2 (Z.eqb_neq _ _)) by assumption. eauto. }
  destruct E as [disk' ->]. destruct (idle kvm need fsync fstat 0 b1 m1 base done Q1) as (m2 & E2 & Q2 & Q3).
  rewrite E2. exists disk', b1, m2. split; [reflexivity|]. split; [exact Q3|]. split; [exact Sg|].
  rewrite V1 in Q2. intros a [_ Ha]. destruct Q2 as [Q2 _], Qu as [Qu _]. now rewrite Q2, Qu.
Qed.

(** ** A concrete device *)

Lemma desc_at_quiet vr m m1 d i e :
  quiet vr m m1 -> d + 16 * i + 16 <= used vr \/ used vr + 6 + 8 * num vr <= d + 16 * i ->
  desc_at m d i e -> desc_at m1 d i e.
Proof.
  intros Q H (A & L & F & N). unfold desc_at, desc_addr, desc_len, desc_flags, desc_next, DESC_SIZE in *.
  rewrite !(load_quiet vr m m1) by (try exact Q; lia). auto.
Qed.

(** One request in a ring of four: header at guest address 256, 512 bytes of
    data at 512, status at 300. *)
Definition blk_bytes (type dir : Z) : list Z :=
    (desc_bytes 256 16 VRING_DESC_F_NEXT 1 ++ desc_bytes 512 512 (dir .| VRING_DESC_F_NEXT) 2 ++
     desc_bytes 300 1 VRING_DESC_F_WRITE 0 ++ desc_bytes 0 0 0 0 ++
     (le_enc 2 0 ++ le_enc 2 1 ++ repeat 0 10) ++ [0; 0] ++ repeat 0 38 ++ repeat 0 138 ++
     le_enc 4 type ++ le_enc 4 0 ++ le_enc 8 1 ++ repeat 0 240 ++ repeat 7 512).

Definition blk_mem (type dir : Z) : hmem := mem_at (2 ^ 40) (blk_bytes type dir).

Definition blk_demo : blk_dev :=
  mkblk start_vdev 0 demo_vq (repeat (mkreq (repeat (mkiov 0 0) 4) 0 0 0) 4) [].

Definition demo_disk : image (list Z) := mkimage ro_ops false (repeat 1 512 ++ repeat 2 512).

Definition no_event (e n o : Z) : bool := false.
Definition no_fsync {D : Type} (d : D) : Z * D := (0, d).
Definition no_fstat {D : Type} (d : D) : res (Z * Z * Z) := Err (- EIO).

Section demo.
Context (type dir : Z) (Hd : dir = 0 \/ dir = 2) (Ht : type = 0 \/ type = 1 \/ type = 2).

Lemma blk_bytes_length : length (blk_bytes type dir) = 1024%nat.
Proof. destruct Hd as [-> | ->], Ht as [-> |[-> | ->]]; vm_compute; reflexivity. Qed.

(** A field of this memory is a slice of its bytes. *)
Lemma blk_load n k x :
  0 <= k -> k + Z.of_nat n <= 1024 -> le_dec (slice (Z.to_nat k) n (blk_bytes type dir)) = x ->
  load n (blk_mem type dir) (2 ^ 40 + k) = Ret x.
Proof.
  intros H1 H2 <-. unfold blk_mem. rewrite load_mem_at by (rewrite ?blk_bytes_length; lia).
  now replace (2 ^ 40 + k - 2 ^ 40) with k by lia.
Qed.

Ltac blk_field k :=
  apply (blk_load _ k); [lia|lia|];
  destruct Hd as [-> | ->], Ht as [-> |[-> | ->]]; vm_compute; reflexivity.

Lemma blk_demo_queue : queue_at blk_demo (blk_mem type dir) 0 [0] [].
Proof.
  split.
  - apply mem_at_ok, byte_ok_check. destruct Hd as [-> | ->], Ht as [-> |[-> | ->]]; vm_compute; reflexivity.
  - split; cbn [blk_demo blk_vq demo_vq vq_vring demo_vring num avail used]; try lia.
    + exists (2 ^ 14). reflexivity.
    + apply mapped_mem_at; rewrite ?blk_bytes_length; cbn; lia.
    + apply mapped_mem_at; rewrite ?blk_bytes_length; cbn; lia.
  - split; [split; cbn; lia|cbn; lia| |].
    + blk_field 66.
    + intros [|k] h Hk; [|discriminate]. injection Hk as <-. blk_field 68.
  - split; [blk_field 82|]. intros k e Hk. discriminate.
Qed.

Lemma blk_demo_desc :
  desc_at (blk_mem type dir) (2 ^ 40) 0 (mkdesc 256 16 1 1) /\
  desc_at (blk_mem type dir) (2 ^ 40) 1 (mkdesc 512 512 (dir .| 1) 2) /\
  desc_at (blk_mem type dir) (2 ^ 40) 2 (mkdesc 300 1 2 0).
Proof.
  split; [|split]; (split; [|split; [|split; [|intros _]]]).
  - blk_field 0.
  - blk_field 8.
  - blk_field 12.
  - blk_field 14.
  - blk_field 16.
  - blk_field 24.
  - blk_field 28.
  - blk_field 30.
  - blk_field 32.
  - blk_field 40.
  - blk_field 44.
  - blk_field 46.
Qed.

Lemma blk_demo_request :
  request demo_mem blk_demo (blk_mem type dir) 0 (mkdesc 256 16 1 1)
    [mkdesc 512 512 (dir .| 1) 2] (mkdesc 300 1 2 0) type 1.
Proof.
  destruct blk_demo_desc as (D0 & D1 & D2). split.
  - intros m1 Q. exists 1. pose proof (desc_at_quiet demo_vring _ m1 (2 ^ 40) 0 _ Q ltac:(cbn; lia) D0) as E0.
    split; [apply E0|]. change (flag 1 VRING_DESC_F_INDIRECT) with false. cbv iota. cbn [app].
    apply chain_next; [exact E0|reflexivity|].
    apply chain_next; [exact (desc_at_quiet demo_vring _ m1 (2 ^ 40) 1 _ Q ltac:(cbn; lia) D1)| |].
    + destruct Hd as [-> | ->]; reflexivity.
    + apply chain_last; [exact (desc_at_quiet demo_vring _ m1 (2 ^ 40) 2 _ Q ltac:(cbn; lia) D2)|reflexivity].
  - eexists. split; [reflexivity|]. cbn. lia.
  - blk_field 256.
  - blk_field 264.
  - vm_compute. right. discriminate.
  - split.
    + change (host_ptr demo_mem (d_addr (mkdesc 300 1 2 0))) with (2 ^ 40 + 300).
      unfold blk_mem. rewrite mem_at_lookup by (rewrite blk_bytes_length; lia).
      apply lookup_lt_is_Some_2. rewrite blk_bytes_length. lia.
    + split; vm_compute; intros [A B]; now (apply A || apply B || discriminate).
Qed.
End demo.

Lemma demo_iov_addrs dir : iov_addrs (map (iov_of demo_mem) [mkdesc 512 512 dir 2]) = seqZ (2 ^ 40 + 512) 512.
Proof. cbn [map iov_of iov_addrs flat_map d_addr d_len iov_base iov_len]. apply app_nil_r. Qed.

Lemma demo_request_ok dir : request_ok 1 (map (iov_of demo_mem) [mkdesc 512 512 dir 2]).
Proof.
  unfold request_ok, iov_total. rewrite demo_iov_addrs, length_seqZ. repeat split; try lia.
  - repeat constructor; cbn; lia.
  - repeat constructor.
Qed.

Lemma demo_apart dir :
  apart demo_vring (map (iov_of demo_mem) [mkdesc 512 512 dir 2]) (host_ptr demo_mem 300).
Proof.
  unfold apart. rewrite demo_iov_addrs. change (host_ptr demo_mem 300) with (2 ^ 40 + 300). split.
  - apply Forall_forall. intros a Ha. apply elem_of_seqZ in Ha. unfold off_rings. cbn. lia.
  - intros Ha. apply elem_of_seqZ in Ha. lia.
Qed.

Lemma lookup_repeat {A} (x : A) n i : (i < n)%nat -> repeat x n !! i = Some x.
Proof. revert i. induction n as [|n IH]; intros [|i] H; try lia; [reflexivity|]. apply IH. lia. Qed.

Lemma demo_disk_byte p : 512 <= p < 1024 -> raw_byte (img_state demo_disk) p = Some 2.
Proof.
  intros Hp. unfold raw_byte. rewrite (proj2 (Z.ltb_ge _ _)) by lia. unfold demo_disk. cbn [img_state].
  rewrite lookup_app_r; rewrite repeat_length; [|lia]. apply lookup_repeat. lia.
Qed.

Lemma demo_holds x n : x = 2 -> (n <= 512)%nat -> holds raw_byte (img_state demo_disk) 1 (repeat x n).
Proof.
  intros -> Hn i Hi. rewrite repeat_length in Hi. rewrite demo_disk_byte by lia.
  symmetry. apply lookup_repeat. lia.
Qed.

Lemma blk_read_served_witness :
  exists disk' bdev' m', virtio_blk_do_io demo_mem no_event no_fsync no_fstat 2 demo_disk blk_demo (blk_mem 0 2) =
      Ret (disk', bdev', m') /\
    read_addrs m' (seqZ (2 ^ 40 + 512) 512) = Some (repeat 2 512) /\
    m' !! (2 ^ 40 + 300) = Some VIRTIO_BLK_S_OK.
Proof.
  destruct (blk_read_served demo_mem no_event no_fsync no_fstat ro_ops raw_ok raw_byte demo_disk blk_demo
    (blk_mem 0 2) 0 0 [] (mkdesc 256 16 1 1) [mkdesc 512 512 3 2] (mkdesc 300 1 2 0) 1 (repeat 2 512)
    eq_refl eq_refl) as (disk' & b' & m' & E & Rd & St & _).
  - unfold raw_ok. vm_compute. reflexivity.
  - apply blk_demo_queue; auto.
  - exact (blk_demo_request 0 2 ltac:(auto) ltac:(auto)).
  - apply demo_request_ok.
  - rewrite demo_iov_addrs.
    apply (mapped_mem_at _ _ _ 512); [lia|]. rewrite blk_bytes_length by auto. lia.
  - rewrite demo_iov_addrs. apply NoDup_seqZ.
  - apply demo_apart.
  - apply byte_ok_check. vm_compute. reflexivity.
  - unfold iov_total. rewrite demo_iov_addrs, length_seqZ, repeat_length. reflexivity.
  - apply demo_holds; [reflexivity|lia].
  - rewrite demo_iov_addrs in Rd. exists disk', b', m'. split; [exact E|]. split; [exact Rd|exact St].
Defined.

Lemma blk_write_served_witness :
  exists disk' bdev' m', virtio_blk_do_io demo_mem no_event no_fsync no_fstat 2 demo_disk blk_demo (blk_mem 1 0) =
      Ret (disk', bdev', m') /\
    raw_byte (img_state disk') 600 = Some 7 /\ raw_byte (img_state disk') 100 = Some 1.
Proof.
  assert (Rd : read_addrs (blk_mem 1 0) (seqZ (2 ^ 40 + 512) 512) = Some (repeat 7 512)).
  { change 512 with (Z.of_nat 512) at 2. unfold blk_mem. rewrite read_mem_at by (rewrite ?blk_bytes_length by auto; lia).
    vm_compute. reflexivity. }
  destruct (blk_write_served demo_mem no_event no_fsync no_fstat ro_ops raw_ok raw_byte demo_disk blk_demo
    (blk_mem 1 0) 0 0 [] (mkdesc 256 16 1 1) [mkdesc 512 512 1 2] (mkdesc 300 1 2 0) 1 (repeat 7 512)
    eq_refl eq_refl) as (disk' & b' & m' & E & _ & _ & _ & _ & By & Rest).
  - unfold raw_ok. vm_compute. reflexivity.
  - apply blk_demo_queue; auto.
  - exact (blk_demo_request 1 0 ltac:(auto) ltac:(auto)).
  - apply demo_request_ok.
  - apply demo_apart.
  - rewrite demo_iov_addrs. exact Rd.
  - intros i Hi. unfold iov_total in Hi. rewrite demo_iov_addrs, length_seqZ in Hi.
    rewrite demo_disk_byte by lia. eauto.
  - exists disk', b', m'. split; [exact E|]. split.
    + specialize (By 88 ltac:(rewrite repeat_length; lia)). replace (1 * 512 + 88) with 600 in By by lia.
      rewrite By. reflexivity.
    + rewrite (Rest 100) by lia. reflexivity.
Defined.

(** Type 2 (a SCSI command) is not known to the device. *)
Lemma blk_request_lost_witness :
  exists disk' bdev' m', virtio_blk_do_io demo_mem no_event no_fsync no_fstat 2 demo_disk blk_demo (blk_mem 2 2) =
      Ret (disk', bdev', m') /\ used_rel m' (vq_vring (blk_vq bdev')) 0 [] /\ signals bdev' = [].
Proof.
  destruct (blk_request_lost demo_mem no_event no_fsync no_fstat demo_disk blk_demo
    (blk_mem 2 2) 0 0 [] (mkdesc 256 16 1 1) [mkdesc 512 512 3 2] (mkdesc 300 1 2 0) 2 1)
    as (disk' & b' & m' & E & Q & Sg & _).
  - apply blk_demo_queue; auto.
  - exact (blk_demo_request 2 2 ltac:(auto) ltac:(auto)).
  - right. repeat constructor; discriminate.
  - exists disk', b', m'. split; [exact E|]. split; [apply Q|exact Sg].
Defined.
