(* ===== verification/ThreadPool.v ===== *)
(** * The thread pool

    [util/threadpool.c]: devices signal jobs, workers take them off a queue and
    run their callbacks. A job is a number and has a callback; [signalcount]
    counts the signals it has not worked off. The functions below are the
    sections of the code that a mutex makes atomic; [step] interleaves them, for
    any number of threads, and [fork_child] is what the fork hooks leave of a
    configuration in the child. Shutting the pool down and the failure of
    [pthread_create] are left out. *)
From S2P Require Import Prelude.
From stdpp Require Import relations.
Open Scope Z_scope.

(** [head] is the queue; [jmutex] says which job mutexes are held. *)
Record pool := mkpool {
  head : list nat;
  signalcount : nat -> Z;
  jmutex : nat -> bool;
}.

Definition upd {A : Type} (f : nat -> A) (j : nat) (x : A) (i : nat) : A :=
  if decide (i = j) then x else f i.

Definition set_count (p : pool) (j : nat) (c : Z) : pool :=
  mkpool (head p) (upd (signalcount p) j c) (jmutex p).

Definition set_mutex (p : pool) (j : nat) (b : bool) : pool :=
  mkpool (head p) (signalcount p) (upd (jmutex p) j b).

Definition thread_pool__job_pop (p : pool) : option nat * pool :=
  match head p with
  | [] => (None, p)
  | job :: l => (Some job, mkpool l (signalcount p) (jmutex p))
  end.

(** [list_add_tail] of a job that is linked already corrupts the list. *)
Definition thread_pool__job_push (p : pool) (job : nat) : out pool :=
  if decide (job ∈ head p) then Ub
  else Ret (mkpool (head p ++ [job]) (signalcount p) (jmutex p)).

Definition INT_MAX : Z := 2 ^ 31 - 1.

(** [thread_pool__do_job] from taking the job's mutex to the test: with [true]
    the mutex stays held and the job has to be queued. *)
Definition do_job_signal (p : pool) (job : nat) : out (bool * pool) :=
  let p := set_mutex p job true in
  let c := signalcount p job in
  if c =? INT_MAX then Ub
  else
    let p := set_count p job (c + 1) in
    if c =? 0 then Ret (true, p) else Ret (false, set_mutex p job false).

(** The push and the release of the job's mutex, in [thread_pool__do_job] and in
    [thread_pool__handle_job]. *)
Definition push_unlock (p : pool) (job : nat) : out pool :=
  let! p := thread_pool__job_push p job in
  Ret (set_mutex p job false).

(** [thread_pool__handle_job] from the return of the callback to the test: [true]
    if the job was signalled again while it ran. *)
Definition handle_job_done (p : pool) (job : nat) : bool * pool :=
  let p := set_mutex p job true in
  let c := signalcount p job - 1 in
  let p := set_count p job c in
  if 0 <? c then (true, p) else (false, set_mutex p job false).

(** One round of [thread_pool__cancel_job]: whether the job is still running. *)
Definition cancel_round (p : pool) (job : nat) : bool * pool :=
  if decide (job ∈ head p)
  then (false, set_count (mkpool (filter (fun i => i <> job) (head p)) (signalcount p) (jmutex p)) job 0)
  else (0 <? signalcount p job, p).

(** ** Interleavings *)

(** Where a thread is between two of those sections: outside; about to queue the
    job it signalled; a worker waiting for a job, with a job it has taken,
    running its callback, or about to queue it again. *)
Inductive thr :=
| Idle
| Sig_push (j : nat)
| Wait
| Popped (j : nat)
| Running (j : nat)
| Re_push (j : nat).

(** [dirty j]: [j] was signalled after its callback last started. *)
Record conf := mkconf { pl : pool; thrs : list thr; dirty : nat -> bool }.

(** What threads do once they are under way: workers in [thread_pool__threadfunc]
    and [thread_pool__handle_job], signallers in the second half of
    [thread_pool__do_job]. *)
Inductive work : conf -> conf -> Prop :=
| s_push p ts d i j p' :
    ts !! i = Some (Sig_push j) -> push_unlock p j = Ret p' ->
    work (mkconf p ts d) (mkconf p' (<[i := Idle]> ts) d)
| s_pop p ts d i j p' :
    ts !! i = Some Wait -> thread_pool__job_pop p = (Some j, p') ->
    work (mkconf p ts d) (mkconf p' (<[i := Popped j]> ts) d)
| s_start p ts d i j :
    ts !! i = Some (Popped j) ->
    work (mkconf p ts d) (mkconf p (<[i := Running j]> ts) (upd d j false))
| s_finish p ts d i j again p' :
    ts !! i = Some (Running j) -> jmutex p j = false -> handle_job_done p j = (again, p') ->
    work (mkconf p ts d) (mkconf p' (<[i := if again : bool then Re_push j else Wait]> ts) d)
| s_repush p ts d i j p' :
    ts !! i = Some (Re_push j) -> push_unlock p j = Ret p' ->
    work (mkconf p ts d) (mkconf p' (<[i := Wait]> ts) d).

Inductive step : conf -> conf -> Prop :=
| s_work c c' : work c c' -> step c c'
| s_signal p ts d i j push p' :
    ts !! i = Some Idle -> jmutex p j = false -> do_job_signal p j = Ret (push, p') ->
    step (mkconf p ts d) (mkconf p' (<[i := if push : bool then Sig_push j else Idle]> ts) (upd d j true))
| s_cancel p ts d i j r p' :
    ts !! i = Some Idle -> cancel_round p j = (r, p') ->
    step (mkconf p ts d) (mkconf p' ts (if decide (j ∈ head p) then upd d j false else d)).

(** The child of a fork: memory is copied while [thread_pool__pre_copy] holds the
    queue's mutex; of the threads only the forking one survives, and
    [thread_pool__post_copy] starts one worker. [n] threads that may signal jobs
    are started later. *)
Definition fork_child (n : nat) (c : conf) : conf :=
  mkconf (pl c) (Wait :: replicate n Idle) (dirty c).

Definition holds (t : thr) : option nat :=
  match t with
  | Idle | Wait => None
  | Sig_push j | Popped j | Running j | Re_push j => Some j
  end.

Definition quiet (c : conf) : Prop := Forall (fun t => holds t = None) (thrs c).

(** Configurations reached from an empty pool whose threads are idle or waiting
    workers, also through forks while no job is in a thread's hands. *)
Inductive preach : conf -> Prop :=
| p_init ts d : Forall (fun t => holds t = None) ts -> (forall j, d j = false) ->
    preach (mkconf (mkpool [] (fun _ => 0) (fun _ => false)) ts d)
| p_step c c' : preach c -> step c c' -> preach c'
| p_fork n c : preach c -> quiet c -> preach (fork_child n c).

(** ** One token per signalled job *)

Definition one (j i : nat) : nat := if decide (i = j) then 1 else 0.

Definition tok (j : nat) (t : thr) : nat := match holds t with Some i => one j i | None => 0 end.

Definition occ (j : nat) (l : list nat) : nat := sum_list_with (one j) l.
Definition toks (j : nat) (ts : list thr) : nat := sum_list_with (tok j) ts.
Definition tokens (c : conf) (j : nat) : nat := (occ j (head (pl c)) + toks j (thrs c))%nat.

(** The invariant, up to the jobs that a fork has [lost]. *)
Record pinv (lost : nat -> bool) (c : conf) : Prop := {
  pi_tok : forall j, tokens c j = if (0 <? signalcount (pl c) j) && negb (lost j) then 1%nat else 0%nat;
  pi_pos : forall j, (if lost j then 1 else 0) <= signalcount (pl c) j;
  pi_dirty : forall j, dirty c j = true -> 1 <= signalcount (pl c) j;
  pi_run : forall j i, thrs c !! i = Some (Running j) -> dirty c j = true -> 2 <= signalcount (pl c) j;
  pi_mutex : forall j, jmutex (pl c) j = true -> lost j = false ->
    exists i, thrs c !! i = Some (Sig_push j) \/ thrs c !! i = Some (Re_push j);
}.

Lemma toks_at ts i t : ts !! i = Some t ->
  forall t' j, (toks j (<[i := t']> ts) + tok j t = toks j ts + tok j t')%nat /\ (tok j t <= toks j ts)%nat.
Proof. intros H t' j. split; [now apply sum_insert|now apply (sum_lookup (tok j) ts i)]. Qed.

Lemma toks_other j ts i i' t t' :
  i <> i' -> ts !! i = Some t -> ts !! i' = Some t' -> (tok j t + tok j t' <= toks j ts)%nat.
Proof. apply sum_two. Qed.

Lemma occ_app j l1 l2 : occ j (l1 ++ l2) = (occ j l1 + occ j l2)%nat.
Proof. apply sum_list_with_app. Qed.

Lemma occ_in j l : j ∈ l <-> (0 < occ j l)%nat.
Proof.
  split.
  - intros H. apply (sum_list_with_in _ (one j)) in H. unfold one in H at 1.
    rewrite decide_True in H by reflexivity. unfold occ. lia.
  - unfold occ. induction l as [|x l IH]; cbn; [lia|]. unfold one at 1. case_decide as E; [subst; left|].
    intros H. right. apply IH. lia.
Qed.

Lemma occ_filter j i l : occ j (filter (fun x => x <> i) l) = if decide (j = i) then 0%nat else occ j l.
Proof.
  unfold occ. induction l as [|x l IH]; [now case_decide|].
  rewrite filter_cons. destruct (decide (x <> i)) as [N|N]; cbn [sum_list_with]; rewrite IH; unfold one;
    repeat case_decide; subst; congruence || lia.
Qed.

Lemma occ_NoDup l : (forall j, (occ j l <= 1)%nat) -> NoDup l.
Proof.
  induction l as [|x l IH]; intros H; constructor.
  - rewrite occ_in. specialize (H x). unfold occ in *. cbn in H. unfold one in H at 1.
    rewrite decide_True in H by reflexivity. lia.
  - apply IH. intros j. specialize (H j). unfold occ in *. cbn in H. lia.
Qed.

Lemma quiet_toks ts j : Forall (fun t => holds t = None) ts -> toks j ts = 0%nat.
Proof.
  unfold toks. induction 1 as [|t ts H _ IH]; [reflexivity|]. cbn. rewrite IH. unfold tok. now rewrite H.
Qed.

Lemma toks_quiet ts : (forall j, toks j ts = 0%nat) -> Forall (fun t => holds t = None) ts.
Proof.
  intros H. apply Forall_forall. intros t Ht. destruct (holds t) as [j|] eqn:E; [|reflexivity].
  apply (sum_list_with_in _ (tok j)) in Ht. unfold tok in Ht at 1. rewrite E in Ht. unfold one in Ht.
  rewrite decide_True in Ht by reflexivity. specialize (H j). unfold toks in H. lia.
Qed.

Lemma toks_pos j ts : (0 < toks j ts)%nat -> exists i t, ts !! i = Some t /\ holds t = Some j.
Proof.
  unfold toks. induction ts as [|t ts IH]; cbn; [lia|]. intros H.
  destruct (decide (holds t = Some j)) as [E|E]; [now exists O, t|].
  destruct IH as (i & t' & Hi & E'); [|now exists (S i), t'].
  assert (tok j t = 0)%nat; [|lia]. unfold tok. destruct (holds t) as [k|]; [|reflexivity].
  unfold one. rewrite decide_False; [reflexivity|congruence].
Qed.

(** What each section does to the fields. *)
Lemma push_unlock_ret p j p' :
  push_unlock p j = Ret p' ->
  ~ j ∈ head p /\ p' = mkpool (head p ++ [j]) (signalcount p) (upd (jmutex p) j false).
Proof.
  unfold push_unlock, thread_pool__job_push. case_decide; [discriminate|]. now intros [= <-].
Qed.

Lemma do_job_signal_ret p j push p' :
  do_job_signal p j = Ret (push, p') ->
  push = (signalcount p j =? 0) /\
  p' = mkpool (head p) (upd (signalcount p) j (signalcount p j + 1))
         (if push then upd (jmutex p) j true else upd (upd (jmutex p) j true) j false).
Proof.
  unfold do_job_signal. cbn. destruct (_ =? INT_MAX); [discriminate|].
  destruct (signalcount p j =? 0); now intros [= <- <-].
Qed.

Lemma handle_job_done_ret p j again p' :
  handle_job_done p j = (again, p') ->
  again = (0 <? signalcount p j - 1) /\
  p' = mkpool (head p) (upd (signalcount p) j (signalcount p j - 1))
         (if again then upd (jmutex p) j true else upd (upd (jmutex p) j true) j false).
Proof.
  unfold handle_job_done. cbn. destruct (0 <? signalcount p j - 1); now intros [= <- <-].
Qed.

(** A record update seen through its projections. *)
Ltac upds := cbn [pl thrs dirty head signalcount jmutex] in *; unfold upd in *.

(** Close an equation between token counts: [T] is the invariant at the job, [S]
    the change of the sum over threads. *)
Ltac tokens_at T S :=
  unfold tok in *; cbn [holds] in *; unfold one in *; repeat case_decide; subst; try congruence;
  revert T; repeat match goal with |- context [?x <? ?y] => destruct (Z.ltb_spec x y) end;
  repeat match goal with |- context [negb (?l ?k)] => destruct (l k) eqn:? end; cbn [andb negb]; intros T;
  try congruence; try lia.

Section invariant.
Context (lost : nat -> bool).

(** Thread [i] is at [t], which holds [j]: then [j] is live and nobody else has it. *)
Lemma holder c i t j :
  pinv lost c -> thrs c !! i = Some t -> holds t = Some j ->
  lost j = false /\ 1 <= signalcount (pl c) j /\ ~ j ∈ head (pl c) /\
  (forall i' t', thrs c !! i' = Some t' -> holds t' = Some j -> i' = i).
Proof.
  intros I H E. pose proof (pi_tok _ _ I j) as T. unfold tokens in T.
  destruct (toks_at _ _ _ H Idle j) as [_ G]. unfold tok in G. rewrite E in G. unfold one in G.
  rewrite decide_True in G by reflexivity.
  destruct (Z.ltb_spec 0 (signalcount (pl c) j)); destruct (lost j); cbn in T; try lia.
  split; [reflexivity|]. split; [lia|]. split; [rewrite occ_in; lia|].
  intros i' t' H' E'. destruct (decide (i = i')) as [->|N]; [reflexivity|].
  pose proof (toks_other j _ _ _ _ _ N H H') as W. unfold tok in W. rewrite E, E' in W. unfold one in W.
  rewrite decide_True in W by reflexivity. lia.
Qed.

Lemma queued c j : pinv lost c -> j ∈ head (pl c) ->
  lost j = false /\ 1 <= signalcount (pl c) j /\ toks j (thrs c) = 0%nat.
Proof.
  intros I H. rewrite occ_in in H. pose proof (pi_tok _ _ I j) as T. unfold tokens in T.
  destruct (Z.ltb_spec 0 (signalcount (pl c) j)); destruct (lost j); cbn in T; lia.
Qed.

Lemma insert_inv (ts : list thr) i i' t x :
  <[i := t]> ts !! i' = Some x -> (i' = i /\ x = t) \/ (i' <> i /\ ts !! i' = Some x).
Proof. rewrite list_lookup_insert_Some. intuition congruence. Qed.

(** The clause on running jobs and the clause on mutexes, for a thread that moves
    from [t] to [t']. *)
Lemma run_clause (P : nat -> Prop) (ts : list thr) i t' :
  (forall j i', ts !! i' = Some (Running j) -> P j) ->
  (forall j, t' = Running j -> P j) ->
  forall j i', <[i := t']> ts !! i' = Some (Running j) -> P j.
Proof. intros H G j i' E. apply insert_inv in E as [[_ E]|[_ E]]; eauto. Qed.

Lemma mutex_clause (ts : list thr) i t t' j :
  (exists i', ts !! i' = Some (Sig_push j) \/ ts !! i' = Some (Re_push j)) ->
  ts !! i = Some t -> t <> Sig_push j -> t <> Re_push j ->
  exists i', <[i := t']> ts !! i' = Some (Sig_push j) \/ <[i := t']> ts !! i' = Some (Re_push j).
Proof.
  intros [i' M] H N1 N2. exists i'. destruct (decide (i = i')) as [<-|N].
  - destruct M; congruence.
  - now rewrite list_lookup_insert_ne.
Qed.

Lemma mutex_new (ts : list thr) i t t' j :
  ts !! i = Some t -> t' = Sig_push j \/ t' = Re_push j ->
  exists i', <[i := t']> ts !! i' = Some (Sig_push j) \/ <[i := t']> ts !! i' = Some (Re_push j).
Proof.
  intros H M. exists i. rewrite list_lookup_insert_eq by (now apply lookup_lt_Some in H).
  destruct M as [->| ->]; auto.
Qed.

Lemma push_pinv p ts d i j t t' p' :
  pinv lost (mkconf p ts d) -> ts !! i = Some t -> t = Sig_push j \/ t = Re_push j ->
  t' = Idle \/ t' = Wait -> push_unlock p j = Ret p' ->
  pinv lost (mkconf p' (<[i := t']> ts) d).
Proof.
  intros I H T T' (N & ->)%push_unlock_ret.
  assert (E : holds t = Some j) by (destruct T as [->| ->]; reflexivity).
  assert (E' : holds t' = None) by (destruct T' as [->| ->]; reflexivity).
  destruct (holder _ _ _ _ I H E) as (L & C & _ & _). destruct I as [It Ip Id Ir Im]. upds.
  split; upds.
  - intros k. rewrite <- (It k). unfold tokens. upds. rewrite occ_app.
    destruct (toks_at _ _ _ H t' k) as [S _]. unfold tok in S. rewrite E, E' in S.
    change (occ k [j]) with (one k j + 0)%nat. lia.
  - exact Ip.
  - exact Id.
  - apply (run_clause (fun k => d k = true -> 2 <= signalcount p k) ts i t'); eauto.
    intros k' ->. destruct T'; discriminate.
  - intros k M Lk. case_decide; [discriminate|].
    apply (mutex_clause _ _ t); auto; destruct T as [->| ->]; congruence.
Qed.

Lemma work_pinv c c' : pinv lost c -> work c c' -> pinv lost c'.
Proof.
  intros I W. destruct W as [p ts d i j p' H E|p ts d i j p' H E|p ts d i j H|p ts d i j again p' H M E|p ts d i j p' H E].
  - eapply push_pinv; eauto.
  - destruct p as [[|j' l] sc mu]; [discriminate|]. injection E as -> <-.
    destruct I as [It Ip Id Ir Im]. upds. split; upds; auto.
    + intros k. rewrite <- (It k). unfold tokens. upds.
      destruct (toks_at _ _ _ H (Popped j) k) as [S _]. unfold tok in S. cbn in S.
      change (occ k (j :: l)) with (one k j + occ k l)%nat. lia.
    + apply (run_clause (fun k => d k = true -> 2 <= sc k) ts i (Popped j)); eauto. congruence.
    + intros k K Lk. apply (mutex_clause _ _ Wait); auto; congruence.
  - destruct (holder _ _ _ _ I H eq_refl) as (L & C & _ & U). destruct I as [It Ip Id Ir Im]. upds.
    split; upds; auto.
    + intros k. rewrite <- (It k). unfold tokens. upds.
      destruct (toks_at _ _ _ H (Running j) k) as [S _]. unfold tok in S. cbn in S. lia.
    + intros k. case_decide; [discriminate|auto].
    + intros k i' E D. case_decide as N; [discriminate|]. apply insert_inv in E as [[_ E]|[_ E]]; [congruence|eauto].
    + intros k K Lk. apply (mutex_clause _ _ (Popped j)); auto; congruence.
  - apply handle_job_done_ret in E as [-> ->].
    destruct (holder _ _ _ _ I H eq_refl) as (L & C & Q & U). destruct I as [It Ip Id Ir Im]. upds.
    split; upds.
    + intros k. pose proof (It k) as T. unfold tokens in *. upds.
      destruct (toks_at _ _ _ H (if 0 <? signalcount p j - 1 then Re_push j else Wait) k) as [S G].
      destruct (Z.ltb_spec 0 (signalcount p j - 1)); tokens_at T S.
    + intros k. case_decide; [subst; rewrite L; lia|auto].
    + intros k D. case_decide; [subst|auto]. specialize (Ir _ _ H D). lia.
    + intros k i' E D. apply insert_inv in E as [[_ E]|[N E]]; [destruct (0 <? _); discriminate|].
      case_decide as N'; [|eauto]. subst. elim N. eauto.
    + intros k K Lk. destruct (decide (k = j)) as [->|N].
      * destruct (0 <? signalcount p j - 1); [apply (mutex_new _ _ _ _ _ H); auto|].
        upds. rewrite decide_True in K by reflexivity. discriminate.
      * apply (mutex_clause _ _ (Running j)); try congruence. apply Im; [|exact Lk].
        destruct (0 <? signalcount p j - 1); upds; rewrite ?decide_False in K by exact N; exact K.
  - eapply push_pinv; eauto.
Qed.

Lemma signal_pinv p ts d i j push p' :
  pinv lost (mkconf p ts d) -> ts !! i = Some Idle -> jmutex p j = false ->
  do_job_signal p j = Ret (push, p') ->
  pinv lost (mkconf p' (<[i := if push then Sig_push j else Idle]> ts) (upd d j true)).
Proof.
  intros I H M (-> & ->)%do_job_signal_ret. destruct I as [It Ip Id Ir Im]. upds. split; upds.
  - intros k. pose proof (It k) as T. pose proof (Ip k) as P. unfold tokens in *. upds.
    destruct (toks_at _ _ _ H (if signalcount p j =? 0 then Sig_push j else Idle) k) as [S G].
    destruct (Z.eqb_spec (signalcount p j) 0); tokens_at T S.
  - intros k. pose proof (Ip k). case_decide; [subst; lia|assumption].
  - intros k. pose proof (Ip k). case_decide; [subst; destruct (lost j); lia|auto].
  - intros k i' E D. apply insert_inv in E as [[_ E]|[_ E]]; [destruct (_ =? 0); discriminate|].
    case_decide; [subst|eauto].
    destruct (holder (mkconf p ts d) i' (Running j) j (Build_pinv _ (mkconf p ts d) It Ip Id Ir Im) E eq_refl) as (_ & C & _).
    cbn in C. lia.
  - intros k K Lk. destruct (decide (k = j)) as [->|N].
    + destruct (_ =? 0); [apply (mutex_new _ _ _ _ _ H); auto|].
      upds. rewrite decide_True in K by reflexivity. discriminate.
    + apply (mutex_clause _ _ Idle); try congruence. apply Im; [|exact Lk].
      destruct (_ =? 0); upds; rewrite ?decide_False in K by exact N; exact K.
Qed.

Lemma cancel_pinv p ts d j r p' :
  pinv lost (mkconf p ts d) -> cancel_round p j = (r, p') ->
  pinv lost (mkconf p' ts (if decide (j ∈ head p) then upd d j false else d)).
Proof.
  intros I. unfold cancel_round, set_count. cbn. case_decide as Q; [|now intros [= _ <-]]. intros [= _ <-].
  destruct (queued _ _ I Q) as (L & C & T0). destruct I as [It Ip Id Ir Im]. upds. split; upds.
  - intros k. unfold tokens. upds. rewrite occ_filter.
    case_decide as N; [subst; rewrite T0; reflexivity|]. exact (It k).
  - intros k. case_decide; [subst; rewrite L; lia|auto].
  - intros k. case_decide; [discriminate|auto].
  - intros k i' E D. case_decide; [discriminate|eauto].
  - exact Im.
Qed.

Lemma step_pinv c c' : pinv lost c -> step c c' -> pinv lost c'.
Proof.
  intros I S. destruct S as [c c' W|p ts d i j push p' H M E|p ts d i j r p' H E].
  - exact (work_pinv _ _ I W).
  - eapply signal_pinv; eauto.
  - exact (cancel_pinv _ _ _ _ _ _ I E).
Qed.
End invariant.

(** Nobody releases the mutex of a lost job. *)
Lemma lost_mutex lost c c' j :
  pinv lost c -> step c c' -> lost j = true -> jmutex (pl c) j = true -> jmutex (pl c') j = true.
Proof.
  intros I S L M.
  assert (F : forall i t k, thrs c !! i = Some t -> holds t = Some k -> k <> j).
  { intros i t k E E' ->. destruct (holder _ _ _ _ _ I E E'). congruence. }
  destruct S as [c c' W|p ts d i k push p' H M' E|p ts d i k r p' H E].
  - destruct W as [p ts d i k p' H E|p ts d i k p' H E|p ts d i k H|p ts d i k again p' H M' E|p ts d i k p' H E]; cbn in *.
    + apply push_unlock_ret in E as [_ ->]. upds. now rewrite decide_False by (intros ->; now apply (F _ _ _ H eq_refl)).
    + destruct p as [[|j' l] sc mu]; [discriminate|]. now injection E as -> <-.
    + exact M.
    + apply handle_job_done_ret in E as [_ ->].
      assert (k <> j) by (exact (F _ _ _ H eq_refl)). upds. destruct again; upds; now rewrite !decide_False by congruence.
    + apply push_unlock_ret in E as [_ ->]. upds. now rewrite decide_False by (intros ->; now apply (F _ _ _ H eq_refl)).
  - apply do_job_signal_ret in E as [_ ->]. assert (k <> j) by (cbn in *; congruence).
    upds. destruct push; upds; now rewrite !decide_False by congruence.
  - revert E. unfold cancel_round, set_count. case_decide; now intros [= _ <-].
Qed.

(** ** Reachable configurations *)

Definition nolost (j : nat) : bool := false.


Lemma fork_pinv c n lost :
  pinv nolost c -> (forall j, lost j = true <-> (0 < toks j (thrs c))%nat) ->
  pinv lost (fork_child n c).
Proof.
  intros [It Ip Id Ir Im] Hl.
  assert (Hn : forall j, toks j (Wait :: replicate n Idle) = 0%nat).
  { intros j. apply quiet_toks. constructor; [reflexivity|]. apply Forall_replicate. reflexivity. }
  assert (Hr : forall i j t, (Wait :: replicate n Idle) !! i = Some t -> holds t = Some j -> False).
  { intros i j t H E. pose proof (proj2 (toks_at _ _ _ H Idle j)) as G. rewrite Hn in G.
    unfold tok in G. rewrite E in G. unfold one in G. rewrite decide_True in G by reflexivity. lia. }
  split; cbn [fork_child pl thrs dirty].
  - intros j. pose proof (It j) as T. unfold tokens in *. cbn [fork_child pl thrs]. rewrite Hn.
    specialize (Hl j). unfold nolost in T. revert T. destruct (lost j).
    + intros T. assert (0 < toks j (thrs c))%nat by (now apply Hl).
      destruct (Z.ltb_spec 0 (signalcount (pl c) j)); cbn in *; lia.
    + intros T. assert (toks j (thrs c) = 0)%nat.
      { destruct (toks j (thrs c)) eqn:E; [reflexivity|]. assert (false = true) by (apply Hl; lia). discriminate. }
      destruct (Z.ltb_spec 0 (signalcount (pl c) j)); cbn in *; lia.
  - intros j. specialize (Ip j). destruct (lost j) eqn:E; [|exact Ip].
    apply Hl in E. pose proof (It j) as T. unfold tokens, nolost in T. revert T.
    destruct (Z.ltb_spec 0 (signalcount (pl c) j)); cbn; intros T; lia.
  - exact Id.
  - intros j i H. elim (Hr _ j _ H eq_refl).
  - intros j M L. destruct (Im j M eq_refl) as [i H].
    assert (lost j = true); [|congruence]. apply Hl.
    destruct H as [H|H]; pose proof (proj2 (toks_at _ _ _ H Idle j)) as G;
      unfold tok, holds, one in G; rewrite decide_True in G by reflexivity; lia.
Qed.

Lemma preach_pinv c : preach c -> pinv nolost c.
Proof.
  induction 1 as [ts d H D|c c' _ I S|n c _ I Q].
  - split; upds; intros j; try rewrite D; try discriminate.
    unfold tokens. upds. now rewrite quiet_toks.
  - exact (step_pinv _ _ _ I S).
  - apply fork_pinv; [exact I|]. intros j. rewrite quiet_toks by exact Q. split; [discriminate|lia].
Qed.

(** Nothing stops a thread that is about to queue a job. *)
Lemma push_unlock_total p j : ~ j ∈ head p -> exists p', push_unlock p j = Ret p'.
Proof.
  intros H. unfold push_unlock, thread_pool__job_push. case_decide; [contradiction|]. eauto.
Qed.

(** C14. In every reachable configuration, whatever threads signal, cancel and work,
    a job is in the queue at most once, in the hands of at most one thread and
    not in both places; in particular two threads never run one callback at the
    same time, and queueing a job never links an element that is linked. *)
Theorem thread_pool_exclusive (c : conf) (H : preach c) :
  NoDup (head (pl c)) /\
  forall i t j, thrs c !! i = Some t -> holds t = Some j ->
    ~ j ∈ head (pl c) /\
    (forall i' t', thrs c !! i' = Some t' -> holds t' = Some j -> i' = i) /\
    exists p', push_unlock (pl c) j = Ret p'.
Proof.
  apply preach_pinv in H. split.
  - apply occ_NoDup. intros j. pose proof (pi_tok _ _ H j) as T. unfold tokens in T.
    destruct (_ && _); lia.
  - intros i t j E E'. destruct (holder _ _ _ _ _ H E E') as (_ & _ & Q & U).
    split; [exact Q|]. split; [exact U|]. now apply push_unlock_total.
Qed.


(** ** Working off the signals *)

(** What a thread still has to do for the job it holds, with [f] signals left. *)
Definition todo (f : nat -> Z) (t : thr) : nat :=
  match t with
  | Sig_push j | Re_push j => 5 * Z.to_nat (f j) + 3
  | Popped j => 5 * Z.to_nat (f j) + 1
  | Running j => 5 * Z.to_nat (f j)
  | Idle | Wait => 0
  end.

Definition todo_q (f : nat -> Z) (j : nat) : nat := 5 * Z.to_nat (f j) + 2.

Definition measure (c : conf) : nat :=
  sum_list_with (todo_q (signalcount (pl c))) (head (pl c)) +
  sum_list_with (todo (signalcount (pl c))) (thrs c).

Lemma todo_q_upd f j x l : occ j l = 0%nat -> sum_list_with (todo_q (upd f j x)) l = sum_list_with (todo_q f) l.
Proof.
  unfold occ. induction l as [|k l IH]; [reflexivity|]. cbn. intros H. rewrite IH by lia. f_equal.
  unfold one in H. unfold todo_q, upd. case_decide; (reflexivity || lia).
Qed.

Lemma todo_upd f j x ts : toks j ts = 0%nat -> sum_list_with (todo (upd f j x)) ts = sum_list_with (todo f) ts.
Proof.
  unfold toks. induction ts as [|t ts IH]; [reflexivity|]. cbn. intros H. rewrite IH by lia. f_equal.
  destruct t; try reflexivity; unfold tok, one in H; cbn in *; unfold upd; case_decide; (reflexivity || lia).
Qed.

Lemma work_measure c c' : pinv nolost c -> work c c' -> (measure c' < measure c)%nat.
Proof.
  intros I W. unfold measure.
  destruct W as [p ts d i j p' H E|p ts d i j p' H E|p ts d i j H|p ts d i j again p' H M E|p ts d i j p' H E].
  - apply push_unlock_ret in E as [_ ->]. upds. rewrite sum_list_with_app. cbn.
    pose proof (sum_insert (todo (signalcount p)) _ _ _ Idle H) as S. cbn in S. unfold todo_q in *. lia.
  - destruct p as [[|j' l] sc mu]; [discriminate|]. injection E as -> <-. upds. cbn.
    pose proof (sum_insert (todo sc) _ _ _ (Popped j) H) as S. cbn in S. unfold todo_q in *. lia.
  - upds. pose proof (sum_insert (todo (signalcount p)) _ _ _ (Running j) H) as S. cbn in S. lia.
  - apply handle_job_done_ret in E as [-> ->]. destruct (holder _ _ _ _ _ I H eq_refl) as (_ & C & Q & _). cbn [pl] in *.
    pose proof (pi_tok _ _ I j) as T. unfold tokens in T. cbn [pl head signalcount thrs] in *.
    rewrite (proj2 (Z.ltb_lt 0 _)) in T by lia. cbn in T. rewrite occ_in in Q.
    rewrite todo_q_upd by lia.
    set (t' := if 0 <? signalcount p j - 1 then Re_push j else Wait).
    destruct (sum_split (todo (upd (signalcount p) j (signalcount p j - 1))) _ _ _ t' H) as [_ ->].
    destruct (sum_split (todo (signalcount p)) _ _ _ t' H) as [-> _].
    destruct (sum_split (tok j) _ _ _ t' H) as [K _]. unfold toks in T.
    assert (tok j (Running j) = 1%nat) by (unfold tok, holds, one; now rewrite decide_True).
    rewrite !todo_upd by (unfold toks; lia).
    assert (todo (upd (signalcount p) j (signalcount p j - 1)%Z) t' < todo (signalcount p) (Running j))%nat; [|lia].
    unfold t'. destruct (Z.ltb_spec 0 (signalcount p j - 1)); cbn; unfold upd; [rewrite decide_True by reflexivity|]; lia.
  - apply push_unlock_ret in E as [_ ->]. upds. rewrite sum_list_with_app. cbn.
    pose proof (sum_insert (todo (signalcount p)) _ _ _ Wait H) as S. cbn in S. unfold todo_q in *. lia.
Qed.

(** The threads of the pool, as opposed to those that signal. *)
Definition is_worker (t : thr) : bool :=
  match t with Idle | Sig_push _ => false | _ => true end.

Definition has_worker (c : conf) : Prop := exists i t, thrs c !! i = Some t /\ is_worker t = true.

Lemma worker_moves (ts : list thr) i t t' :
  ts !! i = Some t -> (is_worker t = true -> is_worker t' = true) ->
  (exists i t, ts !! i = Some t /\ is_worker t = true) ->
  exists k u, <[i := t']> ts !! k = Some u /\ is_worker u = true.
Proof.
  intros H N (k & u & E & Wu). destruct (decide (i = k)) as [<-|D].
  - exists i, t'. rewrite list_lookup_insert_eq by (now apply lookup_lt_Some in H).
    split; [reflexivity|]. apply N. congruence.
  - exists k, u. now rewrite list_lookup_insert_ne.
Qed.

Lemma work_worker c c' : work c c' -> has_worker c -> has_worker c'.
Proof.
  unfold has_worker. destruct 1; cbn [thrs]; apply worker_moves with (1 := H); cbn; try congruence.
  now destruct again.
Qed.

(** A configuration in which nobody can go on is one in which all is done. *)
Lemma stuck_done c :
  pinv nolost c -> has_worker c -> (forall c', ~ work c c') ->
  quiet c /\ head (pl c) = [] /\ forall j, signalcount (pl c) j = 0 /\ dirty c j = false.
Proof.
  intros I (i & t & Hi & Wt) N. destruct c as [p ts d]. cbn in *.
  assert (P : forall i j t, ts !! i = Some t -> holds t = Some j -> exists p', push_unlock p j = Ret p').
  { intros i' j t' E E'. apply push_unlock_total. now destruct (holder _ _ _ _ _ I E E') as (_ & _ & Q & _). }
  assert (Q : Forall (fun t => holds t = None) ts).
  { apply Forall_lookup. intros k u E. destruct u as [|j| |j|j|j]; try reflexivity; exfalso.
    - destruct (P _ _ _ E eq_refl) as [p' F]. exact (N _ (s_push _ _ _ _ _ _ E F)).
    - exact (N _ (s_start _ _ _ _ _ E)).
    - destruct (jmutex p j) eqn:M.
      + destruct (pi_mutex _ _ I j M eq_refl) as [k' F]. cbn in F.
        destruct (holder _ _ _ _ _ I E eq_refl) as (_ & _ & _ & U).
        destruct F as [F|F]; pose proof (U _ _ F eq_refl) as ->; cbn in *; congruence.
      + destruct (handle_job_done p j) as [again p'] eqn:F. exact (N _ (s_finish _ _ _ _ _ _ _ E M F)).
    - destruct (P _ _ _ E eq_refl) as [p' F]. exact (N _ (s_repush _ _ _ _ _ _ E F)). }
  assert (Hh : head p = []).
  { destruct (head p) as [|j l] eqn:Hh; [reflexivity|]. exfalso.
    rewrite Forall_lookup in Q. pose proof (Q _ _ Hi) as Ht.
    destruct t; try discriminate. eapply N. eapply (s_pop _ _ _ _ j); [exact Hi|].
    unfold thread_pool__job_pop. now rewrite Hh. }
  split; [exact Q|]. split; [exact Hh|]. intros j.
  pose proof (pi_tok _ _ I j) as T. unfold tokens in T. cbn [pl thrs] in T. rewrite Hh, quiet_toks in T by exact Q.
  pose proof (pi_pos _ _ I j) as C. cbn in C, T.
  assert (Z0 : signalcount p j = 0) by (destruct (Z.ltb_spec 0 (signalcount p j)); [discriminate|lia]).
  split; [exact Z0|]. destruct (d j) eqn:D; [|reflexivity]. pose proof (pi_dirty _ _ I j D). cbn in *. lia.
Qed.


(** Forking while a job is in the hands of a thread loses the job in the child:
    the thread is gone, the count stays positive, and no run of the child ever
    queues or starts the job again; waiting for it in [thread_pool__cancel_job]
    never ends. If the thread was about to queue the job, its mutex stays held and
    every later signal blocks. The hook does not wait for jobs to complete. *)
Theorem thread_pool_fork_loses_job (c : conf) (n i : nat) (t : thr) (j : nat) (c' : conf)
  (H : preach c) (E : thrs c !! i = Some t) (E' : holds t = Some j) (R : rtc step (fork_child n c) c') :
  1 <= signalcount (pl c') j /\ ~ j ∈ head (pl c') /\
  (forall i' t', thrs c' !! i' = Some t' -> holds t' <> Some j) /\
  cancel_round (pl c') j = (true, pl c') /\
  (jmutex (pl c) j = true -> jmutex (pl c') j = true).
Proof.
  apply preach_pinv in H. set (lost := fun j => bool_decide (0 < toks j (thrs c))%nat).
  assert (I : pinv lost (fork_child n c)).
  { apply fork_pinv; [exact H|]. intros k. unfold lost. now rewrite bool_decide_eq_true. }
  assert (L : lost j = true).
  { unfold lost. rewrite bool_decide_eq_true. pose proof (proj2 (toks_at _ _ _ E Idle j)) as G.
    unfold tok in G. rewrite E' in G. unfold one in G. rewrite decide_True in G by reflexivity. lia. }
  assert (K : pinv lost c' /\ (jmutex (pl c) j = true -> jmutex (pl c') j = true)).
  { change (pl c) with (pl (fork_child n c)). revert I.
    induction R as [c0|c0 c1 c2 S R IH]; intros I; [tauto|].
    pose proof (step_pinv _ _ _ I S) as I1. destruct (IH I1) as [I2 M2]. split; [exact I2|].
    intros M. apply M2. exact (lost_mutex _ _ _ _ I S L M). }
  destruct K as [K M]. pose proof (pi_pos _ _ K j) as C. rewrite L in C.
  assert (Q : ~ j ∈ head (pl c')) by (intros Q; destruct (queued _ _ _ K Q); congruence).
  repeat split; auto.
  - intros i' t' F F'. destruct (holder _ _ _ _ _ K F F'). congruence.
  - unfold cancel_round. rewrite decide_False by exact Q. f_equal. apply Z.ltb_lt. lia.
Qed.

(** ** An instance: two threads, a job signalled again while its callback runs *)

Definition demo : conf :=
  let p := mkpool [] (fun _ => 0) (fun _ => false) in
  let p := mkpool [3%nat] (upd (signalcount p) 3 1) (upd (upd (jmutex p) 3 true) 3 false) in
  let p := mkpool [] (upd (signalcount p) 3 2) (upd (upd (jmutex p) 3 true) 3 false) in
  mkconf p [Idle; Running 3] (upd (upd (upd (fun _ => false) 3 true) 3 false) 3 true).

Lemma demo_reachable : preach demo.
Proof.
  assert (C0 : preach (mkconf (mkpool [] (fun _ => 0) (fun _ => false)) [Idle; Wait] (fun _ => false)))
    by (apply p_init; [repeat constructor|reflexivity]).
  eapply p_step in C0; [|apply (s_signal _ _ _ 0 3 true); reflexivity].
  eapply p_step in C0; [|apply s_work, (s_push _ _ _ 0 3); reflexivity].
  eapply p_step in C0; [|apply s_work, (s_pop _ _ _ 1 3); reflexivity].
  eapply p_step in C0; [|apply s_work, (s_start _ _ _ 1 3); reflexivity].
  eapply p_step in C0; [|apply (s_signal _ _ _ 0 3 false); reflexivity].
  exact C0.
Qed.

Lemma thread_pool_exclusive_witness :
  preach demo /\ thrs demo !! 1%nat = Some (Running 3) /\ ~ (3%nat ∈ head (pl demo)).
Proof.
  split; [exact demo_reachable|]. split; [reflexivity|].
  exact (proj1 (proj2 (thread_pool_exclusive demo demo_reachable) 1%nat (Running 3) 3%nat eq_refl eq_refl)).
Defined.



Lemma thread_pool_fork_loses_job_witness :
  preach demo /\ thrs demo !! 1%nat = Some (Running 3) /\
  1 <= signalcount (pl (fork_child 1 demo)) 3 /\
  cancel_round (pl (fork_child 1 demo)) 3 = (true, pl (fork_child 1 demo)).
Proof.
  split; [exact demo_reachable|]. split; [reflexivity|].
  destruct (thread_pool_fork_loses_job demo 1 1 (Running 3) 3 (fork_child 1 demo)
              demo_reachable eq_refl eq_refl (rtc_refl _ _)) as (A & _ & _ & B & _).
  exact (conj A B).
Defined.
