(* ===== verification/P9Pdu.v ===== *)
(** * 9p messages

    [virtio/9p-pdu.c]: the marshalling of 9p requests and replies. A request is
    read from the device-readable buffers of a descriptor chain and the reply
    written into its device-writable ones; both walks keep an offset into the
    concatenated buffers. A format string says which fields follow; the variadic
    arguments are a list of [arg], and a format that does not match it is
    undefined behaviour, as in C. Whether [malloc] succeeds and what fresh memory
    holds are parameters. *)
From Stdlib Require Import Ascii String.
From S2P Require Import Prelude.
From S2P Require Import HostMem.
Abbreviation length := List.length.
Open Scope Z_scope.
Open Scope list_scope.

(** [in_iov] and [out_iov] are the first [in_iov_cnt] and [out_iov_cnt] entries of
    the arrays of [struct p9_pdu]. *)
Record p9_pdu := mkpdu {
  queue_head : Z;
  read_offset : Z;
  write_offset : Z;
  in_iov : list iovec;
  out_iov : list iovec;
}.

Definition set_read_offset (p : p9_pdu) (o : Z) : p9_pdu :=
  mkpdu (queue_head p) o (write_offset p) (in_iov p) (out_iov p).

Definition set_write_offset (p : p9_pdu) (o : Z) : p9_pdu :=
  mkpdu (queue_head p) (read_offset p) o (in_iov p) (out_iov p).

(** The loop of [virtio_p9_pdu_read]: the bytes it copies. *)
Fixpoint read_loop (m : hmem) (iov : list iovec) (offset size : Z) : out (list Z) :=
  match iov with
  | [] => Ret []
  | v :: iov =>
      if size =? 0 then Ret []
      else if iov_len v <=? offset then read_loop m iov (offset - iov_len v) size
      else
        let len := Z.min (iov_len v - offset) size in
        let! bs := copy_in m (iov_base v + offset) len in
        let! bs' := read_loop m iov 0 (size - len) in
        Ret (bs ++ bs')
  end.

(** [data] is the destination, [copied] an [int]. *)
Definition virtio_p9_pdu_read (m : hmem) (p : p9_pdu) (data : list Z) (size : Z)
  : out (list Z * p9_pdu) :=
  let! bs := read_loop m (out_iov p) (read_offset p) size in
  if (length data <? length bs)%nat then Ub
  else Ret (bs ++ drop (length bs) data,
            set_read_offset p (u64 (read_offset p + s32 (Z.of_nat (length bs))))).

(** The loop of [virtio_p9_pdu_write]: the memory and the number of bytes copied. *)
Fixpoint write_loop (m : hmem) (iov : list iovec) (offset : Z) (data : list Z) : out (hmem * Z) :=
  match iov with
  | [] => Ret (m, 0)
  | v :: iov =>
      let size := Z.of_nat (length data) in
      if size =? 0 then Ret (m, 0)
      else if iov_len v <=? offset then write_loop m iov (offset - iov_len v) data
      else
        let len := Z.min (iov_len v - offset) size in
        let! m := copy_out m (iov_base v + offset) data len in
        let! (m, copied) := write_loop m iov 0 (drop (Z.to_nat len) data) in
        Ret (m, len + copied)
  end.

Definition virtio_p9_pdu_write (m : hmem) (p : p9_pdu) (data : list Z) : out (hmem * p9_pdu) :=
  let! (m, copied) := write_loop m (in_iov p) (write_offset p) data in
  Ret (m, set_write_offset p (u64 (write_offset p + s32 copied))).

(** ** Structures and arguments *)

Record p9_qid := mkqid { q_type : Z; q_version : Z; q_path : Z }.

(** A C string is the list of its bytes; [None] is the null pointer. *)
Definition cstr : Type := option (list Z).

Record p9_wstat := mkwstat {
  w_size : Z; w_type : Z; w_dev : Z; w_qid : p9_qid; w_mode : Z; w_atime : Z; w_mtime : Z;
  w_length : Z; w_name : cstr; w_uid : cstr; w_gid : cstr; w_muid : cstr }.

Record p9_iattr_dotl := mkiattr {
  ia_valid : Z; ia_mode : Z; ia_uid : Z; ia_gid : Z; ia_size : Z;
  ia_atime_sec : Z; ia_atime_nsec : Z; ia_mtime_sec : Z; ia_mtime_nsec : Z }.

Record p9_stat_dotl := mkstat {
  st_result_mask : Z; st_qid : p9_qid; st_mode : Z; st_uid : Z; st_gid : Z; st_nlink : Z;
  st_rdev : Z; st_size : Z; st_blksize : Z; st_blocks : Z;
  st_atime_sec : Z; st_atime_nsec : Z; st_mtime_sec : Z; st_mtime_nsec : Z;
  st_ctime_sec : Z; st_ctime_nsec : Z; st_btime_sec : Z; st_btime_nsec : Z;
  st_gen : Z; st_data_version : Z }.

(** An argument or a decoded value; an integer is the bit pattern of its field. [AI]
    is an [int] or smaller, [AL] has 64 bits. *)
Inductive arg :=
| AI (x : Z)
| AL (x : Z)
| AS (s : cstr)
| AQid (q : p9_qid)
| AWstat (w : p9_wstat)
| AStat (s : p9_stat_dotl)
| AIattr (a : p9_iattr_dotl).

(** The letters of a format. *)
Inductive letter := Lb | Lw | Ld | Lq | Ls | LQ | LS | LA | LI | Lother.

Definition letter_of (c : ascii) : letter :=
  match c with
  | "b" => Lb | "w" => Lw | "d" => Ld | "q" => Lq | "s" => Ls
  | "Q" => LQ | "S" => LS | "A" => LA | "I" => LI | _ => Lother
  end%char.

Definition qid_fmt : string := "bdq".
Definition wstat_fmt : string := "wwdQdddqssss".
Definition stat_fmt : string := "qQdddqqqqqqqqqqqqqqq".
Definition iattr_fmt : string := "ddddqqqqq".

Definition qid_args (q : p9_qid) : list arg := [AI (q_type q); AI (q_version q); AL (q_path q)].

Definition wstat_args (w : p9_wstat) : list arg :=
  [AI (w_size w); AI (w_type w); AI (w_dev w); AQid (w_qid w); AI (w_mode w); AI (w_atime w);
   AI (w_mtime w); AL (w_length w); AS (w_name w); AS (w_uid w); AS (w_gid w); AS (w_muid w)].

Definition stat_args (s : p9_stat_dotl) : list arg :=
  [AL (st_result_mask s); AQid (st_qid s); AI (st_mode s); AI (st_uid s); AI (st_gid s);
   AL (st_nlink s); AL (st_rdev s); AL (st_size s); AL (st_blksize s); AL (st_blocks s);
   AL (st_atime_sec s); AL (st_atime_nsec s); AL (st_mtime_sec s); AL (st_mtime_nsec s);
   AL (st_ctime_sec s); AL (st_ctime_nsec s); AL (st_btime_sec s); AL (st_btime_nsec s);
   AL (st_gen s); AL (st_data_version s)].

Definition iattr_args (a : p9_iattr_dotl) : list arg :=
  [AI (ia_valid a); AI (ia_mode a); AI (ia_uid a); AI (ia_gid a); AL (ia_size a);
   AL (ia_atime_sec a); AL (ia_atime_nsec a); AL (ia_mtime_sec a); AL (ia_mtime_nsec a)].

(** What the recursive calls have stored through their pointers. *)
Definition qid_of (l : list arg) : option p9_qid :=
  match l with [AI t; AI v; AL p] => Some (mkqid t v p) | _ => None end.

Definition wstat_of (l : list arg) : option p9_wstat :=
  match l with
  | [AI a; AI b; AI c; AQid q; AI d; AI e; AI f; AL g; AS n; AS u; AS i; AS u'] =>
      Some (mkwstat a b c q d e f g n u i u')
  | _ => None
  end.

Definition iattr_of (l : list arg) : option p9_iattr_dotl :=
  match l with
  | [AI a; AI b; AI c; AI d; AL e; AL f; AL g; AL h; AL i] => Some (mkiattr a b c d e f g h i)
  | _ => None
  end.

Definition USHRT_MAX : Z := 65535.

(** ** Encoding *)

Section encode.
(** [virtio_p9_pdu_writef], for the recursive calls. *)
Context (writef : hmem -> p9_pdu -> string -> list arg -> out (Z * hmem * p9_pdu)).

Fixpoint virtio_p9_pdu_encode (m : hmem) (p : p9_pdu) (retval : Z) (fmt : string) (args : list arg)
  : out (Z * hmem * p9_pdu) :=
  match fmt with
  | EmptyString => Ret (retval, m, p)
  | String c fmt =>
      match letter_of c, args with
      | Lb, AI x :: args =>
          let! (m, p) := virtio_p9_pdu_write m p (le_enc 1 x) in
          virtio_p9_pdu_encode m p retval fmt args
      | Lw, AI x :: args =>
          let! (m, p) := virtio_p9_pdu_write m p (le_enc 2 x) in
          virtio_p9_pdu_encode m p retval fmt args
      | Ld, AI x :: args =>
          let! (m, p) := virtio_p9_pdu_write m p (le_enc 4 x) in
          virtio_p9_pdu_encode m p retval fmt args
      | Lq, AL x :: args =>
          let! (m, p) := virtio_p9_pdu_write m p (le_enc 8 x) in
          virtio_p9_pdu_encode m p retval fmt args
      | Ls, AS s :: args =>
          let len := match s with Some s => Z.min (Z.of_nat (length s)) USHRT_MAX | None => 0 end in
          let! (_, m, p) := writef m p "w" [AI len] in
          let! (m, p) := virtio_p9_pdu_write m p (take (Z.to_nat len) (default [] s)) in
          virtio_p9_pdu_encode m p retval fmt args
      | LQ, AQid q :: args =>
          let! (retval, m, p) := writef m p qid_fmt (qid_args q) in
          virtio_p9_pdu_encode m p retval fmt args
      | LS, AWstat w :: args =>
          let! (retval, m, p) := writef m p wstat_fmt (wstat_args w) in
          virtio_p9_pdu_encode m p retval fmt args
      | LA, AStat s :: args =>
          let! (retval, m, p) := writef m p stat_fmt (stat_args s) in
          virtio_p9_pdu_encode m p retval fmt args
      | (LI | Lother), args => virtio_p9_pdu_encode m p EINVAL fmt args
      | _, _ => Ub
      end
  end.
End encode.

(** The formats of the code nest at most three deep. *)
Fixpoint writef (depth : nat) (m : hmem) (p : p9_pdu) (fmt : string) (args : list arg)
  : out (Z * hmem * p9_pdu) :=
  match depth with
  | O => NoFuel
  | S depth => virtio_p9_pdu_encode (writef depth) m p 0 fmt args
  end.

Definition virtio_p9_pdu_writef : hmem -> p9_pdu -> string -> list arg -> out (Z * hmem * p9_pdu) :=
  writef 4.

(** ** Decoding *)

Section decode.
(** Whether [malloc] of a size succeeds, and the contents of fresh memory. *)
Context (malloc : Z -> bool) (fresh : nat -> list Z).

Section loop.
Context (readf : hmem -> p9_pdu -> string -> out (Z * list arg * p9_pdu)).

(** An integer field of [n] bytes, read into an uninitialised variable. *)
Definition read_int (n : nat) (m : hmem) (p : p9_pdu) : out (Z * p9_pdu) :=
  let! (bs, p) := virtio_p9_pdu_read m p (fresh n) (Z.of_nat n) in
  Ret (le_dec bs, p).

(** The body of the case for ['s']: the string, or [None] if [malloc] fails. *)
Definition read_str (m : hmem) (p : p9_pdu) : out (cstr * p9_pdu) :=
  let! (_, l, p) := readf m p "w" in
  match l with
  | [AI w] =>
      let len := swrap 16 w in
      if malloc (u64 (len + 1)) then
        if len <? 0 then Ub
        else
          let! (s, p) := virtio_p9_pdu_read m p (fresh (Z.to_nat (len + 1))) (u64 len) in
          Ret (Some (take (Z.to_nat len) s), p)
      else Ret (None, p)
  | _ => Ub
  end.

(** The values stored through the pointers, in the order of the format. *)
Fixpoint virtio_p9_decode (m : hmem) (p : p9_pdu) (retval : Z) (fmt : string)
  : out (Z * list arg * p9_pdu) :=
  match fmt with
  | EmptyString => Ret (retval, [], p)
  | String c fmt =>
      let next v retval p :=
        let! (r, l, p) := virtio_p9_decode m p retval fmt in Ret (r, v :: l, p) in
      match letter_of c with
      | Lb => let! (x, p) := read_int 1 m p in next (AI x) retval p
      | Lw => let! (x, p) := read_int 2 m p in next (AI x) retval p
      | Ld => let! (x, p) := read_int 4 m p in next (AI x) retval p
      | Lq => let! (x, p) := read_int 8 m p in next (AL x) retval p
      | Ls =>
          let! (s, p) := read_str m p in
          next (AS s) (match s with Some _ => retval | None => ENOMEM end) p
      | LQ =>
          let! (retval, l, p) := readf m p qid_fmt in
          match qid_of l with Some q => next (AQid q) retval p | None => Ub end
      | LS =>
          let! (retval, l, p) := readf m p wstat_fmt in
          match wstat_of l with Some w => next (AWstat w) retval p | None => Ub end
      | LI =>
          let! (retval, l, p) := readf m p iattr_fmt in
          match iattr_of l with Some a => next (AIattr a) retval p | None => Ub end
      | LA | Lother => virtio_p9_decode m p EINVAL fmt
      end
  end.
End loop.

Fixpoint readf (depth : nat) (m : hmem) (p : p9_pdu) (fmt : string) : out (Z * list arg * p9_pdu) :=
  match depth with
  | O => NoFuel
  | S depth => virtio_p9_decode (readf depth) m p 0 fmt
  end.

Definition virtio_p9_pdu_readf : hmem -> p9_pdu -> string -> out (Z * list arg * p9_pdu) := readf 4.
End decode.

(** ** The walks read and write the listed addresses *)

Lemma write_addrs_take m l bs : write_addrs m l bs = write_addrs m (take (length bs) l) bs.
Proof.
  revert m bs. induction l as [|a l IH]; intros m [|b bs]; try reflexivity. cbn.
  destruct (m !! a); [apply IH|reflexivity].
Qed.

Lemma write_addrs_short m l bs : write_addrs m l bs = write_addrs m l (take (length l) bs).
Proof.
  revert m bs. induction l as [|a l IH]; intros m [|b bs]; try reflexivity. cbn.
  destruct (m !! a); [apply IH|reflexivity].
Qed.

Lemma write_addrs_nil m l : write_addrs m l [] = Some m.
Proof. now destruct l. Qed.

(** Writing one string after another, also when the addresses run out. *)
Lemma write_addrs_app_r m l b1 b2 :
  write_addrs m l (b1 ++ b2) =
  match write_addrs m l b1 with Some m' => write_addrs m' (drop (length b1) l) b2 | None => None end.
Proof.
  revert m l. induction b1 as [|b b1 IH]; intros m l.
  - cbn [app length]. now rewrite write_addrs_nil, drop_0.
  - destruct l as [|a l]; [reflexivity|]. cbn. destruct (m !! a); [apply IH|reflexivity].
Qed.

Definition room (iov : list iovec) (offset : Z) : Z := Z.max 0 (Z.of_nat (length (iov_addrs iov)) - offset).

Lemma write_loop_spec m iov offset data :
  iov_wf iov -> 0 <= offset ->
  write_loop m iov offset data =
  match write_addrs m (drop (Z.to_nat offset) (iov_addrs iov)) data with
  | Some m' => Ret (m', Z.min (Z.of_nat (length data)) (room iov offset))
  | None => Ub
  end.
Proof.
  intros W. revert m offset data. induction W as [|v iov Hv W IH]; intros m offset data Ho.
  - cbn. rewrite drop_nil. cbn. do 3 f_equal. unfold room. cbn. lia.
  - cbn [write_loop]. unfold room in *. rewrite iov_addrs_cons, length_app, length_seqZ.
    cbv beta in Hv. unfold fits in Hv.
    destruct (Z.eqb_spec (Z.of_nat (length data)) 0) as [E|E].
    { destruct data; [|cbn in E; lia]. rewrite write_addrs_nil. cbn [length]. do 2 f_equal. lia. }
    destruct (Z.leb_spec (iov_len v) offset) as [S|S].
    + rewrite IH by lia. rewrite drop_app_ge by (rewrite length_seqZ; lia). rewrite length_seqZ.
      replace (Z.to_nat (offset - iov_len v)) with (Z.to_nat offset - Z.to_nat (iov_len v))%nat by lia.
      destruct (write_addrs _ _ _); [|reflexivity]. do 2 f_equal. lia.
    + rewrite drop_seqZ_app by lia. set (size := Z.of_nat (length data)) in *.
      destruct (copy_step (iov_base v + offset) (iov_len v - offset) size (iov_addrs iov) data)
        as (E1 & E2 & E3); [lia|lia|].
      set (len := Z.min (iov_len v - offset) size) in *.
      rewrite copy_out_write by lia. rewrite (write_addrs_take m _ data).
      replace (take (length data)) with (@take Z (Z.to_nat size)) by (f_equal; lia). rewrite E1.
      rewrite <- (firstn_all data) at 2. replace (length data) with (Z.to_nat size) by lia.
      rewrite E2, write_addrs_app by exact E3.
      destruct (write_addrs m (seqZ _ len) _) as [m1|]; [|reflexivity].
      rewrite IH by lia. cbn [drop]. rewrite drop_0.
      replace (take (Z.to_nat (size - len)) (drop (Z.to_nat len) data)) with (drop (Z.to_nat len) data)
        by (rewrite take_ge; [reflexivity|rewrite length_drop; lia]).
      rewrite (write_addrs_take m1 (iov_addrs iov)).
      replace (length (drop (Z.to_nat len) data)) with (Z.to_nat (size - len)) by (rewrite length_drop; lia).
      destruct (write_addrs m1 _ _); [|reflexivity]. do 2 f_equal. lia.
Qed.

Lemma pdu_read_loop_spec m iov offset size :
  iov_wf iov -> 0 <= offset -> 0 <= size ->
  read_loop m iov offset size =
  read_all m (take (Z.to_nat size) (drop (Z.to_nat offset) (iov_addrs iov))).
Proof.
  intros W. revert offset size. induction W as [|v iov Hv W IH]; intros offset size Ho Hs.
  - cbn. now rewrite drop_nil, take_nil.
  - cbn [read_loop]. rewrite iov_addrs_cons. cbv beta in Hv. unfold fits in Hv.
    destruct (Z.eqb_spec size 0) as [->|E]; [reflexivity|].
    destruct (Z.leb_spec (iov_len v) offset) as [S|S].
    + rewrite IH by lia. rewrite drop_app_ge by (rewrite length_seqZ; lia). rewrite length_seqZ.
      do 3 f_equal. lia.
    + rewrite drop_seqZ_app by lia. rewrite take_seqZ_app by lia. rewrite read_all_app.
      rewrite copy_in_read by lia.
      fold (read_all m (seqZ (iov_base v + offset) (Z.min (iov_len v - offset) size))).
      destruct (read_all m (seqZ _ _)); [|reflexivity..]. now rewrite IH by lia.
Qed.

(** ** The wire format *)

Definition wire_str (s : cstr) : list Z :=
  let t := take (Z.to_nat USHRT_MAX) (default [] s) in le_enc 2 (Z.of_nat (length t)) ++ t.

Definition wire_qid (q : p9_qid) : list Z :=
  le_enc 1 (q_type q) ++ le_enc 4 (q_version q) ++ le_enc 8 (q_path q).

Definition wire_wstat (w : p9_wstat) : list Z :=
  le_enc 2 (w_size w) ++ le_enc 2 (w_type w) ++ le_enc 4 (w_dev w) ++ wire_qid (w_qid w) ++
  le_enc 4 (w_mode w) ++ le_enc 4 (w_atime w) ++ le_enc 4 (w_mtime w) ++ le_enc 8 (w_length w) ++
  wire_str (w_name w) ++ wire_str (w_uid w) ++ wire_str (w_gid w) ++ wire_str (w_muid w).

Definition wire_iattr (a : p9_iattr_dotl) : list Z :=
  le_enc 4 (ia_valid a) ++ le_enc 4 (ia_mode a) ++ le_enc 4 (ia_uid a) ++ le_enc 4 (ia_gid a) ++
  le_enc 8 (ia_size a) ++ le_enc 8 (ia_atime_sec a) ++ le_enc 8 (ia_atime_nsec a) ++
  le_enc 8 (ia_mtime_sec a) ++ le_enc 8 (ia_mtime_nsec a).

Definition wire_stat (s : p9_stat_dotl) : list Z :=
  le_enc 8 (st_result_mask s) ++ wire_qid (st_qid s) ++ le_enc 4 (st_mode s) ++ le_enc 4 (st_uid s) ++
  le_enc 4 (st_gid s) ++
  mjoin (map (le_enc 8) [st_nlink s; st_rdev s; st_size s; st_blksize s; st_blocks s;
    st_atime_sec s; st_atime_nsec s; st_mtime_sec s; st_mtime_nsec s; st_ctime_sec s; st_ctime_nsec s;
    st_btime_sec s; st_btime_nsec s; st_gen s; st_data_version s]).

Definition wire_arg (k : letter) (a : arg) : option (list Z) :=
  match k, a with
  | Lb, AI x => Some (le_enc 1 x)
  | Lw, AI x => Some (le_enc 2 x)
  | Ld, AI x => Some (le_enc 4 x)
  | Lq, AL x => Some (le_enc 8 x)
  | Ls, AS s => Some (wire_str s)
  | LQ, AQid q => Some (wire_qid q)
  | LS, AWstat w => Some (wire_wstat w)
  | LA, AStat s => Some (wire_stat s)
  | LI, AIattr a => Some (wire_iattr a)
  | _, _ => None
  end.

Fixpoint wire (fmt : string) (args : list arg) : option (list Z) :=
  match fmt, args with
  | EmptyString, [] => Some []
  | String c fmt, a :: args =>
      match wire_arg (letter_of c) a, wire fmt args with
      | Some w, Some w' => Some (w ++ w')
      | _, _ => None
      end
  | _, _ => None
  end.

(** How deep the calls for a letter nest. *)
Definition rank (k : letter) : nat :=
  match k with Ls | LQ => 1 | LS | LA | LI => 2 | _ => 0 end.

Fixpoint letters (fmt : string) : list letter :=
  match fmt with EmptyString => [] | String c fmt => letter_of c :: letters fmt end.

Lemma wire_cons c fmt args w :
  wire (String c fmt) args = Some w ->
  exists a args' w1 w2, args = a :: args' /\ wire_arg (letter_of c) a = Some w1 /\
    wire fmt args' = Some w2 /\ w = w1 ++ w2.
Proof.
  destruct args as [|a args]; [discriminate|]. cbn [wire].
  destruct (wire_arg _ _) as [w1|] eqn:E1; [|discriminate].
  destruct (wire fmt args) as [w2|] eqn:E2; [|discriminate]. intros [= <-]. eauto 10.
Qed.

(** ** Encoding *)

Definition pdu_ok (p : p9_pdu) (n : nat) : Prop :=
  iov_wf (in_iov p) /\ 0 <= write_offset p /\ Z.of_nat n < 2 ^ 31 /\ write_offset p + Z.of_nat n < 2 ^ 63.

Lemma pdu_ok_le p n n' : pdu_ok p n -> (n' <= n)%nat -> pdu_ok p n'.
Proof. intros (A & B & C & D) H. split; [exact A|lia]. Qed.

Lemma write_spec m p data :
  pdu_ok p (length data) ->
  virtio_p9_pdu_write m p data =
  match write_addrs m (drop (Z.to_nat (write_offset p)) (iov_addrs (in_iov p))) data with
  | Some m' => Ret (m', set_write_offset p
      (write_offset p + Z.min (Z.of_nat (length data)) (room (in_iov p) (write_offset p))))
  | None => Ub
  end.
Proof.
  intros (W & O & L & B). unfold virtio_p9_pdu_write. rewrite write_loop_spec by assumption.
  destruct (write_addrs _ _ _); [|reflexivity].
  assert (0 <= room (in_iov p) (write_offset p)) by (unfold room; lia).
  rewrite swrap_id by lia. rewrite wrap_id by (unfold fits; lia). reflexivity.
Qed.

Lemma write_app m p b1 b2 :
  pdu_ok p (length (b1 ++ b2)) ->
  virtio_p9_pdu_write m p (b1 ++ b2) =
  (let! (m, p) := virtio_p9_pdu_write m p b1 in virtio_p9_pdu_write m p b2) /\
  forall m' p', virtio_p9_pdu_write m p b1 = Ret (m', p') -> pdu_ok p' (length b2).
Proof.
  intros K. pose proof K as (W & O & L & B). rewrite length_app in L, B.
  rewrite write_spec by exact K. rewrite (write_spec m p b1) by (repeat split; [exact W|lia..]).
  rewrite write_addrs_app_r. set (l := iov_addrs (in_iov p)).
  assert (R : room (in_iov p) (write_offset p) = Z.max 0 (Z.of_nat (length l) - write_offset p)) by reflexivity.
  rewrite R. destruct (write_addrs m _ b1) as [m1|]; [|split; [reflexivity|discriminate]].
  set (p1 := set_write_offset p (write_offset p + Z.min (Z.of_nat (length b1)) (Z.max 0 (Z.of_nat (length l) - write_offset p)))).
  assert (K1 : pdu_ok p1 (length b2)) by (unfold p1; repeat split; cbn; [exact W|lia..]).
  split; [|now intros m' p' [= <- <-]].
  rewrite (write_spec m1 p1) by exact K1. unfold p1, room. cbn [set_write_offset in_iov write_offset]. fold l.
  rewrite drop_drop.
  replace (drop (Z.to_nat (write_offset p + Z.min (Z.of_nat (length b1)) (Z.max 0 (Z.of_nat (length l) - write_offset p)))) l)
    with (drop (length b1 + Z.to_nat (write_offset p)) l).
  - replace (drop (Z.to_nat (write_offset p) + length b1) l) with (drop (length b1 + Z.to_nat (write_offset p)) l)
      by (f_equal; lia).
    destruct (write_addrs m1 _ b2); [|reflexivity]. rewrite length_app. do 2 f_equal.
    unfold set_write_offset. cbn. f_equal. lia.
  - destruct (Z.le_gt_cases (write_offset p + Z.of_nat (length b1)) (Z.of_nat (length l))).
    + f_equal. lia.
    + rewrite !drop_ge by lia. reflexivity.
Qed.

Lemma wire_qid_fmt q : wire qid_fmt (qid_args q) = Some (wire_qid q).
Proof. reflexivity. Qed.

Lemma wire_wstat_fmt w : wire wstat_fmt (wstat_args w) = Some (wire_wstat w).
Proof. unfold wire_wstat. cbn. now rewrite app_nil_r. Qed.

Lemma wire_stat_fmt s : wire stat_fmt (stat_args s) = Some (wire_stat s).
Proof. reflexivity. Qed.

Lemma wire_iattr_fmt a : wire iattr_fmt (iattr_args a) = Some (wire_iattr a).
Proof. reflexivity. Qed.

Lemma take_len_take {A : Type} n (l : list A) : take (length (take n l)) l = take n l.
Proof.
  rewrite length_take. destruct (Nat.le_ge_cases n (length l)); [now rewrite Nat.min_l by lia|].
  rewrite Nat.min_r by lia. now rewrite !take_ge by lia.
Qed.

(** The side condition on the letters of a fixed format. *)
Ltac ranks := cbn; repeat (apply Forall_cons; split; [split; [cbn; lia|discriminate]|]); constructor.

(** Encoding a format writes its wire bytes, as one write. *)
Lemma writef_spec d m p fmt args w :
  wire fmt args = Some w -> Forall (fun k => (rank k < d)%nat /\ k <> LI) (letters fmt) ->
  pdu_ok p (length w) -> (0 < d)%nat ->
  writef d m p fmt args = let! (m, p) := virtio_p9_pdu_write m p w in Ret (0, m, p).
Proof.
  revert m p fmt args w. induction d as [|d IH]; [lia|]. intros m p fmt args w H R K _. cbn [writef].
  assert (N : forall m p f l v, wire f l = Some v -> Forall (fun k => (rank k < d)%nat /\ k <> LI) (letters f) ->
    pdu_ok p (length v) -> (0 < d)%nat ->
    writef d m p f l = let! (m, p) := virtio_p9_pdu_write m p v in Ret (0, m, p)) by exact IH. clear IH.
  revert m p args w H R K. induction fmt as [|c fmt IH]; intros m p args w H R K.
  - destruct args; [|discriminate]. injection H as <-. cbn.
    rewrite write_spec by exact K. rewrite write_addrs_nil. cbn [length].
    rewrite Z.min_l by (unfold room; lia). rewrite Z.add_0_r. now destruct p.
  - apply wire_cons in H as (a & args' & w1 & w2 & -> & H1 & H2 & ->).
    cbn [letters] in R. apply Forall_cons in R as [[R NI] R'].
    destruct (write_app m p w1 w2 K) as [-> K2]. cbn [virtio_p9_pdu_encode].
    assert (Step : forall r, r = (let! (m, p) := virtio_p9_pdu_write m p w1 in Ret (0, m, p)) ->
      (let! (retval, m, p) := r in virtio_p9_pdu_encode (writef d) m p retval fmt args') =
      let! (m, p) := (let! (m, p) := virtio_p9_pdu_write m p w1 in virtio_p9_pdu_write m p w2) in Ret (0, m, p)).
    { intros r ->. destruct (virtio_p9_pdu_write m p w1) as [[m1 p1]| |] eqn:E; [|reflexivity..].
      now apply IH; [| |apply (K2 _ _ eq_refl)]. }
    assert (K1 : pdu_ok p (length w1)) by (apply (pdu_ok_le _ _ _ K); rewrite length_app; lia).
    destruct (letter_of c), a; try discriminate H1; try (now elim NI); injection H1 as <-.
    all: cbn [rank] in R.
    1-4: rewrite <- (Step _ eq_refl); now destruct (virtio_p9_pdu_write m p _) as [[? ?]| |].
    + rewrite <- (Step _ eq_refl). unfold wire_str in *.
      set (t := take (Z.to_nat USHRT_MAX) (default [] s)) in *.
      assert (L : match s with Some s0 => Z.min (Z.of_nat (length s0)) USHRT_MAX | None => 0 end = Z.of_nat (length t)).
      { unfold t. destruct s as [s0|]; cbn [default]; [|now rewrite firstn_nil]. unfold USHRT_MAX.
        cbn [default id from_option]. rewrite length_take. lia. }
      rewrite L. rewrite (N m p "w"%string [AI (Z.of_nat (length t))] (le_enc 2 (Z.of_nat (length t))));
        [|reflexivity|ranks| |lia].
      2:{ apply (pdu_ok_le _ _ _ K1). rewrite length_app. lia. }
      destruct (write_app m p (le_enc 2 (Z.of_nat (length t))) t K1) as [-> _].
      destruct (virtio_p9_pdu_write m p (le_enc 2 (Z.of_nat (length t)))) as [[m1 p1]| |]; [|reflexivity..]. rewrite Nat2Z.id.
      replace (take (length t) (default [] s)) with t by (symmetry; apply take_len_take).
      now destruct (virtio_p9_pdu_write m1 p1 t) as [[? ?]| |].
    + apply Step, N; [apply wire_qid_fmt|ranks|exact K1|lia].
    + apply Step, N; [apply wire_wstat_fmt|ranks|exact K1|lia].
    + apply Step, N; [apply wire_stat_fmt|ranks|exact K1|lia].
Qed.

(** ** Decoding *)

(** Values that a field can hold; the length of a string is read back as an
    [int16_t], and a null string comes back as the empty one. *)
Definition qid_ok (q : p9_qid) : Prop := fits 8 (q_type q) /\ fits 32 (q_version q) /\ fits 64 (q_path q).

Definition str_ok (s : cstr) : Prop :=
  match s with Some s => Z.of_nat (length s) < 32768 | None => False end.

Definition wstat_ok (w : p9_wstat) : Prop :=
  fits 16 (w_size w) /\ fits 16 (w_type w) /\ fits 32 (w_dev w) /\ qid_ok (w_qid w) /\
  fits 32 (w_mode w) /\ fits 32 (w_atime w) /\ fits 32 (w_mtime w) /\ fits 64 (w_length w) /\
  str_ok (w_name w) /\ str_ok (w_uid w) /\ str_ok (w_gid w) /\ str_ok (w_muid w).

Definition iattr_ok (a : p9_iattr_dotl) : Prop :=
  fits 32 (ia_valid a) /\ fits 32 (ia_mode a) /\ fits 32 (ia_uid a) /\ fits 32 (ia_gid a) /\
  fits 64 (ia_size a) /\ fits 64 (ia_atime_sec a) /\ fits 64 (ia_atime_nsec a) /\
  fits 64 (ia_mtime_sec a) /\ fits 64 (ia_mtime_nsec a).

Definition arg_ok (k : letter) (a : arg) : Prop :=
  match k, a with
  | Lb, AI x => fits 8 x
  | Lw, AI x => fits 16 x
  | Ld, AI x => fits 32 x
  | Lq, AL x => fits 64 x
  | Ls, AS s => str_ok s
  | LQ, AQid q => qid_ok q
  | LS, AWstat w => wstat_ok w
  | LI, AIattr a => iattr_ok a
  | _, _ => False
  end.

Fixpoint args_ok (fmt : string) (args : list arg) : Prop :=
  match fmt, args with
  | EmptyString, [] => True
  | String c fmt, a :: args => arg_ok (letter_of c) a /\ args_ok fmt args
  | _, _ => False
  end.

Definition advance (p : p9_pdu) (n : nat) : p9_pdu := set_read_offset p (read_offset p + Z.of_nat n).

Definition rd_ok (p : p9_pdu) (n : nat) : Prop :=
  iov_wf (out_iov p) /\ 0 <= read_offset p /\ Z.of_nat n < 2 ^ 31 /\ read_offset p + Z.of_nat n < 2 ^ 63.

(** The next [n] bytes of the request. *)
Definition next_bytes (m : hmem) (p : p9_pdu) (n : nat) : option (list Z) :=
  read_addrs m (take n (drop (Z.to_nat (read_offset p)) (iov_addrs (out_iov p)))).

Definition ready (m : hmem) (p : p9_pdu) (bs : list Z) : Prop :=
  rd_ok p (length bs) /\ next_bytes m p (length bs) = Some bs.

Lemma read_addrs_app_inv m l1 l2 b1 b2 :
  length l1 = length b1 -> read_addrs m (l1 ++ l2) = Some (b1 ++ b2) ->
  read_addrs m l1 = Some b1 /\ read_addrs m l2 = Some b2.
Proof.
  intros L. rewrite read_addrs_app. destruct (read_addrs m l1) as [c1|] eqn:E1; [|discriminate].
  destruct (read_addrs m l2) as [c2|]; [|discriminate]. intros [= E].
  apply app_inj_1 in E as [-> ->]; [auto|]. apply read_addrs_length in E1. congruence.
Qed.

Lemma ready_app m p b1 b2 :
  ready m p (b1 ++ b2) -> ready m p b1 /\ ready m (advance p (length b1)) b2.
Proof.
  intros [(W & O & L & B) N]. unfold next_bytes in N. rewrite length_app in L, B, N.
  set (l := drop (Z.to_nat (read_offset p)) (iov_addrs (out_iov p))) in *.
  assert (Len : (length b1 + length b2 <= length l)%nat).
  { pose proof (read_addrs_length _ _ _ N) as E. rewrite length_take, length_app in E. lia. }
  replace (take (length b1 + length b2) l) with (take (length b1) l ++ take (length b2) (drop (length b1) l)) in N
    by apply take_take_drop.
  apply read_addrs_app_inv in N as [N1 N2]; [|rewrite length_take; lia].
  split; (split; [split; [exact W|]|]); cbn [advance set_read_offset read_offset out_iov]; try lia.
  - exact N1.
  - unfold next_bytes. cbn [advance set_read_offset read_offset out_iov].
    rewrite <- N2. unfold l. rewrite drop_drop. do 3 f_equal. lia.
Qed.

Lemma read_spec m p data bs :
  ready m p bs -> (length bs <= length data)%nat ->
  virtio_p9_pdu_read m p data (Z.of_nat (length bs)) =
  Ret (bs ++ drop (length bs) data, advance p (length bs)).
Proof.
  intros [(W & O & L & B) N] D. unfold virtio_p9_pdu_read.
  rewrite pdu_read_loop_spec by (try assumption; lia). rewrite Nat2Z.id. unfold read_all.
  unfold next_bytes in N. rewrite N. rewrite (proj2 (Nat.ltb_ge _ _)) by lia.
  rewrite swrap_id by lia. rewrite wrap_id by (unfold fits; lia). reflexivity.
Qed.

Section decoding.
Context (malloc : Z -> bool) (fresh : nat -> list Z).
Context (fresh_length : forall n, length (fresh n) = n).

Lemma read_int_spec n m p x :
  ready m p (le_enc n x) -> fits (8 * Z.of_nat n) x ->
  read_int fresh n m p = Ret (x, advance p n).
Proof.
  intros R F. unfold read_int.
  pose proof (read_spec m p (fresh n) _ R) as E. rewrite length_le_enc, fresh_length in E.
  rewrite E by lia. rewrite drop_ge by (rewrite fresh_length; lia). rewrite app_nil_r, le_dec_enc.
  now rewrite wrap_id.
Qed.

Lemma letters_flat d fmt : Forall (fun k => (rank k < d)%nat) (letters fmt) ->
  forall c fmt', fmt = String c fmt' -> (rank (letter_of c) < d)%nat /\ Forall (fun k => (rank k < d)%nat) (letters fmt').
Proof. intros H c fmt' ->. now inversion H. Qed.

Context (malloc_ok : forall n, 0 <= n <= 32768 -> malloc n = true).

Lemma read_str_spec readf m p s :
  (forall p x, ready m p (le_enc 2 x) -> fits 16 x -> readf m p "w"%string = Ret (0, [AI x], advance p 2)) ->
  ready m p (wire_str (Some s)) -> Z.of_nat (length s) < 32768 ->
  read_str malloc fresh readf m p = Ret (Some s, advance p (length (wire_str (Some s)))).
Proof.
  intros Hw R L. unfold wire_str in *. cbn [default from_option id] in *.
  rewrite take_ge in * by (unfold USHRT_MAX; lia). destruct (ready_app _ _ _ _ R) as [R1 R2].
  unfold read_str. rewrite (Hw _ _ R1) by (unfold fits; lia). rewrite length_le_enc in R2.
  rewrite swrap_id by lia. rewrite (wrap_id 64) by (unfold fits; lia). rewrite malloc_ok by lia.
  replace (Z.of_nat (length s) <? 0) with false by lia. rewrite (wrap_id 64) by (unfold fits; lia).
  rewrite (read_spec _ _ _ _ R2) by (rewrite fresh_length; lia). rewrite Nat2Z.id, take_app_length.
  do 2 f_equal. unfold advance, set_read_offset. cbn. f_equal.
  rewrite ?length_app, ?length_le_enc. cbn [length]. lia.
Qed.

Lemma readf_spec d m p fmt args w :
  wire fmt args = Some w -> args_ok fmt args -> Forall (fun k => (rank k < d)%nat) (letters fmt) ->
  ready m p w -> (0 < d)%nat ->
  readf malloc fresh d m p fmt = Ret (0, args, advance p (length w)).
Proof.
  revert p fmt args w. induction d as [|d IH]; [lia|]. intros p fmt args w H A R K _. cbn [readf].
  assert (N : forall p f l v, wire f l = Some v -> args_ok f l -> Forall (fun k => (rank k < d)%nat) (letters f) ->
    ready m p v -> (0 < d)%nat -> readf malloc fresh d m p f = Ret (0, l, advance p (length v))) by exact IH. clear IH.
  revert p args w H A R K. induction fmt as [|c fmt IH]; intros p args w H A R K.
  - destruct args; [|discriminate]. injection H as <-. cbn.
    unfold advance. rewrite Z.add_0_r. now destruct p.
  - apply wire_cons in H as (a & args' & w1 & w2 & -> & H1 & H2 & ->). destruct A as [A1 A2].
    destruct (letters_flat _ _ R _ _ eq_refl) as [R1 R2].
    apply ready_app in K as [K1 K2]. cbn [virtio_p9_decode].
    assert (Step : forall v, (let! (r, l, p) :=
         virtio_p9_decode malloc fresh (readf malloc fresh d) m (advance p (length w1)) 0 fmt in Ret (r, v :: l, p)) =
       Ret (0, v :: args', advance p (length (w1 ++ w2)))).
    { intros v. rewrite (IH _ _ _ H2 A2 R2 K2). do 2 f_equal. unfold advance, set_read_offset. cbn. f_equal.
      rewrite length_app. lia. }
    destruct (letter_of c), a; try discriminate H1; try contradiction A1;
      cbn [wire_arg] in H1; apply (inj Some) in H1; subst w1; cbn [rank] in R1; cbn [arg_ok] in A1.
    1-4: (rewrite (read_int_spec _ _ _ _ K1) by exact A1); rewrite length_le_enc in *; apply Step.
    + destruct s as [s|]; [|contradiction A1].
      rewrite (read_str_spec _ _ _ s); [apply Step| |exact K1|exact A1].
      intros q x Rq Fx. rewrite (N q "w"%string [AI x] (le_enc 2 x)); [now rewrite length_le_enc|reflexivity|now split| |exact Rq|lia].
      repeat constructor. cbn. lia.
    + rewrite (N p _ _ _ (wire_qid_fmt q)); [|now destruct A1 as (? & ? & ?)|repeat constructor; cbn; lia|exact K1|lia].
      cbn [qid_of qid_args]. destruct q. apply Step.
    + rewrite (N p _ _ _ (wire_wstat_fmt w)); [|unfold wstat_ok in A1; cbn; tauto|repeat constructor; cbn; lia|exact K1|lia].
      cbn [wstat_of wstat_args]. destruct w. apply Step.
    + rewrite (N p _ _ _ (wire_iattr_fmt a)); [|unfold iattr_ok in A1; cbn; tauto|repeat constructor; cbn; lia|exact K1|lia].
      cbn [iattr_of iattr_args]. destruct a. apply Step.
Qed.

Lemma letters_rank fmt : Forall (fun k => (rank k < 4)%nat) (letters fmt).
Proof. induction fmt as [|c fmt IH]; constructor; [|exact IH]. destruct (letter_of c); cbn; lia. Qed.

(** C17. Marshalling a message writes its wire format into the device-writable buffers
    from the write offset on, as one string however the buffers are cut; what does
    not fit is dropped and zero returned all the same. When it fits, any request
    whose buffers list the same bytes, cut in any other way, is decoded by the same
    format to the same values; nothing else in memory changes. *)
Theorem p9_roundtrip m p q fmt args w :
  iov_wf (in_iov p) -> iov_wf (out_iov q) -> mapped m (iov_addrs (in_iov p)) ->
  NoDup (iov_addrs (in_iov p)) ->
  wire fmt args = Some w -> ~ LI ∈ letters fmt ->
  0 <= write_offset p < 2 ^ 31 -> 0 <= read_offset q < 2 ^ 31 -> Z.of_nat (length w) < 2 ^ 31 ->
  let dst := drop (Z.to_nat (write_offset p)) (iov_addrs (in_iov p)) in
  exists m', virtio_p9_pdu_writef m p fmt args =
      Ret (0, m', set_write_offset p (write_offset p + Z.of_nat (Nat.min (length w) (length dst)))) /\
    read_addrs m' (take (length w) dst) = Some (take (length dst) w) /\
    (forall a, ~ a ∈ take (length w) dst -> m' !! a = m !! a) /\
    (args_ok fmt args -> (length w <= length dst)%nat ->
     take (length w) (drop (Z.to_nat (read_offset q)) (iov_addrs (out_iov q))) = take (length w) dst ->
     virtio_p9_pdu_readf malloc fresh m' q fmt =
       Ret (0, args, set_read_offset q (read_offset q + Z.of_nat (length w)))).
Proof.
  intros Wp Wq M ND H NI Ow Oq L dst.
  assert (K : pdu_ok p (length w)) by (split; [exact Wp|lia]).
  assert (Md : mapped m dst) by now apply Forall_drop.
  assert (Nd : NoDup dst) by (eapply sublist_NoDup; [exact ND|apply sublist_drop]).
  destruct (write_addrs_mapped m (take (length w) dst) (take (length dst) w)) as [m' E]; [now apply Forall_take|].
  assert (E' : write_addrs m dst w = Some m').
  { rewrite write_addrs_take. rewrite write_addrs_short. rewrite length_take.
    destruct (Nat.le_ge_cases (length w) (length dst)).
    - rewrite Nat.min_l by lia. rewrite (take_ge w) in E |- * by lia. exact E.
    - rewrite Nat.min_r by lia. exact E. }
  assert (R : read_addrs m' (take (length w) dst) = Some (take (length dst) w)).
  { apply (read_write_same m _ _ m'); [eapply sublist_NoDup; [exact Nd|apply sublist_take]| |exact E].
    rewrite !length_take. lia. }
  exists m'. split; [|split; [exact R|split]].
  - assert (Rk : Forall (fun k => (rank k < 4)%nat /\ k <> LI) (letters fmt)).
    { apply Forall_forall. intros k Hk. split; [|intros ->; contradiction].
      exact (proj1 (Forall_forall _ _) (letters_rank fmt) k Hk). }
    unfold virtio_p9_pdu_writef. rewrite (writef_spec 4 m p fmt args w H Rk K) by lia.
    rewrite write_spec by exact K. fold dst. rewrite E'. do 3 f_equal. unfold room, dst.
    rewrite length_drop. lia.
  - intros a Ha. exact (write_addrs_other _ _ _ _ _ E Ha).
  - intros A Len Same. rewrite (take_ge w) in R by lia.
    apply (readf_spec 4 m' q fmt args w H A (letters_rank fmt)); [|lia].
    split; [split; [exact Wq|lia]|]. unfold next_bytes. now rewrite Same.
Qed.

(** The length of a string is read as a signed 16-bit integer: a request that
    announces 32768 bytes or more makes the decoder allocate a negative size. If
    the allocation succeeds (length 65535 asks for no bytes) it writes outside of
    the block, otherwise the handlers go on with a null string. *)
Theorem p9_negative_string m p len :
  ready m p (le_enc 2 len) -> 32768 <= len < 65536 ->
  virtio_p9_pdu_readf malloc fresh m p "s" =
  if malloc (u64 (len - 65535)) then Ub else Ret (ENOMEM, [AS None], advance p 2).
Proof.
  intros R L. unfold virtio_p9_pdu_readf.
  change (readf malloc fresh 4 m p "s"%string)
    with (virtio_p9_decode malloc fresh (readf malloc fresh 3) m p 0 "s"%string).
  cbn [virtio_p9_decode letter_of].
  unfold read_str. rewrite (readf_spec 3 m p "w" [AI len] (le_enc 2 len)); [|reflexivity|cbn; unfold fits; lia| |exact R|lia].
  2:{ repeat constructor; cbn; lia. }
  rewrite length_le_enc. replace (swrap 16 len) with (len - 65536).
  2:{ unfold swrap. change (2 ^ (16 - 1)) with 32768. change (2 ^ 16) with 65536.
      rewrite <- (Z.mod_unique (len + 32768) 65536 1 (len - 32768)); lia. }
  replace (len - 65536 + 1) with (len - 65535) by lia.
  destruct (malloc _); [|reflexivity]. now replace (len - 65536 <? 0) with true by lia.
Qed.
End decoding.

(** ** An instance: a number, a string and a qid, cut at different places *)

Definition demo_fmt : string := "dsQ".
Definition demo_args : list arg := [AI 5; AS (Some [104; 105]); AQid (mkqid 1 2 3)].
Definition demo_p : p9_pdu := mkpdu 0 0 1 [mkiov 100 3; mkiov 110 0; mkiov 110 25] [].
Definition demo_q : p9_pdu := mkpdu 0 1 0 [] [mkiov 100 3; mkiov 110 5; mkiov 115 20].
Definition demo_mem : hmem := mem_at 100 (repeat 0 40).

Lemma p9_roundtrip_witness :
  exists m', virtio_p9_pdu_writef demo_mem demo_p demo_fmt demo_args = Ret (0, m', set_write_offset demo_p 22) /\
    virtio_p9_pdu_readf (fun n => n <=? 100000) (fun n => repeat 0 n) m' demo_q demo_fmt = Ret (0, demo_args, set_read_offset demo_q 22).
Proof.
  assert (M : mapped demo_mem (iov_addrs (in_iov demo_p))).
  { unfold demo_p, iov_addrs. cbn [in_iov flat_map iov_base iov_len app]. rewrite app_nil_r.
    apply Forall_app. split; [apply (mapped_mem_at 100 (repeat 0 40) 100 3)|apply (mapped_mem_at 100 (repeat 0 40) 110 25)];
      cbn; lia. }
  destruct (p9_roundtrip (fun n => n <=? 100000) (fun n => repeat 0 n) (fun n => repeat_length 0 n)
              (fun n H => proj2 (Z.leb_le n 100000) ltac:(lia)) demo_mem demo_p demo_q demo_fmt demo_args _
              ltac:(unfold iov_wf, fits; repeat constructor; cbn; lia)
              ltac:(unfold iov_wf, fits; repeat constructor; cbn; lia) M
              ltac:(apply (bool_decide_eq_true_1 _); vm_compute; reflexivity) eq_refl
              ltac:(rewrite list_elem_of_In; cbn; intuition discriminate)
              ltac:(unfold demo_p; cbn; lia) ltac:(unfold demo_q; cbn; lia) ltac:(vm_compute; reflexivity)) as (m' & E1 & _ & _ & E2).
  exists m'. split; [exact E1|].
  apply E2; [cbn; unfold qid_ok, str_ok, fits; cbn; lia|vm_compute; lia|vm_compute; reflexivity].
Defined.

Lemma p9_negative_string_witness :
  ready (mem_at 100 [255; 255]) (mkpdu 0 0 0 [] [mkiov 100 2]) (le_enc 2 65535) /\
  virtio_p9_pdu_readf (fun n => n <=? 100000) (fun n => repeat 0 n) (mem_at 100 [255; 255]) (mkpdu 0 0 0 [] [mkiov 100 2]) "s" = Ub.
Proof.
  assert (R : ready (mem_at 100 [255; 255]) (mkpdu 0 0 0 [] [mkiov 100 2]) (le_enc 2 65535)).
  { split; [split; [unfold iov_wf, fits; repeat constructor; cbn; lia|cbn; lia]|vm_compute; reflexivity]. }
  split; [exact R|].
  exact (p9_negative_string (fun n => n <=? 100000) (fun n => repeat 0 n) (fun n => repeat_length 0 n)
           (fun n H => proj2 (Z.leb_le n 100000) ltac:(lia)) _ _ 65535 R ltac:(lia)).
Defined.
