(* ===== verification/P9.v ===== *)
(** * The 9p file server

    [virtio/9p.c]: the table of fids (the kernel's red-black tree over objects
    that handlers share), the construction of host paths, the replies, and the
    loop that takes requests off the queue. The handlers that only touch this
    state are modelled; those that open, create or change host files are a
    parameter, as is [lstat]. A path or name is the list of its bytes without the
    terminating zero. *)
From Stdlib Require Import Ascii String.
From stdpp Require Import sorting.
From S2P Require Import Prelude.
From S2P Require Import Rbtree.
From S2P Require Import Membank.
From S2P Require Import HostMem.
From S2P Require Import Virtqueue.
From S2P Require Import P9Pdu.
Abbreviation length := List.length.
Open Scope Z_scope.
Open Scope list_scope.

Definition PATH_MAX : Z := 4096.
Definition VIRTIO_9P_HDR_LEN : Z := 7.
Definition VIRTQUEUE_NUM : nat := 128.
Definition EACCES : Z := 13.
Definition ENAMETOOLONG : Z := 36.
Definition EMFILE : Z := 24.
Definition ENFILE : Z := 23.
Definition EOPNOTSUPP : Z := 95.
Definition P9_RLERROR : Z := 7.
Definition P9_QTDIR : Z := 128.
Definition P9_STATS_BASIC : Z := 2047.
Definition P9_LOCK_SUCCESS : Z := 0.
Definition F_UNLCK : Z := 2.
Definition P9_NOFID : Z := 4294967295.
Definition SLASH : Z := 47.
Definition DOT : Z := 46.

(** ** Fids *)

(** [path] is what [abs_path] holds after the root directory; [dir] says whether a
    directory stream is open. *)
Record p9_fid := mkfid { fid : Z; uid : Z; path : list Z; dir : bool; fd : Z }.

Inductive event := Close (fd : Z) | Closedir (obj : Z).

(** The nodes of [fids] carry the fid and the address of its object; [objs] is the
    part of the heap that holds such objects and [brk] an address above them. *)
Record p9_dev := mkp9 {
  fids : tree (Z * Z);
  objs : gmap Z p9_fid;
  brk : Z;
  root_dir : list Z;
  events : list event;
}.

Definition set_fids (d : p9_dev) (t : tree (Z * Z)) : p9_dev :=
  mkp9 t (objs d) (brk d) (root_dir d) (events d).
Definition set_objs (d : p9_dev) (m : gmap Z p9_fid) : p9_dev :=
  mkp9 (fids d) m (brk d) (root_dir d) (events d).

(** The comparisons of the two walks: unsigned in [find_or_create_fid], the sign
    of an [int] difference in [insert_new_fid]. *)
Definition find_dir (f : Z) (cur : Z * Z) : comparison :=
  if f <? fst cur then Lt else if fst cur <? f then Gt else Eq.

Definition insert_dir (f : Z) (cur : Z * Z) : comparison :=
  let result := s32 (f - fst cur) in
  if result <? 0 then Lt else if 0 <? result then Gt else Eq.

Definition insert_new_fid (d : p9_dev) (f obj : Z) : out p9_dev :=
  match insert (insert_dir f) (f, obj) (fids d) with
  | Some (_, t) => Ret (set_fids d t)
  | None => Ub
  end.

(** The address of the object, or [None] for a null pointer; its result code does
    not depend on the insertion. *)
Definition get_fid (d : p9_dev) (f : Z) : out (p9_dev * option Z) :=
  match search (find_dir f) (fids d) with
  | Some (_, o) => Ret (d, Some o)
  | None =>
      if PATH_MAX <=? Z.of_nat (length (root_dir d)) then Ret (d, None)
      else
        let o := brk d in
        let d := mkp9 (fids d) (<[o := mkfid f 0 [] false 0]> (objs d)) (o + 1) (root_dir d) (events d) in
        let! d := insert_new_fid d f o in
        Ret (d, Some o)
  end.

(** Following a pointer to a fid. *)
Definition deref (d : p9_dev) (o : option Z) : out (Z * p9_fid) :=
  match o with
  | Some o => match objs d !! o with Some f => Ret (o, f) | None => Ub end
  | None => Ub
  end.

(** The node of an object, by its address. *)
Fixpoint locate (obj : Z) (t : tree (Z * Z)) (p : list (frame (Z * Z)))
  : option (color * tree (Z * Z) * tree (Z * Z) * list (frame (Z * Z))) :=
  match t with
  | E => None
  | T c l x r =>
      if snd x =? obj then Some (c, l, r, p)
      else match locate obj l (FL c x r :: p) with
           | Some s => Some s
           | None => locate obj r (FR c l x :: p)
           end
  end.

(** [rb_erase(&pfid->node, &p9dev->fids)]. A node that was never linked is all
    zero: a red node without parent and children, so its absent child becomes
    the root. *)
Definition erase_node (obj : Z) (t : tree (Z * Z)) : out (tree (Z * Z)) :=
  match locate obj t [] with
  | Some (c, l, r, p) => match rb_erase c l r p with Some t => Ret t | None => Ub end
  | None => Ret E
  end.

Definition close_fid (d : p9_dev) (f : Z) : out p9_dev :=
  let! (d, o) := get_fid d f in
  let! (o, pfid) := deref d o in
  let ev := (if 0 <? fd pfid then [Close (fd pfid)] else []) ++ (if dir pfid then [Closedir o] else []) in
  let! t := erase_node o (fids d) in
  Ret (mkp9 t (delete o (objs d)) (brk d) (root_dir d) (events d ++ ev)).

(** ** Paths *)

(** A C string is cut at its first zero byte. *)
Fixpoint c_str (l : list Z) : list Z :=
  match l with
  | [] => []
  | b :: l => if b =? 0 then [] else b :: c_str l
  end.

Definition is_prefix (needle l : list Z) : bool := bool_decide (take (length needle) l = needle).

(** [strstr(l, needle) != NULL] *)
Fixpoint strstr (l needle : list Z) : bool :=
  is_prefix needle l || match l with [] => false | _ :: l => strstr l needle end.

Definition path_is_illegal (p : list Z) : bool :=
  if strstr p [SLASH; DOT; DOT; SLASH] then true
  else
    let len := length p in
    (3 <=? len)%nat && bool_decide (drop (len - 3) p = [SLASH; DOT; DOT]).

(** The full path, or [errno]. *)
Definition get_full_path_helper (size : Z) (dirname name : list Z) : res (list Z) :=
  let full_path := dirname ++ [SLASH] ++ name in
  if size <=? Z.of_nat (length full_path) then Err ENAMETOOLONG
  else if path_is_illegal full_path then Err EACCES
  else Ok full_path.

Definition abs_path (d : p9_dev) (f : p9_fid) : list Z := root_dir d ++ path f.

Definition get_full_path (d : p9_dev) (f : p9_fid) (name : list Z) : res (list Z) :=
  get_full_path_helper PATH_MAX (abs_path d f) name.

Definition set_path (f : p9_fid) (p : list Z) : p9_fid := mkfid (fid f) (uid f) p (dir f) (fd f).
Definition set_uid (f : p9_fid) (u : Z) : p9_fid := mkfid (fid f) u (path f) (dir f) (fd f).

(** [None] for the result -1. *)
Definition join_path (d : p9_dev) (f : p9_fid) (name : list Z) : option p9_fid :=
  let size := PATH_MAX - Z.of_nat (length (root_dir d)) in
  if size <=? Z.of_nat (length name) then None else Some (set_path f name).

Definition virtio_p9_ancestor (p ancestor : list Z) : bool :=
  is_prefix ancestor p &&
  match drop (length ancestor) p with [] => true | b :: _ => b =? SLASH end.

Definition virtio_p9_fix_path (d : p9_dev) (f : p9_fid) (old_name new_name : list Z) : option p9_fid :=
  let rp_sz := length old_name in
  if (rp_sz =? length (path f))%nat then join_path d f new_name
  else
    let tmp_name := new_name ++ drop rp_sz (path f) in
    if PATH_MAX <=? Z.of_nat (length tmp_name) then None else join_path d f tmp_name.

(** The loop visits the objects of the tree in order. *)
Definition rename_fids (d : p9_dev) (old_name new_name : list Z) : p9_dev :=
  foldl (fun d x =>
    match objs d !! snd x with
    | Some f =>
        if negb (fid f =? P9_NOFID) && virtio_p9_ancestor (path f) old_name then
          match virtio_p9_fix_path d f old_name new_name with
          | Some f => set_objs d (<[snd x := f]> (objs d))
          | None => d
          end
        else d
    | None => d
    end) d (inorder (fids d)).

(** ** Handlers *)

(** [struct stat], the fields the server looks at. *)
Record host_stat := mkhs {
  hs_ino : Z; hs_mode : Z; hs_nlink : Z; hs_uid : Z; hs_gid : Z; hs_rdev : Z; hs_size : Z;
  hs_blksize : Z; hs_blocks : Z; hs_atime : Z; hs_atime_nsec : Z; hs_mtime : Z; hs_mtime_nsec : Z;
  hs_ctime : Z; hs_ctime_nsec : Z }.

Definition S_ISDIR (mode : Z) : bool := mode .& 61440 =? 16384.

Definition stat2qid (st : host_stat) : p9_qid :=
  mkqid (if S_ISDIR (hs_mode st) then P9_QTDIR else 0) (u32 (hs_mtime st)) (u64 (hs_ino st)).

Definition virtio_p9_fill_stat (st : host_stat) : p9_stat_dotl :=
  mkstat P9_STATS_BASIC (stat2qid st) (hs_mode st) (hs_uid st) (hs_gid st) (hs_nlink st)
    (hs_rdev st) (hs_size st) (hs_blksize st) (hs_blocks st) (hs_atime st) (hs_atime_nsec st)
    (hs_mtime st) (hs_mtime_nsec st) (hs_ctime st) (hs_ctime_nsec st) 0 0 0 0.

Definition bytes_of (s : string) : list Z := map (fun c => Z.of_nat (nat_of_ascii c)) (list_ascii_of_string s).
Definition VIRTIO_9P_VERSION_DOTL : list Z := bytes_of "9P2000.L".
Definition UNKNOWN : list Z := bytes_of "unknown".

(** What a handler leaves behind; the last component is [*outlen]. *)
Abbreviation reply := (out (p9_dev * hmem * p9_pdu * Z)).
Abbreviation handler := (p9_dev -> hmem -> p9_pdu -> reply).

Section server.
Context (malloc : Z -> bool) (fresh : nat -> list Z).
Context (lstat : list Z -> res host_stat).

Abbreviation readf := (virtio_p9_pdu_readf malloc fresh).
Abbreviation writef := virtio_p9_pdu_writef.

Definition virtio_p9_set_reply_header (m : hmem) (pdu : p9_pdu) (size : Z) : out (hmem * p9_pdu) :=
  let pdu := set_read_offset pdu 4 in
  let! (_, l, pdu) := readf m pdu "bw" in
  match l with
  | [AI cmd; AI tag] =>
      let pdu := set_write_offset pdu 0 in
      let! (_, m, pdu) := writef m pdu "dbw" [AI size; AI (cmd + 1); AI tag] in
      Ret (m, pdu)
  | _ => Ub
  end.

(** [*outlen = pdu->write_offset; virtio_p9_set_reply_header(pdu, *outlen)] *)
Definition send (d : p9_dev) (m : hmem) (pdu : p9_pdu) : reply :=
  let outlen := u32 (write_offset pdu) in
  let! (m, pdu) := virtio_p9_set_reply_header m pdu outlen in
  Ret (d, m, pdu, outlen).

Definition virtio_p9_error_reply (d : p9_dev) (m : hmem) (pdu : p9_pdu) (err : Z) : reply :=
  let err := if err =? EMFILE then ENFILE else err in
  let pdu := set_write_offset pdu VIRTIO_9P_HDR_LEN in
  let! (_, m, pdu) := writef m pdu "d" [AI err] in
  let outlen := u32 (write_offset pdu) in
  let pdu := set_read_offset pdu 5 in
  let! (_, l, pdu) := readf m pdu "w" in
  match l with
  | [AI tag] =>
      let pdu := set_write_offset pdu 0 in
      let! (_, m, pdu) := writef m pdu "dbw" [AI outlen; AI P9_RLERROR; AI tag] in
      Ret (d, m, pdu, outlen)
  | _ => Ub
  end.

Definition virtio_p9_version : handler := fun d m pdu =>
  let! (_, l, pdu) := readf m pdu "ds" in
  match l with
  | [AI msize; AS (Some version)] =>
      let answer := if bool_decide (c_str version = VIRTIO_9P_VERSION_DOTL) then c_str version else UNKNOWN in
      let! (_, m, pdu) := writef m pdu "ds" [AI msize; AS (Some answer)] in
      send d m pdu
  | _ => Ub
  end.

Definition virtio_p9_clunk : handler := fun d m pdu =>
  let! (_, l, pdu) := readf m pdu "d" in
  match l with
  | [AI f] => let! d := close_fid d f in send d m pdu
  | _ => Ub
  end.

Definition virtio_p9_flush : handler := fun d m pdu =>
  let! (_, l, pdu) := readf m pdu "ww" in
  match l with
  | [AI tag; AI oldtag] =>
      let! (_, m, pdu) := writef m pdu "w" [AI tag] in
      send d m pdu
  | _ => Ub
  end.

Definition virtio_p9_eopnotsupp : handler := fun d m pdu =>
  virtio_p9_error_reply d m pdu EOPNOTSUPP.

Definition virtio_p9_lock : handler := fun d m pdu =>
  let! (_, l, pdu) := readf m pdu "dbdqqds" in
  let! (_, m, pdu) := writef m pdu "d" [AI P9_LOCK_SUCCESS] in
  send d m pdu.

Definition virtio_p9_getlock : handler := fun d m pdu =>
  let! (_, l, pdu) := readf m pdu "dbqqds" in
  match l with
  | [AI _; AI _; AL start; AL length; AI proc_id; AS client_id] =>
      let! (_, m, pdu) := writef m pdu "bqqds"
        [AI F_UNLCK; AL start; AL length; AI proc_id; AS (option_map c_str client_id)] in
      send d m pdu
  | _ => Ub
  end.

Definition virtio_p9_getattr : handler := fun d m pdu =>
  let! (_, l, pdu) := readf m pdu "dq" in
  match l with
  | [AI f; AL request_mask] =>
      let! (d, o) := get_fid d f in
      let! (o, pfid) := deref d o in
      match lstat (abs_path d pfid) with
      | Err e => virtio_p9_error_reply d m pdu e
      | Ok st =>
          let! (_, m, pdu) := writef m pdu "A" [AStat (virtio_p9_fill_stat st)] in
          send d m pdu
      end
  | _ => Ub
  end.

Definition virtio_p9_attach : handler := fun d m pdu =>
  let! (_, l, pdu) := readf m pdu "ddssd" in
  match l with
  | [AI f; AI afid; AS uname; AS aname; AI uid] =>
      match lstat (root_dir d) with
      | Err e => virtio_p9_error_reply d m pdu e
      | Ok st =>
          let! (d, o) := get_fid d f in
          let! (o, pfid) := deref d o in
          let pfid := set_uid pfid uid in
          let d := set_objs d (<[o := pfid]> (objs d)) in
          match join_path d pfid [SLASH] with
          | None => virtio_p9_error_reply d m pdu ENAMETOOLONG
          | Some pfid =>
              let d := set_objs d (<[o := pfid]> (objs d)) in
              let! (_, m, pdu) := writef m pdu "Q" [AQid (stat2qid st)] in
              send d m pdu
          end
      end
  | _ => Ub
  end.

Definition stat_rel (d : p9_dev) (p : list Z) : res host_stat :=
  match get_full_path_helper PATH_MAX (root_dir d) p with
  | Err e => Err e
  | Ok full_path => lstat full_path
  end.

(** The loop of [virtio_p9_walk]; [i] is an 8-bit counter. The first component of
    the result is [errno] on the way to [err_out]; the two fids are addresses and
    may be the same. *)
Fixpoint walk_loop (fuel : nat) (d : p9_dev) (m : hmem) (pdu : p9_pdu) (new_fid old_fid i nwname nwqid : Z)
  : out (option Z * p9_dev * hmem * p9_pdu * Z) :=
  match fuel with
  | O => NoFuel
  | S fuel =>
      if i <? nwname then
        let! (_, l, pdu) := readf m pdu "s" in
        match l with
        | [AS (Some str)] =>
            let! (_, new) := deref d (Some new_fid) in
            let! (_, old) := deref d (Some old_fid) in
            let tmp := path new ++ [SLASH] ++ c_str str in
            if PATH_MAX <=? Z.of_nat (length tmp) then Ret (Some ENAMETOOLONG, d, m, pdu, nwqid)
            else match stat_rel d tmp with
            | Err e => Ret (Some e, d, m, pdu, nwqid)
            | Ok st =>
                match join_path d new tmp with
                | None => Ret (Some ENAMETOOLONG, d, m, pdu, nwqid)
                | Some new =>
                    let d := set_objs d (<[new_fid := set_uid new (uid old)]> (objs d)) in
                    let! (_, m, pdu) := writef m pdu "Q" [AQid (stat2qid st)] in
                    walk_loop fuel d m pdu new_fid old_fid (u8 (i + 1)) nwname (u16 (nwqid + 1))
                end
            end
        | _ => Ub
        end
      else Ret (None, d, m, pdu, nwqid)
  end.

Definition virtio_p9_walk : handler := fun d m pdu =>
  let! (_, l, pdu) := readf m pdu "ddw" in
  match l with
  | [AI fid_val; AI newfid_val; AI nwname] =>
      let! (d, new_o) := get_fid d newfid_val in
      let! (d, old_o) := get_fid d fid_val in
      let! (new_o, new) := deref d new_o in
      let! (old_o, old) := deref d old_o in
      let pdu' := set_write_offset pdu (write_offset pdu + 2) in
      let! (err, d, m, pdu, nwqid) :=
        if nwname =? 0 then
          match join_path d new (path old) with
          | None => Ret (Some ENAMETOOLONG, d, m, pdu', 0)
          | Some new => Ret (None, set_objs d (<[new_o := set_uid new (uid old)]> (objs d)), m, pdu', 0)
          end
        else
          match join_path d new (path old) with
          | None => Ret (Some ENAMETOOLONG, d, m, pdu, 0)
          | Some new =>
              walk_loop (S (Z.to_nat PATH_MAX)) (set_objs d (<[new_o := new]> (objs d))) m pdu'
                new_o old_o 0 nwname 0
          end in
      match err with
      | Some e => virtio_p9_error_reply d m pdu e
      | None =>
          let outlen := u32 (write_offset pdu) in
          let pdu := set_write_offset pdu VIRTIO_9P_HDR_LEN in
          let! (_, m, pdu) := writef m pdu "d" [AI nwqid] in
          let! (m, pdu) := virtio_p9_set_reply_header m pdu outlen in
          Ret (d, m, pdu, outlen)
      end
  | _ => Ub
  end.

(** ** Requests *)

(** The handlers of the commands that work on host files. *)
Context (fs_handler : Z -> handler).

Definition fs_commands : list Z := [8; 12; 14; 16; 18; 20; 22; 26; 40; 50; 70; 72; 74; 76; 116; 118; 122].

Definition virtio_9p_dotl_handler (cmd : Z) : option handler :=
  if cmd =? 24 then Some virtio_p9_getattr
  else if (cmd =? 30) || (cmd =? 32) then Some virtio_p9_eopnotsupp
  else if cmd =? 52 then Some virtio_p9_lock
  else if cmd =? 54 then Some virtio_p9_getlock
  else if cmd =? 100 then Some virtio_p9_version
  else if cmd =? 104 then Some virtio_p9_attach
  else if cmd =? 108 then Some virtio_p9_flush
  else if cmd =? 110 then Some virtio_p9_walk
  else if cmd =? 120 then Some virtio_p9_clunk
  else if bool_decide (cmd ∈ fs_commands) then Some (fs_handler cmd)
  else None.

Context (kvm : kvm_mem).

Definition virtio_p9_pdu_init (m : hmem) (vq : virt_queue) : out (p9_pdu * virt_queue) :=
  let arr := repeat (mkiov 0 0) VIRTQUEUE_NUM in
  let! (head, in_iov, out_iov, in_, out_, vq) :=
    virt_queue__get_inout_iov kvm (S (VIRTQUEUE_NUM + VIRTQUEUE_NUM)) m vq arr arr in
  Ret (mkpdu head VIRTIO_9P_HDR_LEN VIRTIO_9P_HDR_LEN
         (take (Z.to_nat in_) in_iov) (take (Z.to_nat out_) out_iov), vq).

(** Without readable buffers [out_iov[0]] is zero and its base the null pointer. *)
Definition virtio_p9_get_cmd (m : hmem) (pdu : p9_pdu) : out Z :=
  match out_iov pdu with
  | [] => Ub
  | v :: _ => load 1 m (iov_base v + 4)
  end.

Definition virtio_p9_do_io_request (d : p9_dev) (m : hmem) (vq : virt_queue)
  : out (p9_dev * hmem * virt_queue) :=
  let! (p9pdu, vq) := virtio_p9_pdu_init m vq in
  let! cmd := virtio_p9_get_cmd m p9pdu in
  let handler := default virtio_p9_eopnotsupp (virtio_9p_dotl_handler cmd) in
  let! (d, m, p9pdu, len) := handler d m p9pdu in
  let! m := virt_queue__set_used_elem m vq (queue_head p9pdu) len in
  Ret (d, m, vq).

(** The interrupts are the list of queue numbers signalled. *)
Fixpoint virtio_p9_do_io (fuel : nat) (d : p9_dev) (m : hmem) (vq : virt_queue) (signals : list Z)
  : out (p9_dev * hmem * virt_queue * list Z) :=
  match fuel with
  | O => NoFuel
  | S fuel =>
      let! (more, m) := virt_queue__available m vq in
      if more then
        let! (d, m, vq) := virtio_p9_do_io_request d m vq in
        virtio_p9_do_io fuel d m vq (signals ++ [0])
      else Ret (d, m, vq, signals)
  end.
End server.

(** ** The table of fids *)

Definition fid_lt (a b : Z * Z) : Prop := fst a < fst b.

Lemma find_exact f : dir_exact fid_lt (find_dir f).
Proof.
  unfold find_dir, fid_lt. split; [split|..]; intros a b H;
    destruct (Z.ltb_spec f (fst a)), (Z.ltb_spec (fst a) f), (Z.ltb_spec f (fst b)), (Z.ltb_spec (fst b) f);
    (discriminate || reflexivity || lia).
Qed.

Lemma find_dir_eq f x : find_dir f x = Eq <-> fst x = f.
Proof. unfold find_dir. destruct (Z.ltb_spec f (fst x)), (Z.ltb_spec (fst x) f); split; (discriminate || lia || auto). Qed.

(** Fids of one half of the number range: there the signed difference has the
    right sign. *)
Definition small (f : Z) : Prop := 0 <= f < 2 ^ 31.

Lemma insert_dir_small f x : small f -> small (fst x) -> insert_dir f x = find_dir f x.
Proof.
  unfold small, insert_dir, find_dir. intros H H'. rewrite swrap_id by lia.
  destruct (Z.ltb_spec (f - fst x) 0), (Z.ltb_spec 0 (f - fst x)), (Z.ltb_spec f (fst x)), (Z.ltb_spec (fst x) f);
    (reflexivity || lia).
Qed.

Lemma descend_ext {A} (d1 d2 : A -> comparison) (t : tree A) :
  (forall x, x ∈ inorder t -> d1 x = d2 x) -> forall p, descend d1 t p = descend d2 t p.
Proof.
  induction t as [|c l IHl x r IHr]; intros H p; [reflexivity|]. cbn.
  rewrite (H x) by (cbn; set_solver). rewrite IHl, IHr by (intros y Hy; apply H; cbn; set_solver). reflexivity.
Qed.

Lemma insert_ext {A} (d1 d2 : A -> comparison) x (t : tree A) :
  (forall y, y ∈ inorder t -> d1 y = d2 y) -> insert d1 x t = insert d2 x t.
Proof. intros H. unfold insert. now rewrite (descend_ext d1 d2 t H). Qed.

Lemma descend_elem {A} (dir : A -> comparison) (t : tree A) : forall p c l x r q,
  descend dir t p = (T c l x r, q) -> x ∈ inorder t.
Proof.
  induction t as [|c' l' IHl y r' IHr]; intros p c l x r q; cbn; [discriminate|].
  rewrite elem_of_app, elem_of_cons. destruct (dir y).
  - intros [= _ _ <- _ _]. auto.
  - intros H. left. eauto.
  - intros H. right. right. eauto.
Qed.

(** Looking for an object by its address finds what the search finds. *)
Lemma locate_None o t p : ~ o ∈ map snd (inorder t) -> locate o t p = None.
Proof.
  revert p. induction t as [|c l IHl x r IHr]; intros p H; [reflexivity|]. cbn [locate inorder] in *.
  rewrite map_app, elem_of_app in H. cbn [map] in H. rewrite elem_of_cons in H.
  destruct (Z.eqb_spec (snd x) o); [elim H; auto|]. rewrite IHl by tauto. apply IHr. tauto.
Qed.

Lemma locate_descend dir t p c l x r q :
  descend dir t p = (T c l x r, q) -> NoDup (map snd (inorder t)) -> locate (snd x) t p = Some (c, l, r, q).
Proof.
  revert p. induction t as [|c' l' IHl y r' IHr]; intros p H N; [discriminate|]. cbn [descend locate inorder] in *.
  rewrite map_app in N. cbn [map] in N. apply NoDup_app in N as (Nl & Nd & Nr).
  apply NoDup_cons in Nr as [Ny Nr].
  assert (X : forall s p' q', descend dir s p' = (T c l x r, q') -> snd x ∈ map snd (inorder s)).
  { intros s p' q' E. apply (list_elem_of_fmap_2 snd). exact (descend_elem dir s p' _ _ _ _ _ E). }
  destruct (dir y) eqn:D.
  - injection H as <- <- <- <- <-. now rewrite Z.eqb_refl.
  - pose proof (X _ _ _ H) as Xl. destruct (Z.eqb_spec (snd y) (snd x)) as [E|_].
    + exfalso. apply (Nd _ Xl). rewrite <- E. constructor.
    + now rewrite (IHl _ H Nl).
  - pose proof (X _ _ _ H) as Xr. destruct (Z.eqb_spec (snd y) (snd x)) as [E|_].
    + exfalso. rewrite <- E in Xr. contradiction.
    + rewrite locate_None; [now apply IHr|]. intros Xl. apply (Nd _ Xl). now constructor.
Qed.


Record fid_inv (d : p9_dev) : Prop := {
  fi_rb : rb_tree (fids d);
  fi_sorted : StronglySorted fid_lt (inorder (fids d));
  fi_small : forall x, x ∈ inorder (fids d) -> small (fst x);
  fi_nodup : NoDup (map snd (inorder (fids d)));
  fi_objs : forall x, x ∈ inorder (fids d) -> exists f, objs d !! snd x = Some f /\ fid f = fst x;
  fi_brk : forall o, is_Some (objs d !! o) -> o < brk d;
  fi_root : Z.of_nat (length (root_dir d)) < PATH_MAX;
}.

(** The abstract table: the objects of the linked nodes, by fid. *)
Definition table (d : p9_dev) (tb : gmap Z p9_fid) : Prop :=
  forall k f, tb !! k = Some f <-> exists o, (k, o) ∈ inorder (fids d) /\ objs d !! o = Some f.

Definition new_fid (f : Z) : p9_fid := mkfid f 0 [] false 0.

Lemma NoDup_snd (l : list (Z * Z)) x y :
  NoDup (map snd l) -> x ∈ l -> y ∈ l -> snd x = snd y -> x = y.
Proof.
  induction l as [|z l IH]; intros N H H' E; [now apply not_elem_of_nil in H|].
  cbn in N. apply NoDup_cons in N as [Nz N]. apply elem_of_cons in H, H'.
  destruct H as [->|H], H' as [->|H']; auto; exfalso; apply Nz.
  - rewrite E. now apply (list_elem_of_fmap_2 snd).
  - rewrite <- E. now apply (list_elem_of_fmap_2 snd).
Qed.

Lemma sorted_insert {A} (R : A -> A -> Prop) (l1 l2 : list A) x :
  StronglySorted R (l1 ++ l2) -> Forall (fun a => R a x) l1 -> Forall (fun a => R x a) l2 ->
  StronglySorted R (l1 ++ x :: l2).
Proof.
  intros S F1 F2. apply StronglySorted_app in S as (H & S1 & S2). rewrite Forall_forall in F1.
  apply StronglySorted_app. split; [|split; [exact S1|now constructor]].
  intros a b Ha Hb. apply elem_of_cons in Hb as [->|Hb]; auto.
Qed.

Lemma sorted_key (l : list (Z * Z)) k o o' :
  StronglySorted fid_lt l -> (k, o) ∈ l -> (k, o') ∈ l -> o = o'.
Proof.
  induction 1 as [|x l S IH F]; intros H H'; [now apply not_elem_of_nil in H|].
  rewrite Forall_forall in F. apply elem_of_cons in H, H'.
  destruct H as [<-|H], H' as [E|H']; [congruence| | |auto].
  - pose proof (F _ H') as C. unfold fid_lt in C. cbn in C. lia.
  - subst x. pose proof (F _ H) as C. unfold fid_lt in C. cbn in C. lia.
Qed.

(** Looking a fid up in the tree is looking it up in the table. *)
Lemma search_table d tb f :
  fid_inv d -> table d tb ->
  match search (find_dir f) (fids d) with
  | Some x => fst x = f /\ x ∈ inorder (fids d) /\ is_Some (tb !! f)
  | None => tb !! f = None
  end.
Proof.
  intros I Tb. destruct (search (find_dir f) (fids d)) as [[k o]|] eqn:E.
  - apply (search_spec fid_lt _ (de_compat _ _ (find_exact f)) (find_exact f) _ _ (fi_sorted _ I)) in E as [E D].
    apply find_dir_eq in D. cbn in D. subst k. split; [reflexivity|]. split; [exact E|].
    destruct (fi_objs _ I _ E) as (g & G & _). exists g. apply Tb. eauto.
  - destruct (tb !! f) as [g|] eqn:F; [|reflexivity]. apply Tb in F as (o & H & _).
    assert (C : search (find_dir f) (fids d) = Some (f, o)); [|congruence].
    apply (search_spec fid_lt _ (de_compat _ _ (find_exact f)) (find_exact f) _ _ (fi_sorted _ I)).
    split; [exact H|]. now apply find_dir_eq.
Qed.

Lemma fid_inv_update d o g x :
  fid_inv d -> x ∈ inorder (fids d) -> snd x = o -> fid g = fst x -> fid_inv (set_objs d (<[o := g]> (objs d))).
Proof.
  intros I H <- G. destruct I as [A B C D F Br R]. split; cbn; auto.
  - intros y Hy. destruct (decide (snd y = snd x)) as [E|N].
    + exists g. rewrite E, lookup_insert_eq. split; [reflexivity|]. rewrite G.
      assert (y = x) as ->; [|reflexivity]. exact (NoDup_snd _ _ _ D Hy H E).
    + rewrite lookup_insert_ne by congruence. auto.
  - intros o' [h Hh]. destruct (decide (o' = snd x)) as [->|N].
    + apply Br. destruct (F _ H) as (g' & G' & _). eauto.
    + rewrite lookup_insert_ne in Hh by congruence. eauto.
Qed.

Lemma table_update d tb o f g :
  fid_inv d -> table d tb -> (f, o) ∈ inorder (fids d) ->
  table (set_objs d (<[o := g]> (objs d))) (<[f := g]> tb).
Proof.
  intros I Tb H k h. cbn. rewrite lookup_insert_Some. split.
  - intros [[<- <-]|[N E]].
    + exists o. rewrite lookup_insert_eq. auto.
    + apply Tb in E as (o' & H' & E). exists o'. split; [exact H'|]. rewrite lookup_insert_ne; [exact E|].
      intros ->. apply N. pose proof (NoDup_snd _ _ _ (fi_nodup _ I) H H' eq_refl) as X. congruence.
  - intros (o' & H' & E). destruct (decide (o = o')) as [<-|N].
    + rewrite lookup_insert_eq in E. injection E as <-. left.
      pose proof (NoDup_snd _ _ _ (fi_nodup _ I) H H' eq_refl) as X. split; congruence.
    + rewrite lookup_insert_ne in E by exact N. right. split; [|apply Tb; eauto].
      intros ->. apply N. exact (sorted_key _ _ _ _ (fi_sorted _ I) H H').
Qed.

Lemma get_fid_spec d tb f :
  fid_inv d -> table d tb -> small f ->
  exists d' o, get_fid d f = Ret (d', Some o) /\ fid_inv d' /\ (f, o) ∈ inorder (fids d') /\
    events d' = events d /\ root_dir d' = root_dir d /\
    table d' (match tb !! f with Some _ => tb | None => <[f := new_fid f]> tb end).
Proof.
  intros I Tb Sf. unfold get_fid. pose proof (search_table d tb f I Tb) as S.
  destruct (search (find_dir f) (fids d)) as [[k o]|].
  - destruct S as (E & H & [g G]). cbn in E. subst k. rewrite G. exists d, o. auto 10.
  - rewrite S. rewrite (proj2 (Z.leb_gt _ _) (fi_root _ I)). unfold insert_new_fid. cbn [fids].
    rewrite (insert_ext (insert_dir f) (find_dir f))
      by (intros y Hy; apply insert_dir_small; [exact Sf|exact (fi_small _ I _ Hy)]).
    destruct (insert_spec fid_lt (find_dir f) (de_compat _ _ (find_exact f)) (f, brk d) (fids d)
                (fi_rb _ I) (fi_sorted _ I)) as (b & t & -> & Rb & B).
    assert (NF : forall x, x ∈ inorder (fids d) -> find_dir f x = Eq -> False).
    { intros [k o] H D. apply find_dir_eq in D. cbn in D. subst k.
      destruct (fi_objs _ I _ H) as (g & G & _). enough (tb !! f = Some g) by congruence. apply Tb. eauto. }
    destruct b; [|destruct B as (_ & y & Hy & D); elim (NF y Hy D)].
    destruct B as (L1 & L2 & E & E' & F1 & F2).
    assert (In : forall x, x ∈ inorder t <-> x = (f, brk d) \/ x ∈ inorder (fids d)).
    { intros x. rewrite E, E', !elem_of_app, elem_of_cons. tauto. }
    assert (Nb : objs d !! brk d = None).
    { destruct (objs d !! brk d) eqn:X; [|reflexivity]. pose proof (fi_brk _ I _ ltac:(eauto)). lia. }
    assert (Ob : forall x, x ∈ inorder (fids d) -> snd x <> brk d).
    { intros x H C. destruct (fi_objs _ I _ H) as (g & G & _). congruence. }
    eexists _, (brk d). split; [reflexivity|]. cbn [set_fids fids objs]. split; [|split; [|split; [|split]]].
    + split; cbn; auto.
      * rewrite E'. apply sorted_insert; [rewrite <- E; exact (fi_sorted _ I)| |].
        -- eapply Forall_impl; [exact F1|]. intros x. unfold find_dir, fid_lt. cbn.
           destruct (Z.ltb_spec f (fst x)), (Z.ltb_spec (fst x) f); (discriminate || lia).
        -- eapply Forall_impl; [exact F2|]. intros x. unfold find_dir, fid_lt. cbn.
           destruct (Z.ltb_spec f (fst x)), (Z.ltb_spec (fst x) f); (discriminate || lia).
      * intros x [->|H]%In; [exact Sf|exact (fi_small _ I _ H)].
      * rewrite E', map_app. cbn [map snd]. rewrite NoDup_app, NoDup_cons.
        pose proof (fi_nodup _ I) as N. rewrite E, map_app, NoDup_app in N. destruct N as (N1 & N2 & N3).
        assert (Ob' : forall l, (forall x, x ∈ l -> x ∈ inorder (fids d)) -> ~ brk d ∈ map snd l).
        { intros l Hl C. apply (list_elem_of_fmap_1 snd) in C as (x & C & Hx). exact (Ob x (Hl x Hx) (eq_sym C)). }
        split; [exact N1|]. split; [|split; [|exact N3]].
        -- intros z Hz C. apply elem_of_cons in C as [->|C]; [|exact (N2 z Hz C)].
           apply (Ob' L1); [|exact Hz]. intros x Hx. rewrite E, elem_of_app. auto.
        -- apply Ob'. intros x Hx. rewrite E, elem_of_app. auto.
      * intros x [->|H]%In.
        -- exists (mkfid f 0 [] false 0). cbn. now rewrite lookup_insert_eq.
        -- rewrite lookup_insert_ne by (intros C; exact (Ob x H (eq_sym C))). exact (fi_objs _ I _ H).
      * intros o [h Hh]. destruct (decide (o = brk d)) as [->|N]; [lia|].
        rewrite lookup_insert_ne in Hh by congruence. pose proof (fi_brk _ I o ltac:(eauto)). lia.
      * exact (fi_root _ I).
    + apply In. auto.
    + reflexivity.
    + reflexivity.
    + intros k g. cbn. rewrite lookup_insert_Some. split.
      * intros [[<- <-]|[N G]].
        -- exists (brk d). rewrite lookup_insert_eq. split; [apply In; auto|reflexivity].
        -- apply Tb in G as (o & H & G). exists o. split; [apply In; auto|].
           rewrite lookup_insert_ne; [exact G|]. intros C. exact (Ob _ H (eq_sym C)).
      * intros (o & H & G). apply In in H as [H|H].
        -- injection H as -> ->. rewrite lookup_insert_eq in G. injection G as <-. auto.
        -- rewrite lookup_insert_ne in G by (intros C; exact (Ob _ H (eq_sym C))). right.
           split; [|apply Tb; eauto]. intros <-. apply (NF _ H). now apply find_dir_eq.
Qed.

Lemma deref_Some d o f : objs d !! o = Some f -> deref d (Some o) = Ret (o, f).
Proof. intros H. cbn. now rewrite H. Qed.

(** Closing the fid of an object that is linked. *)
Lemma erase_linked d f o :
  fid_inv d -> (f, o) ∈ inorder (fids d) ->
  exists t L1 L2, erase_node o (fids d) = Ret t /\ rb_tree t /\
    inorder (fids d) = L1 ++ (f, o) :: L2 /\ inorder t = L1 ++ L2.
Proof.
  intros I H.
  assert (S : search (find_dir f) (fids d) = Some (f, o)).
  { apply (search_spec fid_lt _ (de_compat _ _ (find_exact f)) (find_exact f) _ _ (fi_sorted _ I)).
    split; [exact H|]. now apply find_dir_eq. }
  destruct (erase_spec fid_lt (find_dir f) (de_compat _ _ (find_exact f)) (find_exact f) _ _
              (fi_rb _ I) (fi_sorted _ I) S) as (t & Et & Rt & L1 & L2 & E1 & E2 & _).
  exists t, L1, L2. split; [|auto]. unfold erase_node. unfold erase, search in Et, S.
  destruct (descend (find_dir f) (fids d) []) as [s q] eqn:D. destruct s as [|c l x r]; [discriminate|].
  cbn in S. injection S as ->. pose proof (locate_descend _ _ _ _ _ _ _ _ D (fi_nodup _ I)) as Lc.
  cbn [snd] in Lc. rewrite Lc. now rewrite Et.
Qed.

(** What happens to the resources of a closed fid. *)
Definition close_events (o : Z) (f : p9_fid) : list event :=
  (if 0 <? fd f then [Close (fd f)] else []) ++ (if dir f then [Closedir o] else []).

Lemma close_fid_spec d tb f :
  fid_inv d -> table d tb -> small f ->
  exists d' o, close_fid d f = Ret d' /\ fid_inv d' /\ table d' (delete f tb) /\
    root_dir d' = root_dir d /\
    events d' = events d ++ match tb !! f with Some g => close_events o g | None => [] end.
Proof.
  intros I Tb Sf. unfold close_fid.
  destruct (get_fid_spec d tb f I Tb Sf) as (d1 & o & -> & I1 & H & Ev & Rd & Tb1).
  destruct (fi_objs _ I1 _ H) as (g & G & Gf). cbn in G, Gf. rewrite (deref_Some _ _ _ G).
  destruct (erase_linked d1 f o I1 H) as (t & L1 & L2 & -> & Rt & E1 & E2).
  set (tb1 := match tb !! f with Some _ => tb | None => <[f := new_fid f]> tb end) in *.
  assert (Tg : tb1 !! f = Some g) by (apply Tb1; eauto).
  assert (In : forall x, x ∈ inorder t -> x ∈ inorder (fids d1) /\ x <> (f, o)).
  { intros x Hx. rewrite E1, E2 in *. rewrite !elem_of_app, elem_of_cons in *. split; [tauto|]. intros ->.
    pose proof (fi_nodup _ I1) as N. rewrite E1, map_app in N. cbn in N. apply NoDup_app in N as (_ & N1 & N2).
    apply NoDup_cons in N2 as [N2 _]. destruct Hx as [Hx|Hx].
    - apply (N1 o); [exact (list_elem_of_fmap_2 snd _ _ Hx)|constructor].
    - apply N2. exact (list_elem_of_fmap_2 snd _ _ Hx). }
  assert (In' : forall x, x ∈ inorder (fids d1) -> x <> (f, o) -> x ∈ inorder t).
  { intros x Hx Nx. rewrite E1, E2 in *. rewrite !elem_of_app, elem_of_cons in *. tauto. }
  assert (Ne : forall x, x ∈ inorder t -> snd x <> o).
  { intros x Hx C. apply In in Hx as [Hx Nx]. exact (Nx (NoDup_snd _ _ _ (fi_nodup _ I1) Hx H C)). }
  eexists _, o. split; [reflexivity|]. split; [|split; [|split]].
  - destruct I1 as [A B C D F Br R]. split; cbn; auto.
    + rewrite E1 in B. rewrite E2. apply StronglySorted_app in B as (B1 & B2 & B3).
      apply StronglySorted_inv in B3 as [B3 _]. apply StronglySorted_app. split; [|auto].
      intros a b Ha Hb. apply B1; [exact Ha|now constructor].
    + intros x Hx. apply C, In, Hx.
    + rewrite E1, map_app in D. cbn in D. rewrite E2, map_app. apply NoDup_app in D as (D1 & D2 & D3).
      apply NoDup_cons in D3 as [_ D3]. apply NoDup_app. split; [exact D1|split; [|exact D3]].
      intros z Hz C'. apply (D2 z Hz). now constructor.
    + intros x Hx. rewrite lookup_delete_ne by (intros Q; exact (Ne x Hx (eq_sym Q))). apply F, In, Hx.
    + intros o' [h Hh]. apply lookup_delete_Some in Hh as [_ Hh]. eauto.
  - intros k h. cbn. rewrite lookup_delete_Some. split.
    + intros [N E]. assert (T1 : tb1 !! k = Some h).
      { unfold tb1. destruct (tb !! f); [exact E|]. now rewrite lookup_insert_ne. }
      apply Tb1 in T1 as (o' & H' & E'). exists o'.
      assert (X : (k, o') ∈ inorder t) by (apply In'; [exact H'|congruence]).
      split; [exact X|]. rewrite lookup_delete_ne; [exact E'|]. intros C. exact (Ne _ X (eq_sym C)).
    + intros (o' & H' & E'). apply lookup_delete_Some in E' as [N E']. apply In in H' as [H' N'].
      assert (T1 : tb1 !! k = Some h) by (apply Tb1; eauto).
      assert (Nk : f <> k).
      { intros ->. apply N'. f_equal. exact (sorted_key _ _ _ _ (fi_sorted _ I1) H' H). }
      split; [exact Nk|]. unfold tb1 in T1. destruct (tb !! f); [exact T1|]. now rewrite lookup_insert_ne in T1.
  - exact Rd.
  - cbn. rewrite Ev. f_equal. unfold tb1 in Tg. destruct (tb !! f) as [g'|] eqn:E.
    + assert (g' = g) as -> by congruence. reflexivity.
    + rewrite lookup_insert_eq in Tg. injection Tg as <-. reflexivity.
Qed.

(** C18. The fid table refines a finite map as long as fids stay below 2^31: looking a
    fid up yields its object, or links a fresh one; whatever a handler then
    stores in that object is what the next lookup of the fid finds; closing
    removes exactly that fid and closes what it had open, once. The tree keeps its
    red-black shape and its order throughout. *)
Theorem p9_fid_table d tb f :
  fid_inv d -> table d tb -> small f ->
  (exists d' o, get_fid d f = Ret (d', Some o) /\ fid_inv d' /\ events d' = events d /\
     let tb' := match tb !! f with Some _ => tb | None => <[f := new_fid f]> tb end in
     table d' tb' /\ objs d' !! o = tb' !! f /\
     forall g, fid g = f -> let d'' := set_objs d' (<[o := g]> (objs d')) in
       fid_inv d'' /\ table d'' (<[f := g]> tb')) /\
  (exists d' o, close_fid d f = Ret d' /\ fid_inv d' /\ table d' (delete f tb) /\
     events d' = events d ++ match tb !! f with Some g => close_events o g | None => [] end).
Proof.
  intros I Tb Sf. split.
  - destruct (get_fid_spec d tb f I Tb Sf) as (d1 & o & E & I1 & H & Ev & Rd & Tb1).
    exists d1, o. split; [exact E|]. split; [exact I1|]. split; [exact Ev|]. split; [exact Tb1|]. split.
    + destruct (fi_objs _ I1 _ H) as (g & G & _). cbn in G. rewrite G. symmetry. apply Tb1. eauto.
    + intros g Hg. split; [exact (fid_inv_update _ _ _ _ I1 H eq_refl Hg)|exact (table_update _ _ _ _ _ I1 Tb1 H)].
  - destruct (close_fid_spec d tb f I Tb Sf) as (d1 & o & E & I1 & T1 & _ & Ev). eauto 10.
Qed.

Definition empty_dev (root : list Z) : p9_dev := mkp9 E ∅ 0 root [].

Lemma empty_dev_inv root : Z.of_nat (length root) < PATH_MAX -> fid_inv (empty_dev root) /\ table (empty_dev root) ∅.
Proof.
  intros R. split.
  - split; cbn; try (intros x H; now apply not_elem_of_nil in H); try constructor.
    + exists O. constructor.
    + intros o [h H]. discriminate.
    + exact R.
  - intros k f. cbn. rewrite lookup_empty. split; [discriminate|]. intros (o & H & _). now apply not_elem_of_nil in H.
Qed.

Lemma p9_fid_table_witness :
  exists d' o, get_fid (empty_dev [47]) 5 = Ret (d', Some o) /\ objs d' !! o = Some (new_fid 5).
Proof.
  destruct (empty_dev_inv [47]) as [I Tb]; [reflexivity|].
  destruct (p9_fid_table (empty_dev [47]) ∅ 5 I Tb) as [(d' & o & E1 & _ & _ & _ & O & _) _]; [unfold small; lia|].
  exists d', o. split; [exact E1|]. rewrite O. reflexivity.
Defined.

(** Fids that are 2^31 or more apart break the table: the insertion walks by the
    sign of an [int] difference, the search by unsigned comparison. After both fids
    are in use, looking the larger one up again yields yet another object, which
    is not in the tree; closing it makes the tree empty, and the fids that were
    never closed are lost. *)
Theorem p9_fid_wraps root a b :
  Z.of_nat (length root) < PATH_MAX -> 0 <= a -> b < 2 ^ 32 -> 2 ^ 31 < b - a ->
  exists d1 d2 d3 d4 oa ob ob',
    get_fid (empty_dev root) a = Ret (d1, Some oa) /\ get_fid d1 b = Ret (d2, Some ob) /\
    get_fid d2 b = Ret (d3, Some ob') /\ ob' <> ob /\ inorder (fids d3) = [(b, ob); (a, oa)] /\
    close_fid d3 b = Ret d4 /\ fids d4 = E /\ is_Some (objs d4 !! oa).
Proof.
  intros R Ha Hb D.
  assert (S : s32 (b - a) = b - a - 2 ^ 32).
  { unfold swrap. change (2 ^ (32 - 1)) with 2147483648. change (2 ^ 32) with 4294967296 in *.
    rewrite <- (Z.mod_unique (b - a + 2147483648) 4294967296 1 (b - a - 2147483648)); lia. }
  assert (I1 : insert_dir b (a, 0) = Lt).
  { unfold insert_dir. cbn [fst]. rewrite S. now rewrite (proj2 (Z.ltb_lt _ 0)) by lia. }
  assert (I2 : insert_dir b (b, 1) = Eq) by (unfold insert_dir; cbn [fst]; rewrite Z.sub_diag; reflexivity).
  assert (F1 : find_dir b (a, 0) = Gt).
  { unfold find_dir. cbn [fst]. rewrite (proj2 (Z.ltb_ge _ _)) by lia. now rewrite (proj2 (Z.ltb_lt _ _)) by lia. }
  assert (PM : (PATH_MAX <=? Z.of_nat (length root)) = false) by (now apply Z.leb_gt).
  set (t := T Black (T Red E (b, 1) E) (a, 0) E).
  assert (G : forall o m ev, get_fid (mkp9 t m o root ev) b =
    Ret (mkp9 t (<[o := mkfid b 0 [] false 0]> m) (o + 1) root ev, Some o)).
  { intros o m ev. unfold get_fid, search. cbn [fids descend t]. rewrite F1. cbn [fst root_dir]. rewrite PM.
    unfold insert_new_fid, insert. cbn [fids descend t]. rewrite I1, I2. reflexivity. }
  assert (E1 : get_fid (empty_dev root) a = Ret (mkp9 (T Black E (a, 0) E) (<[0 := mkfid a 0 [] false 0]> ∅) 1 root [], Some 0)).
  { unfold get_fid, search. cbn [fids empty_dev descend fst root_dir]. rewrite PM. reflexivity. }
  assert (E2 : get_fid (mkp9 (T Black E (a, 0) E) (<[0 := mkfid a 0 [] false 0]> ∅) 1 root []) b =
    Ret (mkp9 t (<[1 := mkfid b 0 [] false 0]> (<[0 := mkfid a 0 [] false 0]> ∅)) 2 root [], Some 1)).
  { unfold get_fid, search. cbn [fids descend]. rewrite F1. cbn [fst root_dir]. rewrite PM.
    unfold insert_new_fid, insert. cbn [fids descend]. rewrite I1. reflexivity. }
  do 4 eexists. exists 0, 1, 2. split; [exact E1|]. split; [exact E2|]. split; [apply G|].
  split; [discriminate|]. split; [reflexivity|].
  unfold close_fid. rewrite G. cbn [deref objs]. rewrite lookup_insert_eq. split; [reflexivity|].
  split; [reflexivity|]. cbn [objs]. eexists. rewrite !lookup_delete_ne, !lookup_insert_ne by discriminate.
  apply lookup_insert_eq.
Qed.

Lemma p9_fid_wraps_witness :
  exists d1 d2 d3 d4 oa ob ob',
    get_fid (empty_dev [47]) 0 = Ret (d1, Some oa) /\ get_fid d1 P9_NOFID = Ret (d2, Some ob) /\
    get_fid d2 P9_NOFID = Ret (d3, Some ob') /\ ob' <> ob /\ inorder (fids d3) = [(P9_NOFID, ob); (0, oa)] /\
    close_fid d3 P9_NOFID = Ret d4 /\ fids d4 = E /\ is_Some (objs d4 !! oa).
Proof. apply (p9_fid_wraps [47] 0 P9_NOFID); [reflexivity|lia|reflexivity|reflexivity]. Defined.

(** ** Paths stay below the shared directory *)

(** The components between slashes. *)
Fixpoint comps (p : list Z) : list (list Z) :=
  match p with
  | [] => [[]]
  | b :: p =>
      if b =? SLASH then [] :: comps p
      else match comps p with c :: cs => (b :: c) :: cs | [] => [[b]] end
  end.

Definition dotdot : list Z := [DOT; DOT].

(** Resolving a path without links: empty components and ["."] go nowhere, [".."]
    goes up. *)
Definition trivial_comp (c : list Z) : bool := bool_decide (c = []) || bool_decide (c = [DOT]).

Definition resolve_step (acc : list (list Z)) (c : list Z) : list (list Z) :=
  if trivial_comp c then acc
  else if bool_decide (c = dotdot) then removelast acc
  else acc ++ [c].

Definition resolve (p : list Z) : list (list Z) := foldl resolve_step [] (comps p).

Lemma comps_ne p : exists c cs, comps p = c :: cs.
Proof.
  induction p as [|b p (c & cs & IH)]; [now exists [], []|]. cbn. destruct (b =? SLASH); [eauto|]. rewrite IH. eauto.
Qed.

Lemma comps_slash a b : comps (a ++ SLASH :: b) = comps a ++ comps b.
Proof.
  induction a as [|x a IH]; [reflexivity|]. cbn. rewrite IH. destruct (x =? SLASH); [reflexivity|].
  destruct (comps_ne a) as (c & cs & ->). reflexivity.
Qed.

(** A component is delimited by slashes or the end. *)
Definition delimited (b : list Z) : Prop := b = [] \/ exists b', b = SLASH :: b'.

Lemma comps_in p :
  (forall c cs, comps p = c :: cs -> exists b, p = c ++ b /\ delimited b) /\
  (forall c, c ∈ tail (comps p) -> exists a b, p = a ++ SLASH :: c ++ b /\ delimited b).
Proof.
  induction p as [|x p [IH1 IH2]]; split; cbn.
  - intros c cs [= <- _]. exists []. split; [reflexivity|now left].
  - intros c H. now apply not_elem_of_nil in H.
  - intros c cs. destruct (Z.eqb_spec x SLASH) as [->|N].
    + intros [= <- _]. exists (SLASH :: p). split; [reflexivity|right; eauto].
    + destruct (comps_ne p) as (c0 & cs0 & E). rewrite E. intros [= <- _].
      destruct (IH1 _ _ E) as (b & -> & D). exists b. split; [reflexivity|exact D].
  - intros c. destruct (Z.eqb_spec x SLASH) as [->|N]; cbn [tail].
    + intros H. destruct (comps_ne p) as (c0 & cs0 & E). rewrite E in H. apply elem_of_cons in H as [->|H].
      * destruct (IH1 _ _ E) as (b & Eb & D). exists [], b. split; [now rewrite Eb at 1|exact D].
      * destruct (IH2 c) as (a & b & Eb & D); [now rewrite E|]. exists (SLASH :: a), b. now rewrite Eb at 1.
    + destruct (comps_ne p) as (c0 & cs0 & E). rewrite E. cbn. intros H.
      destruct (IH2 c) as (a & b & Eb & D); [now rewrite E|]. exists (x :: a), b. now rewrite Eb at 1.
Qed.

Lemma is_prefix_spec n l : is_prefix n l = true <-> exists b, l = n ++ b.
Proof.
  unfold is_prefix. rewrite bool_decide_eq_true. split.
  - intros H. exists (drop (length n) l). rewrite <- (take_drop (length n) l) at 1. now rewrite H.
  - intros (b & ->). apply take_app_length.
Qed.

Lemma strstr_spec n l : strstr l n = true <-> exists a b, l = a ++ n ++ b.
Proof.
  induction l as [|x l IH]; cbn; rewrite orb_true_iff, is_prefix_spec.
  - split.
    + intros [(b & H)|H]; [|discriminate]. now exists [], b.
    + intros (a & b & H). left. destruct a; [|discriminate]. now exists b.
  - rewrite IH. split.
    + intros [(b & ->)|(a & b & ->)]; [now exists [], b|now exists (x :: a), b].
    + intros (a & b & H). destruct a as [|y a]; [left; now exists b|right]. injection H as _ ->. eauto.
Qed.

Lemma illegal_spec p : path_is_illegal p = true <-> dotdot ∈ tail (comps p).
Proof.
  assert (T : forall a b, dotdot ∈ tail (comps (a ++ SLASH :: b)) <-> dotdot ∈ tail (comps a) \/ dotdot ∈ comps b).
  { intros a b. rewrite comps_slash. destruct (comps_ne a) as (c & cs & ->). cbn. apply elem_of_app. }
  unfold path_is_illegal. split.
  - destruct (strstr p _) eqn:S.
    + intros _. apply strstr_spec in S as (a & b & ->). cbn. apply T. right.
      change (DOT :: DOT :: SLASH :: b) with (dotdot ++ SLASH :: b). rewrite comps_slash. cbn. now left.
    + intros H. apply andb_prop in H as [L H]. apply bool_decide_eq_true in H.
      rewrite <- (take_drop (length p - 3) p), H. apply T. right. cbn. now left.
  - intros H. destruct (proj2 (comps_in p) _ H) as (a & b & E & D).
    destruct (strstr p [SLASH; DOT; DOT; SLASH]) eqn:S; [reflexivity|].
    destruct D as [->|(b' & ->)].
    + rewrite E, app_nil_r. change (a ++ SLASH :: dotdot) with (a ++ [SLASH; DOT; DOT]).
      rewrite length_app. cbn [length]. replace (length a + 3 - 3)%nat with (length a) by lia.
      rewrite drop_app_length, bool_decide_eq_true_2 by reflexivity.
      rewrite (proj2 (Nat.leb_le _ _)) by lia. reflexivity.
    + enough (strstr p [SLASH; DOT; DOT; SLASH] = true) by congruence.
      apply strstr_spec. exists a, b'. exact E.
Qed.

