(* ===== verification/P9Serve.v ===== *)
(** * 9p requests are answered

    The composition of the 9p server with its message format and the queue: for
    the commands that are answered without touching host files, a request taken off
    the queue leaves the prescribed reply in the guest's buffers and is handed
    back. *)
From Stdlib Require Import Ascii String.
From S2P Require Import Prelude.
From S2P Require Import Membank.
From S2P Require Import HostMem.
From S2P Require Import Virtqueue.
From S2P Require Import VirtioBlk.
From S2P Require Import P9Pdu.
From S2P Require Import P9.
Abbreviation length := List.length.
Open Scope Z_scope.
Open Scope list_scope.

(** ** Messages *)

(** A message of type [cmd]: its own length, the type, the tag, the body. *)
Definition message (cmd tag : Z) (body : list Z) : list Z :=
  le_enc 4 (VIRTIO_9P_HDR_LEN + Z.of_nat (length body)) ++ le_enc 1 cmd ++ le_enc 2 tag ++ body.

Lemma length_message cmd tag body : length (message cmd tag body) = (7 + length body)%nat.
Proof. unfold message. rewrite !length_app, !length_le_enc. lia. Qed.

(** The reply buffers of a request in progress: writable, and neither the
    request's buffers nor each other. *)
Record buffers (m : hmem) (pdu : p9_pdu) : Prop := {
  bf_in : iov_wf (in_iov pdu);
  bf_out : iov_wf (out_iov pdu);
  bf_mapped : mapped m (iov_addrs (in_iov pdu));
  bf_nodup : NoDup (iov_addrs (in_iov pdu));
  bf_apart : forall a, a ∈ iov_addrs (in_iov pdu) -> ~ a ∈ iov_addrs (out_iov pdu);
}.

(** [pdu'] is the same request with other offsets. *)
Definition same_iov (p q : p9_pdu) : Prop :=
  in_iov q = in_iov p /\ out_iov q = out_iov p /\ queue_head q = queue_head p.

(** Memory changed at most in the reply buffers. *)
Definition wrote (pdu : p9_pdu) (m m' : hmem) : Prop :=
  (forall a, ~ a ∈ iov_addrs (in_iov pdu) -> m' !! a = m !! a) /\
  (forall a, is_Some (m' !! a) <-> is_Some (m !! a)).

Lemma wrote_refl pdu m : wrote pdu m m.
Proof. split; reflexivity. Qed.

Lemma wrote_trans pdu m1 m2 m3 : wrote pdu m1 m2 -> wrote pdu m2 m3 -> wrote pdu m1 m3.
Proof.
  intros [A A'] [B B']. split; intros a; [intros N; rewrite B by exact N; auto|rewrite B'; apply A'].
Qed.

Lemma buffers_wrote m m' pdu : buffers m pdu -> wrote pdu m m' -> buffers m' pdu.
Proof.
  intros [A B C D F] [_ W]. split; auto. eapply Forall_impl; [exact C|]. intros a. apply W.
Qed.

Lemma buffers_same m p q : buffers m p -> same_iov p q -> buffers m q.
Proof. intros [A B C D F] (E1 & E2 & _). split; rewrite ?E1, ?E2; auto. Qed.

Lemma wrote_same p q m m' : same_iov p q -> wrote q m m' -> wrote p m m'.
Proof. intros (E & _ & _) [A B]. split; [|exact B]. rewrite E in A. exact A. Qed.

(** The bytes of the request, from its start. *)
Definition request_bytes (m : hmem) (pdu : p9_pdu) (bs : list Z) : Prop :=
  read_addrs m (take (length bs) (iov_addrs (out_iov pdu))) = Some bs.

Lemma request_wrote m m' pdu bs : buffers m pdu -> wrote pdu m m' -> request_bytes m pdu bs -> request_bytes m' pdu bs.
Proof.
  intros B [W _] H. unfold request_bytes. erewrite read_addrs_ext; [exact H|].
  intros a Ha. apply W. intros C. apply (bf_apart _ _ B a C). exact (subseteq_take _ _ _ Ha).
Qed.

(** A part of the request is ready to be read at its offset. *)
Lemma request_ready m pdu pre bs post :
  buffers m pdu -> request_bytes m pdu (pre ++ bs ++ post) -> Z.of_nat (length (pre ++ bs ++ post)) < 2 ^ 31 ->
  ready m (set_read_offset pdu (Z.of_nat (length pre))) bs.
Proof.
  intros B H L. rewrite !length_app in L.
  assert (R0 : ready m (set_read_offset pdu 0) (pre ++ bs ++ post)).
  { split; [split; [exact (bf_out _ _ B)|cbn; rewrite !length_app; lia]|]. exact H. }
  apply ready_app in R0 as [_ R1]. apply ready_app in R1 as [R1 _]. exact R1.
Qed.

(** Writing a piece of the reply. *)
Lemma put m pdu w :
  buffers m pdu -> 0 <= write_offset pdu ->
  write_offset pdu + Z.of_nat (length w) <= Z.of_nat (length (iov_addrs (in_iov pdu))) ->
  Z.of_nat (length (iov_addrs (in_iov pdu))) < 2 ^ 31 ->
  exists m', virtio_p9_pdu_write m pdu w = Ret (m', set_write_offset pdu (write_offset pdu + Z.of_nat (length w))) /\
    wrote pdu m m' /\
    read_addrs m' (take (length w) (drop (Z.to_nat (write_offset pdu)) (iov_addrs (in_iov pdu)))) = Some w /\
    (forall a, ~ a ∈ take (length w) (drop (Z.to_nat (write_offset pdu)) (iov_addrs (in_iov pdu))) -> m' !! a = m !! a).
Proof.
  intros B O R L. set (dst := drop (Z.to_nat (write_offset pdu)) (iov_addrs (in_iov pdu))).
  assert (Ld : (length w <= length dst)%nat) by (unfold dst; rewrite length_drop; lia).
  destruct (write_addrs_mapped m (take (length w) dst) w) as [m' E].
  { apply Forall_take, Forall_drop, (bf_mapped _ _ B). }
  assert (Sub : forall a, a ∈ take (length w) dst -> a ∈ iov_addrs (in_iov pdu)).
  { intros a Ha. apply subseteq_take in Ha. exact (subseteq_drop _ _ _ Ha). }
  exists m'. split; [|split; [split|split]].
  - rewrite write_spec by (split; [exact (bf_in _ _ B)|lia]). fold dst.
    rewrite write_addrs_take, E. unfold room. do 4 f_equal. lia.
  - intros a N. apply (write_addrs_other _ _ _ _ _ E). intros C. apply N, Sub, C.
  - intros a. exact (write_addrs_dom _ _ _ _ _ E).
  - apply (read_write_same m _ _ m'); [|rewrite length_take; lia|exact E].
    eapply sublist_NoDup; [exact (bf_nodup _ _ B)|].
    etransitivity; [apply sublist_take|apply sublist_drop].
  - intros a N. exact (write_addrs_other _ _ _ _ _ E N).
Qed.

Section replies.
Context (malloc : Z -> bool) (fresh : nat -> list Z) (lstat : list Z -> res host_stat).
Context (fresh_length : forall n, length (fresh n) = n).
Context (malloc_ok : forall n, 0 <= n <= 32768 -> malloc n = true).

(** Reading values from a known place of the request. *)
Lemma get m pdu pre fmt args w post :
  buffers m pdu -> request_bytes m pdu (pre ++ w ++ post) -> Z.of_nat (length (pre ++ w ++ post)) < 2 ^ 31 ->
  wire fmt args = Some w -> args_ok fmt args ->
  virtio_p9_pdu_readf malloc fresh m (set_read_offset pdu (Z.of_nat (length pre))) fmt =
  Ret (0, args, set_read_offset pdu (Z.of_nat (length pre + length w))).
Proof.
  intros B H L W A. pose proof (request_ready _ _ _ _ _ B H L) as R.
  unfold virtio_p9_pdu_readf. rewrite (readf_spec malloc fresh fresh_length malloc_ok 4 _ _ _ _ _ W A (letters_rank fmt) R) by lia.
  do 2 f_equal. unfold advance, set_read_offset. cbn. f_equal. lia.
Qed.

(** Writing values. *)
Lemma put_args m pdu fmt args w :
  buffers m pdu -> 0 <= write_offset pdu ->
  write_offset pdu + Z.of_nat (length w) <= Z.of_nat (length (iov_addrs (in_iov pdu))) ->
  Z.of_nat (length (iov_addrs (in_iov pdu))) < 2 ^ 31 ->
  wire fmt args = Some w -> Forall (fun k => (rank k < 4)%nat /\ k <> LI) (letters fmt) ->
  exists m', virtio_p9_pdu_writef m pdu fmt args = Ret (0, m', set_write_offset pdu (write_offset pdu + Z.of_nat (length w))) /\
    wrote pdu m m' /\
    read_addrs m' (take (length w) (drop (Z.to_nat (write_offset pdu)) (iov_addrs (in_iov pdu)))) = Some w /\
    (forall a, ~ a ∈ take (length w) (drop (Z.to_nat (write_offset pdu)) (iov_addrs (in_iov pdu))) -> m' !! a = m !! a).
Proof.
  intros B O R L W Rk. destruct (put m pdu w B O R L) as (m' & E & F).
  exists m'. split; [|exact F]. unfold virtio_p9_pdu_writef.
  rewrite (writef_spec 4 m pdu fmt args w W Rk) by (first [lia|split; [exact (bf_in _ _ B)|lia]]).
  now rewrite E.
Qed.

(** A body written behind a header completes to a message. *)
Lemma header_body m m' pdu hdr body :
  buffers m pdu -> length hdr = 7%nat -> (7 + length body <= length (iov_addrs (in_iov pdu)))%nat ->
  read_addrs m (take (length body) (drop 7 (iov_addrs (in_iov pdu)))) = Some body ->
  read_addrs m' (take 7 (iov_addrs (in_iov pdu))) = Some hdr ->
  (forall a, ~ a ∈ take 7 (iov_addrs (in_iov pdu)) -> m' !! a = m !! a) ->
  read_addrs m' (take (7 + length body) (iov_addrs (in_iov pdu))) = Some (hdr ++ body).
Proof.
  intros B Lh L H1 H2 F. set (l := iov_addrs (in_iov pdu)) in *.
  replace (take (7 + length body) l) with (take 7 l ++ take (length body) (drop 7 l)) by apply take_take_drop.
  rewrite read_addrs_app, H2.
  assert (E : read_addrs m' (take (length body) (drop 7 l)) = read_addrs m (take (length body) (drop 7 l))).
  { apply read_addrs_ext. intros a Ha. apply F. intros C. apply subseteq_take in Ha.
    pose proof (bf_nodup _ _ B) as N. fold l in N. rewrite <- (take_drop 7 l) in N.
    apply NoDup_app in N as (_ & N & _). exact (N a C Ha). }
  now rewrite E, H1.
Qed.

Definition small_len (n : nat) : Prop := Z.of_nat n < 2 ^ 31.

(** [virtio_p9_set_reply_header] after the body: the message is complete, and its
    length is the one reported. *)
Lemma send_spec d m pdu sz cmd tag payload body :
  buffers m pdu -> request_bytes m pdu (le_enc 4 sz ++ (le_enc 1 cmd ++ le_enc 2 tag) ++ payload) ->
  small_len (7 + length payload) -> fits 8 cmd -> fits 16 tag ->
  write_offset pdu = 7 + Z.of_nat (length body) ->
  (7 + length body <= length (iov_addrs (in_iov pdu)))%nat -> small_len (length (iov_addrs (in_iov pdu))) ->
  read_addrs m (take (length body) (drop 7 (iov_addrs (in_iov pdu)))) = Some body ->
  exists m' pdu', send malloc fresh d m pdu = Ret (d, m', pdu', 7 + Z.of_nat (length body)) /\
    same_iov pdu pdu' /\ wrote pdu m m' /\
    read_addrs m' (take (7 + length body) (iov_addrs (in_iov pdu))) = Some (message (cmd + 1) tag body).
Proof.
  unfold small_len. intros B Rq Lp Fc Ft O Room Sm Hb. unfold send, virtio_p9_set_reply_header.
  assert (E4 : set_read_offset pdu 4 = set_read_offset pdu (Z.of_nat (length (le_enc 4 sz)))) by now rewrite length_le_enc.
  rewrite E4. rewrite (get m pdu _ "bw"%string [AI cmd; AI tag] _ payload B Rq);
    [|rewrite !length_app, !length_le_enc; lia|cbn; now rewrite ?app_nil_r|cbn; auto].
  set (pdu1 := set_write_offset _ 0).
  assert (S1 : same_iov pdu pdu1) by (repeat split).
  pose proof (buffers_same _ _ _ B S1) as B1.
  destruct (put_args m pdu1 "dbw"%string [AI (u32 (write_offset pdu)); AI (cmd + 1); AI tag]
              (le_enc 4 (u32 (write_offset pdu)) ++ le_enc 1 (cmd + 1) ++ le_enc 2 tag) B1) as (m' & -> & W & Rd & F).
  1-3: cbn [pdu1 set_write_offset set_read_offset write_offset in_iov]; rewrite ?length_app, ?length_le_enc; lia.
  { cbn. reflexivity. }
  { ranks. }
  eexists m', _. rewrite O. rewrite (wrap_id 32) by (unfold fits; lia).
  split; [reflexivity|]. split; [repeat split|]. split; [exact (wrote_same _ _ _ _ S1 W)|].
  rewrite O, (wrap_id 32) in * by (unfold fits; lia).
  cbn [pdu1 set_write_offset set_read_offset write_offset in_iov Z.to_nat drop] in *.
  rewrite !length_app, !length_le_enc in *. cbn [Nat.add] in *.
  unfold message, VIRTIO_9P_HDR_LEN. rewrite !app_assoc. rewrite <- app_assoc with (l := le_enc 4 _).
  now apply (header_body m m' pdu).
Qed.

(** A request that has just been taken off the queue. *)
Record request_at (m : hmem) (pdu : p9_pdu) (sz cmd tag : Z) (payload : list Z) (room : nat) : Prop := {
  ra_buffers : buffers m pdu;
  ra_bytes : request_bytes m pdu (le_enc 4 sz ++ (le_enc 1 cmd ++ le_enc 2 tag) ++ payload);
  ra_len : small_len (7 + length payload);
  ra_cmd : fits 8 cmd;
  ra_tag : fits 16 tag;
  ra_read : read_offset pdu = 7;
  ra_write : write_offset pdu = 7;
  ra_room : (7 + room <= length (iov_addrs (in_iov pdu)))%nat;
  ra_small : small_len (length (iov_addrs (in_iov pdu)));
}.

(** What a handler promises for such a request. *)
Definition answered (r : reply) (d : p9_dev) (m : hmem) (pdu : p9_pdu) (rep tag : Z) (body : list Z) : Prop :=
  exists m' pdu', r = Ret (d, m', pdu', 7 + Z.of_nat (length body)) /\
    same_iov pdu pdu' /\ wrote pdu m m' /\
    read_addrs m' (take (7 + length body) (iov_addrs (in_iov pdu))) = Some (message rep tag body).

(** Reading the arguments. *)
Lemma get_payload m pdu sz cmd tag payload room fmt args :
  request_at m pdu sz cmd tag payload room -> wire fmt args = Some payload -> args_ok fmt args ->
  exists o, virtio_p9_pdu_readf malloc fresh m pdu fmt = Ret (0, args, set_read_offset pdu o).
Proof.
  intros R W A. eexists. destruct R as [B Rb L _ _ Or _ _ _].
  replace pdu with (set_read_offset pdu (Z.of_nat (length (le_enc 4 sz ++ le_enc 1 cmd ++ le_enc 2 tag)))) at 1.
  - apply (get m pdu _ fmt args payload []); auto.
    + rewrite app_nil_r, <- !app_assoc. rewrite <- !app_assoc in Rb. exact Rb.
    + unfold small_len in L. rewrite !length_app, !length_le_enc. cbn [length]. lia.
  - rewrite !length_app, !length_le_enc. destruct pdu. cbn in *. now subst.
Qed.

(** Moving the read offset keeps the request. *)
Lemma request_seek m pdu sz cmd tag payload room o :
  request_at m pdu sz cmd tag payload room ->
  exists q, set_read_offset pdu o = q /\ same_iov pdu q /\ buffers m q /\ write_offset q = 7 /\
    request_bytes m q (le_enc 4 sz ++ (le_enc 1 cmd ++ le_enc 2 tag) ++ payload).
Proof.
  intros [B Rb L _ _ Or Ow _ _]. eexists. split; [reflexivity|]. split; [repeat split|].
  split; [apply (buffers_same _ pdu); [exact B|repeat split]|]. split; [exact Ow|exact Rb].
Qed.

(** Writing the body and sending it. *)
Lemma answer_args d m pdu sz cmd tag payload o fmt args body :
  request_at m pdu sz cmd tag payload (length body) ->
  wire fmt args = Some body -> Forall (fun k => (rank k < 4)%nat /\ k <> LI) (letters fmt) ->
  answered (let! (_, m, p) := virtio_p9_pdu_writef m (set_read_offset pdu o) fmt args in
            send malloc fresh d m p) d m pdu (cmd + 1) tag body.
Proof.
  intros R W Rk. destruct (request_seek _ _ _ _ _ _ _ o R) as (q & -> & Sq & Bq & Oq & Rq).
  pose proof R as [B Rb L Fc Ft _ _ Room Sm]. destruct Sq as (E1 & E2 & E3). unfold small_len in *.
  destruct (put_args m q fmt args body Bq) as (m1 & -> & W1 & R1 & _); try (rewrite ?E1; lia); auto.
  set (q1 := set_write_offset q _). assert (S1 : same_iov q q1) by (repeat split).
  rewrite Oq in R1. change (Z.to_nat 7) with 7%nat in R1.
  destruct (send_spec d m1 q1 sz cmd tag payload body) as (m2 & q2 & -> & S2 & W2 & R2).
  - exact (buffers_same _ _ _ (buffers_wrote _ _ _ Bq W1) S1).
  - exact (request_wrote _ _ _ _ Bq W1 Rq).
  - exact L.
  - exact Fc.
  - exact Ft.
  - unfold q1. cbn. now rewrite Oq.
  - unfold q1. cbn [set_write_offset in_iov]. rewrite E1. exact Room.
  - unfold q1. cbn [set_write_offset in_iov]. rewrite E1. exact Sm.
  - exact R1.
  - exists m2, q2. split; [reflexivity|]. destruct S2 as (F1 & F2 & F3). cbn [q1 set_write_offset in_iov out_iov queue_head] in *.
    split; [split; [congruence|split; congruence]|]. split.
    + apply (wrote_same pdu q); [repeat split; assumption|]. apply (wrote_trans _ _ _ _ W1).
      exact (wrote_same _ _ _ _ S1 W2).
    + rewrite E1 in R2. exact R2.
Qed.

(** A reply without a body. *)
Lemma answer_empty d m pdu sz cmd tag payload o :
  request_at m pdu sz cmd tag payload 0 ->
  answered (send malloc fresh d m (set_read_offset pdu o)) d m pdu (cmd + 1) tag [].
Proof.
  intros R. destruct (request_seek _ _ _ _ _ _ _ o R) as (q & -> & Sq & Bq & Oq & Rq).
  pose proof R as [B Rb L Fc Ft _ _ Room Sm]. destruct Sq as (E1 & E2 & E3).
  destruct (send_spec d m q sz cmd tag payload [] Bq Rq L Fc Ft Oq) as (m2 & q2 & -> & S2 & W2 & R2);
    [rewrite E1; exact Room|rewrite E1; exact Sm|reflexivity|].
  exists m2, q2. split; [reflexivity|]. destruct S2 as (F1 & F2 & F3).
  split; [split; [congruence|split; congruence]|]. rewrite E1 in R2. split; [|exact R2].
  apply (wrote_same pdu q); [repeat split; assumption|exact W2].
Qed.

(** The error number of a reply. *)
Definition reply_errno (err : Z) : Z := if err =? EMFILE then ENFILE else err.

Lemma answer_error d m pdu sz cmd tag payload o err :
  request_at m pdu sz cmd tag payload 4 ->
  answered (virtio_p9_error_reply malloc fresh d m (set_read_offset pdu o) err) d m pdu P9_RLERROR tag
    (le_enc 4 (reply_errno err)).
Proof.
  intros R. unfold virtio_p9_error_reply. fold (reply_errno err).
  destruct (request_seek _ _ _ _ _ _ _ o R) as (q & -> & Sq & Bq & Oq & Rq).
  pose proof R as [B Rb L Fc Ft _ _ Room Sm]. destruct Sq as (E1 & E2 & E3). unfold small_len in *.
  set (q0 := set_write_offset q VIRTIO_9P_HDR_LEN).
  assert (S0 : same_iov q q0) by (repeat split). pose proof (buffers_same _ _ _ Bq S0) as B0.
  destruct (put_args m q0 "d"%string [AI (reply_errno err)] (le_enc 4 (reply_errno err)) B0) as (m1 & -> & W1 & R1 & _).
  1-3: cbn [q0 set_write_offset write_offset in_iov]; rewrite ?E1, ?length_le_enc; unfold VIRTIO_9P_HDR_LEN; lia.
  { reflexivity. }
  { ranks. }
  cbn [q0 set_write_offset write_offset in_iov] in R1 |- *. rewrite length_le_enc in *.
  change (u32 (VIRTIO_9P_HDR_LEN + Z.of_nat 4)) with 11.
  pose proof (request_wrote _ _ q0 _ B0 W1 Rq) as Rq1. pose proof (buffers_wrote _ _ _ B0 W1) as B1.
  set (q1 := set_read_offset _ 5).
  assert (E5 : q1 = set_read_offset (set_write_offset q0 11) (Z.of_nat (length (le_enc 4 sz ++ le_enc 1 cmd))))
    by (rewrite length_app, !length_le_enc; reflexivity).
  rewrite E5. clear E5.
  assert (S1 : same_iov q0 (set_write_offset q0 11)) by (repeat split).
  rewrite (get m1 _ _ "w"%string [AI tag] (le_enc 2 tag) payload (buffers_same _ _ _ B1 S1)).
  2:{ rewrite <- !app_assoc in *. exact Rq1. }
  2:{ rewrite !length_app, !length_le_enc. lia. }
  2:{ reflexivity. }
  2:{ cbn. auto. }
  set (q2 := set_write_offset _ 0). assert (S2 : same_iov q0 q2) by (repeat split).
  pose proof (buffers_same _ _ _ B1 S2) as B2.
  destruct (put_args m1 q2 "dbw"%string [AI 11; AI P9_RLERROR; AI tag]
              (le_enc 4 11 ++ le_enc 1 P9_RLERROR ++ le_enc 2 tag) B2) as (m2 & -> & W2 & R2 & F2).
  1-3: cbn [q2 q0 set_write_offset set_read_offset write_offset in_iov]; rewrite ?E1, ?length_app, ?length_le_enc; lia.
  { reflexivity. }
  { ranks. }
  eexists m2, _. rewrite length_le_enc. split; [reflexivity|]. split; [repeat split; assumption|]. split.
  - apply (wrote_same pdu q0); [repeat split; assumption|]. apply (wrote_trans _ _ _ _ W1). exact (wrote_same _ _ _ _ S2 W2).
  - unfold message. rewrite length_le_enc. change (VIRTIO_9P_HDR_LEN + Z.of_nat 4) with 11.
    rewrite !app_assoc. rewrite <- app_assoc with (l := le_enc 4 11).
    replace (7 + 4)%nat with (7 + length (le_enc 4 (reply_errno err)))%nat by (rewrite length_le_enc; reflexivity).
    cbn [q2 q0 set_write_offset set_read_offset write_offset in_iov Z.to_nat drop] in R2, F2. rewrite E1 in R1, R2, F2.
    rewrite !length_app, !length_le_enc in R2, F2. cbn [Nat.add] in R2, F2.
    apply (header_body m1 m2 pdu); auto.
    apply (buffers_same _ q0); [exact B1|unfold q0; repeat split; cbn; congruence].
Qed.

(** ** What each command promises *)

(** Commands that are answered from the state of the server alone: the request's
    type and payload, the new state, the reply's type and body. *)
Inductive exchange (d : p9_dev) : Z -> list Z -> p9_dev -> Z -> list Z -> Prop :=
| ex_version msize v :
    fits 32 msize -> Z.of_nat (length v) < 32768 -> Forall (fun b => b <> 0) v ->
    exchange d 100 (le_enc 4 msize ++ wire_str (Some v))
             d 101 (le_enc 4 msize ++ wire_str (Some (if bool_decide (v = VIRTIO_9P_VERSION_DOTL) then v else UNKNOWN)))
| ex_flush newtag oldtag :
    fits 16 newtag -> fits 16 oldtag ->
    exchange d 108 (le_enc 2 newtag ++ le_enc 2 oldtag) d 109 (le_enc 2 newtag)
| ex_clunk f d' :
    fits 32 f -> close_fid d f = Ret d' -> exchange d 120 (le_enc 4 f) d' 121 []
| ex_lock args payload :
    wire "dbdqqds" args = Some payload -> args_ok "dbdqqds" args ->
    exchange d 52 payload d 53 (le_enc 4 P9_LOCK_SUCCESS)
| ex_getattr f mask d' o pf st :
    fits 32 f -> fits 64 mask -> get_fid d f = Ret (d', Some o) -> objs d' !! o = Some pf ->
    lstat (abs_path d' pf) = Ok st ->
    exchange d 24 (le_enc 4 f ++ le_enc 8 mask) d' 25 (wire_stat (virtio_p9_fill_stat st))
| ex_getattr_fails f mask d' o pf e :
    fits 32 f -> fits 64 mask -> get_fid d f = Ret (d', Some o) -> objs d' !! o = Some pf ->
    lstat (abs_path d' pf) = Err e ->
    exchange d 24 (le_enc 4 f ++ le_enc 8 mask) d' P9_RLERROR (le_enc 4 (reply_errno e))
| ex_unsupported fs cmd payload :
    virtio_9p_dotl_handler malloc fresh lstat fs cmd = None \/ cmd = 30 \/ cmd = 32 ->
    exchange d cmd payload d P9_RLERROR (le_enc 4 EOPNOTSUPP).

Lemma c_str_id v : Forall (fun b => b <> 0) v -> c_str v = v.
Proof.
  induction 1 as [|b v N _ IH]; [reflexivity|]. cbn. rewrite (proj2 (Z.eqb_neq b 0)) by exact N. now rewrite IH.
Qed.

(** Whether a command has a handler does not depend on the handlers of files. *)
Lemma dotl_None fs fs' cmd :
  virtio_9p_dotl_handler malloc fresh lstat fs cmd = None -> virtio_9p_dotl_handler malloc fresh lstat fs' cmd = None.
Proof. unfold virtio_9p_dotl_handler. repeat case_match; (discriminate || reflexivity). Qed.

Lemma exchange_answered fs d cmd payload d' rep body m pdu sz tag :
  exchange d cmd payload d' rep body ->
  request_at m pdu sz cmd tag payload (length body) ->
  answered (default (virtio_p9_eopnotsupp malloc fresh) (virtio_9p_dotl_handler malloc fresh lstat fs cmd) d m pdu)
    d' m pdu rep tag body.
Proof.
  intros X R. destruct X as [msize v Fm Lv Nz|t o Ft Fo|f d' Ff Cl|args payload W A|f mask d' o pf st Ff Fm G O St
                            |f mask d' o pf e Ff Fm G O St|fs0 cmd payload H].
  - change (answered (virtio_p9_version malloc fresh d m pdu) d m pdu (100 + 1) tag
      (le_enc 4 msize ++ wire_str (Some (if bool_decide (v = VIRTIO_9P_VERSION_DOTL) then v else UNKNOWN)))).
    unfold virtio_p9_version.
    destruct (get_payload _ _ _ _ _ _ _ "ds"%string [AI msize; AS (Some v)] R) as (o & ->).
    { cbn. now rewrite app_nil_r. }
    { cbn. auto. }
    rewrite c_str_id by exact Nz. apply (answer_args _ _ _ _ _ _ _ _ _ _ _ R); [cbn; now rewrite app_nil_r|ranks].
  - change (answered (virtio_p9_flush malloc fresh d m pdu) d m pdu (108 + 1) tag (le_enc 2 t)).
    unfold virtio_p9_flush. destruct (get_payload _ _ _ _ _ _ _ "ww"%string [AI t; AI o] R) as (q & ->); [reflexivity|cbn; auto|].
    apply (answer_args _ _ _ _ _ _ _ _ _ _ _ R); [reflexivity|ranks].
  - change (answered (virtio_p9_clunk malloc fresh d m pdu) d' m pdu (120 + 1) tag []).
    unfold virtio_p9_clunk. destruct (get_payload _ _ _ _ _ _ _ "d"%string [AI f] R) as (q & ->); [reflexivity|cbn; auto|].
    rewrite Cl. exact (answer_empty _ _ _ _ _ _ _ _ R).
  - change (answered (virtio_p9_lock malloc fresh d m pdu) d m pdu (52 + 1) tag (le_enc 4 P9_LOCK_SUCCESS)).
    unfold virtio_p9_lock. destruct (get_payload _ _ _ _ _ _ _ _ _ R W A) as (q & ->).
    apply (answer_args _ _ _ _ _ _ _ _ _ _ _ R); [reflexivity|ranks].
  - change (answered (virtio_p9_getattr malloc fresh lstat d m pdu) d' m pdu (24 + 1) tag (wire_stat (virtio_p9_fill_stat st))).
    unfold virtio_p9_getattr. destruct (get_payload _ _ _ _ _ _ _ "dq"%string [AI f; AL mask] R) as (q & ->); [reflexivity|cbn; auto|].
    rewrite G, (deref_Some _ _ _ O), St. apply (answer_args _ _ _ _ _ _ _ _ _ _ _ R); [cbn; now rewrite ?app_nil_r|ranks].
  - change (answered (virtio_p9_getattr malloc fresh lstat d m pdu) d' m pdu P9_RLERROR tag (le_enc 4 (reply_errno e))).
    unfold virtio_p9_getattr. destruct (get_payload _ _ _ _ _ _ _ "dq"%string [AI f; AL mask] R) as (q & ->); [reflexivity|cbn; auto|].
    rewrite G, (deref_Some _ _ _ O), St. exact (answer_error _ _ _ _ _ _ _ _ _ R).
  - assert (E : default (virtio_p9_eopnotsupp malloc fresh) (virtio_9p_dotl_handler malloc fresh lstat fs cmd) =
      virtio_p9_eopnotsupp malloc fresh).
    { destruct H as [H|[->| ->]]; [now rewrite (dotl_None _ _ _ H)|reflexivity|reflexivity]. }
    rewrite E. unfold virtio_p9_eopnotsupp. replace pdu with (set_read_offset pdu (read_offset pdu)) at 1 by now destruct pdu.
    exact (answer_error _ _ _ _ _ _ _ _ _ R).
Qed.
End replies.

(** ** Through the queue *)

Lemma pop_vring m vq h vq' : virt_queue__pop m vq = Ret (h, vq') -> vq_vring vq' = vq_vring vq.
Proof.
  unfold virt_queue__pop, umod. destruct (_ =? 0); [discriminate|]. destruct (load _ _ _); [|discriminate..].
  now intros [= _ <-].
Qed.

Lemma read_addrs_lookup m l bs i a b :
  read_addrs m l = Some bs -> l !! i = Some a -> bs !! i = Some b -> m !! a = Some b.
Proof.
  revert bs i. induction l as [|x l IH]; intros bs i; [discriminate|]. cbn.
  destruct (m !! x) as [y|] eqn:E; [|discriminate]. destruct (read_addrs m l); [|discriminate]. intros [= <-].
  destruct i as [|i]; cbn; [|eauto]. intros [= <-] [= <-]. exact E.
Qed.

(** The command byte is the fifth byte of the request. *)
Lemma get_cmd_spec m pdu sz cmd rest v tl :
  out_iov pdu = v :: tl -> 5 <= iov_len v -> request_bytes m pdu (le_enc 4 sz ++ le_enc 1 cmd ++ rest) -> fits 8 cmd ->
  virtio_p9_get_cmd m pdu = Ret cmd.
Proof.
  intros E L R F. unfold virtio_p9_get_cmd. rewrite E.
  assert (M : m !! (iov_base v + 4) = Some cmd).
  { apply (read_addrs_lookup _ _ _ 4 _ _ R).
    - rewrite E, iov_addrs_cons. rewrite lookup_take_lt by (rewrite !length_app, !length_le_enc; lia).
      rewrite lookup_app_l by (rewrite length_seqZ; lia). apply lookup_seqZ. lia.
    - cbn. f_equal. now apply wrap_id. }
  unfold load, load_bytes. change (seqZ (iov_base v + 4) (Z.of_nat 1)) with [iov_base v + 4 + 0] || rewrite seqZ_1.
  cbn. rewrite ?Z.add_0_r, M. cbn. f_equal. lia.
Qed.

Lemma rings_off_used vr m m' base done :
  0 < num vr -> (forall a, ~ off_rings vr a -> m' !! a = m !! a) ->
  (forall a, is_Some (m' !! a) <-> is_Some (m !! a)) ->
  ring_wf m vr -> used_rel m vr base done -> ring_wf m' vr /\ used_rel m' vr base done.
Proof.
  intros Hn H Dom [? ? ? Wa Wu ?] U. split.
  - split; try assumption.
    + eapply Forall_impl; [exact Wa|]. cbv beta. intros a. apply Dom.
    + eapply Forall_impl; [exact Wu|]. cbv beta. intros a. apply Dom.
  - apply (used_rel_same vr Hn m); [|exact U]. apply same_at_lookup. intros b Hb. apply H.
    unfold off_rings. lia.
Qed.

(** C20. A 9p request that concerns only the server's own state is answered end to
    end: taken off the queue, it leaves in the guest's reply buffers, however its
    chain is cut, a message with the right length, the reply type and the request's
    tag, and the promised body (the version agreed on, the attributes of the file
    or the error of looking them up, an error number for a command that the server
    does not know); the state of the server changes as the command says, the chain
    is handed back with the length of the reply, and no other memory changes. *)
Theorem p9_request_served malloc fresh lstat fs kvm d m vq head vq' l base done sz cmd tag payload d' rep body v tl :
  (forall n, length (fresh n) = n) -> (forall n, 0 <= n <= 32768 -> malloc n = true) ->
  let vr := vq_vring vq in
  let rd := map (iov_of kvm) (readables l) in
  let wr := map (iov_of kvm) (writables l) in
  let req := le_enc 4 sz ++ (le_enc 1 cmd ++ le_enc 2 tag) ++ payload in
  mem_ok m -> ring_wf m vr -> used_rel m vr base done ->
  virt_queue__pop m vq = Ret (head, vq') -> chain m (desc vr) 65536 head l ->
  (length rd <= 128)%nat -> (length wr <= 128)%nat ->
  iov_wf rd -> iov_wf wr -> mapped m (iov_addrs wr) -> NoDup (iov_addrs wr) ->
  Forall (fun a => off_rings vr a /\ ~ a ∈ iov_addrs rd) (iov_addrs wr) ->
  rd = v :: tl -> 5 <= iov_len v ->
  read_addrs m (take (length req) (iov_addrs rd)) = Some req ->
  Z.of_nat (length req) < 2 ^ 31 -> fits 8 cmd -> fits 16 tag ->
  (7 + length body <= length (iov_addrs wr))%nat -> Z.of_nat (length (iov_addrs wr)) < 2 ^ 31 ->
  exchange malloc fresh lstat d cmd payload d' rep body ->
  exists m', virtio_p9_do_io_request malloc fresh lstat fs kvm d m vq = Ret (d', m', vq') /\
    read_addrs m' (take (7 + length body) (iov_addrs wr)) = Some (message rep tag body) /\
    ring_wf m' vr /\ used_rel m' vr base (done ++ [(u32 head, 7 + Z.of_nat (length body))]) /\
    (forall a, off_rings vr a -> ~ a ∈ iov_addrs wr -> m' !! a = m !! a).
Proof.
  intros Hf Hm vr rd wr req Mok W U P C Lr Lw Wr Ww Mw Nw Aw Ev Lv Rq Sr Fc Ft Room Sm X.
  unfold virtio_p9_do_io_request, virtio_p9_pdu_init.
  assert (IO : iov_room l (repeat (mkiov 0 0) VIRTQUEUE_NUM) (repeat (mkiov 0 0) VIRTQUEUE_NUM) 0 0).
  { unfold rd, wr in Lr, Lw. rewrite length_map in Lr, Lw. split; rewrite repeat_length; unfold VIRTQUEUE_NUM; lia. }
  rewrite (proj1 (get_inout_iov_chain kvm m (S (VIRTQUEUE_NUM + VIRTQUEUE_NUM)) vq (repeat (mkiov 0 0) VIRTQUEUE_NUM)
    (repeat (mkiov 0 0) VIRTQUEUE_NUM) head vq' Mok ltac:(rewrite repeat_length; unfold VIRTQUEUE_NUM; lia)
    ltac:(rewrite repeat_length; unfold VIRTQUEUE_NUM; lia) ltac:(rewrite !repeat_length; lia) P) l C IO).
  rewrite !Nat2Z.id. fold wr rd. rewrite !take_app_length' by (unfold wr, rd; now rewrite length_map).
  set (pdu := mkpdu head VIRTIO_9P_HDR_LEN VIRTIO_9P_HDR_LEN wr rd).
  assert (B : buffers m pdu).
  { split; cbn; auto. rewrite Forall_forall in Aw. intros a Ha. now apply Aw. }
  rewrite (get_cmd_spec m pdu sz cmd (le_enc 2 tag ++ payload) v tl Ev Lv);
    [|unfold req in Rq; rewrite <- app_assoc in Rq; exact Rq|exact Fc].
  assert (R : request_at m pdu sz cmd tag payload (length body)).
  { split; assumption || reflexivity. }
  destruct (exchange_answered malloc fresh lstat Hf Hm fs d cmd payload d' rep body m pdu sz tag X R)
    as (m1 & pdu1 & -> & (_ & _ & Eh) & W1 & R1).
  cbn [queue_head pdu] in Eh. rewrite Eh. cbn [in_iov pdu] in R1.
  rewrite Forall_forall in Aw.
  assert (Off : forall a, ~ off_rings vr a -> m1 !! a = m !! a).
  { intros a Ha. apply (proj1 W1). intros Ca. apply Ha. now apply Aw. }
  pose proof (wf_num _ _ W) as Hn. pose proof (wf_div _ _ W) as Hdiv.
  destruct (rings_off_used vr m m1 base done ltac:(lia) Off (proj2 W1) W U) as [W1' U1].
  destruct (set_used_elem_spec vr ltac:(lia) Hdiv m1 vq' base done head (7 + Z.of_nat (length body)) W1'
              (pop_vring _ _ _ _ P) U1) as (m2 & E2 & W2 & _ & U2).
  rewrite E2. exists m2. split; [reflexivity|].
  pose proof (used_elem_quiet m1 vq' _ _ m2 ltac:(rewrite (pop_vring _ _ _ _ P); fold vr; lia) E2) as [Q _].
  rewrite (pop_vring _ _ _ _ P) in Q. fold vr in Q.
  split; [|split; [exact W2|split]].
  - rewrite <- R1. apply read_addrs_ext. intros a Ha. apply Q. apply subseteq_take in Ha.
    destruct (Aw a Ha) as [[_ O] _]. exact O.
  - rewrite (wrap_id 32 (7 + _)) in U2 by (unfold fits; lia). exact U2.
  - intros a [_ O] N. rewrite Q by exact O. exact (proj1 W1 a N).
Qed.

(** ** A concrete request *)

(** A version request at guest address 256, its reply buffers at 300 and 400. *)
Definition p9_bytes : list Z :=
  desc_bytes 256 21 VRING_DESC_F_NEXT 1 ++
  desc_bytes 300 7 (VRING_DESC_F_WRITE .| VRING_DESC_F_NEXT) 2 ++ desc_bytes 400 20 VRING_DESC_F_WRITE 0 ++
  desc_bytes 0 0 0 0 ++
  (le_enc 2 0 ++ le_enc 2 1 ++ repeat 0 10) ++ [0; 0] ++ repeat 0 38 ++ repeat 0 138 ++
  message 100 65535 (le_enc 4 8192 ++ wire_str (Some VIRTIO_9P_VERSION_DOTL)) ++ repeat 0 235.

Definition p9_mem : hmem := mem_at (2 ^ 40) p9_bytes.

Lemma p9_load n k x :
  0 <= k -> k + Z.of_nat n <= 512 -> le_dec (slice (Z.to_nat k) n p9_bytes) = x -> load n p9_mem (2 ^ 40 + k) = Ret x.
Proof.
  intros H1 H2 <-. unfold p9_mem. rewrite load_mem_at by (try (change (length p9_bytes) with 512%nat); lia).
  now replace (2 ^ 40 + k - 2 ^ 40) with k by lia.
Qed.

Ltac p9_field k := apply (p9_load _ k); [lia|lia|vm_compute; reflexivity].

Lemma p9_demo_chain :
  chain p9_mem (2 ^ 40) 65536 0 [mkdesc 256 21 1 1; mkdesc 300 7 3 2; mkdesc 400 20 2 0].
Proof.
  apply chain_next; [|reflexivity|apply chain_next; [|reflexivity|apply chain_last; [|reflexivity]]];
    (split; [|split; [|split; [|intros _]]]).
  - p9_field 0.
  - p9_field 8.
  - p9_field 12.
  - p9_field 14.
  - p9_field 16.
  - p9_field 24.
  - p9_field 28.
  - p9_field 30.
  - p9_field 32.
  - p9_field 40.
  - p9_field 44.
  - p9_field 46.
Qed.

Lemma p9_demo_ring : ring_wf p9_mem demo_vring /\ used_rel p9_mem demo_vring 0 [].
Proof.
  split.
  - split; cbn [demo_vring num avail used]; try lia.
    + exists (2 ^ 14). reflexivity.
    + apply mapped_mem_at; try (change (length p9_bytes) with 512%nat); cbn; lia.
    + apply mapped_mem_at; try (change (length p9_bytes) with 512%nat); cbn; lia.
  - split; [p9_field 82|]. intros k e Hk. discriminate.
Qed.

Lemma p9_demo_pop : virt_queue__pop p9_mem demo_vq = Ret (0, set_last_avail demo_vq 1).
Proof.
  unfold virt_queue__pop, umod. change (num (vq_vring demo_vq) =? 0) with false. cbv iota.
  assert (E : load 2 p9_mem (avail_ring (vq_vring demo_vq) (last_avail_idx demo_vq mod num (vq_vring demo_vq))) = Ret 0)
    by (p9_field 68).
  now rewrite E.
Qed.

Definition p9_demo_descs : list vring_desc := [mkdesc 256 21 1 1; mkdesc 300 7 3 2; mkdesc 400 20 2 0].

Lemma p9_demo_rd : map (iov_of Membank.demo_mem) (readables p9_demo_descs) = [mkiov (2 ^ 40 + 256) 21].
Proof. vm_compute. reflexivity. Qed.

Lemma p9_demo_wr :
  map (iov_of Membank.demo_mem) (writables p9_demo_descs) = [mkiov (2 ^ 40 + 300) 7; mkiov (2 ^ 40 + 400) 20].
Proof. vm_compute. reflexivity. Qed.

Lemma p9_request_served_witness :
  exists m', virtio_p9_do_io_request (fun n => n <=? 100000) (fun n => repeat 0 n) (fun _ => Err ENOENT)
      (fun _ _ _ _ => Ub) Membank.demo_mem (empty_dev [47]) p9_mem demo_vq =
      Ret (empty_dev [47], m', set_last_avail demo_vq 1) /\
    read_addrs m' (take 21 (seqZ (2 ^ 40 + 300) 7 ++ seqZ (2 ^ 40 + 400) 20)) =
      Some (message 101 65535 (le_enc 4 8192 ++ wire_str (Some VIRTIO_9P_VERSION_DOTL))).
Proof.
  destruct (p9_request_served (fun n => n <=? 100000) (fun n => repeat 0 n) (fun _ => Err ENOENT)
    (fun _ _ _ _ => Ub) Membank.demo_mem (empty_dev [47]) p9_mem demo_vq 0 (set_last_avail demo_vq 1)
    p9_demo_descs 0 [] 21 100 65535
    (le_enc 4 8192 ++ wire_str (Some VIRTIO_9P_VERSION_DOTL)) (empty_dev [47]) 101
    (le_enc 4 8192 ++ wire_str (Some VIRTIO_9P_VERSION_DOTL)) (mkiov (2 ^ 40 + 256) 21) [])
    as (m' & E & R & _).
  - intros n. apply repeat_length.
  - intros n Hn. apply Z.leb_le. lia.
  - apply mem_at_ok, byte_ok_check. vm_compute. reflexivity.
  - exact (proj1 p9_demo_ring).
  - exact (proj2 p9_demo_ring).
  - exact p9_demo_pop.
  - exact p9_demo_chain.
  - apply Nat.leb_le. reflexivity.
  - apply Nat.leb_le. reflexivity.
  - rewrite p9_demo_rd. repeat constructor; cbn; lia.
  - rewrite p9_demo_wr. repeat constructor; cbn; lia.
  - rewrite p9_demo_wr. cbn [iov_addrs flat_map]. apply Forall_app. split; [|apply Forall_app; split; [|constructor]].
    + apply (mapped_mem_at _ _ (2 ^ 40 + 300) 7); try (change (length p9_bytes) with 512%nat); lia.
    + apply (mapped_mem_at _ _ (2 ^ 40 + 400) 20); try (change (length p9_bytes) with 512%nat); lia.
  - apply (bool_decide_eq_true_1 _). vm_compute. reflexivity.
  - apply Forall_forall. intros a Ha.
    assert (Ha' : a ∈ seqZ (2 ^ 40 + 300) 7 ++ seqZ (2 ^ 40 + 400) 20 ++ []) by exact Ha.
    rewrite !elem_of_app, !elem_of_seqZ in Ha'. split.
    + unfold off_rings. cbn [demo_vq demo_vring vq_vring avail used num]. destruct Ha' as [?|[?|?%not_elem_of_nil]]; [lia|lia|contradiction].
    + intros C. assert (C' : a ∈ seqZ (2 ^ 40 + 256) 21 ++ []) by exact C.
      rewrite elem_of_app, elem_of_seqZ in C'.
      destruct C' as [C'|C'%not_elem_of_nil]; [|contradiction].
      destruct Ha' as [?|[?|?%not_elem_of_nil]]; [lia|lia|contradiction].
  - reflexivity.
  - cbn. lia.
  - change (read_addrs p9_mem (seqZ (2 ^ 40 + 256) (Z.of_nat 21)) =
      Some (message 100 65535 (le_enc 4 8192 ++ wire_str (Some VIRTIO_9P_VERSION_DOTL)))).
    unfold p9_mem. rewrite read_mem_at; [reflexivity|lia|change (length p9_bytes) with 512%nat; lia].
  - vm_compute. reflexivity.
  - unfold fits. lia.
  - unfold fits. lia.
  - vm_compute. lia.
  - vm_compute. reflexivity.
  - apply (ex_version _ _ _ (empty_dev [47]) 8192 VIRTIO_9P_VERSION_DOTL); [unfold fits; lia|vm_compute; reflexivity|].
    apply Forall_forall. intros b Hb. intros ->. revert Hb. rewrite list_elem_of_In. vm_compute. intuition discriminate.
  - exists m'. split; [exact E|exact R].
Defined.
