(* ===== verification/UipNet.v ===== *)
(** * The user-mode network stack: frames and buffers

    [net/uip/buf.c], [csum.c], [arp.c], [icmp.c] and the structures of
    [include/kvm/uip.h]. A frame is the list of its bytes; a field is read and
    written at its offset in the packed structure, in host (little-endian) order as
    the code does it, with [htons] and [htonl] where the code has them. An access
    outside of the buffer is undefined. The tracing to /tmp/uip_debug.log is left
    out. *)
From S2P Require Import Prelude.
Open Scope Z_scope.

Definition htons (x : Z) : Z := le_dec (be_enc 2 x).
Definition htonl (x : Z) : Z := le_dec (be_enc 4 x).
Abbreviation ntohs := htons.
Abbreviation ntohl := htonl.

(** [n] bytes at [off]. *)
Definition bytes_at (off n : nat) (f : list Z) : out (list Z) :=
  if (off + n <=? length f)%nat then Ret (slice off n f) else Ub.

Definition get (n off : nat) (f : list Z) : out Z :=
  let! bs := bytes_at off n f in Ret (le_dec bs).

(** [memcpy] into a frame. *)
Definition put_bytes (off : nat) (bs f : list Z) : out (list Z) :=
  if (off + length bs <=? length f)%nat then Ret (splice off bs f) else Ub.

Definition put (n off : nat) (x : Z) (f : list Z) : out (list Z) := put_bytes off (le_enc n x) f.

(** Offsets of the packed structures. *)
Definition ETH_DST : nat := 0.
Definition ETH_SRC : nat := 6.
Definition ETH_TYPE : nat := 12.
Definition ARP_OP : nat := 20.
Definition ARP_SMAC : nat := 22.
Definition ARP_SIP : nat := 28.
Definition ARP_DMAC : nat := 32.
Definition ARP_DIP : nat := 38.
Definition IP_VHL : nat := 14.
Definition IP_TOS : nat := 15.
Definition IP_LEN : nat := 16.
Definition IP_ID : nat := 18.
Definition IP_FLGFRAG : nat := 20.
Definition IP_TTL : nat := 22.
Definition IP_PROTO : nat := 23.
Definition IP_CSUM : nat := 24.
Definition IP_SIP : nat := 26.
Definition IP_DIP : nat := 30.
Definition L4 : nat := 34.
Definition ICMP_TYPE : nat := 34.
Definition ICMP_CSUM : nat := 36.
Definition UDP_SPORT : nat := 34.
Definition UDP_DPORT : nat := 36.
Definition UDP_LEN : nat := 38.
Definition UDP_CSUM : nat := 40.
Definition UDP_PAYLOAD : nat := 42.

Definition UIP_ETH_P_IP : Z := 2048.
Definition UIP_ETH_P_ARP : Z := 2054.
Definition UIP_IP_P_ICMP : Z := 1.
Definition UIP_IP_P_TCP : Z := 6.
Definition UIP_IP_P_UDP : Z := 17.

(** ** Checksums (csum.c) *)

(** Both loops over the bytes: words as the host reads them, and a last odd byte. *)
Fixpoint sum_words (l : list Z) : Z :=
  match l with
  | a :: b :: l => (a + 256 * b) + sum_words l
  | [a] => a
  | [] => 0
  end.

(** [while (sum >> 16)]; four rounds are more than enough for 65535 bytes. *)
Fixpoint fold16 (fuel : nat) (sum : Z) : Z :=
  match fuel with
  | O => sum
  | S fuel => if sum .>> 16 =? 0 then sum else fold16 fuel ((sum .& 65535) + (sum .>> 16))
  end.

Definition uip_csum (csum : Z) (l : list Z) : Z := u16 (Z.lnot (fold16 4 (csum + sum_words l))).

(** Over [count] bytes of a frame. *)
Definition csum_at (off : nat) (count : Z) (f : list Z) : out Z :=
  let! bs := bytes_at off (Z.to_nat (u16 count)) f in Ret (uip_csum 0 bs).

Definition uip_ip_hdrlen (f : list Z) : out Z :=
  let! vhl := get 1 IP_VHL f in Ret (u16 ((vhl .& 15) * 4)).

Definition uip_csum_ip (f : list Z) : out Z :=
  let! n := uip_ip_hdrlen f in csum_at IP_VHL n f.

(** [icmp->csum = ...] also stores the sum. *)
Definition uip_csum_icmp (f : list Z) : out (Z * list Z) :=
  let! len := get 2 IP_LEN f in
  let! n := uip_ip_hdrlen f in
  let! c := csum_at ICMP_TYPE (htons len - n - 8) f in
  let! f := put 2 ICMP_CSUM c f in
  Ret (c, f).

(** [struct uip_pseudo_hdr] of a packet, for the length [len] in network order. *)
Definition pseudo_hdr (f : list Z) (len : Z) : out (list Z) :=
  let! sip := bytes_at IP_SIP 4 f in
  let! dip := bytes_at IP_DIP 4 f in
  let! proto := get 1 IP_PROTO f in
  Ret (sip ++ dip ++ [0; proto] ++ le_enc 2 len).

(** The end of [uip_csum_udp] and [uip_csum_tcp]: the padding and the pseudo-header
    are put behind the segment, and everything is summed up. *)
Definition csum_l4 (f hdr : list Z) (len : Z) : out (Z * list Z) :=
  if len mod 2 =? 0 then
    let! f := put_bytes (L4 + Z.to_nat len) hdr f in
    let! c := csum_at L4 (len + 12) f in
    Ret (c, f)
  else
    let! f := put 1 (L4 + Z.to_nat len) 0 f in
    let! f := put_bytes (L4 + Z.to_nat len + 1) hdr f in
    let! c := csum_at L4 (len + 1 + 12) f in
    Ret (c, f).

Definition uip_csum_udp (f : list Z) : out (Z * list Z) :=
  let! len := get 2 UDP_LEN f in
  let! hdr := pseudo_hdr f len in
  csum_l4 f hdr (ntohs len).

Definition uip_csum_tcp (f : list Z) : out (Z * list Z) :=
  let! iplen := get 2 IP_LEN f in
  let! n := uip_ip_hdrlen f in
  let tcp_len := u16 (ntohs iplen - n) in
  let! hdr := pseudo_hdr f (htons tcp_len) in
  csum_l4 f hdr tcp_len.

(** ** The Internet checksum

    RFC 1071: the one's complement sum of big-endian 16-bit words, an odd byte
    padded with zero; a block verifies when the sum over it is 65535. *)
Definition ones_add (x y : Z) : Z := if 65536 <=? x + y then x + y - 65535 else x + y.

Fixpoint ones_sum (l : list Z) : Z :=
  match l with
  | a :: b :: l => ones_add (256 * a + b) (ones_sum l)
  | [a] => 256 * a
  | [] => 0
  end.

Definition verifies (l : list Z) : Prop := ones_sum l = 65535.

(** Induction two bytes at a time. *)
Lemma pair_ind (P : list Z -> Prop) :
  P [] -> (forall a, P [a]) -> (forall a b l, P l -> P (a :: b :: l)) -> forall l, P l.
Proof.
  intros H0 H1 H2 l. enough (P l /\ forall a, P (a :: l)) by tauto.
  induction l as [|a l [IH1 IH2]]; split; auto.
Qed.

Lemma ones_sum_spec l : byte_ok l ->
  0 <= ones_sum l <= 65535 /\ 0 <= sum_words l <= 65535 * Z.of_nat (length l) /\
  (256 * ones_sum l - sum_words l) mod 65535 = 0 /\ (ones_sum l = 0 <-> sum_words l = 0).
Proof.
  induction l as [|a|a b l IH] using pair_ind; intros B; cbn [ones_sum sum_words length].
  - repeat split; lia.
  - apply Forall_inv in B. unfold fits in B. split; [lia|]. split; [lia|]. split; [|lia].
    replace (256 * (256 * a) - a) with (a * 65535) by lia. apply Z_mod_mult.
  - apply Forall_cons in B as [Ba B]. apply Forall_cons in B as [Bb B]. unfold fits in Ba, Bb.
    destruct (IH B) as (R & W & M & Z0). unfold ones_add.
    assert (E : forall k, (256 * (256 * a + b + ones_sum l - k * 65535) - (a + 256 * b + sum_words l)) mod 65535 = 0).
    { intros k. replace (256 * (256 * a + b + ones_sum l - k * 65535) - (a + 256 * b + sum_words l))
        with ((256 * ones_sum l - sum_words l) + (a - 256 * k) * 65535) by lia. now rewrite Z_mod_plus_full. }
    destruct (Z.leb_spec 65536 (256 * a + b + ones_sum l)).
    + split; [lia|]. split; [lia|]. split; [specialize (E 1); now rewrite Z.mul_1_l in E|lia].
    + split; [lia|]. split; [lia|]. split; [specialize (E 0); now rewrite Z.mul_0_l, Z.sub_0_r in E|lia].
Qed.

Lemma fold16_spec s : 0 <= s < 2 ^ 32 ->
  0 <= fold16 4 s <= 65535 /\ (s - fold16 4 s) mod 65535 = 0 /\ (fold16 4 s = 0 <-> s = 0).
Proof.
  intros H. assert (Step : forall s, 0 <= s -> s .>> 16 = s / 65536 /\ (s .& 65535) = s mod 65536).
  { intros x Hx. split; [now rewrite Z.shiftr_div_pow2|]. change 65535 with (Z.ones 16). now rewrite Z.land_ones. }
  assert (One : forall f x, 0 <= x -> fold16 (S f) x = if x / 65536 =? 0 then x else fold16 f (x mod 65536 + x / 65536)).
  { intros f x Hx. cbn [fold16]. destruct (Step x Hx) as [-> ->]. reflexivity. }
  assert (D : forall x, 0 <= x -> exists q r, x = 65536 * q + r /\ 0 <= r < 65536 /\ 0 <= q /\ x / 65536 = q /\ x mod 65536 = r).
  { intros x Hx. exists (x / 65536), (x mod 65536). pose proof (Z.div_mod x 65536). pose proof (Z.mod_pos_bound x 65536).
    repeat split; lia. }
  assert (C : forall x q r, x = 65536 * q + r -> (x - (r + q)) mod 65535 = 0).
  { intros x q r ->. replace (65536 * q + r - (r + q)) with (q * 65535) by lia. apply Z_mod_mult. }
  assert (T : forall x y z, (x - y) mod 65535 = 0 -> (y - z) mod 65535 = 0 -> (x - z) mod 65535 = 0).
  { intros x y z E1 E2. replace (x - z) with ((x - y) + (y - z)) by lia. rewrite Z.add_mod, E1, E2 by lia. reflexivity. }
  assert (Z1 : forall x, (x - x) mod 65535 = 0) by (intros; now rewrite Z.sub_diag).
  rewrite One by lia. destruct (D s ltac:(lia)) as (q1 & r1 & E1 & R1 & Q1 & -> & ->).
  destruct (Z.eqb_spec q1 0); [split; [lia|split; [apply Z1|tauto]]|].
  rewrite One by lia. destruct (D (r1 + q1) ltac:(lia)) as (q2 & r2 & E2 & R2 & Q2 & -> & ->).
  pose proof (C _ _ _ E1) as C1.
  destruct (Z.eqb_spec q2 0); [split; [lia|split; [assumption|lia]]|].
  rewrite One by lia. destruct (D (r2 + q2) ltac:(lia)) as (q3 & r3 & E3 & R3 & Q3 & -> & ->).
  pose proof (T _ _ _ C1 (C _ _ _ E2)) as C2.
  destruct (Z.eqb_spec q3 0); [split; [lia|split; [assumption|lia]]|]. exfalso. lia.
Qed.

Lemma uip_csum_spec l : byte_ok l -> Z.of_nat (length l) <= 65535 ->
  fits 16 (uip_csum 0 l) /\ (sum_words l + uip_csum 0 l) mod 65535 = 0 /\ (sum_words l = 0 -> uip_csum 0 l = 65535).
Proof.
  intros B L. destruct (ones_sum_spec l B) as (_ & W & _).
  destruct (fold16_spec (0 + sum_words l) ltac:(lia)) as (R & M & Z0). rewrite Z.add_0_l in *.
  unfold uip_csum. rewrite Z.add_0_l. set (r := fold16 4 (sum_words l)) in *.
  assert (E : u16 (Z.lnot r) = 65535 - r).
  { unfold wrap. replace (Z.lnot r) with (65535 - r + (-1) * 2 ^ 16) by (unfold Z.lnot; lia).
    rewrite Z_mod_plus_full. apply Z.mod_small. lia. }
  rewrite E. split; [unfold fits; lia|]. split; [|lia].
  replace (sum_words l + (65535 - r)) with ((sum_words l - r) + 1 * 65535) by lia. now rewrite Z_mod_plus_full.
Qed.

Lemma sum_words_app l1 l2 : Nat.Even (length l1) -> sum_words (l1 ++ l2) = sum_words l1 + sum_words l2.
Proof.
  induction l1 as [|a|a b l1 IH] using pair_ind; intros E; cbn [app sum_words]; [lia|destruct E; cbn in *; lia|].
  rewrite IH; [lia|]. destruct E as [k E]. exists (k - 1)%nat. cbn [length] in E. lia.
Qed.

Lemma sum_words_pad l : ~ Nat.Even (length l) -> sum_words (l ++ [0]) = sum_words l.
Proof.
  induction l as [|a|a b l IH] using pair_ind; intros E; cbn [app sum_words].
  - destruct E. now exists 0%nat.
  - lia.
  - rewrite IH; [reflexivity|]. intros [k Hk]. apply E. exists (S k). cbn [length]. lia.
Qed.

Lemma verifies_iff l : byte_ok l -> verifies l <-> sum_words l mod 65535 = 0 /\ sum_words l <> 0.
Proof.
  intros B. destruct (ones_sum_spec l B) as (R & W & M & Z0). unfold verifies. split.
  - intros E. split; [|lia]. rewrite E in M.
    replace (sum_words l) with (256 * 65535 - (256 * 65535 - sum_words l)) by lia. rewrite Zminus_mod, M. reflexivity.
  - intros [E N]. assert (H : (256 * ones_sum l) mod 65535 = 0).
    { replace (256 * ones_sum l) with ((256 * ones_sum l - sum_words l) + sum_words l) by lia.
      rewrite Z.add_mod, M, E by lia. reflexivity. }
    assert (H' : (256 * (256 * ones_sum l)) mod 65535 = 0) by (rewrite Z.mul_mod, H by lia; now rewrite Z.mul_0_r).
    replace (256 * (256 * ones_sum l)) with (ones_sum l + ones_sum l * 65535) in H' by lia.
    rewrite Z_mod_plus_full in H'. apply Z.mod_divide in H' as [k Hk]; lia.
Qed.

Lemma sum_le_enc x l : fits 16 x -> sum_words (le_enc 2 x ++ l) = x + sum_words l.
Proof.
  intros F. pose proof (le_dec_enc 2 x) as E. change (8 * Z.of_nat 2) with 16 in E. rewrite wrap_id in E by exact F.
  destruct (le_enc 2 x) as [|a [|b [|? ?]]] eqn:L;
    try (apply (f_equal length) in L; rewrite length_le_enc in L; discriminate).
  cbn [app sum_words le_dec] in *. lia.
Qed.

(** Writing the checksum over a zero field at an even offset makes a block verify. *)
Lemma csum_verifies pre post : byte_ok (pre ++ [0; 0] ++ post) -> Nat.Even (length pre) ->
  Z.of_nat (length (pre ++ [0; 0] ++ post)) <= 65535 ->
  verifies (pre ++ le_enc 2 (uip_csum 0 (pre ++ [0; 0] ++ post)) ++ post).
Proof.
  intros B E L. set (l := pre ++ [0; 0] ++ post) in *. destruct (uip_csum_spec l B L) as (F & M & Z0).
  set (c := uip_csum 0 l) in *. assert (S : sum_words (pre ++ le_enc 2 c ++ post) = sum_words l + c).
  { unfold l. rewrite !(sum_words_app pre) by exact E. rewrite sum_le_enc by exact F.
    change (sum_words ([0; 0] ++ post)) with (0 + 256 * 0 + sum_words post). lia. }
  apply verifies_iff.
  - unfold l in B. apply Forall_app in B as [B1 B]. apply Forall_app in B as [_ B2].
    apply Forall_app. split; [exact B1|]. apply Forall_app. split; [apply le_enc_bytes|exact B2].
  - rewrite S. split; [exact M|]. destruct (ones_sum_spec l B) as (_ & W & _). unfold fits in F.
    intros N. assert (sum_words l = 0) as N0 by lia. specialize (Z0 N0). lia.
Qed.

(** ** The buffer pool (buf.c) *)

Definition UIP_BUF_STATUS_FREE : Z := 0.
Definition UIP_BUF_STATUS_INUSE : Z := 1.
Definition UIP_BUF_STATUS_USED : Z := 2.
Definition VIRTIO_NET_HDR_F_DATA_VALID : Z := 2.
Definition VIRTIO_NET_HDR_GSO_NONE : Z := 0.

(** [vnet] and [eth] are the allocations, of which the first [vnet_len] and
    [eth_len] bytes are in use. *)
Record uip_buf := mkbuf { status : Z; vnet_len : Z; eth_len : Z; vnet : list Z; eth : list Z }.

Definition set_status (b : uip_buf) (s : Z) : uip_buf := mkbuf s (vnet_len b) (eth_len b) (vnet b) (eth b).

Record uip_info := mkinfo {
  buf_head : list uip_buf;
  buf_free_nr : Z;
  buf_used_nr : Z;
  guest_mac : list Z;
  host_mac : list Z;
  guest_ip : Z;
  guest_netmask : Z;
  host_ip : Z;
  dns_ip : list Z;
  domain_name : option (list Z);
  vnet_hdr_len : Z;
}.

Definition set_bufs (i : uip_info) (l : list uip_buf) (free used : Z) : uip_info :=
  mkinfo l free used (guest_mac i) (host_mac i) (guest_ip i) (guest_netmask i) (host_ip i) (dns_ip i) (domain_name i)
    (vnet_hdr_len i).

(** [list_for_each_entry] up to the first buffer with that status. *)
Fixpoint find_status (s : Z) (l : list uip_buf) (n : nat) : option nat :=
  match l with
  | [] => None
  | b :: l => if status b =? s then Some n else find_status s l (S n)
  end.

Definition upd_buf (i : uip_info) (n : nat) (f : uip_buf -> uip_buf) : list uip_buf := alter f n (buf_head i).

(** Both wait for a buffer: [NoFuel] is a wait that only another thread can end. The
    result is [None] for a null pointer. *)
Definition uip_buf_get_used (i : uip_info) : out (option nat * uip_info) :=
  if negb (0 <? buf_used_nr i) then NoFuel
  else match find_status UIP_BUF_STATUS_USED (buf_head i) 0 with
       | Some n => Ret (Some n, set_bufs i (upd_buf i n (fun b => set_status b UIP_BUF_STATUS_INUSE))
                          (buf_free_nr i) (buf_used_nr i - 1))
       | None => Ret (None, i)
       end.

Definition uip_buf_get_free (i : uip_info) : out (option nat * uip_info) :=
  if negb (0 <? buf_free_nr i) then NoFuel
  else match find_status UIP_BUF_STATUS_FREE (buf_head i) 0 with
       | Some n => Ret (Some n, set_bufs i (upd_buf i n (fun b => set_status b UIP_BUF_STATUS_INUSE))
                          (buf_free_nr i - 1) (buf_used_nr i))
       | None => Ret (None, i)
       end.

Definition uip_buf_set_used (i : uip_info) (n : nat) : uip_info :=
  set_bufs i (upd_buf i n (fun b => set_status b UIP_BUF_STATUS_USED)) (buf_free_nr i) (buf_used_nr i + 1).

Definition uip_buf_set_free (i : uip_info) (n : nat) : uip_info :=
  set_bufs i (upd_buf i n (fun b => set_status b UIP_BUF_STATUS_FREE)) (buf_free_nr i + 1) (buf_used_nr i).

(** The contents of buffer [n]. *)
Definition put_buf (i : uip_info) (n : nat) (vlen elen : Z) (v e : list Z) : uip_info :=
  set_bufs i (upd_buf i n (fun b => mkbuf (status b) vlen elen v e)) (buf_free_nr i) (buf_used_nr i).

(** Following the pointer that the pool has returned. *)
Definition the_buf (r : out (option nat * uip_info)) : out (nat * uip_buf * uip_info) :=
  let! (o, i) := r in
  match o with
  | Some n => match buf_head i !! n with Some b => Ret (n, b, i) | None => Ub end
  | None => Ub
  end.

(** [struct uip_tx_arg]: the header and the frame that the guest sends. *)
Record uip_tx_arg := mkarg { arg_vnet : list Z; arg_eth : list Z }.

(** The header of a clone says that the checksums are good. *)
Definition fresh_vnet : list Z := [VIRTIO_NET_HDR_F_DATA_VALID; VIRTIO_NET_HDR_GSO_NONE; 0; 0; 0; 0; 0; 0; 0; 0].

Definition uip_buf_clone (i : uip_info) (arg : uip_tx_arg) : out (nat * uip_info) :=
  let! (n, b, i) := the_buf (uip_buf_get_free i) in
  let! v := put_bytes 0 (arg_vnet arg) (vnet b) in
  let! e := put_bytes 0 (arg_eth arg) (eth b) in
  let vlen := Z.of_nat (length (arg_vnet arg)) in
  let! v := if 10 <=? vlen then put_bytes 0 fresh_vnet v else Ret v in
  let! e := put_bytes ETH_SRC (host_mac i) e in
  let! src := bytes_at ETH_SRC 6 (arg_eth arg) in
  let! e := put_bytes ETH_DST src e in
  Ret (n, put_buf i n vlen (Z.of_nat (length (arg_eth arg))) v e).

(** ** ARP and ICMP (arp.c, icmp.c) *)

(** Changing the frame of buffer [n]. *)
Definition edit (i : uip_info) (n : nat) (f : list Z -> out (list Z)) : out uip_info :=
  match buf_head i !! n with
  | Some b => let! e := f (eth b) in Ret (put_buf i n (vnet_len b) (eth_len b) (vnet b) e)
  | None => Ub
  end.

Definition uip_tx_do_arp (i : uip_info) (arg : uip_tx_arg) : out uip_info :=
  let! (n, i) := uip_buf_clone i arg in
  let! smac := bytes_at ARP_SMAC 6 (arg_eth arg) in
  let! sip := get 4 ARP_SIP (arg_eth arg) in
  let! dip := get 4 ARP_DIP (arg_eth arg) in
  let! i := edit i n (fun e =>
    let! e := put 2 ARP_OP (htons 2) e in
    let! e := put_bytes ARP_DMAC smac e in
    put 4 ARP_DIP sip e) in
  if dip =? htonl (host_ip i) then
    let! i := edit i n (fun e =>
      let! e := put_bytes ARP_SMAC (host_mac i) e in
      put 4 ARP_SIP (htonl (host_ip i)) e) in
    Ret (uip_buf_set_used i n)
  else Ret i.

Definition uip_tx_do_ipv4_icmp (i : uip_info) (arg : uip_tx_arg) : out uip_info :=
  let! (n, i) := uip_buf_clone i arg in
  let! sip := get 4 IP_SIP (arg_eth arg) in
  let! dip := get 4 IP_DIP (arg_eth arg) in
  let! i := edit i n (fun e =>
    let! e := put 4 IP_SIP dip e in
    let! e := put 4 IP_DIP sip e in
    let! e := put 2 IP_CSUM 0 e in
    let! e := put 1 ICMP_TYPE 0 e in
    let! e := put 2 ICMP_CSUM 0 e in
    let! c := uip_csum_ip e in
    let! e := put 2 IP_CSUM c e in
    let! (_, e) := uip_csum_icmp e in
    Ret e) in
  Ret (uip_buf_set_used i n).

(** ** Frames *)

Lemma put_bytes_ok off bs f : (off + length bs <= length f)%nat -> put_bytes off bs f = Ret (splice off bs f).
Proof. intros H. unfold put_bytes. now rewrite (proj2 (Nat.leb_le _ _) H). Qed.

Lemma put_bytes_length off bs f e : put_bytes off bs f = Ret e -> length e = length f.
Proof.
  unfold put_bytes. destruct (Nat.leb_spec (off + length bs) (length f)); [|discriminate].
  intros [= <-]. now apply length_splice.
Qed.

Lemma put_ok n off x f : (off + n <= length f)%nat -> put n off x f = Ret (splice off (le_enc n x) f).
Proof. intros H. apply put_bytes_ok. now rewrite length_le_enc. Qed.

Lemma bytes_at_ok off n f : (off + n <= length f)%nat -> bytes_at off n f = Ret (slice off n f).
Proof. intros H. unfold bytes_at. now rewrite (proj2 (Nat.leb_le _ _) H). Qed.

Lemma get_ok n off f : (off + n <= length f)%nat -> get n off f = Ret (le_dec (slice off n f)).
Proof. intros H. unfold get. now rewrite bytes_at_ok. Qed.

Lemma slice_parts off n (f : list Z) : f = take off f ++ slice off n f ++ drop (off + n) f.
Proof. unfold slice. rewrite <- drop_drop, take_drop, take_drop. reflexivity. Qed.

Lemma slice_inside off n p d f : (off <= p)%nat -> (p + length d <= off + n)%nat -> (off + n <= length f)%nat ->
  slice off n (splice p d f) = splice (p - off) d (slice off n f).
Proof.
  intros H1 H2 H3. pose proof (length_slice off n f H3) as L. pose proof (slice_parts off n f) as E.
  set (A := take off f) in *. set (B := slice off n f) in *. set (C := drop (off + n) f) in *.
  assert (LA : length A = off) by (unfold A; rewrite length_take; lia).
  assert (S : splice p d f = A ++ splice (p - off) d B ++ C).
  { rewrite E. unfold splice. rewrite take_app_ge, LA, take_app_le by lia.
    rewrite (drop_app_ge A), LA, (drop_app_le B) by lia.
    replace (p + length d - off)%nat with (p - off + length d)%nat by lia. now rewrite <- !app_assoc. }
  rewrite S. unfold slice. rewrite <- LA at 1. rewrite drop_app_length.
  apply take_app_length'. rewrite length_splice by lia. now symmetry.
Qed.

(** The part of a frame that a store behind it does not change. *)
Lemma take_splice n p d f : (n <= p)%nat -> (p <= length f)%nat -> take n (splice p d f) = take n f.
Proof. intros H H'. exact (slice_splice_before 0 n p d f H H'). Qed.

Lemma slice_take off n k f : (off + n <= k)%nat -> slice off n (take k f) = slice off n f.
Proof. intros H. unfold slice. rewrite skipn_firstn_comm, take_take. f_equal. lia. Qed.

Lemma slice_eq off n k f g : take k f = take k g -> (off + n <= k)%nat -> slice off n f = slice off n g.
Proof. intros E H. rewrite <- (slice_take off n k f H), E. now apply slice_take. Qed.

Lemma slice_slice' a b c d f : (c + d <= b)%nat -> slice c d (slice a b f) = slice (a + c) d f.
Proof.
  intros H. unfold slice. rewrite skipn_firstn_comm, take_take, drop_drop. f_equal. lia.
Qed.

(** ** Checksums in a frame *)

(** The block at [off] verifies once its checksum has been written at [p]. *)
Lemma block_verifies off n p f : byte_ok f -> (off + n <= length f)%nat -> Z.of_nat n <= 65535 ->
  (off <= p)%nat -> (p + 2 <= off + n)%nat -> Nat.Even (p - off) -> slice p 2 f = [0; 0] ->
  verifies (slice off n (splice p (le_enc 2 (uip_csum 0 (slice off n f))) f)).
Proof.
  intros B L N H1 H2 E Z0. rewrite slice_inside by (rewrite ?length_le_enc; lia).
  pose proof (length_slice off n f L) as Ls. set (l := slice off n f) in *.
  assert (D : l = take (p - off) l ++ [0; 0] ++ drop (p - off + 2) l).
  { rewrite <- Z0. replace (slice p 2 f) with (slice (p - off) 2 l).
    - apply slice_parts.
    - unfold l. rewrite slice_slice' by lia. f_equal. lia. }
  unfold splice. rewrite length_le_enc.
  pose proof (csum_verifies (take (p - off) l) (drop (p - off + 2) l)) as V. rewrite <- D in V.
  apply V; [now apply slice_bytes|rewrite length_take, Nat.min_l by lia; exact E|rewrite Ls; lia].
Qed.

(** The same for a segment with its pseudo-header, which is not part of it. *)
Lemma segment_verifies hdr seg pad p : byte_ok hdr -> byte_ok seg -> length hdr = 12%nat ->
  Z.of_nat (length (seg ++ pad ++ hdr)) <= 65535 ->
  (Nat.Even (length seg) /\ pad = [] \/ ~ Nat.Even (length seg) /\ pad = [0]) ->
  Nat.Even p -> (p + 2 <= length seg)%nat -> slice p 2 seg = [0; 0] ->
  verifies (hdr ++ splice p (le_enc 2 (uip_csum 0 (seg ++ pad ++ hdr))) seg).
Proof.
  intros Bh Bs Lh L P E Hp Z0.
  assert (Bp : byte_ok pad) by (destruct P as [[_ ->]|[_ ->]]; [constructor|apply byte_ok_check; reflexivity]).
  assert (Ball : byte_ok (seg ++ pad ++ hdr)) by (apply Forall_app; split; [assumption|]; now apply Forall_app).
  destruct (uip_csum_spec _ Ball L) as (F & M & N). set (c := uip_csum 0 (seg ++ pad ++ hdr)) in *.
  assert (S : sum_words (seg ++ pad ++ hdr) = sum_words seg + sum_words hdr).
  { destruct P as [[Ev ->]|[Od ->]]; [now apply sum_words_app|].
    rewrite app_assoc, sum_words_app; [now rewrite sum_words_pad|].
    rewrite length_app. cbn. destruct (Nat.Even_or_Odd (length seg)) as [|[k Hk]]; [contradiction|]. exists (S k). lia. }
  assert (E12 : Nat.Even (length hdr)) by (exists 6%nat; lia).
  assert (Sc : sum_words (splice p (le_enc 2 c) seg) = sum_words seg + c).
  { pose proof (slice_parts p 2 seg) as D. rewrite Z0 in D. unfold splice. rewrite length_le_enc.
    assert (Ep : Nat.Even (length (take p seg))) by (rewrite length_take, Nat.min_l by lia; exact E).
    rewrite D at 3. rewrite !(sum_words_app (take p seg)) by exact Ep. rewrite sum_le_enc by exact F.
    change (sum_words ([0; 0] ++ drop (p + 2) seg)) with (0 + 256 * 0 + sum_words (drop (p + 2) seg)). lia. }
  apply verifies_iff.
  - apply Forall_app. split; [exact Bh|]. apply splice_bytes; [apply le_enc_bytes|exact Bs].
  - rewrite sum_words_app by exact E12. rewrite Sc. rewrite S in M, N.
    replace (sum_words hdr + (sum_words seg + c)) with (sum_words seg + sum_words hdr + c) by lia. split; [exact M|].
    destruct (ones_sum_spec hdr Bh) as (_ & W1 & _), (ones_sum_spec seg Bs) as (_ & W2 & _). unfold fits in F. lia.
Qed.

(** ** The pool invariant *)

Definition count (s : Z) (l : list uip_buf) : Z := Z.of_nat (length (filter (fun b => status b = s) l)).

Definition status_ok (b : uip_buf) : Prop :=
  status b = UIP_BUF_STATUS_FREE \/ status b = UIP_BUF_STATUS_INUSE \/ status b = UIP_BUF_STATUS_USED.

(** The counters count, and every buffer is as large as [uip_init] made it. *)
Definition ETH_BUF : nat := Z.to_nat (1024 * 64 + 12).

Record pool_ok (i : uip_info) : Prop := {
  ok_free : buf_free_nr i = count UIP_BUF_STATUS_FREE (buf_head i);
  ok_used : buf_used_nr i = count UIP_BUF_STATUS_USED (buf_head i);
  ok_status : Forall status_ok (buf_head i);
  ok_size : Forall (fun b => Z.of_nat (length (vnet b)) = vnet_hdr_len i /\ length (eth b) = ETH_BUF /\ byte_ok (eth b)) (buf_head i);
  ok_mac : length (host_mac i) = 6%nat /\ length (guest_mac i) = 6%nat;
  ok_mac_bytes : byte_ok (host_mac i) /\ byte_ok (guest_mac i);
}.

(** The next operation of buf.c that a caller in possession of the right buffers makes. *)
Inductive pool_step (i : uip_info) : uip_info -> Prop :=
| ps_get_free n i' : uip_buf_get_free i = Ret (Some n, i') -> pool_step i i'
| ps_get_used n i' : uip_buf_get_used i = Ret (Some n, i') -> pool_step i i'
| ps_set_used n b : buf_head i !! n = Some b -> status b = UIP_BUF_STATUS_INUSE -> pool_step i (uip_buf_set_used i n)
| ps_set_free n b : buf_head i !! n = Some b -> status b = UIP_BUF_STATUS_INUSE -> pool_step i (uip_buf_set_free i n)
| ps_fill n b vlen elen v e : buf_head i !! n = Some b -> status b = UIP_BUF_STATUS_INUSE ->
    length v = length (vnet b) -> length e = length (eth b) -> byte_ok e -> pool_step i (put_buf i n vlen elen v e).

Lemma count_cons s b l : count s (b :: l) = (if status b =? s then 1 else 0) + count s l.
Proof.
  unfold count. rewrite filter_cons. destruct (Z.eqb_spec (status b) s), (decide (status b = s)); try contradiction; cbn [length]; lia.
Qed.

Lemma count_alter s f n b l : l !! n = Some b ->
  count s (alter f n l) = count s l - (if status b =? s then 1 else 0) + (if status (f b) =? s then 1 else 0).
Proof.
  revert n. induction l as [|b0 l IH]; intros n H; [discriminate|]. destruct n as [|n]; cbn in H.
  - injection H as ->. cbn. rewrite !count_cons. lia.
  - change (alter f (S n) (b0 :: l)) with (b0 :: alter f n l). rewrite !count_cons, (IH n H). lia.
Qed.

Lemma find_status_spec s l k :
  match find_status s l k with
  | Some n => exists b, (k <= n)%nat /\ l !! (n - k)%nat = Some b /\ status b = s /\
                (forall m b', (m < n - k)%nat -> l !! m = Some b' -> status b' <> s)
  | None => count s l = 0
  end.
Proof.
  revert k. induction l as [|b l IH]; intros k; cbn [find_status]; [reflexivity|]. rewrite count_cons.
  destruct (Z.eqb_spec (status b) s) as [E|E].
  - exists b. rewrite Nat.sub_diag. repeat split; [lia|assumption|]. intros; lia.
  - specialize (IH (S k)). destruct (find_status s l (S k)) as [n|]; [|lia].
    destruct IH as (b1 & L & H & S1 & F). exists b1. split; [lia|]. replace (n - k)%nat with (S (n - S k)) by lia.
    split; [exact H|]. split; [exact S1|]. intros [|m] b' Hm Hb; cbn in Hb; [congruence|]. apply (F m); [lia|exact Hb].
Qed.

Lemma count_nonneg s l : 0 <= count s l.
Proof. unfold count. lia. Qed.

(** What taking a buffer with status [s] finds. *)
Definition first_with (s : Z) (i : uip_info) (n : nat) (b : uip_buf) : Prop :=
  buf_head i !! n = Some b /\ status b = s /\ forall m b', (m < n)%nat -> buf_head i !! m = Some b' -> status b' <> s.

Lemma find_first s i : 0 < count s (buf_head i) -> exists n b, find_status s (buf_head i) 0 = Some n /\ first_with s i n b.
Proof.
  intros H. pose proof (find_status_spec s (buf_head i) 0) as F. destruct (find_status s (buf_head i) 0) as [n|]; [|lia].
  destruct F as (b & _ & L & S & F). rewrite Nat.sub_0_r in *. exists n, b. now repeat split.
Qed.

Definition taken (i : uip_info) (n : nat) (free used : Z) : uip_info :=
  set_bufs i (upd_buf i n (fun b => set_status b UIP_BUF_STATUS_INUSE)) (buf_free_nr i - free) (buf_used_nr i - used).

Lemma get_free_spec i : pool_ok i -> 0 < buf_free_nr i ->
  exists n b, first_with UIP_BUF_STATUS_FREE i n b /\ uip_buf_get_free i = Ret (Some n, taken i n 1 0).
Proof.
  intros P H. destruct (find_first UIP_BUF_STATUS_FREE i) as (n & b & F & W); [now rewrite <- (ok_free i P)|].
  exists n, b. split; [exact W|]. unfold uip_buf_get_free, taken. rewrite (proj2 (Z.ltb_lt _ _) H), F. cbn [negb].
  now rewrite Z.sub_0_r.
Qed.

Lemma get_used_spec i : pool_ok i -> 0 < buf_used_nr i ->
  exists n b, first_with UIP_BUF_STATUS_USED i n b /\ uip_buf_get_used i = Ret (Some n, taken i n 0 1).
Proof.
  intros P H. destruct (find_first UIP_BUF_STATUS_USED i) as (n & b & F & W); [now rewrite <- (ok_used i P)|].
  exists n, b. split; [exact W|]. unfold uip_buf_get_used, taken. rewrite (proj2 (Z.ltb_lt _ _) H), F. cbn [negb].
  now rewrite Z.sub_0_r.
Qed.

(** Changing one buffer, with the counters. *)
Lemma pool_change i n b f df du : pool_ok i -> buf_head i !! n = Some b -> status_ok (f b) ->
  length (vnet (f b)) = length (vnet b) -> length (eth (f b)) = length (eth b) -> (byte_ok (eth b) -> byte_ok (eth (f b))) ->
  df = (if status (f b) =? UIP_BUF_STATUS_FREE then 1 else 0) - (if status b =? UIP_BUF_STATUS_FREE then 1 else 0) ->
  du = (if status (f b) =? UIP_BUF_STATUS_USED then 1 else 0) - (if status b =? UIP_BUF_STATUS_USED then 1 else 0) ->
  pool_ok (set_bufs i (upd_buf i n f) (buf_free_nr i + df) (buf_used_nr i + du)).
Proof.
  intros [P1 P2 P3 P4 P5 P6] L S V T B Df Du. constructor; cbn [set_bufs buf_head buf_free_nr buf_used_nr vnet_hdr_len host_mac guest_mac];
    unfold upd_buf; [rewrite (count_alter _ _ _ _ _ L); lia..| | |exact P5|exact P6].
  - apply Forall_alter; [exact P3|]. intros x Hx _. rewrite L in Hx. injection Hx as <-. exact S.
  - apply Forall_alter; [exact P4|]. intros x Hx (H1 & H2 & H3). rewrite L in Hx. injection Hx as <-. rewrite V, T. auto.
Qed.

Lemma inuse_ok b : status_ok (set_status b UIP_BUF_STATUS_INUSE).
Proof. right. left. reflexivity. Qed.

Lemma taken_free_ok i n b : pool_ok i -> buf_head i !! n = Some b -> status b = UIP_BUF_STATUS_FREE -> pool_ok (taken i n 1 0).
Proof.
  intros P L S. unfold taken, Z.sub. apply (pool_change i n b); [exact P|exact L|apply inuse_ok|reflexivity..|auto| |]; now rewrite S.
Qed.

Lemma taken_used_ok i n b : pool_ok i -> buf_head i !! n = Some b -> status b = UIP_BUF_STATUS_USED -> pool_ok (taken i n 0 1).
Proof.
  intros P L S. unfold taken, Z.sub. apply (pool_change i n b); [exact P|exact L|apply inuse_ok|reflexivity..|auto| |]; now rewrite S.
Qed.

Lemma set_used_ok i n b : pool_ok i -> buf_head i !! n = Some b -> status b = UIP_BUF_STATUS_INUSE -> pool_ok (uip_buf_set_used i n).
Proof.
  intros P L S. unfold uip_buf_set_used. rewrite <- (Z.add_0_r (buf_free_nr i)).
  apply (pool_change i n b); [exact P|exact L|right; right; reflexivity|reflexivity..|auto| |]; now rewrite S.
Qed.

Lemma set_free_ok i n b : pool_ok i -> buf_head i !! n = Some b -> status b = UIP_BUF_STATUS_INUSE -> pool_ok (uip_buf_set_free i n).
Proof.
  intros P L S. unfold uip_buf_set_free. rewrite <- (Z.add_0_r (buf_used_nr i)).
  apply (pool_change i n b); [exact P|exact L|left; reflexivity|reflexivity..|auto| |]; now rewrite S.
Qed.

Lemma put_buf_ok i n b vlen elen v e : pool_ok i -> buf_head i !! n = Some b ->
  length v = length (vnet b) -> length e = length (eth b) -> byte_ok e -> pool_ok (put_buf i n vlen elen v e).
Proof.
  intros P L V T B. unfold put_buf. rewrite <- (Z.add_0_r (buf_used_nr i)), <- (Z.add_0_r (buf_free_nr i)).
  apply (pool_change i n b); [exact P|exact L| |exact V|exact T|auto|cbn; lia|cbn; lia].
  cbn. unfold status_ok. cbn. exact (proj1 (Forall_lookup _ _) (ok_status i P) n b L).
Qed.

Lemma pool_step_ok i i' : pool_step i i' -> pool_ok i -> pool_ok i'.
Proof.
  intros St P. destruct St as [n i' E|n i' E|n b L S|n b L S|n b vlen elen v e L S V T B].
  - assert (H : 0 < buf_free_nr i) by (unfold uip_buf_get_free in E; destruct (Z.ltb_spec 0 (buf_free_nr i)); [assumption|discriminate]).
    destruct (get_free_spec i P H) as (m & b & (L & S & _) & E'). rewrite E in E'. injection E' as -> ->. now apply (taken_free_ok i m b).
  - assert (H : 0 < buf_used_nr i) by (unfold uip_buf_get_used in E; destruct (Z.ltb_spec 0 (buf_used_nr i)); [assumption|discriminate]).
    destruct (get_used_spec i P H) as (m & b & (L & S & _) & E'). rewrite E in E'. injection E' as -> ->. now apply (taken_used_ok i m b).
  - now apply (set_used_ok i n b).
  - now apply (set_free_ok i n b).
  - now apply (put_buf_ok i n b).
Qed.

(** ** Filling the buffer that has been taken *)

Lemma alter_alter {A} (f g : A -> A) (n : nat) (l : list A) : alter f n (alter g n l) = alter (fun x => f (g x)) n l.
Proof. revert n. induction l as [|x l IH]; intros [|n]; [reflexivity..|]. cbn. f_equal. apply IH. Qed.

Lemma lookup_taken i n b free used : buf_head i !! n = Some b ->
  buf_head (taken i n free used) !! n = Some (set_status b UIP_BUF_STATUS_INUSE).
Proof. intros L. cbn. unfold upd_buf. now rewrite list_lookup_alter_eq, L. Qed.

Lemma lookup_put_buf i n b vlen elen v e : buf_head i !! n = Some b ->
  buf_head (put_buf i n vlen elen v e) !! n = Some (mkbuf (status b) vlen elen v e).
Proof. intros L. cbn. unfold upd_buf. now rewrite list_lookup_alter_eq, L. Qed.

Lemma put_put_buf i n vlen elen v e vlen' elen' v' e' :
  put_buf (put_buf i n vlen elen v e) n vlen' elen' v' e' = put_buf i n vlen' elen' v' e'.
Proof. unfold put_buf, set_bufs, upd_buf. cbn. now rewrite alter_alter. Qed.

Lemma edit_ok i n b f e : buf_head i !! n = Some b -> f (eth b) = Ret e ->
  edit i n f = Ret (put_buf i n (vnet_len b) (eth_len b) (vnet b) e).
Proof. intros L E. unfold edit. now rewrite L, E. Qed.

Lemma edit_put_buf i n b vlen elen v e f e' : buf_head i !! n = Some b -> f e = Ret e' ->
  edit (put_buf i n vlen elen v e) n f = Ret (put_buf i n vlen elen v e').
Proof.
  intros L E. rewrite (edit_ok _ n _ f e' (lookup_put_buf i n b vlen elen v e L) E). cbn. now rewrite put_put_buf.
Qed.

(** The frame in a clone. *)
Definition clone_eth (i : uip_info) (b : uip_buf) (frame : list Z) : list Z :=
  splice ETH_DST (slice ETH_SRC 6 frame) (splice ETH_SRC (host_mac i) (splice 0 frame (eth b))).

Definition clone_vnet (b : uip_buf) (hdr : list Z) : list Z :=
  let v := splice 0 hdr (vnet b) in if 10 <=? Z.of_nat (length hdr) then splice 0 fresh_vnet v else v.

Definition arg_ok (i : uip_info) (arg : uip_tx_arg) : Prop :=
  Z.of_nat (length (arg_vnet arg)) <= vnet_hdr_len i /\ (length (arg_eth arg) <= ETH_BUF)%nat.

Lemma length_clone_eth i b frame : length (host_mac i) = 6%nat -> length (eth b) = ETH_BUF ->
  (12 <= length frame <= ETH_BUF)%nat -> length (clone_eth i b frame) = ETH_BUF.
Proof.
  intros M L H. unfold clone_eth, ETH_DST, ETH_SRC. repeat rewrite length_splice; rewrite ?length_splice, ?length_slice, ?M, ?L; lia.
Qed.

Lemma clone_eth_bytes i b frame : byte_ok (host_mac i) -> byte_ok (eth b) -> byte_ok frame -> byte_ok (clone_eth i b frame).
Proof. intros M B F. unfold clone_eth. repeat apply splice_bytes; try apply slice_bytes; assumption. Qed.

Lemma put_bytes_bytes off bs f e : put_bytes off bs f = Ret e -> byte_ok bs -> byte_ok f -> byte_ok e.
Proof.
  unfold put_bytes. destruct (off + length bs <=? length f)%nat; [|discriminate]. intros [= <-]. apply splice_bytes.
Qed.

Lemma clone_spec i arg : pool_ok i -> 0 < buf_free_nr i -> arg_ok i arg -> (12 <= length (arg_eth arg))%nat ->
  exists n b, first_with UIP_BUF_STATUS_FREE i n b /\
    uip_buf_clone i arg = Ret (n, put_buf (taken i n 1 0) n (Z.of_nat (length (arg_vnet arg))) (Z.of_nat (length (arg_eth arg)))
                                 (clone_vnet b (arg_vnet arg)) (clone_eth i b (arg_eth arg))).
Proof.
  intros P H [A1 A2] A3. destruct (get_free_spec i P H) as (n & b & W & E). exists n, b. split; [exact W|].
  destruct W as (L & _ & _). destruct (proj1 (Forall_lookup _ _) (ok_size i P) n b L) as (V & T & _).
  destruct (ok_mac i P) as [M _]. unfold uip_buf_clone. rewrite E. cbn [the_buf]. rewrite (lookup_taken i n b 1 0 L). cbn [vnet eth set_status].
  rewrite !put_bytes_ok by lia. change (host_mac (taken i n 1 0)) with (host_mac i).
  assert (L1 : length (splice 0 (arg_vnet arg) (vnet b)) = length (vnet b)) by (apply length_splice; lia).
  assert (L2 : length (splice 0 (arg_eth arg) (eth b)) = ETH_BUF) by (rewrite length_splice; lia).
  assert (F : (if 10 <=? Z.of_nat (length (arg_vnet arg)) then put_bytes 0 fresh_vnet (splice 0 (arg_vnet arg) (vnet b))
               else Ret (splice 0 (arg_vnet arg) (vnet b))) = Ret (clone_vnet b (arg_vnet arg))).
  { unfold clone_vnet. destruct (Z.leb_spec 10 (Z.of_nat (length (arg_vnet arg)))); [|reflexivity].
    apply put_bytes_ok. rewrite L1. cbn [length fresh_vnet]. lia. }
  rewrite F. rewrite put_bytes_ok by (unfold ETH_SRC, ETH_BUF in *; lia).
  rewrite bytes_at_ok by (unfold ETH_SRC; lia).
  rewrite put_bytes_ok; [reflexivity|]. rewrite length_slice by (unfold ETH_SRC; lia).
  rewrite length_splice; unfold ETH_DST, ETH_SRC, ETH_BUF in *; lia.
Qed.

(** ** Answers to the guest *)

Lemma le_enc_htonl x : le_enc 4 (htonl x) = be_enc 4 x.
Proof. unfold htonl. rewrite <- (length_be_enc 4 x) at 1. apply le_enc_dec, be_enc_bytes. Qed.

Lemma le_enc_htons x : le_enc 2 (htons x) = be_enc 2 x.
Proof. unfold htons. rewrite <- (length_be_enc 2 x) at 1. apply le_enc_dec, be_enc_bytes. Qed.

(** Naming the next byte of a frame. *)
Ltac explode f H := (destruct f as [|? f]; [exfalso; cbn [length] in H; lia|]).

(** The answer to the ARP request [f] about the host's own address. *)
Definition arp_reply (i : uip_info) (f : list Z) : list Z :=
  slice ETH_SRC 6 f ++ host_mac i ++ slice ETH_TYPE 8 f ++ be_enc 2 2 ++
  host_mac i ++ be_enc 4 (host_ip i) ++ slice ARP_SMAC 6 f ++ slice ARP_SIP 4 f.

(** The buffer of an answer, with its frame [e]. *)
Definition answer (i : uip_info) (n : nat) (b : uip_buf) (arg : uip_tx_arg) (e : list Z) : uip_info :=
  put_buf (taken i n 1 0) n (Z.of_nat (length (arg_vnet arg))) (Z.of_nat (length (arg_eth arg))) (clone_vnet b (arg_vnet arg)) e.

Lemma arp_edits i b f : length (host_mac i) = 6%nat -> (42 <= length f)%nat -> byte_ok f ->
  exists e e', (let! e := put 2 ARP_OP (htons 2) (clone_eth i b f) in
           let! e := put_bytes ARP_DMAC (slice ARP_SMAC 6 f) e in
           put 4 ARP_DIP (le_dec (slice ARP_SIP 4 f)) e) = Ret e /\
    (let! e := put_bytes ARP_SMAC (host_mac i) e in put 4 ARP_SIP (htonl (host_ip i)) e) = Ret e' /\
    e' = arp_reply i f ++ drop 42 (clone_eth i b f).
Proof.
  intros M H B. unfold put. rewrite le_enc_htons, le_enc_htonl.
  assert (E : le_enc 4 (le_dec (slice ARP_SIP 4 f)) = slice ARP_SIP 4 f).
  { rewrite <- (length_slice ARP_SIP 4 f) at 1 by (unfold ARP_SIP; lia). apply le_enc_dec. now apply slice_bytes. }
  rewrite E. clear E B. unfold arp_reply, clone_eth. destruct (be_enc 4 (host_ip i)) as [|x0 [|x1 [|x2 [|x3 [|]]]]] eqn:X;
    try (apply (f_equal length) in X; rewrite length_be_enc in X; discriminate).
  destruct (host_mac i) as [|m0 [|m1 [|m2 [|m3 [|m4 [|m5 [|]]]]]]]; try discriminate.
  do 42 explode f H. do 2 eexists. split; [reflexivity|]. split; [reflexivity|]. reflexivity.
Qed.

Lemma do_arp_spec i arg : pool_ok i -> 0 < buf_free_nr i -> arg_ok i arg -> (42 <= length (arg_eth arg))%nat ->
  byte_ok (arg_eth arg) -> exists n b e, first_with UIP_BUF_STATUS_FREE i n b /\ length e = ETH_BUF /\ byte_ok e /\
    uip_tx_do_arp i arg =
      if le_dec (slice ARP_DIP 4 (arg_eth arg)) =? htonl (host_ip i)
      then Ret (uip_buf_set_used (answer i n b arg (arp_reply i (arg_eth arg) ++ drop 42 (clone_eth i b (arg_eth arg)))) n)
      else Ret (answer i n b arg e).
Proof.
  intros P H A L B. destruct (clone_spec i arg P H A ltac:(lia)) as (n & b & W & E). destruct (W) as (Lk & _ & _).
  destruct (proj1 (Forall_lookup _ _) (ok_size i P) n b Lk) as (_ & T & Bb). destruct (ok_mac i P) as [M _].
  destruct (arp_edits i b (arg_eth arg) M L B) as (e & e' & E1 & E2 & E3). exists n, b, e. split; [exact W|].
  assert (length e = ETH_BUF /\ byte_ok e) as [Le Be].
  { rewrite <- (length_clone_eth i b (arg_eth arg) M T) by (destruct A; lia).
    destruct (put 2 ARP_OP (htons 2) (clone_eth i b (arg_eth arg))) as [f1| |] eqn:F1; [|discriminate..].
    destruct (put_bytes ARP_DMAC (slice ARP_SMAC 6 (arg_eth arg)) f1) as [f2| |] eqn:F2; [|discriminate..].
    pose proof (clone_eth_bytes i b (arg_eth arg) (proj1 (ok_mac_bytes i P)) Bb B) as Bc.
    assert (B1 := put_bytes_bytes _ _ _ _ F1 (le_enc_bytes _ _) Bc).
    assert (B2 := put_bytes_bytes _ _ _ _ F2 (slice_bytes _ _ _ B) B1).
    split; [apply put_bytes_length in F1, F2, E1; congruence|exact (put_bytes_bytes _ _ _ _ E1 (le_enc_bytes _ _) B2)]. }
  split; [exact Le|]. split; [exact Be|]. unfold uip_tx_do_arp. rewrite E, !bytes_at_ok, !get_ok by (unfold ARP_SMAC, ARP_SIP, ARP_DIP; lia).
  rewrite (edit_put_buf _ _ _ _ _ _ _ _ _ (lookup_taken i n b 1 0 Lk) E1). cbn [host_ip put_buf taken set_bufs host_mac].
  destruct (_ =? _); [|reflexivity]. 
  rewrite (edit_put_buf _ _ _ _ _ _ _ _ _ (lookup_taken i n b 1 0 Lk) E2). now rewrite E3.
Qed.

Lemma answer_ok i n b arg e : pool_ok i -> arg_ok i arg -> first_with UIP_BUF_STATUS_FREE i n b -> length e = ETH_BUF -> byte_ok e ->
  pool_ok (answer i n b arg e) /\ buf_head (answer i n b arg e) !! n =
    Some (mkbuf UIP_BUF_STATUS_INUSE (Z.of_nat (length (arg_vnet arg))) (Z.of_nat (length (arg_eth arg))) (clone_vnet b (arg_vnet arg)) e).
Proof.
  intros P [A1 A2] (L & S & _) Le Be. pose proof (lookup_taken i n b 1 0 L) as Lt.
  destruct (proj1 (Forall_lookup _ _) (ok_size i P) n b L) as (V & T & _). split.
  - apply (put_buf_ok _ n (set_status b UIP_BUF_STATUS_INUSE)); [now apply (taken_free_ok i n b)|exact Lt| |now rewrite Le, <- T|exact Be].
    cbn. unfold clone_vnet. assert (L1 : length (splice 0 (arg_vnet arg) (vnet b)) = length (vnet b)) by (apply length_splice; lia).
    destruct (Z.leb_spec 10 (Z.of_nat (length (arg_vnet arg)))); [|exact L1]. rewrite length_splice; [exact L1|]. rewrite L1. cbn. lia.
  - apply (lookup_put_buf _ n _ _ _ _ _ Lt).
Qed.

(** [k] calls one after the other. *)
Fixpoint repeat_out {A} (k : nat) (f : A -> out A) (x : A) : out A :=
  match k with O => Ret x | S k => let! x := f x in repeat_out k f x end.

Lemma arp_drain k i arg : pool_ok i -> buf_free_nr i = Z.of_nat k -> arg_ok i arg -> (42 <= length (arg_eth arg))%nat ->
  byte_ok (arg_eth arg) -> le_dec (slice ARP_DIP 4 (arg_eth arg)) <> htonl (host_ip i) ->
  exists i', repeat_out k (fun i => uip_tx_do_arp i arg) i = Ret i' /\ pool_ok i' /\ buf_free_nr i' = 0 /\
             buf_used_nr i' = buf_used_nr i.
Proof.
  revert i. induction k as [|k IH]; intros i P F A L B D; [now exists i|].
  destruct (do_arp_spec i arg P ltac:(lia) A L B) as (n & b & e & W & Le & Be & E). cbn [repeat_out]. rewrite E.
  rewrite (proj2 (Z.eqb_neq _ _) D). destruct (answer_ok i n b arg e P A W Le Be) as [P' _].
  destruct (IH (answer i n b arg e)) as (i' & R & Q & F' & U); [exact P'|cbn; lia|exact A|exact L|exact B|exact D|].
  exists i'. rewrite R. split; [reflexivity|]. split; [exact Q|]. split; [exact F'|]. rewrite U. cbn. lia.
Qed.

(** The header part of an echo reply, before the checksums. *)
Definition icmp_edits (f e : list Z) : list Z :=
  splice ICMP_CSUM (le_enc 2 0) (splice ICMP_TYPE (le_enc 1 0) (splice IP_CSUM (le_enc 2 0)
    (splice IP_DIP (slice IP_SIP 4 f) (splice IP_SIP (slice IP_DIP 4 f) e)))).

Lemma icmp_shape i b f : length (host_mac i) = 6%nat -> (42 <= length f)%nat ->
  icmp_edits f (clone_eth i b f) =
    slice ETH_SRC 6 f ++ host_mac i ++ slice ETH_TYPE 12 f ++ [0; 0] ++ slice IP_DIP 4 f ++ slice IP_SIP 4 f ++
    [0] ++ slice 35 1 f ++ [0; 0] ++ drop 38 (splice 0 f (eth b)).
Proof.
  intros M H. unfold clone_eth, icmp_edits. destruct (host_mac i) as [|m0 [|m1 [|m2 [|m3 [|m4 [|m5 [|]]]]]]]; try discriminate.
  do 38 explode f H. reflexivity.
Qed.

Lemma uip_csum_small l : byte_ok l -> Z.of_nat (length l) <= 65535 -> fits 16 (uip_csum 0 l).
Proof. intros B L. apply (uip_csum_spec l B L). Qed.

(** The total length in an IP header. *)
Definition ip_total (f : list Z) : Z := be_dec (slice IP_LEN 2 f).

Lemma htons_le_dec l : byte_ok l -> length l = 2%nat -> htons (le_dec l) = be_dec l.
Proof.
  intros B L. unfold htons, be_enc, be_dec. rewrite <- L, le_enc_dec by exact B. reflexivity.
Qed.

(** An echo request of the guest: 20 bytes of IP header, and the whole ICMP message. *)
Record echo_ok (i : uip_info) (arg : uip_tx_arg) : Prop := {
  eo_arg : arg_ok i arg;
  eo_len : (42 <= length (arg_eth arg))%nat;
  eo_bytes : byte_ok (arg_eth arg);
  eo_ihl : nth IP_VHL (arg_eth arg) 0 .& 15 = 5;
}.

Lemma icmp_fields i b f : length (host_mac i) = 6%nat -> (42 <= length f)%nat -> byte_ok f -> nth IP_VHL f 0 .& 15 = 5 ->
  let e := icmp_edits f (clone_eth i b f) in
  uip_ip_hdrlen e = Ret 20 /\ (forall c, uip_ip_hdrlen (splice IP_CSUM (le_enc 2 c) e) = Ret 20) /\
  (forall c, slice IP_LEN 2 (splice IP_CSUM (le_enc 2 c) e) = slice IP_LEN 2 f) /\
  slice IP_CSUM 2 e = [0; 0] /\ (forall c, slice ICMP_CSUM 2 (splice IP_CSUM (le_enc 2 c) e) = [0; 0]).
Proof.
  intros M H B V. cbv zeta. rewrite (icmp_shape i b f M H).
  destruct (host_mac i) as [|m0 [|m1 [|m2 [|m3 [|m4 [|m5 [|]]]]]]]; try discriminate.
  do 38 explode f H. cbn in V.
  assert (E : forall x, x .& 15 = 5 -> u16 (((x + 256 * 0) .& 15) * 4) = 20) by (intros x Hx; rewrite Z.mul_0_r, Z.add_0_r, Hx; reflexivity).
  split; [|split; [|split; [|split]]]; [| |reflexivity..].
  - unfold uip_ip_hdrlen. cbn. now rewrite E.
  - intros c. unfold uip_ip_hdrlen. cbn. now rewrite E.
Qed.

(** Bounds of accesses to a frame that has been written several times. *)
Ltac flen :=
  unfold ETH_DST, ETH_SRC, ETH_TYPE, IP_VHL, IP_TOS, IP_LEN, IP_ID, IP_FLGFRAG, IP_TTL, IP_PROTO, IP_CSUM, IP_SIP, IP_DIP,
    L4, ICMP_TYPE, ICMP_CSUM, UDP_SPORT, UDP_DPORT, UDP_LEN, UDP_CSUM, UDP_PAYLOAD, ETH_BUF in *;
  repeat first [rewrite length_le_enc | rewrite length_slice by flen | rewrite length_splice by flen]; cbn [length]; lia.

Lemma icmp_edits_ok f e : (42 <= length f)%nat -> byte_ok f -> length e = ETH_BUF -> byte_ok e ->
  length (icmp_edits f e) = ETH_BUF /\ byte_ok (icmp_edits f e) /\
  (let! e := put 4 IP_SIP (le_dec (slice IP_DIP 4 f)) e in
   let! e := put 4 IP_DIP (le_dec (slice IP_SIP 4 f)) e in
   let! e := put 2 IP_CSUM 0 e in
   let! e := put 1 ICMP_TYPE 0 e in put 2 ICMP_CSUM 0 e) = Ret (icmp_edits f e).
Proof.
  intros H B L Be. assert (L42 : (42 <= length e)%nat) by (rewrite L; unfold ETH_BUF; lia).
  assert (E : forall o, (o + 4 <= 42)%nat -> le_enc 4 (le_dec (slice o 4 f)) = slice o 4 f).
  { intros o Ho. rewrite <- (length_slice o 4 f) at 1 by lia. apply le_enc_dec. now apply slice_bytes. }
  unfold icmp_edits, put. rewrite !E by flen.
  split; [|split].
  - rewrite <- L. repeat (rewrite length_splice by flen). reflexivity.
  - repeat apply splice_bytes; try apply le_enc_bytes; try apply slice_bytes; assumption.
  - do 5 rewrite put_bytes_ok by flen.
    reflexivity.
Qed.

Lemma ip_total_range f : byte_ok f -> (42 <= length f)%nat -> 0 <= ip_total f <= 65535.
Proof.
  intros B H. unfold ip_total. pose proof (be_dec_fits (slice IP_LEN 2 f) (slice_bytes _ _ _ B)) as F.
  rewrite length_slice in F by flen. unfold fits in F. change (8 * Z.of_nat 2) with 16 in F. lia.
Qed.

(** Both checksums of the reply, and where they are put. *)
Definition icmp_frame (f e : list Z) : list Z :=
  let e1 := splice IP_CSUM (le_enc 2 (uip_csum 0 (slice IP_VHL 20 e))) e in
  splice ICMP_CSUM (le_enc 2 (uip_csum 0 (slice ICMP_TYPE (Z.to_nat (ip_total f - 28)) e1))) e1.

Lemma do_icmp_spec i arg : pool_ok i -> 0 < buf_free_nr i -> echo_ok i arg ->
  exists n b, first_with UIP_BUF_STATUS_FREE i n b /\ (let e := icmp_edits (arg_eth arg) (clone_eth i b (arg_eth arg)) in
    length e = ETH_BUF /\ byte_ok e /\
    (28 <= ip_total (arg_eth arg) ->
      uip_tx_do_ipv4_icmp i arg = Ret (uip_buf_set_used (answer i n b arg (icmp_frame (arg_eth arg) e)) n)) /\
    (7 <= ip_total (arg_eth arg) < 28 -> uip_tx_do_ipv4_icmp i arg = Ub)).
Proof.
  intros P H [A L B V]. destruct (clone_spec i arg P H A ltac:(lia)) as (n & b & W & E). exists n, b. split; [exact W|].
  destruct (W) as (Lk & _ & _). destruct (proj1 (Forall_lookup _ _) (ok_size i P) n b Lk) as (_ & T & Bb).
  destruct (ok_mac i P) as [M _]. set (f := arg_eth arg) in *.
  assert (Lc : length (clone_eth i b f) = ETH_BUF).
  { apply length_clone_eth; [exact M|exact T|]. destruct A as [_ A]. fold f in A. lia. }
  pose proof (clone_eth_bytes i b f (proj1 (ok_mac_bytes i P)) Bb B) as Bc.
  destruct (icmp_edits_ok f (clone_eth i b f) L B Lc Bc) as (Le & Be & Ed). cbv zeta.
  split; [exact Le|]. split; [exact Be|].
  destruct (icmp_fields i b f M L B V) as (F1 & F2 & F3 & F4 & F5). set (e := icmp_edits f (clone_eth i b f)) in *.
  pose proof (ip_total_range f B L) as Tr.
  set (e1 := splice IP_CSUM (le_enc 2 (uip_csum 0 (slice IP_VHL 20 e))) e).
  assert (L1 : length e1 = ETH_BUF) by (unfold e1; rewrite length_splice by flen; exact Le).
  assert (S1 : (let! e := put 4 IP_SIP (le_dec (slice IP_DIP 4 f)) (clone_eth i b f) in
     let! e := put 4 IP_DIP (le_dec (slice IP_SIP 4 f)) e in let! e := put 2 IP_CSUM 0 e in
     let! e := put 1 ICMP_TYPE 0 e in let! e := put 2 ICMP_CSUM 0 e in
     let! c := uip_csum_ip e in let! e := put 2 IP_CSUM c e in let! (_, e) := uip_csum_icmp e in Ret e) =
     let! (_, e) := uip_csum_icmp e1 in Ret e).
  { revert Ed. destruct (put 4 IP_SIP _ _) as [g1| |]; [|discriminate..]. destruct (put 4 IP_DIP _ g1) as [g2| |]; [|discriminate..].
    destruct (put 2 IP_CSUM 0 g2) as [g3| |]; [|discriminate..]. destruct (put 1 ICMP_TYPE 0 g3) as [g4| |]; [|discriminate..].
    intros ->. fold e. unfold uip_csum_ip. rewrite F1. unfold csum_at.
    change (Z.to_nat (u16 20)) with 20%nat. rewrite bytes_at_ok by flen. rewrite put_ok by flen. reflexivity. }
  assert (S2 : uip_csum_icmp e1 =
    let! c := csum_at ICMP_TYPE (ip_total f - 28) e1 in Ret (c, splice ICMP_CSUM (le_enc 2 c) e1)).
  { unfold uip_csum_icmp. rewrite get_ok by flen. unfold e1 at 1 2. rewrite F2, F3.
    rewrite htons_le_dec by (first [now apply slice_bytes|flen]).
    fold (ip_total f). replace (ip_total f - 20 - 8) with (ip_total f - 28) by lia. fold e1.
    destruct (csum_at _ _ e1); [|reflexivity..]. rewrite put_ok by flen. reflexivity. }
  assert (G : forall r, (let! (_, x) := uip_csum_icmp e1 in Ret x) = r ->
    uip_tx_do_ipv4_icmp i arg = let! x := r in Ret (uip_buf_set_used (answer i n b arg x) n)).
  { intros r Hr. unfold uip_tx_do_ipv4_icmp. rewrite E. fold f. rewrite !get_ok by flen.
    rewrite <- Hr, <- S1. unfold edit. rewrite (lookup_put_buf _ _ _ _ _ _ _ (lookup_taken i n b 1 0 Lk)). cbn [eth vnet vnet_len eth_len].
    destruct (put 4 IP_SIP _ _) as [g1| |]; [|reflexivity..]. destruct (put 4 IP_DIP _ g1) as [g2| |]; [|reflexivity..].
    destruct (put 2 IP_CSUM 0 g2) as [g3| |]; [|reflexivity..]. destruct (put 1 ICMP_TYPE 0 g3) as [g4| |]; [|reflexivity..].
    destruct (put 2 ICMP_CSUM 0 g4) as [g5| |]; [|reflexivity..]. destruct (uip_csum_ip g5) as [c| |]; [|reflexivity..].
    destruct (put 2 IP_CSUM c g5) as [g6| |]; [|reflexivity..]. destruct (uip_csum_icmp g6) as [[c2 g7]| |]; [|reflexivity..].
    cbn [set_bufs]. rewrite put_put_buf. reflexivity. }
  split; intros R.
  - rewrite (G (Ret (icmp_frame f e))); [reflexivity|]. rewrite S2. unfold csum_at.
    rewrite wrap_id by (unfold fits; lia).
    rewrite bytes_at_ok by flen. reflexivity.
  - rewrite (G Ub); [reflexivity|]. rewrite S2. unfold csum_at, bytes_at.
    assert (U : u16 (ip_total f - 28) = 65536 + ip_total f - 28).
    { unfold wrap. rewrite <- (Z_mod_plus_full _ 1), Z.mod_small; lia. }
    rewrite U. rewrite (proj2 (Nat.leb_gt _ _)); [reflexivity|]. rewrite L1. unfold ICMP_TYPE, ETH_BUF. lia.
Qed.

Lemma lookup_set_used i n b : buf_head i !! n = Some b ->
  buf_head (uip_buf_set_used i n) !! n = Some (set_status b UIP_BUF_STATUS_USED).
Proof. intros L. cbn. unfold upd_buf. now rewrite list_lookup_alter_eq, L. Qed.

(** The pool and the buffer after an answer. *)
Lemma answered i n b arg e : pool_ok i -> arg_ok i arg -> first_with UIP_BUF_STATUS_FREE i n b -> length e = ETH_BUF -> byte_ok e ->
  let i' := uip_buf_set_used (answer i n b arg e) n in
  pool_ok i' /\ buf_used_nr i' = buf_used_nr i + 1 /\ buf_free_nr i' = buf_free_nr i - 1 /\
  buf_head i' !! n = Some (mkbuf UIP_BUF_STATUS_USED (Z.of_nat (length (arg_vnet arg))) (Z.of_nat (length (arg_eth arg)))
                             (clone_vnet b (arg_vnet arg)) e).
Proof.
  intros P A W L B. destruct (answer_ok i n b arg e P A W L B) as [P' Lk]. cbv zeta.
  split; [now apply (set_used_ok _ n _ P' Lk)|]. split; [cbn; lia|]. split; [reflexivity|]. exact (lookup_set_used _ n _ Lk).
Qed.

Lemma slice_split off n m f : slice off (n + m) f = slice off n f ++ slice (off + n) m f.
Proof.
  unfold slice. rewrite <- drop_drop. set (g := drop off f). rewrite <- (take_drop n (take (n + m) g)).
  rewrite take_take, skipn_firstn_comm. f_equal; f_equal; lia.
Qed.

Lemma slice_app_r (l r : list Z) off n : (length l <= off)%nat -> slice off n (l ++ r) = slice (off - length l) n r.
Proof. intros H. unfold slice. now rewrite drop_app_ge. Qed.

(** The tail of the message comes from the request. *)
Lemma icmp_tail i b f off n : length (host_mac i) = 6%nat -> (42 <= length f)%nat -> (length f <= length (eth b))%nat ->
  (38 <= off)%nat -> (off + n <= length f)%nat ->
  slice off n (icmp_frame f (icmp_edits f (clone_eth i b f))) = slice off n f.
Proof.
  intros M H Hb H1 H2. set (e := icmp_edits f (clone_eth i b f)).
  assert (Ln : length e = length (eth b)).
  { unfold e, icmp_edits, clone_eth. repeat (rewrite length_splice by flen). reflexivity. }
  unfold icmp_frame. rewrite !slice_splice_after by flen. unfold e, icmp_edits, clone_eth.
  do 7 rewrite slice_splice_after by flen. unfold splice. rewrite take_0, app_nil_l. unfold slice. rewrite drop_app_le by lia.
  apply take_app_le. rewrite length_drop. lia.
Qed.

Lemma icmp_addresses i b f c : length (host_mac i) = 6%nat -> (42 <= length f)%nat ->
  let e := splice IP_CSUM (le_enc 2 c) (icmp_edits f (clone_eth i b f)) in
  slice ETH_DST 6 e = slice ETH_SRC 6 f /\ slice IP_SIP 4 e = slice IP_DIP 4 f /\ slice IP_DIP 4 e = slice IP_SIP 4 f.
Proof.
  intros M H. cbv zeta. rewrite (icmp_shape i b f M H).
  destruct (host_mac i) as [|m0 [|m1 [|m2 [|m3 [|m4 [|m5 [|]]]]]]]; try discriminate.
  do 38 explode f H. repeat split; reflexivity.
Qed.

(** A message that verifies up to its last eight bytes. *)
Lemma verifies_tail l t : byte_ok (l ++ t) -> Nat.Even (length l) -> verifies l ->
  (verifies (l ++ t) <-> sum_words t mod 65535 = 0).
Proof.
  intros B E V. pose proof B as B'. apply Forall_app in B' as [Bl Bt]. apply (verifies_iff l Bl) in V as [V1 V2].
  rewrite (verifies_iff _ B), sum_words_app by exact E.
  destruct (ones_sum_spec l Bl) as (_ & W1 & _), (ones_sum_spec t Bt) as (_ & W2 & _).
  rewrite Z.add_mod, V1, Z.add_0_l, Z.mod_mod by lia. split; [tauto|]. intros ->. split; [reflexivity|lia].
Qed.

(** Answering an echo request: the reply goes back to the sender with a valid IP
    header, but the ICMP checksum that is put into it covers all of the message except
    for the last eight bytes, so the message verifies only when these sum up to zero. *)
Theorem icmp_echo_reply i arg (P : pool_ok i) (H : 0 < buf_free_nr i) (O : echo_ok i arg)
  (T : 32 <= ip_total (arg_eth arg) <= Z.of_nat (length (arg_eth arg)) - 14) (Ev : Z.Even (ip_total (arg_eth arg))) :
  exists n b i', uip_tx_do_ipv4_icmp i arg = Ret i' /\ pool_ok i' /\ buf_used_nr i' = buf_used_nr i + 1 /\
    buf_head i' !! n = Some b /\ status b = UIP_BUF_STATUS_USED /\ eth_len b = Z.of_nat (length (arg_eth arg)) /\
    (let f := arg_eth arg in let e := eth b in let size := Z.to_nat (ip_total f - 20) in
     slice ETH_DST 6 e = slice ETH_SRC 6 f /\ slice IP_SIP 4 e = slice IP_DIP 4 f /\ slice IP_DIP 4 e = slice IP_SIP 4 f /\
     verifies (slice IP_VHL 20 e) /\
     slice 38 (size - 4) e = slice 38 (size - 4) f /\
     (verifies (slice ICMP_TYPE size e) <-> sum_words (slice (ICMP_TYPE + size - 8) 8 f) mod 65535 = 0)).
Proof.
  destruct (do_icmp_spec i arg P H O) as (n & b & W & Le & Be & E & _). destruct O as [A L B V]. specialize (E ltac:(lia)).
  destruct (ok_mac i P) as [M _]. destruct (W) as (Lk & _ & _).
  destruct (proj1 (Forall_lookup _ _) (ok_size i P) n b Lk) as (_ & Tb & _).
  destruct (icmp_fields i b (arg_eth arg) M L B V) as (_ & _ & _ & F4 & F5).
  pose proof (icmp_tail i b (arg_eth arg)) as Tl. pose proof (icmp_shape i b (arg_eth arg) M L) as Sh.
  set (f := arg_eth arg) in *. set (e0 := icmp_edits f (clone_eth i b f)) in *.
  pose proof (ip_total_range f B L) as Tr. destruct A as [A1 A2]. fold f in A2.
  set (e1 := splice IP_CSUM (le_enc 2 (uip_csum 0 (slice IP_VHL 20 e0))) e0).
  assert (L1 : length e1 = ETH_BUF) by (unfold e1; rewrite length_splice by flen; exact Le).
  assert (B1 : byte_ok e1) by (apply splice_bytes; [apply le_enc_bytes|exact Be]).
  assert (Ef : icmp_frame f e0 = splice ICMP_CSUM (le_enc 2 (uip_csum 0 (slice ICMP_TYPE (Z.to_nat (ip_total f - 28)) e1))) e1) by reflexivity.
  assert (Lf : length (icmp_frame f e0) = ETH_BUF) by (rewrite Ef, length_splice by flen; exact L1).
  assert (Bf : byte_ok (icmp_frame f e0)) by (rewrite Ef; apply splice_bytes; [apply le_enc_bytes|exact B1]).
  destruct (answered i n b arg _ P (conj A1 A2) W Lf Bf) as (P' & U & _ & Lk'). cbv zeta in P', U, Lk'.
  eexists n, _, _. split; [exact E|]. split; [exact P'|]. split; [exact U|]. split; [exact Lk'|].
  split; [reflexivity|]. split; [reflexivity|]. cbv zeta. cbn [eth]. fold f.
  destruct (icmp_addresses i b f (uip_csum 0 (slice IP_VHL 20 e0)) M L) as (D1 & D2 & D3). fold e0 e1 in D1, D2, D3.
  assert (Va : verifies (slice IP_VHL 20 e1)).
  { apply block_verifies; [exact Be|flen|flen|flen|flen|now exists 5%nat|exact F4]. }
  assert (Vi : verifies (slice ICMP_TYPE (Z.to_nat (ip_total f - 28)) (icmp_frame f e0))).
  { rewrite Ef. apply block_verifies; [exact B1|flen|flen|flen|flen|now exists 1%nat|apply F5]. }
  split; [rewrite Ef, slice_splice_before by flen; exact D1|]. split; [rewrite Ef, slice_splice_before by flen; exact D2|].
  split; [rewrite Ef, slice_splice_before by flen; exact D3|]. split; [rewrite Ef, slice_splice_before by flen; exact Va|].
  split; [apply (Tl 38%nat _ M L); flen|].
  replace (Z.to_nat (ip_total f - 20)) with (Z.to_nat (ip_total f - 28) + 8)%nat by lia. rewrite slice_split.
  replace (ICMP_TYPE + (Z.to_nat (ip_total f - 28) + 8) - 8)%nat with (ICMP_TYPE + Z.to_nat (ip_total f - 28))%nat by flen.
  rewrite <- (Tl (ICMP_TYPE + Z.to_nat (ip_total f - 28))%nat 8%nat M L) by flen.
  apply verifies_tail; [apply Forall_app; split; now apply slice_bytes| |exact Vi].
  rewrite length_slice by flen. destruct Ev as [k Hk]. exists (Z.to_nat (k - 14)). lia.
Qed.

(** An echo request whose IP length is too short for the message header (but at
    least seven) makes the checksum run past the end of the buffer. *)
Theorem icmp_short_overread i arg (P : pool_ok i) (H : 0 < buf_free_nr i) (O : echo_ok i arg)
  (T : 7 <= ip_total (arg_eth arg) < 28) : uip_tx_do_ipv4_icmp i arg = Ub.
Proof. destruct (do_icmp_spec i arg P H O) as (n & b & _ & _ & _ & _ & E). exact (E T). Qed.

Lemma arp_reply_op i f l : length (host_mac i) = 6%nat -> (42 <= length f)%nat -> slice ARP_OP 2 (arp_reply i f ++ l) = be_enc 2 2.
Proof.
  intros M L. unfold arp_reply. destruct (host_mac i) as [|m0 [|m1 [|m2 [|m3 [|m4 [|m5 [|]]]]]]]; try discriminate.
  do 42 explode f L. reflexivity.
Qed.

Lemma length_arp_reply i f : length (host_mac i) = 6%nat -> (42 <= length f)%nat -> length (arp_reply i f) = 42%nat.
Proof.
  intros M L. unfold arp_reply. rewrite !length_app, !length_slice by (unfold ARP_SMAC, ARP_SIP; flen). rewrite !length_be_enc, M. reflexivity.
Qed.

Lemma arp_reply_bytes i b f : byte_ok (host_mac i) -> byte_ok (eth b) -> byte_ok f -> byte_ok (arp_reply i f ++ drop 42 (clone_eth i b f)).
Proof.
  intros M B F. unfold arp_reply, byte_ok. rewrite !Forall_app. repeat apply conj;
    first [apply be_enc_bytes|now apply slice_bytes|exact M|apply Forall_drop, clone_eth_bytes; assumption].
Qed.

(** An ARP request for the host's address is answered in a buffer that the guest
    will receive: the reply of the protocol, from the host's address to the sender. *)
Theorem arp_answered i arg (P : pool_ok i) (H : 0 < buf_free_nr i) (A : arg_ok i arg) (L : (42 <= length (arg_eth arg))%nat)
  (B : byte_ok (arg_eth arg)) (D : slice ARP_DIP 4 (arg_eth arg) = be_enc 4 (host_ip i)) :
  exists n b i', uip_tx_do_arp i arg = Ret i' /\ pool_ok i' /\ buf_used_nr i' = buf_used_nr i + 1 /\
    buf_head i' !! n = Some b /\ status b = UIP_BUF_STATUS_USED /\ eth_len b = Z.of_nat (length (arg_eth arg)) /\
    slice 0 42 (eth b) = arp_reply i (arg_eth arg) /\ slice ARP_OP 2 (eth b) = be_enc 2 2.
Proof.
  destruct (do_arp_spec i arg P H A L B) as (n & b & e0 & W & _ & _ & E).
  rewrite D in E. change (le_dec (be_enc 4 (host_ip i))) with (htonl (host_ip i)) in E. rewrite Z.eqb_refl in E.
  destruct (W) as (Lk & _ & _). destruct (proj1 (Forall_lookup _ _) (ok_size i P) n b Lk) as (_ & T & Bb).
  destruct (ok_mac i P) as [M _]. destruct (ok_mac_bytes i P) as [Mb _].
  assert (Lr : length (arp_reply i (arg_eth arg)) = 42%nat) by now apply length_arp_reply.
  assert (Lc : length (clone_eth i b (arg_eth arg)) = ETH_BUF) by (apply length_clone_eth; [exact M|exact T|destruct A; lia]).
  set (e := arp_reply i (arg_eth arg) ++ drop 42 (clone_eth i b (arg_eth arg))) in *.
  assert (Le : length e = ETH_BUF) by (unfold e; rewrite length_app, length_drop, Lr, Lc; unfold ETH_BUF; lia).
  assert (Be : byte_ok e) by (apply arp_reply_bytes; assumption).
  destruct (answered i n b arg e P A W Le Be) as (P' & U & _ & Lk').
  eexists n, _, _. split; [exact E|]. split; [exact P'|]. split; [exact U|]. split; [exact Lk'|].
  split; [reflexivity|]. split; [reflexivity|]. cbn [eth]. split.
  - unfold slice, e. rewrite drop_0. now apply take_app_length'.
  - now apply arp_reply_op.
Qed.

(** An ARP request for any other address takes a buffer that nobody gives back:
    after as many requests as there are free buffers the next one, and with it the
    guest's transmissions, waits for ever unless somebody else frees a buffer. *)
Theorem arp_exhausts_pool i arg (P : pool_ok i) (A : arg_ok i arg) (L : (42 <= length (arg_eth arg))%nat)
  (B : byte_ok (arg_eth arg)) (D : le_dec (slice ARP_DIP 4 (arg_eth arg)) <> htonl (host_ip i)) :
  exists i', repeat_out (Z.to_nat (buf_free_nr i)) (fun i => uip_tx_do_arp i arg) i = Ret i' /\
    buf_used_nr i' = buf_used_nr i /\ buf_free_nr i' = 0 /\ forall arg', uip_tx_do_arp i' arg' = NoFuel /\ uip_tx_do_ipv4_icmp i' arg' = NoFuel.
Proof.
  assert (N : 0 <= buf_free_nr i) by (rewrite (ok_free i P); apply count_nonneg).
  destruct (arp_drain (Z.to_nat (buf_free_nr i)) i arg P ltac:(lia) A L B D) as (i' & E & P' & F & U).
  exists i'. repeat (split; [assumption|]). intros arg'. split.
  - unfold uip_tx_do_arp, uip_buf_clone, uip_buf_get_free. now rewrite F.
  - unfold uip_tx_do_ipv4_icmp, uip_buf_clone, uip_buf_get_free. now rewrite F.
Qed.

(** ** Examples *)

Definition demo_info : uip_info :=
  mkinfo (replicate 2 (mkbuf UIP_BUF_STATUS_FREE 10 (Z.of_nat ETH_BUF) (replicate 10 0) (replicate ETH_BUF 0))) 2 0
    [2; 21; 21; 21; 21; 21] [2; 1; 1; 1; 1; 1] (192 * 2 ^ 24 + 168 * 2 ^ 16 + 33 * 256 + 15) (2 ^ 32 - 256)
    (192 * 2 ^ 24 + 168 * 2 ^ 16 + 33 * 256 + 1) [0; 0; 0] None 10.

Lemma demo_pool : pool_ok demo_info.
Proof.
  constructor; [reflexivity|reflexivity| | |split; reflexivity|split; apply byte_ok_check; reflexivity].
  - apply Forall_replicate. left. reflexivity.
  - apply Forall_replicate. cbn [vnet eth]. rewrite length_replicate. split; [reflexivity|]. split; [reflexivity|].
    apply Forall_replicate. unfold fits. lia.
Qed.

(** An ARP request for the address [ip] from the guest. *)
Definition demo_arp (ip : list Z) : uip_tx_arg :=
  mkarg (replicate 10 0) (replicate 6 255 ++ [2; 21; 21; 21; 21; 21] ++ [8; 6; 0; 1; 8; 0; 6; 4; 0; 1] ++
    [2; 21; 21; 21; 21; 21] ++ [192; 168; 33; 15] ++ replicate 6 0 ++ ip).

(** A ping of [n] bytes of data. *)
Definition demo_ping (n : nat) (data : list Z) : uip_tx_arg :=
  mkarg (replicate 10 0) ([2; 1; 1; 1; 1; 1; 2; 21; 21; 21; 21; 21; 8; 0; 69; 0; 0; Z.of_nat n; 0; 0; 0; 0; 64; 1; 0; 0;
    192; 168; 33; 15; 192; 168; 33; 1; 8; 0; 0; 0; 0; 1; 0; 1] ++ data).

Lemma demo_arp_ok ip : length ip = 4%nat -> byte_ok ip -> arg_ok demo_info (demo_arp ip) /\
  (42 <= length (arg_eth (demo_arp ip)))%nat /\ byte_ok (arg_eth (demo_arp ip)).
Proof.
  intros L B. assert (E : length (arg_eth (demo_arp ip)) = 42%nat) by (cbn; now rewrite L).
  split; [split; [cbn; lia|rewrite E; unfold ETH_BUF; lia]|]. split; [lia|].
  cbn [arg_eth demo_arp]. repeat (apply Forall_app; split); try exact B; apply byte_ok_check; reflexivity.
Qed.

Lemma demo_ping_ok n data : (n < 256)%nat -> (length data <= 1000)%nat -> byte_ok data -> echo_ok demo_info (demo_ping n data).
Proof.
  intros N L B. constructor; cbn [arg_eth arg_vnet demo_ping]; [split; cbn; unfold ETH_BUF; lia|cbn; lia| |reflexivity].
  apply Forall_app. split; [|exact B]. repeat (apply Forall_cons; split; [unfold fits; lia|]). constructor.
Qed.

Lemma arp_answered_witness : exists n b i', uip_tx_do_arp demo_info (demo_arp [192; 168; 33; 1]) = Ret i' /\
  buf_head i' !! n = Some b /\ slice ARP_OP 2 (eth b) = [0; 2].
Proof.
  destruct (demo_arp_ok [192; 168; 33; 1] eq_refl (byte_ok_check [192; 168; 33; 1] eq_refl)) as (A & L & B).
  destruct (arp_answered demo_info (demo_arp [192; 168; 33; 1]) demo_pool eq_refl A L B eq_refl)
    as (n & b & i' & E & _ & _ & Lk & _ & _ & _ & O). exists n, b, i'. repeat split; [exact E|exact Lk|exact O].
Defined.

Lemma arp_exhausts_pool_witness : exists i', repeat_out 2 (fun i => uip_tx_do_arp i (demo_arp [192; 168; 33; 9])) demo_info = Ret i' /\
  uip_tx_do_arp i' (demo_arp [192; 168; 33; 1]) = NoFuel.
Proof.
  destruct (demo_arp_ok [192; 168; 33; 9] eq_refl (byte_ok_check [192; 168; 33; 9] eq_refl)) as (A & L & B).
  assert (D : le_dec (slice ARP_DIP 4 (arg_eth (demo_arp [192; 168; 33; 9]))) <> htonl (host_ip demo_info)) by (vm_compute; discriminate).
  destruct (arp_exhausts_pool demo_info (demo_arp [192; 168; 33; 9]) demo_pool A L B D) as (i' & E & _ & _ & N).
  exists i'. split; [exact E|]. apply N.
Defined.

Lemma icmp_echo_reply_witness : exists n b i', uip_tx_do_ipv4_icmp demo_info (demo_ping 40 (replicate 12 7)) = Ret i' /\
  buf_head i' !! n = Some b /\ verifies (slice IP_VHL 20 (eth b)) /\ ~ verifies (slice ICMP_TYPE 20 (eth b)).
Proof.
  assert (O : echo_ok demo_info (demo_ping 40 (replicate 12 7))) by (apply demo_ping_ok; [lia|cbn; lia|apply byte_ok_check; reflexivity]).
  destruct (icmp_echo_reply demo_info (demo_ping 40 (replicate 12 7)) demo_pool eq_refl O ltac:(vm_compute; split; discriminate)
    ltac:(now exists 20)) as (n & b & i' & E & _ & _ & Lk & _ & _ & S). cbv zeta in S. destruct S as (_ & _ & _ & V & _ & I).
  exists n, b, i'. repeat (split; [assumption|]). change (Z.to_nat _) with 20%nat in I. rewrite I. vm_compute. discriminate.
Defined.

Lemma icmp_short_overread_witness : uip_tx_do_ipv4_icmp demo_info (demo_ping 20 []) = Ub.
Proof.
  apply (icmp_short_overread demo_info (demo_ping 20 []) demo_pool eq_refl); [|vm_compute; split; [discriminate|reflexivity]].
  apply demo_ping_ok; [lia|cbn; lia|constructor].
Defined.
