(* ===== verification/UipFrame.v ===== *)
(** * The user-mode network stack: frames that the host makes

    The headers that [uip_udp_make_pkg] ([net/uip/udp.c]) and
    [uip_tcp_payload_send] ([net/uip/tcp.c]) write, and the checksum of a segment that
    is followed by its padding and pseudo-header. *)
From S2P Require Import Prelude UipNet.
Open Scope Z_scope.

Definition UIP_IP_VER_4 : Z := 64.
Definition UIP_IP_HDR_LEN : Z := 5.
Definition UIP_IP_TTL : Z := 64.

(** The Ethernet and IP header without the length: the same statements in both files. *)
Definition cook_hdr (i : uip_info) (proto sip dip : Z) (e : list Z) : out (list Z) :=
  let! e := put_bytes ETH_SRC (host_mac i) e in
  let! e := put_bytes ETH_DST (guest_mac i) e in
  let! e := put 2 ETH_TYPE (htons UIP_ETH_P_IP) e in
  let! e := put 1 IP_VHL (UIP_IP_VER_4 .| UIP_IP_HDR_LEN) e in
  let! e := put 1 IP_TOS 0 e in
  let! e := put 2 IP_ID 0 e in
  let! e := put 2 IP_FLGFRAG 0 e in
  let! e := put 1 IP_TTL UIP_IP_TTL e in
  let! e := put 1 IP_PROTO proto e in
  let! e := put 2 IP_CSUM 0 e in
  let! e := put 4 IP_SIP sip e in
  put 4 IP_DIP dip e.

(** ** What the headers are *)

Definition eth_header (i : uip_info) : list Z := guest_mac i ++ host_mac i ++ be_enc 2 UIP_ETH_P_IP.

Definition ip_header (len proto sip dip csum : Z) : list Z :=
  [69; 0] ++ be_enc 2 len ++ [0; 0; 0; 0; 64; proto] ++ le_enc 2 csum ++ le_enc 4 sip ++ le_enc 4 dip.

Definition pseudo_header (len proto sip dip : Z) : list Z := le_enc 4 sip ++ le_enc 4 dip ++ [0; proto] ++ be_enc 2 len.

Lemma cook_hdr_spec i proto sip dip e : length (host_mac i) = 6%nat -> length (guest_mac i) = 6%nat -> (34 <= length e)%nat -> fits 8 proto ->
  cook_hdr i proto sip dip e =
    Ret (eth_header i ++ [69; 0] ++ slice IP_LEN 2 e ++ [0; 0; 0; 0; 64; proto] ++ [0; 0] ++ le_enc 4 sip ++ le_enc 4 dip ++ drop 34 e).
Proof.
  intros M G H F. unfold cook_hdr, eth_header, put. rewrite le_enc_htons.
  assert (E1 : le_enc 1 proto = [proto]) by (cbn; now rewrite wrap_id). rewrite E1. clear E1 F.
  destruct (host_mac i) as [|m0 [|m1 [|m2 [|m3 [|m4 [|m5 [|]]]]]]]; try discriminate.
  destruct (guest_mac i) as [|g0 [|g1 [|g2 [|g3 [|g4 [|g5 [|]]]]]]]; try discriminate.
  do 34 explode e H. reflexivity.
Qed.

(** ** Network byte order *)

Lemma htons_val x : htons x = (x / 256) mod 256 + 256 * (x mod 256).
Proof.
  unfold htons, be_enc. cbn. rewrite Z.shiftr_div_pow2 by lia. change (2 ^ 8) with 256. unfold wrap. change (2 ^ 8) with 256. lia.
Qed.

Lemma htons_fits x : fits 16 (htons x).
Proof. rewrite htons_val. unfold fits. pose proof (Z.mod_pos_bound (x / 256) 256). pose proof (Z.mod_pos_bound x 256). lia. Qed.

Lemma htons_htons x : fits 16 x -> htons (htons x) = x.
Proof. unfold fits. rewrite !htons_val. intros H. Z.to_euclidean_division_equations. lia. Qed.

Lemma put_bytes_app off bs l r : length l = off -> (length bs <= length r)%nat ->
  put_bytes off bs (l ++ r) = Ret (l ++ bs ++ drop (length bs) r).
Proof.
  intros <- H. rewrite put_bytes_ok by (rewrite length_app; lia). unfold splice.
  rewrite take_app_length, <- drop_drop, drop_app_length. reflexivity.
Qed.

(** Following a chain of stores whose result is known. *)
Ltac peel H := repeat match type of H with
  | (match ?A with Ret _ => _ | Ub => _ | NoFuel => _ end) = Ret _ => destruct A; [|discriminate H|discriminate H]
  end.

(** ** A segment, its padding and its pseudo-header *)

Definition seg_pad (len : Z) : list Z := if len mod 2 =? 0 then [] else [0].

Lemma csum_l4_spec f hdr len : byte_ok f -> byte_ok hdr -> length hdr = 12%nat -> 0 <= len <= 65520 ->
  (L4 + Z.to_nat len + length (seg_pad len) + 12 <= length f)%nat ->
  exists f', csum_l4 f hdr len = Ret (uip_csum 0 (slice L4 (Z.to_nat len) f ++ seg_pad len ++ hdr), f') /\
    length f' = length f /\ byte_ok f' /\ take (L4 + Z.to_nat len) f' = take (L4 + Z.to_nat len) f.
Proof.
  intros B Bh Lh R H. unfold csum_l4, seg_pad in *. set (n := Z.to_nat len) in *.
  assert (G : forall g k, length (take k f) = k -> take k g = take k f -> (L4 <= k)%nat -> (k + 12 <= length g)%nat ->
      slice L4 (k - L4 + 12) (splice k hdr g) = slice L4 (k - L4) f ++ hdr).
  { intros g k Lk E K1 K2. rewrite slice_split. f_equal.
    - rewrite slice_splice_before by flen. apply (slice_eq L4 (k - L4) k g f E). lia.
    - replace (L4 + (k - L4))%nat with k by lia. rewrite <- Lh. apply slice_splice_same. lia. }
  destruct (Z.eqb_spec (len mod 2) 0) as [E|E]; cbn [length] in H.
  - exists (splice (L4 + n) hdr f). rewrite put_bytes_ok by (rewrite Lh; lia). unfold csum_at.
    rewrite wrap_id by (unfold fits; lia). replace (Z.to_nat (len + 12)) with (L4 + n - L4 + 12)%nat by (unfold n; lia).
    rewrite bytes_at_ok by (rewrite length_splice; rewrite ?Lh; lia).
    rewrite G; [|rewrite length_take; lia|reflexivity|lia|lia].
    replace (L4 + n - L4)%nat with n by lia. split; [reflexivity|].
    split; [apply length_splice; lia|]. split; [now apply splice_bytes|]. apply take_splice; lia.
  - set (g := splice (L4 + n) (le_enc 1 0) f). assert (Lg : length g = length f) by (unfold g; rewrite length_splice by flen; reflexivity).
    assert (Bg : byte_ok g) by (apply splice_bytes; [apply le_enc_bytes|exact B]).
    exists (splice (L4 + n + 1) hdr g). rewrite put_ok by lia. fold g. rewrite put_bytes_ok by (rewrite Lh, Lg; lia). unfold csum_at.
    rewrite wrap_id by (unfold fits; lia). replace (Z.to_nat (len + 1 + 12)) with (L4 + n + 1 - L4 + 12)%nat by (unfold n; lia).
    rewrite bytes_at_ok by (rewrite length_splice; rewrite ?Lh, ?Lg; lia).
    assert (Tg : slice L4 (n + 1) g = slice L4 n f ++ [0]).
    { rewrite slice_split. f_equal; [apply slice_splice_before; lia|].
      exact (slice_splice_same (L4 + n) (le_enc 1 0) f ltac:(flen)). }
    assert (Gg : slice L4 (n + 1 + 12) (splice (L4 + n + 1) hdr g) = slice L4 (n + 1) g ++ hdr).
    { rewrite slice_split, slice_splice_before by lia. f_equal. replace (L4 + (n + 1))%nat with (L4 + n + 1)%nat by lia.
      rewrite <- Lh. apply slice_splice_same. lia. }
    replace (L4 + n + 1 - L4 + 12)%nat with (n + 1 + 12)%nat by lia. rewrite Gg, Tg, <- app_assoc. split; [reflexivity|].
    split; [rewrite length_splice by lia; exact Lg|]. split; [now apply splice_bytes|].
    rewrite take_splice by lia. apply take_splice; lia.
Qed.

(** A segment that is too long for its pseudo-header to fit behind it. *)
Lemma csum_l4_overflow f hdr len : length hdr = 12%nat -> 0 <= len ->
  (length f < L4 + Z.to_nat len + length (seg_pad len) + 12)%nat -> csum_l4 f hdr len = Ub.
Proof.
  intros Lh R H. unfold csum_l4, seg_pad in *. destruct (len mod 2 =? 0); cbn [length] in H.
  - unfold put_bytes. rewrite (proj2 (Nat.leb_gt _ _)); [reflexivity|lia].
  - unfold put. destruct (put_bytes (L4 + Z.to_nat len) (le_enc 1 0) f) as [g| |] eqn:E; [|reflexivity|].
    + apply put_bytes_length in E. unfold put_bytes. rewrite (proj2 (Nat.leb_gt _ _)); [reflexivity|lia].
    + unfold put_bytes in E. destruct (_ <=? _)%nat; discriminate.
Qed.

(** ** Putting the checksums into a frame *)

Section checksums.
Context (i : uip_info) (len proto sip dip : Z) (seg rest : list Z).
Hypothesis (Hm : length (host_mac i) = 6%nat /\ length (guest_mac i) = 6%nat).
Hypothesis (Hb : byte_ok (host_mac i) /\ byte_ok (guest_mac i)).
Hypothesis (Hp : fits 8 proto).
Hypothesis (Bs : byte_ok seg) (Br : byte_ok rest).

(** The frame with [c] in the IP header. *)
Definition framed (c : Z) : list Z := eth_header i ++ ip_header len proto sip dip c ++ seg ++ rest.

Lemma length_eth_header : length (eth_header i) = 14%nat.
Proof. unfold eth_header. destruct Hm as [M G]. rewrite !length_app, length_be_enc, M, G. reflexivity. Qed.

Lemma length_ip_header c : length (ip_header len proto sip dip c) = 20%nat.
Proof. reflexivity. Qed.

Lemma ip_header_bytes c : byte_ok (ip_header len proto sip dip c).
Proof.
  unfold ip_header, byte_ok. rewrite !Forall_app. repeat apply conj;
    first [apply be_enc_bytes|apply le_enc_bytes|idtac]; repeat (apply Forall_cons; split; [try exact Hp; unfold fits; lia|]); constructor.
Qed.

Lemma eth_header_bytes : byte_ok (eth_header i).
Proof. unfold eth_header, byte_ok. rewrite !Forall_app. split; [apply Hb|]. split; [apply Hb|apply be_enc_bytes]. Qed.

Lemma framed_bytes c : byte_ok (framed c).
Proof. unfold framed, byte_ok. rewrite !Forall_app. split; [apply eth_header_bytes|]. split; [apply ip_header_bytes|]. now split. Qed.

Lemma framed_ip c : slice IP_VHL 20 (framed c) = ip_header len proto sip dip c.
Proof. unfold framed. rewrite slice_app_r by (rewrite length_eth_header; flen). now rewrite length_eth_header. Qed.

Lemma framed_csum c : splice IP_CSUM (le_enc 2 c) (framed 0) = framed c.
Proof.
  unfold framed, eth_header. destruct Hm as [M G]. destruct (host_mac i) as [|m0 [|m1 [|m2 [|m3 [|m4 [|m5 [|]]]]]]]; try discriminate.
  destruct (guest_mac i) as [|g0 [|g1 [|g2 [|g3 [|g4 [|g5 [|]]]]]]]; try discriminate. reflexivity.
Qed.

Lemma framed_fields c : uip_ip_hdrlen (framed c) = Ret 20 /\ bytes_at IP_SIP 4 (framed c) = Ret (le_enc 4 sip) /\
  bytes_at IP_DIP 4 (framed c) = Ret (le_enc 4 dip) /\ get 1 IP_PROTO (framed c) = Ret proto /\
  get 2 IP_LEN (framed c) = Ret (htons len).
Proof.
  unfold framed, eth_header. destruct Hm as [M G]. destruct (host_mac i) as [|m0 [|m1 [|m2 [|m3 [|m4 [|m5 [|]]]]]]]; try discriminate.
  destruct (guest_mac i) as [|g0 [|g1 [|g2 [|g3 [|g4 [|g5 [|]]]]]]]; try discriminate.
  repeat split; try reflexivity. cbn. f_equal. lia.
Qed.

Lemma framed_pseudo c l : fits 16 l -> pseudo_hdr (framed c) (htons l) = Ret (pseudo_header l proto sip dip).
Proof.
  intros F. unfold pseudo_hdr. destruct (framed_fields c) as (_ & -> & -> & -> & _). now rewrite le_enc_htons.
Qed.

Lemma length_framed c : length (framed c) = (34 + length seg + length rest)%nat.
Proof. unfold framed. rewrite !length_app, length_eth_header, length_ip_header. lia. Qed.

Lemma framed_seg c : slice L4 (length seg) (framed c) = seg.
Proof.
  unfold framed. rewrite app_assoc, slice_app_r by (rewrite length_app, length_eth_header, length_ip_header; flen).
  rewrite length_app, length_eth_header, length_ip_header. unfold slice. cbn [L4 Nat.sub Nat.add]. rewrite drop_0. now apply take_app_length'.
Qed.

Lemma framed_csum_ip : exists c, uip_csum_ip (framed 0) = Ret c /\ fits 16 c /\ verifies (ip_header len proto sip dip c).
Proof.
  exists (uip_csum 0 (ip_header len proto sip dip 0)).
  unfold uip_csum_ip. destruct (framed_fields 0) as (-> & _). unfold csum_at. change (Z.to_nat (u16 20)) with 20%nat.
  rewrite bytes_at_ok by (rewrite length_framed; unfold IP_VHL; lia). rewrite framed_ip. split; [reflexivity|].
  split; [apply uip_csum_small; [apply ip_header_bytes|rewrite length_ip_header; lia]|].
  pose proof (csum_verifies ([69; 0] ++ be_enc 2 len ++ [0; 0; 0; 0; 64; proto]) (le_enc 4 sip ++ le_enc 4 dip)) as V.
  apply V; [apply (ip_header_bytes 0)|now exists 5%nat|].
  rewrite !length_app, length_be_enc, !length_le_enc. cbn [length]. lia.
Qed.

(** The checksum of the segment, which is at [p] in it. *)
Lemma framed_csum_l4 c p : Z.of_nat (length seg) <= 65520 -> (length (seg_pad (Z.of_nat (length seg))) + 12 <= length rest)%nat ->
  Nat.Even p -> (p + 2 <= length seg)%nat -> slice p 2 seg = [0; 0] ->
  let l := Z.of_nat (length seg) in
  exists c2 f', csum_l4 (framed c) (pseudo_header l proto sip dip) l = Ret (c2, f') /\
    length (splice (L4 + p) (le_enc 2 c2) f') = length (framed c) /\ byte_ok (splice (L4 + p) (le_enc 2 c2) f') /\
    (L4 + p + 2 <= length f')%nat /\
    take (34 + length seg) (splice (L4 + p) (le_enc 2 c2) f') =
      eth_header i ++ ip_header len proto sip dip c ++ splice p (le_enc 2 c2) seg /\
    verifies (pseudo_header l proto sip dip ++ splice p (le_enc 2 c2) seg).
Proof.
  intros Ls Lr Ev Pr Zr l. set (hdr := pseudo_header l proto sip dip).
  assert (Bh : byte_ok hdr).
  { unfold hdr, pseudo_header, byte_ok. rewrite !Forall_app. repeat apply conj; try apply le_enc_bytes; [|apply be_enc_bytes].
    apply Forall_cons. split; [unfold fits; lia|]. apply Forall_cons. now split. }
  assert (Nl : Z.to_nat l = length seg) by (unfold l; lia).
  destruct (csum_l4_spec (framed c) hdr l (framed_bytes c) Bh eq_refl) as (f' & E & Lf & Bf & Tf);
    [unfold l; lia|rewrite Nl, length_framed; unfold L4; fold l in Lr; lia|].
  rewrite Nl in E, Tf. rewrite framed_seg in E. eexists _, f'. split; [exact E|].
  pose proof (length_framed c) as Lc. assert (L4p : (L4 + p + 2 <= length f')%nat) by (rewrite Lf, Lc; unfold L4; lia).
  split; [rewrite length_splice by (rewrite length_le_enc; lia); exact Lf|].
  split; [apply splice_bytes; [apply le_enc_bytes|exact Bf]|]. split; [exact L4p|]. set (c2 := uip_csum 0 (seg ++ seg_pad l ++ hdr)) in *. split.
  - pose proof (slice_inside 0 (34 + length seg) (L4 + p) (le_enc 2 c2) f') as I. unfold slice in I. rewrite !drop_0, Nat.sub_0_r in I.
    rewrite I; [|lia|rewrite length_le_enc; unfold L4; lia|rewrite Lf, Lc; lia].
    change 34%nat with L4 at 1. rewrite Tf. unfold framed. change L4 with 34%nat.
    rewrite !app_assoc, take_app_length' by (rewrite !length_app, length_eth_header, length_ip_header; lia).
    set (h := eth_header i ++ ip_header len proto sip dip c). assert (Lh : length h = 34%nat) by (unfold h; now rewrite length_app, length_eth_header).
    unfold splice. rewrite take_app_ge, drop_app_ge by (rewrite Lh, ?length_le_enc; lia). rewrite Lh, <- app_assoc. f_equal.
    f_equal; [f_equal; lia|]. f_equal. f_equal. lia.
  - apply segment_verifies; [exact Bh|exact Bs|reflexivity| | |exact Ev|exact Pr|exact Zr].
    + rewrite !length_app. unfold hdr, seg_pad. destruct (l mod 2 =? 0); cbn [length]; change (length (pseudo_header l proto sip dip)) with 12%nat; lia.
    + unfold seg_pad. destruct (Z.eqb_spec (l mod 2) 0) as [E0|E0]; [left|right]; (split; [|reflexivity]).
      * unfold l in E0. apply Z.mod_divide in E0 as [k Hk]; [|lia]. exists (Z.to_nat k). lia.
      * intros [k Hk]. apply E0. unfold l. rewrite Hk. rewrite Nat2Z.inj_mul, Z.mul_comm. apply Z_mod_mult.
Qed.
End checksums.

(** ** Handing a packet over *)

(** The state and the buffer once the packet has been handed over. *)
Lemma pkg_answered i n b vlen elen v e : pool_ok i -> buf_head i !! n = Some b -> status b = UIP_BUF_STATUS_INUSE ->
  Z.of_nat (length v) = vnet_hdr_len i -> length e = ETH_BUF -> byte_ok e ->
  let i' := uip_buf_set_used (put_buf i n vlen elen v e) n in
  pool_ok i' /\ buf_used_nr i' = buf_used_nr i + 1 /\ buf_head i' !! n = Some (mkbuf UIP_BUF_STATUS_USED vlen elen v e).
Proof.
  intros P Lk S V T B. destruct (proj1 (Forall_lookup _ _) (ok_size i P) n b Lk) as (V' & T' & _).
  pose proof (lookup_put_buf i n b vlen elen v e Lk) as Lp. cbv zeta. split; [|split; [reflexivity|exact (lookup_set_used _ n _ Lp)]].
  apply (set_used_ok _ n _ (put_buf_ok i n b vlen elen v e P Lk ltac:(lia) ltac:(lia) B) Lp). exact S.
Qed.

Lemma ip_len_of_take k f a len proto sip dip c r : length a = 14%nat -> (18 <= k)%nat ->
  take k f = a ++ ip_header len proto sip dip c ++ r -> slice IP_LEN 2 f = be_enc 2 len.
Proof.
  intros La Hk E. rewrite <- (slice_take IP_LEN 2 k f) by (unfold IP_LEN; lia). rewrite E.
  rewrite slice_app_r by (rewrite La; unfold IP_LEN; lia). rewrite La. unfold IP_LEN, slice. cbn [Nat.sub drop ip_header app].
  rewrite <- !app_assoc. apply take_app_length'. symmetry; apply length_be_enc.
Qed.
