(* ===== verification/UipUdp.v ===== *)
(** * The user-mode network stack: UDP and DHCP

    [net/uip/udp.c] and [net/uip/dhcp.c]. What the host's kernel answers to the socket
    calls is an argument of the definitions that make them; what the stack asks it to
    send is recorded in the state. The endless receive loop is its body, for one
    datagram. *)
From S2P Require Import Prelude UipNet UipFrame.
Open Scope Z_scope.

Definition UIP_MAX_UDP_PAYLOAD : Z := 64 * 1024 - 20 - 8 - 1.

(** [struct uip_udp_socket]; ports and addresses as they are in the packets. *)
Record uip_udp_socket := mkudp {
  us_fd : Z; us_addr : Z * Z; us_sip : Z; us_dip : Z; us_sport : Z; us_dport : Z;
}.

(** The part of [struct uip_info] that udp.c owns, with the datagrams that were sent. *)
Record uip_udp := mkst {
  u_info : uip_info;
  udp_socket_head : list uip_udp_socket;
  udp_epollfd : Z;
  epoll_set : list Z;
  udp_thread : bool;
  udp_sent : list (Z * (Z * Z) * list Z);
}.

Definition with_info (s : uip_udp) (i : uip_info) : uip_udp :=
  mkst i (udp_socket_head s) (udp_epollfd s) (epoll_set s) (udp_thread s) (udp_sent s).

(** ** Packets for the guest *)

(** The frame that [uip_udp_make_pkg] leaves in the buffer; [payload] is [None] for a null pointer. *)
Definition make_udp (i : uip_info) (sk : uip_udp_socket) (payload : option (list Z)) (payload_len : Z) (e : list Z) : out (list Z) :=
  let! e := cook_hdr i UIP_IP_P_UDP (us_dip sk) (us_sip sk) e in
  let! e := put 2 UDP_SPORT (us_dport sk) e in
  let! e := put 2 UDP_DPORT (us_sport sk) e in
  let! e := put 2 UDP_LEN (htons (u16 (payload_len + 8))) e in
  let! e := put 2 UDP_CSUM 0 e in
  let! e := match payload with
            | Some p => let! bs := bytes_at 0 (Z.to_nat payload_len) p in put_bytes UDP_PAYLOAD bs e
            | None => Ret e
            end in
  let! len := get 2 UDP_LEN e in
  let! n := uip_ip_hdrlen e in
  let! e := put 2 IP_LEN (u16 (len + htons n)) e in
  let! c := uip_csum_ip e in
  let! e := put 2 IP_CSUM c e in
  let! (c, e) := uip_csum_udp e in
  put 2 UDP_CSUM c e.

Definition uip_udp_make_pkg (i : uip_info) (sk : uip_udp_socket) (n : nat) (payload : option (list Z)) (payload_len : Z) : out uip_info :=
  match buf_head i !! n with
  | Some b =>
      let! e := make_udp i sk payload payload_len (eth b) in
      let! v := put_bytes 0 (replicate (Z.to_nat (vnet_hdr_len i)) 0) (vnet b) in
      let! len := get 2 IP_LEN e in
      Ret (put_buf i n (vnet_hdr_len i) (ntohs len + 14) v e)
  | None => Ub
  end.

(** ** Datagrams from the guest *)

Definition same_flow (sip dip sport dport : Z) (sk : uip_udp_socket) : bool :=
  (us_sip sk =? sip) && (us_dip sk =? dip) && (us_sport sk =? sport) && (us_dport sk =? dport).

(** [socket()] returns [fd], [epoll_create()] returns [epfd]. *)
Definition uip_udp_socket_find (fd epfd : Z) (s : uip_udp) (sip dip sport dport : Z) : option uip_udp_socket * uip_udp :=
  match List.find (same_flow sip dip sport dport) (udp_socket_head s) with
  | Some sk => (Some sk, s)
  | None =>
      if fd <? 0 then (None, s)
      else
        let ep := if udp_epollfd s <=? 0 then epfd else udp_epollfd s in
        let sk := mkudp fd (dip, dport) sip dip sport dport in
        (Some sk, mkst (u_info s) (udp_socket_head s ++ [sk]) ep (if 0 <=? ep then epoll_set s ++ [fd] else epoll_set s) (udp_thread s) (udp_sent s))
  end.

(** [sendto()] returns [ret len]; a negative length is refused by the kernel. *)
Definition uip_udp_socket_send (ret : Z -> Z) (s : uip_udp) (sk : uip_udp_socket) (f : list Z) : out (Z * uip_udp) :=
  let! ulen := get 2 UDP_LEN f in
  let len := ntohs ulen - 8 in
  let! s := if 0 <=? len then
              let! bs := bytes_at UDP_PAYLOAD (Z.to_nat len) f in
              Ret (mkst (u_info s) (udp_socket_head s) (udp_epollfd s) (epoll_set s) (udp_thread s) (udp_sent s ++ [(us_fd sk, us_addr sk, bs)]))
            else Ret s in
  if negb (ret len =? len) then Ret (-1, s) else Ret (0, s).

(** The body of the receive loop: [recvfrom()] on the socket returns [data], or fails. *)
Definition uip_udp_receive (s : uip_udp) (sk : uip_udp_socket) (data : option (list Z)) : out uip_udp :=
  match data with
  | None => Ret s
  | Some d =>
      let payload := firstn (Z.to_nat UIP_MAX_UDP_PAYLOAD) d in
      let! (n, _, i) := the_buf (uip_buf_get_free (u_info s)) in
      let! i := uip_udp_make_pkg i sk n (Some payload) (Z.of_nat (length payload)) in
      Ret (with_info s (uip_buf_set_used i n))
  end.

(** ** DHCP (dhcp.c) *)

Definition DHCP_MSG_TYPE : nat := 42.
Definition DHCP_ID : nat := 46.
Definition DHCP_CLIENT_IP : nat := 54.
Definition DHCP_YOUR_IP : nat := 58.
Definition DHCP_SERVER_IP : nat := 62.
Definition DHCP_AGENT_IP : nat := 66.
Definition DHCP_MAGIC : nat := 278.
Definition DHCP_OPTION : nat := 282.

Definition UIP_DHCP_PORT_SERVER : Z := 67.
Definition UIP_DHCP_PORT_CLIENT : Z := 68.
Definition UIP_DHCP_MAGIC_COOKIE : Z := 0x63825363.
Definition UIP_DHCP_LEASE_TIME : Z := 0x3840.
Definition UIP_DHCP_MAX_PAYLOAD_LEN : Z := 300 - 64 + 312.
Definition UIP_DHCP_OPTION_LEN : Z := 312 - 4.
Definition UIP_DHCP_DISCOVER : Z := 1.
Definition UIP_DHCP_OFFER : Z := 2.
Definition UIP_DHCP_REQUEST : Z := 3.
Definition UIP_DHCP_ACK : Z := 5.
Definition UIP_DHCP_MAX_DNS_SERVER_NR : nat := 3.
Definition UIP_DHCP_MAX_DOMAIN_NAME_LEN : nat := 256.
Definition UIP_DHCP_TAG_MSG_TYPE : Z := 53.
Definition UIP_DHCP_TAG_MSG_TYPE_LEN : Z := 1.
Definition UIP_DHCP_TAG_SERVER_ID : Z := 54.
Definition UIP_DHCP_TAG_LEASE_TIME : Z := 51.
Definition UIP_DHCP_TAG_SUBMASK : Z := 1.
Definition UIP_DHCP_TAG_ROUTER : Z := 3.
Definition UIP_DHCP_TAG_ROOT : Z := 17.
Definition UIP_DHCP_TAG_DNS_SERVER : Z := 6.
Definition UIP_DHCP_TAG_DOMAIN_NAME : Z := 15.
Definition UIP_DHCP_TAG_END : Z := 255.
(** "0.0.0.0" *)
Definition EMPTY_ADDR : list Z := [48; 46; 48; 46; 48; 46; 48].

(** The first three bytes of the options; the comparison starts at the third. *)
Definition dhcp_is (msg : Z) (f : list Z) : out bool :=
  let! o2 := get 1 (DHCP_OPTION + 2) f in
  if negb (o2 =? msg) then Ret false else
  let! o1 := get 1 (DHCP_OPTION + 1) f in
  if negb (o1 =? UIP_DHCP_TAG_MSG_TYPE_LEN) then Ret false else
  let! o0 := get 1 DHCP_OPTION f in
  Ret (o0 =? UIP_DHCP_TAG_MSG_TYPE).

Definition uip_dhcp_is_discovery := dhcp_is UIP_DHCP_DISCOVER.
Definition uip_dhcp_is_request := dhcp_is UIP_DHCP_REQUEST.

Definition uip_udp_is_dhcp (f : list Z) : out bool :=
  let! sport := get 2 UDP_SPORT f in
  if negb (ntohs sport =? UIP_DHCP_PORT_CLIENT) then Ret false else
  let! dport := get 2 UDP_DPORT f in
  if negb (ntohs dport =? UIP_DHCP_PORT_SERVER) then Ret false else
  let! magic := get 4 DHCP_MAGIC f in
  Ret (ntohl magic =? UIP_DHCP_MAGIC_COOKIE).

(** /etc/resolv.conf as the pairs that [fscanf] finds in it, and [inet_aton]. *)
Definition set_names (i : uip_info) (dns : list Z) (dom : option (list Z)) : uip_info :=
  mkinfo (buf_head i) (buf_free_nr i) (buf_used_nr i) (guest_mac i) (host_mac i) (guest_ip i) (guest_netmask i) (host_ip i)
    dns dom (vnet_hdr_len i).

(** "domain" and "nameserver". *)
Definition key_domain : list Z := [100; 111; 109; 97; 105; 110].
Definition key_nameserver : list Z := [110; 97; 109; 101; 115; 101; 114; 118; 101; 114].

Fixpoint read_conf (aton : list Z -> option Z) (l : list (list Z * list Z)) (i : uip_info) (n : nat) (ret : Z) : Z * uip_info :=
  match l with
  | [] => (ret, i)
  | (key, val) :: l =>
      if bool_decide (firstn 6 key = key_domain) then
        read_conf aton l (set_names i (dns_ip i) (Some (firstn UIP_DHCP_MAX_DOMAIN_NAME_LEN val))) n ret
      else if bool_decide (firstn 10 key = key_nameserver) then
        match aton val with
        | None => read_conf aton l i n ret
        | Some addr =>
            if (n <? UIP_DHCP_MAX_DNS_SERVER_NR)%nat
            then read_conf aton l (set_names i (<[n := ntohl addr]> (dns_ip i)) (domain_name i)) (S n) 0
            else read_conf aton l i n 0
        end
      else read_conf aton l i n ret
  end.

Definition uip_dhcp_get_dns (aton : list Z -> option Z) (file : option (list (list Z * list Z))) (i : uip_info) : Z * uip_info :=
  match file with
  | None => (-1, i)
  | Some l => read_conf aton l i 0 (-1)
  end.

(** [opt[i++] = x] *)
Definition opt_byte (x : Z) (r : nat * list Z) : out (nat * list Z) :=
  let (i, e) := r in let! e := put 1 (DHCP_OPTION + i) x e in Ret (S i, e).

(** [addr = &opt[i]; *addr = htonl(x); i += 4] *)
Definition opt_addr (x : Z) (r : nat * list Z) : out (nat * list Z) :=
  let (i, e) := r in let! e := put 4 (DHCP_OPTION + i) (htonl x) e in Ret ((i + 4)%nat, e).

Fixpoint fill_dns (l : list Z) (r : nat * list Z) : out (nat * list Z) :=
  match l with
  | [] => Ret r
  | ip :: l =>
      if ip =? 0 then fill_dns l r
      else
        let! r := opt_byte UIP_DHCP_TAG_DNS_SERVER r in
        let! r := opt_byte 4 r in
        let! r := opt_addr ip r in
        fill_dns l r
  end.

Definition uip_dhcp_fill_option_name_and_server (i : uip_info) (r : nat * list Z) : out (nat * list Z) :=
  let! r := match domain_name i with
            | Some d =>
                let len := u8 (Z.of_nat (length d)) in
                let! r := opt_byte UIP_DHCP_TAG_DOMAIN_NAME r in
                let! (k, e) := opt_byte len r in
                let! bs := bytes_at 0 (Z.to_nat len) d in
                let! e := put_bytes (DHCP_OPTION + k) bs e in
                Ret ((k + Z.to_nat len)%nat, e)
            | None => Ret r
            end in
  fill_dns (firstn UIP_DHCP_MAX_DNS_SERVER_NR (dns_ip i)) r.

Definition uip_dhcp_fill_option (i : uip_info) (reply_msg_type : Z) (e : list Z) : out (list Z) :=
  let! r := opt_byte UIP_DHCP_TAG_MSG_TYPE (O, e) in
  let! r := opt_byte UIP_DHCP_TAG_MSG_TYPE_LEN r in
  let! r := opt_byte reply_msg_type r in
  let! r := opt_byte UIP_DHCP_TAG_SERVER_ID r in
  let! r := opt_byte 4 r in
  let! r := opt_addr (host_ip i) r in
  let! r := opt_byte UIP_DHCP_TAG_LEASE_TIME r in
  let! r := opt_byte 4 r in
  let! r := opt_addr UIP_DHCP_LEASE_TIME r in
  let! r := opt_byte UIP_DHCP_TAG_SUBMASK r in
  let! r := opt_byte 4 r in
  let! r := opt_addr (guest_netmask i) r in
  let! r := opt_byte UIP_DHCP_TAG_ROUTER r in
  let! r := opt_byte 4 r in
  let! r := opt_addr (host_ip i) r in
  let! r := opt_byte UIP_DHCP_TAG_ROOT r in
  let! (k, e) := opt_byte (Z.of_nat (length EMPTY_ADDR)) r in
  let! e := put_bytes (DHCP_OPTION + k) (EMPTY_ADDR ++ [0]) e in
  let! r := uip_dhcp_fill_option_name_and_server i ((k + length EMPTY_ADDR)%nat, e) in
  let! (_, e) := opt_byte UIP_DHCP_TAG_END r in
  Ret e.

(** The socket is filled in from the addresses; its other fields are not used. *)
Definition dhcp_socket (i : uip_info) : uip_udp_socket :=
  mkudp 0 (0, 0) (htonl (guest_ip i)) (htonl (host_ip i)) (htons UIP_DHCP_PORT_CLIENT) (htons UIP_DHCP_PORT_SERVER).

Definition uip_dhcp_make_pkg (i : uip_info) (reply_msg_type : Z) (e : list Z) : out (list Z) :=
  let! e := put 1 DHCP_MSG_TYPE 2 e in
  let! e := put 4 DHCP_CLIENT_IP 0 e in
  let! e := put 4 DHCP_YOUR_IP (htonl (guest_ip i)) e in
  let! e := put 4 DHCP_SERVER_IP (htonl (host_ip i)) e in
  let! e := put 4 DHCP_AGENT_IP 0 e in
  uip_dhcp_fill_option i reply_msg_type e.

Definition uip_tx_do_ipv4_udp_dhcp (i : uip_info) (arg : uip_tx_arg) : out (Z * uip_info) :=
  let! disc := uip_dhcp_is_discovery (arg_eth arg) in
  let! t := if disc then Ret (Some UIP_DHCP_OFFER)
            else let! req := uip_dhcp_is_request (arg_eth arg) in Ret (if req then Some UIP_DHCP_ACK else None) in
  match t with
  | None => Ret (-1, i)
  | Some t =>
      let! (n, i) := uip_buf_clone i arg in
      let! i := edit i n (uip_dhcp_make_pkg i t) in
      let! i := uip_udp_make_pkg i (dhcp_socket i) n None UIP_DHCP_MAX_PAYLOAD_LEN in
      Ret (0, uip_buf_set_used i n)
  end.

(** ** The transmit path and the end (udp.c) *)

Definition uip_tx_do_ipv4_udp (fd epfd : Z) (ret : Z -> Z) (nomem : bool) (s : uip_udp) (arg : uip_tx_arg) : out (Z * uip_udp) :=
  let f := arg_eth arg in
  let! dhcp := uip_udp_is_dhcp f in
  if dhcp then let! (_, i) := uip_tx_do_ipv4_udp_dhcp (u_info s) arg in Ret (0, with_info s i)
  else
    let! sip := get 4 IP_SIP f in
    let! dip := get 4 IP_DIP f in
    let! sport := get 2 UDP_SPORT f in
    let! dport := get 2 UDP_DPORT f in
    match uip_udp_socket_find fd epfd s sip dip sport dport with
    | (None, s) => Ret (-1, s)
    | (Some sk, s) =>
        let! (r, s) := uip_udp_socket_send ret s sk f in
        if negb (r =? 0) then Ret (-1, s)
        else if udp_thread s then Ret (0, s)
        else if nomem then Ret (-1, s)
        else Ret (0, mkst (u_info s) (udp_socket_head s) (udp_epollfd s) (epoll_set s) true (udp_sent s))
    end.

(** The list keeps its freed entries until [uip_static_init]. *)
Definition uip_udp_exit (s : uip_udp) : uip_udp * list Z :=
  (mkst (u_info s) (udp_socket_head s) (if 0 <? udp_epollfd s then 0 else udp_epollfd s)
     (if 0 <? udp_epollfd s then [] else epoll_set s) false (udp_sent s),
   (if 0 <? udp_epollfd s then [udp_epollfd s] else []) ++ map us_fd (udp_socket_head s)).

Definition uip_dhcp_exit (i : uip_info) : uip_info := set_names i (dns_ip i) None.

(** ** The frame of a datagram *)

Definition udp_header (sport dport len csum : Z) : list Z := le_enc 2 sport ++ le_enc 2 dport ++ be_enc 2 len ++ le_enc 2 csum.

(** The total length that the addition of two swapped numbers gives: the carry out of
    the low byte is lost. *)
Definition udp_ip_len (ulen : Z) : Z := if ulen mod 256 <? 236 then ulen + 20 else ulen + 20 - 256.

Lemma swapped_sum u : 0 <= u <= 65515 -> u16 (htons u + htons 20) = htons (udp_ip_len u).
Proof.
  intros H. unfold udp_ip_len, wrap. rewrite !htons_val. change (2 ^ 16) with 65536.
  change (20 / 256 mod 256 + 256 * (20 mod 256)) with 5120.
  destruct (Z.ltb_spec (u mod 256) 236); Z.to_euclidean_division_equations; lia.
Qed.

Lemma get_dec off n f l : slice off n f = l -> (off + n <= length f)%nat -> get n off f = Ret (le_dec l).
Proof. intros <- H. now apply get_ok. Qed.

(** The part of the packet that the checksum is put into is explicit. *)
Lemma udp_header_zero sport dport len body : slice 6 2 (udp_header sport dport len 0 ++ body) = [0; 0].
Proof. reflexivity. Qed.

Lemma udp_header_csum sport dport len c body :
  splice 6 (le_enc 2 c) (udp_header sport dport len 0 ++ body) = udp_header sport dport len c ++ body.
Proof. reflexivity. Qed.

(** The stores up to the IP length. *)
Definition udp_body (payload : option (list Z)) (n : nat) (e : list Z) : list Z :=
  match payload with Some p => p | None => slice UDP_PAYLOAD n e end.

(** The header before the IP length is known. *)
Lemma udp_shape_hdr i sport dport ulen sip dip e : length (host_mac i) = 6%nat -> length (guest_mac i) = 6%nat -> (42 <= length e)%nat ->
  (let! e := cook_hdr i UIP_IP_P_UDP sip dip e in
   let! e := put 2 UDP_SPORT sport e in
   let! e := put 2 UDP_DPORT dport e in
   let! e := put 2 UDP_LEN (htons ulen) e in
   put 2 UDP_CSUM 0 e) =
  Ret ((eth_header i ++ [69; 0] ++ slice IP_LEN 2 e ++ [0; 0; 0; 0; 64; UIP_IP_P_UDP] ++ [0; 0] ++ le_enc 4 sip ++ le_enc 4 dip ++
        udp_header sport dport ulen 0) ++ drop 42 e).
Proof.
  intros M G H. rewrite cook_hdr_spec by (try assumption; try lia; unfold fits, UIP_IP_P_UDP; lia). unfold put. rewrite le_enc_htons.
  unfold eth_header. destruct (host_mac i) as [|m0 [|m1 [|m2 [|m3 [|m4 [|m5 [|]]]]]]]; try discriminate.
  destruct (guest_mac i) as [|g0 [|g1 [|g2 [|g3 [|g4 [|g5 [|]]]]]]]; try discriminate.
  do 42 explode e H. reflexivity.
Qed.

(** The IP length is that of the UDP header, with the header length added to it. *)
Lemma udp_shape_len i sport dport ulen sip dip x y : length (host_mac i) = 6%nat -> length (guest_mac i) = 6%nat ->
  length x = 2%nat -> 0 <= ulen <= 65515 ->
  (let e := (eth_header i ++ [69; 0] ++ x ++ [0; 0; 0; 0; 64; UIP_IP_P_UDP] ++ [0; 0] ++ le_enc 4 sip ++ le_enc 4 dip ++
             udp_header sport dport ulen 0) ++ y in
   let! len := get 2 UDP_LEN e in
   let! k := uip_ip_hdrlen e in
   put 2 IP_LEN (u16 (len + htons k)) e) =
  Ret (eth_header i ++ ip_header (udp_ip_len ulen) UIP_IP_P_UDP sip dip 0 ++ udp_header sport dport ulen 0 ++ y).
Proof.
  intros M G X R. pose proof (swapped_sum ulen R) as Sw. cbv zeta. unfold ip_header. rewrite <- le_enc_htons, <- Sw. clear Sw.
  unfold eth_header. destruct (host_mac i) as [|m0 [|m1 [|m2 [|m3 [|m4 [|m5 [|]]]]]]]; try discriminate.
  destruct (guest_mac i) as [|g0 [|g1 [|g2 [|g3 [|g4 [|g5 [|]]]]]]]; try discriminate.
  destruct x as [|x0 [|x1 [|]]]; try discriminate. unfold htons at 2. destruct (be_enc 2 ulen) as [|u0 [|u1 [|]]] eqn:U;
    try (apply (f_equal length) in U; rewrite length_be_enc in U; discriminate).
  unfold udp_header. rewrite U. reflexivity.
Qed.

Lemma udp_ip_len_fits16 u : 8 <= u <= 65515 -> fits 16 (udp_ip_len u).
Proof.
  intros H. unfold fits, udp_ip_len. pose proof (Z.mod_le u 256 ltac:(lia) ltac:(lia)).
  destruct (Z.ltb_spec (u mod 256) 236); lia.
Qed.

Lemma udp_proto : fits 8 UIP_IP_P_UDP.
Proof. unfold fits, UIP_IP_P_UDP. lia. Qed.

Section datagram.
Context (i : uip_info) (sk : uip_udp_socket) (payload : option (list Z)) (n : nat) (e : list Z).
Hypothesis (Hm : length (host_mac i) = 6%nat /\ length (guest_mac i) = 6%nat).
Hypothesis (Hb : byte_ok (host_mac i) /\ byte_ok (guest_mac i)).
Hypothesis (Hp : forall p, payload = Some p -> length p = n /\ byte_ok p).
Hypothesis (He : length e = ETH_BUF /\ byte_ok e).

Let u : Z := Z.of_nat n + 8.
Let seg (c : Z) : list Z := udp_header (us_dport sk) (us_sport sk) u c ++ udp_body payload n e.
Let iph : Z -> list Z := ip_header (udp_ip_len u) UIP_IP_P_UDP (us_dip sk) (us_sip sk).
Let pseudo : list Z := pseudo_header u UIP_IP_P_UDP (us_dip sk) (us_sip sk).
Let frame : Z -> list Z := framed i (udp_ip_len u) UIP_IP_P_UDP (us_dip sk) (us_sip sk) (seg 0) (drop (42 + n) e).

Lemma length_udp_body : (42 + n <= length e)%nat -> length (udp_body payload n e) = n.
Proof. intros H. unfold udp_body. destruct payload as [p|]; [now apply Hp|]. now apply length_slice. Qed.

Lemma make_udp_frame : (42 + n <= length e)%nat -> Z.of_nat n <= 65507 ->
  make_udp i sk payload (Z.of_nat n) e =
    (let! c := uip_csum_ip (frame 0) in let! e := put 2 IP_CSUM c (frame 0) in
     let! (c, e) := uip_csum_udp e in put 2 UDP_CSUM c e).
Proof.
  intros H N. unfold make_udp. rewrite wrap_id by (unfold fits; lia). fold u.
  pose proof (udp_shape_hdr i (us_dport sk) (us_sport sk) u (us_dip sk) (us_sip sk) e (proj1 Hm) (proj2 Hm) ltac:(lia)) as S1.
  peel S1. rewrite S1. clear S1.
  set (h := eth_header i ++ _). assert (Lh : length h = 42%nat).
  { unfold h. rewrite !length_app, (length_eth_header i Hm), (length_slice IP_LEN 2 e ltac:(flen)). reflexivity. }
  assert (S2 : match payload with
      | Some p => let! bs := bytes_at 0 (Z.to_nat (Z.of_nat n)) p in put_bytes UDP_PAYLOAD bs (h ++ drop 42 e)
      | None => Ret (h ++ drop 42 e) end = Ret (h ++ udp_body payload n e ++ drop (42 + n) e)).
  { unfold udp_body. destruct payload as [p|].
    - destruct (Hp p eq_refl) as [Lp _]. rewrite Nat2Z.id, bytes_at_ok by lia. unfold slice. rewrite drop_0, <- Lp, firstn_all.
      rewrite put_bytes_app; [|exact Lh|rewrite length_drop; lia]. now rewrite drop_drop.
    - unfold slice. now rewrite <- drop_drop, take_drop. }
  rewrite S2. clear S2. unfold h. pose proof (udp_shape_len i (us_dport sk) (us_sport sk) u (us_dip sk) (us_sip sk) (slice IP_LEN 2 e)
    (udp_body payload n e ++ drop (42 + n) e) (proj1 Hm) (proj2 Hm) (length_slice IP_LEN 2 e ltac:(flen)) ltac:(unfold u; lia)) as S3.
  cbv zeta in S3. peel S3. rewrite S3. unfold frame, framed, seg. now rewrite <- !app_assoc.
Qed.

Lemma make_udp_csums : (42 + n <= length e)%nat -> Z.of_nat n <= 65507 ->
  exists c, fits 16 c /\ verifies (iph c) /\
    make_udp i sk payload (Z.of_nat n) e = (let! (c, e) := csum_l4 (frame c) pseudo u in put 2 UDP_CSUM c e).
Proof.
  intros H N. rewrite (make_udp_frame H N).
  destruct (framed_csum_ip i (udp_ip_len u) UIP_IP_P_UDP (us_dip sk) (us_sip sk) (seg 0) (drop (42 + n) e) Hm Hb udp_proto)
    as (c & E & F & V).
  exists c. split; [exact F|]. split; [exact V|]. change (framed i _ _ _ _ _ _ 0) with (frame 0) in E. rewrite E.
  assert (Lf : forall c, length (frame c) = ETH_BUF).
  { intros c'. unfold frame. rewrite length_framed by assumption. unfold seg. rewrite length_app, length_drop, length_udp_body by exact H.
    change (length (udp_header (us_dport sk) (us_sport sk) u 0)) with 8%nat. pose proof (proj1 He). lia. }
  rewrite put_ok by (rewrite Lf; flen). unfold frame at 1. rewrite framed_csum by assumption. fold (frame c).
  unfold uip_csum_udp. assert (Gl : get 2 UDP_LEN (frame c) = Ret (htons u)).
  { rewrite get_ok by (rewrite Lf; flen). assert (Sg : slice L4 (length (seg 0)) (frame c) = seg 0) by (apply framed_seg; assumption).
    replace (slice UDP_LEN 2 (frame c)) with (slice 4 2 (slice L4 (length (seg 0)) (frame c))).
    - rewrite Sg. reflexivity.
    - rewrite slice_slice'; [reflexivity|]. unfold seg. rewrite length_app. cbn. lia. }
  rewrite Gl. assert (Fu : fits 16 u) by (unfold fits, u; lia).
  unfold frame. rewrite framed_pseudo by assumption. fold frame. fold (frame c).
  rewrite htons_htons by exact Fu. reflexivity.
Qed.

Lemma make_udp_spec : Z.of_nat n <= 65494 ->
  exists e' c c', make_udp i sk payload (Z.of_nat n) e = Ret e' /\ length e' = ETH_BUF /\ byte_ok e' /\
    take (42 + n) e' = eth_header i ++ iph c ++ udp_header (us_dport sk) (us_sport sk) u c' ++ udp_body payload n e /\
    verifies (iph c) /\ verifies (pseudo ++ udp_header (us_dport sk) (us_sport sk) u c' ++ udp_body payload n e).
Proof.
  intros N. destruct He as [Le Be]. assert (H : (42 + n <= length e)%nat) by (rewrite Le; unfold ETH_BUF; lia).
  destruct (make_udp_csums H ltac:(lia)) as (c & F & V & E).
  assert (Lb := length_udp_body H).
  assert (Ls : length (seg 0) = (8 + n)%nat) by (unfold seg; rewrite length_app, Lb; reflexivity).
  assert (Bs : byte_ok (seg 0)).
  { unfold seg, udp_header, byte_ok. rewrite !Forall_app. repeat apply conj; try apply le_enc_bytes; [apply be_enc_bytes|].
    unfold udp_body. destruct payload as [p|]; [now apply Hp|now apply slice_bytes]. }
  assert (Br : byte_ok (drop (42 + n) e)) by now apply Forall_drop.
  assert (Pad : (length (seg_pad (Z.of_nat (length (seg 0)))) + 12 <= length (drop (42 + n) e))%nat).
  { rewrite length_drop, Le, Ls. unfold ETH_BUF, seg_pad. destruct (Z.eqb_spec (Z.of_nat (8 + n) mod 2) 0) as [M|M]; cbn [length]; [lia|].
    assert (Z.of_nat n <> 65494) by (intros N'; apply M; rewrite Nat2Z.inj_add, N'; reflexivity). lia. }
  destruct (framed_csum_l4 i (udp_ip_len u) UIP_IP_P_UDP (us_dip sk) (us_sip sk) (seg 0) (drop (42 + n) e) Hm Hb udp_proto Bs Br c 6)
    as (c2 & f' & E2 & Lf & Bf & Lp & Tk & Vs); [rewrite Ls; lia|exact Pad|now exists 3%nat|rewrite Ls; lia|reflexivity|].
  replace (Z.of_nat (length (seg 0))) with u in * by (rewrite Ls; unfold u; lia). rewrite E. fold frame pseudo in E2. rewrite E2.
  exists (splice UDP_CSUM (le_enc 2 c2) f'), c, c2. rewrite put_ok by exact Lp. split; [reflexivity|].
  change (splice (L4 + 6)) with (splice UDP_CSUM) in *. rewrite Ls in Tk. unfold seg in Tk, Vs. rewrite udp_header_csum in Tk, Vs.
  split. { rewrite Lf, length_framed by assumption. rewrite Ls, length_drop, Le. unfold ETH_BUF. lia. }
  split; [exact Bf|]. split; [exact Tk|]. split; [exact V|exact Vs].
Qed.

(** A longer datagram: the pseudo-header is written past the end of the buffer. *)
Lemma make_udp_overflow : 65494 < Z.of_nat n <= 65506 -> make_udp i sk payload (Z.of_nat n) e = Ub.
Proof.
  intros N. destruct He as [Le Be]. assert (H : (42 + n <= length e)%nat) by (rewrite Le; unfold ETH_BUF; lia).
  destruct (make_udp_csums H ltac:(lia)) as (c & _ & _ & E). rewrite E. rewrite csum_l4_overflow; [reflexivity|reflexivity|unfold u; lia|].
  assert (Lb := length_udp_body H). unfold frame. rewrite length_framed by assumption.
  unfold seg. rewrite length_app, Lb, length_drop, Le. change (length (udp_header (us_dport sk) (us_sport sk) u 0)) with 8%nat.
  unfold u, ETH_BUF, L4, seg_pad. destruct (Z.eqb_spec ((Z.of_nat n + 8) mod 2) 0) as [M|M]; cbn [length]; [|lia].
  assert (Z.of_nat n <> 65495) by (intros N'; rewrite N' in M; discriminate M). lia.
Qed.

(** The longest one does not fit itself. *)
Lemma make_udp_payload_overflow p : payload = Some p -> Z.of_nat n = 65507 -> make_udp i sk payload (Z.of_nat n) e = Ub.
Proof.
  intros Ep N. destruct He as [Le Be]. unfold make_udp. rewrite wrap_id by (unfold fits; lia). fold u.
  pose proof (udp_shape_hdr i (us_dport sk) (us_sport sk) u (us_dip sk) (us_sip sk) e (proj1 Hm) (proj2 Hm)
    ltac:(rewrite Le; unfold ETH_BUF; lia)) as S1.
  peel S1. rewrite S1. clear S1. set (h := eth_header i ++ _). assert (Lh : length h = 42%nat).
  { unfold h. rewrite !length_app, (length_eth_header i Hm), (length_slice IP_LEN 2 e) by (rewrite Le; unfold IP_LEN, ETH_BUF; lia). reflexivity. }
  rewrite Ep. destruct (Hp p Ep) as [Lp _]. rewrite Nat2Z.id, bytes_at_ok by lia.
  unfold slice. rewrite drop_0, <- Lp, firstn_all. unfold put_bytes. rewrite (proj2 (Nat.leb_gt _ _)); [reflexivity|].
  rewrite length_app, Lh, length_drop, Le. unfold UDP_PAYLOAD, ETH_BUF. lia.
Qed.
End datagram.

(** ** The options of a reply *)

Definition put_option (o : Z * list Z) : list Z := let (tag, v) := o in tag :: Z.of_nat (length v) :: v.

Definition put_options (l : list (Z * list Z)) : list Z := List.concat (map put_option l) ++ [UIP_DHCP_TAG_END].

(** Reading options up to the end tag (RFC 2132, without the padding tag). *)
Fixpoint parse_options (fuel : nat) (l : list Z) : option (list (Z * list Z)) :=
  match fuel, l with
  | S fuel, tag :: l =>
      if tag =? UIP_DHCP_TAG_END then Some []
      else match l with
           | n :: l =>
               if (Z.to_nat n <=? length l)%nat
               then match parse_options fuel (drop (Z.to_nat n) l) with
                    | Some os => Some ((tag, take (Z.to_nat n) l) :: os)
                    | None => None
                    end
               else None
           | [] => None
           end
  | _, _ => None
  end.

Definition dns_options (l : list Z) : list (Z * list Z) :=
  map (fun ip => (UIP_DHCP_TAG_DNS_SERVER, be_enc 4 ip)) (List.filter (fun ip => negb (ip =? 0)) l).

Definition name_options (i : uip_info) : list (Z * list Z) :=
  (match domain_name i with Some d => [(UIP_DHCP_TAG_DOMAIN_NAME, d)] | None => [] end) ++ dns_options (dns_ip i).

Definition dhcp_options (i : uip_info) (t : Z) : list (Z * list Z) :=
  [(UIP_DHCP_TAG_MSG_TYPE, [t]); (UIP_DHCP_TAG_SERVER_ID, be_enc 4 (host_ip i)); (UIP_DHCP_TAG_LEASE_TIME, be_enc 4 UIP_DHCP_LEASE_TIME);
   (UIP_DHCP_TAG_SUBMASK, be_enc 4 (guest_netmask i)); (UIP_DHCP_TAG_ROUTER, be_enc 4 (host_ip i)); (UIP_DHCP_TAG_ROOT, EMPTY_ADDR)] ++
  name_options i.

Lemma parse_put l rest fuel : Forall (fun o => fst o <> UIP_DHCP_TAG_END) l -> (length l < fuel)%nat ->
  parse_options fuel (put_options l ++ rest) = Some l.
Proof.
  intros F. revert fuel. unfold put_options. induction F as [|[tag v] l Ht F IH]; intros fuel H; destruct fuel as [|fuel]; cbn [length] in H; try lia.
  - reflexivity.
  - cbn [map List.concat put_option]. rewrite <- !app_assoc. cbn [parse_options app]. cbn in Ht. rewrite (proj2 (Z.eqb_neq _ _) Ht).
    rewrite Nat2Z.id, (proj2 (Nat.leb_le _ _)) by (rewrite length_app; lia).
    rewrite take_app_length, drop_app_length. specialize (IH fuel ltac:(lia)). rewrite <- app_assoc in IH. cbn [app] in IH. now rewrite IH.
Qed.

(** The loop state after the bytes [acc] have been stored; [junk] is overwritten next. *)
Lemma put_bytes_next o acc junk bs e : (length junk <= length bs)%nat -> (o + length acc + length bs <= length e)%nat ->
  put_bytes (o + length acc) bs (splice o (acc ++ junk) e) = Ret (splice o (acc ++ bs) e).
Proof.
  intros J H. rewrite put_bytes_ok by (rewrite length_splice; [|rewrite length_app]; lia). f_equal. unfold splice.
  rewrite !length_app, <- !app_assoc. assert (Lt : length (take o e ++ acc) = (o + length acc)%nat) by (rewrite length_app, length_take; lia).
  rewrite (app_assoc (take o e) acc). rewrite take_app_length' by lia. rewrite <- app_assoc. do 3 f_equal.
  rewrite drop_app_ge by lia. rewrite Lt. rewrite drop_app_ge by lia. rewrite drop_drop. f_equal. lia.
Qed.

Definition opts_at (acc e : list Z) : nat * list Z := (length acc, splice DHCP_OPTION acc e).

Lemma opt_addr_at acc e x : (DHCP_OPTION + length acc + 4 <= length e)%nat ->
  opt_addr x (opts_at acc e) = Ret (opts_at (acc ++ be_enc 4 x) e).
Proof.
  intros H. unfold opt_addr, opts_at, put. rewrite le_enc_htonl. rewrite <- (app_nil_r acc) at 2.
  rewrite put_bytes_next by (cbn [length]; rewrite ?length_be_enc; lia). now rewrite length_app, length_be_enc.
Qed.

(** The same up to a byte behind [acc], which the next store overwrites. *)
Definition opts_like (acc e : list Z) (r : nat * list Z) : Prop :=
  exists junk, (length junk <= 1)%nat /\ r = (length acc, splice DHCP_OPTION (acc ++ junk) e).

Lemma opts_at_like acc e : opts_like acc e (opts_at acc e).
Proof. exists []. split; [cbn; lia|]. unfold opts_at. now rewrite app_nil_r. Qed.

Lemma opt_byte_like acc e x r : fits 8 x -> (DHCP_OPTION + length acc + 1 <= length e)%nat -> opts_like acc e r ->
  opt_byte x r = Ret (opts_at (acc ++ [x]) e).
Proof.
  intros F H (junk & J & ->). unfold opt_byte, opts_at, put.
  assert (E1 : le_enc 1 x = [x]) by (cbn; now rewrite wrap_id). rewrite E1.
  rewrite put_bytes_next by (cbn [length]; lia). rewrite length_app. cbn [length]. do 2 f_equal. lia.
Qed.

Lemma opt_byte_at acc e x : fits 8 x -> (DHCP_OPTION + length acc + 1 <= length e)%nat ->
  opt_byte x (opts_at acc e) = Ret (opts_at (acc ++ [x]) e).
Proof. intros F H. apply opt_byte_like; [exact F|exact H|apply opts_at_like]. Qed.

Lemma fill_dns_like l acc e r : (DHCP_OPTION + length acc + 6 * length l <= length e)%nat -> opts_like acc e r ->
  exists r', fill_dns l r = Ret r' /\ opts_like (acc ++ List.concat (map put_option (dns_options l))) e r'.
Proof.
  revert acc r. induction l as [|ip l IH]; intros acc r H O; unfold dns_options in *; cbn [fill_dns List.filter map List.concat length] in *.
  - exists r. now rewrite app_nil_r.
  - destruct (ip =? 0); cbn [negb]; [apply IH; [lia|exact O]|].
    rewrite (opt_byte_like acc e) by (first [exact O|unfold fits, UIP_DHCP_TAG_DNS_SERVER; lia]).
    rewrite opt_byte_at by (rewrite ?length_app; cbn [length]; unfold fits; lia).
    rewrite opt_addr_at by (rewrite !length_app; cbn [length]; lia).
    destruct (IH (((acc ++ [UIP_DHCP_TAG_DNS_SERVER]) ++ [4]) ++ be_enc 4 ip) _
      ltac:(rewrite !length_app, length_be_enc; cbn [length]; lia) (opts_at_like _ e)) as (r' & E & O').
    exists r'. split; [exact E|]. cbn [map List.concat put_option]. rewrite length_be_enc. rewrite <- !app_assoc in O'. exact O'.
Qed.

Definition names_ok (i : uip_info) : Prop :=
  length (dns_ip i) = UIP_DHCP_MAX_DNS_SERVER_NR /\ (forall d, domain_name i = Some d -> (length d <= 255)%nat /\ byte_ok d).

Ltac opt_len := rewrite ?length_app, ?length_be_enc; cbn [length EMPTY_ADDR]; unfold DHCP_OPTION in *; lia.

Ltac opt_step := first [rewrite opt_byte_at by first [unfold fits; lia|opt_len] | rewrite opt_addr_at by opt_len].

Lemma fill_names_like i acc e r : names_ok i -> (DHCP_OPTION + length acc + 275 <= length e)%nat -> opts_like acc e r ->
  exists r', uip_dhcp_fill_option_name_and_server i r = Ret r' /\ opts_like (acc ++ List.concat (map put_option (name_options i))) e r'.
Proof.
  intros [Ld Hd] H O. unfold uip_dhcp_fill_option_name_and_server, name_options. rewrite <- Ld, firstn_all.
  destruct (domain_name i) as [d|].
  - destruct (Hd d eq_refl) as [L _]. rewrite wrap_id by (unfold fits; lia).
    rewrite (opt_byte_like acc e) by (first [exact O|unfold fits, UIP_DHCP_TAG_DOMAIN_NAME; lia]). opt_step.
    unfold opts_at at 1. rewrite Nat2Z.id, bytes_at_ok by lia.
    unfold slice. rewrite drop_0, firstn_all. set (acc2 := (acc ++ [UIP_DHCP_TAG_DOMAIN_NAME]) ++ [Z.of_nat (length d)]).
    assert (L2 : length acc2 = (length acc + 2)%nat) by (unfold acc2; opt_len).
    replace (splice DHCP_OPTION acc2 e) with (splice DHCP_OPTION (acc2 ++ []) e) by now rewrite app_nil_r.
    rewrite put_bytes_next by (cbn [length]; lia).
    replace (length acc2 + length d)%nat with (length (acc2 ++ d)) by (rewrite length_app; lia). fold (opts_at (acc2 ++ d) e).
    destruct (fill_dns_like (dns_ip i) (acc2 ++ d) e _ ltac:(rewrite length_app, Ld; unfold UIP_DHCP_MAX_DNS_SERVER_NR, DHCP_OPTION in *; lia)
      (opts_at_like _ e)) as (r' & E & O').
    exists r'. split; [exact E|]. unfold acc2 in O'. cbn [app map List.concat put_option]. rewrite <- !app_assoc in *. exact O'.
  - apply (fill_dns_like (dns_ip i) acc e r); [rewrite Ld; unfold UIP_DHCP_MAX_DNS_SERVER_NR, DHCP_OPTION in *; lia|exact O].
Qed.

Lemma length_name_options i : names_ok i -> (length (List.concat (map put_option (name_options i))) <= 275)%nat.
Proof.
  intros [Ld Hd]. unfold name_options. rewrite map_app, concat_app, length_app.
  assert (D : forall l, (length (List.concat (map put_option (dns_options l))) <= 6 * length l)%nat).
  { induction l as [|ip l IH]; [cbn; lia|]. unfold dns_options in *. cbn [List.filter]. destruct (negb (ip =? 0)); cbn [map List.concat length]; [|lia].
    rewrite length_app. cbn [put_option length]. rewrite length_be_enc. lia. }
  specialize (D (dns_ip i)). rewrite Ld in D. unfold UIP_DHCP_MAX_DNS_SERVER_NR in D.
  destruct (domain_name i) as [d|]; [|cbn; lia]. destruct (Hd d eq_refl) as [L _]. cbn [map List.concat put_option app]. rewrite app_nil_r. cbn [length]. lia.
Qed.

Lemma fill_option_spec i t e : names_ok i -> fits 8 t -> length e = ETH_BUF ->
  uip_dhcp_fill_option i t e = Ret (splice DHCP_OPTION (put_options (dhcp_options i t)) e).
Proof.
  intros N F L. assert (Le : (1000 <= length e)%nat) by (rewrite L; unfold ETH_BUF; lia). clear L.
  unfold uip_dhcp_fill_option. replace (O, e) with (opts_at [] e) by (unfold opts_at, splice; cbn [app length]; now rewrite Nat.add_0_r, take_drop).
  unfold UIP_DHCP_TAG_MSG_TYPE, UIP_DHCP_TAG_MSG_TYPE_LEN, UIP_DHCP_TAG_SERVER_ID, UIP_DHCP_TAG_LEASE_TIME, UIP_DHCP_TAG_SUBMASK, UIP_DHCP_TAG_ROUTER, UIP_DHCP_TAG_ROOT.
  do 2 opt_step. rewrite opt_byte_at by first [exact F|opt_len].
  change (Z.of_nat (length EMPTY_ADDR)) with 7. do 14 opt_step. unfold opts_at at 1.
  match goal with |- context [(length ?l + length EMPTY_ADDR)%nat] => set (acc := l) end.
  assert (La : length acc = 29%nat) by (unfold acc; rewrite !length_app, !length_be_enc; reflexivity).
  replace (splice DHCP_OPTION acc e) with (splice DHCP_OPTION (acc ++ []) e) by now rewrite app_nil_r.
  rewrite put_bytes_next by (rewrite ?length_app, ?La; unfold DHCP_OPTION; cbn [length EMPTY_ADDR]; lia).
  rewrite (app_assoc acc), <- length_app. set (acc2 := acc ++ EMPTY_ADDR).
  assert (L2 : length acc2 = 36%nat) by (unfold acc2; rewrite length_app, La; reflexivity).
  destruct (fill_names_like i acc2 e (length acc2, splice DHCP_OPTION (acc2 ++ [0]) e) N ltac:(rewrite L2; unfold DHCP_OPTION; lia))
    as (r' & -> & O'); [exists [0]; split; [cbn; lia|reflexivity]|].
  pose proof (length_name_options i N) as Ln.
  rewrite (opt_byte_like (acc2 ++ List.concat (map put_option (name_options i))) e) by (first [exact O'|unfold fits, UIP_DHCP_TAG_END; lia|rewrite length_app, L2; unfold DHCP_OPTION; lia]).
  unfold opts_at, put_options, dhcp_options. now rewrite map_app, concat_app.
Qed.

(** ** Datagrams for the guest *)

Lemma make_pkg_spec i n b sk payload len e' L : pool_ok i -> buf_head i !! n = Some b ->
  make_udp i sk payload len (eth b) = Ret e' -> length e' = ETH_BUF -> slice IP_LEN 2 e' = be_enc 2 L -> fits 16 L ->
  uip_udp_make_pkg i sk n payload len = Ret (put_buf i n (vnet_hdr_len i) (L + 14) (replicate (Z.to_nat (vnet_hdr_len i)) 0) e').
Proof.
  intros P Lk E Le S F. destruct (proj1 (Forall_lookup _ _) (ok_size i P) n b Lk) as (V & _ & _).
  unfold uip_udp_make_pkg. rewrite Lk, E.
  rewrite put_bytes_ok by (rewrite length_replicate; lia). rewrite get_ok by (rewrite Le; unfold IP_LEN, ETH_BUF; lia).
  rewrite S. change (le_dec (be_enc 2 L)) with (htons L). rewrite htons_htons by exact F.
  assert (Sp : splice 0 (replicate (Z.to_nat (vnet_hdr_len i)) 0) (vnet b) = replicate (Z.to_nat (vnet_hdr_len i)) 0).
  { unfold splice. rewrite length_replicate, drop_ge by lia. rewrite take_0. apply app_nil_r. }
  now rewrite Sp.
Qed.

Definition flow_ip (i : uip_info) (sk : uip_udp_socket) (ulen : Z) : Z -> list Z :=
  ip_header (udp_ip_len ulen) UIP_IP_P_UDP (us_dip sk) (us_sip sk).

(** C26. A datagram that arrives for a socket becomes a packet in a buffer for the
    guest: Ethernet, IP and UDP headers with the flow's addresses turned round, the
    data, and both checksums valid. The length in the IP header, and with it the length
    of the frame, is right except when the low byte of the UDP length is 236 or more:
    then both are 256 too small and the datagram is cut off. *)
Theorem udp_datagram_delivered s sk d (P : pool_ok (u_info s)) (H : 0 < buf_free_nr (u_info s)) (B : byte_ok d)
  (N : Z.of_nat (length d) <= 65494) :
  let ulen := Z.of_nat (length d) + 8 in
  exists n b s' c c', uip_udp_receive s sk (Some d) = Ret s' /\ pool_ok (u_info s') /\
    buf_used_nr (u_info s') = buf_used_nr (u_info s) + 1 /\ buf_head (u_info s') !! n = Some b /\ status b = UIP_BUF_STATUS_USED /\
    take (42 + length d) (eth b) = eth_header (u_info s) ++ flow_ip (u_info s) sk ulen c ++ udp_header (us_dport sk) (us_sport sk) ulen c' ++ d /\
    verifies (flow_ip (u_info s) sk ulen c) /\
    verifies (pseudo_header ulen UIP_IP_P_UDP (us_dip sk) (us_sip sk) ++ udp_header (us_dport sk) (us_sport sk) ulen c' ++ d) /\
    eth_len b = (if ulen mod 256 <? 236 then 42 + Z.of_nat (length d) else 42 + Z.of_nat (length d) - 256).
Proof.
  intros ulen. destruct (get_free_spec (u_info s) P H) as (n & b & (Lk & St & _) & E).
  set (i := u_info s) in *. pose proof (taken_free_ok i n b P Lk St) as P1. pose proof (lookup_taken i n b 1 0 Lk) as Lk1.
  destruct (proj1 (Forall_lookup _ _) (ok_size _ P1) n _ Lk1) as (V & T & Bb).
  destruct (make_udp_spec (taken i n 1 0) sk (Some d) (length d) (eth (set_status b UIP_BUF_STATUS_INUSE)) (ok_mac _ P1) (ok_mac_bytes _ P1)
    ltac:(intros p [= <-]; now split) (conj T Bb) N) as (e' & c & c' & Em & Le & Be & Tk & V1 & V2).
  fold ulen in Tk, V1, V2. cbn [udp_body] in Tk, V2.
  pose proof (udp_ip_len_fits16 ulen ltac:(unfold ulen; lia)) as Fl.
  assert (Sl := ip_len_of_take (42 + length d) e' _ _ _ _ _ _ _ (length_eth_header _ (ok_mac _ P1)) ltac:(lia) Tk).
  pose proof (make_pkg_spec _ n _ sk (Some d) _ e' _ P1 Lk1 Em Le Sl Fl) as Mk.
  destruct (pkg_answered _ n _ (vnet_hdr_len i) (udp_ip_len ulen + 14) (replicate (Z.to_nat (vnet_hdr_len i)) 0) e' P1 Lk1 eq_refl)
    as (P2 & U & Lk2); [rewrite length_replicate; cbn in V |- *; lia|exact Le|exact Be|].
  exists n. eexists _, _, c, c'. unfold uip_udp_receive. fold i. rewrite E. cbn [the_buf]. rewrite Lk1.
  rewrite firstn_all2 by (unfold UIP_MAX_UDP_PAYLOAD; lia). rewrite Mk.
  split; [reflexivity|]. split; [exact P2|]. split; [cbn in *; lia|]. split; [exact Lk2|]. split; [reflexivity|].
  split; [exact Tk|]. split; [exact V1|]. split; [exact V2|]. cbn [eth_len]. unfold udp_ip_len, ulen. destruct (_ <? 236); lia.
Qed.

(** A datagram of up to the 65507 bytes that the receive loop asks for is written
    past the end of its buffer, with its checksum's pseudo-header, when it has more than
    65494. *)
Theorem udp_datagram_overflow s sk d (P : pool_ok (u_info s)) (H : 0 < buf_free_nr (u_info s)) (B : byte_ok d)
  (N : 65494 < Z.of_nat (length d) <= UIP_MAX_UDP_PAYLOAD) : uip_udp_receive s sk (Some d) = Ub.
Proof.
  destruct (get_free_spec (u_info s) P H) as (n & b & (Lk & St & _) & E).
  set (i := u_info s) in *. pose proof (taken_free_ok i n b P Lk St) as P1. pose proof (lookup_taken i n b 1 0 Lk) as Lk1.
  destruct (proj1 (Forall_lookup _ _) (ok_size _ P1) n _ Lk1) as (_ & T & Bb).
  unfold uip_udp_receive. fold i. rewrite E. cbn [the_buf]. rewrite Lk1. rewrite firstn_all2 by lia. unfold uip_udp_make_pkg. rewrite Lk1.
  unfold UIP_MAX_UDP_PAYLOAD in N. destruct (Z.eq_dec (Z.of_nat (length d)) 65507) as [Q|Q].
  - rewrite (make_udp_payload_overflow _ sk (Some d) (length d) _ (ok_mac _ P1)) with (p := d);
      first [reflexivity|exact Q|exact (conj T Bb)|intros p [= <-]; now split].
  - rewrite (make_udp_overflow _ sk (Some d) (length d) _ (ok_mac _ P1) (ok_mac_bytes _ P1)); 
      first [reflexivity|lia|exact (conj T Bb)|intros p [= <-]; now split].
Qed.

(** ** The DHCP exchange *)

(** The message before the UDP header is put in front of it. *)
Definition dhcp_edits (i : uip_info) (e : list Z) : list Z :=
  splice DHCP_AGENT_IP (le_enc 4 0) (splice DHCP_SERVER_IP (be_enc 4 (host_ip i)) (splice DHCP_YOUR_IP (be_enc 4 (guest_ip i))
    (splice DHCP_CLIENT_IP (le_enc 4 0) (splice DHCP_MSG_TYPE (le_enc 1 2) e)))).

Ltac dlen :=
  unfold DHCP_AGENT_IP, DHCP_SERVER_IP, DHCP_YOUR_IP, DHCP_CLIENT_IP, DHCP_MSG_TYPE, DHCP_ID, DHCP_OPTION, ETH_BUF in *;
  repeat first [rewrite length_le_enc | rewrite length_be_enc | rewrite length_splice by dlen]; lia.

Lemma length_dhcp_edits i e : length e = ETH_BUF -> length (dhcp_edits i e) = ETH_BUF.
Proof. intros L. rewrite <- L. unfold dhcp_edits. repeat (rewrite length_splice by dlen). reflexivity. Qed.

Lemma dhcp_make_pkg_spec i t e : names_ok i -> fits 8 t -> length e = ETH_BUF ->
  uip_dhcp_make_pkg i t e = Ret (splice DHCP_OPTION (put_options (dhcp_options i t)) (dhcp_edits i e)).
Proof.
  intros N F L. unfold uip_dhcp_make_pkg, put. rewrite !le_enc_htonl. do 5 rewrite put_bytes_ok by dlen.
  apply fill_option_spec; [exact N|exact F|]. now apply length_dhcp_edits.
Qed.

Lemma dhcp_options_bytes i t : names_ok i -> fits 8 t -> byte_ok (put_options (dhcp_options i t)).
Proof.
  intros [Ld Hd] F. unfold put_options, byte_ok. rewrite Forall_app. split; [|apply Forall_cons; split; [unfold fits, UIP_DHCP_TAG_END; lia|constructor]].
  assert (G : forall l, Forall (fun o => fits 8 (fst o) /\ (length (snd o) <= 255)%nat /\ byte_ok (snd o)) l ->
    Forall (fits 8) (List.concat (map put_option l))).
  { induction 1 as [|[tag v] l (T & Lv & Bv) _ IH]; [constructor|]. cbn [map List.concat put_option]. cbn in *.
    apply Forall_cons. split; [exact T|]. apply Forall_cons. split; [unfold fits; lia|]. apply Forall_app. now split. }
  apply G. unfold dhcp_options, name_options. rewrite !Forall_app. split; [|split].
  - repeat (apply Forall_cons; split; [|]); [..|constructor]; cbn [fst snd]; (split; [split; [discriminate|reflexivity]|]);
      rewrite ?length_be_enc; (split; [cbn [length EMPTY_ADDR]; lia|]);
      first [apply be_enc_bytes|now apply Forall_singleton|apply byte_ok_check; reflexivity].
  - destruct (domain_name i) as [d|]; [|constructor]. apply Forall_singleton. split; [unfold fits, UIP_DHCP_TAG_DOMAIN_NAME; cbn; lia|]. now apply Hd.
  - apply Forall_map, Forall_forall. intros ip _. cbn [fst snd]. rewrite length_be_enc. split; [unfold fits, UIP_DHCP_TAG_DNS_SERVER; lia|].
    split; [lia|apply be_enc_bytes].
Qed.

Lemma length_dhcp_options i t : names_ok i -> (length (put_options (dhcp_options i t)) <= 312)%nat.
Proof.
  intros N. unfold put_options, dhcp_options. pose proof (length_name_options i N) as Ln.
  rewrite map_app, concat_app, !length_app. cbn [map List.concat put_option]. rewrite !length_app. cbn [length]. rewrite !length_be_enc.
  cbn [length EMPTY_ADDR]. lia.
Qed.

(** A request of the guest: long enough to have a message type among its options. *)
Record dhcp_request (i : uip_info) (arg : uip_tx_arg) (kind : Z) : Prop := {
  dr_arg : arg_ok i arg;
  dr_len : (285 <= length (arg_eth arg))%nat;
  dr_bytes : byte_ok (arg_eth arg);
  dr_type : slice DHCP_OPTION 3 (arg_eth arg) = [UIP_DHCP_TAG_MSG_TYPE; UIP_DHCP_TAG_MSG_TYPE_LEN; kind];
}.

Lemma get_byte_of off k f x (l : list Z) : l !! k = Some x -> slice off (length l) f = l -> get 1 (off + k) f = Ret x.
Proof.
  intros Hk E. assert (K : (k < length l)%nat) by (now apply lookup_lt_Some in Hk).
  assert (L : (off + length l <= length f)%nat).
  { apply (f_equal (@length Z)) in E. unfold slice in E. rewrite length_take, length_drop in E. lia. }
  rewrite get_ok by lia. rewrite <- (slice_slice' off (length l) k 1) by lia. rewrite E. unfold slice.
  rewrite (drop_S l x k) by exact Hk. cbn. rewrite take_0. cbn. f_equal. lia.
Qed.

Lemma dhcp_kind i arg kind : dhcp_request i arg kind -> forall m, dhcp_is m (arg_eth arg) = Ret (kind =? m).
Proof.
  intros [_ _ _ T] m. unfold dhcp_is. set (l := [UIP_DHCP_TAG_MSG_TYPE; UIP_DHCP_TAG_MSG_TYPE_LEN; kind]) in *.
  change 3%nat with (length l) in T.
  rewrite (get_byte_of DHCP_OPTION 2 _ kind l eq_refl T). destruct (Z.eqb_spec kind m); [|reflexivity]. cbn [negb].
  rewrite (get_byte_of DHCP_OPTION 1 _ UIP_DHCP_TAG_MSG_TYPE_LEN l eq_refl T). cbn [negb Z.eqb].
  pose proof (get_byte_of DHCP_OPTION 0 _ UIP_DHCP_TAG_MSG_TYPE l eq_refl T) as G. rewrite Nat.add_0_r in G. rewrite G. reflexivity.
Qed.

Lemma slice_body k f a n b : length a = 42%nat -> take (42 + n) f = a ++ slice UDP_PAYLOAD n b -> (42 + n <= length b)%nat -> k = (42 + n)%nat ->
  forall off m, (42 <= off)%nat -> (off + m <= k)%nat -> slice off m f = slice off m b.
Proof.
  intros La E Lb -> off m H1 H2. rewrite <- (slice_take off m (42 + n) f) by lia. rewrite E.
  rewrite slice_app_r by lia. rewrite La, slice_slice' by lia. unfold UDP_PAYLOAD. f_equal. lia.
Qed.

(** The frame of the reply, from the clone [e0] of the request. *)
Record reply_frame (i : uip_info) (t : Z) (e0 e' : list Z) (c c' : Z) : Prop := {
  rf_len : length e' = ETH_BUF;
  rf_bytes : byte_ok e';
  rf_head : take 42 e' = eth_header i ++ flow_ip i (dhcp_socket i) 556 c ++ udp_header (htons 67) (htons 68) 556 c';
  rf_ip : verifies (flow_ip i (dhcp_socket i) 556 c);
  rf_udp : verifies (pseudo_header 556 UIP_IP_P_UDP (htonl (host_ip i)) (htonl (guest_ip i)) ++
             udp_header (htons 67) (htons 68) 556 c' ++ slice UDP_PAYLOAD 548 e');
  rf_id : slice DHCP_ID 4 e' = slice DHCP_ID 4 e0;
  rf_addr : slice DHCP_YOUR_IP 4 e' = be_enc 4 (guest_ip i);
  rf_options : exists r, slice DHCP_OPTION 308 e' = take 308 (put_options (dhcp_options i t) ++ r);
}.

Lemma dhcp_frame i t e0 : pool_ok i -> names_ok i -> fits 8 t -> length e0 = ETH_BUF -> byte_ok e0 ->
  exists e e' c c', uip_dhcp_make_pkg i t e0 = Ret e /\ make_udp i (dhcp_socket i) None UIP_DHCP_MAX_PAYLOAD_LEN e = Ret e' /\
    length e = ETH_BUF /\ byte_ok e /\ reply_frame i t e0 e' c c'.
Proof.
  intros P N F L B. set (o := put_options (dhcp_options i t)). pose proof (length_dhcp_options i t N) as Lo. fold o in Lo.
  pose proof (length_dhcp_edits i e0 L) as L1. set (e := splice DHCP_OPTION o (dhcp_edits i e0)).
  assert (Le : length e = ETH_BUF) by (unfold e; rewrite length_splice by (unfold DHCP_OPTION, ETH_BUF in *; lia); exact L1).
  assert (Be : byte_ok e).
  { unfold e, dhcp_edits. repeat apply splice_bytes; try apply le_enc_bytes; try apply be_enc_bytes; [now apply dhcp_options_bytes|exact B]. }
  destruct (make_udp_spec i (dhcp_socket i) None 548 e (ok_mac _ P) (ok_mac_bytes _ P) ltac:(discriminate) (conj Le Be) ltac:(lia))
    as (e' & c & c' & Em & Le' & Be' & Tk & V1 & V2). cbn [udp_body] in Tk, V2.
  change (Z.of_nat 548 + 8) with 556 in *. change (Z.of_nat 548) with UIP_DHCP_MAX_PAYLOAD_LEN in Em.
  change (us_dport (dhcp_socket i)) with (htons 67) in *. change (us_sport (dhcp_socket i)) with (htons 68) in *.
  rewrite !app_assoc in Tk. set (h := (eth_header i ++ _) ++ _) in Tk.
  assert (Lh : length h = 42%nat).
  { unfold h. rewrite !length_app, (length_eth_header i (ok_mac i P)). reflexivity. }
  assert (Sl := slice_body 590 e' h 548 e Lh Tk ltac:(unfold ETH_BUF in *; lia) eq_refl).
  exists e, e', c, c'. split; [now apply dhcp_make_pkg_spec|]. split; [exact Em|]. split; [exact Le|]. split; [exact Be|].
  constructor; [exact Le'|exact Be'| |exact V1| | | |].
  -  rewrite app_assoc. change (take 42 e' = h). replace (take 42 e') with (take 42 (take (42 + 548) e')) by (rewrite take_take; f_equal; lia).
    rewrite Tk. now apply take_app_length'.
  - rewrite (Sl UDP_PAYLOAD 548%nat) by (unfold UDP_PAYLOAD; lia). exact V2.
  - rewrite (Sl DHCP_ID 4%nat) by dlen. unfold e, dhcp_edits. do 5 rewrite slice_splice_before by dlen. apply slice_splice_after; dlen.
  - rewrite (Sl DHCP_YOUR_IP 4%nat) by dlen. unfold e, dhcp_edits. do 3 rewrite slice_splice_before by dlen.
    rewrite <- (length_be_enc 4 (guest_ip i)) at 1. apply slice_splice_same. dlen.
  - exists (drop (DHCP_OPTION + length o) (dhcp_edits i e0)). rewrite (Sl DHCP_OPTION 308%nat) by dlen.
    unfold e, splice, slice. rewrite drop_app_length'; [reflexivity|]. rewrite length_take. dlen.
Qed.

Lemma length_clone_vnet i b hdr : Z.of_nat (length (vnet b)) = vnet_hdr_len i -> Z.of_nat (length hdr) <= vnet_hdr_len i ->
  length (clone_vnet b hdr) = length (vnet b).
Proof.
  intros V A. unfold clone_vnet. assert (L0 : length (splice 0 hdr (vnet b)) = length (vnet b)) by (apply length_splice; lia).
  destruct (Z.leb_spec 10 (Z.of_nat (length hdr))); [|exact L0]. rewrite length_splice; rewrite L0; [reflexivity|]. cbn. lia.
Qed.

(** Running the handler on a request. *)
Lemma dhcp_run i arg kind : pool_ok i -> 0 < buf_free_nr i -> names_ok i -> dhcp_request i arg kind ->
  kind = UIP_DHCP_DISCOVER \/ kind = UIP_DHCP_REQUEST ->
  let t := if kind =? UIP_DHCP_DISCOVER then UIP_DHCP_OFFER else UIP_DHCP_ACK in
  exists n b0 i' c c' vlen v e', uip_tx_do_ipv4_udp_dhcp i arg = Ret (0, i') /\ pool_ok i' /\ buf_used_nr i' = buf_used_nr i + 1 /\
    buf_head i' !! n = Some (mkbuf UIP_BUF_STATUS_USED vlen 590 v e') /\ length (eth b0) = ETH_BUF /\
    reply_frame i t (clone_eth i b0 (arg_eth arg)) e' c c'.
Proof.
  intros P H N R K t. pose proof R as [A L B T]. destruct (clone_spec i arg P H A ltac:(lia)) as (n & b & (Lk & St & _) & E).
  pose proof (taken_free_ok i n b P Lk St) as P1. pose proof (lookup_taken i n b 1 0 Lk) as Lk1.
  destruct (proj1 (Forall_lookup _ _) (ok_size _ P) n _ Lk) as (V & Tb & Bb). destruct A as [A1 A2].
  assert (Lc : length (clone_eth i b (arg_eth arg)) = ETH_BUF) by (apply length_clone_eth; [apply P|exact Tb|lia]).
  assert (Bc := clone_eth_bytes i b (arg_eth arg) (proj1 (ok_mac_bytes i P)) Bb B).
  assert (Ft : fits 8 t) by (unfold t; destruct (kind =? UIP_DHCP_DISCOVER); split; first [discriminate|reflexivity]).
  destruct (dhcp_frame i t _ P N Ft Lc Bc) as (e & e' & c & c' & E1 & E2 & Le & Be & RF).
  set (vl := Z.of_nat (length (arg_vnet arg))) in *. set (el := Z.of_nat (length (arg_eth arg))) in *.
  set (v := clone_vnet b (arg_vnet arg)) in *. set (i2 := put_buf (taken i n 1 0) n vl el v (clone_eth i b (arg_eth arg))) in *.
  set (i3 := put_buf (taken i n 1 0) n vl el v e).
  assert (Ei : edit i2 n (uip_dhcp_make_pkg i2 t) = Ret i3) by exact (edit_put_buf _ n _ _ _ _ _ _ _ Lk1 E1).
  assert (P3 : pool_ok i3) by (apply (put_buf_ok _ n _ _ _ _ _ P1 Lk1); cbn; [now apply (length_clone_vnet i)|congruence|exact Be]).
  pose proof (lookup_put_buf _ n _ vl el v e Lk1) as Lk3. fold i3 in Lk3.
  assert (Sl := ip_len_of_take 42 e' _ _ _ _ _ _ _ (length_eth_header i (ok_mac i P)) ltac:(lia) (rf_head _ _ _ _ _ _ RF)).
  pose proof (make_pkg_spec i3 n _ (dhcp_socket i) None _ e' 576 P3 Lk3 E2 (rf_len _ _ _ _ _ _ RF) Sl ltac:(split; [discriminate|reflexivity])) as Mk.
  destruct (pkg_answered i3 n _ (vnet_hdr_len i) (576 + 14) (replicate (Z.to_nat (vnet_hdr_len i)) 0) e' P3 Lk3 eq_refl)
    as (P4 & U & Lk4); [rewrite length_replicate; cbn; lia|apply RF|apply RF|].
  exists n, b. eexists _, c, c', _, _, e'. split.
  { unfold uip_tx_do_ipv4_udp_dhcp, uip_dhcp_is_discovery, uip_dhcp_is_request. rewrite !(dhcp_kind i arg kind R).
    replace (if kind =? UIP_DHCP_DISCOVER then Ret (Some UIP_DHCP_OFFER) else _) with (Ret (Some t)).
    - rewrite E. fold i2. rewrite Ei. change (dhcp_socket i3) with (dhcp_socket i). rewrite Mk. reflexivity.
    - unfold t. destruct K as [-> | ->]; reflexivity. }
  split; [exact P4|]. split; [cbn in U |- *; lia|]. split; [exact Lk4|]. split; [exact Tb|exact RF].
Qed.

Lemma name_tags i : Forall (fun o => fst o <> UIP_DHCP_TAG_END) (name_options i).
Proof.
  unfold name_options. apply Forall_app. split.
  - destruct (domain_name i); [apply Forall_singleton|]; [discriminate|constructor].
  - unfold dns_options. apply Forall_map, Forall_forall. intros ip _. discriminate.
Qed.

Lemma length_names i : names_ok i -> (length (name_options i) <= 4)%nat.
Proof.
  intros [Ld _]. unfold name_options, dns_options. rewrite length_app, length_map.
  pose proof (filter_length_le (fun ip => negb (ip =? 0)) (dns_ip i)) as F. rewrite Ld in F. unfold UIP_DHCP_MAX_DNS_SERVER_NR in F.
  destruct (domain_name i); cbn [length]; lia.
Qed.


Lemma parse_prefix l k fuel : Forall (fun o => fst o <> UIP_DHCP_TAG_END) l -> (k < length (put_options l))%nat ->
  parse_options fuel (take k (put_options l)) = None.
Proof.
  intros F. revert k fuel. unfold put_options. induction F as [|[tag v] l Ht F IH]; intros k fuel H; (destruct fuel as [|fuel]; [reflexivity|]).
  - destruct k; [reflexivity|cbn in H; lia].
  - cbn [map List.concat put_option app]. destruct k as [|[|k]]; [reflexivity| |]; cbn [take parse_options].
    + cbn in Ht. now rewrite (proj2 (Z.eqb_neq _ _) Ht).
    + cbn in Ht. rewrite (proj2 (Z.eqb_neq _ _) Ht), Nat2Z.id.
      destruct (Nat.leb_spec (length v) (length (take k ((v ++ List.concat (map put_option l)) ++ [UIP_DHCP_TAG_END])))) as [L|L]; [|reflexivity].
      rewrite length_take in L. rewrite <- app_assoc. rewrite take_app_ge by lia. rewrite drop_app_length. rewrite IH; [reflexivity|].
      cbn [map List.concat put_option] in H. rewrite !length_app in *. cbn [length] in *. lia.
Qed.

(** With a long domain name and three servers (312 bytes at most) the options do
    not fit into the 308 bytes of the message: it is sent without their end, and a
    client that reads up to the end tag finds none. *)
Theorem dhcp_options_truncated i arg kind (P : pool_ok i) (H : 0 < buf_free_nr i) (N : names_ok i) (R : dhcp_request i arg kind)
  (K : kind = UIP_DHCP_DISCOVER \/ kind = UIP_DHCP_REQUEST)
  (T : (Z.to_nat UIP_DHCP_OPTION_LEN < length (put_options (dhcp_options i (if (kind =? UIP_DHCP_DISCOVER)%Z then UIP_DHCP_OFFER else UIP_DHCP_ACK))))%nat) :
  exists n b i', uip_tx_do_ipv4_udp_dhcp i arg = Ret (0, i') /\ buf_head i' !! n = Some b /\ status b = UIP_BUF_STATUS_USED /\
    forall fuel, parse_options fuel (slice DHCP_OPTION (Z.to_nat UIP_DHCP_OPTION_LEN) (eth b)) = None.
Proof.
  destruct (dhcp_run i arg kind P H N R K) as (n & b0 & i' & c & c' & vlen & v & e' & E & _ & _ & Lk & _ & RF).
  cbv zeta in *. set (t := if kind =? UIP_DHCP_DISCOVER then _ else _) in *. destruct RF as [_ _ _ _ _ _ _ (r & Op)].
  exists n. eexists _, i'. split; [exact E|]. split; [exact Lk|]. split; [reflexivity|]. intros fuel. cbn [eth].
  change (Z.to_nat UIP_DHCP_OPTION_LEN) with 308%nat in *. rewrite Op, take_app_le by lia. apply parse_prefix; [|exact T].
  unfold dhcp_options. apply Forall_app. split; [|apply name_tags]. repeat (apply Forall_cons; split; [discriminate|]). constructor.
Qed.

(** ** Examples *)

Definition demo_udp : uip_udp := mkst demo_info [] 0 [] false [].
Definition demo_sk : uip_udp_socket := mkudp 5 (134744072, 13568) (le_dec [192; 168; 33; 15]) (le_dec [8; 8; 8; 8]) (htons 4000) (htons 53).

Lemma udp_datagram_delivered_witness : exists n b s' c c', uip_udp_receive demo_udp demo_sk (Some (replicate 240 1)) = Ret s' /\
  buf_head (u_info s') !! n = Some b /\ verifies (flow_ip demo_info demo_sk 248 c) /\ udp_ip_len 248 = 12 /\
  take 282 (eth b) = eth_header demo_info ++ flow_ip demo_info demo_sk 248 c ++ udp_header (htons 53) (htons 4000) 248 c' ++ replicate 240 1.
Proof.
  destruct (udp_datagram_delivered demo_udp demo_sk (replicate 240 1) demo_pool eq_refl) as (n & b & s' & c & c' & E & _ & _ & Lk & _ & Tk & V & _);
    [apply byte_ok_check; reflexivity|rewrite length_replicate; lia|].
  exists n, b, s', c, c'. split; [exact E|]. split; [exact Lk|]. split; [exact V|]. split; [reflexivity|exact Tk].
Defined.

Lemma udp_datagram_overflow_witness : uip_udp_receive demo_udp demo_sk (Some (replicate (Z.to_nat 65500) 1)) = Ub.
Proof.
  apply (udp_datagram_overflow demo_udp demo_sk _ demo_pool eq_refl).
  - apply Forall_replicate. unfold fits. lia.
  - rewrite length_replicate. unfold UIP_MAX_UDP_PAYLOAD. lia.
Defined.

(** A request for [kind] with the network that [set_names] gives. *)
Definition demo_dhcp (kind : Z) : uip_tx_arg := mkarg (replicate 10 0) (replicate 282 1 ++ [53; 1; kind]).

Lemma demo_dhcp_ok i kind : vnet_hdr_len i = 10 -> fits 8 kind -> dhcp_request i (demo_dhcp kind) kind.
Proof.
  intros V F. assert (L : length (arg_eth (demo_dhcp kind)) = 285%nat) by reflexivity. constructor.
  - split; [rewrite V; cbn; lia|rewrite L; unfold ETH_BUF; lia].
  - rewrite L. lia.
  - cbn [arg_eth demo_dhcp]. apply Forall_app. split; [apply byte_ok_check; reflexivity|].
    repeat (apply Forall_cons; split; [first [exact F|unfold fits; lia]|]). constructor.
  - reflexivity.
Qed.

Definition demo_named (d : list Z) : uip_info := set_names demo_info [134744072; 134743044; 16843009] (Some d).

Lemma demo_named_ok d : (length d <= 255)%nat -> byte_ok d -> pool_ok (demo_named d) /\ names_ok (demo_named d).
Proof.
  intros L B. split; [destruct demo_pool; now constructor|]. split; [reflexivity|]. intros d' [= <-]. now split.
Qed.


Lemma dhcp_options_truncated_witness : exists n b i', uip_tx_do_ipv4_udp_dhcp (demo_named (replicate 255 97)) (demo_dhcp 3) = Ret (0, i') /\
  buf_head i' !! n = Some b /\ parse_options 1000 (slice DHCP_OPTION 308 (eth b)) = None.
Proof.
  destruct (demo_named_ok (replicate 255 97) ltac:(rewrite length_replicate; lia) ltac:(apply byte_ok_check; reflexivity)) as [P N].
  destruct (dhcp_options_truncated (demo_named (replicate 255 97)) (demo_dhcp 3) 3 P eq_refl N (demo_dhcp_ok (demo_named (replicate 255 97)) 3 eq_refl ltac:(unfold fits; lia)) (or_intror eq_refl))
    as (n & b & i' & E & Lk & _ & O); [apply Nat.ltb_lt; vm_compute; reflexivity|].
  exists n, b, i'. split; [exact E|]. split; [exact Lk|]. apply O.
Defined.
