(* ===== verification/UipTcp.v ===== *)
(** * The user-mode network stack: the TCP relay

    [net/uip/tcp.c]. The sockets are a store, so that one that has been freed can still
    be referred to (and is then undefined to use); the lock that the sockets share can
    be held, and locking it again is a wait that never ends ([NoFuel]). The endless loop
    of the receive thread is a machine with the program points where it can be preempted. *)
From S2P Require Import Prelude UipNet UipFrame.
Open Scope Z_scope.

Definition UIP_MAX_TCP_PAYLOAD : Z := 64 * 1024 - 20 - 20 - 1.
Definition UIP_TCP_HDR_LEN : Z := 80.
Definition UIP_TCP_WIN_SIZE : Z := 14600.
Definition UIP_TCP_FLAG_FIN : Z := 1.
Definition UIP_TCP_FLAG_SYN : Z := 2.
Definition UIP_TCP_FLAG_ACK : Z := 16.

Definition TCP_SPORT : nat := 34.
Definition TCP_DPORT : nat := 36.
Definition TCP_SEQ : nat := 38.
Definition TCP_ACK : nat := 42.
Definition TCP_OFF : nat := 46.
Definition TCP_FLG : nat := 47.
Definition TCP_WIN : nat := 48.
Definition TCP_CSUM : nat := 50.
Definition TCP_URGENT : nat := 52.

(** ** Reading a segment ([uip.h]) *)

Definition uip_tcp_hdrlen (f : list Z) : out Z := let! off := get 1 TCP_OFF f in Ret (u16 ((off .>> 4) * 4)).

Definition uip_tcp_len (f : list Z) : out Z :=
  let! len := get 2 IP_LEN f in
  let! n := uip_ip_hdrlen f in
  Ret (u16 (htons len - n)).

Definition uip_tcp_payloadlen (f : list Z) : out Z :=
  let! len := uip_tcp_len f in
  let! n := uip_tcp_hdrlen f in
  Ret (u16 (len - n)).

Definition uip_tcp_is_syn (f : list Z) : out bool := let! flg := get 1 TCP_FLG f in Ret (negb (flg .& UIP_TCP_FLAG_SYN =? 0)).
Definition uip_tcp_is_fin (f : list Z) : out bool := let! flg := get 1 TCP_FLG f in Ret (negb (flg .& UIP_TCP_FLAG_FIN =? 0)).
Definition uip_tcp_isn (f : list Z) : out Z := let! seq := get 4 TCP_SEQ f in Ret (ntohl seq).
Definition uip_tcp_isn_alloc : Z := 10000000.

(** ** State *)

Record uip_tcp_socket := mktcp {
  ts_fd : Z;
  ts_addr : Z * Z;
  ts_sip : Z; ts_dip : Z; ts_sport : Z; ts_dport : Z;
  guest_acked : Z;
  window_size : Z;
  isn_server : Z;
  isn_guest : Z;
  ack_server : Z;
  seq_server : Z;
  write_done : bool;
  read_done : bool;
  ts_thread : bool;
}.

Inductive tcp_call :=
| TConnect (fd : Z) (addr : Z * Z)
| TWrite (fd : Z) (data : list Z)
| TShutdown (fd how : Z)
| TClose (fd : Z).

Definition SHUT_RD : Z := 0.
Definition SHUT_WR : Z := 1.
Definition SHUT_RDWR : Z := 2.

Record uip_tcp := mkts {
  t_info : uip_info;
  tcp_sockets : gmap nat uip_tcp_socket;
  tcp_socket_head : list nat;
  tcp_socket_lock : bool;
  tcp_calls : list tcp_call;
}.

Definition set_tinfo (s : uip_tcp) (i : uip_info) : uip_tcp := mkts i (tcp_sockets s) (tcp_socket_head s) (tcp_socket_lock s) (tcp_calls s).
Definition set_sockets (s : uip_tcp) (m : gmap nat uip_tcp_socket) : uip_tcp := mkts (t_info s) m (tcp_socket_head s) (tcp_socket_lock s) (tcp_calls s).
Definition set_head (s : uip_tcp) (l : list nat) : uip_tcp := mkts (t_info s) (tcp_sockets s) l (tcp_socket_lock s) (tcp_calls s).
Definition set_lock (s : uip_tcp) (b : bool) : uip_tcp := mkts (t_info s) (tcp_sockets s) (tcp_socket_head s) b (tcp_calls s).
Definition call (s : uip_tcp) (c : tcp_call) : uip_tcp := mkts (t_info s) (tcp_sockets s) (tcp_socket_head s) (tcp_socket_lock s) (tcp_calls s ++ [c]).

Definition mutex_lock (s : uip_tcp) : out uip_tcp := if tcp_socket_lock s then NoFuel else Ret (set_lock s true).
Definition mutex_unlock (s : uip_tcp) : uip_tcp := set_lock s false.

(** A socket that has been freed must not be touched. *)
Definition sk_get (s : uip_tcp) (k : nat) : out uip_tcp_socket := match tcp_sockets s !! k with Some sk => Ret sk | None => Ub end.
Definition sk_put (s : uip_tcp) (k : nat) (sk : uip_tcp_socket) : uip_tcp := set_sockets s (<[k := sk]> (tcp_sockets s)).

Definition with_seq (sk : uip_tcp_socket) (ack seq : Z) : uip_tcp_socket :=
  mktcp (ts_fd sk) (ts_addr sk) (ts_sip sk) (ts_dip sk) (ts_sport sk) (ts_dport sk) (guest_acked sk) (window_size sk)
    (isn_server sk) (isn_guest sk) ack seq (write_done sk) (read_done sk) (ts_thread sk).
Definition with_window (sk : uip_tcp_socket) (acked win : Z) : uip_tcp_socket :=
  mktcp (ts_fd sk) (ts_addr sk) (ts_sip sk) (ts_dip sk) (ts_sport sk) (ts_dport sk) acked win
    (isn_server sk) (isn_guest sk) (ack_server sk) (seq_server sk) (write_done sk) (read_done sk) (ts_thread sk).
Definition with_isn (sk : uip_tcp_socket) (guest server : Z) : uip_tcp_socket :=
  mktcp (ts_fd sk) (ts_addr sk) (ts_sip sk) (ts_dip sk) (ts_sport sk) (ts_dport sk) (guest_acked sk) (window_size sk)
    server guest (u32 (guest + 1)) server (write_done sk) (read_done sk) (ts_thread sk).
Definition with_done (sk : uip_tcp_socket) (w r th : bool) : uip_tcp_socket :=
  mktcp (ts_fd sk) (ts_addr sk) (ts_sip sk) (ts_dip sk) (ts_sport sk) (ts_dport sk) (guest_acked sk) (window_size sk)
    (isn_server sk) (isn_guest sk) (ack_server sk) (seq_server sk) w r th.

(** ** Closing and finding sockets *)

Definition uip_tcp_socket_close (s : uip_tcp) (k : nat) (how : Z) : out uip_tcp :=
  let! sk := sk_get s k in
  let s := call s (TShutdown (ts_fd sk) how) in
  if write_done sk && read_done sk then
    let s := call (call s (TShutdown (ts_fd sk) SHUT_RDWR)) (TClose (ts_fd sk)) in
    let! s := mutex_lock s in
    let s := set_head s (List.filter (fun j => negb (j =? k)%nat) (tcp_socket_head s)) in
    let s := mutex_unlock s in
    Ret (set_sockets s (delete k (tcp_sockets s)))
  else Ret s.

Definition same_conn (sk : uip_tcp_socket) (sip dip sport dport : Z) : bool :=
  (ts_sip sk =? sip) && (ts_dip sk =? dip) && (ts_sport sk =? sport) && (ts_dport sk =? dport).

Fixpoint find_conn (m : gmap nat uip_tcp_socket) (l : list nat) (sip dip sport dport : Z) : out (option nat) :=
  match l with
  | [] => Ret None
  | k :: l =>
      match m !! k with
      | Some sk => if same_conn sk sip dip sport dport then Ret (Some k) else find_conn m l sip dip sport dport
      | None => Ub
      end
  end.

Definition uip_tcp_socket_find (s : uip_tcp) (sip dip sport dport : Z) : out (option nat) :=
  if tcp_socket_lock s then NoFuel else find_conn (tcp_sockets s) (tcp_socket_head s) sip dip sport dport.

(** What the host answers: the new descriptor, whether [connect], [malloc] and
    [pthread_create] succeed, and what [write] returns. *)
Record host_answers := mkans { a_fd : Z; a_connect : bool; a_malloc : bool; a_thread : bool; a_write : list Z -> Z }.

Definition LOCALHOST : Z := le_dec [127; 0; 0; 1].

Definition uip_tcp_socket_alloc (h : host_answers) (s : uip_tcp) (f : list Z) (sip dip sport dport : Z) : out (option nat * uip_tcp) :=
  let addr := (if ntohl dip =? host_ip (t_info s) then LOCALHOST else dip, u16 dport) in
  let s := call s (TConnect (a_fd h) addr) in
  if a_connect h then
    let! fsip := get 4 IP_SIP f in
    let! fdip := get 4 IP_DIP f in
    let! fsport := get 2 TCP_SPORT f in
    let! fdport := get 2 TCP_DPORT f in
    let k := fresh (dom (tcp_sockets s)) in
    let sk := mktcp (a_fd h) addr fsip fdip fsport fdport 0 0 0 0 0 0 false false false in
    let! s := mutex_lock s in
    let s := set_head s (tcp_socket_head s ++ [k]) in
    let s := mutex_unlock s in
    Ret (Some k, sk_put s k sk)
  else Ret (None, s).

(** ** Segments for the guest *)

(** The frame of a segment: [payload_len] bytes at [sk->payload]. *)
Definition make_tcp (i : uip_info) (sk : uip_tcp_socket) (flag : Z) (payload e : list Z) : out (list Z) :=
  let! e := cook_hdr i UIP_IP_P_TCP (ts_dip sk) (ts_sip sk) e in
  let! e := put 2 TCP_SPORT (ts_dport sk) e in
  let! e := put 2 TCP_DPORT (ts_sport sk) e in
  let! e := put 4 TCP_SEQ (htonl (seq_server sk)) e in
  let! e := put 4 TCP_ACK (htonl (ack_server sk)) e in
  let! e := put 1 TCP_OFF UIP_TCP_HDR_LEN e in
  let! e := put 1 TCP_FLG flag e in
  let! e := put 2 TCP_WIN (htons UIP_TCP_WIN_SIZE) e in
  let! e := put 2 TCP_CSUM 0 e in
  let! e := put 2 TCP_URGENT 0 e in
  let! n := uip_tcp_hdrlen e in
  let! e := if 0 <? Z.of_nat (length payload) then put_bytes (TCP_SPORT + Z.to_nat n) payload e else Ret e in
  let! m := uip_ip_hdrlen e in
  let! e := put 2 IP_LEN (htons (u16 (n + Z.of_nat (length payload) + m))) e in
  let! c := uip_csum_ip e in
  let! e := put 2 IP_CSUM c e in
  let! (c, e) := uip_csum_tcp e in
  put 2 TCP_CSUM c e.

Definition uip_tcp_payload_send (s : uip_tcp) (k : nat) (flag : Z) (payload : list Z) : out uip_tcp :=
  let! sk := sk_get s k in
  let! (n, b, i) := the_buf (uip_buf_get_free (t_info s)) in
  let! e := make_tcp i sk flag payload (eth b) in
  let! v := put_bytes 0 (replicate (Z.to_nat (vnet_hdr_len i)) 0) (vnet b) in
  let! len := get 2 IP_LEN e in
  let i := put_buf i n (vnet_hdr_len i) (ntohs len + 14) v e in
  let s := sk_put s k (with_seq sk (ack_server sk) (u32 (seq_server sk + Z.of_nat (length payload)))) in
  Ret (set_tinfo s (uip_buf_set_used i n)).

(** ** The receive thread *)

Inductive tcp_pc :=
| TRead
| TSend (rest : list Z)
| TOut
| TFin
| TLast
| TExit.

(** How much may be sent: [int] arithmetic on the 32-bit difference. *)
Definition tcp_room (sk : uip_tcp_socket) : Z := s32 (guest_acked sk + window_size sk - seq_server sk).

Definition tcp_chunk (sk : uip_tcp_socket) (rest : list Z) : Z :=
  let len := tcp_room sk in
  let len := if Z.of_nat (length rest) <? len then Z.of_nat (length rest) else len in
  if UIP_MAX_TCP_PAYLOAD <? len then UIP_MAX_TCP_PAYLOAD else len.

(** One round of the inner loop; without room in the window the thread waits. *)
Definition thread_send (s : uip_tcp) (k : nat) (rest : list Z) : out (list Z * list Z * uip_tcp) :=
  let! s := mutex_lock s in
  let! sk := sk_get s k in
  if tcp_room sk <=? 0 then NoFuel
  else
    let s := mutex_unlock s in
    let n := Z.to_nat (tcp_chunk sk rest) in
    let! s := uip_tcp_payload_send s k UIP_TCP_FLAG_ACK (firstn n rest) in
    Ret (firstn n rest, skipn n rest, s).

(** [data] is what [read] returns: nothing for an error or the end of the stream. *)
Definition uip_tcp_socket_thread (s : uip_tcp) (k : nat) (pc : tcp_pc) (data : list Z) : out (tcp_pc * uip_tcp) :=
  match pc with
  | TRead =>
      let ret := Z.of_nat (length data) in
      if (ret <=? 0) || (UIP_MAX_TCP_PAYLOAD <? ret) then Ret (TOut, s) else Ret (TSend data, s)
  | TSend rest =>
      match rest with
      | [] => Ret (TRead, s)
      | _ => let! (_, rest, s) := thread_send s k rest in Ret (TSend rest, s)
      end
  | TOut => let! s := uip_tcp_socket_close s k SHUT_RD in Ret (TFin, s)
  | TFin =>
      let! s := uip_tcp_payload_send s k (UIP_TCP_FLAG_FIN .| UIP_TCP_FLAG_ACK) [] in
      let! sk := sk_get s k in
      Ret (TLast, sk_put s k (with_seq sk (ack_server sk) (u32 (seq_server sk + 1))))
  | TLast =>
      let! sk := sk_get s k in
      Ret (TExit, sk_put s k (with_done sk (write_done sk) true (ts_thread sk)))
  | TExit => Ret (TExit, s)
  end.

Definition uip_tcp_socket_receive (h : host_answers) (s : uip_tcp) (k : nat) : out (Z * uip_tcp) :=
  let! sk := sk_get s k in
  if ts_thread sk then Ret (0, s)
  else if negb (a_malloc h) then Ret (-12, s)
  else if a_thread h then Ret (0, sk_put s k (with_done sk (write_done sk) (read_done sk) true))
  else Ret (11, s).

(** ** Segments of the guest *)

Definition uip_tcp_socket_send (h : host_answers) (s : uip_tcp) (k : nat) (f : list Z) : out (Z * uip_tcp) :=
  let! sk := sk_get s k in
  if write_done sk then Ret (0, s)
  else
    let! n := uip_tcp_hdrlen f in
    let! len := uip_tcp_payloadlen f in
    let! data := bytes_at (TCP_SPORT + Z.to_nat n) (Z.to_nat len) f in
    let ret := a_write h data in
    Ret (ret, if 0 <=? ret then call s (TWrite (ts_fd sk) (firstn (Z.to_nat ret) data)) else s).

(** A connection request is answered with a faked SYN-ACK. *)
Definition tcp_syn (h : host_answers) (s : uip_tcp) (f : list Z) : out (Z * uip_tcp) :=
  let! sip := get 4 IP_SIP f in
  let! dip := get 4 IP_DIP f in
  let! sport := get 2 TCP_SPORT f in
  let! dport := get 2 TCP_DPORT f in
  let! (o, s) := uip_tcp_socket_alloc h s f sip dip sport dport in
  match o with
  | None => Ret (-1, s)
  | Some k =>
      let! sk := sk_get s k in
      let! win := get 2 TCP_WIN f in
      let! isn := uip_tcp_isn f in
      let s := sk_put s k (with_isn (with_window sk (guest_acked sk) (ntohs win)) isn uip_tcp_isn_alloc) in
      let! s := uip_tcp_payload_send s k (UIP_TCP_FLAG_SYN .| UIP_TCP_FLAG_ACK) [] in
      let! sk := sk_get s k in
      let s := sk_put s k (with_seq sk (ack_server sk) (u32 (seq_server sk + 1))) in
      let! (_, s) := uip_tcp_socket_receive h s k in
      Ret (0, s)
  end.

(** A segment of a connection that exists. *)
Definition tcp_segment (h : host_answers) (s : uip_tcp) (k : nat) (f : list Z) : out (Z * uip_tcp) :=
  let! win := get 2 TCP_WIN f in
  let! ack := get 4 TCP_ACK f in
  let! s := mutex_lock s in
  let! sk := sk_get s k in
  let s := mutex_unlock (sk_put s k (with_window sk (ntohl ack) (ntohs win))) in
  let! fin := uip_tcp_is_fin f in
  if fin then
    if write_done sk then Ret (0, s)
    else
      let! sk := sk_get s k in
      let s := sk_put s k (with_seq (with_done sk true (read_done sk) (ts_thread sk)) (u32 (ack_server sk + 1)) (seq_server sk)) in
      let! s := uip_tcp_payload_send s k UIP_TCP_FLAG_ACK [] in
      let! s := uip_tcp_socket_close s k SHUT_WR in
      Ret (0, s)
  else
    let! len := uip_tcp_payloadlen f in
    if len =? 0 then Ret (0, s)
    else
      let! (ret, s) := uip_tcp_socket_send h s k f in
      if ret <? 0 then Ret (-1, s)
      else
        let! sk := sk_get s k in
        let s := sk_put s k (with_seq sk (u32 (ack_server sk + ret)) (seq_server sk)) in
        let! s := uip_tcp_payload_send s k UIP_TCP_FLAG_ACK [] in
        Ret (0, s).

Definition uip_tx_do_ipv4_tcp (h : host_answers) (s : uip_tcp) (arg : uip_tx_arg) : out (Z * uip_tcp) :=
  let f := arg_eth arg in
  let! syn := uip_tcp_is_syn f in
  if syn then tcp_syn h s f
  else
    let! sip := get 4 IP_SIP f in
    let! dip := get 4 IP_DIP f in
    let! sport := get 2 TCP_SPORT f in
    let! dport := get 2 TCP_DPORT f in
    let! o := uip_tcp_socket_find s sip dip sport dport in
    match o with
    | None => Ret (-1, s)
    | Some k => tcp_segment h s k f
    end.

(** ** The end *)

(** The thread is cancelled and joined first. *)
Definition uip_tcp_socket_free (s : uip_tcp) (k : nat) : out uip_tcp :=
  let! sk := sk_get s k in
  uip_tcp_socket_close (sk_put s k (with_done sk true true false)) k SHUT_RDWR.

Fixpoint free_all (s : uip_tcp) (l : list nat) : out uip_tcp :=
  match l with
  | [] => Ret s
  | k :: l => let! s := uip_tcp_socket_free s k in free_all s l
  end.

Definition uip_tcp_exit (s : uip_tcp) : out uip_tcp :=
  let! s := mutex_lock s in
  let! s := free_all s (tcp_socket_head s) in
  Ret (mutex_unlock s).

(** ** The frame of a segment *)

Definition tcp_header (sport dport seq ack flag csum : Z) : list Z :=
  le_enc 2 sport ++ le_enc 2 dport ++ be_enc 4 seq ++ be_enc 4 ack ++ [80; flag] ++ be_enc 2 UIP_TCP_WIN_SIZE ++ le_enc 2 csum ++ [0; 0].

Lemma tcp_shape_hdr i sport dport seq ack flag sip dip e : length (host_mac i) = 6%nat -> length (guest_mac i) = 6%nat ->
  (54 <= length e)%nat -> fits 8 flag ->
  (let! e := cook_hdr i UIP_IP_P_TCP sip dip e in
   let! e := put 2 TCP_SPORT sport e in
   let! e := put 2 TCP_DPORT dport e in
   let! e := put 4 TCP_SEQ (htonl seq) e in
   let! e := put 4 TCP_ACK (htonl ack) e in
   let! e := put 1 TCP_OFF UIP_TCP_HDR_LEN e in
   let! e := put 1 TCP_FLG flag e in
   let! e := put 2 TCP_WIN (htons UIP_TCP_WIN_SIZE) e in
   let! e := put 2 TCP_CSUM 0 e in
   put 2 TCP_URGENT 0 e) =
  Ret ((eth_header i ++ [69; 0] ++ slice IP_LEN 2 e ++ [0; 0; 0; 0; 64; UIP_IP_P_TCP] ++ [0; 0] ++ le_enc 4 sip ++ le_enc 4 dip ++
        tcp_header sport dport seq ack flag 0) ++ drop 54 e).
Proof.
  intros M G H F. rewrite cook_hdr_spec by (try assumption; try lia; unfold fits, UIP_IP_P_TCP; lia). unfold put. rewrite !le_enc_htonl, le_enc_htons.
  assert (E1 : le_enc 1 flag = [flag]) by (cbn; now rewrite wrap_id). rewrite E1.
  unfold eth_header. destruct (host_mac i) as [|m0 [|m1 [|m2 [|m3 [|m4 [|m5 [|]]]]]]]; try discriminate.
  destruct (guest_mac i) as [|g0 [|g1 [|g2 [|g3 [|g4 [|g5 [|]]]]]]]; try discriminate.
  do 54 explode e H. reflexivity.
Qed.

Lemma tcp_shape_len i sport dport seq ack flag sip dip x y len : length (host_mac i) = 6%nat -> length (guest_mac i) = 6%nat ->
  length x = 2%nat ->
  let e := (eth_header i ++ [69; 0] ++ x ++ [0; 0; 0; 0; 64; UIP_IP_P_TCP] ++ [0; 0] ++ le_enc 4 sip ++ le_enc 4 dip ++
             tcp_header sport dport seq ack flag 0) ++ y in
  uip_tcp_hdrlen e = Ret 20 /\ uip_ip_hdrlen e = Ret 20 /\
  put 2 IP_LEN (htons len) e =
    Ret (eth_header i ++ ip_header len UIP_IP_P_TCP sip dip 0 ++ tcp_header sport dport seq ack flag 0 ++ y).
Proof.
  intros M G X. cbv zeta. unfold put, ip_header. rewrite le_enc_htons.
  unfold eth_header. destruct (host_mac i) as [|m0 [|m1 [|m2 [|m3 [|m4 [|m5 [|]]]]]]]; try discriminate.
  destruct (guest_mac i) as [|g0 [|g1 [|g2 [|g3 [|g4 [|g5 [|]]]]]]]; try discriminate.
  destruct x as [|x0 [|x1 [|]]]; try discriminate. repeat split; reflexivity.
Qed.

Lemma tcp_header_zero sport dport seq ack flag body : slice 16 2 (tcp_header sport dport seq ack flag 0 ++ body) = [0; 0].
Proof. reflexivity. Qed.

Lemma tcp_header_csum sport dport seq ack flag c body :
  splice 16 (le_enc 2 c) (tcp_header sport dport seq ack flag 0 ++ body) = tcp_header sport dport seq ack flag c ++ body.
Proof. reflexivity. Qed.

Lemma tcp_proto : fits 8 UIP_IP_P_TCP.
Proof. unfold fits, UIP_IP_P_TCP. lia. Qed.

Section segment.
Context (i : uip_info) (sk : uip_tcp_socket) (flag : Z) (payload e : list Z).
Hypothesis (Hm : length (host_mac i) = 6%nat /\ length (guest_mac i) = 6%nat).
Hypothesis (Hb : byte_ok (host_mac i) /\ byte_ok (guest_mac i)).
Hypothesis (Hf : fits 8 flag).
Hypothesis (Hp : byte_ok payload).
Hypothesis (He : length e = ETH_BUF /\ byte_ok e).
Hypothesis (Hn : Z.of_nat (length payload) <= 65494).

Let n : nat := length payload.
Let tl : Z := Z.of_nat n + 20.
Let seg (c : Z) : list Z := tcp_header (ts_dport sk) (ts_sport sk) (seq_server sk) (ack_server sk) flag c ++ payload.
Let iph : Z -> list Z := ip_header (tl + 20) UIP_IP_P_TCP (ts_dip sk) (ts_sip sk).
Let pseudo : list Z := pseudo_header tl UIP_IP_P_TCP (ts_dip sk) (ts_sip sk).
Let frame : Z -> list Z := framed i (tl + 20) UIP_IP_P_TCP (ts_dip sk) (ts_sip sk) (seg 0) (drop (54 + n) e).

Lemma tcp_fits : (54 + n <= length e)%nat.
Proof. pose proof (proj1 He) as L. unfold n, ETH_BUF in *. lia. Qed.

Lemma length_tcp_seg c : length (seg c) = (20 + n)%nat.
Proof. unfold seg. rewrite length_app. reflexivity. Qed.

Lemma make_tcp_frame : make_tcp i sk flag payload e =
    (let! c := uip_csum_ip (frame 0) in let! e := put 2 IP_CSUM c (frame 0) in
     let! (c, e) := uip_csum_tcp e in put 2 TCP_CSUM c e).
Proof.
  pose proof tcp_fits as H. unfold make_tcp.
  pose proof (tcp_shape_hdr i (ts_dport sk) (ts_sport sk) (seq_server sk) (ack_server sk) flag (ts_dip sk) (ts_sip sk) e
    (proj1 Hm) (proj2 Hm) ltac:(lia) Hf) as S1.
  peel S1. rewrite S1. clear S1.
  pose proof (length_slice IP_LEN 2 e ltac:(unfold IP_LEN; lia)) as Lx.
  set (x := slice IP_LEN 2 e) in *. clearbody x.
  destruct (tcp_shape_len i (ts_dport sk) (ts_sport sk) (seq_server sk) (ack_server sk) flag (ts_dip sk) (ts_sip sk) x (drop 54 e) (tl + 20)
    (proj1 Hm) (proj2 Hm) Lx) as (T1 & _ & _).
  destruct (tcp_shape_len i (ts_dport sk) (ts_sport sk) (seq_server sk) (ack_server sk) flag (ts_dip sk) (ts_sip sk) x (payload ++ drop (54 + n) e) (tl + 20)
    (proj1 Hm) (proj2 Hm) Lx) as (_ & T2 & T3). cbv zeta in *.
  rewrite T1. set (h := eth_header i ++ _) in *.
  assert (Lh : length h = 54%nat) by (unfold h; rewrite !length_app, (length_eth_header i Hm), Lx; reflexivity).
  assert (S2 : (if 0 <? Z.of_nat (length payload) then put_bytes (TCP_SPORT + Z.to_nat 20) payload (h ++ drop 54 e) else Ret (h ++ drop 54 e)) =
    Ret (h ++ payload ++ drop (54 + n) e)).
  { destruct (Z.ltb_spec 0 (Z.of_nat (length payload))) as [L|L].
    - rewrite put_bytes_app; [|exact Lh|rewrite length_drop; unfold n in H; lia]. now rewrite drop_drop.
    - unfold n. destruct payload; [reflexivity|cbn in L; lia]. }
  rewrite S2, T2. rewrite (wrap_id 16) by (unfold fits; lia).
  replace (20 + Z.of_nat (length payload) + 20) with (tl + 20) by (unfold tl, n; lia).
  rewrite T3. unfold frame, framed, seg. now rewrite <- !app_assoc.
Qed.

Lemma length_tcp_frame c : length (frame c) = ETH_BUF.
Proof.
  pose proof tcp_fits as H. unfold frame. rewrite length_framed by assumption. rewrite length_tcp_seg, length_drop. pose proof (proj1 He). lia.
Qed.

Lemma make_tcp_csums : exists c, fits 16 c /\ verifies (iph c) /\
    make_tcp i sk flag payload e = (let! (c, e) := csum_l4 (frame c) pseudo tl in put 2 TCP_CSUM c e).
Proof.
  rewrite make_tcp_frame.
  destruct (framed_csum_ip i (tl + 20) UIP_IP_P_TCP (ts_dip sk) (ts_sip sk) (seg 0) (drop (54 + n) e) Hm Hb tcp_proto) as (c & E & F & V).
  exists c. split; [exact F|]. split; [exact V|]. change (framed i _ _ _ _ _ _ 0) with (frame 0) in E. rewrite E.
  rewrite put_ok by (rewrite length_tcp_frame; flen). unfold frame at 1. rewrite framed_csum by assumption. fold (frame c).
  assert (R : 0 <= tl <= 65515) by (unfold tl, n; lia).
  unfold uip_csum_tcp. destruct (framed_fields i (tl + 20) UIP_IP_P_TCP (ts_dip sk) (ts_sip sk) (seg 0) (drop (54 + n) e) Hm Hb c)
    as (F1 & _ & _ & _ & F5). fold frame in F1, F5. fold (frame c) in F1, F5. rewrite F5, F1.
  rewrite htons_htons by (unfold fits; lia). rewrite wrap_id by (unfold fits; lia). replace (tl + 20 - 20) with tl by lia.
  unfold frame. rewrite framed_pseudo by (first [assumption|unfold fits; lia]). reflexivity.
Qed.

Lemma make_tcp_spec : Z.of_nat n <= 65482 ->
  exists e' c c', make_tcp i sk flag payload e = Ret e' /\ length e' = ETH_BUF /\ byte_ok e' /\
    take (54 + n) e' = eth_header i ++ iph c ++ tcp_header (ts_dport sk) (ts_sport sk) (seq_server sk) (ack_server sk) flag c' ++ payload /\
    verifies (iph c) /\
    verifies (pseudo ++ tcp_header (ts_dport sk) (ts_sport sk) (seq_server sk) (ack_server sk) flag c' ++ payload).
Proof.
  intros N. pose proof tcp_fits as H. destruct make_tcp_csums as (c & F & V & E). destruct He as [Le Be].
  pose proof (length_tcp_seg 0) as Ls.
  assert (Bs : byte_ok (seg 0)).
  { unfold seg, tcp_header, byte_ok. rewrite !Forall_app. repeat apply conj; first [apply le_enc_bytes|apply be_enc_bytes|exact Hp|idtac];
      repeat (apply Forall_cons; split; [first [exact Hf|unfold fits; lia]|]); constructor. }
  assert (Br : byte_ok (drop (54 + n) e)) by now apply Forall_drop.
  assert (Pad : (length (seg_pad (Z.of_nat (length (seg 0)))) + 12 <= length (drop (54 + n) e))%nat).
  { rewrite length_drop, Le, Ls. unfold ETH_BUF, seg_pad. destruct (Z.eqb_spec (Z.of_nat (20 + n) mod 2) 0) as [M|M]; cbn [length]; [lia|].
    assert (Z.of_nat n <> 65482) by (intros N'; apply M; rewrite Nat2Z.inj_add, N'; reflexivity). lia. }
  destruct (framed_csum_l4 i (tl + 20) UIP_IP_P_TCP (ts_dip sk) (ts_sip sk) (seg 0) (drop (54 + n) e) Hm Hb tcp_proto Bs Br c 16)
    as (c2 & f' & E2 & Lf & Bf & Lp & Tk & Vs); [rewrite Ls; lia|exact Pad|now exists 8%nat|rewrite Ls; lia|reflexivity|].
  replace (Z.of_nat (length (seg 0))) with tl in * by (rewrite Ls; unfold tl; lia). rewrite E. fold frame pseudo in E2. rewrite E2.
  exists (splice TCP_CSUM (le_enc 2 c2) f'), c, c2. rewrite put_ok by exact Lp. split; [reflexivity|].
  change (splice (L4 + 16)) with (splice TCP_CSUM) in *. rewrite Ls in Tk. unfold seg in Tk, Vs. rewrite tcp_header_csum in Tk, Vs.
  split; [rewrite Lf; exact (length_tcp_frame c)|]. split; [exact Bf|]. split; [exact Tk|]. split; [exact V|exact Vs].
Qed.

(** A segment as long as the receive thread makes them does not fit. *)
Lemma make_tcp_overflow : 65482 < Z.of_nat n -> make_tcp i sk flag payload e = Ub.
Proof.
  intros N. pose proof tcp_fits as H. destruct make_tcp_csums as (c & _ & _ & E). rewrite E.
  rewrite csum_l4_overflow; [reflexivity|reflexivity|unfold tl; lia|]. rewrite length_tcp_frame.
  unfold tl, ETH_BUF, L4, seg_pad. destruct (Z.eqb_spec ((Z.of_nat n + 20) mod 2) 0) as [M|M]; cbn [length]; [|lia].
  assert (Z.of_nat n <> 65483) by (intros N'; rewrite N' in M; discriminate M). lia.
Qed.
End segment.

Lemma make_tcp_payload_overflow i sk flag payload e : length (host_mac i) = 6%nat /\ length (guest_mac i) = 6%nat -> fits 8 flag ->
  length e = ETH_BUF -> Z.of_nat (length payload) = 65495 -> make_tcp i sk flag payload e = Ub.
Proof.
  intros Hm Hf Le N. unfold make_tcp.
  pose proof (tcp_shape_hdr i (ts_dport sk) (ts_sport sk) (seq_server sk) (ack_server sk) flag (ts_dip sk) (ts_sip sk) e
    (proj1 Hm) (proj2 Hm) ltac:(rewrite Le; unfold ETH_BUF; lia) Hf) as S1.
  peel S1. rewrite S1. clear S1.
  pose proof (length_slice IP_LEN 2 e ltac:(rewrite Le; unfold IP_LEN, ETH_BUF; lia)) as Lx.
  set (x := slice IP_LEN 2 e) in *. clearbody x.
  destruct (tcp_shape_len i (ts_dport sk) (ts_sport sk) (seq_server sk) (ack_server sk) flag (ts_dip sk) (ts_sip sk) x (drop 54 e) 0
    (proj1 Hm) (proj2 Hm) Lx) as (T1 & _ & _). cbv zeta in T1. rewrite T1. set (h := eth_header i ++ _).
  assert (Lh : length h = 54%nat) by (unfold h; rewrite !length_app, (length_eth_header i Hm), Lx; reflexivity).
  rewrite (proj2 (Z.ltb_lt _ _)) by lia. unfold put_bytes. rewrite (proj2 (Nat.leb_gt _ _)); [reflexivity|].
  rewrite length_app, Lh, length_drop, Le. unfold TCP_SPORT, ETH_BUF. lia.
Qed.

(** ** One step of the relay at a time *)

Lemma sk_get_ret s k sk : sk_get s k = Ret sk <-> tcp_sockets s !! k = Some sk.
Proof. unfold sk_get. destruct (tcp_sockets s !! k); split; congruence. Qed.

Lemma mutex_lock_ret s s' : mutex_lock s = Ret s' -> tcp_socket_lock s = false /\ s' = set_lock s true.
Proof. unfold mutex_lock. destruct (tcp_socket_lock s); [discriminate|]. intros [= <-]. now split. Qed.

(** What sending a segment does to the sockets. *)
Lemma payload_send_inv s k flag payload s' : uip_tcp_payload_send s k flag payload = Ret s' ->
  exists sk, tcp_sockets s !! k = Some sk /\
    tcp_sockets s' = <[k := with_seq sk (ack_server sk) (u32 (seq_server sk + Z.of_nat (length payload)))]> (tcp_sockets s) /\
    tcp_socket_head s' = tcp_socket_head s /\ tcp_socket_lock s' = tcp_socket_lock s /\ tcp_calls s' = tcp_calls s.
Proof.
  unfold uip_tcp_payload_send. destruct (sk_get s k) as [sk| |] eqn:G; [|discriminate..]. apply sk_get_ret in G.
  destruct (the_buf _) as [[[n b] i]| |]; [|discriminate..]. destruct (make_tcp _ _ _ _ _) as [e| |]; [|discriminate..].
  destruct (put_bytes _ _ _) as [v| |]; [|discriminate..]. destruct (get _ _ _) as [len| |]; [|discriminate..].
  intros [= <-]. exists sk. repeat split. exact G.
Qed.

Lemma close_inv s k how s' : uip_tcp_socket_close s k how = Ret s' ->
  exists sk, tcp_sockets s !! k = Some sk /\
    if write_done sk && read_done sk
    then tcp_socket_lock s = false /\ tcp_sockets s' = delete k (tcp_sockets s) /\
         tcp_socket_head s' = List.filter (fun j => negb (j =? k)%nat) (tcp_socket_head s) /\ tcp_socket_lock s' = false /\
         tcp_calls s' = tcp_calls s ++ [TShutdown (ts_fd sk) how; TShutdown (ts_fd sk) SHUT_RDWR; TClose (ts_fd sk)]
    else s' = call s (TShutdown (ts_fd sk) how).
Proof.
  unfold uip_tcp_socket_close. destruct (sk_get s k) as [sk| |] eqn:G; [|discriminate..]. apply sk_get_ret in G.
  intros H. exists sk. split; [exact G|]. destruct (write_done sk && read_done sk); [|now injection H as <-].
  unfold mutex_lock in H. cbn [call tcp_socket_lock] in H. destruct (tcp_socket_lock s); [discriminate|]. injection H as <-.
  repeat split. cbn [call set_lock set_head set_sockets mutex_unlock tcp_calls]. now rewrite <- !app_assoc.
Qed.

Lemma ret_pair {A B} (a c : A) (b d : B) : Ret (a, b) = Ret (c, d) -> c = a /\ d = b.
Proof. intros [= <- <-]. now split. Qed.

(** Properties of a socket that the other side's operations preserve, as long as they do
    not free it: a first FIN must not find the thread finished. *)
Record stable (Q : uip_tcp_socket -> Prop) : Prop := {
  st_window sk a w : Q sk -> Q (with_window sk a w);
  st_ack sk a : Q sk -> Q (with_seq sk a (seq_server sk));
  st_send sk a : Q sk -> Q (with_seq sk a (u32 (seq_server sk + 0)));
  st_fin sk a : Q sk -> write_done sk = false -> Q (with_seq (with_done sk true (read_done sk) (ts_thread sk)) a (seq_server sk));
  st_open sk : Q sk -> write_done sk = false -> read_done sk = false;
}.

Section alive.
Context (Q : uip_tcp_socket -> Prop) (HQ : stable Q) (k : nat).

Definition alive (s : uip_tcp) : Prop := (exists sk, tcp_sockets s !! k = Some sk /\ Q sk) /\ In k (tcp_socket_head s).

Lemma alive_same s s' : tcp_sockets s' = tcp_sockets s -> tcp_socket_head s' = tcp_socket_head s -> alive s -> alive s'.
Proof. unfold alive. now intros -> ->. Qed.

Lemma alive_put j s sk0 sk' : tcp_sockets s !! j = Some sk0 -> (Q sk0 -> Q sk') -> alive s -> alive (sk_put s j sk').
Proof.
  intros L H [(sk & Lk & Hq) I]. split; [|exact I]. cbn. destruct (decide (k = j)) as [<-|N].
  - exists sk'. rewrite lookup_insert_eq. split; [reflexivity|]. apply H. congruence.
  - exists sk. now rewrite lookup_insert_ne by congruence.
Qed.

Lemma alive_send j s flag s' : uip_tcp_payload_send s j flag [] = Ret s' -> alive s -> alive s'.
Proof.
  intros E A. destruct (payload_send_inv _ _ _ _ _ E) as (sk & L & S & Hh & _). apply (alive_same (sk_put s j (with_seq sk (ack_server sk) (u32 (seq_server sk + 0))))).
  - exact S.
  - exact Hh.
  - apply (alive_put j s sk); [exact L|apply (st_send Q HQ)|exact A].
Qed.

(** Closing frees only what is done on both sides. *)
Lemma alive_close j s how s' : uip_tcp_socket_close s j how = Ret s' ->
  (j = k -> forall sk, tcp_sockets s !! k = Some sk -> write_done sk && read_done sk = false) -> alive s -> alive s'.
Proof.
  intros E N A. destruct (close_inv _ _ _ _ E) as (sk & L & H). destruct (write_done sk && read_done sk) eqn:D; [|subst s'; now apply (alive_same s)].
  destruct H as (_ & S & Hh & _). assert (J : j <> k) by (intros ->; rewrite (N eq_refl sk L) in D; discriminate).
  destruct A as [(sk0 & L0 & Hq) I]. split.
  - exists sk0. rewrite S, lookup_delete_ne by exact J. now split.
  - rewrite Hh. apply filter_In. split; [exact I|]. now apply negb_true_iff, Nat.eqb_neq.
Qed.

(** Changes to other sockets only. *)
Lemma alive_other j s s' : j <> k -> (forall i, i <> j -> tcp_sockets s' !! i = tcp_sockets s !! i) ->
  (In k (tcp_socket_head s) -> In k (tcp_socket_head s')) -> alive s -> alive s'.
Proof. intros N H Hh [(sk & L & Hq) I]. split; [|now apply Hh]. exists sk. now rewrite H by congruence. Qed.
End alive.

(** Opening a do-block whose result is known. *)
Ltac outs H := repeat match type of H with
  | (match ?A with Ret _ => _ | Ub => _ | NoFuel => _ end) = Ret _ =>
      let E := fresh "E" in destruct A eqn:E; [|discriminate H|discriminate H]
  end.

Lemma alloc_inv h s f sip dip sport dport o s' : uip_tcp_socket_alloc h s f sip dip sport dport = Ret (o, s') ->
  match o with
  | None => tcp_sockets s' = tcp_sockets s /\ tcp_socket_head s' = tcp_socket_head s
  | Some j => tcp_sockets s !! j = None /\ (forall i, i <> j -> tcp_sockets s' !! i = tcp_sockets s !! i) /\
              tcp_socket_head s' = tcp_socket_head s ++ [j]
  end.
Proof.
  unfold uip_tcp_socket_alloc. intros H. destruct (a_connect h); [|apply ret_pair in H as [-> ->]; now split].
  outs H. apply ret_pair in H as [-> ->]. match goal with M : mutex_lock _ = Ret _ |- _ => apply mutex_lock_ret in M as [_ ->] end.
  split; [apply not_elem_of_dom, is_fresh|]. split; [|reflexivity].
  intros i Hi. cbn [sk_put set_sockets tcp_sockets mutex_unlock set_lock set_head call].
  apply lookup_insert_ne. exact (not_eq_sym Hi).
Qed.

Lemma socket_send_inv h s j f x s' : uip_tcp_socket_send h s j f = Ret (x, s') ->
  tcp_sockets s' = tcp_sockets s /\ tcp_socket_head s' = tcp_socket_head s.
Proof.
  unfold uip_tcp_socket_send. intros H. outs H. destruct (write_done a); [now apply ret_pair in H as [_ ->]|]. outs H.
  apply ret_pair in H as [_ ->]. now destruct (0 <=? _).
Qed.

Lemma send_other j s flag p s' : uip_tcp_payload_send s j flag p = Ret s' ->
  (forall i, i <> j -> tcp_sockets s' !! i = tcp_sockets s !! i) /\ tcp_socket_head s' = tcp_socket_head s.
Proof.
  intros E. destruct (payload_send_inv _ _ _ _ _ E) as (sk & _ & S & Hh & _). split; [|exact Hh]. intros i N. rewrite S. apply lookup_insert_ne. congruence.
Qed.

Lemma receive_other h s j x s' : uip_tcp_socket_receive h s j = Ret (x, s') ->
  (forall i, i <> j -> tcp_sockets s' !! i = tcp_sockets s !! i) /\ tcp_socket_head s' = tcp_socket_head s.
Proof.
  unfold uip_tcp_socket_receive. intros H. outs H. destruct (ts_thread a); [now apply ret_pair in H as [_ ->]|].
  destruct (negb (a_malloc h)); [now apply ret_pair in H as [_ ->]|].
  destruct (a_thread h); apply ret_pair in H as [_ ->]; [|now split]. split; [|reflexivity]. intros i N. cbn. apply lookup_insert_ne. congruence.
Qed.

Section guest.
Context (Q : uip_tcp_socket -> Prop) (HQ : stable Q) (k : nat).

Lemma tcp_syn_alive h s f x s' : tcp_syn h s f = Ret (x, s') -> alive Q k s -> alive Q k s'.
Proof.
  unfold tcp_syn. intros H Al. outs H. destruct a3 as [o s1]. pose proof (alloc_inv _ _ _ _ _ _ _ _ _ E3) as A.
  destruct o as [j|]; [|apply ret_pair in H as [_ ->]; now apply (alive_same Q k s)]. destruct A as (N & Ao & Ah). outs H.
  destruct a8 as [y s2]. apply ret_pair in H as [_ ->].
  assert (J : j <> k) by (intros ->; destruct Al as [(sk & L & _) _]; congruence).
  destruct (receive_other _ _ _ _ _ E9) as [R1 R2]. destruct (send_other _ _ _ _ _ E7) as [S1 S2].
  apply (alive_other Q k j s); [exact J| |rewrite R2; cbn [sk_put set_sockets tcp_socket_head]; rewrite S2; cbn [sk_put set_sockets tcp_socket_head]; rewrite Ah; intros I; apply in_or_app; now left|exact Al].
  intros i Hi. rewrite (R1 i Hi). cbn [sk_put set_sockets tcp_sockets]. rewrite lookup_insert_ne by congruence.
  rewrite (S1 i Hi). cbn [sk_put set_sockets tcp_sockets]. rewrite lookup_insert_ne by congruence. now apply Ao.
Qed.

Lemma tcp_segment_alive h s j f x s' : tcp_segment h s j f = Ret (x, s') -> alive Q k s -> alive Q k s'.
Proof.
  unfold tcp_segment. intros H Al. outs H. apply mutex_lock_ret in E1 as [_ ->]. apply sk_get_ret in E2. cbn in E2.
  set (s1 := mutex_unlock (sk_put (set_lock s true) j (with_window a2 (ntohl a0) (ntohs a)))) in *.
  assert (L1 : tcp_sockets s1 !! j = Some (with_window a2 (ntohl a0) (ntohs a))) by apply lookup_insert_eq.
  assert (K1 : alive Q k s1).
  { apply (alive_same Q k (sk_put s j (with_window a2 (ntohl a0) (ntohs a)))); [reflexivity..|].
    apply (alive_put Q k j s a2); [exact E2|apply (st_window Q HQ)|exact Al]. }
  destruct a3.
  - destruct (write_done a2) eqn:W; [apply ret_pair in H as [_ ->]; exact K1|]. outs H. apply ret_pair in H as [_ ->].
    rewrite sk_get_ret, L1 in E1. injection E1 as <-.
    set (sk2 := with_seq _ _ _) in E4. assert (K2 : alive Q k (sk_put s1 j sk2)).
    { apply (alive_put Q k j s1 _ _ L1); [|exact K1]. intros Hq. exact (st_fin Q HQ _ _ Hq W). }
    pose proof (alive_send Q HQ k _ _ _ _ E4 K2) as K3. apply (alive_close Q k _ _ _ _ E5); [|exact K3].
    intros -> sk Lk. destruct (payload_send_inv _ _ _ _ _ E4) as (sk3 & L3 & S3 & _).
    cbn [sk_put set_sockets tcp_sockets] in L3. rewrite lookup_insert_eq in L3. injection L3 as <-. rewrite S3, lookup_insert_eq in Lk. injection Lk as <-.
    destruct Al as [(sk0 & L0 & Hq) _]. rewrite E2 in L0. injection L0 as <-. exact (st_open Q HQ a2 Hq W).
  - outs H. destruct (_ =? 0); [apply ret_pair in H as [_ ->]; exact K1|]. outs H.
    match goal with X : uip_tcp_socket_send h s1 j f = Ret ?p |- _ => destruct p as [r s2]; destruct (socket_send_inv _ _ _ _ _ _ X) as [Ss Sh] end.
    assert (K2 : alive Q k s2) by now apply (alive_same Q k s1).
    destruct (r <? 0); [now apply ret_pair in H as [_ ->]|]. outs H. apply ret_pair in H as [_ ->].
    match goal with X : sk_get s2 j = Ret ?a, Y : uip_tcp_payload_send _ _ _ _ = Ret _ |- _ =>
      apply sk_get_ret in X; apply (alive_send Q HQ k _ _ _ _ Y); apply (alive_put Q k j s2 _ _ X); [apply (st_ack Q HQ)|exact K2] end.
Qed.

Lemma tcp_tx_alive h s arg x s' : uip_tx_do_ipv4_tcp h s arg = Ret (x, s') -> alive Q k s -> alive Q k s'.
Proof.
  unfold uip_tx_do_ipv4_tcp. intros H. outs H. destruct a; [exact (tcp_syn_alive _ _ _ _ _ H)|]. outs H.
  destruct a3 as [j|]; [exact (tcp_segment_alive _ _ _ _ _ _ H)|]. apply ret_pair in H as [_ ->]. tauto.
Qed.

Lemma thread_other_alive s j pc d pc' s' : j <> k -> uip_tcp_socket_thread s j pc d = Ret (pc', s') -> alive Q k s -> alive Q k s'.
Proof.
  intros N H Al. unfold uip_tcp_socket_thread in H. destruct pc as [|rest| | | |].
  - destruct (_ || _); apply ret_pair in H as [_ ->]; exact Al.
  - destruct rest as [|b rest]; [apply ret_pair in H as [_ ->]; exact Al|]. outs H. destruct a as [[c r] s1]. apply ret_pair in H as [_ ->].
    unfold thread_send in E. outs E. apply mutex_lock_ret in E0 as [_ ->]. destruct (_ <=? 0); [discriminate|]. outs E. injection E as _ _ <-.
    match goal with X : uip_tcp_payload_send _ _ _ _ = Ret _ |- _ => destruct (send_other _ _ _ _ _ X) as [S1 S2] end.
    apply (alive_other Q k j s); [exact N|exact S1|now rewrite S2|exact Al].
  - outs H. apply ret_pair in H as [_ ->]. apply (alive_close Q k _ _ _ _ E); [congruence|exact Al].
  - outs H. apply ret_pair in H as [_ ->]. destruct (send_other _ _ _ _ _ E) as [S1 S2].
    apply (alive_other Q k j s); [exact N| |cbn; now rewrite S2|exact Al]. intros i Hi. cbn. rewrite lookup_insert_ne by congruence. now apply S1.
  - outs H. apply ret_pair in H as [_ ->]. apply (alive_other Q k j s); [exact N| |tauto|exact Al]. intros i Hi. cbn. now rewrite lookup_insert_ne by congruence.
  - apply ret_pair in H as [_ ->]. exact Al.
Qed.
End guest.

(** ** The stream from the server to the guest *)

(** A segment that the thread has sent, with the acknowledgment and the window of the
    guest at that moment. *)
Record seg_sent := mkseg { g_seq : Z; g_acked : Z; g_window : Z; g_data : list Z }.

Definition sent_now (s : uip_tcp) (k : nat) (pc pc' : tcp_pc) : list seg_sent :=
  match pc, pc', tcp_sockets s !! k with
  | TSend rest, TSend rest', Some sk =>
      [mkseg (seq_server sk) (guest_acked sk) (window_size sk) (take (length rest - length rest') rest)]
  | _, _, _ => []
  end.

Definition read_now (pc pc' : tcp_pc) : list Z := match pc, pc' with TRead, TSend d => d | _, _ => [] end.

(** The relay of socket [k]: what has been read from the server, and what has been sent. *)
Record relay := mkrelay { r_s : uip_tcp; r_pc : tcp_pc; r_got : list Z; r_sent : list seg_sent }.

Inductive relay_step (k : nat) : relay -> relay -> Prop :=
| rs_thread s pc got sent d pc' s' : uip_tcp_socket_thread s k pc d = Ret (pc', s') ->
    relay_step k (mkrelay s pc got sent) (mkrelay s' pc' (got ++ read_now pc pc') (sent ++ sent_now s k pc pc'))
| rs_guest s pc got sent h arg x s' : uip_tx_do_ipv4_tcp h s arg = Ret (x, s') ->
    relay_step k (mkrelay s pc got sent) (mkrelay s' pc got sent)
| rs_other s pc got sent j d p p' s' : j <> k -> uip_tcp_socket_thread s j p d = Ret (p', s') ->
    relay_step k (mkrelay s pc got sent) (mkrelay s' pc got sent)
| rs_pool s pc got sent i : relay_step k (mkrelay s pc got sent) (mkrelay (set_tinfo s i) pc got sent).

(** Segments that follow each other, each within the window. *)
Fixpoint seq_chain (base : Z) (l : list seg_sent) : Prop :=
  match l with
  | [] => True
  | g :: l => g_seq g = u32 base /\ 0 < Z.of_nat (length (g_data g)) <= s32 (g_acked g + g_window g - g_seq g) /\
              seq_chain (base + Z.of_nat (length (g_data g))) l
  end.

Definition sent_bytes (l : list seg_sent) : list Z := List.concat (map g_data l).
#[local] Arguments sent_bytes : simpl never.

Lemma seq_chain_app base l l' : seq_chain base (l ++ l') <-> seq_chain base l /\ seq_chain (base + Z.of_nat (length (sent_bytes l))) l'.
Proof.
  revert base. induction l as [|g l IH]; intros base; cbn [seq_chain app].
  - unfold sent_bytes. cbn [map List.concat length]. rewrite Z.add_0_r. tauto.
  - rewrite IH. unfold sent_bytes. cbn [map List.concat]. rewrite length_app, Nat2Z.inj_add, Z.add_assoc. tauto.
Qed.

Lemma sent_bytes_app l l' : sent_bytes (l ++ l') = sent_bytes l ++ sent_bytes l'.
Proof. unfold sent_bytes. now rewrite map_app, concat_app. Qed.

(** What is still to be sent, and whether the connection is still open for the guest. *)
Definition unsent (pc : tcp_pc) : list Z := match pc with TSend rest => rest | _ => [] end.
Definition open_pc (pc : tcp_pc) : Prop := match pc with TLast | TExit => False | _ => True end.

(** The thread has not finished, and the next sequence number is [x]. *)
Definition at_seq (x : Z) (sk : uip_tcp_socket) : Prop := read_done sk = false /\ seq_server sk = x /\ fits 32 x.

Lemma at_seq_stable x : stable (at_seq x).
Proof.
  constructor; unfold at_seq; cbn; [tauto|tauto| |tauto|tauto]. intros sk a (R & E & F). rewrite Z.add_0_r. rewrite wrap_id by (now rewrite E). auto.
Qed.

Record relay_inv (k : nat) (base : Z) (r : relay) : Prop := {
  ri_stream : sent_bytes (r_sent r) ++ unsent (r_pc r) = r_got r;
  ri_chain : seq_chain base (r_sent r);
  ri_alive : r_pc r <> TExit -> exists x, alive (at_seq x) k (r_s r) /\
    (open_pc (r_pc r) -> x = u32 (base + Z.of_nat (length (sent_bytes (r_sent r)))));
}.

Lemma relay_keeps k base s s' pc got sent : (forall x, alive (at_seq x) k s -> alive (at_seq x) k s') ->
  relay_inv k base (mkrelay s pc got sent) -> relay_inv k base (mkrelay s' pc got sent).
Proof.
  intros K [I1 I2 I3]. constructor; [exact I1|exact I2|]. cbn [r_s r_pc r_sent] in *. intros N.
  destruct (I3 N) as (x & A & S). exists x. auto.
Qed.

(** Sending a part of what is left. *)
Lemma thread_send_spec s k rest c r s' sk : thread_send s k rest = Ret (c, r, s') -> tcp_sockets s !! k = Some sk -> rest <> [] ->
  rest = c ++ r /\ 0 < Z.of_nat (length c) <= tcp_room sk /\
  tcp_sockets s' = <[k := with_seq sk (ack_server sk) (u32 (seq_server sk + Z.of_nat (length c)))]> (tcp_sockets s) /\
  tcp_socket_head s' = tcp_socket_head s.
Proof.
  unfold thread_send. intros H L N. outs H. apply mutex_lock_ret in E as [_ ->]. apply sk_get_ret in E0. cbn in E0. rewrite L in E0. injection E0 as <-.
  destruct (Z.leb_spec (tcp_room sk) 0) as [R|R]; [discriminate|]. outs H.
  match goal with X : uip_tcp_payload_send _ _ _ _ = Ret _ |- _ => destruct (payload_send_inv _ _ _ _ _ X) as (sk1 & L1 & S1 & Sh & _) end.
  cbn in L1. rewrite L in L1. injection L1 as <-. injection H as <- <- <-.
  assert (P : (0 < length rest)%nat) by (destruct rest; [congruence|cbn; lia]).
  assert (C : 0 < tcp_chunk sk rest <= tcp_room sk /\ tcp_chunk sk rest <= Z.of_nat (length rest)).
  { unfold tcp_chunk. destruct (Z.ltb_spec (Z.of_nat (length rest)) (tcp_room sk)), (Z.ltb_spec UIP_MAX_TCP_PAYLOAD (tcp_room sk)),
      (Z.ltb_spec UIP_MAX_TCP_PAYLOAD (Z.of_nat (length rest))); unfold UIP_MAX_TCP_PAYLOAD in *; lia. }
  split; [symmetry; apply firstn_skipn|]. split; [rewrite length_firstn; lia|]. split; [exact S1|exact Sh].
Qed.

Lemma u32_add_assoc x y z : u32 (u32 (x + y) + z) = u32 (x + (y + z)).
Proof. unfold wrap. rewrite Z.add_mod_idemp_l by lia. f_equal. lia. Qed.

Lemma thread_keeps_inv k base s pc got sent d pc' s' : relay_inv k base (mkrelay s pc got sent) ->
  uip_tcp_socket_thread s k pc d = Ret (pc', s') ->
  relay_inv k base (mkrelay s' pc' (got ++ read_now pc pc') (sent ++ sent_now s k pc pc')).
Proof.
  intros I H. pose proof I as [I1 I2 I3]. cbn [r_s r_pc r_got r_sent] in *.
  unfold uip_tcp_socket_thread in H. destruct pc as [|rest| | | |].
  - destruct (_ || _); apply ret_pair in H as [-> ->]; cbn [read_now sent_now unsent] in *; rewrite ?app_nil_r in *.
    + constructor; cbn; rewrite ?app_nil_r; auto; intros _; apply I3; discriminate.
    + constructor; cbn; rewrite ?app_nil_r; [now rewrite I1|exact I2|]. intros _. apply I3. discriminate.
  - destruct (I3 ltac:(discriminate)) as (x & ((sk & L & R & Q & F) & Ih) & X). specialize (X Logic.I).
    destruct rest as [|b rest].
    { apply ret_pair in H as [-> ->]. cbn [read_now sent_now unsent] in *. rewrite !app_nil_r in *. constructor; cbn; rewrite ?app_nil_r; auto; intros _; apply I3; discriminate. }
    outs H. destruct a as [[c r] s1]. apply ret_pair in H as [-> ->].
    destruct (thread_send_spec _ _ _ _ _ _ sk E L ltac:(discriminate)) as (Sp & Rm & S1 & Sh).
    cbn [read_now sent_now unsent] in *. rewrite L, app_nil_r.
    assert (Tc : take (length (b :: rest) - length r) (b :: rest) = c).
    { rewrite Sp, length_app. replace (length c + length r - length r)%nat with (length c) by lia. apply take_app_length. }
    rewrite Tc. constructor; cbn [r_s r_pc r_got r_sent unsent].
    + rewrite sent_bytes_app. unfold sent_bytes at 2. cbn [map g_data List.concat]. rewrite app_nil_r, <- app_assoc, <- Sp. exact I1.
    + apply seq_chain_app. split; [exact I2|]. cbn [seq_chain g_seq g_data g_acked g_window]. split; [now rewrite Q|]. split; [exact Rm|exact Logic.I].
    + intros _. exists (u32 (x + Z.of_nat (length c))). split.
      * split; [|now rewrite Sh]. eexists. rewrite S1, lookup_insert_eq. split; [reflexivity|]. split; [exact R|]. rewrite <- Q. split; [reflexivity|apply wrap_fits; lia].
      * intros _. rewrite sent_bytes_app, length_app, Nat2Z.inj_add. unfold sent_bytes at 2. cbn [map g_data List.concat].
        rewrite app_nil_r, X. apply u32_add_assoc.
  - outs H. apply ret_pair in H as [-> ->]. cbn [read_now sent_now unsent] in *. rewrite !app_nil_r in *.
    destruct (I3 ltac:(discriminate)) as (x & Al & X). constructor; cbn; rewrite ?app_nil_r; auto. intros _. exists x. split; [|exact X].
    apply (alive_close _ k _ _ _ _ E); [|exact Al]. intros _ sk L. destruct Al as [(sk0 & L0 & R & _) _]. rewrite L in L0. injection L0 as <-.
    rewrite R. apply andb_false_r.
  - outs H. apply ret_pair in H as [-> ->]. cbn [read_now sent_now unsent] in *. rewrite !app_nil_r in *.
    destruct (I3 ltac:(discriminate)) as (x & ((sk & L & R & Q & F) & Ih) & X).
    destruct (payload_send_inv _ _ _ _ _ E) as (sk1 & L1 & S1 & Sh & _). rewrite L in L1. injection L1 as <-.
    apply sk_get_ret in E0. rewrite S1, lookup_insert_eq in E0. injection E0 as <-.
    constructor; cbn; rewrite ?app_nil_r; auto. intros _. eexists. split; [|contradiction].
    split; [|cbn; now rewrite Sh]. eexists. cbn [r_s sk_put set_sockets tcp_sockets]. rewrite lookup_insert_eq. split; [reflexivity|]. split; [exact R|]. split; [reflexivity|apply wrap_fits; lia].
  - outs H. apply ret_pair in H as [-> ->]. cbn [read_now sent_now unsent] in *. rewrite !app_nil_r in *.
    constructor; cbn; rewrite ?app_nil_r; auto. congruence.
  - apply ret_pair in H as [-> ->]. cbn [read_now sent_now unsent] in *. rewrite !app_nil_r in *. exact I.
Qed.


(** ** Sending a segment *)

Lemma payload_send_eq s k sk flag payload : tcp_sockets s !! k = Some sk -> pool_ok (t_info s) -> 0 < buf_free_nr (t_info s) ->
  fits 8 flag -> byte_ok payload -> Z.of_nat (length payload) <= 65482 ->
  exists n e c c' i', uip_tcp_payload_send s k flag payload =
      Ret (set_tinfo (sk_put s k (with_seq sk (ack_server sk) (u32 (seq_server sk + Z.of_nat (length payload))))) i') /\
    pool_ok i' /\ buf_used_nr i' = buf_used_nr (t_info s) + 1 /\ buf_free_nr i' = buf_free_nr (t_info s) - 1 /\
    host_mac i' = host_mac (t_info s) /\ guest_mac i' = guest_mac (t_info s) /\
    buf_head i' !! n = Some (mkbuf UIP_BUF_STATUS_USED (vnet_hdr_len (t_info s)) (54 + Z.of_nat (length payload))
                               (replicate (Z.to_nat (vnet_hdr_len (t_info s))) 0) e) /\
    (let len := Z.of_nat (length payload) + 20 in
     take (54 + length payload) e = eth_header (t_info s) ++ ip_header (len + 20) UIP_IP_P_TCP (ts_dip sk) (ts_sip sk) c ++
       tcp_header (ts_dport sk) (ts_sport sk) (seq_server sk) (ack_server sk) flag c' ++ payload /\
     verifies (ip_header (len + 20) UIP_IP_P_TCP (ts_dip sk) (ts_sip sk) c) /\
     verifies (pseudo_header len UIP_IP_P_TCP (ts_dip sk) (ts_sip sk) ++
       tcp_header (ts_dport sk) (ts_sport sk) (seq_server sk) (ack_server sk) flag c' ++ payload)).
Proof.
  intros L P H Ff Bp N. destruct (get_free_spec (t_info s) P H) as (n & b & (Lk & St & _) & E).
  set (i := t_info s) in *. pose proof (taken_free_ok i n b P Lk St) as P1. pose proof (lookup_taken i n b 1 0 Lk) as Lk1.
  destruct (proj1 (Forall_lookup _ _) (ok_size _ P1) n _ Lk1) as (V & T & Bb).
  destruct (make_tcp_spec (taken i n 1 0) sk flag payload (eth (set_status b UIP_BUF_STATUS_INUSE)) (ok_mac _ P1) (ok_mac_bytes _ P1) Ff Bp
    (conj T Bb) ltac:(lia) N) as (e' & c & c' & Em & Le & Be & Tk & V1 & V2).
  assert (Sl := ip_len_of_take (54 + length payload) e' _ _ _ _ _ _ _ (length_eth_header _ (ok_mac _ P1)) ltac:(lia) Tk).
  cbn in V. change (vnet_hdr_len (taken i n 1 0)) with (vnet_hdr_len i) in V.
  destruct (pkg_answered _ n _ (vnet_hdr_len i) (54 + Z.of_nat (length payload)) (replicate (Z.to_nat (vnet_hdr_len i)) 0) e' P1 Lk1 eq_refl)
    as (P2 & U & Lk2); [rewrite length_replicate; cbn; lia|exact Le|exact Be|].
  exists n, e', c, c'. eexists. split.
  { unfold uip_tcp_payload_send. rewrite (proj2 (sk_get_ret _ _ _) L). fold i. rewrite E. cbn [the_buf]. rewrite Lk1, Em.
    rewrite put_bytes_ok by (rewrite length_replicate; cbn; lia). rewrite get_ok by (rewrite Le; unfold IP_LEN, ETH_BUF; lia).
    rewrite Sl. change (le_dec (be_enc 2 ?x)) with (htons x). rewrite htons_htons by (unfold fits; lia).
    assert (Sp : splice 0 (replicate (Z.to_nat (vnet_hdr_len i)) 0) (vnet b) = replicate (Z.to_nat (vnet_hdr_len i)) 0).
    { unfold splice. rewrite length_replicate, drop_ge by (cbn; lia). rewrite take_0. apply app_nil_r. }
    cbn [vnet set_status] in *. change (vnet_hdr_len (taken i n 1 0)) with (vnet_hdr_len i). rewrite Sp.
    replace (Z.of_nat (length payload) + 20 + 20 + 14) with (54 + Z.of_nat (length payload)) by lia. reflexivity. }
  split; [exact P2|]. split; [cbn in U |- *; lia|]. split; [reflexivity|]. split; [reflexivity|]. split; [reflexivity|]. split; [exact Lk2|].
  split; [exact Tk|]. split; [exact V1|exact V2].
Qed.

(** A segment for the guest: Ethernet, IP and TCP headers with the connection's
    addresses turned round and its current numbers, the data, right lengths and valid
    checksums; the sequence number moves on by the length of the data. *)
Theorem tcp_segment_sent s k sk flag payload (L : tcp_sockets s !! k = Some sk) (P : pool_ok (t_info s)) (H : 0 < buf_free_nr (t_info s))
  (Ff : fits 8 flag) (Bp : byte_ok payload) (N : Z.of_nat (length payload) <= 65482) :
  let len := Z.of_nat (length payload) + 20 in
  exists n b c c' s', uip_tcp_payload_send s k flag payload = Ret s' /\ pool_ok (t_info s') /\
    tcp_sockets s' !! k = Some (with_seq sk (ack_server sk) (u32 (seq_server sk + Z.of_nat (length payload)))) /\
    buf_head (t_info s') !! n = Some b /\ status b = UIP_BUF_STATUS_USED /\ eth_len b = 14 + 20 + len /\
    take (54 + length payload) (eth b) = eth_header (t_info s) ++ ip_header (20 + len) UIP_IP_P_TCP (ts_dip sk) (ts_sip sk) c ++
      tcp_header (ts_dport sk) (ts_sport sk) (seq_server sk) (ack_server sk) flag c' ++ payload /\
    verifies (ip_header (20 + len) UIP_IP_P_TCP (ts_dip sk) (ts_sip sk) c) /\
    verifies (pseudo_header len UIP_IP_P_TCP (ts_dip sk) (ts_sip sk) ++
      tcp_header (ts_dport sk) (ts_sport sk) (seq_server sk) (ack_server sk) flag c' ++ payload).
Proof.
  intros len. destruct (payload_send_eq s k sk flag payload L P H Ff Bp N) as (n & e & c & c' & i' & E & P' & _ & _ & _ & _ & Lk & Tk & V1 & V2).
  fold len in Tk, V1, V2. replace (len + 20) with (20 + len) in * by lia. exists n. eexists _, c, c', _. split; [exact E|]. split; [exact P'|].
  split; [apply lookup_insert_eq|]. split; [exact Lk|]. split; [reflexivity|]. split; [cbn [eth_len]; unfold len; lia|].
  split; [exact Tk|]. split; [exact V1|exact V2].
Qed.

(** The receive thread sends up to 65495 bytes in a segment when the window allows;
    with more than 65482 the checksum writes past the end of the buffer. *)
Theorem tcp_segment_overflow s k sk flag payload (L : tcp_sockets s !! k = Some sk) (P : pool_ok (t_info s)) (H : 0 < buf_free_nr (t_info s))
  (Ff : fits 8 flag) (Bp : byte_ok payload) (N : 65482 < Z.of_nat (length payload) <= UIP_MAX_TCP_PAYLOAD) :
  uip_tcp_payload_send s k flag payload = Ub.
Proof.
  destruct (get_free_spec (t_info s) P H) as (n & b & (Lk & St & _) & E).
  set (i := t_info s) in *. pose proof (taken_free_ok i n b P Lk St) as P1. pose proof (lookup_taken i n b 1 0 Lk) as Lk1.
  destruct (proj1 (Forall_lookup _ _) (ok_size _ P1) n _ Lk1) as (_ & T & Bb).
  unfold uip_tcp_payload_send. rewrite (proj2 (sk_get_ret _ _ _) L). fold i. rewrite E. cbn [the_buf]. rewrite Lk1.
  destruct (Z.eq_dec (Z.of_nat (length payload)) UIP_MAX_TCP_PAYLOAD) as [X|X]; unfold UIP_MAX_TCP_PAYLOAD in *.
  { now rewrite (make_tcp_payload_overflow (taken i n 1 0) sk flag payload _ (ok_mac _ P1) Ff (proj1 (conj T Bb))). }
  rewrite (make_tcp_overflow (taken i n 1 0) sk flag payload _ (ok_mac _ P1) (ok_mac_bytes _ P1) Ff Bp (conj T Bb)); first [reflexivity|lia].
Qed.

(** ** The end of connections *)

(** [uip_tcp_exit] calls [uip_tcp_socket_close] with the lock held, which takes it
    again: with any connection left it never returns, and without one it does nothing. *)
Theorem tcp_exit_deadlock s (Lk : tcp_socket_lock s = false)
  (A : Forall (fun k => is_Some (tcp_sockets s !! k)) (tcp_socket_head s)) :
  uip_tcp_exit s = if tcp_socket_head s is [] then Ret s else NoFuel.
Proof.
  unfold uip_tcp_exit, mutex_lock. rewrite Lk. cbn [set_lock tcp_socket_head].
  destruct (tcp_socket_head s) as [|k l] eqn:Hd; cbn [free_all].
  - unfold mutex_unlock, set_lock. cbn. destruct s; cbn in *. now subst.
  - apply Forall_inv in A as [sk L]. unfold uip_tcp_socket_free. rewrite (proj2 (sk_get_ret _ k sk)) by exact L.
    unfold uip_tcp_socket_close. rewrite (proj2 (sk_get_ret _ k (with_done sk true true false))) by apply lookup_insert_eq. reflexivity.
Qed.

(** A FIN of the guest for the connection [k]. *)
Record fin_for (s : uip_tcp) (k : nat) (f : list Z) : Prop := {
  ff_syn : uip_tcp_is_syn f = Ret false;
  ff_fin : uip_tcp_is_fin f = Ret true;
  ff_len : (54 <= length f)%nat;
  ff_find : uip_tcp_socket_find s (le_dec (slice IP_SIP 4 f)) (le_dec (slice IP_DIP 4 f)) (le_dec (slice TCP_SPORT 2 f)) (le_dec (slice TCP_DPORT 2 f)) = Ret (Some k);
}.

Definition after_fin (sk : uip_tcp_socket) (f : list Z) : uip_tcp_socket :=
  with_seq (with_done (with_window sk (ntohl (le_dec (slice TCP_ACK 4 f))) (ntohs (le_dec (slice TCP_WIN 2 f)))) true (read_done sk) (ts_thread sk))
    (u32 (ack_server sk + 1)) (seq_server sk).

(** Handling the first one: the acknowledgment, and then the close. *)
Lemma fin_run h s k f sk v : fin_for s k f -> tcp_sockets s !! k = Some sk -> write_done sk = false -> tcp_socket_lock s = false ->
  pool_ok (t_info s) -> 0 < buf_free_nr (t_info s) ->
  exists i' s1, pool_ok i' /\ buf_free_nr i' = buf_free_nr (t_info s) - 1 /\
    s1 = mkts i' (<[k := with_seq (after_fin sk f) (u32 (ack_server sk + 1)) (u32 (seq_server sk + 0))]> (tcp_sockets s)) (tcp_socket_head s) false (tcp_calls s) /\
    uip_tx_do_ipv4_tcp h s (mkarg v f) = (let! s2 := uip_tcp_socket_close s1 k SHUT_WR in Ret (0, s2)).
Proof.
  intros [Sy Fi Le Fd] L W Lk P H. set (s0 := mutex_unlock (sk_put (set_lock s true) k (with_window sk (ntohl (le_dec (slice TCP_ACK 4 f))) (ntohs (le_dec (slice TCP_WIN 2 f)))))).
  assert (L0 : tcp_sockets (sk_put s0 k (after_fin sk f)) !! k = Some (after_fin sk f)) by apply lookup_insert_eq.
  destruct (payload_send_eq (sk_put s0 k (after_fin sk f)) k (after_fin sk f) UIP_TCP_FLAG_ACK [] L0 P H)
    as (n & e & c & c' & i' & E & P' & _ & F' & _); [unfold fits, UIP_TCP_FLAG_ACK; lia|constructor|cbn; lia|].
  exists i'. eexists. split; [exact P'|]. split; [exact F'|]. split; [reflexivity|].
  unfold uip_tx_do_ipv4_tcp. cbn [arg_eth]. rewrite Sy, !get_ok by (unfold IP_SIP, IP_DIP, TCP_SPORT, TCP_DPORT; lia). rewrite Fd.
  unfold tcp_segment. rewrite !get_ok by (unfold TCP_WIN, TCP_ACK; lia). unfold mutex_lock. rewrite Lk.
  rewrite (proj2 (sk_get_ret _ k sk)) by exact L. fold s0. rewrite Fi, W.
  rewrite (proj2 (sk_get_ret s0 k _)) by apply lookup_insert_eq. cbn [ack_server seq_server with_window read_done ts_thread].
  fold (after_fin sk f). rewrite E.
  unfold s0, sk_put, set_tinfo, set_sockets, mutex_unlock, set_lock. cbn [tcp_sockets t_info tcp_socket_head tcp_socket_lock tcp_calls].
  rewrite !insert_insert_eq. reflexivity.
Qed.

(** The thread at the end of the server's stream. *)
Fixpoint run_thread (n : nat) (s : uip_tcp) (k : nat) (pc : tcp_pc) : out (tcp_pc * uip_tcp) :=
  match n with
  | O => Ret (pc, s)
  | S n => let! (pc, s) := uip_tcp_socket_thread s k pc [] in run_thread n s k pc
  end.

Definition after_eof (sk : uip_tcp_socket) : uip_tcp_socket :=
  with_done (with_seq sk (ack_server sk) (u32 (u32 (seq_server sk + 0) + 1))) (write_done sk) true (ts_thread sk).

Lemma eof_run s k sk : tcp_sockets s !! k = Some sk -> read_done sk = false -> pool_ok (t_info s) -> 0 < buf_free_nr (t_info s) ->
  exists i', pool_ok i' /\ buf_free_nr i' = buf_free_nr (t_info s) - 1 /\
    run_thread 4 s k TRead = Ret (TExit, mkts i' (<[k := after_eof sk]> (tcp_sockets s)) (tcp_socket_head s) (tcp_socket_lock s)
      (tcp_calls s ++ [TShutdown (ts_fd sk) SHUT_RD])).
Proof.
  intros L R P H. set (s1 := call s (TShutdown (ts_fd sk) SHUT_RD)).
  destruct (payload_send_eq s1 k sk (UIP_TCP_FLAG_FIN .| UIP_TCP_FLAG_ACK) [] L P H)
    as (n & e & c & c' & i' & E & P' & _ & F' & _); [vm_compute; split; [discriminate|reflexivity]|constructor|cbn; lia|].
  exists i'. split; [exact P'|]. split; [exact F'|].
  assert (T2 : uip_tcp_socket_thread s k TOut [] = Ret (TFin, s1)).
  { cbn [uip_tcp_socket_thread]. unfold uip_tcp_socket_close. rewrite (proj2 (sk_get_ret _ _ _) L), R, andb_false_r. reflexivity. }
  set (sk1 := with_seq sk (ack_server sk) (u32 (seq_server sk + 0))).
  set (s2 := sk_put (set_tinfo (sk_put s1 k sk1) i') k (with_seq sk (ack_server sk) (u32 (u32 (seq_server sk + 0) + 1)))).
  assert (T3 : uip_tcp_socket_thread s1 k TFin [] = Ret (TLast, s2)).
  { cbn [uip_tcp_socket_thread]. rewrite E. rewrite (proj2 (sk_get_ret _ k sk1)) by apply lookup_insert_eq. reflexivity. }
  cbn [run_thread]. change (uip_tcp_socket_thread s k TRead []) with (Ret (A := tcp_pc * uip_tcp) (TOut, s)). cbn iota. rewrite T2, T3.
  cbn [uip_tcp_socket_thread]. rewrite (proj2 (sk_get_ret s2 k _)) by apply lookup_insert_eq.
  unfold s2, s1, call, sk_put, set_tinfo, set_sockets. cbn [tcp_sockets t_info tcp_socket_head tcp_socket_lock tcp_calls]. rewrite !insert_insert_eq. reflexivity.
Qed.

Lemma find_conn_in m l sip dip sport dport k : find_conn m l sip dip sport dport = Ret (Some k) -> In k l.
Proof.
  induction l as [|j l IH]; cbn [find_conn]; [discriminate|]. destruct (m !! j) as [sk|]; [|discriminate].
  destruct (same_conn sk sip dip sport dport); [intros [= <-]; now left|]. intros H. right. now apply IH.
Qed.

(** Finding a connection looks at the addresses only. *)
Lemma find_conn_put m l sip dip sport dport k sk sk' : m !! k = Some sk ->
  (ts_sip sk', ts_dip sk', ts_sport sk', ts_dport sk') = (ts_sip sk, ts_dip sk, ts_sport sk, ts_dport sk) ->
  find_conn (<[k := sk']> m) l sip dip sport dport = find_conn m l sip dip sport dport.
Proof.
  intros L [= E1 E2 E3 E4]. induction l as [|j l IH]; cbn [find_conn]; [reflexivity|]. destruct (decide (j = k)) as [->|N].
  - rewrite lookup_insert_eq, L. unfold same_conn. rewrite E1, E2, E3, E4. now rewrite IH.
  - rewrite lookup_insert_ne by congruence. destruct (m !! j); [|reflexivity]. now rewrite IH.
Qed.

(** A connection on which nothing has been closed. *)
Record established (s : uip_tcp) (k : nat) (sk : uip_tcp_socket) : Prop := {
  es_sk : tcp_sockets s !! k = Some sk;
  es_write : write_done sk = false;
  es_read : read_done sk = false;
  es_lock : tcp_socket_lock s = false;
  es_pool : pool_ok (t_info s);
}.

(** When the server closes first and then the guest, the connection is released:
    both directions are shut down, the descriptor is closed, and the socket is taken off
    the list and freed. *)
Theorem tcp_server_first_releases h s k sk f v (E : established s k sk) (F : fin_for s k f) (H : 2 <= buf_free_nr (t_info s)) :
  exists s1 s2, run_thread 4 s k TRead = Ret (TExit, s1) /\ uip_tx_do_ipv4_tcp h s1 (mkarg v f) = Ret (0, s2) /\
    tcp_sockets s2 !! k = None /\ ~ In k (tcp_socket_head s2) /\ tcp_socket_lock s2 = false /\
    tcp_calls s2 = tcp_calls s ++ [TShutdown (ts_fd sk) SHUT_RD; TShutdown (ts_fd sk) SHUT_WR; TShutdown (ts_fd sk) SHUT_RDWR; TClose (ts_fd sk)].
Proof.
  destruct E as [L W R Lk P]. destruct (eof_run s k sk L R P ltac:(lia)) as (i' & P' & F' & T). eexists. 
  match type of T with _ = Ret (TExit, ?x) => set (s1 := x) in * end.
  assert (F1 : fin_for s1 k f).
  { destruct F as [F1 F2 F3 F4]. constructor; [exact F1|exact F2|exact F3|]. unfold uip_tcp_socket_find in *.
    cbn [s1 tcp_socket_lock tcp_sockets tcp_socket_head]. rewrite Lk in *. now rewrite (find_conn_put _ _ _ _ _ _ k sk (after_eof sk) L). }
  destruct (fin_run h s1 k f (after_eof sk) v F1 (lookup_insert_eq _ _ _) W Lk P' ltac:(cbn; lia)) as (i2 & s2 & P2 & _ & E2 & T2).
  destruct (uip_tcp_socket_close s2 k SHUT_WR) as [s3| |] eqn:C.
  - exists s3. split; [exact T|]. split; [exact T2|]. destruct (close_inv _ _ _ _ C) as (sk2 & L2 & Z). rewrite E2 in L2.
    cbn [tcp_sockets] in L2. rewrite lookup_insert_eq in L2. injection L2 as <-. cbn in Z. destruct Z as (_ & S3 & H3 & Lk3 & C3).
    split; [rewrite S3; apply lookup_delete_eq|]. split.
    { rewrite H3. intros I. apply filter_In in I as [_ I]. rewrite Nat.eqb_refl in I. discriminate. }
    split; [exact Lk3|]. rewrite C3, E2. cbn [tcp_calls s1]. now rewrite <- app_assoc.
  - exfalso. revert C. subst s2. unfold uip_tcp_socket_close. rewrite (proj2 (sk_get_ret _ k _)) by apply lookup_insert_eq. discriminate.
  - exfalso. revert C. subst s2. unfold uip_tcp_socket_close. rewrite (proj2 (sk_get_ret _ k _)) by apply lookup_insert_eq. discriminate.
Qed.

(** What can still happen to a connection whose thread has finished. *)
Inductive later (k : nat) (s : uip_tcp) : uip_tcp -> Prop :=
| lt_guest h arg x s' : uip_tx_do_ipv4_tcp h s arg = Ret (x, s') -> later k s s'
| lt_other j p d p' s' : j <> k -> uip_tcp_socket_thread s j p d = Ret (p', s') -> later k s s'
| lt_pool i : later k s (set_tinfo s i).

Definition lost (fd : Z) (sk : uip_tcp_socket) : Prop := write_done sk = true /\ read_done sk = true /\ ts_fd sk = fd.

Lemma lost_stable fd : stable (lost fd).
Proof. constructor; unfold lost; cbn; intros; intuition congruence. Qed.

(** C28. When the guest closes first, nobody frees the socket: the thread finds that its
    own direction is not yet done when it closes, and then only sets the flag. The
    connection stays on the list, with its descriptor open, whatever happens next. *)
Theorem tcp_guest_first_leaks h s k sk f v (E : established s k sk) (F : fin_for s k f) (H : 2 <= buf_free_nr (t_info s)) :
  exists s1 s2, uip_tx_do_ipv4_tcp h s (mkarg v f) = Ret (0, s1) /\ run_thread 4 s1 k TRead = Ret (TExit, s2) /\
    tcp_calls s2 = tcp_calls s ++ [TShutdown (ts_fd sk) SHUT_WR; TShutdown (ts_fd sk) SHUT_RD] /\
    forall s3, rtc (later k) s2 s3 -> (exists sk', tcp_sockets s3 !! k = Some sk' /\ ts_fd sk' = ts_fd sk /\ write_done sk' = true) /\
                                       In k (tcp_socket_head s3).
Proof.
  destruct E as [L W R Lk P]. destruct (fin_run h s k f sk v F L W Lk P ltac:(lia)) as (i1 & s1 & P1 & F1 & E1 & T1).
  assert (L1 : tcp_sockets s1 !! k = Some (with_seq (after_fin sk f) (u32 (ack_server sk + 1)) (u32 (seq_server sk + 0)))) by (rewrite E1; apply lookup_insert_eq).
  set (sk1 := with_seq _ _ _) in L1. assert (R1 : read_done sk1 = false) by exact R.
  assert (C : uip_tcp_socket_close s1 k SHUT_WR = Ret (call s1 (TShutdown (ts_fd sk) SHUT_WR))).
  { unfold uip_tcp_socket_close. rewrite (proj2 (sk_get_ret _ _ _) L1), R1, andb_false_r. reflexivity. }
  rewrite C in T1. set (s2 := call s1 (TShutdown (ts_fd sk) SHUT_WR)) in *.
  destruct (eof_run s2 k sk1 L1 R1) as (i' & P' & F' & T); [subst s1; exact P1|subst s1; cbn; lia|].
  exists s2. eexists. split; [exact T1|]. split; [exact T|]. split.
  { subst s1. cbn [tcp_calls s2 call]. now rewrite <- app_assoc. }
  intros s3 St. assert (A : alive (lost (ts_fd sk)) k s3).
  { revert s3 St. apply (rtc_ind_r (R := later k) (alive (lost (ts_fd sk)) k)).
    - split; [eexists; split; [apply lookup_insert_eq|]; split; [reflexivity|]; split; reflexivity|].
      subst s1. cbn [tcp_socket_head s2 call]. destruct F as [_ _ _ Fd]. unfold uip_tcp_socket_find in Fd. rewrite Lk in Fd. exact (find_conn_in _ _ _ _ _ _ _ Fd).
    - intros y z _ Sp IH. destruct Sp as [h' arg x z Ez|j p d p' z N Ez|i].
      + exact (tcp_tx_alive _ (lost_stable _) k _ _ _ _ _ Ez IH).
      + exact (thread_other_alive _ k _ _ _ _ _ _ N Ez IH).
      + now apply (alive_same _ k y). }
  destruct A as [(sk' & L' & W' & _ & Fd') I]. split; [|exact I]. now exists sk'.
Qed.

(** ** From the guest to the server *)

(** A segment of the guest for connection [k] that carries [data]. *)
Record data_for (s : uip_tcp) (k : nat) (f data : list Z) : Prop := {
  df_syn : uip_tcp_is_syn f = Ret false;
  df_fin : uip_tcp_is_fin f = Ret false;
  df_len : (54 <= length f)%nat;
  df_find : uip_tcp_socket_find s (le_dec (slice IP_SIP 4 f)) (le_dec (slice IP_DIP 4 f)) (le_dec (slice TCP_SPORT 2 f)) (le_dec (slice TCP_DPORT 2 f)) = Ret (Some k);
  df_data : exists n, uip_tcp_hdrlen f = Ret n /\ uip_tcp_payloadlen f = Ret (Z.of_nat (length data)) /\
              bytes_at (TCP_SPORT + Z.to_nat n) (length data) f = Ret data;
  df_some : data <> [];
}.

Definition acked (sk : uip_tcp_socket) (f : list Z) (ret : Z) : uip_tcp_socket :=
  with_seq (with_window sk (ntohl (le_dec (slice TCP_ACK 4 f))) (ntohs (le_dec (slice TCP_WIN 2 f)))) (u32 (ack_server sk + ret)) (u32 (seq_server sk + 0)).

Lemma data_run h s k f data sk v : data_for s k f data -> established s k sk -> 0 < buf_free_nr (t_info s) -> 0 <= a_write h data ->
  exists i', pool_ok i' /\ buf_free_nr i' = buf_free_nr (t_info s) - 1 /\
    uip_tx_do_ipv4_tcp h s (mkarg v f) = Ret (0, mkts i' (<[k := acked sk f (a_write h data)]> (tcp_sockets s)) (tcp_socket_head s) false
      (tcp_calls s ++ [TWrite (ts_fd sk) (firstn (Z.to_nat (a_write h data)) data)])).
Proof.
  intros [Sy Fi Le Fd (n & Hn & Hl & Hd) Nd] [L W R Lk P] H Wr.
  set (w := with_window sk (ntohl (le_dec (slice TCP_ACK 4 f))) (ntohs (le_dec (slice TCP_WIN 2 f)))).
  set (s0 := mutex_unlock (sk_put (set_lock s true) k w)).
  set (s1 := call s0 (TWrite (ts_fd sk) (firstn (Z.to_nat (a_write h data)) data))).
  set (sk1 := with_seq w (u32 (ack_server sk + a_write h data)) (seq_server sk)).
  destruct (payload_send_eq (sk_put s1 k sk1) k sk1 UIP_TCP_FLAG_ACK [] (lookup_insert_eq _ _ _) P ltac:(cbn; lia))
    as (j & e & c & c' & i' & E & P' & _ & F' & _); [unfold fits, UIP_TCP_FLAG_ACK; lia|constructor|cbn; lia|].
  exists i'. split; [exact P'|]. split; [exact F'|].
  unfold uip_tx_do_ipv4_tcp. cbn [arg_eth]. rewrite Sy, !get_ok by (unfold IP_SIP, IP_DIP, TCP_SPORT, TCP_DPORT; lia). rewrite Fd.
  unfold tcp_segment. rewrite !get_ok by (unfold TCP_WIN, TCP_ACK; lia). unfold mutex_lock. rewrite Lk.
  rewrite (proj2 (sk_get_ret _ k sk)) by exact L. fold w s0. rewrite Fi, Hl.
  rewrite (proj2 (Z.eqb_neq _ _)) by (destruct data; [congruence|cbn; lia]).
  unfold uip_tcp_socket_send. rewrite (proj2 (sk_get_ret s0 k w)) by apply lookup_insert_eq. cbn [write_done w with_window]. rewrite W, Hn, Hl.
  rewrite Nat2Z.id, Hd. rewrite (proj2 (Z.leb_le _ _) Wr), (proj2 (Z.ltb_ge _ _) Wr). change (ts_fd w) with (ts_fd sk). fold s1.
  rewrite (proj2 (sk_get_ret s1 k w)) by apply lookup_insert_eq. change (ack_server w) with (ack_server sk). change (seq_server w) with (seq_server sk).
  fold sk1. rewrite E. unfold s1, s0, call, sk_put, set_tinfo, set_sockets, mutex_unlock, set_lock.
  cbn [tcp_sockets t_info tcp_socket_head tcp_socket_lock tcp_calls]. rewrite !insert_insert_eq. reflexivity.
Qed.

(** From the guest to the server: what [write] takes of a segment's data is
    acknowledged, and no more. But its sequence number is not looked at: a segment that
    is retransmitted is written to the server again and acknowledged again. *)
Theorem tcp_retransmission_duplicated h s k sk f data v (E : established s k sk) (F : data_for s k f data)
  (H : 2 <= buf_free_nr (t_info s)) (Wr : 0 <= a_write h data <= Z.of_nat (length data)) :
  let n := a_write h data in
  exists s1 s2 sk2, uip_tx_do_ipv4_tcp h s (mkarg v f) = Ret (0, s1) /\ uip_tx_do_ipv4_tcp h s1 (mkarg v f) = Ret (0, s2) /\
    tcp_calls s1 = tcp_calls s ++ [TWrite (ts_fd sk) (take (Z.to_nat n) data)] /\
    tcp_calls s2 = tcp_calls s1 ++ [TWrite (ts_fd sk) (take (Z.to_nat n) data)] /\
    tcp_sockets s2 !! k = Some sk2 /\ ack_server sk2 = u32 (ack_server sk + 2 * n).
Proof.
  intros n. destruct (data_run h s k f data sk v F E ltac:(lia) ltac:(lia)) as (i1 & P1 & F1 & T1). destruct E as [L W R Lk P].
  match type of T1 with _ = Ret (0, ?x) => set (s1 := x) in * end. fold n in s1.
  set (sk1 := acked sk f n) in *. assert (L1 : tcp_sockets s1 !! k = Some sk1) by apply lookup_insert_eq.
  assert (F' : data_for s1 k f data).
  { destruct F as [Sy Fi Le Fd Hd Nd]. constructor; [exact Sy|exact Fi|exact Le| |exact Hd|exact Nd].
    unfold uip_tcp_socket_find in *. rewrite Lk in Fd. cbn [s1 tcp_socket_lock tcp_sockets tcp_socket_head].
    now rewrite (find_conn_put _ _ _ _ _ _ k sk sk1 L). }
  assert (E' : established s1 k sk1) by (constructor; [exact L1|exact W|exact R|reflexivity|exact P1]).
  destruct (data_run h s1 k f data sk1 v F' E' ltac:(cbn; lia) ltac:(lia)) as (i2 & _ & _ & T2).
  exists s1. eexists _, _. split; [exact T1|]. split; [exact T2|]. split; [reflexivity|]. split; [reflexivity|].
  split; [apply lookup_insert_eq|]. fold n. cbn [acked with_seq ack_server sk1]. rewrite u32_add_assoc. f_equal. lia.
Qed.

(** ** Examples *)

(** The guest's segment to 10.0.0.1:80 from its port 4000. *)
Definition demo_seg (seq flag : Z) (data : list Z) : list Z :=
  [2; 1; 1; 1; 1; 1; 2; 21; 21; 21; 21; 21; 8; 0] ++ [69; 0] ++ be_enc 2 (40 + Z.of_nat (length data)) ++ [0; 0; 0; 0; 64; 6; 0; 0] ++
  [192; 168; 33; 15; 10; 0; 0; 1] ++ be_enc 2 4000 ++ be_enc 2 80 ++ be_enc 4 seq ++ be_enc 4 10000001 ++ [80; flag] ++ be_enc 2 1000 ++
  [0; 0; 0; 0] ++ data.

Definition demo_answers : host_answers := mkans 7 true true true (fun d => Z.of_nat (length d)).

Definition demo_tcp0 : uip_tcp := mkts demo_info ∅ [] false [].

(** The connection after the guest's acknowledgment. *)
Definition demo_conn : uip_tcp_socket :=
  mktcp 7 (le_dec [10; 0; 0; 1], htons 80) (le_dec [192; 168; 33; 15]) (le_dec [10; 0; 0; 1]) (htons 4000) (htons 80)
    10000001 1000 10000000 500 501 10000001 false false true.

Definition demo_tcp : uip_tcp := mkts demo_info {[3%nat := demo_conn]} [3%nat] false [].

Lemma demo_established : established demo_tcp 3 demo_conn.
Proof. constructor; try reflexivity. exact demo_pool. Qed.

Lemma demo_fin : fin_for demo_tcp 3 (demo_seg 501 17 []).
Proof. constructor; vm_compute; [reflexivity..| |reflexivity]. repeat constructor. Qed.

Lemma demo_data : data_for demo_tcp 3 (demo_seg 501 24 [104; 105]) [104; 105].
Proof.
  constructor; [reflexivity|reflexivity|cbn; lia|reflexivity| |discriminate]. exists 20. repeat split; reflexivity.
Qed.

Lemma tcp_segment_sent_witness : exists n b c c' s', uip_tcp_payload_send demo_tcp 3 16 [1; 2; 3] = Ret s' /\
  buf_head (t_info s') !! n = Some b /\ eth_len b = 57 /\
  take 57 (eth b) = eth_header demo_info ++ ip_header 43 6 (ts_dip demo_conn) (ts_sip demo_conn) c ++
    tcp_header (htons 80) (htons 4000) 10000001 501 16 c' ++ [1; 2; 3] /\
  verifies (ip_header 43 6 (ts_dip demo_conn) (ts_sip demo_conn) c).
Proof.
  destruct (tcp_segment_sent demo_tcp 3 demo_conn 16 [1; 2; 3] eq_refl demo_pool eq_refl) as (n & b & c & c' & s' & E & _ & _ & Lk & _ & Le & Tk & V & _);
    [unfold fits; lia|apply byte_ok_check; reflexivity|cbn; lia|].
  exists n, b, c, c', s'. split; [exact E|]. split; [exact Lk|]. split; [exact Le|]. split; [exact Tk|exact V].
Defined.

Lemma tcp_segment_overflow_witness : uip_tcp_payload_send demo_tcp 3 16 (replicate (Z.to_nat 65495) 0) = Ub.
Proof.
  apply (tcp_segment_overflow demo_tcp 3 demo_conn 16 _ eq_refl demo_pool eq_refl).
  - unfold fits. lia.
  - apply Forall_replicate. unfold fits. lia.
  - rewrite length_replicate. unfold UIP_MAX_TCP_PAYLOAD. lia.
Defined.

Lemma tcp_exit_deadlock_witness : uip_tcp_exit demo_tcp = NoFuel /\ uip_tcp_exit demo_tcp0 = Ret demo_tcp0.
Proof.
  split; [apply (tcp_exit_deadlock demo_tcp)|apply (tcp_exit_deadlock demo_tcp0)]; try reflexivity.
  - apply Forall_singleton. now eexists.
  - constructor.
Defined.

Lemma tcp_server_first_releases_witness : exists s1 s2, run_thread 4 demo_tcp 3 TRead = Ret (TExit, s1) /\
  uip_tx_do_ipv4_tcp demo_answers s1 (mkarg [] (demo_seg 501 17 [])) = Ret (0, s2) /\ tcp_sockets s2 !! 3%nat = None.
Proof.
  destruct (tcp_server_first_releases demo_answers demo_tcp 3 demo_conn _ [] demo_established demo_fin ltac:(cbn; lia)) as (s1 & s2 & E1 & E2 & N & _).
  exists s1, s2. split; [exact E1|]. split; [exact E2|exact N].
Defined.

Lemma tcp_guest_first_leaks_witness : exists s1 s2, uip_tx_do_ipv4_tcp demo_answers demo_tcp (mkarg [] (demo_seg 501 17 [])) = Ret (0, s1) /\
  run_thread 4 s1 3 TRead = Ret (TExit, s2) /\ In 3%nat (tcp_socket_head s2) /\ ~ In (TClose 7) (tcp_calls s2).
Proof.
  destruct (tcp_guest_first_leaks demo_answers demo_tcp 3 demo_conn _ [] demo_established demo_fin ltac:(cbn; lia)) as (s1 & s2 & E1 & E2 & C & L).
  exists s1, s2. split; [exact E1|]. split; [exact E2|]. split; [apply (L s2), rtc_refl|]. rewrite C. cbn. intuition discriminate.
Defined.

Lemma tcp_retransmission_duplicated_witness : exists s1 s2, uip_tx_do_ipv4_tcp demo_answers demo_tcp (mkarg [] (demo_seg 501 24 [104; 105])) = Ret (0, s1) /\
  uip_tx_do_ipv4_tcp demo_answers s1 (mkarg [] (demo_seg 501 24 [104; 105])) = Ret (0, s2) /\
  tcp_calls s2 = [TWrite 7 [104; 105]; TWrite 7 [104; 105]].
Proof.
  destruct (tcp_retransmission_duplicated demo_answers demo_tcp 3 demo_conn _ _ [] demo_established demo_data ltac:(cbn; lia) ltac:(cbn; lia))
    as (s1 & s2 & sk2 & E1 & E2 & C1 & C2 & _). exists s1, s2. split; [exact E1|]. split; [exact E2|]. rewrite C2, C1. reflexivity.
Defined.

