(* ===== verification/UipCore.v ===== *)
(** * The user-mode network stack: its entry points

    [net/uip/core.c] and [net/uip/ipv4.c]: packets of the guest come in through the
    vectors of a transmit chain, and the stack's packets go out through those of a
    receive chain. *)
From S2P Require Import Prelude HostMem UipNet UipFrame UipUdp UipTcp.
Open Scope Z_scope.

(** [struct uip_info] with the parts of udp.c and tcp.c; [ui] is the shared one. *)
Record uip := mkuip { ui : uip_info; ui_udp : uip_udp; ui_tcp : uip_tcp }.

Definition with_ui (s : uip) (i : uip_info) : uip := mkuip i (ui_udp s) (ui_tcp s).

(** What the host answers to the calls of one packet. *)
Record tx_answers := mktx { x_tcp : host_answers; x_udp_fd : Z; x_epfd : Z; x_sendto : Z -> Z; x_nomem : bool; x_oom : bool }.

(** ** Transmission *)

Definition uip_tx_do_ipv4 (h : tx_answers) (s : uip) (arg : uip_tx_arg) : out (Z * uip) :=
  let f := arg_eth arg in
  let! n := uip_ip_hdrlen f in
  if negb (n =? 20) then Ret (-1, s)
  else
    let! proto := get 1 IP_PROTO f in
    if proto =? UIP_IP_P_ICMP then
      let! i := uip_tx_do_ipv4_icmp (ui s) arg in Ret (0, with_ui s i)
    else if proto =? UIP_IP_P_TCP then
      let! (_, t) := uip_tx_do_ipv4_tcp (x_tcp h) (set_tinfo (ui_tcp s) (ui s)) arg in
      Ret (0, mkuip (t_info t) (ui_udp s) t)
    else if proto =? UIP_IP_P_UDP then
      let! (_, u) := uip_tx_do_ipv4_udp (x_udp_fd h) (x_epfd h) (x_sendto h) (x_nomem h) (with_info (ui_udp s) (ui s)) arg in
      Ret (0, mkuip (u_info u) u (ui_tcp s))
    else Ret (0, s).

(** The vectors after the first one, copied into one buffer. *)
Fixpoint copy_iovs (m : hmem) (iov : list iovec) : out (list Z) :=
  match iov with
  | [] => Ret []
  | v :: iov =>
      let! a := copy_in m (iov_base v) (iov_len v) in
      let! b := copy_iovs m iov in
      Ret (a ++ b)
  end.

(** [iov] has [out] entries of the chain; the second one is read in any case. *)
Definition uip_tx (h : tx_answers) (m : hmem) (iov : list iovec) (s : uip) : out (Z * uip) :=
  match iov with
  | v :: e :: _ =>
      let! vnet := copy_in m (iov_base v) (iov_len v) in
      let linear := (2 <? length iov)%nat in
      if linear && x_oom h then Ret (-12, s)
      else
        let! eth := if linear then copy_iovs m (tail iov) else copy_in m (iov_base e) (iov_len e) in
        let arg := mkarg vnet eth in
        let! type := get 2 ETH_TYPE eth in
        let proto := ntohs type in
        let! s := if proto =? UIP_ETH_P_ARP then let! i := uip_tx_do_arp (ui s) arg in Ret (with_ui s i)
                  else if proto =? UIP_ETH_P_IP then let! (_, s) := uip_tx_do_ipv4 h s arg in Ret s
                  else Ret s in
        Ret (Z.of_nat (length vnet) + Z.of_nat (length eth), s)
  | _ => Ub
  end.

(** ** Reception *)

Definition uip_rx (m : hmem) (iov : list iovec) (s : uip) : out (Z * hmem * uip) :=
  let! (n, b, i) := the_buf (uip_buf_get_used (ui s)) in
  let! m := memcpy_toiovecend m iov (vnet b) 0 (vnet_len b) in
  let! m := memcpy_toiovecend m iov (eth b) (vnet_len b) (eth_len b) in
  Ret (vnet_len b + eth_len b, m, with_ui s (uip_buf_set_free i n)).

(** ** Start and end *)

Definition set_pool (i : uip_info) (l : list uip_buf) (free used : Z) : uip_info := set_bufs i l free used.

Definition uip_static_init (s : uip) : uip :=
  mkuip (set_pool (ui s) [] (buf_free_nr (ui s)) 0)
    (mkst (u_info (ui_udp s)) [] (udp_epollfd (ui_udp s)) (epoll_set (ui_udp s)) (udp_thread (ui_udp s)) (udp_sent (ui_udp s)))
    (mkts (t_info (ui_tcp s)) (tcp_sockets (ui_tcp s)) [] false (tcp_calls (ui_tcp s))).

(** [buf_nr] buffers of zeros. *)
Definition new_buf (i : uip_info) : uip_buf :=
  mkbuf UIP_BUF_STATUS_FREE (vnet_hdr_len i) (Z.of_nat ETH_BUF) (replicate (Z.to_nat (vnet_hdr_len i)) 0) (replicate ETH_BUF 0).

Definition uip_init (aton : list Z -> option Z) (file : option (list (list Z * list Z))) (buf_nr : nat) (s : uip) : uip :=
  let i := set_pool (ui s) (buf_head (ui s) ++ replicate buf_nr (new_buf (ui s))) (Z.of_nat buf_nr) (buf_used_nr (ui s)) in
  with_ui s (snd (uip_dhcp_get_dns aton file i)).

Definition uip_exit (s : uip) : out uip :=
  let (u, _) := uip_udp_exit (ui_udp s) in
  let! t := uip_tcp_exit (ui_tcp s) in
  Ret (uip_static_init (mkuip (uip_dhcp_exit (ui s)) u t)).

(** ** Properties *)

Lemma read_conf_pool aton l i n ret : pool_ok i -> pool_ok (snd (read_conf aton l i n ret)).
Proof.
  revert i n ret. induction l as [|[key val] l IH]; intros i n ret P; cbn [read_conf]; [exact P|].
  destruct (bool_decide _); [apply IH; destruct P; now constructor|].
  destruct (bool_decide _); [|now apply IH]. destruct (aton val) as [a|]; [|now apply IH].
  destruct (_ <? _)%nat; [apply IH; destruct P; now constructor|now apply IH].
Qed.

Lemma count_replicate s n b : count s (replicate n b) = if status b =? s then Z.of_nat n else 0.
Proof.
  induction n as [|n IH]; cbn [replicate]; [unfold count; cbn; now destruct (_ =? _)|]. rewrite count_cons, IH.
  destruct (status b =? s); lia.
Qed.

(** After [uip_static_init] and [uip_init], whatever the callers of buf.c do with the
    buffers they have been given: the counters are the numbers of free and of used
    buffers, so a caller that is let through always gets a buffer (never a null
    pointer), one that nobody else has, and it then belongs to that caller alone; a
    reader gets the used buffer with the lowest number, whichever was filled first. *)
Theorem buffers_owned aton file nr s i (M : length (host_mac (ui s)) = 6%nat /\ length (guest_mac (ui s)) = 6%nat)
  (B : byte_ok (host_mac (ui s)) /\ byte_ok (guest_mac (ui s))) (V : 0 <= vnet_hdr_len (ui s))
  (St : rtc pool_step (ui (uip_init aton file nr (uip_static_init s))) i) :
  pool_ok i /\
  (uip_buf_get_free i = NoFuel /\ count UIP_BUF_STATUS_FREE (buf_head i) = 0 \/
   exists n b i', uip_buf_get_free i = Ret (Some n, i') /\ first_with UIP_BUF_STATUS_FREE i n b /\
     buf_head i' !! n = Some (set_status b UIP_BUF_STATUS_INUSE) /\ forall j, j <> n -> buf_head i' !! j = buf_head i !! j) /\
  (uip_buf_get_used i = NoFuel /\ count UIP_BUF_STATUS_USED (buf_head i) = 0 \/
   exists n b i', uip_buf_get_used i = Ret (Some n, i') /\ first_with UIP_BUF_STATUS_USED i n b /\
     buf_head i' !! n = Some (set_status b UIP_BUF_STATUS_INUSE) /\ forall j, j <> n -> buf_head i' !! j = buf_head i !! j).
Proof.
  assert (P0 : pool_ok (ui (uip_init aton file nr (uip_static_init s)))).
  { unfold uip_init, uip_dhcp_get_dns. cbn [with_ui ui uip_static_init].
    set (i0 := set_pool _ _ _ _). assert (P : pool_ok i0).
    { constructor; cbn -[replicate]; [now rewrite count_replicate|now rewrite count_replicate| | |exact M|exact B].
      - apply Forall_replicate. now left.
      - apply Forall_replicate. cbn [vnet eth new_buf]. rewrite !length_replicate. split; [cbn; lia|]. split; [reflexivity|].
        apply Forall_replicate. unfold fits. lia. }
    destruct file as [l|]; [now apply read_conf_pool|exact P]. }
  assert (P : pool_ok i).
  { revert i St. apply (rtc_ind_r (R := pool_step) pool_ok); [exact P0|]. intros y z _ Sp IH. exact (pool_step_ok y z Sp IH). }
  assert (O : forall n b f u, buf_head i !! n = Some b -> buf_head (taken i n f u) !! n = Some (set_status b UIP_BUF_STATUS_INUSE) /\
    forall j, j <> n -> buf_head (taken i n f u) !! j = buf_head i !! j).
  { intros n b f u L. split; [now apply lookup_taken|]. intros j N. cbn. unfold upd_buf. now apply list_lookup_alter_ne. }
  split; [exact P|]. split.
  - destruct (Z.ltb_spec 0 (buf_free_nr i)) as [H|H].
    + right. destruct (get_free_spec i P H) as (n & b & W & E). exists n, b, (taken i n 1 0). split; [exact E|]. split; [exact W|]. apply O, W.
    + left. unfold uip_buf_get_free. rewrite (proj2 (Z.ltb_ge _ _) H). split; [reflexivity|].
      pose proof (ok_free i P). pose proof (count_nonneg UIP_BUF_STATUS_FREE (buf_head i)). lia.
  - destruct (Z.ltb_spec 0 (buf_used_nr i)) as [H|H].
    + right. destruct (get_used_spec i P H) as (n & b & W & E). exists n, b, (taken i n 0 1). split; [exact E|]. split; [exact W|]. apply O, W.
    + left. unfold uip_buf_get_used. rewrite (proj2 (Z.ltb_ge _ _) H). split; [reflexivity|].
      pose proof (ok_used i P). pose proof (count_nonneg UIP_BUF_STATUS_USED (buf_head i)). lia.
Qed.

(** Handing a packet over to the guest. *)
Lemma rx_spec m iov s n b : pool_ok (ui s) -> uip_buf_get_used (ui s) = Ret (Some n, taken (ui s) n 0 1) -> buf_head (ui s) !! n = Some b ->
  iov_wf iov -> 0 <= vnet_len b <= vnet_hdr_len (ui s) -> 0 <= eth_len b <= Z.of_nat ETH_BUF -> vnet_hdr_len (ui s) < 2 ^ 31 ->
  vnet_len b + eth_len b <= Z.of_nat (length (iov_addrs iov)) -> mapped m (iov_addrs iov) ->
  let data := take (Z.to_nat (vnet_len b)) (vnet b) ++ take (Z.to_nat (eth_len b)) (eth b) in
  exists m', uip_rx m iov s = Ret (vnet_len b + eth_len b, m', with_ui s (uip_buf_set_free (taken (ui s) n 0 1) n)) /\
    write_addrs m (take (length data) (iov_addrs iov)) data = Some m'.
Proof.
  intros P E L W R1 R2 R3 T Mp data. destruct (proj1 (Forall_lookup _ _) (ok_size _ P) n b L) as (V & Tb & _).
  unfold uip_rx. rewrite E. cbn [the_buf]. rewrite (lookup_taken _ n b 0 1 L). cbn [vnet eth vnet_len eth_len set_status].
  unfold ETH_BUF in R2. rewrite toiovecend_spec by (first [exact W|lia]). set (d1 := take (Z.to_nat (vnet_len b)) (vnet b)) in *.
  set (d2 := take (Z.to_nat (eth_len b)) (eth b)) in *. rewrite drop_0.
  assert (L1 : length d1 = Z.to_nat (vnet_len b)) by (unfold d1; rewrite length_take; lia).
  assert (L2 : length d2 = Z.to_nat (eth_len b)) by (unfold d2; rewrite length_take; unfold ETH_BUF in Tb; lia).
  set (addrs := iov_addrs iov) in *. set (a1 := take (Z.to_nat (vnet_len b)) addrs). set (a2 := take (Z.to_nat (eth_len b)) (drop (Z.to_nat (vnet_len b)) addrs)).
  assert (Ea : take (length data) addrs = a1 ++ a2).
  { unfold data, a1, a2. rewrite length_app, L1, L2. rewrite <- (take_drop (Z.to_nat (vnet_len b)) addrs) at 1.
    rewrite take_app_ge by (rewrite length_take; lia). f_equal. f_equal. rewrite length_take. lia. }
  assert (La : length a1 = length d1) by (unfold a1; rewrite length_take; lia).
  assert (Mt : mapped m (take (length data) addrs)) by now apply Forall_take.
  destruct (write_addrs_mapped m (take (length data) addrs) data Mt) as [m' Wm]. exists m'.
  assert (Wa : (let! m1 := write_all m a1 d1 in write_all m1 a2 d2) = Ret m').
  { rewrite <- write_all_app by exact La. rewrite <- Ea. unfold write_all. fold data. now rewrite Wm. }
  split; [|exact Wm].
  destruct (write_all m a1 d1) as [m1| |]; [|discriminate..]. unfold ETH_BUF in Tb. rewrite toiovecend_spec by (first [exact W|fold addrs; lia]).
  fold a2 d2. fold addrs. change (take (Z.to_nat (eth_len b)) (drop (Z.to_nat (vnet_len b)) addrs)) with a2. now rewrite Wa.
Qed.

Lemma count_zero s l n b : count s l = 0 -> l !! n = Some b -> status b <> s.
Proof.
  revert n. induction l as [|c l IH]; intros n H L; [discriminate|]. rewrite count_cons in H. pose proof (count_nonneg s l).
  destruct (Z.eqb_spec (status c) s) as [E|E]; [lia|]. destruct n as [|n]; [injection L as <-; exact E|]. apply (IH n); [lia|exact L].
Qed.

(** The one packet that is waiting is the one that a reader gets. *)
Lemma only_used i n b arg e : pool_ok i -> buf_used_nr i = 0 -> let i' := uip_buf_set_used (answer i n b arg e) n in
  pool_ok i' -> buf_used_nr i' = 1 -> uip_buf_get_used i' = Ret (Some n, taken i' n 0 1).
Proof.
  intros P U i' P' U'. destruct (get_used_spec i' P' ltac:(lia)) as (j & c & (L & S & _) & E).
  destruct (decide (j = n)) as [->|N]; [exact E|]. exfalso.
  apply (count_zero UIP_BUF_STATUS_USED (buf_head i) j c); [pose proof (ok_used i P); lia| |exact S].
  rewrite <- L. unfold i', uip_buf_set_used, answer, put_buf, taken, set_bufs, upd_buf. cbn [buf_head].
  rewrite !list_lookup_alter_ne by (intros X; apply N; now symmetry). reflexivity.
Qed.

(** The packet [pkt] is the next one that [uip_rx] hands over, which leaves [s']. *)
Definition uip_ready (s : uip) (pkt : list Z) (s' : uip) : Prop := exists n b,
  pool_ok (ui s) /\ uip_buf_get_used (ui s) = Ret (Some n, taken (ui s) n 0 1) /\ buf_head (ui s) !! n = Some b /\
  0 <= vnet_len b <= vnet_hdr_len (ui s) /\ 0 <= eth_len b <= Z.of_nat ETH_BUF /\ vnet_hdr_len (ui s) < 2 ^ 31 /\ byte_ok pkt /\
  pkt = take (Z.to_nat (vnet_len b)) (vnet b) ++ take (Z.to_nat (eth_len b)) (eth b) /\
  s' = with_ui s (uip_buf_set_free (taken (ui s) n 0 1) n).

Lemma ready_rx s pkt s' m iov : uip_ready s pkt s' -> iov_wf iov -> Z.of_nat (length pkt) <= Z.of_nat (length (iov_addrs iov)) ->
  mapped m (iov_addrs iov) -> exists m', uip_rx m iov s = Ret (Z.of_nat (length pkt), m', s') /\
    write_addrs m (take (length pkt) (iov_addrs iov)) pkt = Some m'.
Proof.
  intros (n & b & P & G & L & R1 & R2 & R3 & _ & -> & ->) W C Mp. destruct (proj1 (Forall_lookup _ _) (ok_size _ P) n b L) as (V & T & _).
  assert (Lp : Z.of_nat (length (take (Z.to_nat (vnet_len b)) (vnet b) ++ take (Z.to_nat (eth_len b)) (eth b))) = vnet_len b + eth_len b)
    by (rewrite length_app, !length_take; lia).
  destruct (rx_spec m iov s n b P G L W R1 R2 R3 ltac:(lia) Mp) as (m' & E & Wm). exists m'. rewrite Lp. now split.
Qed.

(** The header that [uip_buf_clone] makes of the guest's. *)
Definition reply_header (vn : list Z) : list Z := if 10 <=? Z.of_nat (length vn) then splice 0 fresh_vnet vn else vn.

Lemma take_clone_vnet b vn : (length vn <= length (vnet b))%nat -> take (length vn) (clone_vnet b vn) = reply_header vn.
Proof.
  intros L. unfold clone_vnet, reply_header, splice. rewrite !take_0, !app_nil_l, !Nat.add_0_l.
  destruct (Z.leb_spec 10 (Z.of_nat (length vn))) as [H|H].
  - rewrite drop_app_le by (cbn [length fresh_vnet]; lia). rewrite app_assoc. apply take_app_length'.
    rewrite length_app, length_drop. cbn [length fresh_vnet]. lia.
  - now apply take_app_length'.
Qed.

Lemma reply_header_bytes vn : byte_ok vn -> byte_ok (reply_header vn).
Proof. intros B. unfold reply_header. case_ifs; [|exact B]. apply splice_bytes; [now apply byte_ok_check|exact B]. Qed.

Lemma length_reply_header vn : length (reply_header vn) = length vn.
Proof.
  unfold reply_header. destruct (Z.leb_spec 10 (Z.of_nat (length vn))); [|reflexivity]. apply length_splice. cbn [length fresh_vnet]. lia.
Qed.

(** A frame that is an ARP request for the host. *)
Record arp_request (s : uip) (vn f : list Z) : Prop := {
  ar_len : (42 <= length f <= ETH_BUF)%nat;
  ar_bytes : byte_ok f;
  ar_type : slice ETH_TYPE 2 f = be_enc 2 UIP_ETH_P_ARP;
  ar_dip : slice ARP_DIP 4 f = be_enc 4 (host_ip (ui s));
  ar_header : Z.of_nat (length vn) <= vnet_hdr_len (ui s) < 2 ^ 31;
  ar_header_bytes : byte_ok vn;
}.

(** It is answered by a packet that waits for the guest. *)
Lemma arp_answer s vn f : pool_ok (ui s) -> buf_used_nr (ui s) = 0 -> 0 < buf_free_nr (ui s) -> arp_request s vn f ->
  exists i' fd s2, uip_tx_do_arp (ui s) (mkarg vn f) = Ret i' /\ length fd = length f /\ take 42 fd = arp_reply (ui s) f /\
    uip_ready (with_ui s i') (reply_header vn ++ fd) s2 /\
    pool_ok (ui s2) /\ buf_free_nr (ui s2) = buf_free_nr (ui s) /\ buf_used_nr (ui s2) = 0.
Proof.
  intros P Nu H [Lf Bf Ty Dp Av Bv]. assert (A : arg_ok (ui s) (mkarg vn f)) by (split; [cbn; lia|cbn; lia]).
  destruct (do_arp_spec (ui s) (mkarg vn f) P H A ltac:(cbn; lia) Bf) as (n & b & e0 & Wf & _ & _ & E). cbn [arg_eth] in E.
  rewrite Dp in E. change (le_dec (be_enc 4 (host_ip (ui s)))) with (htonl (host_ip (ui s))) in E. rewrite Z.eqb_refl in E.
  pose proof Wf as (Lk & _ & _). destruct (proj1 (Forall_lookup _ _) (ok_size _ P) n b Lk) as (V & Tb & Bb).
  destruct (ok_mac _ P) as [M _]. destruct (ok_mac_bytes _ P) as [Mb _].
  set (fr := arp_reply (ui s) f ++ drop 42 (clone_eth (ui s) b f)) in *.
  assert (Lr : length (arp_reply (ui s) f) = 42%nat) by (apply length_arp_reply; [exact M|apply Lf]).
  assert (Lc : length (clone_eth (ui s) b f) = ETH_BUF) by (apply length_clone_eth; [exact M|exact Tb|lia]).
  assert (Le : length fr = ETH_BUF) by (unfold fr; rewrite length_app, length_drop, Lr, Lc; unfold ETH_BUF; lia).
  assert (Be : byte_ok fr) by (apply arp_reply_bytes; assumption).
  destruct (answered (ui s) n b (mkarg vn f) fr P A Wf Le Be) as (P' & U & F & Lk'). cbn [arg_vnet arg_eth] in Lk'.
  set (i' := uip_buf_set_used (answer (ui s) n b (mkarg vn f) fr) n) in *.
  assert (U1 : buf_used_nr i' = 1) by (rewrite U, Nu; reflexivity).
  pose proof (only_used (ui s) n b (mkarg vn f) fr P Nu P' U1) as G. fold i' in G.
  exists i', (take (length f) fr). eexists. split; [exact E|]. split; [rewrite length_take; lia|]. split.
  { rewrite take_take, Nat.min_l by lia. unfold fr. now apply take_app_length'. }
  split.
  - exists n. eexists. split; [exact P'|]. split; [exact G|]. split; [exact Lk'|]. cbn [vnet_len eth_len vnet eth].
    change (vnet_hdr_len (ui (with_ui s i'))) with (vnet_hdr_len (ui s)). do 3 (split; [lia|]).
    rewrite !Nat2Z.id, take_clone_vnet by lia. split; [|split; reflexivity].
    apply Forall_app. split; [now apply reply_header_bytes|now apply Forall_take].
  - cbn [with_ui ui]. assert (Lt : buf_head (taken i' n 0 1) !! n = Some (set_status (mkbuf UIP_BUF_STATUS_USED (Z.of_nat (length vn)) (Z.of_nat (length f)) (clone_vnet b vn) fr) UIP_BUF_STATUS_INUSE))
      by exact (lookup_taken i' n _ 0 1 Lk').
    split; [apply (set_free_ok _ n _ (taken_used_ok i' n _ P' Lk' eq_refl) Lt eq_refl)|].
    cbn [uip_buf_set_free set_bufs buf_free_nr buf_used_nr taken] in *. lia.
Qed.

(** The frame of a request reaches [uip_tx_do_arp]. *)
Lemma tx_arp h m v e s vn f i' : copy_in m (iov_base v) (iov_len v) = Ret vn -> copy_in m (iov_base e) (iov_len e) = Ret f ->
  arp_request s vn f -> uip_tx_do_arp (ui s) (mkarg vn f) = Ret i' ->
  uip_tx h m [v; e] s = Ret (Z.of_nat (length vn + length f), with_ui s i').
Proof.
  intros Cv Cf [Lf _ Ty _ _ _] E. unfold uip_tx. rewrite Cv, Cf. cbn [length Nat.ltb Nat.leb andb].
  rewrite get_ok by (unfold ETH_TYPE; lia). rewrite Ty.
  change (ntohs (le_dec (be_enc 2 UIP_ETH_P_ARP)) =? UIP_ETH_P_ARP) with true. cbn iota. rewrite E. cbn iota. now rewrite Nat2Z.inj_add.
Qed.

(** An ARP request that the guest puts into its transmit chain comes back through
    the receive chain: [uip_tx] and then [uip_rx] leave the reply (and the header that
    goes with it) in the memory of the receive vectors, touch nothing else, and give the
    buffer back to the pool. *)
Theorem arp_exchange h m v e riov s vn f (P : pool_ok (ui s)) (Nu : buf_used_nr (ui s) = 0) (H : 0 < buf_free_nr (ui s))
  (Cv : copy_in m (iov_base v) (iov_len v) = Ret vn) (Cf : copy_in m (iov_base e) (iov_len e) = Ret f) (Ar : arp_request s vn f)
  (W : iov_wf riov) (Cap : Z.of_nat (length vn + length f) <= Z.of_nat (length (iov_addrs riov)))
  (Mp : mapped m (iov_addrs riov)) (ND : NoDup (iov_addrs riov)) :
  exists s1 s2 m', uip_tx h m [v; e] s = Ret (Z.of_nat (length vn + length f), s1) /\
    uip_rx m riov s1 = Ret (Z.of_nat (length vn + length f), m', s2) /\
    read_addrs m' (take (length vn + 42) (iov_addrs riov)) = Some (reply_header vn ++ arp_reply (ui s) f) /\
    (forall a, a ∉ iov_addrs riov -> m' !! a = m !! a) /\
    pool_ok (ui s2) /\ buf_free_nr (ui s2) = buf_free_nr (ui s) /\ buf_used_nr (ui s2) = 0.
Proof.
  destruct (arp_answer s vn f P Nu H Ar) as (i' & fd & s2 & E & Lf & T & Rdy & Rest). destruct Ar as [Lf' Bf Ty Dp Av Bv] eqn:EA.
  assert (Lp : length (reply_header vn ++ fd) = (length vn + length f)%nat) by now rewrite length_app, length_reply_header, Lf.
  destruct (ready_rx _ _ _ m riov Rdy W ltac:(lia) Mp) as (m' & R & Wm). rewrite Lp in *.
  exists (with_ui s i'), s2, m'. split; [exact (tx_arp h m v e s vn f i' Cv Cf Ar E)|]. split; [exact R|]. split; [|split; [|exact Rest]].
  - assert (Rd : read_addrs m' (take (length vn + length f) (iov_addrs riov)) = Some (reply_header vn ++ fd)).
    { apply (read_write_same m _ _ m'); [|rewrite length_take; lia|exact Wm].
      rewrite <- (take_drop (length vn + length f) (iov_addrs riov)) in ND. now apply NoDup_app in ND as [N _]. }
    apply (read_addrs_take _ _ _ (length vn + 42)) in Rd. rewrite take_take, Nat.min_l in Rd by lia. rewrite Rd.
    rewrite take_app_ge by (rewrite length_reply_header; lia). rewrite length_reply_header.
    replace (length vn + 42 - length vn)%nat with 42%nat by lia. now rewrite T.
  - intros a Na. apply (write_addrs_other _ _ _ _ a Wm). intros Ia. apply Na. exact (subseteq_take _ _ _ Ia).
Qed.

(** ** Examples *)

Definition demo_uip (i : uip_info) : uip := mkuip i (mkst i [] 0 [] false []) (mkts i ∅ [] false []).

Definition demo_frame : list Z := arg_eth (demo_arp [192; 168; 33; 1]).

(** The transmit chain at 0 and 100, the receive chain at 200. *)
Definition demo_mem : hmem := mem_at 0 (replicate 10 0 ++ replicate 90 0 ++ demo_frame ++ replicate 158 0).

Lemma buffers_owned_witness : let s := uip_init (fun _ => None) None 2 (uip_static_init (demo_uip demo_info)) in
  exists n i', uip_buf_get_free (ui s) = Ret (Some n, i') /\ pool_ok (ui s).
Proof.
  destruct (buffers_owned (fun _ => None) None 2 (demo_uip demo_info) _ (conj eq_refl eq_refl)
    (conj (byte_ok_check [2; 1; 1; 1; 1; 1] eq_refl) (byte_ok_check [2; 21; 21; 21; 21; 21] eq_refl)) ltac:(discriminate) (rtc_refl _ _))
    as (P & [[_ F]|(n & b & i' & E & _)] & _).
  - discriminate F.
  - exists n, i'. split; [exact E|exact P].
Defined.

Lemma demo_arp_request : arp_request (demo_uip demo_info) (replicate 10 0) demo_frame.
Proof.
  split; [split; [apply Nat.leb_le; reflexivity|unfold ETH_BUF; cbn; lia]|apply byte_ok_check; reflexivity|reflexivity|reflexivity| |apply byte_ok_check; reflexivity].
  vm_compute. split; [discriminate|reflexivity].
Qed.

Lemma arp_exchange_witness : exists s1 s2 m', uip_tx (mktx demo_answers 0 0 (fun n => n) false false) demo_mem [mkiov 0 10; mkiov 100 42] (demo_uip demo_info) = Ret (52, s1) /\
  uip_rx demo_mem [mkiov 200 10; mkiov 210 50] s1 = Ret (52, m', s2) /\
  read_addrs m' (seqZ 200 52) = Some (fresh_vnet ++ arp_reply demo_info demo_frame).
Proof.
  destruct (arp_exchange (mktx demo_answers 0 0 (fun n => n) false false) demo_mem (mkiov 0 10) (mkiov 100 42) [mkiov 200 10; mkiov 210 50]
    (demo_uip demo_info) (replicate 10 0) demo_frame demo_pool eq_refl eq_refl) as (s1 & s2 & m' & E1 & E2 & R & _);
    [vm_compute; reflexivity|vm_compute; reflexivity|exact demo_arp_request| |vm_compute; discriminate| | |].
  - repeat constructor; unfold fits; cbn; lia.
  - change (iov_addrs [mkiov 200 10; mkiov 210 50]) with (seqZ 200 10 ++ seqZ 210 50). apply Forall_app.
    split; [apply (mapped_mem_at 0 _ 200 10)|apply (mapped_mem_at 0 _ 210 50)]; try lia; apply Z.leb_le; vm_compute; reflexivity.
  - change (NoDup (seqZ 200 10 ++ seqZ 210 50)). apply NoDup_app. split; [apply NoDup_seqZ|]. split; [|apply NoDup_seqZ].
    intros a H1 H2. apply elem_of_seqZ in H1, H2. lia.
  - exists s1, s2, m'. split; [exact E1|]. split; [exact E2|]. exact R.
Defined.
