(* ===== verification/VirtioNet.v ===== *)
(** * The virtio network device: its queues

    [virtio/net.c]: the threads that serve the receive, transmit and control queues,
    over the queues of [Virtqueue]. What the packets go to and come from is a table of two
    functions, as in the code; [Class NetBackend] states what the receive thread relies on.
    The user-mode stack of [UipCore] is one such table, a TAP device is another.
    The conversions of the packet header are the identity on a little-endian host. *)
From S2P Require Import Prelude Membank HostMem Virtqueue VirtioBlk UipNet UipFrame UipUdp UipTcp UipCore.
Open Scope Z_scope.

Definition VIRTIO_NET_QUEUE_SIZE : Z := 256.
Definition VIRTIO_NET_NUM_QUEUES : Z := 8.
Definition MAX_PACKET_SIZE : Z := 65550.

(** [<linux/virtio_net.h>] *)
Definition VIRTIO_NET_F_CSUM : Z := 0.
Definition VIRTIO_NET_F_MAC : Z := 5.
Definition VIRTIO_NET_F_GUEST_TSO4 : Z := 7.
Definition VIRTIO_NET_F_GUEST_TSO6 : Z := 8.
Definition VIRTIO_NET_F_GUEST_UFO : Z := 10.
Definition VIRTIO_NET_F_HOST_TSO4 : Z := 11.
Definition VIRTIO_NET_F_HOST_TSO6 : Z := 12.
Definition VIRTIO_NET_F_HOST_UFO : Z := 14.
Definition VIRTIO_NET_F_MRG_RXBUF : Z := 15.
Definition VIRTIO_NET_F_CTRL_VQ : Z := 17.
Definition VIRTIO_NET_F_MQ : Z := 22.
Definition VIRTIO_NET_S_LINK_UP : Z := 1.
Definition VIRTIO_NET_OK : Z := 0.
Definition VIRTIO_NET_ERR : Z := 1.
Definition VIRTIO_NET_CTRL_MQ : Z := 4.

(** [sizeof(struct virtio_net_hdr)], with the count of merged buffers behind it, and the
    offsets of the fields that are converted. *)
Definition NET_HDR_SIZE : Z := 10.
Definition NET_HDR_MRG_SIZE : Z := 12.
Definition HDR_FIELDS : list Z := [2; 4; 6; 8].
Definition HDR_NUM_BUFFERS : Z := 10.

(** [struct net_dev_operations] on a state of type [B]. *)
Record net_dev_operations (B : Type) := mkndops {
  nd_rx : hmem -> list iovec -> B -> out (Z * hmem * B);
  nd_tx : hmem -> list iovec -> B -> out (Z * B);
}.
Arguments mkndops {B}.
Arguments nd_rx {B}.
Arguments nd_tx {B}.

(** What one queue's thread works on: the guest's features, its queue, its array of
    vectors, and the interrupts it has raised. *)
Record net_thread := mknt { nt_features : Z; nt_vq : virt_queue; nt_iov : list iovec; nt_signals : Z }.

Definition put_vq (t : net_thread) (vq : virt_queue) (iov : list iovec) : net_thread :=
  mknt (nt_features t) vq iov (nt_signals t).

Definition raise (t : net_thread) (sig : bool) (vq : virt_queue) : net_thread :=
  mknt (nt_features t) vq (nt_iov t) (if sig then nt_signals t + 1 else nt_signals t).

Definition has_virtio_feature (features feature : Z) : bool := flag features (1 .<< feature).

(** [iov_size] of [include/kvm/iovec.h] *)
Definition iov_size (iov : list iovec) (len : Z) : out Z :=
  if Z.of_nat (length iov) <? len then Ub
  else Ret (u64 (fold_right (fun v s => iov_len v + s) 0 (firstn (Z.to_nat len) iov))).

(** The fields are read and stored again. *)
Fixpoint fix_fields (m : hmem) (hdr : Z) (l : list Z) : out hmem :=
  match l with
  | [] => Ret m
  | o :: l => let! x := load 2 m (hdr + o) in let! m := store 2 m (hdr + o) x in fix_fields m hdr l
  end.

Definition virtio_net_fix_tx_hdr (m : hmem) (hdr : Z) : out hmem := fix_fields m hdr HDR_FIELDS.
Definition virtio_net_fix_rx_hdr (m : hmem) (hdr : Z) : out hmem := fix_fields m hdr HDR_FIELDS.

(** [iov[i]] of the thread's array. *)
Definition iov_at (iov : list iovec) (i : Z) : out iovec :=
  match iov !! Z.to_nat i with Some v => Ret v | None => Ub end.

Section net.
Context {B : Type} (ops : net_dev_operations B) (kvm : kvm_mem) (need : Z -> Z -> Z -> bool).

(** Where the receive thread's packet buffer is. *)
Context (buffer : Z).

Definition BUFFER_SIZE : Z := MAX_PACKET_SIZE + NET_HDR_MRG_SIZE.

(** Taking the next chain; more fuel than the array has room for is never needed. *)
Definition next_chain (m : hmem) (t : net_thread) : out (Z * Z * Z * net_thread) :=
  let! (head, iov, out_, in_, vq) := virt_queue__get_iov kvm (S (length (nt_iov t))) m (nt_vq t) (nt_iov t) in
  Ret (head, out_, in_, put_vq t vq iov).

(** The loop that copies a packet of [len] bytes. Without another chain it polls the
    queue until the driver offers one: [NoFuel] when none is there. *)
Fixpoint rx_copy (fuel : nat) (m : hmem) (t : net_thread) (len copied num_buffers head in_ : Z) : out (hmem * net_thread * Z) :=
  match fuel with
  | O => NoFuel
  | S fuel =>
      if copied <? len then
        let! size := iov_size (nt_iov t) in_ in
        let iovsize := Z.min (len - copied) size in
        let! kdata := copy_in m (buffer + copied) iovsize in
        let! (m, iov) := memcpy_toiovec m (nt_iov t) kdata iovsize in
        let t := put_vq t (nt_vq t) iov in
        let copied := copied + iovsize in
        let! m := virt_queue__set_used_elem_no_update m (nt_vq t) head iovsize num_buffers in
        let num_buffers := u16 (num_buffers + 1) in
        if copied =? len then Ret (m, t, num_buffers)
        else
          let! (more, m) := virt_queue__available m (nt_vq t) in
          if more then
            let! (head, _, in_, t) := next_chain m t in
            rx_copy fuel m t len copied num_buffers head in_
          else NoFuel
      else Ret (m, t, num_buffers)
  end.

(** One packet; [None] is the end of the thread. *)
Definition rx_packet (fuel : nat) (m : hmem) (t : net_thread) (b : B) : out (option (hmem * net_thread) * B) :=
  let! (len, m, b) := nd_rx ops m [mkiov buffer BUFFER_SIZE] b in
  if len <? 0 then Ret (None, b)
  else
    let! (head, _, in_, t) := next_chain m t in
    let! v := iov_at (nt_iov t) 0 in
    let hdr := iov_base v in
    let! (m, t, num_buffers) := rx_copy fuel m t len 0 0 head in_ in
    let! m := virtio_net_fix_rx_hdr m hdr in
    let! m := if has_virtio_feature (nt_features t) VIRTIO_NET_F_MRG_RXBUF
              then store 2 m (hdr + HDR_NUM_BUFFERS) num_buffers else Ret m in
    let! m := virt_queue__used_idx_advance m (nt_vq t) num_buffers in
    let! (sig, vq) := virtio_queue__should_signal need m (nt_vq t) in
    Ret (Some (m, raise t sig vq), b).

(** The inner loop: packets as long as the driver has offered buffers. *)
Fixpoint virtio_net_rx_thread (fuel : nat) (m : hmem) (t : net_thread) (b : B) : out (option (hmem * net_thread) * B) :=
  match fuel with
  | O => NoFuel
  | S fuel' =>
      let! (more, m) := virt_queue__available m (nt_vq t) in
      if more then
        let! (r, b) := rx_packet fuel m t b in
        match r with
        | Some (m, t) => virtio_net_rx_thread fuel' m t b
        | None => Ret (None, b)
        end
      else Ret (Some (m, t), b)
  end.

Definition tx_packet (m : hmem) (t : net_thread) (b : B) : out (option (hmem * net_thread) * B) :=
  let! (head, out_, _, t) := next_chain m t in
  let! v := iov_at (nt_iov t) 0 in
  let! m := virtio_net_fix_tx_hdr m (iov_base v) in
  let! (len, b) := nd_tx ops m (firstn (Z.to_nat out_) (nt_iov t)) b in
  if len <? 0 then Ret (None, b)
  else
    let! m := virt_queue__set_used_elem m (nt_vq t) head len in
    Ret (Some (m, t), b).

Fixpoint tx_loop (fuel : nat) (m : hmem) (t : net_thread) (b : B) : out (option (hmem * net_thread) * B) :=
  match fuel with
  | O => NoFuel
  | S fuel =>
      let! (more, m) := virt_queue__available m (nt_vq t) in
      if more then
        let! (r, b) := tx_packet m t b in
        match r with
        | Some (m, t) => tx_loop fuel m t b
        | None => Ret (None, b)
        end
      else Ret (Some (m, t), b)
  end.

(** One round: everything that is offered, then at most one interrupt. *)
Definition virtio_net_tx_thread (fuel : nat) (m : hmem) (t : net_thread) (b : B) : out (option (hmem * net_thread) * B) :=
  let! (r, b) := tx_loop fuel m t b in
  match r with
  | Some (m, t) =>
      let! (sig, vq) := virtio_queue__should_signal need m (nt_vq t) in
      Ret (Some (m, raise t sig vq), b)
  | None => Ret (None, b)
  end.

Definition virtio_net_handle_mq : Z := VIRTIO_NET_OK.

Definition ctrl_request (m : hmem) (t : net_thread) : out (hmem * net_thread) :=
  let! (head, out_, _, t) := next_chain m t in
  let! ctrl := iov_at (nt_iov t) 0 in
  let! ack := iov_at (nt_iov t) out_ in
  let! class := load 1 m (iov_base ctrl) in
  let! m := store 1 m (iov_base ack) (if class =? VIRTIO_NET_CTRL_MQ then virtio_net_handle_mq else VIRTIO_NET_ERR) in
  let! m := virt_queue__set_used_elem m (nt_vq t) head (u32 (iov_len ack)) in
  Ret (m, t).

Fixpoint ctrl_loop (fuel : nat) (m : hmem) (t : net_thread) : out (hmem * net_thread) :=
  match fuel with
  | O => NoFuel
  | S fuel =>
      let! (more, m) := virt_queue__available m (nt_vq t) in
      if more then let! (m, t) := ctrl_request m t in ctrl_loop fuel m t
      else Ret (m, t)
  end.

Definition virtio_net_ctrl_thread (fuel : nat) (m : hmem) (t : net_thread) : out (hmem * net_thread) :=
  let! (m, t) := ctrl_loop fuel m t in
  let! (sig, vq) := virtio_queue__should_signal need m (nt_vq t) in
  Ret (m, raise t sig vq).
End net.

(** The user-mode stack behind the device; the answers of the host may depend on what
    the stack asks for. *)
Definition uip_ops (h : uip -> tx_answers) : net_dev_operations uip :=
  mkndops uip_rx (fun m iov s => uip_tx (h s) m iov s).

(** ** Chains and the rings *)

(** The addresses of a chain's buffers, in order. *)
Definition chain_addrs (kvm : kvm_mem) (l : list vring_desc) : list Z := iov_addrs (map (iov_of kvm) l).

(** [m'] agrees with [m] outside the used ring and the addresses [d]. *)
Definition kept (vr : vring) (d : list Z) (m m' : hmem) : Prop :=
  (forall a, ~ (used vr <= a < used vr + 6 + 8 * num vr) -> a ∉ d -> m' !! a = m !! a) /\
  (forall a, is_Some (m' !! a) <-> is_Some (m !! a)).

Lemma kept_refl vr d m : kept vr d m m.
Proof. split; reflexivity. Qed.

Lemma kept_trans vr d m1 m2 m3 : kept vr d m1 m2 -> kept vr d m2 m3 -> kept vr d m1 m3.
Proof.
  intros [A A'] [B B']. split; intros a; [intros H N; rewrite B by assumption; now apply A|].
  rewrite B'. apply A'.
Qed.

Lemma kept_mono vr d d' m m' : (forall a, a ∈ d -> a ∈ d') -> kept vr d m m' -> kept vr d' m m'.
Proof. intros S [A A']. split; [|exact A']. intros a H N. apply A; [exact H|]. intros I. now apply N, S. Qed.

Lemma quiet_kept vr d m m' : quiet vr m m' -> kept vr d m m'.
Proof. intros [A A']. split; [|exact A']. intros a H _. now apply A. Qed.

Lemma write_kept vr l bs m m' : write_addrs m l bs = Some m' -> kept vr l m m'.
Proof.
  intros E. split; [intros a _ N; exact (write_addrs_other _ _ _ _ a E N)|].
  intros a. exact (write_addrs_dom _ _ _ _ a E).
Qed.

Lemma kept_read vr d m m' l : kept vr d m m' -> Forall (off_rings vr) l -> (forall a, a ∈ l -> a ∉ d) ->
  read_addrs m' l = read_addrs m l.
Proof.
  intros [A _] O D. apply read_addrs_ext. intros a Ha. apply A; [|now apply D].
  rewrite Forall_forall in O. now apply O.
Qed.

Lemma mapped_kept vr d m m' l : kept vr d m m' -> mapped m l -> mapped m' l.
Proof. intros [_ A] M. eapply Forall_impl; [exact M|]. cbv beta. intros a. apply A. Qed.

(** The queue between two steps of the device: [q] are the heads that wait, [n0] says how
    many of the elements [l] written since [base] have been published. *)
Record queue_st (vr : vring) (m : hmem) (vq : virt_queue) (q : list Z) (base n0 : Z) (l : list (Z * Z)) : Prop := {
  qs_vr : vq_vring vq = vr;
  qs_mem : mem_ok m;
  qs_wf : ring_wf m vr;
  qs_avail : avail_rel m vr (last_avail_idx vq) q;
  qs_idx : load 2 m (used_idx vr) = Ret (u16 (base + n0));
  qs_slots : slots_hold m vr base l;
}.

Lemma queue_st_used vr m vq q base l : queue_st vr m vq q base (Z.of_nat (length l)) l -> used_rel m vr base l.
Proof. intros [_ _ _ _ I S]. now split. Qed.

Section steps.
Context (kvm : kvm_mem) (vr : vring) (base : Z).

Lemma st_num m vq q n0 l : queue_st vr m vq q base n0 l -> 0 < num vr /\ (num vr | 2 ^ 16).
Proof. intros Q. pose proof (wf_num _ _ (qs_wf _ _ _ _ _ _ _ Q)). pose proof (wf_div _ _ (qs_wf _ _ _ _ _ _ _ Q)). split; [lia|assumption]. Qed.

(** Asking whether something is offered. *)
Lemma st_available m vq q n0 l : queue_st vr m vq q base n0 l ->
  exists m', virt_queue__available m vq = Ret (negb (bool_decide (q = [])), m') /\ queue_st vr m' vq q base n0 l /\ quiet vr m m'.
Proof.
  intros Q. destruct (st_num _ _ _ _ _ Q) as [Hn Hd]. destruct Q as [V M W A I Sl].
  destruct (available_spec vr Hn m vq q W V A) as (m' & E & W' & A' & SU & _). exists m'. split; [exact E|].
  split; [|rewrite <- V; apply (available_quiet m vq (negb (bool_decide (q = []))) m'); [now rewrite V|exact E]].
  split; try assumption; [exact (available_mem_ok m vq _ m' M E)| |].
  - rewrite SU; [exact I|unfold used_idx; lia|unfold used_idx; lia].
  - apply (slots_hold_same vr Hn m); [|exact Sl]. intros n b B1 B2. apply SU; lia.
Qed.

(** Taking the next chain. *)
Lemma st_chain m t h q n0 l c : queue_st vr m (nt_vq t) (h :: q) base n0 l -> head_chain kvm m (nt_vq t) h c ->
  (length c <= length (nt_iov t))%nat -> Z.of_nat (length (nt_iov t)) <= 65535 ->
  let vq := set_last_avail (nt_vq t) (u16 (last_avail_idx (nt_vq t) + 1)) in
  next_chain kvm m t = Ret (h, Z.of_nat (length (readables c)), Z.of_nat (length (writables c)),
    put_vq t vq (fill (nt_iov t) 0 (map (iov_of kvm) c))) /\ queue_st vr m vq q base n0 l.
Proof.
  intros Q C Lc Li vq. destruct (st_num _ _ _ _ _ Q) as [Hn Hd]. destruct Q as [V M W A I Sl].
  destruct (pop_spec vr Hn Hd m (nt_vq t) h q W V A) as [P A']. fold vq in P, A'. split; [|now split].
  unfold next_chain, virt_queue__get_iov. rewrite P.
  destruct (get_head_iov_spec kvm m M (S (length (nt_iov t))) vq (nt_iov t) h Li ltac:(lia)) as [G _].
  rewrite (G c C Lc). reflexivity.
Qed.

(** Writing into buffers off the rings. *)
Lemma st_write m vq q n0 l d bs m' : queue_st vr m vq q base n0 l -> Forall (off_rings vr) d -> byte_ok bs ->
  write_addrs m d bs = Some m' -> queue_st vr m' vq q base n0 l.
Proof.
  intros Q O B E. destruct (st_num _ _ _ _ _ Q) as [Hn Hd]. destruct Q as [V M W A I Sl].
  assert (K : forall a, ~ off_rings vr a -> m' !! a = m !! a).
  { intros a N. apply (write_addrs_other _ _ _ _ _ E). intros C. apply N. rewrite Forall_forall in O. now apply O. }
  assert (Su : same_at m m' (used vr) (6 + 8 * num vr)).
  { apply same_at_lookup. intros b Hb. apply K. unfold off_rings. lia. }
  split; try assumption.
  - exact (mem_ok_write _ _ _ _ M B E).
  - destruct W as [? ? ? Wa Wu ?]. split; try assumption; (eapply Forall_impl; [eassumption|]; cbv beta; intros a; apply (write_addrs_dom _ _ _ _ a E)).
  - apply (avail_rel_same vr Hn m); [|exact A]. apply same_at_lookup. intros b Hb. apply K. unfold off_rings. lia.
  - rewrite Su; [exact I|unfold used_idx; lia|unfold used_idx; lia].
  - apply (slots_hold_same vr Hn m); [|exact Sl]. intros n b B1 B2. apply Su; lia.
Qed.

(** An element written ahead of the index. *)
Lemma st_element m vq q n0 l head len off : queue_st vr m vq q base n0 l -> 0 <= off -> n0 + off = Z.of_nat (length l) ->
  exists m', virt_queue__set_used_elem_no_update m vq head len off = Ret m' /\
    queue_st vr m' vq q base n0 (l ++ [(u32 head, u32 len)]) /\ quiet vr m m'.
Proof.
  intros Q Ho Hl. destruct (st_num _ _ _ _ _ Q) as [Hn Hd]. destruct Q as [V M W A I Sl].
  destruct (no_update_append vr Hn Hd m vq base n0 l head len off W V I Sl Ho Hl) as (m' & E & W' & SA & I' & Sl').
  exists m'. split; [exact E|]. split.
  - split; try assumption; [|apply (avail_rel_same vr Hn m); [|exact A]; intros n b B1 B2; apply SA; lia].
    unfold virt_queue__set_used_elem_no_update, umod in E. rewrite V, I in E. rewrite (proj2 (Z.eqb_neq _ 0)) in E by lia.
    destruct (store 4 m _ _) as [m1| |] eqn:E1; try discriminate. exact (mem_ok_store _ _ _ _ _ (mem_ok_store _ _ _ _ _ M E1) E).
  - unfold virt_queue__set_used_elem_no_update, umod in E. rewrite V, I in E. rewrite (proj2 (Z.eqb_neq _ 0)) in E by lia.
    pose proof (Z.mod_pos_bound (u16 (u16 (base + n0) + off)) (num vr) Hn).
    destruct (store 4 m _ _) as [m1| |] eqn:E1; try discriminate.
    eapply quiet_trans; [apply (store_quiet _ _ _ _ _ _ E1)|apply (store_quiet _ _ _ _ _ _ E)]; unfold used_ring; lia.
Qed.

(** Publishing what has been written. *)
Lemma st_publish m vq q n0 l jump : queue_st vr m vq q base n0 l -> n0 + jump = Z.of_nat (length l) ->
  exists m', virt_queue__used_idx_advance m vq jump = Ret m' /\ queue_st vr m' vq q base (Z.of_nat (length l)) l /\ quiet vr m m'.
Proof.
  intros Q Hl. destruct (st_num _ _ _ _ _ Q) as [Hn Hd]. destruct Q as [V M W A I Sl].
  destruct (advance_rel vr Hn m vq base n0 l jump W V I Sl Hl) as (m' & E & W' & SA & [I' Sl']).
  exists m'. split; [exact E|]. unfold virt_queue__used_idx_advance in E. rewrite V, I in E. split.
  - split; try assumption; [exact (mem_ok_store _ _ _ _ _ M E)|].
    apply (avail_rel_same vr Hn m); [|exact A]. intros n b B1 B2. apply SA; lia.
  - apply (store_quiet _ _ _ _ _ _ E); unfold used_idx; lia.
Qed.

(** Deciding about the interrupt. *)
Lemma st_signal need m vq q l : queue_st vr m vq q base (Z.of_nat (length l)) l ->
  exists sig vq', virtio_queue__should_signal need m vq = Ret (sig, vq') /\ queue_st vr m vq' q base (Z.of_nat (length l)) l.
Proof.
  intros [V M W A I S]. destruct (should_signal_total need m vq) as (sig & vq' & E & V' & L' & _); [now rewrite V|].
  exists sig, vq'. split; [exact E|]. split; try assumption; [now rewrite V'|now rewrite L'].
Qed.
End steps.

(** Storing what has been read changes nothing. *)
Lemma store_load_id n m a x : mem_ok m -> load n m a = Ret x -> store n m a x = Ret m.
Proof.
  intros M. unfold load, store, load_bytes, store_bytes. destruct (read_addrs m (seqZ a (Z.of_nat n))) as [bs|] eqn:R; [|discriminate].
  intros [= <-]. pose proof (read_addrs_length _ _ _ R) as Ll. rewrite length_seqZ, Nat2Z.id in Ll.
  pose proof (read_addrs_bytes _ _ _ M R) as Bb. rewrite <- Ll, length_le_enc, le_enc_dec, Ll by exact Bb. clear Ll Bb M.
  assert (G : forall l bs, read_addrs m l = Some bs -> write_addrs m l bs = Some m).
  { clear. induction l as [|a l IH]; intros bs; cbn; [now intros [= <-]|].
    destruct (m !! a) as [b|] eqn:E; [|discriminate]. destruct (read_addrs m l) as [bs'|]; [|discriminate]. intros [= <-].
    rewrite insert_id by exact E. now apply IH. }
  now rewrite (G _ _ R).
Qed.

Lemma fix_fields_id m hdr l : mem_ok m -> Forall (fun o => field m 2 (hdr + o)) l -> fix_fields m hdr l = Ret m.
Proof.
  intros M F. induction F as [|o l Ho F IH]; cbn [fix_fields]; [reflexivity|].
  destruct (load_field 2 m _ Ho) as [x E]. rewrite E, (store_load_id _ _ _ _ M E). exact IH.
Qed.

Lemma fix_hdr_id m hdr : mem_ok m -> mapped m (seqZ hdr NET_HDR_SIZE) -> fix_fields m hdr HDR_FIELDS = Ret m.
Proof.
  intros M H. apply fix_fields_id; [exact M|]. assert (F : field m 10 hdr) by exact H.
  unfold HDR_FIELDS. rewrite !Forall_cons, Forall_nil. split_and!; [..|exact I]; refine (field_sub _ _ _ _ _ F _ _); lia.
Qed.

(** ** Receiving a packet *)

(** Copying into vectors does not look at those behind the ones that it needs. *)
Lemma toiovec_app m a b kdata len : iov_wf a -> 0 <= len < 2 ^ 31 -> len <= Z.of_nat (length (iov_addrs a)) ->
  memcpy_toiovec m (a ++ b) kdata len = let! (m, a') := memcpy_toiovec m a kdata len in Ret (m, a' ++ b).
Proof.
  intros W. revert m kdata len. induction W as [|v a Hv W IH]; intros m kdata len Hl Ht.
  - assert (len = 0) as -> by (cbn in Ht; lia). now destruct b.
  - rewrite iov_addrs_cons, length_app, length_seqZ in Ht. cbv beta in Hv. unfold fits in Hv.
    cbn [app memcpy_toiovec]. destruct (Z.ltb_spec 0 len) as [P|P]; [|reflexivity].
    rewrite !u32_small by (unfold fits; lia). destruct (negb (iov_len v =? 0)) eqn:E0.
    + destruct (copy_out _ _ _ _) as [m1| |]; [|reflexivity..]. rewrite IH by lia.
      destruct (memcpy_toiovec m1 a _ _) as [[m2 r]| |]; reflexivity.
    + apply negb_false_iff, Z.eqb_eq in E0. rewrite IH by lia. destruct (memcpy_toiovec m a _ _) as [[m2 r]| |]; reflexivity.
Qed.

Lemma length_advance_iov iov len : length (advance_iov iov len) = length iov.
Proof.
  revert len. induction iov as [|v iov IH]; intros len; cbn [advance_iov]; destruct (0 <? len); try reflexivity.
  cbn [length]. now rewrite IH.
Qed.

Lemma iov_size_sum a : iov_wf a -> fold_right (fun v s => iov_len v + s) 0 a = Z.of_nat (length (iov_addrs a)).
Proof.
  intros W. induction W as [|v a Hv W IH]; [reflexivity|]. cbn [fold_right]. rewrite IH, iov_addrs_cons, length_app, length_seqZ.
  cbv beta in Hv. unfold fits in Hv. lia.
Qed.

Lemma iov_addrs_bound a : iov_wf a -> Z.of_nat (length (iov_addrs a)) <= 2 ^ 32 * Z.of_nat (length a).
Proof.
  intros W. induction W as [|v a Hv W IH]; [cbn; lia|]. rewrite iov_addrs_cons, length_app, length_seqZ. cbv beta in Hv.
  unfold fits in Hv. cbn [length]. lia.
Qed.

Lemma iov_size_prefix a b : iov_wf a -> Z.of_nat (length a) <= 65535 ->
  iov_size (a ++ b) (Z.of_nat (length a)) = Ret (Z.of_nat (length (iov_addrs a))).
Proof.
  intros W L. unfold iov_size. rewrite (proj2 (Z.ltb_ge _ _)) by (rewrite length_app; lia).
  rewrite Nat2Z.id, take_app_length, iov_size_sum by exact W. rewrite wrap_id; [reflexivity|].
  pose proof (iov_addrs_bound a W). unfold fits. lia.
Qed.

Section receive.
Context {B : Type} (ops : net_dev_operations B) (kvm : kvm_mem) (need : Z -> Z -> Z -> bool) (buffer : Z).

Definition chain_size (l : list vring_desc) : Z := Z.of_nat (length (chain_addrs kvm l)).

(** The buffers of several chains, one after the other. *)
Definition all_addrs (cs : list (Z * list vring_desc)) : list Z := List.concat (map (fun c => chain_addrs kvm (snd c)) cs).

(** The driver offers at head [h] the writable buffers [l], which lie off the rings; the
    descriptors are not among the addresses [d] that the device writes to. *)
Record offered (vr : vring) (m0 : hmem) (d : list Z) (h : Z) (l : list vring_desc) : Prop := {
  of_chain : forall m vq, vq_vring vq = vr -> kept vr d m0 m -> head_chain kvm m vq h l;
  of_writable : Forall (fun e => writable e = true) l;
  of_wf : iov_wf (map (iov_of kvm) l);
  of_room : 0 < Z.of_nat (length l) <= VIRTIO_NET_QUEUE_SIZE;
  of_off : Forall (off_rings vr) (chain_addrs kvm l);
  of_mapped : mapped m0 (chain_addrs kvm l);
}.

(** A packet of [n] bytes needs exactly these chains. *)
Fixpoint packet_fits (n : Z) (cs : list (Z * list vring_desc)) : Prop :=
  match cs with
  | [] => False
  | [(_, l)] => 0 < n <= chain_size l
  | (_, l) :: cs => 0 < chain_size l < n /\ packet_fits (n - chain_size l) cs
  end.

(** The used elements for it: each head with the bytes that went into its buffers. *)
Fixpoint spread (n : Z) (cs : list (Z * list vring_desc)) : list (Z * Z) :=
  match cs with
  | [] => []
  | (h, l) :: cs => (h, Z.min n (chain_size l)) :: spread (n - chain_size l) cs
  end.

Lemma all_writable l : Forall (fun e => writable e = true) l -> writables l = l.
Proof. intros W. induction W as [|e l E W IH]; [reflexivity|]. unfold writables in *. cbn. rewrite E. now f_equal. Qed.

Lemma st_head_fits vr m vq q base n0 l h k : queue_st vr m vq q base n0 l -> q !! k = Some h -> u32 h = h.
Proof.
  intros [_ M _ A _ _] L. pose proof (av_slot _ _ _ _ A k h L) as E. pose proof (load_fits _ _ _ _ M E) as F.
  unfold fits in F. cbn in F. apply wrap_id. unfold fits. lia.
Qed.

(** One chain's share of the packet: the bytes go into its buffers and its element is written. *)
Lemma rx_share vr m t q base n0 el h l b copied n iovsize bs :
  queue_st vr m (nt_vq t) q base n0 el -> nt_iov t = map (iov_of kvm) l ++ b -> iov_wf (map (iov_of kvm) l) ->
  mapped m (chain_addrs kvm l) -> Forall (off_rings vr) (chain_addrs kvm l) -> NoDup (chain_addrs kvm l) ->
  iovsize = Z.min n (chain_size l) -> 0 < n < 2 ^ 31 -> read_addrs m (seqZ (buffer + copied) iovsize) = Some bs ->
  (forall a, a ∈ seqZ (buffer + copied) iovsize -> a ∉ chain_addrs kvm l) -> 0 <= Z.of_nat (length el) - n0 ->
  exists m1 m2 iov, copy_in m (buffer + copied) iovsize = Ret bs /\ memcpy_toiovec m (nt_iov t) bs iovsize = Ret (m1, iov) /\
    length iov = length (nt_iov t) /\
    virt_queue__set_used_elem_no_update m1 (nt_vq t) h iovsize (Z.of_nat (length el) - n0) = Ret m2 /\
    queue_st vr m2 (nt_vq t) q base n0 (el ++ [(u32 h, u32 iovsize)]) /\ kept vr (chain_addrs kvm l) m m2 /\
    read_addrs m2 (take (Z.to_nat iovsize) (chain_addrs kvm l)) = Some bs.
Proof.
  intros Q I W Mp Off ND Es Hn R Dis Ho. unfold chain_size in Es.
  assert (Hs : 0 <= iovsize) by lia. assert (Lb : length bs = Z.to_nat iovsize) by (rewrite (read_addrs_length _ _ _ R), length_seqZ; lia).
  pose proof (read_addrs_bytes _ _ _ (qs_mem _ _ _ _ _ _ _ Q) R) as Bb. set (d := take (Z.to_nat iovsize) (chain_addrs kvm l)).
  assert (Dd : Forall (off_rings vr) d) by now apply Forall_take. assert (Ld : length d = length bs) by (unfold d; rewrite length_take; unfold chain_addrs in *; lia).
  destruct (write_addrs_mapped m d bs) as [m1 E1]; [now apply Forall_take|].
  pose proof (st_write vr base m _ q n0 el d bs m1 Q Dd Bb E1) as Q1.
  destruct (st_element vr base m1 _ q n0 el h iovsize (Z.of_nat (length el) - n0) Q1 ltac:(lia) ltac:(lia)) as (m2 & E2 & Q2 & Qu).
  exists m1, m2. eexists. split; [rewrite copy_in_read by lia; now rewrite R|]. split.
  { rewrite I, toiovec_app by (first [exact W|unfold chain_addrs in *; lia]). rewrite toiovec_spec by (first [exact W|unfold chain_addrs in *; lia]).
    fold (chain_addrs kvm l). fold d. unfold write_all. rewrite take_ge by lia. rewrite E1. reflexivity. }
  split; [rewrite I, !length_app, length_advance_iov; reflexivity|]. split; [exact E2|]. split; [exact Q2|].
  assert (K2 : kept vr [] m1 m2) by (now apply quiet_kept). split.
  - eapply kept_trans; [apply (kept_mono vr d); [|exact (write_kept vr _ _ _ _ E1)]|apply (kept_mono vr []); [|exact K2]].
    + intros a. apply subseteq_take.
    + intros a Ha. inversion Ha.
  - rewrite (kept_read vr [] m1 m2 d K2 Dd) by (intros a _ Ha; inversion Ha). apply (read_write_same m d bs m1); [|lia|exact E1].
    unfold d. rewrite <- (take_drop (Z.to_nat iovsize) (chain_addrs kvm l)) in ND. now apply NoDup_app in ND as [N _].
Qed.

Lemma all_addrs_cons h l cs : all_addrs ((h, l) :: cs) = chain_addrs kvm l ++ all_addrs cs.
Proof. reflexivity. Qed.

Lemma packet_fits_length n cs : packet_fits n cs -> 0 < n <= Z.of_nat (length (all_addrs cs)).
Proof.
  revert n. induction cs as [|[h l] cs IH]; intros n F; [destruct F|]. rewrite all_addrs_cons, length_app. unfold chain_size in *.
  destruct cs as [|c cs]; [cbn in F; unfold chain_size in F; lia|]. destruct F as [F1 F2]. apply IH in F2. unfold chain_size in *. lia.
Qed.

Lemma array_prefix l iov : Z.of_nat (length l) <= VIRTIO_NET_QUEUE_SIZE -> Z.of_nat (length iov) = VIRTIO_NET_QUEUE_SIZE ->
  let a := fill iov 0 (map (iov_of kvm) l) in
  a = map (iov_of kvm) l ++ drop (length l) iov /\ Z.of_nat (length a) = VIRTIO_NET_QUEUE_SIZE.
Proof.
  intros H1 H2 a. assert (E : a = map (iov_of kvm) l ++ drop (length l) iov) by (unfold a; now rewrite fill_0, length_map).
  split; [exact E|]. rewrite E, length_app, length_map, length_drop. lia.
Qed.

Lemma length_spread n cs : length (spread n cs) = length cs.
Proof. revert n. induction cs as [|[h l] cs IH]; intros n; [reflexivity|]. cbn [spread length]. now rewrite IH. Qed.

(** One round of the loop. *)
Lemma rx_copy_step fuel vr m t q base n0 el h l b copied len iovsize bs :
  queue_st vr m (nt_vq t) q base n0 el -> nt_iov t = map (iov_of kvm) l ++ b -> Z.of_nat (length (nt_iov t)) = VIRTIO_NET_QUEUE_SIZE ->
  iov_wf (map (iov_of kvm) l) -> mapped m (chain_addrs kvm l) -> Forall (off_rings vr) (chain_addrs kvm l) -> NoDup (chain_addrs kvm l) ->
  iovsize = Z.min (len - copied) (chain_size l) -> 0 < len - copied < 2 ^ 31 -> read_addrs m (seqZ (buffer + copied) iovsize) = Some bs ->
  (forall a, a ∈ seqZ (buffer + copied) iovsize -> a ∉ chain_addrs kvm l) -> u32 h = h ->
  let nb := Z.of_nat (length el) - n0 in 0 <= nb -> nb + 1 < 65536 ->
  exists m2 iov, Z.of_nat (length iov) = VIRTIO_NET_QUEUE_SIZE /\
    (let t' := put_vq t (nt_vq t) iov in
     rx_copy kvm buffer (S fuel) m t len copied nb h (Z.of_nat (length l)) =
     if copied + iovsize =? len then Ret (m2, t', nb + 1)
     else let! (more, m) := virt_queue__available m2 (nt_vq t) in
          if more then let! (head, _, in_, t) := next_chain kvm m t' in rx_copy kvm buffer fuel m t len (copied + iovsize) (nb + 1) head in_
          else NoFuel) /\
    queue_st vr m2 (nt_vq t) q base n0 (el ++ [(h, iovsize)]) /\ kept vr (chain_addrs kvm l) m m2 /\
    read_addrs m2 (take (Z.to_nat iovsize) (chain_addrs kvm l)) = Some bs.
Proof.
  intros Q I Li W Mp Off ND Es Hn R Dis Hh nb Ho Hb.
  destruct (rx_share vr m t q base n0 el h l b copied (len - copied) iovsize bs Q I W Mp Off ND Es Hn R Dis Ho)
    as (m1 & m2 & iov & E1 & E2 & Lv & E3 & Q2 & K2 & R2).
  exists m2, iov. split; [now rewrite Lv|]. split; [|split; [|now split]].
  - cbn [rx_copy]. rewrite (proj2 (Z.ltb_lt copied len)) by lia.
    assert (Ez : iov_size (nt_iov t) (Z.of_nat (length l)) = Ret (chain_size l)).
    { rewrite I, <- (length_map (iov_of kvm) l), iov_size_prefix; [reflexivity|exact W|].
      rewrite length_map. rewrite I, length_app, length_map in Li. unfold VIRTIO_NET_QUEUE_SIZE in Li. lia. }
    rewrite Ez, <- Es, E1, E2. cbn [put_vq nt_vq]. fold nb in E3. rewrite E3. rewrite (wrap_id 16 (nb + 1)) by (unfold fits; lia). reflexivity.
  - assert (U : u32 iovsize = iovsize).
    { apply wrap_id. unfold fits, chain_size in *. lia. }
    now rewrite Hh, U in Q2.
Qed.

(** The whole packet, over the chains that it needs. *)
Lemma rx_copy_spec vr m0 base d q len n0 : forall cs h l b fuel m t copied bs el,
  queue_st vr m (nt_vq t) (map fst cs ++ q) base n0 el -> nt_iov t = map (iov_of kvm) l ++ b -> Z.of_nat (length (nt_iov t)) = VIRTIO_NET_QUEUE_SIZE ->
  Forall (fun c => offered vr m0 d (fst c) (snd c)) ((h, l) :: cs) -> kept vr d m0 m ->
  (forall a, a ∈ all_addrs ((h, l) :: cs) -> a ∈ d) -> NoDup (all_addrs ((h, l) :: cs)) -> u32 h = h ->
  packet_fits (len - copied) ((h, l) :: cs) -> len - copied < 2 ^ 31 ->
  read_addrs m (seqZ (buffer + copied) (len - copied)) = Some bs -> Forall (off_rings vr) (seqZ (buffer + copied) (len - copied)) ->
  (forall a, a ∈ seqZ (buffer + copied) (len - copied) -> a ∉ all_addrs ((h, l) :: cs)) ->
  0 <= Z.of_nat (length el) - n0 -> Z.of_nat (length el) - n0 + Z.of_nat (length cs) + 1 < 65536 -> (length cs < fuel)%nat ->
  exists m' t', rx_copy kvm buffer fuel m t len copied (Z.of_nat (length el) - n0) h (Z.of_nat (length l)) =
      Ret (m', t', Z.of_nat (length el) - n0 + Z.of_nat (length cs) + 1) /\
    queue_st vr m' (nt_vq t') q base n0 (el ++ spread (len - copied) ((h, l) :: cs)) /\ kept vr (all_addrs ((h, l) :: cs)) m m' /\
    read_addrs m' (take (Z.to_nat (len - copied)) (all_addrs ((h, l) :: cs))) = Some bs /\
    nt_features t' = nt_features t /\ nt_signals t' = nt_signals t /\ Z.of_nat (length (nt_iov t')) = VIRTIO_NET_QUEUE_SIZE.
Proof.
  induction cs as [|[h1 l1] cs IH]; intros h l b fuel m t copied bs el Q I Li Of K D ND Hh F Hl R Ob Dis Ho Hn Hf;
    (destruct fuel as [|fuel]; [cbn in Hf; lia|]); pose proof (packet_fits_length _ _ F) as Ft; rewrite all_addrs_cons in *;
    pose proof (Forall_cons_1 _ _ _ Of) as [O1 Of1]; cbn [fst snd] in O1; destruct O1 as [_ Wr Wf Rm Off Mp];
    pose proof ND as ND0; apply NoDup_app in ND as (ND1 & NDd & ND2); pose proof (mapped_kept vr d m0 m _ K Mp) as Mp1.
  - cbn [packet_fits] in F. change (all_addrs []) with (@nil Z) in *. rewrite app_nil_r in *. cbn [map app length] in *.
    destruct (rx_copy_step fuel vr m t q base n0 el h l b copied len (len - copied) bs) as (m2 & iov & Lv & E & Q2 & K2 & R2);
      try assumption; try lia.
    cbv zeta in E. rewrite (proj2 (Z.eqb_eq (copied + (len - copied)) len)) in E by lia.
    eexists _, _. split; [rewrite E; f_equal; f_equal; lia|]. cbn [spread]. rewrite Z.min_l by lia.
    split; [exact Q2|]. split; [exact K2|]. split; [exact R2|]. split; [reflexivity|]. now split.
  - destruct F as [F1 F2]. set (s := chain_size l) in *.
    assert (Sp : seqZ (buffer + copied) (len - copied) = seqZ (buffer + copied) s ++ seqZ (buffer + (copied + s)) (len - (copied + s))).
    { replace (len - copied) with (s + (len - (copied + s))) by lia. rewrite seqZ_app by lia. f_equal. f_equal; lia. }
    rewrite Sp in *. rewrite read_addrs_app in R. destruct (read_addrs m (seqZ (buffer + copied) s)) as [bs1|] eqn:R1; [|discriminate].
    destruct (read_addrs m (seqZ (buffer + (copied + s)) _)) as [bs2|] eqn:R2; [|discriminate]. injection R as <-.
    apply Forall_app in Ob as [Ob1 Ob2].
    destruct (rx_copy_step fuel vr m t (h1 :: map fst cs ++ q) base n0 el h l b copied len s bs1) as (m2 & iov & Lv & E & Q2 & K2 & Rd2);
      try assumption; try (fold s; lia).
    { intros a Ha Ia. apply (Dis a); [apply elem_of_app; now left|apply elem_of_app; now left]. }
    cbv zeta in E. rewrite (proj2 (Z.eqb_neq (copied + s) len)) in E by lia. rewrite E.
    destruct (st_available vr base m2 (nt_vq t) _ n0 _ Q2) as (m3 & -> & Q3 & Qu3). rewrite bool_decide_eq_false_2 by discriminate. cbn [negb].
    assert (K3 : kept vr (chain_addrs kvm l) m m3) by (eapply kept_trans; [exact K2|now apply quiet_kept]).
    assert (K03 : kept vr d m0 m3).
    { eapply kept_trans; [exact K|]. apply (kept_mono vr (chain_addrs kvm l)); [|exact K3]. intros a Ha. apply D, elem_of_app. now left. }
    pose proof (Forall_cons_1 _ _ _ Of1) as [O1 _]. cbn [fst snd] in O1. destruct O1 as [Ch1 Wr1 Wf1 Rm1 Off1 Mp01].
    set (t' := put_vq t (nt_vq t) iov) in *.
    destruct (st_chain kvm vr base m3 t' h1 (map fst cs ++ q) n0 (el ++ [(h, s)]) l1) as [Ec Qc]; [exact Q3| |cbn [t' put_vq nt_iov]; lia|cbn [t' put_vq nt_iov]; unfold VIRTIO_NET_QUEUE_SIZE in *; lia|].
    { apply Ch1; [apply Q3|exact K03]. }
    rewrite Ec. rewrite all_writable by exact Wr1. destruct (array_prefix l1 iov ltac:(lia) Lv) as [Ea La].
    set (t1 := put_vq t' _ _) in *. cbn [t' put_vq nt_iov] in t1.
    assert (Nb : Z.of_nat (length el) - n0 + 1 = Z.of_nat (length (el ++ [(h, s)])) - n0) by (rewrite length_app; cbn; lia). rewrite Nb.
    destruct (IH h1 l1 (drop (length l1) iov) fuel m3 t1 (copied + s) bs2 (el ++ [(h, s)])) as (m' & t2 & E' & Q' & K' & R' & Ft' & Sg' & Lt').
    + exact Qc.
    + exact Ea.
    + exact La.
    + exact Of1.
    + exact K03.
    + intros a Ha. apply D, elem_of_app. now right.
    + exact ND2.
    + apply (st_head_fits vr m3 _ _ base n0 _ h1 0 Q3). reflexivity.
    + now replace (len - (copied + s)) with (len - copied - s) by lia.
    + lia.
    + rewrite (kept_read vr (chain_addrs kvm l) m m3); [exact R2|exact K3|exact Ob2|]. intros a Ha Ia.
      apply (Dis a); [apply elem_of_app; now right|apply elem_of_app; now left].
    + exact Ob2.
    + intros a Ha Ia. apply (Dis a); [apply elem_of_app; now right|apply elem_of_app; now right].
    + rewrite length_app; cbn; lia.
    + rewrite length_app; cbn in Hn |- *; lia.
    + cbn in Hf; lia.
    + exists m', t2. split; [rewrite E'; f_equal; f_equal; rewrite length_app; cbn; lia|].
      replace (spread (len - copied) ((h, l) :: (h1, l1) :: cs)) with ([(h, s)] ++ spread (len - (copied + s)) ((h1, l1) :: cs)).
      2:{ replace (len - (copied + s)) with (len - copied - s) by lia. change (spread (len - copied) ((h, l) :: (h1, l1) :: cs)) with
            ((h, Z.min (len - copied) s) :: spread (len - copied - s) ((h1, l1) :: cs)). now rewrite Z.min_r by lia. }
      split; [now rewrite app_assoc|]. split.
      { eapply kept_trans; [apply (kept_mono vr (chain_addrs kvm l)); [|exact K3]|apply (kept_mono vr (all_addrs ((h1, l1) :: cs))); [|exact K']];
          intros a Ha; apply elem_of_app; [now left|now right]. }
      split; [|now repeat split].
      rewrite take_app_ge by (unfold s, chain_size in *; lia). rewrite read_addrs_app.
      assert (Rl : read_addrs m' (chain_addrs kvm l) = Some bs1).
      { rewrite (kept_read vr (all_addrs ((h1, l1) :: cs)) m3 m'); [|exact K'|exact Off|exact NDd].
        rewrite (kept_read vr [] m2 m3); [|now apply quiet_kept|exact Off|intros a _ Ha; inversion Ha].
        rewrite take_ge in Rd2 by (unfold s, chain_size; lia). exact Rd2. }
      rewrite Rl. replace (Z.to_nat (len - copied) - length (chain_addrs kvm l))%nat with (Z.to_nat (len - (copied + s))) by (unfold s, chain_size; lia).
      now rewrite R'.
Qed.
End receive.

(** ** What the threads rely on *)

(** [rx_ready b pkt b']: the packet [pkt] is what the backend hands over next; and
    [tx_accepts b hdr frame b']: it takes a header and a frame, in one piece each or
    the frame in several. *)
Class NetBackend {B : Type} (ops : net_dev_operations B) (rx_ready : B -> list Z -> B -> Prop)
  (tx_accepts : B -> list Z -> list Z -> B -> Prop) := {
  rx_law : forall m buffer b pkt b', rx_ready b pkt b' -> mapped m (seqZ buffer BUFFER_SIZE) ->
    Z.of_nat (length pkt) <= BUFFER_SIZE -> byte_ok pkt /\
    exists m', nd_rx ops m [mkiov buffer BUFFER_SIZE] b = Ret (Z.of_nat (length pkt), m', b') /\
      write_addrs m (seqZ buffer (Z.of_nat (length pkt))) pkt = Some m';
  tx_law : forall m v e b hdr frame b', tx_accepts b hdr frame b' ->
    copy_in m (iov_base v) (iov_len v) = Ret hdr -> copy_in m (iov_base e) (iov_len e) = Ret frame ->
    nd_tx ops m [v; e] b = Ret (Z.of_nat (length hdr + length frame), b');
}.

Lemma take_seqZ a n len : Z.of_nat n <= len -> take n (seqZ a len) = seqZ a (Z.of_nat n).
Proof.
  intros H. rewrite <- (app_nil_r (seqZ a len)), <- (Nat2Z.id n) at 1. rewrite take_seqZ_app by lia.
  rewrite Z.min_r by lia. now rewrite take_nil, app_nil_r.
Qed.

(** The user-mode stack: whatever waits in the pool; and ARP requests for the host. *)
Definition uip_takes_arp (s : uip) (hdr frame : list Z) (s' : uip) : Prop :=
  arp_request s hdr frame /\ exists i', uip_tx_do_arp (ui s) (mkarg hdr frame) = Ret i' /\ s' = with_ui s i'.

#[export] Instance uip_backend h : NetBackend (uip_ops h) uip_ready uip_takes_arp.
Proof.
  split.
  - intros m buffer s pkt s' R Mp L. assert (Ea : iov_addrs [mkiov buffer BUFFER_SIZE] = seqZ buffer BUFFER_SIZE) by (cbn [iov_addrs flat_map iov_base iov_len]; apply app_nil_r).
    split; [destruct R as (? & ? & ? & ? & ? & ? & ? & ? & ? & _); assumption|].
    destruct (ready_rx s pkt s' m [mkiov buffer BUFFER_SIZE] R) as (m' & E & Wm).
    + repeat constructor. unfold fits, BUFFER_SIZE, MAX_PACKET_SIZE, NET_HDR_MRG_SIZE. cbn. lia.
    + rewrite Ea, length_seqZ. lia.
    + now rewrite Ea.
    + exists m'. split; [exact E|]. rewrite Ea in Wm. rewrite <- Wm. f_equal.
      symmetry. now apply take_seqZ.
  - intros m v e s hdr frame s' (A & i' & E & ->) Cv Ce. exact (tx_arp (h s) m v e s hdr frame i' Cv Ce A E).
Qed.

Section device.
Context {B : Type} (ops : net_dev_operations B) (rx_ready : B -> list Z -> B -> Prop) (tx_accepts : B -> list Z -> list Z -> B -> Prop)
  `{!NetBackend ops rx_ready tx_accepts} (kvm : kvm_mem) (need : Z -> Z -> Z -> bool) (buffer : Z).

(** The packet as the guest finds it: with the number of buffers in its header if the
    guest has asked for merged buffers. *)
Definition merged (f nb : Z) (pkt : list Z) : list Z :=
  if has_virtio_feature f VIRTIO_NET_F_MRG_RXBUF then splice (Z.to_nat HDR_NUM_BUFFERS) (le_enc 2 nb) pkt else pkt.

(** Storing the count over what has just been copied. *)
Lemma put_count m hdr r pkt nb : NoDup (seqZ hdr 12 ++ r) -> mapped m (seqZ hdr 12 ++ r) -> (12 <= length pkt)%nat ->
  read_addrs m (take (length pkt) (seqZ hdr 12 ++ r)) = Some pkt ->
  exists m', store 2 m (hdr + HDR_NUM_BUFFERS) nb = Ret m' /\ write_addrs m (seqZ (hdr + HDR_NUM_BUFFERS) 2) (le_enc 2 nb) = Some m' /\
    read_addrs m' (take (length pkt) (seqZ hdr 12 ++ r)) = Some (splice (Z.to_nat HDR_NUM_BUFFERS) (le_enc 2 nb) pkt).
Proof.
  intros ND Mp L R. set (r' := take (length pkt - 12) r).
  assert (Et : take (length pkt) (seqZ hdr 12 ++ r) = seqZ hdr 10 ++ seqZ (hdr + 10) 2 ++ r').
  { rewrite take_app_ge by (rewrite length_seqZ; lia). rewrite length_seqZ. change (Z.to_nat 12) with 12%nat. fold r'.
    change 12 with (10 + 2). rewrite seqZ_app by lia. rewrite <- app_assoc. now rewrite Z.add_comm. }
  rewrite Et in *. assert (NDt : NoDup (seqZ hdr 10 ++ seqZ (hdr + 10) 2 ++ r')).
  { rewrite <- Et. rewrite <- (take_drop (length pkt) (seqZ hdr 12 ++ r)) in ND. now apply NoDup_app in ND as [N _]. }
  assert (Mt : mapped m (seqZ hdr 10 ++ seqZ (hdr + 10) 2 ++ r')) by (rewrite <- Et; now apply Forall_take).
  apply Forall_app in Mt as [_ Mt]. apply Forall_app in Mt as [Mt _].
  apply NoDup_app in NDt as (_ & D1 & NDt). apply NoDup_app in NDt as (N2 & D2 & _).
  destruct (write_addrs_mapped m _ (le_enc 2 nb) Mt) as [m' Wm]. exists m'. unfold HDR_NUM_BUFFERS. split.
  { unfold store, store_bytes. rewrite length_le_enc. change (Z.of_nat 2) with 2. now rewrite Wm. }
  split; [exact Wm|].
  rewrite !read_addrs_app in R |- *. destruct (read_addrs m (seqZ hdr 10)) as [b1|] eqn:R1; [|discriminate].
  destruct (read_addrs m (seqZ (hdr + 10) 2)) as [b2|] eqn:R2; [|discriminate]. destruct (read_addrs m r') as [b3|] eqn:R3; [|discriminate].
  injection R as <-. rewrite (read_write_other m _ _ m' (seqZ hdr 10) Wm), R1.
  2:{ intros a Hb Ha. apply (D1 a Ha). apply elem_of_app. now left. }
  rewrite (read_write_same m _ (le_enc 2 nb) m' N2 eq_refl Wm).
  rewrite (read_write_other m _ _ m' r' Wm), R3 by (intros a Hb Ha; exact (D2 a Hb Ha)).
  apply read_addrs_length in R1, R2. rewrite length_seqZ in R1, R2. unfold splice. change (Z.to_nat 10) with 10%nat in *. change (Z.to_nat 2) with 2%nat in *.
  rewrite take_app_length' by lia. rewrite length_le_enc. rewrite (app_assoc b1 b2 b3), (drop_app_length' (b1 ++ b2)) by (rewrite length_app; lia). reflexivity.
Qed.

(** The buffers [cs] that the driver offers for one packet. *)
Record rx_offer (vr : vring) (m : hmem) (cs : list (Z * list vring_desc)) : Prop := {
  ro_chains : Forall (fun c => offered kvm vr m (all_addrs kvm cs ++ seqZ buffer BUFFER_SIZE) (fst c) (snd c)) cs;
  ro_nodup : NoDup (all_addrs kvm cs);
  ro_buffer : mapped m (seqZ buffer BUFFER_SIZE) /\ Forall (off_rings vr) (seqZ buffer BUFFER_SIZE);
  ro_apart : forall a, a ∈ seqZ buffer BUFFER_SIZE -> a ∉ all_addrs kvm cs;
  ro_first : exists h e l cs', cs = (h, e :: l) :: cs' /\ NET_HDR_MRG_SIZE <= d_len e;
  ro_count : Z.of_nat (length cs) < 65536;
}.

Lemma seqZ_prefix a n k x : 0 <= n <= k -> x ∈ seqZ a n -> x ∈ seqZ a k.
Proof. intros H. rewrite !elem_of_seqZ. lia. Qed.

Lemma offers_off vr m d cs : Forall (fun c => offered kvm vr m d (fst c) (snd c)) cs -> Forall (off_rings vr) (all_addrs kvm cs).
Proof. intros F. induction F as [|[h l] cs O F IH]; [constructor|]. rewrite all_addrs_cons. apply Forall_app. split; [apply O|exact IH]. Qed.

Lemma offers_mapped vr m d cs : Forall (fun c => offered kvm vr m d (fst c) (snd c)) cs -> mapped m (all_addrs kvm cs).
Proof. intros F. induction F as [|[h l] cs O F IH]; [constructor|]. rewrite all_addrs_cons. apply Forall_app. split; [apply O|exact IH]. Qed.

(** The first bytes of the first buffer are the packet's header. *)
Lemma first_buffer h e l cs : NET_HDR_MRG_SIZE <= d_len e ->
  exists r, all_addrs kvm ((h, e :: l) :: cs) = seqZ (host_ptr kvm (d_addr e)) 12 ++ r.
Proof.
  intros H. unfold NET_HDR_MRG_SIZE in H. eexists. rewrite all_addrs_cons. unfold chain_addrs. cbn [map]. rewrite iov_addrs_cons. cbn [iov_of iov_base iov_len].
  replace (d_len e) with (12 + (d_len e - 12)) by lia. rewrite seqZ_app by lia. now rewrite <- !app_assoc.
Qed.

(** One packet is delivered. *)
Lemma rx_packet_spec vr fuel m t b q base done cs pkt b' :
  let n0 := Z.of_nat (length done) in let n := Z.of_nat (length pkt) in let done' := done ++ spread kvm n cs in
  queue_st vr m (nt_vq t) (map fst cs ++ q) base n0 done -> Z.of_nat (length (nt_iov t)) = VIRTIO_NET_QUEUE_SIZE ->
  rx_offer vr m cs -> rx_ready b pkt b' -> NET_HDR_MRG_SIZE <= n <= BUFFER_SIZE -> packet_fits kvm n cs -> (length cs <= fuel)%nat ->
  exists m' t', rx_packet ops kvm need buffer fuel m t b = Ret (Some (m', t'), b') /\
    queue_st vr m' (nt_vq t') q base (Z.of_nat (length done')) done' /\
    kept vr (all_addrs kvm cs ++ seqZ buffer BUFFER_SIZE) m m' /\
    read_addrs m' (take (length pkt) (all_addrs kvm cs)) = Some (merged (nt_features t) (Z.of_nat (length cs)) pkt) /\
    nt_features t' = nt_features t /\ Z.of_nat (length (nt_iov t')) = VIRTIO_NET_QUEUE_SIZE.
Proof.
  intros n0 n done' Q Li [Oc ND [Bm Bo] Ap (h & e & l0 & cs' & -> & He) Cn] Rd Hn F Hf. set (d := _ ++ seqZ buffer BUFFER_SIZE) in *.
  destruct (rx_law m buffer b pkt b' Rd Bm ltac:(fold n; lia)) as (Bp & m1 & E1 & W1). fold n in E1, W1.
  assert (Hb : 0 <= n <= BUFFER_SIZE) by (unfold NET_HDR_MRG_SIZE in *; lia).
  assert (Bo' : Forall (off_rings vr) (seqZ buffer n)).
  { rewrite Forall_forall in Bo |- *. intros a Ha. apply Bo. apply (seqZ_prefix _ n BUFFER_SIZE); [exact Hb|exact Ha]. }
  pose proof (st_write vr base m _ _ n0 done _ pkt m1 Q Bo' Bp W1) as Q1.
  assert (K1 : kept vr d m m1).
  { apply (kept_mono vr (seqZ buffer n)); [|exact (write_kept vr _ _ _ _ W1)]. intros a Ha. apply elem_of_app. right. apply (seqZ_prefix _ n BUFFER_SIZE); [exact Hb|exact Ha]. }
  pose proof (Forall_cons_1 _ _ _ Oc) as [O1 _]. cbn [fst snd] in O1. destruct O1 as [Ch Wr Wf Rm Off Mp].
  destruct (st_chain kvm vr base m1 t h (map fst cs' ++ q) n0 done (e :: l0) Q1) as [Ec Qc];
    [apply Ch; [apply Q|exact K1]|unfold VIRTIO_NET_QUEUE_SIZE in *; lia|unfold VIRTIO_NET_QUEUE_SIZE in *; lia|].
  destruct (array_prefix kvm (e :: l0) (nt_iov t) ltac:(lia) Li) as [Ea La]. rewrite all_writable in Ec by exact Wr.
  set (t1 := put_vq t _ _) in *. change (nt_vq t1) with (set_last_avail (nt_vq t) (u16 (last_avail_idx (nt_vq t) + 1))) in *.
  destruct (rx_copy_spec kvm buffer vr m base d q n n0 cs' h (e :: l0) (drop (length (e :: l0)) (nt_iov t)) fuel m1 t1 0 pkt done)
    as (m2 & t2 & E2 & Q2 & K2 & R2 & F2 & S2 & L2); rewrite ?Z.add_0_r, ?Z.sub_0_r; try assumption; try (unfold n0; lia).
  { intros a Ha. apply elem_of_app. now left. }
  { exact (st_head_fits vr m _ _ base n0 done h 0 Q eq_refl). }
  { unfold BUFFER_SIZE, MAX_PACKET_SIZE, NET_HDR_MRG_SIZE in *. lia. }
  { apply (read_write_same m _ _ m1); [apply NoDup_seqZ|rewrite length_seqZ; unfold n; lia|exact W1]. }
  { intros a Ha. apply Ap. apply (seqZ_prefix _ n BUFFER_SIZE); [exact Hb|exact Ha]. }
  { cbn [length] in Cn. unfold n0. lia. }
  unfold n0 in E2. rewrite Z.sub_diag, Z.add_0_l in E2. rewrite Z.sub_0_r in Q2, R2.
  replace (Z.of_nat (length cs') + 1) with (Z.of_nat (length ((h, e :: l0) :: cs'))) in E2 by (cbn [length]; lia).
  fold done' in Q2. unfold n in R2. rewrite Nat2Z.id in R2. set (cs := (h, e :: l0) :: cs') in *. set (nb := Z.of_nat (length cs)) in *.
  destruct (first_buffer h e l0 cs' He) as [r Er]. fold cs in Er. set (hdr := host_ptr kvm (d_addr e)) in *.
  pose proof (offers_off vr m d cs Oc) as Oa. pose proof (offers_mapped vr m d cs Oc) as Ma.
  assert (K02 : kept vr d m m2).
  { eapply kept_trans; [exact K1|]. apply (kept_mono vr (all_addrs kvm cs)); [|exact K2]. intros a Ha. apply elem_of_app. now left. }
  pose proof (mapped_kept vr d m m2 _ K02 Ma) as Ma2.
  assert (Fx : virtio_net_fix_rx_hdr m2 hdr = Ret m2).
  { apply fix_hdr_id; [apply Q2|]. rewrite Er in Ma2. apply Forall_app in Ma2 as [Ma2 _]. unfold NET_HDR_SIZE.
    unfold mapped in *. rewrite Forall_forall in Ma2 |- *. intros a Ha. apply Ma2. apply (seqZ_prefix _ 10 12); [lia|exact Ha]. }
  assert (C3 : exists m3, (if has_virtio_feature (nt_features t2) VIRTIO_NET_F_MRG_RXBUF then store 2 m2 (hdr + HDR_NUM_BUFFERS) nb else Ret m2) = Ret m3 /\
    queue_st vr m3 (nt_vq t2) q base n0 done' /\ kept vr (all_addrs kvm cs) m2 m3 /\
    read_addrs m3 (take (length pkt) (all_addrs kvm cs)) = Some (merged (nt_features t) nb pkt)).
  { unfold merged. rewrite F2. change (nt_features t1) with (nt_features t). destruct (has_virtio_feature (nt_features t) VIRTIO_NET_F_MRG_RXBUF).
    2:{ exists m2. split; [reflexivity|]. split; [exact Q2|]. split; [apply kept_refl|exact R2]. }
    rewrite Er in ND, Ma2, R2. destruct (put_count m2 hdr r pkt nb ND Ma2) as (m3 & E3 & W3 & R3); [unfold n, NET_HDR_MRG_SIZE in Hn; lia|exact R2|].
    assert (Sub : forall a, a ∈ seqZ (hdr + HDR_NUM_BUFFERS) 2 -> a ∈ all_addrs kvm cs).
    { intros a. rewrite Er. unfold HDR_NUM_BUFFERS. rewrite elem_of_app, !elem_of_seqZ. lia. }
    exists m3. split; [exact E3|]. split; [|split; [|now rewrite Er]].
    - apply (st_write vr base m2 _ q n0 done' (seqZ (hdr + HDR_NUM_BUFFERS) 2) (le_enc 2 nb) m3 Q2); [|apply le_enc_bytes|exact W3].
      rewrite Forall_forall in Oa |- *. intros a Ha. now apply Oa, Sub.
    - apply (kept_mono vr (seqZ (hdr + HDR_NUM_BUFFERS) 2)); [exact Sub|exact (write_kept vr _ _ _ _ W3)]. }
  destruct C3 as (m3 & E3 & Q3 & K3 & R3).
  destruct (st_publish vr base m3 _ q n0 done' nb Q3) as (m4 & E4 & Q4 & Qu4).
  { unfold done', n0, nb. rewrite length_app, length_spread. lia. }
  destruct (st_signal vr base need m4 _ q done' Q4) as (sig & vq' & E5 & Q5).
  exists m4, (raise t2 sig vq'). split.
  { unfold rx_packet. rewrite E1. rewrite (proj2 (Z.ltb_ge n 0)) by lia. rewrite Ec. unfold iov_at. cbn [t1 put_vq nt_iov] in Ea |- *.
    change (Z.to_nat 0) with 0%nat. rewrite Ea. cbn [map app lookup list_lookup iov_of iov_base]. fold hdr. rewrite E2, Fx, E3, E4, E5. reflexivity. }
  split; [exact Q5|]. split.
  { eapply kept_trans; [exact K02|]. eapply kept_trans; [apply (kept_mono vr (all_addrs kvm cs)); [|exact K3]; intros a Ha; apply elem_of_app; now left|now apply quiet_kept]. }
  split; [|split; [exact F2|exact L2]].
  rewrite (kept_read vr [] m3 m4); [exact R3|now apply quiet_kept|now apply Forall_take|intros a _ Ha; inversion Ha].
Qed.

(** The receive thread, when the offered buffers are just those of one packet. *)
Lemma rx_thread_spec vr fuel m t b base done cs pkt b' :
  let n := Z.of_nat (length pkt) in let done' := done ++ spread kvm n cs in
  queue_st vr m (nt_vq t) (map fst cs) base (Z.of_nat (length done)) done -> Z.of_nat (length (nt_iov t)) = VIRTIO_NET_QUEUE_SIZE ->
  rx_offer vr m cs -> rx_ready b pkt b' -> NET_HDR_MRG_SIZE <= n <= BUFFER_SIZE -> packet_fits kvm n cs -> (length cs < fuel)%nat ->
  exists m' t', virtio_net_rx_thread ops kvm need buffer fuel m t b = Ret (Some (m', t'), b') /\
    queue_st vr m' (nt_vq t') [] base (Z.of_nat (length done')) done' /\
    kept vr (all_addrs kvm cs ++ seqZ buffer BUFFER_SIZE) m m' /\
    read_addrs m' (take (length pkt) (all_addrs kvm cs)) = Some (merged (nt_features t) (Z.of_nat (length cs)) pkt) /\
    nt_features t' = nt_features t /\ Z.of_nat (length (nt_iov t')) = VIRTIO_NET_QUEUE_SIZE.
Proof.
  intros n done' Q Li Of Rd Hn F Hf. destruct (st_available vr base m (nt_vq t) _ _ _ Q) as (m1 & E1 & Q1 & Qu1).
  pose proof (ro_first _ _ _ Of) as (h & e & l & cs' & Ecs & _). rewrite bool_decide_eq_false_2 in E1 by (rewrite Ecs; discriminate). cbn [negb] in E1.
  pose proof (quiet_kept vr [] m m1 Qu1) as K1.
  assert (Of1 : rx_offer vr m1 cs).
  { destruct Of as [Oc ND [Bm Bo] Ap Fi Cn]. constructor; try assumption.
    - eapply Forall_impl; [exact Oc|]. intros [h' l'] [Ch Wr Wf Rm Off Mp]. constructor; try assumption; [|exact (mapped_kept vr [] m m1 _ K1 Mp)].
      intros m'' vq V K. apply (Ch m'' vq V). exact (kept_trans vr _ m m1 m'' (quiet_kept vr _ m m1 Qu1) K).
    - split; [exact (mapped_kept vr [] m m1 _ K1 Bm)|exact Bo]. }
  rewrite <- (app_nil_r (map fst cs)) in Q1.
  destruct (rx_packet_spec vr fuel m1 t b [] base done cs pkt b' Q1 Li Of1 Rd Hn F ltac:(lia)) as (m2 & t2 & E2 & Q2 & K2 & R2 & F2 & L2).
  destruct (st_available vr base m2 (nt_vq t2) [] _ _ Q2) as (m3 & E3 & Q3 & Qu3). rewrite bool_decide_eq_true_2 in E3 by reflexivity. cbn [negb] in E3.
  exists m3, t2. split.
  { assert (C : (1 <= length cs)%nat) by (rewrite Ecs; cbn [length]; clear; lia). clear - C Hf E1 E2 E3.
    destruct fuel as [|[|fuel]]; [lia|lia|]. cbn [virtio_net_rx_thread]. rewrite E1, E2, E3. reflexivity. }
  split; [exact Q3|]. split; [|split; [|split; [exact F2|exact L2]]].
  - eapply kept_trans; [apply quiet_kept; exact Qu1|]. eapply kept_trans; [exact K2|apply quiet_kept; exact Qu3].
  - rewrite (kept_read vr [] m2 m3); [exact R2|now apply quiet_kept| |intros a _ Ha; inversion Ha].
    apply Forall_take. exact (offers_off vr m _ cs (ro_chains _ _ _ Of)).
Qed.

(** A frame that the driver has put up at [h]: its header and the frame itself. *)
Record tx_request (vr : vring) (m : hmem) (h : Z) (e0 e1 : vring_desc) (hdr frame : list Z) : Prop := {
  tr_chain : forall m' vq, vq_vring vq = vr -> quiet vr m m' -> head_chain kvm m' vq h [e0; e1];
  tr_readable : writable e0 = false /\ writable e1 = false;
  tr_header : read_addrs m (seqZ (host_ptr kvm (d_addr e0)) (d_len e0)) = Some hdr;
  tr_frame : read_addrs m (seqZ (host_ptr kvm (d_addr e1)) (d_len e1)) = Some frame;
  tr_len : NET_HDR_SIZE <= d_len e0 /\ 0 <= d_len e1;
  tr_apart : Forall (off_rings vr) (seqZ (host_ptr kvm (d_addr e0)) (d_len e0) ++ seqZ (host_ptr kvm (d_addr e1)) (d_len e1));
}.

(** The transmit thread, when one frame waits. *)
Lemma tx_thread_spec vr m t b base done h e0 e1 hdr frame b' :
  let done' := done ++ [(h, Z.of_nat (length hdr + length frame))] in
  queue_st vr m (nt_vq t) [h] base (Z.of_nat (length done)) done -> Z.of_nat (length (nt_iov t)) = VIRTIO_NET_QUEUE_SIZE ->
  tx_request vr m h e0 e1 hdr frame -> tx_accepts b hdr frame b' -> Z.of_nat (length hdr + length frame) < 2 ^ 32 ->
  exists m' t', virtio_net_tx_thread ops kvm need 2 m t b = Ret (Some (m', t'), b') /\
    queue_st vr m' (nt_vq t') [] base (Z.of_nat (length done')) done' /\ quiet vr m m'.
Proof.
  intros done' Q Li [Ch [W0 W1] R0 R1 [L0 L1] Off] Acc Hl. destruct (st_available vr base m (nt_vq t) _ _ _ Q) as (m1 & E1 & Q1 & Qu1).
  rewrite bool_decide_eq_false_2 in E1 by discriminate. cbn [negb] in E1.
  destruct (st_chain kvm vr base m1 t h [] _ done [e0; e1] Q1) as [Ec Qc];
    [apply Ch; [apply Q|exact Qu1]|unfold VIRTIO_NET_QUEUE_SIZE in *; cbn [length]; lia|unfold VIRTIO_NET_QUEUE_SIZE in *; lia|].
  rewrite fill_0 in Ec. unfold readables in Ec. cbn [map List.filter] in Ec. rewrite W0, W1 in Ec. cbn [negb length] in Ec.
  set (t1 := put_vq t _ _) in *. apply Forall_app in Off as [O0 O1].
  assert (Keep : forall l, Forall (off_rings vr) l -> read_addrs m1 l = read_addrs m l).
  { intros l O. apply (kept_read vr []); [now apply quiet_kept|exact O|intros a _ Ha; inversion Ha]. }
  rewrite <- (Keep _ O0) in R0. rewrite <- (Keep _ O1) in R1. set (p0 := host_ptr kvm (d_addr e0)) in *. set (p1 := host_ptr kvm (d_addr e1)) in *.
  assert (Fx : virtio_net_fix_tx_hdr m1 p0 = Ret m1).
  { apply fix_hdr_id; [apply Q1|]. unfold mapped. rewrite Forall_forall. intros a Ha.
    pose proof (read_addrs_some m1 _ _ R0) as Mm. unfold mapped in Mm. rewrite Forall_forall in Mm. apply Mm.
    unfold NET_HDR_SIZE in L0, Ha. apply (seqZ_prefix _ 10 (d_len e0)); [lia|exact Ha]. }
  assert (Tx : nd_tx ops m1 [iov_of kvm e0; iov_of kvm e1] b = Ret (Z.of_nat (length hdr + length frame), b')).
  { apply tx_law; [exact Acc| |]; cbn [iov_of iov_base iov_len]; rewrite copy_in_read by (unfold NET_HDR_SIZE in L0; lia); [now fold p0; rewrite R0|now fold p1; rewrite R1]. }
  destruct (st_element vr base m1 (nt_vq t1) [] _ done h (Z.of_nat (length hdr + length frame)) 0 Qc ltac:(lia) ltac:(lia)) as (m2 & E2 & Q2 & Qu2).
  destruct (st_publish vr base m2 (nt_vq t1) [] _ _ 1 Q2) as (m3 & E3 & Q3 & Qu3); [rewrite length_app; cbn [length]; lia|].
  assert (Eh : u32 h = h) by exact (st_head_fits vr m _ _ base _ done h 0 Q eq_refl). rewrite Eh, (u32_small (Z.of_nat _)) in Q3 by (unfold fits; lia).
  fold done' in Q3. destruct (st_available vr base m3 (nt_vq t1) [] _ _ Q3) as (m4 & E4 & Q4 & Qu4).
  rewrite bool_decide_eq_true_2 in E4 by reflexivity. cbn [negb] in E4.
  destruct (st_signal vr base need m4 (nt_vq t1) [] done' Q4) as (sig & vq' & E5 & Q5).
  exists m4, (raise t1 sig vq'). split.
  { unfold virtio_net_tx_thread. cbn [tx_loop]. rewrite E1. unfold tx_packet. rewrite Ec. unfold iov_at. cbn [t1 put_vq nt_iov app].
    change (Z.to_nat 0) with 0%nat. cbn [lookup list_lookup iov_of iov_base]. fold p0. rewrite Fx.
    change (Z.to_nat (Z.of_nat 2)) with 2%nat. rewrite !firstn_cons, take_0.
    rewrite Tx. rewrite (proj2 (Z.ltb_ge _ 0)) by lia. unfold virt_queue__set_used_elem. rewrite E2, E3, E4, E5. reflexivity. }
  split; [exact Q5|]. eapply quiet_trans; [exact Qu1|]. eapply quiet_trans; [exact Qu2|]. eapply quiet_trans; [exact Qu3|exact Qu4].
Qed.
End device.

(** ** Properties *)

Definition elements_sum (l : list (Z * Z)) : Z := fold_right (fun e s => snd e + s) 0 l.

Lemma spread_sum kvm n cs : packet_fits kvm n cs -> elements_sum (spread kvm n cs) = n.
Proof.
  revert n. induction cs as [|[h l] cs IH]; intros n F; [destruct F|]. unfold elements_sum in *. cbn [spread fold_right snd].
  destruct cs as [|c cs]; [cbn in F |- *; lia|]. destruct F as [F1 F2]. rewrite IH by exact F2. lia.
Qed.

(** C29. A packet that the backend has ready is delivered. Over any backend that promises
    [NetBackend], one run of the receive thread copies it into the chains that the driver
    has offered, cut where they end, with the number of chains in its header if the driver
    has asked for merged buffers; hands back exactly those heads in order, each with the
    bytes it got, which add up to the packet; publishes all of them; and changes nothing
    else of the guest's memory. *)
Theorem net_packet_delivered {B} ops rx_ready tx_accepts `{!@NetBackend B ops rx_ready tx_accepts} kvm need buffer vr fuel m t b base done cs pkt b'
  (Q : queue_st vr m (nt_vq t) (map fst cs) base (Z.of_nat (length done)) done) (Li : Z.of_nat (length (nt_iov t)) = VIRTIO_NET_QUEUE_SIZE)
  (Of : rx_offer kvm buffer vr m cs) (Rd : rx_ready b pkt b') (N : NET_HDR_MRG_SIZE <= Z.of_nat (length pkt) <= BUFFER_SIZE)
  (F : packet_fits kvm (Z.of_nat (length pkt)) cs) (Fu : (length cs < fuel)%nat) :
  let elements := spread kvm (Z.of_nat (length pkt)) cs in
  exists m' t', virtio_net_rx_thread ops kvm need buffer fuel m t b = Ret (Some (m', t'), b') /\
    read_addrs m' (take (length pkt) (all_addrs kvm cs)) = Some (merged (nt_features t) (Z.of_nat (length cs)) pkt) /\
    used_rel m' vr base (done ++ elements) /\ map fst elements = map fst cs /\ elements_sum elements = Z.of_nat (length pkt) /\
    (forall a, off_rings vr a -> a ∉ all_addrs kvm cs -> a ∉ seqZ buffer BUFFER_SIZE -> m' !! a = m !! a).
Proof.
  intros elements. destruct (rx_thread_spec ops rx_ready tx_accepts kvm need buffer vr fuel m t b base done cs pkt b' Q Li Of Rd N F Fu)
    as (m' & t' & E & Q' & K & R & _). exists m', t'. split; [exact E|]. split; [exact R|].
  split; [exact (queue_st_used vr m' _ _ base _ Q')|]. split.
  { unfold elements. clear. generalize (Z.of_nat (length pkt)). induction cs as [|[h l] cs IH]; intros n; [reflexivity|]. cbn [spread map fst]. now rewrite IH. }
  split; [now apply spread_sum|]. intros a O N1 N2. apply K; [apply O|]. rewrite elem_of_app. tauto.
Qed.

(** C30. Through the device: a guest with the user-mode network asks for the host's
    hardware address. The transmit thread takes the request off its queue, passes it to
    the stack and hands the chain back with its length; the receive thread then finds the
    answer and delivers it into the buffers of the receive queue: the guest reads the
    header of a good packet and the protocol's reply; the stack's buffers are all free
    again. *)
Theorem net_arp_exchange h kvm need buffer vt vr fuel m tt tr s bt br dt dr hd e0 e1 hdr frame cs
  (Qt : queue_st vt m (nt_vq tt) [hd] bt (Z.of_nat (length dt)) dt) (Lt : Z.of_nat (length (nt_iov tt)) = VIRTIO_NET_QUEUE_SIZE)
  (Rq : tx_request kvm vt m hd e0 e1 hdr frame) (Ar : arp_request s hdr frame)
  (P : pool_ok (ui s)) (Nu : buf_used_nr (ui s) = 0) (Fr : 0 < buf_free_nr (ui s))
  (Lr : Z.of_nat (length (nt_iov tr)) = VIRTIO_NET_QUEUE_SIZE)
  (Qr : forall m1, quiet vt m m1 -> mem_ok m1 -> queue_st vr m1 (nt_vq tr) (map fst cs) br (Z.of_nat (length dr)) dr /\ rx_offer kvm buffer vr m1 cs)
  (N : NET_HDR_MRG_SIZE <= Z.of_nat (length hdr + length frame) <= BUFFER_SIZE)
  (F : packet_fits kvm (Z.of_nat (length hdr + length frame)) cs) (Fu : (length cs < fuel)%nat) :
  let n := Z.of_nat (length hdr + length frame) in
  exists m1 t1 s1 m2 t2 s2 fd,
    virtio_net_tx_thread (uip_ops h) kvm need 2 m tt s = Ret (Some (m1, t1), s1) /\
    used_rel m1 vt bt (dt ++ [(hd, n)]) /\
    virtio_net_rx_thread (uip_ops h) kvm need buffer fuel m1 tr s1 = Ret (Some (m2, t2), s2) /\
    used_rel m2 vr br (dr ++ spread kvm n cs) /\
    read_addrs m2 (take (Z.to_nat n) (all_addrs kvm cs)) = Some (merged (nt_features tr) (Z.of_nat (length cs)) (reply_header hdr ++ fd)) /\
    length fd = length frame /\ take 42 fd = arp_reply (ui s) frame /\
    pool_ok (ui s2) /\ buf_free_nr (ui s2) = buf_free_nr (ui s) /\ buf_used_nr (ui s2) = 0.
Proof.
  intros n. destruct (arp_answer s hdr frame P Nu Fr Ar) as (i' & fd & s2 & E & Lf & T & Rdy & Rest).
  assert (Acc : uip_takes_arp s hdr frame (with_ui s i')) by (split; [exact Ar|now exists i']).
  destruct (tx_thread_spec (uip_ops h) uip_ready uip_takes_arp kvm need vt m tt s bt dt hd e0 e1 hdr frame _ Qt Lt Rq Acc) as (m1 & t1 & E1 & Q1 & Qu1).
  { unfold BUFFER_SIZE, MAX_PACKET_SIZE, NET_HDR_MRG_SIZE in N. lia. }
  destruct (Qr m1 Qu1 (qs_mem _ _ _ _ _ _ _ Q1)) as [Qr1 Of1].
  assert (Lp : length (reply_header hdr ++ fd) = (length hdr + length frame)%nat) by now rewrite length_app, length_reply_header, Lf.
  rewrite <- Lp in N, F.
  destruct (rx_thread_spec (uip_ops h) uip_ready uip_takes_arp kvm need buffer vr fuel m1 tr (with_ui s i') br dr cs _ s2 Qr1 Lr Of1 Rdy N F Fu)
    as (m2 & t2 & E2 & Q2 & K2 & R2 & _). rewrite Lp in Q2, R2.
  exists m1, t1, (with_ui s i'), m2, t2, s2, fd. split; [exact E1|]. split; [exact (queue_st_used vt m1 _ _ bt _ Q1)|]. split; [exact E2|].
  split; [exact (queue_st_used vr m2 _ _ br _ Q2)|]. split; [unfold n; now rewrite Nat2Z.id|]. split; [exact Lf|]. split; [exact T|exact Rest].
Qed.

(** The transmit thread does not survive a packet that the backend refuses: it ends
    without handing the chain back, and the requests that it has completed in the same
    round are never announced to the driver. *)
Lemma tx_failure_ends_thread {B} (ops : net_dev_operations B) kvm need fuel m t b m1 hd out_ in_ t1 v len b1
  (Av : virt_queue__available m (nt_vq t) = Ret (true, m1)) (Ch : next_chain kvm m1 t = Ret (hd, out_, in_, t1))
  (Iv : nt_iov t1 !! 0%nat = Some v) (M : mem_ok m1) (Hd : mapped m1 (seqZ (iov_base v) NET_HDR_SIZE))
  (Tx : nd_tx ops m1 (firstn (Z.to_nat out_) (nt_iov t1)) b = Ret (len, b1)) (Neg : len < 0) :
  virtio_net_tx_thread ops kvm need (S fuel) m t b = Ret (None, b1).
Proof.
  unfold virtio_net_tx_thread. cbn [tx_loop]. rewrite Av. unfold tx_packet. rewrite Ch. unfold iov_at. change (Z.to_nat 0) with 0%nat.
  rewrite Iv. unfold virtio_net_fix_tx_hdr. rewrite fix_hdr_id by assumption. rewrite Tx. now rewrite (proj2 (Z.ltb_lt _ _) Neg).
Qed.

(** ** Examples *)

(** A backend that is a list of packets to come and the frames that were sent, with the
    memory functions of [HostMem]. *)
Definition wire : Type := list (list Z) * list (list Z).

Definition wire_ops : net_dev_operations wire :=
  mkndops
    (fun m iov b => match fst b with
                    | p :: ps => let! (m, _) := memcpy_toiovec m iov p (Z.of_nat (length p)) in Ret (Z.of_nat (length p), m, (ps, snd b))
                    | [] => NoFuel
                    end)
    (fun m iov b => let! f := copy_iovs m iov in Ret (Z.of_nat (length f), (fst b, snd b ++ [f]))).

Definition wire_ready (b : wire) (pkt : list Z) (b' : wire) : Prop := byte_ok pkt /\ fst b = pkt :: fst b' /\ snd b' = snd b.
Definition wire_takes (b : wire) (hdr frame : list Z) (b' : wire) : Prop := fst b' = fst b /\ snd b' = snd b ++ [hdr ++ frame].

#[export] Instance wire_backend : NetBackend wire_ops wire_ready wire_takes.
Proof.
  split.
  - intros m buffer [ps out] pkt [ps' out'] (Bp & E1 & E2) Mp L. cbn [fst snd] in E1, E2. subst ps out'. split; [exact Bp|].
    assert (Ea : iov_addrs [mkiov buffer BUFFER_SIZE] = seqZ buffer BUFFER_SIZE) by (cbn [iov_addrs flat_map iov_base iov_len]; apply app_nil_r).
    assert (Lz : Z.of_nat (length (seqZ buffer BUFFER_SIZE)) = BUFFER_SIZE) by (rewrite length_seqZ; apply Z2Nat.id; discriminate).
    assert (Ts : take (length pkt) (seqZ buffer BUFFER_SIZE) = seqZ buffer (Z.of_nat (length pkt))) by (apply take_seqZ; exact L).
    destruct (write_addrs_mapped m (seqZ buffer (Z.of_nat (length pkt))) pkt) as [m' W]; [rewrite <- Ts; now apply Forall_take|].
    exists m'. split; [|exact W]. cbn [wire_ops nd_rx fst snd].
    assert (Wf : iov_wf [mkiov buffer BUFFER_SIZE]) by (repeat constructor; unfold fits, BUFFER_SIZE, MAX_PACKET_SIZE, NET_HDR_MRG_SIZE; cbn; lia).
    unfold BUFFER_SIZE, MAX_PACKET_SIZE, NET_HDR_MRG_SIZE in L.
    rewrite toiovec_spec by (first [exact Wf|rewrite Ea, Lz; unfold BUFFER_SIZE, MAX_PACKET_SIZE, NET_HDR_MRG_SIZE; lia|lia]).
    rewrite Ea, Nat2Z.id, Ts, take_ge by lia. unfold write_all. now rewrite W.
  - intros m v e [ps out] hdr frame [ps' out'] [E1 E2] Cv Ce. cbn [fst snd] in E1, E2. subst ps' out'. cbn [wire_ops nd_tx fst snd copy_iovs].
    rewrite Cv, Ce. now rewrite app_nil_r, length_app.
Qed.

(** Two rings of four descriptors: the transmit queue with a request at head 0 (header
    at 400, frame behind it), the receive queue with [k] buffers of [size] bytes from 500
    on. The receive thread's packet buffer stands at 600. *)
Definition net_bytes (size k : Z) : list Z :=
  desc_bytes 400 10 VRING_DESC_F_NEXT 1 ++ desc_bytes 410 42 0 0 ++ repeat 0 32 ++
  (le_enc 2 0 ++ le_enc 2 1 ++ repeat 0 10) ++ [0; 0] ++ repeat 0 38 ++ repeat 0 10 ++
  desc_bytes 500 size VRING_DESC_F_WRITE 0 ++ desc_bytes (500 + size) size VRING_DESC_F_WRITE 0 ++ repeat 0 32 ++
  (le_enc 2 0 ++ le_enc 2 k ++ le_enc 2 0 ++ le_enc 2 1 ++ repeat 0 6) ++ [0; 0] ++ repeat 0 38 ++ repeat 0 154 ++
  repeat 0 10 ++ demo_frame ++ repeat 0 148 ++ repeat 0 (Z.to_nat BUFFER_SIZE).

Definition net_mem (size k : Z) : hmem := mem_at (2 ^ 40) (net_bytes size k).
Definition net_tx_ring : vring := mkvring 4 (2 ^ 40) (2 ^ 40 + 64) (2 ^ 40 + 80).
Definition net_rx_ring : vring := mkvring 4 (2 ^ 40 + 128) (2 ^ 40 + 192) (2 ^ 40 + 208).
Definition net_buffer : Z := 2 ^ 40 + 600.
Definition net_queue (vr : vring) (f : Z) : net_thread := mknt f (mkvq vr 0 0 0 1 false true) (repeat (mkiov 0 0) 256) 0.

Section demo.
Context (size k : Z) (Hs : (size, k) = (64, 1) \/ (size, k) = (20, 2)).

Lemma net_length : Z.of_nat (length (net_bytes size k)) = 66162.
Proof. destruct Hs as [[= -> ->]|[= -> ->]]; vm_compute; reflexivity. Qed.

Lemma net_read n o : 0 <= o -> o + Z.of_nat n <= 66162 ->
  read_addrs (net_mem size k) (seqZ (2 ^ 40 + o) (Z.of_nat n)) = Some (slice (Z.to_nat o) n (net_bytes size k)).
Proof.
  intros H1 H2. unfold net_mem. rewrite read_mem_at by (rewrite ?net_length; lia). now replace (2 ^ 40 + o - 2 ^ 40) with o by lia.
Qed.

Lemma net_load n o x : 0 <= o -> o + Z.of_nat n <= 66162 -> le_dec (slice (Z.to_nat o) n (net_bytes size k)) = x ->
  load n (net_mem size k) (2 ^ 40 + o) = Ret x.
Proof. intros H1 H2 <-. unfold load, load_bytes. now rewrite net_read. Qed.

Lemma net_mapped o n : 0 <= o -> 0 <= n -> o + n <= 66162 -> mapped (net_mem size k) (seqZ (2 ^ 40 + o) n).
Proof.
  intros H1 H0 H2. rewrite <- (Z2Nat.id n) by exact H0. apply mapped_mem_at; rewrite ?net_length; lia.
Qed.

Ltac net_field o :=
  apply (net_load _ o); [lia|lia|]; destruct Hs as [[= -> ->]|[= -> ->]]; vm_compute; reflexivity.

Lemma net_mem_ok : mem_ok (net_mem size k).
Proof. apply mem_at_ok, byte_ok_check. destruct Hs as [[= -> ->]|[= -> ->]]; vm_compute; reflexivity. Qed.

Lemma net_ring o : o = 0 \/ o = 128 -> ring_wf (net_mem size k) (mkvring 4 (2 ^ 40 + o) (2 ^ 40 + (o + 64)) (2 ^ 40 + (o + 80))).
Proof.
  intros H. split; cbn [num avail used]; try lia.
  - exists (2 ^ 14). reflexivity.
  - apply net_mapped; cbn; lia.
  - apply net_mapped; cbn; lia.
Qed.

Lemma net_tx_queue f : queue_st net_tx_ring (net_mem size k) (nt_vq (net_queue net_tx_ring f)) [0] 0 0 [].
Proof.
  constructor; [reflexivity|exact net_mem_ok|exact (net_ring 0 (or_introl eq_refl))| | |intros j e Hj; discriminate].
  - split; [split; cbn; lia|cbn; lia| |].
    + net_field 66.
    + intros [|j] h Hj; [|discriminate]. injection Hj as <-. net_field 68.
  - net_field 82.
Qed.

Lemma net_rx_queue f : queue_st net_rx_ring (net_mem size k) (nt_vq (net_queue net_rx_ring f)) (seqZ 0 k) 0 0 [].
Proof.
  constructor; [reflexivity|exact net_mem_ok|exact (net_ring 128 (or_intror eq_refl))| | |intros j e Hj; discriminate].
  - split; [split; cbn; lia|destruct Hs as [[= _ ->]|[= _ ->]]; vm_compute; discriminate| |].
    + change (avail_idx net_rx_ring) with (2 ^ 40 + 194). net_field 194.
    + intros [|[|j]] h Hj.
      * assert (h = 0) as -> by (destruct Hs as [[= _ ->]|[= _ ->]]; vm_compute in Hj; congruence). net_field 196.
      * assert (h = 1) as -> by (destruct Hs as [[= _ ->]|[= _ ->]]; vm_compute in Hj; congruence). net_field 198.
      * destruct Hs as [[= _ ->]|[= _ ->]]; discriminate Hj.
  - change (used_idx net_rx_ring) with (2 ^ 40 + 210). net_field 210.
Qed.

Lemma net_descs : desc_at (net_mem size k) (2 ^ 40 + 0) 0 (mkdesc 400 10 1 1) /\ desc_at (net_mem size k) (2 ^ 40 + 0) 1 (mkdesc 410 42 0 0) /\
  desc_at (net_mem size k) (2 ^ 40 + 128) 0 (mkdesc 500 size 2 0) /\ desc_at (net_mem size k) (2 ^ 40 + 128) 1 (mkdesc (500 + size) size 2 0).
Proof.
  split_and!; (split; [|split; [|split; [|intros _]]]); unfold desc_addr, desc_len, desc_flags, desc_next, DESC_SIZE, d_addr, d_len, d_flags, d_next; rewrite <- ?Z.add_assoc.
  - net_field 0.
  - net_field 8.
  - net_field 12.
  - net_field 14.
  - net_field 16.
  - net_field 24.
  - net_field 28.
  - net_field 30.
  - net_field 128.
  - net_field 136.
  - net_field 140.
  - net_field 142.
  - net_field 144.
  - net_field 152.
  - net_field 156.
  - net_field 158.
Qed.
End demo.

Lemma desc_at_kept vr d m m' t i e : kept vr d m m' -> desc_at m t i e ->
  (forall a, t + 16 * i <= a < t + 16 * i + 16 -> ~ (used vr <= a < used vr + 6 + 8 * num vr) /\ a ∉ d) -> desc_at m' t i e.
Proof.
  intros [K _] (D1 & D2 & D3 & D4) H. assert (S : same_at m m' (t + 16 * i) 16).
  { apply same_at_lookup. intros b Hb. apply K; apply H; lia. }
  unfold desc_at, desc_addr, desc_len, desc_flags, desc_next, DESC_SIZE in *.
  rewrite (S 8%nat) by lia. rewrite (S 4%nat), (S 2%nat) by lia. split_and!; auto.
  intros F. rewrite (S 2%nat) by lia. auto.
Qed.

Definition net_chains (size k : Z) : list (Z * list vring_desc) :=
  firstn (Z.to_nat k) [(0, [mkdesc 500 size 2 0]); (1, [mkdesc (500 + size) size 2 0])].

Section offers.
Context (size k : Z) (Hs : (size, k) = (64, 1) \/ (size, k) = (20, 2)).

Lemma net_chain_addrs : all_addrs Membank.demo_mem (net_chains size k) = seqZ (2 ^ 40 + 500) (size * k) /\ size * k <= 64.
Proof. destruct Hs as [[= -> ->]|[= -> ->]]; (split; [vm_compute; reflexivity|lia]). Qed.

(** A descriptor of the receive queue is a chain of its own, whatever is written elsewhere. *)
Lemma net_chain m1 m vq i e : quiet net_tx_ring (net_mem size k) m1 -> vq_vring vq = net_rx_ring ->
  kept net_rx_ring (all_addrs Membank.demo_mem (net_chains size k) ++ seqZ net_buffer BUFFER_SIZE) m1 m ->
  desc_at (net_mem size k) (2 ^ 40 + 128) i e -> 0 <= i < 2 -> d_flags e = 2 -> head_chain Membank.demo_mem m vq i [e].
Proof.
  intros Q V K D Hi Fe. destruct net_chain_addrs as [Ea Le]. rewrite Ea in K.
  assert (D1 : desc_at m1 (2 ^ 40 + 128) i e).
  { apply (desc_at_kept net_tx_ring [] (net_mem size k)); [now apply quiet_kept|exact D|]. intros a Ha. cbn [net_tx_ring used num].
    split; [lia|intros X; inversion X]. }
  assert (D2 : desc_at m (2 ^ 40 + 128) i e).
  { apply (desc_at_kept net_rx_ring _ m1 m _ _ _ K D1). intros a Ha. cbn [net_rx_ring used num].
    split; [lia|]. rewrite elem_of_app, !elem_of_seqZ. unfold net_buffer. lia. }
  pose proof D2 as (_ & _ & Df & _). rewrite Fe in Df. exists 2. rewrite V. cbn [net_rx_ring desc num]. split; [exact Df|].
  change (flag 2 VRING_DESC_F_INDIRECT) with false. cbn iota. apply chain_last; [exact D2|]. unfold chained. now rewrite Fe.
Qed.

Lemma net_off o n : 246 <= o -> 0 <= n -> Forall (off_rings net_rx_ring) (seqZ (2 ^ 40 + o) n).
Proof. intros H1 H2. apply Forall_forall. intros a Ha. apply elem_of_seqZ in Ha. unfold off_rings. cbn [net_rx_ring avail used num]. lia. Qed.

Lemma net_offer m1 : quiet net_tx_ring (net_mem size k) m1 -> rx_offer Membank.demo_mem net_buffer net_rx_ring m1 (net_chains size k).
Proof.
  intros Q. destruct net_chain_addrs as [Ea Le]. destruct (net_descs size k Hs) as (_ & _ & D0 & D1). pose proof (quiet_kept net_tx_ring [] _ _ Q) as K.
  assert (Map : forall o n, 0 <= o -> 0 <= n -> o + n <= 66162 -> mapped m1 (seqZ (2 ^ 40 + o) n)).
  { intros o n H1 H2 H3. apply (mapped_kept net_tx_ring [] _ _ _ K). exact (net_mapped size k Hs o n H1 H2 H3). }
  assert (One : forall i a, 0 <= i < 2 -> 500 <= a -> a + size <= 600 -> host_ptr Membank.demo_mem a = 2 ^ 40 + a -> desc_at (net_mem size k) (2 ^ 40 + 128) i (mkdesc a size 2 0) ->
    offered Membank.demo_mem net_rx_ring m1 (all_addrs Membank.demo_mem (net_chains size k) ++ seqZ net_buffer BUFFER_SIZE) i [mkdesc a size 2 0]).
  { intros i a Hi Ha1 Ha2 Ea' D. assert (Hz : 0 <= size < 100) by (destruct Hs as [[= -> _]|[= -> _]]; lia).
    assert (Eb : chain_addrs Membank.demo_mem [mkdesc a size 2 0] = seqZ (2 ^ 40 + a) size).
    { unfold chain_addrs. cbn [map iov_of iov_addrs flat_map iov_base iov_len d_addr d_len]. rewrite Ea'. apply app_nil_r. }
    constructor.
    - intros m vq V K'. exact (net_chain m1 m vq i _ Q V K' D Hi eq_refl).
    - constructor; [reflexivity|constructor].
    - constructor; [cbn; unfold fits; lia|constructor].
    - cbn. unfold VIRTIO_NET_QUEUE_SIZE. lia.
    - rewrite Eb. apply net_off; lia.
    - rewrite Eb. apply Map; lia. }
  constructor.
  - unfold net_chains. destruct Hs as [[= -> ->]|[= -> ->]]; cbn [Z.to_nat Pos.to_nat Pos.iter_op Nat.add firstn].
    + constructor; [|constructor]. apply (One 0 500); try lia; [reflexivity|exact D0].
    + constructor; [apply (One 0 500); try lia; [reflexivity|exact D0]|]. constructor; [|constructor]. apply (One 1 520); try lia; [reflexivity|exact D1].
  - rewrite Ea. apply NoDup_seqZ.
  - split; [apply (Map 600); unfold BUFFER_SIZE, MAX_PACKET_SIZE, NET_HDR_MRG_SIZE; lia|].
    apply (net_off 600); unfold BUFFER_SIZE, MAX_PACKET_SIZE, NET_HDR_MRG_SIZE; lia.
  - intros a Ha. rewrite Ea, elem_of_seqZ. apply elem_of_seqZ in Ha. unfold net_buffer in Ha. lia.
  - unfold net_chains. destruct Hs as [[= -> ->]|[= -> ->]]; cbn [Z.to_nat Pos.to_nat Pos.iter_op Nat.add firstn]; eexists _, _, _, _; (split; [reflexivity|]); unfold NET_HDR_MRG_SIZE; cbn; lia.
  - destruct Hs as [[= -> ->]|[= -> ->]]; vm_compute; reflexivity.
Qed.

Lemma net_rx_quiet f m1 : quiet net_tx_ring (net_mem size k) m1 -> mem_ok m1 -> queue_st net_rx_ring m1 (nt_vq (net_queue net_rx_ring f)) (seqZ 0 k) 0 0 [].
Proof.
  intros [Q Dm] M. destruct (net_rx_queue size k Hs f) as [V _ W A I Sl].
  assert (Hn : 0 < num net_rx_ring) by reflexivity.
  assert (Sa : same_at (net_mem size k) m1 (2 ^ 40 + 192) 54).
  { apply same_at_lookup. intros b Hb. apply Q. cbn [net_tx_ring used num]. lia. }
  constructor; [exact V|exact M| | | |intros j e Hj; discriminate].
  - destruct W as [W1 W2 W3 Wa Wu W4]. pose proof (quiet_kept net_tx_ring [] _ _ (conj Q Dm)) as K.
    exact (Build_ring_wf m1 net_rx_ring W1 W2 W3 (mapped_kept _ _ _ _ _ K Wa) (mapped_kept _ _ _ _ _ K Wu) W4).
  - apply (avail_rel_same net_rx_ring Hn (net_mem size k)); [|exact A]. intros n b B1 B2. cbn [net_rx_ring avail num] in B1, B2. apply Sa; lia.
  - change (used_idx net_rx_ring) with (2 ^ 40 + 210) in I |- *. rewrite Sa by lia. exact I.
Qed.
End offers.

(** A packet of 30 bytes in two buffers of 20, merged. *)
Lemma net_packet_delivered_witness : exists m' t',
  virtio_net_rx_thread wire_ops Membank.demo_mem no_event net_buffer 3 (net_mem 20 2) (net_queue net_rx_ring (2 ^ 15)) ([repeat 7 30], []) =
    Ret (Some (m', t'), ([], [])) /\
  read_addrs m' (take 30 (all_addrs Membank.demo_mem (net_chains 20 2))) = Some (repeat 7 10 ++ [2; 0] ++ repeat 7 18) /\
  used_rel m' net_rx_ring 0 [(0, 20); (1, 10)].
Proof.
  assert (Hs : (20, 2) = (64, 1) \/ (20, 2) = (20, 2)) by now right.
  destruct (net_packet_delivered wire_ops wire_ready wire_takes Membank.demo_mem no_event net_buffer net_rx_ring 3 (net_mem 20 2)
    (net_queue net_rx_ring (2 ^ 15)) ([repeat 7 30], []) 0 [] (net_chains 20 2) (repeat 7 30) ([], [])) as (m' & t' & E & R & U & _).
  - exact (net_rx_queue 20 2 Hs (2 ^ 15)).
  - reflexivity.
  - exact (net_offer 20 2 Hs _ (quiet_refl _ _)).
  - split; [now apply byte_ok_check|]. now split.
  - vm_compute. split; discriminate.
  - vm_compute. repeat split; discriminate.
  - apply Nat.ltb_lt. reflexivity.
  - exists m', t'. split; [exact E|]. split; [exact R|exact U].
Defined.

Lemma net_tx_request : tx_request Membank.demo_mem net_tx_ring (net_mem 64 1) 0 (mkdesc 400 10 1 1) (mkdesc 410 42 0 0) (replicate 10 0) UipCore.demo_frame.
Proof.
  assert (Hs : (64, 1) = (64, 1) \/ (64, 1) = (20, 2)) by now left. destruct (net_descs 64 1 Hs) as (D0 & D1 & _ & _). constructor.
  - intros m' vq V Q. pose proof (quiet_kept net_tx_ring [] _ _ Q) as K.
    assert (Far : forall i a, 0 <= i < 2 -> 2 ^ 40 + 0 + 16 * i <= a < 2 ^ 40 + 0 + 16 * i + 16 -> ~ (used net_tx_ring <= a < used net_tx_ring + 6 + 8 * num net_tx_ring) /\ a ∉ []).
    { intros i a Hi Ha. cbn [net_tx_ring used num]. split; [lia|intros X; inversion X]. }
    pose proof (desc_at_kept _ _ _ _ _ _ _ K D0 (fun a => Far 0 a ltac:(lia))) as E0. pose proof (desc_at_kept _ _ _ _ _ _ _ K D1 (fun a => Far 1 a ltac:(lia))) as E1.
    rewrite Z.add_0_r in E0, E1. exists 1. rewrite V. split; [apply E0|]. change (flag 1 VRING_DESC_F_INDIRECT) with false. cbn iota.
    apply chain_next; [exact E0|reflexivity|]. apply chain_last; [exact E1|reflexivity].
  - now split.
  - change (host_ptr Membank.demo_mem (d_addr (mkdesc 400 10 1 1))) with (2 ^ 40 + 400). change (d_len (mkdesc 400 10 1 1)) with (Z.of_nat 10).
    rewrite (net_read 64 1 Hs) by lia. vm_compute. reflexivity.
  - change (host_ptr Membank.demo_mem (d_addr (mkdesc 410 42 0 0))) with (2 ^ 40 + 410). change (d_len (mkdesc 410 42 0 0)) with (Z.of_nat 42).
    rewrite (net_read 64 1 Hs) by lia. vm_compute. reflexivity.
  - unfold NET_HDR_SIZE. cbn. lia.
  - change (host_ptr Membank.demo_mem (d_addr (mkdesc 400 10 1 1))) with (2 ^ 40 + 400). change (host_ptr Membank.demo_mem (d_addr (mkdesc 410 42 0 0))) with (2 ^ 40 + 410).
    cbn [d_len]. apply Forall_forall. intros a Ha. rewrite elem_of_app, !elem_of_seqZ in Ha. unfold off_rings. cbn [net_tx_ring avail used num]. lia.
Qed.

Lemma net_arp_exchange_witness : exists m1 t1 s1 m2 t2 s2,
  virtio_net_tx_thread (uip_ops (fun _ => mktx demo_answers 0 0 (fun n => n) false false)) Membank.demo_mem no_event 2 (net_mem 64 1) (net_queue net_tx_ring 0) (demo_uip demo_info) =
    Ret (Some (m1, t1), s1) /\
  virtio_net_rx_thread (uip_ops (fun _ => mktx demo_answers 0 0 (fun n => n) false false)) Membank.demo_mem no_event net_buffer 2 m1 (net_queue net_rx_ring 0) s1 =
    Ret (Some (m2, t2), s2) /\
  read_addrs m2 (take 52 (all_addrs Membank.demo_mem (net_chains 64 1))) = Some (fresh_vnet ++ arp_reply demo_info UipCore.demo_frame).
Proof.
  assert (Hs : (64, 1) = (64, 1) \/ (64, 1) = (20, 2)) by now left.
  destruct (net_arp_exchange (fun _ => mktx demo_answers 0 0 (fun n => n) false false) Membank.demo_mem no_event net_buffer net_tx_ring net_rx_ring 2 (net_mem 64 1)
    (net_queue net_tx_ring 0) (net_queue net_rx_ring 0) (demo_uip demo_info) 0 0 [] [] 0 (mkdesc 400 10 1 1) (mkdesc 410 42 0 0)
    (replicate 10 0) UipCore.demo_frame (net_chains 64 1)) as (m1 & t1 & s1 & m2 & t2 & s2 & fd & E1 & _ & E2 & _ & R & Lf & T & _).
  - exact (net_tx_queue 64 1 Hs 0).
  - reflexivity.
  - exact net_tx_request.
  - exact demo_arp_request.
  - exact demo_pool.
  - reflexivity.
  - reflexivity.
  - reflexivity.
  - intros m1 Q M. split; [exact (net_rx_quiet 64 1 Hs 0 m1 Q M)|exact (net_offer 64 1 Hs m1 Q)].
  - vm_compute. split; discriminate.
  - vm_compute. split; [reflexivity|discriminate].
  - apply Nat.ltb_lt. reflexivity.
  - exists m1, t1, s1, m2, t2, s2. split; [exact E1|]. split; [exact E2|]. rewrite take_ge in T by (rewrite Lf; apply Nat.leb_le; reflexivity). rewrite T in R. exact R.
Defined.
