(* ===== verification/NetOpt.v ===== *)
(** * The network option

    [virtio/net.c]: [netdev_parser] and [set_net_param], which turn the text of a
    [--network] option into the parameters of a device, with the C library's scanning
    that they rely on, and the option that gives back any set of parameters. *)
From stdpp Require Import strings pretty.
From Stdlib Require Import Ascii.
From S2P Require Import Prelude.
Open Scope Z_scope.

(** ** The option (netdev_parser) *)

Definition NET_MODE_USER : Z := 0.
Definition NET_MODE_TAP : Z := 1.

Record virtio_net_params := mknp {
  p_guest_ip : string; p_host_ip : string; p_script : string; p_downscript : string;
  p_trans : option string; p_tapif : option string;
  p_guest_mac : list Z; p_host_mac : list Z;
  p_mode : Z; p_vhost : Z; p_fd : Z; p_mq : Z;
}.

(** The fields of [struct kvm_config] that the option sets. *)
Record net_config := mkcfg { num_net_devices : Z; net_params : list virtio_net_params; no_net : bool }.

(** A call of [die] ends the process; [Wild] is behaviour that C does not define. *)
Inductive may_die (A : Type) := Alive (a : A) | Died | Wild.
Arguments Alive {A}.
Arguments Died {A}.
Arguments Wild {A}.

(** *** The C library's scanning *)

Definition is_space (c : ascii) : bool := let n := nat_of_ascii c in ((n =? 32) || ((9 <=? n) && (n <=? 13)))%nat.

Definition hex_digit (c : ascii) : option Z :=
  let n := Z.of_nat (nat_of_ascii c) in
  if (48 <=? n) && (n <=? 57) then Some (n - 48)
  else if (97 <=? n) && (n <=? 102) then Some (n - 87)
  else if (65 <=? n) && (n <=? 70) then Some (n - 55)
  else None.

Definition dec_digit (c : ascii) : option Z :=
  let n := Z.of_nat (nat_of_ascii c) in if (48 <=? n) && (n <=? 57) then Some (n - 48) else None.

Fixpoint skip_space (s : string) : string :=
  match s with String c s' => if is_space c then skip_space s' else s | EmptyString => s end.

(** The digits at the front: how many, and their value. *)
Fixpoint digits (digit : ascii -> option Z) (base : Z) (s : string) (acc : Z) (n : nat) : Z * nat * string :=
  match s with
  | String c s' => match digit c with Some d => digits digit base s' (acc * base + d) (S n) | None => (acc, n, s) end
  | EmptyString => (acc, n, s)
  end.

Definition sign (s : string) : Z * string :=
  match s with
  | String "-" s' => (-1, s')
  | String "+" s' => (1, s')
  | _ => (1, s)
  end.

Definition skip_0x (s : string) : string :=
  match s with
  | String "0" (String "x" s') => s'
  | String "0" (String "X" s') => s'
  | _ => s
  end.

(** [%hhx]: [None] is a failure to match. *)
Definition scan_hhx (s : string) : option (Z * string) :=
  let (sg, s) := sign (skip_space s) in
  let '(v, n, rest) := digits hex_digit 16 (skip_0x s) 0 0 in
  match n with O => None | _ => Some (u8 (sg * v), rest) end.

Definition atoi (s : string) : Z :=
  let (sg, s) := sign (skip_space s) in
  let '(v, _, _) := digits dec_digit 10 s 0 0 in s32 (sg * v).

(** The six conversions, up to the first that fails; [i] is the next byte of the array. *)
Fixpoint scan_mac (n : nat) (s : string) (i : nat) (mac : list Z) : list Z :=
  match n with
  | O => mac
  | S n =>
      match scan_hhx s with
      | None => mac
      | Some (v, rest) =>
          let mac := <[i := v]> mac in
          match rest with
          | String ":" rest => scan_mac n rest (S i) mac
          | _ => mac
          end
      end
  end.

Definition str_to_mac (str : string) (mac : list Z) : list Z := scan_mac 6 str 0 mac.

(** All the tokens of [strtok(buf, ",=")]: the pieces between the separators that are not empty. *)
Definition is_sep (c : ascii) : bool := (Ascii.eqb c "," || Ascii.eqb c "=")%bool.

Fixpoint strtok (s : string) (cur : string) : list string :=
  match s with
  | EmptyString => match cur with EmptyString => [] | _ => [cur] end
  | String c s =>
      if is_sep c then match cur with EmptyString => strtok s EmptyString | _ => cur :: strtok s EmptyString end
      else strtok s (cur +:+ String c EmptyString)
  end.

(** *** One parameter *)

Inductive set_result := Set_ (p : virtio_net_params) | NoNet | SetDied.

Definition set_net_param (cfg : net_config) (p : virtio_net_params) (param val : string) : set_result :=
  let '(mknp gip hip sc dsc tr tap gm hm mode vh fd mq) := p in
  if (param =? "guest_mac")%string then Set_ (mknp gip hip sc dsc tr tap (str_to_mac val gm) hm mode vh fd mq)
  else if (param =? "mode")%string then
    if String.prefix "user" val then
      if existsb (fun q => p_mode q =? NET_MODE_USER) (firstn (Z.to_nat (num_net_devices cfg)) (net_params cfg)) then SetDied
      else Set_ (mknp gip hip sc dsc tr tap gm hm NET_MODE_USER vh fd mq)
    else if String.prefix "tap" val then Set_ (mknp gip hip sc dsc tr tap gm hm NET_MODE_TAP vh fd mq)
    else if String.prefix "none" val then NoNet
    else SetDied
  else if (param =? "script")%string then Set_ (mknp gip hip val dsc tr tap gm hm mode vh fd mq)
  else if (param =? "downscript")%string then Set_ (mknp gip hip sc val tr tap gm hm mode vh fd mq)
  else if (param =? "guest_ip")%string then Set_ (mknp val hip sc dsc tr tap gm hm mode vh fd mq)
  else if (param =? "host_ip")%string then Set_ (mknp gip val sc dsc tr tap gm hm mode vh fd mq)
  else if (param =? "trans")%string then Set_ (mknp gip hip sc dsc (Some val) tap gm hm mode vh fd mq)
  else if (param =? "tapif")%string then Set_ (mknp gip hip sc dsc tr (Some val) gm hm mode vh fd mq)
  else if (param =? "vhost")%string then Set_ (mknp gip hip sc dsc tr tap gm hm mode (atoi val) fd mq)
  else if (param =? "fd")%string then Set_ (mknp gip hip sc dsc tr tap gm hm mode vh (atoi val) mq)
  else if (param =? "mq")%string then Set_ (mknp gip hip sc dsc tr tap gm hm mode vh fd (atoi val))
  else SetDied.

Definition DEFAULT_HOST_ADDR : string := "192.168.33.1".
Definition DEFAULT_GUEST_ADDR : string := "192.168.33.15".
Definition DEFAULT_GUEST_MAC : string := "02:15:15:15:15:15".
Definition DEFAULT_HOST_MAC : string := "02:01:01:01:01:01".
Definition DEFAULT_SCRIPT : string := "none".

(** The tokens in turn: [cmd] is the parameter whose value comes next. *)
Fixpoint set_params (cfg : net_config) (p : virtio_net_params) (cmd : option string) (l : list string) : set_result :=
  match l with
  | [] => Set_ p
  | cur :: l =>
      match cmd with
      | None => set_params cfg p (Some cur) l
      | Some c => match set_net_param cfg p c cur with Set_ p => set_params cfg p None l | r => r end
      end
  end.

Definition zero_mac : list Z := [0; 0; 0; 0; 0; 0].

Definition default_params (num : Z) : virtio_net_params :=
  let gm := str_to_mac DEFAULT_GUEST_MAC zero_mac in
  mknp DEFAULT_GUEST_ADDR DEFAULT_HOST_ADDR DEFAULT_SCRIPT DEFAULT_SCRIPT None None
    (alter (fun b => u8 (b + num)) 5%nat gm) (str_to_mac DEFAULT_HOST_MAC zero_mac) NET_MODE_TAP 0 0 0.

(** [num_net_devices] is a [u8]; when it wraps the element before the array is written. *)
Definition netdev_parser (cfg : net_config) (arg : option string) : may_die net_config :=
  let toks := match arg with Some s => strtok s "" | None => [] end in
  match set_params cfg (default_params (num_net_devices cfg)) None toks with
  | Set_ p =>
      let num := u8 (num_net_devices cfg + 1) in
      if num =? 0 then Wild
      else Alive (mkcfg num (firstn (Z.to_nat (num_net_devices cfg)) (net_params cfg) ++ [p]) (no_net cfg))
  | NoNet => Alive (mkcfg (num_net_devices cfg) (net_params cfg) true)
  | SetDied => Died
  end.

(** ** Writing the option *)

(** A device's parameters as the text of one [--network] option. *)
Definition hex_char (d : Z) : ascii := ascii_of_nat (Z.to_nat (if d <? 10 then d + 48 else d + 87)).
Definition show_byte (b : Z) : string := String (hex_char (b / 16)) (String (hex_char (b mod 16)) "").
Definition show_mac (mac : list Z) : string := String.concat ":" (map show_byte mac).
Definition show_num (n : Z) : string := pretty (Z.to_N n).
Definition show_opt (k : string) (o : option string) : list (string * string) := match o with Some v => [(k, v)] | None => [] end.

Definition show_params (p : virtio_net_params) : list (string * string) :=
  [("guest_mac", show_mac (p_guest_mac p)); ("mode", if (p_mode p =? NET_MODE_USER)%Z then "user" else "tap");
   ("script", p_script p); ("downscript", p_downscript p); ("guest_ip", p_guest_ip p); ("host_ip", p_host_ip p);
   ("vhost", show_num (p_vhost p)); ("fd", show_num (p_fd p)); ("mq", show_num (p_mq p))]%string
  ++ show_opt "trans" (p_trans p) ++ show_opt "tapif" (p_tapif p).

Definition show_option (l : list (string * string)) : string := String.concat "," (map (fun kv => fst kv +:+ "=" +:+ snd kv) l).

(** A word of the option: some text with no separator in it. *)
Fixpoint no_sep (s : string) : bool := match s with String c s => negb (is_sep c) && no_sep s | EmptyString => true end.
Definition word (s : string) : Prop := s <> ""%string /\ no_sep s = true.

Lemma string_app_cons c s t : String c s +:+ t = String c (s +:+ t).
Proof. done. Qed.

Lemma string_app_nil s : s +:+ "" = s.
Proof. induction s; [done |]. rewrite string_app_cons. congruence. Qed.

Lemma string_app_assoc s t u : (s +:+ t) +:+ u = s +:+ (t +:+ u).
Proof. induction s; [done |]. rewrite !string_app_cons. congruence. Qed.

Lemma strtok_word s : forall cur rest, no_sep s = true -> strtok (s +:+ rest) cur = strtok rest (cur +:+ s).
Proof.
  induction s as [| c s IH]; intros cur rest Hs.
  - by rewrite string_app_nil.
  - apply andb_prop in Hs as [Hc Hs]. apply negb_true_iff in Hc. rewrite string_app_cons. simpl. rewrite Hc, IH by done.
    by rewrite string_app_assoc.
Qed.

Lemma strtok_sep s c rest : word s -> is_sep c = true -> strtok (s +:+ String c rest) "" = s :: strtok rest "".
Proof. intros [Hn Hs] Hc. rewrite strtok_word by done. simpl. rewrite Hc. by destruct s. Qed.

Lemma strtok_last s : word s -> strtok s "" = [s].
Proof. intros [Hn Hs]. rewrite <- (string_app_nil s) at 1. rewrite strtok_word by done. by destruct s. Qed.

Lemma strtok_show l : Forall (fun kv => word (fst kv) /\ word (snd kv)) l ->
  strtok (show_option l) "" = flat_map (fun kv => [fst kv; snd kv]) l.
Proof.
  induction l as [| [k v] l IH]; intros F; [done |]. apply Forall_cons_1 in F as [[Hk Hv] F]. simpl in Hk, Hv.
  unfold show_option in *. destruct l as [| [k' v'] l].
  - simpl. change (k +:+ "=" +:+ v) with (k +:+ String "=" v). rewrite strtok_sep, strtok_last by done. done.
  - cbn [map String.concat fst snd flat_map app]. cbn [map String.concat fst snd flat_map app] in IH.
    rewrite string_app_assoc. change ("=" +:+ v) with (String "=" v).
    rewrite string_app_cons, strtok_sep by done. f_equal.
    rewrite string_app_cons, strtok_sep by done. f_equal. apply IH; done.
Qed.

(** *** Numbers *)

Lemma dec_digit_char d : 0 <= d < 10 -> dec_digit (pretty_N_char (Z.to_N d)) = Some d.
Proof.
  intros H. assert (In d [0;1;2;3;4;5;6;7;8;9]) as I by (simpl; lia). simpl in I.
  repeat (destruct I as [<- | I]; [reflexivity |]). done.
Qed.

Lemma digits_pretty x : forall s acc n, exists k,
  digits dec_digit 10 (pretty_N_go x s) acc n = digits dec_digit 10 s (acc * 10 ^ Z.of_nat k + Z.of_N x) (n + k) /\
  (x <> 0%N -> (0 < k)%nat).
Proof.
  induction (N.lt_wf_0 x) as [x _ IH]. intros s acc n. destruct (decide (x = 0%N)) as [-> | Hx].
  - exists O. rewrite pretty_N_go_0. rewrite Z.pow_0_r, Z.mul_1_r, Z.add_0_r, Nat.add_0_r. done.
  - rewrite pretty_N_go_step by lia.
    assert (x `div` 10 < x)%N as L by (apply N.div_lt; lia).
    edestruct (IH (x `div` 10)%N L) as (k & -> & _). exists (S k). split; [| lia]. cbn [digits].
    replace (x `mod` 10)%N with (Z.to_N (Z.of_N x mod 10)) by (rewrite Z2N.inj_mod, N2Z.id; [done | lia | lia]).
    rewrite dec_digit_char by (apply Z.mod_pos_bound; lia). f_equal; [| lia].
    rewrite Nat2Z.inj_succ, Z.pow_succ_r, N2Z.inj_div by lia. pose proof (Z.div_mod (Z.of_N x) 10 ltac:(lia)). lia.
Qed.

Fixpoint all_chars (f : ascii -> bool) (s : string) : bool :=
  match s with String c s => f c && all_chars f s | EmptyString => true end.

Lemma pretty_digits (f : ascii -> bool) x : (forall d, f (pretty_N_char d) = true) ->
  forall s, all_chars f s = true -> all_chars f (pretty_N_go x s) = true.
Proof.
  intros Hf. induction (N.lt_wf_0 x) as [x _ IH]. intros s Hs. destruct (decide (x = 0%N)) as [-> | Hx]; [done |].
  rewrite pretty_N_go_step by lia. apply IH; [apply N.div_lt; lia |]. simpl. by rewrite Hf.
Qed.

Lemma pretty_long x : forall s, (String.length s <= String.length (pretty_N_go x s))%nat /\
  (x <> 0%N -> (String.length s < String.length (pretty_N_go x s))%nat).
Proof.
  induction (N.lt_wf_0 x) as [x _ IH]. intros s. destruct (decide (x = 0%N)) as [-> | Hx]; [done |].
  rewrite pretty_N_go_step by lia. destruct (IH (x `div` 10)%N ltac:(apply N.div_lt; lia) (String (pretty_N_char (x `mod` 10)%N) s)) as [L _].
  cbn [String.length] in L. split; [apply Nat.lt_le_incl |]; intros; apply L.
Qed.

Lemma show_num_chars f n : (forall d, f (pretty_N_char d) = true) -> all_chars f (show_num n) = true.
Proof.
  intros Hf. unfold show_num, pretty, pretty_N. case_decide; [| by apply pretty_digits].
  pose proof (Hf 0%N) as E. simpl in *. by rewrite E.
Qed.

Lemma show_num_nonempty n : show_num n <> ""%string.
Proof.
  unfold show_num, pretty, pretty_N. case_decide as Hn; [done |]. intros E.
  destruct (pretty_long (Z.to_N n) "") as [_ L]. specialize (L Hn). rewrite E in L. simpl in L. lia.
Qed.

(** What [atoi] skips in front of a number. *)
Definition starts_number (c : ascii) : bool := negb (is_space c) && negb (Ascii.eqb c "-") && negb (Ascii.eqb c "+").

Lemma pretty_char_ok (f : ascii -> bool) : forallb f (map pretty_N_char [0;1;2;3;4;5;6;7;8;9]%N) = true ->
  forall d, f (pretty_N_char d) = true.
Proof.
  intros H d. simpl in H. repeat (apply andb_prop in H as [? H]).
  unfold pretty_N_char. repeat case_match; done.
Qed.

Lemma skip_none s : all_chars starts_number s = true -> sign (skip_space s) = (1, s).
Proof.
  destruct s as [| c s]; [done |]. cbn [all_chars]. intros [Hc _]%andb_prop. unfold starts_number in Hc.
  apply andb_prop in Hc as [[H1 H2]%andb_prop H3]. apply negb_true_iff in H1. simpl. rewrite H1.
  destruct c as [[] [] [] [] [] [] [] []]; done.
Qed.

(** [atoi] reads back the numbers of an [int]. *)
Lemma atoi_show n : 0 <= n < 2 ^ 31 -> atoi (show_num n) = n.
Proof.
  intros Hn. unfold atoi. rewrite skip_none by (apply show_num_chars, pretty_char_ok; reflexivity).
  assert (exists k l, digits dec_digit 10 (show_num n) 0 0 = (n, k, l)) as (k & l & ->).
  { unfold show_num, pretty, pretty_N. case_decide as H0.
    - exists 1%nat, ""%string. replace n with 0 by lia. reflexivity.
    - destruct (digits_pretty (Z.to_N n) "" 0 0) as (k & -> & _). cbn [digits]. eexists _, _. do 2 f_equal. lia. }
  rewrite Z.mul_1_l. unfold swrap. rewrite Z.mod_small by lia. change (2 ^ (32 - 1)) with (2 ^ 31). lia.
Qed.

(** *** Hardware addresses *)

Lemma scan_show_byte b rest : fits 8 b -> rest = ""%string \/ (exists r, rest = String ":" r) ->
  scan_hhx (show_byte b +:+ rest) = Some (b, rest).
Proof.
  intros Hb Hr.
  assert (forall d, 0 <= d < 16 -> In d [0;1;2;3;4;5;6;7;8;9;10;11;12;13;14;15]) as D by (intros; simpl; lia).
  assert (forall h l, In h [0;1;2;3;4;5;6;7;8;9;10;11;12;13;14;15] -> In l [0;1;2;3;4;5;6;7;8;9;10;11;12;13;14;15] ->
    scan_hhx (String (hex_char h) (String (hex_char l) rest)) = Some (u8 (h * 16 + l), rest)) as Hd.
  { intros h l Hh Hl. simpl in Hh, Hl.
    destruct Hr as [-> | [r ->]]; repeat (destruct Hh as [<- | Hh]); try contradiction;
      repeat (destruct Hl as [<- | Hl]); try contradiction; reflexivity. }
  unfold fits in Hb. assert (0 <= b / 16 < 16 /\ 0 <= b mod 16 < 16) as [B1 B2]
    by (split; [split; [apply Z.div_pos | apply Z.div_lt_upper_bound]; lia | apply Z.mod_pos_bound; lia]).
  unfold show_byte. rewrite !string_app_cons.
  change ("" +:+ rest) with rest. rewrite Hd by (apply D; assumption).
  do 2 f_equal. unfold wrap. pose proof (Z.div_mod b 16 ltac:(lia)). rewrite Z.mod_small; lia.
Qed.

Definition mac_ok (mac : list Z) : Prop := length mac = 6%nat /\ Forall (fits 8) mac.

(** Every address is read back from its text. *)
Lemma str_to_mac_show mac old : mac_ok mac -> length old = 6%nat -> str_to_mac (show_mac mac) old = mac.
Proof.
  intros [L F] Lo.
  destruct mac as [| a0 [| a1 [| a2 [| a3 [| a4 [| a5 [| ? ?]]]]]]]; try discriminate.
  destruct old as [| o0 [| o1 [| o2 [| o3 [| o4 [| o5 [| ? ?]]]]]]]; try discriminate.
  rewrite !Forall_cons in F. destruct F as (F0 & F1 & F2 & F3 & F4 & F5 & _).
  unfold str_to_mac, show_mac. cbn [map String.concat].
  do 5 (cbn [scan_mac]; change (":" +:+ ?r) with (String ":" r); rewrite scan_show_byte by (done || eauto)).
  cbn [scan_mac]. rewrite <- (string_app_nil (show_byte a5)), scan_show_byte by auto. reflexivity.
Qed.

(** ** The round trip *)

(** Parameters that an option can describe: the values are words of the option, the
    numbers not negative, and the address of the host the default. *)
Record option_ok (cfg : net_config) (p : virtio_net_params) : Prop := {
  ok_count : 0 <= num_net_devices cfg < 255;
  ok_mac : mac_ok (p_guest_mac p);
  ok_host_mac : p_host_mac p = str_to_mac DEFAULT_HOST_MAC zero_mac;
  ok_words : Forall word [p_script p; p_downscript p; p_guest_ip p; p_host_ip p];
  ok_opt_words : forall s, p_trans p = Some s \/ p_tapif p = Some s -> word s;
  ok_numbers : Forall (fun n => 0 <= n < 2 ^ 31) [p_vhost p; p_fd p; p_mq p];
  ok_mode : p_mode p = NET_MODE_TAP \/
    p_mode p = NET_MODE_USER /\ Forall (fun q => p_mode q = NET_MODE_TAP) (firstn (Z.to_nat (num_net_devices cfg)) (net_params cfg));
}.

Lemma word_all_chars s : all_chars (fun c => negb (is_sep c)) s = true -> s <> ""%string -> word s.
Proof. intros A N. split; [done |]. clear N. induction s as [| c s IH]; [done |]. apply andb_prop in A as [A B]. simpl. rewrite A. auto. Qed.

Lemma word_num n : word (show_num n).
Proof. apply word_all_chars; [apply show_num_chars, (pretty_char_ok (fun c => negb (is_sep c))); reflexivity | apply show_num_nonempty]. Qed.

Lemma no_sep_app s t : no_sep (s +:+ t) = (no_sep s && no_sep t)%bool.
Proof. induction s as [| c s IH]; [done |]. rewrite string_app_cons. simpl. by rewrite IH, andb_assoc. Qed.

Lemma no_sep_byte b : fits 8 b -> no_sep (show_byte b) = true.
Proof.
  intros Hb. assert (forall d, 0 <= d < 16 -> is_sep (hex_char d) = false) as D.
  { intros d Hd. assert (In d [0;1;2;3;4;5;6;7;8;9;10;11;12;13;14;15]) as I by (simpl; lia). simpl in I.
    repeat destruct I as [<- | I]; try contradiction; reflexivity. }
  unfold fits in Hb. assert (0 <= b / 16 < 16 /\ 0 <= b mod 16 < 16) as [B1 B2]
    by (split; [split; [apply Z.div_pos | apply Z.div_lt_upper_bound]; lia | apply Z.mod_pos_bound; lia]).
  unfold show_byte. cbn [no_sep].
  rewrite !D by assumption. done.
Qed.

Lemma word_mac mac : mac_ok mac -> word (show_mac mac).
Proof.
  intros [L F]. destruct mac as [| a mac]; [done |]. split; [by destruct mac |]. clear L. unfold show_mac.
  revert a F. induction mac as [| b mac IH]; intros a F; cbn [map String.concat].
  - inversion F; by apply no_sep_byte.
  - apply Forall_cons_1 in F as [Ha F]. rewrite !no_sep_app, no_sep_byte by done. apply (IH b F).
Qed.

Lemma word_lit s : s <> ""%string -> no_sep s = true -> word s.
Proof. by split. Qed.

Lemma show_params_words cfg p : option_ok cfg p -> Forall (fun kv => word (fst kv) /\ word (snd kv)) (show_params p).
Proof.
  intros [_ Hm _ Hw Ho _ _]. rewrite !Forall_cons in Hw. destruct Hw as (W1 & W2 & W3 & W4 & _).
  unfold show_params. apply Forall_app_2; [| apply Forall_app_2].
  - rewrite !Forall_cons, Forall_nil. cbn [fst snd].
    repeat match goal with |- _ /\ _ => split end; auto using word_num, word_mac; try (by apply word_lit).
    case_match; by apply word_lit.
  - destruct (p_trans p) eqn:E; [| done]. constructor; [| done]. split; [by apply word_lit | auto].
  - destruct (p_tapif p) eqn:E; [| done]. constructor; [| done]. split; [by apply word_lit | auto].
Qed.

Lemma set_step cfg p q k v l : set_net_param cfg p k v = Set_ q ->
  set_params cfg p None (k :: v :: l) = set_params cfg q None l.
Proof. intros E. simpl. by rewrite E. Qed.

Lemma no_user_yet l : Forall (fun q => p_mode q = NET_MODE_TAP) l -> existsb (fun q => p_mode q =? NET_MODE_USER) l = false.
Proof. induction 1 as [| q l Hq _ IH]; [done |]. simpl. by rewrite Hq. Qed.

(** C33. Every set of parameters is described by an option: parsing the text that spells
    the parameters out adds exactly them to the configuration, and nothing else changes. *)
Theorem net_option_roundtrip cfg p : option_ok cfg p ->
  netdev_parser cfg (Some (show_option (show_params p))) =
  Alive (mkcfg (num_net_devices cfg + 1) (firstn (Z.to_nat (num_net_devices cfg)) (net_params cfg) ++ [p]) (no_net cfg)).
Proof.
  intros Hok. unfold netdev_parser. rewrite strtok_show by exact (show_params_words _ _ Hok).
  assert (set_params cfg (default_params (num_net_devices cfg)) None (flat_map (fun kv => [fst kv; snd kv]) (show_params p)) = Set_ p) as ->.
  { destruct Hok as [_ Hm Hh _ _ Hn Hmode]. rewrite !Forall_cons in Hn. destruct Hn as (N1 & N2 & N3 & _).
    destruct p as [gip hip sc dsc tr tap gm hm mode vh fd mq]. cbn [p_guest_mac p_host_mac p_mode p_vhost p_fd p_mq] in *. subst hm.
    unfold show_params. rewrite !flat_map_app. cbn [flat_map fst snd app p_guest_mac p_mode p_script p_downscript p_guest_ip p_host_ip p_vhost p_fd p_mq p_trans p_tapif].
    unfold default_params.
    erewrite set_step; [| reflexivity]. rewrite str_to_mac_show by (done || reflexivity).
    erewrite set_step with (q := mknp _ _ _ _ _ _ _ _ mode _ _ _);
      [| destruct Hmode as [-> | [-> F]]; [reflexivity |]; unfold set_net_param; cbn; by rewrite no_user_yet].
    do 4 (erewrite set_step; [| reflexivity]).
    do 3 (erewrite set_step; [| reflexivity]; rewrite atoi_show by done).
    destruct tr as [tr |]; cbn [show_opt flat_map fst snd app]; [erewrite set_step; [| reflexivity] |];
      (destruct tap as [tap |]; cbn [show_opt flat_map fst snd app]; [erewrite set_step; [| reflexivity] |]); reflexivity. }
  destruct Hok as [Hc _ _ _ _ _ _]. unfold wrap. rewrite Z.mod_small by lia.
  by rewrite (proj2 (Z.eqb_neq _ _)) by lia.
Qed.

(** A device on a queue pair of its own, for a guest with a tap interface. *)
Example demo_params : virtio_net_params :=
  mknp "10.0.0.2" "10.0.0.1" "none" "/etc/down" (Some "mmio"%string) None [2; 0; 222; 173; 190; 239]
    (str_to_mac DEFAULT_HOST_MAC zero_mac) NET_MODE_USER 1 0 3.

Example demo_params_text : show_option (show_params demo_params) =
  "guest_mac=02:00:de:ad:be:ef,mode=user,script=none,downscript=/etc/down,guest_ip=10.0.0.2,host_ip=10.0.0.1,vhost=1,fd=0,mq=3,trans=mmio"%string.
Proof. vm_compute. reflexivity. Qed.

Lemma net_option_roundtrip_witness :
  netdev_parser (mkcfg 0 [] false) (Some (show_option (show_params demo_params))) = Alive (mkcfg 1 [demo_params] false).
Proof.
  rewrite net_option_roundtrip; [reflexivity |].
  split.
  - done.
  - split; [done |]. repeat constructor; unfold fits; simpl; lia.
  - done.
  - repeat constructor; by apply word_lit.
  - intros s [[= <-] | [=]]. by apply word_lit.
  - repeat constructor; simpl; lia.
  - right. split; [reflexivity | constructor].
Defined.

(** Two options each with a user-mode device end the process, and mode [none] keeps the
    device out. *)
Example second_user_dies : netdev_parser (mkcfg 1 [demo_params] false) (Some "mode=user"%string) = Died.
Proof. vm_compute. reflexivity. Qed.

(** [num_net_devices] is a [u8]: the 256th device wraps it to 0, and the element before
    the array is written. *)
Lemma device_count_wraps l b : netdev_parser (mkcfg 255 l b) None = Wild.
Proof. reflexivity. Qed.
