(* ===== verification/NetDev.v ===== *)
(** * The virtio network device: set-up, life cycle and fork

    [virtio/net.c], the part around the queues: creating the device, its TAP interface, starting and stopping it, its queues' threads, vhost, and
    the hooks that a fork runs. Calls to the host's kernel go through [sys], which answers
    from an oracle and keeps a trace; the writes to debug logs are left out. *)
From stdpp Require Import strings pretty.
From Stdlib Require Import Ascii.
From S2P Require Import Prelude Membank HostMem Virtqueue VirtioBlk UipNet UipFrame UipUdp UipTcp UipCore VirtioNet NetOpt.
Open Scope Z_scope.

(** ** The host's kernel *)

Inductive os_call :=
| Socket | Open (path : string) | Close (fd : Z) | Eventfd | Exec (script tap : string)
| TunSetIff (fd : Z) (name : option string) | TunSetHdrSize (fd n : Z) | TunSetOffload (fd offload : Z)
| SetIfAddr (name : string) (addr : Z) | GetIfFlags (name : string) | SetIfFlags (name : string) (flags : Z)
| VhostGetFeatures (fd : Z) | VhostSetFeatures (fd f : Z) | VhostSetOwner (fd : Z) | VhostSetMemTable (fd : Z) (regions : list (Z * Z * Z))
| VhostResetOwner (fd : Z) | VringNum (fd i n : Z) | VringBase (fd i n : Z) | VringAddr (fd i d a u : Z) | VringKick (fd i efd : Z)
| VringCall (fd i efd : Z) | SetBackend (fd i tap : Z) | AddIrqfd (gsi fd : Z) | DelIrqfd (gsi fd : Z).

(** What a call returns, the error number it leaves when that is negative, and what it
    stores: a name or a number. *)
Record answer := mkanswer { ret : Z; err : Z; name : string; value : Z }.

Record os := mkos { kernel : list os_call -> os_call -> answer; trace : list os_call; errno : Z }.

Definition sys (c : os_call) (w : os) : answer * os :=
  let a := kernel w (trace w) c in
  (a, mkos (kernel w) (trace w ++ [c]) (if ret a <? 0 then err a else errno w)).

Definition EBUSY : Z := 16.

(** [IFF_UP | IFF_RUNNING] and the offload flags of [<linux/if_tun.h>]. *)
Definition IFF_UP_RUNNING : Z := 65.
Definition TUN_F_CSUM : Z := 1.
Definition TUN_F_TSO4 : Z := 2.
Definition TUN_F_TSO6 : Z := 4.
Definition TUN_F_UFO : Z := 16.

(** ** The device *)

Inductive thread_kind := RxThread | TxThread | CtrlThread.

Record net_dev_queue := mknq { nq_vq : virt_queue; nq_thread : option thread_kind; nq_gsi : Z; nq_irqfd : Z }.

(** [kvm] is a pointer: a number stands for it. [mac], [status] and the pairs are the
    configuration space; [uip_guest_mac] is the stack's copy of the address. *)
Record net_dev := mknd {
  nd_kvm : Z; nd_params : virtio_net_params; nd_vdev : virtio_device; nd_queues : list net_dev_queue;
  nd_mac : list Z; nd_status : Z; nd_max_pairs : Z; nd_features : Z; nd_pairs : Z;
  nd_vhost_fd : Z; nd_tap_fd : Z; nd_tap_name : string; nd_tap_ufo : bool; nd_mode : Z; nd_uip : uip;
}.

Definition set_tap (d : net_dev) (fd : Z) (nm : string) (ufo : bool) : net_dev :=
  mknd (nd_kvm d) (nd_params d) (nd_vdev d) (nd_queues d) (nd_mac d) (nd_status d) (nd_max_pairs d) (nd_features d) (nd_pairs d)
    (nd_vhost_fd d) fd nm ufo (nd_mode d) (nd_uip d).
Definition set_vhost (d : net_dev) (fd : Z) (v : virtio_device) : net_dev :=
  mknd (nd_kvm d) (nd_params d) v (nd_queues d) (nd_mac d) (nd_status d) (nd_max_pairs d) (nd_features d) (nd_pairs d)
    fd (nd_tap_fd d) (nd_tap_name d) (nd_tap_ufo d) (nd_mode d) (nd_uip d).
Definition set_queues (d : net_dev) (qs : list net_dev_queue) : net_dev :=
  mknd (nd_kvm d) (nd_params d) (nd_vdev d) qs (nd_mac d) (nd_status d) (nd_max_pairs d) (nd_features d) (nd_pairs d)
    (nd_vhost_fd d) (nd_tap_fd d) (nd_tap_name d) (nd_tap_ufo d) (nd_mode d) (nd_uip d).
Definition set_nfeatures (d : net_dev) (f : Z) : net_dev :=
  mknd (nd_kvm d) (nd_params d) (nd_vdev d) (nd_queues d) (nd_mac d) (nd_status d) (nd_max_pairs d) f (nd_pairs d)
    (nd_vhost_fd d) (nd_tap_fd d) (nd_tap_name d) (nd_tap_ufo d) (nd_mode d) (nd_uip d).
Definition set_uip (d : net_dev) (u : uip) : net_dev :=
  mknd (nd_kvm d) (nd_params d) (nd_vdev d) (nd_queues d) (nd_mac d) (nd_status d) (nd_max_pairs d) (nd_features d) (nd_pairs d)
    (nd_vhost_fd d) (nd_tap_fd d) (nd_tap_name d) (nd_tap_ufo d) (nd_mode d) u.
Definition set_kvm (d : net_dev) (k : Z) : net_dev :=
  mknd k (nd_params d) (nd_vdev d) (nd_queues d) (nd_mac d) (nd_status d) (nd_max_pairs d) (nd_features d) (nd_pairs d)
    (nd_vhost_fd d) (nd_tap_fd d) (nd_tap_name d) (nd_tap_ufo d) (nd_mode d) (nd_uip d).
Definition set_params_of (d : net_dev) (p : virtio_net_params) : net_dev :=
  mknd (nd_kvm d) p (nd_vdev d) (nd_queues d) (nd_mac d) (nd_status d) (nd_max_pairs d) (nd_features d) (nd_pairs d)
    (nd_vhost_fd d) (nd_tap_fd d) (nd_tap_name d) (nd_tap_ufo d) (nd_mode d) (nd_uip d).

(** The address goes to the configuration space, the stack and the parameters. *)
Definition uip_set_mac (u : uip) (mac : list Z) : uip :=
  let i := ui u in
  with_ui u (mkinfo (buf_head i) (buf_free_nr i) (buf_used_nr i) mac (host_mac i) (guest_ip i) (guest_netmask i) (host_ip i)
    (dns_ip i) (domain_name i) (vnet_hdr_len i)).
Definition params_set_mac (p : virtio_net_params) (mac : list Z) : virtio_net_params :=
  let '(mknp gip hip sc dsc tr tap gm hm mode vh fd mq) := p in mknp gip hip sc dsc tr tap mac hm mode vh fd mq.
Definition params_set_tapif (p : virtio_net_params) (nm : string) : virtio_net_params :=
  let '(mknp gip hip sc dsc tr tap gm hm mode vh fd mq) := p in mknp gip hip sc dsc tr (Some nm) gm hm mode vh fd mq.
Definition set_mac (d : net_dev) (mac : list Z) : net_dev :=
  mknd (nd_kvm d) (params_set_mac (nd_params d) mac) (nd_vdev d) (nd_queues d) mac (nd_status d) (nd_max_pairs d) (nd_features d) (nd_pairs d)
    (nd_vhost_fd d) (nd_tap_fd d) (nd_tap_name d) (nd_tap_ufo d) (nd_mode d) (uip_set_mac (nd_uip d) mac).

Definition nd_has_feature (d : net_dev) (f : Z) : bool := has_virtio_feature (nd_features d) f.

(** *** The TAP interface *)

Definition IFNAMSIZ : nat := 16.
Definition strlcpy (s : string) (n : nat) : string := String.substring 0 (n - 1) s.

Definition virtio_net_request_tap (d : net_dev) (tapname : option string) (w : os) : Z * net_dev * os :=
  let nm := match tapname with Some s => Some (strlcpy s IFNAMSIZ) | None => None end in
  let (a, w) := sys (TunSetIff (nd_tap_fd d) nm) w in
  (ret a, if ret a <? 0 then d else set_tap d (nd_tap_fd d) (strlcpy (name a) IFNAMSIZ) (nd_tap_ufo d), w).

(** The answer to [Exec] is the status with which the script has exited. *)
Definition virtio_net_exec_script (script tap : string) (w : os) : Z * os :=
  let (a, w) := sys (Exec script tap) w in (if 0 <? ret a then -1 else 0, w).

Section host.
(** [inet_addr] of the C library. *)
Context (inet_addr : string -> Z).

Definition virtio_net__tap_init (d : net_dev) (w : os) : bool * os :=
  let p := nd_params d in
  let (sock, w) := sys Socket w in
  let hdr_len := if nd_has_feature d VIRTIO_NET_F_MRG_RXBUF then NET_HDR_MRG_SIZE else NET_HDR_SIZE in
  let skipconf := match p_tapif p with Some _ => true | None => false end in
  let (_, w) := sys (TunSetHdrSize (nd_tap_fd d) hdr_len) w in
  let '(ok, w) :=
    if negb (p_script p =? "none")%string then
      let (r, w) := virtio_net_exec_script (p_script p) (nd_tap_name d) w in (negb (r <? 0), w)
    else if negb skipconf then
      let (a, w) := sys (SetIfAddr (nd_tap_name d) (inet_addr (p_host_ip p))) w in (negb (ret a <? 0), w)
    else (true, w) in
  if ok then
    let w :=
      if negb skipconf then
        let (a, w) := sys (GetIfFlags (nd_tap_name d)) w in
        let (_, w) := sys (SetIfFlags (nd_tap_name d) (value a .| IFF_UP_RUNNING)) w in w
      else w in
    let (_, w) := sys (Close (ret sock)) w in (true, w)
  else
    let w := if 0 <=? ret sock then snd (sys (Close (ret sock)) w) else w in
    let w := if 0 <=? nd_tap_fd d then snd (sys (Close (nd_tap_fd d)) w) else w in
    (false, w).

(** Both calls of [ioctl] ask for the flags. *)
Definition virtio_net__tap_exit (d : net_dev) (w : os) : os :=
  match p_tapif (nd_params d) with
  | Some _ => w
  | None =>
      let (sock, w) := sys Socket w in
      let (_, w) := sys (GetIfFlags (nd_tap_name d)) w in
      let (_, w) := sys (GetIfFlags (nd_tap_name d)) w in
      snd (sys (Close (ret sock)) w)
  end.

Definition virtio_net__tap_create (d : net_dev) (w : os) : bool * net_dev * os :=
  let p := nd_params d in
  let macvtap := match p_tapif p with Some (String "/" _) => true | _ => false end in
  let '(fd, w) :=
    if negb (p_fd p =? 0) then (p_fd p, w)
    else
      let tap_file := if macvtap then default "" (p_tapif p) else "/dev/net/tun"%string in
      let (a, w) := sys (Open tap_file) w in (ret a, w) in
  let d := set_tap d fd (nd_tap_name d) (nd_tap_ufo d) in
  if (p_fd p =? 0) && (fd <? 0) then (false, d, w)
  else
    let fail d w := (false, d, if (0 <=? fd) || (p_fd p =? 0) then snd (sys (Close fd) w) else w) in
    let '(r, d, w) := if negb macvtap then virtio_net_request_tap d (p_tapif p) w else (0, d, w) in
    if r <? 0 then fail d w
    else
      let d := set_tap d fd (nd_tap_name d) true in
      let offload := TUN_F_CSUM .| TUN_F_TSO4 .| TUN_F_TSO6 .| TUN_F_UFO in
      let (a, w) := sys (TunSetOffload fd offload) w in
      if ret a <? 0 then
        let (a, w) := sys (TunSetOffload fd (offload .&~ TUN_F_UFO)) w in
        if ret a <? 0 then fail d w else (true, set_tap d fd (nd_tap_name d) false, w)
      else (true, d, w).

(** *** Features, start and stop *)

Definition get_host_features (d : net_dev) : Z :=
  let bit := fun k => 1 .<< k in
  let f := bit VIRTIO_NET_F_MAC .| bit VIRTIO_NET_F_CSUM .| bit VIRTIO_NET_F_HOST_TSO4 .| bit VIRTIO_NET_F_HOST_TSO6
    .| bit VIRTIO_NET_F_GUEST_TSO4 .| bit VIRTIO_NET_F_GUEST_TSO6 .| bit VIRTIO_RING_F_EVENT_IDX .| bit VIRTIO_RING_F_INDIRECT_DESC
    .| bit VIRTIO_NET_F_CTRL_VQ .| bit VIRTIO_NET_F_MRG_RXBUF .| bit (if 1 <? nd_pairs d then VIRTIO_NET_F_MQ else 0) in
  if nd_tap_ufo d then f .| (bit VIRTIO_NET_F_HOST_UFO .| bit VIRTIO_NET_F_GUEST_UFO) else f.

Definition virtio_net__vhost_set_features (d : net_dev) (w : os) : may_die (Z * os) :=
  let f := 1 .<< VIRTIO_RING_F_EVENT_IDX in
  let (a, w) := sys (VhostGetFeatures (nd_vhost_fd d)) w in
  if negb (ret a =? 0) then Died
  else
    let f := if (flag (value a) (1 .<< VIRTIO_NET_F_MRG_RXBUF) && nd_has_feature d VIRTIO_NET_F_MRG_RXBUF)%bool
             then f .| (1 .<< VIRTIO_NET_F_MRG_RXBUF) else f in
    let (a, w) := sys (VhostSetFeatures (nd_vhost_fd d) f) w in Alive (ret a, w).

(** The conversions of the configuration space are the identity. *)
Definition set_guest_features (d : net_dev) (f : Z) : net_dev := set_nfeatures d f.

(** The resolver's configuration, as [uip_init] reads it. *)
Context (aton : list Z -> option Z) (resolv : option (list (list Z * list Z))).

Definition UIP_BUF_NR : nat := 20.

Definition set_hdr_len (u : uip) (n : Z) : uip :=
  let i := ui u in
  with_ui u (mkinfo (buf_head i) (buf_free_nr i) (buf_used_nr i) (guest_mac i) (host_mac i) (guest_ip i) (guest_netmask i) (host_ip i)
    (dns_ip i) (domain_name i) n).

Definition virtio_net_start (d : net_dev) (w : os) : may_die (net_dev * os) :=
  if nd_mode d =? NET_MODE_TAP then
    let (ok, w) := virtio_net__tap_init d w in
    if negb ok then Died
    else if negb (nd_vhost_fd d =? 0) then
      match virtio_net__vhost_set_features d w with
      | Alive (r, w) => if negb (r =? 0) then Died else Alive (d, w)
      | Died => Died
      | Wild => Wild
      end
    else Alive (d, w)
  else
    let u := set_hdr_len (nd_uip d) (if nd_has_feature d VIRTIO_NET_F_MRG_RXBUF then NET_HDR_MRG_SIZE else NET_HDR_SIZE) in
    Alive (set_uip d (uip_init aton resolv UIP_BUF_NR u), w).

(** [NoFuel] when [uip_exit] waits for ever. *)
Definition virtio_net_stop (d : net_dev) (w : os) : out (net_dev * os) :=
  if nd_mode d =? NET_MODE_TAP then Ret (d, virtio_net__tap_exit d w)
  else let! u := uip_exit (nd_uip d) in Ret (set_uip d u, w).

Definition notify_status (d : net_dev) (status : Z) (w : os) : may_die (out (net_dev * os)) :=
  if flag status VIRTIO__STATUS_START then
    match virtio_net_start d w with Alive (d, w) => Alive (Ret (d, w)) | Died => Died | Wild => Wild end
  else if flag status VIRTIO__STATUS_STOP then Alive (virtio_net_stop d w)
  else Alive (Ret (d, w)).

(** *** Queues *)

Definition is_ctrl_vq (d : net_dev) (vq : Z) : bool := vq =? u32 (nd_pairs d * 2).

Definition put_queue (d : net_dev) (i : Z) (q : net_dev_queue) : net_dev := set_queues d (<[Z.to_nat i := q]> (nd_queues d)).

(** [&ndev->queues[vq]]: past the array nothing is defined. *)
Definition get_queue (d : net_dev) (vq : Z) : out net_dev_queue :=
  match nd_queues d !! Z.to_nat vq with Some q => Ret q | None => Ub end.

(** The thread that serves queue [vq]. *)
Definition queue_thread (d : net_dev) (vq : Z) : thread_kind :=
  if is_ctrl_vq d vq then CtrlThread else if Z.odd vq then TxThread else RxThread.

(** The calls that hand a ring over to vhost; each failure ends the process. *)
Fixpoint all_or_die (l : list os_call) (w : os) : may_die os :=
  match l with
  | [] => Alive w
  | c :: l => let (a, w) := sys c w in if ret a <? 0 then Died else all_or_die l w
  end.

Definition VIRTIO_ENDIAN_HOST : Z := 1.

Context (kvm : kvm_mem) (vring_init : Z -> Z -> Z -> vring).

Definition init_vq (d : net_dev) (vq page_size align pfn : Z) (w : os) : out (may_die (Z * net_dev * os)) :=
  let! q := get_queue d vq in
  let old := nq_vq q in
  let queue := mkvq (vring_init VIRTIO_NET_QUEUE_SIZE (virtio_get_vq kvm pfn page_size) align) pfn
    (last_avail_idx old) (last_used_signalled old) (vq_endian old) (use_event_idx old) (enabled old) in
  let queue := virtio_init_device_vq (nd_vdev d) queue in
  let started := mknq queue (Some (queue_thread d vq)) (nq_gsi q) (nq_irqfd q) in
  if is_ctrl_vq d vq then Ret (Alive (0, put_queue d vq started, w))
  else if nd_vhost_fd d =? 0 then Ret (Alive (0, put_queue d vq started, w))
  else
    let d := put_queue d vq (mknq queue (nq_thread q) (nq_gsi q) (nq_irqfd q)) in
    let fd := nd_vhost_fd d in let vr := vq_vring queue in
    if negb (vq_endian queue =? VIRTIO_ENDIAN_HOST) then Ret Died
    else match all_or_die [VringNum fd vq (num vr); VringBase fd vq 0; VringAddr fd vq (desc vr) (avail vr) (used vr)] w with
    | Alive w => Ret (Alive (0, d, w))
    | Died => Ret Died
    | Wild => Ret Wild
    end.

(** Cancelling and joining the thread of the queue. *)
Definition exit_vq (d : net_dev) (vq : Z) (w : os) : out (net_dev * os) :=
  let! q := get_queue d vq in
  let '(q, w) :=
    if (negb (is_ctrl_vq d vq) && negb (nq_gsi q =? 0))%bool then
      let (_, w) := sys (DelIrqfd (nq_gsi q) (nq_irqfd q)) w in
      let (_, w) := sys (Close (nq_irqfd q)) w in
      (mknq (nq_vq q) (nq_thread q) 0 0, w)
    else (q, w) in
  if (negb (nd_vhost_fd d =? 0) && negb (is_ctrl_vq d vq))%bool then
    Ret (put_queue d vq q, snd (sys (VhostResetOwner (nd_vhost_fd d)) w))
  else Ret (put_queue d vq (mknq (nq_vq q) None (nq_gsi q) (nq_irqfd q)), w).

Definition notify_vq_gsi (d : net_dev) (vq gsi : Z) (w : os) : out (may_die (net_dev * os)) :=
  if nd_vhost_fd d =? 0 then Ret (Alive (d, w))
  else
    let! q := get_queue d vq in
    let (e, w) := sys Eventfd w in
    let (a, w) := sys (AddIrqfd gsi (ret e)) w in
    if ret a <? 0 then Ret Died
    else
      let d := put_queue d vq (mknq (nq_vq q) (nq_thread q) gsi (ret e)) in
      let (a, w) := sys (VringCall (nd_vhost_fd d) vq (ret e)) w in
      if ret a <? 0 then Ret Died
      else
        let (a, w) := sys (SetBackend (nd_vhost_fd d) vq (nd_tap_fd d)) w in
        if negb (ret a =? 0) then Ret Died else Ret (Alive (d, w)).

Definition notify_vq_eventfd (d : net_dev) (vq efd : Z) (w : os) : may_die os :=
  if ((nd_vhost_fd d =? 0) || is_ctrl_vq d vq)%bool then Alive w
  else let (a, w) := sys (VringKick (nd_vhost_fd d) vq efd) w in if ret a <? 0 then Died else Alive w.

(** Which queue's thread [notify_vq] wakes. *)
Definition virtio_net_handle_callback (d : net_dev) (queue : Z) : option Z :=
  if u32 (nd_pairs d * 2 + 1) <=? u32 queue then None else Some queue.
Definition notify_vq (d : net_dev) (vq : Z) : option Z := virtio_net_handle_callback d vq.

Definition get_vq (d : net_dev) (vq : Z) : out virt_queue := let! q := get_queue d vq in Ret (nq_vq q).
Definition get_size_vq : Z := VIRTIO_NET_QUEUE_SIZE.
Definition set_size_vq (size : Z) : Z := size.
Definition get_vq_count (d : net_dev) : Z := u32 (nd_pairs d * 2 + 1).

(** *** vhost *)

Definition virtio_net__vhost_init (d : net_dev) (w : os) : may_die (net_dev * os) :=
  let (a, w) := sys (Open "/dev/vhost-net") w in
  let fd := ret a in
  if fd <? 0 then Died
  else
    let regions := map (fun b => (guest_phys_addr b, size b, host_addr b)) (mem_banks kvm) in
    let (a, w) := sys (VhostSetOwner fd) w in
    if negb (ret a =? 0) then Died
    else
      let (a, w) := sys (VhostSetMemTable fd regions) w in
      if negb (ret a =? 0) then Died
      else
        let v := nd_vdev d in
        Alive (set_vhost d fd (mkvdev true (vdev_endian v) (Virtqueue.features v) (Virtqueue.status v)), w).

(** *** Creation *)

Definition ntohl (x : Z) : Z := htonl x.

Inductive virtio_trans := VIRTIO_PCI | VIRTIO_MMIO.

Definition choose_trans (t : option string) : virtio_trans :=
  match t with
  | Some s => if (s =? "mmio")%string then VIRTIO_MMIO else if (s =? "pci")%string then VIRTIO_PCI else VIRTIO_PCI
  | None => VIRTIO_PCI
  end.

Definition zero_queue : net_dev_queue := mknq zero_vq None 0 0.

(** An allocation of zeros. *)
Definition zero_uip : uip :=
  let i := mkinfo [] 0 0 zero_mac zero_mac 0 0 0 [0; 0; 0] None 0 in mkuip i (mkst i [] 0 [] false []) (mkts i ∅ [] false []).

Definition new_dev (k : Z) (p : virtio_net_params) : net_dev :=
  let pairs := Z.max 1 (Z.min VIRTIO_NET_NUM_QUEUES (p_mq p)) in
  let i := mkinfo [] 0 0 (p_guest_mac p) (p_host_mac p) 0 0 0 [0; 0; 0] None 0 in
  mknd k p (mkvdev false 0 0 0) (repeat zero_queue (Z.to_nat (VIRTIO_NET_NUM_QUEUES * 2 + 1)))
    (p_guest_mac p) VIRTIO_NET_S_LINK_UP (if 1 <? pairs then pairs else 0) 0 pairs 0 0 "" false (p_mode p) (with_ui zero_uip i).

Definition virtio_net__init_one (k : Z) (p : virtio_net_params) (w : os) : may_die (net_dev * virtio_trans * os) :=
  let d := new_dev k p in
  let vhost d w :=
    if negb (p_vhost p =? 0) then
      match virtio_net__vhost_init d w with Alive (d, w) => Alive (d, choose_trans (p_trans p), w) | Died => Died | Wild => Wild end
    else Alive (d, choose_trans (p_trans p), w) in
  if nd_mode d =? NET_MODE_TAP then
    let '(ok, d, w) := virtio_net__tap_create d w in
    if negb ok then Died else vhost d w
  else
    let i := ui (nd_uip d) in
    let i := mkinfo (buf_head i) (buf_free_nr i) (buf_used_nr i) (guest_mac i) (host_mac i)
      (ntohl (inet_addr (p_guest_ip p))) (ntohl (inet_addr "255.255.255.0")) (ntohl (inet_addr (p_host_ip p))) (dns_ip i) (domain_name i) (vnet_hdr_len i) in
    vhost (set_uip d (uip_static_init (with_ui (nd_uip d) i))) w.

(** The devices are added at the end of [ndevs]. *)
Fixpoint init_all (k : Z) (l : list virtio_net_params) (ndevs : list net_dev) (w : os) : may_die (list net_dev * os) :=
  match l with
  | [] => Alive (ndevs, w)
  | p :: l =>
      match virtio_net__init_one k p w with
      | Alive (d, _, w) => init_all k l (ndevs ++ [d]) w
      | Died => Died
      | Wild => Wild
      end
  end.

(** The addresses and the script of the whole machine's configuration. *)
Record machine_config := mkmc { mc_guest_ip : string; mc_host_ip : string; mc_guest_mac : string; mc_host_mac : string; mc_script : string }.

Definition virtio_net__init (k : Z) (cfg : net_config) (mc : machine_config) (w : os) : may_die (list net_dev * os) :=
  let l := firstn (Z.to_nat (num_net_devices cfg)) (net_params cfg) in
  let l := if ((num_net_devices cfg =? 0) && negb (no_net cfg))%bool then
             [mknp (mc_guest_ip mc) (mc_host_ip mc) (mc_script mc) "" None None (str_to_mac (mc_guest_mac mc) zero_mac)
                (str_to_mac (mc_host_mac mc) zero_mac) NET_MODE_USER 0 0 0]
           else l in
  init_all k l [] w.

(** *** Fork *)

Definition virtio_net__pre_copy (fork_mac_counter : Z) : Z := fork_mac_counter + 1.

Definition tap_name (n : nat) : string := "tap" +:+ pretty (N.of_nat n).

(** Trying the names from [tap_idx] on; the result is -1 or the index that was free. *)
Fixpoint try_taps (fuel : nat) (tap_idx : nat) (d : net_dev) (w : os) : Z * net_dev * os :=
  match fuel with
  | O => (Z.of_nat tap_idx, d, w)
  | S fuel =>
      let d := set_params_of d (params_set_tapif (nd_params d) (tap_name tap_idx)) in
      let '(ok, d, w) := virtio_net__tap_create d w in
      if ok then (Z.of_nat tap_idx, d, w)
      else if negb (errno w =? EBUSY) then (-1, d, w)
      else try_taps fuel (S tap_idx) d w
  end.

Definition fork_mac (fork_mac_counter : Z) : list Z := [2; 21; 21; 21; 21; u8 (2 + fork_mac_counter)].

(** A new TAP interface for the child: 0, or -1 for a failure. *)
Definition restore_tap (fork_mac_counter : Z) (d : net_dev) (w : os) : may_die (Z * net_dev * os) :=
  let w := if 0 <=? nd_tap_fd d then snd (sys (Close (nd_tap_fd d)) w) else w in
  let d := set_tap d (-1) (nd_tap_name d) (nd_tap_ufo d) in
  let w := if 0 <? nd_vhost_fd d then snd (sys (Close (nd_vhost_fd d)) w) else w in
  let d := set_vhost d 0 (nd_vdev d) in
  let '(r, d, w) := try_taps 63 1 d w in
  if (r <? 0) || (r =? 64) then Alive (-1, d, w)
  else
    let d := set_mac d (fork_mac fork_mac_counter) in
    let (ok, w) := virtio_net__tap_init d w in
    if negb ok then Alive (-1, d, w)
    else if negb (p_vhost (nd_params d) =? 0) then
      match virtio_net__vhost_init d w with Alive (d, w) => Alive (0, d, w) | Died => Died | Wild => Wild end
    else Alive (0, d, w).

(** New locks and a new thread for each queue from [i] on. *)
Fixpoint restart_queues (d : net_dev) (i : Z) (qs : list net_dev_queue) : list net_dev_queue :=
  match qs with
  | [] => []
  | q :: qs =>
      let th := if is_ctrl_vq d i || (nd_vhost_fd d =? 0) then Some (queue_thread d i) else nq_thread q in
      (if i <? nd_pairs d * 2 + 1 then mknq (nq_vq q) th (nq_gsi q) (nq_irqfd q) else q) :: restart_queues d (i + 1) qs
  end.

Fixpoint set_backends (fd tap : Z) (i : Z) (n : nat) (w : os) : Z * os :=
  match n with
  | O => (0, w)
  | S n => let (a, w) := sys (SetBackend fd i tap) w in if negb (ret a =? 0) then (-1, w) else set_backends fd tap (i + 1) n w
  end.

(** In the child the old threads are gone. *)
Definition threads_gone (d : net_dev) : net_dev :=
  set_queues d ((fun q => mknq (nq_vq q) None (nq_gsi q) (nq_irqfd q)) <$> nd_queues d).

Definition post_copy_one (k fork_mac_counter : Z) (d : net_dev) (w : os) : may_die (Z * net_dev * os) :=
  let d := set_kvm d k in
  match (if nd_mode d =? NET_MODE_TAP then restore_tap fork_mac_counter d w else Alive (0, d, w)) with
  | Alive (r, d, w) =>
      if r <? 0 then Alive (-1, d, w)
      else
        let d := set_queues d (restart_queues d 0 (nd_queues d)) in
        if negb (nd_vhost_fd d =? 0) then
          let (r, w) := set_backends (nd_vhost_fd d) (nd_tap_fd d) 0 (Z.to_nat (nd_pairs d * 2)) w in Alive (r, d, w)
        else Alive (0, d, w)
  | Died => Died
  | Wild => Wild
  end.

(** The hook stops at the first device that fails. *)
Fixpoint virtio_net__post_copy (k fork_mac_counter : Z) (ndevs : list net_dev) (w : os) : may_die (Z * list net_dev * os) :=
  match ndevs with
  | [] => Alive (0, [], w)
  | d :: ds =>
      match post_copy_one k fork_mac_counter d w with
      | Alive (r, d, w) =>
          if r <? 0 then Alive (-1, d :: ds, w)
          else match virtio_net__post_copy k fork_mac_counter ds w with
               | Alive (r, ds, w) => Alive (r, d :: ds, w)
               | Died => Died
               | Wild => Wild
               end
      | Died => Died
      | Wild => Wild
      end
  end.

Fixpoint virtio_net__exit (ndevs : list net_dev) (w : os) : os :=
  match ndevs with
  | [] => w
  | d :: ds =>
      let ds_of := p_downscript (nd_params d) in
      let w := if (nd_mode d =? NET_MODE_TAP) && negb (ds_of =? "none")%string
               then snd (virtio_net_exec_script ds_of (nd_tap_name d) w) else w in
      virtio_net__exit ds w
  end.
End host.

(** ** The operations of the device as steps *)

Section steps.
Context (inet_addr : string -> Z) (aton : list Z -> option Z) (resolv : option (list (list Z * list Z))).
Context (kvm : kvm_mem) (vring_init : Z -> Z -> Z -> vring).

(** Everything that the transport, the threads and the fork hooks do to a device. *)
Inductive net_step : net_dev * os -> net_dev * os -> Prop :=
| step_features d w f : net_step (d, w) (set_guest_features d f, w)
| step_status d w s d' w' : notify_status inet_addr aton resolv d s w = Alive (Ret (d', w')) -> net_step (d, w) (d', w')
| step_init d w vq ps al pf r d' w' : 0 <= vq ->
    init_vq kvm vring_init d vq ps al pf w = Ret (Alive (r, d', w')) -> net_step (d, w) (d', w')
| step_exit d w vq d' w' : 0 <= vq -> exit_vq d vq w = Ret (d', w') -> net_step (d, w) (d', w')
| step_gsi d w vq gsi d' w' : 0 <= vq -> notify_vq_gsi d vq gsi w = Ret (Alive (d', w')) -> net_step (d, w) (d', w')
| step_eventfd d w vq efd w' : notify_vq_eventfd d vq efd w = Alive w' -> net_step (d, w) (d, w')
| step_queue d w vq q vq' : 0 <= vq -> get_queue d vq = Ret q ->
    net_step (d, w) (put_queue d vq (mknq vq' (nq_thread q) (nq_gsi q) (nq_irqfd q)), w)
| step_uip d w u : net_step (d, w) (set_uip d u, w)
| step_fork d w k c r d' w' : post_copy_one inet_addr kvm k c (threads_gone d) w = Alive (r, d', w') -> net_step (d, w) (d', w').

(** *** What every reachable device satisfies *)

Record net_ok (d : net_dev) : Prop := {
  no_pairs : 1 <= nd_pairs d <= VIRTIO_NET_NUM_QUEUES;
  no_queues : length (nd_queues d) = Z.to_nat (VIRTIO_NET_NUM_QUEUES * 2 + 1);
  no_mac : mac_ok (nd_mac d);
  no_max : nd_max_pairs d = if 1 <? nd_pairs d then nd_pairs d else 0;
  no_threads : forall i q th, 0 <= i -> get_queue d i = Ret q -> nq_thread q = Some th -> th = queue_thread d i;
}.

(** The parts that [net_ok] speaks of, apart from the queues. *)
Definition same_shape (d d' : net_dev) : Prop :=
  nd_pairs d' = nd_pairs d /\ nd_max_pairs d' = nd_max_pairs d /\ (mac_ok (nd_mac d) -> mac_ok (nd_mac d')).

#[export] Instance same_shape_preorder : PreOrder same_shape.
Proof. split; [intros d; done |]. intros a b c (A & B & C) (D & E & F). split; [congruence |]. split; [congruence |]. auto. Qed.

Lemma same_queue_thread d d' i : nd_pairs d' = nd_pairs d -> queue_thread d' i = queue_thread d i.
Proof. unfold queue_thread, is_ctrl_vq. by intros ->. Qed.

Lemma net_ok_same d d' : same_shape d d' -> nd_queues d' = nd_queues d -> net_ok d -> net_ok d'.
Proof.
  intros (P & M & A) Q [H1 H2 H3 H4 H5]. split; rewrite ?P, ?M, ?Q; auto.
  intros i q th Hi. unfold get_queue. rewrite Q, (same_queue_thread d) by done. apply (H5 i q th Hi).
Qed.

Lemma net_ok_put d vq q : 0 <= vq -> (forall th, nq_thread q = Some th -> th = queue_thread d vq) -> net_ok d ->
  net_ok (put_queue d vq q).
Proof.
  intros Hv Hq [H1 H2 H3 H4 H5]. split; [exact H1 | cbn; by rewrite length_insert | exact H3 | exact H4 |].
  intros i q' th Hi. rewrite (same_queue_thread d) by done. unfold get_queue, put_queue. cbn.
  destruct (decide (Z.to_nat vq = Z.to_nat i)) as [E | NE].
  - assert (i = vq) as -> by lia. destruct (decide (Z.to_nat vq < length (nd_queues d))%nat) as [L | L].
    + rewrite list_lookup_insert_eq by done. intros [= <-]. apply Hq.
    + rewrite list_insert_ge by lia. apply (H5 vq q' th Hv).
  - rewrite list_lookup_insert_ne by done. apply (H5 i q' th Hi).
Qed.

Lemma tap_create_sets d w ok d' w' : virtio_net__tap_create d w = (ok, d', w') -> exists fd nm ufo, d' = set_tap d fd nm ufo.
Proof.
  unfold virtio_net__tap_create. generalize (nd_params d). intros p.
  assert (forall fd nm u fd' nm' u', set_tap (set_tap d fd nm u) fd' nm' u' = set_tap d fd' nm' u') as SS by done.
  repeat (case_match; simplify_eq/=); intros; simplify_eq/=; unfold virtio_net_request_tap in *;
    repeat (case_match; simplify_eq/=); rewrite ?SS; eauto.
Qed.

(** The parts that a new TAP interface leaves alone. *)
Lemma try_taps_shape fuel : forall i d w r d' w', try_taps fuel i d w = (r, d', w') ->
  same_shape d d' /\ nd_queues d' = nd_queues d /\ nd_vdev d' = nd_vdev d /\ nd_vhost_fd d' = nd_vhost_fd d /\
  p_vhost (nd_params d') = p_vhost (nd_params d).
Proof.
  induction fuel as [| fuel IH]; intros i d w r d' w' E; cbn [try_taps] in E; [simplify_eq; done |].
  destruct (virtio_net__tap_create _ w) as [[ok d1] w1] eqn:T. apply tap_create_sets in T as (fd & nm & ufo & ->).
  assert (forall s, p_vhost (params_set_tapif (nd_params d) s) = p_vhost (nd_params d)) as V by (intros; by destruct (nd_params d)).
  destruct ok; [simplify_eq; repeat (split; [done |]); apply V |].
  destruct (negb _); [simplify_eq; repeat (split; [done |]); apply V |].
  apply IH in E as (A & B & C & D & F). split; [exact A |]. split; [exact B |]. split; [exact C |]. split; [exact D |].
  rewrite F. apply V.
Qed.

Lemma vhost_init_shape d w d' w' : virtio_net__vhost_init kvm d w = Alive (d', w') ->
  same_shape d d' /\ nd_queues d' = nd_queues d.
Proof. unfold virtio_net__vhost_init. repeat case_match; intros; simplify_eq; done. Qed.

Lemma fork_mac_ok c : mac_ok (fork_mac c).
Proof. split; [done |]. unfold fork_mac. do 5 (constructor; [unfold fits; lia |]). constructor; [apply wrap_fits; lia | constructor]. Qed.

Lemma restore_tap_shape c d w r d' w' : restore_tap inet_addr kvm c d w = Alive (r, d', w') ->
  same_shape d d' /\ nd_queues d' = nd_queues d.
Proof.
  unfold restore_tap. generalize (if 0 <=? nd_tap_fd d then snd (sys (Close (nd_tap_fd d)) w) else w). intros w1.
  cbn zeta. generalize (if 0 <? nd_vhost_fd (set_tap d (-1) (nd_tap_name d) (nd_tap_ufo d)) then
    snd (sys (Close (nd_vhost_fd (set_tap d (-1) (nd_tap_name d) (nd_tap_ufo d)))) w1) else w1). intros w2.
  destruct (try_taps _ _ _ _) as [[r0 d0] w0] eqn:T. apply try_taps_shape in T as (A & B & _).
  change (same_shape d d0) in A. change (nd_queues d0 = nd_queues d) in B.
  assert (same_shape d (set_mac d0 (fork_mac c)) /\ nd_queues (set_mac d0 (fork_mac c)) = nd_queues d) as [C D].
  { destruct A as (A1 & A2 & A3). split; [| exact B]. split; [exact A1 |]. split; [exact A2 |]. intros _. apply fork_mac_ok. }
  destruct (_ || _); [by intros; simplify_eq |]. destruct (virtio_net__tap_init _ _ _) as [ok w3].
  destruct (negb ok); [by intros; simplify_eq |]. destruct (negb _); [| by intros; simplify_eq].
  destruct (virtio_net__vhost_init _ _ _) as [[d4 w4] | |] eqn:V; [| done | done]. intros; simplify_eq.
  apply vhost_init_shape in V as [E F]. split; [by transitivity (set_mac d0 (fork_mac c)) | congruence].
Qed.

Lemma restart_queues_lookup d qs : forall i n, restart_queues d i qs !! n =
  (fun q => if i + Z.of_nat n <? nd_pairs d * 2 + 1
            then mknq (nq_vq q) (if is_ctrl_vq d (i + Z.of_nat n) || (nd_vhost_fd d =? 0) then Some (queue_thread d (i + Z.of_nat n)) else nq_thread q)
                   (nq_gsi q) (nq_irqfd q)
            else q) <$> qs !! n.
Proof.
  induction qs as [| q qs IH]; intros i n; [done |]. cbn [restart_queues]. destruct n as [| n]; [cbn; by rewrite Z.add_0_r |].
  rewrite !lookup_cons, IH. by replace (i + 1 + Z.of_nat n) with (i + Z.of_nat (S n)) by lia.
Qed.

Lemma restart_queues_length d qs i : length (restart_queues d i qs) = length qs.
Proof. revert i. induction qs; intros; simpl; auto. Qed.

Lemma threads_gone_ok d : net_ok d -> net_ok (threads_gone d).
Proof.
  intros [H1 H2 H3 H4 H5]. split; [exact H1 | cbn; by rewrite length_fmap | exact H3 | exact H4 |].
  intros i q th Hi. unfold get_queue, threads_gone. cbn. rewrite list_lookup_fmap.
  destruct (nd_queues d !! _); [| done]. intros [= <-]. done.
Qed.

Lemma restart_ok d : net_ok d -> net_ok (set_queues d (restart_queues d 0 (nd_queues d))).
Proof.
  intros [H1 H2 H3 H4 H5]. split; [exact H1 | cbn; by rewrite restart_queues_length | exact H3 | exact H4 |].
  intros i q th Hi. rewrite (same_queue_thread d) by done. unfold get_queue. cbn. rewrite restart_queues_lookup, Z.add_0_l, Z2Nat.id by done.
  specialize (H5 i). unfold get_queue in H5. destruct (nd_queues d !! Z.to_nat i) as [q0 |]; [| done].
  intros [= <-]. specialize (H5 q0 th Hi eq_refl). destruct (i <? _); [| exact H5]. simpl.
    destruct (_ || _); [| exact H5]. by intros [= <-].
Qed.

Lemma post_copy_ok k c d w r d' w' : post_copy_one inet_addr kvm k c d w = Alive (r, d', w') -> net_ok d -> net_ok d'.
Proof.
  unfold post_copy_one. intros E Hd. assert (net_ok (set_kvm d k)) as Hk by (apply (net_ok_same d); done).
  destruct (if nd_mode (set_kvm d k) =? NET_MODE_TAP then _ else _) as [[[r1 d1] w1] | |] eqn:R; [| done | done].
  assert (net_ok d1) as H1.
  { destruct (nd_mode _ =? _); [| by simplify_eq]. apply restore_tap_shape in R as [A B]. by apply (net_ok_same _ _ A B). }
  destruct (r1 <? 0); [by simplify_eq |]. apply restart_ok in H1.
  destruct (negb _); [| by simplify_eq]. destruct (set_backends _ _ _ _ _). by simplify_eq.
Qed.

Lemma status_shape d s w d' w' : notify_status inet_addr aton resolv d s w = Alive (Ret (d', w')) ->
  same_shape d d' /\ nd_queues d' = nd_queues d.
Proof.
  unfold notify_status. case_match.
  - unfold virtio_net_start. repeat case_match; intros; simplify_eq; done.
  - case_match; [| by intros; simplify_eq]. unfold virtio_net_stop. case_match; [by intros; simplify_eq |].
    destruct (uip_exit (nd_uip d)); intros; simplify_eq/=; done.
Qed.

Lemma net_step_ok d w d' w' : net_step (d, w) (d', w') -> net_ok d -> net_ok d'.
Proof.
  intros St Hd. inversion St; subst; clear St.
  - by apply (net_ok_same d).
  - apply status_shape in H0 as [A B]. by apply (net_ok_same d).
  - unfold init_vq in H4. destruct (get_queue d vq) as [q | |] eqn:G; simplify_eq/=.
    repeat (case_match; simplify_eq/=); apply net_ok_put; try done; simpl; intros th E;
      try (by injection E as <-); by apply (no_threads d Hd vq q).
  - unfold exit_vq in H4. destruct (get_queue d vq) as [q | |] eqn:G; simplify_eq/=.
    repeat (case_match; simplify_eq/=); apply net_ok_put; try done; simpl; intros th E; simplify_eq/=;
      (eapply (no_threads d Hd vq); [done | exact G | exact E]).
  - unfold notify_vq_gsi in H4. case_match; [by simplify_eq |]. destruct (get_queue d vq) as [q | |] eqn:G; simplify_eq/=.
    repeat (case_match; simplify_eq/=); apply net_ok_put; try done; simpl; intros th E; by apply (no_threads d Hd vq q).
  - done.
  - apply net_ok_put; try done. simpl. intros th E. by apply (no_threads d Hd vq q).
  - by apply (net_ok_same d).
  - by eapply post_copy_ok, threads_gone_ok.
Qed.

Lemma new_dev_ok k p : mac_ok (p_guest_mac p) -> net_ok (new_dev k p).
Proof.
  intros Hm. split; [cbn; unfold VIRTIO_NET_NUM_QUEUES; lia | reflexivity | exact Hm | reflexivity |].
  intros i q th Hi. unfold get_queue. cbn. destruct (repeat _ _ !! _) eqn:E; [| done].
  apply list_elem_of_lookup_2, list_elem_of_In, repeat_spec in E as ->. by intros [= <-].
Qed.

Lemma init_one_ok k p w d t w' : mac_ok (p_guest_mac p) -> virtio_net__init_one inet_addr kvm k p w = Alive (d, t, w') -> net_ok d.
Proof.
  intros Hm. unfold virtio_net__init_one. pose proof (new_dev_ok k p Hm) as H0. revert H0. generalize (new_dev k p). intros d0 H0.
  assert (forall d1 w1 d2 t2 w2,
    (if negb (p_vhost p =? 0) then
       match virtio_net__vhost_init kvm d1 w1 with Alive (d, w) => Alive (d, choose_trans (p_trans p), w) | Died => Died | Wild => Wild end
     else Alive (d1, choose_trans (p_trans p), w1)) = Alive (d2, t2, w2) -> net_ok d1 -> net_ok d2) as V.
  { intros d1 w1 d2 t2 w2 E H. destruct (negb _); [| by simplify_eq].
    destruct (virtio_net__vhost_init _ _ _) as [[d3 w3] | |] eqn:Hv; simplify_eq.
    apply vhost_init_shape in Hv as [A B]. by apply (net_ok_same _ _ A B). }
  destruct (nd_mode d0 =? NET_MODE_TAP).
  - destruct (virtio_net__tap_create d0 w) as [[ok d1] w1] eqn:T. apply tap_create_sets in T as (fd & nm & ufo & ->).
    destruct (negb ok); [done |]. intros E. apply (V _ _ _ _ _ E). by apply (net_ok_same d0).
  - intros E. apply (V _ _ _ _ _ E). by apply (net_ok_same d0).
Qed.

End steps.

(** ** A device in the child of a fork *)

Section fork.
Context (inet_addr : string -> Z) (kvm : kvm_mem).

(** A host on which the interfaces [tap1] to [tap(i-1)] are taken and [tap i] is free. *)
Record tap_host (kern : list os_call -> os_call -> answer) (i : nat) : Prop := {
  th_open : forall t p, 0 <= ret (kern t (Open p));
  th_socket : forall t, 0 <= ret (kern t Socket);
  th_close : forall t fd, 0 <= ret (kern t (Close fd));
  th_busy : forall t fd j, (1 <= j < i)%nat -> ret (kern t (TunSetIff fd (Some (tap_name j)))) < 0 /\ err (kern t (TunSetIff fd (Some (tap_name j)))) = EBUSY;
  th_free : forall t fd, 0 <= ret (kern t (TunSetIff fd (Some (tap_name i)))) /\ name (kern t (TunSetIff fd (Some (tap_name i)))) = tap_name i;
  th_offload : forall t fd f, 0 <= ret (kern t (TunSetOffload fd f));
}.

Lemma tap_name_short j : (j < 64)%nat -> strlcpy (tap_name j) IFNAMSIZ = tap_name j /\ (String "t" (String "a" (String "p" (pretty (N.of_nat j)))) = tap_name j).
Proof. intros H. split; [| done]. do 64 (destruct j as [| j]; [reflexivity |]). lia. Qed.

Lemma create_plain d w j : p_fd (nd_params d) = 0 -> p_tapif (nd_params d) = Some (tap_name j) ->
  virtio_net__tap_create d w =
  let (a, w) := sys (Open "/dev/net/tun") w in
  let d := set_tap d (ret a) (nd_tap_name d) (nd_tap_ufo d) in
  if ret a <? 0 then (false, d, w)
  else
    let '(r, d, w) := virtio_net_request_tap d (Some (tap_name j)) w in
    if r <? 0 then (false, d, snd (sys (Close (ret a)) w))
    else
      let d := set_tap d (ret a) (nd_tap_name d) true in
      let offload := TUN_F_CSUM .| TUN_F_TSO4 .| TUN_F_TSO6 .| TUN_F_UFO in
      let (b, w) := sys (TunSetOffload (ret a) offload) w in
      if ret b <? 0 then
        let (b, w) := sys (TunSetOffload (ret a) (offload .&~ TUN_F_UFO)) w in
        if ret b <? 0 then (false, d, snd (sys (Close (ret a)) w)) else (true, set_tap d (ret a) (nd_tap_name d) false, w)
      else (true, d, w).
Proof.
  intros F T. assert (exists t, tap_name j = String "t" t) as [t E] by (by eexists).
  rewrite E in *. unfold virtio_net__tap_create. rewrite F, T. cbn -[sys virtio_net_request_tap].
  destruct (sys (Open "/dev/net/tun") w) as [a w1]. case_match; [done |].
  destruct (virtio_net_request_tap _ _ _) as [[r d1] w2]. rewrite orb_true_r. done.
Qed.

Lemma nonneg_ltb x : 0 <= x -> (x <? 0) = false.
Proof. apply Z.ltb_ge. Qed.

Lemma create_busy d w i j : tap_host (kernel w) i -> p_fd (nd_params d) = 0 -> p_tapif (nd_params d) = Some (tap_name j) ->
  (1 <= j < i)%nat -> (i < 64)%nat -> exists fd w', virtio_net__tap_create d w = (false, set_tap d fd (nd_tap_name d) (nd_tap_ufo d), w') /\
  kernel w' = kernel w /\ errno w' = EBUSY.
Proof.
  intros [HO HS HC HB HF HT] F T Hj Hi. rewrite (create_plain d w j F T). unfold virtio_net_request_tap.
  destruct (tap_name_short j) as [-> _]; [lia |]. unfold sys. cbn [kernel trace fst snd ret err nd_tap_fd set_tap].
  rewrite !(nonneg_ltb _ (HO _ _)). cbn [kernel trace].
  destruct (HB (trace w ++ [Open "/dev/net/tun"]) (ret (kernel w (trace w) (Open "/dev/net/tun"))) j Hj) as [B E].
  rewrite (proj2 (Z.ltb_lt _ _) B), E. cbn [kernel trace errno].
  rewrite (nonneg_ltb _ (HC _ _)). eexists _, _. split; [reflexivity |]. done.
Qed.

Lemma create_free d w i : tap_host (kernel w) i -> p_fd (nd_params d) = 0 -> p_tapif (nd_params d) = Some (tap_name i) ->
  (i < 64)%nat -> exists fd w', virtio_net__tap_create d w = (true, set_tap d fd (tap_name i) true, w') /\
  kernel w' = kernel w /\ 0 <= fd.
Proof.
  intros [HO HS HC HB HF HT] F T Hi. rewrite (create_plain d w i F T). unfold virtio_net_request_tap.
  destruct (tap_name_short i) as [S _]; [lia |]. rewrite S. unfold sys. cbn [kernel trace fst snd ret err nd_tap_fd set_tap].
  rewrite !(nonneg_ltb _ (HO _ _)). cbn [kernel trace].
  destruct (HF (trace w ++ [Open "/dev/net/tun"]) (ret (kernel w (trace w) (Open "/dev/net/tun")))) as [B E].
  rewrite (nonneg_ltb _ B), E, S. cbn [kernel trace errno]. rewrite (nonneg_ltb _ (HT _ _ _)).
  eexists _, _. split; [reflexivity |]. split; [done | apply HO].
Qed.

Lemma try_taps_first i fuel : forall j d w, tap_host (kernel w) i -> p_fd (nd_params d) = 0 -> (1 <= j <= i)%nat -> (i < 64)%nat ->
  (i - j < fuel)%nat -> exists fd w',
  try_taps fuel j d w = (Z.of_nat i, set_tap (set_params_of d (params_set_tapif (nd_params d) (tap_name i))) fd (tap_name i) true, w') /\
  kernel w' = kernel w /\ 0 <= fd.
Proof.
  induction fuel as [| fuel IH]; intros j d w H F Hj Hi Hf; [lia |]. cbn [try_taps].
  assert (forall s, p_fd (params_set_tapif (nd_params d) s) = 0 /\ p_tapif (params_set_tapif (nd_params d) s) = Some s) as P
    by (intros; by destruct (nd_params d)).
  destruct (decide (j = i)) as [-> | NE].
  - destruct (create_free (set_params_of d (params_set_tapif (nd_params d) (tap_name i))) w i H) as (fd & w' & -> & K & L);
      [apply P | apply P | done |]. eauto.
  - destruct (create_busy (set_params_of d (params_set_tapif (nd_params d) (tap_name j))) w i j H) as (fd & w' & -> & K & E);
      [apply P | apply P | lia | done |]. rewrite E. cbn [negb].
    match goal with |- context [try_taps fuel (S j) ?e w'] => destruct (IH (S j) e w') as (fd' & w2 & -> & K2 & L) end;
      [by rewrite K | apply P | lia | done | lia |].
    exists fd', w2. split; [| split; [congruence | done]]. do 2 f_equal. cbn. by destruct (nd_params d).
Qed.

Lemma tap_init_quiet d w : p_script (nd_params d) = "none"%string -> (exists s, p_tapif (nd_params d) = Some s) ->
  exists w', virtio_net__tap_init inet_addr d w = (true, w').
Proof. intros S [s T]. unfold virtio_net__tap_init. rewrite S, T. cbn -[sys]. unfold sys. eauto. Qed.

Lemma vq_count_eq d : net_ok d -> get_vq_count d = nd_pairs d * 2 + 1.
Proof. intros [H _ _ _ _]. unfold VIRTIO_NET_NUM_QUEUES in H. apply wrap_id. unfold fits. lia. Qed.

Lemma net_queue_lookup d vq : net_ok d -> 0 <= vq < get_vq_count d -> exists q, get_queue d vq = Ret q /\ vq < nd_pairs d * 2 + 1.
Proof.
  intros Hd Hv. rewrite vq_count_eq in Hv by done. destruct Hd as [H1 H2 _ _ _]. unfold get_queue.
  unfold VIRTIO_NET_NUM_QUEUES in *. destruct (lookup_lt_is_Some_2 (nd_queues d) (Z.to_nat vq)) as [q ->]; [rewrite H2; lia |].
  exists q. split; [done | lia].
Qed.

(** Restoring the interface: the first free one, opened, with the new address. *)
Lemma restore_tap_ok c d w i : nd_vhost_fd d = 0 -> p_fd (nd_params d) = 0 -> p_vhost (nd_params d) = 0 -> p_script (nd_params d) = "none"%string ->
  tap_host (kernel w) i -> (1 <= i < 64)%nat ->
  exists e w', restore_tap inet_addr kvm c d w = Alive (0, e, w') /\ nd_kvm e = nd_kvm d /\ 0 <= nd_tap_fd e /\ nd_tap_name e = tap_name i /\
    p_tapif (nd_params e) = Some (tap_name i) /\ nd_mac e = fork_mac c /\ guest_mac (ui (nd_uip e)) = fork_mac c /\ p_guest_mac (nd_params e) = fork_mac c /\
    nd_queues e = nd_queues d /\ nd_pairs e = nd_pairs d /\ nd_vhost_fd e = 0.
Proof.
  intros Hv Hf Hp Hs Ht Hi. unfold restore_tap. cbn zeta. match goal with |- context [if 0 <? ?x then _ else _] => replace x with 0 by exact (eq_sym Hv) end.
  change (0 <? 0) with false. cbv iota.
  set (w1 := if 0 <=? _ then _ else w). assert (kernel w1 = kernel w) as K1 by (unfold w1; by case_match).
  set (d1 := set_vhost _ 0 _).
  assert (nd_params d1 = nd_params d /\ nd_kvm d1 = nd_kvm d /\ nd_queues d1 = nd_queues d /\ nd_pairs d1 = nd_pairs d /\ nd_vhost_fd d1 = 0) as (P1 & P2 & P3 & P4 & P5)
    by by split_and!.
  clearbody d1. rewrite <- P1 in Hf, Hp, Hs.
  destruct (try_taps_first i 63 1 d1 w1) as (fd & w2 & -> & K2 & L); [by rewrite K1 | exact Hf | lia | lia | lia |].
  replace (_ || _)%bool with false by lia.
  match goal with |- context [virtio_net__tap_init inet_addr ?e w2] => destruct (tap_init_quiet e w2) as [w3 ->]; [..|set (e1 := e)] end.
  { cbn. by destruct (nd_params d1). }
  { cbn. exists (tap_name i). by destruct (nd_params d1). }
  assert (p_vhost (nd_params e1) = 0) as E1 by (cbn; by destruct (nd_params d1)). exists e1, w3.
  split; [by rewrite E1 |]. split; [exact P2 |]. split; [exact L |]. split; [reflexivity |]. split; [cbn; by destruct (nd_params d1) |].
  split; [reflexivity |]. split; [reflexivity |]. split; [cbn; by destruct (nd_params d1) |]. split; [exact P3 |]. split; [exact P4 | exact P5].
Qed.


(** *** vhost across a fork *)

(** The calls that tell vhost where a ring is and how to signal on it. *)
Definition sets_ring (c : os_call) : bool :=
  match c with
  | VringNum _ _ _ | VringBase _ _ _ | VringAddr _ _ _ _ _ | VringKick _ _ _ | VringCall _ _ _ | VhostSetFeatures _ _ => true
  | _ => false
  end.

(** From one world to a later one, with calls that set no ring. *)
Definition no_ring_set (w w' : os) : Prop := exists t, trace w' = trace w ++ t /\ Forall (fun c => sets_ring c = false) t.

#[export] Instance no_ring_set_preorder : PreOrder no_ring_set.
Proof.
  split.
  - intros w. exists []. by rewrite app_nil_r.
  - intros a b c (t & E & F) (u & E' & F'). exists (t ++ u). split; [by rewrite E', E, app_assoc | by apply Forall_app_2].
Qed.

Lemma sys_no_ring c w : sets_ring c = false -> no_ring_set w (snd (sys c w)).
Proof. intros H. exists [c]. by split; [| constructor]. Qed.

Local Arguments sys : simpl never.

Ltac run_sys :=
  match goal with
  | |- context [sys ?c ?w] =>
      let H := fresh "Q" in pose proof (sys_no_ring c w eq_refl) as H; destruct (sys c w) as [? ?]; cbn [snd] in H; cbv beta iota zeta
  end.
Lemma if_no_ring (b : bool) c w : sets_ring c = false -> no_ring_set w (if b then snd (sys c w) else w).
Proof. destruct b; [apply sys_no_ring | reflexivity]. Qed.

Lemma request_tap_quiet d nm w r d' w' : virtio_net_request_tap d nm w = (r, d', w') -> no_ring_set w w'.
Proof. unfold virtio_net_request_tap. run_sys. intros [= <- <- <-]. done. Qed.

Lemma tap_create_quiet d w ok d' w' : virtio_net__tap_create d w = (ok, d', w') -> no_ring_set w w'.
Proof.
  unfold virtio_net__tap_create. generalize (nd_params d). intros p. cbn zeta.
  set (mv := match p_tapif p with Some (String "/" _) => true | _ => false end).
  destruct (if negb (p_fd p =? 0) then _ else _) as [fd w1] eqn:E1.
  assert (no_ring_set w w1) as Q1 by (revert E1; destruct (negb _); [by intros [= <- <-] | run_sys; by intros [= <- <-]]).
  destruct ((p_fd p =? 0) && (fd <? 0)); [by intros [= <- <- <-] |].
  destruct (if negb mv then _ else _) as [[r d2] w2] eqn:E2.
  assert (no_ring_set w1 w2) as Q2 by (revert E2; destruct (negb mv); [apply request_tap_quiet | by intros [= <- <- <-]]).
  assert (no_ring_set w w2) as Q by (by transitivity w1).
  destruct (r <? 0); [intros [= <- <- <-]; transitivity w2; [done | by apply if_no_ring] |].
  run_sys. destruct (ret a <? 0); [| intros [= <- <- <-]; by transitivity w2].
  run_sys. destruct (ret a0 <? 0); intros [= <- <- <-]; transitivity w2; try done; transitivity o; try done;
    transitivity o0; try done; by apply if_no_ring.
Qed.

Lemma try_taps_quiet fuel : forall i d w r d' w', try_taps fuel i d w = (r, d', w') -> no_ring_set w w'.
Proof.
  induction fuel as [| fuel IH]; intros i d w r d' w' E; cbn [try_taps] in E; [by simplify_eq |].
  destruct (virtio_net__tap_create _ w) as [[ok d1] w1] eqn:T. apply tap_create_quiet in T.
  destruct ok; [by simplify_eq |]. destruct (negb _); [by simplify_eq |]. apply IH in E. by transitivity w1.
Qed.

Lemma tap_init_no_ring d w ok w' : virtio_net__tap_init inet_addr d w = (ok, w') -> no_ring_set w w'.
Proof.
  unfold virtio_net__tap_init. generalize (nd_params d). intros p. cbn zeta.
  run_sys. run_sys. assert (no_ring_set w o0) as Q2 by (by transitivity o).
  set (skip := match p_tapif p with Some _ => true | None => false end).
  destruct (if negb (p_script p =? "none")%string then _ else _) as [ok1 w1] eqn:E1.
  assert (no_ring_set o0 w1) as Q3.
  { revert E1. destruct (negb _).
    - unfold virtio_net_exec_script. run_sys. by intros [= <- <-].
    - destruct (negb skip); [run_sys; by intros [= <- <-] | by intros [= <- <-]]. }
  assert (no_ring_set w w1) as Q4 by (by transitivity o0).
  destruct ok1; [destruct (negb skip) |].
  - match goal with |- context [sys (Close _) ?x] => assert (no_ring_set w1 x) as Q5; [| revert Q5; generalize x; intros w2 Q5] end.
    { run_sys. run_sys. by transitivity o1. }
    run_sys. intros [= <- <-]. transitivity w1; [done |]. by transitivity w2.
  - run_sys. intros [= <- <-]. by transitivity w1.
  - intros [= <- <-]. transitivity w1; [done |].
    transitivity (if 0 <=? ret a then snd (sys (Close (ret a)) w1) else w1); by apply if_no_ring.
Qed.

Lemma vhost_init_no_ring d w d' w' : virtio_net__vhost_init kvm d w = Alive (d', w') -> no_ring_set w w'.
Proof.
  unfold virtio_net__vhost_init. cbn zeta. run_sys. destruct (ret a <? 0); [done |].
  run_sys. destruct (negb _); [done |]. run_sys. destruct (negb _); [done |]. intros [= <- <-].
  by transitivity o; [| transitivity o0].
Qed.

Lemma set_backends_no_ring fd tap n : forall i w r w', set_backends fd tap i n w = (r, w') -> no_ring_set w w'.
Proof.
  induction n as [| n IH]; intros i w r w' E; cbn [set_backends] in E; [by simplify_eq |]. revert E.
  run_sys. destruct (negb _); intros E; [by simplify_eq |]. apply IH in E. by transitivity o.
Qed.

Lemma restore_tap_no_ring c d w r d' w' : restore_tap inet_addr kvm c d w = Alive (r, d', w') -> no_ring_set w w'.
Proof.
  unfold restore_tap. cbn zeta. set (w1 := if 0 <=? nd_tap_fd d then _ else w).
  match goal with |- context [if 0 <? ?x then ?y else w1] => set (w2 := if 0 <? x then y else w1) end.
  assert (no_ring_set w w2) as Q by (transitivity w1; by apply if_no_ring). clearbody w2. clear w1.
  destruct (try_taps _ _ _ _) as [[r0 d0] w3] eqn:T. apply try_taps_quiet in T.
  assert (no_ring_set w w3) as Q3 by (by transitivity w2).
  destruct (_ || _); [by intros [= <- <- <-] |].
  destruct (virtio_net__tap_init _ _ _) as [ok w4] eqn:I. apply tap_init_no_ring in I.
  assert (no_ring_set w w4) as Q4 by (by transitivity w3).
  destruct (negb ok); [by intros [= <- <- <-] |]. destruct (negb _); [| by intros [= <- <- <-]].
  destruct (virtio_net__vhost_init _ _ _) as [[d5 w5] | |] eqn:V; [| done | done]. apply vhost_init_no_ring in V.
  intros [= <- <- <-]. by transitivity w4.
Qed.

Lemma restart_queues_vq d qs i n : nq_vq <$> restart_queues d i qs !! n = nq_vq <$> qs !! n.
Proof. rewrite restart_queues_lookup. destruct (qs !! n); [| done]. simpl. by case_match. Qed.

(** A fork hands no ring over to vhost again: whatever the host answers, the calls that
    the hook makes for the child's device set no ring's size, base, address, kick or call and
    no features, although the device keeps every queue's ring as it was and the [vhost] file
    it holds afterwards is one that the hook has opened itself. *)
Theorem vhost_fork_sets_no_ring k c d w r d' w' : post_copy_one inet_addr kvm k c (threads_gone d) w = Alive (r, d', w') ->
  no_ring_set w w' /\ forall n, nq_vq <$> nd_queues d' !! n = nq_vq <$> nd_queues d !! n.
Proof.
  unfold post_copy_one. intros E.
  destruct (if nd_mode (set_kvm (threads_gone d) k) =? NET_MODE_TAP then _ else _) as [[[r1 d1] w1] | |] eqn:R; [| done | done].
  assert (no_ring_set w w1 /\ nd_queues d1 = nd_queues (threads_gone d)) as [Q1 H1].
  { destruct (nd_mode _ =? _); [| by simplify_eq]. split; [by eapply restore_tap_no_ring |].
    apply restore_tap_shape in R as [_ ->]. done. }
  assert (forall n, nq_vq <$> nd_queues (threads_gone d) !! n = nq_vq <$> nd_queues d !! n) as G.
  { intros n. unfold threads_gone. cbn. rewrite list_lookup_fmap. by destruct (nd_queues d !! n). }
  destruct (r1 <? 0); [simplify_eq; split; [done | intros n; by rewrite H1] |].
  assert (forall n, nq_vq <$> restart_queues d1 0 (nd_queues d1) !! n = nq_vq <$> nd_queues d !! n) as G1
    by (intros n; by rewrite restart_queues_vq, H1).
  destruct (negb _); [| by simplify_eq].
  destruct (set_backends _ _ _ _ _) as [r2 w2] eqn:B. apply set_backends_no_ring in B. simplify_eq.
  split; [by transitivity w1 | done].
Qed.
End fork.

(** ** A run *)

(** A host where [tap0] and [tap1] are taken. *)
Definition demo_kernel (t : list os_call) (c : os_call) : answer :=
  match c with
  | Open _ => mkanswer 5 0 "" 0
  | Socket => mkanswer 6 0 "" 0
  | TunSetIff _ (Some n) =>
      if ((n =? "tap0") || (n =? "tap1"))%string then mkanswer (-1) EBUSY "" 0 else mkanswer 0 0 n 0
  | TunSetIff _ None => mkanswer 0 0 "tap0" 0
  | _ => mkanswer 0 0 "" 0
  end.

Definition demo_os : os := mkos demo_kernel [] 0.
Definition demo_tap_params : virtio_net_params :=
  mknp "10.0.0.2" "10.0.0.1" "none" "none" None None [2; 0; 222; 173; 190; 239] zero_mac NET_MODE_TAP 0 0 2.
Definition demo_kvm_mem : kvm_mem := mkmem 0 0 0 false [] [].
Definition demo_vring (n p a : Z) : vring := mkvring n p (p + 16 * n) (p + 32 * n).
Definition demo_inet (s : string) : Z := 0.

Definition alive {A} (dflt : A) (r : may_die A) : A := match r with Alive a => a | _ => dflt end.

Definition demo_new : net_dev * virtio_trans * os :=
  alive (new_dev 0 demo_tap_params, VIRTIO_MMIO, demo_os) (virtio_net__init_one demo_inet demo_kvm_mem 1 demo_tap_params demo_os).

Lemma demo_tap_host : tap_host demo_kernel 2.
Proof.
  split; try done. intros t fd j Hj. by replace j with 1%nat by lia.
Qed.

(** The device after its features are chosen and its first queue set up, as the theorem
    reaches it. *)
Definition demo_dev : net_dev * os :=
  let '(d, _, w) := demo_new in
  match init_vq demo_kvm_mem demo_vring (set_guest_features d 32) 0 4096 4096 3 w with
  | Ret (Alive (_, d, w)) => (d, w)
  | _ => (d, w)
  end.


Lemma demo_dev_ok : net_ok (fst demo_dev).
Proof.
  assert (virtio_net__init_one demo_inet demo_kvm_mem 1 demo_tap_params demo_os = Alive demo_new) as E by (vm_compute; reflexivity).
  destruct demo_new as [[d0 t] w1] eqn:En. apply init_one_ok in E.
  - apply (net_step_ok demo_inet (fun _ => None) None demo_kvm_mem demo_vring (set_guest_features d0 32) w1 _ (snd demo_dev)).
    + apply step_init with (vq := 0) (ps := 4096) (al := 4096) (pf := 3) (r := 0); [lia |].
      unfold demo_dev. rewrite En. unfold demo_new in En. vm_compute in En. injection En as <- <- <-. vm_compute. reflexivity.
    + by apply (net_ok_same d0).
  - split; [reflexivity |]. unfold demo_tap_params. cbn. repeat (constructor; [unfold fits; lia |]). constructor.
Qed.


(** A device that uses vhost, in the child. *)
Definition demo_vhost_dev : net_dev * os :=
  let '(mknp gip hip sc dsc tr tap gm hm mode _ fd mq) := demo_tap_params in
  let '(d, _, w) := alive demo_new (virtio_net__init_one demo_inet demo_kvm_mem 1 (mknp gip hip sc dsc tr tap gm hm mode 1 fd mq) demo_os) in
  (d, w).

Lemma vhost_fork_sets_no_ring_witness : exists d' w',
  post_copy_one demo_inet demo_kvm_mem 2 1 (threads_gone (fst demo_vhost_dev)) (snd demo_vhost_dev) = Alive (0, d', w') /\
  In (VhostSetOwner (nd_vhost_fd d')) (drop (length (trace (snd demo_vhost_dev))) (trace w')) /\
  no_ring_set (snd demo_vhost_dev) w' /\ forall n, nq_vq <$> nd_queues d' !! n = nq_vq <$> nd_queues (fst demo_vhost_dev) !! n.
Proof.
  destruct (post_copy_one demo_inet demo_kvm_mem 2 1 (threads_gone (fst demo_vhost_dev)) (snd demo_vhost_dev)) as [[[r d'] w'] | |] eqn:E;
    [| vm_compute in E; discriminate | vm_compute in E; discriminate].
  exists d', w'. pose proof (vhost_fork_sets_no_ring demo_inet demo_kvm_mem 2 1 (fst demo_vhost_dev) (snd demo_vhost_dev) r d' w' E) as T.
  vm_compute in E. injection E as <- <- <-. split; [reflexivity |]. split; [vm_compute; tauto |]. exact T.
Defined.
