(* ===== verification/Msi.v ===== *)
(** * Interrupt routes

    [irq.c] and [x86/irq.c]: the table that says which interrupt a global number (GSI)
    stands for, the routes to the legacy controllers, and the routes of message-signalled
    interrupts. The interrupt lines of [irq.c] are in [Iobus]. *)
From S2P Require Import Prelude.
Open Scope Z_scope.

(** [struct kvm_irq_routing_entry]. The words of the union: a controller and its pin, or the
    two halves of a message's address, its data and the device. *)
Record routing_entry := mkre { re_gsi : Z; re_type : Z; re_flags : Z; re_u : Z * Z * Z * Z }.

Definition KVM_IRQ_ROUTING_IRQCHIP : Z := 1.
Definition KVM_IRQ_ROUTING_MSI : Z := 2.

Record msi_msg := mkmsg { address_lo : Z; address_hi : Z; data : Z }.

#[export] Instance msi_msg_eq_dec : EqDecision msi_msg.
Proof. solve_decision. Defined.
#[export] Instance routing_entry_eq_dec : EqDecision routing_entry.
Proof. solve_decision. Defined.

(** The variables of the file: the table ([None] is the null pointer) and its room, the next
    number, whether the kernel has routing (0: not asked yet). [kernel_routes] is the table
    that the kernel uses: the last one that it has accepted. *)
Record irq_state := mkirq {
  irq_routing : option (list routing_entry);
  allocated_gsis : Z;
  next_gsi : Z;
  has_irq_routing : Z;
  kernel_routes : list routing_entry;
}.

Definition irq_state0 : irq_state := mkirq None 0 0 0 [].

Definition KVM_MSI_VALID_DEVID : Z := 1.
Definition ENXIO : Z := 6.
Definition ENOMEM : Z := 12.
Definition IRQCHIP_MASTER : Z := 0.
Definition IRQCHIP_SLAVE : Z := 1.
Definition IRQCHIP_IOAPIC : Z := 2.

Definition entries (s : irq_state) : list routing_entry := default [] (irq_routing s).
Definition set_entries (s : irq_state) (l : list routing_entry) : irq_state :=
  mkirq (Some l) (allocated_gsis s) (next_gsi s) (has_irq_routing s) (kernel_routes s).

(** [ALIGN(x, 32)]. *)
Definition align32 (x : Z) : Z := (x + 31) .&~ 31.

Section irq.
(** What the host says: whether the table can grow, the answer to KVM_CAP_IRQ_ROUTING, the
    result of KVM_SET_GSI_ROUTING; and whether messages carry the number of the device. *)
Context (realloc_ok : bool) (cap_irq_routing : bool) (set_gsi_routing : list routing_entry -> Z) (msix_needs_devid : bool).

Definition irq__allocate_routing_entry (s : irq_state) : Z * irq_state :=
  let nr := Z.of_nat (length (entries s)) in
  if nr <? allocated_gsis s then (0, s)
  else
    let room := align32 (nr + 1) in
    if realloc_ok then (0, mkirq (Some (entries s)) room (next_gsi s) (has_irq_routing s) (kernel_routes s))
    else (- ENOMEM, mkirq None room (next_gsi s) (has_irq_routing s) (kernel_routes s)).

Definition check_for_irq_routing (s : irq_state) : bool * irq_state :=
  let h := if has_irq_routing s =? 0 then (if cap_irq_routing then 1 else -1) else has_irq_routing s in
  (0 <? h, mkirq (irq_routing s) (allocated_gsis s) (next_gsi s) h (kernel_routes s)).

(** [update_route] of the default operations hands the whole table to the kernel. *)
Definition irq__update_msix_routes (s : irq_state) : Z * irq_state :=
  let r := set_gsi_routing (entries s) in
  (r, if r =? 0 then mkirq (irq_routing s) (allocated_gsis s) (next_gsi s) (has_irq_routing s) (entries s) else s).

Definition irq__add_msix_route (s : irq_state) (msg : msi_msg) (device_id : Z) : Z * irq_state :=
  let (has, s) := check_for_irq_routing s in
  if negb has then (- ENXIO, s)
  else
    let (r, s) := irq__allocate_routing_entry s in
    if negb (r =? 0) then (r, s)
    else
      let entry := mkre (next_gsi s) KVM_IRQ_ROUTING_MSI (if msix_needs_devid then KVM_MSI_VALID_DEVID else 0)
        (address_lo msg, address_hi msg, data msg, if msix_needs_devid then device_id else 0) in
      let s := set_entries s (entries s ++ [entry]) in
      let (r, s) := irq__update_msix_routes s in
      if negb (r =? 0) then (r, s)
      else (next_gsi s, mkirq (irq_routing s) (allocated_gsis s) (next_gsi s + 1) (has_irq_routing s) (kernel_routes s)).

(** The loop over the table: the place of the first entry for [gsi]. *)
Fixpoint find_gsi (l : list routing_entry) (gsi : Z) : option nat :=
  match l with
  | [] => None
  | e :: l => if gsi =? re_gsi e then Some O else S <$> find_gsi l gsi
  end.

(** [entry] is the message part of the union; the number of the device stays. *)
Definition update_data (e : routing_entry) (msg : msi_msg) : bool * routing_entry :=
  let '(_, _, _, devid) := re_u e in
  let new := (address_lo msg, address_hi msg, data msg, devid) in
  (negb (bool_decide (re_u e = new)), mkre (re_gsi e) (re_type e) (re_flags e) new).

(** [None] is the call of [die_perror]; reading a null table is undefined. *)
Definition irq__update_msix_route (s : irq_state) (gsi : Z) (msg : msi_msg) : out (option irq_state) :=
  match irq_routing s with
  | None => Ub
  | Some l =>
      match find_gsi l gsi with
      | None => Ret (Some s)
      | Some i =>
          match l !! i with
          | None => Ub
          | Some e =>
              let (changed, e) := update_data e msg in
              if changed then
                let (r, s) := irq__update_msix_routes (set_entries s (<[i := e]> l)) in
                Ret (if r =? 0 then Some s else None)
              else Ret (Some s)
          end
      end
  end.

(** *** x86 *)

Definition irq__add_routing (s : irq_state) (gsi irqchip pin : Z) : Z * irq_state :=
  let (r, s) := irq__allocate_routing_entry s in
  if negb (r =? 0) then (r, s) else (0, set_entries s (entries s ++ [mkre gsi KVM_IRQ_ROUTING_IRQCHIP 0 (irqchip, pin, 0, 0)])).

Definition legacy_routes : list (Z * Z * Z) :=
  map (fun i => (i, IRQCHIP_MASTER, i)) [0; 1; 3; 4; 5; 6; 7] ++
  map (fun i => (i, IRQCHIP_SLAVE, i - 8)) [8; 9; 10; 11; 12; 13; 14; 15] ++
  map (fun i => (i, IRQCHIP_IOAPIC, if i =? 0 then 2 else i)) (filter (fun i => i <> 2) (seqZ 0 24)).

Definition add_routes (s : irq_state) (l : list (Z * Z * Z)) : irq_state :=
  fold_left (fun s '(gsi, chip, pin) => snd (irq__add_routing s gsi chip pin)) l s.

(** [errno] is a parameter: what a failing call leaves there. *)
Definition irq__init (errno : Z) (s : irq_state) : Z * irq_state :=
  let s := add_routes s legacy_routes in
  let (r, s) := irq__update_msix_routes s in
  if negb (r =? 0) then (errno, s)
  else (0, mkirq (irq_routing s) (allocated_gsis s) 24 (has_irq_routing s) (kernel_routes s)).

(** In the child the kernel's table is empty; the hook sets it. *)
Definition irq__post_copy (errno : Z) (s : irq_state) : Z * irq_state :=
  let (r, s) := irq__update_msix_routes s in ((if r =? 0 then 0 else errno), s).
End irq.

(** ** What the table promises *)

(** The message that the kernel sends for a number. *)
Definition msi_of (e : routing_entry) : msi_msg := let '(lo, hi, d, _) := re_u e in mkmsg lo hi d.
Definition route_of (l : list routing_entry) (gsi : Z) : option routing_entry :=
  match find_gsi l gsi with Some i => l !! i | None => None end.

(** The table has room for its entries, the numbers of messages are new ones, and the kernel
    has the table. *)
Record irq_ok (s : irq_state) : Prop := {
  io_table : irq_routing s <> None;
  io_room : Z.of_nat (length (entries s)) <= allocated_gsis s;
  io_gsis : Forall (fun e => 0 <= re_gsi e < next_gsi s) (entries s);
  io_kernel : kernel_routes s = entries s;
}.

Lemma find_gsi_spec l gsi i : find_gsi l gsi = Some i -> exists e, l !! i = Some e /\ re_gsi e = gsi.
Proof.
  revert i. induction l as [| e l IH]; intros i; cbn [find_gsi]; [done |].
  destruct (Z.eqb_spec gsi (re_gsi e)) as [E | _]; [intros [= <-]; by exists e |].
  destruct (find_gsi l gsi) as [j |] eqn:F; [| done]. intros [= <-]. by apply IH.
Qed.

Lemma find_gsi_none l gsi : Forall (fun e => re_gsi e <> gsi) l -> find_gsi l gsi = None.
Proof.
  induction 1 as [| e l He _ IH]; cbn [find_gsi]; [done |]. rewrite (proj2 (Z.eqb_neq _ _)) by congruence. by rewrite IH.
Qed.

Lemma find_gsi_app l l' gsi : find_gsi (l ++ l') gsi =
  match find_gsi l gsi with Some i => Some i | None => (fun i => (length l + i)%nat) <$> find_gsi l' gsi end.
Proof.
  induction l as [| e l IH]; cbn [app find_gsi length]; [by destruct (find_gsi l' gsi) |].
  destruct (gsi =? re_gsi e); [done |]. rewrite IH. destruct (find_gsi l gsi); [done |]. by destruct (find_gsi l' gsi).
Qed.

Lemma route_of_app l l' gsi : route_of (l ++ l') gsi = match route_of l gsi with Some e => Some e | None => route_of l' gsi end.
Proof.
  unfold route_of. rewrite find_gsi_app. destruct (find_gsi l gsi) as [i |] eqn:F.
  - apply find_gsi_spec in F as (e & E & _). rewrite lookup_app_l by (by eapply lookup_lt_Some). by rewrite E.
  - destruct (find_gsi l' gsi) as [i |]; [| done]. cbn. rewrite lookup_app_r by lia. by replace (length l + i - length l)%nat with i by lia.
Qed.

(** Changing the entry that a number finds changes nothing for the other numbers. *)
Lemma find_gsi_insert l gsi i e g : find_gsi l gsi = Some i -> re_gsi e = gsi -> find_gsi (<[i := e]> l) g = find_gsi l g.
Proof.
  revert i. induction l as [| e0 l IH]; intros i; cbn [find_gsi]; [done |].
  destruct (Z.eqb_spec gsi (re_gsi e0)) as [E | NE].
  - intros [= <-] He. change (<[O := e]> (e0 :: l)) with (e :: l). cbn [find_gsi]. by rewrite He, E.
  - destruct (find_gsi l gsi) as [j |] eqn:F; [| done]. intros [= <-] He.
    change (<[S j := e]> (e0 :: l)) with (e0 :: <[j := e]> l). cbn [find_gsi]. by rewrite (IH j eq_refl He).
Qed.

Lemma route_of_insert l gsi i e g : find_gsi l gsi = Some i -> re_gsi e = gsi ->
  route_of (<[i := e]> l) g = if g =? gsi then Some e else route_of l g.
Proof.
  intros F He. unfold route_of. rewrite (find_gsi_insert l gsi) by done. pose proof (find_gsi_spec _ _ _ F) as (e0 & E0 & G0).
  destruct (Z.eqb_spec g gsi) as [-> | NE].
  - rewrite F. apply list_lookup_insert_eq. by eapply lookup_lt_Some.
  - destruct (find_gsi l g) as [j |] eqn:Fj; [| done]. apply list_lookup_insert_ne.
    intros <-. apply find_gsi_spec in Fj as (e1 & E1 & G1). congruence.
Qed.

Lemma align32_room x : 0 <= x -> x <= align32 x.
Proof.
  intros H. unfold align32. pose proof (Z.mod_pos_bound (x + 31) 32 ltac:(lia)) as B. pose proof (Z.div_mod (x + 31) 32 ltac:(lia)) as D.
  replace ((x + 31) .&~ 31) with ((x + 31) / 32 * 32); [lia |].
  change ((x + 31) .&~ 31) with (Z.ldiff (x + 31) (Z.ones 5)). rewrite Z.ldiff_ones_r by lia. rewrite Z.shiftr_div_pow2, Z.shiftl_mul_pow2 by lia. done.
Qed.

Section works.
(** A host on which nothing fails. *)
Context (set_gsi_routing : list routing_entry -> Z) (Hset : forall l, set_gsi_routing l = 0) (msix_needs_devid : bool).

Abbreviation add := (irq__add_msix_route true true set_gsi_routing msix_needs_devid).
Abbreviation update := (irq__update_msix_route set_gsi_routing).

Definition msi_entry (gsi : Z) (msg : msi_msg) (dev : Z) : routing_entry :=
  mkre gsi KVM_IRQ_ROUTING_MSI (if msix_needs_devid then KVM_MSI_VALID_DEVID else 0)
    (address_lo msg, address_hi msg, data msg, if msix_needs_devid then dev else 0).

Lemma update_routes_ok s : irq_routing s <> None -> Z.of_nat (length (entries s)) <= allocated_gsis s ->
  Forall (fun e => 0 <= re_gsi e < next_gsi s) (entries s) ->
  exists s', irq__update_msix_routes set_gsi_routing s = (0, s') /\ irq_ok s' /\ entries s' = entries s /\
    next_gsi s' = next_gsi s /\ has_irq_routing s' = has_irq_routing s /\ allocated_gsis s' = allocated_gsis s.
Proof.
  intros H1 H2 H3. unfold irq__update_msix_routes. rewrite Hset. cbn [Z.eqb]. eexists. split; [reflexivity |].
  split; [by split |]. done.
Qed.

Lemma allocate_ok s : irq_ok s -> exists s', irq__allocate_routing_entry true s = (0, s') /\ irq_routing s' = Some (entries s) /\
  Z.of_nat (length (entries s)) < allocated_gsis s' /\ next_gsi s' = next_gsi s /\ kernel_routes s' = kernel_routes s /\
  has_irq_routing s' = has_irq_routing s.
Proof.
  intros [H1 H2 _ _]. unfold irq__allocate_routing_entry. destruct (Z.ltb_spec (Z.of_nat (length (entries s))) (allocated_gsis s)).
  - exists s. repeat (split; [done |]). unfold entries in *. by destruct (irq_routing s).
  - eexists. split; [reflexivity |]. cbn. repeat (split; [done |]). split; [| done].
    pose proof (align32_room (Z.of_nat (length (entries s)) + 1) ltac:(lia)). lia.
Qed.

Lemma fresh_gsi s : irq_ok s -> route_of (entries s) (next_gsi s) = None.
Proof.
  intros [_ _ H _]. unfold route_of. rewrite find_gsi_none; [done |]. eapply Forall_impl; [exact H |]. simpl. lia.
Qed.

(** A new route gets a number that no entry has, and the kernel knows it by its message. *)
Lemma add_msix_route_spec s msg dev : irq_ok s -> 0 <= next_gsi s -> has_irq_routing s <> -1 -> 0 <= has_irq_routing s ->
  exists s', add s msg dev = (next_gsi s, s') /\ irq_ok s' /\ next_gsi s' = next_gsi s + 1 /\ 0 < has_irq_routing s' /\
    forall g, route_of (kernel_routes s') g = if g =? next_gsi s then Some (msi_entry g msg dev) else route_of (kernel_routes s) g.
Proof.
  intros Hs Hn Hr1 Hr2. unfold irq__add_msix_route, check_for_irq_routing.
  set (h := if has_irq_routing s =? 0 then 1 else has_irq_routing s).
  assert (0 < h) as Hh by (unfold h; destruct (Z.eqb_spec (has_irq_routing s) 0); lia).
  rewrite (proj2 (Z.ltb_lt _ _) Hh). cbn [negb].
  set (s1 := mkirq _ _ _ _ _). assert (irq_ok s1) as H1 by (destruct Hs; by split).
  destruct (allocate_ok s1 H1) as (s2 & -> & E2 & R2 & N2 & K2 & C2). cbn [Z.eqb negb].
  fold (msi_entry (next_gsi s2) msg dev). set (e := msi_entry (next_gsi s2) msg dev).
  assert (entries s2 = entries s) as Es by (unfold entries at 1; by rewrite E2).
  unfold irq__update_msix_routes. rewrite Hset. cbn [Z.eqb negb].
  cbn [set_entries entries irq_routing next_gsi kernel_routes default]. rewrite Es, N2.
  eexists. split; [reflexivity |]. change (next_gsi s1) with (next_gsi s) in *. cbn.
  split; [split; cbn; unfold entries; cbn |].
  - done.
  - change (entries s1) with (default [] (irq_routing s)) in R2. rewrite length_app. cbn [length]. lia.
  - apply Forall_app_2; [destruct Hs as [_ _ G _]; eapply Forall_impl; [exact G |]; simpl; lia |].
    constructor; [unfold e, msi_entry; cbn; rewrite N2; lia | done].
  - done.
  - split; [done |]. split; [rewrite C2; exact Hh |]. intros g. rewrite route_of_app.
    rewrite (io_kernel s Hs). destruct (Z.eqb_spec g (next_gsi s)) as [-> | NE].
    + rewrite fresh_gsi by done. unfold route_of, e, msi_entry. rewrite N2. cbn. by rewrite Z.eqb_refl.
    + destruct (route_of (entries s) g); [done |]. unfold route_of, e, msi_entry. rewrite N2. cbn.
      by rewrite (proj2 (Z.eqb_neq _ _) NE).
Qed.

(** Changing a route changes that number's message, for the kernel too, and no other. *)
Lemma update_msix_route_spec s gsi msg e : irq_ok s -> route_of (kernel_routes s) gsi = Some e ->
  exists s', update s gsi msg = Ret (Some s') /\ irq_ok s' /\ next_gsi s' = next_gsi s /\ has_irq_routing s' = has_irq_routing s /\
    forall g, route_of (kernel_routes s') g = if g =? gsi then Some (snd (update_data e msg)) else route_of (kernel_routes s) g.
Proof.
  intros [H1 H2 H3 H4] Hr. rewrite H4 in *. unfold irq__update_msix_route. unfold route_of in Hr.
  destruct (irq_routing s) as [l |] eqn:El; [| done]. assert (entries s = l) as Es by (unfold entries; by rewrite El). rewrite Es in *.
  destruct (find_gsi l gsi) as [i |] eqn:F; [| done]. rewrite Hr.
  assert (re_gsi e = gsi) as Ge by (apply find_gsi_spec in F as (e0 & E0 & G0); congruence).
  assert (re_gsi (snd (update_data e msg)) = gsi) as Gu by (unfold update_data; by destruct (re_u e) as [[[? ?] ?] ?]).
  destruct (update_data e msg) as [changed e'] eqn:U. cbn [snd] in *.
  destruct changed.
  - unfold irq__update_msix_routes. rewrite Hset. cbn [Z.eqb]. eexists. split; [reflexivity |].
    split; [split; cbn; [done | | | done] |].
    + unfold entries. cbn. by rewrite length_insert.
    + unfold entries. cbn. apply Forall_insert; [exact H3 |]. rewrite Gu, <- Ge.
      apply (proj1 (Forall_lookup _ _) H3 i). exact Hr.
    + split; [done |]. split; [done |]. intros g. unfold entries. cbn. by apply route_of_insert.
  - assert (e' = e) as -> by (revert U; unfold update_data; destruct (re_u e) as [[[a b] c] d] eqn:Eu;
      case_bool_decide as B; [| done]; intros [= <-]; rewrite <- B, <- Eu; by destruct e).
    exists s. split; [done |]. split; [split; rewrite ?El, ?Es; done |]. split; [done |]. split; [done |]. intros g. rewrite H4.
    destruct (Z.eqb_spec g gsi) as [-> |]; [| done]. unfold route_of. by rewrite F.
Qed.

(** After [irq__init] the legacy interrupts have their routes and messages start at 24. *)
Lemma irq__init_spec errno : exists s, irq__init true set_gsi_routing errno irq_state0 = (0, s) /\ irq_ok s /\ next_gsi s = 24 /\ has_irq_routing s = 0.
Proof.
  unfold irq__init, irq__update_msix_routes. rewrite Hset. cbn [Z.eqb negb]. eexists. split; [reflexivity |].
  set (s := add_routes true irq_state0 legacy_routes). vm_compute in s. unfold s. cbn.
  split; [split; cbn; [done | lia | | done] |]; [| done]. unfold entries. cbn. repeat (constructor; [cbn; lia |]). constructor.
Qed.
End works.

(** When the kernel refuses the table the new entry stays in it, and its number is used
    again: the next route has the refused one's message. *)
Lemma refused_route_stays refuse msg1 msg2 dev s : (forall l, refuse l <> 0) -> irq_ok s -> 0 <= next_gsi s -> 0 < has_irq_routing s ->
  let s1 := snd (irq__add_msix_route true true refuse false s msg1 dev) in
  let '(gsi, s2) := irq__add_msix_route true true (fun _ => 0) false s1 msg2 dev in
  gsi = next_gsi s /\ route_of (kernel_routes s2) gsi = Some (msi_entry false gsi msg1 dev).
Proof.
  intros Hr Hs Hn Hh s1. pose proof (fresh_gsi s Hs) as Fr.
  destruct (allocate_ok (snd (check_for_irq_routing true s))) as (s2 & A2 & E2 & R2 & N2 & K2 & C2).
  { destruct Hs. by split. }
  assert (exists s3, s1 = s3 /\ entries s3 = entries s ++ [msi_entry false (next_gsi s) msg1 dev] /\ next_gsi s3 = next_gsi s /\
    0 < has_irq_routing s3 /\ irq_routing s3 <> None) as (s3 & -> & E3 & N3 & C3 & T3).
  { unfold s1, irq__add_msix_route. unfold check_for_irq_routing in *. rewrite (proj2 (Z.eqb_neq (has_irq_routing s) 0)) in * by lia.
    rewrite (proj2 (Z.ltb_lt _ _) Hh) in *. cbn [negb snd] in *. rewrite A2. cbn [Z.eqb negb].
    unfold irq__update_msix_routes. rewrite (proj2 (Z.eqb_neq _ _) (Hr _)). cbn [negb snd].
    assert (entries s2 = entries s) as Es by (unfold entries at 1; by rewrite E2). rewrite Es, N2.
    eexists. split; [reflexivity |]. cbn in *. rewrite C2. done. }
  unfold irq__add_msix_route, check_for_irq_routing. rewrite (proj2 (Z.eqb_neq (has_irq_routing s3) 0)) by lia.
  rewrite (proj2 (Z.ltb_lt _ _) C3). cbn [negb].
  set (s4 := mkirq _ _ _ _ _). destruct (irq__allocate_routing_entry true s4) as [r s5] eqn:A5.
  assert (r = 0 /\ entries s5 = entries s3 /\ next_gsi s5 = next_gsi s) as (-> & E5 & N5).
  { revert A5. unfold irq__allocate_routing_entry. case_match; intros [= <- <-]; split; try done; split; done. }
  cbn [Z.eqb negb]. unfold irq__update_msix_routes. cbn [Z.eqb negb set_entries next_gsi kernel_routes].
  split; [exact N5 |]. unfold entries at 1. cbn [irq_routing default set_entries]. rewrite E5, E3, N5. unfold id. rewrite <- app_assoc, route_of_app, Fr.
  unfold route_of. cbn. by rewrite Z.eqb_refl.
Qed.

