(* ===== verification/Pci.v ===== *)
(** * PCI configuration space

    [pci.c]: the address and data ports, the memory-mapped window, reads and writes of the
    devices' headers with the sizing of base addresses, and the allocator of address space.
    A device's header is the bytes of [struct pci_device_header]: 256 of configuration
    space, then the sizes of the six base addresses. *)
From S2P Require Import Prelude.
Open Scope Z_scope.

Definition PCI_CONFIG_ADDRESS : Z := 0xcf8.
Definition PCI_CONFIG_DATA : Z := 0xcfc.
Definition PCI_DEV_CFG_SIZE : Z := 256.
Definition PCI_DEV_CFG_MASK : Z := PCI_DEV_CFG_SIZE - 1.
Definition KVM_PCI_CFG_AREA : Z := 0xd1000000.
Definition KVM_PCI_MMIO_AREA : Z := 0xd2000000.

(** [offsetof] of the fields that the code names. *)
Definition PCI_BAR_OFFSET (b : Z) : Z := 16 + 4 * b.
Definition CAPABILITIES : Z := 52.
Definition BAR_SIZE (b : Z) : Z := PCI_DEV_CFG_SIZE + 4 * b.
Definition HEADER_SIZE : Z := PCI_DEV_CFG_SIZE + 24.

(** *** Address space for base addresses *)

(** [ALIGN] in a 32-bit type. *)
Definition align_u32 (x a : Z) : Z := u32 (x + u32 (a - 1)) .&~ u32 (a - 1).

(** The block, and the next value of [io_space_blocks]. *)
Definition pci_get_io_space_block (io_space_blocks size : Z) : Z * Z :=
  let block := align_u32 io_space_blocks size in (block, u32 (block + size)).

Fixpoint get_blocks (io_space_blocks : Z) (sizes : list Z) : list (Z * Z) :=
  match sizes with
  | [] => []
  | size :: sizes =>
      let (block, next) := pci_get_io_space_block io_space_blocks size in
      (block, size) :: get_blocks next sizes
  end.

(** *** Devices *)

(** The bytes of the header, and [cfg_ops]: what a device's own hooks do to the bytes. *)
Record pci_device := mkpci {
  hdr : list Z;
  cfg_write : option (list Z -> Z -> list Z -> Z -> list Z);
  cfg_read : option (list Z -> Z -> Z -> list Z);
}.

Definition set_hdr (d : pci_device) (h : list Z) : pci_device := mkpci h (cfg_write d) (cfg_read d).

(** [pci_config_address_bits], and the devices that [device__find_dev] finds by number. *)
Record pci := mkpcibus { config_address : Z; pci_devs : gmap Z pci_device }.

(** [memcpy] out of and into a buffer. *)
Definition get_bytes (l : list Z) (off len : Z) : out (list Z) :=
  if (0 <=? off) && (0 <=? len) && (off + len <=? Z.of_nat (length l))
  then Ret (slice (Z.to_nat off) (Z.to_nat len) l) else Ub.
Definition put_bytes (l : list Z) (off : Z) (new : list Z) : out (list Z) :=
  if (0 <=? off) && (off + Z.of_nat (length new) <=? Z.of_nat (length l))
  then Ret (splice (Z.to_nat off) new l) else Ub.
Definition get_u32 (l : list Z) (off : Z) : out Z := let! b := get_bytes l off 4 in Ret (le_dec b).

(** The fields of [union pci_config_address]. *)
Definition bus_number (w : Z) : Z := (w .>> 16) .& 255.
Definition device_number (w : Z) : Z := (w .>> 11) .& 31.
Definition function_number (w : Z) : Z := (w .>> 8) .& 7.
Definition set_reg_offset (w r : Z) : Z := (w .&~ 3) .| (r .& 3).
Definition set_enable_bit (w : Z) : Z := w .| (1 .<< 31).

Definition find_cap_step (h : list Z) (pos : Z) : out Z := let! b := get_bytes h (pos + 1) 1 in Ret (le_dec b .&~ 3).

(** [None] is the null pointer; a cycle of the guest's making has no end. *)
Fixpoint find_cap_loop (fuel : nat) (h : list Z) (pos cap_type : Z) : out (option Z) :=
  match fuel with
  | O => NoFuel
  | S fuel =>
      if pos =? 0 then Ret None
      else
        let! t := get_bytes h pos 1 in
        if le_dec t =? cap_type then Ret (Some pos)
        else let! pos := find_cap_step h pos in find_cap_loop fuel h pos cap_type
  end.

Definition pci_find_cap (h : list Z) (cap_type : Z) : out (option Z) :=
  let! c := get_bytes h CAPABILITIES 1 in find_cap_loop 65 h (le_dec c .&~ 3) cap_type.

(** *** The address port *)

Definition pci_config_address_out (s : pci) (port : Z) (data : list Z) (size : Z) : out pci :=
  let! new := get_bytes data 0 size in
  let! b := put_bytes (le_enc 4 (config_address s)) (port - PCI_CONFIG_ADDRESS) new in
  Ret (mkpcibus (le_dec b) (pci_devs s)).

Definition pci_config_address_in (s : pci) (port : Z) (data : list Z) (size : Z) : out (list Z) :=
  let! b := get_bytes (le_enc 4 (config_address s)) (port - PCI_CONFIG_ADDRESS) size in
  put_bytes data 0 b.

(** The bus and the function are compared with those of the address port. *)
Definition pci_device_exists (s : pci) (bus device function : Z) : bool :=
  if negb (bus_number (config_address s) =? bus) then false
  else if negb (function_number (config_address s) =? function) then false
  else match pci_devs s !! device with Some _ => true | None => false end.

(** *** Configuration accesses *)

Definition pci__config_wr (s : pci) (w : Z) (data : list Z) (size : Z) : out pci :=
  let dev_num := device_number w in
  if negb (pci_device_exists s (bus_number w) dev_num 0) then Ret s
  else
    match pci_devs s !! dev_num with
    | None => Ub
    | Some d =>
        let offset := w .& PCI_DEV_CFG_MASK in
        let d := match cfg_write d with Some f => set_hdr d (f (hdr d) offset data size) | None => d end in
        let done h := Ret (mkpcibus (config_address s) (<[dev_num := set_hdr d h]> (pci_devs s))) in
        let! old := get_u32 (hdr d) offset in
        if old =? 0 then done (hdr d)
        else
          let bar := u8 (u64 (offset - PCI_BAR_OFFSET 0) / 4) in
          let! all_ones := if bar <? 6 then let! v := get_u32 data 0 in Ret (v =? 0xFFFFFFFF) else Ret false in
          if all_ones : bool then
            let! sz := get_bytes (hdr d) (BAR_SIZE bar) 4 in
            let! h := put_bytes (hdr d) offset sz in done h
          else
            let! new := get_bytes data 0 size in
            let! h := put_bytes (hdr d) offset new in done h
    end.

Definition pci__config_rd (s : pci) (w : Z) (data : list Z) (size : Z) : out (pci * list Z) :=
  let dev_num := device_number w in
  if pci_device_exists s (bus_number w) dev_num 0 then
    match pci_devs s !! dev_num with
    | None => Ub
    | Some d =>
        let offset := w .& PCI_DEV_CFG_MASK in
        let d := match cfg_read d with Some f => set_hdr d (f (hdr d) offset size) | None => d end in
        let! b := get_bytes (hdr d) offset size in
        let! data := put_bytes data 0 b in
        Ret (mkpcibus (config_address s) (<[dev_num := d]> (pci_devs s)), data)
    end
  else let! data := put_bytes data 0 (repeat 0xff (Z.to_nat size)) in Ret (s, data).

Definition pci_config_data_out (s : pci) (port : Z) (data : list Z) (size : Z) : out pci :=
  pci__config_wr s (set_reg_offset (config_address s) (port - PCI_CONFIG_DATA)) data size.
Definition pci_config_data_in (s : pci) (port : Z) (data : list Z) (size : Z) : out (pci * list Z) :=
  pci__config_rd s (set_reg_offset (config_address s) (port - PCI_CONFIG_DATA)) data size.

Definition pci_config_mmio_access (s : pci) (addr : Z) (data : list Z) (len : Z) (is_write : bool) : out (pci * list Z) :=
  let w := set_enable_bit (u32 (addr - KVM_PCI_CFG_AREA)) in
  if is_write then let! s := pci__config_wr s w data len in Ret (s, data)
  else pci__config_rd s w data len.

Definition pci__find_dev (s : pci) (dev_num : Z) : option pci_device := pci_devs s !! dev_num.

(** ** The allocator *)

Lemma align_u32_pow2 x k : 0 <= k <= 31 -> 0 <= x -> x + 2 ^ k <= 2 ^ 32 ->
  align_u32 x (2 ^ k) = (x + 2 ^ k - 1) / 2 ^ k * 2 ^ k.
Proof.
  intros Hk Hx Hb. unfold align_u32. pose proof (Z.pow_pos_nonneg 2 k ltac:(lia) ltac:(lia)) as P.
  rewrite (wrap_id 32 (2 ^ k - 1)) by (unfold fits; lia). rewrite (wrap_id 32) by (unfold fits; lia).
  replace (2 ^ k - 1) with (Z.ones k) at 2 by (rewrite Z.ones_equiv; lia).
  rewrite Z.ldiff_ones_r by lia. rewrite Z.shiftr_div_pow2, Z.shiftl_mul_pow2 by lia.
  by replace (x + (2 ^ k - 1)) with (x + 2 ^ k - 1) by lia.
Qed.

Lemma align_up x a : 0 < a -> x <= (x + a - 1) / a * a < x + a.
Proof.
  intros Ha. pose proof (Z.div_mod (x + a - 1) a ltac:(lia)). pose proof (Z.mod_pos_bound (x + a - 1) a ltac:(lia)). nia.
Qed.

(** The space that allocations of these sizes need at most. *)
Fixpoint room (sizes : list Z) : Z := match sizes with [] => 0 | size :: sizes => 2 * size + room sizes end.

Definition disjoint_from (b : Z) (l : list (Z * Z)) : Prop := Forall (fun e => b <= fst e) l.
Inductive laid_out : list (Z * Z) -> Prop :=
| laid_nil : laid_out []
| laid_cons b n l : disjoint_from (b + n) l -> laid_out l -> laid_out ((b, n) :: l).

Lemma room_nonneg sizes : Forall (fun n => exists k, 0 <= k <= 31 /\ n = 2 ^ k) sizes -> 0 <= room sizes.
Proof. induction 1 as [| n l (k & Hk & ->) _ IH]; [done |]. cbn [room]. pose proof (Z.pow_pos_nonneg 2 k ltac:(lia) ltac:(lia)). lia. Qed.

(** C36. The blocks that the allocator gives out, for base addresses of sizes that are powers
    of two, are naturally aligned, lie one after the other without overlap, and stay inside
    the room that the sizes ask for. *)
Theorem io_blocks_laid_out sizes : forall base, Forall (fun n => exists k, 0 <= k <= 31 /\ n = 2 ^ k) sizes ->
  0 <= base -> base + room sizes < 2 ^ 32 ->
  let l := get_blocks base sizes in
  laid_out l /\ map snd l = sizes /\ Forall (fun e => base <= fst e /\ fst e + snd e <= base + room sizes /\ fst e mod snd e = 0) l.
Proof.
  induction sizes as [| n sizes IH]; intros base F Hb Hr; cbn [get_blocks]; [repeat constructor |].
  apply Forall_cons_1 in F as [(k & Hk & ->) F]. cbn [room] in Hr.
  pose proof (room_nonneg sizes F) as R. pose proof (Z.pow_pos_nonneg 2 k ltac:(lia) ltac:(lia)) as P.
  unfold pci_get_io_space_block. rewrite align_u32_pow2 by lia. pose proof (align_up base (2 ^ k) P) as A.
  set (b := (base + 2 ^ k - 1) / 2 ^ k * 2 ^ k) in *. rewrite (wrap_id 32) by (unfold fits; lia).
  destruct (IH (b + 2 ^ k) F ltac:(lia) ltac:(lia)) as (L & M & G). cbn zeta in L, M, G.
  split; [| split].
  - constructor; [| exact L]. eapply Forall_impl; [exact G |]. intros e (H & _). exact H.
  - cbn. by rewrite M.
  - constructor; [cbn [fst snd room]; split; [lia |]; split; [lia |]; apply Z.mod_mul; lia |].
    eapply Forall_impl; [exact G |]. cbn [room]. intros e (H1 & H2 & H3). split; [lia |]. split; [lia | exact H3].
Qed.

Lemma io_blocks_laid_out_witness :
  let l := get_blocks KVM_PCI_MMIO_AREA [1024; 512; 1024; 512] in
  laid_out l /\ map snd l = [1024; 512; 1024; 512] /\
  Forall (fun e => KVM_PCI_MMIO_AREA <= fst e /\ fst e + snd e <= KVM_PCI_MMIO_AREA + 6144 /\ fst e mod snd e = 0) l.
Proof.
  apply (io_blocks_laid_out [1024; 512; 1024; 512] KVM_PCI_MMIO_AREA).
  - repeat (constructor; [first [by exists 10 | by exists 9] |]). constructor.
  - unfold KVM_PCI_MMIO_AREA. lia.
  - unfold KVM_PCI_MMIO_AREA. cbn. lia.
Defined.

(** ** Sizing a base address *)

Lemma get_bytes_ok l off len : 0 <= off -> 0 <= len -> off + len <= Z.of_nat (length l) ->
  get_bytes l off len = Ret (slice (Z.to_nat off) (Z.to_nat len) l).
Proof. intros. unfold get_bytes. by replace (_ && _ && _) with true by lia. Qed.

Lemma put_bytes_in l off new : 0 <= off -> off + Z.of_nat (length new) <= Z.of_nat (length l) ->
  put_bytes l off new = Ret (splice (Z.to_nat off) new l).
Proof. intros. unfold put_bytes. by replace (_ && _) with true by lia. Qed.

(** The address of a register of device [dev] on bus 0. *)
Definition reg_address (dev reg : Z) : Z := (1 .<< 31) .| (dev .<< 11) .| reg.

Lemma splice_splice off a b (m : list Z) : length a = length b -> (off + length a <= length m)%nat ->
  splice off b (splice off a m) = splice off b m.
Proof.
  intros E H. unfold splice. rewrite take_app_length' by (rewrite length_take; lia). f_equal. f_equal.
  rewrite drop_app_ge by (rewrite length_take; lia). rewrite length_take, Nat.min_l by lia.
  rewrite drop_app_ge by lia. rewrite drop_drop. f_equal. lia.
Qed.

Lemma splice_slice off n (m : list Z) : (off + n <= length m)%nat -> splice off (slice off n m) m = m.
Proof.
  intros H. unfold splice, slice. rewrite length_take, length_drop, Nat.min_l by lia. rewrite <- drop_drop.
  by rewrite !take_drop.
Qed.

(** What the fields of a base address register's address are. *)
Definition decodes (dev bar : Z) : bool :=
  let w := reg_address dev (PCI_BAR_OFFSET bar) in
  (bus_number w =? 0) && (function_number w =? 0) && (device_number w =? dev) && (set_reg_offset w 0 =? w) &&
  (w .& PCI_DEV_CFG_MASK =? PCI_BAR_OFFSET bar) && (0 <=? w) && (w <? 2 ^ 32) &&
  (u8 (u64 (w .& PCI_DEV_CFG_MASK - PCI_BAR_OFFSET 0) / 4) =? bar).

Lemma decodes_all : forallb (fun dev => forallb (decodes dev) (seqZ 0 6)) (seqZ 0 32) = true.
Proof. vm_compute. reflexivity. Qed.

Lemma bar_decodes dev bar : 0 <= dev < 32 -> 0 <= bar < 6 -> decodes dev bar = true.
Proof.
  intros Hd Hb. pose proof decodes_all as F. rewrite forallb_forall in F.
  specialize (F dev ltac:(apply list_elem_of_In, elem_of_seqZ; lia)). rewrite forallb_forall in F.
  apply F, list_elem_of_In, elem_of_seqZ. lia.
Qed.

(** A device without hooks of its own, whose base address [bar] is in use. *)
Record plain_bar (d : pci_device) (bar : Z) : Prop := {
  pb_write : cfg_write d = None;
  pb_read : cfg_read d = None;
  pb_len : Z.of_nat (length (hdr d)) = HEADER_SIZE;
  pb_bytes : byte_ok (hdr d);
  pb_bar : 0 <= bar < 6;
  pb_used : le_dec (slice (Z.to_nat (PCI_BAR_OFFSET bar)) 4 (hdr d)) <> 0;
  pb_size : le_dec (slice (Z.to_nat (BAR_SIZE bar)) 4 (hdr d)) <> 0;
}.

Definition bar_value (d : pci_device) (bar : Z) : list Z := slice (Z.to_nat (PCI_BAR_OFFSET bar)) 4 (hdr d).
Definition bar_size (d : pci_device) (bar : Z) : list Z := slice (Z.to_nat (BAR_SIZE bar)) 4 (hdr d).
Definition with_bar (d : pci_device) (bar : Z) (v : list Z) : pci_device :=
  set_hdr d (splice (Z.to_nat (PCI_BAR_OFFSET bar)) v (hdr d)).

(** A write to a base address: all ones leave the size there, anything else the value. *)
Lemma write_bar s dev d bar v : 0 <= dev < 32 -> pci_devs s !! dev = Some d -> plain_bar d bar ->
  config_address s = reg_address dev (PCI_BAR_OFFSET bar) -> length v = 4%nat ->
  pci_config_data_out s PCI_CONFIG_DATA v 4 =
  Ret (mkpcibus (config_address s) (<[dev := with_bar d bar (if le_dec v =? 0xFFFFFFFF then bar_size d bar else v)]> (pci_devs s))).
Proof.
  intros Hd Hl [Hw Hr Hlen Hby Hb Hu Hs] Ha Hv. pose proof (bar_decodes dev bar Hd Hb) as D. unfold decodes in D.
  rewrite !andb_true_iff, !Z.eqb_eq, Z.leb_le, Z.ltb_lt in D. destruct D as [[[[[[[D1 D2] D3] D4] D5] D6] D7] D8].
  unfold pci_config_data_out. rewrite Z.sub_diag, Ha, D4. unfold pci__config_wr. unfold pci_device_exists.
  rewrite D5 in D8. rewrite Ha, D1, D2, D3, D5. rewrite Z.eqb_refl, Hl. cbn [negb]. rewrite Hw, D8.
  unfold HEADER_SIZE, BAR_SIZE, PCI_BAR_OFFSET, PCI_DEV_CFG_SIZE in *.
  unfold get_u32. rewrite (get_bytes_ok (hdr d)) by lia. change (Z.to_nat 4) with 4%nat. rewrite (proj2 (Z.eqb_neq _ _) Hu).
  rewrite (proj2 (Z.ltb_lt bar 6)) by lia. rewrite (get_bytes_ok v) by lia.
  change (Z.to_nat 4) with 4%nat. assert (slice (Z.to_nat 0) 4 v = v) as -> by (unfold slice; cbn; apply take_ge; lia).
  destruct (le_dec v =? 4294967295) eqn:E.
  - rewrite get_bytes_ok by lia. rewrite put_bytes_in; [reflexivity | lia |].
    rewrite length_slice by lia. lia.
  - rewrite put_bytes_in by lia. reflexivity.
Qed.

Lemma read_bar s dev d bar v : 0 <= dev < 32 -> pci_devs s !! dev = Some d -> cfg_read d = None ->
  Z.of_nat (length (hdr d)) = HEADER_SIZE -> 0 <= bar < 6 ->
  config_address s = reg_address dev (PCI_BAR_OFFSET bar) -> length v = 4%nat ->
  pci_config_data_in s PCI_CONFIG_DATA v 4 = Ret (s, bar_value d bar).
Proof.
  intros Hd Hl Hr Hlen Hb Ha Hv. pose proof (bar_decodes dev bar Hd Hb) as D. unfold decodes in D.
  rewrite !andb_true_iff, !Z.eqb_eq, Z.leb_le, Z.ltb_lt in D. destruct D as [[[[[[[D1 D2] D3] D4] D5] D6] D7] D8].
  unfold pci_config_data_in. rewrite Z.sub_diag, Ha, D4. unfold pci__config_rd. unfold pci_device_exists.
  rewrite Ha, D1, D2, D3, D5. rewrite Z.eqb_refl, Hl. cbn [negb]. rewrite Hr.
  unfold HEADER_SIZE, PCI_BAR_OFFSET, PCI_DEV_CFG_SIZE in *. rewrite get_bytes_ok by lia.
  assert (length (slice (Z.to_nat (16 + 4 * bar)) (Z.to_nat 4) (hdr d)) = 4%nat) as L by (rewrite length_slice; lia).
  rewrite put_bytes_in by lia. rewrite insert_id by done. destruct s as [ca dv]. cbn in *. do 2 f_equal; [by rewrite Ha |].
  unfold splice. rewrite drop_ge by lia. apply app_nil_r.
Qed.

Lemma bar_of_with d bar v : 0 <= bar < 6 -> Z.of_nat (length (hdr d)) = HEADER_SIZE -> length v = 4%nat ->
  bar_value (with_bar d bar v) bar = v /\ bar_size (with_bar d bar v) bar = bar_size d bar.
Proof.
  intros Hb Hl Hv. unfold bar_value, bar_size, with_bar, BAR_SIZE, PCI_BAR_OFFSET, HEADER_SIZE, PCI_DEV_CFG_SIZE in *. cbn [hdr set_hdr].
  split; [rewrite <- Hv; apply slice_splice_same; lia | apply slice_splice_after; lia].
Qed.

(** C35. A driver that sizes a base address through the ports in the usual way (it selects the
    register, writes all ones, reads, and writes back what was there) reads exactly the size
    that the device declared, and afterwards every header is what it was before. *)
Theorem bar_sizing s dev d bar junk : 0 <= dev < 32 -> pci_devs s !! dev = Some d -> plain_bar d bar ->
  le_dec (bar_value d bar) <> 0xFFFFFFFF -> length junk = 4%nat ->
  exists s1 s2 s3, pci_config_address_out s PCI_CONFIG_ADDRESS (le_enc 4 (reg_address dev (PCI_BAR_OFFSET bar))) 4 = Ret s1 /\
    pci_config_data_out s1 PCI_CONFIG_DATA [255; 255; 255; 255] 4 = Ret s2 /\
    pci_config_data_in s2 PCI_CONFIG_DATA junk 4 = Ret (s2, bar_size d bar) /\
    pci_config_data_out s2 PCI_CONFIG_DATA (bar_value d bar) 4 = Ret s3 /\
    pci_devs s3 = pci_devs s.
Proof.
  intros Hd Hl Hp Hn Hj. pose proof Hp as [Hw Hr Hlen Hby Hb Hu Hs].
  pose proof (bar_decodes dev bar Hd Hb) as D. unfold decodes in D. rewrite !andb_true_iff, Z.leb_le, Z.ltb_lt in D.
  destruct D as [[[_ D6] D7] _]. set (w := reg_address dev (PCI_BAR_OFFSET bar)) in *.
  assert (pci_config_address_out s PCI_CONFIG_ADDRESS (le_enc 4 w) 4 = Ret (mkpcibus w (pci_devs s))) as ->.
  { unfold pci_config_address_out. rewrite get_bytes_ok by (rewrite ?length_le_enc; lia). rewrite Z.sub_diag.
    assert (slice (Z.to_nat 0) (Z.to_nat 4) (le_enc 4 w) = le_enc 4 w) as -> by (unfold slice; apply take_ge; by rewrite length_le_enc).
    rewrite put_bytes_in by (rewrite ?length_le_enc; lia).
    assert (splice (Z.to_nat 0) (le_enc 4 w) (le_enc 4 (config_address s)) = le_enc 4 w) as ->
      by (unfold splice; rewrite drop_ge by (rewrite !length_le_enc; lia); apply app_nil_r).
    by rewrite le_dec_enc, wrap_id. }
  unfold HEADER_SIZE, BAR_SIZE, PCI_BAR_OFFSET, PCI_DEV_CFG_SIZE in Hlen.
  assert (length (bar_size d bar) = 4%nat /\ length (bar_value d bar) = 4%nat) as [L1 L2]
    by (unfold bar_size, bar_value, BAR_SIZE, PCI_BAR_OFFSET, PCI_DEV_CFG_SIZE; rewrite !length_slice by lia; done).
  eexists _, _, _. split; [reflexivity |].
  rewrite (write_bar _ dev d bar) by done. split; [reflexivity |]. cbn [config_address pci_devs].
  change (le_dec [255; 255; 255; 255] =? 4294967295) with true. cbv iota.
  destruct (bar_of_with d bar (bar_size d bar)) as [B1 B2]; [done | exact Hlen | done |].
  set (d2 := with_bar d bar (bar_size d bar)) in *.
  assert (Z.of_nat (length (hdr d2)) = HEADER_SIZE) as L3.
  { unfold d2, with_bar. cbn [hdr set_hdr]. rewrite length_splice; [exact Hlen |]. unfold PCI_BAR_OFFSET. lia. }
  split; [rewrite (read_bar _ dev d2 bar); [by rewrite B1 | done | apply lookup_insert_eq | done | done | done | done | done] |].
  rewrite (write_bar _ dev d2 bar); [| done | apply lookup_insert_eq | | done | done].
  - split; [reflexivity |]. cbn [pci_devs]. rewrite insert_insert_eq, (proj2 (Z.eqb_neq _ _) Hn).
    unfold with_bar. unfold d2, with_bar. cbn [hdr set_hdr cfg_write cfg_read].
    rewrite splice_splice by (rewrite ?L1, ?L2; unfold PCI_BAR_OFFSET; lia).
    unfold bar_value. rewrite splice_slice by (unfold PCI_BAR_OFFSET; lia). destruct d. cbn. by rewrite insert_id.
  - split; try done.
    + apply splice_bytes; [by apply slice_bytes | done].
    + fold (bar_value d2 bar). by rewrite B1.
    + fold (bar_size d2 bar). by rewrite B2.
Qed.

(** A device with one base address, of 1024 bytes of ports at 0x6200. *)
Definition demo_hdr : list Z :=
  repeat 0 16 ++ le_enc 4 0x6201 ++ repeat 0 236 ++ le_enc 4 1024 ++ repeat 0 20.
Definition demo_pci : pci := mkpcibus 0 {[ 3 := mkpci demo_hdr None None ]}.

Lemma bar_sizing_witness :
  exists s1 s2 s3, pci_config_address_out demo_pci PCI_CONFIG_ADDRESS (le_enc 4 (reg_address 3 16)) 4 = Ret s1 /\
    pci_config_data_out s1 PCI_CONFIG_DATA [255; 255; 255; 255] 4 = Ret s2 /\
    pci_config_data_in s2 PCI_CONFIG_DATA [0; 0; 0; 0] 4 = Ret (s2, le_enc 4 1024) /\
    pci_config_data_out s2 PCI_CONFIG_DATA (le_enc 4 0x6201) 4 = Ret s3 /\ pci_devs s3 = pci_devs demo_pci.
Proof.
  apply (bar_sizing demo_pci 3 (mkpci demo_hdr None None) 0 [0; 0; 0; 0]).
  - lia.
  - reflexivity.
  - split; try reflexivity; try (vm_compute; discriminate); [| lia].
    unfold demo_hdr. apply byte_ok_check. vm_compute. reflexivity.
  - vm_compute. discriminate.
  - reflexivity.
Defined.

(** ** The memory-mapped window *)

(** While the address port names a function other than 0, the window shows no device at all:
    the accesses to it are compared with the port. *)
Lemma window_follows_port s addr data len : function_number (config_address s) <> 0 ->
  0 <= len -> len <= Z.of_nat (length data) ->
  pci_config_mmio_access s addr data len false = Ret (s, splice 0 (repeat 0xff (Z.to_nat len)) data) /\
  pci_config_mmio_access s addr data len true = Ret (s, data).
Proof.
  intros Hf H1 H2. unfold pci_config_mmio_access, pci__config_rd, pci__config_wr, pci_device_exists.
  rewrite (proj2 (Z.eqb_neq (function_number _) 0)) by done.
  replace (if negb (bus_number (config_address s) =? _) then false else if negb false then false else _) with false by (by destruct (negb _)).
  cbn [negb]. rewrite put_bytes_in by (rewrite ?repeat_length; lia). done.
Qed.
