(* ===== verification/VirtioPci.v ===== *)
(** * The PCI transport of virtio

    [virtio/pci.c]: the registers of a device in port space and in memory, its queues'
    notifications, and its interrupts: the legacy line and MSI-X, over the routes of [Msi]
    and the configuration space of [Pci]. What a device does is a record of operations. *)
From S2P Require Import Prelude HostMem Virtqueue Msi Pci.
Open Scope Z_scope.

Definition VIRTIO_PCI_MAX_VQ : Z := 32.
Definition VIRTIO_PCI_MAX_CONFIG : Z := 1.
Definition VIRTIO_PCI_F_SIGNAL_MSI : Z := 1.
Definition PCI_IO_SIZE : Z := 256.
Definition IOPORT_SIZE : Z := 0x400.
Definition VIRTIO_IRQ_LOW : Z := 0.
Definition VIRTIO_IRQ_HIGH : Z := 1.
Definition IOEVENTFD_FLAG_PIO : Z := 1.
Definition IOEVENTFD_FLAG_USER_POLL : Z := 2.

(** The published register layout ([<linux/virtio_pci.h>], [<linux/pci_regs.h>]). *)
Definition VIRTIO_PCI_HOST_FEATURES : Z := 0.
Definition VIRTIO_PCI_GUEST_FEATURES : Z := 4.
Definition VIRTIO_PCI_QUEUE_PFN : Z := 8.
Definition VIRTIO_PCI_QUEUE_NUM : Z := 12.
Definition VIRTIO_PCI_QUEUE_SEL : Z := 14.
Definition VIRTIO_PCI_QUEUE_NOTIFY : Z := 16.
Definition VIRTIO_PCI_STATUS : Z := 18.
Definition VIRTIO_PCI_ISR : Z := 19.
Definition VIRTIO_MSI_CONFIG_VECTOR : Z := 20.
Definition VIRTIO_MSI_QUEUE_VECTOR : Z := 22.
Definition VIRTIO_MSI_NO_VECTOR : Z := 0xffff.
Definition VIRTIO_PCI_ISR_CONFIG : Z := 2.
Definition VIRTIO_PCI_QUEUE_ADDR_SHIFT : Z := 12.
Definition VIRTIO_PCI_VRING_ALIGN : Z := 4096.
Definition PCI_MSIX_FLAGS_ENABLE : Z := 0x8000.
Definition PCI_MSIX_FLAGS_MASKALL : Z := 0x4000.
Definition PCI_MSIX_ENTRY_CTRL_MASKBIT : Z := 1.

(** [struct msix_table]: a message and a control word. *)
Definition ENTRY_SIZE : Z := 16.
Definition ENTRY_CTRL : Z := 12.

(** *** State *)

(** What the transport asks of the kernel, in order: a level of an interrupt line, a message
    sent directly, an event file for writes of [match_] to an address, and its removal. *)
Inductive event :=
| IrqLine (gsi level : Z)
| SignalMsi (msg : msi_msg) (flags devid : Z)
| AddEvent (io_addr datamatch flags : Z)
| DelEvent (io_addr datamatch : Z).

(** The part of [struct virtio_pci] that is about MSI-X. *)
Record msix := mkmsix {
  config_vector : Z; config_gsi : Z;
  vq_vector : list Z; gsis : list Z;
  msix_pba : Z; msix_table : list Z;
}.

(** [pci_hdr] is the header's bytes. *)
Record virtio_pci := mkvpci {
  pci_hdr : list Z; dev_num : Z;
  port_addr : Z; mmio_addr : Z; msix_io_block : Z;
  vp_status : Z; isr : Z; vp_features : Z; legacy_irq_line : Z;
  queue_selector : Z; mx : msix;
}.

Definition set_mx (v : virtio_pci) (x : msix) : virtio_pci :=
  mkvpci (pci_hdr v) (dev_num v) (port_addr v) (mmio_addr v) (msix_io_block v) (vp_status v) (isr v) (vp_features v) (legacy_irq_line v) (queue_selector v) x.
Definition set_isr (v : virtio_pci) (x : Z) : virtio_pci :=
  mkvpci (pci_hdr v) (dev_num v) (port_addr v) (mmio_addr v) (msix_io_block v) (vp_status v) x (vp_features v) (legacy_irq_line v) (queue_selector v) (mx v).
Definition set_vp_status (v : virtio_pci) (x : Z) : virtio_pci :=
  mkvpci (pci_hdr v) (dev_num v) (port_addr v) (mmio_addr v) (msix_io_block v) x (isr v) (vp_features v) (legacy_irq_line v) (queue_selector v) (mx v).
Definition set_selector (v : virtio_pci) (x : Z) : virtio_pci :=
  mkvpci (pci_hdr v) (dev_num v) (port_addr v) (mmio_addr v) (msix_io_block v) (vp_status v) (isr v) (vp_features v) (legacy_irq_line v) x (mx v).

(** The message-control word of the capability that follows the standard header. *)
Definition MSIX_CAP : Z := 64.
Definition msix_ctrl (v : virtio_pci) : Z := le_dec (slice 66 2 (pci_hdr v)).
Definition virtio_pci__msix_enabled (v : virtio_pci) : bool := flag (msix_ctrl v) PCI_MSIX_FLAGS_ENABLE.

(** The operations of a device that the transport calls, beyond those of [virtio_ops]. The
    device's configuration space is its bytes; [po_queues] is the size of its array of queues. *)
Record pci_ops (D : Type) := mkpops {
  po_base : virtio_ops D;
  po_get_config : D -> list Z;
  po_set_config : D -> list Z -> D;
  po_host_features : D -> Z;
  po_init_vq : D -> Z -> Z -> Z -> Z -> D;
  po_size_vq : D -> Z -> Z;
  po_notify_vq : D -> Z -> D;
  po_notify_gsi : option (D -> Z -> Z -> D);
  po_notify_eventfd : option (D -> Z -> Z -> D);
  po_vq_count : D -> Z;
  po_queues : Z;
}.
Arguments po_base {D}. Arguments po_get_config {D}. Arguments po_set_config {D}. Arguments po_host_features {D}.
Arguments po_init_vq {D}. Arguments po_size_vq {D}. Arguments po_notify_vq {D}. Arguments po_notify_gsi {D}.
Arguments po_notify_eventfd {D}. Arguments po_vq_count {D}. Arguments po_queues {D}.

Record pstate (D : Type) := mkpst { vp : virtio_pci; vdev : virtio_device; pdev : D; irqs : irq_state; evs : list event }.
Arguments mkpst {D}. Arguments vp {D}. Arguments vdev {D}. Arguments pdev {D}. Arguments irqs {D}. Arguments evs {D}.

Section transport.
Context {D : Type} (ops : pci_ops D).
(** The routing calls of [Msi] and the answers to [ioeventfd__add_event], [eventfd]. *)
Context (realloc_ok cap_irq_routing : bool) (set_gsi_routing : list routing_entry -> Z) (msix_needs_devid : bool).
Context (add_event : Z -> Z -> Z) (eventfd : Z -> Z).

Definition set_vp (s : pstate D) (v : virtio_pci) : pstate D := mkpst v (vdev s) (pdev s) (irqs s) (evs s).
Definition set_pdev (s : pstate D) (d : D) : pstate D := mkpst (vp s) (vdev s) d (irqs s) (evs s).
Definition set_irqs (s : pstate D) (i : irq_state) : pstate D := mkpst (vp s) (vdev s) (pdev s) i (evs s).
Definition emit (s : pstate D) (l : list event) : pstate D := mkpst (vp s) (vdev s) (pdev s) (irqs s) (evs s ++ l).

Definition kvm__irq_trigger (s : pstate D) (gsi : Z) : pstate D := emit s [IrqLine gsi 1; IrqLine gsi 0].

(** An element of an array of the structure, or of the device's queues. *)
Definition at_ (l : list Z) (i : Z) : out Z := match l !! Z.to_nat i with Some x => Ret x | None => Ub end.
Definition in_queues (q : Z) : bool := q <? po_queues ops.

(** *** Notifications of queues *)

Definition virtio_pci__init_ioeventfd (s : pstate D) (vq : Z) : out (Z * pstate D) :=
  if VIRTIO_PCI_MAX_VQ <=? vq then Ub
  else
    let v := vp s in
    let flags := if negb (use_vhost (vdev s)) then IOEVENTFD_FLAG_USER_POLL else 0 in
    let port := port_addr v + VIRTIO_PCI_QUEUE_NOTIFY in
    let mmio := u32 (mmio_addr v + VIRTIO_PCI_QUEUE_NOTIFY) in
    let r := add_event port vq in
    if negb (r =? 0) then Ret (r, s)
    else
      let s := emit s [AddEvent port vq (flags .| IOEVENTFD_FLAG_PIO)] in
      let r := add_event mmio vq in
      if negb (r =? 0) then Ret (r, emit s [DelEvent port vq])
      else
        let s := emit s [AddEvent mmio vq flags] in
        Ret (0, match po_notify_eventfd ops with Some f => set_pdev s (f (pdev s) vq (eventfd port)) | None => s end).

Definition virtio_pci_exit_vq (s : pstate D) (vq : Z) : out (pstate D) :=
  if in_queues vq then
    let v := vp s in
    let s := emit s [DelEvent (u32 (mmio_addr v + VIRTIO_PCI_QUEUE_NOTIFY)) vq; DelEvent (port_addr v + VIRTIO_PCI_QUEUE_NOTIFY) vq] in
    Ret (set_pdev s (virtio_exit_vq (po_base ops) (pdev s) vq))
  else Ub.

Fixpoint exit_vqs (s : pstate D) (vq : Z) (n : nat) : out (pstate D) :=
  match n with
  | O => Ret s
  | S n => let! s := virtio_pci_exit_vq s vq in exit_vqs s (vq + 1) n
  end.

Definition virtio_pci__reset (s : pstate D) : out (pstate D) := exit_vqs s 0 (Z.to_nat (po_vq_count ops (pdev s))).

(** *** Reads *)

Definition virtio_pci__specific_io_in (s : pstate D) (data : list Z) (offset : Z) : out (bool * list Z) :=
  let v := vp s in
  match virtio__get_dev_specific_field (offset - 20) (virtio_pci__msix_enabled v) with
  | (_, None) =>
      if offset =? VIRTIO_MSI_CONFIG_VECTOR then let! data := put_bytes data 0 (le_enc 2 (config_vector (mx v))) in Ret (true, data)
      else if offset =? VIRTIO_MSI_QUEUE_VECTOR then
        let! x := at_ (vq_vector (mx v)) (queue_selector v) in
        let! data := put_bytes data 0 (le_enc 2 x) in Ret (true, data)
      else Ret (true, data)
  | (_, Some config_offset) =>
      let! cfg := at_ (po_get_config ops (pdev s)) config_offset in
      let! data := put_bytes data 0 [cfg] in Ret (true, data)
  end.

Definition virtio_pci__io_in (s : pstate D) (port : Z) (data : list Z) : out (bool * list Z * pstate D) :=
  let v := vp s in
  let offset := u64 (port - port_addr v) in
  let answer n x := let! data := put_bytes data 0 (le_enc n x) in Ret (true, data, s) in
  if offset =? VIRTIO_PCI_HOST_FEATURES then answer 4%nat (po_host_features ops (pdev s))
  else if offset =? VIRTIO_PCI_QUEUE_PFN then
    if in_queues (queue_selector v) then answer 4%nat (pfn (op_get_vq (po_base ops) (pdev s) (queue_selector v))) else Ub
  else if offset =? VIRTIO_PCI_QUEUE_NUM then answer 2%nat (po_size_vq ops (pdev s) (queue_selector v))
  else if offset =? VIRTIO_PCI_STATUS then answer 1%nat (vp_status v)
  else if offset =? VIRTIO_PCI_ISR then
    let! data := put_bytes data 0 [isr v] in
    let s := emit s [IrqLine (legacy_irq_line v) VIRTIO_IRQ_LOW] in
    Ret (true, data, set_vp s (set_isr v VIRTIO_IRQ_LOW))
  else let! (ret, data) := virtio_pci__specific_io_in s data offset in Ret (ret, data, s).

(** *** Vectors *)

Definition table_msg (t : list Z) (vec : Z) : msi_msg :=
  let w i := le_dec (slice (Z.to_nat (ENTRY_SIZE * vec + 4 * i)) 4 t) in mkmsg (w 0) (w 1) (w 2).
Definition table_ctrl (t : list Z) (vec : Z) : Z := le_dec (slice (Z.to_nat (ENTRY_SIZE * vec + ENTRY_CTRL)) 4 t).

(** [&table[vec]]: past the table nothing is defined. *)
Definition entry_msg (t : list Z) (vec : Z) : out msi_msg :=
  if ENTRY_SIZE * (vec + 1) <=? Z.of_nat (length t) then Ret (table_msg t vec) else Ub.
Definition entry_ctrl (t : list Z) (vec : Z) : out Z :=
  if ENTRY_SIZE * (vec + 1) <=? Z.of_nat (length t) then Ret (table_ctrl t vec) else Ub.

(** The index of the first queue with that vector. *)
Fixpoint find_vector (l : list Z) (vec : Z) : option nat :=
  match l with
  | [] => None
  | x :: l => if x =? vec then Some O else S <$> find_vector l vec
  end.

(** [None] is the end of the process. *)
Definition update_msix_map (s : pstate D) (t : list Z) (vecnum : Z) : out (option (pstate D)) :=
  let x := mx (vp s) in
  let! gsi := if vecnum =? config_vector x then Ret (Some (config_gsi x))
              else match find_vector (vq_vector x) vecnum with
                   | None => Ret None
                   | Some i => let! g := at_ (gsis x) (Z.of_nat i) in Ret (Some g)
                   end in
  match gsi with
  | None => Ret (Some s)
  | Some gsi =>
      if gsi =? 0 then Ret (Some s)
      else
        let! msg := entry_msg t vecnum in
        let! r := irq__update_msix_route set_gsi_routing (irqs s) gsi msg in
        Ret (match r with Some i => Some (set_irqs s i) | None => None end)
  end.

(** The two arms of the switch differ in what they set: [k] stores the number. *)
Definition route_vector (s : pstate D) (vec : Z) (k : pstate D -> Z -> pstate D) : out (option (pstate D)) :=
  if vec =? VIRTIO_MSI_NO_VECTOR then Ret (Some s)
  else
    let! msg := entry_msg (msix_table (mx (vp s))) vec in
    let (gsi, i) := irq__add_msix_route realloc_ok cap_irq_routing set_gsi_routing msix_needs_devid (irqs s) msg (dev_num (vp s) .<< 3) in
    let s := set_irqs s i in
    if (gsi =? - ENXIO) && flag (vp_features (vp s)) VIRTIO_PCI_F_SIGNAL_MSI then Ret (Some s)
    else if gsi <? 0 then Ret None
    else Ret (Some (k s gsi)).

Definition set_config_vector (x : msix) (vec : Z) : msix := mkmsix vec (config_gsi x) (vq_vector x) (gsis x) (msix_pba x) (msix_table x).
Definition set_config_gsi (x : msix) (g : Z) : msix := mkmsix (config_vector x) g (vq_vector x) (gsis x) (msix_pba x) (msix_table x).
Definition set_vq_vector (x : msix) (q vec : Z) : msix :=
  mkmsix (config_vector x) (config_gsi x) (<[Z.to_nat q := vec]> (vq_vector x)) (gsis x) (msix_pba x) (msix_table x).
Definition set_gsi (x : msix) (q g : Z) : msix :=
  mkmsix (config_vector x) (config_gsi x) (vq_vector x) (<[Z.to_nat q := g]> (gsis x)) (msix_pba x) (msix_table x).
Definition set_table (x : msix) (t : list Z) : msix := mkmsix (config_vector x) (config_gsi x) (vq_vector x) (gsis x) (msix_pba x) t.
Definition set_pba (x : msix) (p : Z) : msix := mkmsix (config_vector x) (config_gsi x) (vq_vector x) (gsis x) p (msix_table x).

Definition write_config_vector (s : pstate D) (vec : Z) : out (option (pstate D)) :=
  route_vector (set_vp s (set_mx (vp s) (set_config_vector (mx (vp s)) vec))) vec
    (fun s gsi => set_vp s (set_mx (vp s) (set_config_gsi (mx (vp s)) gsi))).

Definition write_queue_vector (s : pstate D) (vec : Z) : out (option (pstate D)) :=
  let q := queue_selector (vp s) in
  if VIRTIO_PCI_MAX_VQ <=? q then Ub
  else route_vector (set_vp s (set_mx (vp s) (set_vq_vector (mx (vp s)) q vec))) vec
    (fun s gsi =>
       let s := set_vp s (set_mx (vp s) (set_gsi (mx (vp s)) q gsi)) in
       match po_notify_gsi ops with Some f => set_pdev s (f (pdev s) q gsi) | None => s end).

(** *** Writes *)

Definition read_n (n : Z) (data : list Z) : out Z := let! b := get_bytes data 0 n in Ret (le_dec b).

Definition virtio_pci__specific_io_out (s : pstate D) (data : list Z) (offset : Z) : out (option (pstate D)) :=
  match virtio__get_dev_specific_field (offset - 20) (virtio_pci__msix_enabled (vp s)) with
  | (_, None) =>
      if offset =? VIRTIO_MSI_CONFIG_VECTOR then let! vec := read_n 2 data in write_config_vector s vec
      else if offset =? VIRTIO_MSI_QUEUE_VECTOR then let! vec := read_n 2 data in write_queue_vector s vec
      else Ret (Some s)
  | (_, Some config_offset) =>
      let cfg := po_get_config ops (pdev s) in
      let! _ := at_ cfg config_offset in
      let! b := read_n 1 data in
      Ret (Some (set_pdev s (po_set_config ops (pdev s) (<[Z.to_nat config_offset := b]> cfg))))
  end.

(** [virtio_notify_status] with [reset] as the transport's. The device and the transport
    change together: a reset that leaves the device's array is undefined. *)
Definition lifted_ops : virtio_ops (out (pstate D)) :=
  let lift f r := let! s := r in Ret (set_pdev s (f (pdev s))) in
  mkops _ (fun r x => lift (fun d => op_set_guest_features (po_base ops) d x) r)
    (option_map (fun f r q => lift (fun d => f d q) r) (op_exit_vq (po_base ops)))
    (option_map (fun f r x => lift (fun d => f d x) r) (op_notify_status (po_base ops)))
    (fun r => let! s := r in virtio_pci__reset s)
    (fun r q => match r with Ret s => op_get_vq (po_base ops) (pdev s) q | _ => zero_vq end)
    (fun r q x => lift (fun d => op_put_vq (po_base ops) d q x) r).

Definition set_vdev (s : pstate D) (v : virtio_device) : pstate D := mkpst (vp s) v (pdev s) (irqs s) (evs s).

Definition write_status (s : pstate D) (x : Z) (endian : Z) : out (pstate D) :=
  let s := set_vp s (set_vp_status (vp s) x) in
  let v := vdev s in
  let v := if x =? 0 then mkvdev (use_vhost v) endian (features v) (status v) else v in
  let (v, r) := virtio_notify_status lifted_ops v (Ret s) x in
  let! s := r in Ret (set_vdev s v).

(** The byte order of the guest is sampled at a reset. *)
Context (kvm_cpu__get_endianness : Z).

Definition virtio_pci__io_out (s : pstate D) (port : Z) (data : list Z) : out (option (pstate D)) :=
  let v := vp s in
  let offset := u64 (port - port_addr v) in
  if offset =? VIRTIO_PCI_GUEST_FEATURES then
    let! val := read_n 4 data in
    let (vd, d) := virtio_set_guest_features (po_base ops) (vdev s) (pdev s) val in
    Ret (Some (set_vdev (set_pdev s d) vd))
  else if offset =? VIRTIO_PCI_QUEUE_PFN then
    let! val := read_n 4 data in
    if negb (val =? 0) then
      let! (_, s) := virtio_pci__init_ioeventfd s (queue_selector v) in
      if in_queues (queue_selector v) then
        Ret (Some (set_pdev s (po_init_vq ops (pdev s) (queue_selector v) (1 .<< VIRTIO_PCI_QUEUE_ADDR_SHIFT) VIRTIO_PCI_VRING_ALIGN val)))
      else Ub
    else let! s := virtio_pci_exit_vq s (queue_selector v) in Ret (Some s)
  else if offset =? VIRTIO_PCI_QUEUE_SEL then
    let! val := read_n 2 data in Ret (Some (set_vp s (set_selector v val)))
  else if offset =? VIRTIO_PCI_QUEUE_NOTIFY then
    let! val := read_n 2 data in Ret (Some (set_pdev s (po_notify_vq ops (pdev s) val)))
  else if offset =? VIRTIO_PCI_STATUS then
    let! val := read_n 1 data in
    let! s := write_status s val kvm_cpu__get_endianness in Ret (Some s)
  else virtio_pci__specific_io_out s data offset.

(** *** The table of vectors in memory *)

Definition virtio_pci__msix_mmio_callback (s : pstate D) (addr : Z) (data : list Z) (len : Z) (is_write : bool)
    : out (option (list Z * pstate D)) :=
  let v := vp s in let x := mx v in
  let pba_at := u32 (msix_io_block v + PCI_IO_SIZE) in
  if pba_at <? addr then
    if is_write then Ret (Some (data, s))
    else
      (* The table follows the pending bits in the structure. *)
      let! b := get_bytes (le_enc 8 (msix_pba x) ++ msix_table x) (addr - pba_at) len in
      let! data := put_bytes data 0 b in Ret (Some (data, s))
  else
    let offset := u64 (addr - msix_io_block v) in
    if negb is_write then
      let! b := get_bytes (msix_table x) offset len in
      let! data := put_bytes data 0 b in Ret (Some (data, s))
    else
      let! b := get_bytes data 0 len in
      let! t := put_bytes (msix_table x) offset b in
      let s := set_vp s (set_mx v (set_table x t)) in
      if offset mod ENTRY_SIZE <? ENTRY_CTRL then
        let! r := update_msix_map s t (offset / ENTRY_SIZE) in
        Ret (match r with Some s => Some (data, s) | None => None end)
      else Ret (Some (data, s)).

(** *** Interrupts *)

Definition virtio_pci__signal_msi (s : pstate D) (vec : Z) : out (pstate D) :=
  let! msg := entry_msg (msix_table (mx (vp s))) vec in
  Ret (emit s [SignalMsi msg (if msix_needs_devid then KVM_MSI_VALID_DEVID else 0) (if msix_needs_devid then dev_num (vp s) .<< 3 else 0)]).

(** [1 << tbl] is of type [int] and converted to 64 bits. *)
Definition int_bit (tbl : Z) : out Z := if tbl <? 31 then Ret (1 .<< tbl) else Ub.

Definition signal_vector (s : pstate D) (tbl gsi isr_bit : Z) : out (pstate D) :=
  let v := vp s in
  if virtio_pci__msix_enabled v && negb (tbl =? VIRTIO_MSI_NO_VECTOR) then
    let! masked := if flag (msix_ctrl v) PCI_MSIX_FLAGS_MASKALL then Ret true
                   else let! c := entry_ctrl (msix_table (mx v)) tbl in Ret (flag c PCI_MSIX_ENTRY_CTRL_MASKBIT) in
    if masked : bool then
      let! b := int_bit tbl in Ret (set_vp s (set_mx v (set_pba (mx v) (msix_pba (mx v) .| b))))
    else if flag (vp_features v) VIRTIO_PCI_F_SIGNAL_MSI then virtio_pci__signal_msi s tbl
    else Ret (kvm__irq_trigger s gsi)
  else Ret (kvm__irq_trigger (set_vp s (set_isr v isr_bit)) (legacy_irq_line v)).

Definition virtio_pci__signal_vq (s : pstate D) (vq : Z) : out (pstate D) :=
  let! tbl := at_ (vq_vector (mx (vp s))) vq in
  let! gsi := at_ (gsis (mx (vp s))) vq in
  signal_vector s tbl gsi VIRTIO_IRQ_HIGH.

Definition virtio_pci__signal_config (s : pstate D) : out (pstate D) :=
  signal_vector s (config_vector (mx (vp s))) (config_gsi (mx (vp s))) VIRTIO_PCI_ISR_CONFIG.
End transport.

(** *** Creation *)

(** The header that [virtio_pci__init] fills in, once the line is assigned. *)
Definition virtio_header (device_id subsys_id class port mmio io_block irq_line : Z) : list Z :=
  le_enc 2 0x1af4 ++ le_enc 2 device_id ++ le_enc 2 3 ++ le_enc 2 0x10 ++
  [0; class .& 0xff; (class .>> 8) .& 0xff; (class .>> 16) .& 0xff; 0; 0; 0; 0] ++
  le_enc 4 (port .| 1) ++ le_enc 4 mmio ++ le_enc 4 io_block ++ repeat 0 16 ++
  le_enc 2 0x1af4 ++ le_enc 2 subsys_id ++ repeat 0 4 ++ [MSIX_CAP] ++ repeat 0 7 ++
  [irq_line; 1; 0; 0] ++
  [0x11; 0] ++ le_enc 2 (VIRTIO_PCI_MAX_VQ + VIRTIO_PCI_MAX_CONFIG - 1) ++ le_enc 4 2 ++ le_enc 4 (2 .| PCI_IO_SIZE) ++
  repeat 0 180 ++ le_enc 4 IOPORT_SIZE ++ le_enc 4 IOPORT_SIZE ++ le_enc 4 (PCI_IO_SIZE * 2) ++ repeat 0 12.

Definition zero_msix : msix :=
  mkmsix 0 0 (repeat 0 (Z.to_nat VIRTIO_PCI_MAX_VQ)) (repeat 0 (Z.to_nat VIRTIO_PCI_MAX_VQ)) 0
    (repeat 0 (Z.to_nat (ENTRY_SIZE * (VIRTIO_PCI_MAX_VQ + VIRTIO_PCI_MAX_CONFIG)))).

(** What a failure gives back. *)
Inductive undo := DeregisterMmio (addr : Z) | UnregisterPort (port : Z).

(** The results of the registrations are arguments, in the order in which they are made;
    [num] and [irq_line] are what [device__register] assigns. *)
Definition virtio_pci__init (device_id subsys_id class io_space_blocks : Z)
  (port_r mmio_r msix_r device_r num irq_line : Z) (can_signal_msi : bool) : Z * list undo * option virtio_pci * Z :=
  if port_r <? 0 then (port_r, [], None, io_space_blocks)
  else
    let port := u16 port_r in
    let (mmio, blocks) := pci_get_io_space_block io_space_blocks IOPORT_SIZE in
    if mmio_r <? 0 then (mmio_r, [UnregisterPort port], None, blocks)
    else
      let (io_block, blocks) := pci_get_io_space_block blocks (PCI_IO_SIZE * 2) in
      if msix_r <? 0 then (msix_r, [DeregisterMmio mmio; UnregisterPort port], None, blocks)
      else if device_r <? 0 then (device_r, [DeregisterMmio io_block; DeregisterMmio mmio; UnregisterPort port], None, blocks)
      else
        (0, [], Some (mkvpci (virtio_header device_id subsys_id class port mmio io_block irq_line) num port mmio io_block 0 0
           (if can_signal_msi then VIRTIO_PCI_F_SIGNAL_MSI else 0) irq_line 0 zero_msix), blocks).

(** The device lets go of its queues, then of its places on the buses. *)
Definition virtio_pci__exit {D : Type} (ops : pci_ops D) (s : pstate D) : out (pstate D * list undo) :=
  let v := vp s in
  let! s := virtio_pci__reset ops s in
  Ret (s, [DeregisterMmio (mmio_addr v); DeregisterMmio (msix_io_block v); UnregisterPort (port_addr v)]).

(** The port that an access to the memory window stands for. *)
Definition virtio_pci__io_mmio_callback (v : virtio_pci) (addr : Z) : Z := u16 (port_addr v + (addr .& (IOPORT_SIZE - 1))).

(** The three base addresses of the header are ones that a driver can size (see [Pci]). *)
Lemma virtio_header_bars device_id subsys_id class port mmio io_block irq_line b :
  fits 16 port -> fits 32 mmio -> fits 32 io_block -> mmio <> 0 -> io_block <> 0 -> fits 8 irq_line -> 0 <= b < 3 ->
  plain_bar (mkpci (virtio_header device_id subsys_id class port mmio io_block irq_line) None None) b.
Proof.
  intros Hp Hm Hi Nm Ni Hl Hb. set (h := virtio_header _ _ _ _ _ _ _).
  assert (byte_ok h) as Hby.
  { unfold h, virtio_header, byte_ok. rewrite !Forall_app.
    repeat match goal with |- _ /\ _ => split end; try apply le_enc_bytes; try (apply Forall_true; reflexivity);
      try (apply byte_ok_check; vm_compute; reflexivity).
    - assert (forall x, fits 8 (x .& 255)) as F by (intros x; change 255 with (Z.ones 8); rewrite Z.land_ones by lia; apply (wrap_fits 8); lia).
      repeat (constructor; [first [apply F | unfold fits; lia] |]). constructor.
    - constructor; [exact Hl |]. repeat (constructor; [unfold fits; lia |]). constructor. }
  assert (le_dec (le_enc 4 (port .| 1)) <> 0) as P.
  { rewrite le_dec_enc. assert (fits 32 (port .| 1)) as F by (apply fits_lor; [lia | unfold fits in *; lia | unfold fits; lia]).
    rewrite wrap_id by exact F. intros E. apply Z.lor_eq_0_iff in E. lia. }
  assert (forall x, fits 32 x -> x <> 0 -> le_dec (le_enc 4 x) <> 0) as Q by (intros x F N; rewrite le_dec_enc, wrap_id; done).
  assert (b = 0 \/ b = 1 \/ b = 2) as [-> | [-> | ->]] by lia;
    (split; [done | done | reflexivity | exact Hby | lia | |]).
  - exact P.
  - change (le_dec (le_enc 4 IOPORT_SIZE) <> 0). by apply Q.
  - by apply (Q mmio).
  - change (le_dec (le_enc 4 IOPORT_SIZE) <> 0). by apply Q.
  - by apply (Q io_block).
  - change (le_dec (le_enc 4 (PCI_IO_SIZE * 2)) <> 0). by apply Q.
Qed.

(** ** Vectors and routes *)

(** Who has a vector: configuration changes, or a queue. *)
Inductive holder := HConfig | HQueue (q : nat).

#[export] Instance holder_eq_dec : EqDecision holder.
Proof. solve_decision. Defined.

Definition vec_of (x : msix) (h : holder) : option Z := match h with HConfig => Some (config_vector x) | HQueue q => vq_vector x !! q end.
Definition gsi_of (x : msix) (h : holder) : option Z := match h with HConfig => Some (config_gsi x) | HQueue q => gsis x !! q end.

(** The one whose route [update_msix_map] changes. *)
Definition first_holder (x : msix) (vec : Z) : option holder :=
  if vec =? config_vector x then Some HConfig else HQueue <$> find_vector (vq_vector x) vec.

(** [h] has an interrupt of its own: a vector and a number. *)
Definition holds (x : msix) (h : holder) (vec gsi : Z) : Prop :=
  vec_of x h = Some vec /\ gsi_of x h = Some gsi /\ gsi <> 0 /\ vec <> VIRTIO_MSI_NO_VECTOR.

(** The kernel's routes are the table's messages. *)
Record mapped (x : msix) (i : irq_state) : Prop := {
  mp_irq : irq_ok i;
  mp_next : 0 < next_gsi i;
  mp_has : 0 <= has_irq_routing i;
  mp_vecs : length (vq_vector x) = Z.to_nat VIRTIO_PCI_MAX_VQ;
  mp_gsis : length (gsis x) = Z.to_nat VIRTIO_PCI_MAX_VQ;
  mp_table : Z.of_nat (length (msix_table x)) = ENTRY_SIZE * (VIRTIO_PCI_MAX_VQ + VIRTIO_PCI_MAX_CONFIG);
  mp_range : forall h g, gsi_of x h = Some g -> 0 <= g < next_gsi i;
  mp_inj : forall h h' g, gsi_of x h = Some g -> gsi_of x h' = Some g -> g <> 0 -> h = h';
  mp_first : forall h v g, holds x h v g -> first_holder x v = Some h;
  mp_route : forall h v g, holds x h v g -> 0 <= v < VIRTIO_PCI_MAX_VQ + VIRTIO_PCI_MAX_CONFIG /\
    exists e, route_of (kernel_routes i) g = Some e /\ msi_of e = table_msg (msix_table x) v;
}.

Lemma find_vector_spec l v n : find_vector l v = Some n <-> l !! n = Some v /\ forall j, (j < n)%nat -> l !! j <> Some v.
Proof.
  revert n. induction l as [| a l IH]; intros n; cbn [find_vector]; [split; [done | by intros [? _]] |].
  destruct (Z.eqb_spec a v) as [-> | NE].
  - split; [intros [= <-]; split; [done | lia] |]. intros [H F]. destruct n; [done |]. by destruct (F O ltac:(lia)).
  - split.
    + destruct (find_vector l v) as [m |]; [| done]. intros [= <-]. destruct (proj1 (IH m) eq_refl) as [H F].
      split; [exact H |]. intros [| j] Hj; cbn; [congruence | apply F; lia].
    + intros [H F]. destruct n as [| n]; [cbn in H; congruence |]. rewrite (proj2 (IH n)); [done |].
      split; [exact H |]. intros j Hj. apply (F (S j)). lia.
Qed.

Lemma find_vector_none l v : find_vector l v = None <-> forall n, l !! n <> Some v.
Proof.
  split.
  - intros H n E. induction l as [| a l IH] in n, H, E |- *; [done |]. cbn [find_vector] in H.
    destruct (Z.eqb_spec a v); [done |]. destruct (find_vector l v); [done |]. destruct n; [cbn in E; congruence | by apply (IH eq_refl n)].
  - intros H. destruct (find_vector l v) as [n |] eqn:E; [| done]. apply find_vector_spec in E as [E _]. by destruct (H n).
Qed.

(** Any holder that comes first and has no other holder of an interrupt beside it. *)
Lemma first_holder_none x i v : mapped x i -> forall h g, holds x h v g -> first_holder x v <> None.
Proof. intros M h g H. by rewrite (mp_first x i M h v g H). Qed.

Lemma zero_mapped i : irq_ok i -> 0 < next_gsi i -> 0 <= has_irq_routing i -> mapped zero_msix i.
Proof.
  intros H1 H2 H3.
  assert (forall h g, gsi_of zero_msix h = Some g -> g = 0) as Z0.
  { intros [| q] g; cbn [gsi_of zero_msix config_gsi gsis]; [by intros [= <-] |].
    intros E. apply list_elem_of_lookup_2, list_elem_of_In, repeat_spec in E. done. }
  split; try done.
  - intros h g E. rewrite (Z0 h g E). lia.
  - intros h h' g E _ N. by rewrite (Z0 h g E) in N.
  - intros h v g (_ & E & N & _). by rewrite (Z0 h g E) in N.
  - intros h v g (_ & E & N & _). by rewrite (Z0 h g E) in N.
Qed.

(** The order in which the code looks for the holder of a vector. *)
Definition before (h h' : holder) : Prop :=
  match h, h' with HConfig, HQueue _ => True | HQueue a, HQueue b => (a < b)%nat | _, _ => False end.

Lemma before_irrefl h h' : before h h' -> before h' h -> False.
Proof. destruct h, h'; cbn; lia. Qed.

Lemma before_total h h' : h <> h' -> before h h' \/ before h' h.
Proof. destruct h as [| a], h' as [| b]; cbn; intros N; try tauto; destruct (Nat.lt_trichotomy a b) as [H | [H | H]]; subst; tauto. Qed.

Lemma first_holder_spec x v h : first_holder x v = Some h <-> vec_of x h = Some v /\ forall h', before h' h -> vec_of x h' <> Some v.
Proof.
  unfold first_holder. destruct (Z.eqb_spec v (config_vector x)) as [-> | NE]; split.
  - intros [= <-]. split; [done |]. by intros [| ?].
  - intros [H F]. destruct h as [| q]; [done |]. by destruct (F HConfig I).
  - intros H. destruct (find_vector (vq_vector x) v) as [n |] eqn:E; [| done]. injection H as <-.
    apply find_vector_spec in E as [E F]. split; [exact E |]. intros [| j] Hj; cbn; [congruence | by apply F].
  - intros [H F]. destruct h as [| q]; [cbn in H; congruence |].
    rewrite (proj2 (find_vector_spec _ _ q)); [done |]. split; [exact H |]. intros j Hj. by apply (F (HQueue j)).
Qed.

Lemma first_holder_none_spec x v h : first_holder x v = None -> vec_of x h <> Some v.
Proof.
  unfold first_holder. destruct (Z.eqb_spec v (config_vector x)) as [-> | NE]; [done |].
  destruct (find_vector (vq_vector x) v) eqn:E; [done |]. intros _. destruct h as [| q]; cbn; [congruence |].
  by apply find_vector_none.
Qed.

Definition set_vec (x : msix) (h : holder) (v : Z) : msix :=
  match h with HConfig => set_config_vector x v | HQueue q => set_vq_vector x (Z.of_nat q) v end.
Definition set_gsi_of (x : msix) (h : holder) (g : Z) : msix :=
  match h with HConfig => set_config_gsi x g | HQueue q => set_gsi x (Z.of_nat q) g end.

(** A queue that the structure has room for. *)
Definition in_range (h : holder) : Prop := match h with HConfig => True | HQueue q => Z.of_nat q < VIRTIO_PCI_MAX_VQ end.

Lemma vec_of_set x h v h' : length (vq_vector x) = Z.to_nat VIRTIO_PCI_MAX_VQ -> in_range h ->
  vec_of (set_vec x h v) h' = if decide (h' = h) then Some v else vec_of x h'.
Proof.
  intros L R. destruct h as [| q], h' as [| q']; cbn; try reflexivity.
  - rewrite Nat2Z.id. cbn in R. unfold VIRTIO_PCI_MAX_VQ in *. case_decide as E.
    + injection E as ->. apply list_lookup_insert_eq. lia.
    + apply list_lookup_insert_ne. congruence.
Qed.

Lemma gsi_of_set_vec x h v h' : gsi_of (set_vec x h v) h' = gsi_of x h'.
Proof. by destruct h, h'. Qed.

Lemma vec_of_set_gsi x h g h' : vec_of (set_gsi_of x h g) h' = vec_of x h'.
Proof. by destruct h, h'. Qed.

Lemma gsi_of_set x h g h' : length (gsis x) = Z.to_nat VIRTIO_PCI_MAX_VQ -> in_range h ->
  gsi_of (set_gsi_of x h g) h' = if decide (h' = h) then Some g else gsi_of x h'.
Proof.
  intros L R. destruct h as [| q], h' as [| q']; cbn; try reflexivity.
  - rewrite Nat2Z.id. cbn in R. unfold VIRTIO_PCI_MAX_VQ in *. case_decide as E.
    + injection E as ->. apply list_lookup_insert_eq. lia.
    + apply list_lookup_insert_ne. congruence.
Qed.

(** What a driver takes care of when it gives [h] the vector [v]: nobody else uses it. *)
Definition sole (x : msix) (h : holder) (v : Z) : Prop :=
  forall h', h' <> h -> vec_of x h' = Some v -> before h h' /\ gsi_of x h' = Some 0.

Lemma mapped_no_vector x i h : mapped x i -> in_range h -> mapped (set_vec x h VIRTIO_MSI_NO_VECTOR) i.
Proof.
  intros M R. pose proof M as [M1 M2 M3 M4 M5 M6 M7 M8 M9 M10].
  assert (forall h' v g, holds (set_vec x h VIRTIO_MSI_NO_VECTOR) h' v g -> h' <> h /\ holds x h' v g) as Hd.
  { intros h' v g (V & G & N & NV). rewrite vec_of_set in V by done. rewrite gsi_of_set_vec in G.
    case_decide as E; [congruence |]. done. }
  split; try done; try (by destruct h; cbn; rewrite ?length_insert).
  - intros h' v g H. destruct (Hd h' v g H) as [N H']. pose proof (M9 h' v g H') as F. apply first_holder_spec in F as [F1 F2].
    apply first_holder_spec. destruct H as (V & _ & _ & NV). split; [exact V |].
    intros h2 B. rewrite vec_of_set by done. case_decide; [congruence | by apply F2].
  - intros h' v g H. destruct (Hd h' v g H) as [N H']. destruct (M10 h' v g H') as (A & e & B & C). split; [done |]. exists e.
    split; [done |]. by destruct h.
Qed.

Section vectors.
Context (set_gsi_routing : list routing_entry -> Z) (Hset : forall l, set_gsi_routing l = 0) (devid_needed : bool).

Lemma entry_msg_ok x i v : mapped x i -> 0 <= v < VIRTIO_PCI_MAX_VQ + VIRTIO_PCI_MAX_CONFIG ->
  entry_msg (msix_table x) v = Ret (table_msg (msix_table x) v).
Proof.
  intros M Hv. unfold entry_msg. rewrite (mp_table x i M). unfold VIRTIO_PCI_MAX_VQ, VIRTIO_PCI_MAX_CONFIG, ENTRY_SIZE in *.
  by rewrite (proj2 (Z.leb_le _ _)) by lia.
Qed.

(** Giving [h] a vector of its own and routing it. *)
Lemma mapped_new_vector x i h v dev : mapped x i -> in_range h -> sole x h v ->
  0 <= v < VIRTIO_PCI_MAX_VQ + VIRTIO_PCI_MAX_CONFIG ->
  exists i', irq__add_msix_route true true set_gsi_routing devid_needed i (table_msg (msix_table x) v) dev = (next_gsi i, i') /\
    mapped (set_gsi_of (set_vec x h v) h (next_gsi i)) i'.
Proof.
  intros M R So Hv. pose proof M as [M1 M2 M3 M4 M5 M6 M7 M8 M9 M10].
  destruct (add_msix_route_spec set_gsi_routing Hset devid_needed i (table_msg (msix_table x) v) dev M1 ltac:(lia) ltac:(lia) M3)
    as (i' & -> & I' & N' & C' & Rt). exists i'. split; [done |].
  set (x' := set_gsi_of (set_vec x h v) h (next_gsi i)).
  assert (length (gsis (set_vec x h v)) = Z.to_nat VIRTIO_PCI_MAX_VQ) as L5 by (by destruct h).
  assert (forall h', vec_of x' h' = if decide (h' = h) then Some v else vec_of x h') as V'.
  { intros h'. unfold x'. by rewrite vec_of_set_gsi, vec_of_set. }
  assert (forall h', gsi_of x' h' = if decide (h' = h) then Some (next_gsi i) else gsi_of x h') as G'.
  { intros h'. unfold x'. rewrite gsi_of_set, gsi_of_set_vec by done. done. }
  assert (msix_table x' = msix_table x) as T' by (by destruct h).
  assert (forall h' v' g, holds x' h' v' g -> h' <> h -> holds x h' v' g /\ v' <> v) as Hd.
  { intros h' v' g (V & G & N & NV) NE. rewrite V', G' in *. rewrite decide_False in V, G by done. split; [done |].
    intros ->. destruct (So h' NE V) as [_ Z0]. congruence. }
  split; try done; try lia; try (by destruct h; cbn; rewrite ?length_insert); try (by rewrite T').
  - intros h' g. rewrite G'. case_decide; [intros [= <-]; lia |]. intros E. pose proof (M7 h' g E). lia.
  - intros h1 h2 g. rewrite !G'. repeat case_decide; subst; try done.
    + intros [= <-] E _. pose proof (M7 h2 _ E). lia.
    + intros E [= <-] _. pose proof (M7 h1 _ E). lia.
    + apply M8.
  - intros h' v' g H. apply first_holder_spec. destruct (decide (h' = h)) as [-> | NE].
    + destruct H as (V & _). rewrite V', decide_True in V by done. injection V as <-. rewrite V', decide_True by done. split; [done |].
      intros h2 B. rewrite V'. case_decide as E; [subst; by destruct (before_irrefl h h) |].
      intros E2. destruct (So h2 E E2) as [B2 _]. by apply (before_irrefl h h2).
    + destruct (Hd h' v' g H NE) as [H' Nv]. pose proof (M9 h' v' g H') as F. apply first_holder_spec in F as [F1 F2].
      rewrite V', decide_False by done. split; [exact F1 |]. intros h2 B. rewrite V'. case_decide; [congruence | by apply F2].
  - intros h' v' g H. rewrite T'. destruct (decide (h' = h)) as [-> | NE].
    + destruct H as (V & G & _). rewrite V', decide_True in V by done. rewrite G', decide_True in G by done. injection V as <-. injection G as <-.
      split; [done |]. exists (msi_entry devid_needed (next_gsi i) (table_msg (msix_table x) v) dev).
      rewrite Rt, Z.eqb_refl. split; [done |]. done.
    + destruct (Hd h' v' g H NE) as [H' Nv]. destruct (M10 h' v' g H') as (A & e & B & C). split; [done |]. exists e.
      rewrite Rt. destruct H' as (_ & G & _). pose proof (M7 h' g G). rewrite (proj2 (Z.eqb_neq _ _)) by lia. done.
Qed.

(** A new table that differs in one entry's message, and the route of that entry's holder. *)
Lemma mapped_new_table x i t v : mapped x i -> length t = length (msix_table x) -> 0 <= v < VIRTIO_PCI_MAX_VQ + VIRTIO_PCI_MAX_CONFIG ->
  (forall v', v' <> v -> 0 <= v' -> table_msg t v' = table_msg (msix_table x) v') ->
  match first_holder x v with
  | None => mapped (set_table x t) i
  | Some h => forall g, gsi_of x h = Some g ->
      if g =? 0 then mapped (set_table x t) i
      else exists i', irq__update_msix_route set_gsi_routing i g (table_msg t v) = Ret (Some i') /\ mapped (set_table x t) i'
  end.
Proof.
  intros M L Hv Ho. pose proof M as [M1 M2 M3 M4 M5 M6 M7 M8 M9 M10].
  assert ((forall h g, ~ holds x h v g) -> mapped (set_table x t) i) as Hnone.
  { intros Hn. split; try done; [cbn; by rewrite L |]. intros h' v' g H. destruct (decide (v' = v)) as [-> | N]; [by destruct (Hn h' g) |].
    destruct (M10 h' v' g H) as (A & e & B & C). split; [done |]. exists e. split; [done |]. cbn. rewrite Ho by lia. done. }
  destruct (first_holder x v) as [h |] eqn:Fh.
  - intros g Hg. destruct (Z.eqb_spec g 0) as [-> | Ng].
    + apply Hnone. intros h' g' H. pose proof (M9 h' v g' H) as F. rewrite Fh in F. injection F as <-. destruct H as (_ & G & N & _). congruence.
    + pose proof Fh as F. apply first_holder_spec in F as [F _].
      assert (holds x h v g) as Hh by (repeat (split; [done |]); unfold VIRTIO_PCI_MAX_VQ, VIRTIO_PCI_MAX_CONFIG, VIRTIO_MSI_NO_VECTOR in *; lia).
      destruct (M10 h v g Hh) as (_ & e & B & C).
      destruct (update_msix_route_spec set_gsi_routing Hset i g (table_msg t v) e M1 B) as (i' & -> & I' & N' & C' & Rt).
      exists i'. split; [done |]. split; try done; try lia; try (by rewrite ?N', ?C'); try (cbn; by rewrite L).
      intros h' v' g' H. destruct (M10 h' v' g' H) as (A & e' & B' & Cm). split; [done |]. rewrite Rt. cbn.
      destruct (Z.eqb_spec g' g) as [-> | NE].
      * assert (h' = h) as -> by (destruct H as (_ & G & _); by apply (M8 h' h g)).
        assert (v' = v) as -> by (destruct H as (V & _), Hh as (V2 & _); change (vec_of x h = Some v') in V; congruence).
        eexists. split; [done |]. unfold update_data, msi_of. destruct (re_u e) as [[[? ?] ?] ?].
        change (msix_table (set_table x t)) with t. by destruct (table_msg t v).
      * exists e'. split; [done |]. rewrite Ho; [done | | lia]. intros ->. pose proof (M9 h' v g' H) as F'. rewrite Fh in F'. injection F' as <-.
        destruct H as (_ & G & _). change (gsi_of x h = Some g') in G. congruence.
  - apply Hnone. intros h g (V & _). by apply (first_holder_none_spec x v h Fh).
Qed.
End vectors.

(** The condition on a driver, as a check. *)
Definition sole_b (x : msix) (h : holder) (v : Z) : bool :=
  match h with
  | HConfig => forallb (fun q => negb (bool_decide (vq_vector x !! q = Some v)) || bool_decide (gsis x !! q = Some 0)) (seq 0 (length (vq_vector x)))
  | HQueue n => negb (config_vector x =? v) &&
      forallb (fun q => bool_decide (q = n) || negb (bool_decide (vq_vector x !! q = Some v)) || (bool_decide (n < q)%nat && bool_decide (gsis x !! q = Some 0)))
        (seq 0 (length (vq_vector x)))
  end.

Lemma sole_check x h v : sole_b x h v = true -> sole x h v.
Proof.
  destruct h as [| n]; cbn [sole_b]; intros H [| q] N E; try done.
  - rewrite forallb_forall in H. specialize (H q ltac:(apply in_seq; cbn in E; apply lookup_lt_Some in E; lia)).
    cbn in E |- *. rewrite bool_decide_eq_true_2 in H by done. cbn in H. by apply bool_decide_eq_true_1 in H.
  - cbn in E. injection E as E. by rewrite E, Z.eqb_refl in H.
  - apply andb_prop in H as [_ H]. rewrite forallb_forall in H. specialize (H q ltac:(apply in_seq; cbn in E; apply lookup_lt_Some in E; lia)).
    cbn in E |- *. rewrite (bool_decide_eq_false_2 (q = n)) in H by congruence. rewrite bool_decide_eq_true_2 in H by done.
    cbn in H. apply andb_prop in H as [H1 H2]. apply bool_decide_eq_true_1 in H1, H2. done.
Qed.

(** ** A driver at work *)

Section drive.
Context {D : Type} (ops : pci_ops D) (set_gsi_routing : list routing_entry -> Z) (Hset : forall l, set_gsi_routing l = 0) (devid_needed : bool).

Definition vec_ok (x : msix) (h : holder) (v : Z) : Prop := v = VIRTIO_MSI_NO_VECTOR \/ sole x h v.

(** What may happen between two interrupts: the driver gives out vectors, each to one holder,
    and writes to the table, an access within one entry at a time; and whatever leaves the
    vectors, the table and the routes alone. *)
Inductive drive : pstate D -> pstate D -> Prop :=
| drive_config s v s' : 0 <= v -> vec_ok (mx (vp s)) HConfig v ->
    write_config_vector true true set_gsi_routing devid_needed s v = Ret (Some s') -> drive s s'
| drive_queue s v s' : 0 <= v -> 0 <= queue_selector (vp s) -> vec_ok (mx (vp s)) (HQueue (Z.to_nat (queue_selector (vp s)))) v ->
    write_queue_vector ops true true set_gsi_routing devid_needed s v = Ret (Some s') -> drive s s'
| drive_table s addr data len data' s' : fits 64 addr -> 0 <= msix_io_block (vp s) -> msix_io_block (vp s) <= addr -> 0 < len ->
    (addr - msix_io_block (vp s)) mod ENTRY_SIZE + len <= ENTRY_SIZE ->
    virtio_pci__msix_mmio_callback set_gsi_routing s addr data len true = Ret (Some (data', s')) -> drive s s'
| drive_other s s' p : mx (vp s') = set_pba (mx (vp s)) p -> irqs s' = irqs s -> drive s s'.

Definition pmapped (s : pstate D) : Prop := mapped (mx (vp s)) (irqs s).

Lemma route_vector_mapped s v k s' h : pmapped s -> 0 <= v -> in_range h -> vec_ok (mx (vp s)) h v ->
  (forall s g, mx (vp (k s g)) = set_gsi_of (mx (vp s)) h g /\ irqs (k s g) = irqs s) ->
  route_vector true true set_gsi_routing devid_needed (set_vp s (set_mx (vp s) (set_vec (mx (vp s)) h v))) v k = Ret (Some s') -> pmapped s'.
Proof.
  intros M Hv R So Hk. unfold route_vector. destruct (Z.eqb_spec v VIRTIO_MSI_NO_VECTOR) as [-> | NE].
  - intros [= <-]. by apply mapped_no_vector.
  - destruct So as [-> | So]; [done |]. cbn [set_vp vp set_mx mx]. assert (msix_table (set_vec (mx (vp s)) h v) = msix_table (mx (vp s))) as -> by (by destruct h).
    destruct (entry_msg (msix_table (mx (vp s))) v) as [msg | |] eqn:Em; [| done | done].
    assert (0 <= v < VIRTIO_PCI_MAX_VQ + VIRTIO_PCI_MAX_CONFIG) as Hv'.
    { unfold entry_msg in Em. rewrite (mp_table _ _ M) in Em. destruct (Z.leb_spec (ENTRY_SIZE * (v + 1)) (ENTRY_SIZE * (VIRTIO_PCI_MAX_VQ + VIRTIO_PCI_MAX_CONFIG)));
      [| done]. unfold ENTRY_SIZE in *. lia. }
    rewrite (entry_msg_ok _ _ _ M Hv') in Em. injection Em as <-.
    destruct (mapped_new_vector set_gsi_routing Hset devid_needed _ _ h v (dev_num (vp s) .<< 3) M R So Hv') as (i' & E & M').
    match goal with |- context [irq__add_msix_route _ _ _ _ ?i0 ?m ?d] => change i0 with (irqs s); change d with (dev_num (vp s) .<< 3) end.
    rewrite E. pose proof (mp_next _ _ M) as Np. rewrite (proj2 (Z.eqb_neq (next_gsi (irqs s)) (- ENXIO))) by (unfold ENXIO; lia).
    rewrite andb_false_l. rewrite (proj2 (Z.ltb_ge _ _)) by lia. intros [= <-]. unfold pmapped.
    destruct (Hk (set_irqs (set_vp s (set_mx (vp s) (set_vec (mx (vp s)) h v))) i') (next_gsi (irqs s))) as [-> ->]. exact M'.
Qed.

(** The number that the code finds for a vector. *)
Lemma first_gsi x v : length (gsis x) = Z.to_nat VIRTIO_PCI_MAX_VQ -> length (vq_vector x) = Z.to_nat VIRTIO_PCI_MAX_VQ ->
  (if v =? config_vector x then Ret (Some (config_gsi x))
   else match find_vector (vq_vector x) v with None => Ret None | Some i => let! g := at_ (gsis x) (Z.of_nat i) in Ret (Some g) end) =
  match first_holder x v with
  | None => Ret None
  | Some h => match gsi_of x h with Some g => Ret (Some g) | None => Ub end
  end.
Proof.
  intros _ _. unfold first_holder. destruct (v =? config_vector x); [done |]. destruct (find_vector (vq_vector x) v) as [n |]; [| done].
  cbn. unfold at_. rewrite Nat2Z.id. by destruct (gsis x !! n).
Qed.

(** The bytes of an entry that a write to another place leaves alone. *)
Lemma table_msg_splice t off b v' : (off + length b <= length t)%nat -> 0 <= v' ->
  (Z.to_nat (ENTRY_SIZE * v' + ENTRY_CTRL) <= off \/ off + length b <= Z.to_nat (ENTRY_SIZE * v'))%nat ->
  table_msg (splice off b t) v' = table_msg t v'.
Proof.
  intros L Hv H. unfold table_msg, ENTRY_SIZE, ENTRY_CTRL in *.
  assert (forall i, 0 <= i <= 2 -> slice (Z.to_nat (16 * v' + 4 * i)) 4 (splice off b t) = slice (Z.to_nat (16 * v' + 4 * i)) 4 t) as S.
  { intros i Hi. destruct H; [apply slice_splice_before | apply slice_splice_after]; lia. }
  by rewrite !S by lia.
Qed.

Lemma drive_mapped s s' : drive s s' -> pmapped s -> pmapped s'.
Proof.
  intros St M. inversion St as [s0 v s1 Hv Hk E | s0 v s1 Hv Hq Hk E | s0 addr data len data' s1 Ha Hb Hab Hl He E | s0 s1 p Hm Hi]; subst; clear St.
  - revert E. unfold write_config_vector. by apply (route_vector_mapped s v _ s' HConfig).
  - revert E. unfold write_queue_vector. destruct (Z.leb_spec VIRTIO_PCI_MAX_VQ (queue_selector (vp s))); [done |].
    replace (set_vq_vector (mx (vp s)) (queue_selector (vp s)) v) with (set_vec (mx (vp s)) (HQueue (Z.to_nat (queue_selector (vp s)))) v)
      by (cbn; by rewrite Z2Nat.id).
    apply route_vector_mapped; try done; [cbn; lia |]. intros s2 g. cbn. rewrite Z2Nat.id by done.
    by destruct (po_notify_gsi ops).
  - revert E. unfold virtio_pci__msix_mmio_callback. destruct (u32 _ <? addr); [by intros [= <- <-] |]. cbn [negb].
    set (off := addr - msix_io_block (vp s)) in *.
    assert (u64 off = off) as Ho by (apply wrap_id; unfold fits, off in *; lia). rewrite Ho.
    destruct (get_bytes data 0 len) as [b | |] eqn:Eb; [| done | done].
    assert (Z.of_nat (length b) = len) as Lb.
    { unfold get_bytes in Eb. destruct (_ && _ && _) eqn:C; [| done]. injection Eb as <-. rewrite length_slice by lia. lia. }
    destruct (put_bytes (msix_table (mx (vp s))) off b) as [t | |] eqn:Et; [| done | done].
    unfold put_bytes in Et. destruct (_ && _) eqn:C; [| done]. injection Et as <-.
    apply andb_prop in C as [C1 C2]. apply Z.leb_le in C1, C2.
    set (t := splice (Z.to_nat off) b (msix_table (mx (vp s)))). set (v := off / ENTRY_SIZE).
    assert (length t = length (msix_table (mx (vp s)))) as Lt by (apply length_splice; lia).
    pose proof (Z.div_mod off ENTRY_SIZE ltac:(done)) as Dm. fold v in Dm. pose proof (Z.mod_pos_bound off ENTRY_SIZE ltac:(done)) as Mb.
    assert (0 <= v < VIRTIO_PCI_MAX_VQ + VIRTIO_PCI_MAX_CONFIG) as Hv.
    { rewrite (mp_table _ _ M) in C2. unfold ENTRY_SIZE, VIRTIO_PCI_MAX_VQ, VIRTIO_PCI_MAX_CONFIG in *. lia. }
    assert (forall v', v' <> v -> 0 <= v' -> table_msg t v' = table_msg (msix_table (mx (vp s))) v') as Hother.
    { intros v' N Hv'. apply table_msg_splice; [lia | done |]. unfold ENTRY_SIZE, ENTRY_CTRL in *. lia. }
    destruct (off mod ENTRY_SIZE <? ENTRY_CTRL) eqn:Ec.
    + pose proof (mapped_new_table set_gsi_routing Hset (mx (vp s)) (irqs s) t v M Lt Hv Hother) as T. unfold update_msix_map.
      cbn [set_vp vp set_mx mx]. change (config_vector (set_table (mx (vp s)) t)) with (config_vector (mx (vp s))).
      change (vq_vector (set_table (mx (vp s)) t)) with (vq_vector (mx (vp s))).
      change (config_gsi (set_table (mx (vp s)) t)) with (config_gsi (mx (vp s))). change (gsis (set_table (mx (vp s)) t)) with (gsis (mx (vp s))).
      rewrite (first_gsi (mx (vp s)) v (mp_gsis _ _ M) (mp_vecs _ _ M)).
      destruct (first_holder (mx (vp s)) v) as [h |] eqn:Fh; [| by intros [= <- <-]].
      destruct (gsi_of (mx (vp s)) h) as [g |] eqn:Gh; [| done]. specialize (T g eq_refl).
      destruct (g =? 0); [by intros [= <- <-] |]. destruct T as (i' & U & M').
      rewrite (entry_msg_ok (set_table (mx (vp s)) t) i' v M' Hv : entry_msg t v = Ret (table_msg t v)).
      change (irqs (set_vp s (set_mx (vp s) (set_table (mx (vp s)) t)))) with (irqs s). rewrite U. intros [= <- <-]. exact M'.
    + intros [= <- <-]. unfold pmapped. cbn [set_vp vp set_mx mx]. change (irqs (set_vp s (set_mx (vp s) (set_table (mx (vp s)) t)))) with (irqs s).
      assert (forall v', 0 <= v' -> table_msg t v' = table_msg (msix_table (mx (vp s))) v') as Hall.
      { intros v' Hv'. destruct (decide (v' = v)) as [-> | N]; [| by apply Hother]. apply table_msg_splice; [lia | done |].
        left. unfold ENTRY_SIZE, ENTRY_CTRL in *. apply Z.ltb_ge in Ec. lia. }
      destruct M as [M1 M2 M3 M4 M5 M6 M7 M8 M9 M10]. split; try done; [cbn; by rewrite Lt |].
      intros h' v' g H. destruct (M10 h' v' g H) as (A & e & B & Cm). split; [done |]. exists e. split; [done |]. cbn. by rewrite Hall by lia.
  - unfold pmapped. rewrite Hm, Hi. destruct M as [M1 M2 M3 M4 M5 M6 M7 M8 M9 M10]. by split.
Qed.

(** The messages that the guest's interrupt controller receives: the direct ones, and for a
    line that goes up the message of its route. *)
Definition delivered (routes : list routing_entry) (l : list event) : list msi_msg :=
  omap (fun e => match e with
    | SignalMsi msg _ _ => Some msg
    | IrqLine gsi level => if level =? 1 then msi_of <$> route_of routes gsi else None
    | _ => None
    end) l.

(** The driver has enabled the vectors, and [vec] is not masked. *)
Definition unmasked (v : virtio_pci) (vec : Z) : Prop :=
  virtio_pci__msix_enabled v = true /\ flag (msix_ctrl v) PCI_MSIX_FLAGS_MASKALL = false /\
  flag (table_ctrl (msix_table (mx v)) vec) PCI_MSIX_ENTRY_CTRL_MASKBIT = false.

(** C34. MSI-X interrupts arrive: whatever a driver has done since the device was created, as
    long as it gives a vector to one holder at a time, the interrupt of a queue that has a
    vector and is not masked is exactly one message, the one that the table holds for the
    vector at that moment, be it sent directly or through the kernel's routes. *)
Theorem pci_interrupt_delivered s0 s vq vec gsi : mx (vp s0) = zero_msix -> irq_ok (irqs s0) -> 0 < next_gsi (irqs s0) ->
  0 <= has_irq_routing (irqs s0) -> rtc drive s0 s ->
  vq_vector (mx (vp s)) !! Z.to_nat vq = Some vec -> gsis (mx (vp s)) !! Z.to_nat vq = Some gsi ->
  gsi <> 0 -> vec <> VIRTIO_MSI_NO_VECTOR -> unmasked (vp s) vec ->
  exists s' l, virtio_pci__signal_vq devid_needed s vq = Ret s' /\ evs s' = evs s ++ l /\
    delivered (kernel_routes (irqs s')) l = [table_msg (msix_table (mx (vp s))) vec].
Proof.
  intros Z0 Hi Hn Hh R Hv Hg Ng Nv (U1 & U2 & U3).
  assert (pmapped s) as M.
  { assert (pmapped s0) as M0 by (unfold pmapped; rewrite Z0; by apply zero_mapped). clear - R M0 Hset.
    induction R as [| a b c St R IH]; [done |]. apply IH. by apply (drive_mapped a b). }
  assert (holds (mx (vp s)) (HQueue (Z.to_nat vq)) vec gsi) as Ho by done.
  destruct (mp_route _ _ M _ _ _ Ho) as (Hr & e & Re & Me).
  unfold virtio_pci__signal_vq, at_. rewrite Hv, Hg. unfold signal_vector. rewrite U1, (proj2 (Z.eqb_neq _ _) Nv), U2. cbn [negb andb].
  assert (entry_ctrl (msix_table (mx (vp s))) vec = Ret (table_ctrl (msix_table (mx (vp s))) vec)) as ->.
  { unfold entry_ctrl. rewrite (mp_table _ _ M). unfold ENTRY_SIZE, VIRTIO_PCI_MAX_VQ, VIRTIO_PCI_MAX_CONFIG in *.
    by rewrite (proj2 (Z.leb_le _ _)) by lia. }
  rewrite U3. destruct (flag (vp_features (vp s)) VIRTIO_PCI_F_SIGNAL_MSI).
  - unfold virtio_pci__signal_msi. rewrite (entry_msg_ok _ _ _ M Hr). eexists _, _. split; [reflexivity |]. split; [reflexivity |]. done.
  - eexists _, _. split; [reflexivity |]. split; [reflexivity |]. cbn. by rewrite Re, <- Me.
Qed.
End drive.

(** ** Runs *)

(** A device that keeps nothing. *)
Definition demo_ops : pci_ops unit :=
  mkpops unit (mkops unit (fun d _ => d) None None (fun d => d) (fun _ _ => zero_vq) (fun d _ _ => d))
    (fun _ => []) (fun d _ => d) (fun _ => 0) (fun d _ _ _ _ => d) (fun _ _ => 256) (fun d _ => d) None None (fun _ => 3) 3.

Definition no_fail (l : list routing_entry) : Z := 0.

(** The device after [irq__init] and [virtio_pci__init], without direct messages, MSI-X
    enabled and queue 1 selected. *)
Definition demo_vpci : virtio_pci :=
  match virtio_pci__init 0x1000 1 0x20000 KVM_PCI_MMIO_AREA 0x6200 0 0 0 0 5 false with
  | (_, _, Some v, _) => set_selector (mkvpci (splice 66 (le_enc 2 (32 .| PCI_MSIX_FLAGS_ENABLE)) (pci_hdr v)) (dev_num v) (port_addr v) (mmio_addr v)
      (msix_io_block v) (vp_status v) (isr v) (vp_features v) (legacy_irq_line v) 0 (mx v)) 1
  | _ => mkvpci [] 0 0 0 0 0 0 0 0 0 zero_msix
  end.
Definition demo_irqs : irq_state := snd (irq__init true no_fail 0 irq_state0).
Definition demo_pst : pstate unit := mkpst demo_vpci (mkvdev false 1 0 0) tt demo_irqs [].

Definition or_demo (r : out (option (pstate unit))) : pstate unit := match r with Ret (Some s) => s | _ => demo_pst end.
Definition or_demo2 (r : out (option (list Z * pstate unit))) : pstate unit := match r with Ret (Some (_, s)) => s | _ => demo_pst end.

(** A write to the table, and a vector for the selected queue. *)
Definition table_write (s : pstate unit) (off : Z) (data : list Z) : pstate unit :=
  or_demo2 (virtio_pci__msix_mmio_callback no_fail s (msix_io_block (vp s) + off) data 4 true).
Definition give_vector (s : pstate unit) (v : Z) : pstate unit := or_demo (write_queue_vector demo_ops true true no_fail false s v).
Definition give_config_vector (s : pstate unit) (v : Z) : pstate unit := or_demo (write_config_vector true true no_fail false s v).

(** The first word of entry 2, the vector for queue 1, then the data of the message. *)
Definition demo_s1 : pstate unit := table_write demo_pst 32 (le_enc 4 0xfee00000).
Definition demo_driven : pstate unit := table_write (give_vector demo_s1 2) 40 (le_enc 4 0x4021).

Lemma pci_interrupt_delivered_witness :
  exists s' l, virtio_pci__signal_vq false demo_driven 1 = Ret s' /\ evs s' = evs demo_driven ++ l /\
    delivered (kernel_routes (irqs s')) l = [mkmsg 0xfee00000 0 0x4021].
Proof.
  apply (pci_interrupt_delivered demo_ops no_fail (fun _ => eq_refl) false demo_pst demo_driven 1 2 24).
  - vm_compute. reflexivity.
  - split; [vm_compute; discriminate | vm_compute; discriminate | | vm_compute; reflexivity]. vm_compute. repeat (constructor; [split; [discriminate | reflexivity] |]). constructor.
  - vm_compute. reflexivity.
  - vm_compute. discriminate.
  - eapply rtc_l; [| eapply rtc_l; [| eapply rtc_l; [| apply rtc_refl]]].
    + apply (drive_table demo_ops no_fail false demo_pst (msix_io_block demo_vpci + 32) (le_enc 4 0xfee00000) 4 (le_enc 4 0xfee00000));
        [vm_compute; split; [discriminate | reflexivity] | vm_compute; discriminate | vm_compute; discriminate | lia | vm_compute; discriminate | vm_compute; reflexivity].
    + apply (drive_queue demo_ops no_fail false demo_s1 2); [lia | vm_compute; discriminate | | vm_compute; reflexivity].
      right. apply sole_check. vm_compute. reflexivity.
    + apply (drive_table demo_ops no_fail false (give_vector demo_s1 2) (msix_io_block demo_vpci + 40) (le_enc 4 0x4021) 4 (le_enc 4 0x4021));
        [vm_compute; split; [discriminate | reflexivity] | vm_compute; discriminate | vm_compute; discriminate | lia | vm_compute; discriminate | vm_compute; reflexivity].
  - vm_compute. reflexivity.
  - vm_compute. reflexivity.
  - lia.
  - discriminate.
  - split; [vm_compute; reflexivity |]. split; vm_compute; reflexivity.
Defined.

(** Two queues with one vector: when the driver moves the interrupt to another message, only
    the first queue's route follows; the second queue still sends the old one. *)
Definition demo_shared : pstate unit :=
  let s := table_write demo_pst 32 (le_enc 4 0xfee00000) in
  let s := give_config_vector s VIRTIO_MSI_NO_VECTOR in
  let s := give_vector (set_vp s (set_selector (vp s) 0)) 2 in
  let s := give_vector (set_vp s (set_selector (vp s) 1)) 2 in
  table_write s 32 (le_enc 4 0xfee01000).

Example shared_vector_stale :
  match virtio_pci__signal_vq false demo_shared 0, virtio_pci__signal_vq false demo_shared 1 with
  | Ret s0, Ret s1 =>
      delivered (kernel_routes (irqs s0)) (evs s0) = [mkmsg 0xfee01000 0 0] /\
      delivered (kernel_routes (irqs s1)) (evs s1) = [mkmsg 0xfee00000 0 0]
  | _, _ => False
  end.
Proof. vm_compute. split; reflexivity. Qed.

(** An interrupt that comes while its vector is masked sets a bit that nothing reads: after
    the driver has removed the mask no message is sent. *)
Definition demo_masked : pstate unit :=
  match virtio_pci__signal_vq false (table_write demo_driven 44 (le_enc 4 1)) 1 with
  | Ret s => table_write s 44 (le_enc 4 0)
  | _ => demo_pst
  end.

Example masked_interrupt_lost : evs demo_masked = [] /\ msix_pba (mx (vp demo_masked)) = 4.
Proof. vm_compute. split; reflexivity. Qed.

(** The pending bits are announced at the 256th byte of the window, where entry 16 of the
    table answers; entries from 17 on cannot be written. *)
Section window.
Context {D : Type} (set_gsi_routing : list routing_entry -> Z).

Lemma pending_bits_hidden (s : pstate D) data : Z.of_nat (length (msix_table (mx (vp s)))) = 528 -> Z.of_nat (length data) = 8 ->
  fits 32 (msix_io_block (vp s) + PCI_IO_SIZE) ->
  0 <= msix_io_block (vp s) ->
  virtio_pci__msix_mmio_callback set_gsi_routing s (msix_io_block (vp s) + PCI_IO_SIZE) data 8 false =
  Ret (Some (slice 256 8 (msix_table (mx (vp s))), s)).
Proof.
  intros Lt Ld Hf Hb. unfold virtio_pci__msix_mmio_callback. rewrite (wrap_id 32) by done. rewrite Z.ltb_irrefl.
  cbn [negb]. replace (msix_io_block (vp s) + PCI_IO_SIZE - msix_io_block (vp s)) with 256 by (unfold PCI_IO_SIZE; lia).
  change (u64 256) with 256. rewrite get_bytes_ok by lia.
  assert (length (slice (Z.to_nat 256) (Z.to_nat 8) (msix_table (mx (vp s)))) = 8%nat) as L by (rewrite length_slice; lia).
  rewrite put_bytes_in by lia. unfold splice. rewrite drop_ge by lia. by rewrite app_nil_r.
Qed.

Lemma high_entries_ignored (s : pstate D) addr data len : fits 32 (msix_io_block (vp s) + PCI_IO_SIZE) ->
  msix_io_block (vp s) + PCI_IO_SIZE < addr ->
  virtio_pci__msix_mmio_callback set_gsi_routing s addr data len true = Ret (Some (data, s)).
Proof. intros Hf Ha. unfold virtio_pci__msix_mmio_callback. rewrite (wrap_id 32) by done. by rewrite (proj2 (Z.ltb_lt _ _) Ha). Qed.
End window.

(** A byte that is neither a register nor configuration: without MSI-X a read of the port
    after the first is a read far outside of the device. *)
Lemma stray_port_read {D} (ops : pci_ops D) (s : pstate D) data : virtio_pci__msix_enabled (vp s) = false ->
  0 <= port_addr (vp s) -> Z.of_nat (length (po_get_config ops (pdev s))) < 2 ^ 31 ->
  virtio_pci__io_in ops s (port_addr (vp s) + 1) data = Ub.
Proof.
  intros He Hp Hl. unfold virtio_pci__io_in. replace (port_addr (vp s) + 1 - port_addr (vp s)) with 1 by lia.
  change (u64 1) with 1. cbn [Z.eqb]. unfold virtio_pci__specific_io_in. rewrite He. cbn [virtio__get_dev_specific_field].
  unfold at_. destruct (po_get_config ops (pdev s) !! Z.to_nat (u32 (1 - 20))) eqn:E; [| done].
  apply lookup_lt_Some in E. change (u32 (1 - 20)) with 4294967277 in E. lia.
Qed.
