(* ===== verification/VirtioMmio.v ===== *)
(** * The memory-mapped transport of virtio, and what both transports promise

    [virtio/mmio.c]: the registers of a device in memory, its queues' notifications and its
    one interrupt. Then [Class Transport], what a driver relies on, with both transports as
    instances: whatever a driver does, a device sees the same through either. *)
From S2P Require Import Prelude HostMem Virtqueue Msi Pci VirtioPci.
Open Scope Z_scope.

Definition VIRTIO_MMIO_MAX_VQ : Z := 32.
Definition VIRTIO_MMIO_IO_SIZE : Z := 0x200.
Definition VIRTIO_MMIO_MAGIC_VALUE : Z := 0x000.
Definition VIRTIO_MMIO_VERSION : Z := 0x004.
Definition VIRTIO_MMIO_DEVICE_ID : Z := 0x008.
Definition VIRTIO_MMIO_VENDOR_ID : Z := 0x00c.
Definition VIRTIO_MMIO_HOST_FEATURES : Z := 0x010.
Definition VIRTIO_MMIO_HOST_FEATURES_SEL : Z := 0x014.
Definition VIRTIO_MMIO_GUEST_FEATURES : Z := 0x020.
Definition VIRTIO_MMIO_GUEST_FEATURES_SEL : Z := 0x024.
Definition VIRTIO_MMIO_GUEST_PAGE_SIZE : Z := 0x028.
Definition VIRTIO_MMIO_QUEUE_SEL : Z := 0x030.
Definition VIRTIO_MMIO_QUEUE_NUM_MAX : Z := 0x034.
Definition VIRTIO_MMIO_QUEUE_NUM : Z := 0x038.
Definition VIRTIO_MMIO_QUEUE_ALIGN : Z := 0x03c.
Definition VIRTIO_MMIO_QUEUE_PFN : Z := 0x040.
Definition VIRTIO_MMIO_QUEUE_NOTIFY : Z := 0x050.
Definition VIRTIO_MMIO_INTERRUPT_STATUS : Z := 0x060.
Definition VIRTIO_MMIO_INTERRUPT_ACK : Z := 0x064.
Definition VIRTIO_MMIO_STATUS : Z := 0x070.
Definition VIRTIO_MMIO_CONFIG : Z := 0x100.
Definition VIRTIO_MMIO_INT_VRING : Z := 1.
Definition VIRTIO_MMIO_INT_CONFIG : Z := 2.
Definition KVM_VIRTIO_MMIO_AREA : Z := 0xd3000000.

(** [struct virtio_mmio]: the header is the 29 words of [struct virtio_mmio_hdr], in which the
    field of a register is at the register's offset. *)
Record virtio_mmio := mkvmmio { m_hdr : list Z; m_addr : Z; m_irq : Z }.

Record mstate (D : Type) := mkmst { vmmio : virtio_mmio; mvdev : virtio_device; mdev : D; mevs : list event }.
Arguments mkmst {D}. Arguments vmmio {D}. Arguments mvdev {D}. Arguments mdev {D}. Arguments mevs {D}.

Definition word (v : virtio_mmio) (reg : Z) : Z := default 0 (m_hdr v !! Z.to_nat (reg / 4)).
Definition set_word (v : virtio_mmio) (reg x : Z) : virtio_mmio := mkvmmio (<[Z.to_nat (reg / 4) := x]> (m_hdr v)) (m_addr v) (m_irq v).

(** The header of a new device: "virt", the version, the ids, "LKVM". *)
Definition mmio_header (subsys_id : Z) : list Z :=
  <[13%nat := 256]> ([0x74726976; 1; u32 subsys_id; 0x4d564b4c] ++ repeat 0 25).

Section mmio.
Context {D : Type} (ops : pci_ops D).
(** [set_size_vq], which the other transport does not use. *)
Context (op_set_size_vq : D -> Z -> Z -> D).
Context (add_event : Z -> Z -> Z) (eventfd : Z -> Z) (kvm_cpu__get_endianness : Z).

Definition mset_vm (s : mstate D) (v : virtio_mmio) : mstate D := mkmst v (mvdev s) (mdev s) (mevs s).
Definition mset_dev (s : mstate D) (d : D) : mstate D := mkmst (vmmio s) (mvdev s) d (mevs s).
Definition mset_vdev (s : mstate D) (v : virtio_device) : mstate D := mkmst (vmmio s) v (mdev s) (mevs s).
Definition memit (s : mstate D) (l : list event) : mstate D := mkmst (vmmio s) (mvdev s) (mdev s) (mevs s ++ l).

Definition notify_addr (s : mstate D) : Z := u32 (m_addr (vmmio s) + VIRTIO_MMIO_QUEUE_NOTIFY).

Definition virtio_mmio_init_ioeventfd (s : mstate D) (vq : Z) : out (Z * mstate D) :=
  if VIRTIO_MMIO_MAX_VQ <=? vq then Ub
  else
    let err := add_event (notify_addr s) vq in
    if negb (err =? 0) then Ret (err, s)
    else
      let s := memit s [AddEvent (notify_addr s) vq (if use_vhost (mvdev s) then 0 else IOEVENTFD_FLAG_USER_POLL)] in
      Ret (0, match po_notify_eventfd ops with Some f => mset_dev s (f (mdev s) vq (eventfd (notify_addr s))) | None => s end).

Definition mmio_interrupt (s : mstate D) (bit : Z) : mstate D :=
  let v := vmmio s in
  memit (mset_vm s (set_word v VIRTIO_MMIO_INTERRUPT_STATUS (word v VIRTIO_MMIO_INTERRUPT_STATUS .| bit)))
    [IrqLine (m_irq v) 1; IrqLine (m_irq v) 0].
Definition virtio_mmio_signal_vq (s : mstate D) (vq : Z) : mstate D := mmio_interrupt s VIRTIO_MMIO_INT_VRING.
Definition virtio_mmio_signal_config (s : mstate D) : mstate D := mmio_interrupt s VIRTIO_MMIO_INT_CONFIG.

Definition virtio_mmio_exit_vq (s : mstate D) (vq : Z) : out (mstate D) :=
  if in_queues ops vq then Ret (mset_dev (memit s [DelEvent (notify_addr s) vq]) (virtio_exit_vq (po_base ops) (mdev s) vq)) else Ub.

Fixpoint mmio_exit_vqs (s : mstate D) (vq : Z) (n : nat) : out (mstate D) :=
  match n with
  | O => Ret s
  | S n => let! s := virtio_mmio_exit_vq s vq in mmio_exit_vqs s (vq + 1) n
  end.
Definition virtio_mmio_reset (s : mstate D) : out (mstate D) := mmio_exit_vqs s 0 (Z.to_nat (po_vq_count ops (mdev s))).

(** The loop over the bytes of an access to the device's configuration: a written byte is the
    first byte of the data plus the index. *)
Fixpoint config_write (n : nat) (i addr first : Z) (cfg : list Z) : out (list Z) :=
  match n with
  | O => Ret cfg
  | S n => let! _ := at_ cfg (addr + i) in config_write n (i + 1) addr first (<[Z.to_nat (addr + i) := u8 (first + i)]> cfg)
  end.
Fixpoint config_read (n : nat) (i addr : Z) (data cfg : list Z) : out (list Z) :=
  match n with
  | O => Ret data
  | S n => let! b := at_ cfg (addr + i) in let! data := put_bytes data i [b] in config_read n (i + 1) addr data cfg
  end.

Definition virtio_mmio_device_specific (s : mstate D) (addr : Z) (data : list Z) (len : Z) (is_write : bool) : out (list Z * mstate D) :=
  let cfg := po_get_config ops (mdev s) in
  if is_write then
    if len =? 0 then Ret (data, s)
    else
      let! first := read_n 1 data in
      let! cfg := config_write (Z.to_nat len) 0 addr first cfg in
      Ret (data, mset_dev s (po_set_config ops (mdev s) cfg))
  else let! data := config_read (Z.to_nat len) 0 addr data cfg in Ret (data, s).

(** The registers that are read out of the header. *)
Definition plain_read (addr : Z) : bool :=
  existsb (Z.eqb addr) [VIRTIO_MMIO_MAGIC_VALUE; VIRTIO_MMIO_VERSION; VIRTIO_MMIO_DEVICE_ID; VIRTIO_MMIO_VENDOR_ID;
    VIRTIO_MMIO_STATUS; VIRTIO_MMIO_INTERRUPT_STATUS].
Definition plain_write (addr : Z) : bool :=
  existsb (Z.eqb addr) [VIRTIO_MMIO_HOST_FEATURES_SEL; VIRTIO_MMIO_GUEST_FEATURES_SEL; VIRTIO_MMIO_QUEUE_SEL].

Definition virtio_mmio_config_in (s : mstate D) (addr : Z) (data : list Z) : out (list Z) :=
  let v := vmmio s in
  let q := word v VIRTIO_MMIO_QUEUE_SEL in
  let answer x := put_bytes data 0 (le_enc 4 x) in
  if plain_read addr then answer (word v addr)
  else if addr =? VIRTIO_MMIO_HOST_FEATURES then
    answer (if word v VIRTIO_MMIO_HOST_FEATURES_SEL =? 0 then po_host_features ops (mdev s) else 0)
  else if addr =? VIRTIO_MMIO_QUEUE_PFN then
    if in_queues ops q then answer (pfn (op_get_vq (po_base ops) (mdev s) q)) else Ub
  else if addr =? VIRTIO_MMIO_QUEUE_NUM_MAX then answer (po_size_vq ops (mdev s) q)
  else Ret data.

(** [virtio_notify_status] with [reset] as the transport's. *)
Definition mmio_lifted : virtio_ops (out (mstate D)) :=
  let lift f r := let! s := r in Ret (mset_dev s (f (mdev s))) in
  mkops _ (fun r x => lift (fun d => op_set_guest_features (po_base ops) d x) r)
    (option_map (fun f r q => lift (fun d => f d q) r) (op_exit_vq (po_base ops)))
    (option_map (fun f r x => lift (fun d => f d x) r) (op_notify_status (po_base ops)))
    (fun r => let! s := r in virtio_mmio_reset s)
    (fun r q => match r with Ret s => op_get_vq (po_base ops) (mdev s) q | _ => zero_vq end)
    (fun r q x => lift (fun d => op_put_vq (po_base ops) d q x) r).

(** The whole word is stored, its low byte is what the device is told. *)
Definition mmio_write_status (s : mstate D) (x : Z) : out (mstate D) :=
  let s := mset_vm s (set_word (vmmio s) VIRTIO_MMIO_STATUS x) in
  let v := mvdev s in
  let v := if x =? 0 then mkvdev (use_vhost v) kvm_cpu__get_endianness (features v) (status v) else v in
  let (v, r) := virtio_notify_status mmio_lifted v (Ret s) (u8 x) in
  let! s := r in Ret (mset_vdev s v).

Definition virtio_mmio_config_out (s : mstate D) (addr : Z) (data : list Z) : out (mstate D) :=
  let v := vmmio s in
  let q := word v VIRTIO_MMIO_QUEUE_SEL in
  if plain_write addr then let! val := read_n 4 data in Ret (mset_vm s (set_word v addr val))
  else if addr =? VIRTIO_MMIO_STATUS then let! val := read_n 4 data in mmio_write_status s val
  else if addr =? VIRTIO_MMIO_GUEST_FEATURES then
    if word v VIRTIO_MMIO_GUEST_FEATURES_SEL =? 0 then
      let! val := read_n 4 data in
      let (vd, d) := virtio_set_guest_features (po_base ops) (mvdev s) (mdev s) val in Ret (mset_vdev (mset_dev s d) vd)
    else Ret s
  else if (addr =? VIRTIO_MMIO_GUEST_PAGE_SIZE) || (addr =? VIRTIO_MMIO_QUEUE_ALIGN) then
    let! val := read_n 4 data in Ret (mset_vm s (set_word v addr val))
  else if addr =? VIRTIO_MMIO_QUEUE_NUM then
    let! val := read_n 4 data in
    Ret (mset_dev (mset_vm s (set_word v addr val)) (op_set_size_vq (mdev s) q (s32 val)))
  else if addr =? VIRTIO_MMIO_QUEUE_PFN then
    let! val := read_n 4 data in
    if negb (val =? 0) then
      let! (_, s) := virtio_mmio_init_ioeventfd s q in
      if in_queues ops q then
        Ret (mset_dev s (po_init_vq ops (mdev s) q (word v VIRTIO_MMIO_GUEST_PAGE_SIZE) (word v VIRTIO_MMIO_QUEUE_ALIGN) val))
      else Ub
    else virtio_mmio_exit_vq s q
  else if addr =? VIRTIO_MMIO_QUEUE_NOTIFY then
    let! val := read_n 4 data in Ret (mset_dev s (po_notify_vq ops (mdev s) val))
  else if addr =? VIRTIO_MMIO_INTERRUPT_ACK then
    let! val := read_n 4 data in
    Ret (mset_vm s (set_word v VIRTIO_MMIO_INTERRUPT_STATUS (word v VIRTIO_MMIO_INTERRUPT_STATUS .&~ val)))
  else Ret s.

Definition virtio_mmio_mmio_callback (s : mstate D) (addr : Z) (data : list Z) (len : Z) (is_write : bool) : out (list Z * mstate D) :=
  let offset := u32 (addr - m_addr (vmmio s)) in
  if VIRTIO_MMIO_CONFIG <=? offset then virtio_mmio_device_specific s (offset - VIRTIO_MMIO_CONFIG) data len is_write
  else if is_write then let! s := virtio_mmio_config_out s offset data in Ret (data, s)
  else let! data := virtio_mmio_config_in s offset data in Ret (data, s).

Definition virtio_mmio_exit (s : mstate D) : out (mstate D * list undo) :=
  let! s := virtio_mmio_reset s in Ret (s, [DeregisterMmio (m_addr (vmmio s))]).
End mmio.

(** The address, and the next value of the counter. *)
Definition virtio_mmio_get_io_space_block (blocks size : Z) : Z * Z := (blocks, u32 (blocks + size)).

(** What the registrations answer is not looked at; [irq] is the line that the device bus
    assigns. *)
Definition virtio_mmio_init (subsys_id blocks irq : Z) : virtio_mmio * Z :=
  let (addr, blocks) := virtio_mmio_get_io_space_block blocks VIRTIO_MMIO_IO_SIZE in
  (mkvmmio (mmio_header subsys_id) addr irq, blocks).

(** *** What a driver relies on *)

(** What a driver does with a device, whatever the transport: features, the choice of a queue,
    its size and its place, notifications, the status, and bytes of the configuration. *)
Inductive dop :=
| GetFeatures | SetFeatures (f : Z) | Select (q : Z) | GetNum | GetPfn | SetPfn (p : Z) | Notify (q : Z)
| GetStatus | SetStatus (x : Z) | GetConfig (i : Z) | SetConfig (i b : Z).

(** A device behind an ideal transport. *)
Record attached (D : Type) := mkatt { a_dev : D; a_vdev : virtio_device; a_sel : Z; a_status : Z }.
Arguments mkatt {D}. Arguments a_dev {D}. Arguments a_vdev {D}. Arguments a_sel {D}. Arguments a_status {D}.

Section spec.
Context {D : Type} (ops : pci_ops D) (endian : Z).

(** A reset takes down every queue. *)
Fixpoint dev_exits (d : D) (vq : Z) (n : nat) : D :=
  match n with O => d | S n => dev_exits (virtio_exit_vq (po_base ops) d vq) (vq + 1) n end.
Definition dev_ops : virtio_ops D :=
  let b := po_base ops in
  mkops _ (op_set_guest_features b) (op_exit_vq b) (op_notify_status b) (fun d => dev_exits d 0 (Z.to_nat (po_vq_count ops d)))
    (op_get_vq b) (op_put_vq b).

Definition with_dev (a : attached D) (d : D) : attached D := mkatt d (a_vdev a) (a_sel a) (a_status a).

(** Pages and alignment are of 4096 bytes. [None]: a driver does not do that. *)
Definition spec_step (a : attached D) (op : dop) : option (Z * attached D) :=
  match op with
  | GetFeatures => Some (u32 (po_host_features ops (a_dev a)), a)
  | SetFeatures f =>
      if bool_decide (fits 32 f) then
        let (v, d) := virtio_set_guest_features (po_base ops) (a_vdev a) (a_dev a) f in
        Some (0, mkatt d v (a_sel a) (a_status a))
      else None
  | Select q => if bool_decide (fits 16 q) then Some (0, mkatt (a_dev a) (a_vdev a) q (a_status a)) else None
  | GetNum => let n := po_size_vq ops (a_dev a) (a_sel a) in if bool_decide (fits 16 n) then Some (n, a) else None
  | GetPfn => if in_queues ops (a_sel a) then Some (u32 (pfn (op_get_vq (po_base ops) (a_dev a) (a_sel a))), a) else None
  | SetPfn p =>
      if bool_decide (fits 32 p) && in_queues ops (a_sel a) && (a_sel a <? 32) then
        Some (0, with_dev a (if p =? 0 then virtio_exit_vq (po_base ops) (a_dev a) (a_sel a)
                             else po_init_vq ops (a_dev a) (a_sel a) 4096 4096 p))
      else None
  | Notify q => if bool_decide (fits 16 q) then Some (0, with_dev a (po_notify_vq ops (a_dev a) q)) else None
  | GetStatus => Some (a_status a, a)
  | SetStatus x =>
      if bool_decide (fits 8 x) then
        let v := a_vdev a in
        let v := if x =? 0 then mkvdev (use_vhost v) endian (features v) (status v) else v in
        let (v, d) := virtio_notify_status dev_ops v (a_dev a) x in
        Some (0, mkatt d v (a_sel a) x)
      else None
  | GetConfig i => if (0 <=? i) && (i <? 256) then 
      b ← po_get_config ops (a_dev a) !! Z.to_nat i; if bool_decide (fits 8 b) then Some (b, a) else None
    else None
  | SetConfig i b =>
      let cfg := po_get_config ops (a_dev a) in
      if bool_decide (fits 8 b) && (0 <=? i) && (i <? 256) && (i <? Z.of_nat (length cfg)) then
        Some (0, with_dev a (po_set_config ops (a_dev a) (<[Z.to_nat i := b]> cfg)))
      else None
  end.

Fixpoint spec_run (a : attached D) (l : list dop) : option (list Z * attached D) :=
  match l with
  | [] => Some ([], a)
  | op :: l => '(r, a) ← spec_step a op; '(rs, a) ← spec_run a l; Some (r :: rs, a)
  end.

(** The promise of a transport: each operation is the ideal one. *)
Class Transport (T : Type) := {
  t_step : T -> dop -> out (option (Z * T));
  t_rep : T -> attached D -> Prop;
  t_refines : forall t a op r a', t_rep t a -> spec_step a op = Some (r, a') ->
    exists t', t_step t op = Ret (Some (r, t')) /\ t_rep t' a';
}.

(** Runs of a driver; [None] is the end of the process. *)
Fixpoint run_steps {T : Type} (step : T -> dop -> out (option (Z * T))) (t : T) (l : list dop) : out (option (list Z * T)) :=
  match l with
  | [] => Ret (Some ([], t))
  | op :: l =>
      let! r := step t op in
      match r with
      | None => Ret None
      | Some (r, t) =>
          let! rs := run_steps step t l in
          Ret (match rs with Some (rs, t) => Some (r :: rs, t) | None => None end)
      end
  end.

Lemma run_refines {T : Type} `{Transport T} l : forall (t : T) a rs a', t_rep t a -> spec_run a l = Some (rs, a') ->
  exists t', run_steps t_step t l = Ret (Some (rs, t')) /\ t_rep t' a'.
Proof.
  induction l as [|op l IH]; intros t a rs a' R E.
  - injection E as <- <-. by exists t.
  - cbn [spec_run] in E. destruct (spec_step a op) as [[r a1]|] eqn:Es; [|done]. cbn [mbind option_bind] in E.
    destruct (spec_run a1 l) as [[rs1 a2]|] eqn:El; [|done]. cbn in E. injection E as <- <-.
    destruct (t_refines t a op r a1 R Es) as (t1 & E1 & R1). destruct (IH t1 a1 rs1 a2 R1 El) as (t2 & E2 & R2).
    exists t2. cbn [run_steps]. by rewrite E1, E2.
Qed.
End spec.

(** Two devices that are told the same about their status. *)
Lemma notify_status_sim {D E : Type} (o1 : virtio_ops D) (o2 : virtio_ops E) (R : D -> E -> Prop) v d e x :
  (forall d e, R d e -> R (op_reset o1 d) (op_reset o2 e)) ->
  (forall d e y, R d e -> match op_notify_status o1, op_notify_status o2 with
                          | Some f, Some g => R (f d y) (g e y) | None, None => True | _, _ => False end) ->
  R d e ->
  fst (virtio_notify_status o1 v d x) = fst (virtio_notify_status o2 v e x) /\
  R (snd (virtio_notify_status o1 v d x)) (snd (virtio_notify_status o2 v e x)).
Proof.
  intros Hr Hn H. unfold virtio_notify_status.
  repeat match goal with |- context [if ?b then _ else _] => destruct b end;
    destruct (op_notify_status o1), (op_notify_status o2); cbn [fst snd];
    (split; [reflexivity|]); try (eapply (Hn _ _ _)); auto; exfalso; exact (Hn d e 0 H).
Qed.

(** Answers: the first bytes of a buffer that is wider than the register. *)
Definition buffer : list Z := repeat 0xff 8.

Lemma answer_read n x : (n <= 8)%nat -> exists b, put_bytes buffer 0 (le_enc n x) = Ret b /\ le_dec (take n b) = wrap (8 * Z.of_nat n) x.
Proof.
  intros H. rewrite put_bytes_in by (rewrite ?length_le_enc; unfold buffer; rewrite ?repeat_length; lia).
  eexists. split; [reflexivity|]. unfold splice. change (take (Z.to_nat 0) buffer) with (@nil Z). cbn [app].
  rewrite take_app_length' by (symmetry; apply length_le_enc). apply le_dec_enc.
Qed.

(** A register is read. *)
Ltac answers n x := let b := fresh "b" in let E := fresh "E" in let F := fresh "F" in
  destruct (answer_read n x ltac:(lia)) as (b & E & F); rewrite E; cbn beta iota; rewrite F.

Lemma written n z x w : z = Z.of_nat n -> w = 8 * z -> fits w x -> read_n z (le_enc n x) = Ret x.
Proof.
  intros -> -> H. unfold read_n. rewrite get_bytes_ok by (rewrite ?length_le_enc; lia).
  unfold slice. change (drop (Z.to_nat 0) (le_enc n x)) with (le_enc n x).
  rewrite Nat2Z.id, take_ge by (rewrite length_le_enc; lia). by rewrite le_dec_enc, wrap_id.
Qed.

Lemma one_byte b : fits 8 b -> [b] = le_enc 1 b.
Proof. intros H. cbn. by rewrite wrap_id. Qed.

(** *** The PCI transport *)

Section pci.
Context {D : Type} (ops : pci_ops D) (endian : Z).
Context (realloc_ok cap_irq_routing : bool) (set_gsi_routing : list routing_entry -> Z) (msix_needs_devid : bool).
Context (add_event : Z -> Z -> Z) (eventfd : Z -> Z).
(** The device does not take event files of its own, and has the queues it counts. *)
Hypothesis no_eventfd : po_notify_eventfd ops = None.
Hypothesis counts : forall d, 0 <= po_vq_count ops d <= po_queues ops.

Definition pci_read (s : pstate D) (reg : Z) (n : nat) : out (option (Z * pstate D)) :=
  let! (_, data, s') := virtio_pci__io_in ops s (port_addr (vp s) + reg) buffer in Ret (Some (le_dec (take n data), s')).
Definition pci_write (s : pstate D) (reg : Z) (n : nat) (x : Z) : out (option (Z * pstate D)) :=
  let! r := virtio_pci__io_out ops realloc_ok cap_irq_routing set_gsi_routing msix_needs_devid add_event eventfd endian
              s (port_addr (vp s) + reg) (le_enc n x) in
  Ret (pair 0 <$> r).

(** Where the device's configuration begins depends on MSI-X. *)
Definition pci_config (s : pstate D) : Z := if virtio_pci__msix_enabled (vp s) then 24 else 20.

Definition pci_step (s : pstate D) (op : dop) : out (option (Z * pstate D)) :=
  match op with
  | GetFeatures => pci_read s VIRTIO_PCI_HOST_FEATURES 4
  | SetFeatures f => pci_write s VIRTIO_PCI_GUEST_FEATURES 4 f
  | Select q => pci_write s VIRTIO_PCI_QUEUE_SEL 2 q
  | GetNum => pci_read s VIRTIO_PCI_QUEUE_NUM 2
  | GetPfn => pci_read s VIRTIO_PCI_QUEUE_PFN 4
  | SetPfn p => pci_write s VIRTIO_PCI_QUEUE_PFN 4 p
  | Notify q => pci_write s VIRTIO_PCI_QUEUE_NOTIFY 2 q
  | GetStatus => pci_read s VIRTIO_PCI_STATUS 1
  | SetStatus x => pci_write s VIRTIO_PCI_STATUS 1 x
  | GetConfig i => pci_read s (pci_config s + i) 1
  | SetConfig i b => pci_write s (pci_config s + i) 1 b
  end.

Record pci_rep (s : pstate D) (a : attached D) : Prop := {
  pr_dev : pdev s = a_dev a; pr_vdev : vdev s = a_vdev a; pr_sel : queue_selector (vp s) = a_sel a;
  pr_status : vp_status (vp s) = a_status a; pr_fits : fits 8 (a_status a);
  pr_port : 0 <= port_addr (vp s) < 2 ^ 16;
}.

Lemma pci_offset s a reg : pci_rep s a -> 0 <= reg < 2 ^ 16 -> u64 (port_addr (vp s) + reg - port_addr (vp s)) = reg.
Proof. intros R H. replace (_ + _ - _) with reg by lia. apply wrap_id. unfold fits. lia. Qed.

(** The devices that a reset takes down, and nothing else of the transport. *)
Lemma pci_exit_vqs n : forall s q, (Z.of_nat n + q <= po_queues ops) -> exists s', exit_vqs ops s q n = Ret s' /\
  pdev s' = dev_exits ops (pdev s) q n /\ vp s' = vp s /\ vdev s' = vdev s.
Proof.
  induction n as [|n IH]; intros s q H; [by exists s|]. cbn [exit_vqs dev_exits]. unfold virtio_pci_exit_vq, in_queues.
  rewrite (proj2 (Z.ltb_lt _ _)) by lia. destruct (IH (set_pdev (emit s [DelEvent (u32 (mmio_addr (vp s) + VIRTIO_PCI_QUEUE_NOTIFY)) q;
    DelEvent (port_addr (vp s) + VIRTIO_PCI_QUEUE_NOTIFY) q]) (virtio_exit_vq (po_base ops) (pdev s) q)) (q + 1) ltac:(lia)) as (s' & E & H1 & H2 & H3).
  by exists s'.
Qed.

Lemma pci_status s x : exists s', write_status ops s x endian = Ret s' /\
  let v := if x =? 0 then mkvdev (use_vhost (vdev s)) endian (features (vdev s)) (status (vdev s)) else vdev s in
  vdev s' = fst (virtio_notify_status (dev_ops ops) v (pdev s) x) /\ pdev s' = snd (virtio_notify_status (dev_ops ops) v (pdev s) x) /\
  vp s' = set_vp_status (vp s) x.
Proof.
  unfold write_status. set (s1 := set_vp s (set_vp_status (vp s) x)). cbn zeta.
  set (v := if x =? 0 then _ else _).
  destruct (notify_status_sim (lifted_ops ops) (dev_ops ops)
    (fun r d => exists s', r = Ret s' /\ pdev s' = d /\ vp s' = vp s1 /\ vdev s' = vdev s1) v (Ret s1) (pdev s) x) as [E1 E2].
  - intros r d (s' & -> & <- & H1 & H2). cbn. destruct (pci_exit_vqs (Z.to_nat (po_vq_count ops (pdev s'))) s' 0) as (s'' & E & K1 & K2 & K3).
    { pose proof (counts (pdev s')). lia. }
    exists s''. unfold virtio_pci__reset. by rewrite E, K1, K2, K3.
  - intros r d y (s' & -> & <- & H1 & H2). cbn. destruct (op_notify_status (po_base ops)); cbn; [|done]. by eexists.
  - by exists s1.
  - destruct (virtio_notify_status (lifted_ops ops) v (Ret s1) x) as [v' r]. cbn [fst snd] in *.
    destruct E2 as (s' & -> & H1 & H2 & H3). eexists. split; [reflexivity|]. subst v'. done.
Qed.

(** A register of a fixed offset. *)
Ltac at_register R := unfold pci_step, pci_read, pci_write, virtio_pci__io_in, virtio_pci__io_out;
  rewrite (pci_offset _ _ _ R) by done;
  unfold VIRTIO_PCI_HOST_FEATURES, VIRTIO_PCI_GUEST_FEATURES, VIRTIO_PCI_QUEUE_PFN, VIRTIO_PCI_QUEUE_NUM, VIRTIO_PCI_QUEUE_SEL,
    VIRTIO_PCI_QUEUE_NOTIFY, VIRTIO_PCI_STATUS, VIRTIO_PCI_ISR; cbn [Z.eqb Pos.eqb].

(** The field of the configuration at an offset. *)
Lemma pci_field s a i : pci_rep s a -> 0 <= i < 256 ->
  u64 (port_addr (vp s) + (pci_config s + i) - port_addr (vp s)) = pci_config s + i /\ 20 <= pci_config s + i /\
  exists k, virtio__get_dev_specific_field (pci_config s + i - 20) (virtio_pci__msix_enabled (vp s)) = (k, Some i).
Proof.
  intros R H. split; [apply (pci_offset s a _ R); unfold pci_config; destruct (virtio_pci__msix_enabled _); lia|].
  unfold pci_config, virtio__get_dev_specific_field. destruct (virtio_pci__msix_enabled (vp s)).
  - rewrite (proj2 (Z.ltb_ge _ _)) by lia. split; [lia|]. eexists. f_equal. f_equal.
    replace (24 + i - 20 - 4) with i by lia. apply wrap_id. unfold fits. lia.
  - split; [lia|]. eexists. f_equal. f_equal. replace (20 + i - 20) with i by lia. apply wrap_id. unfold fits. lia.
Qed.

Lemma pci_setup s q : q < VIRTIO_PCI_MAX_VQ -> exists e l,
  virtio_pci__init_ioeventfd ops add_event eventfd s q = Ret (e, emit s l).
Proof.
  intros H. unfold virtio_pci__init_ioeventfd. rewrite (proj2 (Z.leb_gt _ _)) by done. cbn zeta. rewrite no_eventfd.
  destruct (negb _); [exists (add_event (port_addr (vp s) + VIRTIO_PCI_QUEUE_NOTIFY) q), []; unfold emit; rewrite app_nil_r; by destruct s|].
  destruct (negb _); unfold emit; cbn [vp vdev pdev irqs evs]; rewrite <- app_assoc; by eexists _, _.
Qed.

Lemma pci_refines s a op r a' : pci_rep s a -> spec_step ops endian a op = Some (r, a') ->
  exists s', pci_step s op = Ret (Some (r, s')) /\ pci_rep s' a'.
Proof.
  intros R E. pose proof R as [H1 H2 H3 H4 H5 H6]. destruct op as [|f|q| | |p|q| |x|i|i b]; cbn [spec_step] in E.
  - injection E as <- <-. at_register R. answers 4%nat (po_host_features ops (pdev s)). rewrite H1. by exists s.
  - case_bool_decide as B; [|done]. injection E as <- <-. at_register R.
    rewrite (written 4 4 f 32 eq_refl eq_refl B). rewrite H1, H2. eexists. split; [reflexivity|]. by split.
  - case_bool_decide as B; [|done]. injection E as <- <-. at_register R. rewrite (written 2 2 q 16 eq_refl eq_refl B).
    eexists. split; [reflexivity|]. by split.
  - case_bool_decide as B; [|done]. injection E as <- <-. at_register R. answers 2%nat (po_size_vq ops (pdev s) (queue_selector (vp s))).
    rewrite H1, H3. rewrite wrap_id by exact B. by exists s.
  - destruct (in_queues ops (a_sel a)) eqn:Q; [|done]. injection E as <- <-. at_register R. rewrite H3, Q.
    answers 4%nat (pfn (op_get_vq (po_base ops) (pdev s) (a_sel a))). rewrite H1. by exists s.
  - destruct (bool_decide _) eqn:B; [|done]. apply bool_decide_eq_true in B. cbn [andb] in E.
    destruct (in_queues ops (a_sel a)) eqn:Q; [|done]. destruct (Z.ltb_spec (a_sel a) 32); [|done]. injection E as <- <-.
    at_register R. rewrite (written 4 4 p 32 eq_refl eq_refl B). rewrite H3. destruct (p =? 0); cbn [negb].
    + unfold virtio_pci_exit_vq. rewrite Q. eexists. split; [reflexivity|]. split; try done. cbn. by rewrite H1.
    + destruct (pci_setup s (a_sel a) ltac:(done)) as (e & l & ->). rewrite Q. eexists. split; [reflexivity|]. split; try done. cbn. by rewrite H1.
  - case_bool_decide as B; [|done]. injection E as <- <-. at_register R. rewrite (written 2 2 q 16 eq_refl eq_refl B).
    eexists. split; [reflexivity|]. split; try done. cbn. by rewrite H1.
  - injection E as <- <-. at_register R. answers 1%nat (vp_status (vp s)). rewrite H4, wrap_id by exact H5. by exists s.
  - case_bool_decide as B; [|done]. at_register R. rewrite (written 1 1 x 8 eq_refl eq_refl B).
    destruct (pci_status s x) as (s' & -> & K1 & K2 & K3). rewrite H1, H2 in K1, K2.
    destruct (virtio_notify_status _ _ _ _) as [v d]. injection E as <- <-. eexists. split; [reflexivity|].
    split; rewrite ?K3; try done. 
  - destruct (Z.leb_spec 0 i); [|done]. destruct (Z.ltb_spec i 256); [|done]. cbn [andb] in E.
    destruct (_ !! _) as [b|] eqn:L; [|done]. cbn [mbind option_bind] in E. case_bool_decide as B; [|done]. injection E as <- <-.
    destruct (pci_field s a i R ltac:(lia)) as (O & G & k & F).
    unfold pci_step, pci_read, virtio_pci__io_in. rewrite O.
    unfold VIRTIO_PCI_HOST_FEATURES, VIRTIO_PCI_QUEUE_PFN, VIRTIO_PCI_QUEUE_NUM, VIRTIO_PCI_STATUS, VIRTIO_PCI_ISR.
    rewrite !(proj2 (Z.eqb_neq _ _)) by lia. unfold virtio_pci__specific_io_in. rewrite F, H1. unfold at_. rewrite L.
    rewrite (one_byte b B). answers 1%nat b. rewrite wrap_id by exact B. by exists s.
  - destruct (bool_decide _) eqn:B; [|done]. apply bool_decide_eq_true in B. cbn [andb] in E.
    destruct (Z.leb_spec 0 i); [|done]. destruct (Z.ltb_spec i 256); [|done]. cbn [andb] in E.
    destruct (Z.ltb_spec i (Z.of_nat (length (po_get_config ops (a_dev a))))); [|done]. injection E as <- <-.
    destruct (pci_field s a i R ltac:(lia)) as (O & G & k & F).
    unfold pci_step, pci_write, virtio_pci__io_out. rewrite O.
    unfold VIRTIO_PCI_GUEST_FEATURES, VIRTIO_PCI_QUEUE_PFN, VIRTIO_PCI_QUEUE_SEL, VIRTIO_PCI_STATUS, VIRTIO_PCI_QUEUE_NOTIFY.
    rewrite !(proj2 (Z.eqb_neq _ _)) by lia. unfold virtio_pci__specific_io_out. rewrite F, H1. unfold at_.
    destruct (lookup_lt_is_Some_2 (po_get_config ops (a_dev a)) (Z.to_nat i) ltac:(lia)) as [c ->].
    rewrite (written 1 1 b 8 eq_refl eq_refl B). eexists. split; [reflexivity|]. by split.
Qed.

#[export] Instance pci_transport : Transport ops endian (pstate D) := {| t_step := pci_step; t_rep := pci_rep; t_refines := pci_refines |}.
End pci.

(** *** The memory-mapped transport *)

Section mmio_refines.
Context {D : Type} (ops : pci_ops D) (endian : Z) (op_set_size_vq : D -> Z -> Z -> D).
Context (add_event : Z -> Z -> Z) (eventfd : Z -> Z).
Hypothesis no_eventfd : po_notify_eventfd ops = None.
Hypothesis counts : forall d, 0 <= po_vq_count ops d <= po_queues ops.

Definition mmio_read (s : mstate D) (reg : Z) (n : nat) : out (option (Z * mstate D)) :=
  let! (data, s') := virtio_mmio_mmio_callback ops op_set_size_vq add_event eventfd endian s (u32 (m_addr (vmmio s) + reg)) buffer (Z.of_nat n) false in
  Ret (Some (le_dec (take n data), s')).
Definition mmio_write (s : mstate D) (reg : Z) (n : nat) (x : Z) : out (option (Z * mstate D)) :=
  let! (_, s') := virtio_mmio_mmio_callback ops op_set_size_vq add_event eventfd endian s (u32 (m_addr (vmmio s) + reg)) (le_enc n x) (Z.of_nat n) true in
  Ret (Some (0, s')).

Definition mmio_step (s : mstate D) (op : dop) : out (option (Z * mstate D)) :=
  match op with
  | GetFeatures => mmio_read s VIRTIO_MMIO_HOST_FEATURES 4
  | SetFeatures f => mmio_write s VIRTIO_MMIO_GUEST_FEATURES 4 f
  | Select q => mmio_write s VIRTIO_MMIO_QUEUE_SEL 4 q
  | GetNum => mmio_read s VIRTIO_MMIO_QUEUE_NUM_MAX 4
  | GetPfn => mmio_read s VIRTIO_MMIO_QUEUE_PFN 4
  | SetPfn p => mmio_write s VIRTIO_MMIO_QUEUE_PFN 4 p
  | Notify q => mmio_write s VIRTIO_MMIO_QUEUE_NOTIFY 4 q
  | GetStatus => mmio_read s VIRTIO_MMIO_STATUS 4
  | SetStatus x => mmio_write s VIRTIO_MMIO_STATUS 4 x
  | GetConfig i => mmio_read s (VIRTIO_MMIO_CONFIG + i) 1
  | SetConfig i b => mmio_write s (VIRTIO_MMIO_CONFIG + i) 1 b
  end.

(** The driver has set the sizes of a page and of the alignment, and left the selectors of
    the features alone. *)
Record mmio_rep (s : mstate D) (a : attached D) : Prop := {
  mr_dev : mdev s = a_dev a; mr_vdev : mvdev s = a_vdev a; mr_sel : word (vmmio s) VIRTIO_MMIO_QUEUE_SEL = a_sel a;
  mr_status : word (vmmio s) VIRTIO_MMIO_STATUS = a_status a; mr_fits : fits 8 (a_status a);
  mr_host : word (vmmio s) VIRTIO_MMIO_HOST_FEATURES_SEL = 0; mr_guest : word (vmmio s) VIRTIO_MMIO_GUEST_FEATURES_SEL = 0;
  mr_page : word (vmmio s) VIRTIO_MMIO_GUEST_PAGE_SIZE = 4096; mr_align : word (vmmio s) VIRTIO_MMIO_QUEUE_ALIGN = 4096;
  mr_addr : fits 32 (m_addr (vmmio s)); mr_len : length (m_hdr (vmmio s)) = 29%nat;
}.

Lemma mmio_offset (s : mstate D) reg : 0 <= reg < 512 -> u32 (u32 (m_addr (vmmio s) + reg) - m_addr (vmmio s)) = reg.
Proof.
  intros H. rewrite wrap_sub_l by lia. replace (_ + _ - _) with reg by lia. apply wrap_id. unfold fits. lia.
Qed.

Lemma mmio_exit_ok n : forall s q, (Z.of_nat n + q <= po_queues ops) -> exists s', mmio_exit_vqs ops s q n = Ret s' /\
  mdev s' = dev_exits ops (mdev s) q n /\ vmmio s' = vmmio s /\ mvdev s' = mvdev s.
Proof.
  induction n as [|n IH]; intros s q H; [by exists s|]. cbn [mmio_exit_vqs dev_exits]. unfold virtio_mmio_exit_vq, in_queues.
  rewrite (proj2 (Z.ltb_lt _ _)) by lia.
  destruct (IH (mset_dev (memit s [DelEvent (notify_addr s) q]) (virtio_exit_vq (po_base ops) (mdev s) q)) (q + 1) ltac:(lia)) as (s' & E & H1 & H2 & H3).
  by exists s'.
Qed.

Lemma mmio_status s x : fits 8 x -> exists s', mmio_write_status ops endian s x = Ret s' /\
  let v := if x =? 0 then mkvdev (use_vhost (mvdev s)) endian (features (mvdev s)) (status (mvdev s)) else mvdev s in
  mvdev s' = fst (virtio_notify_status (dev_ops ops) v (mdev s) x) /\ mdev s' = snd (virtio_notify_status (dev_ops ops) v (mdev s) x) /\
  vmmio s' = set_word (vmmio s) VIRTIO_MMIO_STATUS x.
Proof.
  intros B. unfold mmio_write_status. rewrite (wrap_id 8 x B). set (s1 := mset_vm s (set_word (vmmio s) VIRTIO_MMIO_STATUS x)). cbn zeta.
  set (v := if x =? 0 then _ else _).
  destruct (notify_status_sim (mmio_lifted ops) (dev_ops ops)
    (fun r d => exists s', r = Ret s' /\ mdev s' = d /\ vmmio s' = vmmio s1 /\ mvdev s' = mvdev s1) v (Ret s1) (mdev s) x) as [E1 E2].
  - intros r d (s' & -> & <- & H1 & H2). cbn. destruct (mmio_exit_ok (Z.to_nat (po_vq_count ops (mdev s'))) s' 0) as (s'' & E & K1 & K2 & K3).
    { pose proof (counts (mdev s')). lia. }
    exists s''. unfold virtio_mmio_reset. by rewrite E, K1, K2, K3.
  - intros r d y (s' & -> & <- & H1 & H2). cbn. destruct (op_notify_status (po_base ops)); cbn; [|done]. by eexists.
  - by exists s1.
  - destruct (virtio_notify_status (mmio_lifted ops) v (Ret s1) x) as [v' r]. cbn [fst snd] in *.
    destruct E2 as (s' & -> & H1 & H2 & H3). eexists. split; [reflexivity|]. subst v'. done.
Qed.

(** The word of another register stays. *)
Lemma word_set v reg reg' x : length (m_hdr v) = 29%nat -> 0 <= reg / 4 < 29 -> 0 <= reg' / 4 ->
  word (set_word v reg x) reg' = if reg' / 4 =? reg / 4 then x else word v reg'.
Proof.
  intros L H H'. unfold word, set_word. cbn [m_hdr]. destruct (Z.eqb_spec (reg' / 4) (reg / 4)) as [->|N].
  - by rewrite list_lookup_insert_eq by lia.
  - by rewrite list_lookup_insert_ne by lia.
Qed.

Lemma mmio_setup s q : q < VIRTIO_MMIO_MAX_VQ -> exists e l,
  virtio_mmio_init_ioeventfd ops add_event eventfd s q = Ret (e, memit s l).
Proof.
  intros H. unfold virtio_mmio_init_ioeventfd. rewrite (proj2 (Z.leb_gt _ _)) by done. cbn zeta. rewrite no_eventfd.
  destruct (negb _); [|by eexists _, _].
  exists (add_event (notify_addr s) q), []. unfold memit. rewrite app_nil_r. by destruct s.
Qed.

(** A register of a fixed offset. *)
Ltac at_word := unfold mmio_step, mmio_read, mmio_write, virtio_mmio_mmio_callback; rewrite mmio_offset by done;
  unfold virtio_mmio_config_in, virtio_mmio_config_out, plain_read, plain_write,
    VIRTIO_MMIO_CONFIG, VIRTIO_MMIO_HOST_FEATURES, VIRTIO_MMIO_GUEST_FEATURES, VIRTIO_MMIO_QUEUE_SEL, VIRTIO_MMIO_QUEUE_NUM_MAX,
    VIRTIO_MMIO_QUEUE_PFN, VIRTIO_MMIO_QUEUE_NOTIFY, VIRTIO_MMIO_STATUS, VIRTIO_MMIO_MAGIC_VALUE, VIRTIO_MMIO_VERSION,
    VIRTIO_MMIO_DEVICE_ID, VIRTIO_MMIO_VENDOR_ID, VIRTIO_MMIO_INTERRUPT_STATUS, VIRTIO_MMIO_HOST_FEATURES_SEL,
    VIRTIO_MMIO_GUEST_FEATURES_SEL, VIRTIO_MMIO_GUEST_PAGE_SIZE, VIRTIO_MMIO_QUEUE_ALIGN, VIRTIO_MMIO_QUEUE_NUM in *;
  cbn [Z.leb Z.compare Pos.compare Pos.compare_cont existsb Z.eqb Pos.eqb orb].

(** Whether two fixed registers are the same. *)
Ltac same_word := match goal with |- context [if ?b then _ else _] => let c := eval vm_compute in b in change b with c; cbn iota end.

(** A word that a driver's view shows is written. *)
Lemma mmio_rep_set s a reg x a' : mmio_rep s a -> (reg = VIRTIO_MMIO_QUEUE_SEL /\ a_sel a' = x /\ a_status a' = a_status a \/
    reg = VIRTIO_MMIO_STATUS /\ a_status a' = x /\ a_sel a' = a_sel a /\ fits 8 x) ->
  forall s', vmmio s' = set_word (vmmio s) reg x -> mdev s' = a_dev a' -> mvdev s' = a_vdev a' -> mmio_rep s' a'.
Proof.
  intros [H1 H2 H3 H4 H5 H6 H7 H8 H9 H10 H11] C s' V K1 K2.
  assert (0 <= reg / 4 < 29) by (destruct C as [(-> & _)|(-> & _)]; done).
  split; rewrite ?V; try done.
  1: rewrite word_set by done; destruct C as [(-> & E1 & E2)|(-> & E1 & E2 & E3)]; same_word; congruence.
  1: rewrite word_set by done; destruct C as [(-> & E1 & E2)|(-> & E1 & E2 & E3)]; same_word; congruence.
  1: destruct C as [(-> & E1 & E2)|(-> & E1 & E2 & E3)]; by rewrite ?E1, ?E2.
  1-4: rewrite word_set by done; destruct C as [(-> & E1 & E2)|(-> & E1 & E2 & E3)]; same_word; congruence.
  unfold set_word. cbn [m_hdr]. by rewrite length_insert.
Qed.

Lemma mmio_refines s a op r a' : mmio_rep s a -> spec_step ops endian a op = Some (r, a') ->
  exists s', mmio_step s op = Ret (Some (r, s')) /\ mmio_rep s' a'.
Proof.
  intros R E. pose proof R as [H1 H2 H3 H4 H5 H6 H7 H8 H9 H10 H11]. destruct op as [|f|q| | |p|q| |x|i|i b]; cbn [spec_step] in E.
  - injection E as <- <-. at_word. rewrite H6. cbn [Z.eqb]. answers 4%nat (po_host_features ops (mdev s)). rewrite H1. by exists s.
  - case_bool_decide as B; [|done]. injection E as <- <-. at_word. rewrite H7. cbn [Z.eqb].
    rewrite (written 4 4 f 32 eq_refl eq_refl B). rewrite H1, H2. eexists. split; [reflexivity|]. by split.
  - case_bool_decide as B; [|done]. injection E as <- <-. at_word. rewrite (written 4 4 q 32 eq_refl eq_refl) by (unfold fits in *; lia).
    eexists. split; [reflexivity|]. eapply (mmio_rep_set s a _ q); [exact R | left; done | reflexivity | done | done].
  - case_bool_decide as B; [|done]. injection E as <- <-. at_word. answers 4%nat (po_size_vq ops (mdev s) (word (vmmio s) 0x030)).
    rewrite H1, H3. rewrite wrap_id by (unfold fits in *; lia). by exists s.
  - destruct (in_queues ops (a_sel a)) eqn:Q; [|done]. injection E as <- <-. at_word. rewrite H3, Q.
    answers 4%nat (pfn (op_get_vq (po_base ops) (mdev s) (a_sel a))). rewrite H1. by exists s.
  - destruct (bool_decide _) eqn:B; [|done]. apply bool_decide_eq_true in B. cbn [andb] in E.
    destruct (in_queues ops (a_sel a)) eqn:Q; [|done]. destruct (Z.ltb_spec (a_sel a) 32); [|done]. injection E as <- <-.
    at_word. rewrite (written 4 4 p 32 eq_refl eq_refl B). rewrite H3. destruct (p =? 0); cbn [negb].
    + unfold virtio_mmio_exit_vq. rewrite Q. eexists. split; [reflexivity|]. split; try done. cbn. by rewrite H1.
    + destruct (mmio_setup s (a_sel a) ltac:(done)) as (e & l & ->). rewrite Q, H8, H9. eexists. split; [reflexivity|]. split; try done. cbn. by rewrite H1.
  - case_bool_decide as B; [|done]. injection E as <- <-. at_word. rewrite (written 4 4 q 32 eq_refl eq_refl) by (unfold fits in *; lia).
    eexists. split; [reflexivity|]. split; try done. cbn. by rewrite H1.
  - injection E as <- <-. at_word. answers 4%nat (word (vmmio s) 0x070). rewrite H4, wrap_id by (unfold fits in *; lia). by exists s.
  - case_bool_decide as B; [|done]. at_word. rewrite (written 4 4 x 32 eq_refl eq_refl) by (unfold fits in *; lia).
    destruct (mmio_status s x B) as (s' & -> & K1 & K2 & K3). rewrite H1, H2 in K1, K2.
    destruct (virtio_notify_status _ _ _ _) as [v d]. injection E as <- <-. eexists. split; [reflexivity|].
    eapply (mmio_rep_set s a _ x); [exact R | right; done | exact K3 | done | done].
  - destruct (Z.leb_spec 0 i); [|done]. destruct (Z.ltb_spec i 256); [|done]. cbn [andb] in E.
    destruct (_ !! _) as [b|] eqn:L; [|done]. cbn [mbind option_bind] in E. case_bool_decide as B; [|done]. injection E as <- <-.
    unfold mmio_step, mmio_read, virtio_mmio_mmio_callback. unfold VIRTIO_MMIO_CONFIG in *. rewrite mmio_offset by lia.
    rewrite (proj2 (Z.leb_le _ _)) by lia. replace (256 + i - 256) with i by lia.
    unfold virtio_mmio_device_specific. rewrite H1. change (Z.to_nat (Z.of_nat 1)) with 1%nat. cbn [config_read].
    rewrite Z.add_0_r. unfold at_. rewrite L. rewrite (one_byte b B). answers 1%nat b. rewrite wrap_id by exact B. by exists s.
  - destruct (bool_decide _) eqn:B; [|done]. apply bool_decide_eq_true in B. cbn [andb] in E.
    destruct (Z.leb_spec 0 i); [|done]. destruct (Z.ltb_spec i 256); [|done]. cbn [andb] in E.
    destruct (Z.ltb_spec i (Z.of_nat (length (po_get_config ops (a_dev a))))); [|done]. injection E as <- <-.
    unfold mmio_step, mmio_write, virtio_mmio_mmio_callback. unfold VIRTIO_MMIO_CONFIG in *. rewrite mmio_offset by lia.
    rewrite (proj2 (Z.leb_le _ _)) by lia. replace (256 + i - 256) with i by lia.
    unfold virtio_mmio_device_specific. change (Z.of_nat 1 =? 0) with false. rewrite (written 1 1 b 8 eq_refl eq_refl B).
    change (Z.to_nat (Z.of_nat 1)) with 1%nat. cbn [config_write]. rewrite !Z.add_0_r, (wrap_id 8 b B), H1. unfold at_.
    destruct (lookup_lt_is_Some_2 (po_get_config ops (a_dev a)) (Z.to_nat i) ltac:(lia)) as [c ->].
    eexists. split; [reflexivity|]. by split.
Qed.

#[export] Instance mmio_transport : Transport ops endian (mstate D) := {| t_step := mmio_step; t_rep := mmio_rep; t_refines := mmio_refines |}.
End mmio_refines.

(** ** Both transports *)

Section agree.
Context {D : Type} (ops : pci_ops D) (endian : Z) (op_set_size_vq : D -> Z -> Z -> D).
Context (realloc_ok cap_irq_routing : bool) (set_gsi_routing : list routing_entry -> Z) (msix_needs_devid : bool).
Context (add_event : Z -> Z -> Z) (eventfd : Z -> Z).

Abbreviation prun := (run_steps (pci_step ops endian realloc_ok cap_irq_routing set_gsi_routing msix_needs_devid add_event eventfd)).
Abbreviation mstep := (mmio_step ops endian op_set_size_vq add_event eventfd).
Abbreviation mwrite := (mmio_write ops endian op_set_size_vq add_event eventfd).

(** A new memory-mapped device, and the driver's first two writes. *)
Definition mmio_prepare (subsys blocks irq : Z) (vd : virtio_device) (d : D) : out (option (Z * mstate D)) :=
  let! r := mwrite (mkmst (fst (virtio_mmio_init subsys blocks irq)) vd d []) VIRTIO_MMIO_GUEST_PAGE_SIZE 4 4096 in
  match r with Some (_, t) => mwrite t VIRTIO_MMIO_QUEUE_ALIGN 4 4096 | None => Ret None end.

Lemma mmio_write_out (s : mstate D) reg x : 0 <= reg < 256 ->
  mwrite s reg 4 x = let! s' := virtio_mmio_config_out ops op_set_size_vq add_event eventfd endian s reg (le_enc 4 x) in Ret (Some (0, s')).
Proof.
  intros H. unfold mmio_write, virtio_mmio_mmio_callback. rewrite mmio_offset by lia.
  rewrite (proj2 (Z.leb_gt VIRTIO_MMIO_CONFIG _)) by (unfold VIRTIO_MMIO_CONFIG; lia). by destruct (virtio_mmio_config_out _ _ _ _ _ _ _ _).
Qed.

Lemma mmio_sizes (s : mstate D) reg : reg = VIRTIO_MMIO_GUEST_PAGE_SIZE \/ reg = VIRTIO_MMIO_QUEUE_ALIGN ->
  virtio_mmio_config_out ops op_set_size_vq add_event eventfd endian s reg (le_enc 4 4096) = Ret (mset_vm s (set_word (vmmio s) reg 4096)).
Proof. by intros [-> | ->]. Qed.

Lemma mmio_start subsys blocks irq vd d : fits 32 blocks -> exists t,
  mmio_prepare subsys blocks irq vd d = Ret (Some (0, t)) /\ mmio_rep t (mkatt d vd 0 0).
Proof.
  intros Hb. unfold mmio_prepare. rewrite mmio_write_out by done. rewrite mmio_sizes by (by left).
  rewrite mmio_write_out by done. rewrite mmio_sizes by (by right). eexists. split; [reflexivity|]. by split.
Qed.

(** C39. The two transports are the same to a device: for any device without event files of
    its own, new behind each transport, and for whatever a driver then does (features, the
    choice of queues, their places and sizes, notifications, status, configuration bytes), a
    driver reads the same through the ports of the PCI device as through the registers of the
    memory-mapped one once it has set the sizes of a page and of the alignment, and the device
    and its status end up the same. *)
Theorem transports_agree device_id subsys class io_blocks port_r mmio_r msix_r device_r num line can_signal vpci io_blocks'
    blocks irq irqs vd d l rs a :
  po_notify_eventfd ops = None -> (forall d, 0 <= po_vq_count ops d <= po_queues ops) ->
  virtio_pci__init device_id subsys class io_blocks port_r mmio_r msix_r device_r num line can_signal = (0, [], Some vpci, io_blocks') ->
  fits 32 blocks -> spec_run ops endian (mkatt d vd 0 0) l = Some (rs, a) ->
  exists s t0 t, prun (mkpst vpci vd d irqs []) l = Ret (Some (rs, s)) /\
    mmio_prepare subsys blocks irq vd d = Ret (Some (0, t0)) /\ run_steps mstep t0 l = Ret (Some (rs, t)) /\
    pdev s = mdev t /\ vdev s = mvdev t /\ pdev s = a_dev a.
Proof.
  intros He Hc Hi Hb E. destruct (mmio_start subsys blocks irq vd d Hb) as (t0 & E0 & R0).
  assert (pci_rep (mkpst vpci vd d irqs []) (mkatt d vd 0 0)) as P0.
  { unfold virtio_pci__init in Hi. destruct (port_r <? 0); [done|]. destruct (pci_get_io_space_block io_blocks IOPORT_SIZE) as [mmio b1].
    destruct (mmio_r <? 0); [done|]. destruct (pci_get_io_space_block b1 (PCI_IO_SIZE * 2)) as [io b2].
    destruct (msix_r <? 0); [done|]. destruct (device_r <? 0); [done|]. injection Hi as <- _.
    split; try done. apply (wrap_fits 16). lia. }
  destruct (run_refines ops endian (T := pstate D)
    (H := pci_transport ops endian realloc_ok cap_irq_routing set_gsi_routing msix_needs_devid add_event eventfd He Hc) l _ _ rs a P0 E) as (s & Es & Rs).
  destruct (run_refines ops endian (T := mstate D) (H := mmio_transport ops endian op_set_size_vq add_event eventfd He Hc) l _ _ rs a R0 E) as (t & Et & Rt).
  exists s, t0, t. split; [exact Es|]. split; [exact E0|]. split; [exact Et|].
  destruct Rs as [P1 P2 _ _ _ _], Rt as [M1 M2 _ _ _ _ _ _ _ _ _]. by rewrite P1, P2, M1, M2.
Qed.
End agree.

(** A device that remembers what it is told, with four bytes of configuration and two queues. *)
Definition log_ops : pci_ops (list Z * list Z) :=
  let say d l := (fst d, snd d ++ l) in
  mkpops _ (mkops _ (fun d f => say d [1; f]) (Some (fun d q => say d [2; q])) (Some (fun d x => say d [3; x])) (fun d => d)
      (fun _ _ => mkvq (mkvring 0 0 0 0) 7 0 0 0 false true) (fun d q _ => say d [4; q]))
    fst (fun d c => (c, snd d)) (fun _ => 0x30000005) (fun d q ps al p => say d [5; q; ps; al; p]) (fun _ _ => 256) (fun d q => say d [6; q])
    None None (fun _ => 2) 2.

Definition session : list dop :=
  [SetStatus 3; GetFeatures; SetFeatures 5; Select 1; GetNum; SetPfn 0x1234; GetPfn; SetStatus 7; Notify 1; GetConfig 2; SetConfig 2 9;
   GetConfig 2; GetStatus; SetStatus 0].
Definition session_answers : list Z := [0; 0x30000005; 0; 0; 256; 0; 7; 0; 0; 30; 0; 9; 7; 0].
Definition session_log : list Z :=
  [3; 3; 1; 5; 5; 1; 4096; 4096; 0x1234; 3; 263; 6; 1; 2; 0; 4; 0; 2; 1; 4; 1; 3; 512].

Lemma transports_agree_witness : exists v, virtio_pci__init 0x1000 1 0x20000 KVM_PCI_MMIO_AREA 0x6200 0 0 0 0 5 false = (0, [], Some v, 0xd2000600) /\
  exists s t0 t,
    run_steps (pci_step log_ops 1 true true no_fail false (fun _ _ => 0) (fun _ => 9))
      (mkpst v (mkvdev false 0 0 0) ([10; 20; 30; 40], []) irq_state0 []) session = Ret (Some (session_answers, s)) /\
    mmio_prepare log_ops 1 (fun d _ _ => d) (fun _ _ => 0) (fun _ => 9) 1 KVM_VIRTIO_MMIO_AREA 6 (mkvdev false 0 0 0) ([10; 20; 30; 40], []) = Ret (Some (0, t0)) /\
    run_steps (mmio_step log_ops 1 (fun d _ _ => d) (fun _ _ => 0) (fun _ => 9)) t0 session = Ret (Some (session_answers, t)) /\
    pdev s = mdev t /\ vdev s = mvdev t /\ pdev s = ([10; 20; 9; 40], session_log).
Proof.
  eexists. split; [vm_compute; reflexivity|].
  apply (transports_agree log_ops 1 (fun d _ _ => d) true true no_fail false (fun _ _ => 0) (fun _ => 9)
    0x1000 1 0x20000 KVM_PCI_MMIO_AREA 0x6200 0 0 0 0 5 false _ 0xd2000600 KVM_VIRTIO_MMIO_AREA 6 irq_state0 (mkvdev false 0 0 0) ([10; 20; 30; 40], [])
    session session_answers (mkatt ([10; 20; 9; 40], session_log) (mkvdev false 1 5 0) 1 0)).
  - reflexivity.
  - intros d. split; [discriminate|]. vm_compute. discriminate.
  - vm_compute. reflexivity.
  - split; [discriminate | reflexivity].
  - vm_compute. reflexivity.
Defined.

(** ** What the registers do otherwise *)

(** Signals add their bit to the interrupt status and pulse the line; an acknowledgement
    takes away exactly the bits that it names. *)
Lemma mmio_interrupts {D : Type} (s : mstate D) bit : length (m_hdr (vmmio s)) = 29%nat ->
  word (vmmio (mmio_interrupt s bit)) VIRTIO_MMIO_INTERRUPT_STATUS = word (vmmio s) VIRTIO_MMIO_INTERRUPT_STATUS .| bit /\
  mevs (mmio_interrupt s bit) = mevs s ++ [IrqLine (m_irq (vmmio s)) 1; IrqLine (m_irq (vmmio s)) 0] /\ mdev (mmio_interrupt s bit) = mdev s.
Proof. intros L. split; [|done]. unfold mmio_interrupt. cbn [vmmio memit mset_vm]. by rewrite word_set. Qed.

Lemma mmio_ack {D : Type} (ops : pci_ops D) f g h e (s : mstate D) val : length (m_hdr (vmmio s)) = 29%nat -> fits 32 val ->
  exists s', virtio_mmio_config_out ops f g h e s VIRTIO_MMIO_INTERRUPT_ACK (le_enc 4 val) = Ret s' /\
    word (vmmio s') VIRTIO_MMIO_INTERRUPT_STATUS = word (vmmio s) VIRTIO_MMIO_INTERRUPT_STATUS .&~ val /\ mdev s' = mdev s.
Proof.
  intros L B. eexists. split; [unfold virtio_mmio_config_out; rewrite (written 4 4 val 32 eq_refl eq_refl B); reflexivity|].
  cbn [vmmio mset_vm mdev]. by rewrite word_set.
Qed.

(** A write of four bytes to the configuration stores the first one and its successors. *)
Example wide_config_write : virtio_mmio_device_specific log_ops
  (mkmst (mkvmmio [] 0 0) (mkvdev false 0 0 0) ([0; 0; 0; 0], []) []) 0 [0x11; 0x22; 0x33; 0x44] 4 true =
  Ret ([0x11; 0x22; 0x33; 0x44], mkmst (mkvmmio [] 0 0) (mkvdev false 0 0 0) ([0x11; 0x12; 0x13; 0x14], []) []).
Proof. reflexivity. Qed.

(** A status of 256 is no reset for the transport, which keeps the byte order and shows the
    status, and a reset for the device. *)
Example status_truncated : exists s', mmio_write_status log_ops 1
    (mkmst (mkvmmio (mmio_header 1) 0 0) (mkvdev false 0 0 0x1000) ([0; 0; 0; 0], []) []) 256 = Ret s' /\
  word (vmmio s') VIRTIO_MMIO_STATUS = 256 /\ vdev_endian (mvdev s') = 0 /\ mdev s' = ([0; 0; 0; 0], [3; 0]).
Proof. eexists. split; [vm_compute; reflexivity|]. done. Qed.

(** The number of a queue is not compared with anything: the 33rd place does not exist. *)
Example queue_unchecked : virtio_mmio_config_out log_ops (fun d _ _ => d) (fun _ _ => 0) (fun _ => 9) 1
    (mkmst (set_word (mkvmmio (mmio_header 1) 0 0) VIRTIO_MMIO_QUEUE_SEL 33) (mkvdev false 0 0 0) ([0; 0; 0; 0], []) [])
    VIRTIO_MMIO_QUEUE_PFN (le_enc 4 1) = Ub.
Proof. reflexivity. Qed.
