(* ===== verification/VirtioDev.v ===== *)
(** * The small virtio devices: console, entropy, balloon

    [virtio/console.c], [virtio/rng.c] and [virtio/balloon.c]. Their queues are served by the
    same loop, [serve], with a request of their own; [serve_rule] is its rule, with an
    invariant over what is still offered. What the devices ask of the thread pool, the
    interrupts and the compatibility messages is a list of [dev_event]s. *)
From S2P Require Import Prelude Membank HostMem Virtqueue VirtioBlk VirtioNet Serial.
Import Term.
Open Scope Z_scope.

(** What a device does besides memory: interrupts of its queues or its configuration, jobs
    that are set up, queued and cancelled, the message of [guest_compat.c] withdrawn. *)
Inductive dev_event :=
| SignalVq (vq : Z) | SignalConfig | InitJob (vq : Z) | DoJob (vq : Z) | CancelJob (vq : Z) | RemoveMessage.

Section serve.
Context {B : Type} (kvm : kvm_mem).
(** A request works on the vectors of a chain, with the counts of readable and writable ones;
    it returns the length for the used element. *)
Context (request : hmem -> list iovec -> Z -> Z -> B -> out (Z * hmem * B)) (after : B -> B).

Definition serve_one (m : hmem) (t : net_thread) (b : B) : out (hmem * net_thread * B) :=
  let! (head, out_, in_, t) := next_chain kvm m t in
  let! (len, m, b) := request m (nt_iov t) out_ in_ b in
  let! m := virt_queue__set_used_elem m (nt_vq t) head len in
  Ret (m, t, after b).

(** [while (virt_queue__available(vq))] *)
Fixpoint serve (fuel : nat) (m : hmem) (t : net_thread) (b : B) : out (hmem * net_thread * B) :=
  match fuel with
  | O => NoFuel
  | S fuel =>
      let! (more, m) := virt_queue__available m (nt_vq t) in
      if more then let! (m, t, b) := serve_one m t b in serve fuel m t b
      else Ret (m, t, b)
  end.
End serve.

(** The new queue: nothing but its place changes. [vring_init] of [<linux/virtio_ring.h>] lays
    it out. *)
Definition place_vq (kvm : kvm_mem) (vring_init : Z -> Z -> Z -> vring) (n : Z) (vq : virt_queue) (page_size align pfn' : Z) : virt_queue :=
  mkvq (vring_init n (virtio_get_vq kvm pfn' page_size) align) pfn' (last_avail_idx vq) (last_used_signalled vq)
    (vq_endian vq) (use_event_idx vq) (enabled vq).

Definition vq_at (l : list virt_queue) (i : Z) : out virt_queue := match l !! Z.to_nat i with Some q => Ret q | None => Ub end.

(** ** The console *)

Module Console.

Definition VIRTIO_CONSOLE_QUEUE_SIZE : Z := 128.
Definition VIRTIO_CONSOLE_NUM_QUEUES : Z := 2.
Definition VIRTIO_CONSOLE_RX_QUEUE : Z := 0.
Definition VIRTIO_CONSOLE_TX_QUEUE : Z := 1.

(** [struct con_dev]; the configuration is columns, rows and ports. The byte order of the
    guest is the host's. *)
Record con_dev := mkcon {
  c_mutex : bool; c_vdev : virtio_device; c_vqs : list virt_queue; c_config : Z * Z * Z;
  vq_ready : bool; c_events : list dev_event;
}.

Definition cdev0 : con_dev := mkcon false (mkvdev false 0 0 0) (repeat zero_vq 2) (80, 24, 1) false [].

Definition c_set_mutex (c : con_dev) (x : bool) : con_dev := mkcon x (c_vdev c) (c_vqs c) (c_config c) (vq_ready c) (c_events c).
Definition c_set_vq (c : con_dev) (i : Z) (q : virt_queue) : con_dev :=
  mkcon (c_mutex c) (c_vdev c) (<[Z.to_nat i := q]> (c_vqs c)) (c_config c) (vq_ready c) (c_events c).
Definition c_set_ready (c : con_dev) (x : bool) : con_dev := mkcon (c_mutex c) (c_vdev c) (c_vqs c) (c_config c) x (c_events c).
Definition c_emit (c : con_dev) (l : list dev_event) : con_dev := mkcon (c_mutex c) (c_vdev c) (c_vqs c) (c_config c) (vq_ready c) (c_events c ++ l).

(** Waiting for the mutex is waiting for another thread. *)
Definition mutex_lock (c : con_dev) : out con_dev := if c_mutex c then NoFuel else Ret (c_set_mutex c true).
Definition mutex_unlock (c : con_dev) : con_dev := c_set_mutex c false.

Section console.
Context (kvm : kvm_mem) (vring_init : Z -> Z -> Z -> vring).

(** One character from the terminal, into the first vector of a chain. [stack] is what the
    array of vectors holds before. *)
Definition virtio_console__inject_interrupt_callback (stack : list iovec) (m : hmem) (c : con_dev) (t : term)
    : out (hmem * con_dev * term) :=
  let! c := mutex_lock c in
  let! vq := vq_at (c_vqs c) VIRTIO_CONSOLE_RX_QUEUE in
  let! (m, c, t) :=
    if term_readable t then
      let! (more, m) := virt_queue__available m vq in
      if more then
        let! (head, _, _, th) := next_chain kvm m (mknt 0 vq stack 0) in
        let '(len, ch, t) := term_getc_iov t in
        let! m := match ch with
                  | Some x => let! v := iov_at (nt_iov th) 0 in store 1 m (iov_base v) x
                  | None => Ret m
                  end in
        let! m := virt_queue__set_used_elem m (nt_vq th) head len in
        Ret (m, c_emit (c_set_vq c VIRTIO_CONSOLE_RX_QUEUE (nt_vq th)) [SignalVq VIRTIO_CONSOLE_RX_QUEUE], t)
      else Ret (m, c, t)
    else Ret (m, c, t) in
  Ret (m, mutex_unlock c, t).

Definition virtio_console__inject_interrupt (active : bool) (c : con_dev) : out con_dev :=
  if negb active then Ret c
  else
    let! c := mutex_lock c in
    Ret (mutex_unlock (if vq_ready c then c_emit c [DoJob VIRTIO_CONSOLE_RX_QUEUE] else c)).

(** What the terminal has got, and how many calls were made. [writev] is what the kernel
    answers to a call for so many bytes: how many it took, or an error. *)
Record tty := mktty { t_out : list Z; t_calls : nat }.
Context (writev : nat -> Z -> Z).

Definition term_putc_iov (m : hmem) (iov : list iovec) (iovcnt : Z) (t : tty) : out (Z * tty) :=
  if Z.of_nat (length iov) <? iovcnt then Ub
  else
    let! bytes := read_all m (iov_addrs (take (Z.to_nat iovcnt) iov)) in
    let r := writev (t_calls t) (Z.of_nat (length bytes)) in
    Ret (r, mktty (t_out t ++ take (Z.to_nat r) bytes) (S (t_calls t))).

Definition tx_request (m : hmem) (iov : list iovec) (out_ in_ : Z) (t : tty) : out (Z * hmem * tty) :=
  let! (len, t) := term_putc_iov m iov out_ t in Ret (u32 len, m, t).

Definition virtio_console_handle_callback (fuel : nat) (m : hmem) (th : net_thread) (t : tty) : out (hmem * net_thread * tty) :=
  serve kvm tx_request (fun t => t) fuel m th t.

Definition get_host_features : Z := 0.
(** The features are not kept; the byte order of the fields is converted. *)
Definition set_guest_features (c : con_dev) (features : Z) : con_dev := c.

Definition init_vq (c : con_dev) (vq page_size align pfn' : Z) : out con_dev :=
  if VIRTIO_CONSOLE_NUM_QUEUES <=? vq then Ub
  else
    let! q := vq_at (c_vqs c) vq in
    let q := virtio_init_device_vq (c_vdev c) (place_vq kvm vring_init VIRTIO_CONSOLE_QUEUE_SIZE q page_size align pfn') in
    let c := c_emit (c_set_vq (c_emit c [RemoveMessage]) vq q) [InitJob vq] in
    if vq =? VIRTIO_CONSOLE_RX_QUEUE then
      let! c := mutex_lock c in Ret (mutex_unlock (c_set_ready c true))
    else Ret c.

Definition exit_vq (c : con_dev) (vq : Z) : out con_dev :=
  if vq =? VIRTIO_CONSOLE_RX_QUEUE then
    let! c := mutex_lock c in Ret (c_emit (mutex_unlock (c_set_ready c false)) [CancelJob vq])
  else if vq =? VIRTIO_CONSOLE_TX_QUEUE then Ret (c_emit c [CancelJob vq])
  else Ret c.

Definition notify_vq (c : con_dev) (vq : Z) : out con_dev :=
  if VIRTIO_CONSOLE_NUM_QUEUES <=? vq then Ub else Ret (c_emit c [DoJob vq]).
End console.

Definition get_vq (c : con_dev) (vq : Z) : out virt_queue := vq_at (c_vqs c) vq.
Definition get_size_vq : Z := VIRTIO_CONSOLE_QUEUE_SIZE.
Definition set_size_vq (size : Z) : Z := size.
Definition get_vq_count : Z := VIRTIO_CONSOLE_NUM_QUEUES.
End Console.

(** ** Entropy *)

Module Rng.

Definition NUM_VIRT_QUEUES : Z := 1.
Definition VIRTIO_RNG_QUEUE_SIZE : Z := 128.
Definition EAGAIN : Z := 11.

Record rng_dev := mkrng { r_vqs : list virt_queue; r_events : list dev_event }.

Section rng.
Context (kvm : kvm_mem) (vring_init : Z -> Z -> Z -> vring).
(** The answers of [readv] to a call for so many bytes: the bytes, or an error. *)
Context (urandom : nat -> Z -> list Z + Z).

(** [readv]: the bytes go into the first [iovcnt] vectors, in order. *)
Definition readv (m : hmem) (iov : list iovec) (iovcnt : Z) (calls : nat) : out (Z * Z * hmem) :=
  if Z.of_nat (length iov) <? iovcnt then Ub
  else
    let l := iov_addrs (take (Z.to_nat iovcnt) iov) in
    match urandom calls (Z.of_nat (length l)) with
    | inl bs => let! m := write_all m (take (length bs) l) bs in Ret (Z.of_nat (length bs), 0, m)
    | inr errno => Ret (-1, errno, m)
    end.

Definition virtio_rng_do_io_request (m : hmem) (iov : list iovec) (out_ in_ : Z) (calls : nat) : out (Z * hmem * nat) :=
  let! (len, errno, m) := readv m iov in_ calls in
  let len := if (len <? 0) && (errno =? EAGAIN) then 0 else len in
  Ret (u32 len, m, S calls).

(** Every offered chain, then one interrupt. *)
Definition virtio_rng_do_io (fuel : nat) (m : hmem) (th : net_thread) (calls : nat) : out (hmem * net_thread * nat * list dev_event) :=
  let! (m, th, calls) := serve kvm virtio_rng_do_io_request (fun n => n) fuel m th calls in
  Ret (m, th, calls, [SignalVq 0]).

Definition init_vq (r : rng_dev) (vq page_size align pfn' : Z) : out rng_dev :=
  let! q := vq_at (r_vqs r) vq in
  Ret (mkrng (<[Z.to_nat vq := place_vq kvm vring_init VIRTIO_RNG_QUEUE_SIZE q page_size align pfn']> (r_vqs r))
         (r_events r ++ [RemoveMessage; InitJob vq])).
End rng.

Definition notify_vq (r : rng_dev) (vq : Z) : out rng_dev :=
  if NUM_VIRT_QUEUES <=? vq then Ub else Ret (mkrng (r_vqs r) (r_events r ++ [DoJob vq])).
Definition get_vq (r : rng_dev) (vq : Z) : out virt_queue := vq_at (r_vqs r) vq.
Definition get_size_vq : Z := VIRTIO_RNG_QUEUE_SIZE.
Definition set_size_vq (size : Z) : Z := size.
Definition get_vq_count : Z := NUM_VIRT_QUEUES.
End Rng.

(** ** The balloon *)

Module Balloon.

Definition NUM_VIRT_QUEUES : Z := 3.
Definition VIRTIO_BLN_QUEUE_SIZE : Z := 128.
Definition VIRTIO_BLN_INFLATE : Z := 0.
Definition VIRTIO_BLN_DEFLATE : Z := 1.
Definition VIRTIO_BLN_STATS : Z := 2.
(** [<linux/virtio_balloon.h>]: pages, the feature, the size of a statistic. *)
Definition VIRTIO_BALLOON_PFN_SHIFT : Z := 12.
Definition VIRTIO_BALLOON_F_STATS_VQ : Z := 1.
Definition STAT_SIZE : Z := 10.
Definition EFAULT : Z := 14.

(** [struct bln_dev]: the statistics are bytes; [cur_stat] is the address of the guest's
    buffer, [stat_waitfd] the counter of the event file. *)
Record bln_dev := mkbln {
  b_features : Z; b_vqs : list virt_queue; b_stats : list Z;
  cur_stat : option Z; cur_stat_head : Z; stat_count : Z; stat_waitfd : Z;
  num_pages : Z; actual : Z; b_events : list dev_event;
}.

Definition b_set_vq (b : bln_dev) (i : Z) (q : virt_queue) : bln_dev :=
  mkbln (b_features b) (<[Z.to_nat i := q]> (b_vqs b)) (b_stats b) (cur_stat b) (cur_stat_head b) (stat_count b) (stat_waitfd b)
    (num_pages b) (actual b) (b_events b).
Definition b_emit (b : bln_dev) (l : list dev_event) : bln_dev :=
  mkbln (b_features b) (b_vqs b) (b_stats b) (cur_stat b) (cur_stat_head b) (stat_count b) (stat_waitfd b)
    (num_pages b) (actual b) (b_events b ++ l).
Definition b_set_pages (b : bln_dev) (n a : Z) : bln_dev :=
  mkbln (b_features b) (b_vqs b) (b_stats b) (cur_stat b) (cur_stat_head b) (stat_count b) (stat_waitfd b) n a (b_events b).
Definition b_set_stat (b : bln_dev) (bytes : list Z) (ptr head count wait : Z) : bln_dev :=
  mkbln (b_features b) (b_vqs b) bytes (Some ptr) head count wait (num_pages b) (actual b) (b_events b).
Definition b_set_wait (b : bln_dev) (x : Z) : bln_dev :=
  mkbln (b_features b) (b_vqs b) (b_stats b) (cur_stat b) (cur_stat_head b) (stat_count b) x (num_pages b) (actual b) (b_events b).

Definition PAGE : Z := 1 .<< VIRTIO_BALLOON_PFN_SHIFT.

(** [madvise(p, 4096, MADV_DONTNEED)] on private anonymous memory: what is mapped of the page
    reads as zero afterwards. *)
Definition dontneed (m : hmem) (p : Z) : hmem :=
  foldr (fun a m => match m !! a with Some _ => <[a := 0]> m | None => m end) m (seqZ p PAGE).

Section balloon.
Context (kvm : kvm_mem) (vring_init : Z -> Z -> Z -> vring).

(** The page frame numbers from [ptrs] on. *)
Fixpoint page_loop (n : nat) (kind : Z) (m : hmem) (ptrs : Z) (b : bln_dev) : out (hmem * bln_dev) :=
  match n with
  | O => Ret (m, b)
  | S n =>
      let! pfn := load 4 m ptrs in
      let guest_ptr := host_ptr kvm (u64 (pfn .<< VIRTIO_BALLOON_PFN_SHIFT)) in
      let '(m, b) :=
        if kind =? VIRTIO_BLN_INFLATE then (dontneed m guest_ptr, b_set_pages b (num_pages b) (u32 (actual b + 1)))
        else if kind =? VIRTIO_BLN_DEFLATE then (m, b_set_pages b (num_pages b) (u32 (actual b - 1)))
        else (m, b) in
      page_loop n kind m (ptrs + 4) b
  end.

Definition virtio_bln_do_io_request (kind : Z) (m : hmem) (iov : list iovec) (out_ in_ : Z) (b : bln_dev) : out (Z * hmem * bln_dev) :=
  let! v := iov_at iov 0 in
  let len := u32 (iov_len v / 4) in
  let! (m, b) := page_loop (Z.to_nat len) kind m (iov_base v) b in
  Ret (len, m, b).

(** The guest's buffer of statistics; the first one is empty. *)
Definition virtio_bln_do_stat_request (stack : list iovec) (m : hmem) (b : bln_dev) : out (hmem * bln_dev) :=
  let! vq := vq_at (b_vqs b) VIRTIO_BLN_STATS in
  let! (head, _, _, th) := next_chain kvm m (mknt 0 vq stack 0) in
  let b := b_set_vq b VIRTIO_BLN_STATS (nt_vq th) in
  let! v := iov_at (nt_iov th) 0 in
  match cur_stat b with
  | None => Ret (m, b_set_stat b (b_stats b) (iov_base v) head (stat_count b) (stat_waitfd b))
  | Some _ =>
      let! bytes := copy_in m (iov_base v) (iov_len v) in
      if Z.of_nat (length (b_stats b)) <? iov_len v then Ub
      else
        Ret (m, b_set_stat b (splice 0 bytes (b_stats b)) (iov_base v) head (u16 (iov_len v / STAT_SIZE)) (stat_waitfd b + 1))
  end.

(** The job of queue [kind]. *)
Definition virtio_bln_do_io (fuel : nat) (kind : Z) (stack : list iovec) (m : hmem) (b : bln_dev) : out (hmem * bln_dev) :=
  if kind =? VIRTIO_BLN_STATS then
    let! (m, b) := virtio_bln_do_stat_request stack m b in Ret (m, b_emit b [SignalVq VIRTIO_BLN_STATS])
  else
    let! vq := vq_at (b_vqs b) kind in
    let! (m, th, b) := serve kvm (virtio_bln_do_io_request kind) (fun b => b_emit b [SignalVq kind]) fuel m (mknt 0 vq stack 0) b in
    Ret (m, b_set_vq b kind (nt_vq th)).

(** Asking for statistics: the guest's buffer goes back to it, and the caller waits for the
    next one. *)
Definition collect_begin (m : hmem) (b : bln_dev) : out (hmem * bln_dev) :=
  let! vq := vq_at (b_vqs b) VIRTIO_BLN_STATS in
  let! m := virt_queue__set_used_elem m vq (cur_stat_head b) STAT_SIZE in
  Ret (m, b_emit b [SignalVq VIRTIO_BLN_STATS]).
Definition collect_end (b : bln_dev) : out bln_dev := if stat_waitfd b =? 0 then NoFuel else Ret (b_set_wait b 0).

(** [guest] is what the other threads do in between. *)
Definition virtio_bln__collect_stats (guest : hmem -> bln_dev -> out (hmem * bln_dev)) (m : hmem) (b : bln_dev) : out (hmem * bln_dev) :=
  let! (m, b) := collect_begin m b in
  let! (m, b) := guest m b in
  let! b := collect_end b in Ret (m, b).

(** [None]: the message is refused. [Some]: the statistics that are sent back. *)
Definition virtio_bln__print_stats (guest : hmem -> bln_dev -> out (hmem * bln_dev)) (KVM_IPC_STAT type len : Z) (m : hmem) (b : bln_dev)
    : out (option (list Z) * hmem * bln_dev) :=
  if negb (type =? KVM_IPC_STAT) || negb (len =? 0) then Ret (None, m, b)
  else let! (m, b) := virtio_bln__collect_stats guest m b in Ret (Some (b_stats b), m, b).

(** The message of the balloon command: megabytes to take from the guest, or to give back.
    The products are of type [int]. *)
Definition int_ok (x : Z) : bool := (- 2 ^ 31 <=? x) && (x <? 2 ^ 31).
Definition handle_mem (KVM_IPC_BALLOON type len : Z) (msg : list Z) (b : bln_dev) : out bln_dev :=
  if negb (type =? KVM_IPC_BALLOON) || negb (len =? 4) then Ret b
  else if (length msg <? 4)%nat then Ub
  else
    let mem := swrap 32 (le_dec (take 4 msg)) in
    let signal b := b_emit b [SignalConfig] in
    if mem =? 0 then Ret (signal b)
    else if negb (int_ok (256 * mem)) || negb (int_ok (- mem)) || negb (int_ok (256 * - mem)) then Ub
    else if 0 <? mem then Ret (signal (b_set_pages b (u32 (num_pages b + 256 * mem)) (actual b)))
    else if num_pages b <? u32 (256 * - mem) then Ret b
    else Ret (signal (b_set_pages b (u32 (num_pages b + 256 * mem)) (actual b))).

(** The configuration that the guest sees. *)
Definition get_config (b : bln_dev) : list Z := le_enc 4 (num_pages b) ++ le_enc 4 (actual b).
Definition get_host_features : Z := 1 .<< VIRTIO_BALLOON_F_STATS_VQ.
Definition set_guest_features (b : bln_dev) (features : Z) : bln_dev :=
  mkbln features (b_vqs b) (b_stats b) (cur_stat b) (cur_stat_head b) (stat_count b) (stat_waitfd b) (num_pages b) (actual b) (b_events b).

Definition init_vq (b : bln_dev) (vq page_size align pfn' : Z) : out bln_dev :=
  let! q := vq_at (b_vqs b) vq in
  Ret (b_emit (b_set_vq b vq (place_vq kvm vring_init VIRTIO_BLN_QUEUE_SIZE q page_size align pfn')) [RemoveMessage; InitJob vq]).
End balloon.

Definition notify_vq (b : bln_dev) (vq : Z) : out bln_dev :=
  if NUM_VIRT_QUEUES <=? vq then Ub else Ret (b_emit b [DoJob vq]).
Definition get_vq (b : bln_dev) (vq : Z) : out virt_queue := vq_at (b_vqs b) vq.
Definition get_size_vq : Z := VIRTIO_BLN_QUEUE_SIZE.
Definition set_size_vq (size : Z) : Z := size.
Definition get_vq_count : Z := NUM_VIRT_QUEUES.

(** The static device, as [virtio_bln__init] leaves it; [S_NR] statistics. *)
Definition bln_dev0 (S_NR : Z) : bln_dev :=
  mkbln 0 (repeat zero_vq 3) (repeat 0 (Z.to_nat (S_NR * STAT_SIZE))) None 0 0 0 0 0 [].
End Balloon.

(** ** The rule of the loop *)

Section rule.
Context {B : Type} (kvm : kvm_mem) (request : hmem -> list iovec -> Z -> Z -> B -> out (Z * hmem * B)) (after : B -> B).
Context (vr : vring) (base : Z).
(** What holds while the chains [cs] are still offered and the elements [els] were written. *)
Context (Inv : hmem -> B -> list (Z * list vring_desc) -> list (Z * Z) -> Prop).
Hypothesis inv_quiet : forall m m' b cs els, Inv m b cs els -> quiet vr m m' -> mem_ok m' -> Inv m' b cs els.
Hypothesis inv_chain : forall m b h c cs els vq, Inv m b ((h, c) :: cs) els -> vq_vring vq = vr -> head_chain kvm m vq h c.
(** A request of the first chain: it writes bytes off the rings and keeps the invariant. *)
Hypothesis inv_request : forall m b h c cs els rest, Inv m b ((h, c) :: cs) els -> mem_ok m -> exists len d bs m' b',
  request m (map (iov_of kvm) c ++ rest) (Z.of_nat (length (readables c))) (Z.of_nat (length (writables c))) b = Ret (len, m', b') /\
  Forall (off_rings vr) d /\ byte_ok bs /\ write_addrs m d bs = Some m' /\ Inv m' (after b') cs (els ++ [(h, u32 len)]).

Lemma serve_rule size cs : forall fuel m t b done els,
  queue_st vr m (nt_vq t) (map fst cs) base (Z.of_nat (length (done ++ els))) (done ++ els) -> length (nt_iov t) = size ->
  Z.of_nat size <= 65535 -> Forall (fun c => (length (snd c) <= size)%nat) cs -> Inv m b cs els -> (length cs < fuel)%nat ->
  exists m' t' b' els', serve kvm request after fuel m t b = Ret (m', t', b') /\
    queue_st vr m' (nt_vq t') [] base (Z.of_nat (length (done ++ els'))) (done ++ els') /\
    length (nt_iov t') = size /\ Inv m' b' [] els'.
Proof.
  induction cs as [|[h c] cs IH]; intros fuel m t b done els Q Li Ls Lc I Hf; destruct fuel as [|fuel]; try (cbn in Hf; lia); cbn [serve].
  - destruct (st_available vr base m (nt_vq t) _ _ _ Q) as (m1 & E1 & Q1 & Qu1). rewrite E1. cbn [map bool_decide].
    exists m1, t, b, els. split; [reflexivity|]. split; [exact Q1|]. split; [exact Li|]. apply (inv_quiet m); [exact I|exact Qu1|apply Q1].
  - destruct (st_available vr base m (nt_vq t) _ _ _ Q) as (m1 & E1 & Q1 & Qu1). rewrite E1. cbn [map fst] in *.
    rewrite bool_decide_eq_false_2 by discriminate. cbn [negb].
    pose proof (inv_quiet _ _ _ _ _ I Qu1 (qs_mem _ _ _ _ _ _ _ Q1)) as I1. inversion Lc as [|? ? Lh Lt]; subst. cbn [snd] in Lh.
    destruct (st_chain kvm vr base m1 t h _ _ _ c Q1 (inv_chain _ _ _ _ _ _ _ I1 (qs_vr _ _ _ _ _ _ _ Q1)) Lh Ls) as [Ec Qc].
    set (t1 := put_vq t _ _) in *.
    assert (Ei : nt_iov t1 = map (iov_of kvm) c ++ drop (length c) (nt_iov t)).
    { unfold t1. cbn [put_vq nt_iov]. by rewrite fill_0, length_map. }
    destruct (inv_request m1 b h c cs els (drop (length c) (nt_iov t)) I1 (qs_mem _ _ _ _ _ _ _ Qc)) as (len & d & bs & m2 & b2 & E2 & Od & Bb & W & I2).
    pose proof (st_write vr base m1 _ _ _ _ d bs m2 Qc Od Bb W) as Q2.
    destruct (st_element vr base m2 _ _ (Z.of_nat (length (done ++ els))) (done ++ els) h len 0 Q2 ltac:(lia) ltac:(lia)) as (m3 & E3 & Q3 & Qu3).
    destruct (st_publish vr base m3 _ _ _ _ 1 Q3) as (m4 & E4 & Q4 & Qu4); [rewrite !length_app; cbn [length]; lia|].
    assert (Eh : u32 h = h) by exact (st_head_fits vr m _ _ base _ _ h 0 Q eq_refl). rewrite Eh in Q4. rewrite <- app_assoc in Q4.
    destruct (IH fuel m4 t1 (after b2) done (els ++ [(h, u32 len)])) as (m' & t' & b' & els' & E & Q' & L' & I'); try done.
    + rewrite Ei, length_app, length_map, length_drop. lia.
    + apply (inv_quiet m2); [exact I2| |apply Q4]. exact (quiet_trans _ _ _ _ Qu3 Qu4).
    + cbn in Hf. lia.
    + exists m', t', b', els'. split; [|done]. unfold serve_one. rewrite Ec, Ei, E2. unfold virt_queue__set_used_elem.
      change (nt_vq t1) with (set_last_avail (nt_vq t) (u16 (last_avail_idx (nt_vq t) + 1))). by rewrite E3, E4.
Qed.
End rule.

(** ** What the console prints *)

Section print.
Context (kvm : kvm_mem) (writev : nat -> Z -> Z) (vr : vring) (m0 : hmem).

(** The driver offers at [h] a chain of readable buffers that hold [bs]. *)
Record printable (c : Z * list vring_desc) (l : Z * list Z) : Prop := {
  pb_head : fst l = fst c;
  pb_chain : forall m vq, vq_vring vq = vr -> quiet vr m0 m -> head_chain kvm m vq (fst c) (snd c);
  pb_readable : readables (snd c) = snd c;
  pb_off : Forall (off_rings vr) (chain_addrs kvm (snd c));
  pb_bytes : read_addrs m0 (chain_addrs kvm (snd c)) = Some (snd l);
}.

(** What the terminal gets of the chains' bytes, and the used elements: as much as the kernel
    takes of each. *)
Fixpoint printed (calls : nat) (l : list (Z * list Z)) : list Z * list (Z * Z) :=
  match l with
  | [] => ([], [])
  | (h, bs) :: l =>
      let r := writev calls (Z.of_nat (length bs)) in
      let '(o, e) := printed (S calls) l in (take (Z.to_nat r) bs ++ o, (h, u32 r) :: e)
  end.

Definition print_inv (out_ : list Z) (els : list (Z * Z)) (n : nat) (m : hmem) (t : Console.tty) (cs : list (Z * list vring_desc)) (e : list (Z * Z)) : Prop :=
  quiet vr m0 m /\ exists l, Forall2 printable cs l /\ Console.t_out t ++ fst (printed (Console.t_calls t) l) = out_ /\
    e ++ snd (printed (Console.t_calls t) l) = els /\ (Console.t_calls t + length l)%nat = n.

Lemma wrap_u32_idem x : u32 (u32 x) = u32 x.
Proof. apply wrap_wrap. lia. Qed.

Lemma print_loop base done cs l t out_ calls :
  queue_st vr m0 (nt_vq t) (map fst cs) base (Z.of_nat (length done)) done -> Z.of_nat (length (nt_iov t)) = Console.VIRTIO_CONSOLE_QUEUE_SIZE ->
  Forall2 printable cs l -> Forall (fun c => Z.of_nat (length (snd c)) <= Console.VIRTIO_CONSOLE_QUEUE_SIZE) cs ->
  exists m' t', Console.virtio_console_handle_callback kvm writev (S (length cs)) m0 t (Console.mktty out_ calls) =
      Ret (m', t', Console.mktty (out_ ++ fst (printed calls l)) (calls + length l)) /\
    queue_st vr m' (nt_vq t') [] base (Z.of_nat (length (done ++ snd (printed calls l)))) (done ++ snd (printed calls l)) /\ quiet vr m0 m'.
Proof.
  intros Q Li F Lc. unfold Console.VIRTIO_CONSOLE_QUEUE_SIZE in *. rewrite <- (app_nil_r done) in Q.
  destruct (serve_rule kvm (Console.tx_request writev) (fun t => t) vr base
    (print_inv (out_ ++ fst (printed calls l)) (snd (printed calls l)) (calls + length l))) with (size := 128%nat) (cs := cs)
    (fuel := S (length cs)) (m := m0) (t := t) (b := Console.mktty out_ calls) (done := done) (els := @nil (Z * Z))
    as (m' & t' & b' & els' & E & Q' & _ & (K & l' & F' & O & Ee & En)); try done; try lia.
  - intros m m' b cs' els (K & l' & H) Qu _. split; [exact (quiet_trans _ _ _ _ K Qu)|]. by exists l'.
  - intros m b h c cs' els vq (K & l' & F' & _) V. inversion F' as [|? ? ? ? P]. exact (pb_chain _ _ P m vq V K).
  - intros m b h c cs' els rest (K & l' & F' & O & Ee & En) M. inversion F' as [|? [h' bs] ? l1 P F1]; subst.
    destruct P as [Ph _ Pr Po Pb]. cbn [fst snd] in *. subst h'.
    assert (Rm : read_addrs m (chain_addrs kvm c) = Some bs).
    { rewrite <- Pb. apply (kept_read vr []); [by apply quiet_kept|exact Po|intros a _ Ha; inversion Ha]. }
    exists (u32 (writev (Console.t_calls b) (Z.of_nat (length bs)))), [], [], m.
    eexists. split; [|split; [constructor|split; [constructor|split; [reflexivity|]]]].
    + unfold Console.tx_request, Console.term_putc_iov. rewrite Pr, length_app, length_map. rewrite (proj2 (Z.ltb_ge _ _)) by lia.
      rewrite Nat2Z.id, take_app_length' by (symmetry; apply length_map). unfold read_all. unfold chain_addrs in Rm. rewrite Rm. reflexivity.
    + split; [exact K|]. exists l1. cbn [Console.t_out Console.t_calls]. cbn [printed] in *. destruct (printed (S (Console.t_calls b)) l1) as [o e]. cbn [fst snd] in *.
      rewrite wrap_u32_idem. rewrite <- !app_assoc. cbn [app length] in *. split_and!; try done. lia.
  - eapply Forall_impl; [exact Lc|]. cbv beta. lia.
  - split; [apply quiet_refl|]. by exists l.
  - inversion F'; subst. cbn [printed fst snd length app] in *. rewrite app_nil_r in O, Ee. rewrite Nat.add_0_r in En.
    exists m', t'. unfold Console.virtio_console_handle_callback. rewrite E. subst. destruct b' as [o n]. cbn in O, En. subst.
    split; [done|]. split; [exact Q'|exact K].
Qed.
End print.

(** ** What the entropy device fills *)

Section fill.
Context (kvm : kvm_mem) (urandom : nat -> Z -> list Z + Z) (vr : vring) (m0 : hmem) (cs0 : list (Z * list vring_desc)) (calls0 : nat).
Hypothesis random_bytes : forall n k bs, urandom n k = inl bs -> byte_ok bs /\ Z.of_nat (length bs) <= k.

(** The bytes of the call for a chain, and the length in its used element. *)
Definition drawn (n : nat) (c : list vring_desc) : list Z * Z :=
  match urandom n (chain_size kvm c) with
  | inl bs => (bs, u32 (Z.of_nat (length bs)))
  | inr e => ([], if e =? Rng.EAGAIN then 0 else u32 (-1))
  end.

Fixpoint draws (n : nat) (cs : list (Z * list vring_desc)) : list (Z * Z) :=
  match cs with [] => [] | (h, c) :: cs => (h, snd (drawn n c)) :: draws (S n) cs end.

Lemma draws_app n cs cs' : draws n (cs ++ cs') = draws n cs ++ draws (n + length cs) cs'.
Proof.
  revert n. induction cs as [|[h c] cs IH]; intros n; cbn [app draws length]; [by rewrite Nat.add_0_r|].
  rewrite IH. by replace (S n + length cs)%nat with (n + S (length cs))%nat by lia.
Qed.

(** The chains so far hold what was drawn for them. *)
Definition filled (m : hmem) (cs : list (Z * list vring_desc)) : Prop :=
  forall i h c, cs !! i = Some (h, c) -> let bs := fst (drawn (calls0 + i) c) in read_addrs m (take (length bs) (chain_addrs kvm c)) = Some bs.

Definition fill_inv (m : hmem) (calls : nat) (cs : list (Z * list vring_desc)) (els : list (Z * Z)) : Prop :=
  kept vr (all_addrs kvm cs0) m0 m /\ exists pre, cs0 = pre ++ cs /\ calls = (calls0 + length pre)%nat /\ els = draws calls0 pre /\ filled m pre.

Context (offers : Forall (fun c => offered kvm vr m0 (all_addrs kvm cs0) (fst c) (snd c)) cs0) (nodup : NoDup (all_addrs kvm cs0)).

Lemma all_addrs_app cs cs' : all_addrs kvm (cs ++ cs') = all_addrs kvm cs ++ all_addrs kvm cs'.
Proof. unfold all_addrs. by rewrite map_app, concat_app. Qed.

Lemma in_all_addrs h c cs i a : cs !! i = Some (h, c) -> a ∈ chain_addrs kvm c -> a ∈ all_addrs kvm cs.
Proof.
  intros L Ha. apply (list_elem_of_split_length cs i) in L as (l1 & l2 & -> & _). rewrite all_addrs_app, all_addrs_cons.
  rewrite !elem_of_app. auto.
Qed.

Lemma drawn_length n c : Z.of_nat (length (fst (drawn n c))) <= chain_size kvm c.
Proof.
  unfold drawn. destruct (urandom n (chain_size kvm c)) as [bs|e] eqn:E; cbn [fst length]; [by destruct (random_bytes _ _ _ E)|].
  unfold chain_size. lia.
Qed.

Lemma drawn_u32 n c : u32 (snd (drawn n c)) = snd (drawn n c).
Proof. unfold drawn. destruct (urandom _ _) as [bs|e]; cbn [snd]; [apply wrap_u32_idem|]. by destruct (_ =? _). Qed.

(** Different chains share no address. *)
Lemma apart_chains pre h c cs i h' c' a : cs0 = pre ++ (h, c) :: cs -> pre !! i = Some (h', c') -> a ∈ chain_addrs kvm c' -> a ∈ chain_addrs kvm c -> False.
Proof.
  intros E L Ha Hb. pose proof nodup as ND. rewrite E, all_addrs_app, all_addrs_cons in ND. apply NoDup_app in ND as (_ & D & _).
  apply (D a); [by apply (in_all_addrs h' c' _ i)|]. rewrite elem_of_app. by left.
Qed.

Lemma fill_loop base done t :
  queue_st vr m0 (nt_vq t) (map fst cs0) base (Z.of_nat (length done)) done -> Z.of_nat (length (nt_iov t)) = Rng.VIRTIO_RNG_QUEUE_SIZE ->
  Forall (fun c => Z.of_nat (length (snd c)) <= Rng.VIRTIO_RNG_QUEUE_SIZE) cs0 ->
  exists m' t', Rng.virtio_rng_do_io kvm urandom (S (length cs0)) m0 t calls0 = Ret (m', t', (calls0 + length cs0)%nat, [SignalVq 0]) /\
    queue_st vr m' (nt_vq t') [] base (Z.of_nat (length (done ++ draws calls0 cs0))) (done ++ draws calls0 cs0) /\
    filled m' cs0 /\ kept vr (all_addrs kvm cs0) m0 m'.
Proof.
  intros Q Li Lc. unfold Rng.VIRTIO_RNG_QUEUE_SIZE in *. rewrite <- (app_nil_r done) in Q.
  destruct (serve_rule kvm (Rng.virtio_rng_do_io_request urandom) (fun n => n) vr base fill_inv) with (size := 128%nat) (cs := cs0)
    (fuel := S (length cs0)) (m := m0) (t := t) (b := calls0) (done := done) (els := @nil (Z * Z))
    as (m' & t' & b' & els' & E & Q' & _ & (K & pre & Ep & Ec & Ee & Fi)); try done; try lia.
  - intros m m' n cs els (K & pre & E & Ec & Ee & F) Qu _. split; [exact (kept_trans _ _ _ _ _ K (quiet_kept _ _ _ _ Qu))|].
    exists pre. split_and!; try done. intros i h c L. cbv zeta. rewrite <- (F i h c L).
    apply (kept_read vr []); [by apply quiet_kept| |intros a _ Ha; inversion Ha]. apply Forall_take.
    assert (cs0 !! i = Some (h, c)) as L0 by (rewrite E; by apply lookup_app_l_Some). apply (Forall_lookup_1 _ _ _ _ offers L0).
  - intros m n h c cs els vq (K & pre & E & _) V. assert (cs0 !! length pre = Some (h, c)) as L.
    { rewrite E, lookup_app_r, Nat.sub_diag by lia. done. }
    by apply (of_chain _ _ _ _ _ _ (Forall_lookup_1 _ _ _ _ offers L) m vq V).
  - intros m n h c cs els rest (K & pre & E & -> & -> & F) M. assert (cs0 !! length pre = Some (h, c)) as L.
    { rewrite E, lookup_app_r, Nat.sub_diag by lia. done. }
    pose proof (Forall_lookup_1 _ _ _ _ offers L) as O. cbn [fst snd] in O. destruct O as [_ Wr Wf _ Off Mp].
    pose proof (mapped_kept _ _ _ _ _ K Mp) as Mm. pose proof (drawn_length (calls0 + length pre) c) as Dl. unfold chain_size in Dl.
    set (bs := fst (drawn (calls0 + length pre) c)) in *.
    destruct (write_addrs_mapped m (take (length bs) (chain_addrs kvm c)) bs) as [m' W]; [by apply Forall_take|].
    assert (byte_ok bs) as Bb.
    { unfold bs, drawn. destruct (urandom _ _) as [x|x] eqn:Eu; [by apply random_bytes in Eu as [Eu _]|constructor]. }
    exists (snd (drawn (calls0 + length pre) c)), (take (length bs) (chain_addrs kvm c)), bs, m'.
    eexists. split; [|split; [by apply Forall_take|split; [exact Bb|split; [exact W|]]]].
    + unfold Rng.virtio_rng_do_io_request, Rng.readv. rewrite all_writable by exact Wr. rewrite length_app, length_map.
      rewrite (proj2 (Z.ltb_ge _ _)) by lia. rewrite Nat2Z.id, take_app_length' by (symmetry; apply length_map).
      unfold bs, drawn, chain_size, chain_addrs in W |- *. unfold chain_addrs. destruct (urandom _ _) as [x|e] eqn:Eu; cbn [fst snd] in *.
      * unfold write_all. rewrite W. rewrite (proj2 (Z.ltb_ge _ 0)) by lia. reflexivity.
      * cbn [length take] in W. injection W as <-. change (-1 <? 0) with true. cbn [andb]. by destruct (e =? Rng.EAGAIN).
    + split.
      { eapply kept_trans; [exact K|]. eapply kept_mono; [|exact (write_kept vr _ _ _ _ W)].
        intros a Ha. apply (in_all_addrs h c _ _ _ L). revert Ha. apply subseteq_take. }
      exists (pre ++ [(h, c)]). rewrite length_app, draws_app, <- app_assoc. cbn [length draws app].
      rewrite drawn_u32. split_and!; try done; [lia|].
      intros i h' c' L'. cbv zeta. destruct (decide (i < length pre)%nat) as [Hi|Hi].
      * rewrite lookup_app_l in L' by done. rewrite (read_write_other m _ _ m' _ W); [by apply (F i h')|].
        intros a Ha Hb. apply subseteq_take in Ha, Hb. exact (apart_chains pre h c cs i h' c' a E L' Hb Ha).
      * rewrite lookup_app_r in L' by lia. apply list_lookup_singleton_Some in L' as [Hi' [= <- <-]].
        replace (calls0 + i)%nat with (calls0 + length pre)%nat by lia. fold bs.
        apply (read_write_same m _ bs m'); [|rewrite length_take; lia|exact W].
        pose proof nodup as ND. rewrite E, all_addrs_app, all_addrs_cons in ND. apply NoDup_app in ND as (_ & _ & ND). apply NoDup_app in ND as (ND & _).
        rewrite <- (take_drop (length bs) (chain_addrs kvm c)) in ND. by apply NoDup_app in ND as [ND _].
  - eapply Forall_impl; [exact Lc|]. cbv beta. lia.
  - split; [apply kept_refl|]. exists []. by split_and!.
  - rewrite app_nil_r in Ep. subst. exists m', t'. unfold Rng.virtio_rng_do_io. rewrite E. done.
Qed.
End fill.

(** ** What the balloon takes and gives back *)

Section inflate.
Context (kvm : kvm_mem) (kind : Z) (vr : vring) (m0 : hmem).
Context (Hk : kind = Balloon.VIRTIO_BLN_INFLATE \/ kind = Balloon.VIRTIO_BLN_DEFLATE).

Lemma dontneed_lookup l (m : hmem) a :
  foldr (fun a m => match m !! a with Some _ => <[a := 0]> m | None => m end) m l !! a =
  if decide (a ∈ l) then (fun _ => 0) <$> m !! a else m !! a.
Proof.
  induction l as [|x l IH]; cbn [foldr]; [by rewrite decide_False by (intros H; inversion H)|].
  set (m1 := foldr _ m l) in *. destruct (decide (a = x)) as [->|N].
  - rewrite (decide_True (P := x ∈ x :: l)) by (apply elem_of_cons; auto). destruct (m1 !! x) eqn:E.
    + rewrite lookup_insert_eq. destruct (decide (x ∈ l)); destruct (m !! x); cbn in *; congruence.
    + rewrite E. destruct (decide (x ∈ l)); destruct (m !! x); cbn in *; congruence.
  - assert ((match m1 !! x with Some _ => <[x := 0]> m1 | None => m1 end) !! a = m1 !! a) as -> by (destruct (m1 !! x); [by rewrite lookup_insert_ne|done]).
    rewrite IH. destruct (decide (a ∈ l)) as [H|H]; [by rewrite decide_True by (apply elem_of_cons; auto)|]. rewrite decide_False; [done|]. by intros [?|?]%elem_of_cons.
Qed.

Lemma zeros_written l (m m' : hmem) a : write_addrs m l (replicate (length l) 0) = Some m' -> a ∈ l -> m' !! a = Some 0.
Proof.
  revert m. induction l as [|x l IH]; intros m; [intros _ H; inversion H|]. cbn [length replicate write_addrs].
  destruct (m !! x); [|discriminate]. intros W Ha. destruct (decide (a ∈ l)) as [H|H]; [exact (IH _ W H)|].
  apply elem_of_cons in Ha as [->|Ha]; [|done]. rewrite (write_addrs_other _ _ _ _ _ W H). apply lookup_insert_eq.
Qed.

(** [madvise] writes zeros to what is mapped of the page. *)
Lemma dontneed_write m p : exists d, write_addrs m d (replicate (length d) 0) = Some (Balloon.dontneed m p) /\ d ⊆ seqZ p Balloon.PAGE /\
  forall a, a ∈ seqZ p Balloon.PAGE -> is_Some (m !! a) -> a ∈ d.
Proof.
  set (d := filter (fun a => is_Some (m !! a)) (seqZ p Balloon.PAGE)). exists d.
  assert (mapped m d) as M by (apply Forall_forall; intros a Ha; apply list_elem_of_filter in Ha as [H _]; exact H).
  destruct (write_addrs_mapped m d (replicate (length d) 0) M) as [m' W].
  assert (m' = Balloon.dontneed m p) as <-.
  { apply map_eq. intros a. unfold Balloon.dontneed. rewrite dontneed_lookup. destruct (decide (a ∈ d)) as [H|H].
    - rewrite (zeros_written _ _ _ _ W H). apply list_elem_of_filter in H as [[x E] H]. by rewrite decide_True, E.
    - rewrite (write_addrs_other _ _ _ _ _ W H). destruct (decide (a ∈ seqZ p Balloon.PAGE)) as [I|I]; [|done].
      destruct (m !! a) eqn:E; [|done]. destruct H. apply list_elem_of_filter. by rewrite E. }
  split; [exact W|]. split; [by intros a [_ Ha]%list_elem_of_filter|]. intros a Ha I. by apply list_elem_of_filter.
Qed.

(** The page behind a frame number, and the bytes that a list of numbers gives up. *)
Definition page_of (pfn : Z) : list Z := seqZ (host_ptr kvm (u64 (pfn .<< Balloon.VIRTIO_BALLOON_PFN_SHIFT))) Balloon.PAGE.
Definition pages (pfns : list Z) : list Z := if kind =? Balloon.VIRTIO_BLN_INFLATE then List.concat (map page_of pfns) else [].
Definition delta : Z := if kind =? Balloon.VIRTIO_BLN_INFLATE then 1 else -1.

Definition zeroed (m : hmem) (l : list Z) : Prop := forall a, a ∈ l -> is_Some (m !! a) -> m !! a = Some 0.

Lemma pages_app l l' : pages (l ++ l') = pages l ++ pages l'.
Proof. unfold pages. destruct (_ =? _); [by rewrite map_app, concat_app|done]. Qed.

Lemma zeroed_write m d m' l : write_addrs m d (replicate (length d) 0) = Some m' -> zeroed m l -> zeroed m' l.
Proof.
  intros W H a Ha I. destruct (decide (a ∈ d)) as [Hd|Hd]; [exact (zeros_written _ _ _ _ W Hd)|].
  rewrite (write_addrs_other _ _ _ _ _ W Hd) in I |- *. exact (H a Ha I).
Qed.

Lemma elem_of_pages pfns a : a ∈ pages pfns -> exists pfn, pfn ∈ pfns /\
  let p := host_ptr kvm (u64 (pfn .<< Balloon.VIRTIO_BALLOON_PFN_SHIFT)) in p <= a < p + Balloon.PAGE.
Proof.
  unfold pages. destruct (_ =? _); [|intros H; inversion H].
  induction pfns as [|pfn pfns IH]; cbn [map List.concat]; [intros H; inversion H|].
  intros [H%elem_of_seqZ|H]%elem_of_app; [exists pfn; split; [apply elem_of_cons; auto|exact H]|].
  destruct (IH H) as (x & Hx & Ha). exists x. split; [apply elem_of_cons; auto|exact Ha].
Qed.

(** The words of the frame numbers. *)
Definition words (m : hmem) (p : Z) (pfns : list Z) : Prop := forall i pfn, pfns !! i = Some pfn -> load 4 m (p + 4 * Z.of_nat i) = Ret pfn.

Lemma words_same m m' p pfns : (forall a, p <= a < p + 4 * Z.of_nat (length pfns) -> m' !! a = m !! a) -> words m p pfns -> words m' p pfns.
Proof.
  intros S H i pfn L. rewrite <- (H i pfn L). unfold load, load_bytes. erewrite read_addrs_ext; [reflexivity|].
  intros a Ha%elem_of_seqZ. apply lookup_lt_Some in L. apply S. lia.
Qed.

Lemma page_loop_pages pfns : forall m p b, words m p pfns -> (forall a, p <= a < p + 4 * Z.of_nat (length pfns) -> a ∉ pages pfns) -> fits 32 (Balloon.actual b) ->
  exists d m', Balloon.page_loop kvm (length pfns) kind m p b =
      Ret (m', Balloon.b_set_pages b (Balloon.num_pages b) (u32 (Balloon.actual b + delta * Z.of_nat (length pfns)))) /\
    write_addrs m d (replicate (length d) 0) = Some m' /\ d ⊆ pages pfns /\ zeroed m' (pages pfns).
Proof.
  induction pfns as [|pfn pfns IH]; intros m p b W D F; cbn [length Balloon.page_loop].
  - exists [], m. change (Z.of_nat 0) with 0. rewrite Z.mul_0_r, Z.add_0_r, wrap_id by exact F. split; [by destruct b|]. split; [done|]. split; [intros a Ha; inversion Ha|].
    unfold pages. intros a Ha. destruct (_ =? _) in Ha; inversion Ha.
  - pose proof (W 0%nat pfn eq_refl) as W0. rewrite Z.add_0_r in W0. rewrite W0.
    assert (exists d m1, (let '(m, b) :=
        if kind =? Balloon.VIRTIO_BLN_INFLATE then (Balloon.dontneed m (host_ptr kvm (u64 (pfn .<< Balloon.VIRTIO_BALLOON_PFN_SHIFT))), Balloon.b_set_pages b (Balloon.num_pages b) (u32 (Balloon.actual b + 1)))
        else if kind =? Balloon.VIRTIO_BLN_DEFLATE then (m, Balloon.b_set_pages b (Balloon.num_pages b) (u32 (Balloon.actual b - 1)))
        else (m, b) in (m, b)) = (m1, Balloon.b_set_pages b (Balloon.num_pages b) (u32 (Balloon.actual b + delta))) /\
      write_addrs m d (replicate (length d) 0) = Some m1 /\ d ⊆ pages [pfn] /\ zeroed m1 (pages [pfn])) as (d & m1 & E1 & W1 & S1 & Z1).
    { unfold pages, delta. destruct Hk as [-> | ->]; cbn [Z.eqb].
      - destruct (dontneed_write m (host_ptr kvm (u64 (pfn .<< Balloon.VIRTIO_BALLOON_PFN_SHIFT)))) as (d & Wd & Sd & Md).
        eexists d, _. split; [reflexivity|]. split; [exact Wd|]. cbn [map List.concat]. rewrite app_nil_r. split; [exact Sd|].
        intros a Ha I. apply (zeros_written _ _ _ _ Wd), Md; [exact Ha|]. by apply (write_addrs_dom _ _ _ _ a Wd).
      - exists [], m. split; [done|]. split; [done|]. split; intros a Ha; inversion Ha. }
    destruct (if kind =? Balloon.VIRTIO_BLN_INFLATE then _ else _) as [m2 b2]. injection E1 as -> ->.
    change (pfn :: pfns) with ([pfn] ++ pfns) in D |- *. rewrite pages_app in D |- *.
    destruct (IH m1 (p + 4) (Balloon.b_set_pages b (Balloon.num_pages b) (u32 (Balloon.actual b + delta)))) as (d' & m' & E & W' & S' & Z').
    + apply (words_same m).
      * intros a Ha. apply (write_addrs_other _ _ _ _ _ W1). intros Hd. apply (D a); [cbn [length app]; lia|]. apply elem_of_app. left. by apply S1.
      * intros i x L. rewrite <- (W (S i) x L). f_equal. lia.
    + intros a Ha Hp. apply (D a); [cbn [length app]; lia|]. apply elem_of_app. by right.
    + apply wrap_fits. lia.
    + exists (d ++ d'), m'. rewrite E. cbn [Balloon.b_set_pages Balloon.actual Balloon.num_pages Balloon.b_features Balloon.b_vqs Balloon.b_stats Balloon.cur_stat Balloon.cur_stat_head
        Balloon.stat_count Balloon.stat_waitfd Balloon.b_events]. split.
      { rewrite wrap_add_l. replace (Balloon.actual b + delta + delta * Z.of_nat (length pfns)) with (Balloon.actual b + delta * Z.of_nat (S (length pfns))) by lia. reflexivity. }
      rewrite length_app, replicate_add, write_addrs_app, W1 by (by rewrite length_replicate). split; [exact W'|]. split.
      * intros a [Ha|Ha]%elem_of_app; apply elem_of_app; [left; by apply S1|right; by apply S'].
      * intros a [Ha|Ha]%elem_of_app I; [by apply (zeroed_write _ _ _ _ W' Z1)|by apply Z'].
Qed.

(** The driver offers at [h] a chain whose first buffer holds the frame numbers; [d] are all
    the pages that are given up. *)
Record numbers (d : list Z) (c : Z * list vring_desc) (l : Z * list Z) : Prop := {
  nb_head : fst l = fst c;
  nb_chain : forall m vq, vq_vring vq = vr -> kept vr d m0 m -> head_chain kvm m vq (fst c) (snd c);
  nb_words : exists e es, snd c = e :: es /\ d_len e / 4 = Z.of_nat (length (snd l)) /\ fits 32 (Z.of_nat (length (snd l))) /\
    words m0 (host_ptr kvm (d_addr e)) (snd l) /\
    forall a, host_ptr kvm (d_addr e) <= a < host_ptr kvm (d_addr e) + 4 * Z.of_nat (length (snd l)) ->
      a ∉ d /\ ~ (used vr <= a < used vr + 6 + 8 * num vr);
}.

Definition all_pfns (l : list (Z * list Z)) : list Z := List.concat (map snd l).
Definition counts (l : list (Z * list Z)) : list (Z * Z) := map (fun x => (fst x, Z.of_nat (length (snd x)))) l.

(** The device when the requests [l] are served. *)
Definition ballooned (b : Balloon.bln_dev) (l : list (Z * list Z)) : Balloon.bln_dev :=
  Balloon.b_emit (Balloon.b_set_pages b (Balloon.num_pages b) (u32 (Balloon.actual b + delta * Z.of_nat (length (all_pfns l)))))
    (replicate (length l) (SignalVq kind)).

Lemma all_pfns_app l l' : all_pfns (l ++ l') = all_pfns l ++ all_pfns l'.
Proof. unfold all_pfns. by rewrite map_app, concat_app. Qed.

Lemma ballooned_step b pre h pfns : let b' := ballooned b pre in
  Balloon.b_emit (Balloon.b_set_pages b' (Balloon.num_pages b') (u32 (Balloon.actual b' + delta * Z.of_nat (length pfns)))) [SignalVq kind] =
  ballooned b (pre ++ [(h, pfns)]).
Proof.
  assert (all_pfns [(h, pfns)] = pfns) as E by (unfold all_pfns; cbn; apply app_nil_r).
  cbv zeta. unfold ballooned. rewrite all_pfns_app, E, !length_app, replicate_add. unfold Balloon.b_emit, Balloon.b_set_pages.
  cbn [Balloon.actual Balloon.num_pages Balloon.b_features Balloon.b_vqs Balloon.b_stats Balloon.cur_stat Balloon.cur_stat_head
    Balloon.stat_count Balloon.stat_waitfd Balloon.b_events length replicate]. f_equal; [|by rewrite app_assoc].
  rewrite wrap_add_l. f_equal. lia.
Qed.

Context (cs0 : list (Z * list vring_desc)) (l0 : list (Z * list Z)) (b0 : Balloon.bln_dev) (F0 : fits 32 (Balloon.actual b0)).
Context (N0 : Forall2 (numbers (pages (all_pfns l0))) cs0 l0) (O0 : Forall (off_rings vr) (pages (all_pfns l0))).

Definition bln_inv (m : hmem) (b : Balloon.bln_dev) (cs : list (Z * list vring_desc)) (els : list (Z * Z)) : Prop :=
  kept vr (pages (all_pfns l0)) m0 m /\ exists pre post, l0 = pre ++ post /\ Forall2 (numbers (pages (all_pfns l0))) cs post /\
    els = counts pre /\ zeroed m (pages (all_pfns pre)) /\ b = ballooned b0 pre.

Lemma bln_quiet m m' b cs els : bln_inv m b cs els -> quiet vr m m' -> bln_inv m' b cs els.
Proof.
  intros (K & pre & post & E & F & Ee & Ze & Eb) [Q D]. split; [exact (kept_trans _ _ _ _ _ K (quiet_kept _ _ _ _ (conj Q D)))|].
  exists pre, post. split_and!; try done. intros a Ha I.
  assert (off_rings vr a) as [_ Oa].
  { rewrite Forall_forall in O0. apply O0. rewrite E, all_pfns_app, pages_app. apply elem_of_app. by left. }
  rewrite (Q a Oa) in *. by apply Ze.
Qed.

Lemma bln_request m b h c cs els rest : bln_inv m b ((h, c) :: cs) els -> exists len d bs m' b',
  Balloon.virtio_bln_do_io_request kvm kind m (map (iov_of kvm) c ++ rest) (Z.of_nat (length (readables c))) (Z.of_nat (length (writables c))) b = Ret (len, m', b') /\
  Forall (off_rings vr) d /\ byte_ok bs /\ write_addrs m d bs = Some m' /\ bln_inv m' (Balloon.b_emit b' [SignalVq kind]) cs (els ++ [(h, u32 len)]).
Proof.
  intros (K & pre & post & E & F & -> & Ze & ->). inversion F as [|? [h' pfns] ? post' P F1]; subst post.
  destruct P as [Ph _ (e & es & Ec & El & Fl & W & Off)]. cbn [fst snd] in *. subst h' c.
  assert (Sub : pages pfns ⊆ pages (all_pfns l0)).
  { intros a Ha. rewrite E, all_pfns_app, pages_app. apply elem_of_app. right. unfold all_pfns. cbn [map List.concat snd]. rewrite pages_app. apply elem_of_app. by left. }
  destruct (page_loop_pages pfns m (host_ptr kvm (d_addr e)) (ballooned b0 pre)) as (d & m' & Ep & Wd & Sd & Zd).
  { apply (words_same m0); [|exact W]. intros a Ha. destruct K as [K _]. by apply K; apply Off. }
  { intros a Ha Hp. apply (proj1 (Off a Ha)), Sub, Hp. }
  { apply wrap_fits. lia. }
  exists (Z.of_nat (length pfns)), d, (replicate (length d) 0), m'. eexists. split.
  { unfold Balloon.virtio_bln_do_io_request. change (iov_at _ 0) with (Ret (iov_of kvm e)). cbn beta iota. change (iov_len (iov_of kvm e)) with (d_len e).
    change (iov_base (iov_of kvm e)) with (host_ptr kvm (d_addr e)).
    rewrite El, wrap_id, Nat2Z.id by exact Fl. rewrite Ep. reflexivity. }
  split; [apply Forall_forall; intros a Ha; rewrite Forall_forall in O0; by apply O0, Sub, Sd|].
  split; [apply Forall_replicate; unfold fits; lia|]. split; [exact Wd|]. split.
  { eapply kept_trans; [exact K|]. eapply kept_mono; [|exact (write_kept vr _ _ _ _ Wd)]. intros a Ha. by apply Sub, Sd. }
  exists (pre ++ [(h, pfns)]), post'. rewrite <- app_assoc, all_pfns_app, pages_app. split; [done|]. split; [done|]. split.
  { unfold counts. rewrite map_app. cbn [map fst snd]. by rewrite wrap_id. }
  assert (all_pfns [(h, pfns)] = pfns) as -> by (unfold all_pfns; cbn; apply app_nil_r). split.
  { intros a [Ha|Ha]%elem_of_app I; [by apply (zeroed_write _ _ _ _ Wd Ze)|by apply Zd]. }
  apply ballooned_step.
Qed.

Lemma balloon_loop base done t : queue_st vr m0 (nt_vq t) (map fst cs0) base (Z.of_nat (length done)) done -> length (nt_iov t) = Z.to_nat Balloon.VIRTIO_BLN_QUEUE_SIZE ->
  Forall (fun c => Z.of_nat (length (snd c)) <= Balloon.VIRTIO_BLN_QUEUE_SIZE) cs0 ->
  exists m' t', serve kvm (Balloon.virtio_bln_do_io_request kvm kind) (fun b => Balloon.b_emit b [SignalVq kind]) (S (length cs0)) m0 t b0 = Ret (m', t', ballooned b0 l0) /\
    queue_st vr m' (nt_vq t') [] base (Z.of_nat (length (done ++ counts l0))) (done ++ counts l0) /\
    zeroed m' (pages (all_pfns l0)) /\ kept vr (pages (all_pfns l0)) m0 m'.
Proof.
  intros Q Li Lc. unfold Balloon.VIRTIO_BLN_QUEUE_SIZE in *. rewrite <- (app_nil_r done) in Q.
  destruct (serve_rule kvm (Balloon.virtio_bln_do_io_request kvm kind) (fun b => Balloon.b_emit b [SignalVq kind]) vr base bln_inv) with (size := 128%nat) (cs := cs0)
    (fuel := S (length cs0)) (m := m0) (t := t) (b := b0) (done := done) (els := @nil (Z * Z))
    as (m' & t' & b' & els' & E & Q' & _ & (K & pre & post & Ep & Fp & Ee & Zp & Eb)).
  - intros m m' b cs els I Qu _. exact (bln_quiet _ _ _ _ _ I Qu).
  - intros m b h c cs els vq (K & pre & post & _ & F & _) V. inversion F as [|? ? ? ? P]. exact (nb_chain _ _ _ P m vq V K).
  - intros m b h c cs els rest I _. exact (bln_request m b h c cs els rest I).
  - exact Q.
  - exact Li.
  - lia.
  - eapply Forall_impl; [exact Lc|]. cbv beta. lia.
  - split; [apply kept_refl|]. exists [], l0. split; [done|]. split; [exact N0|]. split; [done|]. split.
    + unfold pages. intros a Ha. destruct (_ =? _) in Ha; inversion Ha.
    + unfold ballooned. cbn. rewrite Z.mul_0_r, Z.add_0_r, wrap_id by exact F0. destruct b0. unfold Balloon.b_emit, Balloon.b_set_pages. cbn. by rewrite app_nil_r.
  - lia.
  - inversion Fp; subst. rewrite app_nil_r in *. exists m', t'. by split_and!.
Qed.
End inflate.

(** C40. The guest gives pages to the balloon, or takes them back, in any number of requests:
    every request is handed back with the count of its pages and announced, the size that the
    device shows grows or shrinks by as many pages, the pages that are given up read as zero
    and no other memory changes besides the used ring. *)
Theorem balloon_served kvm kind vr m0 stack b q base done cs l : kind = Balloon.VIRTIO_BLN_INFLATE \/ kind = Balloon.VIRTIO_BLN_DEFLATE ->
  Balloon.b_vqs b !! Z.to_nat kind = Some q -> queue_st vr m0 q (map fst cs) base (Z.of_nat (length done)) done ->
  length stack = Z.to_nat Balloon.VIRTIO_BLN_QUEUE_SIZE -> Forall (fun c => Z.of_nat (length (snd c)) <= Balloon.VIRTIO_BLN_QUEUE_SIZE) cs ->
  fits 32 (Balloon.actual b) -> Forall2 (numbers kvm vr m0 (pages kvm kind (all_pfns l))) cs l -> Forall (off_rings vr) (pages kvm kind (all_pfns l)) ->
  exists m' q', Balloon.virtio_bln_do_io kvm (S (length cs)) kind stack m0 b = Ret (m', Balloon.b_set_vq (ballooned kind b l) kind q') /\
    queue_st vr m' q' [] base (Z.of_nat (length (done ++ counts l))) (done ++ counts l) /\
    zeroed m' (pages kvm kind (all_pfns l)) /\ kept vr (pages kvm kind (all_pfns l)) m0 m'.
Proof.
  intros Hk Hq Q Ls Lc F N O.
  destruct (balloon_loop kvm kind vr m0 Hk cs l b F N O base done (mknt 0 q stack 0) Q Ls Lc) as (m' & t' & E & Q' & Z' & K).
  exists m', (nt_vq t'). split; [|by split_and!]. unfold Balloon.virtio_bln_do_io.
  replace (kind =? Balloon.VIRTIO_BLN_STATS) with false by (by destruct Hk as [-> | ->]).
  unfold vq_at. by rewrite Hq, E.
Qed.

(** A ring with one request: the numbers of the second and third page of the guest's memory. *)
Definition bln_bytes : list Z :=
  desc_bytes 400 8 0 0 ++ repeat 0 48 ++ (le_enc 2 0 ++ le_enc 2 1 ++ repeat 0 10) ++ [0; 0] ++ repeat 0 320 ++ le_enc 4 1 ++ le_enc 4 2 ++ repeat 7 (Z.to_nat 11880).
Definition bln_mem : hmem := mem_at (2 ^ 40) bln_bytes.
Definition bln_queue : virt_queue := mkvq net_tx_ring 0 0 0 1 false true.
Definition bln_demo : Balloon.bln_dev := Balloon.b_set_vq (Balloon.bln_dev0 7) 0 bln_queue.

Lemma bln_length : Z.of_nat (length bln_bytes) = 12288.
Proof. vm_compute. reflexivity. Qed.

Lemma bln_load n o x : 0 <= o -> o + Z.of_nat n <= 12288 -> le_dec (slice (Z.to_nat o) n bln_bytes) = x -> load n bln_mem (2 ^ 40 + o) = Ret x.
Proof.
  intros H1 H2 <-. unfold load, load_bytes, bln_mem. rewrite read_mem_at by (rewrite ?bln_length; lia).
  by replace (2 ^ 40 + o - 2 ^ 40) with o by lia.
Qed.

Ltac bln_field o := apply (bln_load _ o); [lia|lia|vm_compute; reflexivity].

Lemma bln_queue_ok : queue_st net_tx_ring bln_mem bln_queue [0] 0 0 [].
Proof.
  constructor; [reflexivity|apply mem_at_ok, byte_ok_check; vm_compute; reflexivity| | | |intros j e Hj; discriminate].
  - split; cbn [num avail used net_tx_ring]; try lia; [by exists (2 ^ 14)| |].
    + rewrite <- (Z2Nat.id (6 + 2 * 4)) by lia. apply mapped_mem_at; rewrite ?bln_length; cbn; lia.
    + rewrite <- (Z2Nat.id (6 + 8 * 4)) by lia. apply mapped_mem_at; rewrite ?bln_length; cbn; lia.
  - split; [split; cbn; lia|cbn; lia| |].
    + bln_field 66.
    + intros [|j] h Hj; [|discriminate]. injection Hj as <-. bln_field 68.
  - bln_field 82.
Qed.

Lemma bln_pages : forall a, a ∈ pages Membank.demo_mem 0 [1; 2] -> 2 ^ 40 + 4096 <= a < 2 ^ 40 + 12288.
Proof.
  intros a Ha. apply elem_of_pages in Ha as (pfn & H & Ha). cbv zeta in Ha. apply elem_of_cons in H as [->|H%list_elem_of_singleton]; [|subst pfn].
  - change (host_ptr _ (u64 (1 .<< _))) with (2 ^ 40 + 4096) in Ha. change Balloon.PAGE with 4096 in Ha. lia.
  - change (host_ptr _ (u64 (2 .<< _))) with (2 ^ 40 + 8192) in Ha. change Balloon.PAGE with 4096 in Ha. lia.
Qed.

Lemma bln_numbers : numbers Membank.demo_mem net_tx_ring bln_mem (pages Membank.demo_mem 0 [1; 2]) (0, [mkdesc 400 8 0 0]) (0, [1; 2]).
Proof.
  assert (D : desc_at bln_mem (2 ^ 40) 0 (mkdesc 400 8 0 0)).
  { split; [|split; [|split; [|intros [=]]]]; unfold desc_addr, desc_len, desc_flags, DESC_SIZE, d_addr, d_len, d_flags; rewrite <- ?Z.add_assoc.
    - bln_field 0. - bln_field 8. - bln_field 12. }
  split; [done| |].
  - intros m vq V K. cbn [fst snd].
    assert (E : desc_at m (2 ^ 40) 0 (mkdesc 400 8 0 0)).
    { apply (desc_at_kept net_tx_ring _ bln_mem _ _ _ _ K D). intros a Ha. cbn [net_tx_ring used num]. split; [lia|]. intros I%bln_pages. lia. }
    exists 0. rewrite V. split; [apply E|]. change (flag 0 VRING_DESC_F_INDIRECT) with false. cbn iota. apply chain_last; [exact E|reflexivity].
  - exists (mkdesc 400 8 0 0), []. split; [done|]. split; [reflexivity|]. split; [unfold fits; cbn; lia|].
    change (host_ptr Membank.demo_mem (d_addr (mkdesc 400 8 0 0))) with (2 ^ 40 + 400). cbn [snd]. split.
    + intros [|[|i]] x Lx; [| |discriminate]; injection Lx as <-; rewrite <- Z.add_assoc; [bln_field 400|bln_field 404].
    + intros a Ha. cbn [length] in Ha. cbn [net_tx_ring used num]. split; [|lia]. intros I%bln_pages. lia.
Qed.

Lemma balloon_served_witness : exists m' q',
  Balloon.virtio_bln_do_io Membank.demo_mem 2 Balloon.VIRTIO_BLN_INFLATE (repeat (mkiov 0 0) 128) bln_mem bln_demo =
    Ret (m', Balloon.b_set_vq (ballooned Balloon.VIRTIO_BLN_INFLATE bln_demo [(0, [1; 2])]) 0 q') /\
  queue_st net_tx_ring m' q' [] 0 1 [(0, 2)] /\ zeroed m' (pages Membank.demo_mem 0 [1; 2]) /\ kept net_tx_ring (pages Membank.demo_mem 0 [1; 2]) bln_mem m'.
Proof.
  apply (balloon_served Membank.demo_mem Balloon.VIRTIO_BLN_INFLATE net_tx_ring bln_mem (repeat (mkiov 0 0) 128) bln_demo bln_queue 0 [] [(0, [mkdesc 400 8 0 0])] [(0, [1; 2])]).
  - by left.
  - reflexivity.
  - exact bln_queue_ok.
  - reflexivity.
  - repeat constructor. discriminate.
  - unfold fits; cbn; lia.
  - constructor; [exact bln_numbers|constructor].
  - apply Forall_forall. intros a Ha%bln_pages. unfold off_rings. cbn [net_tx_ring avail used num]. lia.
Defined.

(** The size of the balloon after these requests. *)
Example balloon_grows : Balloon.get_config (ballooned Balloon.VIRTIO_BLN_INFLATE bln_demo [(0, [1; 2])]) = [0; 0; 0; 0; 2; 0; 0; 0].
Proof. vm_compute. reflexivity. Qed.

(** The message of the balloon command asks for, or gives back, 256 pages for each megabyte; it
    never asks for less than nothing, and what it does not fit is undefined. *)
Lemma handle_mem_pages KVM_IPC_BALLOON mb b : 0 <= Balloon.num_pages b < 2 ^ 32 -> - 2 ^ 23 < mb < 2 ^ 23 -> 0 <= Balloon.num_pages b + 256 * mb < 2 ^ 32 ->
  Balloon.handle_mem KVM_IPC_BALLOON KVM_IPC_BALLOON 4 (le_enc 4 (u32 mb)) b =
  Ret (Balloon.b_emit (Balloon.b_set_pages b (Balloon.num_pages b + 256 * mb) (Balloon.actual b)) [SignalConfig]).
Proof.
  intros Hn Hm Hr. unfold Balloon.handle_mem. rewrite Z.eqb_refl. change (4 =? 4) with true. cbn [negb orb].
  rewrite length_le_enc. cbn [Nat.ltb Nat.leb]. rewrite take_ge by (rewrite length_le_enc; lia).
  assert (swrap 32 (le_dec (le_enc 4 (u32 mb))) = mb) as ->.
  { rewrite le_dec_enc. change (8 * Z.of_nat 4) with 32. rewrite wrap_wrap by lia. unfold swrap, wrap. rewrite Zplus_mod_idemp_l. apply (swrap_id 32); lia. }
  unfold Balloon.int_ok.
  destruct (mb =? 0) eqn:E0.
  { apply Z.eqb_eq in E0 as ->. rewrite Z.mul_0_r, Z.add_0_r. by destruct b. }
  apply Z.eqb_neq in E0. rewrite !(proj2 (Z.leb_le _ _)), !(proj2 (Z.ltb_lt _ _)) by lia. cbn [negb orb andb].
  destruct (0 <? mb) eqn:E1; [by rewrite wrap_id|]. apply Z.ltb_ge in E1. rewrite (wrap_id 32 (256 * - mb)) by (split; lia).
  rewrite (proj2 (Z.ltb_ge _ _)) by lia. by rewrite wrap_id.
Qed.

(** Shrinking below nothing is ignored, and nobody is told. *)
Example shrink_ignored : Balloon.handle_mem 3 3 4 (le_enc 4 (u32 (-1))) bln_demo = Ret bln_demo.
Proof. vm_compute. reflexivity. Qed.

(** 2^23 megabytes overflow the product. *)
Example grow_overflows : Balloon.handle_mem 3 3 4 (le_enc 4 (2 ^ 23)) bln_demo = Ub.
Proof. vm_compute. reflexivity. Qed.

(** A read that fails for another reason than an empty pool hands the buffer back with a
    length that it does not have. *)
Example rng_error_length : Rng.virtio_rng_do_io_request (fun _ _ => inr 5) ∅ [mkiov 0 64] 0 1 0 = Ret (4294967295, ∅, 1%nat).
Proof. reflexivity. Qed.

(** The balloon's statistics are 70 bytes: a buffer of 80 bytes runs over them. *)
Definition stat_mem (len : Z) : hmem :=
  mem_at (2 ^ 40) (desc_bytes 128 len 0 0 ++ repeat 0 48 ++ (le_enc 2 0 ++ le_enc 2 1 ++ repeat 0 10) ++ repeat 0 50 ++ repeat 7 80).
Definition stat_asked : Balloon.bln_dev := Balloon.b_set_stat (Balloon.b_set_vq (Balloon.bln_dev0 7) 2 bln_queue) (repeat 0 70) (2 ^ 40 + 128) 1 0 0.

Example long_stats_overflow : Balloon.virtio_bln_do_stat_request Membank.demo_mem [mkiov 0 0] (stat_mem 80) stat_asked = Ub.
Proof. vm_compute. reflexivity. Qed.

(** Seven statistics are copied, and the waiting caller gets them. *)
Example stats_answered : match Balloon.virtio_bln_do_stat_request Membank.demo_mem [mkiov 0 0] (stat_mem 70) stat_asked with
  | Ret (_, b) => Balloon.b_stats b = repeat 7 70 /\ Balloon.stat_count b = 7 /\ Balloon.collect_end b = Ret (Balloon.b_set_wait b 0)
  | _ => False
  end.
Proof. vm_compute. split; [reflexivity|split; reflexivity]. Qed.
