(* ===== verification/Legacy.v ===== *)
(** * The keyboard controller and the clock

    [hw/i8042.c] in [Module I8042]: the PS/2 controller with its keyboard and mouse queues,
    its commands and interrupt lines. [hw/rtc.c] in [Module Rtc]: the CMOS memory and the time
    of day. Both answer on legacy ports. *)
From S2P Require Import Prelude Iobus.
Open Scope Z_scope.

Module I8042.

Definition KBD_IRQ : Z := 1.
Definition AUX_IRQ : Z := 12.
Definition I8042_DATA_REG : Z := 0x60.
Definition I8042_PORT_B_REG : Z := 0x61.
Definition I8042_COMMAND_REG : Z := 0x64.
Definition I8042_CMD_CTL_RCTR : Z := 0x20.
Definition I8042_CMD_CTL_WCTR : Z := 0x60.
Definition I8042_CMD_AUX_LOOP : Z := 0xD3.
Definition I8042_CMD_AUX_SEND : Z := 0xD4.
Definition I8042_CMD_AUX_TEST : Z := 0xA9.
Definition I8042_CMD_AUX_DISABLE : Z := 0xA7.
Definition I8042_CMD_AUX_ENABLE : Z := 0xA8.
Definition I8042_CMD_SYSTEM_RESET : Z := 0xFE.
Definition RESPONSE_ACK : Z := 0xFA.
Definition MODE_DISABLE_AUX : Z := 0x20.
Definition AUX_ENABLE_REPORTING : Z := 0x20.
Definition AUX_SCALING_FLAG : Z := 0x10.
Definition AUX_DEFAULT_RESOLUTION : Z := 2.
Definition AUX_DEFAULT_SAMPLE : Z := 100.
Definition I8042_STR_AUXDATA : Z := 0x20.
Definition I8042_STR_KEYLOCK : Z := 0x10.
Definition I8042_STR_CMDDAT : Z := 0x08.
Definition I8042_STR_MUXERR : Z := 0x04.
Definition I8042_STR_OBF : Z := 0x01.
Definition KBD_MODE_KBD_INT : Z := 1.
Definition KBD_MODE_SYS : Z := 2.
Definition QUEUE_SIZE : Z := 128.
Definition INT_MAX : Z := 2 ^ 31 - 1.

(** One of the two queues: the array, the two indices, which only grow, and the count. *)
Record queue := mkq { buf : list Z; rd : Z; wr : Z; cnt : Z }.

(** [struct kbd_state], with what is asked of the machine: levels of the two lines, reboots. *)
Inductive kbd_event := IrqLine (irq level : Z) | Reboot.

Record kbd_state := mkkbd {
  kq : queue; mq : queue;
  mstatus : Z; mres : Z; msample : Z;
  mode : Z; status : Z; write_cmd : Z;
  kbd_events : list kbd_event;
}.

Definition set_kq (s : kbd_state) (q : queue) : kbd_state := mkkbd q (mq s) (mstatus s) (mres s) (msample s) (mode s) (status s) (write_cmd s) (kbd_events s).
Definition set_mq (s : kbd_state) (q : queue) : kbd_state := mkkbd (kq s) q (mstatus s) (mres s) (msample s) (mode s) (status s) (write_cmd s) (kbd_events s).
Definition set_mouse (s : kbd_state) (st res sam : Z) : kbd_state := mkkbd (kq s) (mq s) st res sam (mode s) (status s) (write_cmd s) (kbd_events s).
Definition set_mode (s : kbd_state) (x : Z) : kbd_state := mkkbd (kq s) (mq s) (mstatus s) (mres s) (msample s) x (status s) (write_cmd s) (kbd_events s).
Definition set_status (s : kbd_state) (x : Z) : kbd_state := mkkbd (kq s) (mq s) (mstatus s) (mres s) (msample s) (mode s) x (write_cmd s) (kbd_events s).
Definition set_write_cmd (s : kbd_state) (x : Z) : kbd_state := mkkbd (kq s) (mq s) (mstatus s) (mres s) (msample s) (mode s) (status s) x (kbd_events s).
Definition emit (s : kbd_state) (l : list kbd_event) : kbd_state := mkkbd (kq s) (mq s) (mstatus s) (mres s) (msample s) (mode s) (status s) (write_cmd s) (kbd_events s ++ l).

Definition kbd_update_irq (s : kbd_state) : kbd_state :=
  let s := set_status s (status s .&~ (I8042_STR_OBF .| I8042_STR_AUXDATA)) in
  let '(s, klevel) := if 0 <? cnt (kq s) then (set_status s (status s .| I8042_STR_OBF), 1) else (s, 0) in
  let '(s, mlevel) := if (klevel =? 0) && negb (cnt (mq s) =? 0)
                      then (set_status s (status s .| (I8042_STR_OBF .| I8042_STR_AUXDATA)), 1) else (s, 0) in
  emit s [IrqLine KBD_IRQ klevel; IrqLine AUX_IRQ mlevel].

(** The index of an [int] that counts up; past the largest one C does not define the sum. *)
Definition slot (i : Z) : Z := Z.rem i QUEUE_SIZE.

(** Adding a byte to a queue that is not full, and taking one from a queue that is not empty. *)
Definition push (q : queue) (c : Z) : out queue :=
  if wr q =? INT_MAX then Ub else Ret (mkq (<[Z.to_nat (slot (wr q)) := u8 c]> (buf q)) (rd q) (wr q + 1) (cnt q + 1)).
Definition pop (q : queue) : out (Z * queue) :=
  if rd q =? INT_MAX then Ub
  else match buf q !! Z.to_nat (slot (rd q)) with
       | Some c => Ret (c, mkq (buf q) (rd q + 1) (wr q) (cnt q - 1))
       | None => Ub
       end.

Definition mouse_queue (s : kbd_state) (c : Z) : out kbd_state :=
  if QUEUE_SIZE <=? cnt (mq s) then Ret s
  else let! q := push (mq s) c in Ret (kbd_update_irq (set_mq s q)).
Definition kbd_queue (s : kbd_state) (c : Z) : out kbd_state :=
  if QUEUE_SIZE <=? cnt (kq s) then Ret s
  else let! q := push (kq s) c in Ret (kbd_update_irq (set_kq s q)).

Definition kbd_write_command (s : kbd_state) (val : Z) : out kbd_state :=
  if val =? I8042_CMD_CTL_RCTR then kbd_queue s (mode s)
  else if (val =? I8042_CMD_CTL_WCTR) || (val =? I8042_CMD_AUX_SEND) || (val =? I8042_CMD_AUX_LOOP) then Ret (set_write_cmd s val)
  else if val =? I8042_CMD_AUX_TEST then mouse_queue s 0
  else if val =? I8042_CMD_AUX_DISABLE then Ret (set_mode s (mode s .| MODE_DISABLE_AUX))
  else if val =? I8042_CMD_AUX_ENABLE then Ret (set_mode s (mode s .&~ MODE_DISABLE_AUX))
  else if val =? I8042_CMD_SYSTEM_RESET then Ret (emit s [Reboot])
  else Ret s.

(** The elements are of type [char], converted to [u32]. *)
Definition char_u32 (c : Z) : Z := u32 (swrap 8 c).

Definition kbd_read_data (s : kbd_state) : out (Z * kbd_state) :=
  if negb (cnt (kq s) =? 0) then
    let! (c, q) := pop (kq s) in
    Ret (char_u32 c, kbd_update_irq (emit (set_kq s q) [IrqLine KBD_IRQ 0]))
  else if 0 <? cnt (mq s) then
    let! (c, q) := pop (mq s) in
    Ret (char_u32 c, kbd_update_irq (emit (set_mq s q) [IrqLine AUX_IRQ 0]))
  else
    let i := rd (kq s) - 1 in
    let i := if i <? 0 then QUEUE_SIZE else i in
    match buf (kq s) !! Z.to_nat i with Some c => Ret (char_u32 c, s) | None => Ub end.

Definition kbd_read_status (s : kbd_state) : Z := status s.

Definition mouse_command (s : kbd_state) (val : Z) : out kbd_state :=
  if val =? 0xe6 then Ret (set_mouse s (mstatus s .&~ AUX_SCALING_FLAG) (mres s) (msample s))
  else if val =? 0xe8 then Ret (set_mouse s (mstatus s) (u8 val) (msample s))
  else if val =? 0xe9 then
    let! s := mouse_queue s (mstatus s) in let! s := mouse_queue s (mres s) in mouse_queue s (msample s)
  else if val =? 0xf2 then mouse_queue s 0
  else if val =? 0xf3 then Ret (set_mouse s (mstatus s) (mres s) (u8 val))
  else if val =? 0xf4 then Ret (set_mouse s (mstatus s .| AUX_ENABLE_REPORTING) (mres s) (msample s))
  else if val =? 0xf5 then Ret (set_mouse s (mstatus s .&~ AUX_ENABLE_REPORTING) (mres s) (msample s))
  else if (val =? 0xf6) || (val =? 0xff) then Ret (set_mouse s 0 AUX_DEFAULT_RESOLUTION AUX_DEFAULT_SAMPLE)
  else Ret s.

Definition kbd_write_data (s : kbd_state) (val : Z) : out kbd_state :=
  let! s :=
    if write_cmd s =? I8042_CMD_CTL_WCTR then Ret (kbd_update_irq (set_mode s (u8 val)))
    else if write_cmd s =? I8042_CMD_AUX_LOOP then let! s := mouse_queue s val in mouse_queue s RESPONSE_ACK
    else if write_cmd s =? I8042_CMD_AUX_SEND then let! s := mouse_queue s RESPONSE_ACK in mouse_command s val
    else if write_cmd s =? 0 then
      let! s := kbd_queue s RESPONSE_ACK in
      let! s := kbd_queue s 0xab in
      let! s := kbd_queue s 0x41 in
      Ret (kbd_update_irq s)
    else Ret s in
  Ret (set_write_cmd s 0).

Definition kbd_reset : kbd_state :=
  let q := mkq (repeat 0 (Z.to_nat QUEUE_SIZE)) 0 0 0 in
  mkkbd q q 0 AUX_DEFAULT_RESOLUTION AUX_DEFAULT_SAMPLE (KBD_MODE_KBD_INT .| KBD_MODE_SYS)
    (I8042_STR_MUXERR .| I8042_STR_CMDDAT .| I8042_STR_KEYLOCK) 0 [].

(** The buffer of an access: its first bytes are read or written whatever [size] is. *)
Definition read_data (n : nat) (data : list Z) : out Z :=
  if (n <=? length data)%nat then Ret (le_dec (take n data)) else Ub.
Definition write_data (n : nat) (v : Z) (data : list Z) : out (list Z) :=
  if (n <=? length data)%nat then Ret (le_enc n v ++ drop n data) else Ub.

Definition kbd_in (s : kbd_state) (port : Z) (data : list Z) : out (bool * list Z * kbd_state) :=
  if port =? I8042_COMMAND_REG then let! data := write_data 1 (kbd_read_status s) data in Ret (true, data, s)
  else if port =? I8042_DATA_REG then
    let! (v, s) := kbd_read_data s in let! data := write_data 4 v data in Ret (true, data, s)
  else if port =? I8042_PORT_B_REG then let! data := write_data 1 0x20 data in Ret (true, data, s)
  else Ret (false, data, s).

Definition kbd_out (s : kbd_state) (port : Z) (data : list Z) : out (bool * kbd_state) :=
  if port =? I8042_COMMAND_REG then
    let! v := read_data 1 data in let! s := kbd_write_command s v in Ret (true, s)
  else if port =? I8042_DATA_REG then
    let! v := read_data 4 data in let! s := kbd_write_data s v in Ret (true, s)
  else if port =? I8042_PORT_B_REG then Ret (true, s)
  else Ret (false, s).

(** ** The queues *)

(** The bytes of a queue, oldest first: the indices are the numbers of bytes that were taken
    and added, and the array holds the bytes between. *)
Record holds (q : queue) (l : list Z) : Prop := {
  h_len : length (buf q) = Z.to_nat QUEUE_SIZE;
  h_cnt : cnt q = Z.of_nat (length l);
  h_full : Z.of_nat (length l) <= QUEUE_SIZE;
  h_rd : 0 <= rd q;
  h_wr : wr q = rd q + cnt q;
  h_buf : forall k c, l !! k = Some c -> buf q !! Z.to_nat (slot (rd q + Z.of_nat k)) = Some c;
}.

Lemma slot_bounds i : 0 <= i -> 0 <= slot i < QUEUE_SIZE.
Proof. intros H. unfold slot, QUEUE_SIZE. rewrite Z.rem_mod_nonneg by lia. apply Z.mod_pos_bound. lia. Qed.

Lemma slot_inj i j : 0 <= i -> i <= j -> j - i < QUEUE_SIZE -> slot i = slot j -> i = j.
Proof.
  intros Hi Hj Hd. unfold slot, QUEUE_SIZE in *. rewrite !Z.rem_mod_nonneg by lia. intros E.
  pose proof (Z.div_mod i 128 ltac:(lia)). pose proof (Z.div_mod j 128 ltac:(lia)).
  pose proof (Z.mod_pos_bound i 128 ltac:(lia)). lia.
Qed.

Lemma push_holds q l c : holds q l -> Z.of_nat (length l) < QUEUE_SIZE -> wr q < INT_MAX ->
  exists q', push q c = Ret q' /\ holds q' (l ++ [u8 c]) /\ rd q' = rd q /\ wr q' = wr q + 1.
Proof.
  intros [H1 H2 H3 H4 H5 H6] Hf Hw. unfold push. rewrite (proj2 (Z.eqb_neq _ _)) by lia. eexists. split; [reflexivity |].
  split; [| done]. pose proof (slot_bounds (wr q) ltac:(lia)) as R.
  split; cbn [buf rd wr cnt]; rewrite ?length_insert, ?length_app; cbn [length]; try lia.
  intros k x E. destruct (decide (k < length l)%nat) as [L | L].
  - rewrite lookup_app_l in E by done. rewrite list_lookup_insert_ne; [by apply H6 |]. intros S.
    assert (slot (rd q + Z.of_nat k) = slot (wr q)) as S' by (pose proof (slot_bounds (rd q + Z.of_nat k) ltac:(lia)); lia).
    apply slot_inj in S'; lia.
  - rewrite lookup_app_r in E by lia. assert (k = length l) as -> by (apply lookup_lt_Some in E; cbn in E; lia).
    rewrite Nat.sub_diag in E. injection E as <-. rewrite <- H2, <- H5. apply list_lookup_insert_eq. rewrite H1. lia.
Qed.

Lemma pop_holds q c l : holds q (c :: l) -> rd q < INT_MAX ->
  exists q', pop q = Ret (c, q') /\ holds q' l /\ rd q' = rd q + 1 /\ wr q' = wr q.
Proof.
  intros [H1 H2 H3 H4 H5 H6] Hr. unfold pop. rewrite (proj2 (Z.eqb_neq _ _)) by lia.
  pose proof (H6 O c eq_refl) as E. rewrite Z.add_0_r in E. rewrite E. eexists. split; [reflexivity |]. split; [| done].
  cbn [length] in *. split; cbn [buf rd wr cnt]; try lia.
  intros k x F. specialize (H6 (S k) x F). by replace (rd q + 1 + Z.of_nat k) with (rd q + Z.of_nat (S k)) by lia.
Qed.

(** ** What a guest sees: two bounded queues *)

(** The queues as lists, the mouse's status, resolution and rate, the mode and the command
    that waits for its argument. *)
Record kbd_spec := mkspec { a_kq : list Z; a_mq : list Z; a_mouse : Z * Z * Z; a_mode : Z; a_cmd : Z; a_reboots : nat }.

(** A byte that comes when the queue is full is lost. *)
Definition enq (l : list Z) (c : Z) : list Z := if Z.of_nat (length l) <? QUEUE_SIZE then l ++ [u8 c] else l.

Definition enq_k (a : kbd_spec) (c : Z) : kbd_spec := mkspec (enq (a_kq a) c) (a_mq a) (a_mouse a) (a_mode a) (a_cmd a) (a_reboots a).
Definition enq_m (a : kbd_spec) (c : Z) : kbd_spec := mkspec (a_kq a) (enq (a_mq a) c) (a_mouse a) (a_mode a) (a_cmd a) (a_reboots a).
Definition with_mouse (a : kbd_spec) (m : Z * Z * Z) : kbd_spec := mkspec (a_kq a) (a_mq a) m (a_mode a) (a_cmd a) (a_reboots a).
Definition with_mode (a : kbd_spec) (m : Z) : kbd_spec := mkspec (a_kq a) (a_mq a) (a_mouse a) m (a_cmd a) (a_reboots a).
Definition with_cmd (a : kbd_spec) (c : Z) : kbd_spec := mkspec (a_kq a) (a_mq a) (a_mouse a) (a_mode a) c (a_reboots a).

Definition spec_command (a : kbd_spec) (v : Z) : kbd_spec :=
  if v =? 0x20 then enq_k a (a_mode a)
  else if (v =? 0x60) || (v =? 0xD4) || (v =? 0xD3) then with_cmd a v
  else if v =? 0xA9 then enq_m a 0
  else if v =? 0xA7 then with_mode a (a_mode a .| 0x20)
  else if v =? 0xA8 then with_mode a (a_mode a .&~ 0x20)
  else if v =? 0xFE then mkspec (a_kq a) (a_mq a) (a_mouse a) (a_mode a) (a_cmd a) (S (a_reboots a))
  else a.

Definition spec_mouse (a : kbd_spec) (v : Z) : kbd_spec :=
  let '(st, res, sam) := a_mouse a in
  if v =? 0xe6 then with_mouse a (st .&~ 0x10, res, sam)
  else if v =? 0xe8 then with_mouse a (st, u8 v, sam)
  else if v =? 0xe9 then enq_m (enq_m (enq_m a st) res) sam
  else if v =? 0xf2 then enq_m a 0
  else if v =? 0xf3 then with_mouse a (st, res, u8 v)
  else if v =? 0xf4 then with_mouse a (st .| 0x20, res, sam)
  else if v =? 0xf5 then with_mouse a (st .&~ 0x20, res, sam)
  else if (v =? 0xf6) || (v =? 0xff) then with_mouse a (0, 2, 100)
  else a.

Definition spec_data (a : kbd_spec) (v : Z) : kbd_spec :=
  with_cmd (
    if a_cmd a =? 0x60 then with_mode a (u8 v)
    else if a_cmd a =? 0xD3 then enq_m (enq_m a v) 0xFA
    else if a_cmd a =? 0xD4 then spec_mouse (enq_m a 0xFA) v
    else if a_cmd a =? 0 then enq_k (enq_k (enq_k a 0xFA) 0xab) 0x41
    else a) 0.

(** The keyboard's bytes come first; [None] is a read with nothing to read. *)
Definition spec_read (a : kbd_spec) : option (Z * kbd_spec) :=
  match a_kq a, a_mq a with
  | c :: l, _ => Some (c, mkspec l (a_mq a) (a_mouse a) (a_mode a) (a_cmd a) (a_reboots a))
  | [], c :: l => Some (c, mkspec [] l (a_mouse a) (a_mode a) (a_cmd a) (a_reboots a))
  | [], [] => None
  end.

Definition nonempty {A} (l : list A) : bool := match l with [] => false | _ => true end.

(** The status register: data are there, and they are the mouse's. *)
Definition spec_status (a : kbd_spec) : Z :=
  0x1c .| (if nonempty (a_kq a) then 1 else if nonempty (a_mq a) then 0x21 else 0).

(** The level of a line after the events. *)
Fixpoint level (irq : Z) (l : list kbd_event) (x : Z) : Z :=
  match l with
  | [] => x
  | IrqLine i v :: l => level irq l (if i =? irq then v else x)
  | Reboot :: l => level irq l x
  end.

Lemma level_app irq l l' x : level irq (l ++ l') x = level irq l' (level irq l x).
Proof. revert x. induction l as [| [i v |] l IH]; intros x; cbn [app level]; auto. Qed.

Definition reboots (l : list kbd_event) : nat := length (List.filter (fun e => match e with Reboot => true | _ => false end) l).

(** The controller stands for the specification's state; [n] bounds what went through the
    queues. All but the status and the lines: *)
Record rep0 (n : Z) (s : kbd_state) (a : kbd_spec) : Prop := {
  r_k : holds (kq s) (a_kq a);
  r_m : holds (mq s) (a_mq a);
  r_mouse : a_mouse a = (mstatus s, mres s, msample s);
  r_mode : a_mode a = mode s;
  r_cmd : a_cmd a = write_cmd s;
  r_base : status s .&~ 0x21 = 0x1c;
  r_reb : reboots (kbd_events s) = a_reboots a;
  r_nk : wr (kq s) <= n;
  r_nm : wr (mq s) <= n;
}.

(** The rest. *)
Record rep (n : Z) (s : kbd_state) (a : kbd_spec) : Prop := {
  r_rep : rep0 n s a;
  r_status : status s = spec_status a;
  r_kline : level KBD_IRQ (kbd_events s) 0 = Z.b2z (nonempty (a_kq a));
  r_mline : level AUX_IRQ (kbd_events s) 0 = Z.b2z (negb (nonempty (a_kq a)) && nonempty (a_mq a));
}.

Lemma cnt_nonempty q l : holds q l -> (0 <? cnt q) = nonempty l /\ negb (cnt q =? 0) = nonempty l.
Proof. intros H. rewrite (h_cnt q l H). by destruct l. Qed.

Lemma reboots_app l l' : reboots (l ++ l') = (reboots l + reboots l')%nat.
Proof. unfold reboots. by rewrite List.filter_app, length_app. Qed.

Lemma update_irq_rep n s a : rep0 n s a -> rep n (kbd_update_irq s) a.
Proof.
  intros [H1 H2 H3 H4 H5 H6 H7 H8 H9]. destruct (cnt_nonempty _ _ H1) as [Ck _]. destruct (cnt_nonempty _ _ H2) as [_ Cm].
  unfold kbd_update_irq. change (I8042_STR_OBF .| I8042_STR_AUXDATA) with 0x21. rewrite H6. cbn [set_status kq mq]. rewrite Ck.
  destruct (nonempty (a_kq a)) eqn:Ek; [| cbn [Z.eqb andb set_status kq mq]; rewrite Cm; destruct (nonempty (a_mq a)) eqn:Em]; cbn [Z.eqb andb negb];
    (split; [split; try done; cbn [kbd_events emit set_status]; rewrite reboots_app, H7; exact (Nat.add_0_r _) | | |]);
    cbn [status emit set_status kbd_events]; rewrite ?level_app; unfold spec_status; rewrite ?Ek, ?Em; reflexivity.
Qed.

(** One byte more. *)
Lemma kbd_queue_rep n s a c : rep n s a -> n < INT_MAX -> exists s', kbd_queue s c = Ret s' /\ rep (n + 1) s' (enq_k a c).
Proof.
  intros [R S1 S2 S3] Hn. pose proof R as [H1 H2 H3 H4 H5 H6 H7 H8 H9]. unfold kbd_queue, enq_k, enq.
  rewrite (h_cnt _ _ H1). destruct (Z.leb_spec QUEUE_SIZE (Z.of_nat (length (a_kq a)))) as [L | L].
  - rewrite (proj2 (Z.ltb_ge _ _)) by lia. exists s. split; [done |]. destruct a. cbn in *. split; [split; try done; lia | done | done | done].
  - rewrite (proj2 (Z.ltb_lt _ _)) by lia. destruct (push_holds (kq s) (a_kq a) c H1 L ltac:(lia)) as (q & -> & Hq & _ & W).
    eexists. split; [reflexivity |]. apply update_irq_rep. split; try done; cbn [set_kq kq mq]; lia.
Qed.

Lemma mouse_queue_rep n s a c : rep n s a -> n < INT_MAX -> exists s', mouse_queue s c = Ret s' /\ rep (n + 1) s' (enq_m a c).
Proof.
  intros [R S1 S2 S3] Hn. pose proof R as [H1 H2 H3 H4 H5 H6 H7 H8 H9]. unfold mouse_queue, enq_m, enq.
  rewrite (h_cnt _ _ H2). destruct (Z.leb_spec QUEUE_SIZE (Z.of_nat (length (a_mq a)))) as [L | L].
  - rewrite (proj2 (Z.ltb_ge _ _)) by lia. exists s. split; [done |]. destruct a. cbn in *. split; [split; try done; lia | done | done | done].
  - rewrite (proj2 (Z.ltb_lt _ _)) by lia. destruct (push_holds (mq s) (a_mq a) c H2 L ltac:(lia)) as (q & -> & Hq & _ & W).
    eexists. split; [reflexivity |]. apply update_irq_rep. split; try done; cbn [set_mq kq mq]; lia.
Qed.

Lemma rep_le n n' s a : n <= n' -> rep n s a -> rep n' s a.
Proof. intros L [[H1 H2 H3 H4 H5 H6 H7 H8 H9] S1 S2 S3]. split; [split; try done; lia | done | done | done]. Qed.

(** Changes outside of the queues. *)
Lemma rep_regs n s a s' a' : rep n s a -> kq s' = kq s -> mq s' = mq s -> status s' = status s -> kbd_events s' = kbd_events s ->
  a_kq a' = a_kq a -> a_mq a' = a_mq a -> a_reboots a' = a_reboots a ->
  a_mouse a' = (mstatus s', mres s', msample s') -> a_mode a' = mode s' -> a_cmd a' = write_cmd s' -> rep n s' a'.
Proof.
  intros [[H1 H2 H3 H4 H5 H6 H7 H8 H9] S1 S2 S3] K M St Ev Ak Am Ar A1 A2 A3.
  split; [split; rewrite ?K, ?M, ?St, ?Ev, ?Ak, ?Am, ?Ar; done | | |]; rewrite ?St, ?Ev; unfold spec_status; rewrite ?Ak, ?Am; done.
Qed.

(** A register changes: the queues, the lines and the status stay. *)
Ltac regs R := eexists; split; [reflexivity |]; eapply rep_regs; [exact R | ..]; cbn; try reflexivity; destruct R as [[] ? ? ?]; congruence.

(** Case analysis on the guards, which the code and the specification share. *)
Ltac guards v := repeat match goal with |- context [v =? ?k] => destruct (v =? k) end; cbn [orb].

Lemma write_command_rep n s a v : rep n s a -> n < INT_MAX -> exists s', kbd_write_command s v = Ret s' /\ rep (n + 1) s' (spec_command a v).
Proof.
  intros R Hn. pose proof (rep_le n (n + 1) s a ltac:(lia) R) as R'.
  unfold kbd_write_command, spec_command, I8042_CMD_CTL_RCTR, I8042_CMD_CTL_WCTR, I8042_CMD_AUX_SEND, I8042_CMD_AUX_LOOP,
    I8042_CMD_AUX_TEST, I8042_CMD_AUX_DISABLE, I8042_CMD_AUX_ENABLE, I8042_CMD_SYSTEM_RESET, MODE_DISABLE_AUX.
  guards v; try (regs R'); try (by eexists).
  - rewrite (r_mode _ _ _ (r_rep _ _ _ R)). by apply kbd_queue_rep.
  - by apply mouse_queue_rep.
  - eexists. split; [reflexivity |]. destruct R' as [[] S1 S2 S3].
    split; [split; try done | done | |]; cbn [kbd_events emit a_reboots a_kq a_mq].
    + rewrite reboots_app, r_reb0. exact (Nat.add_1_r _).
    + by rewrite level_app, S2.
    + by rewrite level_app, S3.
Qed.

Lemma mouse_command_rep n s a v : rep n s a -> n + 3 <= INT_MAX -> exists s', mouse_command s v = Ret s' /\ rep (n + 3) s' (spec_mouse a v).
Proof.
  intros R Hn. pose proof (rep_le n (n + 3) s a ltac:(lia) R) as R'. pose proof (r_mouse _ _ _ (r_rep _ _ _ R)) as M.
  unfold mouse_command, spec_mouse, AUX_SCALING_FLAG, AUX_ENABLE_REPORTING, AUX_DEFAULT_RESOLUTION, AUX_DEFAULT_SAMPLE. rewrite M.
  guards v; try (regs R'); try (by eexists).
  - destruct (mouse_queue_rep n s a (mstatus s) R ltac:(lia)) as (s1 & -> & R1).
    pose proof (r_mouse _ _ _ (r_rep _ _ _ R1)) as M1. cbn in M1. rewrite M in M1. injection M1 as _ E1 _.
    destruct (mouse_queue_rep _ _ _ (mres s1) R1 ltac:(lia)) as (s2 & -> & R2).
    pose proof (r_mouse _ _ _ (r_rep _ _ _ R2)) as M2. cbn in M2. rewrite M in M2. injection M2 as _ _ E2.
    destruct (mouse_queue_rep _ _ _ (msample s2) R2 ltac:(lia)) as (s3 & -> & R3).
    eexists. split; [done |]. rewrite <- E1, <- E2 in R3. revert R3. apply rep_le. lia.
  - destruct (mouse_queue_rep n s a 0 R ltac:(lia)) as (s' & -> & Q). eexists. split; [done |]. revert Q. apply rep_le. lia.
Qed.

(** The command that waited is forgotten. *)
Lemma forget_rep n s a : rep n s a -> rep n (set_write_cmd s 0) (with_cmd a 0).
Proof. intros R. eapply rep_regs; [exact R | ..]; try reflexivity; apply R. Qed.

Lemma write_data_rep n s a v : rep n s a -> n + 4 <= INT_MAX -> exists s', kbd_write_data s v = Ret s' /\ rep (n + 4) s' (spec_data a v).
Proof.
  intros R Hn. unfold kbd_write_data, spec_data, I8042_CMD_CTL_WCTR, I8042_CMD_AUX_LOOP, I8042_CMD_AUX_SEND, RESPONSE_ACK.
  rewrite <- (r_cmd _ _ _ (r_rep _ _ _ R)).
  destruct (_ =? _); [| destruct (_ =? _); [| destruct (_ =? _); [| destruct (_ =? _)]]].
  - eexists. split; [reflexivity |]. apply forget_rep, update_irq_rep.
    destruct (rep_le n (n + 4) s a ltac:(lia) R) as [[] ? ? ?]. by split.
  - destruct (mouse_queue_rep _ _ _ v R ltac:(lia)) as (s1 & -> & R1).
    destruct (mouse_queue_rep _ _ _ 0xFA R1 ltac:(lia)) as (s2 & -> & R2).
    eexists. split; [reflexivity |]. apply forget_rep. revert R2. apply rep_le. lia.
  - destruct (mouse_queue_rep _ _ _ 0xFA R ltac:(lia)) as (s1 & -> & R1).
    destruct (mouse_command_rep _ _ _ v R1 ltac:(lia)) as (s2 & E & R2). rewrite E.
    eexists. split; [reflexivity |]. apply forget_rep. revert R2. apply rep_le. lia.
  - destruct (kbd_queue_rep _ _ _ 0xFA R ltac:(lia)) as (s1 & -> & R1).
    destruct (kbd_queue_rep _ _ _ 0xab R1 ltac:(lia)) as (s2 & E2 & R2). rewrite E2.
    destruct (kbd_queue_rep _ _ _ 0x41 R2 ltac:(lia)) as (s3 & E3 & R3). rewrite E3.
    eexists. split; [reflexivity |]. apply forget_rep, update_irq_rep, r_rep. revert R3. apply rep_le. lia.
  - eexists. split; [reflexivity |]. apply forget_rep. revert R. apply rep_le. lia.
Qed.

(** A read takes the oldest byte of the keyboard, or else of the mouse. *)
Lemma read_data_rep n s a : rep n s a -> n < INT_MAX ->
  match spec_read a with
  | Some (c, a') => exists s', kbd_read_data s = Ret (char_u32 c, s') /\ rep n s' a'
  | None => True
  end.
Proof.
  intros [[H1 H2 H3 H4 H5 H6 H7 H8 H9] S1 S2 S3] Hn. unfold spec_read, kbd_read_data.
  destruct (cnt_nonempty _ _ H1) as [_ Ck]. destruct (cnt_nonempty _ _ H2) as [Cm _]. rewrite Ck, Cm.
  pose proof (h_wr _ _ H1). pose proof (h_cnt _ _ H1). pose proof (h_wr _ _ H2). pose proof (h_cnt _ _ H2).
  destruct (a_kq a) as [| c l] eqn:Ek; [destruct (a_mq a) as [| c l] eqn:Em; [done |] |]; cbn [nonempty].
  - destruct (pop_holds _ _ _ H2 ltac:(lia)) as (q & -> & Hq & _ & W). eexists. split; [reflexivity |].
    apply update_irq_rep. split; try done; cbn [set_mq emit kq mq a_kq a_mq kbd_events]; try lia.
    rewrite reboots_app. rewrite H7. exact (Nat.add_0_r _).
  - destruct (pop_holds _ _ _ H1 ltac:(lia)) as (q & -> & Hq & _ & W). eexists. split; [reflexivity |].
    apply update_irq_rep. split; try done; cbn [set_kq emit kq mq a_kq a_mq kbd_events]; try lia.
    rewrite reboots_app. rewrite H7. exact (Nat.add_0_r _).
Qed.

(** ** Runs of the controller *)

(** What reaches it: accesses of the guest to its ports, with the buffer of the access, and
    bytes from the display's keyboard and mouse. *)
Inductive action := PortIn (port : Z) (data : list Z) | PortOut (port : Z) (data : list Z) | Key (c : Z) | Mouse (c : Z).

(** The buffer is the page that the hypervisor shares with the guest's processor. *)
Definition buffered (x : action) : bool := match x with PortIn _ d | PortOut _ d => (4 <=? length d)%nat | _ => true end.

(** The answer, the buffer after the action, and the controller. *)
Definition act (s : kbd_state) (x : action) : out (bool * list Z * kbd_state) :=
  match x with
  | PortIn port data => kbd_in s port data
  | PortOut port data => let! (r, s) := kbd_out s port data in Ret (r, data, s)
  | Key c => let! s := kbd_queue s c in Ret (true, [], s)
  | Mouse c => let! s := mouse_queue s c in Ret (true, [], s)
  end.

Fixpoint acts (s : kbd_state) (l : list action) : out (list (bool * list Z) * kbd_state) :=
  match l with
  | [] => Ret ([], s)
  | x :: l => let! (r, d, s) := act s x in let! (rs, s) := acts s l in Ret ((r, d) :: rs, s)
  end.

Definition spec0 : kbd_spec := mkspec [] [] (0, 2, 100) 3 0 0.

(** [None]: the guest reads data when the status says that there are none. *)
Definition spec_act (a : kbd_spec) (x : action) : option (bool * list Z * kbd_spec) :=
  match x with
  | PortIn port data =>
      if port =? 0x64 then Some (true, u8 (spec_status a) :: drop 1 data, a)
      else if port =? 0x60 then
        '(c, a) ← spec_read a; Some (true, le_enc 4 (char_u32 c) ++ drop 4 data, a)
      else if port =? 0x61 then Some (true, 0x20 :: drop 1 data, a)
      else Some (false, data, a)
  | PortOut port data =>
      if port =? 0x64 then Some (true, data, spec_command a (le_dec (take 1 data)))
      else if port =? 0x60 then Some (true, data, spec_data a (le_dec (take 4 data)))
      else Some (port =? 0x61, data, a)
  | Key c => Some (true, [], enq_k a c)
  | Mouse c => Some (true, [], enq_m a c)
  end.

Fixpoint spec_acts (a : kbd_spec) (l : list action) : option (list (bool * list Z) * kbd_spec) :=
  match l with
  | [] => Some ([], a)
  | x :: l => '(r, d, a) ← spec_act a x; '(rs, a) ← spec_acts a l; Some ((r, d) :: rs, a)
  end.

Lemma act_rep n s a x r d a' : rep n s a -> n + 4 <= INT_MAX -> buffered x = true -> spec_act a x = Some (r, d, a') ->
  exists s', act s x = Ret (r, d, s') /\ rep (n + 4) s' a'.
Proof.
  intros R Hn B E. pose proof (rep_le n (n + 4) s a ltac:(lia) R) as R'.
  destruct x as [port data | port data | c | c]; cbn [spec_act act buffered] in *.
  - unfold kbd_in, I8042_COMMAND_REG, I8042_DATA_REG, I8042_PORT_B_REG, write_data, kbd_read_status. rewrite B.
    rewrite (proj2 (Nat.leb_le 1 _)) by (apply Nat.leb_le in B; lia).
    destruct (port =? 0x64); [injection E as <- <- <-; rewrite (r_status _ _ _ R); by eexists |].
    destruct (port =? 0x60).
    + pose proof (read_data_rep n s a R ltac:(lia)) as H. destruct (spec_read a) as [[c a1] |]; [| done].
      cbn in E. injection E as <- <- <-. destruct H as (s' & -> & Q). eexists. split; [done |]. revert Q. apply rep_le. lia.
    + destruct (port =? 0x61); injection E as <- <- <-; by eexists.
  - unfold kbd_out, I8042_COMMAND_REG, I8042_DATA_REG, I8042_PORT_B_REG, read_data. rewrite B.
    rewrite (proj2 (Nat.leb_le 1 _)) by (apply Nat.leb_le in B; lia).
    destruct (port =? 0x64); [injection E as <- <- <- |].
    + destruct (write_command_rep n s a (le_dec (take 1 data)) R ltac:(lia)) as (s' & -> & Q).
      eexists. split; [done |]. revert Q. apply rep_le. lia.
    + destruct (port =? 0x60); [injection E as <- <- <- | injection E as <- <- <-; destruct (port =? 0x61); by eexists].
      destruct (write_data_rep n s a (le_dec (take 4 data)) R ltac:(lia)) as (s' & -> & Q). by eexists.
  - injection E as <- <- <-. destruct (kbd_queue_rep n s a c R ltac:(lia)) as (s' & -> & Q).
    eexists. split; [done |]. revert Q. apply rep_le. lia.
  - injection E as <- <- <-. destruct (mouse_queue_rep n s a c R ltac:(lia)) as (s' & -> & Q).
    eexists. split; [done |]. revert Q. apply rep_le. lia.
Qed.

Lemma acts_rep l : forall n s a rs a', rep n s a -> n + 4 * Z.of_nat (length l) <= INT_MAX -> forallb buffered l = true ->
  spec_acts a l = Some (rs, a') -> exists s', acts s l = Ret (rs, s') /\ rep (n + 4 * Z.of_nat (length l)) s' a'.
Proof.
  induction l as [| x l IH]; intros n s a rs a' R Hn B E.
  - injection E as <- <-. eexists. split; [done |]. revert R. apply rep_le. cbn. lia.
  - cbn [forallb] in B. apply andb_prop in B as [Bx Bl]. cbn [spec_acts] in E.
    destruct (spec_act a x) as [[[r d] a1] |] eqn:Ex; [| done]. cbn [mbind option_bind] in E.
    destruct (spec_acts a1 l) as [[rs1 a2] |] eqn:El; [| done]. cbn in E. injection E as <- <-.
    cbn [length] in *. destruct (act_rep n s a x r d a1 R ltac:(lia) Bx Ex) as (s1 & E1 & R1).
    destruct (IH (n + 4) s1 a1 rs1 a2 R1 ltac:(lia) Bl El) as (s2 & E2 & R2).
    exists s2. cbn [acts]. rewrite E1, E2. split; [done |]. revert R2. apply rep_le. lia.
Qed.

Lemma reset_holds : holds (kq kbd_reset) [].
Proof. split; done. Qed.

Lemma reset_rep : rep 0 kbd_reset spec0.
Proof. pose proof reset_holds. split; [split; done | done..]. Qed.

(** C37. The controller is two bounded queues: from reset, for any sequence of port accesses
    and of bytes from the display in which no data are read while the status says that there
    are none, every answer is the one of a keyboard and a mouse queue of 128 bytes, the
    keyboard's first, that drop what does not fit, with the mode, the pending command and the
    mouse's registers beside them; at the end the interrupt lines are high for the queue that
    is next, and the machine was reset once for each reset command. *)
Theorem kbd_refines_queues l rs a :
  forallb buffered l = true -> 4 * Z.of_nat (length l) <= INT_MAX -> spec_acts spec0 l = Some (rs, a) ->
  exists s, acts kbd_reset l = Ret (rs, s) /\ status s = spec_status a /\
    level KBD_IRQ (kbd_events s) 0 = Z.b2z (nonempty (a_kq a)) /\
    level AUX_IRQ (kbd_events s) 0 = Z.b2z (negb (nonempty (a_kq a)) && nonempty (a_mq a)) /\
    reboots (kbd_events s) = a_reboots a.
Proof.
  intros B Hn E. destruct (acts_rep l 0 kbd_reset spec0 rs a reset_rep Hn B E) as (s & -> & [R S1 S2 S3]).
  exists s. by repeat split; try apply R.
Qed.

(** A read with nothing to read takes the byte before the next one from the array, whose index
    is not reduced: it is outside of the array at the first read and after 128 bytes. *)
Lemma empty_read n s a : rep n s a -> spec_read a = None ->
  kbd_read_data s = (if (rd (kq s) =? 0) || (QUEUE_SIZE <? rd (kq s)) then Ub
    else match buf (kq s) !! Z.to_nat (rd (kq s) - 1) with Some c => Ret (char_u32 c, s) | None => Ub end).
Proof.
  intros [R _ _ _] E. pose proof R as [H1 H2 _ _ _ _ _ _ _]. unfold spec_read in E.
  destruct (cnt_nonempty _ _ H1) as [_ Ck]. destruct (cnt_nonempty _ _ H2) as [Cm _].
  destruct (a_kq a); [| done]. destruct (a_mq a); [| done].
  unfold kbd_read_data. rewrite Ck, Cm. cbn [nonempty]. pose proof (h_rd _ _ H1). pose proof (h_len _ _ H1) as L.
  unfold QUEUE_SIZE in *. destruct (Z.eqb_spec (rd (kq s)) 0) as [-> | N]; cbn [orb].
  - change (if 0 - 1 <? 0 then 128 else 0 - 1) with 128. by rewrite lookup_ge_None_2 by (rewrite L; lia).
  - rewrite (proj2 (Z.ltb_ge _ _)) by lia. destruct (Z.ltb_spec 128 (rd (kq s))); [| done].
    by rewrite lookup_ge_None_2 by (rewrite L; lia).
Qed.

(** The guest asks for the mouse's configuration, and types a key. *)
Definition session : list action :=
  [PortOut 0x64 [0xD4; 0; 0; 0]; PortOut 0x60 [0xe9; 0; 0; 0]; Key 0x1e; PortIn 0x64 [7; 7; 7; 7];
   PortIn 0x60 [7; 7; 7; 7]; PortIn 0x60 [7; 7; 7; 7]; PortIn 0x64 [7; 7; 7; 7]].

Lemma kbd_refines_queues_witness : exists s,
  acts kbd_reset session = Ret ([(true, [0xD4; 0; 0; 0]); (true, [0xe9; 0; 0; 0]); (true, []); (true, [0x1d; 7; 7; 7]);
    (true, [0x1e; 0; 0; 0]); (true, [0xfa; 0xff; 0xff; 0xff]); (true, [0x3d; 7; 7; 7])], s) /\ status s = 0x3d /\
    level KBD_IRQ (kbd_events s) 0 = 0 /\ level AUX_IRQ (kbd_events s) 0 = 1 /\ reboots (kbd_events s) = O.
Proof. exact (kbd_refines_queues session _ (mkspec [] [0; 2; 100] (0, 2, 100) 3 0 0) eq_refl (proj1 (Z.leb_le (4 * 7) INT_MAX) eq_refl) eq_refl). Defined.
End I8042.

Module Rtc.
Import Ioport.

Definition RTC_SECONDS : Z := 0x00.
Definition RTC_MINUTES : Z := 0x02.
Definition RTC_HOURS : Z := 0x04.
Definition RTC_DAY_OF_WEEK : Z := 0x06.
Definition RTC_DAY_OF_MONTH : Z := 0x07.
Definition RTC_MONTH : Z := 0x08.
Definition RTC_YEAR : Z := 0x09.
Definition RTC_CENTURY : Z := 0x32.
Definition RTC_REG_C : Z := 0x0C.
Definition RTC_REG_D : Z := 0x0D.
Definition RTC_REG_D_VRT : Z := 1 .<< 7.

(** [struct rtc_device]. *)
Record rtc_device := mkrtc { cmos_idx : Z; cmos_data : list Z }.

(** The static device, the bit of [struct kvm] it sets, and the host's clock. *)
Record clockwork := mkcw { rtc : rtc_device; nmi_disabled : bool; now : Z }.

Definition set_rtc (m : machine clockwork) (r : rtc_device) : machine clockwork :=
  mkmachine (stdout m) (mkcw r (nmi_disabled (world m)) (now (world m))).

(** [struct tm] of the C library, and its [gmtime]: the Gregorian calendar, with years that
    begin in March, by eras of 400 years. *)
Record tm := mktm { tm_sec : Z; tm_min : Z; tm_hour : Z; tm_mday : Z; tm_mon : Z; tm_year : Z; tm_wday : Z }.

Definition DAYS_PER_ERA : Z := 146097.
Definition year_of_era (doe : Z) : Z :=
  let c := Z.min 3 (doe / 36524) in
  let r := doe - 36524 * c in
  let q := r / 1461 in
  100 * c + 4 * q + Z.min 3 ((r - 1461 * q) / 365).
Definition day_of_year (doe : Z) : Z := let y := year_of_era doe in doe - (365 * y + y / 4 - y / 100).
(** Months from March, as 0. *)
Definition month_of_year (doy : Z) : Z := (5 * doy + 2) / 153.
Definition day_of_month (doy : Z) : Z := doy - (153 * month_of_year doy + 2) / 5 + 1.
Definition civil_month (mp : Z) : Z := if mp <? 10 then mp + 3 else mp - 9.

Definition gmtime (ti : Z) : tm :=
  let days := ti / 86400 in
  let s := ti mod 86400 in
  let z := days + 719468 in
  let doe := z mod DAYS_PER_ERA in
  let doy := day_of_year doe in
  let m := civil_month (month_of_year doy) in
  let y := year_of_era doe + 400 * (z / DAYS_PER_ERA) + Z.b2z (m <=? 2) in
  mktm (s mod 60) (s / 60 mod 60) (s / 3600) (day_of_month doy) (m - 1) (y - 1900) ((days + 4) mod 7).

Definition bin2bcd (val : Z) : Z := u8 (((val / 10) .<< 4) + val mod 10).

Definition cmos_ram_data_in : @io_fn clockwork := fun _ _ data m =>
  let t := gmtime (now (world m)) in
  let r := rtc (world m) in
  let idx := cmos_idx r in
  let v :=
    if idx =? RTC_SECONDS then bin2bcd (tm_sec t)
    else if idx =? RTC_MINUTES then bin2bcd (tm_min t)
    else if idx =? RTC_HOURS then bin2bcd (tm_hour t)
    else if idx =? RTC_DAY_OF_WEEK then bin2bcd (tm_wday t + 1)
    else if idx =? RTC_DAY_OF_MONTH then bin2bcd (tm_mday t)
    else if idx =? RTC_MONTH then bin2bcd (tm_mon t + 1)
    else if idx =? RTC_YEAR then bin2bcd ((tm_year t + 1900) mod 100)
    else if idx =? RTC_CENTURY then bin2bcd ((tm_year t + 1900) / 100)
    else default 0 (cmos_data r !! Z.to_nat idx) in
  (true, v :: drop 1 data, m).

Definition cmos_ram_data_out : @io_fn clockwork := fun _ _ data m =>
  let r := rtc (world m) in
  let idx := cmos_idx r in
  (true, data,
   if (idx =? RTC_REG_C) || (idx =? RTC_REG_D) then m
   else set_rtc m (mkrtc idx (<[Z.to_nat idx := default 0 (head data)]> (cmos_data r)))).

Definition cmos_ram_data_ioport_ops := mkops (Some cmos_ram_data_in) (Some cmos_ram_data_out).

Definition cmos_ram_index_out : @io_fn clockwork := fun _ _ data m =>
  let value := default 0 (head data) in
  (true, data, mkmachine (stdout m) (mkcw (mkrtc (value .&~ 2 ^ 7) (cmos_data (rtc (world m)))) (negb (value .& 2 ^ 7 =? 0)) (now (world m)))).

Definition cmos_ram_index_ioport_ops := mkops None (Some cmos_ram_index_out).

(** [mallocs]: whether the allocations of the two registrations succeed. *)
Definition rtc__init (mallocs : bool * bool) (r : rtc_device) (s : iobus) : option (Z * iobus * rtc_device) :=
  '(e, s) ← ioport__register (fst mallocs) 0x0070 cmos_ram_index_ioport_ops 1 0 s;
  if e <? 0 then Some (e, s, r) else
  '(e, s) ← ioport__register (snd mallocs) 0x0071 cmos_ram_data_ioport_ops 1 0 s;
  if e <? 0 then '(_, s) ← ioport__unregister 0x0071 s; Some (e, s, r)
  else Some (e, s, mkrtc (cmos_idx r) (<[Z.to_nat RTC_REG_D := RTC_REG_D_VRT]> (cmos_data r))).

Definition rtc__exit (s : @iobus clockwork) : option (Z * iobus) :=
  '(_, s) ← ioport__unregister 0x0070 s;
  '(_, s) ← ioport__unregister 0x0071 s;
  Some (0, s).

(** ** The calendar *)

(** The number of the day since 1970-01-01, and the second, as a driver computes them from
    what it reads. *)
Definition mkday (y m d : Z) : Z :=
  let '(y, m) := if m <=? 2 then (y - 1, m + 10) else (y, m - 2) in
  y / 4 - y / 100 + y / 400 + 367 * m / 12 + d + y * 365 - 719499.
Definition mktime (y m d h mi sec : Z) : Z := ((mkday y m d * 24 + h) * 60 + mi) * 60 + sec.

Fixpoint all_from (n : nat) (i : Z) (p : Z -> bool) : bool :=
  match n with O => true | S n => if p i then all_from n (i + 1) p else false end.

Lemma all_from_spec n p : forall i, all_from n i p = true -> forall j, i <= j < i + Z.of_nat n -> p j = true.
Proof.
  induction n as [| n IH]; intros i H j Hj; [lia |]. cbn [all_from] in H. destruct (p i) eqn:E; [| done].
  destruct (decide (j = i)) as [-> | N]; [done |]. apply (IH (i + 1)); [done | lia].
Qed.

(** A day of a year: its month from March, its day, and back. *)
Definition day_ok (doy : Z) : bool :=
  let mp := month_of_year doy in
  let d := day_of_month doy in
  (0 <=? mp) && (mp <=? 11) && (1 <=? d) && (d <=? 31) && ((306 <=? doy) || (mp <? 10)) && (367 * (mp + 1) / 12 + d =? doy + 31).

Lemma days_ok doy : 0 <= doy < 366 -> day_ok doy = true.
Proof. apply (all_from_spec (Z.to_nat 366) day_ok 0). vm_compute. reflexivity. Qed.

(** A day of an era: its year, and the day in it. *)
Lemma years_ok doe : 0 <= doe < DAYS_PER_ERA -> 0 <= year_of_era doe < 400 /\ 0 <= day_of_year doe < 366 /\
  day_of_year doe = doe - (365 * year_of_era doe + year_of_era doe / 4 - year_of_era doe / 100).
Proof.
  intros H. unfold DAYS_PER_ERA in H. 
  enough (0 <= year_of_era doe < 400 /\ 0 <= day_of_year doe < 366) as [? ?] by (split; [done | split; [done | reflexivity]]).
  unfold day_of_year, year_of_era.
  pose proof (Z.div_mod doe 36524 ltac:(lia)). pose proof (Z.mod_pos_bound doe 36524 ltac:(lia)).
  set (c := Z.min 3 (doe / 36524)). assert (0 <= c <= 3) by lia. set (r := doe - 36524 * c). assert (0 <= r <= 36524) by lia.
  pose proof (Z.div_mod r 1461 ltac:(lia)). pose proof (Z.mod_pos_bound r 1461 ltac:(lia)).
  set (q := r / 1461) in *. assert (0 <= q <= 24) by lia.
  pose proof (Z.div_mod (r - 1461 * q) 365 ltac:(lia)). pose proof (Z.mod_pos_bound (r - 1461 * q) 365 ltac:(lia)).
  set (a := Z.min 3 ((r - 1461 * q) / 365)). assert (0 <= a <= 3) by lia.
  assert ((100 * c + 4 * q + a) / 4 = 25 * c + q) as -> by (symmetry; apply (Z.div_unique_pos _ 4 _ a); lia).
  assert ((100 * c + 4 * q + a) / 100 = c) as -> by (symmetry; apply (Z.div_unique_pos _ 100 _ (4 * q + a)); lia).
  lia.
Qed.

(** The broken-down time is in range, and a calendar that inverts it. *)
Lemma gmtime_spec ti : 0 <= ti ->
  let t := gmtime ti in
  0 <= tm_sec t < 60 /\ 0 <= tm_min t < 60 /\ 0 <= tm_hour t < 24 /\ 1 <= tm_mday t <= 31 /\ 0 <= tm_mon t <= 11 /\
  1600 <= tm_year t + 1900 /\ (ti < 253402300800 -> tm_year t + 1900 < 10000) /\
  mktime (tm_year t + 1900) (tm_mon t + 1) (tm_mday t) (tm_hour t) (tm_min t) (tm_sec t) = ti.
Proof.
  intros Hti t. subst t. unfold gmtime, mktime. cbn [tm_sec tm_min tm_hour tm_mday tm_mon tm_year].
  set (z := ti / 86400 + 719468). pose proof (Z.div_mod ti 86400 ltac:(lia)). pose proof (Z.mod_pos_bound ti 86400 ltac:(lia)).
  set (s := ti mod 86400) in *. pose proof (Z.div_mod z DAYS_PER_ERA ltac:(done)).
  pose proof (Z.mod_pos_bound z DAYS_PER_ERA ltac:(done)) as Hd. destruct (years_ok _ Hd) as (Y1 & Y2 & Y3). pose proof (days_ok _ Y2) as K. unfold DAYS_PER_ERA in *.
  set (doe := z mod 146097) in *. set (e := z / 146097) in *. unfold day_ok in K.
  set (y := year_of_era doe) in *. set (mp := month_of_year (day_of_year doe)) in *. set (d := day_of_month (day_of_year doe)) in *.
  rewrite !andb_true_iff in K. destruct K as [[[[[K3 K4] K5] K6] K8] K7]. rewrite orb_true_iff in K8.
  pose proof (Z.div_mod s 60 ltac:(lia)). pose proof (Z.mod_pos_bound s 60 ltac:(lia)).
  pose proof (Z.div_mod (s / 60) 60 ltac:(lia)). pose proof (Z.mod_pos_bound (s / 60) 60 ltac:(lia)).
  assert (s / 3600 = s / 60 / 60) as -> by (by rewrite Z.div_div).
  assert (mkday (y + 400 * e + Z.b2z (civil_month mp <=? 2) - 1900 + 1900) (civil_month mp - 1 + 1) d = ti / 86400) as ->.
  { assert (forall c k, c <> 0 -> 400 = c * k -> (y + 400 * e) / c = y / c + k * e) as D.
    { intros c k Hc E. rewrite E, <- Z.mul_assoc, (Z.mul_comm c), Z.div_add; lia. }
    assert (mkday (y + 400 * e + Z.b2z (civil_month mp <=? 2) - 1900 + 1900) (civil_month mp - 1 + 1) d =
      (y + 400 * e) / 4 - (y + 400 * e) / 100 + (y + 400 * e) / 400 + 367 * (mp + 1) / 12 + d + (y + 400 * e) * 365 - 719499) as ->.
    { unfold mkday, civil_month. destruct (Z.ltb_spec mp 10).
      - rewrite !(proj2 (Z.leb_gt _ _)) by lia. cbn [Z.b2z].
        replace (mp + 3 - 1 + 1 - 2) with (mp + 1) by lia. by replace (y + 400 * e + 0 - 1900 + 1900) with (y + 400 * e) by lia.
      - rewrite !(proj2 (Z.leb_le _ _)) by lia. cbn [Z.b2z].
        replace (mp - 9 - 1 + 1 + 10) with (mp + 1) by lia. by replace (y + 400 * e + 1 - 1900 + 1900 - 1) with (y + 400 * e) by lia. }
    rewrite (D 4 100), (D 100 4), (D 400 1) by lia. rewrite (Z.div_small y 400) by lia. lia. }
  assert (4 <= e) by lia.
  assert (ti < 253402300800 -> y + 400 * e + Z.b2z (civil_month mp <=? 2) < 10000).
  { intros Hb. unfold civil_month. destruct (decide (e < 24)); [destruct (_ <=? 2); cbn; lia |].
    destruct (decide (y < 399)); [destruct (_ <=? 2); cbn; lia |]. assert (y = 399) as Ey by lia.
    rewrite Ey in *. change (365 * 399 + 399 / 4 - 399 / 100) with 145731 in Y3.
    rewrite (proj2 (Z.ltb_lt mp 10)) by lia. rewrite (proj2 (Z.leb_gt _ 2)) by lia. cbn. lia. }
  assert (1 <= civil_month mp <= 12) by (unfold civil_month; destruct (Z.ltb_spec mp 10); lia).
  clearbody y mp d e doe s. split_and!; try lia. destruct (_ <=? 2); cbn [Z.b2z]; lia.
Qed.

(** ** The clock on the port bus *)

(** What a driver does: the index to port 0x70, then a byte from port 0x71. *)
Definition cmos_read (s : iobus) (m : machine clockwork) (i : Z) : Z * machine clockwork :=
  let '(_, _, m, _) := kvm__emulate_io false s 0x70 [i] KVM_EXIT_IO_OUT 1 1 m in
  let '(_, d, m, _) := kvm__emulate_io false s 0x71 [0xff] KVM_EXIT_IO_IN 1 1 m in
  (default 0 (head d), m).
Definition cmos_write (s : iobus) (m : machine clockwork) (i v : Z) : machine clockwork :=
  let '(_, _, m, _) := kvm__emulate_io false s 0x70 [i] KVM_EXIT_IO_OUT 1 1 m in
  let '(_, _, m, _) := kvm__emulate_io false s 0x71 [v] KVM_EXIT_IO_OUT 1 1 m in m.

Definition bcd2bin (v : Z) : Z := (v .>> 4) * 10 + (v .& 15).

Definition guest_time (s : iobus) (m : machine clockwork) : Z :=
  let '(se, m) := cmos_read s m RTC_SECONDS in
  let '(mi, m) := cmos_read s m RTC_MINUTES in
  let '(h, m) := cmos_read s m RTC_HOURS in
  let '(d, m) := cmos_read s m RTC_DAY_OF_MONTH in
  let '(mo, m) := cmos_read s m RTC_MONTH in
  let '(y, m) := cmos_read s m RTC_YEAR in
  let '(c, m) := cmos_read s m RTC_CENTURY in
  mktime (bcd2bin c * 100 + bcd2bin y) (bcd2bin mo) (bcd2bin d) (bcd2bin h) (bcd2bin mi) (bcd2bin se).

(** The bus where both ports lead to the clock. *)
Definition serves (s : iobus) : Prop :=
  (ops ∘ value <$> ioport_search s 0x70) = Some cmos_ram_index_ioport_ops /\
  (ops ∘ value <$> ioport_search s 0x71) = Some cmos_ram_data_ioport_ops.

(** The machine's start: the architecture's ports, then the clock. *)
Definition boot (mallocs : bool * bool) (r : rtc_device) : option (Z * iobus * rtc_device) :=
  s ← ioport__setup_arch iobus_init; rtc__init mallocs r s.

(** Whatever the two operations do. *)
Lemma two_ports (o1 o2 : @ioport_operations clockwork) : exists s0 s1 s2,
  ioport__setup_arch iobus_init = Some s0 /\ ioport__register true 0x70 o1 1 0 s0 = Some (0x70, s1) /\
  ioport__register true 0x71 o2 1 0 s1 = Some (0x71, s2) /\
  (ops ∘ value <$> ioport_search s2 0x70) = Some o1 /\ (ops ∘ value <$> ioport_search s2 0x71) = Some o2.
Proof. eexists _, _, _. do 4 (split; [vm_compute; reflexivity |]). vm_compute. reflexivity. Qed.

Lemma boot_serves r : exists s, boot (true, true) r = Some (0x71, s, mkrtc (cmos_idx r) (<[13%nat := 0x80]> (cmos_data r))) /\ serves s.
Proof.
  destruct (two_ports cmos_ram_index_ioport_ops cmos_ram_data_ioport_ops) as (s0 & s1 & s2 & E0 & E1 & E2 & S1 & S2).
  exists s2. unfold boot, rtc__init. rewrite E0. cbn [mbind option_bind fst snd]. rewrite E1. cbn [mbind option_bind].
  change (0x70 <? 0) with false. cbn [Z.ltb]. rewrite E2. split; [reflexivity | exact (conj S1 S2)].
Qed.

Definition select (m : machine clockwork) (i : Z) : machine clockwork :=
  mkmachine (stdout m) (mkcw (mkrtc (i .&~ 2 ^ 7) (cmos_data (rtc (world m)))) (negb (i .& 2 ^ 7 =? 0)) (now (world m))).

(** One byte to or from a port. *)
Lemma emulate_one (s : @iobus clockwork) e p dir b m f r d m' : ioport_search s p = Some e ->
  (if dir =? KVM_EXIT_IO_IN then io_in (ops (value e)) else None) = f \/
    (dir = KVM_EXIT_IO_OUT /\ io_out (ops (value e)) = f) ->
  (exists g, f = Some g /\ g (priv (value e)) p [b] m = (r, [d], m')) ->
  kvm__emulate_io false s p [b] dir 1 1 m = (true, [d], m', None).
Proof.
  intros E F (g & -> & G). unfold kvm__emulate_io. rewrite E. change (Z.to_nat 1) with 1%nat. cbn [io_loop]. unfold io_round.
  change (slice 0 1 [b]) with [b].
  destruct F as [F | [-> F]]; [rewrite F |].
  - rewrite G. by destruct r.
  - unfold KVM_EXIT_IO_IN, KVM_EXIT_IO_OUT. cbn [Z.eqb Pos.eqb]. rewrite F, G. by destruct r.
Qed.

Lemma out_serves (s : @iobus clockwork) m p b o d m' : (ops ∘ value <$> ioport_search s p) = Some o ->
  (exists g, io_out o = Some g /\ forall pr, g pr p [b] m = (true, [d], m')) ->
  kvm__emulate_io false s p [b] KVM_EXIT_IO_OUT 1 1 m = (true, [d], m', None).
Proof.
  intros H (g & E & G). destruct (ioport_search s p) as [e |] eqn:F; [| done]. injection H as H.
  eapply (emulate_one s e p _ b m (Some g) true); [done | right; by rewrite H | by exists g].
Qed.

Lemma in_serves (s : @iobus clockwork) m p b o d m' : (ops ∘ value <$> ioport_search s p) = Some o ->
  (exists g, io_in o = Some g /\ forall pr, g pr p [b] m = (true, [d], m')) ->
  kvm__emulate_io false s p [b] KVM_EXIT_IO_IN 1 1 m = (true, [d], m', None).
Proof.
  intros H (g & E & G). destruct (ioport_search s p) as [e |] eqn:F; [| done]. injection H as H.
  eapply (emulate_one s e p _ b m (Some g) true); [done | left; by rewrite H | by exists g].
Qed.

(** The value of the register that is selected. *)
Definition cmos_value (m : machine clockwork) : Z := default 0 (head (snd (fst (cmos_ram_data_in 0 0x71 [0xff] m)))).

Lemma read_serves s m i : serves s -> cmos_read s m i = (cmos_value (select m i), select m i).
Proof.
  intros [H0 H1]. unfold cmos_read.
  rewrite (out_serves s m 0x70 i _ i (select m i) H0) by (eexists; split; [reflexivity | done]).
  rewrite (in_serves s (select m i) 0x71 0xff _ (cmos_value (select m i)) (select m i) H1)
    by (eexists; split; [reflexivity | done]).
  done.
Qed.

Lemma write_serves s m i v : serves s ->
  cmos_write s m i v = snd (cmos_ram_data_out 0 0x71 [v] (select m i)).
Proof.
  intros [H0 H1]. unfold cmos_write.
  rewrite (out_serves s m 0x70 i _ i (select m i) H0) by (eexists; split; [reflexivity | done]).
  erewrite (out_serves s (select m i) 0x71 v _ v _ H1) by (eexists; split; [reflexivity | done]).
  done.
Qed.

Lemma bcd_roundtrip v : 0 <= v < 100 -> bcd2bin (bin2bcd v) = v.
Proof.
  intros H. apply Z.eqb_eq. revert v H. apply (all_from_spec 100 (fun v => bcd2bin (bin2bcd v) =? v) 0). vm_compute. reflexivity.
Qed.

(** What the registers of the time hold. *)
Lemma clock_values m : let t := gmtime (now (world m)) in
  cmos_value (select m RTC_SECONDS) = bin2bcd (tm_sec t) /\ cmos_value (select m RTC_MINUTES) = bin2bcd (tm_min t) /\
  cmos_value (select m RTC_HOURS) = bin2bcd (tm_hour t) /\ cmos_value (select m RTC_DAY_OF_MONTH) = bin2bcd (tm_mday t) /\
  cmos_value (select m RTC_MONTH) = bin2bcd (tm_mon t + 1) /\
  cmos_value (select m RTC_YEAR) = bin2bcd ((tm_year t + 1900) mod 100) /\
  cmos_value (select m RTC_CENTURY) = bin2bcd ((tm_year t + 1900) / 100).
Proof. split_and!; reflexivity. Qed.

(** The registers, the clock apart, are memory of seven-bit addresses. *)
Definition is_clock (i : Z) : bool := existsb (Z.eqb i) [0; 2; 4; 6; 7; 8; 9; 0x32; 0x0C; 0x0D].

Lemma index_range i : 0 <= i < 256 -> 0 <= i .&~ 2 ^ 7 < 128.
Proof.
  intros H. pose proof (all_from_spec 256 (fun i => (0 <=? i .&~ 2 ^ 7) && (i .&~ 2 ^ 7 <? 128)) 0 ltac:(vm_compute; reflexivity) i ltac:(lia)).
  cbn beta in *. lia.
Qed.

(** A written byte is read back, through either half of the index, and the other bytes stay;
    the index is always one of the array. *)
Lemma ram_reads_back s m i j v : serves s -> 0 <= i < 256 -> 0 <= j < 256 -> is_clock (i .&~ 2 ^ 7) = false ->
  length (cmos_data (rtc (world m))) = 128%nat -> 0 <= cmos_idx (rtc (world (cmos_write s m i v))) < 128 /\
  fst (cmos_read s (cmos_write s m i v) j) = if i .&~ 2 ^ 7 =? j .&~ 2 ^ 7 then v else fst (cmos_read s m j).
Proof.
  intros Hs Hi Hj C L. rewrite write_serves, !read_serves by done. pose proof (index_range i Hi). pose proof (index_range j Hj).
  unfold is_clock in C. cbn [existsb] in C. rewrite !orb_false_iff in C. destruct C as (C0 & C2 & C4 & C6 & C7 & C8 & C9 & C10 & C11 & C12 & _).
  unfold cmos_ram_data_out, cmos_value, cmos_ram_data_in, select. cbn [rtc world cmos_idx cmos_data].
  unfold RTC_REG_C, RTC_REG_D. rewrite C11, C12. cbn [fst snd orb set_rtc rtc world cmos_idx cmos_data now head default stdout]. split; [lia |].
  destruct (Z.eqb_spec (i .&~ 2 ^ 7) (j .&~ 2 ^ 7)) as [<- | N].
  - unfold RTC_SECONDS, RTC_MINUTES, RTC_HOURS, RTC_DAY_OF_WEEK, RTC_DAY_OF_MONTH, RTC_MONTH, RTC_YEAR, RTC_CENTURY.
    rewrite C0, C2, C4, C6, C7, C8, C9, C10. rewrite list_lookup_insert_eq by lia. done.
  - rewrite list_lookup_insert_ne by lia. done.
Qed.

(** The failing path of the start: the allocation that fails leaves the bus locked, and the
    clean-up, which names the port that is not there, waits for ever. *)
Example init_error_hangs r : boot (true, false) r = None.
Proof. vm_compute. reflexivity. Qed.


End Rtc.
