(* ===== verification/InitList.v ===== *)
(** * The hook lists (util/init.c)

    Devices register callbacks in [constructor] functions; starting, stopping and
    forking the VM run the lists by priority. A hook may also wait for a lock for
    ever: [NoFuel]. The second part runs the hooks that hold locks across a fork. *)
From S2P Require Import Prelude.
From stdpp Require Import sorting.
From Stdlib Require Import String.
Open Scope Z_scope.

Section lists.
Context {S : Type}.

(** The callbacks [init] and [copy]: a result and the new state. *)
Definition hook : Type := S -> out (Z * S).

(** [struct init_item] and [struct copy_item]. *)
Record init_item := mkitem { fn_name : string; fn : hook }.

Definition PRIORITY_LISTS : nat := 10.

(** The ten lists of one kind. *)
Abbreviation hlists := (list (list init_item)).
Definition no_hooks : hlists := replicate PRIORITY_LISTS [].

(** [init_list_add] and its four siblings: [hlist_add_head]; outside of the array
    the write is undefined. *)
Definition list_add (t : init_item) (priority : nat) (ls : hlists) : out (Z * hlists) :=
  match ls !! priority with
  | Some l => Ret (0, <[priority := t :: l]> ls)
  | None => Ub
  end.

(** The inner loop: the last result, whether it was negative, and the state. *)
Fixpoint run_list (l : list init_item) (r : Z) (s : S) : out (bool * Z * S) :=
  match l with
  | [] => Ret (false, r, s)
  | t :: l =>
      let! (r, s) := fn t s in
      if r <? 0 then Ret (true, r, s) else run_list l r s
  end.

Fixpoint run_lists (ls : hlists) (r : Z) (s : S) : out (Z * S) :=
  match ls with
  | [] => Ret (r, s)
  | l :: ls =>
      let! (fail, r, s) := run_list l r s in
      if fail : bool then Ret (r, s) else run_lists ls r s
  end.

Definition init_list__init (ls : hlists) (s : S) : out (Z * S) := run_lists ls 0 s.
Definition init_list__exit (ls : hlists) (s : S) : out (Z * S) := run_lists (rev ls) 0 s.
Definition init_list__pre_copy (ls : hlists) (s : S) : out (Z * S) := run_lists ls 0 s.
Definition init_list__post_copy (ls : hlists) (s : S) : out (Z * S) := run_lists ls 0 s.
Definition init_list__post_copy_parent (ls : hlists) (s : S) : out (Z * S) := run_lists ls 0 s.

(** What the constructors do before [main]: registrations in link order. *)
Fixpoint register (regs : list (nat * init_item)) (ls : hlists) : out hlists :=
  match regs with
  | [] => Ret ls
  | (p, t) :: regs => let! (_, ls) := list_add t p ls in register regs ls
  end.

(** ** The order of the hooks *)

Definition at_priority (regs : list (nat * init_item)) (p : nat) : list (nat * init_item) :=
  rev (filter (fun x => fst x = p) regs).

(** Ascending by priority, the hook registered last first. *)
Definition up (regs : list (nat * init_item)) : list (nat * init_item) :=
  flat_map (at_priority regs) (seq 0 PRIORITY_LISTS).
Definition down (regs : list (nat * init_item)) : list (nat * init_item) :=
  flat_map (at_priority regs) (rev (seq 0 PRIORITY_LISTS)).

(** Running hooks one after the other until one fails. *)
Fixpoint run_until (l : list init_item) (r : Z) (s : S) : out (Z * S) :=
  match l with
  | [] => Ret (r, s)
  | t :: l => let! (r, s) := fn t s in if r <? 0 then Ret (r, s) else run_until l r s
  end.

Definition registered (regs : list (nat * init_item)) : hlists :=
  (fun p => map snd (at_priority regs p)) <$> seq 0 PRIORITY_LISTS.

Lemma run_lists_concat ls : forall r s, run_lists ls r s = run_until (List.concat ls) r s.
Proof.
  induction ls as [|l ls IH]; intros r s; [reflexivity|]. cbn.
  revert r s. induction l as [|t l IHl]; intros r s; cbn; [apply IH|].
  destruct (fn t s) as [[r' s']| |]; [|reflexivity|reflexivity].
  destruct (r' <? 0); [reflexivity|]. apply IHl.
Qed.

Lemma registered_lookup regs p : (p < PRIORITY_LISTS)%nat ->
  registered regs !! p = Some (map snd (at_priority regs p)).
Proof. intros H. unfold registered. rewrite list_lookup_fmap, lookup_seq_lt by assumption. reflexivity. Qed.

Lemma at_priority_snoc regs p t q :
  at_priority (regs ++ [(p, t)]) q = if decide (p = q) then (p, t) :: at_priority regs q else at_priority regs q.
Proof.
  unfold at_priority. rewrite filter_app, rev_app_distr, filter_cons, filter_nil. cbn [fst].
  case_decide; reflexivity.
Qed.

Lemma registered_snoc regs p t : (p < PRIORITY_LISTS)%nat ->
  registered (regs ++ [(p, t)]) = <[p := t :: map snd (at_priority regs p)]> (registered regs).
Proof.
  intros H. apply list_eq. intros q. destruct (decide (q < PRIORITY_LISTS)%nat) as [L|L].
  - rewrite registered_lookup by assumption. rewrite at_priority_snoc. case_decide as E.
    + subst q. rewrite list_lookup_insert_eq; [reflexivity|]. unfold registered. now rewrite length_fmap, length_seq.
    + rewrite list_lookup_insert_ne by assumption. now rewrite registered_lookup.
  - rewrite !lookup_ge_None_2; [reflexivity| |]; rewrite ?length_insert; unfold registered; rewrite length_fmap, length_seq; lia.
Qed.

Lemma register_registered regs : Forall (fun x => fst x < PRIORITY_LISTS)%nat regs ->
  forall before, register regs (registered before) = Ret (registered (before ++ regs)).
Proof.
  induction 1 as [|[p t] regs H _ IH]; intros before; cbn [register]; [now rewrite app_nil_r|].
  cbn in H. unfold list_add. rewrite registered_lookup, <- registered_snoc by assumption.
  rewrite IH, <- app_assoc. reflexivity.
Qed.

Lemma flat_map_priority regs ps : NoDup ps -> Forall (fun x => fst x ∈ ps) regs ->
  flat_map (at_priority regs) ps ≡ₚ regs.
Proof.
  induction regs as [|[p t] regs IH] using rev_ind; intros N F.
  - clear. induction ps; [reflexivity|exact IHps].
  - apply Forall_app in F as [F Fp]. apply Forall_inv in Fp. cbn in Fp. rewrite <- (IH N F) at 2. clear IH F.
    apply list_elem_of_split in Fp as (p1 & p2 & ->). rewrite !flat_map_app. cbn.
    rewrite at_priority_snoc, decide_True by reflexivity.
    apply NoDup_app in N as (_ & N1 & N2). apply NoDup_cons in N2 as [N2 _].
    assert (K : forall l, p ∉ l -> flat_map (at_priority (regs ++ [(p, t)])) l = flat_map (at_priority regs) l).
    { clear. induction l as [|q l IH]; [reflexivity|]. intros H. apply not_elem_of_cons in H as [Hq Hl].
      cbn. now rewrite IH, at_priority_snoc, decide_False. }
    rewrite !K; [|exact N2|intros C; exact (N1 p C (list_elem_of_here p p2))].
    rewrite Permutation_app_comm. cbn. solve_Permutation.
Qed.

Lemma in_rev_elem {A : Type} (l : list A) x : x ∈ l <-> x ∈ rev l.
Proof. rewrite !list_elem_of_In. apply in_rev. Qed.

Lemma at_priority_fst regs p x : x ∈ at_priority regs p -> fst x = p.
Proof. unfold at_priority. rewrite <- in_rev_elem, list_elem_of_filter. tauto. Qed.

(** Each priority in one run, in the order of [ps]. *)
Lemma flat_map_sorted (R : nat -> nat -> Prop) regs ps : (forall p, R p p) -> StronglySorted R ps ->
  StronglySorted R (map fst (flat_map (at_priority regs) ps)).
Proof.
  intros Rr H. induction H as [|p ps H IH F]; cbn [flat_map map]; [constructor|]. rewrite map_app.
  assert (B : forall l : list (nat * init_item), (forall x, x ∈ l -> fst x = p) ->
    StronglySorted R (map fst l ++ map fst (flat_map (at_priority regs) ps))).
  { induction l as [|x l IHl]; intros Hl; cbn; [exact IH|]. constructor.
    - apply IHl. intros y Hy. apply Hl. now right.
    - rewrite (Hl x) by left. apply Forall_app. split; apply Forall_map, Forall_forall; intros y Hy.
      + rewrite Hl by now right. apply Rr.
      + apply list_elem_of_In, in_flat_map in Hy as (q & Hq & Hy). apply list_elem_of_In in Hq, Hy.
        rewrite (at_priority_fst _ _ _ Hy). rewrite Forall_forall in F. now apply F. }
  apply B. apply at_priority_fst.
Qed.

Lemma run_registered regs s r : run_lists (registered regs) r s = run_until (map snd (up regs)) r s.
Proof.
  rewrite run_lists_concat. f_equal. unfold registered, up. induction (seq 0 PRIORITY_LISTS) as [|p ps IH]; [reflexivity|].
  cbn. now rewrite map_app, <- IH.
Qed.

Lemma run_registered_rev regs s r : run_lists (rev (registered regs)) r s = run_until (map snd (down regs)) r s.
Proof.
  rewrite run_lists_concat. f_equal. unfold registered, down. rewrite <- (map_rev _ (seq 0 PRIORITY_LISTS)).
  induction (rev (seq 0 PRIORITY_LISTS)) as [|p ps IH]; [reflexivity|].
  cbn. now rewrite map_app, <- IH.
Qed.

Lemma priorities_in regs : Forall (fun x : nat * init_item => fst x < PRIORITY_LISTS)%nat regs ->
  Forall (fun x => fst x ∈ seq 0 PRIORITY_LISTS) regs.
Proof. intros F. eapply Forall_impl; [exact F|]. intros x H. apply elem_of_seq. cbn in H. lia. Qed.
End lists.

Lemma run_until_ok {S} (l : list (@init_item S)) : forall r s r' s',
  run_until l r s = Ret (r', s') -> 0 <= r -> 0 <= r' ->
  forall t, t ∈ l -> exists s0 r1 s1, fn t s0 = Ret (r1, s1) /\ 0 <= r1.
Proof.
  induction l as [|u l IH]; intros r s r' s' E Hr Hr' t Ht; [now apply not_elem_of_nil in Ht|]. cbn in E.
  destruct (fn u s) as [[r1 s1]| |] eqn:F; try discriminate.
  destruct (Z.ltb_spec r1 0); [injection E as <- <-; lia|].
  apply elem_of_cons in Ht as [->|Ht]; [now exists s, r1, s1|]. exact (IH _ _ _ _ E ltac:(assumption) Hr' t Ht).
Qed.

(** Whatever the order in which the constructors ran, the hooks run by
    priority: starting and forking the VM run each registered hook once, in
    ascending priority and within one priority the last registered first, stopping it
    in descending priority; the first hook that fails ends the run with its result,
    and without a failure every hook has run. *)
Theorem hooks_ordered {S} (regs : list (nat * @init_item S)) (s : S) :
  Forall (fun x => fst x < PRIORITY_LISTS)%nat regs ->
  exists ls, register regs no_hooks = Ret ls /\
    init_list__init ls s = run_until (map snd (up regs)) 0 s /\
    init_list__pre_copy ls s = run_until (map snd (up regs)) 0 s /\
    init_list__post_copy ls s = run_until (map snd (up regs)) 0 s /\
    init_list__post_copy_parent ls s = run_until (map snd (up regs)) 0 s /\
    init_list__exit ls s = run_until (map snd (down regs)) 0 s /\
    up regs ≡ₚ regs /\ down regs ≡ₚ regs /\
    StronglySorted le (map fst (up regs)) /\ StronglySorted ge (map fst (down regs)) /\
    (forall r s', init_list__init ls s = Ret (r, s') -> 0 <= r ->
       forall x, x ∈ regs -> exists s0 r1 s1, fn (snd x) s0 = Ret (r1, s1) /\ 0 <= r1).
Proof.
  intros H. exists (registered regs). pose proof (priorities_in regs H) as P.
  assert (U : up regs ≡ₚ regs) by (apply flat_map_priority; [apply NoDup_seq|exact P]).
  split; [exact (register_registered regs H [])|]. do 4 (split; [apply run_registered|]). split; [apply run_registered_rev|].
  split; [exact U|]. split.
  { apply flat_map_priority; [apply (bool_decide_eq_true_1 _); vm_compute; reflexivity|].
    eapply Forall_impl; [exact P|]. intros x Hx. now rewrite <- in_rev_elem. }
  split; [apply flat_map_sorted; [reflexivity|]; repeat constructor; lia|].
  split; [apply flat_map_sorted; [unfold ge; reflexivity|]; repeat constructor; lia|].
  intros r s' E Hr x Hx. unfold init_list__init in E. rewrite run_registered in E.
  apply (run_until_ok _ _ _ _ _ E); [lia|exact Hr|]. apply list_elem_of_fmap_2. now rewrite U.
Qed.

(** ** Locks across a fork

    The mutexes that hooks hold while the process is copied: those of the four
    serial ports, [job_mutex] and [thread_mutex] of the thread pool, and the one
    of [kvm_fork_self]. *)
Definition SERIAL_MUTEXES : list nat := [0; 1; 2; 3]%nat.
Definition JOB_MUTEX : nat := 4.
Definition THREAD_MUTEX : nat := 5.
Definition IPC_MUTEX : nat := 6.
Definition fork_locks : list nat := SERIAL_MUTEXES ++ [JOB_MUTEX; THREAD_MUTEX; IPC_MUTEX].

Section locks.
Context {X : Type}.

(** [other]: whatever the other hooks work on. *)
Record fork_state := mkfs { held : gset nat; fork_done : bool; threadcount : Z; other : X }.

Definition set_held (s : fork_state) (h : gset nat) : fork_state := mkfs h (fork_done s) (threadcount s) (other s).

(** [NoFuel]: somebody else holds the mutex and the caller waits. *)
Definition mutex_lock (m : nat) (s : fork_state) : out fork_state :=
  if decide (m ∈ held s) then NoFuel else Ret (set_held s ({[m]} ∪ held s)).

Definition mutex_unlock (m : nat) (s : fork_state) : out fork_state :=
  if decide (m ∈ held s) then Ret (set_held s (held s ∖ {[m]})) else Ub.

Fixpoint lock_all (l : list nat) (s : fork_state) : out fork_state :=
  match l with
  | [] => Ret s
  | m :: l => let! s := mutex_lock m s in lock_all l s
  end.

Fixpoint unlock_all (l : list nat) (s : fork_state) : out fork_state :=
  match l with
  | [] => Ret s
  | m :: l => let! s := mutex_unlock m s in unlock_all l s
  end.

Definition serial8250__pre_copy_hook (s : fork_state) : out (Z * fork_state) :=
  let! s := lock_all SERIAL_MUTEXES s in Ret (0, s).
Definition serial8250__post_copy_hook (s : fork_state) : out (Z * fork_state) :=
  let! s := unlock_all SERIAL_MUTEXES s in Ret (0, s).

Definition thread_pool__pre_copy (s : fork_state) : out (Z * fork_state) :=
  let! s := mutex_lock JOB_MUTEX s in
  let! s := mutex_lock THREAD_MUTEX s in
  Ret (0, s).

(** The thread can be created. *)
Definition thread_pool__addthread (s : fork_state) : out fork_state :=
  let! s := mutex_lock THREAD_MUTEX s in
  mutex_unlock THREAD_MUTEX (mkfs (held s) (fork_done s) (threadcount s + 1) (other s)).

Definition thread_pool__post_copy (s : fork_state) : out (Z * fork_state) :=
  let! s := mutex_unlock JOB_MUTEX s in
  let! s := mutex_unlock THREAD_MUTEX s in
  let! s := thread_pool__addthread (mkfs (held s) (fork_done s) 0 (other s)) in
  Ret (0, s).

Definition thread_pool__post_copy_parent (s : fork_state) : out (Z * fork_state) :=
  let! s := mutex_unlock THREAD_MUTEX s in
  let! s := mutex_unlock JOB_MUTEX s in
  Ret (0, s).

Definition fork_pre_fork (s : fork_state) : out (Z * fork_state) :=
  let! s := mutex_lock IPC_MUTEX s in Ret (0, s).

(** [fork_complete] and [fork_complete_parent], which also signals [cond]. *)
Definition fork_complete (s : fork_state) : out (Z * fork_state) :=
  let! s := mutex_unlock IPC_MUTEX (mkfs (held s) true (threadcount s) (other s)) in Ret (0, s).

Local Open Scope string_scope.
Definition pre_copy_hooks : list (nat * init_item) :=
  [(5%nat, mkitem "serial8250__pre_copy" serial8250__pre_copy_hook);
   (9%nat, mkitem "thread_pool__pre_copy" thread_pool__pre_copy);
   (9%nat, mkitem "fork_pre_fork" fork_pre_fork)].

Definition post_copy_hooks : list (nat * init_item) :=
  [(5%nat, mkitem "serial8250__post_copy" serial8250__post_copy_hook);
   (9%nat, mkitem "thread_pool__post_copy" thread_pool__post_copy);
   (9%nat, mkitem "fork_complete" fork_complete)].

Definition post_copy_parent_hooks : list (nat * init_item) :=
  [(5%nat, mkitem "serial8250__post_copy" serial8250__post_copy_hook);
   (9%nat, mkitem "thread_pool__post_copy_parent" thread_pool__post_copy_parent);
   (9%nat, mkitem "fork_complete_parent" fork_complete)].

(** The mutexes a hook takes or gives back. *)
Definition locks_of (t : @init_item fork_state) : list nat :=
  let n := fn_name t in
  if (String.eqb n "serial8250__pre_copy" || String.eqb n "serial8250__post_copy")%bool then SERIAL_MUTEXES
  else if (String.eqb n "thread_pool__pre_copy" || String.eqb n "thread_pool__post_copy" ||
           String.eqb n "thread_pool__post_copy_parent")%bool then [JOB_MUTEX; THREAD_MUTEX]
  else if (String.eqb n "fork_pre_fork" || String.eqb n "fork_complete" || String.eqb n "fork_complete_parent")%bool
  then [IPC_MUTEX] else [].
Local Close Scope string_scope.

(** Any other hook: it succeeds and leaves these mutexes alone. *)
Definition other_hook (x : nat * @init_item fork_state) : Prop :=
  (fst x < PRIORITY_LISTS)%nat /\ locks_of (snd x) = [] /\
  forall s, exists r s', fn (snd x) s = Ret (r, s') /\ 0 <= r /\ held s' = held s.

Definition takes (t : @init_item fork_state) : Prop := forall s,
  (Forall (fun m => ~ m ∈ held s) (locks_of t) ->
   exists r s', fn t s = Ret (r, s') /\ 0 <= r /\ held s' = list_to_set (locks_of t) ∪ held s) /\
  ((exists m, m ∈ locks_of t /\ m ∈ held s) -> fn t s = NoFuel).

Definition gives_back (t : @init_item fork_state) : Prop := forall s,
  Forall (fun m => m ∈ held s) (locks_of t) ->
  exists r s', fn t s = Ret (r, s') /\ 0 <= r /\ held s' = held s ∖ list_to_set (locks_of t).

(** ** Taking and giving back sets of mutexes *)

Lemma lock_all_ok l : forall s, NoDup l -> Forall (fun m => ~ m ∈ held s) l ->
  lock_all l s = Ret (set_held s (list_to_set l ∪ held s)).
Proof.
  induction l as [|m l IH]; intros s N F; cbn.
  - destruct s; unfold set_held; cbn. do 2 f_equal. set_solver.
  - apply NoDup_cons in N as [Nm N]. apply Forall_cons in F as [Fm F].
    unfold mutex_lock. rewrite decide_False by assumption. rewrite IH; [|exact N|].
    + unfold set_held. cbn. do 2 f_equal. set_solver.
    + cbn. apply Forall_forall. intros k Hk. rewrite Forall_forall in F. specialize (F k Hk).
      set_unfold. intros [->|]; contradiction.
Qed.

Lemma lock_all_blocks l : forall s, NoDup l -> (exists m, m ∈ l /\ m ∈ held s) -> lock_all l s = NoFuel.
Proof.
  induction l as [|m l IH]; intros s N (k & Hk & Hh); [now apply not_elem_of_nil in Hk|]. cbn. unfold mutex_lock.
  case_decide as D; [reflexivity|]. apply NoDup_cons in N as [_ N]. apply IH; [exact N|]. exists k.
  apply elem_of_cons in Hk as [->|Hk]; [contradiction|]. split; [exact Hk|]. cbn. set_solver.
Qed.

Lemma unlock_all_ok l : forall s, NoDup l -> Forall (fun m => m ∈ held s) l ->
  unlock_all l s = Ret (set_held s (held s ∖ list_to_set l)).
Proof.
  induction l as [|m l IH]; intros s N F; cbn.
  - destruct s; unfold set_held; cbn. do 2 f_equal. set_solver.
  - apply NoDup_cons in N as [Nm N]. apply Forall_cons in F as [Fm F].
    unfold mutex_unlock. rewrite decide_True by assumption. rewrite IH; [|exact N|].
    + unfold set_held. cbn. do 2 f_equal. set_solver.
    + cbn. apply Forall_forall. intros k Hk. rewrite Forall_forall in F. specialize (F k Hk).
      set_unfold. split; [exact F|]. intros ->. contradiction.
Qed.

Lemma lock_hook_takes n l : NoDup l -> locks_of (mkitem n (fun s => let! s := lock_all l s in Ret (0, s))) = l ->
  takes (mkitem n (fun s => let! s := lock_all l s in Ret (0, s))).
Proof.
  intros N E s. rewrite E. cbn. split.
  - intros F. rewrite lock_all_ok by assumption. eexists 0, _. split; [reflexivity|]. split; [lia|reflexivity].
  - intros H. now rewrite lock_all_blocks.
Qed.

Lemma takes_ext n f g : (forall s, f s = g s) -> takes (mkitem n g) -> takes (mkitem n f).
Proof. intros E H s. specialize (H s). cbn in *. rewrite E. exact H. Qed.

Lemma pre_copy_takes : Forall (fun x => takes (snd x)) pre_copy_hooks.
Proof.
  assert (N : NoDup SERIAL_MUTEXES /\ NoDup [JOB_MUTEX; THREAD_MUTEX] /\ NoDup [IPC_MUTEX])
    by (repeat split; apply (bool_decide_eq_true_1 _); reflexivity).
  destruct N as (N1 & N2 & N3).
  apply Forall_cons; split; [|apply Forall_cons; split; [|apply Forall_singleton]]; cbn [snd].
  - now apply lock_hook_takes.
  - apply (takes_ext _ _ (fun s => let! s := lock_all [JOB_MUTEX; THREAD_MUTEX] s in Ret (0, s))); [|apply lock_hook_takes; [exact N2|reflexivity]].
    intros s. unfold thread_pool__pre_copy. cbn. destruct (mutex_lock _ s) as [s'| |]; [|reflexivity|reflexivity].
    now destruct (mutex_lock _ s').
  - apply (takes_ext _ _ (fun s => let! s := lock_all [IPC_MUTEX] s in Ret (0, s))); [|apply lock_hook_takes; [exact N3|reflexivity]].
    intros s. unfold fork_pre_fork. cbn. now destruct (mutex_lock _ s).
Qed.

Lemma serial_gives n : locks_of (mkitem n serial8250__post_copy_hook) = SERIAL_MUTEXES ->
  gives_back (mkitem n serial8250__post_copy_hook).
Proof.
  intros E s. rewrite E. intros F. cbn [fn]. unfold serial8250__post_copy_hook. rewrite unlock_all_ok.
  - eexists 0, _. split; [reflexivity|]. split; [lia|reflexivity].
  - apply (bool_decide_eq_true_1 _). reflexivity.
  - exact F.
Qed.

Lemma ipc_gives n : locks_of (mkitem n fork_complete) = [IPC_MUTEX] -> gives_back (mkitem n fork_complete).
Proof.
  intros E s. rewrite E. intros F. apply Forall_inv in F. cbn [fn]. unfold fork_complete, mutex_unlock.
  rewrite decide_True by exact F. eexists 0, _. split; [reflexivity|]. split; [lia|]. cbn. set_solver.
Qed.

Lemma pool_gives : gives_back (mkitem "thread_pool__post_copy"%string thread_pool__post_copy).
Proof.
  intros s F. change (locks_of _) with [JOB_MUTEX; THREAD_MUTEX] in *.
  apply Forall_cons in F as [F1 F2]. apply Forall_inv in F2. cbn [fn].
  unfold thread_pool__post_copy, thread_pool__addthread, mutex_unlock, mutex_lock.
  rewrite decide_True by exact F1. cbn [held set_held]. rewrite decide_True by (unfold JOB_MUTEX, THREAD_MUTEX in *; set_solver).
  cbn [held set_held]. rewrite decide_False by set_solver. cbn [held set_held]. rewrite decide_True by set_solver.
  eexists 0, _. split; [reflexivity|]. split; [lia|]. cbn [held set_held]. apply leibniz_equiv. set_solver.
Qed.

Lemma pool_gives_parent : gives_back (mkitem "thread_pool__post_copy_parent"%string thread_pool__post_copy_parent).
Proof.
  intros s F. change (locks_of _) with [JOB_MUTEX; THREAD_MUTEX] in *.
  apply Forall_cons in F as [F1 F2]. apply Forall_inv in F2. cbn [fn].
  unfold thread_pool__post_copy_parent, mutex_unlock.
  rewrite decide_True by exact F2. cbn [held set_held]. rewrite decide_True by (unfold JOB_MUTEX, THREAD_MUTEX in *; set_solver).
  eexists 0, _. split; [reflexivity|]. split; [lia|]. cbn [held set_held]. apply leibniz_equiv. set_solver.
Qed.

(** ** Runs of hooks that take, or give back, disjoint sets *)

Definition all_locks (l : list (@init_item fork_state)) : list nat := flat_map locks_of l.

Lemma run_takes l : forall r s, Forall takes l -> NoDup (all_locks l) -> 0 <= r ->
  Forall (fun m => ~ m ∈ held s) (all_locks l) ->
  exists r' s', run_until l r s = Ret (r', s') /\ 0 <= r' /\ held s' = list_to_set (all_locks l) ∪ held s.
Proof.
  induction l as [|t l IH]; intros r s T N Hr F; unfold all_locks in *; cbn [flat_map run_until] in *.
  - exists r, s. split; [reflexivity|]. split; [exact Hr|]. cbn. set_solver.
  - apply Forall_cons in T as [Tt T]. apply NoDup_app in N as (Nt & D & N). apply Forall_app in F as [Ft F].
    destruct (proj1 (Tt s) Ft) as (r1 & s1 & E & Hr1 & E1). rewrite E.
    destruct (Z.ltb_spec r1 0); [lia|]. destruct (IH r1 s1 T N Hr1) as (r2 & s2 & E2 & Hr2 & Eh).
    + apply Forall_forall. intros m Hm. rewrite E1. rewrite Forall_forall in F. specialize (F m Hm).
      specialize (fun A => D m A Hm). set_solver.
    + exists r2, s2. split; [exact E2|]. split; [exact Hr2|]. rewrite Eh, E1. rewrite list_to_set_app_L. set_solver.
Qed.

Lemma run_takes_blocks l : forall r s, Forall takes l -> NoDup (all_locks l) ->
  (exists m, m ∈ all_locks l /\ m ∈ held s) -> run_until l r s = NoFuel.
Proof.
  induction l as [|t l IH]; intros r s T N (m & Hm & Hh); unfold all_locks in *; cbn [flat_map run_until] in *;
    [now apply not_elem_of_nil in Hm|].
  apply Forall_cons in T as [Tt T]. apply NoDup_app in N as (Nt & D & N).
  destruct (decide (Exists (fun m => m ∈ held s) (locks_of t))) as [C|C].
  { apply Exists_exists in C. now rewrite (proj2 (Tt s) C). }
  apply not_Exists_Forall in C; [|intros; apply _]. destruct (proj1 (Tt s) C) as (r1 & s1 & E & Hr1 & E1). rewrite E.
  destruct (Z.ltb_spec r1 0); [lia|]. apply IH; [exact T|exact N|]. exists m. rewrite E1.
  apply elem_of_app in Hm as [Hm|Hm]; [rewrite Forall_forall in C; exfalso; exact (C m Hm Hh)|]. set_solver.
Qed.

Lemma run_gives_back l : forall r s, Forall gives_back l -> NoDup (all_locks l) -> 0 <= r ->
  Forall (fun m => m ∈ held s) (all_locks l) ->
  exists r' s', run_until l r s = Ret (r', s') /\ 0 <= r' /\ held s' = held s ∖ list_to_set (all_locks l).
Proof.
  induction l as [|t l IH]; intros r s T N Hr F; unfold all_locks in *; cbn [flat_map run_until] in *.
  - exists r, s. split; [reflexivity|]. split; [exact Hr|]. cbn. set_solver.
  - apply Forall_cons in T as [Tt T]. apply NoDup_app in N as (Nt & D & N). apply Forall_app in F as [Ft F].
    destruct (Tt s Ft) as (r1 & s1 & E & Hr1 & E1). rewrite E.
    destruct (Z.ltb_spec r1 0); [lia|]. destruct (IH r1 s1 T N Hr1) as (r2 & s2 & E2 & Hr2 & Eh).
    + apply Forall_forall. intros m Hm. rewrite E1. rewrite Forall_forall in F. specialize (F m Hm).
      specialize (fun A => D m A Hm). set_solver.
    + exists r2, s2. split; [exact E2|]. split; [exact Hr2|]. rewrite Eh, E1, list_to_set_app_L. set_solver.
Qed.

Lemma other_takes x : other_hook x -> takes (snd x) /\ gives_back (snd x).
Proof.
  intros (_ & E & H). split; intros s; rewrite E; [split|].
  - intros _. destruct (H s) as (r & s' & Es & Hr & Eh). exists r, s'. split; [exact Es|]. split; [exact Hr|].
    rewrite Eh. cbn. set_solver.
  - intros (m & Hm & _). now apply not_elem_of_nil in Hm.
  - intros _. destruct (H s) as (r & s' & Es & Hr & Eh). exists r, s'. split; [exact Es|]. split; [exact Hr|].
    rewrite Eh. cbn. set_solver.
Qed.

(** Some registration order of hooks with locks and of others. *)
Lemma hooks_run (P : @init_item fork_state -> Prop) own rest regs :
  regs ≡ₚ own ++ rest -> Forall (fun x => P (snd x) /\ (fst x < PRIORITY_LISTS)%nat) own -> Forall other_hook rest ->
  (forall x, other_hook x -> P (snd x)) -> all_locks (map snd own) = fork_locks ->
  exists ls, register regs no_hooks = Ret ls /\ (forall r s, run_lists ls r s = run_until (map snd (up regs)) r s) /\
    Forall P (map snd (up regs)) /\ all_locks (map snd (up regs)) ≡ₚ fork_locks.
Proof.
  intros Q O R OP L. assert (B : Forall (fun x : nat * init_item => fst x < PRIORITY_LISTS)%nat regs).
  { rewrite Q. apply Forall_app. split; [eapply Forall_impl; [exact O|]; now intros x []|].
    eapply Forall_impl; [exact R|]. now intros x []. }
  assert (U : up regs ≡ₚ own ++ rest).
  { rewrite <- Q. apply flat_map_priority; [apply NoDup_seq|now apply priorities_in]. }
  exists (registered regs). split; [exact (register_registered regs B [])|]. split; [intros; apply run_registered|]. split.
  - apply Forall_map. rewrite U. apply Forall_app. split; [eapply Forall_impl; [exact O|]; now intros x []|].
    eapply Forall_impl; [exact R|]. exact OP.
  - unfold all_locks. rewrite U, map_app, flat_map_app. unfold all_locks in L. rewrite L.
    replace (flat_map locks_of (map snd rest)) with (@nil nat); [now rewrite app_nil_r|].
    clear -R. induction R as [|x rest (_ & E & _) _ IH]; [reflexivity|]. cbn. now rewrite E, <- IH.
Qed.
End locks.

Lemma pre_copy_prio {X : Type} : Forall (fun x : nat * @init_item (@fork_state X) => fst x < PRIORITY_LISTS)%nat pre_copy_hooks.
Proof. repeat (apply Forall_cons; split; [cbn; unfold PRIORITY_LISTS; lia|]). now constructor. Qed.

Lemma take_back (l : list nat) (h : gset nat) :
  Forall (fun m => ~ m ∈ h) l -> (list_to_set l ∪ h) ∖ list_to_set l = h.
Proof. rewrite Forall_forall. set_solver. Qed.

Lemma post_copy_gives {X : Type} :
  Forall (fun x : nat * @init_item (@fork_state X) => gives_back (snd x) /\ (fst x < PRIORITY_LISTS)%nat) post_copy_hooks.
Proof.
  apply Forall_cons; split; [|apply Forall_cons; split; [|apply Forall_singleton]];
    (split; [cbn [snd]|cbn; unfold PRIORITY_LISTS; lia]).
  - now apply serial_gives.
  - exact pool_gives.
  - now apply ipc_gives.
Qed.

Lemma post_copy_parent_gives {X : Type} :
  Forall (fun x : nat * @init_item (@fork_state X) => gives_back (snd x) /\ (fst x < PRIORITY_LISTS)%nat) post_copy_parent_hooks.
Proof.
  apply Forall_cons; split; [|apply Forall_cons; split; [|apply Forall_singleton]];
    (split; [cbn [snd]|cbn; unfold PRIORITY_LISTS; lia]).
  - now apply serial_gives.
  - exact pool_gives_parent.
  - now apply ipc_gives.
Qed.

(** C23. Forking keeps the mutexes in balance, whatever the order in which the files
    were linked and whatever other hooks there are: if nobody holds one of the
    mutexes the hooks need, the pre-copy lists run to the end with exactly those
    taken, and from there the post-copy lists give back exactly those, each once,
    in the child and in the parent. If somebody holds one, the fork waits. *)
Theorem fork_locks_balanced {X : Type} (pre post parent rest_pre rest_post rest_parent : list (nat * @init_item (@fork_state X))) s :
  pre ≡ₚ pre_copy_hooks ++ rest_pre -> post ≡ₚ post_copy_hooks ++ rest_post ->
  parent ≡ₚ post_copy_parent_hooks ++ rest_parent ->
  Forall other_hook rest_pre -> Forall other_hook rest_post -> Forall other_hook rest_parent ->
  exists l1 l2 l3, register pre no_hooks = Ret l1 /\ register post no_hooks = Ret l2 /\ register parent no_hooks = Ret l3 /\
    (Forall (fun m => ~ m ∈ held s) fork_locks ->
     exists r s1, init_list__pre_copy l1 s = Ret (r, s1) /\ 0 <= r /\ held s1 = list_to_set fork_locks ∪ held s /\
       (exists r s2, init_list__post_copy l2 s1 = Ret (r, s2) /\ 0 <= r /\ held s2 = held s) /\
       (exists r s2, init_list__post_copy_parent l3 s1 = Ret (r, s2) /\ 0 <= r /\ held s2 = held s)) /\
    (Exists (fun m => m ∈ held s) fork_locks -> init_list__pre_copy l1 s = NoFuel).
Proof.
  intros P1 P2 P3 R1 R2 R3.
  destruct (hooks_run takes _ _ _ P1) as (l1 & E1 & U1 & T1 & L1);
    [|exact R1|intros x Hx; now apply other_takes|reflexivity|].
  { apply Forall_and. split; [exact pre_copy_takes|exact pre_copy_prio]. }
  destruct (hooks_run gives_back _ _ _ P2) as (l2 & E2 & U2 & T2 & L2);
    [|exact R2|intros x Hx; now apply other_takes|reflexivity|].
  { exact post_copy_gives. }
  destruct (hooks_run gives_back _ _ _ P3) as (l3 & E3 & U3 & T3 & L3);
    [|exact R3|intros x Hx; now apply other_takes|reflexivity|].
  { exact post_copy_parent_gives. }
  assert (N : NoDup fork_locks) by (apply (bool_decide_eq_true_1 _); reflexivity).
  exists l1, l2, l3. split; [exact E1|]. split; [exact E2|]. split; [exact E3|]. split.
  - intros F. unfold init_list__pre_copy, init_list__post_copy, init_list__post_copy_parent.
    rewrite U1. destruct (run_takes _ 0 s T1) as (r & s1 & Er & Hr & Eh); [rewrite L1; exact N|lia|rewrite L1; exact F|].
    assert (Eh' : held s1 = list_to_set fork_locks ∪ held s) by (rewrite Eh; f_equal; now apply list_to_set_perm_L).
    exists r, s1. split; [exact Er|]. split; [exact Hr|]. split; [exact Eh'|].
    assert (B : forall l, all_locks l ≡ₚ fork_locks -> Forall gives_back l ->
      exists r s2, run_until l 0 s1 = Ret (r, s2) /\ 0 <= r /\ held s2 = held s).
    { intros l L T. destruct (run_gives_back l 0 s1 T) as (r2 & s2 & Er2 & Hr2 & Eh2); [rewrite L; exact N|lia| |].
      - rewrite L. apply Forall_forall. intros m Hm. rewrite Eh'. apply elem_of_union_l. now apply elem_of_list_to_set.
      - exists r2, s2. split; [exact Er2|]. split; [exact Hr2|]. rewrite Eh2, Eh'.
        rewrite (list_to_set_perm_L _ _ L). now apply take_back. }
    rewrite U2, U3. split; now apply B.
  - intros F. apply Exists_exists in F. unfold init_list__pre_copy. rewrite U1. apply run_takes_blocks; [exact T1|rewrite L1; exact N|].
    destruct F as (m & Hm & Hh). exists m. rewrite L1. split; assumption.
Qed.

Lemma hooks_ordered_witness :
  exists ls, register (S := @fork_state unit) pre_copy_hooks no_hooks = Ret ls /\
    StronglySorted le (map fst (up (S := @fork_state unit) pre_copy_hooks)).
Proof.
  destruct (hooks_ordered (S := @fork_state unit) pre_copy_hooks (mkfs ∅ false 1 tt)) as (ls & E & _ & _ & _ & _ & _ & _ & _ & S & _).
  - exact pre_copy_prio.
  - now exists ls.
Defined.

Lemma fork_locks_balanced_witness : exists l1 l2 : list (list (@init_item (@fork_state unit))),
  exists r s1, init_list__pre_copy l1 (mkfs ∅ false 1 tt) = Ret (r, s1) /\ held s1 = list_to_set fork_locks /\
  exists r s2, init_list__post_copy l2 s1 = Ret (r, s2) /\ held s2 = ∅.
Proof.
  destruct (fork_locks_balanced (X := unit) pre_copy_hooks post_copy_hooks post_copy_parent_hooks [] [] [] (mkfs ∅ false 1 tt))
    as (l1 & l2 & l3 & _ & _ & _ & B & _);
    [now rewrite app_nil_r|now rewrite app_nil_r|now rewrite app_nil_r|now constructor|now constructor|now constructor|].
  destruct B as (r & s1 & E & _ & H & (r2 & s2 & E2 & _ & H2) & _).
  - apply Forall_forall. intros m _. cbn. apply not_elem_of_empty.
  - exists l1, l2, r, s1. split; [exact E|]. split; [rewrite H; apply union_empty_r_L|]. now exists r2, s2.
Defined.
