(* ===== verification/Pause.v ===== *)
(** * Stopping the guest

    [kvm__pause], [kvm__continue] and [kvm__notify_paused] of kvm.c, the signal
    handler of kvm-cpu.c, and the fork of a stopped VM ([kvm__fork]) as far as
    threads and locks go. [pstep] interleaves the vCPU threads, the monitor
    thread that stops them and any other thread that uses a device mutex, from
    the moment the vCPU threads exist; [fork_vm] is the configuration that a fork
    leaves in the child once it has started its own vCPU threads. *)
From S2P Require Import Prelude.
From stdpp Require Import relations.
Open Scope Z_scope.

(** Where a vCPU thread is: in [kvm_cpu__start], running the guest or emulating
    one of its exits; in the handler of [SIGKVMPAUSE] with [paused] set; waiting
    for [pause_lock] in [kvm__notify_paused]; holding it; or returned. *)
Inductive vpc := Loop | Notify | Blocked | Clearing | Gone.

(** [struct kvm_cpu]; [pending]: [SIGKVMPAUSE] has been sent and not yet handled. *)
Record vcpu := mkvcpu { pc : vpc; is_running : bool; paused : bool; pending : bool }.

(** The monitor thread that holds [pause_lock]: at vCPU [i] of the first loop of
    [kvm__pause]; in the second loop; returned from it; or taking the mutexes
    [l] in the pre-copy hooks of a fork. *)
Inductive phase :=
| Scan (i : nat) (paused_vcpus : Z)
| Await (paused_vcpus : Z)
| Paused
| Hooks (l : list nat).

Inductive holder := Mon (ph : phase) | Vcpu (i : nat).

(** Who holds a device mutex: [ByDead] is a thread that the fork has not copied. *)
Inductive owner := ByVcpu (i : nat) | ByMon | ByOther | ByDead.

Record pconf := mkpconf {
  vcpus : list vcpu;
  pause_lock : option holder;
  pause_event : Z;
  mutexes : nat -> option owner;
}.

Definition setm (f : nat -> option owner) (m : nat) (o : option owner) (m' : nat) : option owner :=
  if decide (m' = m) then o else f m'.

(** ** vCPU threads *)

(** [kvm_cpu_signal_handler] for [SIGKVMPAUSE], up to the call; [None] is
    [die("Pause signaled for already paused CPU")]. *)
Definition handle_sigkvmpause (v : vcpu) : option vcpu :=
  if paused v then None else Some (mkvcpu Notify (is_running v) true false).

(** [SIGKVMEXIT] *)
Definition handle_sigkvmexit (v : vcpu) : vcpu := mkvcpu (pc v) false (paused v) (pending v).

Definition set_pc (v : vcpu) (p : vpc) : vcpu := mkvcpu p (is_running v) (paused v) (pending v).

(** What [kvm__notify_paused] does with the lock. *)
Definition clear_paused (v : vcpu) : vcpu := mkvcpu Loop (is_running v) false (pending v).

(** ** [kvm__pause] *)

(** One turn of the first loop: the vCPU is signalled, or counted as stopped. *)
Definition scan_vcpu (v : vcpu) (paused_vcpus : Z) : vcpu * Z :=
  if (is_running v && negb (paused v))%bool
  then (mkvcpu (pc v) (is_running v) (paused v) true, paused_vcpus)
  else (v, paused_vcpus + 1).

(** The steps that end by themselves once [kvm__pause] has started: the loops, and
    the handlers in the vCPU threads up to the wait for the lock. *)
Inductive pwork : pconf -> pconf -> Prop :=
| p_scan vs e mx i k v v' k' :
    vs !! i = Some v -> scan_vcpu v k = (v', k') ->
    pwork (mkpconf vs (Some (Mon (Scan i k))) e mx) (mkpconf (<[i := v']> vs) (Some (Mon (Scan (S i) k'))) e mx)
| p_scanned vs e mx k :
    pwork (mkpconf vs (Some (Mon (Scan (length vs) k))) e mx) (mkpconf vs (Some (Mon (Await k))) e mx)
| p_read vs e mx k :
    k < Z.of_nat (length vs) -> 0 < e ->
    pwork (mkpconf vs (Some (Mon (Await k))) e mx) (mkpconf vs (Some (Mon (Await (k + e)))) 0 mx)
| p_done vs e mx k :
    Z.of_nat (length vs) <= k ->
    pwork (mkpconf vs (Some (Mon (Await k))) e mx) (mkpconf vs (Some (Mon Paused)) e mx)
| p_signal vs h e mx i v v' :
    vs !! i = Some v -> pc v = Loop -> pending v = true -> handle_sigkvmpause v = Some v' ->
    pwork (mkpconf vs h e mx) (mkpconf (<[i := v']> vs) h e mx)
| p_write vs h e mx i v :
    vs !! i = Some v -> pc v = Notify ->
    pwork (mkpconf vs h e mx) (mkpconf (<[i := set_pc v Blocked]> vs) h (e + 1) mx).

Inductive pstep : pconf -> pconf -> Prop :=
| p_work c c' : pwork c c' -> pstep c c'
| p_acquire vs e mx i v :
    vs !! i = Some v -> pc v = Blocked ->
    pstep (mkpconf vs None e mx) (mkpconf (<[i := set_pc v Clearing]> vs) (Some (Vcpu i)) e mx)
| p_clear vs e mx i v :
    vs !! i = Some v -> pc v = Clearing ->
    pstep (mkpconf vs (Some (Vcpu i)) e mx) (mkpconf (<[i := clear_paused v]> vs) None e mx)
| p_exit vs h e mx i v :
    vs !! i = Some v ->
    pstep (mkpconf vs h e mx) (mkpconf (<[i := handle_sigkvmexit v]> vs) h e mx)
| p_return vs h e mx i v :
    vs !! i = Some v -> pc v = Loop ->
    pstep (mkpconf vs h e mx) (mkpconf (<[i := set_pc v Gone]> vs) h e mx)
| p_lock vs h e mx i v m :
    vs !! i = Some v -> pc v = Loop -> mx m = None ->
    pstep (mkpconf vs h e mx) (mkpconf vs h e (setm mx m (Some (ByVcpu i))))
| p_unlock vs h e mx i v m :
    vs !! i = Some v -> pc v = Loop -> mx m = Some (ByVcpu i) ->
    pstep (mkpconf vs h e mx) (mkpconf vs h e (setm mx m None))
| p_other_lock vs h e mx m :
    mx m = None -> pstep (mkpconf vs h e mx) (mkpconf vs h e (setm mx m (Some ByOther)))
| p_other_unlock vs h e mx m :
    mx m = Some ByOther -> pstep (mkpconf vs h e mx) (mkpconf vs h e (setm mx m None))
| p_pause vs e mx :
    pstep (mkpconf vs None e mx) (mkpconf vs (Some (Mon (Scan 0 0))) 0 mx)
| p_continue vs e mx :
    pstep (mkpconf vs (Some (Mon Paused)) e mx) (mkpconf vs None e mx)
| p_fork vs e mx l :
    pstep (mkpconf vs (Some (Mon Paused)) e mx) (mkpconf vs (Some (Mon (Hooks l))) e mx)
| p_hook vs e mx m l :
    mx m = None ->
    pstep (mkpconf vs (Some (Mon (Hooks (m :: l)))) e mx)
          (mkpconf vs (Some (Mon (Hooks l))) e (setm mx m (Some ByMon)))
| p_forked vs e mx mx' :
    (forall m, mx' m = match mx m with Some ByMon => None | o => o end) ->
    pstep (mkpconf vs (Some (Mon (Hooks []))) e mx) (mkpconf vs (Some (Mon Paused)) e mx').

(** ** Invariant *)

(** The vCPU has been signalled and not yet announced that it stops. *)
Definition inflight (v : vcpu) : nat :=
  if pending v then 1 else match pc v with Notify => 1 | _ => 0 end.

Definition inflights (vs : list vcpu) : nat := sum_list_with inflight vs.

#[local] Arguments inflights : simpl never.

Definition stopped (v : vcpu) : Prop := pc v = Blocked \/ pc v = Gone \/ is_running v = false.

Definition vgood (v : vcpu) : Prop :=
  match pc v with
  | Loop | Gone => paused v = false
  | Notify | Blocked | Clearing => paused v = true /\ pending v = false
  end.

(** What the holder of the lock knows of the vCPU with number [i]. *)
Definition known (h : option holder) (i : nat) (v : vcpu) : Prop :=
  match h with
  | Some (Mon (Scan n _)) => if decide (i < n)%nat then inflight v = 1%nat \/ stopped v else inflight v = 0%nat
  | Some (Mon (Await _)) => inflight v = 1%nat \/ stopped v
  | Some (Mon _) => inflight v = 0%nat /\ stopped v
  | None | Some (Vcpu _) => inflight v = 0%nat
  end.

(** The count of [kvm__pause], with the counter and the signals on their way. *)
Definition counted (c : pconf) : Prop :=
  match pause_lock c with
  | Some (Mon (Scan i k)) =>
      (i <= length (vcpus c))%nat /\ 0 <= pause_event c /\ pause_event c + k + Z.of_nat (inflights (vcpus c)) = Z.of_nat i
  | Some (Mon (Await k)) =>
      0 <= pause_event c /\ pause_event c + k + Z.of_nat (inflights (vcpus c)) = Z.of_nat (length (vcpus c))
  | _ => True
  end.

Record pause_inv (c : pconf) : Prop := {
  pv_good : forall i v, vcpus c !! i = Some v -> vgood v;
  pv_lock : forall i v, vcpus c !! i = Some v -> (pc v = Clearing <-> pause_lock c = Some (Vcpu i));
  pv_known : forall i v, vcpus c !! i = Some v -> known (pause_lock c) i v;
  pv_count : counted c;
}.

(** Configurations reached from vCPU threads that have just been started. *)
Definition fresh_vcpu : vcpu := mkvcpu Loop true false false.

Inductive pausable : pconf -> Prop :=
| pa_start n e mx : pausable (mkpconf (replicate n fresh_vcpu) None e mx)
| pa_step c c' : pausable c -> pstep c c' -> pausable c'.

Lemma inflight_le v : (inflight v <= 1)%nat.
Proof. unfold inflight. repeat case_match; lia. Qed.

Lemma inflights_insert vs i v v' : vs !! i = Some v ->
  (inflights (<[i := v']> vs) + inflight v = inflights vs + inflight v')%nat.
Proof. apply sum_insert. Qed.

(** A step of one vCPU keeps the invariant if it does so for that vCPU. *)
Lemma vcpu_inv vs h e mx i v v' h' e' mx' :
  pause_inv (mkpconf vs h e mx) -> vs !! i = Some v ->
  vgood v' -> (pc v' = Clearing <-> h' = Some (Vcpu i)) ->
  (forall j w, j <> i -> vs !! j = Some w -> (pc w = Clearing <-> h' = Some (Vcpu j)) /\ known h' j w) ->
  known h' i v' -> counted (mkpconf (<[i := v']> vs) h' e' mx') ->
  pause_inv (mkpconf (<[i := v']> vs) h' e' mx').
Proof.
  intros I E G L O K C. split; cbn; [| | |exact C]; intros j w;
    (destruct (decide (j = i)) as [->|N];
     [rewrite list_lookup_insert_eq by (eapply lookup_lt_Some; exact E); intros [= <-]; assumption
     |rewrite list_lookup_insert_ne by congruence; intros W]).
  - exact (pv_good _ I _ _ W).
  - exact (proj1 (O j w N W)).
  - exact (proj2 (O j w N W)).
Qed.

(** The others of a step that leaves the lock alone. *)
Lemma others_same vs h e mx i : pause_inv (mkpconf vs h e mx) ->
  forall j w, j <> i -> vs !! j = Some w -> (pc w = Clearing <-> h = Some (Vcpu j)) /\ known h j w.
Proof. intros I j w _ W. split; [exact (pv_lock _ I _ _ W)|exact (pv_known _ I _ _ W)]. Qed.

Lemma scan_vcpu_spec v k v' k' : scan_vcpu v k = (v', k') ->
  pc v' = pc v /\ paused v' = paused v /\ is_running v' = is_running v /\
  ((pending v' = true /\ k' = k /\ is_running v = true /\ paused v = false) \/
   (v' = v /\ k' = k + 1 /\ (is_running v = false \/ paused v = true))).
Proof.
  unfold scan_vcpu. destruct (is_running v) eqn:R, (paused v) eqn:P; cbn; intros [= <- <-]; cbn; rewrite ?P; auto 10.
Qed.

Lemma scan_inv vs e mx i k v v' k' :
  pause_inv (mkpconf vs (Some (Mon (Scan i k))) e mx) -> vs !! i = Some v -> scan_vcpu v k = (v', k') ->
  pause_inv (mkpconf (<[i := v']> vs) (Some (Mon (Scan (S i) k'))) e mx).
Proof.
  intros I E S. destruct (scan_vcpu_spec _ _ _ _ S) as (Ep & Ea & Er & D).
  pose proof (pv_good _ I _ _ E) as G. pose proof (pv_lock _ I _ _ E) as L. pose proof (pv_known _ I _ _ E) as K.
  pose proof (pv_count _ I) as C. pose proof (lookup_lt_Some _ _ _ E) as Hi.
  pose proof (inflights_insert vs i v v' E) as F. cbn in K, L, C. case_decide as A; [lia|].
  assert (W : (inflight v' = 1%nat \/ stopped v') /\ Z.of_nat (inflight v') + k' = k + 1).
  { destruct D as [(P & -> & _ & _)|(-> & -> & Q)].
    - unfold inflight. rewrite P. split; [now left|lia].
    - rewrite K. split; [right|lia]. destruct Q as [Q|Q]; [right; now right|].
      unfold vgood in G. unfold inflight in K. destruct (pc v) eqn:P; try (rewrite Q in G; easy).
      + destruct G as [_ G]. rewrite G in K. discriminate.
      + now left.
      + discriminate (proj1 L eq_refl). }
  apply (vcpu_inv vs (Some (Mon (Scan i k))) e mx i v); try assumption.
  - unfold vgood in *. rewrite Ep, Ea. destruct (pc v), D as [(_ & _ & _ & Q)|(-> & _ & _)];
      try exact G; destruct G as [Q' _]; congruence.
  - rewrite Ep, L. split; intros [=].
  - intros j w N Hw. split; [rewrite (pv_lock _ I _ _ Hw); cbn; split; intros [=]|].
    pose proof (pv_known _ I _ _ Hw) as Kw. cbn in *. repeat case_decide; (lia || assumption).
  - cbn. rewrite decide_True by lia. apply W.
  - cbn in C |- *. rewrite length_insert. lia.
Qed.

Lemma signal_good v v' : vgood v -> pc v = Loop -> pending v = true -> handle_sigkvmpause v = Some v' ->
  v' = mkvcpu Notify (is_running v) true false /\ inflight v = 1%nat /\ inflight v' = 1%nat.
Proof.
  intros G P Q. unfold handle_sigkvmpause. destruct (paused v); [discriminate|]. intros [= <-].
  unfold inflight. rewrite Q. auto.
Qed.

(** What the others know of a vCPU depends on these two facts only. *)
Lemma known_ext h i v v' :
  inflight v' = inflight v -> (stopped v -> stopped v') -> known h i v -> known h i v'.
Proof.
  intros F S. unfold known. rewrite F. destruct h as [[[] | ]|]; try case_decide; tauto.
Qed.

Lemma counted_ext vs h e mx i v v' mx' :
  vs !! i = Some v -> inflight v' = inflight v -> counted (mkpconf vs h e mx) ->
  counted (mkpconf (<[i := v']> vs) h e mx').
Proof.
  intros E F. pose proof (inflights_insert vs i v v' E). unfold counted. cbn. rewrite length_insert.
  replace (inflights (<[i:=v']> vs)) with (inflights vs) by lia. auto.
Qed.

Lemma write_known h i v : vgood v -> pc v = Notify -> known h i v -> known h i (set_pc v Blocked).
Proof.
  intros G P. assert (inflight v = 1%nat) as F.
  { unfold vgood in G. rewrite P in G. unfold inflight. rewrite (proj2 G). now rewrite P. }
  assert (stopped (set_pc v Blocked)) as S by now left.
  unfold known. rewrite F. destruct h as [[[] | ]|]; try case_decide; intuition discriminate.
Qed.

Lemma write_inv vs h e mx i v :
  pause_inv (mkpconf vs h e mx) -> vs !! i = Some v -> pc v = Notify ->
  pause_inv (mkpconf (<[i := set_pc v Blocked]> vs) h (e + 1) mx).
Proof.
  intros I E P. pose proof (pv_good _ I _ _ E) as G. pose proof (pv_lock _ I _ _ E) as L.
  pose proof (pv_known _ I _ _ E) as K. pose proof (pv_count _ I) as C.
  pose proof (inflights_insert vs i v (set_pc v Blocked) E) as F.
  unfold vgood in G. rewrite P in G. assert (inflight v = 1%nat /\ inflight (set_pc v Blocked) = 0%nat) as [F1 F0].
  { unfold inflight. cbn. rewrite (proj2 G), P. auto. }
  apply (vcpu_inv vs h e mx i v); try assumption.
  - cbn. intros. split; [discriminate|]. intros Eh. apply L in Eh. congruence.
  - exact (others_same _ _ _ _ _ I).
  - apply write_known; [unfold vgood; now rewrite P|assumption|assumption].
  - cbn in *. unfold counted in *. cbn in *. rewrite length_insert.
    destruct h as [[[] | ]|]; lia.
Qed.

Lemma work_inv c c' : pause_inv c -> pwork c c' -> pause_inv c'.
Proof.
  intros I W. destruct W as [vs e mx i k v v' k' E S|vs e mx k|vs e mx k Lt Pe|vs e mx k Le
    |vs h e mx i v v' E P Q H|vs h e mx i v E P].
  - exact (scan_inv _ _ _ _ _ _ _ _ I E S).
  - destruct I as [G L K (Hn & He & Hc)]. cbn in *. split; cbn; auto.
    + intros i v E. rewrite (L i v E). split; intros [=].
    + intros i v E. specialize (K i v E). cbn in K. case_decide as A; [assumption|].
      apply lookup_lt_Some in E. lia.
  - destruct I as [G L K (He & Hc)]. cbn in *. split; cbn; auto.
    + intros i v E. rewrite (L i v E). split; intros [=].
    + split; [lia|]. lia.
  - destruct I as [G L K (He & Hc)]. cbn in *. split; cbn; auto.
    + intros i v E. rewrite (L i v E). split; intros [=].
    + intros i v E. pose proof (sum_lookup inflight vs i v E) as F. fold (inflights vs) in F.
      assert (inflight v = 0%nat) as Z by lia. split; [exact Z|]. destruct (K i v E); [lia|assumption].
  - pose proof (pv_good _ I _ _ E) as G. destruct (signal_good _ _ G P Q H) as (-> & F1 & F2).
    apply (vcpu_inv vs h e mx i v); try assumption.
    + cbn. auto.
    + cbn. split; [discriminate|]. intros Eh. apply (pv_lock _ I _ _ E) in Eh. congruence.
    + exact (others_same _ _ _ _ _ I).
    + apply (known_ext h i v); [congruence| |exact (pv_known _ I _ _ E)].
      intros [S|[S|S]]; [congruence|congruence|now right; right].
    + apply (counted_ext _ _ _ mx _ v); [assumption|congruence|exact (pv_count _ I)].
  - exact (write_inv _ _ _ _ _ _ I E P).
Qed.

(** A vCPU that changes neither its lock nor what others know of it. *)
Lemma local_inv vs h e mx mx' i v v' :
  pause_inv (mkpconf vs h e mx) -> vs !! i = Some v -> vgood v' ->
  (pc v' = Clearing <-> pc v = Clearing) -> inflight v' = inflight v -> (stopped v -> stopped v') ->
  pause_inv (mkpconf (<[i := v']> vs) h e mx').
Proof.
  intros I E G P F S. apply (vcpu_inv vs h e mx i v); try assumption.
  - rewrite P. exact (pv_lock _ I _ _ E).
  - exact (others_same _ _ _ _ _ I).
  - apply (known_ext h i v); [assumption|assumption|exact (pv_known _ I _ _ E)].
  - apply (counted_ext _ _ _ mx _ v); [assumption|assumption|exact (pv_count _ I)].
Qed.

(** Steps of the holder alone. *)
Lemma holder_inv vs h h' e e' mx mx' :
  pause_inv (mkpconf vs h e mx) ->
  (forall i v, vs !! i = Some v -> known h i v -> (h = Some (Vcpu i) <-> h' = Some (Vcpu i)) /\ known h' i v) ->
  counted (mkpconf vs h' e' mx') -> pause_inv (mkpconf vs h' e' mx').
Proof.
  intros [G L K _] H C. cbn in *. split; cbn; auto.
  - intros i v E. rewrite (L i v E). exact (proj1 (H i v E (K i v E))).
  - intros i v E. exact (proj2 (H i v E (K i v E))).
Qed.

Lemma inflights_none vs : (forall i v, vs !! i = Some v -> inflight v = 0%nat) -> inflights vs = 0%nat.
Proof.
  induction vs as [|v vs IH]; intros H; [reflexivity|]. unfold inflights in *. cbn.
  rewrite (H 0%nat v eq_refl), IH; [reflexivity|]. intros i w E. exact (H (S i) w E).
Qed.

Lemma acquire_inv vs e mx i v :
  pause_inv (mkpconf vs None e mx) -> vs !! i = Some v -> pc v = Blocked ->
  pause_inv (mkpconf (<[i := set_pc v Clearing]> vs) (Some (Vcpu i)) e mx).
Proof.
  intros I E P. pose proof (pv_good _ I _ _ E) as G. unfold vgood in G. rewrite P in G.
  apply (vcpu_inv vs None e mx i v); try assumption.
  - cbn. split; reflexivity.
  - intros j w N W. rewrite (pv_lock _ I _ _ W). cbn. split; [split; congruence|exact (pv_known _ I _ _ W)].
  - cbn. unfold inflight. cbn. now rewrite (proj2 G).
  - exact Logic.I.
Qed.

Lemma clear_inv vs e mx i v :
  pause_inv (mkpconf vs (Some (Vcpu i)) e mx) -> vs !! i = Some v -> pc v = Clearing ->
  pause_inv (mkpconf (<[i := clear_paused v]> vs) None e mx).
Proof.
  intros I E P. pose proof (pv_good _ I _ _ E) as G. unfold vgood in G. rewrite P in G.
  apply (vcpu_inv vs (Some (Vcpu i)) e mx i v); try assumption.
  - reflexivity.
  - cbn. split; discriminate.
  - intros j w N W. rewrite (pv_lock _ I _ _ W). cbn. split; [split; congruence|exact (pv_known _ I _ _ W)].
  - cbn. unfold inflight. cbn. now rewrite (proj2 G).
  - exact Logic.I.
Qed.

Lemma step_inv c c' : pause_inv c -> pstep c c' -> pause_inv c'.
Proof.
  intros I W. destruct W as [c c' W|vs e mx i v E P|vs e mx i v E P|vs h e mx i v E|vs h e mx i v E P
    |vs h e mx i v m E P Q|vs h e mx i v m E P Q|vs h e mx m Q|vs h e mx m Q|vs e mx|vs e mx|vs e mx l
    |vs e mx m l Q|vs e mx mx' Q];
    try (apply (holder_inv _ _ _ _ _ _ _ I); [now intros; split|exact (pv_count _ I)]; fail).
  - exact (work_inv _ _ I W).
  - exact (acquire_inv _ _ _ _ _ I E P).
  - exact (clear_inv _ _ _ _ _ I E P).
  - apply (local_inv vs h e mx mx i v); try assumption.
    + exact (pv_good _ I _ _ E).
    + reflexivity.
    + reflexivity.
    + now right; right.
  - pose proof (pv_good _ I _ _ E) as G. unfold vgood in G. rewrite P in G.
    apply (local_inv vs h e mx mx i v); try assumption.
    + rewrite P. cbn. split; discriminate.
    + unfold inflight. cbn. now rewrite P.
    + now right; left.
  - apply (holder_inv _ _ _ _ _ _ _ I).
    + intros i v E K. split; [split; discriminate|]. cbn in *. case_decide; [lia|assumption].
    + cbn. rewrite (inflights_none vs) by (intros i v E; exact (pv_known _ I _ _ E)). lia.
  - apply (holder_inv _ _ _ _ _ _ _ I); [|exact Logic.I].
    intros i v E K. split; [split; discriminate|]. exact (proj1 K).
Qed.

Lemma pausable_inv c : pausable c -> pause_inv c.
Proof.
  induction 1 as [n e mx|c c' _ IH S]; [|exact (step_inv _ _ IH S)].
  split; cbn; try exact Logic.I; intros i v E; apply lookup_replicate in E as [-> _]; try reflexivity.
  split; discriminate.
Qed.

(** ** What stopping the guest promises *)


(** ** [kvm__pause] returns *)

Definition pausing (c : pconf) : Prop :=
  match pause_lock c with Some (Mon (Scan _ _)) | Some (Mon (Await _)) | Some (Mon Paused) => True | _ => False end.

Definition signals (v : vcpu) : nat :=
  (if pending v then 2 else 0) + match pc v with Notify => 1 | _ => 0 end.

Definition loops_left (c : pconf) : nat :=
  match pause_lock c with
  | Some (Mon (Scan i _)) => 7 * (length (vcpus c) - i) + 2
  | Some (Mon (Await _)) => 1
  | _ => 0
  end.

Definition pause_measure (c : pconf) : nat :=
  3 * sum_list_with signals (vcpus c) + Z.to_nat (pause_event c) + loops_left c.

Lemma pwork_measure c c' : pwork c c' -> (pause_measure c' < pause_measure c)%nat.
Proof.
  intros W. unfold pause_measure. destruct W as [vs e mx i k v v' k' E S|vs e mx k|vs e mx k Lt Pe|vs e mx k Le
    |vs h e mx i v v' E P Q H|vs h e mx i v E P]; cbn [vcpus pause_event loops_left pause_lock]; try lia.
  - destruct (scan_vcpu_spec _ _ _ _ S) as (Ep & _). pose proof (sum_insert signals _ _ _ v' E) as F.
    pose proof (lookup_lt_Some _ _ _ E). unfold signals in F at 2 4. rewrite Ep in F. rewrite length_insert.
    destruct (pending v), (pending v'); lia.
  - pose proof (sum_insert signals _ _ _ v' E) as F. unfold handle_sigkvmpause in H. destruct (paused v); [discriminate|].
    injection H as <-. unfold signals in F at 2 4. rewrite P, Q in F. cbn in F.
    unfold loops_left. cbn. rewrite length_insert. lia.
  - pose proof (sum_insert signals _ _ _ (set_pc v Blocked) E) as F. unfold signals in F at 2 4. rewrite P in F. cbn in F.
    unfold loops_left. cbn. rewrite length_insert. destruct (pending v); lia.
Qed.

Lemma pwork_pausing c c' : pwork c c' -> pausing c -> pausing c'.
Proof. now intros []. Qed.

Lemma inflights_some vs : (0 < inflights vs)%nat -> exists i v, vs !! i = Some v /\ inflight v = 1%nat.
Proof.
  unfold inflights. induction vs as [|v vs IH]; cbn; [lia|]. intros H.
  pose proof (inflight_le v). destruct (inflight v) as [|n] eqn:F.
  - destruct IH as (i & w & Hi & Hw); [lia|]. now exists (S i), w.
  - exists 0%nat, v. split; [reflexivity|lia].
Qed.

(** A thread that has returned does not answer the signal. *)
Definition unanswered (c : pconf) : Prop :=
  exists i v, vcpus c !! i = Some v /\ pc v = Gone /\ pending v = true.

Lemma inflight_moves vs h e mx i v : pause_inv (mkpconf vs h e mx) -> vs !! i = Some v -> inflight v = 1%nat ->
  (pc v = Gone /\ pending v = true) \/ exists c', pwork (mkpconf vs h e mx) c'.
Proof.
  intros I E F. pose proof (pv_good _ I _ _ E) as G. unfold vgood, inflight in *.
  destruct (pending v) eqn:Q.
  - destruct (pc v) eqn:P; try (destruct G; discriminate); [|now left]. right.
    eexists. eapply p_signal; try eassumption. unfold handle_sigkvmpause. now rewrite G.
  - destruct (pc v) eqn:P; try discriminate. right. eexists. eapply p_write; eassumption.
Qed.

Lemma pause_stuck c : pause_inv c -> pausing c -> (forall c', ~ pwork c c') ->
  pause_lock c = Some (Mon Paused) \/ unanswered c.
Proof.
  intros I P N. pose proof (pv_count _ I) as C. destruct c as [vs h e mx]. unfold pausing, counted in *. cbn in *.
  destruct h as [[[i k|k| |l] | ]|]; try contradiction; [| |now left].
  - destruct (decide (i < length vs)%nat) as [L|L].
    + apply lookup_lt_is_Some_2 in L as [v E]. destruct (scan_vcpu v k) as [v' k'] eqn:S.
      exfalso. eapply N, p_scan; eassumption.
    + replace i with (length vs) in * by lia. exfalso. eapply N. apply p_scanned.
  - right. destruct (Z.le_gt_cases (Z.of_nat (length vs)) k) as [L|L]; [exfalso; eapply N; now apply p_done|].
    destruct (Z.lt_ge_cases 0 e) as [Le|Le]; [exfalso; eapply N; now apply p_read|].
    destruct (inflights_some vs) as (i & v & E & F); [lia|].
    destruct (inflight_moves _ _ _ _ _ _ I E F) as [G|[c' W]]; [now exists i, v|exfalso; exact (N c' W)].
Qed.

(** C22. [kvm__pause] returns: once it holds the lock, its loops and the handlers it
    waits for make no infinite run, and when they can do nothing more the guest is
    stopped. The one exception is a vCPU thread that has returned from
    [kvm_cpu__start] without handling the signal that was sent to it because
    [is_running] was set (after a shutdown exit, say): the signal is never answered
    and [kvm__pause] waits for ever. *)
Theorem pause_completes (c : pconf) (H : pausable c) (P : pausing c) :
  sn pwork c /\
  forall c', rtc pwork c c' -> (forall c'', ~ pwork c' c'') ->
    pause_lock c' = Some (Mon Paused) \/ unanswered c'.
Proof.
  apply pausable_inv in H. split.
  - clear H P. remember (pause_measure c) as n eqn:E. revert c E.
    induction (lt_wf n) as [n _ IH]. intros c ->. constructor. intros c' W.
    eapply IH; [exact (pwork_measure _ _ W)|reflexivity].
  - intros c' R N. induction R as [c|c c1 c' W R IH]; [now apply pause_stuck|].
    apply IH; [exact (work_inv _ _ H W)|exact (pwork_pausing _ _ W P)|exact N].
Qed.

(** ** Forking a stopped VM *)

(** A vCPU in the child: [kvm_cpu__arch_post_copy] sets [is_running] and
    [kvm_cmd_run_work] starts a thread for it; nothing resets [paused]. *)
Definition revive (v : vcpu) : vcpu := mkvcpu Loop true (paused v) false.

(** The child: memory is copied when the pre-copy hooks have taken their mutexes;
    the post-copy hooks release those and [kvm__continue] releases [pause_lock]. No
    other thread survives, and what it held stays locked. *)
Definition fork_vm (c : pconf) : pconf :=
  mkpconf (map revive (vcpus c)) None 0
    (fun m => match mutexes c m with Some ByMon | None => None | Some _ => Some ByDead end).

(** A vCPU that no pause reaches. *)
Definition unreachable (v : vcpu) : Prop := paused v = true /\ pending v = false /\ (pc v = Loop \/ pc v = Gone).

Lemma unreachable_work j c c' v : vcpus c !! j = Some v -> unreachable v -> pwork c c' ->
  exists v', vcpus c' !! j = Some v' /\ unreachable v'.
Proof.
  intros E U W. destruct W as [vs e mx i k w w' k' Ei S|vs e mx k|vs e mx k Lt Pe|vs e mx k Le
    |vs h e mx i w w' Ei P Q H|vs h e mx i w Ei P]; cbn in *; try (now exists v);
    (destruct (decide (i = j)) as [->|N]; [rewrite E in Ei; injection Ei as <-|
     exists v; rewrite list_lookup_insert_ne by assumption; now split]).
  - exists w'. rewrite list_lookup_insert_eq by (eapply lookup_lt_Some; exact E). split; [reflexivity|].
    destruct U as (A & B & D), (scan_vcpu_spec _ _ _ _ S) as (_ & _ & _ & [(_ & _ & _ & F)|(-> & _)]); [congruence|].
    now repeat split.
  - destruct U as (A & B & _). congruence.
  - destruct U as (_ & _ & [D|D]); congruence.
Qed.

Lemma unreachable_step j c c' v : vcpus c !! j = Some v -> unreachable v -> pstep c c' ->
  exists v', vcpus c' !! j = Some v' /\ unreachable v'.
Proof.
  intros E U W. destruct W as [c c' W|vs e mx i w Ei P|vs e mx i w Ei P|vs h e mx i w Ei|vs h e mx i w Ei P
    | | | | | | | | |]; cbn in *; [exact (unreachable_work _ _ _ _ E U W)|..]; try (now exists v);
    (destruct (decide (i = j)) as [->|N]; [rewrite E in Ei; injection Ei as <-|
     exists v; rewrite list_lookup_insert_ne by assumption; now split]).
  - destruct U as (_ & _ & [D|D]); congruence.
  - destruct U as (_ & _ & [D|D]); congruence.
  - eexists. rewrite list_lookup_insert_eq by (eapply lookup_lt_Some; exact E). split; [reflexivity|exact U].
  - eexists. rewrite list_lookup_insert_eq by (eapply lookup_lt_Some; exact E). split; [reflexivity|].
    destruct U as (A & B & _). repeat split; auto.
Qed.

(** [kvm__pause] when it signals nobody. *)
Lemma scan_all vs mx : Forall (fun v => paused v = true) vs -> forall i, (i <= length vs)%nat ->
  rtc pstep (mkpconf vs (Some (Mon (Scan 0 0))) 0 mx) (mkpconf vs (Some (Mon (Scan i (Z.of_nat i)))) 0 mx).
Proof.
  intros F. induction i as [|i IH]; intros Hi; [reflexivity|].
  eapply rtc_r; [apply IH; lia|]. destruct (lookup_lt_is_Some_2 vs i ltac:(lia)) as [v E].
  replace vs with (<[i := v]> vs) at 2 by now apply list_insert_id.
  apply p_work, (p_scan _ _ _ _ _ v); [exact E|].
  rewrite Forall_lookup in F. unfold scan_vcpu. rewrite (F _ _ E), andb_false_r. do 2 f_equal. lia.
Qed.

Lemma pause_nobody vs mx : Forall (fun v => paused v = true) vs ->
  rtc pstep (mkpconf vs None 0 mx) (mkpconf vs (Some (Mon Paused)) 0 mx).
Proof.
  intros F. eapply rtc_l; [apply p_pause|]. etrans; [exact (scan_all vs mx F (length vs) (le_n _))|].
  eapply rtc_l; [apply p_work, p_scanned|]. apply rtc_once, p_work, p_done. lia.
Qed.

(** A forked VM cannot be stopped. Every vCPU that was waiting for the lock when
    the VM was forked keeps [paused] set in the child although its new thread runs,
    and no run of the child ever signals it: whenever [kvm__pause] has returned
    there, the vCPU is in the guest or has returned. If all vCPUs were running,
    [kvm__pause] in the child returns at once with every one of them in the guest:
    pausing it, changing its port and MMIO tables and forking it again all happen
    under a running guest. *)
Theorem forked_vm_never_stops (c : pconf) (H : pausable c) (F : pause_lock c = Some (Mon (Hooks []))) :
  (forall i v, vcpus c !! i = Some v -> pc v = Blocked ->
     forall c', rtc pstep (fork_vm c) c' ->
     exists v', vcpus c' !! i = Some v' /\ (pc v' = Loop \/ pc v' = Gone) /\ pending v' = false) /\
  ((forall i v, vcpus c !! i = Some v -> pc v = Blocked) ->
   exists c', rtc pstep (fork_vm c) c' /\ pause_lock c' = Some (Mon Paused) /\
     Forall (fun v => pc v = Loop /\ is_running v = true) (vcpus c')).
Proof.
  apply pausable_inv in H. assert (B : forall i v, vcpus c !! i = Some v -> pc v = Blocked -> paused v = true).
  { intros i v E P. pose proof (pv_good _ H _ _ E) as G. unfold vgood in G. rewrite P in G. apply G. }
  split.
  - intros i v E P c' R. assert (U : exists w, vcpus (fork_vm c) !! i = Some w /\ unreachable w).
    { exists (revive v). cbn. rewrite list_lookup_fmap, E. split; [reflexivity|].
      split; [exact (B _ _ E P)|]. split; [reflexivity|now left]. }
    clear E P. induction R as [d|d d1 d2 S _ IH].
    + destruct U as (w & E & A & D & L). now exists w.
    + apply IH. destruct U as (w & E & U). exact (unreachable_step _ _ _ _ E U S).
  - intros A. eexists. split; [|split].
    + unfold fork_vm. apply pause_nobody. apply Forall_lookup. intros i v E.
      rewrite list_lookup_fmap in E. apply fmap_Some in E as (w & E & ->). exact (B _ _ E (A _ _ E)).
    + reflexivity.
    + cbn. apply Forall_map, Forall_true. now split.
Qed.

Lemma blocked_insert (vs : list vcpu) i v j w w' : vs !! i = Some v -> pc v = Blocked -> vs !! j = Some w ->
  (pc w = Blocked -> pc w' = Blocked) -> exists v', <[j := w']> vs !! i = Some v' /\ pc v' = Blocked.
Proof.
  intros E P Ej K. destruct (decide (j = i)) as [->|N].
  - exists w'. rewrite list_lookup_insert_eq by (eapply lookup_lt_Some; exact E). split; [reflexivity|].
    apply K. congruence.
  - exists v. rewrite list_lookup_insert_ne by assumption. now split.
Qed.

Lemma setm_other f m o m' x : f m' = Some x -> f m <> Some x -> setm f m o m' = Some x.
Proof. intros E N. unfold setm. rewrite decide_False; [exact E|congruence]. Qed.

(** The cycle of [fork_hook_deadlock]. *)
Definition deadlocked (m : nat) (l : list nat) (i : nat) (c : pconf) : Prop :=
  pause_lock c = Some (Mon (Hooks (m :: l))) /\ mutexes c m = Some (ByVcpu i) /\
  exists v, vcpus c !! i = Some v /\ pc v = Blocked.

Lemma deadlocked_step m l i c c' : deadlocked m l i c -> pstep c c' -> deadlocked m l i c'.
Proof.
  intros (L & M & v & E & P) S. destruct S as [c c' W|vs e mx j w Ej Q|vs e mx j w Ej Q|vs h e mx j w Ej|vs h e mx j w Ej Q
    |vs h e mx j w m' Ej Q A|vs h e mx j w m' Ej Q A|vs h e mx m' A|vs h e mx m' A|vs e mx|vs e mx|vs e mx l'
    |vs e mx m' l' A|vs e mx mx' A]; cbn in *; try congruence.
  - destruct W as [vs e mx j k w w' k' Ej S|vs e mx k|vs e mx k Lt Pe|vs e mx k Le
      |vs h e mx j w w' Ej A B C|vs h e mx j w Ej A]; cbn in *; try congruence;
      (split; [exact L|split; [exact M|]]; eapply blocked_insert; try eassumption; congruence).
  - split; [exact L|split; [exact M|]]. eapply blocked_insert; try eassumption. auto.
  - split; [exact L|split; [exact M|]]. eapply blocked_insert; try eassumption. congruence.
  - split; [exact L|split; [apply setm_other; [exact M|congruence]|now exists v]].
  - split; [exact L|split; [apply setm_other; [exact M|]|now exists v]].
    intros C. replace j with i in Ej by congruence. congruence.
  - split; [exact L|split; [apply setm_other; [exact M|congruence]|now exists v]].
  - split; [exact L|split; [apply setm_other; [exact M|congruence]|now exists v]].
Qed.

(** Forking can deadlock: the signal stops a vCPU wherever it is, also while it
    holds a device mutex in the emulation of an exit. When a pre-copy hook needs
    that mutex, the monitor waits for the vCPU, and the vCPU waits for [pause_lock],
    which the monitor holds: no run whatever changes either. *)
Theorem fork_hook_deadlock (c : pconf) m l i v (H : pausable c) :
  pause_lock c = Some (Mon (Hooks (m :: l))) -> mutexes c m = Some (ByVcpu i) ->
  vcpus c !! i = Some v -> pc v = Blocked ->
  forall c', rtc pstep c c' ->
    deadlocked m l i c'.
Proof.
  intros L M E P c' R. assert (D : deadlocked m l i c) by (split; [|split]; eauto).
  clear -R D. induction R as [d|d d1 d2 S _ IH]; [exact D|]. exact (IH (deadlocked_step _ _ _ _ _ D S)).
Qed.

(** ** A VM with one vCPU *)

Definition halted : vcpu := mkvcpu Blocked true true false.

Lemma pausable_rtc c c' : pausable c -> rtc pstep c c' -> pausable c'.
Proof. intros H R. induction R as [c|c c1 c' S _ IH]; [exact H|]. apply IH. exact (pa_step _ _ H S). Qed.

Lemma stop_one mx :
  rtc pstep (mkpconf [fresh_vcpu] None 0 mx) (mkpconf [halted] (Some (Mon Paused)) 0 mx).
Proof.
  eapply rtc_l; [apply p_pause|].
  eapply rtc_l; [eapply p_work, p_scan; reflexivity|].
  eapply rtc_l; [eapply p_work, (p_signal _ _ _ _ 0); reflexivity|].
  eapply rtc_l; [eapply p_work, (p_write _ _ _ _ 0); reflexivity|].
  eapply rtc_l; [eapply p_work, p_scanned|].
  eapply rtc_l; [eapply p_work, p_read; cbn; lia|].
  apply rtc_once, p_work, p_done. cbn. lia.
Qed.

Lemma stopped_demo mx : pausable (mkpconf [halted] (Some (Mon Paused)) 0 mx).
Proof. exact (pausable_rtc _ _ (pa_start 1 0 mx) (stop_one mx)). Qed.

Definition no_mutex (m : nat) : option owner := None.


Lemma pause_completes_witness :
  sn pwork (mkpconf [fresh_vcpu] (Some (Mon (Scan 0 0))) 0 no_mutex).
Proof.
  destruct (pause_completes (mkpconf [fresh_vcpu] (Some (Mon (Scan 0 0))) 0 no_mutex)) as [S _].
  - eapply pa_step; [exact (pa_start 1 0 no_mutex)|apply p_pause].
  - exact I.
  - exact S.
Defined.

Lemma forked_vm_never_stops_witness :
  exists c', rtc pstep (mkpconf [mkvcpu Loop true true false] None 0 no_mutex) c' /\
    pause_lock c' = Some (Mon Paused) /\ Forall (fun v => pc v = Loop /\ is_running v = true) (vcpus c').
Proof.
  destruct (forked_vm_never_stops (mkpconf [halted] (Some (Mon (Hooks []))) 0 no_mutex)) as [_ S].
  - eapply pa_step; [exact (stopped_demo no_mutex)|apply p_fork].
  - reflexivity.
  - apply S. intros [|i] v E; [injection E as <-; reflexivity|discriminate].
Defined.

(** The vCPU was stopped with mutex 3 in its hands, which the next hook needs. *)
Definition waiting_demo : pconf :=
  mkpconf [halted] (Some (Mon (Hooks [3%nat]))) 0 (setm no_mutex 3 (Some (ByVcpu 0))).

Lemma waiting_demo_pausable : pausable waiting_demo.
Proof.
  eapply pa_step; [|apply p_fork]. eapply pausable_rtc; [|apply stop_one].
  eapply pa_step; [exact (pa_start 1 0 no_mutex)|]. apply (p_lock _ _ _ _ 0 fresh_vcpu 3); reflexivity.
Qed.

Lemma fork_hook_deadlock_witness :
  pausable waiting_demo /\ forall c', rtc pstep waiting_demo c' -> deadlocked 3 [] 0 c'.
Proof.
  split; [exact waiting_demo_pausable|]. apply (fork_hook_deadlock waiting_demo 3 [] 0 halted).
  - exact waiting_demo_pausable.
  - reflexivity.
  - reflexivity.
  - reflexivity.
  - reflexivity.
Defined.
