(* ===== verification/Ipc.v ===== *)
(** * The command socket (kvm-ipc.c)

    Messages of the command-line tools: framing, the handler table and the
    handlers, in particular pausing, resuming and forking the guest. A connection
    is a [host] stream; what a handler does outside of this file is an [event]. The
    epoll loop, creating the socket and threads are left out. *)
From stdpp Require Import gmap.
From S2P Require Import Prelude.
From S2P Require Import ReadWrite.
Open Scope Z_scope.

Definition KVM_IPC_DEBUG : Z := 2.
Definition KVM_IPC_PAUSE : Z := 4.
Definition KVM_IPC_RESUME : Z := 5.
Definition KVM_IPC_STOP : Z := 6.
Definition KVM_IPC_PID : Z := 7.
Definition KVM_IPC_VMSTATE : Z := 8.
Definition KVM_IPC_FORK : Z := 9.
Definition KVM_IPC_MAX_MSGS : Z := 16.
Definition KVM_VMSTATE_RUNNING : Z := 0.
Definition KVM_VMSTATE_PAUSED : Z := 1.
Definition KVM_DEBUG_CMD_TYPE_DUMP : Z := 1.
Definition KVM_DEBUG_CMD_TYPE_NMI : Z := 2.
Definition KVM_DEBUG_CMD_TYPE_SYSRQ : Z := 4.
Definition ENODEV : Z := 19.

(** [Forked detach name held]: [kvm__fork], and whether the guest was stopped by
    this thread; [Device n]: the callback that a device has registered. *)
Inductive event :=
| Reboot
| Forked (detach_term : bool) (new_name : option (list Z)) (held : bool)
| Sysrq (c : Z)
| Nmi (cpu : Z)
| Dump (cpu : Z)
| CloseFd
| Device (n : nat) (type : Z) (msg : list Z).

(** The callbacks of [msgs], by name. *)
Inductive callback :=
| kvm__pid | handle_debug | handle_pause | handle_fork | handle_stop | handle_vmstate
| device_callback (n : nat).

(** The variables of the file and the parts of [struct kvm] it uses. [pause_held]:
    this thread holds [pause_lock]. [sent]: the bytes written to the client. *)
Record ipc := mkipc {
  msgs : gmap Z callback;
  is_paused : bool;
  vm_state : Z;
  pause_held : bool;
  nrcpus : Z;
  sent : list Z;
  events : list event;
}.

Definition set_msgs (s : ipc) (t : gmap Z callback) : ipc :=
  mkipc t (is_paused s) (vm_state s) (pause_held s) (nrcpus s) (sent s) (events s).
Definition set_is_paused (s : ipc) (b : bool) : ipc :=
  mkipc (msgs s) b (vm_state s) (pause_held s) (nrcpus s) (sent s) (events s).
Definition set_vm_state (s : ipc) (v : Z) : ipc :=
  mkipc (msgs s) (is_paused s) v (pause_held s) (nrcpus s) (sent s) (events s).
Definition set_pause_held (s : ipc) (b : bool) : ipc :=
  mkipc (msgs s) (is_paused s) (vm_state s) b (nrcpus s) (sent s) (events s).
Definition reply (s : ipc) (bs : list Z) : ipc :=
  mkipc (msgs s) (is_paused s) (vm_state s) (pause_held s) (nrcpus s) (sent s ++ bs) (events s).
Definition emit (s : ipc) (e : event) : ipc :=
  mkipc (msgs s) (is_paused s) (vm_state s) (pause_held s) (nrcpus s) (sent s) (events s ++ [e]).

(** [kvm__pause]: a thread that holds the lock waits for itself. *)
Definition kvm__pause (s : ipc) : out ipc :=
  if pause_held s then NoFuel else Ret (set_pause_held s true).

(** [kvm__continue]: unlocking a mutex that is not held is undefined. *)
Definition kvm__continue (s : ipc) : out ipc :=
  if pause_held s then Ret (set_pause_held s false) else Ub.

(** [kvm__fork] as seen by the parent. *)
Definition kvm__fork (s : ipc) (detach_term : bool) (new_name : option (list Z)) : ipc :=
  emit s (Forked detach_term new_name (pause_held s)).

Definition kvm_ipc__register_handler (type : Z) (cb : callback) (s : ipc) : Z * ipc :=
  if KVM_IPC_MAX_MSGS <=? type then (- ENOSPC, s) else (0, set_msgs s (<[type := cb]> (msgs s))).

(** ** Handlers *)

(** Reading a field of a message: outside of its buffer it is undefined. *)
Definition field (off n : nat) (msg : list Z) : out Z :=
  if (off + n <=? length msg)%nat then Ret (le_dec (slice off n msg)) else Ub.

Section handlers.
(** [getpid]. *)
Variable pid : Z.
(** Whether an allocation of that size succeeds, and what it contains. *)
Variable malloc : Z -> bool.
Variable fresh : nat -> list Z.

Definition run_pid (s : ipc) (type : Z) : ipc :=
  if type =? KVM_IPC_PID then reply s (le_enc 4 pid) else s.

Definition run_stop (s : ipc) (type len : Z) : ipc :=
  if (negb (type =? KVM_IPC_STOP) || negb (len =? 0))%bool then s else emit s Reboot.

Definition run_pause (s : ipc) (type len : Z) : out ipc :=
  if negb (len =? 0) then Ret s
  else if ((type =? KVM_IPC_RESUME) && is_paused s)%bool then
    let s := set_vm_state s KVM_VMSTATE_RUNNING in
    let! s := kvm__continue s in
    Ret (set_is_paused s (negb (is_paused s)))
  else if ((type =? KVM_IPC_PAUSE) && negb (is_paused s))%bool then
    let s := set_vm_state s KVM_VMSTATE_PAUSED in
    let! s := kvm__pause s in
    Ret (set_is_paused s (negb (is_paused s)))
  else Ret s.

(** [struct fork_cmd_params]: a flag at 0, the length of the name at 4, the name
    at 8. The length is not compared with the length of the message. *)
Definition run_fork (s : ipc) (msg : list Z) : out ipc :=
  let! d := field 0 1 msg in
  let! n := field 4 4 msg in
  let! new_name :=
    if 0 <? n then
      if negb (malloc (u32 (n + 1))) then Ub
      else if (8 + Z.to_nat n <=? length msg)%nat then Ret (Some (slice 8 (Z.to_nat n) msg)) else Ub
    else Ret None in
  let! s := if is_paused s then Ret s else kvm__pause (set_vm_state s KVM_VMSTATE_PAUSED) in
  let s := kvm__fork s (negb (d =? 0)) new_name in
  kvm__continue (set_vm_state s KVM_VMSTATE_RUNNING).

Definition run_vmstate (s : ipc) (type : Z) : ipc :=
  if type =? KVM_IPC_VMSTATE then reply s (le_enc 4 (vm_state s)) else s.

(** Every vCPU prints its state when it is asked to. *)
Definition dump_all (s : ipc) : ipc :=
  emit (emit (foldl (fun s i => emit s (Dump (Z.of_nat i))) s (seq 0 (Z.to_nat (nrcpus s)))) CloseFd) (Sysrq 112).

Definition debug_dump (dbg_type : Z) (s : ipc) : ipc :=
  if flag dbg_type KVM_DEBUG_CMD_TYPE_DUMP then dump_all s else s.

(** [vcpu] is compared as an [int] but used as an index as it is. *)
Definition run_debug (s : ipc) (type len : Z) (msg : list Z) : out ipc :=
  if (negb (type =? KVM_IPC_DEBUG) || negb (len =? 12))%bool then Ret s
  else
    let! dbg_type := field 0 4 msg in
    let! vcpu := field 4 4 msg in
    let! c := field 8 1 msg in
    let s := if flag dbg_type KVM_DEBUG_CMD_TYPE_SYSRQ then emit s (Sysrq c) else s in
    if flag dbg_type KVM_DEBUG_CMD_TYPE_NMI then
      if nrcpus s <=? s32 vcpu then Ret s
      else if nrcpus s <=? vcpu then Ub
      else Ret (debug_dump dbg_type (emit s (Nmi vcpu)))
    else Ret (debug_dump dbg_type s).

Definition run_callback (cb : callback) (s : ipc) (type len : Z) (msg : list Z) : out ipc :=
  match cb with
  | kvm__pid => Ret (run_pid s type)
  | handle_debug => run_debug s type len msg
  | handle_pause => run_pause s type len
  | handle_fork => run_fork s msg
  | handle_stop => Ret (run_stop s type len)
  | handle_vmstate => Ret (run_vmstate s type)
  | device_callback n => Ret (emit s (Device n type msg))
  end.

Definition kvm_ipc__handle (s : ipc) (type len : Z) (msg : list Z) : out (Z * ipc) :=
  if KVM_IPC_MAX_MSGS <=? type then Ret (- ENOSPC, s)
  else match msgs s !! type with
       | None => Ret (- ENODEV, s)
       | Some cb => let! s := run_callback cb s type len msg in Ret (0, s)
       end.

(** ** Messages *)

(** One message of a connection; the buffer of the body is not freed. *)
Definition kvm_ipc__receive (s : ipc) (h : host) : out (Z * ipc * host) :=
  let '(n, _, head, h) := sys_read h 8 in
  if negb (u32 n =? 8) then Ret (-1, s, h)
  else
    let type := le_dec (take 4 head) in
    let len := le_dec (drop 4 head) in
    if negb (malloc len) then Ret (-1, s, h)
    else
      let '(n, data, h) := read_in_full h (Z.to_nat len) in
      if negb (u32 n =? len) then Ret (-1, s, h)
      else
        let msg := data ++ fresh (Z.to_nat len - length data) in
        let! (_, s) := kvm_ipc__handle s type len msg in
        Ret (0, s, h).

(** The loop over a new connection in [kvm_ipc__thread]: each round but the last
    takes eight bytes off the stream. *)
Fixpoint receive_loop (fuel : nat) (s : ipc) (h : host) : out (ipc * host) :=
  match fuel with
  | O => NoFuel
  | S fuel =>
      let! (r, s, h) := kvm_ipc__receive s h in
      if r =? 0 then receive_loop fuel s h else Ret (s, h)
  end.

(** [kvm_ipc__send] and [kvm_ipc__send_msg], on the other side. *)
Definition kvm_ipc__send (h : host) (type : Z) : Z * host :=
  let '(r, h) := write_in_full h (le_enc 4 type ++ le_enc 4 0) in
  (if r <? 0 then -1 else 0, h).

Definition kvm_ipc__send_msg (h : host) (type len : Z) (msg : list Z) : Z * host :=
  let '(r, h) := write_in_full h (le_enc 4 type ++ le_enc 4 len) in
  if r <? 0 then (-1, h)
  else let '(r, h) := write_in_full h msg in (if r <? 0 then -1 else 0, h).
End handlers.

(** The registrations of [kvm_ipc__init]. *)
Definition ipc_handlers : list (Z * callback) :=
  [(KVM_IPC_PID, kvm__pid); (KVM_IPC_DEBUG, handle_debug); (KVM_IPC_PAUSE, handle_pause); (KVM_IPC_RESUME, handle_pause);
   (KVM_IPC_FORK, handle_fork); (KVM_IPC_STOP, handle_stop); (KVM_IPC_VMSTATE, handle_vmstate)].

Definition register_all (s : ipc) : ipc :=
  foldl (fun s x => snd (kvm_ipc__register_handler (fst x) (snd x) s)) s ipc_handlers.

(** ** Streams without faults *)

Definition stream (content : list Z) (pos : nat) : host := mkhost content (Z.of_nat pos) [].

Lemma read_stream l bs n : (Z.of_nat (length l + length bs) < 2 ^ 63) ->
  sys_read (stream (l ++ bs) (length l)) n =
  (Z.of_nat (length (take n bs)), 0, take n bs, stream (l ++ bs) (length l + length (take n bs))).
Proof.
  intros H. unfold sys_read, sys_pread, stream. cbn.
  unfold off_t. rewrite swrap_id by lia. rewrite (proj2 (Z.ltb_ge (Z.of_nat (length l)) 0)) by lia.
  unfold slice. rewrite Nat2Z.id, drop_app_length. cbn.
  rewrite (proj2 (Z.ltb_ge (Z.of_nat (length (take n bs))) 0)) by lia.
  unfold set_pos, set_script. cbn. do 2 f_equal. lia.
Qed.

Lemma read_full_stream l bs n : (n <= length bs)%nat -> Z.of_nat (length l + length bs) < 2 ^ 63 ->
  read_in_full (stream (l ++ bs) (length l)) n = (Z.of_nat n, take n bs, stream (l ++ bs) (length l + n)).
Proof.
  intros Hn Hl. unfold read_in_full. destruct n as [|n].
  - cbn. unfold stream. now rewrite Nat.add_0_r.
  - change (read_loop (S (S n)) ?h (S n) 0 []) with
      (let '(nr, _, data, h') := xread h (S n) in
       if nr <=? 0 then Some (if 0 <? 0 then 0 else -1, [], h')
       else read_loop (S n) h' (S n - Z.to_nat nr) (0 + nr) ([] ++ data)).
    unfold xread. change (xread_loop (length (script (stream (l ++ bs) (length l))))) with (xread_loop 0).
    change (xread_loop 0 ?h ?c) with (let '(nr, errno, data, h') := sys_read h c in (nr, errno, data, h')).
    rewrite read_stream by exact Hl. rewrite length_take, Nat.min_l by exact Hn.
    rewrite (proj2 (Z.leb_gt (Z.of_nat (S n)) 0)) by lia.
    rewrite Nat2Z.id, Nat.sub_diag. reflexivity.
Qed.

(** A message as it travels. *)
Definition wire_msg (x : Z * list Z) : list Z := le_enc 4 (fst x) ++ le_enc 4 (Z.of_nat (length (snd x))) ++ snd x.

Definition msg_fits (x : Z * list Z) : Prop := fits 32 (fst x) /\ Z.of_nat (length (snd x)) < 2 ^ 32.

Lemma length_wire x : length (wire_msg x) = (8 + length (snd x))%nat.
Proof. unfold wire_msg. rewrite !length_app, !length_le_enc. lia. Qed.

Lemma write_at_end c bs : write_at (length c) bs c = c ++ bs.
Proof.
  unfold write_at. destruct bs as [|b bs]; [now rewrite app_nil_r|].
  rewrite Nat.sub_diag. cbn [replicate]. rewrite app_nil_r, take_ge by lia. rewrite drop_ge by lia. now rewrite app_nil_r.
Qed.

Lemma write_full_stream c bs : Z.of_nat (length c) < 2 ^ 63 ->
  write_in_full (stream c (length c)) bs = (Z.of_nat (length bs), stream (c ++ bs) (length (c ++ bs))).
Proof.
  intros Hc. unfold write_in_full. destruct bs as [|b bs]; [cbn; unfold stream; now rewrite app_nil_r|].
  change (write_loop (S (length (b :: bs))) ?h (b :: bs) 0) with
    (let '(nr, _, h') := xwrite h (b :: bs) in
     if nr <=? 0 then Some (-1, h')
     else write_loop (length (b :: bs)) h' (drop (Z.to_nat nr) (b :: bs)) (0 + nr)).
  unfold xwrite, stream. cbn [script xwrite_loop length]. unfold sys_write, sys_pwrite. cbn [script next_limit set_script content pos tl].
  unfold off_t. rewrite swrap_id by lia. rewrite (proj2 (Z.ltb_ge (Z.of_nat (length c)) 0)) by lia.
  rewrite Nat2Z.id, firstn_all, write_at_end.
  rewrite (proj2 (Z.ltb_ge (Z.of_nat (length (b :: bs))) 0)) by lia.
  rewrite (proj2 (Z.leb_gt (Z.of_nat (length (b :: bs))) 0)) by (cbn [length]; lia).
  rewrite Nat2Z.id, drop_all. cbn [write_loop length]. unfold set_pos, set_content. cbn. do 2 f_equal.
  rewrite length_app. cbn. lia.
Qed.

Lemma send_msg_stream c x : Z.of_nat (length (c ++ wire_msg x)) < 2 ^ 63 ->
  kvm_ipc__send_msg (stream c (length c)) (fst x) (Z.of_nat (length (snd x))) (snd x) =
  (0, stream (c ++ wire_msg x) (length (c ++ wire_msg x))).
Proof.
  intros H. rewrite length_app, length_wire in H. unfold kvm_ipc__send_msg. rewrite write_full_stream by lia.
  rewrite (proj2 (Z.ltb_ge (Z.of_nat _) 0)) by lia.
  rewrite write_full_stream by (rewrite !length_app, !length_le_enc; lia).
  rewrite (proj2 (Z.ltb_ge (Z.of_nat _) 0)) by lia. unfold wire_msg. now rewrite <- !app_assoc.
Qed.

(** A client that sends messages one after the other. *)
Fixpoint send_all (h : host) (ms : list (Z * list Z)) : list Z * host :=
  match ms with
  | [] => ([], h)
  | x :: ms =>
      let '(r, h) := kvm_ipc__send_msg h (fst x) (Z.of_nat (length (snd x))) (snd x) in
      let '(rs, h) := send_all h ms in (r :: rs, h)
  end.

Lemma send_all_stream ms : forall c, Z.of_nat (length (c ++ flat_map wire_msg ms)) < 2 ^ 63 ->
  send_all (stream c (length c)) ms =
  (repeat 0 (length ms), stream (c ++ flat_map wire_msg ms) (length (c ++ flat_map wire_msg ms))).
Proof.
  induction ms as [|x ms IH]; intros c H; cbn [send_all flat_map length repeat] in *; [now rewrite app_nil_r|].
  rewrite app_assoc in H. rewrite send_msg_stream by (rewrite length_app in H; lia).
  rewrite IH by exact H. now rewrite <- app_assoc.
Qed.

Section session.
Variable pid : Z.
Variable malloc : Z -> bool.
Variable fresh : nat -> list Z.
Hypothesis malloc_ok : forall n, 0 <= n < 2 ^ 32 -> malloc n = true.
Hypothesis fresh_ok : forall n, length (fresh n) = n.

Lemma receive_message s l x rest : msg_fits x -> Z.of_nat (length l + length (wire_msg x ++ rest)) < 2 ^ 63 ->
  kvm_ipc__receive pid malloc fresh s (stream (l ++ wire_msg x ++ rest) (length l)) =
  (let! (_, s) := kvm_ipc__handle pid malloc s (fst x) (Z.of_nat (length (snd x))) (snd x) in
   Ret (0, s, stream (l ++ wire_msg x ++ rest) (length (l ++ wire_msg x)))).
Proof.
  intros [Ft Fl] Hl. destruct x as [t b]. cbn [fst snd] in *. unfold kvm_ipc__receive.
  rewrite read_stream by exact Hl.
  assert (E : take 8 (wire_msg (t, b) ++ rest) = le_enc 4 t ++ le_enc 4 (Z.of_nat (length b))).
  { unfold wire_msg. cbn [fst snd]. rewrite <- !app_assoc, (app_assoc (le_enc 4 t)).
    apply take_app_length'. now rewrite length_app, !length_le_enc. }
  rewrite E, length_app, !length_le_enc. cbn [Nat.add]. change (negb (u32 (Z.of_nat 8) =? 8)) with false. cbv iota.
  rewrite take_app_length' by now rewrite length_le_enc. rewrite drop_app_length' by now rewrite length_le_enc.
  rewrite !le_dec_enc. change (8 * Z.of_nat 4) with 32. rewrite !wrap_id by (unfold fits in *; lia). rewrite malloc_ok by lia. cbn [negb].
  rewrite Nat2Z.id.
  replace (stream (l ++ wire_msg (t, b) ++ rest) (length l + 8))
    with (stream ((l ++ le_enc 4 t ++ le_enc 4 (Z.of_nat (length b))) ++ b ++ rest)
            (length (l ++ le_enc 4 t ++ le_enc 4 (Z.of_nat (length b))))).
  2:{ unfold wire_msg. cbn [fst snd]. rewrite <- !app_assoc. f_equal. rewrite !length_app, !length_le_enc. lia. }
  rewrite read_full_stream.
  - rewrite wrap_id by (unfold fits; lia).
    rewrite Z.eqb_refl. cbn [negb]. rewrite take_app_length' by reflexivity. rewrite Nat.sub_diag.
    rewrite (nil_length_inv (fresh 0)), app_nil_r by apply fresh_ok.
    destruct (kvm_ipc__handle pid malloc s t _ b) as [[r s']| |]; [|reflexivity|reflexivity].
    do 2 f_equal. unfold wire_msg. cbn [fst snd]. rewrite <- !app_assoc. f_equal. rewrite !length_app, !length_le_enc. lia.
  - rewrite length_app. lia.
  - rewrite !length_app, !length_le_enc in *. rewrite length_wire in Hl. cbn [snd] in Hl. lia.
Qed.

(** The messages of a connection, handled one after the other. *)
Fixpoint handle_all (s : ipc) (ms : list (Z * list Z)) : out ipc :=
  match ms with
  | [] => Ret s
  | x :: ms =>
      let! (_, s) := kvm_ipc__handle pid malloc s (fst x) (Z.of_nat (length (snd x))) (snd x) in
      handle_all s ms
  end.

Lemma receive_all ms : forall s l, Forall msg_fits ms -> Z.of_nat (length l + length (flat_map wire_msg ms)) < 2 ^ 63 ->
  receive_loop pid malloc fresh (S (length ms)) s (stream (l ++ flat_map wire_msg ms) (length l)) =
  (let! s := handle_all s ms in Ret (s, stream (l ++ flat_map wire_msg ms) (length (l ++ flat_map wire_msg ms)))).
Proof.
  induction ms as [|x ms IH]; intros s l F Hl; cbn [flat_map handle_all] in *.
  - cbn [receive_loop]. unfold kvm_ipc__receive. rewrite read_stream by exact Hl. cbn [take length].
    rewrite app_nil_r, Nat.add_0_r. reflexivity.
  - apply Forall_cons in F as [Fx F]. cbn [length]. remember (S (length ms)) as k. cbn [receive_loop].
    rewrite receive_message by assumption.
    destruct (kvm_ipc__handle pid malloc s (fst x) _ (snd x)) as [[r s']| |]; [|reflexivity|reflexivity].
    cbn [Z.eqb]. subst k. rewrite app_assoc. rewrite IH; [reflexivity|exact F|].
    rewrite length_app in *. lia.
Qed.
End session.

(** A session on the command socket: whatever messages a client sends one after
    the other are framed and received intact: the monitor handles exactly those
    messages, in order, each with its type, length and body and by the callback
    registered for its type, and then ends the connection. *)
Theorem ipc_session pid malloc fresh s ms :
  (forall n, 0 <= n < 2 ^ 32 -> malloc n = true) -> (forall n, length (fresh n) = n) ->
  Forall msg_fits ms -> Z.of_nat (length (flat_map wire_msg ms)) < 2 ^ 63 ->
  exists h, send_all (stream [] 0) ms = (repeat 0 (length ms), h) /\
    receive_loop pid malloc fresh (S (length ms)) s (set_pos h 0) =
    (let! s := handle_all pid malloc s ms in Ret (s, h)).
Proof.
  intros M F B L. exists (stream (flat_map wire_msg ms) (length (flat_map wire_msg ms))). split.
  - exact (send_all_stream ms [] L).
  - exact (receive_all pid malloc fresh M F ms s [] B L).
Qed.

(** ** Pausing and resuming *)

(** What the three variables are meant to say. *)
Record consistent (s : ipc) : Prop := {
  c_held : pause_held s = is_paused s;
  c_state : vm_state s = if is_paused s then KVM_VMSTATE_PAUSED else KVM_VMSTATE_RUNNING;
  c_msgs : msgs s = msgs (register_all (mkipc ∅ false 0 false 0 [] []));
}.

(** The specification: a guest that is paused or not. *)
Definition pause_spec (p : bool) (x : Z * list Z) : bool :=
  match snd x with
  | [] => if fst x =? KVM_IPC_PAUSE then true else if fst x =? KVM_IPC_RESUME then false else p
  | _ => p
  end.

(** The messages that the handlers can read without leaving the buffer. *)
Definition well_formed (x : Z * list Z) : Prop :=
  0 <= fst x /\ Forall (fits 8) (snd x) /\
  (fst x = KVM_IPC_FORK ->
     (8 <= length (snd x))%nat /\ 8 + le_dec (slice 4 4 (snd x)) <= Z.of_nat (length (snd x)) < 2 ^ 32) /\
  (fst x = KVM_IPC_DEBUG -> length (snd x) = 12%nat -> le_dec (slice 4 4 (snd x)) < 2 ^ 31).

(** A fork is asked for only while the guest runs. *)
Fixpoint forks_running (p : bool) (ms : list (Z * list Z)) : Prop :=
  match ms with
  | [] => True
  | x :: ms => (fst x = KVM_IPC_FORK -> p = false) /\ forks_running (pause_spec p x) ms
  end.

Definition fork_event (held : bool) (e : event) : Prop := match e with Forked _ _ h => h = held | _ => True end.

Definition same_vars (s s' : ipc) : Prop :=
  msgs s' = msgs s /\ is_paused s' = is_paused s /\ vm_state s' = vm_state s /\ pause_held s' = pause_held s.

(** What a handler has to guarantee. *)
Definition handled (s s' : ipc) (p : bool) : Prop :=
  consistent s' /\ is_paused s' = p /\
  (Forall (fork_event true) (events s) -> Forall (fork_event true) (events s')).

Lemma handled_same s s' : consistent s -> same_vars s s' ->
  (Forall (fork_event true) (events s) -> Forall (fork_event true) (events s')) -> handled s s' (is_paused s).
Proof.
  intros [H1 H2 H3] (E1 & E2 & E3 & E4) F. split; [|split; [exact E2|exact F]].
  split; rewrite ?E1, ?E2, ?E3, ?E4; assumption.
Qed.

Lemma emit_events s e : fork_event true e -> Forall (fork_event true) (events s) -> Forall (fork_event true) (events (emit s e)).
Proof. intros H F. cbn. apply Forall_app. split; [exact F|now apply Forall_singleton]. Qed.

Lemma dump_all_same s : same_vars s (dump_all s) /\
  (Forall (fork_event true) (events s) -> Forall (fork_event true) (events (dump_all s))).
Proof.
  unfold dump_all. generalize (seq 0 (Z.to_nat (nrcpus s))). intros l.
  assert (H : forall s, same_vars s (foldl (fun s i => emit s (Dump (Z.of_nat i))) s l) /\
    (Forall (fork_event true) (events s) ->
     Forall (fork_event true) (events (foldl (fun s i => emit s (Dump (Z.of_nat i))) s l)))).
  { induction l as [|i l IH]; intros s0; cbn [foldl]; [repeat split; auto|].
    destruct (IH (emit s0 (Dump (Z.of_nat i)))) as [E F]. split; [exact E|]. intros Hf. apply F, emit_events; [exact I|exact Hf]. }
  destruct (H s) as [E F]. split; [exact E|]. intros Hf. do 2 (apply emit_events; [exact I|]). exact (F Hf).
Qed.

Section protocol.
Variable pid : Z.
Variable malloc : Z -> bool.
Hypothesis malloc_ok : forall n, 0 <= n < 2 ^ 32 -> malloc n = true.

Lemma run_pause_handled s t b : consistent s -> t = KVM_IPC_PAUSE \/ t = KVM_IPC_RESUME ->
  exists s', run_pause s t (Z.of_nat (length b)) = Ret s' /\ handled s s' (pause_spec (is_paused s) (t, b)).
Proof.
  intros C Ht. pose proof C as [H1 H2 H3]. unfold run_pause, pause_spec. cbn [fst snd].
  destruct b as [|x b].
  2:{ exists s. split; [reflexivity|]. now apply handled_same. }
  cbn [length negb Z.of_nat Z.eqb]. unfold kvm__continue, kvm__pause. cbn [set_vm_state pause_held is_paused]. rewrite H1.
  destruct Ht as [-> | ->]; destruct (is_paused s) eqn:P; cbn [andb negb Z.eqb Pos.eqb KVM_IPC_RESUME KVM_IPC_PAUSE];
    (eexists; split; [reflexivity|]); (split; [split|split]; cbn; rewrite ?P; auto; congruence).
Qed.

Lemma field_in off n l : (off + n <= length l)%nat -> field off n l = Ret (le_dec (slice off n l)).
Proof. intros H. unfold field. now rewrite (proj2 (Nat.leb_le _ _) H). Qed.

(** What [handle_fork] does with a readable message. *)
Lemma fork_params b : well_formed (KVM_IPC_FORK, b) -> exists detach name, forall s,
  run_fork malloc s b =
  (let! s := if is_paused s then Ret s else kvm__pause (set_vm_state s KVM_VMSTATE_PAUSED) in
   kvm__continue (set_vm_state (kvm__fork s detach name) KVM_VMSTATE_RUNNING)).
Proof.
  intros (_ & B & W & _). destruct (W eq_refl) as [W1 W2]. clear W. cbn [snd] in *.
  unfold run_fork. rewrite !field_in by lia. set (n := le_dec (slice 4 4 b)) in *.
  assert (Hn : 0 <= n < 2 ^ 32).
  { pose proof (le_dec_fits (slice 4 4 b) (slice_bytes 4 4 b B)) as Hf. unfold fits in Hf.
    rewrite length_slice in Hf by lia. exact Hf. }
  assert (E : exists o, (if 0 <? n then if negb (malloc (u32 (n + 1))) then Ub
      else if (8 + Z.to_nat n <=? length b)%nat then Ret (Some (slice 8 (Z.to_nat n) b)) else Ub else Ret None) = Ret o).
  { destruct (0 <? n); [|now exists None]. rewrite malloc_ok by (apply wrap_fits; lia). cbn [negb].
    rewrite (proj2 (Nat.leb_le _ _)) by lia. eauto. }
  destruct E as [o ->]. now eexists _, o.
Qed.

Lemma run_fork_paused b : well_formed (KVM_IPC_FORK, b) -> exists detach name, forall s, is_paused s = true ->
  run_fork malloc s b = kvm__continue (set_vm_state (emit s (Forked detach name (pause_held s))) KVM_VMSTATE_RUNNING).
Proof.
  intros W. destruct (fork_params b W) as (d & o & F). exists d, o. intros s P. now rewrite F, P.
Qed.

Lemma run_fork_handled s b : consistent s -> well_formed (KVM_IPC_FORK, b) -> is_paused s = false ->
  exists s', run_fork malloc s b = Ret s' /\ handled s s' false.
Proof.
  intros C W P. pose proof C as [H1 H2 H3]. destruct (fork_params b W) as (d & o & ->).
  unfold kvm__pause. cbn [set_vm_state pause_held]. rewrite P, H1, P.
  eexists. split; [reflexivity|]. split; [split; cbn; rewrite ?P; auto; congruence|]. split; [cbn; exact P|].
  intros F. cbn. apply Forall_app. split; [exact F|]. now apply Forall_singleton.
Qed.

Lemma run_debug_handled s b : consistent s -> well_formed (KVM_IPC_DEBUG, b) ->
  exists s', run_debug s KVM_IPC_DEBUG (Z.of_nat (length b)) b = Ret s' /\ handled s s' (is_paused s).
Proof.
  intros C (_ & B & _ & W). specialize (W eq_refl). cbn [snd] in *. unfold run_debug.
  change (negb (KVM_IPC_DEBUG =? KVM_IPC_DEBUG)) with false. cbn [orb].
  destruct (Z.eqb_spec (Z.of_nat (length b)) 12) as [L|L]; cbn [negb].
  2:{ exists s. split; [reflexivity|]. now apply handled_same. }
  specialize (W ltac:(lia)). rewrite !field_in by lia.
  set (s1 := if flag _ KVM_DEBUG_CMD_TYPE_SYSRQ then emit s _ else s).
  assert (H1 : same_vars s s1 /\ (Forall (fork_event true) (events s) -> Forall (fork_event true) (events s1))).
  { unfold s1. destruct (flag _ _); [|repeat split; auto]. split; [repeat split|]. now apply emit_events. }
  clearbody s1. set (dump := debug_dump (le_dec (slice 0 4 b))).
  assert (H2 : forall s, same_vars s (dump s) /\ (Forall (fork_event true) (events s) -> Forall (fork_event true) (events (dump s)))).
  { intros s0. unfold dump, debug_dump. destruct (flag _ _); [apply dump_all_same|repeat split; auto]. }
  clearbody dump. destruct H1 as [(A1 & A2 & A3 & A4) AF].
  assert (K : forall s2, same_vars s1 s2 -> (Forall (fork_event true) (events s1) -> Forall (fork_event true) (events s2)) ->
    handled s s2 (is_paused s)).
  { intros s2 (B1 & B2 & B3 & B4) BF. apply handled_same; [exact C| |tauto]. repeat split; congruence. }
  destruct (flag _ KVM_DEBUG_CMD_TYPE_NMI).
  - assert (V : 0 <= le_dec (slice 4 4 b)) by (apply (le_dec_fits _ (slice_bytes 4 4 b B))).
    rewrite swrap_id by lia. destruct (nrcpus s1 <=? le_dec (slice 4 4 b)).
    + exists s1. split; [reflexivity|]. apply K; [repeat split|auto].
    + eexists. split; [reflexivity|]. destruct (H2 (emit s1 (Nmi (le_dec (slice 4 4 b))))) as [D1 D2]. apply K; [exact D1|].
      intros F. apply D2, emit_events; [exact I|exact F].
  - exists (dump s1). split; [reflexivity|]. destruct (H2 s1). now apply K.
Qed.

Lemma handle_step s x : consistent s -> well_formed x -> (fst x = KVM_IPC_FORK -> is_paused s = false) ->
  exists r s', kvm_ipc__handle pid malloc s (fst x) (Z.of_nat (length (snd x))) (snd x) = Ret (r, s') /\
    handled s s' (pause_spec (is_paused s) x).
Proof.
  intros C W R. destruct x as [t b]. cbn [fst snd] in *. unfold kvm_ipc__handle.
  assert (T : forall p, t <> KVM_IPC_PAUSE -> t <> KVM_IPC_RESUME -> pause_spec p (t, b) = p).
  { intros p N1 N2. unfold pause_spec. cbn. destruct b; [|reflexivity].
    rewrite (proj2 (Z.eqb_neq _ _) N1), (proj2 (Z.eqb_neq _ _) N2). reflexivity. }
  destruct (Z.leb_spec KVM_IPC_MAX_MSGS t) as [L|L]; unfold KVM_IPC_MAX_MSGS in L.
  { eexists _, s. split; [reflexivity|]. rewrite T by (unfold KVM_IPC_PAUSE, KVM_IPC_RESUME; lia). now apply handled_same. }
  rewrite (c_msgs s C). pose proof (proj1 W) as T0. cbn in T0.
  assert (E : t = 4 \/ t = 5 \/ t = 9 \/ t = 2 \/ t = 6 \/ t = 7 \/ t = 8 \/
              (msgs (register_all (mkipc ∅ false 0 false 0 [] [])) !! t = None /\ t <> 4 /\ t <> 5)).
  { assert (t = 0 \/ t = 1 \/ t = 2 \/ t = 3 \/ t = 4 \/ t = 5 \/ t = 6 \/ t = 7 \/ t = 8 \/ t = 9 \/ t = 10 \/
      t = 11 \/ t = 12 \/ t = 13 \/ t = 14 \/ t = 15) as E by lia.
    repeat destruct E as [-> |E]; try tauto; subst; repeat right; (split; [vm_compute; reflexivity|split; discriminate]). }
  assert (P : forall cb, msgs (register_all (mkipc ∅ false 0 false 0 [] [])) !! t = Some cb ->
    (exists s', run_callback pid malloc cb s t (Z.of_nat (length b)) b = Ret s' /\ handled s s' (pause_spec (is_paused s) (t, b))) ->
    exists r s', match msgs (register_all (mkipc ∅ false 0 false 0 [] [])) !! t with
      | None => Ret (- ENODEV, s)
      | Some cb => let! s := run_callback pid malloc cb s t (Z.of_nat (length b)) b in Ret (0, s)
      end = Ret (r, s') /\ handled s s' (pause_spec (is_paused s) (t, b))).
  { intros cb Ec (s' & Es & Hs). rewrite Ec, Es. eauto. }
  destruct E as [-> |[-> |[-> |[-> |[-> |[-> |[-> |[E [N4 N5]]]]]]]]].
  - apply (P handle_pause eq_refl). apply run_pause_handled; [exact C|now left].
  - apply (P handle_pause eq_refl). apply run_pause_handled; [exact C|now right].
  - apply (P handle_fork eq_refl). rewrite T by discriminate. rewrite (R eq_refl). now apply run_fork_handled; [| |apply R].
  - apply (P handle_debug eq_refl). rewrite T by discriminate. now apply run_debug_handled.
  - apply (P handle_stop eq_refl). rewrite T by discriminate. eexists. split; [reflexivity|].
    unfold run_stop. destruct (_ || _)%bool; apply handled_same; try exact C; try (repeat split); auto. apply emit_events. exact I.
  - apply (P kvm__pid eq_refl). rewrite T by discriminate. eexists. split; [reflexivity|]. now apply handled_same.
  - apply (P handle_vmstate eq_refl). rewrite T by discriminate. eexists. split; [reflexivity|]. now apply handled_same.
  - rewrite E. eexists _, s. split; [reflexivity|]. rewrite T by assumption. now apply handled_same.
Qed.

Lemma handle_all_protocol ms : forall s, consistent s -> Forall well_formed ms -> forks_running (is_paused s) ms ->
  exists s', handle_all pid malloc s ms = Ret s' /\ handled s s' (foldl pause_spec (is_paused s) ms).
Proof.
  induction ms as [|x ms IH]; intros s C W R; cbn [handle_all foldl forks_running] in *.
  - exists s. split; [reflexivity|]. now apply handled_same.
  - apply Forall_cons in W as [Wx W]. destruct R as [Rx R].
    destruct (handle_step s x C Wx Rx) as (r & s1 & -> & C1 & P1 & F1). rewrite <- P1 in R.
    destruct (IH s1 C1 W R) as (s2 & -> & C2 & P2 & F2). exists s2. split; [reflexivity|]. rewrite P1 in P2.
    split; [exact C2|]. split; [exact P2|]. tauto.
Qed.
End protocol.


(** A fork while the guest is paused breaks that protocol: the guest runs again
    and is reported as running, but the flag says that it is paused. A pause is then
    ignored, a resume unlocks a mutex that is not held, and another fork copies a
    guest that nobody has stopped before it does the same. *)
Theorem fork_while_paused pid malloc s b :
  (forall n, 0 <= n < 2 ^ 32 -> malloc n = true) ->
  consistent s -> is_paused s = true -> well_formed (KVM_IPC_FORK, b) ->
  exists s1, kvm_ipc__handle pid malloc s KVM_IPC_FORK (Z.of_nat (length b)) b = Ret (0, s1) /\
    is_paused s1 = true /\ pause_held s1 = false /\ vm_state s1 = KVM_VMSTATE_RUNNING /\
    kvm_ipc__handle pid malloc s1 KVM_IPC_PAUSE 0 [] = Ret (0, s1) /\
    kvm_ipc__handle pid malloc s1 KVM_IPC_RESUME 0 [] = Ub /\
    (exists detach name, run_fork malloc s1 b =
       kvm__continue (set_vm_state (emit s1 (Forked detach name false)) KVM_VMSTATE_RUNNING)) /\
    kvm_ipc__handle pid malloc s1 KVM_IPC_FORK (Z.of_nat (length b)) b = Ub.
Proof.
  intros M [H1 H2 H3] P W. destruct (run_fork_paused malloc M b W) as (d & o & F).
  assert (L : forall t cb s0 m, KVM_IPC_MAX_MSGS <=? t = false -> msgs s0 = msgs s -> msgs s !! t = Some cb ->
    kvm_ipc__handle pid malloc s0 t (Z.of_nat (length m)) m =
    (let! s := run_callback pid malloc cb s0 t (Z.of_nat (length m)) m in Ret (0, s))).
  { intros t cb s0 m Lt Es Et. unfold kvm_ipc__handle. now rewrite Lt, Es, Et. }
  rewrite (L _ handle_fork) by (reflexivity || rewrite H3; reflexivity). cbn [run_callback]. rewrite F by exact P.
  unfold kvm__continue at 1. cbn [set_vm_state emit pause_held]. rewrite H1, P.
  eexists. split; [reflexivity|]. set (s1 := set_pause_held _ false).
  assert (Q : msgs s1 = msgs s /\ is_paused s1 = true /\ pause_held s1 = false /\ vm_state s1 = KVM_VMSTATE_RUNNING)
    by (repeat split; exact P).
  clearbody s1. destruct Q as (Q1 & Q2 & Q3 & Q4). split; [exact Q2|]. split; [exact Q3|]. split; [exact Q4|].
  split; [|split; [|split]].
  - pose proof (L KVM_IPC_PAUSE handle_pause s1 [] eq_refl Q1 ltac:(rewrite H3; reflexivity)) as E.
    cbn [length run_callback] in E. change (Z.of_nat 0) with 0 in E. rewrite E. unfold run_pause. cbn. now rewrite Q2.
  - pose proof (L KVM_IPC_RESUME handle_pause s1 [] eq_refl Q1 ltac:(rewrite H3; reflexivity)) as E.
    cbn [length run_callback] in E. change (Z.of_nat 0) with 0 in E. rewrite E. unfold run_pause, kvm__continue. cbn. rewrite Q2. cbn. now rewrite Q3.
  - exists d, o. rewrite F by exact Q2. now rewrite Q3.
  - rewrite (L KVM_IPC_FORK handle_fork s1 b eq_refl Q1) by (rewrite H3; reflexivity). cbn [run_callback]. rewrite F by exact Q2.
    unfold kvm__continue. cbn [set_vm_state emit pause_held]. now rewrite Q3.
Qed.

(** The handlers trust what a message says about itself: a fork request whose name
    is announced longer than the message, or that is shorter than its header, is
    read past its end, and a debug request for the non-maskable interrupt of a CPU
    with number 2^31 or more passes the bound check (the number is compared as a
    signed integer) and is used as an index. *)
Theorem ipc_unchecked pid malloc s b :
  msgs s = msgs (register_all (mkipc ∅ false 0 false 0 [] [])) -> 0 <= nrcpus s < 2 ^ 31 -> Forall (fits 8) b ->
  ((length b < 8)%nat \/ Z.of_nat (length b) < 8 + le_dec (slice 4 4 b) ->
   kvm_ipc__handle pid malloc s KVM_IPC_FORK (Z.of_nat (length b)) b = Ub) /\
  (length b = 12%nat -> flag (le_dec (slice 0 4 b)) KVM_DEBUG_CMD_TYPE_NMI = true -> 2 ^ 31 <= le_dec (slice 4 4 b) ->
   kvm_ipc__handle pid malloc s KVM_IPC_DEBUG (Z.of_nat (length b)) b = Ub).
Proof.
  intros E C B. split.
  - intros H. unfold kvm_ipc__handle. rewrite E. change (KVM_IPC_MAX_MSGS <=? KVM_IPC_FORK) with false. cbv iota.
    change (msgs _ !! KVM_IPC_FORK) with (Some handle_fork). cbv iota. cbn [run_callback]. unfold run_fork.
    unfold field at 1. destruct (Nat.leb_spec (0 + 1) (length b)); [|reflexivity].
    unfold field. destruct (Nat.leb_spec (4 + 4) (length b)); [|reflexivity].
    destruct H as [H|H]; [lia|]. set (n := le_dec (slice 4 4 b)) in *.
    rewrite (proj2 (Z.ltb_lt 0 n)) by lia. destruct (negb (malloc _)); [reflexivity|].
    destruct (Nat.leb_spec (8 + Z.to_nat n) (length b)); [lia|reflexivity].
  - intros L F V. unfold kvm_ipc__handle. rewrite E. change (KVM_IPC_MAX_MSGS <=? KVM_IPC_DEBUG) with false. cbv iota.
    change (msgs _ !! KVM_IPC_DEBUG) with (Some handle_debug). cbv iota. cbn [run_callback]. unfold run_debug.
    rewrite L. change (negb (KVM_IPC_DEBUG =? KVM_IPC_DEBUG) || negb (Z.of_nat 12 =? 12))%bool with false. cbv iota.
    rewrite !field_in by lia. rewrite F.
    pose proof (le_dec_fits (slice 4 4 b) (slice_bytes 4 4 b B)) as Hf. unfold fits in Hf. rewrite length_slice in Hf by lia.
    set (v := le_dec (slice 4 4 b)) in *. change (8 * Z.of_nat 4) with 32 in Hf.
    assert (S : s32 v = v - 2 ^ 32).
    { unfold swrap. replace (v + 2 ^ (32 - 1)) with ((v - 2 ^ 31) + 1 * 2 ^ 32) by lia.
      rewrite Z.mod_add, Z.mod_small by lia. lia. }
    rewrite S. set (s1 := if flag _ KVM_DEBUG_CMD_TYPE_SYSRQ then _ else s).
    assert (N : nrcpus s1 = nrcpus s) by (unfold s1; case_match; reflexivity). rewrite N.
    rewrite (proj2 (Z.leb_gt _ _)), (proj2 (Z.leb_le _ _)) by lia. reflexivity.
Qed.

(** ** Concrete sessions *)

Definition ipc0 : ipc := register_all (mkipc ∅ false KVM_VMSTATE_RUNNING false 2 [] []).
Definition ipc1 : ipc := set_pause_held (set_is_paused (set_vm_state ipc0 KVM_VMSTATE_PAUSED) true) true.
Definition fork_msg : Z * list Z := (KVM_IPC_FORK, [1; 0; 0; 0; 2; 0; 0; 0; 118; 109]).

Lemma ipc0_ok : consistent ipc0 /\ consistent ipc1.
Proof. split; (split; [reflexivity|reflexivity|reflexivity]). Qed.

Lemma fork_msg_ok : well_formed fork_msg.
Proof.
  split; [discriminate|]. split; [apply byte_ok_check; reflexivity|]. split; [intros _|discriminate].
  split; [apply Nat.leb_le; reflexivity|]. split; [apply Z.leb_le; reflexivity|reflexivity].
Qed.

Lemma bare_ok t : 0 <= t -> t <> KVM_IPC_FORK -> well_formed (t, []).
Proof. intros H N. split; [exact H|]. split; [constructor|]. split; [contradiction|discriminate]. Qed.

Lemma ipc_session_witness :
  exists h, send_all (stream [] 0) [(KVM_IPC_PAUSE, []); fork_msg] = ([0; 0], h) /\
    receive_loop 1 (fun _ => true) (fun n => repeat 0 n) 3 ipc0 (set_pos h 0) =
    (let! s := handle_all 1 (fun _ => true) ipc0 [(KVM_IPC_PAUSE, []); fork_msg] in Ret (s, h)).
Proof.
  apply (ipc_session 1 (fun _ => true) (fun n => repeat 0 n) ipc0 [(KVM_IPC_PAUSE, []); fork_msg]).
  - reflexivity.
  - intros n. apply repeat_length.
  - repeat constructor; discriminate.
  - reflexivity.
Defined.


Lemma fork_while_paused_witness :
  exists s1, kvm_ipc__handle 1 (fun _ => true) ipc1 KVM_IPC_FORK 10 (snd fork_msg) = Ret (0, s1) /\
    kvm_ipc__handle 1 (fun _ => true) s1 KVM_IPC_PAUSE 0 [] = Ret (0, s1).
Proof.
  destruct (fork_while_paused 1 (fun _ => true) ipc1 (snd fork_msg)) as (s1 & E & _ & _ & _ & P & _).
  - reflexivity.
  - exact (proj2 ipc0_ok).
  - reflexivity.
  - exact fork_msg_ok.
  - exists s1. split; [exact E|exact P].
Defined.

Lemma ipc_unchecked_witness : kvm_ipc__handle 1 (fun _ => true) ipc0 KVM_IPC_FORK 8 [0; 0; 0; 0; 255; 0; 0; 0] = Ub.
Proof.
  apply (ipc_unchecked 1 (fun _ => true) ipc0 [0; 0; 0; 0; 255; 0; 0; 0]).
  - reflexivity.
  - split; [discriminate|reflexivity].
  - apply byte_ok_check. reflexivity.
  - right. reflexivity.
Defined.
